(* ===== verification/_CoqProject ===== *)
-Q . S2P
Prelude.v
Outcome.v
Mem.v
State.v
Spinlock.v
LockRace.v
SleepRace.v
KString.v
Kalloc.v
Vm.v
VmSpec.v
UserMem.v
VmCopy.v
Proc.v
ProcSpec.v
Bytes.v
Virtio.v
Sleeplock.v
Calm.v
Disk.v
VirtioSpec.v
Bio.v
BioSpec.v
BioView.v
BioCheck.v
Uart.v
Printf.v
PrintfSpec.v
Console.v
ConsoleSpec.v
Log.v
LogSpec.v
LogCrash.v
LogWrite.v
Fs.v
FsData.v
FsSpec.v
FsTrans.v
FsOpen.v
Itable.v
FsAlloc.v
FsWrite.v
FsGrow.v
FsExtend.v
FsTrunc.v
FsDir.v
Paths.v
FsName.v
Pipe.v
PipeSpec.v
File.v
ProcLife.v
Exec.v
Syscall.v
Sysfile.v
Trap.v
SyscallSpec.v
Typing.v
KernelTyping.v
UserSys.v
Ulib.v
Uprintf.v
UserWorld.v
UprintfSpec.v
Grep.v
Grind.v
UserProgs.v
UserProgsSpec.v
Usertests.v
UsertestsSpec.v
Umalloc.v
UmallocSpec.v
Sh.v
ShParse.v
ShRun.v
Mkfs.v
MkfsFile.v
MkfsSpec.v
Asm.v
AsmSpec.v
