(* ===== verification/Prelude.v ===== *)
(** A verification of xv6-riscv: the kernel (src/kernel), its user library and
    programs (src/user) and the program that makes the disk image (src/mkfs).

    * The system and its parts

    The kernel runs on several harts.  Boot code and assembly (entry.S, start.c,
    swtch.S, trampoline.S, kernelvec.S) lead into C code that manages physical pages
    (kalloc.c), page tables and user memory (vm.c), processes (proc.c), and, bottom
    up, a disk driver (virtio_disk.c), a cache of disk blocks (bio.c), a redo log that
    makes a group of block writes atomic (log.c), inodes, files, directories and paths
    (fs.c), open files and pipes (file.c, pipe.c).  System calls (syscall.c,
    sysproc.c, sysfile.c, exec.c) are dispatched from traps (trap.c); the console
    (console.c, uart.c, printf.c) is both a device file and where the kernel's messages
    go.  User programs reach all this only through system calls.  mkfs writes the
    image that the kernel's file system later reads.

    * How code is modelled

    C integers are [Z] with the wrap-around written out ([u8] .. [u64], [i32] below).
    Kernel code is written in a state monad ([Outcome.v]): a computation on the kernel
    state [State.kernel] returns, stops (a panic, a wait for a lock that is never
    released, behaviour C leaves undefined) or yields the processor and is resumed in
    whatever state it finds then.  Memory is a map from addresses to bytes
    ([Mem.v]); pages from kalloc, page tables, trap frames, pipes and user memory are
    bytes there.  Static tables are lists in the state, pointers into them indices.
    User programs are trees of system calls ([UserSys.v]) that a world answers.  Each C
    function is a definition of the same name; a loop body that needs a name of its own
    is that name with [_body], [_step], [_one] or the like.

    Loops over tables are recursion over the list of indices, and other bounded loops get a
    bound computed from their arguments (the pages a copy can touch, the rounds of
    writei), which their theorems show to be enough.  The class [Fuel] bounds the rest:
    waits for a lock, a buffer, a wakeup or the device; strlen; the depth of freewalk;
    the loops of user programs that read to the end of a file.  A theorem about a
    routine that can wait assumes the state in which it need not ([Calm.calm]) and
    fuel of at least 1; theorems about reading loops assume fuel above the length of what
    there is to read.  They conclude that the code returns, not only what it returns
    if it does.

    * Files of the library

    Prelude (this file): integers, lists, automation.  Outcome, Mem, State: the monad, memory,
    the kernel's data (proc.h, file.h, buf.h, fs.h, param.h, memlayout.h, riscv.h).
    - Spinlock (spinlock.c on one hart), LockRace (its accesses interleaved over any
      number of harts), Sleeplock (sleeplock.c), Calm (the locks of uncontended code).
    - KString (string.c), Kalloc (kalloc.c), Vm (vm.c), VmSpec (page tables as maps from
      pages to entries), UserMem (copyin, copyout, copyinstr), VmCopy (a concrete
      address space; uvmcopy, the memory of a forked child).
    - Proc and ProcLife (proc.c below and above the file system), ProcSpec.
    - Virtio (virtio_disk.c), VirtioSpec (a request against the laws of the device);
      Disk, the class of what the cache needs of a disk, which the
      cache is proved against; Bio (bio.c), BioSpec, BioView, BioCheck: the cache as a map of
      blocks; Log (log.c), LogSpec, LogCrash, LogWrite; Bytes, integers inside blocks.
    - Fs and FsData (fs.c); FsSpec (bmap, readi), FsTrans and FsOpen (the disk as a
      transaction sees it, with blocks open), Itable (inodes on disk, iget),
      FsAlloc (balloc, bfree), FsWrite, FsGrow and FsExtend (writei), FsTrunc (itrunc),
      FsDir (directories), Paths and FsName (paths, namex and the inode table).
    - Uart, Console, ConsoleSpec (the line editor and reading from it), Printf, PrintfSpec;
      Pipe, PipeSpec; File (file.c, pipealloc); Exec; Syscall, Sysfile, Trap (the calls,
      their dispatch, traps, plic.c, main.c), SyscallSpec (calls that are rejected).
    - Typing, KernelTyping: a type discipline for the whole kernel (sizes of tables and
      buffers, indices in range) with a rule for each construct and a lemma per function.
    - Asm, AsmSpec: the assembly files and start.c on a small machine.
    - UserSys, UserWorld (what a program may rely on), Ulib (ulib.c), Uprintf and UprintfSpec
      (printf.c), Umalloc and UmallocSpec (umalloc.c), Grep, UserProgs and UserProgsSpec (the
      other small programs), Grind (grind.c), Sh, ShParse, ShRun (sh.c).
    - Usertests (usertests.c: its tests and its runner); UnixWorld, an executable
      specification of the file system calls; UsertestsSpec, the runner's report and the
      tests run in that specification.
    - Mkfs, MkfsFile, MkfsSpec (mkfs.c).

    * What the theorems show

    - Durability: a crash at any point of a commit leaves all of a transaction or
      nothing of it (commit_crash_atomic); log_write lists each block once and pins it;
      the cache is a coherent map of blocks (bread_returns_block); a disk request moves
      one block and gives its descriptors back (virtio_request).
    - Files: writei writes and readi reads back, growing the file by free blocks only
      (writei_extends); itrunc frees exactly the file's blocks (itrunc_frees);
      the free map is a set (balloc_then_bfree); a directory is a map from names to
      inodes (dirlookup_finds, dirlink_adds); namex is the walk through these maps and
      leaks no reference (namex_resolves); the image mkfs makes has the files it was
      given, read by the kernel's own bmap and readi.
    - The kernel as a whole: from boot on and under any interleaving of its threads no
      table is indexed outside its bounds and no block buffer is overrun
      (kernel_well_typed); a call with bad arguments returns -1 and changes nothing
      (syscall_rejects).
    - Memory: kalloc hands a page out once; page tables are maps; copies between user
      and kernel memory equal byte-wise ones, their failures included; a forked child
      gets a copy of its own (uvmcopy_copies).
    - Processes, locks and devices: mutual exclusion under any interleaving, no lost
      wakeup, no process passed over by the scheduler (scheduler_round_fair), registers kept over switches and traps, pipes as queues, the console's
      line editing.
    - Programs: the shell's parser against its grammar, from a line to the connected
      processes; grep's matcher against the language of its patterns; malloc never hands
      out memory in use; init never ends; usertests exits with 0 exactly when all tests
      pass and no page is lost, and its file system tests hold of the specification.
    Theorems whose name ends in _witness apply one of these to a concrete state.

    * What is not modelled

    Weak memory: accesses are sequentially consistent.  The devices (virtio disk, uart,
    plic, clint) are not in the sources: what drivers read from them is data of the state,
    and the cache is proved against the class [Disk.DiskLaws] with a synchronous disk as
    its instance.  Linker addresses are parameters.  Preemption by the timer inside kernel
    code is modelled at the yields only.  defs.h and types.h hold prototypes and names of
    types; ramdisk.c is not built and refers to fields that no longer exist.  Of usertests.c
    the tests whose point is a wild address, the stack or the text segment are left out,
    because a user program of the model has arrays and no address space.  The Makefile,
    linker, shell and grading scripts are not program code. *)

From stdpp Require Export base gmap sets list list_numbers strings fin_maps.
From Stdlib Require Export ZArith Lia.

(** ** Scopes *)

Declare Scope kernel_scope.
Delimit Scope kernel_scope with kernel.
#[export] Set Default Goal Selector "!".
Open Scope Z_scope.

(** ** Machine integers

    A w-bit unsigned integer is a [Z] in [0, 2^w), a signed one a [Z] in
    [-2^(w-1), 2^(w-1)).  The conversions write out the wrap-around. *)

Definition u8 (x : Z) : Z := x mod 2 ^ 8.
Definition u16 (x : Z) : Z := x mod 2 ^ 16.
Definition u32 (x : Z) : Z := x mod 2 ^ 32.
Definition u64 (x : Z) : Z := x mod 2 ^ 64.
Definition i16 (x : Z) : Z := (x + 2 ^ 15) mod 2 ^ 16 - 2 ^ 15.
Definition i32 (x : Z) : Z := (x + 2 ^ 31) mod 2 ^ 32 - 2 ^ 31.

(** C truth values: 0 is false, anything else is true. *)
Definition truthy (x : Z) : bool := negb (x =? 0).
Definition of_bool (b : bool) : Z := if b then 1 else 0.

Create HintDb cint.
Create HintDb mem.

Lemma u8_range x : 0 <= u8 x < 2 ^ 8.
Proof. apply Z.mod_pos_bound. lia. Qed.
Lemma u16_range x : 0 <= u16 x < 2 ^ 16.
Proof. apply Z.mod_pos_bound. lia. Qed.
Lemma u32_range x : 0 <= u32 x < 2 ^ 32.
Proof. apply Z.mod_pos_bound. lia. Qed.
Lemma u64_range x : 0 <= u64 x < 2 ^ 64.
Proof. apply Z.mod_pos_bound. lia. Qed.
Lemma i16_range x : - 2 ^ 15 <= i16 x < 2 ^ 15.
Proof. unfold i16. pose proof (Z.mod_pos_bound (x + 2 ^ 15) (2 ^ 16)). lia. Qed.
Lemma i32_range x : - 2 ^ 31 <= i32 x < 2 ^ 31.
Proof. unfold i32. pose proof (Z.mod_pos_bound (x + 2 ^ 31) (2 ^ 32)). lia. Qed.

Lemma u8_small x : 0 <= x < 2 ^ 8 -> u8 x = x.
Proof. apply Z.mod_small. Qed.
Lemma u16_small x : 0 <= x < 2 ^ 16 -> u16 x = x.
Proof. apply Z.mod_small. Qed.
Lemma u32_small x : 0 <= x < 2 ^ 32 -> u32 x = x.
Proof. apply Z.mod_small. Qed.
Lemma u64_small x : 0 <= x < 2 ^ 64 -> u64 x = x.
Proof. apply Z.mod_small. Qed.
Lemma i16_small x : - 2 ^ 15 <= x < 2 ^ 15 -> i16 x = x.
Proof. unfold i16. intros. rewrite Z.mod_small; lia. Qed.
Lemma i32_small x : - 2 ^ 31 <= x < 2 ^ 31 -> i32 x = x.
Proof. unfold i32. intros. rewrite Z.mod_small; lia. Qed.

Lemma u32_i32 x : u32 (i32 x) = u32 x.
Proof.
  unfold u32, i32. rewrite Zminus_mod_idemp_l. f_equal. lia.
Qed.

#[export] Hint Resolve u8_range u16_range u32_range u64_range i16_range i32_range : cint.
#[export] Hint Rewrite u8_small u16_small u32_small u64_small i16_small i32_small
  using lia : cint.

Lemma truthy_true x : truthy x = true <-> x <> 0.
Proof. unfold truthy. destruct (Z.eqb_spec x 0); naive_solver. Qed.
Lemma truthy_false x : truthy x = false <-> x = 0.
Proof. unfold truthy. destruct (Z.eqb_spec x 0); naive_solver. Qed.
Lemma truthy_of_bool b : truthy (of_bool b) = b.
Proof. by destruct b. Qed.

(** ** Automation shared by the components *)

(** Turn boolean comparisons into the propositions they decide. *)
Ltac zbool :=
  repeat match goal with
  | H : context [?a =? ?b] |- _ => destruct (Z.eqb_spec a b)
  | H : context [?a <? ?b] |- _ => destruct (Z.ltb_spec a b)
  | H : context [?a <=? ?b] |- _ => destruct (Z.leb_spec a b)
  | |- context [?a =? ?b] => destruct (Z.eqb_spec a b)
  | |- context [?a <? ?b] => destruct (Z.ltb_spec a b)
  | |- context [?a <=? ?b] => destruct (Z.leb_spec a b)
  end.

(** [inv H]: invert, substitute and drop the hypothesis. *)
Tactic Notation "inv" hyp(H) := inversion H; subst; clear H.

(** ** Lists *)

(** [list_find]-free first index search used by the table scans of the kernel. *)
Fixpoint find_index {A} (f : A -> bool) (l : list A) : option nat :=
  match l with
  | [] => None
  | x :: l' => if f x then Some 0%nat else S <$> find_index f l'
  end.

Lemma find_index_Some {A} (f : A -> bool) l i :
  find_index f l = Some i <->
  (exists x, l !! i = Some x /\ f x = true) /\
  (forall j x, (j < i)%nat -> l !! j = Some x -> f x = false).
Proof.
  revert i. induction l as [|y l IH]; intros i; simpl.
  { split; [done|]. intros [(x & Hx & _) _]. by rewrite lookup_nil in Hx. }
  destruct (f y) eqn:Hy.
  - split.
    + intros [= <-]. split; [by exists y|]. intros; lia.
    + intros [_ Hlt]. destruct i as [|i]; [done|].
      pose proof (Hlt 0%nat y ltac:(lia) eq_refl). congruence.
  - rewrite fmap_Some. split.
    + intros (k & (Hex & Hlt)%IH & ->). split; [done|].
      intros [|j] x Hj Hx; simplify_eq/=; [done|]. apply (Hlt j); [lia|done].
    + intros [(x & Hx & Hfx) Hlt]. destruct i as [|i]; simplify_eq/=; [congruence|].
      exists i. split; [|done]. apply IH. split; [by exists x|].
      intros j z Hj Hz. apply (Hlt (S j)); [lia|done].
Qed.

Lemma find_index_None {A} (f : A -> bool) l :
  find_index f l = None <-> (forall j x, l !! j = Some x -> f x = false).
Proof.
  induction l as [|y l IH]; simpl.
  { split; [|done]. intros _ j x Hx. by rewrite lookup_nil in Hx. }
  destruct (f y) eqn:Hy.
  - split; [done|]. intros H. specialize (H 0%nat y eq_refl). congruence.
  - rewrite fmap_None, IH. split.
    + intros H [|j] x Hx; simplify_eq/=; [done|by eapply H].
    + intros H j x Hx. by apply (H (S j)).
Qed.

Lemma lookup_total_Z_insert_ne {A} `{Inhabited A} (l : list A) i j x :
  i <> j -> <[i:=x]> l !!! j = l !!! j.
Proof. intros. by rewrite list_lookup_total_insert_ne. Qed.

Lemma alter_as_insert {A} (f : A -> A) (l : list A) i x :
  l !! i = Some x -> alter f i l = <[i := f x]> l.
Proof.
  intros Hx. apply list_eq. intros j. destruct (decide (j = i)) as [->|].
  - rewrite list_lookup_alter_eq, Hx, list_lookup_insert_eq; [done|]. by apply lookup_lt_Some in Hx.
  - by rewrite list_lookup_alter_ne, list_lookup_insert_ne.
Qed.
