(* ===== verification/Outcome.v ===== *)
(** How kernel code runs: a state monad whose computations may stop for good
    (panic, spin on a lock that is never released, run out of loop fuel, do
    something C leaves undefined) or
    give up the processor and be resumed later.

    [Yield s k] is the point where [sched] switches to the scheduler: the
    shared state is [s], other code runs, and when this kernel thread is
    scheduled again in some state [s'] it continues as [k s'].  Everything
    between two [Yield]s is one uninterrupted step of the thread. *)

From S2P Require Import Prelude.

Inductive stop : Type :=
| Panicked (msg : string)
| Spinning
| OutOfFuel
| Undefined (why : string).

Inductive outcome (S A : Type) : Type :=
| Ret (a : A) (s : S)
| Stop (h : stop)
| Yield (s : S) (k : S -> outcome S A).
Arguments Ret {S A} a s.
Arguments Stop {S A} h.
Arguments Yield {S A} s k.

Definition M (S A : Type) : Type := S -> outcome S A.

(** The bound on the iterations of loops that are not structurally bounded. *)
Class Fuel := fuel : nat.

Section monad.
Context {S : Type}.

Definition ret {A} (a : A) : M S A := fun s => Ret a s.

Fixpoint obind {A B} (o : outcome S A) (k : A -> M S B) : outcome S B :=
  match o with
  | Ret a s => k a s
  | Stop h => Stop h
  | Yield s c => Yield s (fun s' => obind (c s') k)
  end.

Definition bind {A B} (c : M S A) (k : A -> M S B) : M S B := fun s => obind (c s) k.

Definition gets {A} (f : S -> A) : M S A := fun s => Ret (f s) s.
Definition modify (f : S -> S) : M S unit := fun s => Ret tt (f s).
Definition halt {A} (h : stop) : M S A := fun _ => Stop h.
Definition panic {A} (msg : string) : M S A := halt (Panicked msg).

(** Leave the processor; continue when scheduled again. *)
Definition swtch : M S unit := fun s => Yield s (fun s' => Ret tt s').

Definition when (b : bool) (c : M S unit) : M S unit := if b then c else ret tt.

(** [for_each l body]: run the body on every element, in order. *)
Fixpoint for_each {A} (l : list A) (body : A -> M S unit) : M S unit :=
  match l with
  | [] => ret tt
  | x :: l' => bind (body x) (fun _ => for_each l' body)
  end.

(** A table scan that may return early: the first [Some] ends it. *)
Fixpoint scan {A R} (l : list A) (body : A -> M S (option R)) : M S (option R) :=
  match l with
  | [] => ret None
  | x :: l' =>
      bind (body x) (fun r => match r with Some v => ret (Some v) | None => scan l' body end)
  end.

(** A general loop: [inl] goes round again, [inr] leaves the loop. *)
Fixpoint iter {I R} (n : nat) (body : I -> M S (I + R)) (i : I) : M S R :=
  match n with
  | O => halt OutOfFuel
  | Datatypes.S n' =>
      bind (body i) (fun r => match r with inl i' => iter n' body i' | inr v => ret v end)
  end.
End monad.

Declare Scope mon_scope.
Delimit Scope mon_scope with mon.
Notation "x <- c ;; k" := (bind c (fun x => k))
  (at level 100, c at next level, right associativity) : mon_scope.
Notation "' pat <- c ;; k" := (bind c (fun x => match x with pat => k end))
  (at level 100, pat pattern, c at next level, right associativity) : mon_scope.
Notation "c ;; k" := (bind c (fun _ => k))
  (at level 100, right associativity) : mon_scope.
Open Scope mon_scope.

(** ** Total correctness of a run that does not leave the processor *)

Definition returns {S A} (o : outcome S A) (Q : A -> S -> Prop) : Prop :=
  match o with Ret a s => Q a s | _ => False end.

Section returns.
Context {S : Type}.

Lemma returns_Ret {A} (a : A) (s : S) (Q : A -> S -> Prop) : Q a s -> returns (Ret a s) Q.
Proof. done. Qed.

Lemma returns_inv {A} (o : outcome S A) Q :
  returns o Q -> exists a s, o = Ret a s /\ Q a s.
Proof. destruct o; simpl; naive_solver. Qed.

Lemma returns_mono {A} (o : outcome S A) (Q Q' : A -> S -> Prop) :
  returns o Q -> (forall a s, Q a s -> Q' a s) -> returns o Q'.
Proof. destruct o; simpl; auto. Qed.

Lemma returns_bind {A B} (c : M S A) (k : A -> M S B) s Q :
  returns (c s) (fun a s' => returns (k a s') Q) -> returns (bind c k s) Q.
Proof. unfold bind. by destruct (c s). Qed.

Lemma returns_bind_mono {A B} (c : M S A) (k : A -> M S B) s P Q :
  returns (c s) P -> (forall a s', P a s' -> returns (k a s') Q) ->
  returns (bind c k s) Q.
Proof. intros Hc Hk. apply returns_bind. by eapply returns_mono. Qed.

Lemma bind_Ret {A B} (c : M S A) (k : A -> M S B) s a s' :
  c s = Ret a s' -> bind c k s = k a s'.
Proof. unfold bind. by intros ->. Qed.

Lemma bind_bind_Ret {A B C} (c : M S A) (k1 : A -> M S B) (k2 : B -> M S C) s a s' :
  c s = Ret a s' -> bind (bind c k1) k2 s = bind (k1 a) k2 s'.
Proof. intros E. unfold bind. by rewrite E. Qed.

Lemma iter_next {I R} n (body : I -> M S (I + R)) i i' s s' :
  body i s = Ret (inl i') s' -> iter (Datatypes.S n) body i s = iter n body i' s'.
Proof. intros H. cbn [iter]. by rewrite (bind_Ret _ _ _ _ _ H). Qed.

Lemma iter_exit {I R} n (body : I -> M S (I + R)) i v s s' :
  body i s = Ret (inr v) s' -> iter (Datatypes.S n) body i s = Ret v s'.
Proof. intros H. cbn [iter]. by rewrite (bind_Ret _ _ _ _ _ H). Qed.

Lemma bind_Stop {A B} (c : M S A) (k : A -> M S B) s h :
  c s = Stop h -> bind c k s = Stop h.
Proof. unfold bind. by intros ->. Qed.

(** Loop rules: an invariant over the elements still to visit. *)
Lemma returns_for_each {A} (I : list A -> S -> Prop) (l : list A) body s :
  I l s ->
  (forall x l' s, I (x :: l') s -> returns (body x s) (fun _ s' => I l' s')) ->
  returns (for_each l body s) (fun _ s' => I [] s').
Proof.
  intros H0 Hstep. revert s H0. induction l as [|x l IH]; intros s H0; [done|].
  simpl. apply returns_bind. eapply returns_mono; [by apply Hstep|]. auto.
Qed.

Lemma returns_scan {A R} (I : list A -> S -> Prop) (Q : option R -> S -> Prop)
    (l : list A) body s :
  I l s ->
  (forall x l' s, I (x :: l') s ->
     returns (body x s) (fun r s' =>
       match r with Some v => Q (Some v) s' | None => I l' s' end)) ->
  (forall s, I [] s -> Q None s) ->
  returns (scan l body s) Q.
Proof.
  intros H0 Hstep Hend. revert s H0. induction l as [|x l IH]; intros s H0; simpl; [by apply Hend|].
  apply returns_bind. eapply returns_mono; [by apply Hstep|].
  intros [v|] s' H; [done|]. by apply IH.
Qed.

(** A loop whose measure decreases leaves within the fuel. *)
Lemma returns_iter {I R} (J : nat -> I -> S -> Prop) (Q : R -> S -> Prop) (body : I -> M S (I + R)) :
  (forall n i s, J n i s ->
     returns (body i s) (fun r s' =>
       match r with
       | inl i' => exists n', (n' < n)%nat /\ J n' i' s'
       | inr v => Q v s'
       end)) ->
  forall f n i s, J n i s -> (n < f)%nat -> returns (iter f body i s) Q.
Proof.
  intros Hstep f. induction f as [|f IH]; intros n i s HJ Hn; [lia|].
  simpl. apply returns_bind. eapply returns_mono; [by eapply Hstep|].
  intros [i'|v] s' H; [|done]. destruct H as (n' & Hlt & HJ'). apply (IH n'); [done|lia].
Qed.
End returns.

(** ** Runs that may leave the processor

    [rg G R o Q]: no step of the run panics or spins; whenever the thread
    leaves the processor the shared state satisfies [G]; and if every
    resumption is by a state [R]-related to the one it left, a run that
    returns satisfies [Q].  Running out of loop fuel while waiting for a
    condition another thread must establish is not an error. *)

Section rely.
Context {S : Type} (G : S -> Prop) (R : S -> S -> Prop).

Fixpoint rg {A} (o : outcome S A) (Q : A -> S -> Prop) : Prop :=
  match o with
  | Ret a s => Q a s
  | Stop h => h = OutOfFuel
  | Yield s k => G s /\ forall s', R s s' -> rg (k s') Q
  end.

Lemma rg_mono {A} (o : outcome S A) (Q Q' : A -> S -> Prop) :
  rg o Q -> (forall a s, Q a s -> Q' a s) -> rg o Q'.
Proof.
  induction o as [a s|h|s k IH]; simpl; auto.
  intros [HG Hk] HQ. split; [done|]. intros s' HR. apply (IH s'); auto.
Qed.

Lemma rg_obind {A B} (o : outcome S A) (k : A -> M S B) Q :
  rg o (fun a s' => rg (k a s') Q) -> rg (obind o k) Q.
Proof.
  induction o as [a s|h|s c IH]; simpl; auto.
  intros [HG Hk]. split; [done|]. intros s' HR. apply IH. auto.
Qed.

Lemma rg_bind {A B} (c : M S A) (k : A -> M S B) s Q :
  rg (c s) (fun a s' => rg (k a s') Q) -> rg (bind c k s) Q.
Proof. apply rg_obind. Qed.

Lemma rg_returns {A} (o : outcome S A) Q : returns o Q -> rg o Q.
Proof. by destruct o. Qed.

Lemma rg_iter {I T} (J : I -> S -> Prop) (Q : T -> S -> Prop) (body : I -> M S (I + T)) :
  (forall i s, J i s ->
     rg (body i s) (fun r s' => match r with inl i' => J i' s' | inr v => Q v s' end)) ->
  forall f i s, J i s -> rg (iter f body i s) Q.
Proof.
  intros Hstep f. induction f as [|f IH]; intros i s HJ; [done|].
  simpl. apply rg_bind. eapply rg_mono; [by apply Hstep|].
  intros [i'|v] s' H; [by apply IH|done].
Qed.
End rely.

(** Resume a run with the states other threads leave behind, one per [Yield]. *)
Fixpoint resume {S A} (env : list (S -> S)) (o : outcome S A) : outcome S A :=
  match env, o with
  | f :: env', Yield s k => resume env' (k (f s))
  | _, _ => o
  end.
