(* ===== verification/Mem.v ===== *)
(** Byte-addressed memory, little-endian loads and stores, and the paging
    macros of kernel/riscv.h and kernel/memlayout.h.

    The kernel maps RAM directly, so an address below is a kernel virtual
    address.  A memory is a finite map from addresses to cells; a cell that
    was never written reads as 0.  Loads take the low eight bits of a cell and
    stores keep eight bits, so every load is a byte whatever the map holds. *)

From S2P Require Import Prelude.

Notation memory := (gmap Z Z) (only parsing).

Definition load8 (m : memory) (a : Z) : Z := u8 (default 0 (m !! a)).
Definition store8 (m : memory) (a v : Z) : memory := <[a := u8 v]> m.

Fixpoint load_le (m : memory) (a : Z) (n : nat) : Z :=
  match n with
  | O => 0
  | S n' => load8 m a + 2 ^ 8 * load_le m (a + 1) n'
  end.

Fixpoint store_le (m : memory) (a : Z) (n : nat) (v : Z) : memory :=
  match n with
  | O => m
  | S n' => store_le (store8 m a v) (a + 1) n' (v / 2 ^ 8)
  end.

Definition load16 m a := load_le m a 2.
Definition load32 m a := load_le m a 4.
Definition load64 m a := load_le m a 8.
Definition store16 m a v := store_le m a 2 v.
Definition store32 m a v := store_le m a 4 v.
Definition store64 m a v := store_le m a 8 v.

Fixpoint load_bytes (m : memory) (a : Z) (n : nat) : list Z :=
  match n with
  | O => []
  | S n' => load8 m a :: load_bytes m (a + 1) n'
  end.

Fixpoint store_bytes (m : memory) (a : Z) (l : list Z) : memory :=
  match l with
  | [] => m
  | x :: l' => store_bytes (store8 m a x) (a + 1) l'
  end.

#[global] Arguments load8 : simpl never.
#[global] Arguments store8 : simpl never.
#[global] Arguments load16 : simpl never.
#[global] Arguments load32 : simpl never.
#[global] Arguments load64 : simpl never.
#[global] Arguments store16 : simpl never.
#[global] Arguments store32 : simpl never.
#[global] Arguments store64 : simpl never.

(** ** Loads and stores *)

Lemma load8_range m a : 0 <= load8 m a < 2 ^ 8.
Proof. apply u8_range. Qed.

Lemma load8_store8 m a v b :
  load8 (store8 m a v) b = if decide (a = b) then u8 v else load8 m b.
Proof.
  unfold load8, store8. rewrite lookup_insert. case_decide; simpl; [|done].
  unfold u8. by rewrite Z.mod_mod.
Qed.

Lemma load8_store8_eq m a v : load8 (store8 m a v) a = u8 v.
Proof. rewrite load8_store8. by rewrite decide_True. Qed.

Lemma load8_store8_ne m a v b : a <> b -> load8 (store8 m a v) b = load8 m b.
Proof. intros. rewrite load8_store8. by rewrite decide_False. Qed.

Lemma load_le_range m a n : 0 <= load_le m a n < 2 ^ (8 * Z.of_nat n).
Proof.
  revert a. induction n as [|n IH]; intros a; [done|]. cbn [load_le].
  specialize (IH (a + 1)). pose proof (load8_range m a).
  replace (8 * Z.of_nat (S n)) with (8 + 8 * Z.of_nat n) by lia.
  rewrite Z.pow_add_r by lia. nia.
Qed.

Lemma load_le_ext m m' a n :
  (forall b, a <= b < a + Z.of_nat n -> load8 m b = load8 m' b) ->
  load_le m a n = load_le m' a n.
Proof.
  revert a. induction n as [|n IH]; intros a H; [done|]. cbn [load_le].
  rewrite (H a) by lia. rewrite (IH (a + 1)); [done|]. intros b Hb. apply H. lia.
Qed.

Lemma load_bytes_ext m m' a n :
  (forall b, a <= b < a + Z.of_nat n -> load8 m b = load8 m' b) ->
  load_bytes m a n = load_bytes m' a n.
Proof.
  revert a. induction n as [|n IH]; intros a H; [done|]. cbn [load_bytes].
  rewrite (H a) by lia. f_equal. apply IH. intros b Hb. apply H. lia.
Qed.

Lemma load8_store_le_out m a n v b :
  b < a \/ a + Z.of_nat n <= b -> load8 (store_le m a n v) b = load8 m b.
Proof.
  revert m a v. induction n as [|n IH]; intros m a v H; [done|]. cbn [store_le].
  rewrite IH by lia. apply load8_store8_ne. lia.
Qed.

Lemma load8_store_bytes m a l b :
  load8 (store_bytes m a l) b =
  if decide (a <= b < a + Z.of_nat (length l))
  then u8 (default 0 (l !! Z.to_nat (b - a))) else load8 m b.
Proof.
  revert m a. induction l as [|x l IH]; intros m a.
  { rewrite decide_False; [done|]. simpl. lia. }
  cbn [store_bytes length]. rewrite IH.
  destruct (decide (a = b)) as [->|Hne].
  - rewrite decide_False by lia. rewrite decide_True by lia.
    rewrite Z.sub_diag. simpl. by rewrite load8_store8_eq.
  - case_decide; case_decide; try lia; [|by apply load8_store8_ne].
    replace (Z.to_nat (b - a)) with (S (Z.to_nat (b - (a + 1)))) by lia. done.
Qed.

Lemma load8_store_bytes_out m a l b :
  b < a \/ a + Z.of_nat (length l) <= b -> load8 (store_bytes m a l) b = load8 m b.
Proof. intros. rewrite load8_store_bytes. rewrite decide_False; [done|lia]. Qed.

Lemma load_store_le m a n v : load_le (store_le m a n v) a n = v mod 2 ^ (8 * Z.of_nat n).
Proof.
  revert m a v. induction n as [|n IH]; intros m a v.
  { cbn. by rewrite Z.mod_1_r. }
  cbn [load_le store_le]. rewrite IH, load8_store_le_out by lia.
  rewrite load8_store8_eq. unfold u8.
  replace (8 * Z.of_nat (S n)) with (8 + 8 * Z.of_nat n) by lia.
  rewrite Z.pow_add_r by lia. rewrite Z.rem_mul_r by lia. done.
Qed.

Lemma load_store_le_out m a n v b k :
  b + Z.of_nat k <= a \/ a + Z.of_nat n <= b ->
  load_le (store_le m a n v) b k = load_le m b k.
Proof. intros. apply load_le_ext. intros c Hc. apply load8_store_le_out. lia. Qed.

Lemma load_le_store8_out m a v b k :
  a < b \/ b + Z.of_nat k <= a -> load_le (store8 m a v) b k = load_le m b k.
Proof. intros. apply load_le_ext. intros c Hc. apply load8_store8_ne. lia. Qed.

Lemma load_le_store_bytes_out m a l b k :
  b + Z.of_nat k <= a \/ a + Z.of_nat (length l) <= b ->
  load_le (store_bytes m a l) b k = load_le m b k.
Proof. intros. apply load_le_ext. intros c Hc. apply load8_store_bytes_out. lia. Qed.

Lemma length_load_bytes m a n : length (load_bytes m a n) = n.
Proof. revert a. induction n; intros; simpl; auto. Qed.

Lemma load_bytes_lookup m a n (i : nat) :
  (i < n)%nat -> load_bytes m a n !! i = Some (load8 m (a + Z.of_nat i)).
Proof.
  revert a i. induction n as [|n IH]; intros a i Hi; [lia|].
  destruct i as [|i]; simpl; [by rewrite Z.add_0_r|].
  rewrite IH by lia. do 2 f_equal. lia.
Qed.

Lemma load_bytes_range m a n : Forall (fun x => 0 <= x < 2 ^ 8) (load_bytes m a n).
Proof. revert a. induction n; intros a; constructor; eauto using load8_range. Qed.

Lemma load_bytes_app m a n k :
  load_bytes m a (n + k) = load_bytes m a n ++ load_bytes m (a + Z.of_nat n) k.
Proof.
  revert a. induction n as [|n IH]; intros a; cbn [load_bytes Nat.add app].
  { f_equal. lia. }
  rewrite IH. do 3 f_equal. lia.
Qed.

Lemma store_bytes_app m a l1 l2 :
  store_bytes m a (l1 ++ l2) = store_bytes (store_bytes m a l1) (a + Z.of_nat (length l1)) l2.
Proof.
  revert m a. induction l1 as [|x l1 IH]; intros m a; cbn [store_bytes app length].
  { by rewrite Z.add_0_r. }
  rewrite IH. f_equal. lia.
Qed.

Lemma load_bytes_store_bytes m a l :
  Forall (fun x => 0 <= x < 2 ^ 8) l -> load_bytes (store_bytes m a l) a (length l) = l.
Proof.
  intros Hl. apply list_eq. intros i.
  destruct (decide (i < length l)%nat) as [Hi|Hi].
  - rewrite load_bytes_lookup by done. rewrite load8_store_bytes, decide_True by lia.
    replace (Z.to_nat (a + Z.of_nat i - a)) with i by lia.
    destruct (lookup_lt_is_Some_2 l i Hi) as [x Hx]. rewrite Hx. simpl.
    f_equal. apply u8_small. by eapply (Forall_lookup_1 _ _ _ _ Hl).
  - rewrite !lookup_ge_None_2; [done|lia|rewrite length_load_bytes; lia].
Qed.

Lemma load_bytes_store_bytes_out m a l b k :
  b + Z.of_nat k <= a \/ a + Z.of_nat (length l) <= b ->
  load_bytes (store_bytes m a l) b k = load_bytes m b k.
Proof. intros. apply load_bytes_ext. intros c Hc. apply load8_store_bytes_out. lia. Qed.

Lemma load_bytes_store_le_out m a n v b k :
  b + Z.of_nat k <= a \/ a + Z.of_nat n <= b ->
  load_bytes (store_le m a n v) b k = load_bytes m b k.
Proof. intros. apply load_bytes_ext. intros c Hc. apply load8_store_le_out. lia. Qed.

Lemma load_le_zero m a n :
  (forall b, a <= b < a + Z.of_nat n -> load8 m b = 0) -> load_le m a n = 0.
Proof.
  revert a. induction n as [|n IH]; intros a H; [done|]. cbn [load_le].
  rewrite (H a) by lia. rewrite IH; [done|]. intros b Hb. apply H. lia.
Qed.

(** Two aligned words are equal or disjoint. *)
Lemma load64_store64 m a v b :
  a mod 8 = 0 -> b mod 8 = 0 ->
  load64 (store64 m a v) b = if decide (a = b) then u64 v else load64 m b.
Proof.
  intros Ha Hb. unfold load64, store64. case_decide as Hab.
  - subst. by rewrite load_store_le.
  - apply load_store_le_out. pose proof (Z.div_mod a 8). pose proof (Z.div_mod b 8). lia.
Qed.

Lemma load64_range m a : 0 <= load64 m a < 2 ^ 64.
Proof. apply (load_le_range m a 8). Qed.
Lemma load32_range m a : 0 <= load32 m a < 2 ^ 32.
Proof. apply (load_le_range m a 4). Qed.
Lemma load16_range m a : 0 <= load16 m a < 2 ^ 16.
Proof. apply (load_le_range m a 2). Qed.
#[export] Hint Resolve load8_range load16_range load32_range load64_range : mem.

Lemma load64_store64_eq m a v : load64 (store64 m a v) a = u64 v.
Proof. apply load_store_le. Qed.
Lemma load32_store32_eq m a v : load32 (store32 m a v) a = u32 v.
Proof. apply load_store_le. Qed.
Lemma load16_store16_eq m a v : load16 (store16 m a v) a = u16 v.
Proof. apply load_store_le. Qed.

(** Solve a load past a disjoint store; the side condition is linear. *)
Ltac mem_frame :=
  unfold load16, load32, load64, store16, store32, store64 in *;
  repeat first
    [ rewrite load_store_le_out by lia | rewrite load_le_store8_out by lia
    | rewrite load_le_store_bytes_out by (rewrite ?length_replicate; lia)
    | rewrite load8_store_le_out by lia | rewrite load8_store8_ne by lia
    | rewrite load8_store_bytes_out by (rewrite ?length_replicate; lia) ].

(** ** kernel/riscv.h, kernel/memlayout.h *)

Definition PGSIZE : Z := 4096.
Definition PGSHIFT : Z := 12.
Definition PGROUNDUP (sz : Z) : Z := Z.land (u64 (sz + PGSIZE - 1)) (Z.lnot (PGSIZE - 1)).
Definition PGROUNDDOWN (a : Z) : Z := Z.land a (Z.lnot (PGSIZE - 1)).

Definition PTE_V : Z := Z.shiftl 1 0.
Definition PTE_R : Z := Z.shiftl 1 1.
Definition PTE_W : Z := Z.shiftl 1 2.
Definition PTE_X : Z := Z.shiftl 1 3.
Definition PTE_U : Z := Z.shiftl 1 4.

Definition PA2PTE (pa : Z) : Z := u64 (Z.shiftl (Z.shiftr pa 12) 10).
Definition PTE2PA (pte : Z) : Z := u64 (Z.shiftl (Z.shiftr pte 10) 12).
Definition PTE_FLAGS (pte : Z) : Z := Z.land pte 0x3FF.

Definition PXMASK : Z := 0x1FF.
Definition PXSHIFT (level : Z) : Z := PGSHIFT + 9 * level.
Definition PX (level va : Z) : Z := Z.land (Z.shiftr va (PXSHIFT level)) PXMASK.
Definition MAXVA : Z := Z.shiftl 1 (9 + 9 + 9 + 12 - 1).

Definition SATP_SV39 : Z := Z.shiftl 8 60.
Definition MAKE_SATP (pagetable : Z) : Z := Z.lor SATP_SV39 (Z.shiftr pagetable 12).

Definition UART0 : Z := 0x10000000.
Definition VIRTIO0 : Z := 0x10001000.
Definition PLIC : Z := 0x0c000000.
Definition KERNBASE : Z := 0x80000000.
Definition PHYSTOP : Z := KERNBASE + 128 * 1024 * 1024.
Definition TRAMPOLINE : Z := MAXVA - PGSIZE.
Definition KSTACK (p : Z) : Z := TRAMPOLINE - (p + 1) * 2 * PGSIZE.
Definition TRAPFRAME : Z := TRAMPOLINE - PGSIZE.

#[global] Arguments PGROUNDUP : simpl never.
#[global] Arguments PGROUNDDOWN : simpl never.
#[global] Arguments PA2PTE : simpl never.
#[global] Arguments PTE2PA : simpl never.
#[global] Arguments PX : simpl never.
#[global] Arguments KSTACK : simpl never.

Lemma land_lnot_4095 a : Z.land a (Z.lnot 4095) = a - a mod 4096.
Proof.
  change 4095 with (Z.ones 12). rewrite <- Z.ldiff_land, Z.ldiff_ones_r by lia.
  rewrite Z.shiftl_mul_pow2, Z.shiftr_div_pow2 by lia.
  change (2 ^ 12) with 4096. pose proof (Z.div_mod a 4096). lia.
Qed.

Lemma PGROUNDDOWN_eq a : PGROUNDDOWN a = a - a mod PGSIZE.
Proof. apply land_lnot_4095. Qed.

Lemma PGROUNDUP_eq sz :
  0 <= sz <= 2 ^ 64 - PGSIZE ->
  PGROUNDUP sz = (sz + PGSIZE - 1) / PGSIZE * PGSIZE.
Proof.
  unfold PGROUNDUP, PGSIZE. intros H. rewrite u64_small by lia.
  rewrite land_lnot_4095. pose proof (Z.div_mod (sz + 4096 - 1) 4096). lia.
Qed.

Lemma PGROUNDUP_bounds sz :
  0 <= sz <= 2 ^ 64 - PGSIZE ->
  sz <= PGROUNDUP sz < sz + PGSIZE /\ PGROUNDUP sz mod PGSIZE = 0.
Proof.
  intros H. rewrite PGROUNDUP_eq by done. unfold PGSIZE in *. split.
  - pose proof (Z.div_mod (sz + 4096 - 1) 4096).
    pose proof (Z.mod_pos_bound (sz + 4096 - 1) 4096). lia.
  - apply Z.mod_mul. lia.
Qed.

Lemma PGROUNDUP_aligned sz : 0 <= sz < 2 ^ 64 -> sz mod PGSIZE = 0 -> PGROUNDUP sz = sz.
Proof.
  unfold PGSIZE. intros H Hal.
  assert (sz <= 2 ^ 64 - 4096).
  { pose proof (Z.div_mod sz 4096). change (2 ^ 64) with (2 ^ 52 * 4096) in *. lia. }
  rewrite PGROUNDUP_eq by (unfold PGSIZE; lia). unfold PGSIZE.
  pose proof (Z.div_mod (sz + 4096 - 1) 4096).
  pose proof (Z.mod_pos_bound (sz + 4096 - 1) 4096).
  pose proof (Z.div_mod sz 4096). lia.
Qed.

Lemma PX_eq level va : 0 <= level -> PX level va = va / 2 ^ (12 + 9 * level) mod 512.
Proof.
  intros. unfold PX, PXMASK, PXSHIFT, PGSHIFT. change 0x1FF with (Z.ones 9).
  rewrite Z.land_ones, Z.shiftr_div_pow2 by lia. done.
Qed.

Lemma PX_range level va : 0 <= level -> 0 <= PX level va < 512.
Proof. intros. rewrite PX_eq by done. apply Z.mod_pos_bound. lia. Qed.

(** The three indices and the page offset determine a virtual address. *)
Lemma PX_decompose va :
  0 <= va < MAXVA ->
  va = PX 2 va * 2 ^ 30 + PX 1 va * 2 ^ 21 + PX 0 va * 2 ^ 12 + va mod PGSIZE.
Proof.
  unfold MAXVA, PGSIZE. change (Z.shiftl 1 (9 + 9 + 9 + 12 - 1)) with (2 ^ 38).
  intros H. rewrite !PX_eq by lia.
  change (2 ^ (12 + 9 * 2)) with (4096 * 512 * 512).
  change (2 ^ (12 + 9 * 1)) with (4096 * 512). change (2 ^ (12 + 9 * 0)) with 4096.
  rewrite <- !Z.div_div by lia.
  set (p := va / 4096). set (q := p / 512). set (r := q / 512).
  assert (0 <= r < 512).
  { unfold r, q, p. rewrite !Z.div_div by lia. split; [apply Z.div_pos; lia|].
    apply Z.div_lt_upper_bound; lia. }
  rewrite (Z.mod_small r) by done.
  pose proof (Z.div_mod va 4096). pose proof (Z.div_mod p 512). pose proof (Z.div_mod q 512).
  unfold r, q, p in *. lia.
Qed.

Lemma PX_inj va va' :
  0 <= va < MAXVA -> 0 <= va' < MAXVA ->
  va mod PGSIZE = 0 -> va' mod PGSIZE = 0 ->
  PX 2 va = PX 2 va' -> PX 1 va = PX 1 va' -> PX 0 va = PX 0 va' -> va = va'.
Proof.
  intros H H' Ha Ha' E2 E1 E0.
  rewrite (PX_decompose va), (PX_decompose va') by done. lia.
Qed.

(** A physical page address survives the trip through a PTE, whatever the
    flag bits are. *)
Lemma PTE2PA_PA2PTE pa fl :
  0 <= pa < 2 ^ 56 -> pa mod PGSIZE = 0 -> 0 <= fl < 2 ^ 10 ->
  PTE2PA (Z.lor (PA2PTE pa) fl) = pa.
Proof.
  unfold PTE2PA, PA2PTE, PGSIZE. intros Hpa Hal Hfl.
  assert (Hpd : pa = pa / 2 ^ 12 * 2 ^ 12).
  { change (2 ^ 12) with 4096. pose proof (Z.div_mod pa 4096). lia. }
  assert (0 <= pa / 2 ^ 12 < 2 ^ 44).
  { split; [apply Z.div_pos; lia|]. apply Z.div_lt_upper_bound; lia. }
  rewrite (Z.shiftr_div_pow2 pa), (Z.shiftl_mul_pow2 (pa / 2 ^ 12)) by lia.
  rewrite (u64_small (pa / 2 ^ 12 * 2 ^ 10)) by lia.
  rewrite Z.shiftr_lor. rewrite (Z.shiftr_div_pow2 fl) by lia.
  rewrite (Z.div_small fl) by lia. rewrite Z.lor_0_r.
  rewrite Z.shiftr_div_pow2, Z.div_mul by lia.
  rewrite Z.shiftl_mul_pow2 by lia. rewrite <- Hpd. apply u64_small. lia.
Qed.

Lemma PA2PTE_range pa : 0 <= pa < 2 ^ 56 -> 0 <= PA2PTE pa < 2 ^ 54.
Proof.
  unfold PA2PTE. intros H. rewrite Z.shiftr_div_pow2, Z.shiftl_mul_pow2 by lia.
  assert (0 <= pa / 2 ^ 12 < 2 ^ 44).
  { split; [apply Z.div_pos; lia|]. apply Z.div_lt_upper_bound; lia. }
  rewrite u64_small; lia.
Qed.

(** The flag bits of a PTE built from a page address are the flags. *)
Lemma PTE_FLAGS_PA2PTE pa fl :
  0 <= pa < 2 ^ 56 -> 0 <= fl < 2 ^ 10 -> PTE_FLAGS (Z.lor (PA2PTE pa) fl) = fl.
Proof.
  unfold PTE_FLAGS, PA2PTE. intros H Hfl. change 0x3FF with (Z.ones 10).
  rewrite Z.shiftr_div_pow2, Z.shiftl_mul_pow2 by lia.
  assert (0 <= pa / 2 ^ 12 < 2 ^ 44).
  { split; [apply Z.div_pos; lia|]. apply Z.div_lt_upper_bound; lia. }
  rewrite u64_small by lia. rewrite Z.land_lor_distr_l.
  rewrite !Z.land_ones, Z.mod_mul, Z.lor_0_l by lia. apply Z.mod_small. lia.
Qed.

(** Keep unification from unrolling loads and stores; evaluation still does. *)
#[global] Opaque load8 store8 load_le store_le load_bytes store_bytes.
