(* ===== verification/State.v ===== *)
(** The kernel's data: the structures of proc.h, file.h, buf.h, fs.h, log.c,
    console.c and uart.c, the globals that hold them, and the state monad all
    the kernel files are written in.

    Pointers into a static table (struct proc, file, inode, buf) are indices;
    a pointer that may be null is an [option].  Pages from kalloc and whatever
    lives in them (free-list links, page tables, trap frames, pipes, user
    memory) are bytes of [mem] at their address. *)

From S2P Require Import Prelude Outcome Mem.

(** ** kernel/param.h, kernel/fs.h, kernel/stat.h, kernel/fcntl.h *)

Definition NPROC : nat := 64.
Definition NOFILE : nat := 16.
Definition NFILE : nat := 100.
Definition NINODE : nat := 50.
Definition NDEV : Z := 10.
Definition ROOTDEV : Z := 1.
Definition MAXARG : nat := 32.
Definition MAXOPBLOCKS : Z := 10.
Definition LOGSIZE : Z := MAXOPBLOCKS * 3.
Definition NBUF : nat := 30.
Definition FSSIZE : Z := 2000.
Definition MAXPATH : Z := 128.

Definition ROOTINO : Z := 1.
Definition BSIZE : Z := 1024.
Definition FSMAGIC : Z := 0x10203040.
Definition NDIRECT : Z := 12.
Definition NINDIRECT : Z := BSIZE / 4.
Definition MAXFILE : Z := NDIRECT + NINDIRECT.
Definition DINODE_SIZE : Z := 64.
Definition IPB : Z := BSIZE / DINODE_SIZE.
Definition BPB : Z := BSIZE * 8.
Definition DIRSIZ : nat := 14.
Definition DIRENT_SIZE : Z := 16.

Definition T_DIR : Z := 1.
Definition T_FILE : Z := 2.
Definition T_DEVICE : Z := 3.

Definition O_RDONLY : Z := 0x000.
Definition O_WRONLY : Z := 0x001.
Definition O_RDWR : Z := 0x002.
Definition O_CREATE : Z := 0x200.
Definition O_TRUNC : Z := 0x400.

Definition CONSOLE : Z := 1.

(** ** Names of locks and sleep channels *)

(** A sleep-lock lives in a buffer or in an in-memory inode. *)
Inductive slid : Type := SLbuf (i : nat) | SLinode (i : nat).

Inductive lockid : Type :=
| LKmem | LPid | LWait | LTicks | LCons | LUart | LPr
| LBcache | LItable | LFtable | LLog | LVdisk
| LProc (i : nat) | LSleep (sl : slid) | LPipe (pi : Z).

(** The address a process sleeps on. *)
Inductive chan : Type :=
| ChNull | ChTicks | ChLog | ChDiskFree | ChConsR | ChUartR
| ChProc (i : nat) | ChSleep (sl : slid) | ChBuf (i : nat)
| ChPipeRead (pi : Z) | ChPipeWrite (pi : Z).

#[export] Instance slid_eq_dec : EqDecision slid.
Proof. solve_decision. Defined.
#[export] Instance lockid_eq_dec : EqDecision lockid.
Proof. solve_decision. Defined.
#[export] Instance chan_eq_dec : EqDecision chan.
Proof. solve_decision. Defined.

Definition lockid_enc (l : lockid) : nat * Z :=
  match l with
  | LKmem => (0, 0%Z) | LPid => (1, 0%Z) | LWait => (2, 0%Z) | LTicks => (3, 0%Z) | LCons => (4, 0%Z)
  | LUart => (5, 0%Z) | LPr => (6, 0%Z) | LBcache => (7, 0%Z) | LItable => (8, 0%Z) | LFtable => (9, 0%Z)
  | LLog => (10, 0%Z) | LVdisk => (11, 0%Z) | LProc i => (12, Z.of_nat i)
  | LSleep (SLbuf i) => (13, Z.of_nat i) | LSleep (SLinode i) => (14, Z.of_nat i)
  | LPipe pi => (15, pi)
  end%nat.

Definition lockid_dec (p : nat * Z) : option lockid :=
  match p.1 with
  | 0 => Some LKmem | 1 => Some LPid | 2 => Some LWait | 3 => Some LTicks | 4 => Some LCons
  | 5 => Some LUart | 6 => Some LPr | 7 => Some LBcache | 8 => Some LItable | 9 => Some LFtable
  | 10 => Some LLog | 11 => Some LVdisk | 12 => Some (LProc (Z.to_nat p.2))
  | 13 => Some (LSleep (SLbuf (Z.to_nat p.2))) | 14 => Some (LSleep (SLinode (Z.to_nat p.2)))
  | 15 => Some (LPipe p.2)
  | _ => None
  end%nat.

#[export] Instance lockid_countable : Countable lockid.
Proof.
  apply (inj_countable lockid_enc lockid_dec).
  intros l. destruct l as [| | | | | | | | | | | |i|[i|i]|pi]; unfold lockid_dec, lockid_enc; cbn [fst snd];
    rewrite ?Nat2Z.id; reflexivity.
Defined.

(** ** Enumerations *)

Inductive procstate : Type := UNUSED | USED | SLEEPING | RUNNABLE | RUNNING | ZOMBIE.
Inductive fdtype : Type := FD_NONE | FD_PIPE | FD_INODE | FD_DEVICE.
(** The one device driver that installs itself in devsw[]. *)
Inductive devfn : Type := DevConsole.

(** What a DMA descriptor points at: disk.ops[i], the data of a buffer, or
    disk.info[i].status. *)
Inductive daddr : Type := DNull | DOps (i : Z) | DData (b : nat) | DStatus (i : Z).

#[export] Instance procstate_eq_dec : EqDecision procstate.
Proof. solve_decision. Defined.
#[export] Instance fdtype_eq_dec : EqDecision fdtype.
Proof. solve_decision. Defined.

(** ** Structures, each with one setter per field *)

(** kernel/proc.h: struct context, the callee-saved registers of a kernel thread. *)
Record context : Type := mkContext {
  ctx_ra : Z;
  ctx_sp : Z;
  ctx_s : list Z
}.

Definition set_ctx_ra (v : Z) (r : context) : context :=
  {| ctx_ra := v; ctx_sp := ctx_sp r; ctx_s := ctx_s r |}.
Definition set_ctx_sp (v : Z) (r : context) : context :=
  {| ctx_ra := ctx_ra r; ctx_sp := v; ctx_s := ctx_s r |}.
Definition set_ctx_s (v : list Z) (r : context) : context :=
  {| ctx_ra := ctx_ra r; ctx_sp := ctx_sp r; ctx_s := v |}.

(** kernel/proc.h: struct cpu.  Code only ever reads its own entry of cpus[]. *)
Record cpu : Type := mkCpu {
  c_proc : option nat;
  c_noff : Z;
  c_intena : bool
}.

Definition set_c_proc (v : option nat) (r : cpu) : cpu :=
  {| c_proc := v; c_noff := c_noff r; c_intena := c_intena r |}.
Definition set_c_noff (v : Z) (r : cpu) : cpu :=
  {| c_proc := c_proc r; c_noff := v; c_intena := c_intena r |}.
Definition set_c_intena (v : bool) (r : cpu) : cpu :=
  {| c_proc := c_proc r; c_noff := c_noff r; c_intena := v |}.

(** kernel/sleeplock.h: struct sleeplock; its spinlock [lk] is [LSleep] below. *)
Record sleeplock : Type := mkSleeplock {
  sl_locked : bool;
  sl_pid : Z
}.

Definition set_sl_locked (v : bool) (r : sleeplock) : sleeplock :=
  {| sl_locked := v; sl_pid := sl_pid r |}.
Definition set_sl_pid (v : Z) (r : sleeplock) : sleeplock :=
  {| sl_locked := sl_locked r; sl_pid := v |}.

(** kernel/proc.h: struct proc; its spinlock is [LProc i]. *)
Record proc : Type := mkProc {
  p_state : procstate;
  p_chan : chan;
  p_killed : Z;
  p_xstate : Z;
  p_pid : Z;
  p_parent : option nat;
  p_kstack : Z;
  p_sz : Z;
  p_pagetable : Z;
  p_trapframe : Z;
  p_context : context;
  p_ofile : list (option nat);
  p_cwd : option nat;
  p_name : list Z
}.

Definition set_p_state (v : procstate) (r : proc) : proc :=
  {| p_state := v; p_chan := p_chan r; p_killed := p_killed r; p_xstate := p_xstate r; p_pid := p_pid r; p_parent := p_parent r; p_kstack := p_kstack r; p_sz := p_sz r; p_pagetable := p_pagetable r; p_trapframe := p_trapframe r; p_context := p_context r; p_ofile := p_ofile r; p_cwd := p_cwd r; p_name := p_name r |}.
Definition set_p_chan (v : chan) (r : proc) : proc :=
  {| p_state := p_state r; p_chan := v; p_killed := p_killed r; p_xstate := p_xstate r; p_pid := p_pid r; p_parent := p_parent r; p_kstack := p_kstack r; p_sz := p_sz r; p_pagetable := p_pagetable r; p_trapframe := p_trapframe r; p_context := p_context r; p_ofile := p_ofile r; p_cwd := p_cwd r; p_name := p_name r |}.
Definition set_p_killed (v : Z) (r : proc) : proc :=
  {| p_state := p_state r; p_chan := p_chan r; p_killed := v; p_xstate := p_xstate r; p_pid := p_pid r; p_parent := p_parent r; p_kstack := p_kstack r; p_sz := p_sz r; p_pagetable := p_pagetable r; p_trapframe := p_trapframe r; p_context := p_context r; p_ofile := p_ofile r; p_cwd := p_cwd r; p_name := p_name r |}.
Definition set_p_xstate (v : Z) (r : proc) : proc :=
  {| p_state := p_state r; p_chan := p_chan r; p_killed := p_killed r; p_xstate := v; p_pid := p_pid r; p_parent := p_parent r; p_kstack := p_kstack r; p_sz := p_sz r; p_pagetable := p_pagetable r; p_trapframe := p_trapframe r; p_context := p_context r; p_ofile := p_ofile r; p_cwd := p_cwd r; p_name := p_name r |}.
Definition set_p_pid (v : Z) (r : proc) : proc :=
  {| p_state := p_state r; p_chan := p_chan r; p_killed := p_killed r; p_xstate := p_xstate r; p_pid := v; p_parent := p_parent r; p_kstack := p_kstack r; p_sz := p_sz r; p_pagetable := p_pagetable r; p_trapframe := p_trapframe r; p_context := p_context r; p_ofile := p_ofile r; p_cwd := p_cwd r; p_name := p_name r |}.
Definition set_p_parent (v : option nat) (r : proc) : proc :=
  {| p_state := p_state r; p_chan := p_chan r; p_killed := p_killed r; p_xstate := p_xstate r; p_pid := p_pid r; p_parent := v; p_kstack := p_kstack r; p_sz := p_sz r; p_pagetable := p_pagetable r; p_trapframe := p_trapframe r; p_context := p_context r; p_ofile := p_ofile r; p_cwd := p_cwd r; p_name := p_name r |}.
Definition set_p_kstack (v : Z) (r : proc) : proc :=
  {| p_state := p_state r; p_chan := p_chan r; p_killed := p_killed r; p_xstate := p_xstate r; p_pid := p_pid r; p_parent := p_parent r; p_kstack := v; p_sz := p_sz r; p_pagetable := p_pagetable r; p_trapframe := p_trapframe r; p_context := p_context r; p_ofile := p_ofile r; p_cwd := p_cwd r; p_name := p_name r |}.
Definition set_p_sz (v : Z) (r : proc) : proc :=
  {| p_state := p_state r; p_chan := p_chan r; p_killed := p_killed r; p_xstate := p_xstate r; p_pid := p_pid r; p_parent := p_parent r; p_kstack := p_kstack r; p_sz := v; p_pagetable := p_pagetable r; p_trapframe := p_trapframe r; p_context := p_context r; p_ofile := p_ofile r; p_cwd := p_cwd r; p_name := p_name r |}.
Definition set_p_pagetable (v : Z) (r : proc) : proc :=
  {| p_state := p_state r; p_chan := p_chan r; p_killed := p_killed r; p_xstate := p_xstate r; p_pid := p_pid r; p_parent := p_parent r; p_kstack := p_kstack r; p_sz := p_sz r; p_pagetable := v; p_trapframe := p_trapframe r; p_context := p_context r; p_ofile := p_ofile r; p_cwd := p_cwd r; p_name := p_name r |}.
Definition set_p_trapframe (v : Z) (r : proc) : proc :=
  {| p_state := p_state r; p_chan := p_chan r; p_killed := p_killed r; p_xstate := p_xstate r; p_pid := p_pid r; p_parent := p_parent r; p_kstack := p_kstack r; p_sz := p_sz r; p_pagetable := p_pagetable r; p_trapframe := v; p_context := p_context r; p_ofile := p_ofile r; p_cwd := p_cwd r; p_name := p_name r |}.
Definition set_p_context (v : context) (r : proc) : proc :=
  {| p_state := p_state r; p_chan := p_chan r; p_killed := p_killed r; p_xstate := p_xstate r; p_pid := p_pid r; p_parent := p_parent r; p_kstack := p_kstack r; p_sz := p_sz r; p_pagetable := p_pagetable r; p_trapframe := p_trapframe r; p_context := v; p_ofile := p_ofile r; p_cwd := p_cwd r; p_name := p_name r |}.
Definition set_p_ofile (v : list (option nat)) (r : proc) : proc :=
  {| p_state := p_state r; p_chan := p_chan r; p_killed := p_killed r; p_xstate := p_xstate r; p_pid := p_pid r; p_parent := p_parent r; p_kstack := p_kstack r; p_sz := p_sz r; p_pagetable := p_pagetable r; p_trapframe := p_trapframe r; p_context := p_context r; p_ofile := v; p_cwd := p_cwd r; p_name := p_name r |}.
Definition set_p_cwd (v : option nat) (r : proc) : proc :=
  {| p_state := p_state r; p_chan := p_chan r; p_killed := p_killed r; p_xstate := p_xstate r; p_pid := p_pid r; p_parent := p_parent r; p_kstack := p_kstack r; p_sz := p_sz r; p_pagetable := p_pagetable r; p_trapframe := p_trapframe r; p_context := p_context r; p_ofile := p_ofile r; p_cwd := v; p_name := p_name r |}.
Definition set_p_name (v : list Z) (r : proc) : proc :=
  {| p_state := p_state r; p_chan := p_chan r; p_killed := p_killed r; p_xstate := p_xstate r; p_pid := p_pid r; p_parent := p_parent r; p_kstack := p_kstack r; p_sz := p_sz r; p_pagetable := p_pagetable r; p_trapframe := p_trapframe r; p_context := p_context r; p_ofile := p_ofile r; p_cwd := p_cwd r; p_name := v |}.

(** kernel/file.h: struct file. *)
Record file : Type := mkFile {
  f_type : fdtype;
  f_ref : Z;
  f_readable : bool;
  f_writable : bool;
  f_pipe : Z;
  f_ip : option nat;
  f_off : Z;
  f_major : Z
}.

Definition set_f_type (v : fdtype) (r : file) : file :=
  {| f_type := v; f_ref := f_ref r; f_readable := f_readable r; f_writable := f_writable r; f_pipe := f_pipe r; f_ip := f_ip r; f_off := f_off r; f_major := f_major r |}.
Definition set_f_ref (v : Z) (r : file) : file :=
  {| f_type := f_type r; f_ref := v; f_readable := f_readable r; f_writable := f_writable r; f_pipe := f_pipe r; f_ip := f_ip r; f_off := f_off r; f_major := f_major r |}.
Definition set_f_readable (v : bool) (r : file) : file :=
  {| f_type := f_type r; f_ref := f_ref r; f_readable := v; f_writable := f_writable r; f_pipe := f_pipe r; f_ip := f_ip r; f_off := f_off r; f_major := f_major r |}.
Definition set_f_writable (v : bool) (r : file) : file :=
  {| f_type := f_type r; f_ref := f_ref r; f_readable := f_readable r; f_writable := v; f_pipe := f_pipe r; f_ip := f_ip r; f_off := f_off r; f_major := f_major r |}.
Definition set_f_pipe (v : Z) (r : file) : file :=
  {| f_type := f_type r; f_ref := f_ref r; f_readable := f_readable r; f_writable := f_writable r; f_pipe := v; f_ip := f_ip r; f_off := f_off r; f_major := f_major r |}.
Definition set_f_ip (v : option nat) (r : file) : file :=
  {| f_type := f_type r; f_ref := f_ref r; f_readable := f_readable r; f_writable := f_writable r; f_pipe := f_pipe r; f_ip := v; f_off := f_off r; f_major := f_major r |}.
Definition set_f_off (v : Z) (r : file) : file :=
  {| f_type := f_type r; f_ref := f_ref r; f_readable := f_readable r; f_writable := f_writable r; f_pipe := f_pipe r; f_ip := f_ip r; f_off := v; f_major := f_major r |}.
Definition set_f_major (v : Z) (r : file) : file :=
  {| f_type := f_type r; f_ref := f_ref r; f_readable := f_readable r; f_writable := f_writable r; f_pipe := f_pipe r; f_ip := f_ip r; f_off := f_off r; f_major := v |}.

(** kernel/file.h: struct inode, the in-memory copy of an inode. *)
Record inode : Type := mkInode {
  i_dev : Z;
  i_inum : Z;
  i_ref : Z;
  i_lock : sleeplock;
  i_valid : bool;
  i_type : Z;
  i_major : Z;
  i_minor : Z;
  i_nlink : Z;
  i_size : Z;
  i_addrs : list Z
}.

Definition set_i_dev (v : Z) (r : inode) : inode :=
  {| i_dev := v; i_inum := i_inum r; i_ref := i_ref r; i_lock := i_lock r; i_valid := i_valid r; i_type := i_type r; i_major := i_major r; i_minor := i_minor r; i_nlink := i_nlink r; i_size := i_size r; i_addrs := i_addrs r |}.
Definition set_i_inum (v : Z) (r : inode) : inode :=
  {| i_dev := i_dev r; i_inum := v; i_ref := i_ref r; i_lock := i_lock r; i_valid := i_valid r; i_type := i_type r; i_major := i_major r; i_minor := i_minor r; i_nlink := i_nlink r; i_size := i_size r; i_addrs := i_addrs r |}.
Definition set_i_ref (v : Z) (r : inode) : inode :=
  {| i_dev := i_dev r; i_inum := i_inum r; i_ref := v; i_lock := i_lock r; i_valid := i_valid r; i_type := i_type r; i_major := i_major r; i_minor := i_minor r; i_nlink := i_nlink r; i_size := i_size r; i_addrs := i_addrs r |}.
Definition set_i_lock (v : sleeplock) (r : inode) : inode :=
  {| i_dev := i_dev r; i_inum := i_inum r; i_ref := i_ref r; i_lock := v; i_valid := i_valid r; i_type := i_type r; i_major := i_major r; i_minor := i_minor r; i_nlink := i_nlink r; i_size := i_size r; i_addrs := i_addrs r |}.
Definition set_i_valid (v : bool) (r : inode) : inode :=
  {| i_dev := i_dev r; i_inum := i_inum r; i_ref := i_ref r; i_lock := i_lock r; i_valid := v; i_type := i_type r; i_major := i_major r; i_minor := i_minor r; i_nlink := i_nlink r; i_size := i_size r; i_addrs := i_addrs r |}.
Definition set_i_type (v : Z) (r : inode) : inode :=
  {| i_dev := i_dev r; i_inum := i_inum r; i_ref := i_ref r; i_lock := i_lock r; i_valid := i_valid r; i_type := v; i_major := i_major r; i_minor := i_minor r; i_nlink := i_nlink r; i_size := i_size r; i_addrs := i_addrs r |}.
Definition set_i_major (v : Z) (r : inode) : inode :=
  {| i_dev := i_dev r; i_inum := i_inum r; i_ref := i_ref r; i_lock := i_lock r; i_valid := i_valid r; i_type := i_type r; i_major := v; i_minor := i_minor r; i_nlink := i_nlink r; i_size := i_size r; i_addrs := i_addrs r |}.
Definition set_i_minor (v : Z) (r : inode) : inode :=
  {| i_dev := i_dev r; i_inum := i_inum r; i_ref := i_ref r; i_lock := i_lock r; i_valid := i_valid r; i_type := i_type r; i_major := i_major r; i_minor := v; i_nlink := i_nlink r; i_size := i_size r; i_addrs := i_addrs r |}.
Definition set_i_nlink (v : Z) (r : inode) : inode :=
  {| i_dev := i_dev r; i_inum := i_inum r; i_ref := i_ref r; i_lock := i_lock r; i_valid := i_valid r; i_type := i_type r; i_major := i_major r; i_minor := i_minor r; i_nlink := v; i_size := i_size r; i_addrs := i_addrs r |}.
Definition set_i_size (v : Z) (r : inode) : inode :=
  {| i_dev := i_dev r; i_inum := i_inum r; i_ref := i_ref r; i_lock := i_lock r; i_valid := i_valid r; i_type := i_type r; i_major := i_major r; i_minor := i_minor r; i_nlink := i_nlink r; i_size := v; i_addrs := i_addrs r |}.
Definition set_i_addrs (v : list Z) (r : inode) : inode :=
  {| i_dev := i_dev r; i_inum := i_inum r; i_ref := i_ref r; i_lock := i_lock r; i_valid := i_valid r; i_type := i_type r; i_major := i_major r; i_minor := i_minor r; i_nlink := i_nlink r; i_size := i_size r; i_addrs := v |}.

(** kernel/buf.h: struct buf; [b_prev] and [b_next] are indices into [bufs]. *)
Record buf : Type := mkBuf {
  b_valid : bool;
  b_disk : bool;
  b_dev : Z;
  b_blockno : Z;
  b_lock : sleeplock;
  b_refcnt : Z;
  b_prev : nat;
  b_next : nat;
  b_data : list Z
}.

Definition set_b_valid (v : bool) (r : buf) : buf :=
  {| b_valid := v; b_disk := b_disk r; b_dev := b_dev r; b_blockno := b_blockno r; b_lock := b_lock r; b_refcnt := b_refcnt r; b_prev := b_prev r; b_next := b_next r; b_data := b_data r |}.
Definition set_b_disk (v : bool) (r : buf) : buf :=
  {| b_valid := b_valid r; b_disk := v; b_dev := b_dev r; b_blockno := b_blockno r; b_lock := b_lock r; b_refcnt := b_refcnt r; b_prev := b_prev r; b_next := b_next r; b_data := b_data r |}.
Definition set_b_dev (v : Z) (r : buf) : buf :=
  {| b_valid := b_valid r; b_disk := b_disk r; b_dev := v; b_blockno := b_blockno r; b_lock := b_lock r; b_refcnt := b_refcnt r; b_prev := b_prev r; b_next := b_next r; b_data := b_data r |}.
Definition set_b_blockno (v : Z) (r : buf) : buf :=
  {| b_valid := b_valid r; b_disk := b_disk r; b_dev := b_dev r; b_blockno := v; b_lock := b_lock r; b_refcnt := b_refcnt r; b_prev := b_prev r; b_next := b_next r; b_data := b_data r |}.
Definition set_b_lock (v : sleeplock) (r : buf) : buf :=
  {| b_valid := b_valid r; b_disk := b_disk r; b_dev := b_dev r; b_blockno := b_blockno r; b_lock := v; b_refcnt := b_refcnt r; b_prev := b_prev r; b_next := b_next r; b_data := b_data r |}.
Definition set_b_refcnt (v : Z) (r : buf) : buf :=
  {| b_valid := b_valid r; b_disk := b_disk r; b_dev := b_dev r; b_blockno := b_blockno r; b_lock := b_lock r; b_refcnt := v; b_prev := b_prev r; b_next := b_next r; b_data := b_data r |}.
Definition set_b_prev (v : nat) (r : buf) : buf :=
  {| b_valid := b_valid r; b_disk := b_disk r; b_dev := b_dev r; b_blockno := b_blockno r; b_lock := b_lock r; b_refcnt := b_refcnt r; b_prev := v; b_next := b_next r; b_data := b_data r |}.
Definition set_b_next (v : nat) (r : buf) : buf :=
  {| b_valid := b_valid r; b_disk := b_disk r; b_dev := b_dev r; b_blockno := b_blockno r; b_lock := b_lock r; b_refcnt := b_refcnt r; b_prev := b_prev r; b_next := v; b_data := b_data r |}.
Definition set_b_data (v : list Z) (r : buf) : buf :=
  {| b_valid := b_valid r; b_disk := b_disk r; b_dev := b_dev r; b_blockno := b_blockno r; b_lock := b_lock r; b_refcnt := b_refcnt r; b_prev := b_prev r; b_next := b_next r; b_data := v |}.

(** kernel/fs.h: struct superblock. *)
Record superblock : Type := mkSuperblock {
  sb_magic : Z;
  sb_size : Z;
  sb_nblocks : Z;
  sb_ninodes : Z;
  sb_nlog : Z;
  sb_logstart : Z;
  sb_inodestart : Z;
  sb_bmapstart : Z
}.

Definition set_sb_magic (v : Z) (r : superblock) : superblock :=
  {| sb_magic := v; sb_size := sb_size r; sb_nblocks := sb_nblocks r; sb_ninodes := sb_ninodes r; sb_nlog := sb_nlog r; sb_logstart := sb_logstart r; sb_inodestart := sb_inodestart r; sb_bmapstart := sb_bmapstart r |}.
Definition set_sb_size (v : Z) (r : superblock) : superblock :=
  {| sb_magic := sb_magic r; sb_size := v; sb_nblocks := sb_nblocks r; sb_ninodes := sb_ninodes r; sb_nlog := sb_nlog r; sb_logstart := sb_logstart r; sb_inodestart := sb_inodestart r; sb_bmapstart := sb_bmapstart r |}.
Definition set_sb_nblocks (v : Z) (r : superblock) : superblock :=
  {| sb_magic := sb_magic r; sb_size := sb_size r; sb_nblocks := v; sb_ninodes := sb_ninodes r; sb_nlog := sb_nlog r; sb_logstart := sb_logstart r; sb_inodestart := sb_inodestart r; sb_bmapstart := sb_bmapstart r |}.
Definition set_sb_ninodes (v : Z) (r : superblock) : superblock :=
  {| sb_magic := sb_magic r; sb_size := sb_size r; sb_nblocks := sb_nblocks r; sb_ninodes := v; sb_nlog := sb_nlog r; sb_logstart := sb_logstart r; sb_inodestart := sb_inodestart r; sb_bmapstart := sb_bmapstart r |}.
Definition set_sb_nlog (v : Z) (r : superblock) : superblock :=
  {| sb_magic := sb_magic r; sb_size := sb_size r; sb_nblocks := sb_nblocks r; sb_ninodes := sb_ninodes r; sb_nlog := v; sb_logstart := sb_logstart r; sb_inodestart := sb_inodestart r; sb_bmapstart := sb_bmapstart r |}.
Definition set_sb_logstart (v : Z) (r : superblock) : superblock :=
  {| sb_magic := sb_magic r; sb_size := sb_size r; sb_nblocks := sb_nblocks r; sb_ninodes := sb_ninodes r; sb_nlog := sb_nlog r; sb_logstart := v; sb_inodestart := sb_inodestart r; sb_bmapstart := sb_bmapstart r |}.
Definition set_sb_inodestart (v : Z) (r : superblock) : superblock :=
  {| sb_magic := sb_magic r; sb_size := sb_size r; sb_nblocks := sb_nblocks r; sb_ninodes := sb_ninodes r; sb_nlog := sb_nlog r; sb_logstart := sb_logstart r; sb_inodestart := v; sb_bmapstart := sb_bmapstart r |}.
Definition set_sb_bmapstart (v : Z) (r : superblock) : superblock :=
  {| sb_magic := sb_magic r; sb_size := sb_size r; sb_nblocks := sb_nblocks r; sb_ninodes := sb_ninodes r; sb_nlog := sb_nlog r; sb_logstart := sb_logstart r; sb_inodestart := sb_inodestart r; sb_bmapstart := v |}.

(** kernel/log.c: struct log, with its struct logheader as [lh_n] and [lh_block]. *)
Record logst : Type := mkLog {
  lg_start : Z;
  lg_size : Z;
  lg_outstanding : Z;
  lg_committing : bool;
  lg_dev : Z;
  lh_n : Z;
  lh_block : list Z
}.

Definition set_lg_start (v : Z) (r : logst) : logst :=
  {| lg_start := v; lg_size := lg_size r; lg_outstanding := lg_outstanding r; lg_committing := lg_committing r; lg_dev := lg_dev r; lh_n := lh_n r; lh_block := lh_block r |}.
Definition set_lg_size (v : Z) (r : logst) : logst :=
  {| lg_start := lg_start r; lg_size := v; lg_outstanding := lg_outstanding r; lg_committing := lg_committing r; lg_dev := lg_dev r; lh_n := lh_n r; lh_block := lh_block r |}.
Definition set_lg_outstanding (v : Z) (r : logst) : logst :=
  {| lg_start := lg_start r; lg_size := lg_size r; lg_outstanding := v; lg_committing := lg_committing r; lg_dev := lg_dev r; lh_n := lh_n r; lh_block := lh_block r |}.
Definition set_lg_committing (v : bool) (r : logst) : logst :=
  {| lg_start := lg_start r; lg_size := lg_size r; lg_outstanding := lg_outstanding r; lg_committing := v; lg_dev := lg_dev r; lh_n := lh_n r; lh_block := lh_block r |}.
Definition set_lg_dev (v : Z) (r : logst) : logst :=
  {| lg_start := lg_start r; lg_size := lg_size r; lg_outstanding := lg_outstanding r; lg_committing := lg_committing r; lg_dev := v; lh_n := lh_n r; lh_block := lh_block r |}.
Definition set_lh_n (v : Z) (r : logst) : logst :=
  {| lg_start := lg_start r; lg_size := lg_size r; lg_outstanding := lg_outstanding r; lg_committing := lg_committing r; lg_dev := lg_dev r; lh_n := v; lh_block := lh_block r |}.
Definition set_lh_block (v : list Z) (r : logst) : logst :=
  {| lg_start := lg_start r; lg_size := lg_size r; lg_outstanding := lg_outstanding r; lg_committing := lg_committing r; lg_dev := lg_dev r; lh_n := lh_n r; lh_block := v |}.

(** kernel/console.c: struct cons. *)
Record console : Type := mkConsole {
  cons_buf : list Z;
  cons_r : Z;
  cons_w : Z;
  cons_e : Z
}.

Definition set_cons_buf (v : list Z) (r : console) : console :=
  {| cons_buf := v; cons_r := cons_r r; cons_w := cons_w r; cons_e := cons_e r |}.
Definition set_cons_r (v : Z) (r : console) : console :=
  {| cons_buf := cons_buf r; cons_r := v; cons_w := cons_w r; cons_e := cons_e r |}.
Definition set_cons_w (v : Z) (r : console) : console :=
  {| cons_buf := cons_buf r; cons_r := cons_r r; cons_w := v; cons_e := cons_e r |}.
Definition set_cons_e (v : Z) (r : console) : console :=
  {| cons_buf := cons_buf r; cons_r := cons_r r; cons_w := cons_w r; cons_e := v |}.

(** kernel/uart.c: the transmit ring, and the device it talks to: the bytes
    waiting in RHR, the answers the LSR gives about the transmitter (idle once
    the list is used up) and the log of register writes, newest first. *)
Record uart : Type := mkUart {
  uart_tx_buf : list Z;
  uart_tx_w : Z;
  uart_tx_r : Z;
  uart_rx : list Z;
  uart_lsr_tx : list bool;
  uart_writes : list (Z * Z)
}.

Definition set_uart_tx_buf (v : list Z) (r : uart) : uart :=
  {| uart_tx_buf := v; uart_tx_w := uart_tx_w r; uart_tx_r := uart_tx_r r; uart_rx := uart_rx r; uart_lsr_tx := uart_lsr_tx r; uart_writes := uart_writes r |}.
Definition set_uart_tx_w (v : Z) (r : uart) : uart :=
  {| uart_tx_buf := uart_tx_buf r; uart_tx_w := v; uart_tx_r := uart_tx_r r; uart_rx := uart_rx r; uart_lsr_tx := uart_lsr_tx r; uart_writes := uart_writes r |}.
Definition set_uart_tx_r (v : Z) (r : uart) : uart :=
  {| uart_tx_buf := uart_tx_buf r; uart_tx_w := uart_tx_w r; uart_tx_r := v; uart_rx := uart_rx r; uart_lsr_tx := uart_lsr_tx r; uart_writes := uart_writes r |}.
Definition set_uart_rx (v : list Z) (r : uart) : uart :=
  {| uart_tx_buf := uart_tx_buf r; uart_tx_w := uart_tx_w r; uart_tx_r := uart_tx_r r; uart_rx := v; uart_lsr_tx := uart_lsr_tx r; uart_writes := uart_writes r |}.
Definition set_uart_lsr_tx (v : list bool) (r : uart) : uart :=
  {| uart_tx_buf := uart_tx_buf r; uart_tx_w := uart_tx_w r; uart_tx_r := uart_tx_r r; uart_rx := uart_rx r; uart_lsr_tx := v; uart_writes := uart_writes r |}.
Definition set_uart_writes (v : list (Z * Z)) (r : uart) : uart :=
  {| uart_tx_buf := uart_tx_buf r; uart_tx_w := uart_tx_w r; uart_tx_r := uart_tx_r r; uart_rx := uart_rx r; uart_lsr_tx := uart_lsr_tx r; uart_writes := v |}.

(** kernel/virtio.h: struct virtq_desc. *)
Record vdesc : Type := mkVdesc {
  d_addr : daddr;
  d_len : Z;
  d_flags : Z;
  d_next : Z
}.

Definition set_d_addr (v : daddr) (r : vdesc) : vdesc :=
  {| d_addr := v; d_len := d_len r; d_flags := d_flags r; d_next := d_next r |}.
Definition set_d_len (v : Z) (r : vdesc) : vdesc :=
  {| d_addr := d_addr r; d_len := v; d_flags := d_flags r; d_next := d_next r |}.
Definition set_d_flags (v : Z) (r : vdesc) : vdesc :=
  {| d_addr := d_addr r; d_len := d_len r; d_flags := v; d_next := d_next r |}.
Definition set_d_next (v : Z) (r : vdesc) : vdesc :=
  {| d_addr := d_addr r; d_len := d_len r; d_flags := d_flags r; d_next := v |}.

(** kernel/virtio.h: struct virtio_blk_req. *)
Record vreq : Type := mkVreq {
  rq_type : Z;
  rq_reserved : Z;
  rq_sector : Z
}.

Definition set_rq_type (v : Z) (r : vreq) : vreq :=
  {| rq_type := v; rq_reserved := rq_reserved r; rq_sector := rq_sector r |}.
Definition set_rq_reserved (v : Z) (r : vreq) : vreq :=
  {| rq_type := rq_type r; rq_reserved := v; rq_sector := rq_sector r |}.
Definition set_rq_sector (v : Z) (r : vreq) : vreq :=
  {| rq_type := rq_type r; rq_reserved := rq_reserved r; rq_sector := v |}.

(** kernel/virtio_disk.c: struct disk, with the queue memory its pointers lead
    to, and the device's registers: the values they read and the log of writes,
    newest first. *)
Record vdisk : Type := mkVdisk {
  vd_desc : list vdesc;
  vd_avail_idx : Z;
  vd_avail_ring : list Z;
  vd_used_idx : Z;
  vd_used_ring : list Z;
  vd_free : list bool;
  vd_seen : Z;
  vd_info_b : list (option nat);
  vd_info_status : list Z;
  vd_ops : list vreq;
  vd_pages : Z * Z * Z;
  vd_regs : gmap Z Z;
  vd_writes : list (Z * Z)
}.

Definition set_vd_desc (v : list vdesc) (r : vdisk) : vdisk :=
  {| vd_desc := v; vd_avail_idx := vd_avail_idx r; vd_avail_ring := vd_avail_ring r; vd_used_idx := vd_used_idx r; vd_used_ring := vd_used_ring r; vd_free := vd_free r; vd_seen := vd_seen r; vd_info_b := vd_info_b r; vd_info_status := vd_info_status r; vd_ops := vd_ops r; vd_pages := vd_pages r; vd_regs := vd_regs r; vd_writes := vd_writes r |}.
Definition set_vd_avail_idx (v : Z) (r : vdisk) : vdisk :=
  {| vd_desc := vd_desc r; vd_avail_idx := v; vd_avail_ring := vd_avail_ring r; vd_used_idx := vd_used_idx r; vd_used_ring := vd_used_ring r; vd_free := vd_free r; vd_seen := vd_seen r; vd_info_b := vd_info_b r; vd_info_status := vd_info_status r; vd_ops := vd_ops r; vd_pages := vd_pages r; vd_regs := vd_regs r; vd_writes := vd_writes r |}.
Definition set_vd_avail_ring (v : list Z) (r : vdisk) : vdisk :=
  {| vd_desc := vd_desc r; vd_avail_idx := vd_avail_idx r; vd_avail_ring := v; vd_used_idx := vd_used_idx r; vd_used_ring := vd_used_ring r; vd_free := vd_free r; vd_seen := vd_seen r; vd_info_b := vd_info_b r; vd_info_status := vd_info_status r; vd_ops := vd_ops r; vd_pages := vd_pages r; vd_regs := vd_regs r; vd_writes := vd_writes r |}.
Definition set_vd_used_idx (v : Z) (r : vdisk) : vdisk :=
  {| vd_desc := vd_desc r; vd_avail_idx := vd_avail_idx r; vd_avail_ring := vd_avail_ring r; vd_used_idx := v; vd_used_ring := vd_used_ring r; vd_free := vd_free r; vd_seen := vd_seen r; vd_info_b := vd_info_b r; vd_info_status := vd_info_status r; vd_ops := vd_ops r; vd_pages := vd_pages r; vd_regs := vd_regs r; vd_writes := vd_writes r |}.
Definition set_vd_used_ring (v : list Z) (r : vdisk) : vdisk :=
  {| vd_desc := vd_desc r; vd_avail_idx := vd_avail_idx r; vd_avail_ring := vd_avail_ring r; vd_used_idx := vd_used_idx r; vd_used_ring := v; vd_free := vd_free r; vd_seen := vd_seen r; vd_info_b := vd_info_b r; vd_info_status := vd_info_status r; vd_ops := vd_ops r; vd_pages := vd_pages r; vd_regs := vd_regs r; vd_writes := vd_writes r |}.
Definition set_vd_free (v : list bool) (r : vdisk) : vdisk :=
  {| vd_desc := vd_desc r; vd_avail_idx := vd_avail_idx r; vd_avail_ring := vd_avail_ring r; vd_used_idx := vd_used_idx r; vd_used_ring := vd_used_ring r; vd_free := v; vd_seen := vd_seen r; vd_info_b := vd_info_b r; vd_info_status := vd_info_status r; vd_ops := vd_ops r; vd_pages := vd_pages r; vd_regs := vd_regs r; vd_writes := vd_writes r |}.
Definition set_vd_seen (v : Z) (r : vdisk) : vdisk :=
  {| vd_desc := vd_desc r; vd_avail_idx := vd_avail_idx r; vd_avail_ring := vd_avail_ring r; vd_used_idx := vd_used_idx r; vd_used_ring := vd_used_ring r; vd_free := vd_free r; vd_seen := v; vd_info_b := vd_info_b r; vd_info_status := vd_info_status r; vd_ops := vd_ops r; vd_pages := vd_pages r; vd_regs := vd_regs r; vd_writes := vd_writes r |}.
Definition set_vd_info_b (v : list (option nat)) (r : vdisk) : vdisk :=
  {| vd_desc := vd_desc r; vd_avail_idx := vd_avail_idx r; vd_avail_ring := vd_avail_ring r; vd_used_idx := vd_used_idx r; vd_used_ring := vd_used_ring r; vd_free := vd_free r; vd_seen := vd_seen r; vd_info_b := v; vd_info_status := vd_info_status r; vd_ops := vd_ops r; vd_pages := vd_pages r; vd_regs := vd_regs r; vd_writes := vd_writes r |}.
Definition set_vd_info_status (v : list Z) (r : vdisk) : vdisk :=
  {| vd_desc := vd_desc r; vd_avail_idx := vd_avail_idx r; vd_avail_ring := vd_avail_ring r; vd_used_idx := vd_used_idx r; vd_used_ring := vd_used_ring r; vd_free := vd_free r; vd_seen := vd_seen r; vd_info_b := vd_info_b r; vd_info_status := v; vd_ops := vd_ops r; vd_pages := vd_pages r; vd_regs := vd_regs r; vd_writes := vd_writes r |}.
Definition set_vd_ops (v : list vreq) (r : vdisk) : vdisk :=
  {| vd_desc := vd_desc r; vd_avail_idx := vd_avail_idx r; vd_avail_ring := vd_avail_ring r; vd_used_idx := vd_used_idx r; vd_used_ring := vd_used_ring r; vd_free := vd_free r; vd_seen := vd_seen r; vd_info_b := vd_info_b r; vd_info_status := vd_info_status r; vd_ops := v; vd_pages := vd_pages r; vd_regs := vd_regs r; vd_writes := vd_writes r |}.
Definition set_vd_pages (v : Z * Z * Z) (r : vdisk) : vdisk :=
  {| vd_desc := vd_desc r; vd_avail_idx := vd_avail_idx r; vd_avail_ring := vd_avail_ring r; vd_used_idx := vd_used_idx r; vd_used_ring := vd_used_ring r; vd_free := vd_free r; vd_seen := vd_seen r; vd_info_b := vd_info_b r; vd_info_status := vd_info_status r; vd_ops := vd_ops r; vd_pages := v; vd_regs := vd_regs r; vd_writes := vd_writes r |}.
Definition set_vd_regs (v : gmap Z Z) (r : vdisk) : vdisk :=
  {| vd_desc := vd_desc r; vd_avail_idx := vd_avail_idx r; vd_avail_ring := vd_avail_ring r; vd_used_idx := vd_used_idx r; vd_used_ring := vd_used_ring r; vd_free := vd_free r; vd_seen := vd_seen r; vd_info_b := vd_info_b r; vd_info_status := vd_info_status r; vd_ops := vd_ops r; vd_pages := vd_pages r; vd_regs := v; vd_writes := vd_writes r |}.
Definition set_vd_writes (v : list (Z * Z)) (r : vdisk) : vdisk :=
  {| vd_desc := vd_desc r; vd_avail_idx := vd_avail_idx r; vd_avail_ring := vd_avail_ring r; vd_used_idx := vd_used_idx r; vd_used_ring := vd_used_ring r; vd_free := vd_free r; vd_seen := vd_seen r; vd_info_b := vd_info_b r; vd_info_status := vd_info_status r; vd_ops := vd_ops r; vd_pages := vd_pages r; vd_regs := vd_regs r; vd_writes := v |}.

(** The supervisor registers kernel/trap.c reads and writes; the SIE bit of
    sstatus is kept apart in the kernel state. *)
Record csrs : Type := mkCsrs {
  csr_sstatus : Z;
  csr_sepc : Z;
  csr_scause : Z;
  csr_stval : Z;
  csr_stvec : Z;
  csr_satp : Z;
  csr_sip : Z
}.

Definition set_csr_sstatus (v : Z) (r : csrs) : csrs :=
  {| csr_sstatus := v; csr_sepc := csr_sepc r; csr_scause := csr_scause r; csr_stval := csr_stval r; csr_stvec := csr_stvec r; csr_satp := csr_satp r; csr_sip := csr_sip r |}.
Definition set_csr_sepc (v : Z) (r : csrs) : csrs :=
  {| csr_sstatus := csr_sstatus r; csr_sepc := v; csr_scause := csr_scause r; csr_stval := csr_stval r; csr_stvec := csr_stvec r; csr_satp := csr_satp r; csr_sip := csr_sip r |}.
Definition set_csr_scause (v : Z) (r : csrs) : csrs :=
  {| csr_sstatus := csr_sstatus r; csr_sepc := csr_sepc r; csr_scause := v; csr_stval := csr_stval r; csr_stvec := csr_stvec r; csr_satp := csr_satp r; csr_sip := csr_sip r |}.
Definition set_csr_stval (v : Z) (r : csrs) : csrs :=
  {| csr_sstatus := csr_sstatus r; csr_sepc := csr_sepc r; csr_scause := csr_scause r; csr_stval := v; csr_stvec := csr_stvec r; csr_satp := csr_satp r; csr_sip := csr_sip r |}.
Definition set_csr_stvec (v : Z) (r : csrs) : csrs :=
  {| csr_sstatus := csr_sstatus r; csr_sepc := csr_sepc r; csr_scause := csr_scause r; csr_stval := csr_stval r; csr_stvec := v; csr_satp := csr_satp r; csr_sip := csr_sip r |}.
Definition set_csr_satp (v : Z) (r : csrs) : csrs :=
  {| csr_sstatus := csr_sstatus r; csr_sepc := csr_sepc r; csr_scause := csr_scause r; csr_stval := csr_stval r; csr_stvec := csr_stvec r; csr_satp := v; csr_sip := csr_sip r |}.
Definition set_csr_sip (v : Z) (r : csrs) : csrs :=
  {| csr_sstatus := csr_sstatus r; csr_sepc := csr_sepc r; csr_scause := csr_scause r; csr_stval := csr_stval r; csr_stvec := csr_stvec r; csr_satp := csr_satp r; csr_sip := v |}.

(** Addresses the linker script and the assembly files define. *)
Record image : Type := mkImage {
  end_addr : Z;
  etext_addr : Z;
  trampoline_addr : Z;
  uservec_addr : Z;
  userret_addr : Z;
  kernelvec_addr : Z;
  usertrap_addr : Z;
  forkret_addr : Z
}.

Definition set_end_addr (v : Z) (r : image) : image :=
  {| end_addr := v; etext_addr := etext_addr r; trampoline_addr := trampoline_addr r; uservec_addr := uservec_addr r; userret_addr := userret_addr r; kernelvec_addr := kernelvec_addr r; usertrap_addr := usertrap_addr r; forkret_addr := forkret_addr r |}.
Definition set_etext_addr (v : Z) (r : image) : image :=
  {| end_addr := end_addr r; etext_addr := v; trampoline_addr := trampoline_addr r; uservec_addr := uservec_addr r; userret_addr := userret_addr r; kernelvec_addr := kernelvec_addr r; usertrap_addr := usertrap_addr r; forkret_addr := forkret_addr r |}.
Definition set_trampoline_addr (v : Z) (r : image) : image :=
  {| end_addr := end_addr r; etext_addr := etext_addr r; trampoline_addr := v; uservec_addr := uservec_addr r; userret_addr := userret_addr r; kernelvec_addr := kernelvec_addr r; usertrap_addr := usertrap_addr r; forkret_addr := forkret_addr r |}.
Definition set_uservec_addr (v : Z) (r : image) : image :=
  {| end_addr := end_addr r; etext_addr := etext_addr r; trampoline_addr := trampoline_addr r; uservec_addr := v; userret_addr := userret_addr r; kernelvec_addr := kernelvec_addr r; usertrap_addr := usertrap_addr r; forkret_addr := forkret_addr r |}.
Definition set_userret_addr (v : Z) (r : image) : image :=
  {| end_addr := end_addr r; etext_addr := etext_addr r; trampoline_addr := trampoline_addr r; uservec_addr := uservec_addr r; userret_addr := v; kernelvec_addr := kernelvec_addr r; usertrap_addr := usertrap_addr r; forkret_addr := forkret_addr r |}.
Definition set_kernelvec_addr (v : Z) (r : image) : image :=
  {| end_addr := end_addr r; etext_addr := etext_addr r; trampoline_addr := trampoline_addr r; uservec_addr := uservec_addr r; userret_addr := userret_addr r; kernelvec_addr := v; usertrap_addr := usertrap_addr r; forkret_addr := forkret_addr r |}.
Definition set_usertrap_addr (v : Z) (r : image) : image :=
  {| end_addr := end_addr r; etext_addr := etext_addr r; trampoline_addr := trampoline_addr r; uservec_addr := uservec_addr r; userret_addr := userret_addr r; kernelvec_addr := kernelvec_addr r; usertrap_addr := v; forkret_addr := forkret_addr r |}.
Definition set_forkret_addr (v : Z) (r : image) : image :=
  {| end_addr := end_addr r; etext_addr := etext_addr r; trampoline_addr := trampoline_addr r; uservec_addr := uservec_addr r; userret_addr := userret_addr r; kernelvec_addr := kernelvec_addr r; usertrap_addr := usertrap_addr r; forkret_addr := v |}.

(** The whole kernel state, as the running hart sees it. *)
Record kernel : Type := mkKernel {
  img : image;
  hart : Z;
  cpu_ : cpu;
  sie : bool;
  csr : csrs;
  locks : gmap lockid Z;
  mem : gmap Z Z;
  freelist : Z;
  kernel_pagetable : Z;
  procs : list proc;
  initproc : option nat;
  nextpid : Z;
  first : bool;
  ticks : Z;
  files : list file;
  devsw : list (option devfn);
  inodes : list inode;
  sb : superblock;
  bufs : list buf;
  log : logst;
  disk : gmap Z (list Z);
  disk_writes : list (Z * list Z);
  vdisk_ : vdisk;
  cons : console;
  uart_ : uart;
  pr_locking : bool;
  panicked : bool;
  plic_irq : list Z
}.

Definition set_img (v : image) (r : kernel) : kernel :=
  {| img := v; hart := hart r; cpu_ := cpu_ r; sie := sie r; csr := csr r; locks := locks r; mem := mem r; freelist := freelist r; kernel_pagetable := kernel_pagetable r; procs := procs r; initproc := initproc r; nextpid := nextpid r; first := first r; ticks := ticks r; files := files r; devsw := devsw r; inodes := inodes r; sb := sb r; bufs := bufs r; log := log r; disk := disk r; disk_writes := disk_writes r; vdisk_ := vdisk_ r; cons := cons r; uart_ := uart_ r; pr_locking := pr_locking r; panicked := panicked r; plic_irq := plic_irq r |}.
Definition set_hart (v : Z) (r : kernel) : kernel :=
  {| img := img r; hart := v; cpu_ := cpu_ r; sie := sie r; csr := csr r; locks := locks r; mem := mem r; freelist := freelist r; kernel_pagetable := kernel_pagetable r; procs := procs r; initproc := initproc r; nextpid := nextpid r; first := first r; ticks := ticks r; files := files r; devsw := devsw r; inodes := inodes r; sb := sb r; bufs := bufs r; log := log r; disk := disk r; disk_writes := disk_writes r; vdisk_ := vdisk_ r; cons := cons r; uart_ := uart_ r; pr_locking := pr_locking r; panicked := panicked r; plic_irq := plic_irq r |}.
Definition set_cpu_ (v : cpu) (r : kernel) : kernel :=
  {| img := img r; hart := hart r; cpu_ := v; sie := sie r; csr := csr r; locks := locks r; mem := mem r; freelist := freelist r; kernel_pagetable := kernel_pagetable r; procs := procs r; initproc := initproc r; nextpid := nextpid r; first := first r; ticks := ticks r; files := files r; devsw := devsw r; inodes := inodes r; sb := sb r; bufs := bufs r; log := log r; disk := disk r; disk_writes := disk_writes r; vdisk_ := vdisk_ r; cons := cons r; uart_ := uart_ r; pr_locking := pr_locking r; panicked := panicked r; plic_irq := plic_irq r |}.
Definition set_sie (v : bool) (r : kernel) : kernel :=
  {| img := img r; hart := hart r; cpu_ := cpu_ r; sie := v; csr := csr r; locks := locks r; mem := mem r; freelist := freelist r; kernel_pagetable := kernel_pagetable r; procs := procs r; initproc := initproc r; nextpid := nextpid r; first := first r; ticks := ticks r; files := files r; devsw := devsw r; inodes := inodes r; sb := sb r; bufs := bufs r; log := log r; disk := disk r; disk_writes := disk_writes r; vdisk_ := vdisk_ r; cons := cons r; uart_ := uart_ r; pr_locking := pr_locking r; panicked := panicked r; plic_irq := plic_irq r |}.
Definition set_csr (v : csrs) (r : kernel) : kernel :=
  {| img := img r; hart := hart r; cpu_ := cpu_ r; sie := sie r; csr := v; locks := locks r; mem := mem r; freelist := freelist r; kernel_pagetable := kernel_pagetable r; procs := procs r; initproc := initproc r; nextpid := nextpid r; first := first r; ticks := ticks r; files := files r; devsw := devsw r; inodes := inodes r; sb := sb r; bufs := bufs r; log := log r; disk := disk r; disk_writes := disk_writes r; vdisk_ := vdisk_ r; cons := cons r; uart_ := uart_ r; pr_locking := pr_locking r; panicked := panicked r; plic_irq := plic_irq r |}.
Definition set_locks (v : gmap lockid Z) (r : kernel) : kernel :=
  {| img := img r; hart := hart r; cpu_ := cpu_ r; sie := sie r; csr := csr r; locks := v; mem := mem r; freelist := freelist r; kernel_pagetable := kernel_pagetable r; procs := procs r; initproc := initproc r; nextpid := nextpid r; first := first r; ticks := ticks r; files := files r; devsw := devsw r; inodes := inodes r; sb := sb r; bufs := bufs r; log := log r; disk := disk r; disk_writes := disk_writes r; vdisk_ := vdisk_ r; cons := cons r; uart_ := uart_ r; pr_locking := pr_locking r; panicked := panicked r; plic_irq := plic_irq r |}.
Definition set_mem (v : gmap Z Z) (r : kernel) : kernel :=
  {| img := img r; hart := hart r; cpu_ := cpu_ r; sie := sie r; csr := csr r; locks := locks r; mem := v; freelist := freelist r; kernel_pagetable := kernel_pagetable r; procs := procs r; initproc := initproc r; nextpid := nextpid r; first := first r; ticks := ticks r; files := files r; devsw := devsw r; inodes := inodes r; sb := sb r; bufs := bufs r; log := log r; disk := disk r; disk_writes := disk_writes r; vdisk_ := vdisk_ r; cons := cons r; uart_ := uart_ r; pr_locking := pr_locking r; panicked := panicked r; plic_irq := plic_irq r |}.
Definition set_freelist (v : Z) (r : kernel) : kernel :=
  {| img := img r; hart := hart r; cpu_ := cpu_ r; sie := sie r; csr := csr r; locks := locks r; mem := mem r; freelist := v; kernel_pagetable := kernel_pagetable r; procs := procs r; initproc := initproc r; nextpid := nextpid r; first := first r; ticks := ticks r; files := files r; devsw := devsw r; inodes := inodes r; sb := sb r; bufs := bufs r; log := log r; disk := disk r; disk_writes := disk_writes r; vdisk_ := vdisk_ r; cons := cons r; uart_ := uart_ r; pr_locking := pr_locking r; panicked := panicked r; plic_irq := plic_irq r |}.
Definition set_kernel_pagetable (v : Z) (r : kernel) : kernel :=
  {| img := img r; hart := hart r; cpu_ := cpu_ r; sie := sie r; csr := csr r; locks := locks r; mem := mem r; freelist := freelist r; kernel_pagetable := v; procs := procs r; initproc := initproc r; nextpid := nextpid r; first := first r; ticks := ticks r; files := files r; devsw := devsw r; inodes := inodes r; sb := sb r; bufs := bufs r; log := log r; disk := disk r; disk_writes := disk_writes r; vdisk_ := vdisk_ r; cons := cons r; uart_ := uart_ r; pr_locking := pr_locking r; panicked := panicked r; plic_irq := plic_irq r |}.
Definition set_procs (v : list proc) (r : kernel) : kernel :=
  {| img := img r; hart := hart r; cpu_ := cpu_ r; sie := sie r; csr := csr r; locks := locks r; mem := mem r; freelist := freelist r; kernel_pagetable := kernel_pagetable r; procs := v; initproc := initproc r; nextpid := nextpid r; first := first r; ticks := ticks r; files := files r; devsw := devsw r; inodes := inodes r; sb := sb r; bufs := bufs r; log := log r; disk := disk r; disk_writes := disk_writes r; vdisk_ := vdisk_ r; cons := cons r; uart_ := uart_ r; pr_locking := pr_locking r; panicked := panicked r; plic_irq := plic_irq r |}.
Definition set_initproc (v : option nat) (r : kernel) : kernel :=
  {| img := img r; hart := hart r; cpu_ := cpu_ r; sie := sie r; csr := csr r; locks := locks r; mem := mem r; freelist := freelist r; kernel_pagetable := kernel_pagetable r; procs := procs r; initproc := v; nextpid := nextpid r; first := first r; ticks := ticks r; files := files r; devsw := devsw r; inodes := inodes r; sb := sb r; bufs := bufs r; log := log r; disk := disk r; disk_writes := disk_writes r; vdisk_ := vdisk_ r; cons := cons r; uart_ := uart_ r; pr_locking := pr_locking r; panicked := panicked r; plic_irq := plic_irq r |}.
Definition set_nextpid (v : Z) (r : kernel) : kernel :=
  {| img := img r; hart := hart r; cpu_ := cpu_ r; sie := sie r; csr := csr r; locks := locks r; mem := mem r; freelist := freelist r; kernel_pagetable := kernel_pagetable r; procs := procs r; initproc := initproc r; nextpid := v; first := first r; ticks := ticks r; files := files r; devsw := devsw r; inodes := inodes r; sb := sb r; bufs := bufs r; log := log r; disk := disk r; disk_writes := disk_writes r; vdisk_ := vdisk_ r; cons := cons r; uart_ := uart_ r; pr_locking := pr_locking r; panicked := panicked r; plic_irq := plic_irq r |}.
Definition set_first (v : bool) (r : kernel) : kernel :=
  {| img := img r; hart := hart r; cpu_ := cpu_ r; sie := sie r; csr := csr r; locks := locks r; mem := mem r; freelist := freelist r; kernel_pagetable := kernel_pagetable r; procs := procs r; initproc := initproc r; nextpid := nextpid r; first := v; ticks := ticks r; files := files r; devsw := devsw r; inodes := inodes r; sb := sb r; bufs := bufs r; log := log r; disk := disk r; disk_writes := disk_writes r; vdisk_ := vdisk_ r; cons := cons r; uart_ := uart_ r; pr_locking := pr_locking r; panicked := panicked r; plic_irq := plic_irq r |}.
Definition set_ticks (v : Z) (r : kernel) : kernel :=
  {| img := img r; hart := hart r; cpu_ := cpu_ r; sie := sie r; csr := csr r; locks := locks r; mem := mem r; freelist := freelist r; kernel_pagetable := kernel_pagetable r; procs := procs r; initproc := initproc r; nextpid := nextpid r; first := first r; ticks := v; files := files r; devsw := devsw r; inodes := inodes r; sb := sb r; bufs := bufs r; log := log r; disk := disk r; disk_writes := disk_writes r; vdisk_ := vdisk_ r; cons := cons r; uart_ := uart_ r; pr_locking := pr_locking r; panicked := panicked r; plic_irq := plic_irq r |}.
Definition set_files (v : list file) (r : kernel) : kernel :=
  {| img := img r; hart := hart r; cpu_ := cpu_ r; sie := sie r; csr := csr r; locks := locks r; mem := mem r; freelist := freelist r; kernel_pagetable := kernel_pagetable r; procs := procs r; initproc := initproc r; nextpid := nextpid r; first := first r; ticks := ticks r; files := v; devsw := devsw r; inodes := inodes r; sb := sb r; bufs := bufs r; log := log r; disk := disk r; disk_writes := disk_writes r; vdisk_ := vdisk_ r; cons := cons r; uart_ := uart_ r; pr_locking := pr_locking r; panicked := panicked r; plic_irq := plic_irq r |}.
Definition set_devsw (v : list (option devfn)) (r : kernel) : kernel :=
  {| img := img r; hart := hart r; cpu_ := cpu_ r; sie := sie r; csr := csr r; locks := locks r; mem := mem r; freelist := freelist r; kernel_pagetable := kernel_pagetable r; procs := procs r; initproc := initproc r; nextpid := nextpid r; first := first r; ticks := ticks r; files := files r; devsw := v; inodes := inodes r; sb := sb r; bufs := bufs r; log := log r; disk := disk r; disk_writes := disk_writes r; vdisk_ := vdisk_ r; cons := cons r; uart_ := uart_ r; pr_locking := pr_locking r; panicked := panicked r; plic_irq := plic_irq r |}.
Definition set_inodes (v : list inode) (r : kernel) : kernel :=
  {| img := img r; hart := hart r; cpu_ := cpu_ r; sie := sie r; csr := csr r; locks := locks r; mem := mem r; freelist := freelist r; kernel_pagetable := kernel_pagetable r; procs := procs r; initproc := initproc r; nextpid := nextpid r; first := first r; ticks := ticks r; files := files r; devsw := devsw r; inodes := v; sb := sb r; bufs := bufs r; log := log r; disk := disk r; disk_writes := disk_writes r; vdisk_ := vdisk_ r; cons := cons r; uart_ := uart_ r; pr_locking := pr_locking r; panicked := panicked r; plic_irq := plic_irq r |}.
Definition set_sb (v : superblock) (r : kernel) : kernel :=
  {| img := img r; hart := hart r; cpu_ := cpu_ r; sie := sie r; csr := csr r; locks := locks r; mem := mem r; freelist := freelist r; kernel_pagetable := kernel_pagetable r; procs := procs r; initproc := initproc r; nextpid := nextpid r; first := first r; ticks := ticks r; files := files r; devsw := devsw r; inodes := inodes r; sb := v; bufs := bufs r; log := log r; disk := disk r; disk_writes := disk_writes r; vdisk_ := vdisk_ r; cons := cons r; uart_ := uart_ r; pr_locking := pr_locking r; panicked := panicked r; plic_irq := plic_irq r |}.
Definition set_bufs (v : list buf) (r : kernel) : kernel :=
  {| img := img r; hart := hart r; cpu_ := cpu_ r; sie := sie r; csr := csr r; locks := locks r; mem := mem r; freelist := freelist r; kernel_pagetable := kernel_pagetable r; procs := procs r; initproc := initproc r; nextpid := nextpid r; first := first r; ticks := ticks r; files := files r; devsw := devsw r; inodes := inodes r; sb := sb r; bufs := v; log := log r; disk := disk r; disk_writes := disk_writes r; vdisk_ := vdisk_ r; cons := cons r; uart_ := uart_ r; pr_locking := pr_locking r; panicked := panicked r; plic_irq := plic_irq r |}.
Definition set_log (v : logst) (r : kernel) : kernel :=
  {| img := img r; hart := hart r; cpu_ := cpu_ r; sie := sie r; csr := csr r; locks := locks r; mem := mem r; freelist := freelist r; kernel_pagetable := kernel_pagetable r; procs := procs r; initproc := initproc r; nextpid := nextpid r; first := first r; ticks := ticks r; files := files r; devsw := devsw r; inodes := inodes r; sb := sb r; bufs := bufs r; log := v; disk := disk r; disk_writes := disk_writes r; vdisk_ := vdisk_ r; cons := cons r; uart_ := uart_ r; pr_locking := pr_locking r; panicked := panicked r; plic_irq := plic_irq r |}.
Definition set_disk (v : gmap Z (list Z)) (r : kernel) : kernel :=
  {| img := img r; hart := hart r; cpu_ := cpu_ r; sie := sie r; csr := csr r; locks := locks r; mem := mem r; freelist := freelist r; kernel_pagetable := kernel_pagetable r; procs := procs r; initproc := initproc r; nextpid := nextpid r; first := first r; ticks := ticks r; files := files r; devsw := devsw r; inodes := inodes r; sb := sb r; bufs := bufs r; log := log r; disk := v; disk_writes := disk_writes r; vdisk_ := vdisk_ r; cons := cons r; uart_ := uart_ r; pr_locking := pr_locking r; panicked := panicked r; plic_irq := plic_irq r |}.
Definition set_disk_writes (v : list (Z * list Z)) (r : kernel) : kernel :=
  {| img := img r; hart := hart r; cpu_ := cpu_ r; sie := sie r; csr := csr r; locks := locks r; mem := mem r; freelist := freelist r; kernel_pagetable := kernel_pagetable r; procs := procs r; initproc := initproc r; nextpid := nextpid r; first := first r; ticks := ticks r; files := files r; devsw := devsw r; inodes := inodes r; sb := sb r; bufs := bufs r; log := log r; disk := disk r; disk_writes := v; vdisk_ := vdisk_ r; cons := cons r; uart_ := uart_ r; pr_locking := pr_locking r; panicked := panicked r; plic_irq := plic_irq r |}.
Definition set_vdisk_ (v : vdisk) (r : kernel) : kernel :=
  {| img := img r; hart := hart r; cpu_ := cpu_ r; sie := sie r; csr := csr r; locks := locks r; mem := mem r; freelist := freelist r; kernel_pagetable := kernel_pagetable r; procs := procs r; initproc := initproc r; nextpid := nextpid r; first := first r; ticks := ticks r; files := files r; devsw := devsw r; inodes := inodes r; sb := sb r; bufs := bufs r; log := log r; disk := disk r; disk_writes := disk_writes r; vdisk_ := v; cons := cons r; uart_ := uart_ r; pr_locking := pr_locking r; panicked := panicked r; plic_irq := plic_irq r |}.
Definition set_cons (v : console) (r : kernel) : kernel :=
  {| img := img r; hart := hart r; cpu_ := cpu_ r; sie := sie r; csr := csr r; locks := locks r; mem := mem r; freelist := freelist r; kernel_pagetable := kernel_pagetable r; procs := procs r; initproc := initproc r; nextpid := nextpid r; first := first r; ticks := ticks r; files := files r; devsw := devsw r; inodes := inodes r; sb := sb r; bufs := bufs r; log := log r; disk := disk r; disk_writes := disk_writes r; vdisk_ := vdisk_ r; cons := v; uart_ := uart_ r; pr_locking := pr_locking r; panicked := panicked r; plic_irq := plic_irq r |}.
Definition set_uart_ (v : uart) (r : kernel) : kernel :=
  {| img := img r; hart := hart r; cpu_ := cpu_ r; sie := sie r; csr := csr r; locks := locks r; mem := mem r; freelist := freelist r; kernel_pagetable := kernel_pagetable r; procs := procs r; initproc := initproc r; nextpid := nextpid r; first := first r; ticks := ticks r; files := files r; devsw := devsw r; inodes := inodes r; sb := sb r; bufs := bufs r; log := log r; disk := disk r; disk_writes := disk_writes r; vdisk_ := vdisk_ r; cons := cons r; uart_ := v; pr_locking := pr_locking r; panicked := panicked r; plic_irq := plic_irq r |}.
Definition set_pr_locking (v : bool) (r : kernel) : kernel :=
  {| img := img r; hart := hart r; cpu_ := cpu_ r; sie := sie r; csr := csr r; locks := locks r; mem := mem r; freelist := freelist r; kernel_pagetable := kernel_pagetable r; procs := procs r; initproc := initproc r; nextpid := nextpid r; first := first r; ticks := ticks r; files := files r; devsw := devsw r; inodes := inodes r; sb := sb r; bufs := bufs r; log := log r; disk := disk r; disk_writes := disk_writes r; vdisk_ := vdisk_ r; cons := cons r; uart_ := uart_ r; pr_locking := v; panicked := panicked r; plic_irq := plic_irq r |}.
Definition set_panicked (v : bool) (r : kernel) : kernel :=
  {| img := img r; hart := hart r; cpu_ := cpu_ r; sie := sie r; csr := csr r; locks := locks r; mem := mem r; freelist := freelist r; kernel_pagetable := kernel_pagetable r; procs := procs r; initproc := initproc r; nextpid := nextpid r; first := first r; ticks := ticks r; files := files r; devsw := devsw r; inodes := inodes r; sb := sb r; bufs := bufs r; log := log r; disk := disk r; disk_writes := disk_writes r; vdisk_ := vdisk_ r; cons := cons r; uart_ := uart_ r; pr_locking := pr_locking r; panicked := v; plic_irq := plic_irq r |}.
Definition set_plic_irq (v : list Z) (r : kernel) : kernel :=
  {| img := img r; hart := hart r; cpu_ := cpu_ r; sie := sie r; csr := csr r; locks := locks r; mem := mem r; freelist := freelist r; kernel_pagetable := kernel_pagetable r; procs := procs r; initproc := initproc r; nextpid := nextpid r; first := first r; ticks := ticks r; files := files r; devsw := devsw r; inodes := inodes r; sb := sb r; bufs := bufs r; log := log r; disk := disk r; disk_writes := disk_writes r; vdisk_ := vdisk_ r; cons := cons r; uart_ := uart_ r; pr_locking := pr_locking r; panicked := panicked r; plic_irq := v |}.

(** ** Zero-initialised values, as C gives globals *)

Definition context0 : context := mkContext 0 0 (replicate 12 0).
Definition cpu0 : cpu := mkCpu None 0 false.
Definition sleeplock0 : sleeplock := mkSleeplock false 0.
Definition proc0 : proc :=
  mkProc UNUSED ChNull 0 0 0 None 0 0 0 0 context0 (replicate NOFILE None) None (replicate 16 0).
Definition file0 : file := mkFile FD_NONE 0 false false 0 None 0 0.
Definition inode0 : inode := mkInode 0 0 0 sleeplock0 false 0 0 0 0 0 (replicate 13 0).
Definition zero_block : list Z := replicate (Z.to_nat BSIZE) 0.
Definition buf0 : buf := mkBuf false false 0 0 sleeplock0 0 0 0 zero_block.

(** kernel/virtio.h *)
Definition NUM : nat := 8.
Definition vdesc0 : vdesc := mkVdesc DNull 0 0 0.
Definition vreq0 : vreq := mkVreq 0 0 0.
Definition vdisk0 : vdisk :=
  mkVdisk (replicate NUM vdesc0) 0 (replicate NUM 0) 0 (replicate NUM 0) (replicate NUM false) 0
    (replicate NUM None) (replicate NUM 0) (replicate NUM vreq0) (0, 0, 0) ∅ [].

#[export] Instance proc_inhabited : Inhabited proc := populate proc0.
#[export] Instance file_inhabited : Inhabited file := populate file0.
#[export] Instance inode_inhabited : Inhabited inode := populate inode0.
#[export] Instance buf_inhabited : Inhabited buf := populate buf0.

#[export] Instance vdesc_inhabited : Inhabited vdesc := populate vdesc0.
#[export] Instance vreq_inhabited : Inhabited vreq := populate vreq0.

(** The state at boot, before any initialisation has run. *)
Definition kernel0 (im : image) (dk : gmap Z (list Z)) : kernel := {|
  img := im; hart := 0; cpu_ := cpu0; sie := false; csr := mkCsrs 0 0 0 0 0 0 0;
  locks := ∅; mem := ∅; freelist := 0; kernel_pagetable := 0;
  procs := replicate NPROC proc0; initproc := None; nextpid := 1; first := true; ticks := 0;
  files := replicate NFILE file0; devsw := replicate (Z.to_nat NDEV) None;
  inodes := replicate NINODE inode0; sb := mkSuperblock 0 0 0 0 0 0 0 0;
  bufs := replicate (S NBUF) buf0; log := mkLog 0 0 0 false 0 0 (replicate (Z.to_nat LOGSIZE) 0);
  disk := dk; disk_writes := []; vdisk_ := vdisk0;
  cons := mkConsole (replicate 128 0) 0 0 0; uart_ := mkUart (replicate 32 0) 0 0 [] [] [];
  pr_locking := false; panicked := false; plic_irq := [] |}.

(** ** The kernel monad *)

Abbreviation K := (M kernel).

(** Table accesses. *)
Definition getp (i : nat) : K proc := gets (fun s => procs s !!! i).
Definition modp (i : nat) (f : proc -> proc) : K unit :=
  modify (fun s => set_procs (alter f i (procs s)) s).
Definition getf (i : nat) : K file := gets (fun s => files s !!! i).
Definition modf (i : nat) (f : file -> file) : K unit :=
  modify (fun s => set_files (alter f i (files s)) s).
Definition geti (i : nat) : K inode := gets (fun s => inodes s !!! i).
Definition modi (i : nat) (f : inode -> inode) : K unit :=
  modify (fun s => set_inodes (alter f i (inodes s)) s).
Definition getb (i : nat) : K buf := gets (fun s => bufs s !!! i).
Definition modb (i : nat) (f : buf -> buf) : K unit :=
  modify (fun s => set_bufs (alter f i (bufs s)) s).
Definition modl (f : logst -> logst) : K unit := modify (fun s => set_log (f (log s)) s).

(** Memory accesses. *)
Definition ld8 (a : Z) : K Z := gets (fun s => load8 (mem s) a).
Definition ld16 (a : Z) : K Z := gets (fun s => load16 (mem s) a).
Definition ld32 (a : Z) : K Z := gets (fun s => load32 (mem s) a).
Definition ld64 (a : Z) : K Z := gets (fun s => load64 (mem s) a).
Definition st8 (a v : Z) : K unit := modify (fun s => set_mem (store8 (mem s) a v) s).
Definition st32 (a v : Z) : K unit := modify (fun s => set_mem (store32 (mem s) a v) s).
Definition st64 (a v : Z) : K unit := modify (fun s => set_mem (store64 (mem s) a v) s).
