(* ===== verification/Spinlock.v ===== *)
(** kernel/spinlock.c: spin locks, the interrupt-disable nesting of push_off
    and pop_off, and kernel/proc.c's cpuid, mycpu and myproc.

    [locks] maps each locked lock to the hart in its [cpu] field; a lock that
    is not in the map has [locked == 0]. *)

From S2P Require Import Prelude Outcome Mem State.

(** kernel/riscv.h *)
Definition intr_get : K bool := gets sie.
Definition intr_on : K unit := modify (set_sie true).
Definition intr_off : K unit := modify (set_sie false).
Definition r_tp : K Z := gets hart.

(** kernel/proc.c *)
Definition cpuid : K Z := r_tp.
Definition mycpu : K cpu := gets cpu_.
Definition mod_mycpu (f : cpu -> cpu) : K unit := modify (fun s => set_cpu_ (f (cpu_ s)) s).

Definition push_off : K unit :=
  old <- intr_get;;
  intr_off;;
  c <- mycpu;;
  when (c_noff c =? 0) (mod_mycpu (set_c_intena old));;
  mod_mycpu (fun c => set_c_noff (c_noff c + 1) c).

Definition pop_off : K unit :=
  on <- intr_get;;
  if on : bool then panic "pop_off - interruptible" else
  c <- mycpu;;
  if c_noff c <? 1 then panic "pop_off" else
  mod_mycpu (fun c => set_c_noff (c_noff c - 1) c);;
  c <- mycpu;;
  when ((c_noff c =? 0) && c_intena c) intr_on.

Definition holding (lk : lockid) : K bool :=
  gets (fun s => bool_decide (locks s !! lk = Some (hart s))).

Definition initlock (lk : lockid) : K unit :=
  modify (fun s => set_locks (delete lk (locks s)) s).

(** The atomic swap sets [locked] when it was clear; against a lock another
    hart holds it spins, which never ends unless that hart runs. *)
Definition acquire (lk : lockid) : K unit :=
  push_off;;
  h <- holding lk;;
  if h : bool then panic "acquire" else
  o <- gets (fun s => locks s !! lk);;
  match o with
  | Some _ => halt Spinning
  | None => id <- cpuid;; modify (fun s => set_locks (<[lk := id]> (locks s)) s)
  end.

Definition release (lk : lockid) : K unit :=
  h <- holding lk;;
  if negb h then panic "release" else
  modify (fun s => set_locks (delete lk (locks s)) s);;
  pop_off.

(** kernel/proc.c *)
Definition myproc : K (option nat) :=
  push_off;;
  c <- mycpu;;
  let p := c_proc c in
  pop_off;;
  ret p.

(** Following a pointer that may be null: the load traps in the kernel. *)
Definition deref {A} (p : option A) : K A :=
  match p with Some x => ret x | None => panic "kerneltrap" end.
(** Code that dereferences myproc() without a null test. *)
Definition curproc : K nat := p <- myproc;; deref p.

(** ** Nesting and critical sections *)

(** The nesting depth counts push_off()s, and interrupts are off inside one. *)
Definition irq_ok (s : kernel) : Prop :=
  0 <= c_noff (cpu_ s) /\ (0 < c_noff (cpu_ s) -> sie s = false).

Definition pushed (s : kernel) : kernel :=
  let c := cpu_ s in
  set_cpu_ (mkCpu (c_proc c) (c_noff c + 1) (if c_noff c =? 0 then sie s else c_intena c))
    (set_sie false s).

Definition popped (s : kernel) : kernel :=
  let c := cpu_ s in
  set_cpu_ (set_c_noff (c_noff c - 1) c)
    (set_sie (if (c_noff c - 1 =? 0) && c_intena c then true else sie s) s).

(** What a balanced push_off/pop_off pair leaves behind: at depth 0 the saved
    interrupt flag has been overwritten, everything else is as before. *)
Definition settle (s : kernel) : kernel :=
  set_cpu_ (set_c_intena (if c_noff (cpu_ s) =? 0 then sie s else c_intena (cpu_ s)) (cpu_ s)) s.

Definition acquired (lk : lockid) (s : kernel) : kernel :=
  set_locks (<[lk := hart s]> (locks s)) (pushed s).
Definition released (lk : lockid) (s : kernel) : kernel :=
  popped (set_locks (delete lk (locks s)) s).

Lemma push_off_eq s : push_off s = Ret tt (pushed s).
Proof.
  unfold push_off, bind, pushed. cbn. destruct (c_noff (cpu_ s) =? 0); reflexivity.
Qed.

Lemma pop_off_eq s : sie s = false -> 1 <= c_noff (cpu_ s) -> pop_off s = Ret tt (popped s).
Proof.
  intros Hs Hn. unfold pop_off, bind, popped. cbn. rewrite Hs.
  destruct (Z.ltb_spec (c_noff (cpu_ s)) 1); [lia|]. cbn.
  unfold mod_mycpu, modify, when, intr_on, ret. cbn.
  destruct ((c_noff (cpu_ s) - 1 =? 0) && c_intena (cpu_ s)); cbn;
    destruct s; cbn in *; subst; reflexivity.
Qed.

Lemma kernel_eta (s : kernel) :
  s = mkKernel (img s) (hart s) (cpu_ s) (sie s) (csr s) (locks s) (mem s) (freelist s)
    (kernel_pagetable s) (procs s) (initproc s) (nextpid s) (first s) (ticks s) (files s)
    (devsw s) (inodes s) (sb s) (bufs s) (log s) (disk s) (disk_writes s) (vdisk_ s) (cons s) (uart_ s) (pr_locking s)
    (panicked s) (plic_irq s).
Proof. by destruct s. Qed.

Lemma popped_pushed s : irq_ok s -> popped (pushed s) = settle s.
Proof.
  intros [Hn Hs]. unfold popped, pushed, settle. cbn.
  replace (c_noff (cpu_ s) + 1 - 1) with (c_noff (cpu_ s)) by lia.
  destruct s as [? ? [pr n ie] b]; cbn in *.
  destruct (Z.eqb_spec n 0) as [->|Hne]; cbn.
  - by destruct b.
  - rewrite (Hs ltac:(lia)). done.
Qed.

Lemma acquire_eq lk s : locks s !! lk = None -> acquire lk s = Ret tt (acquired lk s).
Proof.
  intros H. unfold acquire. rewrite (bind_Ret _ _ _ _ _ (push_off_eq s)).
  unfold bind, holding, gets. cbn [obind]. change (locks (pushed s)) with (locks s).
  change (hart (pushed s)) with (hart s). rewrite bool_decide_false by (rewrite H; done).
  unfold bind, gets. cbn [obind]. change (locks (pushed s)) with (locks s). by rewrite H.
Qed.

Lemma acquire_held lk s :
  locks s !! lk = Some (hart s) -> acquire lk s = Stop (Panicked "acquire").
Proof.
  intros H. unfold acquire. rewrite (bind_Ret _ _ _ _ _ (push_off_eq s)).
  unfold bind, holding, gets. cbn [obind]. change (locks (pushed s)) with (locks s).
  change (hart (pushed s)) with (hart s). by rewrite bool_decide_true.
Qed.

Lemma acquire_other lk s h :
  locks s !! lk = Some h -> h <> hart s -> acquire lk s = Stop Spinning.
Proof.
  intros H Hne. unfold acquire. rewrite (bind_Ret _ _ _ _ _ (push_off_eq s)).
  unfold bind, holding, gets. cbn [obind]. change (locks (pushed s)) with (locks s).
  change (hart (pushed s)) with (hart s). rewrite bool_decide_false by (rewrite H; congruence).
  unfold bind, gets. cbn [obind]. change (locks (pushed s)) with (locks s). by rewrite H.
Qed.

Lemma release_eq lk s :
  locks s !! lk = Some (hart s) -> sie s = false -> 1 <= c_noff (cpu_ s) ->
  release lk s = Ret tt (released lk s).
Proof.
  intros H Hs Hn. unfold release, bind, holding, gets, modify. cbn [obind].
  rewrite bool_decide_true by done. cbn [obind negb]. by rewrite pop_off_eq.
Qed.

Lemma release_not_held lk s :
  locks s !! lk <> Some (hart s) -> release lk s = Stop (Panicked "release").
Proof. intros H. unfold release, bind, holding. cbn. by rewrite bool_decide_false. Qed.

Lemma myproc_eq s : irq_ok s -> myproc s = Ret (c_proc (cpu_ s)) (settle s).
Proof.
  intros H. unfold myproc. rewrite (bind_Ret _ _ _ _ _ (push_off_eq s)).
  unfold bind, mycpu, gets. cbn [obind].
  rewrite pop_off_eq; [|done|destruct H; simpl; lia]. cbn [obind].
  rewrite popped_pushed by done. done.
Qed.

Lemma irq_ok_settle s : irq_ok s -> irq_ok (settle s).
Proof. done. Qed.

Lemma settle_settle s : settle (settle s) = settle s.
Proof. unfold settle. cbn. by destruct (c_noff (cpu_ s) =? 0). Qed.

(** Settling commutes with every update outside the lock code. *)
Create HintDb kst.
Lemma set_csr_settle v s : set_csr v (settle s) = settle (set_csr v s).
Proof. reflexivity. Qed.
Lemma set_locks_settle v s : set_locks v (settle s) = settle (set_locks v s).
Proof. reflexivity. Qed.
Lemma set_mem_settle v s : set_mem v (settle s) = settle (set_mem v s).
Proof. reflexivity. Qed.
Lemma set_freelist_settle v s : set_freelist v (settle s) = settle (set_freelist v s).
Proof. reflexivity. Qed.
Lemma set_kernel_pagetable_settle v s : set_kernel_pagetable v (settle s) = settle (set_kernel_pagetable v s).
Proof. reflexivity. Qed.
Lemma set_procs_settle v s : set_procs v (settle s) = settle (set_procs v s).
Proof. reflexivity. Qed.
Lemma set_initproc_settle v s : set_initproc v (settle s) = settle (set_initproc v s).
Proof. reflexivity. Qed.
Lemma set_nextpid_settle v s : set_nextpid v (settle s) = settle (set_nextpid v s).
Proof. reflexivity. Qed.
Lemma set_first_settle v s : set_first v (settle s) = settle (set_first v s).
Proof. reflexivity. Qed.
Lemma set_ticks_settle v s : set_ticks v (settle s) = settle (set_ticks v s).
Proof. reflexivity. Qed.
Lemma set_files_settle v s : set_files v (settle s) = settle (set_files v s).
Proof. reflexivity. Qed.
Lemma set_devsw_settle v s : set_devsw v (settle s) = settle (set_devsw v s).
Proof. reflexivity. Qed.
Lemma set_inodes_settle v s : set_inodes v (settle s) = settle (set_inodes v s).
Proof. reflexivity. Qed.
Lemma set_sb_settle v s : set_sb v (settle s) = settle (set_sb v s).
Proof. reflexivity. Qed.
Lemma set_bufs_settle v s : set_bufs v (settle s) = settle (set_bufs v s).
Proof. reflexivity. Qed.
Lemma set_log_settle v s : set_log v (settle s) = settle (set_log v s).
Proof. reflexivity. Qed.
Lemma set_disk_settle v s : set_disk v (settle s) = settle (set_disk v s).
Proof. reflexivity. Qed.
Lemma set_disk_writes_settle v s : set_disk_writes v (settle s) = settle (set_disk_writes v s).
Proof. reflexivity. Qed.
Lemma set_vdisk__settle v s : set_vdisk_ v (settle s) = settle (set_vdisk_ v s).
Proof. reflexivity. Qed.
Lemma set_cons_settle v s : set_cons v (settle s) = settle (set_cons v s).
Proof. reflexivity. Qed.
Lemma set_uart__settle v s : set_uart_ v (settle s) = settle (set_uart_ v s).
Proof. reflexivity. Qed.
Lemma set_pr_locking_settle v s : set_pr_locking v (settle s) = settle (set_pr_locking v s).
Proof. reflexivity. Qed.
Lemma set_panicked_settle v s : set_panicked v (settle s) = settle (set_panicked v s).
Proof. reflexivity. Qed.
Lemma set_plic_irq_settle v s : set_plic_irq v (settle s) = settle (set_plic_irq v s).
Proof. reflexivity. Qed.
#[export] Hint Rewrite set_csr_settle set_locks_settle set_mem_settle set_freelist_settle set_kernel_pagetable_settle set_procs_settle set_initproc_settle set_nextpid_settle set_first_settle set_ticks_settle set_files_settle set_devsw_settle set_inodes_settle set_sb_settle set_bufs_settle set_log_settle set_disk_settle set_disk_writes_settle set_vdisk__settle set_cons_settle set_uart__settle set_pr_locking_settle set_panicked_settle set_plic_irq_settle settle_settle : kst.

(** [f] reads and writes nothing the lock code touches. *)
Definition lock_blind (f : kernel -> kernel) : Prop :=
  forall c b lk s, f (set_cpu_ c (set_sie b (set_locks lk s))) =
                   set_cpu_ c (set_sie b (set_locks lk (f s))).

Lemma lock_blind_proj f s :
  lock_blind f -> cpu_ (f s) = cpu_ s /\ sie (f s) = sie s /\ locks (f s) = locks s.
Proof.
  intros H. specialize (H (cpu_ s) (sie s) (locks s) s).
  replace (set_cpu_ (cpu_ s) (set_sie (sie s) (set_locks (locks s) s))) with s in H
    by (by destruct s).
  rewrite H. done.
Qed.

Lemma set_cpu_sie_locks_id s : set_cpu_ (cpu_ s) (set_sie (sie s) (set_locks (locks s) s)) = s.
Proof. by destruct s. Qed.

Lemma settle_blind f s : lock_blind f -> f (settle s) = settle (f s).
Proof.
  intros H. destruct (lock_blind_proj f s H) as (Hc & Hs & Hl).
  transitivity (f (set_cpu_ (set_c_intena (if c_noff (cpu_ s) =? 0 then sie s else c_intena (cpu_ s)) (cpu_ s))
                 (set_sie (sie s) (set_locks (locks s) s)))).
  { by f_equal. }
  rewrite H. unfold settle. rewrite Hc, Hs.
  set (c := set_c_intena _ _). rewrite <- Hs, <- Hl. by destruct (f s).
Qed.

(** A critical section whose body [f] is blind to the locks acts as [f]. *)
Lemma critical_eq lk f s :
  irq_ok s -> locks s !! lk = None -> lock_blind f -> hart (f (acquired lk s)) = hart s ->
  release lk (f (acquired lk s)) = Ret tt (settle (f s)).
Proof.
  intros Hok Hl Hf Hh.
  destruct (lock_blind_proj f (acquired lk s) Hf) as (Ec & Es & El).
  rewrite release_eq.
  - f_equal. rewrite <- settle_blind by done. rewrite <- popped_pushed by done.
    unfold released, acquired in *.
    assert (Hpush : pushed s = set_cpu_ (cpu_ (pushed s)) (set_sie false (set_locks (locks s) s))).
    { by destruct s. }
    rewrite El. cbn [locks set_locks]. rewrite delete_insert_id by done.
    destruct (lock_blind_proj f s Hf) as (Ec0 & Es0 & El0).
    rewrite Hpush. clear Hpush.
    assert (E1 : f (set_locks (<[lk:=hart s]> (locks s))
             (set_cpu_ (cpu_ (pushed s)) (set_sie false (set_locks (locks s) s)))) =
             set_cpu_ (cpu_ (pushed s)) (set_sie false (set_locks (<[lk:=hart s]> (locks s)) (f s)))).
    { rewrite <- Hf. f_equal. }
    rewrite E1.
    assert (E2 : popped (set_cpu_ (cpu_ (pushed s)) (set_sie false (set_locks (locks s) s))) =
      set_cpu_ (set_c_noff (c_noff (cpu_ s) + 1 - 1) (cpu_ (pushed s)))
        (set_sie (if (c_noff (cpu_ s) + 1 - 1 =? 0) && c_intena (cpu_ (pushed s)) then true else false)
          (set_locks (locks s) s))) by done.
    rewrite E2, Hf. done.
  - rewrite El. cbn. rewrite Hh. by rewrite lookup_insert_eq.
  - by rewrite Es.
  - rewrite Ec. destruct Hok. cbn. lia.
Qed.
