(* ===== verification/LockRace.v ===== *)
(** kernel/spinlock.c between harts: acquire and release as sequences of
    single memory accesses to the lock, interleaved arbitrarily.  Spinlock.v
    models one hart's run against a lock that others may hold; here every
    access of every hart is a step of its own. *)

From S2P Require Import Prelude.

(** Where a hart is in acquire or release of one lock.  holding() reads
    [locked] and then [cpu]; both are separate accesses. *)
Inductive lpc : Type :=
| Outside   (** before acquire *)
| AHold1 | AHold2   (** holding() at the start of acquire *)
| ASwap   (** the atomic swap *)
| ACpu   (** lk->cpu = mycpu() *)
| Critical   (** acquire has returned *)
| RHold1 | RHold2   (** holding() at the start of release *)
| RCpu   (** lk->cpu = 0 *)
| RSwap   (** the releasing store *)
| Panic.

(** struct spinlock *)
Record spinlock : Type := mkSpinlock { locked : Z; lkcpu : option nat }.

(** One access by hart [h] and where it goes on. *)
Definition acquire_step (h : nat) (pc : lpc) (lk : spinlock) : lpc * spinlock :=
  match pc with
  | Outside => (AHold1, lk)
  | AHold1 => (if locked lk =? 0 then ASwap else AHold2, lk)
  | AHold2 => (if decide (lkcpu lk = Some h) then Panic else ASwap, lk)
  | ASwap => (if locked lk =? 0 then ACpu else ASwap, mkSpinlock 1 (lkcpu lk))
  | ACpu => (Critical, mkSpinlock (locked lk) (Some h))
  | _ => (pc, lk)
  end.

Definition release_step (h : nat) (pc : lpc) (lk : spinlock) : lpc * spinlock :=
  match pc with
  | Critical => (RHold1, lk)
  | RHold1 => (if locked lk =? 0 then Panic else RHold2, lk)
  | RHold2 => (if decide (lkcpu lk = Some h) then RCpu else Panic, lk)
  | RCpu => (RSwap, mkSpinlock (locked lk) None)
  | RSwap => (Outside, mkSpinlock 0 (lkcpu lk))
  | _ => (pc, lk)
  end.

Definition lock_step (h : nat) (pc : lpc) (lk : spinlock) : lpc * spinlock :=
  match pc with
  | Outside | AHold1 | AHold2 | ASwap | ACpu => acquire_step h pc lk
  | _ => release_step h pc lk
  end.

(** All harts and the lock. *)
Definition system : Type := (nat -> lpc) * spinlock.
Definition sys_init : system := (fun _ => Outside, mkSpinlock 0 None).
Definition sys_step (h : nat) (x : system) : system :=
  let '(pc', lk') := lock_step h (x.1 h) x.2 in (fun k => if decide (k = h) then pc' else x.1 k, lk').

(** The harts take turns in any order. *)
Definition sys_run (sched : list nat) : system := foldl (fun x h => sys_step h x) sys_init sched.

(** A hart that owns the lock: from the successful swap to the releasing store. *)
Definition owns (pc : lpc) : Prop :=
  match pc with ACpu | Critical | RHold1 | RHold2 | RCpu | RSwap => True | _ => False end.
(** ... and whose number is in the cpu field. *)
Definition recorded (pc : lpc) : Prop :=
  match pc with Critical | RHold1 | RHold2 | RCpu => True | _ => False end.

Record lock_inv (x : system) : Prop := {
  li_one : forall h k, owns (x.1 h) -> owns (x.1 k) -> h = k;
  li_locked : (exists h, owns (x.1 h)) /\ locked x.2 = 1 \/ (forall h, ~ owns (x.1 h)) /\ locked x.2 = 0;
  li_cpu : forall h, lkcpu x.2 = Some h <-> recorded (x.1 h);
  li_panic : forall h, x.1 h <> Panic
}.

Lemma recorded_owns pc : recorded pc -> owns pc.
Proof. by destruct pc. Qed.

Lemma lock_inv_init : lock_inv sys_init.
Proof. split; simpl; [done| |intros h; split; done|done]. right. split; [intros h []|done]. Qed.

(** A step that keeps the owner and the lock. *)
Lemma lock_inv_quiet x h pc' :
  lock_inv x -> (owns pc' <-> owns (x.1 h)) -> (recorded pc' <-> recorded (x.1 h)) -> pc' <> Panic ->
  lock_inv (fun k => if decide (k = h) then pc' else x.1 k, x.2).
Proof.
  intros [H1 H2 H3 H4] Ho Hr Hp.
  assert (Eo : forall k, owns (if decide (k = h) then pc' else x.1 k) <-> owns (x.1 k)) by (intros k; by case_decide; subst).
  split; simpl.
  - intros k k' Hk Hk'. apply H1; by apply Eo.
  - destruct H2 as [[[k Hk] Hl]|[Hn Hl]]; [left|right]; (split; [|done]).
    + exists k. by apply Eo.
    + intros k. rewrite Eo. apply Hn.
  - intros k. rewrite H3. by case_decide; subst.
  - intros k. case_decide; [done|apply H4].
Qed.

Lemma other_not_owner x h k : lock_inv x -> owns (x.1 h) -> k <> h -> ~ owns (x.1 k).
Proof. intros Hinv Hh Hne Hk. apply Hne. by apply (li_one _ Hinv). Qed.

Lemma other_not_recorded x h k : lock_inv x -> owns (x.1 h) -> k <> h -> ~ recorded (x.1 k).
Proof. intros Hinv Hh Hne Hk%recorded_owns. by apply (other_not_owner x h k). Qed.

Lemma owner_locked x h : lock_inv x -> owns (x.1 h) -> locked x.2 = 1.
Proof. intros Hinv Ho. destruct (li_locked _ Hinv) as [[_ ?]|[Hn _]]; [done|]. by destruct (Hn h). Qed.

(** The four steps that change the lock. *)
Lemma lock_inv_swap x h :
  lock_inv x -> x.1 h = ASwap -> locked x.2 = 0 ->
  lock_inv (fun k => if decide (k = h) then ACpu else x.1 k, mkSpinlock 1 (lkcpu x.2)).
Proof.
  intros Hinv Eh Hl. pose proof Hinv as [H1 H2 H3 H4]. destruct H2 as [[_ ?]|[Hn _]]; [lia|]. split; simpl.
  - intros k k'. repeat case_decide; subst; try done; intros Hk Hk'; by destruct (Hn _ Hk) || destruct (Hn _ Hk').
  - left. split; [|done]. exists h. by rewrite decide_True.
  - intros k. rewrite H3. case_decide; subst; [by rewrite Eh|done].
  - intros k. by case_decide.
Qed.

Lemma lock_inv_cpu x h :
  lock_inv x -> x.1 h = ACpu ->
  lock_inv (fun k => if decide (k = h) then Critical else x.1 k, mkSpinlock (locked x.2) (Some h)).
Proof.
  intros Hinv Eh. pose proof Hinv as [H1 H2 H3 H4].
  assert (Ho : owns (x.1 h)) by (by rewrite Eh). split; simpl.
  - intros k k'. repeat case_decide; subst; try done; intros Hk Hk'.
    + by destruct (other_not_owner x h k').
    + by destruct (other_not_owner x h k).
    + by apply H1.
  - left. split; [|by eapply owner_locked]. exists h. by rewrite decide_True.
  - intros k. case_decide; subst; [done|]. split; [by intros [= ->]|]. intros Hk.
    by destruct (other_not_recorded x h k).
  - intros k. by case_decide.
Qed.

Lemma lock_inv_clear x h :
  lock_inv x -> x.1 h = RCpu ->
  lock_inv (fun k => if decide (k = h) then RSwap else x.1 k, mkSpinlock (locked x.2) None).
Proof.
  intros Hinv Eh. pose proof Hinv as [H1 H2 H3 H4].
  assert (Ho : owns (x.1 h)) by (by rewrite Eh). split; simpl.
  - intros k k'. repeat case_decide; subst; try done; intros Hk Hk'.
    + by destruct (other_not_owner x h k').
    + by destruct (other_not_owner x h k).
    + by apply H1.
  - left. split; [|by eapply owner_locked]. exists h. by rewrite decide_True.
  - intros k. split; [done|]. case_decide; subst; [done|]. intros Hk. by destruct (other_not_recorded x h k).
  - intros k. by case_decide.
Qed.

Lemma lock_inv_release x h :
  lock_inv x -> x.1 h = RSwap ->
  lock_inv (fun k => if decide (k = h) then Outside else x.1 k, mkSpinlock 0 (lkcpu x.2)).
Proof.
  intros Hinv Eh. pose proof Hinv as [H1 H2 H3 H4].
  assert (Ho : owns (x.1 h)) by (by rewrite Eh).
  assert (Hn : forall k, ~ owns (if decide (k = h) then Outside else x.1 k)).
  { intros k. case_decide; [by intros []|by apply (other_not_owner x h k)]. }
  split; simpl.
  - intros k k' Hk. by destruct (Hn k).
  - right. by split.
  - intros k. rewrite H3. case_decide; subst; [by rewrite Eh|done].
  - intros k. by case_decide.
Qed.

Lemma lock_inv_step h x : lock_inv x -> lock_inv (sys_step h x).
Proof.
  intros Hinv. pose proof (li_cpu _ Hinv h) as Hc. pose proof (li_panic _ Hinv h) as Hp.
  pose proof (owner_locked x h Hinv) as Hl. unfold sys_step, lock_step.
  destruct (x.1 h) eqn:Eh; cbn [acquire_step release_step owns recorded] in *;
    try (apply lock_inv_quiet; rewrite ?Eh; done).
  - apply lock_inv_quiet; rewrite ?Eh; by destruct (locked x.2 =? 0).
  - rewrite decide_False by (by intros ?%Hc). apply lock_inv_quiet; by rewrite ?Eh.
  - destruct (Z.eqb_spec (locked x.2) 0) as [E|E]; [by apply lock_inv_swap|].
    destruct (li_locked _ Hinv) as [[_ E1]|[_ E1]]; [|done].
    replace (mkSpinlock 1 (lkcpu x.2)) with x.2 by (destruct x as [? []]; simpl in *; by subst).
    apply lock_inv_quiet; by rewrite ?Eh.
  - by apply lock_inv_cpu.
  - rewrite (Hl I). apply lock_inv_quiet; by rewrite ?Eh.
  - rewrite decide_True by (by apply Hc). apply lock_inv_quiet; by rewrite ?Eh.
  - by apply lock_inv_clear.
  - by apply lock_inv_release.
Qed.

Lemma sys_run_inv sched : lock_inv (sys_run sched).
Proof.
  unfold sys_run. induction sched as [|h sched IH] using rev_ind; [apply lock_inv_init|].
  rewrite foldl_app. by apply lock_inv_step.
Qed.

(** C2. Whatever the order in which the harts' accesses to a lock happen, two
    harts are never both between the return of acquire and the call of
    release, holding() never misjudges its own hart, so neither acquire nor
    release panics, and a lock that no hart owns is taken by the next swap. *)
Theorem spinlock_mutual_exclusion sched :
  let x := sys_run sched in
  (forall h k, x.1 h = Critical -> x.1 k = Critical -> h = k) /\
  (forall h, x.1 h <> Panic) /\
  (forall h, x.1 h = Critical -> locked x.2 = 1 /\ lkcpu x.2 = Some h) /\
  (forall h, x.1 h = ASwap -> (forall k, ~ owns (x.1 k)) -> (sys_step h x).1 h = ACpu).
Proof.
  pose proof (sys_run_inv sched) as Hinv. cbv zeta. split; [|split; [|split]].
  - intros h k Eh Ek. apply (li_one _ Hinv); [by rewrite Eh|by rewrite Ek].
  - apply Hinv.
  - intros h Eh. split; [apply (owner_locked _ h Hinv); by rewrite Eh|apply (li_cpu _ Hinv); by rewrite Eh].
  - intros h Eh Hn. unfold sys_step, lock_step. rewrite Eh. cbn [acquire_step fst]. rewrite decide_True by done.
    destruct (li_locked _ Hinv) as [[[k Hk] _]|[_ ->]]; [by destruct (Hn k)|done].
Qed.
