(* ===== verification/SleepRace.v ===== *)
(** kernel/sleeplock.c with sleep and wakeup of kernel/proc.c between harts: processes that
    take and give back one sleep lock, every access to a shared variable and every
    acquire and release of a spinlock being a step of its own, interleaved arbitrarily.
    Proc.v and Sleeplock.v model one process between two switches; here the order in
    which sleep takes p->lock, gives lk back and sets p->state is visible to the others.

    A spinlock is taken in one step, which LockRace.v justifies: while it is held the step
    does nothing and is tried again. *)

From stdpp Require Import functions.
From S2P Require Import Prelude Outcome Mem State.

(** Where a process is. *)
Inductive spc : Type :=
| Out   (** does not hold the sleep lock *)
| AAcq | ATest | ASet | APid | ARel   (** acquiresleep *)
| SAcqP | SRelLk | SChan | SState | SSched | SAway | SClear | SRelP | SAcqLk   (** sleep *)
| Inside   (** acquiresleep has returned *)
| RAcq | RSet | RPid | RRel   (** releasesleep *)
| WLoop (q : nat) | WAcq (q : nat) | WState (q : nat) | WChan (q : nat) | WRun (q : nat) | WRel (q : nat).   (** wakeup, at process [q] *)

Section race.
(** The address of the sleep lock, the channel to sleep on. *)
Context (sl : chan).

(** The sleep lock, and of each process its lock, its state, its channel and where it is. *)
Record race : Type := mkRace {
  lk : option nat;   (** lk->lk: the process that holds it *)
  locked : bool;
  pid : option nat;   (** lk->pid: a process, or 0 *)
  plock : nat -> option nat;
  pstate : nat -> procstate;
  pchan : nat -> chan;
  at_ : nat -> spc
}.

Definition set_lk v x := mkRace v (locked x) (pid x) (plock x) (pstate x) (pchan x) (at_ x).
Definition set_locked v x := mkRace (lk x) v (pid x) (plock x) (pstate x) (pchan x) (at_ x).
Definition set_pid v x := mkRace (lk x) (locked x) v (plock x) (pstate x) (pchan x) (at_ x).
Definition set_plock q v x := mkRace (lk x) (locked x) (pid x) (<[q := v]> (plock x)) (pstate x) (pchan x) (at_ x).
Definition set_pstate q v x := mkRace (lk x) (locked x) (pid x) (plock x) (<[q := v]> (pstate x)) (pchan x) (at_ x).
Definition set_pchan q v x := mkRace (lk x) (locked x) (pid x) (plock x) (pstate x) (<[q := v]> (pchan x)) (at_ x).
Definition goto p c x := mkRace (lk x) (locked x) (pid x) (plock x) (pstate x) (pchan x) (<[p := c]> (at_ x)).

(** acquire and release of lk->lk and of the lock of process [q]. *)
Definition acquire_lk (p : nat) (c : spc) (x : race) : race := if lk x then x else goto p c (set_lk (Some p) x).
Definition release_lk (p : nat) (c : spc) (x : race) : race := goto p c (set_lk None x).
Definition acquire_p (p q : nat) (c : spc) (x : race) : race := if plock x q then x else goto p c (set_plock q (Some p) x).
Definition release_p (p q : nat) (c : spc) (x : race) : race := goto p c (set_plock q None x).

(** sleep(lk, &lk->lk).  In sched the hart switches to its scheduler, which gives p->lock back;
    some scheduler that holds p->lock and finds the process RUNNABLE switches to it again. *)
Definition sleep_step (p : nat) (x : race) : race :=
  match at_ x p with
  | SAcqP => acquire_p p p SRelLk x
  | SRelLk => release_lk p SChan x
  | SChan => goto p SState (set_pchan p sl x)
  | SState => goto p SSched (set_pstate p SLEEPING x)
  | SSched => release_p p p SAway x
  | SAway => if decide (pstate x p = RUNNABLE) then acquire_p p p SClear (if plock x p then x else set_pstate p RUNNING x) else x
  | SClear => goto p SRelP (set_pchan p ChNull x)
  | SRelP => release_p p p SAcqLk x
  | SAcqLk => acquire_lk p ATest x
  | _ => x
  end.

(** wakeup(lk). *)
Definition wakeup_step (p : nat) (x : race) : race :=
  match at_ x p with
  | WLoop q => goto p (if decide (NPROC <= q)%nat then RRel else if decide (q = p) then WLoop (S q) else WAcq q) x
  | WAcq q => acquire_p p q (WState q) x
  | WState q => goto p (if decide (pstate x q = SLEEPING) then WChan q else WRel q) x
  | WChan q => goto p (if decide (pchan x q = sl) then WRun q else WRel q) x
  | WRun q => goto p (WRel q) (set_pstate q RUNNABLE x)
  | WRel q => release_p p q (WLoop (S q)) x
  | _ => x
  end.

Definition acquiresleep_step (p : nat) (x : race) : race :=
  match at_ x p with
  | AAcq => acquire_lk p ATest x
  | ATest => goto p (if locked x then SAcqP else ASet) x
  | ASet => goto p APid (set_locked true x)
  | APid => goto p ARel (set_pid (Some p) x)
  | ARel => release_lk p Inside x
  | _ => x
  end.

Definition releasesleep_step (p : nat) (x : race) : race :=
  match at_ x p with
  | RAcq => acquire_lk p RSet x
  | RSet => goto p RPid (set_locked false x)
  | RPid => goto p (WLoop 0) (set_pid None x)
  | RRel => release_lk p Out x
  | _ => x
  end.

(** A process takes the sleep lock, gives it back, and so on. *)
Definition proc_step (p : nat) (x : race) : race :=
  match at_ x p with
  | Out => goto p AAcq x
  | Inside => goto p RAcq x
  | AAcq | ATest | ASet | APid | ARel => acquiresleep_step p x
  | RAcq | RSet | RPid | RRel => releasesleep_step p x
  | WLoop _ | WAcq _ | WState _ | WChan _ | WRun _ | WRel _ => wakeup_step p x
  | _ => sleep_step p x
  end.

(** kill of process [q], when its lock is free: it is woken whatever it waits for. *)
Definition kill_step (q : nat) (x : race) : race :=
  if plock x q then x else if decide (pstate x q = SLEEPING) then set_pstate q RUNNABLE x else x.

Inductive action : Type := Turn (p : nat) | Kill (q : nat).
Definition step (x : race) (a : action) : race :=
  match a with Turn p => if decide (p < NPROC)%nat then proc_step p x else x | Kill q => kill_step q x end.

(** All processes run, and nobody holds a lock. *)
Definition race_init : race := mkRace None false None (fun _ => None) (fun _ => RUNNING) (fun _ => ChNull) (fun _ => Out).
Definition race_run (sched : list action) : race := foldl step race_init sched.

(** ** The invariant *)

(** What a process holds: lk->lk, its own lock, the lock of the process it wakes, the sleep lock. *)
Definition holds_lk (c : spc) : bool :=
  match c with
  | ATest | ASet | APid | ARel | SAcqP | SRelLk | RSet | RPid | RRel | WLoop _ | WAcq _ | WState _ | WChan _ | WRun _ | WRel _ => true
  | _ => false
  end.
Definition holds_p (c : spc) : bool := match c with SRelLk | SChan | SState | SSched | SClear | SRelP => true | _ => false end.
Definition waking (c : spc) : option nat := match c with WState q | WChan q | WRun q | WRel q => Some q | _ => None end.
Definition inside (c : spc) : bool := match c with APid | ARel | Inside | RAcq | RSet => true | _ => false end.

(** The process that is at [c] has still to look at process [p]. *)
Definition to_wake (c : spc) (p : nat) : Prop :=
  match c with
  | RPid => True
  | WLoop r | WAcq r | WState r | WChan r | WRun r => (r <= p)%nat
  | WRel r => (r < p)%nat
  | _ => False
  end.

(** On the way to sleep without lk->lk, or asleep. *)
Definition dozing_at (c : spc) (st : procstate) : Prop :=
  match c with SChan | SState | SSched => True | SAway => st = SLEEPING | _ => False end.
Definition dozing (x : race) (p : nat) : Prop := dozing_at (at_ x p) (pstate x p).

(** p->state, where p is. *)
Definition state_at (c : spc) (st : procstate) : Prop :=
  match c with SSched => st = SLEEPING | SAway => st = SLEEPING \/ st = RUNNABLE | _ => st = RUNNING end.

Record race_inv (x : race) : Prop := {
  ri_lk : forall p, lk x = Some p <-> holds_lk (at_ x p) = true;
  ri_plock : forall q p, plock x q = Some p <-> p = q /\ holds_p (at_ x p) = true \/ waking (at_ x p) = Some q;
  ri_inside : forall p, inside (at_ x p) = true -> locked x = true;
  ri_one : forall p q, inside (at_ x p) = true -> inside (at_ x q) = true -> p = q;
  ri_free : forall p, at_ x p = ASet -> locked x = false;
  ri_pre : forall p, at_ x p = SAcqP \/ at_ x p = SRelLk -> locked x = true;
  ri_state : forall p, state_at (at_ x p) (pstate x p);
  ri_chan : forall p, at_ x p = SState \/ at_ x p = SSched \/ at_ x p = SAway -> pchan x p = sl;
  ri_found : forall p q, at_ x p = WChan q \/ at_ x p = WRun q -> pstate x q = SLEEPING;
  ri_other : forall p q, at_ x p = WAcq q \/ waking (at_ x p) = Some q -> q <> p;
  ri_range : forall p, at_ x p <> Out -> (p < NPROC)%nat;
  ri_key : forall p, dozing x p -> (p < NPROC)%nat -> locked x = false -> exists q, to_wake (at_ x q) p
}.

Lemma race_inv_init : race_inv race_init.
Proof. split; cbn; try done; try naive_solver. Qed.

(** Nobody else is at a place that holds what [p] holds. *)
Section facts.
Context (x : race) (Hx : race_inv x).

Lemma lk_one p q : holds_lk (at_ x p) = true -> holds_lk (at_ x q) = true -> p = q.
Proof using Hx. intros Hp%(ri_lk _ Hx) Hq%(ri_lk _ Hx). congruence. Qed.

Lemma waking_not_holds p q : waking (at_ x p) = Some q -> holds_p (at_ x q) = false.
Proof using Hx.
  intros Hw. destruct (holds_p (at_ x q)) eqn:E; [|done]. assert (E1 : plock x q = Some p) by (apply (ri_plock _ Hx); by right).
  assert (E2 : plock x q = Some q) by (apply (ri_plock _ Hx); by left). destruct (ri_other _ Hx p q); [by right|congruence].
Qed.

Lemma waking_holds_lk p q : waking (at_ x p) = Some q -> holds_lk (at_ x p) = true.
Proof. by destruct (at_ x p). Qed.
End facts.

(** A step of [p], case by case on where it is; [r] is the process that is asked about. *)
Ltac places p :=
  unfold proc_step, acquiresleep_step, releasesleep_step, sleep_step, wakeup_step, acquire_lk, acquire_p, release_lk, release_p;
  destruct (at_ _ p) eqn:?; repeat case_match; simplify_eq; cbn in *.
Ltac steps p r :=
  places p;
  destruct (decide (p = r)) as [<-|]; rewrite ?fn_lookup_insert, ?fn_lookup_insert_ne by done; cbn in *.

(** What is left is propositional, once the places are known. *)
Ltac settle_at := intros; repeat match goal with
  | H : _ \/ _ |- _ => destruct H
  | E : at_ _ _ = _ |- _ => rewrite E in *; clear E
  end; cbn in *; intuition congruence.

Section step.
Context (x : race) (Hx : race_inv x) (p : nat).

Lemma step_lk r : lk (proc_step p x) = Some r <-> holds_lk (at_ (proc_step p x) r) = true.
Proof. pose proof (ri_lk _ Hx r). pose proof (ri_lk _ Hx p). steps p r; naive_solver. Qed.

Lemma step_inside r : inside (at_ (proc_step p x) r) = true -> locked (proc_step p x) = true.
Proof.
  pose proof (ri_inside _ Hx r). pose proof (ri_inside _ Hx p). pose proof (ri_one _ Hx p r) as Ho. steps p r; try naive_solver.
Qed.

Lemma step_one r r' : inside (at_ (proc_step p x) r) = true -> inside (at_ (proc_step p x) r') = true -> r = r'.
Proof.
  pose proof (ri_one _ Hx r r') as Ho. pose proof (ri_free _ Hx p). pose proof (ri_inside _ Hx r). pose proof (ri_inside _ Hx r').
  pose proof (ri_one _ Hx p r) as Ho1. pose proof (ri_one _ Hx p r') as Ho2.
  steps p r; (destruct (decide (p = r')) as [<-|]; rewrite ?fn_lookup_insert, ?fn_lookup_insert_ne by done; cbn in *); naive_solver.
Qed.

Lemma step_free r : at_ (proc_step p x) r = ASet -> locked (proc_step p x) = false.
Proof. pose proof (ri_free _ Hx r). pose proof (ri_free _ Hx p). pose proof (lk_one x Hx p r). steps p r; settle_at. Qed.

Lemma step_pre r : at_ (proc_step p x) r = SAcqP \/ at_ (proc_step p x) r = SRelLk -> locked (proc_step p x) = true.
Proof. pose proof (ri_pre _ Hx r). pose proof (ri_pre _ Hx p). pose proof (lk_one x Hx p r). steps p r; settle_at. Qed.

Lemma step_plock q r : plock (proc_step p x) q = Some r <-> r = q /\ holds_p (at_ (proc_step p x) r) = true \/ waking (at_ (proc_step p x) r) = Some q.
Proof.
  pose proof (ri_plock _ Hx q r) as Hr. pose proof (ri_plock _ Hx q p) as Hp. pose proof (waking_not_holds x Hx r q) as H1. pose proof (waking_not_holds x Hx p q) as H2.
  pose proof (ri_other _ Hx p q) as H3.
  steps p r; try (match goal with |- context [ (<[?a := _]> _) q ] => destruct (decide (a = q)) as [<-|] end;
    rewrite ?fn_lookup_insert, ?fn_lookup_insert_ne by done; cbn in * ); intuition congruence.
Qed.

Lemma step_state r : state_at (at_ (proc_step p x) r) (pstate (proc_step p x) r).
Proof.
  pose proof (ri_state _ Hx r) as Hr. pose proof (ri_state _ Hx p) as Hp. pose proof (ri_found _ Hx p r) as Hf. pose proof (waking_not_holds x Hx p r) as H1.
  pose proof (fun q => ri_other _ Hx p q) as H2. steps p r; try exact Hr; try (unfold state_at in *; intuition congruence).
  { rewrite fn_lookup_insert_ne by (apply H2; by right). exact Hp. }
  destruct (decide (q = r)) as [->|]; rewrite ?fn_lookup_insert, ?fn_lookup_insert_ne by done; [|exact Hr].
  specialize (Hf (or_intror eq_refl)). specialize (H1 eq_refl). rewrite Hf in Hr. destruct (at_ x r); cbn in *; try done. by right.
Qed.

Lemma step_chan r : at_ (proc_step p x) r = SState \/ at_ (proc_step p x) r = SSched \/ at_ (proc_step p x) r = SAway -> pchan (proc_step p x) r = sl.
Proof. pose proof (ri_chan _ Hx r). pose proof (ri_chan _ Hx p). steps p r; intuition congruence. Qed.

Lemma step_other r q : at_ (proc_step p x) r = WAcq q \/ waking (at_ (proc_step p x) r) = Some q -> q <> r.
Proof. pose proof (ri_other _ Hx r q). pose proof (ri_other _ Hx p q). steps p r; naive_solver. Qed.

Lemma step_found r q : at_ (proc_step p x) r = WChan q \/ at_ (proc_step p x) r = WRun q -> pstate (proc_step p x) q = SLEEPING.
Proof.
  pose proof (ri_found _ Hx r q) as Hr. pose proof (ri_found _ Hx p q) as Hp. pose proof (lk_one x Hx p r) as Hl. pose proof (ri_plock _ Hx q r) as Hq.
  intros Hw. assert (Hk : p <> r -> holds_lk (at_ x r) = true /\ waking (at_ x r) = Some q).
  { revert Hw. steps p r; intros Hw ?; try done; by destruct Hw as [-> | ->]. }
  revert Hw Hk. steps p r; intros Hw Hk; try (intuition congruence); try (destruct Hw; simplify_eq; by eauto); destruct (Hk ltac:(done)) as [Hk1 Hk2].
  - destruct (decide (p = q)) as [<-|]; rewrite ?fn_lookup_insert, ?fn_lookup_insert_ne by done; [done|by apply Hr].
  - destruct (decide (p = q)) as [<-|]; rewrite ?fn_lookup_insert, ?fn_lookup_insert_ne by done; [intuition congruence|by apply Hr].
Qed.

(** Who dozes after the step dozed before, or goes from lk->lk to sleep; and the sleep lock is
    free after the step when it was, or when [p] frees it. *)
Lemma step_dozing r : dozing (proc_step p x) r -> dozing x r \/ p = r /\ at_ x p = SRelLk.
Proof.
  unfold dozing. pose proof (ri_state _ Hx p) as Hp. steps p r; try (by left); try (unfold dozing_at in *; intuition congruence).
  1, 2, 3: intros ?; left; match goal with E : at_ x p = _ |- _ => by rewrite E end.
  destruct (decide (q = r)) as [->|]; rewrite ?fn_lookup_insert, ?fn_lookup_insert_ne by done; [|by left]. by destruct (at_ x r); auto.
Qed.

Lemma step_unlocks : locked (proc_step p x) = false -> locked x = false \/ at_ x p = RSet.
Proof. places p; intuition congruence. Qed.

(** The process that has to look at [r] still has to, or it has woken it. *)
Lemma step_waker r : (r < NPROC)%nat -> dozing x r -> dozing (proc_step p x) r -> to_wake (at_ x p) r -> to_wake (at_ (proc_step p x) p) r.
Proof.
  intros Hr Hd Hd' Hw. assert (Hpr : p <> r) by (intros <-; unfold dozing in Hd; by destruct (at_ x p)).
  assert (Hal : forall q, waking (at_ x p) = Some q -> q = r -> at_ x r = SAway /\ pstate x r = SLEEPING /\ pchan x r = sl).
  { intros q Hq ->. pose proof (waking_not_holds x Hx p r Hq) as Hh. pose proof (ri_chan _ Hx r) as Hc. unfold dozing in Hd. destruct (at_ x r); cbn in *; try done. split_and!; [done|done|]. apply Hc. auto. }
  revert Hw Hal Hd'. unfold proc_step, wakeup_step, acquire_p, release_p, releasesleep_step. destruct (at_ x p) eqn:E; cbn; try done; intros Hw Hal Hd';
    repeat case_match; cbn; rewrite ?E, ?fn_lookup_insert; cbn; try lia.
  - destruct (decide (q = r)) as [->|]; [|lia]. destruct (Hal r eq_refl eq_refl) as (_ & ? & _). done.
  - destruct (decide (q = r)) as [->|]; [|lia]. destruct (Hal r eq_refl eq_refl) as (_ & _ & ?). done.
  - destruct (decide (q = r)) as [->|]; [|lia]. destruct (Hal r eq_refl eq_refl) as (Ha & _). unfold dozing in Hd'. cbn in Hd'.
    rewrite (fn_lookup_insert_ne (at_ x)) in Hd' by done. rewrite Ha, fn_lookup_insert in Hd'. done.
Qed.

Lemma step_key r : dozing (proc_step p x) r -> (r < NPROC)%nat -> locked (proc_step p x) = false -> exists q, to_wake (at_ (proc_step p x) q) r.
Proof.
  intros Hd Hr Hl. destruct (step_dozing r Hd) as [Hd0|[<- E]].
  2: { apply step_unlocks in Hl as [Hl|?]; [|congruence]. pose proof (ri_pre _ Hx p (or_intror E)). congruence. }
  destruct (step_unlocks Hl) as [Hl0|E].
  - destruct (ri_key _ Hx r Hd0 Hr Hl0) as [q Hq]. exists q. destruct (decide (p = q)) as [<-|Hne]; [by apply step_waker|].
    assert (Ea : at_ (proc_step p x) q = at_ x q) by (steps p q; done). by rewrite Ea.
  - exists p. unfold proc_step. rewrite E. unfold releasesleep_step. rewrite E. cbn. by rewrite fn_lookup_insert.
Qed.

Lemma step_range r : (p < NPROC)%nat -> at_ (proc_step p x) r <> Out -> (r < NPROC)%nat.
Proof.
  intros Hp. destruct (decide (p = r)) as [<-|Hne]; [done|]. assert (Ea : at_ (proc_step p x) r = at_ x r) by (steps p r; done).
  rewrite Ea. apply (ri_range _ Hx).
Qed.

Lemma race_inv_proc : (p < NPROC)%nat -> race_inv (proc_step p x).
Proof.
  intros Hp. split; eauto using step_lk, step_plock, step_inside, step_one, step_free, step_pre, step_state, step_chan, step_found, step_other, step_key.
  intros r. by apply step_range.
Qed.
End step.

Lemma race_inv_kill x q : race_inv x -> race_inv (kill_step q x).
Proof.
  intros Hx. unfold kill_step. destruct (plock x q) eqn:Ep; [done|]. case_decide as Hs; [|done].
  assert (Hq : at_ x q = SAway).
  { pose proof (ri_state _ Hx q) as H1. pose proof (ri_plock _ Hx q q) as H2. rewrite Ep in H2. destruct (at_ x q); cbn in *; try congruence.
    exfalso. assert (None = Some q) by (apply H2; auto). done. }
  assert (Hdoze : forall r, dozing (set_pstate q RUNNABLE x) r -> dozing x r).
  { intros r. unfold dozing. cbn. destruct (decide (q = r)) as [<-|]; [by rewrite Hq, fn_lookup_insert|by rewrite fn_lookup_insert_ne]. }
  split; cbn; try apply Hx.
  - intros r. destruct (decide (q = r)) as [<-|]; [rewrite Hq, fn_lookup_insert; by right|rewrite fn_lookup_insert_ne by done; apply Hx].
  - intros r r' Hr. destruct (decide (q = r')) as [<-|]; [|rewrite fn_lookup_insert_ne by done; by apply (ri_found _ Hx r)].
    assert (Hw : waking (at_ x r) = Some q) by (by destruct Hr as [-> | ->]). assert (plock x q = Some r) by (apply (ri_plock _ Hx); by right). congruence.
  - intros r Hr. by apply (ri_key _ Hx), Hdoze.
Qed.

Lemma race_inv_step x a : race_inv x -> race_inv (step x a).
Proof. intros Hx. destruct a as [p|q]; cbn; [case_decide; [by apply race_inv_proc|done]|by apply race_inv_kill]. Qed.

Lemma race_inv_steps l : forall x, race_inv x -> race_inv (foldl step x l).
Proof. induction l as [|a l IH]; intros x Hx; [done|]. cbn. by apply IH, race_inv_step. Qed.

Lemma race_run_inv sched : race_inv (race_run sched).
Proof. apply race_inv_steps, race_inv_init. Qed.

(** ** A wakeup reaches the sleeper *)

Section reach.
Context (p : nat).

(** [p] is asleep, and [q] has still to look at it. *)
Record nearing (q : nat) (x : race) : Prop := {
  nr_inv : race_inv x;
  nr_asleep : pstate x p = SLEEPING;
  nr_waker : to_wake (at_ x q) p
}.

Lemma asleep_at x : race_inv x -> pstate x p = SLEEPING -> at_ x p = SSched \/ at_ x p = SAway.
Proof. intros Hx Hs. pose proof (ri_state _ Hx p) as H. rewrite Hs in H. destruct (at_ x p); cbn in H; auto; congruence. Qed.

Lemma asleep_range x : race_inv x -> pstate x p = SLEEPING -> (p < NPROC)%nat.
Proof. intros Hx Hs. apply (ri_range _ Hx). destruct (asleep_at x Hx Hs) as [-> | ->]; done. Qed.

Lemma waker_range x q : nearing q x -> (q < NPROC)%nat /\ q <> p.
Proof.
  intros [Hx Hs Hw]. split; [apply (ri_range _ Hx); intros E; by rewrite E in Hw|]. intros ->. destruct (asleep_at x Hx Hs) as [E|E]; by rewrite E in Hw.
Qed.

Definition turns (l : list nat) (x : race) : race := foldl step x (Turn <$> l).

Lemma turns_app l1 l2 x : turns (l1 ++ l2) x = turns l2 (turns l1 x).
Proof. unfold turns. by rewrite fmap_app, foldl_app. Qed.

Lemma turns_cons q l x : (q < NPROC)%nat -> turns (q :: l) x = turns l (proc_step q x).
Proof. intros Hq. unfold turns. cbn. by rewrite decide_True. Qed.

(** A process that holds its own lock on the way to or from sleep gives it back in at most three turns. *)
Lemma lets_go q r x : nearing q x -> at_ x q = WAcq r -> (r <= p)%nat -> exists l, nearing q (turns l x) /\ at_ (turns l x) q = WAcq r /\ plock (turns l x) r = None.
Proof.
  intros Hn Eq Hrp. pose proof (nr_inv _ _ Hn) as Hx. destruct (waker_range x q Hn) as [_ Hqp]. pose proof (asleep_range x Hx (nr_asleep _ _ Hn)) as Hp.
  pose proof (ri_other _ Hx q r (or_introl Eq)) as Hrq.
  destruct (plock x r) as [k|] eqn:Ek; [|by exists []].
  (* one turn of r *)
  assert (Hone : forall y, nearing q y -> at_ y q = WAcq r -> holds_p (at_ y r) = true ->
    nearing q (proc_step r y) /\ at_ (proc_step r y) q = WAcq r).
  { intros y Hy Ey Hh. destruct Hy as [Hy1 Hy2 Hy3]. assert (Ea : at_ (proc_step r y) q = WAcq r).
    { rewrite <- Ey. unfold proc_step, sleep_step, release_lk, release_p. destruct (at_ y r); cbn in *; try done; by rewrite fn_lookup_insert_ne. }
    split; [|done]. split; [apply race_inv_proc; [done|lia]| |by rewrite Ea, <- Ey].
    pose proof (asleep_at y Hy1 Hy2) as Hat. unfold proc_step, sleep_step, release_lk, release_p. destruct (at_ y r) eqn:Er; cbn in *; try done.
    destruct (decide (r = p)) as [->|]; [by rewrite fn_lookup_insert|by rewrite fn_lookup_insert_ne]. }
  assert (Hh : holds_p (at_ x r) = true /\ at_ x r <> SRelLk).
  { apply (ri_plock _ Hx) in Ek. destruct Ek as [[-> Hh]|Hw].
    - split; [done|]. intros E. apply Hrq. apply (lk_one x Hx); [by rewrite E|by rewrite Eq].
    - exfalso. assert (k = q) as -> by (apply (lk_one x Hx); [by eapply waking_holds_lk|by rewrite Eq]). by rewrite Eq in Hw. }
  assert (Hr : (r < NPROC)%nat) by lia.
  assert (Hlast : forall y, nearing q y -> at_ y q = WAcq r -> at_ y r = SSched \/ at_ y r = SRelP ->
    exists l, nearing q (turns l y) /\ at_ (turns l y) q = WAcq r /\ plock (turns l y) r = None).
  { intros y Hy Ey Er. exists [r]. rewrite turns_cons by done. destruct (Hone y Hy Ey) as [H1 H2]; [by destruct Er as [-> | ->]|]. split; [done|]. split; [done|].
    unfold turns. cbn. unfold proc_step, sleep_step, release_p. destruct Er as [-> | ->]; cbn; by rewrite fn_lookup_insert. }
  assert (Hnext : forall y, nearing q y -> at_ y q = WAcq r -> at_ y r = SState \/ at_ y r = SClear ->
    exists l, nearing q (turns l y) /\ at_ (turns l y) q = WAcq r /\ plock (turns l y) r = None).
  { intros y Hy Ey Er. destruct (Hone y Hy Ey) as [H1 H2]; [by destruct Er as [-> | ->]|]. destruct (Hlast _ H1 H2) as (l & Hl).
    - unfold proc_step, sleep_step. destruct Er as [-> | ->]; cbn; rewrite fn_lookup_insert; auto.
    - exists (r :: l). by rewrite turns_cons. }
  destruct Hh as [Hh Hnr]. destruct (at_ x r) eqn:Er; try done; try (by apply Hnext; auto); try (by apply Hlast; auto).
  destruct (Hone x Hn Eq) as [H1 H2]; [by rewrite Er|]. destruct (Hnext _ H1 H2) as (l & Hl).
  - unfold proc_step, sleep_step. rewrite Er. cbn. rewrite fn_lookup_insert. auto.
  - exists (r :: l). by rewrite turns_cons.
Qed.

(** How far [q] has still to go. *)
Definition distance (c : spc) : nat :=
  match c with
  | RPid => 7 * (p + 2)
  | WLoop r => 7 * (p - r) + 6
  | WAcq r => 7 * (p - r) + 5
  | WState r => 7 * (p - r) + 4
  | WChan r => 7 * (p - r) + 3
  | WRun r => 7 * (p - r) + 2
  | WRel r => 7 * (p - r) + 1
  | _ => 0
  end.

(** One turn of the waker brings it nearer, or wakes [p]. *)
Lemma waker_turn q x : nearing q x -> (forall r, at_ x q = WAcq r -> plock x r = None) ->
  pstate (proc_step q x) p = RUNNABLE \/
  nearing q (proc_step q x) /\ (distance (at_ (proc_step q x) q) < distance (at_ x q))%nat.
Proof.
  intros Hn Hfree. destruct (waker_range x q Hn) as [Hq Hqp]. destruct Hn as [Hx Hs Hw]. pose proof (asleep_range x Hx Hs) as Hp.
  pose proof (race_inv_proc x Hx q Hq) as Hi. assert (Hd : dozing x p) by (unfold dozing; rewrite Hs; destruct (asleep_at x Hx Hs) as [-> | ->]; done).
  assert (Hst : pstate (proc_step q x) p = SLEEPING \/ pstate (proc_step q x) p = RUNNABLE).
  { clear -Hs Hqp Hw. unfold proc_step, wakeup_step, releasesleep_step, acquire_p, release_p. destruct (at_ x q) eqn:E; cbn in Hw; try done; repeat case_match; cbn; auto.
    destruct (decide (q0 = p)) as [->|]; [right; apply fn_lookup_insert|left; by rewrite fn_lookup_insert_ne]. }
  destruct Hst as [Hst|]; [right|by left]. assert (Hd' : dozing (proc_step q x) p) by (unfold dozing; rewrite Hst; destruct (asleep_at _ Hi Hst) as [-> | ->]; done).
  pose proof (step_waker x Hx q p Hp Hd Hd' Hw) as Hw'. split; [by split|].
  revert Hw Hw' Hfree. clear -Hp Hqp. unfold proc_step, wakeup_step, releasesleep_step, acquire_p, release_p. destruct (at_ x q) eqn:E; cbn; try done; intros Hw Hw' Hfree.
  all: repeat case_match; cbn in *; rewrite ?E, ?fn_lookup_insert in *; cbn in *; try lia.
  specialize (Hfree _ eq_refl). congruence.
Qed.

Lemma waker_arrives n : forall q x, nearing q x -> (distance (at_ x q) < n)%nat -> exists l, pstate (turns l x) p = RUNNABLE.
Proof.
  induction n as [|n IH]; intros q x Hn Hd; [lia|].
  assert (Hgo : forall y, nearing q y -> (distance (at_ y q) < S n)%nat -> (forall r, at_ y q = WAcq r -> plock y r = None) -> exists l, pstate (turns l y) p = RUNNABLE).
  { intros y Hy Hdy Hf. destruct (waker_range y q Hy) as [Hq _]. destruct (waker_turn q y Hy Hf) as [Hr|[Hn' Hd']].
    - exists [q]. by rewrite turns_cons.
    - destruct (IH q _ Hn' ltac:(lia)) as [l Hl]. exists (q :: l). by rewrite turns_cons. }
  destruct (at_ x q) eqn:E; try (apply Hgo; rewrite ?E; [done|done|done]).
  assert (Hrp : (q0 <= p)%nat) by (pose proof (nr_waker _ _ Hn) as Hw; by rewrite E in Hw).
  destruct (lets_go q q0 x Hn E Hrp) as (l & Hn' & E' & Hf). destruct (Hgo _ Hn') as (l' & Hl').
  - rewrite E'. done.
  - intros r. rewrite E'. by intros [= <-].
  - exists (l ++ l'). by rewrite turns_app.
Qed.
End reach.

(** C4. Whatever the order in which the accesses of the processes happen, and whoever
    is killed in between: no two processes hold the sleep lock at a time; no wakeup is
    lost, so that when a process is SLEEPING while the sleep lock is free some other
    process is in the wakeup of releasesleep and has still to look at it, and turns
    of the processes lead to where it is RUNNABLE; and a process that calls sched has its
    own lock and no other, and is not RUNNING, so that sched does not panic. *)
Theorem sleep_loses_no_wakeup (sched : list action) :
  let x := race_run sched in
  (forall p q, at_ x p = Inside -> at_ x q = Inside -> p = q) /\
  (forall p, pstate x p = SLEEPING -> locked x = false ->
    (exists q, to_wake (at_ x q) p) /\ exists turns, pstate (race_run (sched ++ (Turn <$> turns))) p = RUNNABLE) /\
  (forall p, at_ x p = SSched -> plock x p = Some p /\ lk x <> Some p /\ (forall q, plock x q = Some p -> q = p) /\ pstate x p <> RUNNING).
Proof.
  pose proof (race_run_inv sched) as Hx. cbv zeta. set (x := race_run sched) in *. split; [|split].
  - intros p q Ep Eq. apply (ri_one _ Hx); [by rewrite Ep|by rewrite Eq].
  - intros p Hs Hl. pose proof (asleep_range p x Hx Hs) as Hp.
    destruct (ri_key _ Hx p) as [q Hq]; [unfold dozing; rewrite Hs; destruct (asleep_at p x Hx Hs) as [-> | ->]; done|done|done|].
    split; [by exists q|]. destruct (waker_arrives p (S (distance p (at_ x q))) q x) as [l El]; [by split|lia|].
    exists l. unfold race_run. by rewrite foldl_app.
  - intros p E. pose proof (ri_lk _ Hx p) as H1. pose proof (ri_plock _ Hx p p) as H2. pose proof (ri_state _ Hx p) as H3. rewrite E in H1, H2, H3. cbn in H1, H2, H3.
    split; [apply H2; auto|]. split; [intros Hlk; by apply H1 in Hlk|]. split; [|congruence].
    intros q Hq. apply (ri_plock _ Hx) in Hq. rewrite E in Hq. destruct Hq as [[-> _]|?]; done.
Qed.
End race.

(** Process 2 takes the lock, process 5 goes to sleep, and process 2 wakes it. *)
Definition ex_race_turns (p n : nat) : list action := replicate n (Turn p).
Definition ex_race : list action := ex_race_turns 2 7 ++ ex_race_turns 5 8 ++ ex_race_turns 2 3.

Lemma ex_race_sleeps : let x := race_run ChLog ex_race in
  pstate x 5%nat = SLEEPING /\ locked x = false /\ at_ x 2%nat = WLoop 0 /\ pstate (race_run ChLog (ex_race ++ ex_race_turns 2 30)) 5%nat = RUNNABLE.
Proof. vm_compute. repeat split. Qed.
