(* ===== verification/KString.v ===== *)
(** kernel/string.c on a memory.  A pointer that is only read is a view, the
    function from offsets to the bytes it points at. *)

From S2P Require Import Prelude Outcome Mem.

Definition view (m : memory) (p : Z) : Z -> Z := fun i => load8 m (p + i).
Definition list_view (l : list Z) : Z -> Z := fun i => u8 (default 0 (l !! Z.to_nat i)).

(** void *memset(void *dst, int c, uint n) *)
Fixpoint memset_loop (n : nat) (i : Z) (dst c : Z) (m : memory) : memory :=
  match n with
  | O => m
  | S n' => memset_loop n' (i + 1) dst c (store8 m (dst + i) c)
  end.
Definition memset (m : memory) (dst c n : Z) : memory := memset_loop (Z.to_nat n) 0 dst c m.

(** int memcmp(const void *v1, const void *v2, uint n) *)
Fixpoint memcmp_loop (n : nat) (s1 s2 : Z -> Z) (i : Z) : Z :=
  match n with
  | O => 0
  | S n' => if negb (s1 i =? s2 i) then s1 i - s2 i else memcmp_loop n' s1 s2 (i + 1)
  end.
Definition memcmp (v1 v2 : Z -> Z) (n : Z) : Z := memcmp_loop (Z.to_nat n) v1 v2 0.

(** void *memmove(void *dst, const void *src, uint n) *)
Fixpoint move_down (n : nat) (m : memory) (d s : Z) : memory :=
  match n with
  | O => m
  | S n' => move_down n' (store8 m (d - 1) (load8 m (s - 1))) (d - 1) (s - 1)
  end.
Fixpoint move_up (n : nat) (m : memory) (d s : Z) : memory :=
  match n with
  | O => m
  | S n' => move_up n' (store8 m d (load8 m s)) (d + 1) (s + 1)
  end.
Definition memmove (m : memory) (dst src n : Z) : memory :=
  if n =? 0 then m
  else if (src <? dst) && (dst <? src + n)
  then move_down (Z.to_nat n) m (dst + n) (src + n)
  else move_up (Z.to_nat n) m dst src.

(** void *memcpy(void *dst, const void *src, uint n) *)
Definition memcpy (m : memory) (dst src n : Z) : memory := memmove m dst src n.

(** int strncmp(const char *p, const char *q, uint n) *)
Fixpoint strncmp_loop (n : nat) (p q : Z -> Z) (i : Z) : Z :=
  match n with
  | O => 0
  | S n' =>
      if truthy (p i) && (p i =? q i) then strncmp_loop n' p q (i + 1)
      else u8 (p i) - u8 (q i)
  end.
Definition strncmp (p q : Z -> Z) (n : nat) : Z := strncmp_loop n p q 0.

(** char *strncpy(char *s, const char *t, int n) *)
Fixpoint strncpy_pad (n : nat) (m : memory) (s : Z) : memory :=
  match n with
  | O => m
  | S n' => strncpy_pad n' (store8 m s 0) (s + 1)
  end.
Fixpoint strncpy_loop (n : nat) (m : memory) (s : Z) (t : Z -> Z) (i : Z) : memory :=
  match n with
  | O => m
  | S n' =>
      let m' := store8 m s (t i) in
      if truthy (t i) then strncpy_loop n' m' (s + 1) t (i + 1)
      else strncpy_pad n' m' (s + 1)
  end.
Definition strncpy (m : memory) (s : Z) (t : Z -> Z) (n : Z) : memory :=
  strncpy_loop (Z.to_nat n) m s t 0.

(** char *safestrcpy(char *s, const char *t, int n) *)
Fixpoint safestrcpy_loop (n : nat) (m : memory) (s : Z) (t : Z -> Z) (i : Z) : memory :=
  match n with
  | O => store8 m s 0
  | S n' =>
      let m' := store8 m s (t i) in
      if truthy (t i) then safestrcpy_loop n' m' (s + 1) t (i + 1) else store8 m' (s + 1) 0
  end.
Definition safestrcpy (m : memory) (s : Z) (t : Z -> Z) (n : Z) : memory :=
  if n <=? 0 then m else safestrcpy_loop (Z.to_nat (n - 1)) m s t 0.

(** int strlen(const char *s) *)
Fixpoint strlen_loop (f : nat) (s : Z -> Z) (n : Z) : option Z :=
  match f with
  | O => None
  | S f' => if truthy (s n) then strlen_loop f' s (n + 1) else Some n
  end.
Definition strlen `{Fuel} (s : Z -> Z) : option Z := strlen_loop fuel s 0.

#[global] Arguments memset : simpl never.
#[global] Arguments memmove : simpl never.

(** ** What the loops compute *)

Lemma memset_loop_spec n i dst c m b :
  load8 (memset_loop n i dst c m) b =
  if decide (dst + i <= b < dst + i + Z.of_nat n) then u8 c else load8 m b.
Proof.
  revert i m. induction n as [|n IH]; intros i m; cbn [memset_loop].
  { rewrite decide_False; [done|lia]. }
  rewrite IH, load8_store8. repeat case_decide; try done; lia.
Qed.

Lemma memset_spec m dst c n b :
  0 <= n ->
  load8 (memset m dst c n) b = if decide (dst <= b < dst + n) then u8 c else load8 m b.
Proof.
  intros Hn. unfold memset. rewrite memset_loop_spec.
  rewrite Z.add_0_r, Z2Nat.id by done. done.
Qed.

Lemma memcmp_loop_spec n s1 s2 i :
  memcmp_loop n s1 s2 i = 0 <-> (forall k, i <= k < i + Z.of_nat n -> s1 k = s2 k).
Proof.
  revert i. induction n as [|n IH]; intros i; cbn [memcmp_loop].
  { split; [|done]. intros _ k Hk. lia. }
  destruct (Z.eqb_spec (s1 i) (s2 i)) as [He|Hne]; cbn [negb].
  - rewrite IH. split; intros H k Hk; [|apply H; lia].
    destruct (decide (k = i)) as [->|]; [done|]. apply H. lia.
  - split; [lia|]. intros H. specialize (H i). lia.
Qed.

Lemma move_down_spec n m d s b :
  s < d ->
  load8 (move_down n m d s) b =
  if decide (d - Z.of_nat n <= b < d) then load8 m (b - d + s) else load8 m b.
Proof.
  revert m d s. induction n as [|n IH]; intros m d s H; cbn [move_down].
  { rewrite decide_False; [done|lia]. }
  rewrite IH by lia. rewrite !load8_store8.
  destruct (decide (d - 1 = b)) as [<-|].
  - rewrite (decide_False (P := d - 1 - Z.of_nat n <= d - 1 < d - 1)) by lia.
    rewrite decide_True by lia. replace (d - 1 - d + s) with (s - 1) by lia.
    apply u8_small, load8_range.
  - destruct (decide (d - 1 - Z.of_nat n <= b < d - 1)).
    + rewrite decide_False, decide_True by lia. f_equal. lia.
    + rewrite decide_False by lia. done.
Qed.

Lemma move_up_spec n m d s b :
  d <= s \/ s + Z.of_nat n <= d ->
  load8 (move_up n m d s) b =
  if decide (d <= b < d + Z.of_nat n) then load8 m (b - d + s) else load8 m b.
Proof.
  revert m d s. induction n as [|n IH]; intros m d s H; cbn [move_up].
  { rewrite decide_False; [done|lia]. }
  rewrite IH by lia. rewrite !load8_store8.
  destruct (decide (d = b)) as [<-|].
  - rewrite (decide_False (P := d + 1 <= d < d + 1 + Z.of_nat n)) by lia.
    rewrite decide_True by lia. rewrite Z.sub_diag, Z.add_0_l. apply u8_small, load8_range.
  - destruct (decide (d + 1 <= b < d + 1 + Z.of_nat n)).
    + rewrite decide_False, decide_True by lia. f_equal. lia.
    + rewrite decide_False by lia. done.
Qed.

(** memmove copies the source as it was before the call, however the two
    regions overlap, and writes nothing else. *)
Lemma memmove_spec m dst src n b :
  0 <= n ->
  load8 (memmove m dst src n) b =
  if decide (dst <= b < dst + n) then load8 m (src + (b - dst)) else load8 m b.
Proof.
  intros Hn. unfold memmove. destruct (Z.eqb_spec n 0) as [->|].
  { rewrite decide_False; [done|lia]. }
  destruct (Z.ltb_spec src dst); destruct (Z.ltb_spec dst (src + n)); cbn [andb].
  - rewrite move_down_spec by lia. rewrite Z2Nat.id by done.
    replace (dst + n - n) with dst by lia. case_decide; [|done]. f_equal. lia.
  - rewrite move_up_spec by lia. rewrite Z2Nat.id by done.
    case_decide; [|done]. f_equal. lia.
  - rewrite move_up_spec by lia. rewrite Z2Nat.id by done.
    case_decide; [|done]. f_equal. lia.
  - rewrite move_up_spec by lia. rewrite Z2Nat.id by done.
    case_decide; [|done]. f_equal. lia.
Qed.

Lemma load_bytes_memmove m dst src n :
  load_bytes (memmove m dst src (Z.of_nat n)) dst n = load_bytes m src n.
Proof.
  apply list_eq. intros i. destruct (decide (i < n)%nat) as [Hi|Hi].
  - rewrite !load_bytes_lookup by done. f_equal. rewrite memmove_spec by lia.
    rewrite decide_True by lia. f_equal. lia.
  - rewrite !lookup_ge_None_2; [done| |]; rewrite length_load_bytes; lia.
Qed.

(** Byte ranges on views. *)
Definition byte_view (p : Z -> Z) : Prop := forall i, 0 <= p i < 2 ^ 8.

Lemma byte_view_view m p : byte_view (view m p).
Proof. intros i. apply load8_range. Qed.
Lemma byte_view_list l : byte_view (list_view l).
Proof. intros i. apply u8_range. Qed.

(** The bytes a NUL-terminated comparison or copy looks at: position [k] is
    reached when no NUL stands before it. *)
Definition before_nul (p : Z -> Z) (k : Z) : Prop := forall j, 0 <= j < k -> p j <> 0.

Lemma strncmp_loop_spec n p q i :
  byte_view p -> byte_view q ->
  (strncmp_loop n p q i = 0 <->
   forall k, i <= k < i + Z.of_nat n -> (forall j, i <= j < k -> p j <> 0) -> p k = q k).
Proof.
  intros Hp Hq. revert i. induction n as [|n IH]; intros i; cbn [strncmp_loop].
  { split; [|done]. intros _ k Hk. lia. }
  rewrite !u8_small by auto.
  destruct (truthy (p i)) eqn:Ht; cbn [andb].
  - apply truthy_true in Ht. destruct (Z.eqb_spec (p i) (q i)) as [He|Hne].
    + rewrite IH. split; intros H k Hk Hj.
      * destruct (decide (k = i)) as [->|]; [done|]. apply H; [lia|]. intros; apply Hj; lia.
      * apply H; [lia|]. intros j Hj'. destruct (decide (j = i)) as [->|]; [done|]. apply Hj. lia.
    + split; [lia|]. intros H. specialize (H i ltac:(lia) ltac:(lia)). lia.
  - apply truthy_false in Ht. split.
    + intros He k Hk Hj. destruct (decide (k = i)) as [->|]; [lia|].
      exfalso. apply (Hj i); [lia|done].
    + intros H. specialize (H i ltac:(lia) ltac:(lia)). lia.
Qed.

(** strncmp returns 0 exactly when the two strings agree up to and including
    the first NUL of the first, within [n] characters. *)
Lemma strncmp_zero n p q :
  byte_view p -> byte_view q ->
  (strncmp p q n = 0 <-> forall k, 0 <= k < Z.of_nat n -> before_nul p k -> p k = q k).
Proof. intros Hp Hq. unfold strncmp. rewrite strncmp_loop_spec by done. done. Qed.

Lemma strncpy_pad_spec n m s b :
  load8 (strncpy_pad n m s) b =
  if decide (s <= b < s + Z.of_nat n) then 0 else load8 m b.
Proof.
  revert m s. induction n as [|n IH]; intros m s; cbn [strncpy_pad].
  { rewrite decide_False; [done|lia]. }
  rewrite IH, load8_store8. repeat case_decide; try lia; done.
Qed.

(** The [n] bytes strncpy stores for [t] from index [i]. *)
Fixpoint padded (n : nat) (t : Z -> Z) (i : Z) : list Z :=
  match n with
  | O => []
  | S n' => if truthy (t i) then t i :: padded n' t (i + 1) else replicate (S n') 0
  end.

Lemma length_padded n t i : length (padded n t i) = n.
Proof.
  revert i. induction n as [|n IH]; intros i; [done|]. cbn [padded].
  destruct (truthy (t i)); cbn; [by rewrite IH|by rewrite length_replicate].
Qed.

Lemma strncpy_pad_eq n m s : strncpy_pad n m s = store_bytes m s (replicate n 0).
Proof. revert m s. induction n as [|n IH]; intros m s; [done|]. cbn. apply IH. Qed.

Lemma strncpy_loop_eq n m s t i : strncpy_loop n m s t i = store_bytes m s (padded n t i).
Proof.
  revert m s i. induction n as [|n IH]; intros m s i; [done|].
  cbn [strncpy_loop padded]. destruct (truthy (t i)) eqn:Ht.
  - cbn [store_bytes]. apply IH.
  - apply truthy_false in Ht. rewrite Ht, strncpy_pad_eq. done.
Qed.

(** Before the first NUL the padded copy has the source's bytes. *)
Lemma padded_before n t i k :
  (k < n)%nat -> (forall j, i <= j <= i + Z.of_nat k -> t j <> 0) ->
  padded n t i !! k = Some (t (i + Z.of_nat k)).
Proof.
  revert i k. induction n as [|n IH]; intros i k Hk Hnz; [lia|]. cbn [padded].
  rewrite (proj2 (truthy_true (t i))) by (apply Hnz; lia).
  destruct k as [|k]; cbn [lookup list_lookup]; [by rewrite Z.add_0_r|].
  change (padded n t (i + 1) !! k = Some (t (i + Z.of_nat (S k)))).
  rewrite IH; [do 2 f_equal; lia|lia|]. intros j Hj. apply Hnz. lia.
Qed.

(** From the first NUL on it has zeros. *)
Lemma padded_after n t i k :
  (k < n)%nat -> (exists j, i <= j <= i + Z.of_nat k /\ t j = 0) ->
  padded n t i !! k = Some 0.
Proof.
  revert i k. induction n as [|n IH]; intros i k Hk (j & Hj & Hz); [lia|]. cbn [padded].
  destruct (truthy (t i)) eqn:Ht.
  - apply truthy_true in Ht. assert (j <> i) by congruence.
    destruct k as [|k]; [lia|]. cbn. apply IH; [lia|]. exists j. split; [lia|done].
  - by apply lookup_replicate_2.
Qed.

(** strncpy fills exactly [n] bytes: the string, then zeros. *)
Lemma strncpy_spec m s t n b :
  0 <= n ->
  load8 (strncpy m s t n) b =
  if decide (s <= b < s + n)
  then u8 (default 0 (padded (Z.to_nat n) t 0 !! Z.to_nat (b - s))) else load8 m b.
Proof.
  intros Hn. unfold strncpy. rewrite strncpy_loop_eq, load8_store_bytes, length_padded.
  by rewrite Z2Nat.id.
Qed.

(** safestrcpy writes inside its buffer and always leaves a NUL in it. *)
Lemma safestrcpy_loop_out n m s t i b :
  b < s \/ s + Z.of_nat n < b -> load8 (safestrcpy_loop n m s t i) b = load8 m b.
Proof.
  revert m s i. induction n as [|n IH]; intros m s i H; cbn [safestrcpy_loop].
  { apply load8_store8_ne. lia. }
  destruct (truthy (t i)).
  - rewrite IH by lia. apply load8_store8_ne. lia.
  - rewrite !load8_store8_ne by lia. done.
Qed.

Lemma safestrcpy_loop_nul n m s t i :
  byte_view t ->
  exists k, 0 <= k <= Z.of_nat n /\
    load8 (safestrcpy_loop n m s t i) (s + k) = 0 /\
    (forall j, 0 <= j < k -> load8 (safestrcpy_loop n m s t i) (s + j) = t (i + j) /\ t (i + j) <> 0) /\
    (k < Z.of_nat n -> t (i + k) = 0).
Proof.
  intros Hb. revert m s i. induction n as [|n IH]; intros m s i; cbn [safestrcpy_loop].
  { exists 0. rewrite Z.add_0_r, load8_store8_eq. split_and!; try lia; try done; intros; lia. }
  destruct (truthy (t i)) eqn:Ht.
  - destruct (IH (store8 m s (t i)) (s + 1) (i + 1)) as (k & Hk & Hz & Hpre & Hend).
    exists (k + 1). split; [lia|]. split; [by replace (s + (k + 1)) with (s + 1 + k) by lia|].
    split.
    + intros j Hj. destruct (decide (j = 0)) as [->|].
      * rewrite !Z.add_0_r. rewrite safestrcpy_loop_out by lia.
        rewrite load8_store8_eq, u8_small by auto. split; [done|]. by apply truthy_true.
      * destruct (Hpre (j - 1) ltac:(lia)) as [Hl Hn].
        replace (s + 1 + (j - 1)) with (s + j) in Hl by lia.
        replace (i + 1 + (j - 1)) with (i + j) in * by lia. done.
    + intros Hlt. replace (i + (k + 1)) with (i + 1 + k) by lia. apply Hend. lia.
  - apply truthy_false in Ht. exists 0. rewrite !Z.add_0_r.
    rewrite load8_store8_ne by lia. rewrite load8_store8_eq, Ht.
    split_and!; try lia; try done; intros; lia.
Qed.

Lemma strlen_loop_spec f s n k :
  strlen_loop f s n = Some k <->
  n <= k < n + Z.of_nat f /\ s k = 0 /\ (forall j, n <= j < k -> s j <> 0).
Proof.
  revert n. induction f as [|f IH]; intros n; cbn [strlen_loop].
  { split; [done|lia]. }
  destruct (truthy (s n)) eqn:Ht.
  - apply truthy_true in Ht. rewrite IH. split; intros (H1 & H2 & H3).
    + split; [lia|]. split; [done|]. intros j Hj. destruct (decide (j = n)) as [->|]; [done|].
      apply H3. lia.
    + assert (k <> n) by congruence. split; [lia|]. split; [done|]. intros; apply H3; lia.
  - apply truthy_false in Ht. split.
    + intros [= <-]. split; [lia|]. split; [done|]. intros; lia.
    + intros (H1 & H2 & H3). destruct (decide (k = n)) as [->|]; [done|].
      exfalso. apply (H3 n); [lia|done].
Qed.

#[global] Opaque memset memmove strncpy safestrcpy.
