(* ===== verification/Kalloc.v ===== *)
(** kernel/kalloc.c: the physical page allocator.

    The free pages form a linked list threaded through their own first eight
    bytes (struct run); [freelist] is kmem.freelist. *)

From S2P Require Import Prelude Outcome Mem State Spinlock KString.

Definition kmemset (dst c n : Z) : K unit :=
  modify (fun s => set_mem (memset (mem s) dst c n) s).
Definition kmemmove (dst src n : Z) : K unit :=
  modify (fun s => set_mem (memmove (mem s) dst src n) s).

Definition kfree (pa : Z) : K unit :=
  im <- gets img;;
  if negb (pa mod PGSIZE =? 0) || (pa <? end_addr im) || (PHYSTOP <=? pa)
  then panic "kfree" else
  (* Fill with junk to catch dangling refs. *)
  kmemset pa 1 PGSIZE;;
  acquire LKmem;;
  next <- gets freelist;;
  st64 pa next;;
  modify (set_freelist pa);;
  release LKmem.

Definition kalloc : K Z :=
  acquire LKmem;;
  r <- gets freelist;;
  (if truthy r then next <- ld64 r;; modify (set_freelist next) else ret tt);;
  release LKmem;;
  when (truthy r) (kmemset r 5 PGSIZE);;
  ret r.

Definition freerange_body (pa_end : Z) (p : Z) : K (Z + unit) :=
  if p + PGSIZE <=? pa_end then kfree p;; ret (inl (p + PGSIZE)) else ret (inr tt).

(** The loop runs once per page; the bound is the number of pages plus the
    last test. *)
Definition freerange (pa_start pa_end : Z) : K unit :=
  let p := PGROUNDUP pa_start in
  iter (S (Z.to_nat ((pa_end - p) / PGSIZE))) (freerange_body pa_end) p.

Definition kinit : K unit :=
  initlock LKmem;;
  im <- gets img;;
  freerange (end_addr im) PHYSTOP.

(** ** The free list *)

Fixpoint freelist_rep (m : memory) (head : Z) (l : list Z) : Prop :=
  match l with
  | [] => head = 0
  | p :: l' => head = p /\ freelist_rep m (load64 m p) l'
  end.

Definition image_ok (im : image) : Prop := 0 < end_addr im /\ end_addr im <= PHYSTOP.

Definition page_ok (im : image) (p : Z) : Prop :=
  p mod PGSIZE = 0 /\ end_addr im <= p /\ p < PHYSTOP.

(** The allocator's invariant: [l] is the list of free pages. *)
Definition kmem_inv (s : kernel) (l : list Z) : Prop :=
  image_ok (img s) /\ freelist_rep (mem s) (freelist s) l /\
  NoDup l /\ Forall (page_ok (img s)) l.

(** The state changes of the two operations, without the lock. *)
Definition kfree_st (pa : Z) (s : kernel) : kernel :=
  set_freelist pa (set_mem (store64 (memset (mem s) pa 1 PGSIZE) pa (freelist s)) s).
Definition kalloc_st (s : kernel) : kernel :=
  if truthy (freelist s)
  then set_mem (memset (mem s) (freelist s) 5 PGSIZE)
         (set_freelist (load64 (mem s) (freelist s)) s)
  else s.

Lemma page_ok_pos im p : image_ok im -> page_ok im p -> 0 < p < 2 ^ 56.
Proof.
  unfold image_ok, page_ok, PHYSTOP, KERNBASE. intros. lia.
Qed.

(** Distinct pages do not overlap. *)
Lemma page_disjoint p q :
  p mod PGSIZE = 0 -> q mod PGSIZE = 0 -> p <> q -> p + PGSIZE <= q \/ q + PGSIZE <= p.
Proof.
  unfold PGSIZE. intros Hp Hq Hne.
  pose proof (Z.div_mod p 4096). pose proof (Z.div_mod q 4096). lia.
Qed.

Lemma freelist_rep_ext m m' head l :
  (forall p, p ∈ l -> load64 m p = load64 m' p) ->
  freelist_rep m head l -> freelist_rep m' head l.
Proof.
  revert head. induction l as [|p l IH]; intros head H; [done|].
  cbn. intros [-> Hr]. split; [done|]. rewrite <- (H p) by set_solver.
  apply IH; [|done]. intros q Hq. apply H. set_solver.
Qed.

Lemma load64_memset_out m p c n b :
  0 <= n -> b + 8 <= p \/ p + n <= b -> load64 (memset m p c n) b = load64 m b.
Proof.
  intros Hn H. unfold load64. apply load_le_ext. intros x Hx.
  rewrite memset_spec by done. rewrite decide_False; [done|lia].
Qed.

Lemma kfree_eq pa s :
  irq_ok s -> locks s !! LKmem = None -> page_ok (img s) pa ->
  kfree pa s = Ret tt (settle (kfree_st pa s)).
Proof.
  intros Hi Hl (Ha & He & Hp). unfold kfree, bind, gets. cbn [obind].
  rewrite (proj2 (Z.eqb_eq _ _) Ha). destruct (Z.ltb_spec pa (end_addr (img s))); [lia|].
  destruct (Z.leb_spec PHYSTOP pa); [lia|]. cbn [negb orb].
  unfold kmemset, modify. cbn [obind]. rewrite acquire_eq by done. cbn [obind].
  unfold st64, modify. cbn [obind].
  exact (critical_eq LKmem
    (fun s => set_freelist pa (set_mem (store64 (mem s) pa (freelist s)) s))
    (set_mem (memset (mem s) pa 1 PGSIZE) s) Hi Hl (fun _ _ _ _ => eq_refl) eq_refl).
Qed.

Lemma kfree_panics pa s :
  ~ page_ok (img s) pa -> kfree pa s = Stop (Panicked "kfree").
Proof.
  intros H. unfold kfree, bind, gets. cbn [obind].
  destruct (Z.eqb_spec (pa mod PGSIZE) 0); cbn [negb orb]; [|done].
  destruct (Z.ltb_spec pa (end_addr (img s))); cbn [orb]; [done|].
  destruct (Z.leb_spec PHYSTOP pa); [done|]. exfalso. apply H. unfold page_ok. lia.
Qed.

Lemma kalloc_eq s :
  irq_ok s -> locks s !! LKmem = None ->
  kalloc s = Ret (freelist s) (settle (kalloc_st s)).
Proof.
  intros Hi Hl. unfold kalloc, kalloc_st. rewrite (bind_Ret _ _ _ _ _ (acquire_eq _ _ Hl)).
  unfold bind, gets. cbn [obind]. change (freelist (acquired LKmem s)) with (freelist s).
  destruct (truthy (freelist s)) eqn:Hr.
  - unfold ld64, gets, modify. cbn [obind].
    change (mem (acquired LKmem s)) with (mem s).
    rewrite (critical_eq LKmem (set_freelist (load64 (mem s) (freelist s))) s Hi Hl
      (fun _ _ _ _ => eq_refl) eq_refl).
    cbn [obind when]. unfold kmemset, modify, ret. cbn [obind].
    by autorewrite with kst.
  - cbn [obind ret]. by rewrite (critical_eq LKmem (fun s => s) s).
Qed.

Lemma kalloc_spec s r l :
  kmem_inv s (r :: l) ->
  freelist s = r /\ kmem_inv (kalloc_st s) l /\ r ∉ l /\ page_ok (img s) r /\
  (forall b, load8 (mem (kalloc_st s)) b =
             if decide (r <= b < r + PGSIZE) then 5 else load8 (mem s) b).
Proof.
  intros (Him & (Hh & Hr) & Hnd & Hok). apply Forall_cons in Hok as [Hokr Hok].
  apply NoDup_cons in Hnd as [Hnin Hnd].
  pose proof (page_ok_pos _ _ Him Hokr).
  split; [done|]. unfold kalloc_st. rewrite Hh, (proj2 (truthy_true r)) by lia.
  split; [|split; [done|split; [done|]]].
  - split; [done|]. split; [|by split]. cbn.
    eapply freelist_rep_ext; [|exact Hr]. intros p Hp. symmetry.
    apply load64_memset_out; [done|].
    assert (Hpok : page_ok (img s) p) by (by eapply Forall_forall in Hok).
    assert (p <> r) by congruence.
    destruct (page_disjoint p r) as [?|?]; [apply Hpok|apply Hokr|done|unfold PGSIZE in *; lia|lia].
  - intros b. cbn. by rewrite memset_spec.
Qed.

Lemma kalloc_empty s : kmem_inv s [] -> freelist s = 0 /\ kalloc_st s = s.
Proof.
  intros (_ & Hr & _). cbn in Hr. split; [done|]. unfold kalloc_st. by rewrite Hr.
Qed.

Lemma kfree_inv s pa l :
  kmem_inv s l -> page_ok (img s) pa -> pa ∉ l -> kmem_inv (kfree_st pa s) (pa :: l).
Proof.
  intros (Him & Hr & Hnd & Hok) Hpa Hnin.
  split; [done|]. split; [|split; [by constructor|by constructor]].
  cbn [freelist_rep]. split; [done|]. unfold kfree_st. cbn [mem set_freelist set_mem].
  rewrite load64_store64_eq.
  assert (Hfl : u64 (freelist s) = freelist s).
  { destruct l as [|q l]; cbn in Hr.
    - by rewrite Hr.
    - destruct Hr as [-> _]. apply Forall_cons in Hok as [Hq _].
      pose proof (page_ok_pos _ _ Him Hq). apply u64_small. lia. }
  rewrite Hfl. eapply freelist_rep_ext; [|exact Hr]. intros p Hp. symmetry.
  assert (Hpok : page_ok (img s) p) by (by eapply Forall_forall in Hok).
  assert (p <> pa) by congruence.
  destruct (page_disjoint p pa) as [?|?]; [apply Hpok|apply Hpa|done| |].
  - unfold load64, store64. rewrite load_store_le_out by (unfold PGSIZE in *; lia).
    apply load64_memset_out; [done|unfold PGSIZE in *; lia].
  - unfold load64, store64. rewrite load_store_le_out by (unfold PGSIZE in *; lia).
    apply load64_memset_out; [done|lia].
Qed.

Lemma kmem_inv_settle s l : kmem_inv (settle s) l <-> kmem_inv s l.
Proof. done. Qed.

(** Memory outside the freed page is untouched. *)
Lemma kfree_mem_out pa s b :
  b < pa \/ pa + PGSIZE <= b -> load8 (mem (kfree_st pa s)) b = load8 (mem s) b.
Proof.
  intros H. cbn. unfold store64, PGSIZE in *. rewrite load8_store_le_out by lia.
  rewrite memset_spec by lia. rewrite decide_False; [done|lia].
Qed.

(** The pages of [p, p + n * PGSIZE), last one first, as freerange pushes them. *)
Fixpoint pages_rev (n : nat) (p : Z) : list Z :=
  match n with
  | O => []
  | S n' => (p + Z.of_nat n' * PGSIZE) :: pages_rev n' p
  end.

Lemma elem_of_pages_rev n p x :
  x ∈ pages_rev n p <-> exists i, 0 <= i < Z.of_nat n /\ x = p + i * PGSIZE.
Proof.
  induction n as [|n IH]; cbn [pages_rev].
  { split; [set_solver|]. intros (i & Hi & _). lia. }
  rewrite elem_of_cons, IH. split.
  - intros [->|(i & Hi & ->)]; [exists (Z.of_nat n)|exists i]; split; (lia || done).
  - intros (i & Hi & ->). destruct (decide (i = Z.of_nat n)) as [->|]; [by left|].
    right. exists i. split; [lia|done].
Qed.

Lemma pages_rev_shift n p : pages_rev (S n) p = pages_rev n (p + PGSIZE) ++ [p].
Proof.
  induction n as [|n IH].
  { cbn. f_equal. lia. }
  change (pages_rev (S (S n)) p) with ((p + Z.of_nat (S n) * PGSIZE) :: pages_rev (S n) p).
  rewrite IH. cbn [pages_rev app]. f_equal. unfold PGSIZE. lia.
Qed.

(** Every byte of a free page is the allocator's: an update that stays inside
    one page that is not free keeps the free list. *)
Lemma kmem_inv_mem s l m' :
  kmem_inv s l -> (forall p b, p ∈ l -> p <= b < p + PGSIZE -> load8 m' b = load8 (mem s) b) ->
  kmem_inv (set_mem m' s) l.
Proof.
  intros (Him & Hr & Hnd & Hok) Hm. split; [done|]. split; [|done]. simpl.
  eapply freelist_rep_ext; [|exact Hr]. intros p Hp. apply load_le_ext. intros b Hb.
  symmetry. apply (Hm p); [done|]. unfold PGSIZE. lia.
Qed.

Lemma freerange_loop n : forall p pa_end l s f,
  irq_ok s -> locks s !! LKmem = None -> kmem_inv s l ->
  p mod PGSIZE = 0 -> end_addr (img s) <= p -> pa_end <= PHYSTOP ->
  p + Z.of_nat n * PGSIZE <= pa_end < p + Z.of_nat (S n) * PGSIZE ->
  (forall q, q ∈ pages_rev n p -> q ∉ l) -> (n < f)%nat ->
  returns (iter f (freerange_body pa_end) p s)
    (fun _ s' => kmem_inv s' (pages_rev n p ++ l) /\ irq_ok s' /\ locks s' = locks s /\
                 hart s' = hart s /\ img s' = img s).
Proof.
  induction n as [|n IH]; intros p pa_end l s f Hi Hl Hinv Ha He Hp Hb Hd Hf;
    (destruct f as [|f]; [lia|]); cbn [iter]; apply returns_bind; unfold freerange_body.
  - destruct (Z.leb_spec (p + PGSIZE) pa_end); [unfold PGSIZE in *; lia|]. simpl.
    split_and!; try done.
  - destruct (Z.leb_spec (p + PGSIZE) pa_end); [|unfold PGSIZE in *; lia].
    assert (Hpok : page_ok (img s) p) by (unfold page_ok, PGSIZE in *; lia).
    rewrite (bind_Ret _ _ _ _ _ (kfree_eq p s Hi Hl Hpok)). unfold ret. cbn [returns].
    assert (Hpl : p ∉ l).
    { apply Hd. rewrite elem_of_pages_rev. exists 0. unfold PGSIZE. lia. }
    eapply returns_mono;
      [apply (IH (p + PGSIZE) pa_end (p :: l) (settle (kfree_st p s)) f)|].
    + exact Hi.
    + exact Hl.
    + apply kmem_inv_settle, kfree_inv; done.
    + unfold PGSIZE in *. rewrite Z.add_mod, Ha by lia. done.
    + simpl. unfold PGSIZE. lia.
    + done.
    + unfold PGSIZE in *. lia.
    + intros q Hq. rewrite elem_of_pages_rev in Hq. destruct Hq as (i & Hi' & ->).
      rewrite not_elem_of_cons. split; [unfold PGSIZE; lia|].
      apply Hd. rewrite elem_of_pages_rev. exists (i + 1). unfold PGSIZE in *. lia.
    + lia.
    + intros [] s' (H1 & H2 & H3 & H4 & H5). split; [|done].
      rewrite pages_rev_shift, <- app_assoc. exact H1.
Qed.

(** C26. kalloc on a non-empty free list hands out its head, filled with 5s,
    and that page is on the free list no more; on an empty list it returns 0
    and changes nothing the allocator owns.  The free-list invariant holds
    afterwards, so no page can be handed out twice. *)
Theorem kalloc_hands_out_once (s : kernel) (l : list Z) :
  irq_ok s -> locks s !! LKmem = None -> kmem_inv s l ->
  returns (kalloc s) (fun r s' =>
    match l with
    | [] => r = 0 /\ s' = settle s
    | p :: l' =>
        r = p /\ page_ok (img s) p /\ p ∉ l' /\ kmem_inv s' l' /\ locks s' = locks s /\
        forall b, load8 (mem s') b =
                  if decide (p <= b < p + PGSIZE) then 5 else load8 (mem s) b
    end).
Proof.
  intros Hi Hl Hinv. rewrite kalloc_eq by done. cbn [returns]. destruct l as [|p l].
  - destruct (kalloc_empty s Hinv) as [-> ->]. done.
  - destruct (kalloc_spec s p l Hinv) as (-> & Hinv' & Hnin & Hok & Hm).
    split; [done|]. split; [done|]. split; [done|]. split; [done|]. split; [|exact Hm].
    unfold kalloc_st. by destruct (truthy (freelist s)).
Qed.

(** Freeing a page and allocating again returns that very page: the free
    list is back to what it was, the page is filled with 5s and no other byte
    of memory has changed. *)
Theorem kfree_kalloc_roundtrip (s : kernel) (l : list Z) (p : Z) :
  irq_ok s -> locks s !! LKmem = None -> kmem_inv s l -> page_ok (img s) p -> p ∉ l ->
  returns ((kfree p;; kalloc) s) (fun r s' =>
    r = p /\ kmem_inv s' l /\ locks s' = locks s /\
    forall b, load8 (mem s') b =
              if decide (p <= b < p + PGSIZE) then 5 else load8 (mem s) b).
Proof.
  intros Hi Hl Hinv Hok Hnin.
  rewrite (bind_Ret _ _ _ _ _ (kfree_eq p s Hi Hl Hok)).
  pose proof (kfree_inv s p l Hinv Hok Hnin) as Hinv'.
  rewrite kalloc_eq by done. cbn [returns].
  destruct (kalloc_spec (settle (kfree_st p s)) p l Hinv') as (Hr & Hl' & _ & _ & Hm).
  split; [exact Hr|]. split; [exact Hl'|]. split.
  { unfold kalloc_st. by destruct (truthy _). }
  intros b. specialize (Hm b). simpl in Hm |- *. rewrite Hm.
  case_decide; [done|]. change (load8 (mem (kfree_st p s)) b = load8 (mem s) b).
  apply kfree_mem_out. lia.
Qed.

(** kinit puts every whole page between the end of the kernel and PHYSTOP
    on the free list, and nothing else. *)
Theorem kinit_frees_all_pages (s : kernel) :
  irq_ok s -> image_ok (img s) -> freelist s = 0 ->
  returns (kinit s) (fun _ s' =>
    exists l, kmem_inv s' l /\ forall p, p ∈ l <-> page_ok (img s) p).
Proof.
  intros Hi Him Hf. unfold kinit, bind, initlock, modify, gets. cbn [obind].
  set (s1 := set_locks (delete LKmem (locks s)) s).
  set (e := end_addr (img s1)). set (p := PGROUNDUP e).
  assert (He : 0 <= e <= 2 ^ 64 - PGSIZE).
  { unfold e. simpl. unfold image_ok, PHYSTOP, KERNBASE, PGSIZE in *. lia. }
  destruct (PGROUNDUP_bounds e He) as [Hup Hal]. fold p in Hup, Hal.
  assert (Hple : p <= PHYSTOP).
  { destruct Him as [_ Him]. unfold PHYSTOP, KERNBASE, PGSIZE in *. fold e in Him.
    pose proof (Z.div_mod p 4096). subst e; simpl in *. lia. }
  set (n := Z.to_nat ((PHYSTOP - p) / PGSIZE)).
  assert (Hn : p + Z.of_nat n * PGSIZE = PHYSTOP).
  { unfold n, PHYSTOP, KERNBASE, PGSIZE in *.
    rewrite Z2Nat.id by (apply Z.div_pos; lia).
    pose proof (Z.div_mod p 4096). pose proof (Z.div_mod (0x80000000 + 128 * 1024 * 1024 - p) 4096).
    pose proof (Z.mod_pos_bound (0x80000000 + 128 * 1024 * 1024 - p) 4096). lia. }
  eapply returns_mono.
  - apply (freerange_loop n p PHYSTOP [] s1).
    + exact Hi.
    + simpl. by rewrite lookup_delete_eq.
    + split; [exact Him|]. split; [exact Hf|]. split; [constructor|constructor].
    + done.
    + simpl. unfold e in Hup. simpl in Hup. lia.
    + lia.
    + unfold PGSIZE in *. lia.
    + set_solver.
    + apply Nat.lt_succ_diag_r.
  - intros _ s' (Hinv & _). exists (pages_rev n p). rewrite app_nil_r in Hinv.
    split; [done|]. intros q. rewrite elem_of_pages_rev. unfold page_ok.
    change (img s) with (img s1). fold e. split.
    + intros (i & Hi' & ->). unfold PGSIZE in *. split; [|lia].
      rewrite Z.add_mod, Hal, Z.mod_mul by lia. done.
    + intros (Hq & Hqe & Hqp). exists ((q - p) / PGSIZE). unfold PGSIZE in *.
      pose proof (Z.div_mod p 4096). pose proof (Z.div_mod q 4096).
      assert ((q - p) mod 4096 = 0).
      { rewrite Zminus_mod, Hq, Hal. done. }
      pose proof (Z.div_mod (q - p) 4096). lia.
Qed.
