(* ===== verification/Vm.v ===== *)
(** kernel/vm.c: page tables, user memory and the copies between user and
    kernel memory.

    A page table is its root page in memory; a PTE is an aligned 64-bit word.
    Kernel buffers that a copy only reads are passed as the bytes they hold;
    buffers that a copy fills come back as the bytes written so far, also when
    the copy fails half way. *)

From S2P Require Import Prelude Outcome Mem State Spinlock KString Kalloc.

Definition pte_at (pagetable level va : Z) : Z := pagetable + 8 * PX level va.

(** The loop of walk() over the levels still to descend. *)
Fixpoint walk_loop (levels : list Z) (va : Z) (alloc : bool) (pagetable : Z) : K Z :=
  match levels with
  | [] => ret (pte_at pagetable 0 va)
  | level :: levels' =>
      let pte := pte_at pagetable level va in
      v <- ld64 pte;;
      if truthy (Z.land v PTE_V) then walk_loop levels' va alloc (PTE2PA v)
      else if negb alloc then ret 0
      else
        pg <- kalloc;;
        if pg =? 0 then ret 0 else
        kmemset pg 0 PGSIZE;;
        st64 pte (Z.lor (PA2PTE pg) PTE_V);;
        walk_loop levels' va alloc pg
  end.

Definition walk (pagetable va : Z) (alloc : bool) : K Z :=
  if MAXVA <=? va then panic "walk" else walk_loop [2; 1] va alloc pagetable.

Definition walkaddr (pagetable va : Z) : K Z :=
  if MAXVA <=? va then ret 0 else
  pte <- walk pagetable va false;;
  if pte =? 0 then ret 0 else
  v <- ld64 pte;;
  if Z.land v PTE_V =? 0 then ret 0 else
  if Z.land v PTE_U =? 0 then ret 0 else
  ret (PTE2PA v).

Definition mappages_body (pagetable last perm : Z) (st : Z * Z) : K (Z * Z + Z) :=
  let '(a, pa) := st in
  pte <- walk pagetable a true;;
  if pte =? 0 then ret (inr (-1)) else
  v <- ld64 pte;;
  if truthy (Z.land v PTE_V) then panic "mappages: remap" else
  st64 pte (Z.lor (Z.lor (PA2PTE pa) perm) PTE_V);;
  if a =? last then ret (inr 0) else ret (inl (u64 (a + PGSIZE), u64 (pa + PGSIZE))).

(** One iteration per page. *)
Definition mappages (pagetable va size pa perm : Z) : K Z :=
  if negb (va mod PGSIZE =? 0) then panic "mappages: va not aligned" else
  if negb (size mod PGSIZE =? 0) then panic "mappages: size not aligned" else
  if size =? 0 then panic "mappages: size" else
  let last := u64 (va + size - PGSIZE) in
  iter (S (Z.to_nat (size / PGSIZE))) (mappages_body pagetable last perm) (va, pa).

Definition kvmmap (kpgtbl va pa sz perm : Z) : K unit :=
  r <- mappages kpgtbl va sz pa perm;;
  if negb (r =? 0) then panic "kvmmap" else ret tt.

(** kernel/proc.c: proc_mapstacks *)
Definition proc_mapstacks (kpgtbl : Z) : K unit :=
  for_each (seqZ 0 (Z.of_nat NPROC)) (fun p =>
    pa <- kalloc;;
    if pa =? 0 then panic "kalloc" else
    kvmmap kpgtbl (KSTACK p) pa PGSIZE (Z.lor PTE_R PTE_W)).

Definition kvmmake : K Z :=
  kpgtbl <- kalloc;;
  kmemset kpgtbl 0 PGSIZE;;
  im <- gets img;;
  let etext := etext_addr im in
  (* uart registers *)
  kvmmap kpgtbl UART0 UART0 PGSIZE (Z.lor PTE_R PTE_W);;
  (* virtio mmio disk interface *)
  kvmmap kpgtbl VIRTIO0 VIRTIO0 PGSIZE (Z.lor PTE_R PTE_W);;
  (* PLIC *)
  kvmmap kpgtbl PLIC PLIC 0x400000 (Z.lor PTE_R PTE_W);;
  (* map kernel text executable and read-only. *)
  kvmmap kpgtbl KERNBASE KERNBASE (etext - KERNBASE) (Z.lor PTE_R PTE_X);;
  (* map kernel data and the physical RAM we'll make use of. *)
  kvmmap kpgtbl etext etext (PHYSTOP - etext) (Z.lor PTE_R PTE_W);;
  (* map the trampoline for trap entry/exit to the highest virtual address *)
  kvmmap kpgtbl TRAMPOLINE (trampoline_addr im) PGSIZE (Z.lor PTE_R PTE_X);;
  (* allocate and map a kernel stack for each process. *)
  proc_mapstacks kpgtbl;;
  ret kpgtbl.

Definition kvminit : K unit := pt <- kvmmake;; modify (set_kernel_pagetable pt).

(** The TLB flushes around the write of satp have no effect on the model,
    which has no TLB. *)
Definition kvminithart : K unit :=
  pt <- gets kernel_pagetable;;
  modify (fun s => set_csr (set_csr_satp (MAKE_SATP pt) (csr s)) s).

Definition uvmunmap_body (pagetable va npages : Z) (do_free : bool) (a : Z) : K (Z + unit) :=
  if negb (a <? u64 (va + npages * PGSIZE)) then ret (inr tt) else
  pte <- walk pagetable a false;;
  if pte =? 0 then panic "uvmunmap: walk" else
  v <- ld64 pte;;
  if Z.land v PTE_V =? 0 then panic "uvmunmap: not mapped" else
  if PTE_FLAGS v =? PTE_V then panic "uvmunmap: not a leaf" else
  when do_free (kfree (PTE2PA v));;
  st64 pte 0;;
  ret (inl (u64 (a + PGSIZE))).

Definition uvmunmap (pagetable va npages : Z) (do_free : bool) : K unit :=
  if negb (va mod PGSIZE =? 0) then panic "uvmunmap: not aligned" else
  iter (S (Z.to_nat npages)) (uvmunmap_body pagetable va npages do_free) va.

Definition uvmcreate : K Z :=
  pagetable <- kalloc;;
  if pagetable =? 0 then ret 0 else
  kmemset pagetable 0 PGSIZE;;
  ret pagetable.

Definition uvmfirst (pagetable : Z) (src : list Z) : K unit :=
  let sz := Z.of_nat (length src) in
  if PGSIZE <=? sz then panic "uvmfirst: more than a page" else
  mem_ <- kalloc;;
  kmemset mem_ 0 PGSIZE;;
  _ <- mappages pagetable 0 PGSIZE mem_ (Z.lor (Z.lor (Z.lor PTE_W PTE_R) PTE_X) PTE_U);;
  modify (fun s => set_mem (store_bytes (mem s) mem_ src) s).

Definition uvmdealloc (pagetable oldsz newsz : Z) : K Z :=
  if oldsz <=? newsz then ret oldsz else
  (if PGROUNDUP newsz <? PGROUNDUP oldsz then
     let npages := i32 (u64 (PGROUNDUP oldsz - PGROUNDUP newsz) / PGSIZE) in
     uvmunmap pagetable (PGROUNDUP newsz) (u64 npages) true
   else ret tt);;
  ret newsz.

Definition uvmalloc_body (pagetable oldsz newsz xperm : Z) (a : Z) : K (Z + Z) :=
  if negb (a <? newsz) then ret (inr newsz) else
  mem_ <- kalloc;;
  if mem_ =? 0 then
    _ <- uvmdealloc pagetable a oldsz;; ret (inr 0)
  else
    kmemset mem_ 0 PGSIZE;;
    r <- mappages pagetable a PGSIZE mem_ (Z.lor (Z.lor PTE_R PTE_U) xperm);;
    if negb (r =? 0) then
      kfree mem_;;
      _ <- uvmdealloc pagetable a oldsz;; ret (inr 0)
    else ret (inl (u64 (a + PGSIZE))).

Definition uvmalloc (pagetable oldsz newsz xperm : Z) : K Z :=
  if newsz <? oldsz then ret oldsz else
  let oldsz := PGROUNDUP oldsz in
  iter (2 + Z.to_nat ((newsz - oldsz) / PGSIZE)) (uvmalloc_body pagetable oldsz newsz xperm) oldsz.

(** The recursion follows the levels of the table. *)
Fixpoint freewalk_rec (depth : nat) (pagetable : Z) : K unit :=
  match depth with
  | O => halt OutOfFuel
  | S depth' =>
      for_each (seqZ 0 512) (fun i =>
        pte <- ld64 (pagetable + 8 * i);;
        if truthy (Z.land pte PTE_V) && (Z.land pte (Z.lor (Z.lor PTE_R PTE_W) PTE_X) =? 0) then
          (* this PTE points to a lower-level page table. *)
          freewalk_rec depth' (PTE2PA pte);;
          st64 (pagetable + 8 * i) 0
        else if truthy (Z.land pte PTE_V) then panic "freewalk: leaf" else ret tt);;
      kfree pagetable
  end.

Definition freewalk `{Fuel} (pagetable : Z) : K unit := freewalk_rec fuel pagetable.

Definition uvmfree `{Fuel} (pagetable sz : Z) : K unit :=
  when (0 <? sz) (uvmunmap pagetable 0 (PGROUNDUP sz / PGSIZE) true);;
  freewalk pagetable.

Definition uvmcopy_body (old new sz : Z) (i : Z) : K (Z + Z) :=
  if negb (i <? sz) then ret (inr 0) else
  pte <- walk old i false;;
  if pte =? 0 then panic "uvmcopy: pte should exist" else
  v <- ld64 pte;;
  if Z.land v PTE_V =? 0 then panic "uvmcopy: page not present" else
  let pa := PTE2PA v in
  let flags := PTE_FLAGS v in
  let err := uvmunmap new 0 (i / PGSIZE) true;; ret (inr (-1)) in
  mem_ <- kalloc;;
  if mem_ =? 0 then err else
  kmemmove mem_ pa PGSIZE;;
  r <- mappages new i PGSIZE mem_ flags;;
  if negb (r =? 0) then kfree mem_;; err else
  ret (inl (u64 (i + PGSIZE))).

Definition uvmcopy (old new sz : Z) : K Z :=
  iter (2 + Z.to_nat (sz / PGSIZE)) (uvmcopy_body old new sz) 0.

Definition uvmclear (pagetable va : Z) : K unit :=
  pte <- walk pagetable va false;;
  if pte =? 0 then panic "uvmclear" else
  v <- ld64 pte;;
  st64 pte (Z.land v (Z.lnot PTE_U)).

Definition copyout_body (pagetable : Z) (st : Z * list Z) : K (Z * list Z + Z) :=
  let '(dstva, src) := st in
  let len := Z.of_nat (length src) in
  if negb (0 <? len) then ret (inr 0) else
  let va0 := PGROUNDDOWN dstva in
  if MAXVA <=? va0 then ret (inr (-1)) else
  pte <- walk pagetable va0 false;;
  if pte =? 0 then ret (inr (-1)) else
  v <- ld64 pte;;
  if (Z.land v PTE_V =? 0) || (Z.land v PTE_U =? 0) || (Z.land v PTE_W =? 0)
  then ret (inr (-1)) else
  let pa0 := PTE2PA v in
  let n := PGSIZE - (dstva - va0) in
  let n := if len <? n then len else n in
  modify (fun s => set_mem (store_bytes (mem s) (pa0 + (dstva - va0)) (take (Z.to_nat n) src)) s);;
  ret (inl (va0 + PGSIZE, drop (Z.to_nat n) src)).

(** [len] bytes touch at most len/PGSIZE + 2 pages. *)
Definition copyout (pagetable dstva : Z) (src : list Z) : K Z :=
  iter (3 + length src / Z.to_nat PGSIZE) (copyout_body pagetable) (dstva, src).

Definition copyin_body (pagetable : Z) (st : list Z * Z * Z) : K (list Z * Z * Z + list Z * Z) :=
  let '(dst, srcva, len) := st in
  if negb (0 <? len) then ret (inr (dst, 0)) else
  let va0 := PGROUNDDOWN srcva in
  pa0 <- walkaddr pagetable va0;;
  if pa0 =? 0 then ret (inr (dst, -1)) else
  let n := PGSIZE - (srcva - va0) in
  let n := if len <? n then len else n in
  bs <- gets (fun s => load_bytes (mem s) (pa0 + (srcva - va0)) (Z.to_nat n));;
  ret (inl (dst ++ bs, va0 + PGSIZE, len - n)).

Definition copyin (pagetable srcva len : Z) : K (list Z * Z) :=
  iter (3 + Z.to_nat (len / PGSIZE)) (copyin_body pagetable) ([], srcva, len).

(** The inner loop of copyinstr: copy up to [n] bytes from [p]; the result
    says whether the NUL was copied. *)
Fixpoint copyinstr_bytes (m : memory) (n : nat) (p : Z) : list Z * bool :=
  match n with
  | O => ([], false)
  | S n' =>
      if load8 m p =? 0 then ([0], true)
      else let '(bs, got_null) := copyinstr_bytes m n' (p + 1) in (load8 m p :: bs, got_null)
  end.

Definition copyinstr_body (pagetable : Z) (st : list Z * Z * Z) :
    K (list Z * Z * Z + list Z * Z) :=
  let '(dst, srcva, max) := st in
  if negb (0 <? max) then ret (inr (dst, -1)) else
  let va0 := PGROUNDDOWN srcva in
  pa0 <- walkaddr pagetable va0;;
  if pa0 =? 0 then ret (inr (dst, -1)) else
  let n := PGSIZE - (srcva - va0) in
  let n := if max <? n then max else n in
  '(bs, got_null) <- gets (fun s =>
     copyinstr_bytes (mem s) (Z.to_nat n) (pa0 + (srcva - va0)));;
  if got_null : bool then ret (inr (dst ++ bs, 0))
  else ret (inl (dst ++ bs, va0 + PGSIZE, max - n)).

Definition copyinstr (pagetable srcva max : Z) : K (list Z * Z) :=
  iter (3 + Z.to_nat (max / PGSIZE)) (copyinstr_body pagetable) ([], srcva, max).
