(* ===== verification/VmSpec.v ===== *)
(** Page tables as finite maps: what the pages of a page table hold, and that
    walk, mappages, uvmunmap and walkaddr implement lookup, insertion and
    removal on the abstract map from virtual pages to leaf PTEs. *)

From S2P Require Import Prelude Outcome Mem State Spinlock KString Kalloc Vm.

(** A page-table tree: the physical page of every table, keyed by the indices
    that lead to it.  The root has the empty path, a leaf table a path of
    length two. *)
Notation ptree := (gmap (list Z) Z) (only parsing).

Definition idx_ok (i : Z) : Prop := 0 <= i < 512.
Definition in_page (p b : Z) : Prop := p <= b < p + PGSIZE.

Record pt_rep (im : image) (m : memory) (root : Z) (t : ptree) : Prop := {
  ptr_root : t !! [] = Some root;
  ptr_path : forall k p, t !! k = Some p -> (length k <= 2)%nat /\ Forall idx_ok k;
  ptr_page : forall k p, t !! k = Some p -> page_ok im p;
  ptr_inj : forall k k' p, t !! k = Some p -> t !! k' = Some p -> k = k';
  ptr_parent : forall k i q, t !! (k ++ [i]) = Some q -> is_Some (t !! k);
  ptr_word : forall k p i, t !! k = Some p -> (length k < 2)%nat -> idx_ok i ->
    match t !! (k ++ [i]) with
    | Some q => load64 m (p + 8 * i) = Z.lor (PA2PTE q) PTE_V
    | None => Z.land (load64 m (p + 8 * i)) PTE_V = 0
    end
}.

(** The invariant of a page table beside the free list [l]. *)
Record vm_inv (s : kernel) (root : Z) (t : ptree) (l : list Z) : Prop := {
  vmi_irq : irq_ok s;
  vmi_lock : locks s !! LKmem = None;
  vmi_kmem : kmem_inv s l;
  vmi_rep : pt_rep (img s) (mem s) root t;
  vmi_free : forall k p, t !! k = Some p -> p ∉ l
}.

Definition vapath (va : Z) : list Z := [PX 2 va; PX 1 va].

(** The abstract page map: the leaf PTE of a virtual address, 0 where no leaf
    table exists. *)
Definition leafword (m : memory) (t : ptree) (va : Z) : Z :=
  match t !! vapath va with Some p => load64 m (p + 8 * PX 0 va) | None => 0 end.

(** ** Slots *)

Lemma slot_inj p q i j :
  p mod PGSIZE = 0 -> q mod PGSIZE = 0 -> idx_ok i -> idx_ok j ->
  p + 8 * i = q + 8 * j -> p = q /\ i = j.
Proof.
  intros Hp Hq Hi Hj E. unfold idx_ok in *. destruct (decide (p = q)) as [->|Hne]; [lia|].
  destruct (page_disjoint p q Hp Hq Hne); unfold PGSIZE in *; lia.
Qed.

Lemma slot_aligned p i : p mod PGSIZE = 0 -> (p + 8 * i) mod 8 = 0.
Proof.
  unfold PGSIZE. intros Hp. pose proof (Z.div_mod p 4096).
  replace (p + 8 * i) with ((512 * (p / 4096) + i) * 8) by lia. apply Z.mod_mul. lia.
Qed.

Lemma slot_in_page p i : idx_ok i -> in_page p (p + 8 * i) /\ p + 8 * i + 8 <= p + PGSIZE.
Proof. unfold idx_ok, in_page, PGSIZE. lia. Qed.

Lemma in_page_inj p q b :
  p mod PGSIZE = 0 -> q mod PGSIZE = 0 -> in_page p b -> in_page q b -> p = q.
Proof.
  intros Hp Hq Hb Hb'. destruct (decide (p = q)) as [|Hne]; [done|].
  destruct (page_disjoint p q Hp Hq Hne); unfold in_page in *; lia.
Qed.

Lemma PX_idx level va : 0 <= level -> idx_ok (PX level va).
Proof. apply PX_range. Qed.

Lemma vapath_inj va va' :
  0 <= va < MAXVA -> 0 <= va' < MAXVA -> va mod PGSIZE = 0 -> va' mod PGSIZE = 0 ->
  vapath va = vapath va' -> PX 0 va = PX 0 va' -> va = va'.
Proof. intros ? ? ? ? [=] ?. by apply PX_inj. Qed.

Lemma load64_ext m m' a :
  (forall b, a <= b < a + 8 -> load8 m b = load8 m' b) -> load64 m a = load64 m' a.
Proof. intros H. apply load_le_ext. exact H. Qed.

(** ** Words of a tree *)

Section rep.
Context (im : image) (m : memory) (root : Z) (t : ptree).
Context (Him : image_ok im) (Hrep : pt_rep im m root t).

Lemma ptr_prefix k k' p : t !! (k ++ k') = Some p -> is_Some (t !! k).
Proof using Hrep.
  revert p. induction k' as [|i k' IH] using rev_ind; intros p H.
  { rewrite app_nil_r in H. by exists p. }
  rewrite app_assoc in H. destruct (ptr_parent _ _ _ _ Hrep _ _ _ H) as [q Hq]. eauto.
Qed.

Lemma ptr_child_valid k p i q :
  t !! k = Some p -> (length k < 2)%nat -> idx_ok i -> t !! (k ++ [i]) = Some q ->
  truthy (Z.land (load64 m (p + 8 * i)) PTE_V) = true /\ PTE2PA (load64 m (p + 8 * i)) = q.
Proof using Him Hrep.
  intros Hk Hlen Hi Hq. pose proof (ptr_word _ _ _ _ Hrep k p i Hk Hlen Hi) as Hw.
  rewrite Hq in Hw. rewrite Hw. pose proof (ptr_page _ _ _ _ Hrep _ _ Hq) as Hpg.
  pose proof (page_ok_pos _ _ Him Hpg). split.
  - apply truthy_true. rewrite Z.land_lor_distr_l. intros [_ H1]%Z.lor_eq_0_iff.
    by cbv in H1.
  - apply PTE2PA_PA2PTE; [lia|apply Hpg|done].
Qed.

Lemma ptr_child_none k p i :
  t !! k = Some p -> (length k < 2)%nat -> idx_ok i -> t !! (k ++ [i]) = None ->
  truthy (Z.land (load64 m (p + 8 * i)) PTE_V) = false.
Proof using Hrep.
  intros Hk Hlen Hi Hq. pose proof (ptr_word _ _ _ _ Hrep k p i Hk Hlen Hi) as Hw.
  rewrite Hq in Hw. by apply truthy_false.
Qed.
End rep.

(** The path of [va] through the levels still to descend. *)
Definition path_of (levels : list Z) (va : Z) : list Z := (fun lv => PX lv va) <$> levels.

Lemma walk_loop_noalloc im root t levels va k p s :
  image_ok im -> img s = im -> pt_rep im (mem s) root t ->
  Forall (fun lv => 0 <= lv) levels ->
  t !! k = Some p -> (length k + length levels = 2)%nat ->
  walk_loop levels va false p s =
  Ret (match t !! (k ++ path_of levels va) with Some q => pte_at q 0 va | None => 0 end) s.
Proof.
  intros Him Hs Hrep Hlv. revert k p. induction levels as [|lv levels IH]; intros k p Hk Hlen.
  { simpl. by rewrite app_nil_r, Hk. }
  apply Forall_cons in Hlv as [Hlv Hlvs]. cbn [walk_loop]. unfold bind, ld64, gets. cbn [obind].
  simpl in Hlen. unfold pte_at at 1 2.
  destruct (t !! (k ++ [PX lv va])) as [q|] eqn:Hq.
  - destruct (ptr_child_valid im (mem s) root t Him Hrep k p (PX lv va) q) as [Hv Hpa];
      [done|lia|by apply PX_idx|done|].
    unfold pte_at. rewrite Hv, Hpa. rewrite (IH Hlvs (k ++ [PX lv va]) q Hq);
      [|rewrite length_app; simpl; lia].
    by rewrite <- app_assoc.
  - unfold pte_at. rewrite (ptr_child_none im (mem s) root t Hrep k p (PX lv va));
      [|done|lia|by apply PX_idx|done].
    cbn [negb]. unfold ret.
    destruct (t !! (k ++ path_of (lv :: levels) va)) as [q|] eqn:E; [|done].
    exfalso. change (path_of (lv :: levels) va) with ([PX lv va] ++ path_of levels va) in E.
    rewrite app_assoc in E. destruct (ptr_prefix im (mem s) root t Hrep _ _ _ E) as [x Hx].
    congruence.
Qed.

(** walk without allocation reads the tree and changes nothing. *)
Lemma walk_noalloc root t va s :
  image_ok (img s) -> pt_rep (img s) (mem s) root t -> 0 <= va < MAXVA ->
  walk root va false s =
  Ret (match t !! vapath va with Some q => q + 8 * PX 0 va | None => 0 end) s.
Proof.
  intros Him Hrep Hva. unfold walk. destruct (Z.leb_spec MAXVA va); [lia|].
  rewrite (walk_loop_noalloc (img s) root t [2; 1] va [] root); try done.
  - repeat constructor; lia.
  - apply Hrep.
Qed.

(** ** Growing a tree *)

Definition vm_frame (s s' : kernel) : Prop :=
  settle s' = settle (set_mem (mem s') (set_freelist (freelist s') s)).

Lemma vm_frame_refl s : vm_frame s s.
Proof. unfold vm_frame. by f_equal. Qed.

(** A frame keeps everything but memory, the free list and the saved
    interrupt flag. *)
Lemma vm_frame_proj s s' :
  vm_frame s s' ->
  img s' = img s /\ hart s' = hart s /\ locks s' = locks s /\ sie s' = sie s /\
  c_noff (cpu_ s') = c_noff (cpu_ s) /\ c_proc (cpu_ s') = c_proc (cpu_ s).
Proof.
  unfold vm_frame. intros H. split_and!.
  - exact (f_equal img H).
  - exact (f_equal hart H).
  - exact (f_equal locks H).
  - exact (f_equal sie H).
  - exact (f_equal (fun s => c_noff (cpu_ s)) H).
  - exact (f_equal (fun s => c_proc (cpu_ s)) H).
Qed.

Lemma settle_eq_set_mem_freelist m f s s' :
  settle s = settle s' ->
  settle (set_mem m (set_freelist f s)) = settle (set_mem m (set_freelist f s')).
Proof.
  intros H. rewrite <- !set_mem_settle, <- !set_freelist_settle. by rewrite H.
Qed.

Lemma vm_frame_trans s1 s2 s3 : vm_frame s1 s2 -> vm_frame s2 s3 -> vm_frame s1 s3.
Proof.
  unfold vm_frame. intros H1 H2. rewrite H2.
  rewrite (settle_eq_set_mem_freelist _ _ _ _ H1). done.
Qed.

Lemma vm_frame_irq s s' : vm_frame s s' -> irq_ok s -> irq_ok s'.
Proof.
  intros (_ & _ & _ & Hs & Hn & _)%vm_frame_proj. unfold irq_ok. by rewrite Hs, Hn.
Qed.

Lemma vm_frame_settle s s' : vm_frame s s' -> vm_frame s (settle s').
Proof. unfold vm_frame. intros H. rewrite settle_settle. exact H. Qed.

Lemma vm_frame_set_mem s m : vm_frame s (set_mem m s).
Proof. unfold vm_frame. by f_equal. Qed.

Lemma vm_frame_kalloc s : vm_frame s (kalloc_st s).
Proof.
  unfold kalloc_st. destruct (truthy (freelist s)); [|apply vm_frame_refl].
  unfold vm_frame. f_equal.
Qed.

Lemma vm_frame_kfree p s : vm_frame s (kfree_st p s).
Proof. unfold vm_frame, kfree_st. f_equal. Qed.

(** [t] may have grown to [t'] with pages taken from the free list; no leaf
    PTE has changed, nor any byte outside the interior tables and the pages
    that were free. *)
Record pt_ext (s : kernel) (t : ptree) (l : list Z) (s' : kernel) (t' : ptree) (l' : list Z) : Prop := {
  pe_frame : vm_frame s s';
  pe_sub : t ⊆ t';
  pe_new : forall k p, t' !! k = Some p -> t !! k = Some p \/ p ∈ l;
  pe_free : exists used, l = used ++ l' /\ forall p, p ∈ used -> exists k, t' !! k = Some p;
  pe_mem : forall b, (forall p, p ∈ l -> ~ in_page p b) ->
    (forall k p, t !! k = Some p -> (length k < 2)%nat -> ~ in_page p b) ->
    load8 (mem s') b = load8 (mem s) b;
  pe_leaf : forall va, leafword (mem s') t' va = leafword (mem s) t va;
  pe_count : (size t' + length l' = size t + length l)%nat
}.

Lemma pt_ext_refl s t l : pt_ext s t l s t l.
Proof.
  split; try done.
  - by left.
  - exists []. split; [done|]. intros p Hp. by apply elem_of_nil in Hp.
Qed.

Lemma pt_ext_trans s1 t1 l1 s2 t2 l2 s3 t3 l3 :
  pt_ext s1 t1 l1 s2 t2 l2 -> pt_ext s2 t2 l2 s3 t3 l3 -> pt_ext s1 t1 l1 s3 t3 l3.
Proof.
  intros [F1 S1 N1 [u1 [U1 V1]] M1 L1 C1] [F2 S2 N2 [u2 [U2 V2]] M2 L2 C2]. split.
  - by eapply vm_frame_trans.
  - by etransitivity.
  - intros k p H. destruct (N2 k p H) as [H'|H']; [by apply N1|]. right. set_solver.
  - exists (u1 ++ u2). split; [by rewrite U1, U2, app_assoc|]. intros p [Hp|Hp]%elem_of_app; [|by apply V2].
    destruct (V1 p Hp) as [k Hk]. exists k. by eapply lookup_weaken.
  - intros b Hl Hi. rewrite M2.
    + by apply M1.
    + intros p Hp. apply Hl. set_solver.
    + intros k p Hk Hlen. destruct (N1 k p Hk) as [H'|H']; [by eapply Hi|by apply Hl].
  - intros va. by rewrite L2.
  - lia.
Qed.

Lemma load64_zero m a : (forall b, a <= b < a + 8 -> load8 m b = 0) -> load64 m a = 0.
Proof.
  apply (load_le_zero m a 8).
Qed.

Section grow.
Context (s : kernel) (root : Z) (t : ptree) (l : list Z) (pg : Z).
Context (k : list Z) (p i : Z).
Context (Hinv : vm_inv s root t (pg :: l)).
Context (Hk : t !! k = Some p) (Hlen : (length k < 2)%nat) (Hi : idx_ok i).
Context (Hnone : t !! (k ++ [i]) = None).

(** The state after kalloc, memset and the store of the new PTE. *)
Definition grow_st : kernel :=
  let s1 := settle (kalloc_st s) in
  let s2 := set_mem (memset (mem s1) pg 0 PGSIZE) s1 in
  set_mem (store64 (mem s2) (p + 8 * i) (Z.lor (PA2PTE pg) PTE_V)) s2.

Let t' : ptree := <[k ++ [i] := pg]> t.

Lemma grow_pages :
  page_ok (img s) pg /\ pg ∉ l /\ page_ok (img s) p /\ p <> pg /\ image_ok (img s).
Proof.
  destruct Hinv as [_ _ (Him & _ & Hnd & Hok) Hrep Hfree].
  apply Forall_cons in Hok as [Hpg _]. apply NoDup_cons in Hnd as [Hnin _].
  split_and!; try done.
  - by eapply ptr_page.
  - intros ->. apply (Hfree k pg Hk). set_solver.
Qed.

Lemma grow_byte_out b :
  ~ in_page pg b -> ~ (p + 8 * i <= b < p + 8 * i + 8) ->
  load8 (mem grow_st) b = load8 (mem s) b.
Proof.
  intros Hb Hs. unfold grow_st. simpl. unfold store64. rewrite load8_store_le_out by lia.
  rewrite memset_spec by done. unfold in_page in Hb. rewrite decide_False by lia.
  destruct (kalloc_spec s pg l (vmi_kmem _ _ _ _ Hinv)) as (_ & _ & _ & _ & Hm).
  rewrite Hm. by rewrite decide_False by lia.
Qed.

Lemma grow_word_other q j :
  page_ok (img s) q -> q <> pg -> idx_ok j -> (q, j) <> (p, i) ->
  load64 (mem grow_st) (q + 8 * j) = load64 (mem s) (q + 8 * j).
Proof.
  intros Hq Hne Hj Hqj. destruct grow_pages as (Hpg & _ & Hp & _ & _).
  apply load64_ext. intros b Hb.
  assert (Hbq : in_page q b) by (unfold in_page, idx_ok, PGSIZE in *; lia).
  apply grow_byte_out.
  - intros Hb'. apply Hne. apply (in_page_inj q pg b); try done; [apply Hq|apply Hpg].
  - intros Hb'. assert (Hbp : in_page p b) by (unfold in_page, idx_ok, PGSIZE in *; lia).
    assert (q = p) by (apply (in_page_inj q p b); try done; [apply Hq|apply Hp]).
    subst q. apply Hqj. f_equal. lia.
Qed.

Lemma grow_word_slot : load64 (mem grow_st) (p + 8 * i) = Z.lor (PA2PTE pg) PTE_V.
Proof.
  destruct grow_pages as (Hpg & _ & _ & _ & Him).
  unfold grow_st. simpl. rewrite load64_store64_eq. apply u64_small.
  pose proof (PA2PTE_range pg) as Hr. pose proof (page_ok_pos _ _ Him Hpg).
  split; [apply Z.lor_nonneg; split; [lia|done]|].
  apply Z.log2_lt_cancel. rewrite Z.log2_lor by (try done; lia). rewrite Z.log2_pow2 by lia.
  apply Z.max_lub_lt; [|done].
  destruct (decide (PA2PTE pg = 0)) as [->|]; [done|]. apply Z.log2_lt_pow2; lia.
Qed.

Lemma grow_word_new j : idx_ok j -> load64 (mem grow_st) (pg + 8 * j) = 0.
Proof.
  intros Hj. destruct grow_pages as (Hpg & _ & Hp & Hne & _).
  apply load64_zero. intros b Hb.
  assert (Hbq : in_page pg b) by (unfold in_page, idx_ok, PGSIZE in *; lia).
  unfold grow_st. simpl. unfold store64. rewrite load8_store_le_out.
  - rewrite memset_spec by done. by rewrite decide_True by (unfold in_page in Hbq; lia).
  - destruct (page_disjoint p pg (proj1 Hp) (proj1 Hpg) Hne);
      unfold in_page, idx_ok, PGSIZE in *; lia.
Qed.

Lemma grow_frame : vm_frame s grow_st.
Proof.
  unfold grow_st. eapply vm_frame_trans; [|apply vm_frame_set_mem].
  eapply vm_frame_trans; [|apply vm_frame_set_mem].
  apply vm_frame_settle, vm_frame_kalloc.
Qed.

Lemma grow_lookup_ne k' q : t !! k' = Some q -> t' !! k' = Some q.
Proof. intros H. unfold t'. rewrite lookup_insert_ne; [done|]. intros <-. congruence. Qed.

Lemma grow_rep : pt_rep (img s) (mem grow_st) root t'.
Proof.
  destruct grow_pages as (Hpg & Hnin & Hp & Hne & Him).
  destruct Hinv as [_ _ _ Hrep Hfree].
  assert (Hold : forall k' q, t !! k' = Some q -> q <> pg).
  { intros k' q Hq ->. apply (Hfree k' pg Hq). set_solver. }
  split.
  - apply grow_lookup_ne, Hrep.
  - intros k' q. unfold t'. rewrite lookup_insert. case_decide as E; [|apply Hrep].
    intros _. subst k'. rewrite length_app. simpl. split; [lia|].
    apply Forall_app_2; [eapply ptr_path; eauto|constructor; [done|constructor]].
  - intros k' q. unfold t'. rewrite lookup_insert. case_decide; [congruence|apply Hrep].
  - intros k1 k2 q. unfold t'. rewrite !lookup_insert. case_decide; case_decide; simplify_eq; try done.
    + intros [= <-] H2. by apply Hold in H2.
    + intros H1 [= <-]. by apply Hold in H1.
    + by apply Hrep.
  - intros k' j q. unfold t'. rewrite !lookup_insert. case_decide as E.
    + apply app_inj_tail in E as [-> ->]. intros _.
      rewrite decide_False; [by exists p|]. intros E%(f_equal length).
      rewrite length_app in E. simpl in E. lia.
    + intros H. destruct (ptr_parent _ _ _ _ Hrep _ _ _ H) as [q' Hq'].
      case_decide; [eauto|]. by exists q'.
  - intros k' q j Hq Hlen' Hj. unfold t' in Hq. rewrite lookup_insert in Hq.
    case_decide as E.
    + injection Hq as <-. subst k'. rewrite grow_word_new by done.
      destruct (t' !! ((k ++ [i]) ++ [j])) as [q|] eqn:Ec; [|done].
      exfalso. unfold t' in Ec. rewrite lookup_insert_ne in Ec.
      * destruct (ptr_parent _ _ _ _ Hrep _ _ _ Ec) as [x Hx]. congruence.
      * intros E%(f_equal length). rewrite !length_app in E. simpl in E. lia.
    + destruct (decide (k' = k /\ j = i)) as [[-> ->]|Hkj].
      * unfold t'. rewrite lookup_insert_eq. assert (q = p) as -> by congruence.
        apply grow_word_slot.
      * rewrite grow_word_other; [|by eapply ptr_page|by eapply Hold|done|].
        2:{ intros [= -> ->]. apply Hkj. split; [|done]. by eapply ptr_inj. }
        unfold t'. rewrite lookup_insert_ne; [by apply Hrep|].
        intros [-> ->]%app_inj_tail. by apply Hkj.
Qed.

Lemma grow_inv : vm_inv grow_st root t' l.
Proof.
  destruct grow_pages as (Hpg & Hnin & Hp & Hne & Him).
  pose proof grow_frame as Hfr. pose proof grow_rep as Hgr.
  destruct (vm_frame_proj _ _ Hfr) as (Hsi & _ & Hsl & _).
  destruct Hinv as [Hirq Hlk Hkm Hrep Hfree]. split.
  - by eapply vm_frame_irq.
  - by rewrite Hsl.
  - destruct (kalloc_spec s pg l Hkm) as (_ & Hinv' & _ & _ & _).
    assert (Hfreepg : forall q, q ∈ l -> q mod PGSIZE = 0).
    { destruct Hkm as (_ & _ & _ & Hok). apply Forall_cons in Hok as [_ Hok].
      intros q Hq. eapply Forall_forall in Hok; [|exact Hq]. apply Hok. }
    unfold grow_st. apply kmem_inv_mem.
    + apply kmem_inv_mem; [by apply kmem_inv_settle|]. intros q b Hq Hb. simpl.
      rewrite memset_spec by done. rewrite decide_False; [done|].
      intros Hb'. assert (q = pg) as ->; [|by apply Hnin].
      apply (in_page_inj q pg b (Hfreepg q Hq) (proj1 Hpg) Hb Hb').
    + intros q b Hq Hb. simpl. unfold store64. apply load8_store_le_out.
      assert (Hqp : p <> q).
      { intros <-. apply (Hfree k p Hk), elem_of_cons. by right. }
      destruct (page_disjoint p q (proj1 Hp) (Hfreepg q Hq) Hqp);
        unfold in_page, idx_ok, PGSIZE in *; lia.
  - rewrite Hsi. exact Hgr.
  - intros k' q. unfold t'. rewrite lookup_insert. case_decide; [congruence|].
    intros Hq. specialize (Hfree k' q Hq). apply not_elem_of_cons in Hfree. by destruct Hfree.
Qed.

Lemma grow_ext : pt_ext s t (pg :: l) grow_st t' l.
Proof.
  destruct grow_pages as (Hpg & Hnin & Hp & Hne & Him).
  pose proof Hinv as [_ _ _ Hrep Hfree]. split.
  - apply grow_frame.
  - by apply insert_subseteq.
  - intros k' q. unfold t'. rewrite lookup_insert. case_decide; [|by left].
    intros [= <-]. right. set_solver.
  - exists [pg]. split; [done|]. intros x ->%list_elem_of_singleton. exists (k ++ [i]). apply lookup_insert_eq.
  - intros b Hl Hin. apply grow_byte_out; [apply Hl; set_solver|].
    intros Hb. apply (Hin k p Hk Hlen). unfold in_page, idx_ok, PGSIZE in *. lia.
  - intros va. unfold leafword, t'. rewrite lookup_insert. case_decide as E.
    + rewrite <- E, Hnone. apply grow_word_new, PX_idx. lia.
    + destruct (t !! vapath va) as [q|] eqn:Hq; [|done].
      apply grow_word_other; [by eapply ptr_page| |by apply PX_idx|].
      * intros ->. apply (Hfree _ _ Hq). set_solver.
      * intros [= -> _]. assert (vapath va = k) as <- by (by eapply ptr_inj).
        simpl in Hlen. lia.
  - unfold t'. rewrite map_size_insert_None by done. cbn [length]. lia.
Qed.
End grow.

(** walk with allocation: the tree grows by the missing tables, or memory has
    run out. *)
Lemma walk_loop_alloc levels : forall root va s t l k p,
  vm_inv s root t l -> Forall (fun lv => 0 <= lv) levels ->
  t !! k = Some p -> (length k + length levels = 2)%nat ->
  returns (walk_loop levels va true p s) (fun r s' => exists t' l',
    vm_inv s' root t' l' /\ pt_ext s t l s' t' l' /\
    (forall k', is_Some (t' !! k') -> is_Some (t !! k') \/ k' `prefix_of` (k ++ path_of levels va)) /\
    ((r = 0 /\ l' = [] /\ t' !! (k ++ path_of levels va) = None) \/
     exists q, t' !! (k ++ path_of levels va) = Some q /\ r = q + 8 * PX 0 va)).
Proof.
  induction levels as [|lv levels IH]; intros root va s t l k p Hinv Hlv Hk Hlen.
  { exists t, l. split; [exact Hinv|]. split; [apply pt_ext_refl|]. split; [by left|]. right. exists p.
    by rewrite app_nil_r. }
  apply Forall_cons in Hlv as [Hlv Hlvs]. cbn [walk_loop]. unfold bind at 1, ld64, gets.
  cbn [obind]. simpl in Hlen. unfold pte_at.
  pose proof Hinv as [Hirq Hlk Hkm Hrep Hfree].
  assert (Him : image_ok (img s)) by apply Hkm.
  assert (Hidx : idx_ok (PX lv va)) by (by apply PX_idx).
  assert (Hpath : forall k', k' ++ path_of (lv :: levels) va = (k' ++ [PX lv va]) ++ path_of levels va).
  { intros k'. by rewrite <- app_assoc. }
  rewrite Hpath.
  destruct (t !! (k ++ [PX lv va])) as [q|] eqn:Hq.
  - destruct (ptr_child_valid (img s) (mem s) root t Him Hrep k p (PX lv va) q Hk ltac:(lia) Hidx Hq)
      as [Hv Hpa].
    rewrite Hv, Hpa. apply (IH root va s t l (k ++ [PX lv va]) q Hinv Hlvs Hq).
    rewrite length_app. simpl. lia.
  - rewrite (ptr_child_none (img s) (mem s) root t Hrep k p (PX lv va) Hk ltac:(lia) Hidx Hq).
    cbn [negb]. rewrite (bind_Ret _ _ _ _ _ (kalloc_eq s Hirq Hlk)).
    destruct l as [|pg l].
    + destruct (kalloc_empty s Hkm) as [Hf Hst]. rewrite Hf, Hst. cbn [Z.eqb].
      exists t, []. split; [|split; [|split; [by left|]]].
      * split; [exact Hirq|exact Hlk|exact Hkm|exact Hrep|exact Hfree].
      * split; try done; [apply vm_frame_settle, vm_frame_refl|by left|exists []; split; [done|]; intros x Hx; by apply elem_of_nil in Hx].
      * left. split; [done|]. split; [done|]. destruct (t !! ((k ++ [PX lv va]) ++ path_of levels va)) as [q|] eqn:E; [|done].
        destruct (ptr_prefix (img s) (mem s) root t Hrep _ _ _ E). congruence.
    + destruct (kalloc_spec s pg l Hkm) as (Hf & _ & _ & Hpg & _). rewrite Hf.
      pose proof (page_ok_pos _ _ Him Hpg) as Hpos.
      destruct (Z.eqb_spec pg 0) as [E|_]; [lia|].
      unfold bind, kmemset, st64, modify. cbn [obind].
      change (returns (walk_loop levels va true pg (grow_st s pg p (PX lv va)))
        (fun r s' => exists t' l', vm_inv s' root t' l' /\ pt_ext s t (pg :: l) s' t' l' /\
          (forall k', is_Some (t' !! k') -> is_Some (t !! k') \/ k' `prefix_of` ((k ++ [PX lv va]) ++ path_of levels va)) /\
          ((r = 0 /\ l' = [] /\ t' !! ((k ++ [PX lv va]) ++ path_of levels va) = None) \/
           exists q, t' !! ((k ++ [PX lv va]) ++ path_of levels va) = Some q /\ r = q + 8 * PX 0 va))).
      pose proof (grow_inv s root t l pg k p (PX lv va) Hinv Hk ltac:(lia) Hidx Hq) as Hinv'.
      pose proof (grow_ext s root t l pg k p (PX lv va) Hinv Hk ltac:(lia) Hidx Hq) as Hext.
      eapply returns_mono.
      * apply (IH root va _ _ l (k ++ [PX lv va]) pg Hinv' Hlvs).
        -- by rewrite lookup_insert_eq.
        -- rewrite length_app. simpl. lia.
      * intros r s' (t' & l' & H1 & H2 & H3 & H4). exists t', l'. split; [exact H1|].
        split; [by eapply pt_ext_trans|]. split; [|exact H4]. intros k' Hk'. destruct (H3 k' Hk') as [Hk2|]; [|by right].
        rewrite lookup_insert_is_Some' in Hk2. destruct Hk2 as [<-|?]; [right; by apply prefix_app_r|by left].
Qed.

Lemma walk_alloc root va s t l :
  vm_inv s root t l -> 0 <= va < MAXVA ->
  returns (walk root va true s) (fun r s' => exists t' l',
    vm_inv s' root t' l' /\ pt_ext s t l s' t' l' /\
    (forall k, is_Some (t' !! k) -> is_Some (t !! k) \/ k `prefix_of` vapath va) /\
    ((r = 0 /\ l' = [] /\ t' !! vapath va = None) \/
     exists q, t' !! vapath va = Some q /\ r = q + 8 * PX 0 va /\ 0 < q)).
Proof.
  intros Hinv Hva. unfold walk. destruct (Z.leb_spec MAXVA va); [lia|].
  eapply returns_mono.
  - apply (walk_loop_alloc [2; 1] root va s t l [] root Hinv).
    + repeat constructor; lia.
    + apply Hinv.
    + done.
  - intros r s' (t' & l' & H1 & H2 & Hks & H3). exists t', l'. split; [exact H1|]. split; [exact H2|]. split; [exact Hks|].
    destruct H3 as [H3|(q & Hq & Hr)]; [by left|]. right. exists q. split; [exact Hq|].
    split; [exact Hr|]. destruct H1 as [_ _ [Him _] Hrep _].
    pose proof (page_ok_pos _ _ Him (ptr_page _ _ _ _ Hrep _ _ Hq)). lia.
Qed.

(** ** Storing a leaf PTE *)

Section leaf_store.
Context (s : kernel) (root : Z) (t : ptree) (l : list Z) (va q v : Z).
Context (Hinv : vm_inv s root t l) (Hq : t !! vapath va = Some q).

Definition leaf_st : kernel := set_mem (store64 (mem s) (q + 8 * PX 0 va) v) s.

Lemma leaf_word_other p i :
  p mod PGSIZE = 0 -> idx_ok i -> (p, i) <> (q, PX 0 va) ->
  load64 (mem leaf_st) (p + 8 * i) = load64 (mem s) (p + 8 * i).
Proof.
  intros Hp Hi Hne. destruct Hinv as [_ _ _ Hrep _].
  pose proof (ptr_page _ _ _ _ Hrep _ _ Hq) as [Hqa _]. unfold leaf_st. simpl.
  rewrite load64_store64 by (by apply slot_aligned). rewrite decide_False; [done|].
  intros E. symmetry in E. apply slot_inj in E; [|done|done|done|by apply PX_idx].
  destruct E as [-> ->]. by apply Hne.
Qed.

Lemma leaf_byte_out b : ~ in_page q b -> load8 (mem leaf_st) b = load8 (mem s) b.
Proof.
  intros Hb. unfold leaf_st, store64. simpl. apply load8_store_le_out.
  pose proof (PX_range 0 va ltac:(lia)). unfold in_page, PGSIZE in Hb. lia.
Qed.

Lemma leaf_inv : vm_inv leaf_st root t l.
Proof.
  pose proof leaf_word_other as Hother. pose proof leaf_byte_out as Hout.
  destruct Hinv as [Hirq Hlk Hkm Hrep Hfree]. split.
  - exact Hirq.
  - exact Hlk.
  - apply kmem_inv_mem; [exact Hkm|]. intros p b Hp Hb. apply Hout. intros Hb'.
    destruct Hkm as (_ & _ & _ & Hok). eapply Forall_forall in Hok; [|exact Hp].
    assert (q = p) as ->; [|by apply (Hfree _ _ Hq)].
    apply (in_page_inj q p b); [apply (ptr_page _ _ _ _ Hrep _ _ Hq)|apply Hok|exact Hb'|exact Hb].
  - change (img leaf_st) with (img s). split; try apply Hrep.
    intros k p i Hk Hlen Hi. rewrite Hother.
    + by apply Hrep.
    + apply (ptr_page _ _ _ _ Hrep _ _ Hk).
    + exact Hi.
    + intros [= -> _]. assert (k = vapath va) as -> by (by eapply ptr_inj). simpl in Hlen. lia.
  - exact Hfree.
Qed.

Lemma leaf_leafword va' :
  0 <= v < 2 ^ 64 -> 0 <= va < MAXVA -> 0 <= va' < MAXVA ->
  va mod PGSIZE = 0 -> va' mod PGSIZE = 0 ->
  leafword (mem leaf_st) t va' = if decide (va' = va) then v else leafword (mem s) t va'.
Proof.
  intros Hv Hva Hva' Ha Ha'. pose proof Hinv as [_ _ _ Hrep _]. case_decide as E.
  - subst va'. unfold leafword. rewrite Hq. unfold leaf_st. simpl.
    rewrite load64_store64_eq. by apply u64_small.
  - unfold leafword. destruct (t !! vapath va') as [p|] eqn:Hp; [|done].
    apply leaf_word_other; [apply (ptr_page _ _ _ _ Hrep _ _ Hp)|by apply PX_idx|].
    intros [= -> E0]. apply E. apply vapath_inj; try done. by eapply ptr_inj.
Qed.
End leaf_store.

(** [t] may have grown and leaf PTEs may have changed; no other byte outside
    the pages that were free has. *)
Record pt_mod (s : kernel) (t : ptree) (l : list Z) (s' : kernel) (t' : ptree) (l' : list Z) : Prop := {
  pm_frame : vm_frame s s';
  pm_sub : t ⊆ t';
  pm_new : forall k p, t' !! k = Some p -> t !! k = Some p \/ p ∈ l;
  pm_free : exists used, l = used ++ l' /\ forall p, p ∈ used -> exists k, t' !! k = Some p;
  pm_mem : forall b, (forall p, p ∈ l -> ~ in_page p b) ->
    (forall k p, t !! k = Some p -> ~ in_page p b) ->
    load8 (mem s') b = load8 (mem s) b;
  pm_count : (size t' + length l' = size t + length l)%nat
}.

Lemma pt_ext_mod s t l s' t' l' : pt_ext s t l s' t' l' -> pt_mod s t l s' t' l'.
Proof. intros [F S N U M _ C]. split; try done. intros b Hl Hi. apply M; [done|]. intros; by eapply Hi. Qed.

Lemma pt_mod_trans s1 t1 l1 s2 t2 l2 s3 t3 l3 :
  pt_mod s1 t1 l1 s2 t2 l2 -> pt_mod s2 t2 l2 s3 t3 l3 -> pt_mod s1 t1 l1 s3 t3 l3.
Proof.
  intros [F1 S1 N1 [u1 [U1 V1]] M1 C1] [F2 S2 N2 [u2 [U2 V2]] M2 C2]. split.
  - by eapply vm_frame_trans.
  - by etransitivity.
  - intros k p H. destruct (N2 k p H) as [H'|H']; [by apply N1|]. right. set_solver.
  - exists (u1 ++ u2). split; [by rewrite U1, U2, app_assoc|]. intros p [Hp|Hp]%elem_of_app; [|by apply V2].
    destruct (V1 p Hp) as [k Hk]. exists k. by eapply lookup_weaken.
  - intros b Hl Hi. rewrite M2.
    + by apply M1.
    + intros p Hp. apply Hl. set_solver.
    + intros k p Hk. destruct (N1 k p Hk) as [H'|H']; [by eapply Hi|by apply Hl].
  - lia.
Qed.

Lemma pt_mod_leaf s root t l va q v :
  vm_inv s root t l -> t !! vapath va = Some q -> pt_mod s t l (leaf_st s va q v) t l.
Proof.
  intros Hinv Hq. split.
  - apply vm_frame_set_mem.
  - done.
  - by left.
  - exists []. split; [done|]. intros p Hp. by apply elem_of_nil in Hp.
  - intros b _ Hb. apply leaf_byte_out. by apply (Hb _ _ Hq).
  - done.
Qed.

(** ** mappages *)

Definition map_pte (pa perm : Z) : Z := Z.lor (Z.lor (PA2PTE pa) perm) PTE_V.

Lemma lor_range n a b : 0 <= n -> 0 <= a < 2 ^ n -> 0 <= b < 2 ^ n -> 0 <= Z.lor a b < 2 ^ n.
Proof.
  intros Hn Ha Hb. split; [apply Z.lor_nonneg; lia|].
  destruct (decide (Z.lor a b = 0)) as [->|]; [lia|].
  apply Z.log2_lt_cancel. rewrite Z.log2_lor by lia. rewrite Z.log2_pow2 by lia.
  assert (0 < n). { destruct (decide (n = 0)) as [->|]; [|lia]. simpl in *.
    assert (a = 0) by lia. assert (b = 0) by lia. subst. by simpl in *. }
  apply Z.max_lub_lt; (destruct (decide (a = 0)) as [->|]; destruct (decide (b = 0)) as [->|];
    try (simpl; lia); apply Z.log2_lt_pow2; lia).
Qed.

Lemma map_pte_range pa perm :
  0 <= pa < 2 ^ 56 -> 0 <= perm < 2 ^ 10 -> 0 <= map_pte pa perm < 2 ^ 64.
Proof.
  intros Hpa Hperm. pose proof (PA2PTE_range pa Hpa). unfold map_pte.
  apply lor_range; [lia| |by cbv]. apply lor_range; lia.
Qed.

Definition aligned (a : Z) : Prop := a mod PGSIZE = 0.

Lemma aligned_add a n : aligned a -> aligned (a + n * PGSIZE).
Proof. unfold aligned, PGSIZE. intros H. rewrite Z.add_mod, Z.mod_mul, H by lia. done. Qed.

Lemma aligned_next a va : aligned a -> aligned va -> a < va -> a + PGSIZE <= va.
Proof.
  unfold aligned, PGSIZE. intros Ha Hv H.
  pose proof (Z.div_mod a 4096). pose proof (Z.div_mod va 4096). lia.
Qed.

(** The places of the tables that the [n] pages from [a] go through. *)
Definition tables (a : Z) (n : nat) : gset (list Z) :=
  ⋃ ((fun i => let va := a + i * PGSIZE in {[ []; [PX 2 va]; vapath va ]}) <$> seqZ 0 (Z.of_nat n)).

Lemma prefix_vapath k va : k `prefix_of` vapath va <-> k = [] \/ k = [PX 2 va] \/ k = vapath va.
Proof.
  unfold vapath. split; [|intros [->|[->| ->]]; [apply prefix_nil|by apply prefix_cons, prefix_nil|done]].
  intros [z E]. destruct k as [|x [|y k]]; simplify_eq/=; [by left|right; by left|]. destruct k; [|done]. right. by right.
Qed.

Lemma elem_of_tables a n k : k ∈ tables a n <-> exists i, 0 <= i < Z.of_nat n /\ k `prefix_of` vapath (a + i * PGSIZE).
Proof.
  unfold tables. rewrite elem_of_union_list. setoid_rewrite list_elem_of_fmap. setoid_rewrite elem_of_seqZ. setoid_rewrite prefix_vapath. split.
  - intros (X & (i & -> & Hi) & Hk). exists i. split; [lia|]. set_solver.
  - intros (i & Hi & Hk). eexists. split; [exists i; split; [reflexivity|lia]|]. set_solver.
Qed.

Lemma tables_next a n k : k ∈ tables a (S n) <-> k `prefix_of` vapath a \/ k ∈ tables (a + PGSIZE) n.
Proof.
  rewrite !elem_of_tables. split.
  - intros (i & Hi & Hk). destruct (Z.eq_dec i 0) as [->|]; [left; by rewrite Z.mul_0_l, Z.add_0_r in Hk|]. right. exists (i - 1). split; [lia|].
    by replace (a + PGSIZE + (i - 1) * PGSIZE) with (a + i * PGSIZE) by lia.
  - intros [Hk|(i & Hi & Hk)]; [exists 0; rewrite Z.mul_0_l, Z.add_0_r; split; [lia|done]|]. exists (i + 1). split; [lia|].
    by replace (a + (i + 1) * PGSIZE) with (a + PGSIZE + i * PGSIZE) by lia.
Qed.

Lemma tables_first a n k : k `prefix_of` vapath a -> k ∈ tables a (S n).
Proof. rewrite tables_next. by left. Qed.

Lemma ptr_prefix_key s root t l k k' q : vm_inv s root t l -> t !! k' = Some q -> k `prefix_of` k' -> is_Some (t !! k).
Proof. intros Hinv Hq [x ->]. by apply (ptr_prefix _ _ _ _ (vmi_rep _ _ _ _ Hinv) _ _ _ Hq). Qed.

(** What [j] pages mapped from [a] to [pa] do to the page map. *)
Definition map_range (m : memory) (t : ptree) (a pa perm j : Z) (m' : memory) (t' : ptree) : Prop :=
  forall va, 0 <= va < MAXVA -> aligned va ->
  leafword m' t' va =
  if decide (a <= va < a + j * PGSIZE) then map_pte (pa + (va - a)) perm else leafword m t va.

Lemma mappages_loop n : forall f root a pa perm s t l,
  vm_inv s root t l -> aligned a -> 0 <= a -> a + (Z.of_nat n + 1) * PGSIZE <= MAXVA ->
  aligned pa -> 0 <= pa -> pa + (Z.of_nat n + 1) * PGSIZE <= 2 ^ 56 -> 0 <= perm < 2 ^ 10 ->
  (forall va, aligned va -> a <= va < a + (Z.of_nat n + 1) * PGSIZE ->
     Z.land (leafword (mem s) t va) PTE_V = 0) ->
  (n < f)%nat ->
  returns (iter f (mappages_body root (a + Z.of_nat n * PGSIZE) perm) (a, pa) s)
    (fun r s' => exists t' l' j, vm_inv s' root t' l' /\ pt_mod s t l s' t' l' /\
       map_range (mem s) t a pa perm j (mem s') t' /\
       (forall k, is_Some (t' !! k) -> is_Some (t !! k) \/ k ∈ tables a (S n)) /\
       ((r = 0 /\ j = Z.of_nat n + 1 /\ forall k, k ∈ tables a (S n) -> is_Some (t' !! k)) \/
        (r = -1 /\ 0 <= j <= Z.of_nat n /\ l' = [] /\ exists k, k ∈ tables a (S n) /\ t' !! k = None))).
Proof.
  induction n as [|n IH]; intros f root a pa perm s t l Hinv Ha Ha0 HaM Hpa Hpa0 HpaM Hperm Hfree Hf;
    (destruct f as [|f]; [lia|]); cbn [iter]; apply returns_bind; unfold mappages_body at 1;
    assert (Hav : 0 <= a < MAXVA) by (unfold PGSIZE in *; lia);
    apply returns_bind; (eapply returns_mono; [apply (walk_alloc root a s t l Hinv Hav)|]);
    intros r s1 (t1 & l1 & Hinv1 & Hext & Hks & [(-> & -> & Hnone)|(q & Hq & -> & Hq0)]).
  1, 3: exists t1, [], 0; split; [exact Hinv1|]; split; [by apply pt_ext_mod|];
    split; [|split; [intros k Hk; destruct (Hks k Hk) as [?|?]; [by left|right; by apply tables_first]|
             right; split; [done|split; [lia|split; [done|exists (vapath a); split; [by apply tables_first|done]]]]]];
    intros va Hva Hal; rewrite decide_False by lia; apply (pe_leaf _ _ _ _ _ _ Hext).
  all: pose proof (PX_range 0 a ltac:(lia)) as HPX;
    (destruct (Z.eqb_spec (q + 8 * PX 0 a) 0) as [E|_]; [lia|]);
    unfold bind, ld64, gets; cbn [obind];
    assert (Hlw : load64 (mem s1) (q + 8 * PX 0 a) = leafword (mem s) t a)
      by (rewrite <- (pe_leaf _ _ _ _ _ _ Hext a); unfold leafword; by rewrite Hq);
    rewrite Hlw, (Hfree a Ha) by (unfold PGSIZE; lia);
    change (truthy 0) with false; cbv iota;
    unfold st64, modify; cbn [obind]; fold (map_pte pa perm); fold (leaf_st s1 a q (map_pte pa perm));
    set (s2 := leaf_st s1 a q (map_pte pa perm));
    pose proof (leaf_inv s1 root t1 l1 a q (map_pte pa perm) Hinv1 Hq) as Hinv2; fold s2 in Hinv2;
    assert (Hmod : pt_mod s t l s2 t1 l1)
      by (eapply pt_mod_trans; [by apply pt_ext_mod|by eapply pt_mod_leaf]);
    assert (Hpte : 0 <= map_pte pa perm < 2 ^ 64) by (apply map_pte_range; unfold PGSIZE in *; lia);
    assert (Hone : map_range (mem s) t a pa perm 1 (mem s2) t1)
      by (intros va Hva Hal; unfold s2;
          rewrite (leaf_leafword s1 root t1 l1 a q _ Hinv1 Hq va Hpte Hav Hva Ha Hal);
          rewrite (pe_leaf _ _ _ _ _ _ Hext va);
          destruct (decide (va = a)) as [->|Hne];
          [rewrite decide_True by (unfold PGSIZE; lia); by rewrite Z.sub_diag, Z.add_0_r
          |rewrite decide_False; [done|]; intros Hr; apply Hne;
           destruct (decide (a < va)); [pose proof (aligned_next a va Ha Hal); unfold PGSIZE in *; lia|lia]]).
  - rewrite (proj2 (Z.eqb_eq _ _)) by lia. exists t1, l1, 1. split; [exact Hinv2|].
    split; [exact Hmod|]. split; [exact Hone|].
    split; [intros k Hk; destruct (Hks k Hk) as [?|?]; [by left|right; by apply tables_first]|]. left. split; [done|]. split; [lia|].
    intros k (i & Hi & Hk)%elem_of_tables. replace (a + i * PGSIZE) with a in Hk by (unfold PGSIZE; lia). exact (ptr_prefix_key _ _ _ _ _ _ _ Hinv1 Hq Hk).
  - destruct (Z.eqb_spec a (a + Z.of_nat (S n) * PGSIZE)) as [E|_]; [unfold PGSIZE in *; lia|].
    unfold ret. cbn [returns].
    assert (Ha' : u64 (a + PGSIZE) = a + PGSIZE).
    { apply u64_small. change MAXVA with (2 ^ 38) in *. unfold PGSIZE in *. lia. }
    assert (Hpa' : u64 (pa + PGSIZE) = pa + PGSIZE) by (apply u64_small; unfold PGSIZE in *; lia).
    rewrite Ha', Hpa'.
    replace (a + Z.of_nat (S n) * PGSIZE) with (a + PGSIZE + Z.of_nat n * PGSIZE)
      by (unfold PGSIZE; lia).
    eapply returns_mono.
    + apply (IH f root (a + PGSIZE) (pa + PGSIZE) perm s2 t1 l1 Hinv2); try (unfold PGSIZE in *; lia).
      * pose proof (aligned_add a 1 Ha) as H. by rewrite Z.mul_1_l in H.
      * pose proof (aligned_add pa 1 Hpa) as H. by rewrite Z.mul_1_l in H.
      * intros va Hal Hr. rewrite Hone by (unfold PGSIZE in *; lia || done).
        rewrite decide_False by (unfold PGSIZE in *; lia). apply Hfree; [done|unfold PGSIZE in *; lia].
    + intros r s3 (t3 & l3 & j & Hinv3 & Hmod3 & Hrange & Hks3 & Hres). exists t3, l3, (j + 1).
      split; [exact Hinv3|]. split; [by eapply pt_mod_trans|].
      split; [|split; [|destruct Hres as [(-> & -> & Hall)|(-> & ? & -> & k & Hk & Hn)]; [left|right; split_and!; try (done || lia); exists k; rewrite tables_next; tauto]]].
      2: { intros k Hk. rewrite tables_next. destruct (Hks3 k Hk) as [Hk1|?]; [|tauto]. destruct (Hks k Hk1); tauto. }
      2: { split; [done|]. split; [lia|]. intros k. rewrite tables_next. intros [Hk|Hk]; [|by apply Hall].
           eapply lookup_weaken_is_Some; [exact (ptr_prefix_key _ _ _ _ _ _ _ Hinv1 Hq Hk)|apply Hmod3]. }
      intros va Hva Hal. rewrite Hrange by done. rewrite Hone by done. unfold PGSIZE in *.
      destruct (decide (a + 4096 <= va < a + 4096 + j * 4096)).
      * rewrite decide_True by lia. f_equal. lia.
      * destruct (decide (a <= va < a + 1 * 4096)); case_decide; try done; lia.
Qed.

(** C19. mappages on a range whose pages are unmapped implements the insertion
    of the range into the page map: on success every page of the range maps to
    its physical page with the permissions and PTE_V, and no other leaf PTE has
    changed.  It fails with -1 only when the allocator is empty, after mapping
    a proper prefix of the range.  Either way the page table and free-list
    invariants hold. *)
Theorem mappages_maps (s : kernel) (root : Z) (t : ptree) (l : list Z) (va size pa perm : Z) :
  vm_inv s root t l -> aligned va -> aligned size -> aligned pa ->
  0 <= va -> 0 < size -> va + size <= MAXVA -> 0 <= pa -> pa + size <= 2 ^ 56 ->
  0 <= perm < 2 ^ 10 ->
  (forall a, aligned a -> va <= a < va + size -> Z.land (leafword (mem s) t a) PTE_V = 0) ->
  returns (mappages root va size pa perm s) (fun r s' =>
    exists t' l' j, vm_inv s' root t' l' /\ pt_mod s t l s' t' l' /\
      map_range (mem s) t va pa perm j (mem s') t' /\
      ((r = 0 /\ j * PGSIZE = size) \/ (r = -1 /\ 0 <= j /\ j * PGSIZE < size /\ l' = []))).
Proof.
  intros Hinv Hva Hsz Hpa Hva0 Hsz0 HvaM Hpa0 HpaM Hperm Hfree.
  assert (Hn : exists n, size = (Z.of_nat n + 1) * PGSIZE).
  { exists (Z.to_nat (size / PGSIZE - 1)). unfold aligned, PGSIZE in *.
    pose proof (Z.div_mod size 4096). lia. }
  destruct Hn as [n ->]. unfold mappages.
  rewrite (proj2 (Z.eqb_eq _ _) Hva), (proj2 (Z.eqb_eq _ _) Hsz). cbn [negb].
  destruct (Z.eqb_spec ((Z.of_nat n + 1) * PGSIZE) 0); [lia|].
  replace (u64 _) with (va + Z.of_nat n * PGSIZE).
  2: { change MAXVA with (2 ^ 38) in *. rewrite u64_small; unfold PGSIZE in *; lia. }
  eapply returns_mono; [apply (mappages_loop n); try done; try lia|].
  - rewrite Z.div_mul by done. lia.
  - intros r s' (t' & l' & j & H1 & H2 & H3 & _ & H4). exists t', l', j.
    split; [exact H1|]. split; [exact H2|]. split; [exact H3|]. unfold PGSIZE in *.
    destruct H4 as [(-> & -> & _)|(-> & ? & -> & _)]; [left|right]; repeat split; lia.
Qed.

(** ** walkaddr *)

(** The user page at [va]: 0 where no page is mapped for user mode. *)
Definition upage (m : memory) (t : ptree) (va : Z) : Z :=
  let v := leafword m t va in
  if (Z.land v PTE_V =? 0) || (Z.land v PTE_U =? 0) then 0 else PTE2PA v.

Lemma walkaddr_eq root t va s :
  image_ok (img s) -> pt_rep (img s) (mem s) root t -> 0 <= va ->
  walkaddr root va s = Ret (if MAXVA <=? va then 0 else upage (mem s) t va) s.
Proof.
  intros Him Hrep Hva. unfold walkaddr. destruct (Z.leb_spec MAXVA va); [done|].
  rewrite (bind_Ret _ _ _ _ _ (walk_noalloc root t va s Him Hrep ltac:(lia))).
  unfold upage, leafword. destruct (t !! vapath va) as [q|] eqn:Hq; [|done].
  pose proof (page_ok_pos _ _ Him (ptr_page _ _ _ _ Hrep _ _ Hq)).
  pose proof (PX_range 0 va ltac:(lia)).
  destruct (Z.eqb_spec (q + 8 * PX 0 va) 0); [lia|].
  unfold bind, ld64, gets. cbn [obind]. simpl.
  by destruct (_ =? 0), (_ =? 0).
Qed.

(** ** uvmunmap *)

(** A page that belongs to nobody may be freed. *)
Lemma vm_inv_kfree s root t l p :
  vm_inv s root t l -> page_ok (img s) p -> p ∉ l -> (forall k, t !! k <> Some p) ->
  vm_inv (settle (kfree_st p s)) root t (p :: l) /\
  (forall k q i, t !! k = Some q -> idx_ok i ->
     load64 (mem (settle (kfree_st p s))) (q + 8 * i) = load64 (mem s) (q + 8 * i)).
Proof.
  intros [Hirq Hlk Hkm Hrep Hfr] Hp Hnin Hk.
  assert (Hw : forall k q i, t !! k = Some q -> idx_ok i ->
     load64 (mem (settle (kfree_st p s))) (q + 8 * i) = load64 (mem s) (q + 8 * i)).
  { intros k q i Hq Hi. apply load64_ext. intros b Hb.
    change (load8 (mem (kfree_st p s)) b = load8 (mem s) b). apply kfree_mem_out.
    assert (Hqp : q <> p) by (intros ->; by apply (Hk k)).
    pose proof (ptr_page _ _ _ _ Hrep _ _ Hq) as Hqo.
    pose proof (proj1 Hqo). pose proof (proj1 Hp). unfold idx_ok, PGSIZE in *.
    pose proof (Z.div_mod q 4096). pose proof (Z.div_mod p 4096). lia. }
  split; [|exact Hw]. split.
  - exact Hirq.
  - exact Hlk.
  - apply kmem_inv_settle. by apply kfree_inv.
  - change (img (settle (kfree_st p s))) with (img s). split; try apply Hrep.
    intros k q i Hq Hlen Hi. rewrite (Hw k q i Hq Hi). by apply Hrep.
  - intros k q Hq. apply not_elem_of_cons. split; [intros ->; by apply (Hk k)|by eapply Hfr].
Qed.

(** The pages mapped at [n] consecutive virtual pages. *)
Fixpoint mapped_pages (m : memory) (t : ptree) (n : nat) (a : Z) : list Z :=
  match n with
  | O => []
  | S n' => PTE2PA (leafword m t a) :: mapped_pages m t n' (a + PGSIZE)
  end.

Lemma mapped_pages_ext m m' t n : forall a,
  (forall i, 0 <= i < Z.of_nat n -> leafword m' t (a + i * PGSIZE) = leafword m t (a + i * PGSIZE)) ->
  mapped_pages m' t n a = mapped_pages m t n a.
Proof.
  induction n as [|n IH]; intros a H; simpl; [done|]. f_equal.
  - specialize (H 0). rewrite Z.mul_0_l, Z.add_0_r in H. rewrite H by lia. done.
  - apply IH. intros i Hi. specialize (H (i + 1)).
    replace (a + (i + 1) * PGSIZE) with (a + PGSIZE + i * PGSIZE) in H by lia. apply H. lia.
Qed.

(** A page the kernel may free: user memory of nobody else. *)
Definition owned (s : kernel) (t : ptree) (l : list Z) (p : Z) : Prop :=
  page_ok (img s) p /\ p ∉ l /\ forall k, t !! k <> Some p.

Definition leaf_ok (v : Z) : Prop := Z.land v PTE_V <> 0 /\ PTE_FLAGS v <> PTE_V.

Definition unmap_range (m : memory) (t : ptree) (a n : Z) (m' : memory) : Prop :=
  forall va, 0 <= va < MAXVA -> aligned va ->
  leafword m' t va = if decide (a <= va < a + n * PGSIZE) then 0 else leafword m t va.

(** Only the page table [t] and the pages that are freed are written. *)
Definition unmap_bytes (m : memory) (t : ptree) (freed : list Z) (m' : memory) : Prop :=
  forall b, (forall p, p ∈ freed -> ~ in_page p b) -> (forall k p, t !! k = Some p -> ~ in_page p b) -> load8 m' b = load8 m b.

(** One page unmapped, and freed when [do_free] says so. *)
Definition unmap_st (do_free : bool) (a q p : Z) (s : kernel) : kernel :=
  leaf_st (if do_free then settle (kfree_st p s) else s) a q 0.

Lemma unmap_step s root t l (do_free : bool) a q p :
  vm_inv s root t l -> t !! vapath a = Some q -> 0 <= a < MAXVA -> aligned a ->
  (do_free = true -> owned s t l p) ->
  vm_inv (unmap_st do_free a q p s) root t (if do_free then p :: l else l) /\
  unmap_range (mem s) t a 1 (mem (unmap_st do_free a q p s)) /\
  unmap_bytes (mem s) t (if do_free then [p] else []) (mem (unmap_st do_free a q p s)) /\
  vm_frame s (unmap_st do_free a q p s).
Proof.
  intros Hinv Hq Ha Hal Hown. unfold unmap_st.
  set (s1 := if do_free then settle (kfree_st p s) else s).
  assert (H1 : vm_inv s1 root t (if do_free then p :: l else l) /\ vm_frame s s1 /\
    forall va, leafword (mem s1) t va = leafword (mem s) t va).
  { unfold s1. destruct do_free; [|split; [exact Hinv|]; split; [apply vm_frame_refl|done]].
    destruct (Hown eq_refl) as (Hp & Hnin & Hk).
    destruct (vm_inv_kfree s root t l p Hinv Hp Hnin Hk) as [Hinv1 Hw].
    split; [exact Hinv1|]. split; [apply vm_frame_settle, vm_frame_kfree|].
    intros va. unfold leafword. destruct (t !! vapath va) as [r|] eqn:Hr; [|reflexivity].
    apply (Hw _ _ _ Hr). by apply PX_idx. }
  destruct H1 as (Hinv1 & Hfr & Hlw). split; [by eapply leaf_inv|]. split; [|split].
  - intros va Hva Hva'. rewrite (leaf_leafword s1 root t _ a q 0 Hinv1 Hq va) by (lia || done).
    rewrite Hlw. destruct (decide (va = a)) as [->|Hne].
    + rewrite decide_True; [done|unfold PGSIZE; lia].
    + rewrite decide_False; [done|]. intros Hr. apply Hne.
      destruct (decide (a < va)); [pose proof (aligned_next a va Hal Hva'); unfold PGSIZE in *; lia|lia].
  - intros b Hb Ht. rewrite leaf_byte_out by (by apply (Ht _ _ Hq)). unfold s1. destruct do_free; [|done].
    change (load8 (mem (kfree_st p s)) b = load8 (mem s) b). apply kfree_mem_out. specialize (Hb p (list_elem_of_here _ _)). unfold in_page in Hb. lia.
  - eapply vm_frame_trans; [exact Hfr|]. apply vm_frame_set_mem.
Qed.

Lemma uvmunmap_loop n : forall f root va npages do_free a s t l,
  vm_inv s root t l -> aligned a -> 0 <= a -> a + Z.of_nat n * PGSIZE <= MAXVA ->
  u64 (va + npages * PGSIZE) = a + Z.of_nat n * PGSIZE ->
  (forall i, 0 <= i < Z.of_nat n -> leaf_ok (leafword (mem s) t (a + i * PGSIZE))) ->
  (do_free = true -> NoDup (mapped_pages (mem s) t n a) /\
     Forall (owned s t l) (mapped_pages (mem s) t n a)) ->
  (n < f)%nat ->
  returns (iter f (uvmunmap_body root va npages do_free) a s) (fun _ s' =>
    vm_inv s' root t (if do_free then rev (mapped_pages (mem s) t n a) ++ l else l) /\
    unmap_range (mem s) t a (Z.of_nat n) (mem s') /\
    unmap_bytes (mem s) t (if do_free then mapped_pages (mem s) t n a else []) (mem s') /\ vm_frame s s').
Proof.
  induction n as [|n IH]; intros f root va npages do_free a s t l Hinv Ha Ha0 HaM Hend Hlf Hown Hf;
    (destruct f as [|f]; [lia|]); cbn [iter]; apply returns_bind; unfold uvmunmap_body at 1;
    rewrite Hend; unfold PGSIZE in HaM.
  - destruct (Z.ltb_spec a (a + Z.of_nat 0 * PGSIZE)); [unfold PGSIZE in *; lia|]. simpl.
    split; [by destruct do_free|]. split; [|split; [done|apply vm_frame_refl]].
    intros va' _ _. rewrite decide_False; [done|unfold PGSIZE; lia].
  - destruct (Z.ltb_spec a (a + Z.of_nat (S n) * PGSIZE)); [|unfold PGSIZE in *; lia]. cbn [negb].
    pose proof Hinv as [Hirq Hlk Hkm Hrep _]. pose proof (proj1 Hkm) as Him.
    rewrite (bind_Ret _ _ _ _ _ (walk_noalloc root t a s Him Hrep ltac:(lia))).
    pose proof (Hlf 0 ltac:(lia)) as Hl0. rewrite Z.mul_0_l, Z.add_0_r in Hl0.
    destruct (t !! vapath a) as [q|] eqn:Hq.
    2: { unfold leafword in Hl0. rewrite Hq in Hl0. by destruct Hl0. }
    pose proof (page_ok_pos _ _ Him (ptr_page _ _ _ _ Hrep _ _ Hq)).
    pose proof (PX_range 0 a ltac:(lia)).
    destruct (Z.eqb_spec (q + 8 * PX 0 a) 0); [lia|].
    unfold bind at 1, ld64, gets. cbn [obind].
    assert (Hlw : load64 (mem s) (q + 8 * PX 0 a) = leafword (mem s) t a)
      by (unfold leafword; by rewrite Hq).
    rewrite Hlw. destruct Hl0 as [HV HF].
    destruct (Z.eqb_spec (Z.land (leafword (mem s) t a) PTE_V) 0); [lia|].
    destruct (Z.eqb_spec (PTE_FLAGS (leafword (mem s) t a)) PTE_V); [lia|].
    set (p := PTE2PA (leafword (mem s) t a)).
    assert (Hown1 : do_free = true -> owned s t l p).
    { intros E. destruct (Hown E) as [_ Hfa]. by apply Forall_cons in Hfa as [? _]. }
    destruct (unmap_step s root t l do_free a q p Hinv Hq ltac:(lia) Ha Hown1) as (Hinv1 & Hun1 & Hby1 & Hfr1).
    assert (Hstep : (when do_free (kfree p);; st64 (q + 8 * PX 0 a) 0;;
                     ret (@inl Z unit (u64 (a + PGSIZE)))) s =
                    Ret (inl (a + PGSIZE)) (unmap_st do_free a q p s)).
    { rewrite (u64_small (a + PGSIZE)) by (change MAXVA with (2 ^ 38) in *; unfold PGSIZE; lia).
      destruct do_free; [|reflexivity]. unfold when.
      by rewrite (bind_Ret _ _ _ _ _ (kfree_eq p s Hirq Hlk (proj1 (Hown1 eq_refl)))). }
    rewrite Hstep. cbn [returns]. clear Hstep.
    assert (Hsame : forall i, 0 <= i < Z.of_nat n ->
      leafword (mem (unmap_st do_free a q p s)) t (a + PGSIZE + i * PGSIZE) =
      leafword (mem s) t (a + PGSIZE + i * PGSIZE)).
    { intros i Hi. rewrite Hun1.
      - rewrite decide_False; [done|unfold PGSIZE; lia].
      - unfold PGSIZE. lia.
      - pose proof (aligned_add a (i + 1) Ha) as H'. rewrite Z.mul_add_distr_r, Z.mul_1_l in H'.
        by replace (a + PGSIZE + i * PGSIZE) with (a + (i * PGSIZE + PGSIZE)) by lia. }
    pose proof (mapped_pages_ext _ _ t n (a + PGSIZE) Hsame) as Hmp.
    eapply returns_mono; [apply (IH f root va npages do_free (a + PGSIZE) _ t _ Hinv1)|].
    + pose proof (aligned_add a 1 Ha) as H'. by rewrite Z.mul_1_l in H'.
    + unfold PGSIZE; lia.
    + unfold PGSIZE; lia.
    + rewrite Hend. unfold PGSIZE; lia.
    + intros i Hi. rewrite Hsame by lia. pose proof (Hlf (i + 1) ltac:(lia)) as H'.
      by replace (a + (i + 1) * PGSIZE) with (a + PGSIZE + i * PGSIZE) in H' by lia.
    + intros E. rewrite Hmp. destruct (Hown E) as [Hnd Hfa]. subst do_free.
      cbn [mapped_pages] in Hnd, Hfa. apply NoDup_cons in Hnd as [Hnin Hnd].
      apply Forall_cons in Hfa as [_ Hfa]. split; [exact Hnd|].
      apply Forall_forall. intros r Hr. rewrite Forall_forall in Hfa.
      destruct (Hfa r Hr) as (Hr1 & Hr2 & Hr3). split; [exact Hr1|]. split; [|exact Hr3].
      apply not_elem_of_cons. split; [|exact Hr2]. intros ->. by apply Hnin.
    + lia.
    + intros _ s' (Hinv' & Hun' & Hby' & Hfr'). rewrite Hmp in Hinv', Hby'. split; [|split; [|split]].
      * destruct do_free; [|exact Hinv']. cbn [mapped_pages rev]. by rewrite <- app_assoc.
      * intros va' Hva' Hal'. rewrite Hun', Hun1 by done. unfold PGSIZE in *.
        destruct (decide (a + 4096 <= va' < a + 4096 + Z.of_nat n * 4096)).
        -- rewrite decide_True; [done|lia].
        -- destruct (decide (a <= va' < a + 1 * 4096)); case_decide; done || lia.
      * intros b Hb Ht. etransitivity; [apply Hby'; [|exact Ht]|apply Hby1; [|exact Ht]]; intros x Hx; apply Hb; destruct do_free.
        -- by apply list_elem_of_further.
        -- exact Hx.
        -- apply list_elem_of_singleton in Hx as ->. apply list_elem_of_here.
        -- exact Hx.
      * by eapply vm_frame_trans.
Qed.

(** C33. uvmunmap on mapped leaf pages implements removal from the page map:
    exactly the PTEs of the range become 0, and with do_free the physical pages
    go to the free list, last one first; no byte outside these pages and the page
    table is written.  The page-table and free-list invariants hold afterwards. *)
Theorem uvmunmap_unmaps (s : kernel) (root : Z) (t : ptree) (l : list Z)
    (va : Z) (n : nat) (do_free : bool) :
  vm_inv s root t l -> aligned va -> 0 <= va -> va + Z.of_nat n * PGSIZE <= MAXVA ->
  (forall i, 0 <= i < Z.of_nat n -> leaf_ok (leafword (mem s) t (va + i * PGSIZE))) ->
  (do_free = true -> NoDup (mapped_pages (mem s) t n va) /\
     Forall (owned s t l) (mapped_pages (mem s) t n va)) ->
  returns (uvmunmap root va (Z.of_nat n) do_free s) (fun _ s' =>
    vm_inv s' root t (if do_free then rev (mapped_pages (mem s) t n va) ++ l else l) /\
    unmap_range (mem s) t va (Z.of_nat n) (mem s') /\
    unmap_bytes (mem s) t (if do_free then mapped_pages (mem s) t n va else []) (mem s') /\ vm_frame s s').
Proof.
  intros Hinv Hva Hva0 HvaM Hlf Hown. unfold uvmunmap.
  rewrite (proj2 (Z.eqb_eq _ _) Hva). cbn [negb].
  apply uvmunmap_loop; try done; [|lia].
  apply u64_small. change MAXVA with (2 ^ 38) in *. unfold PGSIZE in *. lia.
Qed.
