(* ===== verification/UserMem.v ===== *)
(** User memory through a page table: copyin, copyout and copyinstr against a
    byte-level description of the user address space. *)

From S2P Require Import Prelude Outcome Mem State Spinlock KString Kalloc Vm VmSpec.

(** The byte at user address [va], as user mode with the page table [t] may
    read it. *)
Definition ubyte (m : memory) (t : ptree) (va : Z) : option Z :=
  if MAXVA <=? va then None else
  let pa0 := upage m t (PGROUNDDOWN va) in
  if pa0 =? 0 then None else Some (load8 m (pa0 + va mod PGSIZE)).

(** The [n] bytes from [va], when all of them are readable. *)
Fixpoint uread (m : memory) (t : ptree) (va : Z) (n : nat) : option (list Z) :=
  match n with
  | O => Some []
  | S n' => b ← ubyte m t va; bs ← uread m t (va + 1) n'; Some (b :: bs)
  end.

Lemma uread_app m t n k : forall va,
  uread m t va (n + k) = (a ← uread m t va n; b ← uread m t (va + Z.of_nat n) k; Some (a ++ b)).
Proof.
  induction n as [|n IH]; intros va; cbn [uread Nat.add].
  - rewrite Z.add_0_r. simpl. by destruct (uread m t va k).
  - destruct (ubyte m t va); simpl; [|done]. rewrite IH. destruct (uread m t (va + 1) n); simpl; [|done].
    replace (va + 1 + Z.of_nat n) with (va + Z.of_nat (S n)) by lia. by destruct (uread _ _ _ k).
Qed.

(** The offset and the page of an address in the same page. *)
Lemma page_offset va i :
  0 <= i -> va mod PGSIZE + i < PGSIZE ->
  (va + i) mod PGSIZE = va mod PGSIZE + i /\ PGROUNDDOWN (va + i) = PGROUNDDOWN va.
Proof.
  intros Hi Hn.
  assert (Hm : (va + i) mod PGSIZE = va mod PGSIZE + i).
  { rewrite Z.add_mod by done. unfold PGSIZE in *. pose proof (Z.mod_pos_bound va 4096).
    rewrite (Z.mod_small i) by lia. apply Z.mod_small. lia. }
  split; [done|]. rewrite !PGROUNDDOWN_eq, Hm. lia.
Qed.

Lemma PGROUNDDOWN_range va : 0 <= va -> 0 <= PGROUNDDOWN va <= va /\ aligned (PGROUNDDOWN va).
Proof.
  intros Hva. rewrite PGROUNDDOWN_eq. unfold aligned, PGSIZE.
  pose proof (Z.mod_pos_bound va 4096). pose proof (Z.div_mod va 4096).
  split; [lia|]. rewrite Zminus_mod, Z.mod_mod, Z.sub_diag by lia. done.
Qed.

(** MAXVA is a page boundary. *)
Lemma MAXVA_page va : 0 <= va -> (MAXVA <=? PGROUNDDOWN va) = (MAXVA <=? va).
Proof.
  intros Hva. rewrite PGROUNDDOWN_eq. change MAXVA with (2 ^ 26 * PGSIZE).
  unfold PGSIZE in *. pose proof (Z.mod_pos_bound va 4096). pose proof (Z.div_mod va 4096).
  apply eq_true_iff_eq. rewrite !Z.leb_le. lia.
Qed.

(** The bytes of one page are one load. *)
Lemma uread_page m t n : forall va,
  0 <= va -> va mod PGSIZE + Z.of_nat n <= PGSIZE -> (0 < n)%nat ->
  uread m t va n =
  if MAXVA <=? va then None else
  if upage m t (PGROUNDDOWN va) =? 0 then None
  else Some (load_bytes m (upage m t (PGROUNDDOWN va) + va mod PGSIZE) n).
Proof.
  induction n as [|n IH]; intros va Hva Hn Hn0; [lia|]. cbn [uread].
  unfold ubyte. destruct (MAXVA <=? va) eqn:HM; [done|].
  destruct (_ =? 0) eqn:Hz; [done|]. simpl.
  destruct n as [|n]; [done|].
  destruct (page_offset va 1 ltac:(lia) ltac:(lia)) as [Ho Hr].
  rewrite IH by lia. rewrite Hr, Ho, Hz.
  assert (HM' : (MAXVA <=? va + 1) = false).
  { rewrite <- HM, <- (MAXVA_page va), <- Hr, MAXVA_page by lia. done. }
  rewrite HM'. simpl. do 3 f_equal. cbn [load_bytes]. by rewrite Z.add_assoc.
Qed.

(** The fuel of the copy loops covers every page the bytes can touch. *)
Lemma copy_fuel va len :
  0 <= len -> va mod PGSIZE + len + 4095 < Z.of_nat (3 + Z.to_nat (len / PGSIZE)) * PGSIZE.
Proof.
  intros. unfold PGSIZE. pose proof (Z.mod_pos_bound va 4096). pose proof (Z.div_mod len 4096).
  pose proof (Z.mod_pos_bound len 4096). lia.
Qed.

Lemma copyout_fuel va (src : list Z) :
  va mod PGSIZE + Z.of_nat (length src) + 4095 <
  Z.of_nat (3 + length src / Z.to_nat PGSIZE) * PGSIZE.
Proof.
  pose proof (copy_fuel va (Z.of_nat (length src)) ltac:(lia)) as H.
  replace (Z.to_nat (Z.of_nat (length src) / PGSIZE)) with (length src / Z.to_nat PGSIZE)%nat in H; [done|].
  change PGSIZE with (Z.of_nat 4096). by rewrite Nat2Z.id, <- Nat2Z.inj_div, Nat2Z.id.
Qed.

Section reads.
Context (s : kernel) (root : Z) (t : ptree).
Context (Him : image_ok (img s)) (Hrep : pt_rep (img s) (mem s) root t).

(** The number of bytes one iteration of a copy loop moves. *)
Lemma copy_chunk va len :
  0 <= va -> 0 < len ->
  let n := PGSIZE - (va - PGROUNDDOWN va) in
  let n := if len <? n then len else n in
  0 < n <= len /\ va mod PGSIZE + n <= PGSIZE /\
  (n < len -> PGROUNDDOWN va + PGSIZE = va + n /\ (va + n) mod PGSIZE = 0).
Proof.
  intros Hva Hlen. cbv zeta. rewrite PGROUNDDOWN_eq. unfold PGSIZE.
  pose proof (Z.mod_pos_bound va 4096). pose proof (Z.div_mod va 4096).
  destruct (Z.ltb_spec len (4096 - (va - (va - va mod 4096)))); [lia|].
  split; [lia|]. split; [lia|]. intros _. split; [lia|].
  replace (va + (4096 - (va - (va - va mod 4096)))) with ((va / 4096 + 1) * 4096) by lia.
  apply Z.mod_mul. lia.
Qed.

Lemma copyin_body_eq dst srcva len :
  0 <= srcva -> 0 < len ->
  let n := PGSIZE - (srcva - PGROUNDDOWN srcva) in
  let n := if len <? n then len else n in
  copyin_body root (dst, srcva, len) s =
  match uread (mem s) t srcva (Z.to_nat n) with
  | Some bs => Ret (inl (dst ++ bs, PGROUNDDOWN srcva + PGSIZE, len - n)) s
  | None => Ret (inr (dst, -1)) s
  end.
Proof.
  intros Hva Hlen n0 n. destruct (copy_chunk srcva len Hva Hlen) as (Hn & Hoff & _).
  fold n0 in Hn, Hoff. fold n in Hn, Hoff. rewrite uread_page by lia. unfold copyin_body.
  destruct (Z.ltb_spec 0 len); [|lia]. cbn [negb].
  destruct (PGROUNDDOWN_range srcva Hva) as [Hva0 _].
  rewrite (bind_Ret _ _ _ _ _ (walkaddr_eq root t (PGROUNDDOWN srcva) s Him Hrep ltac:(lia))).
  rewrite MAXVA_page by done. destruct (MAXVA <=? srcva); [done|].
  destruct (_ =? 0); [done|]. unfold bind, gets, ret. cbn [obind]. fold n0. fold n.
  assert (Ho : srcva - PGROUNDDOWN srcva = srcva mod PGSIZE) by (rewrite PGROUNDDOWN_eq; lia).
  by rewrite Ho.
Qed.

Lemma copyin_loop f : forall dst srcva len,
  0 <= srcva -> 0 <= len -> srcva mod PGSIZE + len + 4095 < Z.of_nat f * PGSIZE ->
  exists bs r, iter f (copyin_body root) (dst, srcva, len) s = Ret (dst ++ bs, r) s /\
    match uread (mem s) t srcva (Z.to_nat len) with
    | Some all => r = 0 /\ bs = all
    | None => r = -1
    end.
Proof.
  induction f as [|f IH]; intros dst srcva len Hva Hlen Hf.
  { unfold PGSIZE in *. pose proof (Z.mod_pos_bound srcva 4096). lia. }
  destruct (decide (len = 0)) as [->|Hne].
  { exists [], 0. split; [|done]. by rewrite app_nil_r. }
  pose proof (copyin_body_eq dst srcva len Hva ltac:(lia)) as Hbody.
  destruct (copy_chunk srcva len Hva ltac:(lia)) as (Hn & Hoff & Hnext). cbv zeta in Hbody.
  set (n := if len <? _ then _ else _) in *.
  assert (Hsplit : Z.to_nat len = (Z.to_nat n + Z.to_nat (len - n))%nat) by lia.
  rewrite Hsplit, uread_app.
  destruct (uread (mem s) t srcva (Z.to_nat n)) as [bs|].
  2: { exists [], (-1). rewrite app_nil_r. split; [|done]. by apply iter_exit. }
  rewrite (iter_next _ _ _ _ _ _ Hbody).
  destruct (decide (n = len)) as [E|Hlt].
  { exists bs, 0. rewrite E, Z.sub_diag. simpl. rewrite app_nil_r. split; [|done].
    destruct f as [|f]; [|by apply iter_exit].
    unfold PGSIZE in *. pose proof (Z.mod_pos_bound srcva 4096). lia. }
  destruct (Hnext ltac:(lia)) as [Hva' Hm]. rewrite Hva'. rewrite PGROUNDDOWN_eq in Hva'.
  destruct (IH (dst ++ bs) (srcva + n) (len - n)) as (bs' & r & Hr & Hm'); [lia|lia| |].
  { rewrite Hm. unfold PGSIZE in *. pose proof (Z.mod_pos_bound srcva 4096). lia. }
  exists (bs ++ bs'), r. rewrite Hr, <- app_assoc. split; [done|].
  rewrite Z2Nat.id by lia. simpl. by destruct (uread _ _ _ (Z.to_nat (len - n))) as [all|];
    [destruct Hm' as [-> ->]|].
Qed.
End reads.

(** C20. copyin is a byte-by-byte read of the user address space: it returns 0
    with exactly the requested bytes when every one of them is mapped for user
    mode, and -1 otherwise; kernel state never changes. *)
Theorem copyin_reads (s : kernel) (root : Z) (t : ptree) (srcva len : Z) :
  image_ok (img s) -> pt_rep (img s) (mem s) root t -> 0 <= srcva -> 0 <= len ->
  exists dst r, copyin root srcva len s = Ret (dst, r) s /\
    match uread (mem s) t srcva (Z.to_nat len) with
    | Some bs => r = 0 /\ dst = bs
    | None => r = -1
    end.
Proof.
  intros Him Hrep Hva Hlen. unfold copyin.
  destruct (copyin_loop s root t Him Hrep (3 + Z.to_nat (len / PGSIZE)) [] srcva len Hva Hlen)
    as (bs & r & Hr & H).
  - by apply copy_fuel.
  - by exists bs, r.
Qed.

(** ** copyout *)

Definition uwritable (m : memory) (t : ptree) (va : Z) : bool :=
  let v := leafword m t (PGROUNDDOWN va) in
  negb (MAXVA <=? va) && negb ((Z.land v PTE_V =? 0) || (Z.land v PTE_U =? 0) || (Z.land v PTE_W =? 0)).

(** The pages of user memory are not page-table pages, and no page is mapped
    twice. *)
Record user_sep (m : memory) (t : ptree) : Prop := {
  us_table : forall va k, 0 <= va < MAXVA -> aligned va -> upage m t va <> 0 ->
    t !! k <> Some (upage m t va);
  us_inj : forall va va', 0 <= va < MAXVA -> 0 <= va' < MAXVA -> aligned va -> aligned va' ->
    upage m t va <> 0 -> upage m t va = upage m t va' -> va = va';
  us_pos : forall va, 0 <= va < MAXVA -> aligned va ->
    Z.land (leafword m t va) PTE_V <> 0 -> Z.land (leafword m t va) PTE_U <> 0 -> upage m t va <> 0
}.

Lemma PTE2PA_aligned v : aligned (PTE2PA v).
Proof.
  unfold aligned, PTE2PA, PGSIZE, u64. rewrite Z.shiftl_mul_pow2 by lia.
  change (2 ^ 12) with 4096. pose proof (Z.div_mod (Z.shiftr v 10 * 4096) (2 ^ 64)).
  pose proof (Z.mod_mul (Z.shiftr v 10 - Z.shiftr v 10 * 4096 / 2 ^ 64 * 2 ^ 52) 4096).
  replace (Z.shiftr v 10 * 4096 mod 2 ^ 64) with
    ((Z.shiftr v 10 - Z.shiftr v 10 * 4096 / 2 ^ 64 * 2 ^ 52) * 4096) by lia. lia.
Qed.

Lemma upage_aligned m t va : aligned (upage m t va).
Proof. unfold upage. by destruct (_ || _); [|apply PTE2PA_aligned]. Qed.

(** Two distinct pages share no byte. *)
Lemma aligned_disjoint p q i j :
  aligned p -> aligned q -> p <> q -> 0 <= i < PGSIZE -> 0 <= j < PGSIZE -> p + i <> q + j.
Proof.
  intros Hp Hq Hne Hi Hj. destruct (decide (p < q)).
  - pose proof (aligned_next p q Hp Hq). unfold PGSIZE in *. lia.
  - pose proof (aligned_next q p Hq Hp). unfold PGSIZE in *. lia.
Qed.

Lemma page_split x : 0 <= x -> PGROUNDDOWN x + x mod PGSIZE = x /\ 0 <= x mod PGSIZE < PGSIZE.
Proof. intros. rewrite PGROUNDDOWN_eq. pose proof (Z.mod_pos_bound x PGSIZE ltac:(done)). lia. Qed.

Section ustore.
Context (s : kernel) (root : Z) (t : ptree) (va : Z) (bs : list Z).
Context (Hrep : pt_rep (img s) (mem s) root t) (Hsep : user_sep (mem s) t).
Context (Hva : 0 <= va < MAXVA) (Hbs : Forall (fun x => 0 <= x < 2 ^ 8) bs).
Context (Hfit : va mod PGSIZE + Z.of_nat (length bs) <= PGSIZE).

Let pa0 := upage (mem s) t (PGROUNDDOWN va).
Context (Hpa0 : pa0 <> 0).
Definition ustore_mem : memory := store_bytes (mem s) (upage (mem s) t (PGROUNDDOWN va) + va mod PGSIZE) bs.

Lemma ustore_va0 : 0 <= PGROUNDDOWN va < MAXVA /\ aligned (PGROUNDDOWN va).
Proof. destruct (PGROUNDDOWN_range va ltac:(lia)). split; [lia|done]. Qed.

Lemma ustore_word k q i :
  t !! k = Some q -> idx_ok i -> load64 ustore_mem (q + 8 * i) = load64 (mem s) (q + 8 * i).
Proof.
  intros Hq Hi. apply load64_ext. intros b Hb. unfold ustore_mem. fold pa0.
  destruct ustore_va0 as [Hv Ha]. destruct (page_split va ltac:(lia)) as [_ Ho].
  apply load8_store_bytes_out. unfold idx_ok in Hi.
  assert (Hne : q <> pa0) by (intros ->; by apply (us_table _ _ Hsep _ k Hv Ha Hpa0)).
  pose proof (ptr_page _ _ _ _ Hrep _ _ Hq) as [Hqa _].
  pose proof (upage_aligned (mem s) t (PGROUNDDOWN va)) as Hpa. fold pa0 in Hpa.
  destruct (decide (pa0 < q)) as [Hlt|].
  - pose proof (aligned_next _ _ Hpa Hqa Hlt). unfold PGSIZE in *. lia.
  - pose proof (aligned_next _ _ Hqa Hpa ltac:(lia)). unfold PGSIZE in *. lia.
Qed.

Lemma ustore_leafword va' : leafword ustore_mem t va' = leafword (mem s) t va'.
Proof.
  unfold leafword. destruct (t !! vapath va') as [q|] eqn:Hq; [|done].
  apply (ustore_word _ _ _ Hq). by apply PX_idx.
Qed.

Lemma ustore_upage va' : upage ustore_mem t va' = upage (mem s) t va'.
Proof. unfold upage. by rewrite ustore_leafword. Qed.

Lemma ustore_rep : pt_rep (img s) ustore_mem root t.
Proof.
  split; try apply Hrep. intros k p i Hk Hlen Hi. rewrite (ustore_word _ _ _ Hk Hi). by apply Hrep.
Qed.

Lemma ustore_sep : user_sep ustore_mem t.
Proof.
  split.
  - intros va' k. rewrite ustore_upage. apply Hsep.
  - intros va1 va2. rewrite !ustore_upage. apply Hsep.
  - intros va'. rewrite ustore_upage, ustore_leafword. apply Hsep.
Qed.

Lemma ustore_ubyte x :
  0 <= x -> ubyte ustore_mem t x =
  if decide (va <= x < va + Z.of_nat (length bs)) then bs !! Z.to_nat (x - va) else ubyte (mem s) t x.
Proof.
  intros Hx. destruct ustore_va0 as [Hv Ha]. destruct (page_split va ltac:(lia)) as [Hvs Hvo].
  destruct (page_split x Hx) as [Hxs Hxo]. unfold ubyte. rewrite ustore_upage.
  case_decide as Hr.
  - destruct (page_offset va (x - va) ltac:(lia) ltac:(lia)) as [Ho Hp].
    replace (va + (x - va)) with x in Ho, Hp by lia.
    destruct (Z.leb_spec MAXVA x) as [HM|HM].
    { pose proof (MAXVA_page x Hx) as HM'. rewrite (proj2 (Z.leb_le _ _) HM), Hp in HM'.
      apply Z.leb_le in HM'. lia. }
    rewrite Hp. fold pa0. destruct (Z.eqb_spec pa0 0); [done|]. rewrite Ho. unfold ustore_mem. fold pa0.
    rewrite load8_store_bytes, decide_True by lia.
    replace (pa0 + (va mod PGSIZE + (x - va)) - (pa0 + va mod PGSIZE)) with (x - va) by lia.
    destruct (lookup_lt_is_Some_2 bs (Z.to_nat (x - va)) ltac:(lia)) as [b Hb]. rewrite Hb. simpl.
    f_equal. apply u8_small. eapply Forall_lookup in Hbs; [|exact Hb]. lia.
  - destruct (MAXVA <=? x) eqn:HM; [done|]. destruct (Z.eqb_spec (upage (mem s) t (PGROUNDDOWN x)) 0) as [|Hpx]; [done|].
    f_equal. apply load8_store_bytes_out. fold pa0.
    apply Z.leb_gt in HM. destruct (PGROUNDDOWN_range x Hx) as [Hx0 Hxa].
    destruct (decide (PGROUNDDOWN x = PGROUNDDOWN va)) as [E|Hne].
    + rewrite E. fold pa0. rewrite E in Hxs. lia.
    + assert (upage (mem s) t (PGROUNDDOWN x) <> pa0) as Hne'.
      { intros E. apply Hne. apply (us_inj _ _ Hsep); done || lia. }
      pose proof (upage_aligned (mem s) t (PGROUNDDOWN x)) as H1.
      pose proof (upage_aligned (mem s) t (PGROUNDDOWN va)) as H2. fold pa0 in H2.
      set (px := upage (mem s) t (PGROUNDDOWN x)) in *. destruct (decide (px < pa0)).
      * pose proof (aligned_next _ _ H1 H2). lia.
      * pose proof (aligned_next _ _ H2 H1). lia.
Qed.
End ustore.

(** User memory [m'] is [m] with [bs] written at [va]. *)
Definition uwritten (m : memory) (t : ptree) (va : Z) (bs : list Z) (m' : memory) : Prop :=
  (forall va', leafword m' t va' = leafword m t va') /\
  (forall x, 0 <= x -> ubyte m' t x =
     if decide (va <= x < va + Z.of_nat (length bs)) then bs !! Z.to_nat (x - va) else ubyte m t x).

Lemma uwritten_nil m t va : uwritten m t va [] m.
Proof. split; [done|]. intros x Hx. rewrite decide_False; [done|]. simpl. lia. Qed.

Lemma uwritten_app m t va bs bs' m' m'' :
  uwritten m t va bs m' -> uwritten m' t (va + Z.of_nat (length bs)) bs' m'' ->
  uwritten m t va (bs ++ bs') m''.
Proof.
  intros [L1 U1] [L2 U2]. split; [intros; by rewrite L2|]. intros x Hx. rewrite U2 by done.
  rewrite length_app, Nat2Z.inj_add. case_decide as H1.
  - rewrite decide_True by lia. rewrite lookup_app_r by lia. f_equal. lia.
  - rewrite U1 by done. case_decide as H2.
    + rewrite decide_True by lia. by rewrite lookup_app_l by lia.
    + rewrite decide_False; [done|lia].
Qed.

Lemma uwritten_writable m t va bs m' x : uwritten m t va bs m' -> uwritable m' t x = uwritable m t x.
Proof. intros [L _]. unfold uwritable. by rewrite L. Qed.

Lemma uwritable_page m t va :
  0 <= va -> user_sep m t -> uwritable m t va = true ->
  va < MAXVA /\ upage m t (PGROUNDDOWN va) = PTE2PA (leafword m t (PGROUNDDOWN va)) /\
  upage m t (PGROUNDDOWN va) <> 0.
Proof.
  intros Hva Hsep. unfold uwritable. rewrite andb_true_iff, !negb_true_iff, !orb_false_iff.
  intros (HM & [HV HU] & _). apply Z.leb_gt in HM. split; [lia|]. split.
  - unfold upage. by rewrite HV, HU.
  - destruct (PGROUNDDOWN_range va Hva). apply Hsep; [lia|done|by apply Z.eqb_neq|by apply Z.eqb_neq].
Qed.

Lemma copyout_body_eq s root t va bs :
  image_ok (img s) -> pt_rep (img s) (mem s) root t -> user_sep (mem s) t -> 0 <= va -> bs <> [] ->
  let n := PGSIZE - (va - PGROUNDDOWN va) in
  let n := if Z.of_nat (length bs) <? n then Z.of_nat (length bs) else n in
  copyout_body root (va, bs) s =
  if uwritable (mem s) t va
  then Ret (inl (PGROUNDDOWN va + PGSIZE, drop (Z.to_nat n) bs))
         (set_mem (ustore_mem s t va (take (Z.to_nat n) bs)) s)
  else Ret (inr (-1)) s.
Proof.
  intros Him Hrep Hsep Hva Hbs n0 n. pose proof (uwritable_page _ _ va Hva Hsep) as Hpg.
  unfold copyout_body.
  destruct (Z.ltb_spec 0 (Z.of_nat (length bs))); [|destruct bs; simpl in *; [done|lia]]. cbn [negb].
  destruct (PGROUNDDOWN_range va Hva) as [Hva0 _].
  unfold uwritable, ustore_mem in *. rewrite MAXVA_page by done.
  destruct (Z.leb_spec MAXVA va); [done|]. cbn [negb andb] in *.
  rewrite (bind_Ret _ _ _ _ _ (walk_noalloc root t (PGROUNDDOWN va) s Him Hrep ltac:(lia))).
  unfold leafword in *. destruct (t !! vapath (PGROUNDDOWN va)) as [q|] eqn:Hq; [|done].
  pose proof (page_ok_pos _ _ Him (ptr_page _ _ _ _ Hrep _ _ Hq)).
  pose proof (PX_range 0 (PGROUNDDOWN va) ltac:(lia)).
  destruct (Z.eqb_spec (q + 8 * PX 0 (PGROUNDDOWN va)) 0); [lia|].
  unfold bind, ld64, gets, modify, ret. cbn [obind]. fold n0 n.
  destruct (_ || _); [done|]. destruct (Hpg eq_refl) as (_ & -> & _).
  assert (Ho : va - PGROUNDDOWN va = va mod PGSIZE) by (rewrite PGROUNDDOWN_eq; lia).
  by rewrite Ho.
Qed.

Lemma copyout_loop f : forall root t va bs s,
  image_ok (img s) -> pt_rep (img s) (mem s) root t -> user_sep (mem s) t -> 0 <= va ->
  Forall (fun x => 0 <= x < 2 ^ 8) bs ->
  va mod PGSIZE + Z.of_nat (length bs) + 4095 < Z.of_nat f * PGSIZE ->
  exists m' j r, iter f (copyout_body root) (va, bs) s = Ret r (set_mem m' s) /\
    pt_rep (img s) m' root t /\ uwritten (mem s) t va (take j bs) m' /\
    ((r = 0 /\ j = length bs) \/
     (r = -1 /\ (j < length bs)%nat /\ uwritable (mem s) t (va + Z.of_nat j) = false)).
Proof.
  induction f as [|f IH]; intros root t va bs s Him Hrep Hsep Hva Hby Hf.
  { unfold PGSIZE in *. pose proof (Z.mod_pos_bound va 4096). lia. }
  destruct (decide (bs = [])) as [->|Hne].
  { exists (mem s), 0%nat, 0. split; [by destruct s|]. split; [done|]. split; [apply uwritten_nil|by left]. }
  assert (Hlen : 0 < Z.of_nat (length bs)) by (destruct bs; simpl; [done|lia]).
  pose proof (copyout_body_eq s root t va bs Him Hrep Hsep Hva Hne) as Hbody.
  destruct (copy_chunk va _ Hva Hlen) as (Hn & Hoff & Hnext). cbv zeta in Hbody.
  set (n := if _ <? _ then _ else _) in *.
  destruct (uwritable (mem s) t va) eqn:Hw.
  2: { exists (mem s), 0%nat, (-1). split; [rewrite (iter_exit _ _ _ _ _ _ Hbody); by destruct s|].
       split; [done|]. split; [apply uwritten_nil|]. right. rewrite Z.add_0_r. repeat split; [lia|done]. }
  destruct (uwritable_page _ _ va Hva Hsep Hw) as (HM & _ & Hpa).
  set (b1 := take (Z.to_nat n) bs) in *.
  assert (Hl1 : length b1 = Z.to_nat n) by (unfold b1; rewrite length_take; lia).
  assert (Hby1 : Forall (fun x => 0 <= x < 2 ^ 8) b1) by (by apply Forall_take).
  assert (Hfit : va mod PGSIZE + Z.of_nat (length b1) <= PGSIZE) by lia.
  assert (Hwr : uwritten (mem s) t va b1 (ustore_mem s t va b1)).
  { split; [intros; by eapply ustore_leafword|]. intros x Hx. by eapply ustore_ubyte. }
  assert (Hrep1 : pt_rep (img s) (ustore_mem s t va b1) root t) by (by eapply ustore_rep).
  assert (Hsep1 : user_sep (ustore_mem s t va b1) t) by (by eapply ustore_sep).
  rewrite (iter_next _ _ _ _ _ _ Hbody).
  destruct (decide (n = Z.of_nat (length bs))) as [E|Hlt].
  { exists (ustore_mem s t va b1), (length bs), 0. rewrite drop_ge by lia.
    rewrite firstn_all. replace b1 with bs in * by (unfold b1; rewrite take_ge; [done|lia]).
    split; [|split; [done|split; [done|by left]]]. destruct f as [|f]; [|by apply iter_exit].
    unfold PGSIZE in *. pose proof (Z.mod_pos_bound va 4096). lia. }
  destruct (Hnext ltac:(lia)) as [Hva' Hm]. rewrite Hva'. rewrite PGROUNDDOWN_eq in Hva'.
  destruct (IH root t (va + n) (drop (Z.to_nat n) bs) (set_mem (ustore_mem s t va b1) s))
    as (m' & j & r & Hr & Hrep' & Hwr' & Hres); [done|done|done|lia|by apply Forall_drop| |].
  { rewrite Hm, length_drop. unfold PGSIZE in *. pose proof (Z.mod_pos_bound va 4096). lia. }
  exists m', (Z.to_nat n + j)%nat, r. split; [by rewrite Hr|]. split; [exact Hrep'|]. split.
  - rewrite <- take_take_drop. fold b1. eapply uwritten_app; [exact Hwr|].
    rewrite Hl1, Z2Nat.id by lia. exact Hwr'.
  - rewrite length_drop in Hres. destruct Hres as [[-> ->]|(-> & Hj & Hnw)]; [left|right].
    + split; [done|]. lia.
    + split; [done|]. split; [lia|]. rewrite <- (uwritten_writable _ _ _ _ _ _ Hwr).
      simpl in Hnw. rewrite Nat2Z.inj_add, Z2Nat.id, Z.add_assoc by lia. exact Hnw.
Qed.

(** C21. copyout writes user memory byte by byte and nothing else: user memory
    afterwards is what it was with the bytes written from dstva on, all of them
    on success; on failure it has written a proper prefix and stopped at an
    address that user mode may not write.  The page table is intact. *)
Theorem copyout_writes (s : kernel) (root : Z) (t : ptree) (dstva : Z) (src : list Z) :
  image_ok (img s) -> pt_rep (img s) (mem s) root t -> user_sep (mem s) t -> 0 <= dstva ->
  Forall (fun x => 0 <= x < 2 ^ 8) src ->
  exists m' j r, copyout root dstva src s = Ret r (set_mem m' s) /\
    pt_rep (img s) m' root t /\ uwritten (mem s) t dstva (take j src) m' /\
    ((r = 0 /\ j = length src) \/
     (r = -1 /\ (j < length src)%nat /\ uwritable (mem s) t (dstva + Z.of_nat j) = false)).
Proof.
  intros Him Hrep Hsep Hva Hby. apply copyout_loop; try done.
  apply copyout_fuel.
Qed.

Lemma uwritten_uread m t va bs m' n :
  uwritten m t va bs m' -> 0 <= va -> forall i, (i + n)%nat = length bs ->
  uread m' t (va + Z.of_nat i) n = Some (drop i bs).
Proof.
  intros [_ U] Hva. induction n as [|n IH]; intros i Hi.
  - simpl. by rewrite drop_ge by lia.
  - cbn [uread]. rewrite U by lia. rewrite decide_True by lia.
    replace (Z.to_nat (va + Z.of_nat i - va)) with i by lia.
    destruct (lookup_lt_is_Some_2 bs i ltac:(lia)) as [b Hb]. rewrite Hb. simpl.
    replace (va + Z.of_nat i + 1) with (va + Z.of_nat (S i)) by lia. rewrite IH by lia. simpl.
    by rewrite (drop_S bs b i Hb).
Qed.

(** What copyout stores, copyin reads back: after a successful copyout of
    some bytes, copyin of as many bytes from the same address returns them. *)
Theorem copyout_copyin_roundtrip (s : kernel) (root : Z) (t : ptree) (va : Z) (bs : list Z) :
  image_ok (img s) -> pt_rep (img s) (mem s) root t -> user_sep (mem s) t -> 0 <= va ->
  Forall (fun x => 0 <= x < 2 ^ 8) bs ->
  (forall i, (i < length bs)%nat -> uwritable (mem s) t (va + Z.of_nat i) = true) ->
  returns ((r <- copyout root va bs;; p <- copyin root va (Z.of_nat (length bs));; ret (r, p)) s)
    (fun res _ => res = (0, (bs, 0))).
Proof.
  intros Him Hrep Hsep Hva Hby Hw.
  destruct (copyout_loop (3 + length bs / Z.to_nat PGSIZE) root t va bs s)
    as (m' & j & r & Hr & Hrep' & Hwr & Hres); try done.
  { apply copyout_fuel. }
  destruct Hres as [[-> ->]|(_ & Hj & Hn)]; [|by rewrite Hw in Hn].
  rewrite (bind_Ret _ _ _ _ _ Hr). rewrite firstn_all in Hwr.
  destruct (copyin_loop (set_mem m' s) root t Him Hrep'
    (3 + Z.to_nat (Z.of_nat (length bs) / PGSIZE)) [] va (Z.of_nat (length bs)) Hva ltac:(lia))
    as (bs' & r & Hr' & H).
  - apply copy_fuel. lia.
  - pose proof (uwritten_uread _ _ _ _ _ (length bs) Hwr Hva 0 eq_refl) as Hrd.
    rewrite Z.add_0_r, drop_0 in Hrd. simpl in H. rewrite Nat2Z.id, Hrd in H. destruct H as [-> ->].
    by rewrite (bind_Ret _ _ _ _ _ Hr').
Qed.

(** ** copyinstr *)

(** A NUL-terminated string of at most [n] bytes, NUL included. *)
Fixpoint ustr (m : memory) (t : ptree) (va : Z) (n : nat) : option (list Z) :=
  match n with
  | O => None
  | S n' => b ← ubyte m t va;
            if b =? 0 then Some [0] else bs ← ustr m t (va + 1) n'; Some (b :: bs)
  end.

Lemma ustr_page m t k n : forall va,
  0 <= va -> va mod PGSIZE + Z.of_nat n <= PGSIZE -> (0 < n)%nat ->
  ustr m t va (n + k) =
  if MAXVA <=? va then None else
  if upage m t (PGROUNDDOWN va) =? 0 then None else
  let '(bs, got_null) := copyinstr_bytes m n (upage m t (PGROUNDDOWN va) + va mod PGSIZE) in
  if got_null : bool then Some bs else rest ← ustr m t (va + Z.of_nat n) k; Some (bs ++ rest).
Proof.
  induction n as [|n IH]; intros va Hva Hn Hn0; [lia|]. cbn [ustr Nat.add copyinstr_bytes].
  unfold ubyte at 1. destruct (MAXVA <=? va) eqn:HM; [done|].
  destruct (_ =? 0) eqn:Hz; [done|]. simpl.
  destruct (load8 m _ =? 0); [done|].
  destruct n as [|n].
  { cbn [Nat.add copyinstr_bytes]. change (Z.of_nat 1) with 1. done. }
  destruct (page_offset va 1 ltac:(lia) ltac:(lia)) as [Ho Hr].
  rewrite IH by lia. rewrite Hr, Ho, Hz.
  assert (HM' : (MAXVA <=? va + 1) = false).
  { rewrite <- HM, <- (MAXVA_page va), <- Hr, MAXVA_page by lia. done. }
  rewrite HM', Z.add_assoc.
  destruct (copyinstr_bytes m (S n) _) as [bs []]; [done|].
  replace (va + 1 + Z.of_nat (S n)) with (va + Z.of_nat (S (S n))) by lia.
  by destruct (ustr _ _ _ k).
Qed.

Lemma copyinstr_body_eq s root t dst srcva max :
  image_ok (img s) -> pt_rep (img s) (mem s) root t -> 0 <= srcva -> 0 < max ->
  let n := PGSIZE - (srcva - PGROUNDDOWN srcva) in
  let n := if max <? n then max else n in
  copyinstr_body root (dst, srcva, max) s =
  if MAXVA <=? srcva then Ret (inr (dst, -1)) s else
  if upage (mem s) t (PGROUNDDOWN srcva) =? 0 then Ret (inr (dst, -1)) s else
  let '(bs, got_null) := copyinstr_bytes (mem s) (Z.to_nat n)
    (upage (mem s) t (PGROUNDDOWN srcva) + srcva mod PGSIZE) in
  if got_null : bool then Ret (inr (dst ++ bs, 0)) s
  else Ret (inl (dst ++ bs, PGROUNDDOWN srcva + PGSIZE, max - n)) s.
Proof.
  intros Him Hrep Hva Hmax n0 n. unfold copyinstr_body.
  destruct (Z.ltb_spec 0 max); [|lia]. cbn [negb].
  destruct (PGROUNDDOWN_range srcva Hva) as [Hva0 _].
  rewrite (bind_Ret _ _ _ _ _ (walkaddr_eq root t (PGROUNDDOWN srcva) s Him Hrep ltac:(lia))).
  rewrite MAXVA_page by done. destruct (MAXVA <=? srcva); [done|].
  destruct (_ =? 0); [done|]. unfold bind, gets, ret. cbn [obind]. fold n0. fold n.
  assert (Ho : srcva - PGROUNDDOWN srcva = srcva mod PGSIZE) by (rewrite PGROUNDDOWN_eq; lia).
  rewrite Ho. by destruct (copyinstr_bytes _ _ _) as [bs []].
Qed.

Lemma copyinstr_loop f : forall s root t dst srcva max,
  image_ok (img s) -> pt_rep (img s) (mem s) root t -> 0 <= srcva -> 0 <= max ->
  srcva mod PGSIZE + max + 4095 < Z.of_nat f * PGSIZE ->
  exists bs r, iter f (copyinstr_body root) (dst, srcva, max) s = Ret (dst ++ bs, r) s /\
    match ustr (mem s) t srcva (Z.to_nat max) with
    | Some str => r = 0 /\ bs = str
    | None => r = -1
    end.
Proof.
  induction f as [|f IH]; intros s root t dst srcva max Him Hrep Hva Hmax Hf.
  { unfold PGSIZE in *. pose proof (Z.mod_pos_bound srcva 4096). lia. }
  destruct (decide (max = 0)) as [->|Hne].
  { exists [], (-1). split; [|done]. by rewrite app_nil_r. }
  pose proof (copyinstr_body_eq s root t dst srcva max Him Hrep Hva ltac:(lia)) as Hbody.
  destruct (copy_chunk srcva max Hva ltac:(lia)) as (Hn & Hoff & Hnext). cbv zeta in Hbody.
  set (n := if max <? _ then _ else _) in *.
  assert (Hsplit : Z.to_nat max = (Z.to_nat n + Z.to_nat (max - n))%nat) by lia.
  rewrite Hsplit, ustr_page by lia.
  destruct (MAXVA <=? srcva); [exists [], (-1); rewrite app_nil_r; split; [by apply iter_exit|done]|].
  destruct (_ =? 0); [exists [], (-1); rewrite app_nil_r; split; [by apply iter_exit|done]|].
  destruct (copyinstr_bytes _ _ _) as [bs []]; [exists bs, 0; split; [by apply iter_exit|done]|].
  rewrite (iter_next _ _ _ _ _ _ Hbody).
  destruct (decide (n = max)) as [E|Hlt].
  { exists bs, (-1). rewrite E, Z.sub_diag. simpl. split; [|done].
    destruct f as [|f]; [|by apply iter_exit].
    unfold PGSIZE in *. pose proof (Z.mod_pos_bound srcva 4096). lia. }
  destruct (Hnext ltac:(lia)) as [Hva' Hm]. rewrite Hva'. rewrite PGROUNDDOWN_eq in Hva'.
  destruct (IH s root t (dst ++ bs) (srcva + n) (max - n)) as (bs' & r & Hr & Hm'); [done|done|lia|lia| |].
  { rewrite Hm. unfold PGSIZE in *. pose proof (Z.mod_pos_bound srcva 4096). lia. }
  exists (bs ++ bs'), r. rewrite Hr, <- app_assoc. split; [done|].
  rewrite Z2Nat.id by lia. by destruct (ustr _ _ _ (Z.to_nat (max - n))) as [all|];
    [destruct Hm' as [-> ->]|].
Qed.

(** copyinstr reads the NUL-terminated user string: it returns 0 with the
    bytes up to and including the first NUL when that NUL lies within max
    bytes and every byte before it is mapped for user mode, and -1 otherwise. *)
Theorem copyinstr_reads (s : kernel) (root : Z) (t : ptree) (srcva max : Z) :
  image_ok (img s) -> pt_rep (img s) (mem s) root t -> 0 <= srcva -> 0 <= max ->
  exists dst r, copyinstr root srcva max s = Ret (dst, r) s /\
    match ustr (mem s) t srcva (Z.to_nat max) with
    | Some str => r = 0 /\ dst = str
    | None => r = -1
    end.
Proof.
  intros Him Hrep Hva Hmax. unfold copyinstr.
  destruct (copyinstr_loop (3 + Z.to_nat (max / PGSIZE)) s root t [] srcva max Him Hrep Hva Hmax)
    as (bs & r & Hr & H); [by apply copy_fuel|].
  by exists bs, r.
Qed.

(** ** Single bytes to and from the user *)

Lemma copyin_one s root t va :
  image_ok (img s) -> pt_rep (img s) (mem s) root t -> 0 <= va ->
  exists bs, copyin root va 1 s =
    match ubyte (mem s) t va with
    | Some b => Ret ([b], 0) s
    | None => Ret (bs, -1) s
    end.
Proof.
  intros Him Hrep Hva. unfold copyin.
  destruct (copyin_loop s root t Him Hrep (3 + Z.to_nat (1 / PGSIZE)) [] va 1 Hva ltac:(lia)) as (bs & r & E & Hm).
  { apply copy_fuel. lia. }
  exists bs. rewrite E. change (Z.to_nat 1) with 1%nat in Hm. cbn [uread app] in *.
  destruct (ubyte (mem s) t va) as [b|]; simpl in Hm; [destruct Hm as [-> ->]|subst r]; done.
Qed.

Lemma copyout_one s root t va b :
  image_ok (img s) -> pt_rep (img s) (mem s) root t -> user_sep (mem s) t -> 0 <= va ->
  copyout root va [b] s =
  if uwritable (mem s) t va then Ret 0 (set_mem (ustore_mem s t va [b]) s) else Ret (-1) s.
Proof.
  intros Him Hrep Hsep Hva. unfold copyout.
  assert (En : Z.to_nat (if Z.of_nat (length [b]) <? PGSIZE - (va - PGROUNDDOWN va)
    then Z.of_nat (length [b]) else PGSIZE - (va - PGROUNDDOWN va)) = 1%nat).
  { destruct (copy_chunk va 1 Hva ltac:(lia)) as [Hn _]. cbv zeta in Hn.
    change (Z.of_nat (length [b])) with 1. lia. }
  pose proof (copyout_body_eq s root t va [b] Him Hrep Hsep Hva ltac:(done)) as Eb. cbv zeta in Eb.
  rewrite En in Eb. cbn [take drop] in Eb.
  change (3 + length [b] / Z.to_nat PGSIZE)%nat with 3%nat. destruct (uwritable (mem s) t va).
  - rewrite (iter_next 2 _ _ _ _ _ Eb). by apply iter_exit.
  - by apply iter_exit.
Qed.

Lemma copyout_byte s root t va b :
  image_ok (img s) -> pt_rep (img s) (mem s) root t -> user_sep (mem s) t -> 0 <= va -> 0 <= b < 2 ^ 8 ->
  exists m', copyout root va [b] s = (if uwritable (mem s) t va then Ret 0 (set_mem m' s) else Ret (-1) s) /\
    (uwritable (mem s) t va = true ->
      uwritten (mem s) t va [b] m' /\ pt_rep (img s) m' root t /\ user_sep m' t).
Proof.
  intros Him Hrep Hsep Hva Hb. exists (ustore_mem s t va [b]). split; [by apply copyout_one|]. intros Hw.
  destruct (uwritable_page _ _ _ Hva Hsep Hw) as (HM & _ & Hnz).
  assert (Hby : Forall (fun x => 0 <= x < 2 ^ 8) [b]) by (by apply Forall_singleton).
  destruct (page_split va Hva) as [_ Hof].
  assert (Hfit : va mod PGSIZE + Z.of_nat (length [b]) <= PGSIZE) by (simpl; lia).
  split; [|split; [by apply ustore_rep|by apply (ustore_sep s root)]].
  split; [intros va'; by apply (ustore_leafword s root)|]. intros x Hx. by apply (ustore_ubyte s root).
Qed.
