(* ===== verification/VmCopy.v ===== *)
(** uvmcopy, which fork uses to copy the memory of a process: the new page table
    maps fresh pages with the same bytes and permissions, or everything that was
    mapped is given back.  Before it, executable checks that a concrete memory holds a
    page table and that its user pages are separate, and a small address space on which
    the theorems about page tables and user memory are instantiated. *)

From S2P Require Import Prelude Outcome Mem State Spinlock KString Kalloc Vm VmSpec UserMem.

(** * A concrete address space *)

Definition page_okb (im : image) (p : Z) : bool :=
  (p mod PGSIZE =? 0) && (end_addr im <=? p) && (p <? PHYSTOP).

Definition wordb (t : ptree) (m : memory) (k : list Z) (p i : Z) : bool :=
  match t !! (k ++ [i]) with
  | Some q => load64 m (p + 8 * i) =? Z.lor (PA2PTE q) PTE_V
  | None => Z.land (load64 m (p + 8 * i)) PTE_V =? 0
  end.

Definition tableb (im : image) (m : memory) (t : ptree) (kp : list Z * Z) : bool :=
  let '(k, p) := kp in
  (length k <=? 2)%nat && forallb (fun i => (0 <=? i) && (i <? 512)) k && page_okb im p &&
  bool_decide (k = [] \/ is_Some (t !! removelast k)) &&
  ((2 <=? length k)%nat || forallb (wordb t m k p) (seqZ 0 512)).

Definition pt_repb (im : image) (m : memory) (root : Z) (t : ptree) : bool :=
  bool_decide (t !! [] = Some root) && bool_decide (NoDup (map_to_list t).*2) &&
  forallb (tableb im m t) (map_to_list t).

Lemma NoDup_fmap_inj {A B} (f : A -> B) (l : list A) x y :
  NoDup (f <$> l) -> x ∈ l -> y ∈ l -> f x = f y -> x = y.
Proof.
  intros Hnd [i Hi]%list_elem_of_lookup [j Hj]%list_elem_of_lookup E.
  assert (i = j) as ->; [|congruence].
  eapply NoDup_lookup; [exact Hnd| |]; rewrite list_lookup_fmap.
  - by rewrite Hi.
  - by rewrite Hj, E.
Qed.

Lemma tableb_spec im m t k p :
  tableb im m t (k, p) = true ->
  (length k <= 2)%nat /\ Forall idx_ok k /\ page_ok im p /\ (k = [] \/ is_Some (t !! removelast k)) /\
  ((length k < 2)%nat -> forall i, idx_ok i -> wordb t m k p i = true).
Proof.
  unfold tableb, page_okb. rewrite !andb_true_iff, orb_true_iff, bool_decide_eq_true.
  intros ((((H1 & H2) & ((Ha & He) & Hp)) & H4) & H5).
  apply Nat.leb_le in H1. apply Z.eqb_eq in Ha. apply Z.leb_le in He. apply Z.ltb_lt in Hp.
  split; [done|]. split.
  { apply Forall_forall. intros i Hi. rewrite forallb_forall in H2.
    apply list_elem_of_In in Hi. apply H2 in Hi. unfold idx_ok. lia. }
  split; [by split|]. split; [done|]. intros Hlen i Hi.
  destruct H5 as [H5|H5]; [apply Nat.leb_le in H5; lia|].
  rewrite forallb_forall in H5. apply H5. apply list_elem_of_In, elem_of_seqZ. unfold idx_ok in Hi. lia.
Qed.

Lemma pt_repb_sound im m root t : pt_repb im m root t = true -> pt_rep im m root t.
Proof.
  unfold pt_repb. rewrite !andb_true_iff, !bool_decide_eq_true. intros [[Hroot Hnd] Hall].
  assert (H : forall k p, t !! k = Some p -> tableb im m t (k, p) = true).
  { intros k p Hk. rewrite forallb_forall in Hall. apply Hall.
    by apply list_elem_of_In, elem_of_map_to_list. }
  split.
  - done.
  - intros k p Hk. apply H, tableb_spec in Hk. by destruct Hk as (? & ? & _).
  - intros k p Hk. apply H, tableb_spec in Hk. by destruct Hk as (_ & _ & ? & _).
  - intros k k' p Hk Hk'. apply elem_of_map_to_list in Hk, Hk'.
    assert ((k, p) = (k', p)) as [= ->]; [|done]. by eapply (NoDup_fmap_inj snd).
  - intros k i q Hk. apply H, tableb_spec in Hk. destruct Hk as (_ & _ & _ & [E|Hp] & _).
    + by destruct k.
    + by rewrite removelast_last in Hp.
  - intros k p i Hk Hlen Hi. apply H, tableb_spec in Hk. destruct Hk as (_ & _ & _ & _ & Hw).
    specialize (Hw Hlen i Hi). unfold wordb in Hw. destruct (t !! (k ++ [i])); by apply Z.eqb_eq.
Qed.

(** The user pages of a table, with the path and index of their PTEs. *)
Definition user_pages (m : memory) (t : ptree) : list (list Z * Z * Z) :=
  kp ← map_to_list t;
  if (length kp.1 =? 2)%nat then
    i ← seqZ 0 512;
    let v := load64 m (kp.2 + 8 * i) in
    if (Z.land v PTE_V =? 0) || (Z.land v PTE_U =? 0) then [] else [(kp.1, i, PTE2PA v)]
  else [].

Definition user_sepb (m : memory) (t : ptree) : bool :=
  bool_decide (NoDup (user_pages m t).*2) &&
  forallb (fun p => negb (p =? 0) && bool_decide (p ∉ (map_to_list t).*2)) (user_pages m t).*2.

Lemma upage_user_pages m t va :
  0 <= va < MAXVA -> Z.land (leafword m t va) PTE_V <> 0 -> Z.land (leafword m t va) PTE_U <> 0 ->
  (vapath va, PX 0 va, upage m t va) ∈ user_pages m t.
Proof.
  intros Hva HV HU. unfold upage. unfold leafword in *.
  destruct (t !! vapath va) as [q|] eqn:Hq; [|done].
  apply Z.eqb_neq in HV, HU. rewrite HV, HU. cbn [orb].
  unfold user_pages. apply list_elem_of_bind. exists (vapath va, q).
  split; [|by apply elem_of_map_to_list]. cbn [fst snd].
  change (length (vapath va)) with 2%nat. cbn [Nat.eqb].
  apply list_elem_of_bind. exists (PX 0 va). split.
  - rewrite HV, HU. cbn [orb]. by apply list_elem_of_singleton.
  - apply elem_of_seqZ. pose proof (PX_idx 0 va ltac:(lia)). unfold idx_ok in *. lia.
Qed.

Lemma upage_nonzero m t va :
  upage m t va <> 0 -> Z.land (leafword m t va) PTE_V <> 0 /\ Z.land (leafword m t va) PTE_U <> 0.
Proof.
  unfold upage. destruct (Z.eqb_spec (Z.land (leafword m t va) PTE_V) 0); [done|].
  destruct (Z.eqb_spec (Z.land (leafword m t va) PTE_U) 0); done.
Qed.

Lemma user_sepb_sound m t : user_sepb m t = true -> user_sep m t.
Proof.
  unfold user_sepb. rewrite andb_true_iff, bool_decide_eq_true. intros [Hnd Hall].
  rewrite forallb_forall in Hall.
  assert (H : forall x, x ∈ user_pages m t -> x.2 <> 0 /\ x.2 ∉ (map_to_list t).*2).
  { intros x Hx. specialize (Hall x.2). rewrite <- list_elem_of_In, andb_true_iff, bool_decide_eq_true, negb_true_iff, Z.eqb_neq in Hall.
    apply Hall. by apply list_elem_of_fmap_2. }
  split.
  - intros va k Hva Ha [HV HU]%upage_nonzero Hk.
    apply (upage_user_pages m t va Hva HV) in HU. apply H in HU. apply HU. simpl.
    apply elem_of_map_to_list in Hk. change (upage m t va) with (snd (k, upage m t va)). by apply list_elem_of_fmap_2.
  - intros va va' Hva Hva' Ha Ha' Hnz E. pose proof Hnz as [HV HU]%upage_nonzero.
    rewrite E in Hnz. apply upage_nonzero in Hnz as [HV' HU'].
    apply (upage_user_pages m t va Hva HV) in HU. apply (upage_user_pages m t va' Hva' HV') in HU'.
    pose proof (NoDup_fmap_inj snd _ _ _ Hnd HU HU' E) as Heq. injection Heq as E2 E1 E0 _.
    apply vapath_inj; try done. unfold vapath. by rewrite E2, E1.
  - intros va Hva Ha HV HU. apply (upage_user_pages m t va Hva HV) in HU. by apply H in HU as [? _].
Qed.

(** ** A concrete address space

    A three-level page table with one user page at virtual address 0, beside
    two free pages. *)

Definition ex_image : image := mkImage 0x87ff0000 0x80008000 0x80007000 0 0 0 0 0.
Definition ex_root : Z := 0x87ff1000.
Definition ex_tree : gmap (list Z) Z :=
  list_to_map [([], ex_root); ([0], 0x87ff2000); ([0; 0], 0x87ff3000)].
Definition ex_user : Z := 0x87ff4000.
Definition ex_free : list Z := [0x87ff5000; 0x87ff6000].
Definition ex_mem : memory :=
  store64 (store64 (store64 (store64 ∅
    0x87ff1000 (Z.lor (PA2PTE 0x87ff2000) PTE_V))
    0x87ff2000 (Z.lor (PA2PTE 0x87ff3000) PTE_V))
    0x87ff3000 (map_pte ex_user (Z.lor PTE_R (Z.lor PTE_W PTE_U))))
    0x87ff5000 0x87ff6000.
Definition ex_kernel : kernel :=
  set_freelist 0x87ff5000 (set_mem ex_mem (kernel0 ex_image ∅)).

Lemma ex_pt_rep : pt_rep (img ex_kernel) (mem ex_kernel) ex_root ex_tree.
Proof. apply pt_repb_sound. vm_compute. reflexivity. Qed.
Lemma ex_user_sep : user_sep (mem ex_kernel) ex_tree.
Proof. apply user_sepb_sound. vm_compute. reflexivity. Qed.
Lemma ex_image_ok : image_ok (img ex_kernel).
Proof. vm_compute. repeat split; discriminate || reflexivity. Qed.

Lemma ex_kmem_inv : kmem_inv ex_kernel ex_free.
Proof.
  split; [apply ex_image_ok|]. split; [|split].
  - vm_compute. repeat split.
  - apply (bool_decide_eq_true_1 _). vm_compute. reflexivity.
  - repeat constructor; vm_compute; discriminate || reflexivity.
Qed.

Lemma ex_vm_inv : vm_inv ex_kernel ex_root ex_tree ex_free.
Proof.
  split.
  - vm_compute. split; [discriminate|reflexivity].
  - reflexivity.
  - apply ex_kmem_inv.
  - apply ex_pt_rep.
  - intros k p Hk. apply elem_of_map_to_list in Hk.
    assert (H : forallb (fun x => bool_decide (x.2 ∉ ex_free)) (map_to_list ex_tree) = true)
      by (vm_compute; reflexivity).
    rewrite forallb_forall in H. apply list_elem_of_In, H in Hk. by apply bool_decide_eq_true in Hk.
Qed.

Lemma kalloc_hands_out_once_witness :
  returns (kalloc ex_kernel) (fun r s' => r = 0x87ff5000 /\ kmem_inv s' [0x87ff6000]).
Proof.
  eapply returns_mono.
  - apply (kalloc_hands_out_once ex_kernel ex_free); [apply ex_vm_inv|reflexivity|apply ex_kmem_inv].
  - intros r s' H. simpl in H. destruct H as (-> & _ & _ & Hk & _). split; [reflexivity|exact Hk].
Defined.

Lemma kfree_kalloc_roundtrip_witness :
  returns ((kfree 0x87ff4000;; kalloc) ex_kernel) (fun r s' => r = 0x87ff4000 /\ kmem_inv s' ex_free).
Proof.
  eapply returns_mono.
  - apply (kfree_kalloc_roundtrip ex_kernel ex_free 0x87ff4000).
    + apply ex_vm_inv.
    + reflexivity.
    + apply ex_kmem_inv.
    + vm_compute. repeat split; discriminate || reflexivity.
    + apply (bool_decide_eq_true_1 _). vm_compute. reflexivity.
  - intros r s' (-> & Hk & _). split; [reflexivity|exact Hk].
Defined.

Lemma kinit_frees_all_pages_witness :
  returns (kinit (kernel0 ex_image ∅)) (fun _ s' =>
    exists l, kmem_inv s' l /\ forall p, p ∈ l <-> page_ok ex_image p).
Proof.
  apply (kinit_frees_all_pages (kernel0 ex_image ∅)).
  - vm_compute. split; [discriminate|reflexivity].
  - vm_compute. split; discriminate || reflexivity.
  - reflexivity.
Defined.

Lemma mappages_maps_witness :
  returns (mappages ex_root 0x1000 0x1000 0x87ff7000 (Z.lor PTE_R PTE_U) ex_kernel) (fun r s' =>
    exists t' l' j, vm_inv s' ex_root t' l' /\
      map_range (mem ex_kernel) ex_tree 0x1000 0x87ff7000 (Z.lor PTE_R PTE_U) j (mem s') t' /\
      (r = 0 \/ r = -1)).
Proof.
  eapply returns_mono.
  - apply (mappages_maps ex_kernel ex_root ex_tree ex_free 0x1000 0x1000 0x87ff7000 (Z.lor PTE_R PTE_U)
      ex_vm_inv eq_refl eq_refl eq_refl); try lia.
    + vm_compute. discriminate.
    + vm_compute. split; discriminate || reflexivity.
    + intros a Ha Hr. destruct (decide (a = 0x1000)) as [->|Hne]; [vm_compute; reflexivity|].
      pose proof (aligned_next 0x1000 a eq_refl Ha ltac:(lia)). unfold PGSIZE in *. lia.
  - intros r s' (t' & l' & j & H1 & _ & H3 & H4). exists t', l', j.
    split; [exact H1|]. split; [exact H3|]. lia.
Defined.

Lemma uvmunmap_unmaps_witness :
  returns (uvmunmap ex_root 0 1 true ex_kernel) (fun _ s' =>
    vm_inv s' ex_root ex_tree (ex_user :: ex_free) /\
    unmap_range (mem ex_kernel) ex_tree 0 1 (mem s')).
Proof.
  eapply returns_mono.
  - apply (uvmunmap_unmaps ex_kernel ex_root ex_tree ex_free 0 1 true).
    + apply ex_vm_inv.
    + reflexivity.
    + lia.
    + vm_compute. discriminate.
    + intros i Hi. replace i with 0 by lia. vm_compute. split; discriminate.
    + intros _. change (mapped_pages (mem ex_kernel) ex_tree 1 0) with
        [PTE2PA (leafword (mem ex_kernel) ex_tree 0)].
      assert (E : PTE2PA (leafword (mem ex_kernel) ex_tree 0) = ex_user) by (vm_compute; reflexivity).
      rewrite E. split; [apply NoDup_singleton|]. apply Forall_singleton. split; [|split].
      * vm_compute. repeat split; discriminate || reflexivity.
      * apply (bool_decide_eq_true_1 _). vm_compute. reflexivity.
      * intros k Hk. apply elem_of_map_to_list in Hk.
        assert (H : forallb (fun x => negb (x.2 =? ex_user)) (map_to_list ex_tree) = true)
          by (vm_compute; reflexivity).
        rewrite forallb_forall in H. apply list_elem_of_In, H in Hk. discriminate Hk.
  - intros _ s' (H1 & H2 & _). split; [|exact H2].
    assert (E : rev (mapped_pages (mem ex_kernel) ex_tree 1 0) ++ ex_free = ex_user :: ex_free)
      by (vm_compute; reflexivity).
    rewrite <- E. exact H1.
Defined.

Lemma copyin_reads_witness :
  exists dst r, copyin ex_root 4094 4 ex_kernel = Ret (dst, r) ex_kernel /\ r = -1.
Proof.
  destruct (copyin_reads ex_kernel ex_root ex_tree 4094 4 ex_image_ok ex_pt_rep ltac:(lia) ltac:(lia))
    as (dst & r & H & Hr).
  exists dst, r. split; [exact H|].
  assert (E : uread (mem ex_kernel) ex_tree 4094 (Z.to_nat 4) = None) by (vm_compute; reflexivity).
  rewrite E in Hr. exact Hr.
Defined.

Lemma copyout_writes_witness :
  exists m' j r, copyout ex_root 4094 [1; 2; 3] ex_kernel = Ret r (set_mem m' ex_kernel) /\
    uwritten (mem ex_kernel) ex_tree 4094 (take j [1; 2; 3]) m'.
Proof.
  destruct (copyout_writes ex_kernel ex_root ex_tree 4094 [1; 2; 3] ex_image_ok ex_pt_rep ex_user_sep
    ltac:(lia) ltac:(repeat constructor; lia)) as (m' & j & r & H & _ & Hw & _).
  exists m', j, r. split; [exact H|exact Hw].
Defined.

Lemma copyout_copyin_roundtrip_witness :
  returns ((r <- copyout ex_root 100 [7; 8];; p <- copyin ex_root 100 2;; ret (r, p)) ex_kernel)
    (fun res _ => res = (0, ([7; 8], 0))).
Proof.
  apply (copyout_copyin_roundtrip ex_kernel ex_root ex_tree 100 [7; 8] ex_image_ok ex_pt_rep ex_user_sep).
  - lia.
  - repeat constructor; lia.
  - intros i Hi. destruct i as [|[|i]]; [vm_compute; reflexivity|vm_compute; reflexivity|simpl in Hi; lia].
Defined.

Lemma copyinstr_reads_witness :
  exists dst r, copyinstr ex_root 5 10 ex_kernel = Ret (dst, r) ex_kernel /\ r = 0 /\ dst = [0].
Proof.
  destruct (copyinstr_reads ex_kernel ex_root ex_tree 5 10 ex_image_ok ex_pt_rep ltac:(lia) ltac:(lia))
    as (dst & r & H & Hr).
  exists dst, r. split; [exact H|].
  assert (E : ustr (mem ex_kernel) ex_tree 5 (Z.to_nat 10) = Some [0]) by (vm_compute; reflexivity).
  rewrite E in Hr. exact Hr.
Defined.

(** * Copying an address space *)

(** ** Pages beside a page table *)

Lemma vm_inv_kalloc s root t p l : vm_inv s root t (p :: l) ->
  freelist s = p /\ p <> 0 /\ vm_inv (settle (kalloc_st s)) root t l /\ page_ok (img s) p /\ p ∉ l /\ (forall k, t !! k <> Some p) /\
  (forall b, ~ in_page p b -> load8 (mem (kalloc_st s)) b = load8 (mem s) b) /\
  (forall va, leafword (mem (kalloc_st s)) t va = leafword (mem s) t va).
Proof.
  intros [Hirq Hlk Hkm Hrep Hfr]. destruct (kalloc_spec s p l Hkm) as (Ef & Hkm' & Hnin & Hpok & Hm).
  assert (Hk : forall k, t !! k <> Some p) by (intros k Hk; apply (Hfr k p Hk); by apply list_elem_of_here).
  assert (Hb : forall b, ~ in_page p b -> load8 (mem (kalloc_st s)) b = load8 (mem s) b) by (intros b Hb; rewrite Hm; by rewrite decide_False).
  assert (Hw : forall k q i, t !! k = Some q -> idx_ok i -> load64 (mem (kalloc_st s)) (q + 8 * i) = load64 (mem s) (q + 8 * i)).
  { intros k q i Hq Hi. apply load64_ext. intros b Hbb. apply Hb. intros Hin. apply (Hk k). rewrite <- (in_page_inj q p b); [done| | |unfold in_page, idx_ok, PGSIZE in *; lia|done].
    - apply (ptr_page _ _ _ _ Hrep _ _ Hq).
    - apply Hpok. }
  pose proof (page_ok_pos _ _ (proj1 Hkm) Hpok) as Hpos. pose proof (vm_frame_proj _ _ (vm_frame_kalloc s)) as (Ei & _ & El & Es & En & _).
  split; [done|]. split; [lia|]. split; [|split; [done|]; split; [done|]; split; [done|]; split; [done|]].
  - split; [unfold irq_ok; cbn [sie settle cpu_ set_cpu_]; rewrite Es; cbn; rewrite En; exact Hirq|cbn; by rewrite El|by apply kmem_inv_settle| |].
    + change (img (settle (kalloc_st s))) with (img (kalloc_st s)). rewrite Ei. change (mem (settle (kalloc_st s))) with (mem (kalloc_st s)).
      split; try apply Hrep. intros k q i Hq Hlen Hi. rewrite (Hw k q i Hq Hi). by apply Hrep.
    + intros k q Hq. specialize (Hfr k q Hq). apply not_elem_of_cons in Hfr. apply Hfr.
  - intros va. unfold leafword. destruct (t !! vapath va) as [q|] eqn:Hq; [|done]. apply (Hw _ _ _ Hq). by apply PX_idx.
Qed.

(** A page of nobody may be written. *)
Lemma vm_inv_page s root t l p m' : vm_inv s root t l -> page_ok (img s) p -> p ∉ l -> (forall k, t !! k <> Some p) ->
  (forall b, ~ in_page p b -> load8 m' b = load8 (mem s) b) ->
  vm_inv (set_mem m' s) root t l /\ forall va, leafword m' t va = leafword (mem s) t va.
Proof.
  intros [Hirq Hlk Hkm Hrep Hfr] Hpok Hnin Hk Hb.
  assert (Hne : forall q b, page_ok (img s) q -> q <> p -> in_page q b -> ~ in_page p b).
  { intros q b Hq Hqp Hqb Hpb. apply Hqp. apply (in_page_inj q p b); [apply Hq|apply Hpok|done|done]. }
  assert (Hw : forall k q i, t !! k = Some q -> idx_ok i -> load64 m' (q + 8 * i) = load64 (mem s) (q + 8 * i)).
  { intros k q i Hq Hi. apply load64_ext. intros b Hbb. apply Hb. apply (Hne q); [apply (ptr_page _ _ _ _ Hrep _ _ Hq)|intros ->; by apply (Hk k)|unfold in_page, idx_ok, PGSIZE in *; lia]. }
  split.
  - split; [done|done| | |done].
    + apply kmem_inv_mem; [done|]. intros q b Hq Hqb. apply Hb. destruct Hkm as (_ & _ & _ & Hall). rewrite Forall_forall in Hall.
      apply (Hne q); [by apply Hall|congruence|exact Hqb].
    + cbn. split; try apply Hrep. intros k q i Hq Hlen Hi. rewrite (Hw k q i Hq Hi). by apply Hrep.
  - intros va. unfold leafword. destruct (t !! vapath va) as [q|] eqn:Hq; [|done]. apply (Hw _ _ _ Hq). by apply PX_idx.
Qed.

(** ** Entries with flags *)

Lemma PTE_FLAGS_range v : 0 <= PTE_FLAGS v < 2 ^ 10.
Proof. unfold PTE_FLAGS. change 0x3FF with (Z.ones 10). rewrite Z.land_ones by lia. apply Z.mod_pos_bound. lia. Qed.

Lemma PTE_FLAGS_bit v m : Z.land 0x3FF m = m -> Z.land (PTE_FLAGS v) m = Z.land v m.
Proof. intros Hm. unfold PTE_FLAGS. by rewrite <- Z.land_assoc, Hm. Qed.

Lemma map_pte_copy p v : 0 <= p < 2 ^ 56 -> p mod PGSIZE = 0 -> Z.land v PTE_V <> 0 ->
  PTE2PA (map_pte p (PTE_FLAGS v)) = p /\ PTE_FLAGS (map_pte p (PTE_FLAGS v)) = PTE_FLAGS v.
Proof.
  intros Hp Hal HV. pose proof (PTE_FLAGS_range v) as Hf. unfold map_pte. rewrite <- Z.lor_assoc.
  assert (Hor : Z.lor (PTE_FLAGS v) PTE_V = PTE_FLAGS v).
  { apply Z.bits_inj'. intros n Hn. rewrite Z.lor_spec. destruct (Z.testbit PTE_V n) eqn:E; [|by rewrite orb_false_r]. rewrite orb_true_r.
    assert (n = 0) as ->. { unfold PTE_V in *. change (Z.shiftl 1 0) with (2 ^ 0) in E. rewrite Z.pow2_bits_eqb in E by lia. apply Z.eqb_eq in E. lia. }
    symmetry. destruct (Z.testbit (PTE_FLAGS v) 0) eqn:E0; [done|]. exfalso. apply HV. rewrite <- (PTE_FLAGS_bit v PTE_V) by done.
    apply Z.bits_inj'. intros k Hk. rewrite Z.land_spec, Z.bits_0. destruct (Z.eq_dec k 0) as [->|]; [by rewrite E0|].
    change PTE_V with (2 ^ 0). rewrite Z.pow2_bits_false by lia. by rewrite andb_false_r. }
  rewrite Hor. split; [by apply PTE2PA_PA2PTE|by apply PTE_FLAGS_PA2PTE].
Qed.

(** mappages of one page. *)
Lemma mappages_one s root t l va pa perm : vm_inv s root t l -> aligned va -> 0 <= va -> va + PGSIZE <= MAXVA ->
  aligned pa -> 0 <= pa -> pa + PGSIZE <= 2 ^ 56 -> 0 <= perm < 2 ^ 10 -> Z.land (leafword (mem s) t va) PTE_V = 0 ->
  returns (mappages root va PGSIZE pa perm s) (fun r s' => exists t' l', vm_inv s' root t' l' /\ pt_mod s t l s' t' l' /\
    (forall k, is_Some (t' !! k) -> is_Some (t !! k) \/ k ∈ tables va 1) /\
    ((r = 0 /\ (forall k, k ∈ tables va 1 -> is_Some (t' !! k)) /\
        forall a, 0 <= a < MAXVA -> aligned a -> leafword (mem s') t' a = if decide (a = va) then map_pte pa perm else leafword (mem s) t a) \/
     (r = -1 /\ l' = [] /\ (exists k, k ∈ tables va 1 /\ t' !! k = None) /\ forall a, 0 <= a < MAXVA -> aligned a -> leafword (mem s') t' a = leafword (mem s) t a))).
Proof.
  intros Hinv Hva Hva0 HvaM Hpa Hpa0 HpaM Hperm Hfree. unfold mappages. rewrite (proj2 (Z.eqb_eq _ _) Hva). change (PGSIZE mod PGSIZE =? 0) with true. cbn [negb].
  change (PGSIZE =? 0) with false. cbv iota. replace (u64 (va + PGSIZE - PGSIZE)) with (va + Z.of_nat 0 * PGSIZE).
  2: { change MAXVA with (2 ^ 38) in *. rewrite u64_small; unfold PGSIZE in *; lia. }
  assert (Heq : forall a, aligned a -> va <= a < va + PGSIZE -> a = va).
  { intros a Ha Hr. destruct (Z.eq_dec a va) as [|Hne]; [done|]. pose proof (aligned_next va a Hva Ha ltac:(lia)). lia. }
  eapply returns_mono; [apply (mappages_loop 0); try done; try (unfold PGSIZE in *; lia)|].
  - intros a Ha Hr. rewrite (Heq a Ha) by lia. done.
  - intros r s' (t' & l' & j & Hinv' & Hmod & Hmr & Hks & Hres). exists t', l'. do 3 (split; [done|]). destruct Hres as [(-> & -> & Hall)|(-> & Hj & -> & Hmiss)].
    + left. split; [done|]. split; [done|]. intros a Har Ha. rewrite Hmr by done. destruct (decide (a = va)) as [->|Hne].
      * rewrite decide_True by (unfold PGSIZE; lia). f_equal. lia.
      * rewrite decide_False; [done|]. intros Hr. apply Hne. apply Heq; [done|lia].
    + right. do 3 (split; [done|]). intros a Har Ha. rewrite Hmr by done. assert (j = 0) as -> by lia. by rewrite decide_False by lia.
Qed.

(** The pages that mapping the first [N] pages takes: theirs and those of the missing tables. *)
Definition pages_needed (t : ptree) (N : nat) : nat := N + size (tables 0 N ∖ dom t).

Section needed.
Context (t t1 : ptree) (N : nat) (Hsub : t ⊆ t1) (Hks : forall k, is_Some (t1 !! k) -> is_Some (t !! k) \/ k ∈ tables 0 N).

Lemma grown_size : size t1 = (size t + size (dom t1 ∖ dom t))%nat.
Proof using Hsub.
  pose proof (subseteq_dom _ _ Hsub) as Hd. rewrite <- !size_dom. rewrite size_difference by done. pose proof (subseteq_size _ _ Hd). lia.
Qed.

Lemma grown_tables : dom t1 ∖ dom t ⊆ tables 0 N ∖ dom t.
Proof using Hks. intros k [Hk Hn]%elem_of_difference. apply elem_of_dom in Hk. rewrite elem_of_dom in Hn. destruct (Hks k Hk); [done|]. apply elem_of_difference. by rewrite elem_of_dom. Qed.

Lemma grown_at_most : (N + size t1 <= pages_needed t N + size t)%nat.
Proof. unfold pages_needed. rewrite grown_size. pose proof (subseteq_size _ _ grown_tables). lia. Qed.

Lemma grown_less k : k ∈ tables 0 N -> t1 !! k = None -> (N + size t1 < pages_needed t N + size t)%nat.
Proof.
  intros Hk Hn. unfold pages_needed. rewrite grown_size. assert (Hlt : (size (dom t1 ∖ dom t) < size (tables 0 N ∖ dom t))%nat); [|lia].
  apply subset_size. split; [exact grown_tables|]. intros Hs. assert (Ht : t !! k = None) by (by eapply lookup_weaken_None).
  assert (Hin : k ∈ dom t1 ∖ dom t) by (apply Hs, elem_of_difference; rewrite not_elem_of_dom; done).
  apply elem_of_difference in Hin as [[x Hx]%elem_of_dom _]. congruence.
Qed.

Lemma grown_exactly : (forall k, k ∈ tables 0 N -> is_Some (t1 !! k)) -> (N + size t1 = pages_needed t N + size t)%nat.
Proof.
  intros Hall. unfold pages_needed. rewrite grown_size. assert (dom t1 ∖ dom t = tables 0 N ∖ dom t) as ->; [|lia].
  apply set_eq. intros k. split; [apply grown_tables|]. rewrite !elem_of_difference, !elem_of_dom. intros [Hk Hn]. split; [by apply Hall|done].
Qed.
End needed.

Section copy.
Context (s : kernel) (r0 : Z) (t0 : ptree) (rN : Z) (tN : ptree) (l : list Z) (sz : Z) (N : nat).

(** The old address space has [N] pages, which nobody else uses; the new one has nothing there. *)
Context (Hinv0 : vm_inv s rN tN l) (Hold : pt_rep (img s) (mem s) r0 t0).
Context (Hsz : (Z.of_nat N - 1) * PGSIZE < sz <= Z.of_nat N * PGSIZE) (HN : Z.of_nat N * PGSIZE <= MAXVA).

Definition old (va : Z) : Z := leafword (mem s) t0 va.
(** Pages that the copy must not touch. *)
Definition apart (p : Z) : Prop := p ∉ l /\ forall k, tN !! k <> Some p.

Context (Hleaf : forall i, 0 <= i < Z.of_nat N -> leaf_ok (old (i * PGSIZE))).
Context (Htab : forall k p, t0 !! k = Some p -> apart p) (Husr : forall i, 0 <= i < Z.of_nat N -> apart (PTE2PA (old (i * PGSIZE)))).
Context (Hnew : forall i, 0 <= i < Z.of_nat N -> Z.land (leafword (mem s) tN (i * PGSIZE)) PTE_V = 0).

(** [n] pages have been copied to the pages [P]; [h] is allocated but not mapped. *)
Record copied (n : nat) (s1 : kernel) (t1 : ptree) (l1 P h : list Z) : Prop := {
  cp_inv : vm_inv s1 rN t1 l1;
  cp_frame : vm_frame s s1;
  cp_len : length P = n;
  cp_nodup : NoDup (P ++ h);
  cp_page : forall p, p ∈ P ++ h -> page_ok (img s) p /\ p ∈ l /\ p ∉ l1 /\ forall k, t1 !! k <> Some p;
  cp_sub : tN ⊆ t1;
  cp_new : forall k p, t1 !! k = Some p -> tN !! k = Some p \/ p ∈ l;
  cp_rest : l1 ⊆ l;
  cp_all : forall p, p ∈ l -> p ∈ l1 \/ p ∈ P ++ h \/ exists k, t1 !! k = Some p;
  cp_mem : forall b, (forall p, p ∈ l -> ~ in_page p b) -> (forall k p, tN !! k = Some p -> ~ in_page p b) -> load8 (mem s1) b = load8 (mem s) b;
  cp_leaf : forall va, 0 <= va < MAXVA -> aligned va -> leafword (mem s1) t1 va =
    if decide (va < Z.of_nat n * PGSIZE) then map_pte (P !!! Z.to_nat (va / PGSIZE)) (PTE_FLAGS (old va)) else leafword (mem s) tN va;
  cp_data : forall i p, P !! i = Some p -> forall o, 0 <= o < PGSIZE -> load8 (mem s1) (p + o) = load8 (mem s) (PTE2PA (old (Z.of_nat i * PGSIZE)) + o);
  cp_count : (size t1 + n + length h + length l1 = size tN + length l)%nat;
  cp_keys : forall k, is_Some (t1 !! k) -> is_Some (tN !! k) \/ k ∈ tables 0 N;
  cp_tables : forall k, k ∈ tables 0 n -> is_Some (t1 !! k)
}.

Lemma copied_start : copied 0 s tN l [] [].
Proof.
  split; try done.
  - apply NoDup_nil_2.
  - intros p Hp. by apply elem_of_nil in Hp.
  - by left.
  - by left.
  - intros va Hva _. by rewrite decide_False by lia.
  - cbn [length]. lia.
  - by left.
Qed.

Lemma apart_bytes p b : p mod PGSIZE = 0 -> apart p -> in_page p b ->
  (forall q, q ∈ l -> ~ in_page q b) /\ (forall k q, tN !! k = Some q -> ~ in_page q b).
Proof.
  intros Hp [Hl Hk] Hb. destruct Hinv0 as [_ _ (_ & _ & _ & Hok) Hrep _]. rewrite Forall_forall in Hok. split.
  - intros q Hq Hqb. apply Hl. rewrite (in_page_inj p q b); [done|done|apply Hok, Hq|done|done].
  - intros k q Hq Hqb. apply (Hk k). rewrite (in_page_inj p q b); [done|done|apply (ptr_page _ _ _ _ Hrep _ _ Hq)|done|done].
Qed.

(** The old address space is as before. *)
Lemma apart_kept m1 :
  (forall b, (forall p, p ∈ l -> ~ in_page p b) -> (forall k p, tN !! k = Some p -> ~ in_page p b) -> load8 m1 b = load8 (mem s) b) ->
  pt_rep (img s) m1 r0 t0 /\ (forall va, leafword m1 t0 va = old va) /\
  (forall i o, 0 <= i < Z.of_nat N -> 0 <= o < PGSIZE -> load8 m1 (PTE2PA (old (i * PGSIZE)) + o) = load8 (mem s) (PTE2PA (old (i * PGSIZE)) + o)).
Proof.
  intros Hm. assert (Hw : forall k q i, t0 !! k = Some q -> idx_ok i -> load64 m1 (q + 8 * i) = load64 (mem s) (q + 8 * i)).
  { intros k q i Hq Hi. apply load64_ext. intros b Hb. pose proof (ptr_page _ _ _ _ Hold _ _ Hq) as Hqok.
    destruct (apart_bytes q b (proj1 Hqok) (Htab k q Hq)) as [A B]; [unfold in_page, idx_ok, PGSIZE in *; lia|]. by apply Hm. }
  split; [split; try apply Hold; intros k q i Hq Hlen Hi; rewrite (Hw k q i Hq Hi); by apply Hold|]. split.
  - intros va. unfold old, leafword. destruct (t0 !! vapath va) as [q|] eqn:Hq; [|done]. apply (Hw _ _ _ Hq). by apply PX_idx.
  - intros i o Hi Ho. destruct (apart_bytes (PTE2PA (old (i * PGSIZE))) (PTE2PA (old (i * PGSIZE)) + o) (PTE2PA_aligned _) (Husr i Hi)) as [A B];
      [unfold in_page; lia|]. by apply Hm.
Qed.

Lemma copied_old n s1 t1 l1 P h : copied n s1 t1 l1 P h ->
  img s1 = img s /\ pt_rep (img s) (mem s1) r0 t0 /\ (forall va, leafword (mem s1) t0 va = old va) /\
  (forall i o, 0 <= i < Z.of_nat N -> 0 <= o < PGSIZE -> load8 (mem s1) (PTE2PA (old (i * PGSIZE)) + o) = load8 (mem s) (PTE2PA (old (i * PGSIZE)) + o)).
Proof.
  intros Hc. destruct (vm_frame_proj _ _ (cp_frame _ _ _ _ _ _ Hc)) as (Ei & _). split; [done|]. apply apart_kept, (cp_mem _ _ _ _ _ _ Hc).
Qed.

(** A page is taken, filled and mapped or given back. *)
Lemma copied_kalloc n s1 t1 p l1 P : copied n s1 t1 (p :: l1) P [] -> kalloc s1 = Ret p (settle (kalloc_st s1)) /\ p <> 0 /\ copied n (settle (kalloc_st s1)) t1 l1 P [p].
Proof.
  intros [Hinv Hfr Hlen Hnd Hpg Hsub Hnw Hrest Hall Hmem Hlf Hdat Hct Hks Htb]. rewrite app_nil_r in *. destruct (vm_inv_kalloc s1 rN t1 p l1 Hinv) as (Ef & Hp0 & Hinv1 & Hpok & Hnin & Hk & Hb & Hlw).
  destruct (vm_frame_proj _ _ Hfr) as (Ei & _). split; [rewrite (kalloc_eq s1 (vmi_irq _ _ _ _ Hinv) (vmi_lock _ _ _ _ Hinv)), Ef; done|]. split; [done|].
  assert (Hpl : p ∈ l) by (apply Hrest, list_elem_of_here). assert (HpP : p ∉ P) by (intros HpP; destruct (Hpg p HpP) as (_ & _ & Hn & _); apply Hn, list_elem_of_here).
  split; try done.
  - apply vm_frame_settle. eapply vm_frame_trans; [exact Hfr|apply vm_frame_kalloc].
  - apply NoDup_app. split; [done|]. split; [|apply NoDup_singleton]. intros x Hx ->%list_elem_of_singleton. done.
  - intros x [Hx|Hx]%elem_of_app.
    + destruct (Hpg x Hx) as (? & ? & Hn & ?). split; [done|]. split; [done|]. split; [|done]. intros Hx1. by apply Hn, list_elem_of_further.
    + apply list_elem_of_singleton in Hx as ->. rewrite <- Ei. done.
  - intros x Hx. apply Hrest. by apply list_elem_of_further.
  - intros x Hx. destruct (Hall x Hx) as [Hx1|[Hx1|Hx1]]; [|right; left; set_solver|right; by right]. apply elem_of_cons in Hx1 as [->|Hx1]; [right; left; set_solver|by left].
  - intros b H1 H2. change (mem (settle (kalloc_st s1))) with (mem (kalloc_st s1)). rewrite Hb by (by apply H1). by apply Hmem.
  - intros va Hva Ha. change (mem (settle (kalloc_st s1))) with (mem (kalloc_st s1)). rewrite Hlw. by apply Hlf.
  - intros i x Hx o Ho. change (mem (settle (kalloc_st s1))) with (mem (kalloc_st s1)). rewrite Hb; [by apply Hdat|].
    intros Hin. apply HpP. assert (x ∈ P) by (by eapply list_elem_of_lookup_2). rewrite <- (in_page_inj x p (x + o)); [done| | |unfold in_page; lia|done]; [apply Hpg; done|apply Hpok].
  - cbn [length] in *. lia.
Qed.

Lemma copied_fill n s1 t1 l1 P p m' : copied n s1 t1 l1 P [p] -> (forall b, ~ in_page p b -> load8 m' b = load8 (mem s1) b) -> copied n (set_mem m' s1) t1 l1 P [p].
Proof.
  intros [Hinv Hfr Hlen Hnd Hpg Hsub Hnw Hrest Hall Hmem Hlf Hdat Hct Hks Htb] Hb. destruct (vm_frame_proj _ _ Hfr) as (Ei & _).
  destruct (Hpg p) as (Hpok & Hpl & Hnin & Hk); [set_solver|]. destruct (vm_inv_page s1 rN t1 l1 p m' Hinv) as [Hinv1 Hlw]; [by rewrite Ei|done|done|done|].
  apply NoDup_app in Hnd as (Hnd & Hdisj & _). assert (HpP : p ∉ P) by (intros HpP; apply (Hdisj p HpP); set_solver).
  split; try done.
  - eapply vm_frame_trans; [exact Hfr|apply vm_frame_set_mem].
  - apply NoDup_app. split; [done|]. split; [done|apply NoDup_singleton].
  - intros b H1 H2. cbn. rewrite Hb by (by apply H1). by apply Hmem.
  - intros va Hva Ha. cbn. rewrite Hlw. by apply Hlf.
  - intros i x Hx o Ho. cbn. rewrite Hb; [by apply Hdat|]. intros Hin. apply HpP. assert (HxP : x ∈ P) by (by eapply list_elem_of_lookup_2).
    rewrite <- (in_page_inj x p (x + o)); [done| |apply Hpok|unfold in_page; lia|done]. apply (Hpg x). set_solver.
Qed.

Lemma copied_kfree n s1 t1 l1 P p : copied n s1 t1 l1 P [p] -> kfree p s1 = Ret tt (settle (kfree_st p s1)) /\ copied n (settle (kfree_st p s1)) t1 (p :: l1) P [].
Proof.
  intros [Hinv Hfr Hlen Hnd Hpg Hsub Hnw Hrest Hall Hmem Hlf Hdat Hct Hks Htb]. destruct (vm_frame_proj _ _ Hfr) as (Ei & _).
  destruct (Hpg p) as (Hpok & Hpl & Hnin & Hk); [set_solver|]. destruct (vm_inv_kfree s1 rN t1 l1 p Hinv) as [Hinv1 Hw]; [by rewrite Ei|done|done|].
  apply NoDup_app in Hnd as (Hnd & Hdisj & _). assert (HpP : p ∉ P) by (intros HpP; apply (Hdisj p HpP); set_solver).
  assert (Hout : forall b, ~ in_page p b -> load8 (mem (settle (kfree_st p s1))) b = load8 (mem s1) b).
  { intros b Hb. apply kfree_mem_out. unfold in_page in Hb. lia. }
  split; [apply kfree_eq; [apply Hinv|apply Hinv|by rewrite Ei]|]. split; rewrite ?app_nil_r; try assumption.
  - apply vm_frame_settle. eapply vm_frame_trans; [exact Hfr|apply vm_frame_kfree].
  - intros x Hx. destruct (Hpg x) as (? & ? & Hn & ?); [set_solver|]. split; [done|]. split; [done|]. split; [|done]. intros [->|?]%elem_of_cons; done.
  - intros x [->|Hx]%elem_of_cons; [done|by apply Hrest].
  - intros x Hx. destruct (Hall x Hx) as [Hx1|[Hx1|Hx1]]; [left; by apply list_elem_of_further| |right; by right].
    apply elem_of_app in Hx1 as [Hx1|Hx1]; [right; by left|]. apply list_elem_of_singleton in Hx1 as ->. left. apply list_elem_of_here.
  - intros b H1 H2. rewrite Hout by (by apply H1). by apply Hmem.
  - intros va Hva Ha. rewrite <- (Hlf va Hva Ha). unfold leafword. destruct (t1 !! vapath va) as [q|] eqn:Hq; [|done]. apply (Hw _ _ _ Hq). by apply PX_idx.
  - intros i x Hx o Ho. rewrite Hout; [by apply Hdat|]. intros Hin. apply HpP. assert (HxP : x ∈ P) by (by eapply list_elem_of_lookup_2).
    rewrite <- (in_page_inj x p (x + o)); [done| |apply Hpok|unfold in_page; lia|done]. apply (Hpg x). set_solver.
  - cbn [length] in *. lia.
Qed.

Lemma page_index n : 0 <= n -> n * PGSIZE / PGSIZE = n.
Proof. intros Hn. by rewrite Z.div_mul. Qed.

Lemma aligned_index va : aligned va -> va = va / PGSIZE * PGSIZE.
Proof. unfold aligned. intros Ha. pose proof (Z.div_mod va PGSIZE ltac:(done)). lia. Qed.

Lemma copied_map n s1 t1 l1 P p : (n < N)%nat -> copied n s1 t1 l1 P [p] ->
  (forall o, 0 <= o < PGSIZE -> load8 (mem s1) (p + o) = load8 (mem s) (PTE2PA (old (Z.of_nat n * PGSIZE)) + o)) ->
  returns (mappages rN (Z.of_nat n * PGSIZE) PGSIZE p (PTE_FLAGS (old (Z.of_nat n * PGSIZE))) s1) (fun r s2 => exists t2 l2,
    (r = 0 /\ copied (S n) s2 t2 l2 (P ++ [p]) []) \/ (r = -1 /\ (length l < pages_needed tN N)%nat /\ copied n s2 t2 l2 P [p])).
Proof.
  intros Hn Hc Hfill. pose proof Hc as [Hinv Hfr Hlen Hnd Hpg Hsub Hnw Hrest Hall Hmem Hlf Hdat Hct Hks Htb]. set (va := Z.of_nat n * PGSIZE) in *.
  assert (Hva : 0 <= va /\ va + PGSIZE <= MAXVA) by (unfold va, PGSIZE in *; lia). assert (Hal : aligned va) by (unfold aligned, va; by apply Z.mod_mul).
  destruct (Hpg p) as (Hpok & Hpl & Hnin & Hk); [set_solver|]. destruct (vm_frame_proj _ _ Hfr) as (Ei & _).
  pose proof (proj1 (vmi_kmem _ _ _ _ Hinv0)) as Him. pose proof (page_ok_pos _ _ Him Hpok) as Hpos.
  assert (HpT : p + PGSIZE <= 2 ^ 56) by (destruct Hpok as (_ & _ & Hp2); unfold PHYSTOP, KERNBASE, PGSIZE in *; lia).
  eapply returns_mono; [apply (mappages_one s1 rN t1 l1 va p _ Hinv Hal); try lia; [apply Hpok|apply PTE_FLAGS_range|]|].
  { rewrite Hlf by lia || done. rewrite decide_False by (unfold va; lia). apply Hnew. lia. }
  intros r s2 (t2 & l2 & Hinv2 & [F2 S2 N2 [u [U V]] M2 C2] & Hks2 & Hres). exists t2, l2.
  assert (Hto : forall k, k ∈ tables va 1 -> k ∈ tables 0 N).
  { intros k. rewrite !elem_of_tables. intros (i & Hi & Hki). exists (Z.of_nat n). split; [lia|]. by replace (0 + Z.of_nat n * PGSIZE) with (va + i * PGSIZE) by (unfold va, PGSIZE; lia). }
  assert (Hkeys2 : forall k, is_Some (t2 !! k) -> is_Some (tN !! k) \/ k ∈ tables 0 N).
  { intros k Hk2. destruct (Hks2 k Hk2) as [Hk1|Hk1]; [by apply Hks|right; by apply Hto]. }
  assert (Hpage2 : forall x, x ∈ P ++ [p] -> page_ok (img s) x /\ x ∈ l /\ x ∉ l2 /\ forall k, t2 !! k <> Some x).
  { intros x Hx. destruct (Hpg x Hx) as (A & B & C & D). split; [done|]. split; [done|]. split; [intros Hx2; apply C; rewrite U; set_solver|].
    intros k Hk2. destruct (N2 k x Hk2) as [Hk1|Hk1]; [by apply (D k)|done]. }
  assert (Hnew2 : forall k x, t2 !! k = Some x -> tN !! k = Some x \/ x ∈ l).
  { intros k x Hx. destruct (N2 k x Hx) as [Hx1|Hx1]; [by apply Hnw|right; by apply Hrest]. }
  assert (Hrest2 : l2 ⊆ l) by (intros x Hx; apply Hrest; rewrite U; set_solver).
  assert (Hall2 : forall x, x ∈ l -> x ∈ l2 \/ x ∈ P ++ [p] \/ exists k, t2 !! k = Some x).
  { intros x Hx. destruct (Hall x Hx) as [Hx1|[Hx1|[k Hx1]]]; [|right; by left|right; right; exists k; by eapply lookup_weaken].
    rewrite U in Hx1. apply elem_of_app in Hx1 as [Hx1|Hx1]; [right; right; by apply V|by left]. }
  assert (Hmem2 : forall b, (forall x, x ∈ l -> ~ in_page x b) -> (forall k x, tN !! k = Some x -> ~ in_page x b) -> load8 (mem s2) b = load8 (mem s) b).
  { intros b H1 H2. rewrite M2; [by apply Hmem|intros x Hx; apply H1, Hrest, Hx|]. intros k x Hx. destruct (Hnw k x Hx) as [Hx1|Hx1]; [by eapply H2|by apply H1]. }
  assert (Hbyte : forall x o, x ∈ P ++ [p] -> 0 <= o < PGSIZE -> load8 (mem s2) (x + o) = load8 (mem s1) (x + o)).
  { intros x o Hx Ho. destruct (Hpg x Hx) as (A & _ & C & D). pose proof (proj2 (proj2 (proj2 (vmi_kmem _ _ _ _ Hinv)))) as Hok1. rewrite Forall_forall, Ei in Hok1. apply M2.
    - intros q Hq Hin. apply C. rewrite (in_page_inj x q (x + o)); [done|apply A|apply (Hok1 q Hq)|unfold in_page; lia|done].
    - intros k q Hq Hin. apply (D k). pose proof (ptr_page _ _ _ _ (vmi_rep _ _ _ _ Hinv) _ _ Hq) as Hqok. rewrite (in_page_inj x q (x + o)); [done|apply A|apply Hqok|unfold in_page; lia|done]. }
  destruct Hres as [(-> & Hhas & Hl2)|(-> & -> & (k0 & Hk0 & Hk0n) & Hl2)]; [left|right]; (split; [done|]).
  2: split; [pose proof (grown_less tN t2 N ltac:(by etransitivity) Hkeys2 k0 (Hto _ Hk0) Hk0n); cbn [length] in *; lia|].
  all: (split; rewrite ?app_nil_r; try assumption).
  - by eapply vm_frame_trans.
  - rewrite length_app. cbn. lia.
  - by etransitivity.
  - intros a Har Ha. rewrite Hl2 by done. destruct (decide (a = va)) as [->|Hne].
    + rewrite decide_True by (unfold va, PGSIZE; lia). f_equal. unfold va. rewrite page_index, Nat2Z.id by lia. rewrite <- Hlen. by rewrite list_lookup_total_middle.
    + rewrite Hlf by done. assert (Hlt : a < Z.of_nat (S n) * PGSIZE <-> a < va).
      { destruct (Z.lt_ge_cases va a) as [Hg|]; [pose proof (aligned_next va a Hal Ha Hg); unfold va, PGSIZE in *; lia|unfold va, PGSIZE in *; lia]. }
      rewrite (decide_ext (a < Z.of_nat (S n) * PGSIZE) (a < va)) by done. case_decide as Hd; [|done]. f_equal. rewrite lookup_total_app_l; [done|]. rewrite Hlen. apply Nat2Z.inj_lt.
      rewrite Z2Nat.id by (apply Z.div_pos; [lia|done]). apply Z.div_lt_upper_bound; [done|]. unfold va in Hd. lia.
  - intros i x Hx o Ho. rewrite (Hbyte x o) by (done || by eapply list_elem_of_lookup_2). apply lookup_app_Some in Hx as [Hx|[Hi Hx]]; [by apply Hdat|].
    apply list_lookup_singleton_Some in Hx as [Hi0 <-]. assert (i = n) as -> by lia. by apply Hfill.
  - cbn [length] in *. lia.
  - intros k (i & Hi & Hki)%elem_of_tables. destruct (Z.eq_dec i (Z.of_nat n)) as [->|].
    + apply Hhas, tables_first. by rewrite Z.add_0_l in Hki.
    + eapply lookup_weaken_is_Some; [apply (Htb k), elem_of_tables; exists i; split; [lia|exact Hki]|done].
  - by eapply vm_frame_trans.
  - by etransitivity.
  - intros a Har Ha. rewrite Hl2 by done. by apply Hlf.
  - intros i x Hx o Ho. rewrite (Hbyte x o); [by apply Hdat| |done]. apply elem_of_app. left. by eapply list_elem_of_lookup_2.
  - cbn [length] in *. lia.
  - intros k Hki. eapply lookup_weaken_is_Some; [by apply Htb|done].
Qed.

(** The copy has been given up: no page of the range is mapped, and every page that was
    free is free again or a page of the page table. *)
Record undone (s2 : kernel) (t2 : ptree) (l2 : list Z) : Prop := {
  un_inv : vm_inv s2 rN t2 l2;
  un_frame : vm_frame s s2;
  un_sub : tN ⊆ t2;
  un_all : forall p, p ∈ l -> p ∈ l2 \/ exists k, t2 !! k = Some p;
  un_leaf : forall va, 0 <= va < MAXVA -> aligned va ->
    if decide (va < Z.of_nat N * PGSIZE) then Z.land (leafword (mem s2) t2 va) PTE_V = 0 else leafword (mem s2) t2 va = leafword (mem s) tN va;
  un_mem : forall b, (forall p, p ∈ l -> ~ in_page p b) -> (forall k p, tN !! k = Some p -> ~ in_page p b) -> load8 (mem s2) b = load8 (mem s) b
}.

Lemma mapped_pages_seq m t n : forall a, mapped_pages m t n a = (fun i => PTE2PA (leafword m t (a + i * PGSIZE))) <$> seqZ 0 (Z.of_nat n).
Proof.
  induction n as [|n IH]; intros a; cbn [mapped_pages]; [done|]. rewrite IH, (seqZ_cons 0 (Z.of_nat (S n))) by lia. cbn [fmap list_fmap]. f_equal; [do 2 f_equal; lia|].
  replace (Z.pred (Z.of_nat (S n))) with (Z.of_nat n) by lia. change (Z.succ 0) with 1. rewrite <- (fmap_add_seqZ 1 0), <- list_fmap_compose. apply list_fmap_ext. intros _ i _. unfold compose. do 2 f_equal. lia.
Qed.

Lemma copied_pages n s1 t1 l1 P h : (n <= N)%nat -> copied n s1 t1 l1 P h -> mapped_pages (mem s1) t1 n 0 = P /\
  (forall i, 0 <= i < Z.of_nat n -> leaf_ok (leafword (mem s1) t1 (i * PGSIZE))).
Proof.
  intros Hn [_ _ Hlen _ Hpg _ _ _ _ _ Hlf _ _ _ _]. pose proof (proj1 (vmi_kmem _ _ _ _ Hinv0)) as Him.
  assert (Hone : forall i, 0 <= i < Z.of_nat n -> exists p, P !! Z.to_nat i = Some p /\ leafword (mem s1) t1 (i * PGSIZE) = map_pte p (PTE_FLAGS (old (i * PGSIZE))) /\ page_ok (img s) p).
  { intros i Hi. destruct (lookup_lt_is_Some_2 P (Z.to_nat i) ltac:(lia)) as [p Hp]. exists p. split; [done|]. split; [|apply Hpg; apply elem_of_app; left; by eapply list_elem_of_lookup_2].
    rewrite Hlf; [|unfold PGSIZE in *; lia|unfold aligned; by apply Z.mod_mul]. rewrite decide_True by (unfold PGSIZE; lia). rewrite page_index by lia. by rewrite (list_lookup_total_correct _ _ _ Hp). }
  assert (Hval : forall i, 0 <= i < Z.of_nat n -> exists p, P !! Z.to_nat i = Some p /\ PTE2PA (leafword (mem s1) t1 (i * PGSIZE)) = p /\ leaf_ok (leafword (mem s1) t1 (i * PGSIZE))).
  { intros i Hi. destruct (Hone i Hi) as (p & Hp & E & Hpok). exists p. split; [done|]. destruct (Hleaf i ltac:(lia)) as [HV HF]. pose proof (page_ok_pos _ _ Him Hpok) as Hpos.
    destruct (map_pte_copy p (old (i * PGSIZE)) ltac:(lia) (proj1 Hpok) HV) as [E1 E2]. rewrite E. split; [done|]. split; [|by rewrite E2].
    rewrite <- (PTE_FLAGS_bit _ PTE_V) by done. rewrite E2, PTE_FLAGS_bit by done. done. }
  split; [|intros i Hi; by destruct (Hval i Hi) as (_ & _ & _ & ?)]. rewrite mapped_pages_seq. apply list_eq. intros j. rewrite list_lookup_fmap.
  destruct (decide (j < n)%nat) as [Hj|Hj].
  - rewrite lookup_seqZ_lt by lia. cbn. destruct (Hval (Z.of_nat j) ltac:(lia)) as (p & Hp & E & _). rewrite Nat2Z.id in Hp. rewrite Hp. f_equal. rewrite <- E. done.
  - rewrite lookup_seqZ_ge by lia. symmetry. apply lookup_ge_None_2. lia.
Qed.

Lemma copied_undo n s1 t1 l1 P : (n <= N)%nat -> copied n s1 t1 l1 P [] ->
  returns (uvmunmap rN 0 (Z.of_nat n) true s1) (fun _ s2 => undone s2 t1 (rev P ++ l1)).
Proof.
  intros Hn Hc. pose proof Hc as [Hinv Hfr Hlen Hnd Hpg Hsub Hnw Hrest Hall Hmem Hlf Hdat Hct Hks Htb]. rewrite app_nil_r in *. destruct (copied_pages n s1 t1 l1 P [] Hn Hc) as [Emp Hlok].
  destruct (vm_frame_proj _ _ Hfr) as (Ei & _). unfold uvmunmap. change (0 mod PGSIZE =? 0) with true. cbn [negb].
  eapply returns_mono; [apply (uvmunmap_loop n _ rN 0 (Z.of_nat n) true 0 s1 t1 l1 Hinv); [done|done|unfold PGSIZE in *; lia| |exact Hlok| |lia]|].
  - apply u64_small. change MAXVA with (2 ^ 38) in *. unfold PGSIZE in *. lia.
  - intros _. rewrite Emp. split; [done|]. apply Forall_forall. intros x Hx. destruct (Hpg x Hx) as (? & ? & ? & ?). split; [by rewrite Ei|done].
  - intros _ s2 (Hinv2 & Hun & Hby & Hfr2). cbv iota in Hinv2, Hby. rewrite Emp in Hinv2, Hby. split.
    + exact Hinv2.
    + by eapply vm_frame_trans.
    + done.
    + intros x Hx. destruct (Hall x Hx) as [?|[?|?]]; [left; set_solver|left; apply elem_of_app; left; apply list_elem_of_In, (proj1 (in_rev _ _)), list_elem_of_In; done|by right].
    + intros va Hva Ha. rewrite Hun by done. rewrite Hlf by done. case_decide as Hd.
      * case_decide as Hd1; [done|]. rewrite decide_False by lia. rewrite (aligned_index va Ha). apply Hnew. split; [apply Z.div_pos; [lia|done]|].
        apply Z.div_lt_upper_bound; [done|]. lia.
      * rewrite decide_False, decide_False; [done| |]; unfold PGSIZE in *; lia.
    + intros b H1 H2. rewrite Hby; [by apply Hmem|intros x Hx; apply H1, Hpg, Hx|]. intros k x Hx. destruct (Hnw k x Hx) as [?|?]; [by eapply H2|by apply H1].
Qed.

Lemma copied_step n s1 t1 l1 P : (n < N)%nat -> copied n s1 t1 l1 P [] ->
  returns (uvmcopy_body r0 rN sz (Z.of_nat n * PGSIZE) s1) (fun r s2 =>
    match r with
    | inl i => i = Z.of_nat (S n) * PGSIZE /\ exists t2 l2 P2, copied (S n) s2 t2 l2 P2 []
    | inr v => v = -1 /\ (length l < pages_needed tN N)%nat /\ exists t2 l2, undone s2 t2 l2
    end).
Proof.
  intros Hn Hc. set (va := Z.of_nat n * PGSIZE). destruct (copied_old n s1 t1 l1 P [] Hc) as (Ei & Hrep1 & Hlw & Hbytes).
  pose proof (proj1 (vmi_kmem _ _ _ _ Hinv0)) as Him. assert (Hva : 0 <= va < MAXVA) by (unfold va, PGSIZE in *; lia).
  destruct (Hleaf (Z.of_nat n) ltac:(lia)) as [HV _]. fold va in HV.
  assert (Hundo : forall s2 t2 l2, (length l < pages_needed tN N)%nat -> copied n s2 t2 l2 P [] -> returns ((uvmunmap rN 0 (va / PGSIZE) true;; ret (@inr Z Z (-1))) s2) (fun r s3 =>
    match r with inl i => i = Z.of_nat (S n) * PGSIZE /\ exists t4 l4 P4, copied (S n) s3 t4 l4 P4 [] | inr v => v = -1 /\ (length l < pages_needed tN N)%nat /\ exists t4 l4, undone s3 t4 l4 end)).
  { intros s2 t2 l2 Hfew Hc2. unfold va. rewrite page_index by lia. apply returns_bind. eapply returns_mono; [apply (copied_undo n s2 t2 l2 P); [lia|done]|].
    intros u s3 Hu. split; [done|]. split; [done|]. by exists t2, (rev P ++ l2). }
  unfold uvmcopy_body. destruct (Z.ltb_spec va sz); [|unfold va, PGSIZE in *; lia]. cbn [negb].
  rewrite <- Ei in Hrep1. rewrite (bind_Ret _ _ _ _ _ (walk_noalloc r0 t0 va s1 ltac:(by rewrite Ei) Hrep1 Hva)).
  pose proof (Hlw va) as Hw. unfold leafword in Hw. destruct (t0 !! vapath va) as [q|] eqn:Hq; [|rewrite <- Hw in HV; by destruct HV].
  pose proof (page_ok_pos _ _ Him (ptr_page _ _ _ _ Hold _ _ Hq)). pose proof (PX_range 0 va ltac:(lia)). destruct (Z.eqb_spec (q + 8 * PX 0 va) 0); [lia|].
  unfold bind at 1, ld64, gets. cbn [obind]. rewrite Hw. destruct (Z.eqb_spec (Z.land (old va) PTE_V) 0); [done|]. cbv zeta.
  pose proof (cp_inv _ _ _ _ _ _ Hc) as Hinv1. destruct l1 as [|p l1].
  - destruct (kalloc_empty s1 (vmi_kmem _ _ _ _ Hinv1)) as [Ef Es]. rewrite (bind_Ret _ _ _ _ _ (kalloc_eq s1 (vmi_irq _ _ _ _ Hinv1) (vmi_lock _ _ _ _ Hinv1))), Ef. cbn [Z.eqb]. rewrite Es.
    apply (Hundo _ t1 []).
    + pose proof (grown_at_most tN t1 N (cp_sub _ _ _ _ _ _ Hc) (cp_keys _ _ _ _ _ _ Hc)). pose proof (cp_count _ _ _ _ _ _ Hc). cbn [length] in *. lia.
    + destruct Hc as [[] ? ? ? ? ? ? ? ? ? ? ? ? ? ?]. split; try done; [by apply vm_frame_settle].
  - destruct (copied_kalloc n s1 t1 p l1 P Hc) as (Ek & Hp0 & Hc2). rewrite (bind_Ret _ _ _ _ _ Ek). destruct (Z.eqb_spec p 0); [done|].
    set (s2 := settle (kalloc_st s1)) in *. set (s3 := set_mem (memmove (mem s2) p (PTE2PA (old va)) PGSIZE) s2). rewrite (bind_Ret _ _ _ _ _ (eq_refl : kmemmove p _ PGSIZE s2 = Ret tt s3)).
    assert (Hc3 : copied n s3 t1 l1 P [p]).
    { apply copied_fill; [done|]. intros b Hb. rewrite memmove_spec by done. by rewrite decide_False. }
    destruct (copied_old n s2 t1 l1 P [p] Hc2) as (_ & _ & _ & Hbytes2).
    apply returns_bind. eapply returns_mono; [apply (copied_map n s3 t1 l1 P p Hn Hc3)|].
    { intros o Ho. unfold s3. cbn [mem set_mem]. rewrite memmove_spec by done. rewrite decide_True by lia. replace (p + o - p) with o by lia. apply Hbytes2; [lia|done]. }
    intros r s4 (t4 & l4 & [[-> Hc4]|(-> & Hfew & Hc4)]); cbn [Z.eqb negb].
    + cbn [returns ret]. split; [rewrite u64_small; unfold va; [lia|change MAXVA with (2 ^ 38) in *; unfold va, PGSIZE in *; lia]|]. by exists t4, l4, (P ++ [p]).
    + destruct (copied_kfree n s4 t4 l4 P p Hc4) as [Ekf Hc5]. rewrite (bind_Ret _ _ _ _ _ Ekf). by apply (Hundo _ t4 (p :: l4)).
Qed.

Lemma copied_loop m : forall n f s1 t1 l1 P, (n + m = N)%nat -> copied n s1 t1 l1 P [] -> (m < f)%nat ->
  returns (iter f (uvmcopy_body r0 rN sz) (Z.of_nat n * PGSIZE) s1) (fun r s2 =>
    (r = 0 /\ exists t2 l2 P2, copied N s2 t2 l2 P2 []) \/ (r = -1 /\ (length l < pages_needed tN N)%nat /\ exists t2 l2, undone s2 t2 l2)).
Proof.
  induction m as [|m IH]; intros n f s1 t1 l1 P Hnm Hc Hf; (destruct f as [|f]; [lia|]).
  - assert (n = N) as -> by lia. cbn [iter]. apply returns_bind. unfold uvmcopy_body. destruct (Z.ltb_spec (Z.of_nat N * PGSIZE) sz); [lia|]. cbn. left. split; [done|]. by exists t1, l1, P.
  - cbn [iter]. apply returns_bind. eapply returns_mono; [apply (copied_step n s1 t1 l1 P ltac:(lia) Hc)|]. intros [i|v] s2.
    + intros [-> (t2 & l2 & P2 & Hc2)]. apply (IH (S n) f s2 t2 l2 P2); [lia|done|lia].
    + intros (-> & Hfew & t2 & l2 & Hu). cbn. right. split; [done|]. split; [done|]. by exists t2, l2.
Qed.

Lemma uvmcopy_loop : returns (uvmcopy r0 rN sz s) (fun r s2 =>
    (r = 0 /\ exists t2 l2 P2, copied N s2 t2 l2 P2 []) \/ (r = -1 /\ (length l < pages_needed tN N)%nat /\ exists t2 l2, undone s2 t2 l2)).
Proof.
  apply (copied_loop N 0 _ s tN l []); [lia|apply copied_start|]. apply Nat2Z.inj_lt.
  assert ((Z.of_nat N - 1) <= sz / PGSIZE) by (apply Z.div_le_lower_bound; [done|lia]). lia.
Qed.

Context (Hupg : forall i, 0 <= i < Z.of_nat N -> page_ok (img s) (PTE2PA (old (i * PGSIZE)))).

(** Two address spaces whose leaf at the page of [x] has the same flags, and whose pages
    hold the same byte there. *)
Lemma same_byte m1 t1 m2 t2 x : 0 <= x < MAXVA ->
  let v1 := leafword m1 t1 (PGROUNDDOWN x) in let v2 := leafword m2 t2 (PGROUNDDOWN x) in
  PTE_FLAGS v1 = PTE_FLAGS v2 -> PTE2PA v1 <> 0 -> PTE2PA v2 <> 0 -> load8 m1 (PTE2PA v1 + x mod PGSIZE) = load8 m2 (PTE2PA v2 + x mod PGSIZE) ->
  ubyte m1 t1 x = ubyte m2 t2 x.
Proof.
  intros Hx v1 v2 Ef Hn1 Hn2 Eb. assert (Ebit : forall k, Z.land 0x3FF k = k -> Z.land v1 k = Z.land v2 k) by (intros k Hk; by rewrite <- (PTE_FLAGS_bit v1 k Hk), <- (PTE_FLAGS_bit v2 k Hk), Ef).
  unfold ubyte, upage. fold v1 v2. rewrite (Ebit PTE_V), (Ebit PTE_U) by done.
  destruct (MAXVA <=? x); [done|]. destruct ((Z.land v2 PTE_V =? 0) || (Z.land v2 PTE_U =? 0)); [done|].
  rewrite (proj2 (Z.eqb_neq _ _) Hn1), (proj2 (Z.eqb_neq _ _) Hn2), Eb. reflexivity.
Qed.

Lemma page_of x : 0 <= x < Z.of_nat N * PGSIZE -> exists i, 0 <= i < Z.of_nat N /\ PGROUNDDOWN x = i * PGSIZE /\ 0 <= x mod PGSIZE < PGSIZE /\ 0 <= x < MAXVA.
Proof.
  intros Hx. exists (x / PGSIZE). destruct (page_split x ltac:(lia)) as [E Ho]. pose proof (Z.div_mod x PGSIZE ltac:(done)) as Hd.
  split; [split; [apply Z.div_pos; [lia|done]|apply Z.div_lt_upper_bound; [done|lia]]|]. split; [lia|]. split; [done|lia].
Qed.

Lemma kept_bytes m1 x : pt_rep (img s) m1 r0 t0 /\ (forall va, leafword m1 t0 va = old va) /\
  (forall i o, 0 <= i < Z.of_nat N -> 0 <= o < PGSIZE -> load8 m1 (PTE2PA (old (i * PGSIZE)) + o) = load8 (mem s) (PTE2PA (old (i * PGSIZE)) + o)) ->
  0 <= x < Z.of_nat N * PGSIZE -> ubyte m1 t0 x = ubyte (mem s) t0 x.
Proof.
  intros (_ & Hlw & Hb) Hx. destruct (page_of x Hx) as (i & Hi & Ep & Ho & HxM). pose proof (proj1 (vmi_kmem _ _ _ _ Hinv0)) as Him.
  pose proof (page_ok_pos _ _ Him (Hupg i Hi)) as Hpos. apply same_byte; [done|by rewrite Hlw|rewrite Hlw, Ep; lia|fold (old (PGROUNDDOWN x)); rewrite Ep; lia|].
  fold (old (PGROUNDDOWN x)). rewrite Hlw, Ep. by apply Hb.
Qed.

Lemma copied_bytes s2 t2 l2 P x : copied N s2 t2 l2 P [] -> 0 <= x < Z.of_nat N * PGSIZE ->
  ubyte (mem s2) t2 x = ubyte (mem s) t0 x /\ PTE_FLAGS (leafword (mem s2) t2 (PGROUNDDOWN x)) = PTE_FLAGS (old (PGROUNDDOWN x)).
Proof.
  intros [_ _ Hlen _ Hpg _ _ _ _ _ Hlf Hdat _ _ _] Hx. destruct (page_of x Hx) as (i & Hi & Ep & Ho & HxM). pose proof (proj1 (vmi_kmem _ _ _ _ Hinv0)) as Him.
  destruct (lookup_lt_is_Some_2 P (Z.to_nat i) ltac:(lia)) as [p Hp]. destruct (Hpg p) as (Hpok & _); [rewrite app_nil_r; by eapply list_elem_of_lookup_2|].
  pose proof (page_ok_pos _ _ Him Hpok) as Hpos. pose proof (page_ok_pos _ _ Him (Hupg i Hi)) as Hpos0.
  assert (El : leafword (mem s2) t2 (PGROUNDDOWN x) = map_pte p (PTE_FLAGS (old (PGROUNDDOWN x)))).
  { rewrite Ep. rewrite Hlf; [|unfold PGSIZE in *; lia|unfold aligned; by apply Z.mod_mul]. rewrite decide_True by (unfold PGSIZE; lia). by rewrite page_index, (list_lookup_total_correct _ _ _ Hp) by lia. }
  destruct (Hleaf i Hi) as [HV _]. destruct (map_pte_copy p (old (PGROUNDDOWN x)) ltac:(lia) (proj1 Hpok) ltac:(by rewrite Ep)) as [E1 E2].
  split; [|by rewrite El, E2]. apply same_byte; [done|by rewrite El, E2|rewrite El, E1; lia|fold (old (PGROUNDDOWN x)); rewrite Ep; lia|].
  fold (old (PGROUNDDOWN x)). rewrite El, E1, Ep. rewrite (Hdat _ _ Hp) by done. by rewrite Z2Nat.id by lia.
Qed.
End copy.

(** An address space of [N] pages to copy, and a page table with nothing there to copy it to. *)
Record two_spaces (s : kernel) (r0 : Z) (t0 : ptree) (rN : Z) (tN : ptree) (l : list Z) (N : nat) : Prop := {
  ts_new : vm_inv s rN tN l;
  ts_old : pt_rep (img s) (mem s) r0 t0;
  ts_leaf : forall i, 0 <= i < Z.of_nat N -> leaf_ok (leafword (mem s) t0 (i * PGSIZE));
  ts_tables : forall k p, t0 !! k = Some p -> p ∉ l /\ forall k', tN !! k' <> Some p;
  ts_pages : forall i, 0 <= i < Z.of_nat N -> let p := PTE2PA (leafword (mem s) t0 (i * PGSIZE)) in page_ok (img s) p /\ p ∉ l /\ forall k, tN !! k <> Some p;
  ts_empty : forall i, 0 <= i < Z.of_nat N -> Z.land (leafword (mem s) tN (i * PGSIZE)) PTE_V = 0
}.

(** C17. uvmcopy gives the child a copy of the parent's memory, exactly when there are
    as many free pages as the copy and the missing tables of the new page table need.
    Then it returns 0, and the first sz bytes, rounded up to pages, read through the new
    page table as through the old one, each page with the same flags, in pages that were
    free before, each mapped once and shared with nothing.  Otherwise it returns -1,
    nothing is mapped in the new page table, and every page taken is free again or a
    table of it, which its owner frees.  Either way the parent's page table and memory
    are untouched. *)
Theorem uvmcopy_copies (s : kernel) (r0 : Z) (t0 : ptree) (rN : Z) (tN : ptree) (l : list Z) (sz : Z) (N : nat) :
  two_spaces s r0 t0 rN tN l N -> (Z.of_nat N - 1) * PGSIZE < sz <= Z.of_nat N * PGSIZE -> Z.of_nat N * PGSIZE <= MAXVA ->
  returns (uvmcopy r0 rN sz s) (fun r s' =>
    vm_frame s s' /\ pt_rep (img s) (mem s') r0 t0 /\
    (forall x, 0 <= x < Z.of_nat N * PGSIZE -> ubyte (mem s') t0 x = ubyte (mem s) t0 x) /\
    exists t' l', vm_inv s' rN t' l' /\ tN ⊆ t' /\
    ((r = 0 /\ (pages_needed tN N <= length l)%nat /\ let pages := mapped_pages (mem s') t' N 0 in
        (forall x, 0 <= x < Z.of_nat N * PGSIZE -> ubyte (mem s') t' x = ubyte (mem s) t0 x /\
          PTE_FLAGS (leafword (mem s') t' (PGROUNDDOWN x)) = PTE_FLAGS (leafword (mem s) t0 (PGROUNDDOWN x))) /\
        NoDup pages /\ forall p, p ∈ pages -> p ∈ l /\ p ∉ l' /\ forall k, t' !! k <> Some p) \/
     (r = -1 /\ (length l < pages_needed tN N)%nat /\ (forall va, 0 <= va < Z.of_nat N * PGSIZE -> aligned va -> Z.land (leafword (mem s') t' va) PTE_V = 0) /\
        forall p, p ∈ l -> p ∈ l' \/ exists k, t' !! k = Some p))).
Proof.
  intros [Hinv Hold Hleaf Htab Hpg Hempty] Hsz HN.
  assert (Husr : forall i, 0 <= i < Z.of_nat N -> apart tN l (PTE2PA (old s t0 (i * PGSIZE)))) by (intros i Hi; apply Hpg, Hi).
  assert (Hupg : forall i, 0 <= i < Z.of_nat N -> page_ok (img s) (PTE2PA (old s t0 (i * PGSIZE)))) by (intros i Hi; apply Hpg, Hi).
  eapply returns_mono; [apply (uvmcopy_loop s r0 t0 rN tN l sz N Hinv Hold Hsz HN Hleaf Htab Husr Hempty)|].
  intros r s2 [[-> (t2 & l2 & P & Hc)]|(-> & Hfew & t2 & l2 & Hu)].
  - pose proof (apart_kept s r0 t0 rN tN l N Hinv Hold Htab Husr (mem s2) (cp_mem _ _ _ _ _ _ _ _ _ _ _ _ Hc)) as Hk. pose proof Hc as [Hinv2 Hfr Hlen Hnd Hpage Hsub _ _ _ _ _ _ Hct Hks Htb].
    split; [done|]. split; [apply Hk|]. split; [intros x Hx; by apply (kept_bytes s r0 t0 rN tN l N Hinv HN Hupg)|]. exists t2, l2. do 2 (split; [done|]). left. split; [done|].
    split; [pose proof (grown_exactly tN t2 N Hsub Hks Htb); cbn [length] in *; lia|].
    destruct (copied_pages s t0 rN tN l N Hinv HN Hleaf N s2 t2 l2 P [] ltac:(lia) Hc) as [-> _]. rewrite app_nil_r in *. cbv zeta.
    split; [intros x Hx; by apply (copied_bytes s t0 rN tN l N Hinv HN Hleaf Hupg s2 t2 l2 P x)|]. split; [done|]. intros p Hp. by apply Hpage.
  - pose proof Hu as [Hinv2 Hfr Hsub Hall Hlf Hmem]. pose proof (apart_kept s r0 t0 rN tN l N Hinv Hold Htab Husr (mem s2) Hmem) as Hk.
    split; [done|]. split; [apply Hk|]. split; [intros x Hx; by apply (kept_bytes s r0 t0 rN tN l N Hinv HN Hupg)|]. exists t2, l2. do 2 (split; [done|]). right.
    split; [done|]. split; [done|]. split; [|done]. intros va Hva Ha. specialize (Hlf va ltac:(lia) Ha). by rewrite decide_True in Hlf by lia.
Qed.

(** The address space of one page, an empty page table and three free pages. *)
Definition ex_child : Z := 0x87ff5000.
Definition ex_child_tree : gmap (list Z) Z := {[ [] := ex_child ]}.
Definition ex_child_free : list Z := [0x87ff6000; 0x87ff7000; 0x87ff8000].
Definition ex_fork : kernel :=
  set_freelist 0x87ff6000 (set_mem (store64 (store64 (store64 ex_mem 0x87ff5000 0) 0x87ff6000 0x87ff7000) 0x87ff7000 0x87ff8000) (kernel0 ex_image ∅)).

(** Pages outside a list and a tree, by computation. *)
Lemma apart_check (T : gmap (list Z) Z) (l : list Z) p : bool_decide (p ∉ l ++ (map_to_list T).*2) = true -> p ∉ l /\ forall k, T !! k <> Some p.
Proof.
  intros H%bool_decide_eq_true. rewrite elem_of_app in H. split; [tauto|]. intros k Hk. apply H. right. apply list_elem_of_fmap. exists (k, p). split; [done|]. by apply elem_of_map_to_list.
Qed.

Lemma ex_two_spaces : two_spaces ex_fork ex_root ex_tree ex_child ex_child_tree ex_child_free 1.
Proof.
  assert (H0 : forall i, 0 <= i < Z.of_nat 1 -> i = 0) by lia. split.
  - split; [vm_compute; split; [discriminate|reflexivity]|reflexivity| |apply pt_repb_sound; vm_compute; reflexivity|].
    + split; [vm_compute; repeat split; discriminate || reflexivity|]. split; [vm_compute; repeat split|]. split; [apply (bool_decide_eq_true_1 _); vm_compute; reflexivity|].
      repeat constructor; vm_compute; discriminate || reflexivity.
    + intros k p Hk. unfold ex_child_tree in Hk. apply lookup_singleton_Some in Hk as [_ <-]. apply (bool_decide_eq_true_1 _). vm_compute. reflexivity.
  - apply pt_repb_sound. vm_compute. reflexivity.
  - intros i Hi. rewrite (H0 i Hi). vm_compute. split; discriminate.
  - intros k p Hk. apply apart_check. apply elem_of_map_to_list in Hk.
    assert (H : forallb (fun x => bool_decide (x.2 ∉ ex_child_free ++ (map_to_list ex_child_tree).*2)) (map_to_list ex_tree) = true) by (vm_compute; reflexivity).
    rewrite forallb_forall in H. apply list_elem_of_In, H in Hk. exact Hk.
  - intros i Hi. rewrite (H0 i Hi). split; [vm_compute; repeat split; discriminate || reflexivity|]. apply apart_check. vm_compute. reflexivity.
  - intros i Hi. rewrite (H0 i Hi). vm_compute. reflexivity.
Qed.

(** One page and two tables: the three free pages are just enough. *)
Lemma uvmcopy_copies_witness : returns (uvmcopy ex_root ex_child 100 ex_fork) (fun r s' =>
  r = 0 /\ ubyte (mem s') ex_tree 5 = ubyte (mem ex_fork) ex_tree 5 /\ exists t', ubyte (mem s') t' 5 = ubyte (mem ex_fork) ex_tree 5).
Proof.
  eapply returns_mono.
  - apply (uvmcopy_copies ex_fork ex_root ex_tree ex_child ex_child_tree ex_child_free 100 1).
    + apply ex_two_spaces.
    + split; [reflexivity|discriminate].
    + discriminate.
  - intros r s' (_ & _ & Hold & t' & l' & _ & _ & Hres). assert (H5 : 0 <= 5 < Z.of_nat 1 * PGSIZE) by (split; [discriminate|reflexivity]).
    destruct Hres as [(-> & _ & Hb & _)|(_ & Hfew & _)].
    + split; [reflexivity|]. split; [by apply Hold|]. exists t'. apply (Hb 5 H5).
    + exfalso. revert Hfew. apply Nat.le_ngt. apply Nat.leb_le. vm_compute. reflexivity.
Defined.
