(* ===== verification/Proc.v ===== *)
(** kernel/proc.c, the part below the file system: the process table, the
    hand-over between processes and the scheduler, sleep and wakeup, kill, and
    the copies that serve user and kernel addresses alike. *)

From S2P Require Import Prelude Outcome Mem State Spinlock KString Kalloc Vm.

(** Run a routine of string.c on a buffer that is a field of a structure. *)
Definition in_buf (l : list Z) (f : memory -> memory) : list Z :=
  load_bytes (f (store_bytes ∅ 0 l)) 0 (length l).

(** The bytes of a string literal, NUL included. *)
Definition cstr (x : string) : list Z :=
  (fun c => Z.of_N (Ascii.N_of_ascii c)) <$> String.list_ascii_of_string x ++ [Ascii.zero].

(** kernel/proc.h: offsets of the fields of struct trapframe. *)
Definition tf_kernel_satp : Z := 0.
Definition tf_kernel_sp : Z := 8.
Definition tf_kernel_trap : Z := 16.
Definition tf_epc : Z := 24.
Definition tf_kernel_hartid : Z := 32.
Definition tf_sp : Z := 48.
Definition tf_a (n : Z) : Z := 112 + 8 * n.
Definition tf_size : Z := 288.

Definition procinit : K unit :=
  initlock LPid;;
  initlock LWait;;
  for_each (seq 0 NPROC) (fun p =>
    initlock (LProc p);;
    modp p (set_p_state UNUSED);;
    modp p (set_p_kstack (KSTACK (Z.of_nat p)))).

Definition allocpid : K Z :=
  acquire LPid;;
  pid <- gets nextpid;;
  modify (fun s => set_nextpid (i32 (pid + 1)) s);;
  release LPid;;
  ret pid.

Section with_fuel.
Context `{Fuel}.

Definition proc_pagetable (p : nat) : K Z :=
  pagetable <- uvmcreate;;
  if pagetable =? 0 then ret 0 else
  im <- gets img;;
  r <- mappages pagetable TRAMPOLINE PGSIZE (trampoline_addr im) (Z.lor PTE_R PTE_X);;
  if r <? 0 then uvmfree pagetable 0;; ret 0 else
  pr <- getp p;;
  r <- mappages pagetable TRAPFRAME PGSIZE (p_trapframe pr) (Z.lor PTE_R PTE_W);;
  if r <? 0 then
    uvmunmap pagetable TRAMPOLINE 1 false;;
    uvmfree pagetable 0;;
    ret 0
  else ret pagetable.

Definition proc_freepagetable (pagetable sz : Z) : K unit :=
  uvmunmap pagetable TRAMPOLINE 1 false;;
  uvmunmap pagetable TRAPFRAME 1 false;;
  uvmfree pagetable sz.

Definition freeproc (p : nat) : K unit :=
  pr <- getp p;;
  when (truthy (p_trapframe pr)) (kfree (p_trapframe pr));;
  modp p (set_p_trapframe 0);;
  pr <- getp p;;
  when (truthy (p_pagetable pr)) (proc_freepagetable (p_pagetable pr) (p_sz pr));;
  modp p (set_p_pagetable 0);;
  modp p (set_p_sz 0);;
  modp p (set_p_pid 0);;
  modp p (set_p_parent None);;
  modp p (fun pr => set_p_name (<[0%nat := 0]> (p_name pr)) pr);;
  modp p (set_p_chan ChNull);;
  modp p (set_p_killed 0);;
  modp p (set_p_xstate 0);;
  modp p (set_p_state UNUSED).

(** The scan of allocproc: the first UNUSED slot, with its lock held. *)
Definition alloc_scan (p : nat) : K (option nat) :=
  acquire (LProc p);;
  pr <- getp p;;
  if decide (p_state pr = UNUSED) then ret (Some p) else release (LProc p);; ret None.

Definition allocproc : K (option nat) :=
  found <- scan (seq 0 NPROC) alloc_scan;;
  match found with
  | None => ret None
  | Some p =>
      pid <- allocpid;;
      modp p (set_p_pid pid);;
      modp p (set_p_state USED);;
      (* Allocate a trapframe page. *)
      tf <- kalloc;;
      modp p (set_p_trapframe tf);;
      if tf =? 0 then freeproc p;; release (LProc p);; ret None else
      (* An empty user page table. *)
      pt <- proc_pagetable p;;
      modp p (set_p_pagetable pt);;
      if pt =? 0 then freeproc p;; release (LProc p);; ret None else
      (* Set up new context to start executing at forkret. *)
      im <- gets img;;
      modp p (fun pr => set_p_context (mkContext (forkret_addr im) (p_kstack pr + PGSIZE) (replicate 12 0)) pr);;
      ret (Some p)
  end.

Definition growproc (n : Z) : K Z :=
  p <- curproc;;
  pr <- getp p;;
  let sz := p_sz pr in
  if 0 <? n then
    sz' <- uvmalloc (p_pagetable pr) sz (u64 (sz + n)) PTE_W;;
    if sz' =? 0 then ret (-1) else modp p (set_p_sz sz');; ret 0
  else if n <? 0 then
    sz' <- uvmdealloc (p_pagetable pr) sz (u64 (sz + n));;
    modp p (set_p_sz sz');; ret 0
  else modp p (set_p_sz sz);; ret 0.
End with_fuel.

(** ** Switching *)

(** Leaving the processor: the scheduler runs other threads until it picks
    this process again, on whatever hart. *)
Definition sched : K unit :=
  p <- curproc;;
  h <- holding (LProc p);;
  if negb h then panic "sched p->lock" else
  c <- mycpu;;
  if negb (c_noff c =? 1) then panic "sched locks" else
  pr <- getp p;;
  if decide (p_state pr = RUNNING) then panic "sched running" else
  on <- intr_get;;
  if on : bool then panic "sched interruptible" else
  c <- mycpu;;
  let intena := c_intena c in
  swtch;;
  mod_mycpu (set_c_intena intena).

Definition yield : K unit :=
  p <- curproc;;
  acquire (LProc p);;
  modp p (set_p_state RUNNABLE);;
  sched;;
  release (LProc p).

(** The scheduler's turn of one process; [swtch] here runs the process until
    it switches back. *)
Definition schedule_proc (p : nat) : K unit :=
  acquire (LProc p);;
  pr <- getp p;;
  (if decide (p_state pr = RUNNABLE) then
     modp p (set_p_state RUNNING);;
     mod_mycpu (set_c_proc (Some p));;
     swtch;;
     mod_mycpu (set_c_proc None)
   else ret tt);;
  release (LProc p).

(** One round of scheduler()'s endless loop. *)
Definition scheduler_round : K unit :=
  intr_on;;
  for_each (seq 0 NPROC) schedule_proc.

(** scheduler() never returns: [n] rounds of it. *)
Definition scheduler (n : nat) : K unit :=
  mod_mycpu (set_c_proc None);;
  for_each (replicate n tt) (fun _ => scheduler_round).

Definition sleep (ch : chan) (lk : lockid) : K unit :=
  p <- curproc;;
  acquire (LProc p);;
  release lk;;
  (* Go to sleep. *)
  modp p (set_p_chan ch);;
  modp p (set_p_state SLEEPING);;
  sched;;
  (* Tidy up. *)
  modp p (set_p_chan ChNull);;
  (* Reacquire original lock. *)
  release (LProc p);;
  acquire lk.

Definition wakeup_proc (ch : chan) (p : nat) : K unit :=
  me <- myproc;;
  if decide (Some p = me) then ret tt else
  acquire (LProc p);;
  pr <- getp p;;
  (if decide (p_state pr = SLEEPING /\ p_chan pr = ch)
   then modp p (set_p_state RUNNABLE) else ret tt);;
  release (LProc p).

Definition wakeup (ch : chan) : K unit := for_each (seq 0 NPROC) (wakeup_proc ch).

Definition kill_proc (pid : Z) (p : nat) : K (option Z) :=
  acquire (LProc p);;
  pr <- getp p;;
  if p_pid pr =? pid then
    modp p (set_p_killed 1);;
    pr <- getp p;;
    (if decide (p_state pr = SLEEPING) then modp p (set_p_state RUNNABLE) else ret tt);;
    release (LProc p);;
    ret (Some 0)
  else
    release (LProc p);;
    ret None.

Definition kill (pid : Z) : K Z :=
  r <- scan (seq 0 NPROC) (kill_proc pid);;
  match r with Some v => ret v | None => ret (-1) end.

Definition setkilled (p : nat) : K unit :=
  acquire (LProc p);;
  modp p (set_p_killed 1);;
  release (LProc p).

Definition killed (p : nat) : K Z :=
  acquire (LProc p);;
  pr <- getp p;;
  release (LProc p);;
  ret (p_killed pr).

(** ** Copies to and from user or kernel addresses *)

(** A destination: a user address, a kernel address in memory, or a local
    buffer of the caller, which then receives the bytes as a result.  User
    addresses are whatever the user passes and wrap at 64 bits. *)
Inductive dest : Type := ToUser (va : Z) | ToKernel (a : Z) | ToLocal.
Definition dest_add (d : dest) (n : Z) : dest :=
  match d with ToUser va => ToUser (u64 (va + n)) | ToKernel a => ToKernel (a + n) | ToLocal => ToLocal end.

Definition either_copyout (dst : dest) (src : list Z) : K Z :=
  p <- myproc;;
  match dst with
  | ToUser va => p <- deref p;; pr <- getp p;; copyout (p_pagetable pr) va src
  | ToKernel a => modify (fun s => set_mem (store_bytes (mem s) a src) s);; ret 0
  | ToLocal => ret 0
  end.

(** A source: a user address, or bytes in kernel memory. *)
Inductive source : Type := FromUser (va : Z) | FromKernel (bs : list Z).
Definition source_add (x : source) (n : Z) : source :=
  match x with FromUser va => FromUser (u64 (va + n)) | FromKernel bs => FromKernel (drop (Z.to_nat n) bs) end.

(** The bytes copied, also when the copy fails half way, and the result. *)
Definition either_copyin (src : source) (len : Z) : K (list Z * Z) :=
  p <- myproc;;
  match src with
  | FromUser va => p <- deref p;; pr <- getp p;; copyin (p_pagetable pr) va len
  | FromKernel bs => ret (take (Z.to_nat len) bs, 0)
  end.
