(* ===== verification/ProcSpec.v ===== *)
(** What the process-table operations do: wakeup, kill and sleep as exact
    state changes, for every state in which their locks can be taken; and a round of
    the scheduler, which passes over no process that can run. *)

From S2P Require Import Prelude Outcome Mem State Spinlock KString Kalloc Vm Proc.

(** The locks of the process table are free, but for [except]. *)
Definition proc_locks_free (s : kernel) (except : option nat) : Prop :=
  forall i, (i < NPROC)%nat -> Some i <> except -> locks s !! LProc i = None.

(** A routine that visits every slot under its lock applies [f] to each. *)
Lemma foldl_alter_seq {A} (f : nat -> A -> A) n : forall j (l : list A),
  forall i, foldl (fun ps k => alter (f k) k ps) l (seq j n) !! i =
  if decide (j <= i < j + n)%nat then f i <$> l !! i else l !! i.
Proof.
  induction n as [|n IH]; intros j l i; cbn [seq foldl].
  { rewrite decide_False by lia. done. }
  rewrite IH. destruct (decide (i = j)) as [->|Hne].
  - rewrite decide_False, decide_True by lia. by rewrite list_lookup_alter_eq.
  - rewrite list_lookup_alter_ne by done. repeat case_decide; done || lia.
Qed.

Lemma foldl_alter_imap {A} (f : nat -> A -> A) (l : list A) :
  foldl (fun ps k => alter (f k) k ps) l (seq 0 (length l)) = imap f l.
Proof.
  apply list_eq. intros i. rewrite foldl_alter_seq, list_lookup_imap. case_decide; [done|].
  rewrite lookup_ge_None_2 by lia. done.
Qed.

Lemma for_each_procs (body : nat -> K unit) (f : nat -> proc -> proc) l : forall s,
  (forall i s', i ∈ l -> irq_ok s' -> locks s' = locks s -> c_proc (cpu_ s') = c_proc (cpu_ s) ->
     length (procs s') = length (procs s) ->
     body i s' = Ret tt (settle (set_procs (alter (f i) i (procs s')) s'))) ->
  irq_ok s -> l <> [] ->
  for_each l body s =
    Ret tt (settle (set_procs (foldl (fun ps k => alter (f k) k ps) (procs s) l) s)).
Proof.
  induction l as [|i l IH]; intros s Hb Hi Hne; [done|]. cbn [for_each foldl].
  rewrite (bind_Ret _ _ _ _ _ (Hb i s (list_elem_of_here _ _) Hi eq_refl eq_refl eq_refl)).
  destruct l as [|k l]; [done|]. rewrite IH.
  - by rewrite !set_procs_settle, !settle_settle.
  - intros j s' Hj Hi' Hl Hc Hlen. apply Hb; [by apply list_elem_of_further|done|done|done|].
    rewrite Hlen. simpl. by rewrite length_alter.
  - exact Hi.
  - done.
Qed.

(** ** wakeup *)

Definition wake (ch : chan) (me : option nat) (i : nat) (pr : proc) : proc :=
  if decide (Some i <> me /\ p_state pr = SLEEPING /\ p_chan pr = ch)
  then set_p_state RUNNABLE pr else pr.

Lemma wakeup_proc_eq ch p s :
  irq_ok s -> (p < length (procs s))%nat ->
  (Some p <> c_proc (cpu_ s) -> locks s !! LProc p = None) ->
  wakeup_proc ch p s =
  Ret tt (settle (set_procs (alter (wake ch (c_proc (cpu_ s)) p) p (procs s)) s)).
Proof.
  intros Hi Hp Hl. unfold wakeup_proc. rewrite (bind_Ret _ _ _ _ _ (myproc_eq s Hi)).
  destruct (lookup_lt_is_Some_2 _ _ Hp) as [pr Hpr].
  destruct (decide (Some p = c_proc (cpu_ s))) as [E|Hne].
  { unfold ret. f_equal. f_equal. unfold wake. rewrite list_alter_id; [by destruct s|].
    intros pr'. rewrite decide_False; [done|]. by intros [? _]. }
  specialize (Hl Hne). assert (Hi' : irq_ok (settle s)) by done.
  rewrite (bind_Ret _ _ _ _ _ (acquire_eq (LProc p) (settle s) Hl)).
  unfold bind at 1, getp, gets. cbn [obind].
  change (procs (acquired (LProc p) (settle s))) with (procs s).
  rewrite (list_lookup_total_correct _ _ _ Hpr).
  set (f := fun s0 : kernel => set_procs (alter (wake ch (c_proc (cpu_ s)) p) p (procs s)) s0).
  assert (Hf : lock_blind f) by done.
  assert (E : (if decide (p_state pr = SLEEPING /\ p_chan pr = ch)
               then modp p (set_p_state RUNNABLE) else ret tt) (acquired (LProc p) (settle s)) =
              Ret tt (f (acquired (LProc p) (settle s)))).
  { unfold f, modp, modify, ret, wake. case_decide as Hd.
    - f_equal. f_equal. apply list_eq. intros i. destruct (decide (i = p)) as [->|].
      + cbn. rewrite !list_lookup_alter_eq, Hpr. simpl. by rewrite decide_True.
      + cbn. by rewrite !list_lookup_alter_ne.
    - f_equal. set (s1 := acquired (LProc p) (settle s)).
      replace (alter _ p (procs s)) with (procs s1); [by destruct s1|].
      apply list_eq. intros i. destruct (decide (i = p)) as [->|].
      + cbn. rewrite list_lookup_alter_eq, Hpr. simpl. rewrite decide_False; [done|]. tauto.
      + cbn. by rewrite list_lookup_alter_ne. }
  rewrite (bind_Ret _ _ _ _ _ E), (critical_eq _ f (settle s) Hi' Hl Hf eq_refl).
  unfold f. by rewrite set_procs_settle, settle_settle.
Qed.

Lemma wakeup_eq ch s :
  irq_ok s -> length (procs s) = NPROC -> proc_locks_free s (c_proc (cpu_ s)) ->
  wakeup ch s = Ret tt (settle (set_procs (imap (wake ch (c_proc (cpu_ s))) (procs s)) s)).
Proof.
  intros Hi Hlen Hl. unfold wakeup. rewrite (for_each_procs _ (wake ch (c_proc (cpu_ s)))); try done.
  - by rewrite <- Hlen, foldl_alter_imap.
  - intros i s' Hin Hi' Hl' Hc Hlen'. apply elem_of_seq in Hin.
    rewrite <- Hc. apply wakeup_proc_eq; [done|lia|]. rewrite Hl', Hc. intros. apply Hl; [lia|done].
Qed.

(** ** wakeup inside a critical section *)

Lemma settle_locked s : 0 < c_noff (cpu_ s) -> settle s = s.
Proof. intros Hn. unfold settle. destruct (Z.eqb_spec (c_noff (cpu_ s)) 0); [lia|]. destruct s as [? ? [? ? ?]]; done. Qed.

(** Interrupts can be taken: the locks they need are free. *)
Record can_wake (s : kernel) : Prop := {
  cw_irq : irq_ok s;
  cw_len : length (procs s) = NPROC;
  cw_free : proc_locks_free s (c_proc (cpu_ s))
}.

Lemma can_wake_acquired lk s : can_wake s -> (forall i, lk <> LProc i) -> can_wake (acquired lk s).
Proof.
  intros [[Hn Hs] Hl Hf] Hlk. split; [split; cbn; [lia|done]|done|]. intros i Hi Hc. cbn. rewrite lookup_insert_ne by done. by apply Hf.
Qed.

Definition woken (ch : chan) (s : kernel) : kernel := set_procs (imap (wake ch (c_proc (cpu_ s))) (procs s)) s.

Lemma wakeup_locked ch s : can_wake s -> 0 < c_noff (cpu_ s) -> wakeup ch s = Ret tt (woken ch s) /\ can_wake (woken ch s).
Proof.
  intros [Hi Hl Hf] Hn. rewrite wakeup_eq by done. rewrite settle_locked by done. split; [done|]. split; [done| |done]. cbn. by rewrite length_imap.
Qed.

(** ** kill *)

Definition mark_killed (pr : proc) : proc :=
  let pr := set_p_killed 1 pr in
  if decide (p_state pr = SLEEPING) then set_p_state RUNNABLE pr else pr.

Lemma kill_proc_eq pid p s :
  irq_ok s -> (p < length (procs s))%nat -> locks s !! LProc p = None ->
  kill_proc pid p s =
  if p_pid (procs s !!! p) =? pid
  then Ret (Some 0) (settle (set_procs (alter mark_killed p (procs s)) s))
  else Ret None (settle s).
Proof.
  intros Hi Hp Hl. unfold kill_proc.
  destruct (lookup_lt_is_Some_2 _ _ Hp) as [pr Hpr].
  rewrite (bind_Ret _ _ _ _ _ (acquire_eq (LProc p) s Hl)).
  unfold bind at 1, getp, gets. cbn [obind].
  change (procs (acquired (LProc p) s)) with (procs s).
  rewrite (list_lookup_total_correct _ _ _ Hpr).
  destruct (p_pid pr =? pid).
  - set (f := fun s0 : kernel => set_procs (alter mark_killed p (procs s)) s0).
    unfold bind at 1, modp, modify. cbn [obind]. set (s1 := set_procs _ _).
    unfold bind at 1, gets. cbn [obind]. change (procs s1) with (alter (set_p_killed 1) p (procs s)).
    assert (Hpr1 : alter (set_p_killed 1) p (procs s) !! p = Some (set_p_killed 1 pr))
      by (by rewrite list_lookup_alter_eq, Hpr).
    rewrite (list_lookup_total_correct _ _ _ Hpr1). change (p_state (set_p_killed 1 pr)) with (p_state pr).
    assert (E : (if decide (p_state pr = SLEEPING)
       then fun s0 : kernel => Ret tt (set_procs (alter (set_p_state RUNNABLE) p (procs s0)) s0)
       else ret tt) s1 = Ret tt (f (acquired (LProc p) s))).
    { assert (Hps : (if decide (p_state pr = SLEEPING)
        then alter (set_p_state RUNNABLE) p (alter (set_p_killed 1) p (procs s))
        else alter (set_p_killed 1) p (procs s)) = alter mark_killed p (procs s)).
      { apply list_eq. intros i. destruct (decide (i = p)) as [->|].
        - case_decide; rewrite !list_lookup_alter_eq, Hpr; simpl; unfold mark_killed; simpl.
          + by rewrite decide_True.
          + by rewrite decide_False.
        - case_decide; by rewrite !list_lookup_alter_ne. }
      unfold f, ret. rewrite <- Hps. by case_decide. }
    rewrite (bind_Ret _ _ _ _ _ E). unfold bind. by rewrite (critical_eq _ f s Hi Hl ltac:(done) eq_refl).
  - unfold bind. by rewrite (critical_eq _ (fun s => s) s Hi Hl ltac:(done) eq_refl).
Qed.

Lemma kill_scan_eq pid l : forall s,
  irq_ok s -> (forall i, i ∈ l -> (i < length (procs s))%nat /\ locks s !! LProc i = None) -> l <> [] ->
  scan l (kill_proc pid) s =
  match find (fun i => p_pid (procs s !!! i) =? pid) l with
  | Some i => Ret (Some 0) (settle (set_procs (alter mark_killed i (procs s)) s))
  | None => Ret None (settle s)
  end.
Proof.
  induction l as [|i l IH]; intros s Hi Hl Hne; [done|]. cbn [scan find].
  destruct (Hl i (list_elem_of_here _ _)) as [Hlt Hlk].
  unfold bind. rewrite (kill_proc_eq pid i s) by done. destruct (_ =? pid); simpl; [done|].
  destruct l as [|k l]; [done|]. rewrite IH; [|done| |done].
  - change (procs (settle s)) with (procs s). destruct (find _ (k :: l)).
    + by rewrite set_procs_settle, settle_settle.
    + by rewrite settle_settle.
  - intros j Hj. apply Hl. by apply list_elem_of_further.
Qed.

Lemma find_seq_index {A} `{Inhabited A} (g : A -> bool) (l : list A) : forall pre,
  find (fun i => g ((pre ++ l) !!! i)) (seq (length pre) (length l)) =
  (fun k => (length pre + k)%nat) <$> find_index g l.
Proof.
  induction l as [|x l IH]; intros pre; [done|]. cbn [length seq find find_index].
  rewrite list_lookup_total_middle by done. destruct (g x).
  - simpl. by rewrite Nat.add_0_r.
  - specialize (IH (pre ++ [x])). rewrite <- app_assoc, length_app in IH. simpl in IH.
    rewrite Nat.add_1_r in IH. rewrite IH. destruct (find_index g l); simpl; [|done].
    f_equal. lia.
Qed.

(** kill(pid) marks the first process with that pid as killed, makes it
    RUNNABLE if it was SLEEPING, and returns 0; with no such process it returns
    -1 and changes nothing. *)
Theorem kill_spec (s : kernel) (pid : Z) :
  irq_ok s -> length (procs s) = NPROC -> proc_locks_free s None ->
  kill pid s =
  match find_index (fun pr => p_pid pr =? pid) (procs s) with
  | Some i => Ret 0 (settle (set_procs (alter mark_killed i (procs s)) s))
  | None => Ret (-1) (settle s)
  end.
Proof.
  intros Hi Hlen Hl. unfold kill, bind. rewrite kill_scan_eq; [|done| |done].
  - rewrite <- Hlen. pose proof (find_seq_index (fun pr => p_pid pr =? pid) (procs s) []) as E.
    simpl in E. rewrite E. by destruct (find_index _ _).
  - intros i Hi'. apply elem_of_seq in Hi'. split; [lia|]. apply Hl; [lia|done].
Qed.

(** wakeup(chan) makes RUNNABLE exactly the processes that sleep on chan,
    but for the caller, and changes nothing else. *)
Theorem wakeup_wakes_sleepers (s : kernel) (ch : chan) :
  irq_ok s -> length (procs s) = NPROC -> proc_locks_free s (c_proc (cpu_ s)) ->
  wakeup ch s = Ret tt (settle (set_procs (imap (wake ch (c_proc (cpu_ s))) (procs s)) s)).
Proof. apply wakeup_eq. Qed.

(** ** sleep *)

(** The running process [p] holds [lk] and no other lock. *)
Record holds_only (s : kernel) (p : nat) (lk : lockid) : Prop := {
  ho_proc : c_proc (cpu_ s) = Some p;
  ho_lt : (p < length (procs s))%nat;
  ho_noff : c_noff (cpu_ s) = 1;
  ho_sie : sie s = false;
  ho_lk : locks s !! lk = Some (hart s)
}.

Definition asleep (ch : chan) (pr : proc) : proc := set_p_state SLEEPING (set_p_chan ch pr).

(** The state in which sleep leaves the processor. *)
Definition sleep_st (ch : chan) (lk : lockid) (p : nat) (s : kernel) : kernel :=
  set_procs (alter (asleep ch) p (procs s))
    (set_locks (<[LProc p := hart s]> (delete lk (locks s))) s).

(** The state in which it returns, resumed in [s]. *)
Definition woken_st (lk : lockid) (p : nat) (intena : bool) (s : kernel) : kernel :=
  set_procs (alter (set_p_chan ChNull) p (procs s))
    (set_locks (<[lk := hart s]> (delete (LProc p) (locks s)))
      (set_cpu_ (set_c_intena intena (cpu_ s)) s)).

Lemma alter_alter {A} (f g : A -> A) i (l : list A) : alter f i (alter g i l) = alter (fun x => f (g x)) i l.
Proof.
  apply list_eq. intros j. destruct (decide (j = i)) as [->|].
  - rewrite !list_lookup_alter_eq. by destruct (l !! i).
  - by rewrite !list_lookup_alter_ne.
Qed.

Lemma sched_eq p s :
  c_proc (cpu_ s) = Some p -> locks s !! LProc p = Some (hart s) -> c_noff (cpu_ s) = 1 ->
  p_state (procs s !!! p) <> RUNNING -> sie s = false ->
  sched s = Yield s (fun s' => Ret tt (set_cpu_ (set_c_intena (c_intena (cpu_ s)) (cpu_ s')) s')).
Proof.
  intros Hc Hl Hn Hst Hs. unfold sched, curproc.
  assert (Hi : irq_ok s) by (split; [lia|done]).
  assert (E : (p0 <- myproc;; deref p0) s = Ret p s).
  { rewrite (bind_Ret _ _ _ _ _ (myproc_eq s Hi)). rewrite Hc. unfold deref, ret. f_equal.
    unfold settle. rewrite Hn. simpl. destruct s as [? ? [? ? ?]]; done. }
  rewrite (bind_Ret _ _ _ _ _ E). unfold bind at 1, holding, gets. cbn [obind].
  rewrite bool_decide_true by done. cbn [negb].
  unfold bind at 1, mycpu, gets. cbn [obind]. rewrite Hn. cbn [negb Z.eqb Pos.eqb].
  unfold bind at 1, getp, gets. cbn [obind]. rewrite decide_False by done.
  unfold bind at 1, intr_get, gets. cbn [obind]. rewrite Hs. done.
Qed.

Lemma modp_bind {A} p f (k : unit -> K A) s :
  bind (modp p f) k s = k tt (set_procs (alter f p (procs s)) s).
Proof. reflexivity. Qed.

Lemma sleep_eq ch lk p s :
  holds_only s p lk -> locks s !! LProc p = None ->
  exists k, sleep ch lk s = Yield (sleep_st ch lk p s) k /\
    forall s', holds_only s' p (LProc p) -> locks s' !! lk = None ->
      k s' = Ret tt (woken_st lk p (c_intena (cpu_ s)) s').
Proof.
  intros [Hc Hp Hn Hs Hlk] Hl. assert (Hi : irq_ok s) by (split; [lia|done]).
  assert (Hne : LProc p <> lk) by (intros <-; congruence).
  assert (Hset : forall c, c_noff c = 1 -> set_c_intena (if c_noff c =? 0 then sie s else c_intena c) c = c).
  { intros [? ? ?] Hc1. simpl in Hc1. subst. done. }
  unfold sleep, curproc.
  assert (E : (p0 <- myproc;; deref p0) s = Ret p s).
  { rewrite (bind_Ret _ _ _ _ _ (myproc_eq s Hi)). rewrite Hc. unfold deref, ret. f_equal.
    unfold settle. rewrite Hset by done. by destruct s. }
  rewrite (bind_Ret _ _ _ _ _ E), (bind_Ret _ _ _ _ _ (acquire_eq _ _ Hl)).
  assert (Er : release lk (acquired (LProc p) s) =
    Ret tt (set_locks (<[LProc p := hart s]> (delete lk (locks s))) s)).
  { rewrite release_eq; [|simpl; by rewrite lookup_insert_ne|done|simpl; lia].
    f_equal. unfold released, popped, acquired, pushed. simpl. rewrite Hn. simpl.
    rewrite delete_insert_ne by done. destruct s as [? ? [? ? ?]]; simpl in *; by subst. }
  rewrite (bind_Ret _ _ _ _ _ Er), !modp_bind. set (s1 := set_procs _ (set_procs _ _)).
  assert (E1 : s1 = sleep_st ch lk p s).
  { unfold s1, sleep_st, asleep. simpl. by rewrite alter_alter. }
  rewrite E1. clear E1 s1.
  destruct (lookup_lt_is_Some_2 _ _ Hp) as [pr Hpr].
  assert (Esch := sched_eq p (sleep_st ch lk p s) Hc ltac:(simpl; by rewrite lookup_insert_eq) Hn).
  unfold bind at 1. rewrite Esch; [|simpl|done].
  2: { erewrite list_lookup_total_correct; [|by rewrite list_lookup_alter_eq, Hpr]. done. }
  cbn [obind]. eexists. split; [done|]. intros s' [Hc' Hp' Hn' Hs' Hlk'] Hl'.
  set (s1 := set_cpu_ _ s'). rewrite modp_bind. set (s2 := set_procs _ s1). unfold bind.
  rewrite release_eq; [|done|done|simpl; lia]. cbn [obind]. rewrite acquire_eq.
  - f_equal. unfold acquired, pushed, released, popped, woken_st, s2, s1. simpl.
    rewrite Hn'. simpl. destruct s' as [im' h' [cp' cn' ci']]; simpl in *; subst. by destruct (c_intena (cpu_ s)).
  - simpl. by rewrite lookup_delete_ne.
Qed.

(** A process that holds lk and calls sleep(chan, lk) leaves the processor with its slot
    SLEEPING on chan, lk free and only its own lock held, so that any later
    wakeup(chan) by another process makes it RUNNABLE; when the scheduler resumes it, sleep
    returns with lk held again and its channel cleared.  The steps of sleep between those
    of other harts are the matter of SleepRace.v. *)
Theorem sleep_wakeup (s : kernel) (p : nat) (lk : lockid) (ch : chan) :
  holds_only s p lk -> locks s !! LProc p = None ->
  exists k, sleep ch lk s = Yield (sleep_st ch lk p s) k /\
    locks (sleep_st ch lk p s) !! lk = None /\
    (forall s1, irq_ok s1 -> length (procs s1) = NPROC -> proc_locks_free s1 (c_proc (cpu_ s1)) ->
       c_proc (cpu_ s1) <> Some p -> procs s1 !! p = procs (sleep_st ch lk p s) !! p ->
       returns (wakeup ch s1) (fun _ s2 => p_state (procs s2 !!! p) = RUNNABLE)) /\
    (forall s', holds_only s' p (LProc p) -> locks s' !! lk = None ->
       k s' = Ret tt (woken_st lk p (c_intena (cpu_ s)) s')).
Proof.
  intros Hh Hl. destruct (sleep_eq ch lk p s Hh Hl) as (k & Hk & Hres). exists k.
  destruct Hh as [_ Hp _ _ Hlk]. assert (Hne : LProc p <> lk) by (intros <-; congruence).
  split; [exact Hk|]. split; [simpl; by rewrite lookup_insert_ne, lookup_delete_eq|].
  split; [|exact Hres]. intros s1 Hi Hlen Hfree Hc Hslot. rewrite wakeup_eq by done. simpl.
  destruct (lookup_lt_is_Some_2 _ _ Hp) as [pr Hpr]. simpl in Hslot.
  rewrite list_lookup_alter_eq, Hpr in Hslot. simpl in Hslot.
  erewrite list_lookup_total_correct; [|by rewrite list_lookup_imap, Hslot]. unfold wake.
  rewrite decide_True; [done|]. split; [congruence|done].
Qed.

(** ** The scheduler *)

(** The scheduler as the processes drive it: at a switch to process [p] the
    process runs until it switches back, [run p]; the trace lists the processes
    that got a turn. *)
Section drive.
Context (run : nat -> kernel -> kernel).

Fixpoint drive {A} (o : outcome kernel A) : option (list nat * A * kernel) :=
  match o with
  | Ret a s => Some ([], a, s)
  | Stop _ => None
  | Yield s k =>
      match c_proc (cpu_ s) with
      | Some p => match drive (k (run p s)) with Some (tr, a, s') => Some (p :: tr, a, s') | None => None end
      | None => None
      end
  end.

Lemma drive_bind {A B} (o : outcome kernel A) (k : A -> K B) tr a s tr' b s' :
  drive o = Some (tr, a, s) -> drive (k a s) = Some (tr', b, s') -> drive (obind o k) = Some (tr ++ tr', b, s').
Proof.
  revert tr. induction o as [|h|s0 c IH]; intros tr; cbn [drive obind]; [by intros [= <- -> ->]|done|].
  destruct (c_proc (cpu_ s0)) as [p|]; [|done]. destruct (drive (c (run p s0))) as [[[tr1 a1] s1]|] eqn:E; [|done].
  intros [= <- -> ->] Hk. by rewrite (IH _ _ E Hk).
Qed.

(** What the scheduler and a process promise each other at the switches: this
    hart holds the lock of the process and no other process's, once nested, with
    interrupts off; sched() checks most of it before it switches back.  On one hart
    a process that is ready to run stays so during the turn of another. *)
Record handover (p : nat) (s : kernel) : Prop := {
  hd_lock : locks s !! LProc p = Some (hart s);
  hd_free : proc_locks_free s (Some p);
  hd_noff : c_noff (cpu_ s) = 1;
  hd_off : sie s = false;
  hd_len : length (procs s) = NPROC
}.
Definition ready (s : kernel) (q : nat) : Prop := p_state (procs s !!! q) = RUNNABLE.

Context (Hrun : forall p s, (p < NPROC)%nat -> handover p s -> c_proc (cpu_ s) = Some p -> p_state (procs s !!! p) = RUNNING ->
  handover p (run p s) /\ forall q, q <> p -> ready s q -> ready (run p s) q).

(** Between two slots no process lock is held. *)
Record at_rest (s : kernel) : Prop := {
  ar_free : proc_locks_free s None;
  ar_noff : c_noff (cpu_ s) = 0;
  ar_len : length (procs s) = NPROC
}.

Lemma handover_release p s : (p < NPROC)%nat -> handover p s -> exists s', release (LProc p) s = Ret tt s' /\ at_rest s' /\ procs s' = procs s.
Proof.
  intros Hp [Hl Hf Hn Ho Hlen]. exists (released (LProc p) s). rewrite release_eq by (done || lia). split; [done|]. split; [|done].
  split; [|simpl; lia|done]. intros i Hi _. simpl. destruct (decide (i = p)) as [->|Hne]; [by rewrite lookup_delete_eq|].
  rewrite lookup_delete_ne by congruence. apply Hf; [done|congruence].
Qed.

Lemma acquire_handover p s : (p < NPROC)%nat -> at_rest s -> exists s', acquire (LProc p) s = Ret tt s' /\ handover p s' /\ procs s' = procs s.
Proof.
  intros Hp [Hf Hn Hlen]. exists (acquired (LProc p) s). rewrite acquire_eq by (by apply Hf). split; [done|]. split; [|done].
  split; [by simpl; rewrite lookup_insert_eq| |simpl; lia|done|done].
  intros i Hi Hne. simpl. rewrite lookup_insert_ne by congruence. by apply Hf.
Qed.

(** One slot: its process gets a turn exactly when it is ready. *)
Lemma schedule_proc_turn p s : (p < NPROC)%nat -> at_rest s -> exists s',
  drive (schedule_proc p s) = Some (if decide (p_state (procs s !!! p) = RUNNABLE) then [p] else [], tt, s') /\ at_rest s' /\ forall q, q <> p -> ready s q -> ready s' q.
Proof.
  intros Hp Hr. destruct (acquire_handover p s Hp Hr) as (s1 & E1 & H1 & P1). unfold schedule_proc.
  rewrite (bind_Ret _ _ _ _ _ E1), (bind_Ret _ _ _ _ _ (eq_refl : getp p s1 = Ret (procs s1 !!! p) s1)), P1.
  destruct (decide (p_state (procs s !!! p) = RUNNABLE)) as [Hready|Hno].
  - set (s2 := set_cpu_ (set_c_proc (Some p) (cpu_ s1)) (set_procs (alter (set_p_state RUNNING) p (procs s1)) s1)).
    assert (H2 : handover p s2) by (destruct H1; split; try done; simpl; by rewrite length_alter).
    assert (Hrun2 : p_state (procs s2 !!! p) = RUNNING).
    { simpl. rewrite list_lookup_total_alter_eq; [done|]. by rewrite (hd_len _ _ H1). }
    destruct (Hrun p s2 Hp H2 eq_refl Hrun2) as [H3 Hkeep].
    set (s4 := set_cpu_ (set_c_proc None (cpu_ (run p s2))) (run p s2)).
    assert (H4 : handover p s4) by (by destruct H3; split).
    destruct (handover_release p s4 Hp H4) as (s5 & E5 & R5 & P5). exists s5. split; [|split; [done|]].
    + match goal with |- drive ?o = _ =>
        change o with (Yield s2 (fun s' => release (LProc p) (set_cpu_ (set_c_proc None (cpu_ s')) s'))) end.
      cbn [drive]. change (c_proc (cpu_ s2)) with (Some p). cbv iota. fold s4. by rewrite E5.
    + intros q Hne Hq. unfold ready. rewrite P5. apply Hkeep; [done|]. unfold ready, s2. simpl.
      rewrite list_lookup_total_alter_ne by done. by rewrite P1.
  - destruct (handover_release p s1 Hp H1) as (s2 & E2 & R2 & P2). exists s2. unfold bind, ret. cbn [obind]. rewrite E2.
    split; [done|]. split; [done|]. intros q _ Hq. unfold ready. by rewrite P2, P1.
Qed.

Lemma scheduler_slots n : forall k s, (k + n = NPROC)%nat -> at_rest s -> exists tr s',
  drive (for_each (seq k n) schedule_proc s) = Some (tr, tt, s') /\ at_rest s' /\ tr `sublist_of` seq k n /\
  forall q, (k <= q < NPROC)%nat -> ready s q -> q ∈ tr.
Proof.
  induction n as [|n IH]; intros k s Hk Hr.
  - exists [], s. split; [done|]. split; [done|]. split; [constructor|]. intros; lia.
  - destruct (schedule_proc_turn k s ltac:(lia) Hr) as (s1 & E1 & R1 & K1).
    destruct (IH (S k) s1 ltac:(lia) R1) as (tr & s2 & E2 & R2 & Hsub & Hall).
    eexists _, s2. cbn [seq for_each]. split; [by eapply drive_bind|]. split; [done|]. split.
    + destruct (decide _); [by constructor|by apply sublist_cons].
    + intros q Hq Hrq. apply elem_of_app. destruct (decide (q = k)) as [->|Hne].
      * left. rewrite decide_True by done. by apply list_elem_of_singleton.
      * right. apply Hall; [lia|]. by apply K1.
Qed.
End drive.

(** C25. The scheduler passes over no process: on one hart, when every process
    that gets the processor comes back the way sched() requires, one round of
    scheduler() comes to its end, gives each process at most one turn, in the order of
    the table, gives a turn to every process that was RUNNABLE when the round began,
    and ends with no process lock held. *)
Theorem scheduler_round_fair (run : nat -> kernel -> kernel) s :
  (forall p s, (p < NPROC)%nat -> handover p s -> c_proc (cpu_ s) = Some p -> p_state (procs s !!! p) = RUNNING ->
     handover p (run p s) /\ forall q, q <> p -> ready s q -> ready (run p s) q) ->
  at_rest s ->
  exists tr s', drive run (scheduler_round s) = Some (tr, tt, s') /\ at_rest s' /\ tr `sublist_of` seq 0 NPROC /\
    forall q, (q < NPROC)%nat -> ready s q -> q ∈ tr.
Proof.
  intros Hrun Hr. assert (Hr' : at_rest (set_sie true s)) by (by destruct Hr; split).
  destruct (scheduler_slots run Hrun NPROC 0 (set_sie true s) eq_refl Hr') as (tr & s' & E & R & Hsub & Hall).
  exists tr, s'. split; [exact E|]. split; [done|]. split; [done|]. intros q Hq. apply Hall. lia.
Qed.

(** A process that sleeps comes back that way. *)
Lemma sleep_hands_over ch lk p s : holds_only s p lk -> locks s !! LProc p = None -> (forall q, lk <> LProc q) ->
  proc_locks_free s None -> length (procs s) = NPROC ->
  handover p (sleep_st ch lk p s) /\ forall q, q <> p -> ready s q -> ready (sleep_st ch lk p s) q.
Proof.
  intros [Hc Hp Hn Hs Hlk] Hl Hne Hf Hlen. split; [split|].
  - simpl. by rewrite lookup_insert_eq.
  - intros i Hi Hip. simpl. rewrite lookup_insert_ne, lookup_delete_ne by congruence. by apply Hf.
  - simpl. by rewrite Hn.
  - done.
  - simpl. by rewrite length_alter.
  - intros q Hq Hr. unfold ready in *. simpl. by rewrite list_lookup_total_alter_ne.
Qed.

(** ** Witnesses *)

Definition ex_procs : list proc :=
  <[2%nat := set_p_state SLEEPING (set_p_chan ChTicks (set_p_pid 7 proc0))]> (replicate NPROC proc0).
Definition ex_proc_kernel : kernel :=
  set_procs ex_procs
    (set_locks {[LTicks := 0]} (set_cpu_ (mkCpu (Some 3%nat) 1 true)
      (kernel0 (mkImage 0x87ff0000 0x80008000 0x80007000 0 0 0 0 0) ∅))).

Lemma ex_proc_locks e : proc_locks_free ex_proc_kernel e.
Proof. intros i _ _. unfold ex_proc_kernel. simpl. by rewrite lookup_singleton_ne. Qed.

Lemma kill_spec_witness : exists s', kill 7 ex_proc_kernel = Ret 0 s' /\
  p_killed (procs s' !!! 2%nat) = 1 /\ p_state (procs s' !!! 2%nat) = RUNNABLE.
Proof.
  eexists. rewrite (kill_spec ex_proc_kernel 7).
  - vm_compute. done.
  - vm_compute. split; [discriminate|done].
  - reflexivity.
  - apply ex_proc_locks.
Defined.

Lemma wakeup_wakes_sleepers_witness : exists s', wakeup ChTicks ex_proc_kernel = Ret tt s' /\
  p_state (procs s' !!! 2%nat) = RUNNABLE.
Proof.
  eexists. rewrite (wakeup_wakes_sleepers ex_proc_kernel ChTicks).
  - vm_compute. done.
  - vm_compute. split; [discriminate|done].
  - reflexivity.
  - apply ex_proc_locks.
Defined.

Lemma sleep_wakeup_witness :
  exists k, sleep ChTicks LTicks ex_proc_kernel = Yield (sleep_st ChTicks LTicks 3 ex_proc_kernel) k.
Proof.
  destruct (sleep_wakeup ex_proc_kernel 3 LTicks ChTicks) as (k & Hk & _).
  - split; [reflexivity|vm_compute; lia|reflexivity|reflexivity|reflexivity].
  - reflexivity.
  - exists k. exact Hk.
Defined.

(** Processes that give the processor up at once. *)
Definition ex_turn (p : nat) (s : kernel) : kernel := set_procs (alter (set_p_state RUNNABLE) p (procs s)) s.
Definition ex_ready_kernel : kernel :=
  set_procs (alter (set_p_state RUNNABLE) 5%nat (alter (set_p_state RUNNABLE) 2%nat (replicate NPROC proc0)))
    (kernel0 (mkImage 0x87ff0000 0x80008000 0x80007000 0 0 0 0 0) ∅).

Lemma scheduler_round_fair_witness : exists tr s', drive ex_turn (scheduler_round ex_ready_kernel) = Some (tr, tt, s') /\
  2%nat ∈ tr /\ 5%nat ∈ tr.
Proof.
  destruct (scheduler_round_fair ex_turn ex_ready_kernel) as (tr & s' & E & _ & _ & Hall).
  - intros p s Hp [? ? ? ? Hlen] _ _. split; [split; try done; unfold ex_turn; simpl; by rewrite length_alter|].
    intros q Hne Hq. unfold ready, ex_turn in *. simpl. by rewrite list_lookup_total_alter_ne.
  - split; [|reflexivity|reflexivity]. intros i _ _. reflexivity.
  - exists tr, s'. split; [exact E|]. split; apply Hall; (apply Nat.ltb_lt; reflexivity) || reflexivity.
Defined.
