(* ===== verification/Bytes.v ===== *)
(** Structures laid out in a block of bytes: little-endian integers at byte
    offsets of a list, as on-disk structures and packed arrays are accessed. *)

From S2P Require Import Prelude.

Fixpoint le_dec (l : list Z) : Z :=
  match l with [] => 0 | x :: l' => x + 256 * le_dec l' end.

Fixpoint le_enc (n : nat) (v : Z) : list Z :=
  match n with O => [] | S n' => v mod 256 :: le_enc n' (v / 256) end.

(** The [n] bytes at [off]. *)
Definition sub (l : list Z) (off n : nat) : list Z := take n (drop off l).
(** [l] with [bs] written over it at [off]. *)
Definition upd (l : list Z) (off : nat) (bs : list Z) : list Z :=
  take off l ++ bs ++ drop (off + length bs) l.

Definition get16 (l : list Z) (off : Z) : Z := le_dec (sub l (Z.to_nat off) 2).
Definition get32 (l : list Z) (off : Z) : Z := le_dec (sub l (Z.to_nat off) 4).
Definition put16 (l : list Z) (off v : Z) : list Z := upd l (Z.to_nat off) (le_enc 2 v).
Definition put32 (l : list Z) (off v : Z) : list Z := upd l (Z.to_nat off) (le_enc 4 v).

Definition byte (x : Z) : Prop := 0 <= x < 256.

Lemma length_le_enc n v : length (le_enc n v) = n.
Proof. revert v. induction n as [|n IH]; intros v; simpl; [done|]. by rewrite IH. Qed.

Lemma le_enc_bytes n v : Forall byte (le_enc n v).
Proof.
  revert v. induction n as [|n IH]; intros v; simpl; constructor; [|done].
  apply Z.mod_pos_bound. lia.
Qed.

Lemma le_dec_enc n v : le_dec (le_enc n v) = v mod 256 ^ Z.of_nat n.
Proof.
  revert v. induction n as [|n IH]; intros v; cbn [le_enc le_dec]; [by rewrite Z.mod_1_r|].
  rewrite IH, Nat2Z.inj_succ, Z.pow_succ_r by lia.
  rewrite Z.rem_mul_r by (try apply Z.pow_pos_nonneg; lia). done.
Qed.

Lemma le_dec_range l : Forall byte l -> 0 <= le_dec l < 256 ^ Z.of_nat (length l).
Proof.
  induction 1 as [|x l Hx _ IH]; [done|]. cbn [le_dec length].
  rewrite Nat2Z.inj_succ, Z.pow_succ_r by lia. unfold byte in Hx. lia.
Qed.

Lemma le_enc_dec l : Forall byte l -> le_enc (length l) (le_dec l) = l.
Proof.
  induction 1 as [|x l Hx _ IH]; [done|]. cbn [length le_enc le_dec]. unfold byte in Hx.
  rewrite (Z.mul_comm 256). f_equal.
  - by rewrite Z.mod_add, Z.mod_small by lia.
  - by rewrite Z.div_add, Z.div_small, Z.add_0_l by lia.
Qed.

Lemma length_upd l off bs : (off + length bs <= length l)%nat -> length (upd l off bs) = length l.
Proof. intros H. unfold upd. rewrite !length_app, length_take, length_drop. lia. Qed.

Lemma upd_bytes l off bs : Forall byte l -> Forall byte bs -> Forall byte (upd l off bs).
Proof.
  intros Hl Hb. unfold upd. apply Forall_app. split; [by apply Forall_take|].
  apply Forall_app. split; [done|by apply Forall_drop].
Qed.

Lemma sub_bytes l off n : Forall byte l -> Forall byte (sub l off n).
Proof. intros. by apply Forall_take, Forall_drop. Qed.

Lemma lookup_sub l off n i :
  sub l off n !! i = if decide (i < n)%nat then l !! (off + i)%nat else None.
Proof.
  unfold sub. case_decide.
  - by rewrite lookup_take_lt, lookup_drop by done.
  - by rewrite lookup_take_ge by lia.
Qed.

Lemma lookup_upd l off bs i :
  (off + length bs <= length l)%nat ->
  upd l off bs !! i = if decide (off <= i < off + length bs)%nat then bs !! (i - off)%nat else l !! i.
Proof.
  intros H. unfold upd. destruct (decide (i < off)%nat).
  - rewrite lookup_app_l by (rewrite length_take; lia). rewrite decide_False by lia.
    by rewrite lookup_take_lt.
  - rewrite lookup_app_r by (rewrite length_take; lia). rewrite length_take, Nat.min_l by lia.
    case_decide.
    + by rewrite lookup_app_l by lia.
    + rewrite lookup_app_r by lia. rewrite lookup_drop. f_equal. lia.
Qed.

Lemma length_sub l off n : (off + n <= length l)%nat -> length (sub l off n) = n.
Proof. intros. unfold sub. rewrite length_take, length_drop. lia. Qed.

Lemma sub_upd_same l off bs : (off + length bs <= length l)%nat -> sub (upd l off bs) off (length bs) = bs.
Proof.
  intros H. apply list_eq. intros i. rewrite lookup_sub. case_decide.
  - rewrite lookup_upd, decide_True by lia. f_equal. lia.
  - symmetry. apply lookup_ge_None_2. lia.
Qed.

Lemma sub_upd_other l off bs off' n :
  (off + length bs <= length l)%nat -> (off' + n <= off \/ off + length bs <= off')%nat ->
  sub (upd l off bs) off' n = sub l off' n.
Proof.
  intros H Hd. apply list_eq. intros i. rewrite !lookup_sub. case_decide; [|done].
  rewrite lookup_upd by done. by rewrite decide_False by lia.
Qed.

Lemma upd_upd l off bs bs' : length bs = length bs' -> (off + length bs <= length l)%nat ->
  upd (upd l off bs) off bs' = upd l off bs'.
Proof.
  intros E H. apply list_eq. intros i. rewrite !lookup_upd; rewrite ?length_upd; try lia.
  rewrite E. by case_decide.
Qed.

Lemma upd_sub_id l off n : (off + n <= length l)%nat -> upd l off (sub l off n) = l.
Proof.
  intros H. apply list_eq. intros i. rewrite lookup_upd; rewrite length_sub by done; [|lia].
  case_decide; [|done]. rewrite lookup_sub, decide_True by lia. f_equal. lia.
Qed.

Lemma get32_put32 l off v :
  0 <= off -> off + 4 <= Z.of_nat (length l) -> get32 (put32 l off v) off = u32 v.
Proof.
  intros. unfold get32, put32. rewrite <- (length_le_enc 4 v) at 2.
  rewrite sub_upd_same by (rewrite length_le_enc; lia). by rewrite le_dec_enc.
Qed.

Lemma get32_put32_ne l off v off' :
  0 <= off -> 0 <= off' -> off + 4 <= Z.of_nat (length l) -> off' + 4 <= off \/ off + 4 <= off' ->
  get32 (put32 l off v) off' = get32 l off'.
Proof.
  intros. unfold get32, put32. rewrite sub_upd_other; [done| |]; rewrite length_le_enc; lia.
Qed.

Lemma length_put32 l off v :
  0 <= off -> off + 4 <= Z.of_nat (length l) -> length (put32 l off v) = length l.
Proof. intros. apply length_upd. rewrite length_le_enc. lia. Qed.

Lemma upd_app l off a b : (off + length a + length b <= length l)%nat -> upd (upd l off a) (off + length a) b = upd l off (a ++ b).
Proof.
  intros H. apply list_eq. intros i. rewrite lookup_upd by (rewrite length_upd; lia). rewrite !lookup_upd by (rewrite ?length_app; lia).
  rewrite length_app. destruct (decide (off + length a <= i < off + length a + length b)%nat).
  - rewrite decide_True, lookup_app_r by lia. f_equal. lia.
  - destruct (decide (off <= i < off + length a)%nat).
    + by rewrite decide_True, lookup_app_l by lia.
    + by rewrite decide_False by lia.
Qed.

Lemma sub_upd_in l off a b c : (off + length (a ++ b ++ c) <= length l)%nat ->
  sub (upd l off (a ++ b ++ c)) (off + length a) (length b) = b.
Proof.
  intros H. apply list_eq. intros i. rewrite lookup_sub. rewrite !length_app in H. case_decide.
  - rewrite lookup_upd, decide_True by (rewrite !length_app; lia). rewrite lookup_app_r by lia.
    rewrite lookup_app_l by lia. f_equal. lia.
  - symmetry. apply lookup_ge_None_2. lia.
Qed.
