(* ===== verification/Virtio.v ===== *)
(** kernel/virtio_disk.c: the virtio block driver.  The descriptor table and
    the two rings, which live in pages shared with the device, are fields of
    [vdisk_]; a register read gives what the device last put there. *)

From S2P Require Import Prelude Outcome Mem State Spinlock KString Kalloc Vm Proc.

(** ** kernel/virtio.h *)

Definition VIRTIO_MMIO_MAGIC_VALUE : Z := 0x000.
Definition VIRTIO_MMIO_VERSION : Z := 0x004.
Definition VIRTIO_MMIO_DEVICE_ID : Z := 0x008.
Definition VIRTIO_MMIO_VENDOR_ID : Z := 0x00c.
Definition VIRTIO_MMIO_DEVICE_FEATURES : Z := 0x010.
Definition VIRTIO_MMIO_DRIVER_FEATURES : Z := 0x020.
Definition VIRTIO_MMIO_QUEUE_SEL : Z := 0x030.
Definition VIRTIO_MMIO_QUEUE_NUM_MAX : Z := 0x034.
Definition VIRTIO_MMIO_QUEUE_NUM : Z := 0x038.
Definition VIRTIO_MMIO_QUEUE_READY : Z := 0x044.
Definition VIRTIO_MMIO_QUEUE_NOTIFY : Z := 0x050.
Definition VIRTIO_MMIO_INTERRUPT_STATUS : Z := 0x060.
Definition VIRTIO_MMIO_INTERRUPT_ACK : Z := 0x064.
Definition VIRTIO_MMIO_STATUS : Z := 0x070.
Definition VIRTIO_MMIO_QUEUE_DESC_LOW : Z := 0x080.
Definition VIRTIO_MMIO_QUEUE_DESC_HIGH : Z := 0x084.
Definition VIRTIO_MMIO_DRIVER_DESC_LOW : Z := 0x090.
Definition VIRTIO_MMIO_DRIVER_DESC_HIGH : Z := 0x094.
Definition VIRTIO_MMIO_DEVICE_DESC_LOW : Z := 0x0a0.
Definition VIRTIO_MMIO_DEVICE_DESC_HIGH : Z := 0x0a4.

Definition VIRTIO_CONFIG_S_ACKNOWLEDGE : Z := 1.
Definition VIRTIO_CONFIG_S_DRIVER : Z := 2.
Definition VIRTIO_CONFIG_S_DRIVER_OK : Z := 4.
Definition VIRTIO_CONFIG_S_FEATURES_OK : Z := 8.

Definition VIRTIO_BLK_F_RO : Z := 5.
Definition VIRTIO_BLK_F_SCSI : Z := 7.
Definition VIRTIO_BLK_F_CONFIG_WCE : Z := 11.
Definition VIRTIO_BLK_F_MQ : Z := 12.
Definition VIRTIO_F_ANY_LAYOUT : Z := 27.
Definition VIRTIO_RING_F_INDIRECT_DESC : Z := 28.
Definition VIRTIO_RING_F_EVENT_IDX : Z := 29.

Definition VRING_DESC_F_NEXT : Z := 1.
Definition VRING_DESC_F_WRITE : Z := 2.
Definition VIRTIO_BLK_T_IN : Z := 0.
Definition VIRTIO_BLK_T_OUT : Z := 1.
Definition virtio_blk_req_size : Z := 16.

(** ** Registers and fields *)

Definition modv (f : vdisk -> vdisk) : K unit := modify (fun s => set_vdisk_ (f (vdisk_ s)) s).
Definition rd_reg (r : Z) : K Z := gets (fun s => default 0 (vd_regs (vdisk_ s) !! r)).
(** The status register reads back what was written. *)
Definition wr_reg (r v : Z) : K unit :=
  modv (fun d =>
    let d := set_vd_writes ((r, u32 v) :: vd_writes d) d in
    if r =? VIRTIO_MMIO_STATUS then set_vd_regs (<[r := u32 v]> (vd_regs d)) d else d).

Definition mod_desc (i : Z) (f : vdesc -> vdesc) : K unit :=
  modv (fun d => set_vd_desc (alter f (Z.to_nat i) (vd_desc d)) d).
Definition mod_op (i : Z) (f : vreq -> vreq) : K unit :=
  modv (fun d => set_vd_ops (alter f (Z.to_nat i) (vd_ops d)) d).

Definition clear_bit (x n : Z) : Z := Z.land x (Z.lnot (Z.shiftl 1 n)).

Definition virtio_disk_init : K unit :=
  let status := 0 in
  initlock LVdisk;;
  magic <- rd_reg VIRTIO_MMIO_MAGIC_VALUE;;
  version <- rd_reg VIRTIO_MMIO_VERSION;;
  device <- rd_reg VIRTIO_MMIO_DEVICE_ID;;
  vendor <- rd_reg VIRTIO_MMIO_VENDOR_ID;;
  if negb (magic =? 0x74726976) || negb (version =? 2) || negb (device =? 2) || negb (vendor =? 0x554d4551)
  then panic "could not find virtio disk" else
  (* reset device *)
  wr_reg VIRTIO_MMIO_STATUS status;;
  (* set ACKNOWLEDGE status bit *)
  let status := Z.lor status VIRTIO_CONFIG_S_ACKNOWLEDGE in
  wr_reg VIRTIO_MMIO_STATUS status;;
  (* set DRIVER status bit *)
  let status := Z.lor status VIRTIO_CONFIG_S_DRIVER in
  wr_reg VIRTIO_MMIO_STATUS status;;
  (* negotiate features *)
  features <- rd_reg VIRTIO_MMIO_DEVICE_FEATURES;;
  let features := clear_bit features VIRTIO_BLK_F_RO in
  let features := clear_bit features VIRTIO_BLK_F_SCSI in
  let features := clear_bit features VIRTIO_BLK_F_CONFIG_WCE in
  let features := clear_bit features VIRTIO_BLK_F_MQ in
  let features := clear_bit features VIRTIO_F_ANY_LAYOUT in
  let features := clear_bit features VIRTIO_RING_F_EVENT_IDX in
  let features := clear_bit features VIRTIO_RING_F_INDIRECT_DESC in
  wr_reg VIRTIO_MMIO_DRIVER_FEATURES features;;
  (* tell device that feature negotiation is complete. *)
  let status := Z.lor status VIRTIO_CONFIG_S_FEATURES_OK in
  wr_reg VIRTIO_MMIO_STATUS status;;
  (* re-read status to ensure FEATURES_OK is set. *)
  status <- rd_reg VIRTIO_MMIO_STATUS;;
  if Z.land status VIRTIO_CONFIG_S_FEATURES_OK =? 0 then panic "virtio disk FEATURES_OK unset" else
  (* initialize queue 0. *)
  wr_reg VIRTIO_MMIO_QUEUE_SEL 0;;
  (* ensure queue 0 is not in use. *)
  ready <- rd_reg VIRTIO_MMIO_QUEUE_READY;;
  if truthy ready then panic "virtio disk should not be ready" else
  (* check maximum queue size. *)
  max <- rd_reg VIRTIO_MMIO_QUEUE_NUM_MAX;;
  if max =? 0 then panic "virtio disk has no queue 0" else
  if max <? Z.of_nat NUM then panic "virtio disk max queue too short" else
  (* allocate and zero queue memory. *)
  desc <- kalloc;;
  avail <- kalloc;;
  used <- kalloc;;
  modv (set_vd_pages (desc, avail, used));;
  if (desc =? 0) || (avail =? 0) || (used =? 0) then panic "virtio disk kalloc" else
  kmemset desc 0 PGSIZE;;
  kmemset avail 0 PGSIZE;;
  kmemset used 0 PGSIZE;;
  modv (fun d => set_vd_desc (replicate NUM vdesc0)
    (set_vd_avail_idx 0 (set_vd_avail_ring (replicate NUM 0)
      (set_vd_used_idx 0 (set_vd_used_ring (replicate NUM 0) d)))));;
  (* set queue size. *)
  wr_reg VIRTIO_MMIO_QUEUE_NUM (Z.of_nat NUM);;
  (* write physical addresses. *)
  wr_reg VIRTIO_MMIO_QUEUE_DESC_LOW desc;;
  wr_reg VIRTIO_MMIO_QUEUE_DESC_HIGH (Z.shiftr desc 32);;
  wr_reg VIRTIO_MMIO_DRIVER_DESC_LOW avail;;
  wr_reg VIRTIO_MMIO_DRIVER_DESC_HIGH (Z.shiftr avail 32);;
  wr_reg VIRTIO_MMIO_DEVICE_DESC_LOW used;;
  wr_reg VIRTIO_MMIO_DEVICE_DESC_HIGH (Z.shiftr used 32);;
  (* queue is ready. *)
  wr_reg VIRTIO_MMIO_QUEUE_READY 1;;
  (* all NUM descriptors start out unused. *)
  for_each (seq 0 NUM) (fun i => modv (fun d => set_vd_free (<[i := true]> (vd_free d)) d));;
  (* tell device we're completely ready. *)
  let status := Z.lor status VIRTIO_CONFIG_S_DRIVER_OK in
  wr_reg VIRTIO_MMIO_STATUS status.

Definition alloc_desc : K Z :=
  d <- gets vdisk_;;
  match find_index (fun b : bool => b) (vd_free d) with
  | Some i => modv (fun d => set_vd_free (<[i := false]> (vd_free d)) d);; ret (Z.of_nat i)
  | None => ret (-1)
  end.

Definition free_desc (i : Z) : K unit :=
  if Z.of_nat NUM <=? i then panic "free_desc 1" else
  d <- gets vdisk_;;
  if default false (vd_free d !! Z.to_nat i) then panic "free_desc 2" else
  mod_desc i (set_d_addr DNull);;
  mod_desc i (set_d_len 0);;
  mod_desc i (set_d_flags 0);;
  mod_desc i (set_d_next 0);;
  modv (fun d => set_vd_free (<[Z.to_nat i := true]> (vd_free d)) d);;
  wakeup ChDiskFree.

(** A chain is a list without repetition: freeing an entry twice panics. *)
Definition free_chain_body (i : Z) : K (Z + unit) :=
  d <- gets vdisk_;;
  let flag := d_flags (vd_desc d !!! Z.to_nat i) in
  let nxt := d_next (vd_desc d !!! Z.to_nat i) in
  free_desc i;;
  if truthy (Z.land flag VRING_DESC_F_NEXT) then ret (inl nxt) else ret (inr tt).

Definition free_chain (i : Z) : K unit := iter (S NUM) free_chain_body i.

(** The three descriptors, or [None] after giving back those it got. *)
Definition alloc3_desc : K (option (Z * Z * Z)) :=
  i0 <- alloc_desc;;
  if i0 <? 0 then ret None else
  i1 <- alloc_desc;;
  if i1 <? 0 then free_desc i0;; ret None else
  i2 <- alloc_desc;;
  if i2 <? 0 then free_desc i0;; free_desc i1;; ret None else
  ret (Some (i0, i1, i2)).

(** Format the three descriptors of a request and hand it to the device. *)
Definition submit (b : nat) (write : bool) (sector i0 i1 i2 : Z) : K unit :=
  mod_op i0 (set_rq_type (if write then VIRTIO_BLK_T_OUT else VIRTIO_BLK_T_IN));;
  mod_op i0 (set_rq_reserved 0);;
  mod_op i0 (set_rq_sector sector);;
  mod_desc i0 (set_d_addr (DOps i0));;
  mod_desc i0 (set_d_len virtio_blk_req_size);;
  mod_desc i0 (set_d_flags VRING_DESC_F_NEXT);;
  mod_desc i0 (set_d_next i1);;
  mod_desc i1 (set_d_addr (DData b));;
  mod_desc i1 (set_d_len BSIZE);;
  mod_desc i1 (set_d_flags (if write then 0 else VRING_DESC_F_WRITE));;
  mod_desc i1 (fun e => set_d_flags (Z.lor (d_flags e) VRING_DESC_F_NEXT) e);;
  mod_desc i1 (set_d_next i2);;
  (* device writes 0 on success *)
  modv (fun d => set_vd_info_status (<[Z.to_nat i0 := 0xff]> (vd_info_status d)) d);;
  mod_desc i2 (set_d_addr (DStatus i0));;
  mod_desc i2 (set_d_len 1);;
  mod_desc i2 (set_d_flags VRING_DESC_F_WRITE);;
  mod_desc i2 (set_d_next 0);;
  (* record struct buf for virtio_disk_intr(). *)
  modb b (set_b_disk true);;
  modv (fun d => set_vd_info_b (<[Z.to_nat i0 := Some b]> (vd_info_b d)) d);;
  (* tell the device the first index in our chain of descriptors. *)
  modv (fun d => set_vd_avail_ring
    (<[Z.to_nat (vd_avail_idx d mod Z.of_nat NUM) := i0]> (vd_avail_ring d)) d);;
  (* tell the device another avail ring entry is available. *)
  modv (fun d => set_vd_avail_idx (u16 (vd_avail_idx d + 1)) d);;
  wr_reg VIRTIO_MMIO_QUEUE_NOTIFY 0.

Definition virtio_disk_intr_body (_ : unit) : K (unit + unit) :=
  d <- gets vdisk_;;
  if vd_seen d =? vd_used_idx d then ret (inr tt) else
  let id := vd_used_ring d !!! Z.to_nat (vd_seen d mod Z.of_nat NUM) in
  if negb (vd_info_status d !!! Z.to_nat id =? 0) then panic "virtio_disk_intr status" else
  b <- deref (default None (vd_info_b d !! Z.to_nat id));;
  modb b (set_b_disk false);;
  wakeup (ChBuf b);;
  modv (fun d => set_vd_seen (u16 (vd_seen d + 1)) d);;
  ret (inl tt).

(** The device is at most 2^16 - 1 entries ahead. *)
Definition virtio_disk_intr : K unit :=
  acquire LVdisk;;
  st <- rd_reg VIRTIO_MMIO_INTERRUPT_STATUS;;
  wr_reg VIRTIO_MMIO_INTERRUPT_ACK (Z.land st 3);;
  d <- gets vdisk_;;
  iter (S (Z.to_nat (u16 (vd_used_idx d - vd_seen d)))) virtio_disk_intr_body tt;;
  release LVdisk.

Section with_fuel.
Context `{Fuel}.

Definition alloc_wait_body (_ : unit) : K (unit + Z * Z * Z) :=
  o <- alloc3_desc;;
  match o with
  | Some idx => ret (inr idx)
  | None => sleep ChDiskFree LVdisk;; ret (inl tt)
  end.

Definition done_wait_body (b : nat) (_ : unit) : K (unit + unit) :=
  bf <- getb b;;
  if b_disk bf then sleep (ChBuf b) LVdisk;; ret (inl tt) else ret (inr tt).

Definition virtio_disk_rw (b : nat) (write : bool) : K unit :=
  bf <- getb b;;
  let sector := u32 (b_blockno bf * (BSIZE / 512)) in
  acquire LVdisk;;
  '(i0, i1, i2) <- iter fuel alloc_wait_body tt;;
  submit b write sector i0 i1 i2;;
  (* Wait for virtio_disk_intr() to say request has finished. *)
  iter fuel (done_wait_body b) tt;;
  modv (fun d => set_vd_info_b (<[Z.to_nat i0 := None]> (vd_info_b d)) d);;
  free_chain i0;;
  release LVdisk.
End with_fuel.
