(* ===== verification/Sleeplock.v ===== *)
(** kernel/sleeplock.c: locks held across sleeps. *)

From S2P Require Import Prelude Outcome Mem State Spinlock KString Kalloc Vm Proc.

Definition getsl (sl : slid) : K sleeplock :=
  match sl with
  | SLbuf i => b <- getb i;; ret (b_lock b)
  | SLinode i => ip <- geti i;; ret (i_lock ip)
  end.

Definition modsl (sl : slid) (f : sleeplock -> sleeplock) : K unit :=
  match sl with
  | SLbuf i => modb i (fun b => set_b_lock (f (b_lock b)) b)
  | SLinode i => modi i (fun ip => set_i_lock (f (i_lock ip)) ip)
  end.

Definition initsleeplock (lk : slid) : K unit :=
  initlock (LSleep lk);;
  modsl lk (set_sl_locked false);;
  modsl lk (set_sl_pid 0).

Definition acquiresleep `{Fuel} (lk : slid) : K unit :=
  acquire (LSleep lk);;
  iter fuel (fun _ : unit =>
    l <- getsl lk;;
    if sl_locked l then sleep (ChSleep lk) (LSleep lk);; ret (inl tt) else ret (inr tt)) tt;;
  modsl lk (set_sl_locked true);;
  p <- curproc;;
  pr <- getp p;;
  modsl lk (set_sl_pid (p_pid pr));;
  release (LSleep lk).

Definition releasesleep (lk : slid) : K unit :=
  acquire (LSleep lk);;
  modsl lk (set_sl_locked false);;
  modsl lk (set_sl_pid 0);;
  wakeup (ChSleep lk);;
  release (LSleep lk).

Definition holdingsleep (lk : slid) : K bool :=
  acquire (LSleep lk);;
  l <- getsl lk;;
  r <- (if sl_locked l then p <- curproc;; pr <- getp p;; ret (sl_pid l =? p_pid pr) else ret false);;
  release (LSleep lk);;
  ret r.
