(* ===== verification/Calm.v ===== *)
(** Running kernel code that meets no contention: when no process sleeps and
    the locks a routine takes are free, its critical sections are plain state
    changes.  The lemmas here turn the lock protocol into equations, so that
    the file-system layers can be reasoned about as sequential code. *)

From S2P Require Import Prelude Outcome Mem State Spinlock KString Kalloc Vm Proc ProcSpec Sleeplock.

(** Process [p] runs, nobody sleeps, and the process locks are free. *)
Record calm (s : kernel) (p : nat) : Prop := {
  cm_irq : irq_ok s;
  cm_settled : settle s = s;
  cm_proc : c_proc (cpu_ s) = Some p;
  cm_len : length (procs s) = NPROC;
  cm_lt : (p < NPROC)%nat;
  cm_quiet : Forall (fun pr => p_state pr <> SLEEPING) (procs s);
  cm_plocks : forall i, locks s !! LProc i = None
}.

Lemma calm_blind f s p : lock_blind f -> procs (f s) = procs s -> calm s p -> calm (f s) p.
Proof.
  intros Hf Hp [Hi Hs Hc Hl Hlt Hq Hpl].
  destruct (lock_blind_proj f s Hf) as (Ec & Es & El). split.
  - unfold irq_ok. by rewrite Ec, Es.
  - by rewrite <- settle_blind, Hs.
  - by rewrite Ec.
  - by rewrite Hp.
  - done.
  - by rewrite Hp.
  - intros i. by rewrite El.
Qed.

Lemma calm_acquired lk s p : (forall i, lk <> LProc i) -> calm s p -> calm (acquired lk s) p.
Proof.
  intros Hlk [Hi Hs Hc Hl Hlt Hq Hpl]. destruct Hi as [Hn Hsie]. split; try done.
  - split; simpl; [lia|done].
  - unfold settle, acquired, pushed. simpl. destruct (Z.eqb_spec (c_noff (cpu_ s) + 1) 0); [lia|].
    done.
  - intros i. simpl. by rewrite lookup_insert_ne.
Qed.

Lemma curproc_calm s p : calm s p -> curproc s = Ret p s.
Proof.
  intros [Hi Hs Hc _ _ _ _]. unfold curproc. rewrite (bind_Ret _ _ _ _ _ (myproc_eq s Hi)).
  by rewrite Hc, Hs.
Qed.

Lemma wake_quiet ch me (l : list proc) :
  Forall (fun pr => p_state pr <> SLEEPING) l -> imap (wake ch me) l = l.
Proof.
  intros Hq. apply list_eq. intros i. rewrite list_lookup_imap.
  destruct (l !! i) as [pr|] eqn:E; simpl; [|done]. unfold wake. rewrite decide_False; [done|].
  eapply Forall_lookup in Hq; [|exact E]. tauto.
Qed.

Lemma wakeup_calm ch s p : calm s p -> wakeup ch s = Ret tt s.
Proof.
  intros [Hi Hs Hc Hl Hlt Hq Hpl]. rewrite wakeup_eq; [|done|done|by intros i _ _; apply Hpl].
  rewrite wake_quiet by done. replace (set_procs (procs s) s) with s by (by destruct s).
  by rewrite Hs.
Qed.

(** A critical section whose body is [f]. *)
Lemma critical_calm lk f s p :
  calm s p -> locks s !! lk = None -> lock_blind f -> hart (f (acquired lk s)) = hart s ->
  release lk (f (acquired lk s)) = Ret tt (f s).
Proof.
  intros Hc Hl Hf Hh. rewrite critical_eq; [|apply Hc|done|done|done].
  by rewrite <- settle_blind, (cm_settled _ _ Hc).
Qed.

(** ** Sleep locks *)

Definition sl_of (s : kernel) (sl : slid) : sleeplock :=
  match sl with SLbuf i => b_lock (bufs s !!! i) | SLinode i => i_lock (inodes s !!! i) end.

Definition upd_sl (sl : slid) (f : sleeplock -> sleeplock) (s : kernel) : kernel :=
  match sl with
  | SLbuf i => set_bufs (alter (fun b => set_b_lock (f (b_lock b)) b) i (bufs s)) s
  | SLinode i => set_inodes (alter (fun ip => set_i_lock (f (i_lock ip)) ip) i (inodes s)) s
  end.

Lemma getsl_eq sl s : getsl sl s = Ret (sl_of s sl) s.
Proof. by destruct sl. Qed.
Lemma modsl_eq sl f s : modsl sl f s = Ret tt (upd_sl sl f s).
Proof. by destruct sl. Qed.

Lemma upd_sl_blind sl f : lock_blind (upd_sl sl f).
Proof. by destruct sl. Qed.
Lemma upd_sl_procs sl f s : procs (upd_sl sl f s) = procs s.
Proof. by destruct sl. Qed.
Lemma upd_sl_upd_sl sl f g s : upd_sl sl f (upd_sl sl g s) = upd_sl sl (fun l => f (g l)) s.
Proof. destruct sl; simpl; by rewrite alter_alter. Qed.

Lemma upd_sl_ext sl f g s : (forall l, f l = g l) -> upd_sl sl f s = upd_sl sl g s.
Proof.
  intros H. destruct sl as [i|i]; simpl.
  - replace (alter (fun b => set_b_lock (f (b_lock b)) b) i (bufs s))
      with (alter (fun b => set_b_lock (g (b_lock b)) b) i (bufs s)); [done|].
    apply list_alter_ext; [|done]. intros b _. by rewrite H.
  - replace (alter (fun ip => set_i_lock (f (i_lock ip)) ip) i (inodes s))
      with (alter (fun ip => set_i_lock (g (i_lock ip)) ip) i (inodes s)); [done|].
    apply list_alter_ext; [|done]. intros b _. by rewrite H.
Qed.

Lemma calm_upd_sl sl f s p : calm s p -> calm (upd_sl sl f s) p.
Proof. apply calm_blind; [apply upd_sl_blind|apply upd_sl_procs]. Qed.

Definition pid_of (s : kernel) (p : nat) : Z := p_pid (procs s !!! p).

Lemma acquiresleep_calm `{Fuel} sl s p :
  calm s p -> locks s !! LSleep sl = None -> sl_locked (sl_of s sl) = false -> (0 < fuel)%nat ->
  acquiresleep sl s = Ret tt (upd_sl sl (fun _ => mkSleeplock true (pid_of s p)) s).
Proof.
  intros Hc Hl Hun Hf. unfold acquiresleep.
  rewrite (bind_Ret _ _ _ _ _ (acquire_eq _ s Hl)). set (s1 := acquired (LSleep sl) s).
  assert (Hc1 : calm s1 p) by (apply calm_acquired; done).
  assert (Hit : iter fuel (fun _ : unit => l <- getsl sl;;
    (if sl_locked l then sleep (ChSleep sl) (LSleep sl);; ret (inl tt) else ret (inr tt))) tt s1 = Ret tt s1).
  { destruct fuel as [|n]; [lia|]. apply iter_exit. rewrite (bind_Ret _ _ _ _ _ (getsl_eq sl s1)).
    assert (E : sl_of s1 sl = sl_of s sl) by (by destruct sl). by rewrite E, Hun. }
  rewrite (bind_Ret _ _ _ _ _ Hit), (bind_Ret _ _ _ _ _ (modsl_eq sl _ s1)).
  rewrite (bind_Ret _ _ _ _ _ (curproc_calm _ _ (calm_upd_sl sl _ s1 p Hc1))).
  unfold bind at 1, getp, gets. cbn [obind]. rewrite upd_sl_procs.
  rewrite (bind_Ret _ _ _ _ _ (modsl_eq sl _ _)), upd_sl_upd_sl.
  change (procs s1) with (procs s).
  rewrite (critical_calm (LSleep sl) (upd_sl sl _) s p Hc Hl); [|apply upd_sl_blind|by destruct sl].
  done.
Qed.

Lemma releasesleep_calm sl s p :
  calm s p -> locks s !! LSleep sl = None ->
  releasesleep sl s = Ret tt (upd_sl sl (fun _ => mkSleeplock false 0) s).
Proof.
  intros Hc Hl. unfold releasesleep.
  rewrite (bind_Ret _ _ _ _ _ (acquire_eq _ s Hl)). set (s1 := acquired (LSleep sl) s).
  assert (Hc1 : calm s1 p) by (apply calm_acquired; done).
  rewrite (bind_Ret _ _ _ _ _ (modsl_eq sl _ s1)), (bind_Ret _ _ _ _ _ (modsl_eq sl _ _)), upd_sl_upd_sl.
  rewrite (bind_Ret _ _ _ _ _ (wakeup_calm _ _ p (calm_upd_sl sl _ s1 p Hc1))).
  rewrite (critical_calm (LSleep sl) (upd_sl sl _) s p Hc Hl); [|apply upd_sl_blind|by destruct sl].
  done.
Qed.

Lemma holdingsleep_calm sl s p :
  calm s p -> locks s !! LSleep sl = None ->
  holdingsleep sl s =
  Ret (sl_locked (sl_of s sl) && (sl_pid (sl_of s sl) =? pid_of s p)) s.
Proof.
  intros Hc Hl. unfold holdingsleep.
  rewrite (bind_Ret _ _ _ _ _ (acquire_eq _ s Hl)). set (s1 := acquired (LSleep sl) s).
  assert (Hc1 : calm s1 p) by (apply calm_acquired; done).
  rewrite (bind_Ret _ _ _ _ _ (getsl_eq sl s1)).
  assert (E : sl_of s1 sl = sl_of s sl) by (by destruct sl). rewrite E.
  assert (Hr : (if sl_locked (sl_of s sl) then p0 <- curproc;; pr <- getp p0;;
      ret (sl_pid (sl_of s sl) =? p_pid pr) else ret false) s1 =
    Ret (sl_locked (sl_of s sl) && (sl_pid (sl_of s sl) =? pid_of s p)) s1).
  { destruct (sl_locked _); [|done]. by rewrite (bind_Ret _ _ _ _ _ (curproc_calm s1 p Hc1)). }
  rewrite (bind_Ret _ _ _ _ _ Hr). unfold bind.
  pose proof (critical_calm (LSleep sl) (fun s => s) s p Hc Hl ltac:(done) eq_refl) as Er.
  cbv beta in Er. fold s1 in Er. by rewrite Er.
Qed.
