(* ===== verification/Disk.v ===== *)
(** The disk as the buffer cache sees it: an interface between kernel/bio.c
    and the driver below it. *)

From S2P Require Import Prelude Outcome Mem State Spinlock.

(** What the driver gives the buffer cache: virtio_disk_rw(b, write), as
    kernel/bio.c calls it. *)
Class Disk := disk_rw : nat -> bool -> K unit.

Definition read_block (d : gmap Z (list Z)) (bno : Z) : list Z := default zero_block (d !! bno).

(** The effect of one transfer of the buffer [b]. *)
Definition disk_xfer (b : nat) (write : bool) (s : kernel) : kernel :=
  let bf := bufs s !!! b in
  if write
  then set_disk (<[b_blockno bf := b_data bf]> (disk s))
         (set_disk_writes ((b_blockno bf, b_data bf) :: disk_writes s) s)
  else set_bufs (alter (set_b_data (read_block (disk s) (b_blockno bf))) b (bufs s)) s.

(** The promise: a transfer is done when the call returns. *)
Class DiskLaws `{Disk} : Prop := {
  disk_rw_eq b write s :
    irq_ok s -> locks s !! LVdisk = None ->
    disk_rw b write s = Ret tt (settle (disk_xfer b write s))
}.

(** A disk that completes every request before the caller goes on. *)
Definition sync_disk_rw (b : nat) (write : bool) : K unit :=
  acquire LVdisk;;
  modify (disk_xfer b write);;
  release LVdisk.

Definition sync_disk : Disk := sync_disk_rw.

Lemma disk_xfer_blind b write : lock_blind (disk_xfer b write).
Proof. intros c i lk s. unfold disk_xfer. by destruct write. Qed.

Lemma sync_disk_laws : @DiskLaws sync_disk.
Proof.
  split. intros b write s Hi Hl. unfold disk_rw, sync_disk, sync_disk_rw.
  rewrite (bind_Ret _ _ _ _ _ (acquire_eq LVdisk s Hl)). unfold bind, modify. cbn [obind].
  apply critical_eq; [done|done|apply disk_xfer_blind|]. unfold disk_xfer. by destruct write.
Qed.
