(* ===== verification/VirtioSpec.v ===== *)
(** The virtio driver: a request is a chain of three descriptors of its own that
    describes the transfer of one block, and once the device has served it and its
    interrupt has been taken the driver's structures are as before the request. *)

From S2P Require Import Prelude Outcome Mem State Spinlock KString Kalloc Vm Proc ProcSpec Disk Virtio.

(** ** The structures shared with the device *)

Record vd_ok (d : vdisk) : Prop := {
  vo_desc : length (vd_desc d) = NUM;
  vo_free : length (vd_free d) = NUM;
  vo_avail : length (vd_avail_ring d) = NUM;
  vo_used : length (vd_used_ring d) = NUM;
  vo_b : length (vd_info_b d) = NUM;
  vo_status : length (vd_info_status d) = NUM;
  vo_ops : length (vd_ops d) = NUM;
  vo_avail_idx : 0 <= vd_avail_idx d < 2 ^ 16;
  vo_used_idx : 0 <= vd_used_idx d < 2 ^ 16;
  vo_seen : 0 <= vd_seen d < 2 ^ 16
}.

(** The descriptors of a request whose first one is [i0]. *)
Definition desc0 (i0 i1 : Z) : vdesc := mkVdesc (DOps i0) virtio_blk_req_size VRING_DESC_F_NEXT i1.
Definition desc1 (b : nat) (write : bool) (i2 : Z) : vdesc :=
  mkVdesc (DData b) BSIZE (Z.lor (if write then 0 else VRING_DESC_F_WRITE) VRING_DESC_F_NEXT) i2.
Definition desc2 (i0 : Z) : vdesc := mkVdesc (DStatus i0) 1 VRING_DESC_F_WRITE 0.
Definition header (write : bool) (sector : Z) : vreq := mkVreq (if write then VIRTIO_BLK_T_OUT else VIRTIO_BLK_T_IN) 0 sector.

Record chain (d : vdisk) (i0 i1 i2 : nat) (b : nat) (write : bool) (sector : Z) : Prop := {
  ch_head : vd_desc d !! i0 = Some (desc0 (Z.of_nat i0) (Z.of_nat i1));
  ch_data : vd_desc d !! i1 = Some (desc1 b write (Z.of_nat i2));
  ch_status : vd_desc d !! i2 = Some (desc2 (Z.of_nat i0));
  ch_req : vd_ops d !! i0 = Some (header write sector)
}.

(** ** Taking and giving back descriptors *)

Definition nfree (f : list bool) : nat := length (filter (fun x => x = true) f).

Lemma nfree_find f : (0 < nfree f)%nat -> exists i, find_index (fun b : bool => b) f = Some i /\ f !! i = Some true /\ nfree (<[i := false]> f) = (nfree f - 1)%nat.
Proof.
  unfold nfree. induction f as [|x f IH]; intros Hn; [cbn in Hn; lia|]. destruct x.
  - exists 0%nat. split; [done|]. split; [done|]. cbn [insert list_insert]. rewrite (filter_cons_False _ false) by done. rewrite filter_cons_True by done. cbn [length]. lia.
  - rewrite filter_cons_False in Hn by done. destruct (IH Hn) as (i & E & Hi & Ec). exists (S i). cbn [find_index]. rewrite E. split; [done|]. split; [done|].
    cbn [insert list_insert]. rewrite !filter_cons_False by done. exact Ec.
Qed.

Definition with_free (f : list bool) (s : kernel) : kernel := set_vdisk_ (set_vd_free f (vdisk_ s)) s.

Lemma alloc_desc_eq s : (0 < nfree (vd_free (vdisk_ s)))%nat -> let f := vd_free (vdisk_ s) in
  exists i, alloc_desc s = Ret (Z.of_nat i) (with_free (<[i := false]> f) s) /\ f !! i = Some true /\ nfree (<[i := false]> f) = (nfree f - 1)%nat.
Proof.
  intros Hn f. destruct (nfree_find f Hn) as (i & E & Hi & Ec). exists i. split; [|done]. unfold alloc_desc.
  rewrite (bind_Ret _ _ _ _ _ (eq_refl : gets vdisk_ s = Ret (vdisk_ s) s)). fold f. by rewrite E.
Qed.

Lemma alloc3_desc_eq s : (3 <= nfree (vd_free (vdisk_ s)))%nat -> let f := vd_free (vdisk_ s) in
  exists i0 i1 i2, alloc3_desc s = Ret (Some (Z.of_nat i0, Z.of_nat i1, Z.of_nat i2)) (with_free (<[i2 := false]> (<[i1 := false]> (<[i0 := false]> f))) s) /\
    i0 <> i1 /\ i0 <> i2 /\ i1 <> i2 /\ f !! i0 = Some true /\ f !! i1 = Some true /\ f !! i2 = Some true.
Proof.
  intros Hn f. destruct (alloc_desc_eq s) as (i0 & E0 & H0 & N0); [lia|]. fold f in Hn, E0, H0, N0. set (s0 := with_free _ s) in *.
  pose proof (alloc_desc_eq s0) as A1. change (vd_free (vdisk_ s0)) with (<[i0 := false]> f) in A1. destruct A1 as (i1 & E1 & H1 & N1); [lia|]. set (s1 := with_free _ s0) in *.
  pose proof (alloc_desc_eq s1) as A2. change (vd_free (vdisk_ s1)) with (<[i1 := false]> (<[i0 := false]> f)) in A2. destruct A2 as (i2 & E2 & H2 & N2); [lia|].
  exists i0, i1, i2. unfold alloc3_desc. rewrite (bind_Ret _ _ _ _ _ E0). destruct (Z.ltb_spec (Z.of_nat i0) 0); [lia|].
  rewrite (bind_Ret _ _ _ _ _ E1). destruct (Z.ltb_spec (Z.of_nat i1) 0); [lia|]. rewrite (bind_Ret _ _ _ _ _ E2). destruct (Z.ltb_spec (Z.of_nat i2) 0); [lia|].
  split; [done|].
  assert (Hlook : forall i j (g : list bool), <[i := false]> g !! j = Some true -> i <> j /\ g !! j = Some true).
  { intros i j g Hg. destruct (decide (i = j)) as [->|Hne]; [|by rewrite list_lookup_insert_ne in Hg].
    apply list_lookup_insert_Some in Hg as [(_ & ? & _)|[? _]]; done. }
  apply Hlook in H1 as [H01 H1]. apply Hlook in H2 as [H12 H2]. apply Hlook in H2 as [H02 H2]. done.
Qed.

(** ** Submitting a request *)

Definition queued (b : nat) (write : bool) (sector : Z) (i0 i1 i2 : nat) (d : vdisk) : vdisk :=
  mkVdisk
    (alter (fun _ => desc2 (Z.of_nat i0)) i2 (alter (fun _ => desc1 b write (Z.of_nat i2)) i1
      (alter (fun _ => desc0 (Z.of_nat i0) (Z.of_nat i1)) i0 (vd_desc d))))
    (u16 (vd_avail_idx d + 1)) (<[Z.to_nat (vd_avail_idx d mod Z.of_nat NUM) := Z.of_nat i0]> (vd_avail_ring d))
    (vd_used_idx d) (vd_used_ring d) (vd_free d) (vd_seen d)
    (<[i0 := Some b]> (vd_info_b d)) (<[i0 := 0xff]> (vd_info_status d)) (alter (fun _ => header write sector) i0 (vd_ops d))
    (vd_pages d) (vd_regs d) ((VIRTIO_MMIO_QUEUE_NOTIFY, 0) :: vd_writes d).

(** Steps on the driver's structures, in a state of which only they change. *)
Lemma modv_step {A} f (k : unit -> K A) D s : bind (modv f) k (set_vdisk_ D s) = k tt (set_vdisk_ (f D) s).
Proof. reflexivity. Qed.
Lemma mod_desc_mod_desc {A} i f g (k : unit -> K A) s :
  bind (mod_desc i f) (fun _ => bind (mod_desc i g) k) s = bind (mod_desc i (fun e => g (f e))) k s.
Proof. unfold mod_desc, modv, bind, modify. cbn [obind]. f_equal. cbn [vdisk_ set_vdisk_ vd_desc set_vd_desc]. by rewrite alter_alter. Qed.
Lemma mod_op_mod_op {A} i f g (k : unit -> K A) s :
  bind (mod_op i f) (fun _ => bind (mod_op i g) k) s = bind (mod_op i (fun e => g (f e))) k s.
Proof. unfold mod_op, modv, bind, modify. cbn [obind]. f_equal. cbn [vdisk_ set_vdisk_ vd_ops set_vd_ops]. by rewrite alter_alter. Qed.

Lemma submit_eq b write sector i0 i1 i2 s :
  submit b write sector (Z.of_nat i0) (Z.of_nat i1) (Z.of_nat i2) s =
  Ret tt (set_bufs (alter (set_b_disk true) b (bufs s)) (set_vdisk_ (queued b write sector i0 i1 i2 (vdisk_ s)) s)).
Proof.
  unfold submit. rewrite !mod_op_mod_op.
  assert (E : s = set_vdisk_ (vdisk_ s) s) by (by destruct s). rewrite E at 1. destruct (vdisk_ s) as [d1 d2 d3 d4 d5 d6 d7 d8 d9 d10 d11 d12 d13] eqn:Ed.
  unfold mod_op at 1. rewrite modv_step. rewrite !mod_desc_mod_desc.
  unfold mod_desc at 1. rewrite modv_step. rewrite !mod_desc_mod_desc.
  unfold mod_desc at 1. rewrite modv_step. rewrite modv_step, !mod_desc_mod_desc.
  unfold mod_desc at 1. rewrite modv_step. unfold modb at 1, bind at 1, modify at 1. cbn [obind bufs set_vdisk_].
  cbn [set_vd_desc set_vd_ops set_vd_info_status vd_desc vd_ops vd_avail_idx vd_avail_ring vd_used_idx vd_used_ring vd_free vd_seen vd_info_b vd_info_status vd_pages vd_regs vd_writes].
  unfold wr_reg, modv, bind, modify. cbn [obind]. rewrite !Nat2Z.id. unfold queued. reflexivity.
Qed.

Lemma queued_chain b write sector i0 i1 i2 d : vd_ok d -> (i0 < NUM)%nat -> (i1 < NUM)%nat -> (i2 < NUM)%nat -> i0 <> i1 -> i0 <> i2 -> i1 <> i2 ->
  vd_ok (queued b write sector i0 i1 i2 d) /\ chain (queued b write sector i0 i1 i2 d) i0 i1 i2 b write sector.
Proof.
  intros [] L0 L1 L2 N01 N02 N12. split.
  - split; cbn; rewrite ?length_alter, ?length_insert; try done. apply u16_range.
  - assert (Hlk : forall {A} (l : list A) i, length l = NUM -> (i < NUM)%nat -> is_Some (l !! i)) by (intros A l i Hl Hi; apply lookup_lt_is_Some_2; lia).
    split; cbn.
    + rewrite !list_lookup_alter_ne by done. rewrite list_lookup_alter_eq. destruct (Hlk _ (vd_desc d) i0) as [x ->]; done.
    + rewrite list_lookup_alter_ne by done. rewrite list_lookup_alter_eq, list_lookup_alter_ne by done. destruct (Hlk _ (vd_desc d) i1) as [x ->]; done.
    + rewrite list_lookup_alter_eq, !list_lookup_alter_ne by done. destruct (Hlk _ (vd_desc d) i2) as [x ->]; done.
    + rewrite list_lookup_alter_eq. destruct (Hlk _ (vd_ops d) i0) as [x ->]; done.
Qed.

(** ** The device *)

(** The device, which is not part of the sources: it serves the last request
    that was made available. *)
Class BlockDevice := device : kernel -> kernel.

(** Moving the data between the buffer and a block of the disk. *)
Definition move_block (b : nat) (write : bool) (blk : Z) (s : kernel) : kernel :=
  let bf := bufs s !!! b in
  if write
  then set_disk (<[blk := b_data bf]> (disk s)) (set_disk_writes ((blk, b_data bf) :: disk_writes s) s)
  else set_bufs (alter (set_b_data (read_block (disk s) blk)) b (bufs s)) s.

(** The request is put in the used ring with status 0 and an interrupt is pending. *)
Definition used (i0 : nat) (d : vdisk) : vdisk :=
  set_vd_info_status (<[i0 := 0]> (vd_info_status d))
    (set_vd_used_ring (<[Z.to_nat (vd_used_idx d mod Z.of_nat NUM) := Z.of_nat i0]> (vd_used_ring d))
      (set_vd_used_idx (u16 (vd_used_idx d + 1)) (set_vd_regs (<[VIRTIO_MMIO_INTERRUPT_STATUS := 1]> (vd_regs d)) d))).

(** The virtio specification, for requests of two sectors: the chain at the head
    that the last available entry names is carried out. *)
Class BlockDeviceLaws `{BlockDevice} : Prop := {
  device_serves s i0 i1 i2 b write blk :
    chain (vdisk_ s) i0 i1 i2 b write (2 * blk) -> (b < length (bufs s))%nat ->
    vd_avail_ring (vdisk_ s) !! Z.to_nat (u16 (vd_avail_idx (vdisk_ s) - 1) mod Z.of_nat NUM) = Some (Z.of_nat i0) ->
    device s = set_vdisk_ (used i0 (vdisk_ s)) (move_block b write blk s)
}.

(** ** The interrupt *)

Definition seen_one (d : vdisk) : vdisk :=
  set_vd_seen (u16 (vd_seen d + 1)) (set_vd_writes ((VIRTIO_MMIO_INTERRUPT_ACK, 1) :: vd_writes d) d).

Lemma virtio_disk_intr_eq s i0 b : can_wake s -> locks s !! LVdisk = None -> let d := vdisk_ s in
  vd_regs d !! VIRTIO_MMIO_INTERRUPT_STATUS = Some 1 -> 0 <= vd_seen d < 2 ^ 16 -> vd_used_idx d = u16 (vd_seen d + 1) ->
  vd_used_ring d !! Z.to_nat (vd_seen d mod Z.of_nat NUM) = Some (Z.of_nat i0) -> vd_info_status d !! i0 = Some 0 -> vd_info_b d !! i0 = Some (Some b) ->
  virtio_disk_intr s = Ret tt (settle (set_vdisk_ (seen_one d) (set_bufs (alter (set_b_disk false) b (bufs s)) (woken (ChBuf b) s)))).
Proof.
  intros Hw Hl d Hreg Hseen Hu Hring Hst Hb. unfold virtio_disk_intr. rewrite (bind_Ret _ _ _ _ _ (acquire_eq LVdisk s Hl)). set (s1 := acquired LVdisk s).
  assert (Hw1 : can_wake s1) by (by apply can_wake_acquired). assert (Hn1 : 0 < c_noff (cpu_ s1)) by (destruct (cw_irq _ Hw); cbn; lia).
  rewrite (bind_Ret _ _ _ _ _ (eq_refl : rd_reg _ s1 = Ret (default 0 (vd_regs (vdisk_ s1) !! _)) s1)). change (vdisk_ s1) with d. rewrite Hreg. cbn [default from_option id].
  change (Z.land 1 3) with 1. set (d2 := set_vd_writes ((VIRTIO_MMIO_INTERRUPT_ACK, 1) :: vd_writes d) d). set (s2 := set_vdisk_ d2 s1).
  rewrite (bind_Ret _ _ _ _ _ (eq_refl : wr_reg VIRTIO_MMIO_INTERRUPT_ACK 1 s1 = Ret tt s2)), (bind_Ret _ _ _ _ _ (eq_refl : gets vdisk_ s2 = Ret d2 s2)).
  change (vd_used_idx d2) with (vd_used_idx d). change (vd_seen d2) with (vd_seen d).
  assert (E1 : u16 (vd_used_idx d - vd_seen d) = 1). { rewrite Hu. unfold u16. rewrite Zminus_mod_idemp_l. by replace (vd_seen d + 1 - vd_seen d) with 1 by lia. }
  rewrite E1. change (S (Z.to_nat 1)) with 2%nat. set (s3 := set_bufs (alter (set_b_disk false) b (bufs s2)) s2).
  assert (Hw3 : can_wake s3) by (by destruct Hw1). destruct (wakeup_locked (ChBuf b) s3 Hw3 Hn1) as [Ew Hw4].
  set (s5 := set_vdisk_ (seen_one d) (woken (ChBuf b) s3)).
  assert (Hbody : virtio_disk_intr_body tt s2 = Ret (inl tt) s5).
  { unfold virtio_disk_intr_body. rewrite (bind_Ret _ _ _ _ _ (eq_refl : gets vdisk_ s2 = Ret d2 s2)). change (vd_used_idx d2) with (vd_used_idx d). change (vd_seen d2) with (vd_seen d).
    destruct (Z.eqb_spec (vd_seen d) (vd_used_idx d)) as [E|_]; [rewrite E, Z.sub_diag in E1; done|]. change (vd_used_ring d2) with (vd_used_ring d).
    rewrite (list_lookup_total_correct _ _ _ Hring), Nat2Z.id. change (vd_info_status d2) with (vd_info_status d). rewrite (list_lookup_total_correct _ _ _ Hst). cbn [Z.eqb negb].
    change (vd_info_b d2) with (vd_info_b d). rewrite Hb. cbn [default from_option id]. rewrite (bind_Ret _ _ _ _ _ (eq_refl : deref (Some b) s2 = Ret b s2)).
    rewrite (bind_Ret _ _ _ _ _ (eq_refl : modb b (set_b_disk false) s2 = Ret tt s3)), (bind_Ret _ _ _ _ _ Ew). reflexivity. }
  assert (Hexit : virtio_disk_intr_body tt s5 = Ret (inr tt) s5).
  { unfold virtio_disk_intr_body. rewrite (bind_Ret _ _ _ _ _ (eq_refl : gets vdisk_ s5 = Ret (seen_one d) s5)). cbn [seen_one vd_seen set_vd_seen vd_used_idx set_vd_writes].
    rewrite Hu. by rewrite Z.eqb_refl. }
  rewrite (bind_Ret _ _ _ _ _ (eq_trans (iter_next _ _ _ _ _ _ Hbody) (iter_exit _ _ _ _ _ _ Hexit))).
  apply (critical_eq LVdisk (fun s0 => set_vdisk_ (seen_one d) (set_bufs (alter (set_b_disk false) b (bufs s)) (set_procs (imap (wake (ChBuf b) (c_proc (cpu_ s))) (procs s)) s0))) s); [apply Hw|done|done|done].
Qed.

(** ** Giving a chain back *)

Definition freed_desc (i : nat) (d : vdisk) : vdisk :=
  set_vd_free (<[i := true]> (vd_free d)) (set_vd_desc (alter (fun _ => vdesc0) i (vd_desc d)) d).

Lemma free_desc_eq i s : can_wake s -> 0 < c_noff (cpu_ s) -> (i < NUM)%nat -> vd_free (vdisk_ s) !! i = Some false ->
  let s' := woken ChDiskFree (set_vdisk_ (freed_desc i (vdisk_ s)) s) in free_desc (Z.of_nat i) s = Ret tt s' /\ can_wake s'.
Proof.
  intros Hw Hn Hi Hf s'. unfold free_desc. destruct (Z.leb_spec (Z.of_nat NUM) (Z.of_nat i)); [lia|].
  rewrite (bind_Ret _ _ _ _ _ (eq_refl : gets vdisk_ s = Ret (vdisk_ s) s)), Nat2Z.id, Hf. cbn [default from_option id]. rewrite !mod_desc_mod_desc.
  set (s1 := set_vdisk_ (freed_desc i (vdisk_ s)) s). assert (Hw1 : can_wake s1) by (by destruct Hw).
  destruct (wakeup_locked ChDiskFree s1 Hw1 Hn) as [Ew Hw2]. split; [|exact Hw2]. change s' with (woken ChDiskFree s1). rewrite <- Ew.
  unfold mod_desc, modv. unfold bind, modify. cbn [obind]. unfold s1, freed_desc. by rewrite Nat2Z.id.
Qed.

Lemma woken_vdisk ch s : vdisk_ (woken ch s) = vdisk_ s.
Proof. reflexivity. Qed.

Lemma free_chain_step i s : can_wake s -> 0 < c_noff (cpu_ s) -> (i < NUM)%nat -> vd_free (vdisk_ s) !! i = Some false -> forall e, vd_desc (vdisk_ s) !! i = Some e ->
  let s' := woken ChDiskFree (set_vdisk_ (freed_desc i (vdisk_ s)) s) in
  free_chain_body (Z.of_nat i) s = Ret (if truthy (Z.land (d_flags e) VRING_DESC_F_NEXT) then inl (d_next e) else inr tt) s' /\ can_wake s'.
Proof.
  intros Hw Hn Hi Hf e He s'. destruct (free_desc_eq i s Hw Hn Hi Hf) as [E Hw']. split; [|exact Hw']. unfold free_chain_body.
  rewrite (bind_Ret _ _ _ _ _ (eq_refl : gets vdisk_ s = Ret (vdisk_ s) s)), Nat2Z.id, (list_lookup_total_correct _ _ _ He). cbv zeta.
  rewrite (bind_Ret _ _ _ _ _ E). by destruct (truthy _).
Qed.

(** The three descriptors of a chain, freed. *)
Definition freed_chain (i0 i1 i2 : nat) (d : vdisk) : vdisk := freed_desc i2 (freed_desc i1 (freed_desc i0 d)).

Lemma free_chain_eq i0 i1 i2 b write sector s : can_wake s -> 0 < c_noff (cpu_ s) -> (i0 < NUM)%nat -> (i1 < NUM)%nat -> (i2 < NUM)%nat ->
  i0 <> i1 -> i0 <> i2 -> i1 <> i2 -> let d := vdisk_ s in chain d i0 i1 i2 b write sector ->
  vd_free d !! i0 = Some false -> vd_free d !! i1 = Some false -> vd_free d !! i2 = Some false ->
  exists s', free_chain (Z.of_nat i0) s = Ret tt s' /\ can_wake s' /\ vdisk_ s' = freed_chain i0 i1 i2 d /\ exists l, s' = set_procs l (set_vdisk_ (vdisk_ s') s).
Proof.
  intros Hw Hn L0 L1 L2 N01 N02 N12 d [C0 C1 C2 _] F0 F1 F2. unfold free_chain. change (S NUM) with (S (S (S 6))).
  destruct (free_chain_step i0 s Hw Hn L0 F0 _ C0) as [E0 W0]. change (truthy (Z.land (d_flags (desc0 _ _)) _)) with true in E0. cbn [d_next desc0] in E0.
  rewrite (iter_next _ _ _ _ _ _ E0). set (s1 := woken ChDiskFree _) in *.
  destruct (free_chain_step i1 s1 W0 Hn L1) with (e := desc1 b write (Z.of_nat i2)) as [E1 W1].
  { cbn. by rewrite list_lookup_insert_ne. }
  { cbn. by rewrite list_lookup_alter_ne. }
  assert (Et : truthy (Z.land (d_flags (desc1 b write (Z.of_nat i2))) VRING_DESC_F_NEXT) = true) by (by destruct write). rewrite Et in E1. cbn [d_next desc1] in E1.
  rewrite (iter_next _ _ _ _ _ _ E1). set (s2 := woken ChDiskFree (set_vdisk_ (freed_desc i1 _) _)) in *.
  destruct (free_chain_step i2 s2 W1 Hn L2) with (e := desc2 (Z.of_nat i0)) as [E2 W2].
  { cbn. by rewrite !list_lookup_insert_ne. }
  { cbn. by rewrite !list_lookup_alter_ne. }
  change (truthy (Z.land (d_flags (desc2 _)) _)) with false in E2. rewrite (iter_exit _ _ _ _ _ _ E2).
  eexists. split; [reflexivity|]. split; [exact W2|]. split; [reflexivity|]. eexists. reflexivity.
Qed.

(** ** The whole request *)

Lemma done_wait_eq `{Fuel} b p s : (1 < fuel)%nat -> holds_only s p LVdisk -> locks s !! LProc p = None -> b_disk (bufs s !!! b) = true ->
  exists k, iter fuel (done_wait_body b) tt s = Yield (sleep_st (ChBuf b) LVdisk p s) k /\
    forall s', holds_only s' p (LProc p) -> locks s' !! LVdisk = None -> b_disk (bufs s' !!! b) = false ->
      k s' = Ret tt (woken_st LVdisk p (c_intena (cpu_ s)) s').
Proof.
  intros Hf Hh Hl Hb. destruct fuel as [|[|n]]; [lia|lia|]. destruct (sleep_eq (ChBuf b) LVdisk p s Hh Hl) as (k & E & Hk).
  cbn [iter]. unfold done_wait_body at 1. unfold bind at 1. rewrite (bind_Ret _ _ _ _ _ (eq_refl : getb b s = Ret (bufs s !!! b) s)), Hb.
  unfold bind at 1. rewrite E. cbn [obind]. eexists. split; [reflexivity|]. intros s' Hh' Hl' Hb'. cbv beta. rewrite (Hk s' Hh' Hl'). cbn [obind].
  unfold ret at 1. cbn [obind]. cbn [iter]. set (s1 := woken_st _ _ _ _). unfold done_wait_body at 1. rewrite (bind_bind_Ret _ _ _ _ _ _ (eq_refl : getb b s1 = Ret (bufs s1 !!! b) s1)).
  change (bufs s1) with (bufs s'). by rewrite Hb'.
Qed.

(** Process [p] runs without a spin lock and can take those it needs. *)
Record runs (s : kernel) (p : nat) : Prop := {
  ru_proc : c_proc (cpu_ s) = Some p;
  ru_lt : (p < NPROC)%nat;
  ru_len : length (procs s) = NPROC;
  ru_noff : c_noff (cpu_ s) = 0;
  ru_free : forall i, locks s !! LProc i = None;
  ru_vdisk : locks s !! LVdisk = None
}.

(** The driver's and the disk's part of the state. *)
Definition same_io (s s' : kernel) : Prop :=
  vdisk_ s' = vdisk_ s /\ bufs s' = bufs s /\ disk s' = disk s /\ disk_writes s' = disk_writes s.

(** What a finished request leaves: the descriptors of other requests are as they were,
    and as many are free as before. *)
Record request_done (d d' : vdisk) : Prop := {
  rd_ok : vd_ok d';
  rd_free : vd_free d' = vd_free d;
  rd_seen : vd_seen d' = vd_used_idx d';
  rd_others : forall i, vd_free d !! i = Some false ->
    vd_desc d' !! i = vd_desc d !! i /\ vd_info_b d' !! i = vd_info_b d !! i /\ vd_info_status d' !! i = vd_info_status d !! i /\ vd_ops d' !! i = vd_ops d !! i
}.

Lemma request_done_intro b write sector i0 i1 i2 d : let f := vd_free d in vd_ok d -> vd_seen d = vd_used_idx d ->
  (i0 < NUM)%nat -> f !! i0 = Some true -> f !! i1 = Some true -> f !! i2 = Some true -> i0 <> i1 -> i0 <> i2 -> i1 <> i2 ->
  let d1 := queued b write sector i0 i1 i2 (set_vd_free (<[i2 := false]> (<[i1 := false]> (<[i0 := false]> f))) d) in
  let d2 := seen_one (used i0 d1) in
  request_done d (freed_chain i0 i1 i2 (set_vd_info_b (<[i0 := None]> (vd_info_b d2)) d2)).
Proof.
  intros f [] Hseen L0 F0 F1 F2 N01 N02 N12 d1 d2. split.
  - split; cbn; rewrite ?length_insert, ?length_alter, ?length_insert, ?length_alter; try done; apply u16_range.
  - cbn. apply list_eq. intros j. fold f. destruct (decide (j = i2)) as [->|]; [rewrite list_lookup_insert_eq, F2; [done|rewrite !length_insert; by eapply lookup_lt_Some]|].
    rewrite list_lookup_insert_ne by done. destruct (decide (j = i1)) as [->|]; [rewrite list_lookup_insert_eq, F1; [done|rewrite !length_insert; by eapply lookup_lt_Some]|].
    rewrite list_lookup_insert_ne by done. destruct (decide (j = i0)) as [->|]; [rewrite list_lookup_insert_eq, F0; [done|rewrite !length_insert; by eapply lookup_lt_Some]|].
    by rewrite !list_lookup_insert_ne.
  - cbn. by rewrite Hseen.
  - intros i Hi. fold f in Hi. assert (i <> i0 /\ i <> i1 /\ i <> i2) as (M0 & M1 & M2) by (repeat split; congruence). cbn.
    rewrite !list_lookup_alter_ne, !list_lookup_insert_ne by done. done.
Qed.

Lemma moved_bufs b write s bf bl : bufs s !! b = Some bf -> b_disk bf = false -> bl = alter (set_b_disk true) b (bufs s) -> forall s2, bufs s2 = bl -> disk s2 = disk s ->
  disk_writes s2 = disk_writes s -> let s3 := move_block b write (b_blockno bf) s2 in let x := disk_xfer b write s in
  alter (set_b_disk false) b (bufs s3) = bufs x /\ disk s3 = disk x /\ disk_writes s3 = disk_writes x.
Proof.
  intros Hb Hd -> s2 E2 Ed Ew s3 x. unfold s3, x, move_block, disk_xfer. rewrite E2.
  assert (Eb : alter (set_b_disk true) b (bufs s) !!! b = set_b_disk true bf) by (apply list_lookup_total_correct; by rewrite list_lookup_alter_eq, Hb).
  rewrite Eb, (list_lookup_total_correct _ _ _ Hb). destruct write; cbn [bufs set_bufs disk set_disk set_disk_writes disk_writes]; rewrite ?E2, ?Ed, ?Ew; (split; [|done]).
  - rewrite alter_alter. transitivity (alter id b (bufs s)); [|by apply list_alter_id]. apply list_alter_ext; [|done]. intros x0 Hx. rewrite Hb in Hx. injection Hx as <-. by destruct bf; cbn in *; subst.
  - rewrite !alter_alter. apply list_alter_ext; [|done]. intros x0 Hx. rewrite Hb in Hx. injection Hx as <-. by destruct bf; cbn in *; subst.
Qed.

(** The first part of a request, up to the wait for the device. *)
Lemma virtio_submit_eq `{Fuel} s p b write bf : (1 < fuel)%nat -> runs s p -> (3 <= nfree (vd_free (vdisk_ s)))%nat -> bufs s !! b = Some bf -> 0 <= b_blockno bf < 2 ^ 31 ->
  let f := vd_free (vdisk_ s) in
  exists i0 i1 i2, i0 <> i1 /\ i0 <> i2 /\ i1 <> i2 /\ f !! i0 = Some true /\ f !! i1 = Some true /\ f !! i2 = Some true /\
  let d1 := queued b write (2 * b_blockno bf) i0 i1 i2 (set_vd_free (<[i2 := false]> (<[i1 := false]> (<[i0 := false]> f))) (vdisk_ s)) in
  let sc := set_bufs (alter (set_b_disk true) b (bufs s)) (set_vdisk_ d1 (acquired LVdisk s)) in
  exists kw, virtio_disk_rw b write s = Yield (sleep_st (ChBuf b) LVdisk p sc) (fun s' => obind (kw s') (fun _ =>
      modv (fun d => set_vd_info_b (<[i0 := None]> (vd_info_b d)) d);; free_chain (Z.of_nat i0);; release LVdisk)) /\
    forall s', holds_only s' p (LProc p) -> locks s' !! LVdisk = None -> b_disk (bufs s' !!! b) = false ->
      kw s' = Ret tt (woken_st LVdisk p (c_intena (cpu_ sc)) s').
Proof.
  intros Hf [Hc Hlt Hlen Hn Hpl Hvl] Hn3 Hb Hbr f. set (sa := acquired LVdisk s). destruct (alloc3_desc_eq sa Hn3) as (i0 & i1 & i2 & E3 & N01 & N02 & N12 & F0 & F1 & F2).
  exists i0, i1, i2. do 6 (split; [done|]). intros d1 sc.
  assert (Eit : iter fuel alloc_wait_body tt sa = Ret (Z.of_nat i0, Z.of_nat i1, Z.of_nat i2) (with_free (<[i2 := false]> (<[i1 := false]> (<[i0 := false]> f))) sa)).
  { destruct fuel as [|n]; [lia|]. apply iter_exit. unfold alloc_wait_body. rewrite (bind_Ret _ _ _ _ _ E3). done. }
  assert (Hh : holds_only sc p LVdisk). { split; cbn; [done|by rewrite Hlen|by rewrite Hn|done|by rewrite lookup_insert_eq]. }
  assert (Hl : locks sc !! LProc p = None) by (cbn; by rewrite lookup_insert_ne).
  assert (Hbd : b_disk (bufs sc !!! b) = true). { cbn. erewrite list_lookup_total_correct; [|by rewrite list_lookup_alter_eq, Hb]. done. }
  destruct (done_wait_eq b p sc Hf Hh Hl Hbd) as (kw & Ew & Hk). exists kw. split; [|exact Hk].
  unfold virtio_disk_rw. rewrite (bind_Ret _ _ _ _ _ (eq_refl : getb b s = Ret (bufs s !!! b) s)), (list_lookup_total_correct _ _ _ Hb).
  change (BSIZE / 512) with 2. rewrite u32_small by lia. rewrite (Z.mul_comm _ 2). cbv zeta.
  rewrite (bind_Ret _ _ _ _ _ (acquire_eq LVdisk s Hvl)). fold sa. rewrite (bind_Ret _ _ _ _ _ Eit), (bind_Ret _ _ _ _ _ (submit_eq _ _ _ _ _ _ _)), Nat2Z.id.
  unfold bind at 1. change (set_bufs _ (set_vdisk_ _ (with_free _ sa))) with sc. rewrite Ew. cbn [obind]. reflexivity.
Qed.

(** The interrupt once the device has served the request. *)
Lemma virtio_served_eq `{BlockDevice} `{!BlockDeviceLaws} s bf b write i0 i1 i2 d0 s2 p :
  let d1 := queued b write (2 * b_blockno bf) i0 i1 i2 d0 in
  vd_ok d0 -> vd_seen d0 = vd_used_idx d0 -> (i0 < NUM)%nat -> (i1 < NUM)%nat -> (i2 < NUM)%nat -> i0 <> i1 -> i0 <> i2 -> i1 <> i2 ->
  bufs s !! b = Some bf -> b_disk bf = false ->
  vdisk_ s2 = d1 -> bufs s2 = alter (set_b_disk true) b (bufs s) -> disk s2 = disk s -> disk_writes s2 = disk_writes s ->
  can_wake s2 -> locks s2 !! LVdisk = None -> c_proc (cpu_ s2) <> Some p -> (exists pr, procs s2 !! p = Some (asleep (ChBuf b) pr)) ->
  exists s3, virtio_disk_intr (device s2) = Ret tt s3 /\ p_state (procs s3 !!! p) = RUNNABLE /\ vdisk_ s3 = seen_one (used i0 d1) /\
    bufs s3 = bufs (disk_xfer b write s) /\ disk s3 = disk (disk_xfer b write s) /\ disk_writes s3 = disk_writes (disk_xfer b write s).
Proof.
  intros d1 Hok Hseen L0 L1 L2 N01 N02 N12 Hb Hbd Ev Eb Ed Ew Hw Hl Hc [pr Hpr].
  destruct (queued_chain b write (2 * b_blockno bf) i0 i1 i2 d0 Hok L0 L1 L2 N01 N02 N12) as [Hok1 Hch]. fold d1 in Hok1, Hch.
  assert (Hdev : device s2 = set_vdisk_ (used i0 d1) (move_block b write (b_blockno bf) s2)).
  { rewrite <- Ev. apply (device_serves s2 i0 i1 i2); rewrite ?Ev; [done|rewrite Eb, length_alter; by eapply lookup_lt_Some|].
    cbn [d1 queued vd_avail_ring vd_avail_idx]. assert (Ea : u16 (u16 (vd_avail_idx d0 + 1) - 1) = vd_avail_idx d0).
    { unfold u16. rewrite Zminus_mod_idemp_l, Z.add_simpl_r. apply Z.mod_small, Hok. }
    rewrite Ea. apply list_lookup_insert_eq. rewrite (vo_avail _ Hok). apply Nat2Z.inj_lt. rewrite Z2Nat.id by (apply Z.mod_pos_bound; done).
    by apply Z.mod_pos_bound. }
  destruct (moved_bufs b write s bf _ Hb Hbd eq_refl s2 Eb Ed Ew) as (Mb & Md & Mw). set (s2' := move_block b write (b_blockno bf) s2) in *.
  assert (Hrest : cpu_ s2' = cpu_ s2 /\ sie s2' = sie s2 /\ procs s2' = procs s2 /\ locks s2' = locks s2) by (unfold s2', move_block; by destruct write).
  destruct Hrest as (Rc & Rs & Rp & Rl). rewrite Hdev. set (sd := set_vdisk_ (used i0 d1) s2').
  assert (Hwd : can_wake sd).
  { destruct Hw as [Hi Hlen Hpf]. split; unfold irq_ok, proc_locks_free; cbn; rewrite ?Rc, ?Rs, ?Rp, ?Rl; done. }
  eexists. split; [apply (virtio_disk_intr_eq sd i0 b Hwd)|].
  - cbn. by rewrite Rl.
  - cbn. apply lookup_insert_eq.
  - apply Hok.
  - cbn. by rewrite Hseen.
  - cbn. rewrite Hseen. apply list_lookup_insert_eq. rewrite (vo_used _ Hok). apply Nat2Z.inj_lt. rewrite Z2Nat.id by (apply Z.mod_pos_bound; done). by apply Z.mod_pos_bound.
  - cbn. apply list_lookup_insert_eq. rewrite length_insert, (vo_status _ Hok). done.
  - cbn. apply list_lookup_insert_eq. by rewrite (vo_b _ Hok).
  - split; [|split; [reflexivity|split; [exact Mb|by split]]]. cbn. rewrite Rp, Rc. erewrite list_lookup_total_correct; [|by rewrite list_lookup_imap, Hpr].
    unfold wake. rewrite decide_True; [done|]. split; [congruence|done].
Qed.

(** The process is scheduled again: it holds its own lock and no other. *)
Record scheduled (s : kernel) (p : nat) : Prop := {
  sc_holds : holds_only s p (LProc p);
  sc_len : length (procs s) = NPROC;
  sc_free : forall i, i <> p -> locks s !! LProc i = None;
  sc_vdisk : locks s !! LVdisk = None
}.

Lemma virtio_finish_eq i0 i1 i2 b write sector p intena s4 : scheduled s4 p -> let d := vdisk_ s4 in
  chain d i0 i1 i2 b write sector -> (i0 < NUM)%nat -> (i1 < NUM)%nat -> (i2 < NUM)%nat -> i0 <> i1 -> i0 <> i2 -> i1 <> i2 ->
  vd_free d !! i0 = Some false -> vd_free d !! i1 = Some false -> vd_free d !! i2 = Some false ->
  exists s5, (modv (fun d => set_vd_info_b (<[i0 := None]> (vd_info_b d)) d);; free_chain (Z.of_nat i0);; release LVdisk) (woken_st LVdisk p intena s4) = Ret tt s5 /\
    vdisk_ s5 = freed_chain i0 i1 i2 (set_vd_info_b (<[i0 := None]> (vd_info_b d)) d) /\ bufs s5 = bufs s4 /\ disk s5 = disk s4 /\ disk_writes s5 = disk_writes s4 /\
    locks s5 = delete (LProc p) (locks s4).
Proof.
  intros [[Hc Hlt Hn Hs Hlp] Hlen Hfr Hlv] d Hch L0 L1 L2 N01 N02 N12 F0 F1 F2. set (sw := woken_st LVdisk p intena s4).
  set (sx := set_vdisk_ (set_vd_info_b (<[i0 := None]> (vd_info_b d)) d) sw). set (g := fun d0 : vdisk => set_vd_info_b _ d0). rewrite (bind_Ret _ _ _ _ _ (eq_refl : modv g sw = Ret tt sx)).
  assert (Hw : can_wake sx).
  { split; [split; cbn; [rewrite Hn; lia|done]|cbn; by rewrite length_alter|]. intros i Hi Hne. cbn in *. rewrite lookup_insert_ne by done.
    rewrite Hc in Hne. rewrite lookup_delete_ne by congruence. apply Hfr. congruence. }
  destruct (free_chain_eq i0 i1 i2 b write sector sx Hw) as (s' & E & _ & Ev & l & Es); try done; [cbn; rewrite Hn; lia|by destruct Hch|].
  rewrite (bind_Ret _ _ _ _ _ E), release_eq.
  - eexists. split; [reflexivity|]. rewrite Es. cbn. split; [exact Ev|]. do 3 (split; [done|]). rewrite delete_insert_id; [done|]. by rewrite lookup_delete_ne.
  - rewrite Es. cbn. apply lookup_insert_eq.
  - by rewrite Es.
  - rewrite Es. cbn. rewrite Hn. lia.
Qed.

(** C16. A disk request does what the buffer cache needs of the disk.  virtio_disk_rw
    on a block of the disk queues a chain of three free descriptors and puts the
    process to sleep with the driver's lock free; once a device that follows the virtio
    specification has served the request, virtio_disk_intr makes the process
    runnable, and when it is scheduled again the call returns.  The block has then been
    moved between the buffer and the disk and nothing else there has
    changed; the driver's tables are well-formed, the same descriptors are free, and the
    descriptors of other requests in flight are untouched. *)
Theorem virtio_request `{Fuel} `{BlockDevice} `{!BlockDeviceLaws} s p b write bf :
  (1 < fuel)%nat -> runs s p -> vd_ok (vdisk_ s) -> vd_seen (vdisk_ s) = vd_used_idx (vdisk_ s) -> (3 <= nfree (vd_free (vdisk_ s)))%nat ->
  bufs s !! b = Some bf -> b_disk bf = false -> 0 <= b_blockno bf < 2 ^ 31 ->
  exists s1 k, virtio_disk_rw b write s = Yield s1 k /\ locks s1 !! LVdisk = None /\ disk s1 = disk s /\
    (exists pr, procs s1 !! p = Some (asleep (ChBuf b) pr)) /\
    forall s2, same_io s1 s2 -> can_wake s2 -> locks s2 !! LVdisk = None -> c_proc (cpu_ s2) <> Some p -> procs s2 !! p = procs s1 !! p ->
    exists s3, virtio_disk_intr (device s2) = Ret tt s3 /\ p_state (procs s3 !!! p) = RUNNABLE /\
    forall s4, same_io s3 s4 -> scheduled s4 p ->
    exists s5, k s4 = Ret tt s5 /\ bufs s5 = bufs (disk_xfer b write s) /\ disk s5 = disk (disk_xfer b write s) /\
      disk_writes s5 = disk_writes (disk_xfer b write s) /\ request_done (vdisk_ s) (vdisk_ s5) /\ locks s5 = delete (LProc p) (locks s4).
Proof.
  intros Hf Hr Hok Hseen Hn Hb Hbd Hbr.
  destruct (virtio_submit_eq s p b write bf Hf Hr Hn Hb Hbr) as (i0 & i1 & i2 & N01 & N02 & N12 & F0 & F1 & F2 & kw & E1 & Hk).
  set (d0 := set_vd_free _ (vdisk_ s)) in *. set (d1 := queued b write _ i0 i1 i2 d0) in *. set (sc := set_bufs _ _) in *.
  assert (Hlt : forall i, vd_free (vdisk_ s) !! i = Some true -> (i < NUM)%nat) by (intros i Hi; rewrite <- (vo_free _ Hok); by eapply lookup_lt_Some).
  pose proof (Hlt _ F0) as L0. pose proof (Hlt _ F1) as L1. pose proof (Hlt _ F2) as L2.
  assert (Hok0 : vd_ok d0) by (destruct Hok; split; cbn; rewrite ?length_insert; done). destruct Hr as [Hc Hpl Hlen _ _ Hvl].
  destruct (lookup_lt_is_Some_2 (procs s) p ltac:(lia)) as [pr Hpr].
  eexists _, _. split; [exact E1|]. split; [cbn; by rewrite lookup_insert_ne, lookup_delete_eq|]. split; [done|].
  assert (Hsl : procs (sleep_st (ChBuf b) LVdisk p sc) !! p = Some (asleep (ChBuf b) pr)) by (cbn; by rewrite list_lookup_alter_eq, Hpr).
  split; [by exists pr|]. intros s2 (Ev & Eb & Ed & Ew) Hw Hl2 Hc2 Hp2.
  destruct (virtio_served_eq s bf b write i0 i1 i2 d0 s2 p Hok0 Hseen L0 L1 L2 N01 N02 N12 Hb Hbd Ev Eb Ed Ew Hw Hl2 Hc2) as (s3 & E3 & Hrun & Ev3 & Eb3 & Ed3 & Ew3);
    [exists pr; by rewrite Hp2|]. fold d1 in Ev3. exists s3. split; [exact E3|]. split; [exact Hrun|].
  intros s4 (Ev4 & Eb4 & Ed4 & Ew4) Hsch. assert (Hbd4 : b_disk (bufs s4 !!! b) = false).
  { rewrite Eb4, Eb3. unfold disk_xfer. destruct write; cbn; [by rewrite (list_lookup_total_correct _ _ _ Hb)|].
    erewrite list_lookup_total_correct; [|by rewrite list_lookup_alter_eq, Hb]. done. }
  rewrite (Hk s4 (sc_holds _ _ Hsch) (sc_vdisk _ _ Hsch) Hbd4). cbn [obind].
  destruct (queued_chain b write (2 * b_blockno bf) i0 i1 i2 d0 Hok0 L0 L1 L2 N01 N02 N12) as [_ Hch]. fold d1 in Hch.
  assert (Hfr : forall i, i = i0 \/ i = i1 \/ i = i2 -> vd_free (vdisk_ s4) !! i = Some false).
  { intros i Hi. rewrite Ev4, Ev3. cbn. destruct (decide (i = i2)) as [->|]; [apply list_lookup_insert_eq; rewrite !length_insert, (vo_free _ Hok); done|].
    rewrite list_lookup_insert_ne by done. destruct (decide (i = i1)) as [->|]; [apply list_lookup_insert_eq; rewrite !length_insert, (vo_free _ Hok); done|].
    rewrite list_lookup_insert_ne by done. assert (i = i0) as -> by tauto. apply list_lookup_insert_eq. by rewrite (vo_free _ Hok). }
  destruct (virtio_finish_eq i0 i1 i2 b write (2 * b_blockno bf) p (c_intena (cpu_ sc)) s4 Hsch) as (s5 & E5 & Ev5 & Eb5 & Ed5 & Ew5 & El5); auto.
  { rewrite Ev4, Ev3. by destruct Hch. }
  exists s5. split; [exact E5|]. split; [by rewrite Eb5, Eb4, Eb3|]. split; [by rewrite Ed5, Ed4, Ed3|]. split; [by rewrite Ew5, Ew4, Ew3|]. split; [|done].
  rewrite Ev5, Ev4, Ev3. by apply request_done_intro.
Qed.

(** A device that follows the descriptors in memory, and a write of block 7 through it. *)
Definition ex_device : BlockDevice := fun s =>
  let d := vdisk_ s in
  let i0 := Z.to_nat (vd_avail_ring d !!! Z.to_nat (u16 (vd_avail_idx d - 1) mod Z.of_nat NUM)) in
  let i1 := Z.to_nat (d_next (vd_desc d !!! i0)) in
  match d_addr (vd_desc d !!! i1) with
  | DData b => set_vdisk_ (used i0 d) (move_block b (rq_type (vd_ops d !!! i0) =? VIRTIO_BLK_T_OUT) (rq_sector (vd_ops d !!! i0) / 2) s)
  | _ => s
  end.

Lemma ex_device_laws : @BlockDeviceLaws ex_device.
Proof.
  split. intros s i0 i1 i2 b write blk [H0 H1 _ Hr] Hb Ha. unfold device, ex_device.
  rewrite (list_lookup_total_correct _ _ _ Ha), Nat2Z.id, (list_lookup_total_correct _ _ _ H0). cbn [d_next desc0].
  rewrite Nat2Z.id, (list_lookup_total_correct _ _ _ H1), (list_lookup_total_correct _ _ _ Hr). cbn [d_addr desc1 rq_type rq_sector header].
  rewrite (Z.mul_comm 2), Z.div_mul by lia. by destruct write.
Qed.

#[local] Existing Instances ex_device ex_device_laws.
#[local] Instance ex_fuel2 : Fuel := 2%nat.
Definition ex_buf : buf := set_b_blockno 7 (set_b_data (replicate 1024 9) buf0).
Definition ex_driver : kernel :=
  set_vdisk_ (set_vd_free (replicate NUM true) (vdisk_ (kernel0 (img ex_proc_kernel) ∅)))
    (set_bufs [ex_buf] (set_procs (replicate NPROC proc0) (set_locks ∅ (set_cpu_ (mkCpu (Some 3%nat) 0 true) (set_sie true ex_proc_kernel))))).

Lemma virtio_request_witness : exists s1 k s2 s3 s4 s5, virtio_disk_rw 0 true ex_driver = Yield s1 k /\
  virtio_disk_intr (device s2) = Ret tt s3 /\ k s4 = Ret tt s5 /\ disk s5 = {[7 := replicate 1024 9]}.
Proof.
  destruct (virtio_request ex_driver 3 0 true ex_buf) as (s1 & k & E1 & _ & _ & (pr & Hpr) & Hs2).
  - by apply Nat.ltb_lt.
  - split; [reflexivity|by apply Nat.ltb_lt|reflexivity|reflexivity|reflexivity|reflexivity].
  - split; [reflexivity|reflexivity|reflexivity|reflexivity|reflexivity|reflexivity|reflexivity|by vm_compute|by vm_compute|by vm_compute].
  - reflexivity.
  - by apply Nat.leb_le.
  - reflexivity.
  - reflexivity.
  - by vm_compute.
  - set (s2 := set_locks ∅ (set_cpu_ (mkCpu None 0 true) (set_procs (<[3%nat := asleep (ChBuf 0) pr]> (replicate NPROC proc0)) s1))).
    destruct (Hs2 s2) as (s3 & E3 & _ & Hs4).
    + by repeat split.
    + split; [by split|reflexivity|intros i Hi _; reflexivity].
    + reflexivity.
    + discriminate.
    + rewrite Hpr. reflexivity.
    + set (s4 := set_locks {[LProc 3 := hart s3]} (set_cpu_ (mkCpu (Some 3%nat) 1 true) (set_sie false (set_procs (replicate NPROC proc0) s3)))).
      destruct (Hs4 s4) as (s5 & E5 & _ & Ed & _).
      * by repeat split.
      * split; [split; [reflexivity|by apply Nat.ltb_lt|reflexivity|reflexivity|reflexivity]|reflexivity| |reflexivity].
        intros i Hi. unfold s4. cbn [locks set_locks]. apply lookup_singleton_ne. congruence.
      * exists s1, k, s2, s3, s4, s5. split; [exact E1|]. split; [exact E3|]. split; [exact E5|exact Ed].
Defined.
