(* ===== verification/Bio.v ===== *)
(** kernel/bio.c: the buffer cache.  Entry [NBUF] of [bufs] is the list head. *)

From S2P Require Import Prelude Outcome Mem State Spinlock KString Kalloc Vm Proc Sleeplock Disk.

Definition bhead : nat := NBUF.

Definition binit_one (b : nat) : K unit :=
  hd <- getb bhead;;
  modb b (set_b_next (b_next hd));;
  modb b (set_b_prev bhead);;
  initsleeplock (SLbuf b);;
  hd <- getb bhead;;
  modb (b_next hd) (set_b_prev b);;
  modb bhead (set_b_next b).

Definition binit : K unit :=
  initlock LBcache;;
  modb bhead (set_b_prev bhead);;
  modb bhead (set_b_next bhead);;
  for_each (seq 0 NBUF) binit_one.

(** The two scans of bget, from the most and from the least recently used end. *)
Definition bget_cached (dev blockno : Z) (b : nat) : K (nat + option nat) :=
  if decide (b = bhead) then ret (inr None) else
  bf <- getb b;;
  if (b_dev bf =? dev) && (b_blockno bf =? blockno) then
    modb b (fun bf => set_b_refcnt (u32 (b_refcnt bf + 1)) bf);;
    ret (inr (Some b))
  else ret (inl (b_next bf)).

Definition bget_recycle (dev blockno : Z) (b : nat) : K (nat + option nat) :=
  if decide (b = bhead) then ret (inr None) else
  bf <- getb b;;
  if b_refcnt bf =? 0 then
    modb b (set_b_dev dev);;
    modb b (set_b_blockno blockno);;
    modb b (set_b_valid false);;
    modb b (set_b_refcnt 1);;
    ret (inr (Some b))
  else ret (inl (b_prev bf)).

Section with_disk.
Context `{Fuel} `{Disk}.

(** The list has NBUF entries, so NBUF + 1 steps reach the head again. *)
Definition bget (dev blockno : Z) : K nat :=
  acquire LBcache;;
  hd <- getb bhead;;
  c <- iter (S NBUF) (bget_cached dev blockno) (b_next hd);;
  match c with
  | Some b => release LBcache;; acquiresleep (SLbuf b);; ret b
  | None =>
      hd <- getb bhead;;
      r <- iter (S NBUF) (bget_recycle dev blockno) (b_prev hd);;
      match r with
      | Some b => release LBcache;; acquiresleep (SLbuf b);; ret b
      | None => panic "bget: no buffers"
      end
  end.

Definition bread (dev blockno : Z) : K nat :=
  b <- bget dev blockno;;
  bf <- getb b;;
  when (negb (b_valid bf)) (disk_rw b false;; modb b (set_b_valid true));;
  ret b.

Definition bwrite (b : nat) : K unit :=
  h <- holdingsleep (SLbuf b);;
  if negb h then panic "bwrite" else disk_rw b true.

(** Unlink [b] and put it at the front of the list. *)
Definition move_front (b : nat) : K unit :=
  bf <- getb b;;
  modb (b_next bf) (set_b_prev (b_prev bf));;
  bf <- getb b;;
  modb (b_prev bf) (set_b_next (b_next bf));;
  hd <- getb bhead;;
  modb b (set_b_next (b_next hd));;
  modb b (set_b_prev bhead);;
  hd <- getb bhead;;
  modb (b_next hd) (set_b_prev b);;
  modb bhead (set_b_next b).

Definition brelse (b : nat) : K unit :=
  h <- holdingsleep (SLbuf b);;
  if negb h then panic "brelse" else
  releasesleep (SLbuf b);;
  acquire LBcache;;
  modb b (fun bf => set_b_refcnt (u32 (b_refcnt bf - 1)) bf);;
  bf <- getb b;;
  when (b_refcnt bf =? 0) (move_front b);;
  release LBcache.

Definition bpin (b : nat) : K unit :=
  acquire LBcache;;
  modb b (fun bf => set_b_refcnt (u32 (b_refcnt bf + 1)) bf);;
  release LBcache.

Definition bunpin (b : nat) : K unit :=
  acquire LBcache;;
  modb b (fun bf => set_b_refcnt (u32 (b_refcnt bf - 1)) bf);;
  release LBcache.
End with_disk.
