(* ===== verification/BioSpec.v ===== *)
(** The buffer cache: its circular list stays a list of all buffers ordered by
    use, a block has at most one buffer, and bread, bwrite and brelse implement
    a coherent view of the disk blocks. *)

From S2P Require Import Prelude Outcome Mem State Spinlock KString Kalloc Vm Proc ProcSpec Sleeplock Calm Bytes Disk Bio.

(** ** Circular doubly linked lists *)

Section dll.
Context {A : Type} `{EqDecision A}.

(** The neighbours in a list. *)
Fixpoint adj (l : list A) : list (A * A) :=
  match l with
  | x :: ((y :: _) as l') => (x, y) :: adj l'
  | _ => []
  end.

(** [nx] and [pv] link [h :: l] into a ring. *)
Definition ring (nx pv : A -> A) (h : A) (l : list A) : Prop :=
  Forall (fun xy => nx xy.1 = xy.2 /\ pv xy.2 = xy.1) (adj (h :: l ++ [h])).

Definition fupd (f : A -> A) (x y : A) : A -> A := fun z => if decide (z = x) then y else f z.

Lemma adj_app l x y r : adj (l ++ x :: y :: r) = adj (l ++ [x]) ++ (x, y) :: adj (y :: r).
Proof.
  induction l as [|a l IH]; [done|]. destruct l as [|b l]; [done|].
  cbn [app adj] in *. by rewrite IH.
Qed.

Lemma adj_fst l x xy : xy ∈ adj (l ++ [x]) -> xy.1 ∈ l.
Proof.
  induction l as [|a l IH]; intros H; [by apply not_elem_of_nil in H|].
  destruct l as [|b l]; cbn [app adj] in H.
  - apply list_elem_of_singleton in H as ->. apply list_elem_of_here.
  - apply elem_of_cons in H as [->|H]; [apply list_elem_of_here|]. apply list_elem_of_further. by apply IH.
Qed.

Lemma adj_snd x l xy : xy ∈ adj (x :: l) -> xy.2 ∈ l.
Proof.
  revert x. induction l as [|a l IH]; intros x H; [by apply not_elem_of_nil in H|].
  cbn [adj] in H. apply elem_of_cons in H as [->|H]; [apply list_elem_of_here|].
  apply list_elem_of_further. by eapply IH.
Qed.

Lemma adj_ext nx pv nx' pv' (l : list (A * A)) :
  (forall xy, xy ∈ l -> nx' xy.1 = nx xy.1 /\ pv' xy.2 = pv xy.2) ->
  Forall (fun xy => nx xy.1 = xy.2 /\ pv xy.2 = xy.1) l ->
  Forall (fun xy => nx' xy.1 = xy.2 /\ pv' xy.2 = xy.1) l.
Proof.
  intros He H. apply Forall_forall. intros xy Hxy. rewrite Forall_forall in H.
  destruct (He xy Hxy) as [-> ->]. by apply H.
Qed.

(** Taking [b] out of the ring. *)
Lemma ring_unlink nx pv h l1 b l2 :
  NoDup (h :: l1 ++ b :: l2) -> ring nx pv h (l1 ++ b :: l2) ->
  ring (fupd nx (pv b) (nx b)) (fupd pv (nx b) (pv b)) h (l1 ++ l2).
Proof.
  intros Hnd Hr. unfold ring in *.
  destruct (exists_last (l := h :: l1)) as (X & x & EX); [done|].
  destruct (l2 ++ [h]) as [|y Y] eqn:EY; [by destruct l2|].
  assert (Ec : h :: (l1 ++ b :: l2) ++ [h] = X ++ x :: b :: y :: Y).
  { rewrite <- app_assoc. change (h :: l1 ++ (b :: l2) ++ [h]) with ((h :: l1) ++ b :: (l2 ++ [h])).
    rewrite EX, EY, <- app_assoc. done. }
  rewrite Ec, adj_app in Hr. change (b :: y :: Y) with ([] ++ b :: y :: Y) in Hr. rewrite adj_app in Hr.
  cbn [app adj] in Hr. apply Forall_app in Hr as [H1 H2].
  apply Forall_cons in H2 as [[Hxb Hbx] H2]. apply Forall_cons in H2 as [[Hby Hyb] H2].
  cbn [fst snd] in *. rewrite Hby, Hbx.
  assert (Ec' : h :: (l1 ++ l2) ++ [h] = X ++ x :: y :: Y).
  { rewrite <- app_assoc, EY. change (h :: l1 ++ y :: Y) with ((h :: l1) ++ y :: Y). by rewrite EX, <- app_assoc. }
  rewrite Ec', adj_app.
  assert (Hf : NoDup (X ++ [x])).
  { rewrite <- EX. change (h :: l1 ++ b :: l2) with ((h :: l1) ++ b :: l2) in Hnd. by apply NoDup_app in Hnd as [? _]. }
  apply NoDup_app in Hf as (_ & Hf & _).
  assert (Hs : NoDup (l1 ++ b :: y :: Y)).
  { rewrite <- EY. change (b :: l2 ++ [h]) with ((b :: l2) ++ [h]). rewrite app_assoc.
    apply NoDup_cons in Hnd as [? ?]. apply NoDup_app. split; [done|]. split; [|apply NoDup_singleton].
    intros z Hz ->%list_elem_of_singleton. done. }
  apply NoDup_app in Hs as (_ & Hs1 & Hs2). apply NoDup_cons in Hs2 as [_ Hs2].
  apply NoDup_cons in Hs2 as [Hs2 _].
  apply Forall_app. split; [|apply Forall_cons; split].
  - eapply adj_ext; [|exact H1]. intros xy Hxy. unfold fupd. split.
    + rewrite decide_False; [done|]. intros E. apply adj_fst in Hxy. apply (Hf _ Hxy).
      rewrite E. apply list_elem_of_here.
    + rewrite decide_False; [done|]. intros E. rewrite <- EX in Hxy. apply adj_snd in Hxy.
      apply (Hs1 _ Hxy). rewrite E. by right; left.
  - cbn [fst snd]. unfold fupd. by rewrite !decide_True.
  - eapply adj_ext; [|exact H2]. intros xy Hxy. unfold fupd. split.
    + rewrite decide_False; [done|]. intros E. rewrite <- EY in Hxy. apply adj_fst in Hxy.
      change (h :: l1 ++ b :: l2) with ((h :: l1) ++ b :: l2) in Hnd.
      apply NoDup_app in Hnd as (_ & Hnd & _). apply (Hnd x).
      * rewrite EX. apply elem_of_app. right. apply list_elem_of_here.
      * rewrite <- E. by apply list_elem_of_further.
    + rewrite decide_False; [done|]. intros E. apply adj_snd in Hxy. by rewrite E in Hxy.
Qed.

(** Putting [b] in at the front of the ring. *)
Lemma ring_push nx pv h b l :
  NoDup (h :: l) -> b <> h -> b ∉ l -> ring nx pv h l ->
  let nx1 := fupd nx b (nx h) in
  let pv1 := fupd pv b h in
  ring (fupd nx1 h b) (fupd pv1 (nx1 h) b) h (b :: l).
Proof.
  intros Hnd Hbh Hbl Hr nx1 pv1. unfold ring in *.
  destruct (l ++ [h]) as [|y Y] eqn:EY; [by destruct l|].
  cbn [app adj] in *. rewrite EY. apply Forall_cons in Hr as [[Hhy Hyh] Hr]. cbn [fst snd] in *.
  assert (Hy : nx1 h = y) by (unfold nx1, fupd; by rewrite decide_False). rewrite Hy.
  assert (Hby : b <> y).
  { intros ->. assert (Hin : y ∈ l ++ [h]) by (rewrite EY; apply list_elem_of_here).
    apply elem_of_app in Hin as [?|?%list_elem_of_singleton]; done. }
  apply Forall_cons. split; [|apply Forall_cons; split]; cbn [fst snd].
  - unfold fupd, pv1, fupd. split; [by rewrite decide_True|]. rewrite decide_False by done. by rewrite decide_True.
  - unfold fupd, nx1, fupd. split; [|by rewrite decide_True]. rewrite decide_False by done. by rewrite decide_True.
  - assert (Hnd' : NoDup (y :: Y)).
    { rewrite <- EY. apply NoDup_cons in Hnd as [? ?]. apply NoDup_app. split; [done|].
      split; [|apply NoDup_singleton]. intros z Hz ->%list_elem_of_singleton. done. }
    apply NoDup_cons in Hnd' as [HyY _].
    eapply adj_ext; [|exact Hr]. intros xy Hxy. unfold fupd, nx1, pv1, fupd.
    assert (H1 : xy.1 ∈ l) by (rewrite <- EY in Hxy; by apply adj_fst in Hxy).
    assert (H2 : xy.2 ∈ Y) by (by apply adj_snd in Hxy).
    assert (H2' : xy.2 ∈ l ++ [h]) by (rewrite EY; by apply list_elem_of_further).
    apply NoDup_cons in Hnd as [Hhl _]. split.
    + rewrite decide_False by (intros E; by rewrite E in H1).
      by rewrite decide_False by (intros E; by rewrite E in H1).
    + rewrite decide_False by (intros E; by rewrite E in H2).
      rewrite decide_False; [done|]. intros E. rewrite E in H2'.
      apply elem_of_app in H2' as [?|?%list_elem_of_singleton]; done.
Qed.
End dll.

(** ** The invariant of the buffer cache *)

Definition bnext (bs : list buf) (i : nat) : nat := b_next (bs !!! i).
Definition bprev (bs : list buf) (i : nat) : nat := b_prev (bs !!! i).
Definition has_key (dev bno : Z) (bf : buf) : bool := (b_dev bf =? dev) && (b_blockno bf =? bno).

(** The invariant, for the one device [D] that is in use: [order] lists the
    buffers from the most to the least recently used, no block has two buffers,
    and a buffer nobody refers to is unlocked and agrees with the disk. *)
Record bcache_inv (D : Z) (s : kernel) (order : list nat) : Prop := {
  bi_len : length (bufs s) = S NBUF;
  bi_perm : order ≡ₚ seq 0 NBUF;
  bi_ring : ring (bnext (bufs s)) (bprev (bufs s)) bhead order;
  bi_dev : forall i, (i < NBUF)%nat -> b_dev (bufs s !!! i) = D \/
    (b_dev (bufs s !!! i) <> D /\ b_valid (bufs s !!! i) = false /\ b_refcnt (bufs s !!! i) = 0);
  bi_uniq : forall i j, (i < NBUF)%nat -> (j < NBUF)%nat -> b_dev (bufs s !!! i) = D ->
    b_dev (bufs s !!! j) = D -> b_blockno (bufs s !!! i) = b_blockno (bufs s !!! j) -> i = j;
  bi_ref : forall i, (i < NBUF)%nat -> 0 <= b_refcnt (bufs s !!! i) < 2 ^ 32 - 1;
  bi_unref : forall i, (i < NBUF)%nat -> b_refcnt (bufs s !!! i) = 0 ->
    sl_locked (b_lock (bufs s !!! i)) = false /\
    (b_valid (bufs s !!! i) = true ->
       b_data (bufs s !!! i) = read_block (disk s) (b_blockno (bufs s !!! i)))
}.

Lemma order_nodup D s order : bcache_inv D s order -> NoDup (bhead :: order).
Proof.
  intros H. apply NoDup_cons. split.
  - rewrite (bi_perm _ _ _ H), elem_of_seq. unfold bhead. lia.
  - rewrite (bi_perm _ _ _ H). apply NoDup_seq.
Qed.

Lemma order_lt D s order i : bcache_inv D s order -> i ∈ order <-> (i < NBUF)%nat.
Proof. intros H. rewrite (bi_perm _ _ _ H), elem_of_seq. lia. Qed.

Lemma order_length D s order : bcache_inv D s order -> length order = NBUF.
Proof. intros H. rewrite (bi_perm _ _ _ H). apply length_seq. Qed.

(** ** bget's scans *)

Lemma bget_cached_loop dev bno s l : forall f,
  Forall (fun xy => bnext (bufs s) xy.1 = xy.2 /\ bprev (bufs s) xy.2 = xy.1) (adj (l ++ [bhead])) ->
  bhead ∉ l -> (length l < f)%nat ->
  iter f (bget_cached dev bno) (default bhead (head (l ++ [bhead]))) s =
  match find (fun i => has_key dev bno (bufs s !!! i)) l with
  | Some i => Ret (Some i) (set_bufs (alter (fun bf => set_b_refcnt (u32 (b_refcnt bf + 1)) bf) i (bufs s)) s)
  | None => Ret None s
  end.
Proof.
  induction l as [|x l IH]; intros f Hl Hh Hf; (destruct f as [|f]; [simpl in Hf; lia|]).
  - apply iter_exit. done.
  - apply not_elem_of_cons in Hh as [Hx Hh]. cbn [app head default find].
    assert (Hb : bget_cached dev bno x s =
      if has_key dev bno (bufs s !!! x)
      then Ret (inr (Some x)) (set_bufs (alter (fun bf => set_b_refcnt (u32 (b_refcnt bf + 1)) bf) x (bufs s)) s)
      else Ret (inl (bnext (bufs s) x)) s).
    { unfold bget_cached. rewrite decide_False by done. unfold bind, getb, gets, has_key. cbn [obind].
      by destruct (_ && _). }
    destruct (has_key dev bno (bufs s !!! x)); [by apply iter_exit|].
    rewrite (iter_next _ _ _ _ _ _ Hb). cbn [app] in Hl.
    destruct (l ++ [bhead]) as [|y Y] eqn:EY; [by destruct l|]. cbn [adj] in Hl.
    apply Forall_cons in Hl as [[Hxy _] Hl]. cbn [fst snd] in Hxy. rewrite Hxy.
    rewrite <- (IH f); [done|exact Hl|done|simpl in Hf; lia].
Qed.

Definition recycle (dev bno : Z) (bf : buf) : buf :=
  set_b_refcnt 1 (set_b_valid false (set_b_blockno bno (set_b_dev dev bf))).

Lemma bget_recycle_loop dev bno s l : forall f,
  Forall (fun xy => bnext (bufs s) xy.1 = xy.2 /\ bprev (bufs s) xy.2 = xy.1) (adj (bhead :: l)) ->
  bhead ∉ l -> (length l < f)%nat ->
  iter f (bget_recycle dev bno) (List.last (bhead :: l) bhead) s =
  match find (fun i => b_refcnt (bufs s !!! i) =? 0) (rev l) with
  | Some i => Ret (Some i) (set_bufs (alter (recycle dev bno) i (bufs s)) s)
  | None => Ret None s
  end.
Proof.
  induction l as [|x l IH] using rev_ind; intros f Hl Hh Hf.
  - destruct f as [|f]; [simpl in Hf; lia|]. apply iter_exit. done.
  - rewrite length_app in Hf. simpl in Hf. destruct f as [|f]; [lia|].
    apply not_elem_of_app in Hh as [Hh Hx]. rewrite list_elem_of_singleton in Hx.
    rewrite app_comm_cons, List.last_last, rev_app_distr. cbn [rev app find].
    assert (Hb : bget_recycle dev bno x s =
      if b_refcnt (bufs s !!! x) =? 0
      then Ret (inr (Some x)) (set_bufs (alter (recycle dev bno) x (bufs s)) s)
      else Ret (inl (bprev (bufs s) x)) s).
    { unfold bget_recycle. rewrite decide_False by (intros ->; done). unfold bind, getb, gets. cbn [obind].
      destruct (_ =? 0); [|done]. unfold modb, modify, ret. cbn [obind]. simpl. by rewrite !alter_alter. }
    destruct (b_refcnt (bufs s !!! x) =? 0); [by apply iter_exit|].
    rewrite (iter_next _ _ _ _ _ _ Hb).
    destruct (exists_last (l := bhead :: l)) as (X & y & EX); [done|].
    change (bhead :: l ++ [x]) with ((bhead :: l) ++ [x]) in Hl. rewrite EX, <- app_assoc in Hl.
    cbn [app] in Hl. rewrite adj_app in Hl. apply Forall_app in Hl as [Hl1 Hl2].
    apply Forall_cons in Hl2 as [[_ Hpv] _]. cbn [fst snd] in Hpv. rewrite Hpv.
    rewrite <- EX in Hl1. rewrite <- (IH f Hl1 Hh) by lia. by rewrite EX, List.last_last.
Qed.

(** ** bget and bread *)

Section bread.
Context `{Fuel} `{DiskLaws} (D : Z).

(** Nothing is locked and no buffer's lock is contended. *)
Record idle (s : kernel) (p : nat) : Prop := { id_calm : calm s p; id_locks : locks s = ∅ }.

Lemma idle_lk s p lk : idle s p -> locks s !! lk = None.
Proof. intros [_ ->]. apply lookup_empty. Qed.

Lemma idle_blind f s p : lock_blind f -> procs (f s) = procs s -> idle s p -> idle (f s) p.
Proof.
  intros Hf Hp [Hc Hl]. split; [by apply calm_blind|]. destruct (lock_blind_proj f s Hf) as (_ & _ & ->). done.
Qed.

Definition incref (bf : buf) : buf := set_b_refcnt (u32 (b_refcnt bf + 1)) bf.

(** The buffer bget chooses and what it does to it. *)
Definition bget_choice (bs : list buf) (order : list nat) (bno : Z) : option (nat * (buf -> buf)) :=
  match find (fun i => has_key D bno (bs !!! i)) order with
  | Some i => Some (i, incref)
  | None =>
      match find (fun i => b_refcnt (bs !!! i) =? 0) (rev order) with
      | Some i => Some (i, recycle D bno)
      | None => None
      end
  end.

Definition lock_buf (pid : Z) (bf : buf) : buf := set_b_lock (mkSleeplock true pid) bf.

Lemma ring_first nx pv h (l : list nat) : ring nx pv h l -> nx h = default h (head (l ++ [h])).
Proof. unfold ring. intros Hr. destruct l as [|x l]; simpl in Hr; by apply Forall_cons in Hr as [[? _] _]. Qed.

Lemma ring_last nx pv h (l : list nat) : ring nx pv h l -> pv h = List.last (h :: l) h.
Proof.
  unfold ring. intros Hr. destruct (exists_last (l := h :: l)) as (X & x & EX); [done|].
  rewrite EX, List.last_last. rewrite app_comm_cons, EX, <- app_assoc in Hr. cbn [app] in Hr.
  rewrite adj_app in Hr. apply Forall_app in Hr as [_ Hr]. by apply Forall_cons in Hr as [[_ ?] _].
Qed.

Lemma ring_suffix nx pv h (l : list nat) : ring nx pv h l ->
  Forall (fun xy => nx xy.1 = xy.2 /\ pv xy.2 = xy.1) (adj (l ++ [h])).
Proof.
  unfold ring. intros Hr. destruct (l ++ [h]) as [|y Y] eqn:E; [by destruct l|].
  cbn [adj] in Hr. by apply Forall_cons in Hr as [_ ?].
Qed.

Lemma ring_prefix nx pv h (l : list nat) : ring nx pv h l ->
  Forall (fun xy => nx xy.1 = xy.2 /\ pv xy.2 = xy.1) (adj (h :: l)).
Proof.
  unfold ring. intros Hr. destruct (exists_last (l := h :: l)) as (X & x & EX); [done|].
  rewrite EX. rewrite app_comm_cons, EX, <- app_assoc in Hr. cbn [app] in Hr.
  rewrite adj_app in Hr. by apply Forall_app in Hr as [? _].
Qed.

Lemma bget_calm s p order bno i f :
  idle s p -> bcache_inv D s order -> (0 < fuel)%nat ->
  bget_choice (bufs s) order bno = Some (i, f) -> sl_locked (b_lock (bufs s !!! i)) = false ->
  (forall bf, b_lock (f bf) = b_lock bf) ->
  bget D bno s = Ret i (set_bufs (alter (fun bf => lock_buf (pid_of s p) (f bf)) i (bufs s)) s).
Proof.
  intros Hid Hinv Hf Hch Hun Hfl. pose proof Hid as [Hc _]. unfold bget.
  rewrite (bind_Ret _ _ _ _ _ (acquire_eq LBcache s (idle_lk s p _ Hid))).
  set (s1 := acquired LBcache s). unfold bind at 1, getb, gets. cbn [obind].
  change (bufs s1) with (bufs s).
  assert (Hh : bhead ∉ order) by (by apply (NoDup_cons bhead order), (order_nodup D s)).
  assert (Hlen : (length order < S NBUF)%nat) by (rewrite (order_length D s order Hinv); lia).
  pose proof (bget_cached_loop D bno s1 order (S NBUF) (ring_suffix _ _ _ _ (bi_ring _ _ _ Hinv)) Hh Hlen) as Hloop.
  rewrite <- (ring_first _ _ _ _ (bi_ring _ _ _ Hinv)) in Hloop. change (bufs s1) with (bufs s) in Hloop.
  unfold bget_choice in Hch.
  assert (Hend : forall i0 g, (forall bf, b_lock (g bf) = b_lock bf) -> sl_locked (b_lock (bufs s !!! i0)) = false ->
    (release LBcache;; acquiresleep (SLbuf i0);; ret i0) (set_bufs (alter g i0 (bufs s)) s1) =
    Ret i0 (set_bufs (alter (fun bf => lock_buf (pid_of s p) (g bf)) i0 (bufs s)) s)).
  { intros i0 g Hg Hu. set (fs := fun s0 : kernel => set_bufs (alter g i0 (bufs s)) s0).
    rewrite (bind_Ret _ _ _ _ _ (critical_calm LBcache fs s p Hc (idle_lk s p _ Hid) ltac:(done) eq_refl)).
    assert (Hid' : idle (fs s) p) by (by apply idle_blind).
    assert (Hu' : sl_locked (sl_of (fs s) (SLbuf i0)) = false).
    { simpl. destruct (bufs s !! i0) as [bf|] eqn:E.
      - erewrite list_lookup_total_correct; [|by rewrite list_lookup_alter_eq, E]. rewrite Hg.
        by rewrite (list_lookup_total_correct _ _ _ E) in Hu.
      - rewrite list_lookup_total_alt, list_lookup_alter_eq, E. done. }
    rewrite (bind_Ret _ _ _ _ _ (acquiresleep_calm (SLbuf i0) (fs s) p (id_calm _ _ Hid') (idle_lk _ _ _ Hid') Hu' Hf)).
    unfold ret. f_equal. simpl. by rewrite alter_alter. }
  destruct (find _ order) as [i0|].
  - injection Hch as -> <-. rewrite (bind_Ret _ _ _ _ _ Hloop). by apply Hend.
  - rewrite (bind_Ret _ _ _ _ _ Hloop). unfold bind at 1, getb, gets. cbn [obind].
    pose proof (bget_recycle_loop D bno s1 order (S NBUF) (ring_prefix _ _ _ _ (bi_ring _ _ _ Hinv)) Hh Hlen) as Hloop2.
    rewrite <- (ring_last _ _ _ _ (bi_ring _ _ _ Hinv)) in Hloop2. change (bufs s1) with (bufs s) in *.
    destruct (find _ (rev order)) as [i0|]; [|done]. injection Hch as -> <-.
    rewrite (bind_Ret _ _ _ _ _ Hloop2). by apply Hend.
Qed.

(** The contents of block [bno]: what the cache holds, else the disk. *)
Definition blk (s : kernel) (bno : Z) : list Z :=
  match find (fun i => has_key D bno (bufs s !!! i)) (seq 0 NBUF) with
  | Some i => if b_valid (bufs s !!! i) then b_data (bufs s !!! i) else read_block (disk s) bno
  | None => read_block (disk s) bno
  end.

Lemma has_key_spec bno bf : has_key D bno bf = true <-> b_dev bf = D /\ b_blockno bf = bno.
Proof. unfold has_key. rewrite andb_true_iff, !Z.eqb_eq. done. Qed.

Lemma blk_cached s order bno i :
  bcache_inv D s order -> (i < NBUF)%nat -> has_key D bno (bufs s !!! i) = true ->
  blk s bno = if b_valid (bufs s !!! i) then b_data (bufs s !!! i) else read_block (disk s) bno.
Proof.
  intros Hinv Hi Hk. unfold blk.
  destruct (find _ (seq 0 NBUF)) as [j|] eqn:E.
  - apply find_some in E as [Hj Hkj]. apply in_seq in Hj.
    apply has_key_spec in Hk, Hkj. destruct Hk as [Hk1 Hk2], Hkj as [Hj1 Hj2].
    assert (i = j) as ->; [|done]. apply (bi_uniq _ _ _ Hinv); [done|lia|done|done|congruence].
  - pose proof (find_none _ _ E i ltac:(apply in_seq; lia)) as Hn. cbv beta in Hn. congruence.
Qed.

Lemma blk_uncached s bno :
  (forall i, (i < NBUF)%nat -> has_key D bno (bufs s !!! i) = false) -> blk s bno = read_block (disk s) bno.
Proof.
  intros Hn. unfold blk. destruct (find _ _) as [j|] eqn:E; [|done].
  apply find_some in E as [Hj Hkj]. apply in_seq in Hj. rewrite Hn in Hkj; [done|lia].
Qed.

Lemma lookup_total_insert_dec (bs : list buf) i j bf :
  (i < length bs)%nat -> <[i := bf]> bs !!! j = if decide (j = i) then bf else bs !!! j.
Proof.
  intros Hi. case_decide as E.
  - subst. by apply list_lookup_total_insert_eq.
  - by apply list_lookup_total_insert_ne.
Qed.

(** Replacing one buffer by one that is in use keeps the invariant. *)
Lemma bcache_inv_set s order i bf :
  bcache_inv D s order -> (i < NBUF)%nat ->
  b_next bf = bnext (bufs s) i -> b_prev bf = bprev (bufs s) i ->
  b_dev bf = D -> 0 < b_refcnt bf < 2 ^ 32 - 1 ->
  (forall j, (j < NBUF)%nat -> j <> i -> b_dev (bufs s !!! j) = D -> b_blockno (bufs s !!! j) <> b_blockno bf) ->
  bcache_inv D (set_bufs (<[i := bf]> (bufs s)) s) order.
Proof.
  intros Hinv Hi Hn Hp Hd Hr Hu. pose proof (bi_len _ _ _ Hinv) as Hlen.
  assert (Hl : forall j, <[i := bf]> (bufs s) !!! j = if decide (j = i) then bf else bufs s !!! j)
    by (intros j; apply lookup_total_insert_dec; lia).
  split; simpl.
  - by rewrite length_insert.
  - apply Hinv.
  - eapply adj_ext; [|apply Hinv]. intros xy _. unfold bnext, bprev in *. rewrite !Hl.
    split; case_decide as E; [by rewrite E|done|by rewrite E|done].
  - intros j Hj. rewrite Hl. case_decide; [by left|by apply Hinv].
  - intros j k Hj Hk. rewrite !Hl. repeat case_decide; subst; try done.
    + intros _ Hd1 Hd2. exfalso. by apply (Hu k).
    + intros Hd1 _ Hd2. exfalso. by apply (Hu j).
    + by apply Hinv.
  - intros j Hj. rewrite Hl. case_decide; [lia|by apply Hinv].
  - intros j Hj. rewrite Hl. case_decide; [lia|]. by apply Hinv.
Qed.

(** What bread leaves in the buffer it returns. *)
Definition read_buf (pid : Z) (data : list Z) (f : buf -> buf) (bf : buf) : buf :=
  set_b_valid true (set_b_data data (lock_buf pid (f bf))).

Lemma bread_eq s p order bno i f :
  idle s p -> bcache_inv D s order -> (0 < fuel)%nat -> (i < NBUF)%nat ->
  bget_choice (bufs s) order bno = Some (i, f) -> sl_locked (b_lock (bufs s !!! i)) = false ->
  (forall bf, b_lock (f bf) = b_lock bf) ->
  b_blockno (f (bufs s !!! i)) = bno ->
  blk s bno = (if b_valid (f (bufs s !!! i)) then b_data (f (bufs s !!! i)) else read_block (disk s) bno) ->
  bread D bno s =
  Ret i (set_bufs (<[i := read_buf (pid_of s p) (blk s bno) f (bufs s !!! i)]> (bufs s)) s).
Proof.
  intros Hid Hinv Hf Hi Hch Hun Hfl Hbno Hblk. unfold bread.
  rewrite (bind_Ret _ _ _ _ _ (bget_calm s p order bno i f Hid Hinv Hf Hch Hun Hfl)).
  set (g := fun bf => lock_buf (pid_of s p) (f bf)). set (s1 := set_bufs _ s).
  pose proof (bi_len _ _ _ Hinv) as Hlen.
  destruct (lookup_lt_is_Some_2 (bufs s) i ltac:(lia)) as [bf Hbf].
  assert (Ebf : bufs s !!! i = bf) by (by apply list_lookup_total_correct). rewrite Ebf in *.
  assert (E1 : bufs s1 = <[i := g bf]> (bufs s)).
  { unfold s1. simpl. by apply alter_as_insert. }
  assert (Eb1 : bufs s1 !!! i = g bf) by (rewrite E1; apply list_lookup_total_insert_eq; lia).
  assert (Hs1 : s1 = set_bufs (<[i := g bf]> (bufs s)) s) by (rewrite <- E1; done).
  unfold bind at 1, getb, gets. cbn [obind]. rewrite Eb1. change (b_valid (g bf)) with (b_valid (f bf)).
  rewrite Hblk. destruct (b_valid (f bf)) eqn:Hv; cbn [negb when].
  - unfold bind, ret. cbn [obind]. f_equal. rewrite Hs1. do 2 f_equal. unfold read_buf, g.
    destruct (f bf) as [? ? ? ? ? ? ? ? ?]; simpl in *. by subst.
  - assert (Hid1 : idle s1 p) by (rewrite Hs1; by apply (idle_blind (set_bufs _))).
    assert (Erw : (disk_rw i false;; modb i (set_b_valid true)) s1 =
      Ret tt (set_bufs (<[i := read_buf (pid_of s p) (read_block (disk s) bno) f bf]> (bufs s)) s)).
    { unfold bind. rewrite disk_rw_eq; [|apply Hid1|by eapply idle_lk].
      rewrite <- settle_blind by apply disk_xfer_blind. rewrite (cm_settled _ _ (id_calm _ _ Hid1)).
      cbn [obind]. unfold disk_xfer, modb, modify. rewrite Eb1.
      change (b_blockno (g bf)) with (b_blockno (f bf)). rewrite Hbno. cbn [bufs set_bufs].
      rewrite alter_alter, E1. erewrite alter_as_insert by (apply list_lookup_insert_eq; lia).
      rewrite list_insert_insert_eq, Hs1. done. }
    by rewrite (bind_Ret _ _ _ _ _ Erw).
Qed.

(** ** The cache as a map of blocks

    [V] gives every block's contents, [held] the reference counts of the blocks
    that have any, [lck] the blocks whose buffer process [p] has locked. *)
Record bview (s : kernel) (p : nat) (order : list nat) (V : Z -> list Z) (held : gmap Z Z)
    (lck : gset Z) : Prop := {
  bv_inv : bcache_inv D s order;
  bv_blk : forall bno, blk s bno = V bno;
  bv_held : forall bno n, held !! bno = Some n <->
    0 < n /\ exists i, (i < NBUF)%nat /\ has_key D bno (bufs s !!! i) = true /\ b_refcnt (bufs s !!! i) = n;
  bv_lock : forall bno i, (i < NBUF)%nat -> has_key D bno (bufs s !!! i) = true ->
    b_lock (bufs s !!! i) = if decide (bno ∈ lck) then mkSleeplock true (pid_of s p) else b_lock (bufs s !!! i);
  bv_unlock : forall bno i, (i < NBUF)%nat -> has_key D bno (bufs s !!! i) = true -> bno ∉ lck ->
    sl_locked (b_lock (bufs s !!! i)) = false;
  bv_lck : forall bno, bno ∈ lck -> is_Some (held !! bno)
}.

(** Buffer [i] is the valid, locked buffer of block [bno]. *)
Definition is_buf (s : kernel) (i : nat) (bno : Z) : Prop :=
  (i < NBUF)%nat /\ has_key D bno (bufs s !!! i) = true /\ b_valid (bufs s !!! i) = true.

(** With fewer than NBUF blocks in use there is a buffer to recycle. *)
Lemma bview_free s p order V held lck :
  bview s p order V held lck -> (size held < NBUF)%nat ->
  exists i, find (fun i => b_refcnt (bufs s !!! i) =? 0) (rev order) = Some i.
Proof.
  intros [Hinv _ Hheld _ _ _] Hsz. destruct (find _ (rev order)) as [i|] eqn:E; [by exists i|].
  exfalso. assert (Hall : forall i, (i < NBUF)%nat -> 0 < b_refcnt (bufs s !!! i) /\ b_dev (bufs s !!! i) = D).
  { intros i Hi. pose proof (find_none _ _ E i) as Hn. cbv beta in Hn.
    assert (Hin : In i (rev order)).
    { apply in_rev. rewrite rev_involutive. apply list_elem_of_In. by apply (order_lt D s). }
    specialize (Hn Hin). apply Z.eqb_neq in Hn. pose proof (bi_ref _ _ _ Hinv i Hi).
    split; [lia|]. destruct (bi_dev _ _ _ Hinv i Hi) as [?|(_ & _ & ?)]; [done|lia]. }
  set (f := fun i => b_blockno (bufs s !!! i)).
  assert (Hnd : NoDup (f <$> seq 0 NBUF)).
  { apply NoDup_fmap_2_strong; [|apply NoDup_seq]. intros i j Hi Hj Ef. apply elem_of_seq in Hi, Hj.
    apply (bi_uniq _ _ _ Hinv); [lia|lia|apply Hall; lia|apply Hall; lia|exact Ef]. }
  assert (Hsub : list_to_set (f <$> seq 0 NBUF) ⊆ dom held).
  { intros b Hb. apply elem_of_list_to_set, list_elem_of_fmap in Hb as (i & -> & Hi). apply elem_of_seq in Hi.
    apply elem_of_dom. exists (b_refcnt (bufs s !!! i)). apply Hheld.
    destruct (Hall i ltac:(lia)) as [? ?]. split; [done|]. exists i. split; [lia|]. split; [|done].
    by apply has_key_spec. }
  apply subseteq_size in Hsub. rewrite size_list_to_set, length_fmap, length_seq, size_dom in Hsub by done. lia.
Qed.

Definition fset {B} (V : Z -> B) (bno : Z) (v : B) : Z -> B := fun b => if decide (b = bno) then v else V b.

Lemma bview_key_unique s p order V held lck bno i j :
  bview s p order V held lck -> (i < NBUF)%nat -> (j < NBUF)%nat ->
  has_key D bno (bufs s !!! i) = true -> has_key D bno (bufs s !!! j) = true -> i = j.
Proof.
  intros Hv Hi Hj [Hi1 Hi2]%has_key_spec [Hj1 Hj2]%has_key_spec.
  apply (bi_uniq _ _ _ (bv_inv _ _ _ _ _ _ Hv)); [done|done|done|done|congruence].
Qed.

(** Replacing the buffer of a block, or recycling an unused buffer for it. *)
Lemma bview_set s p order V held lck i bf v lck' :
  bview s p order V held lck -> (i < NBUF)%nat ->
  b_next bf = bnext (bufs s) i -> b_prev bf = bprev (bufs s) i ->
  b_dev bf = D -> 0 < b_refcnt bf < 2 ^ 32 - 1 ->
  b_valid bf = true -> b_data bf = v ->
  has_key D (b_blockno bf) (bufs s !!! i) = true \/
    (b_refcnt (bufs s !!! i) = 0 /\ forall j, (j < NBUF)%nat -> has_key D (b_blockno bf) (bufs s !!! j) = false) ->
  b_lock bf = (if decide (b_blockno bf ∈ lck') then mkSleeplock true (pid_of s p) else b_lock bf) ->
  (b_blockno bf ∉ lck' -> sl_locked (b_lock bf) = false) ->
  (forall b, b <> b_blockno bf -> b ∈ lck' <-> b ∈ lck) ->
  bview (set_bufs (<[i := bf]> (bufs s)) s) p order (fset V (b_blockno bf) v)
    (<[b_blockno bf := b_refcnt bf]> held) lck'.
Proof.
  intros Hv Hi Hn Hp Hd Hr Hval Hdat Hold Hlk1 Hlk2 Hlck. pose proof Hv as [Hinv Hblk Hheld Hl1 Hl2 Hl3].
  set (bno := b_blockno bf) in *. pose proof (bi_len _ _ _ Hinv) as Hlen.
  assert (Hl : forall j, <[i := bf]> (bufs s) !!! j = if decide (j = i) then bf else bufs s !!! j)
    by (intros j; apply lookup_total_insert_dec; lia).
  assert (Hkey : has_key D bno bf = true) by (by apply has_key_spec).
  assert (Hoth : forall j, (j < NBUF)%nat -> j <> i -> has_key D bno (bufs s !!! j) = false).
  { intros j Hj Hne. destruct Hold as [Hk|[_ Hno]]; [|by apply Hno].
    destruct (has_key D bno (bufs s !!! j)) eqn:E; [|done]. exfalso. apply Hne.
    by eapply (bview_key_unique s p order V held lck bno). }
  assert (Hother : forall b, b <> bno -> has_key D b bf = false).
  { intros b Hb. destruct (has_key D b bf) eqn:E; [|done]. apply has_key_spec in E as [_ E]. done. }
  set (s' := set_bufs (<[i := bf]> (bufs s)) s).
  assert (Hinv' : bcache_inv D s' order).
  { apply bcache_inv_set; try done. intros j Hj Hne Hdj Hbj. pose proof (Hoth j Hj Hne) as E.
    assert (has_key D bno (bufs s !!! j) = true) by (by apply has_key_spec). congruence. }
  (* a block other than bno that buffer i held was clean *)
  assert (Hclean : forall b, b <> bno -> has_key D b (bufs s !!! i) = true ->
    V b = read_block (disk s) b /\ held !! b = None).
  { intros b Hb Hk. destruct Hold as [Hk'|[Hz _]].
    { apply has_key_spec in Hk as [_ ?], Hk' as [_ ?]. congruence. }
    rewrite <- Hblk, (blk_cached s order b i Hinv Hi Hk). destruct (bi_unref _ _ _ Hinv i Hi Hz) as [_ Hc]. split.
    - apply has_key_spec in Hk as [_ Hk]. destruct (b_valid (bufs s !!! i)) eqn:Evi; [|done].
      rewrite Hc by done. by rewrite Hk.
    - destruct (held !! b) as [n|] eqn:E; [|done]. apply Hheld in E as (Hpos & j & Hj & Hkj & Hrj).
      assert (j = i) as -> by (by eapply (bview_key_unique s p order V held lck b)). lia. }
  split.
  - exact Hinv'.
  - intros b. unfold fset. destruct (decide (b = bno)) as [->|E].
    + rewrite (blk_cached s' order bno i Hinv' Hi); simpl; rewrite Hl, decide_True by done; [|done].
      by rewrite Hval.
    + destruct (find (fun j => bool_decide (j <> i) && has_key D b (bufs s !!! j)) (seq 0 NBUF)) as [j|] eqn:Ef.
      * apply find_some in Ef as [Hj Hk]. apply in_seq in Hj.
        apply andb_true_iff in Hk as [Hne Hk]. apply bool_decide_eq_true in Hne.
        rewrite <- Hblk, (blk_cached s order b j Hinv) by (lia || done).
        rewrite (blk_cached s' order b j Hinv'); simpl; rewrite ?Hl, ?decide_False by done; done || lia.
      * rewrite blk_uncached.
        -- destruct (has_key D b (bufs s !!! i)) eqn:Ek; [by destruct (Hclean b E Ek) as [-> _]|].
           rewrite <- Hblk, blk_uncached; [done|]. intros j Hj. destruct (decide (j = i)) as [->|Hne]; [done|].
           pose proof (find_none _ _ Ef j ltac:(apply in_seq; lia)) as Hfn. cbv beta in Hfn.
           by rewrite bool_decide_true in Hfn.
        -- intros j Hj. simpl. rewrite Hl. destruct (decide (j = i)) as [_|Ej]; [by apply Hother|].
           pose proof (find_none _ _ Ef j ltac:(apply in_seq; lia)) as Hfn. cbv beta in Hfn.
           by rewrite bool_decide_true in Hfn.
  - intros b n. destruct (decide (b = bno)) as [->|E].
    + rewrite lookup_insert_eq. split.
      * intros [= <-]. split; [lia|]. exists i. simpl. by rewrite Hl, decide_True.
      * intros (_ & j & Hj & Hk & Hrj). simpl in Hk, Hrj. rewrite Hl in Hk, Hrj.
        destruct (decide (j = i)); [by f_equal|].
        by rewrite Hoth in Hk.
    + rewrite lookup_insert_ne by done. rewrite Hheld. split; intros (Hpos & j & Hj & Hk & Hrj); (split; [done|]);
        exists j; simpl in *; rewrite ?Hl in *.
      * destruct (decide (j = i)) as [->|]; [|done]. exfalso.
        destruct (Hclean b E Hk) as [_ Hno]. assert (held !! b = Some n); [|congruence].
        apply Hheld. split; [done|]. by exists i.
      * destruct (decide (j = i)) as [->|]; [|done]. by rewrite Hother in Hk.
  - intros b j Hj Hk. simpl in *. rewrite !Hl in *. change (pid_of s' p) with (pid_of s p).
    destruct (decide (j = i)) as [->|Hne].
    + apply has_key_spec in Hk as [_ <-]. exact Hlk1.
    + destruct (decide (b = bno)) as [->|E]; [by rewrite Hoth in Hk|].
      rewrite (Hl1 b j Hj Hk) at 1. apply decide_ext. symmetry. by apply Hlck.
  - intros b j Hj Hk Hb. simpl in *. rewrite Hl in *. destruct (decide (j = i)) as [->|Hne].
    + apply has_key_spec in Hk as [_ <-]. by apply Hlk2.
    + destruct (decide (b = bno)) as [->|E]; [by rewrite Hoth in Hk|].
      apply (Hl2 b j Hj Hk). by rewrite <- Hlck.
  - intros b Hb. destruct (decide (b = bno)) as [->|E]; [by rewrite lookup_insert_eq|].
    rewrite lookup_insert_ne by done. apply Hl3. by apply Hlck.
Qed.

Lemma bview_ext s p order V V' held held' lck :
  bview s p order V held lck -> (forall b, V b = V' b) -> held = held' -> bview s p order V' held' lck.
Proof. intros [] HV <-. split; try done. intros b. by rewrite <- HV. Qed.

(** bread: the locked, valid buffer of the block, with one more reference. *)
Lemma bview_bread s p order V held lck bno :
  idle s p -> bview s p order V held lck -> (0 < fuel)%nat -> bno ∉ lck ->
  is_Some (held !! bno) \/ (size held < NBUF)%nat -> default 0 (held !! bno) + 1 < 2 ^ 32 - 1 ->
  exists i bs', bread D bno s = Ret i (set_bufs bs' s) /\
    bview (set_bufs bs' s) p order V (<[bno := default 0 (held !! bno) + 1]> held) ({[bno]} ∪ lck) /\
    is_buf (set_bufs bs' s) i bno /\ b_data (bs' !!! i) = V bno /\
    forall k b, is_Some (held !! b) -> is_buf s k b -> is_buf (set_bufs bs' s) k b.
Proof.
  intros Hid Hv Hf Hnl Hav Hbound. pose proof Hv as [Hinv Hblk Hheld Hl1 Hl2 Hl3].
  pose proof (bi_len _ _ _ Hinv) as Hlen.
  assert (Hgo : forall i f, (i < NBUF)%nat -> bget_choice (bufs s) order bno = Some (i, f) ->
    sl_locked (b_lock (bufs s !!! i)) = false ->
    (forall bf, b_lock (f bf) = b_lock bf /\ b_next (f bf) = b_next bf /\ b_prev (f bf) = b_prev bf) ->
    b_dev (f (bufs s !!! i)) = D -> b_blockno (f (bufs s !!! i)) = bno ->
    b_refcnt (f (bufs s !!! i)) = default 0 (held !! bno) + 1 -> 0 <= default 0 (held !! bno) ->
    V bno = (if b_valid (f (bufs s !!! i)) then b_data (f (bufs s !!! i)) else read_block (disk s) bno) ->
    has_key D bno (bufs s !!! i) = true \/
      (b_refcnt (bufs s !!! i) = 0 /\ forall j, (j < NBUF)%nat -> has_key D bno (bufs s !!! j) = false) ->
    exists i bs', bread D bno s = Ret i (set_bufs bs' s) /\
      bview (set_bufs bs' s) p order V (<[bno := default 0 (held !! bno) + 1]> held) ({[bno]} ∪ lck) /\
      is_buf (set_bufs bs' s) i bno /\ b_data (bs' !!! i) = V bno /\
      forall k b, is_Some (held !! b) -> is_buf s k b -> is_buf (set_bufs bs' s) k b).
  { intros i f Hi Hch Hun Hlnk Hd Hb Hr Hpos HV Hold. exists i.
    set (bf := read_buf (pid_of s p) (blk s bno) f (bufs s !!! i)). exists (<[i := bf]> (bufs s)).
    assert (Hbb : b_blockno bf = bno) by exact Hb.
    assert (Hlt : <[i := bf]> (bufs s) !!! i = bf) by (apply list_lookup_total_insert_eq; lia).
    split.
    { apply (bread_eq s p order bno i f); try done; [intros bf'; apply Hlnk|by rewrite Hblk]. }
    split; [|split; [split; [done|]; simpl; rewrite Hlt; split; [by apply has_key_spec|done]
      |rewrite Hlt; split; [apply Hblk|]]].
    2: { intros k b [n Hn] (Hk1 & Hk2 & Hk3). split; [done|]. simpl.
      rewrite lookup_total_insert_dec by lia. destruct (decide (k = i)) as [->|]; [|by split].
      split; [|done]. apply has_key_spec. destruct Hold as [Hk|[Hz _]].
      - apply has_key_spec in Hk as [? ?], Hk2 as [? ?]. split; [exact Hd|]. congruence.
      - apply Hheld in Hn as (Hpos2 & j & Hj & Hkj & Hrj).
        assert (j = i) as -> by (by eapply (bview_key_unique s p order V held lck b)). lia. }
    eapply bview_ext; [apply (bview_set s p order V held lck i bf (blk s bno) ({[bno]} ∪ lck) Hv Hi)| |].
    - unfold bf, read_buf, bnext. apply Hlnk.
    - unfold bf, read_buf, bprev. apply Hlnk.
    - done.
    - change (b_refcnt bf) with (b_refcnt (f (bufs s !!! i))). lia.
    - done.
    - done.
    - by rewrite Hbb.
    - rewrite Hbb, decide_True by (by apply elem_of_union_l, elem_of_singleton). done.
    - rewrite Hbb. intros []. by apply elem_of_union_l, elem_of_singleton.
    - rewrite Hbb. intros b Hb'. rewrite elem_of_union, elem_of_singleton. split; [by intros [?|?]|by right].
    - intros b. unfold fset. rewrite Hbb. case_decide; [subst; apply Hblk|done].
    - rewrite Hbb. by f_equal. }
  destruct (find (fun i => has_key D bno (bufs s !!! i)) order) as [i|] eqn:Ef.
  - pose proof Ef as Ef'. apply find_some in Ef as [Hin Hk]. apply list_elem_of_In, (order_lt D s) in Hin; [|done].
    pose proof (proj1 (has_key_spec _ _) Hk) as [Hd Hb]. pose proof (bi_ref _ _ _ Hinv i Hin) as Href.
    assert (Hr : b_refcnt (bufs s !!! i) = default 0 (held !! bno)).
    { destruct (decide (b_refcnt (bufs s !!! i) = 0)) as [E|E].
      - destruct (held !! bno) as [n|] eqn:En; [|done]. apply Hheld in En as (Hp & j & Hj & Hkj & <-).
        assert (j = i) as -> by (by eapply (bview_key_unique s p order V held lck bno)). lia.
      - rewrite (proj2 (Hheld bno (b_refcnt (bufs s !!! i)))); [done|]. split; [lia|]. by exists i. }
    apply (Hgo i incref); try done.
    + unfold bget_choice. by rewrite Ef'.
    + by apply (Hl2 bno).
    + unfold incref. cbn [b_refcnt set_b_refcnt]. rewrite Hr. apply u32_small. lia.
    + lia.
    + rewrite <- Hblk. by rewrite (blk_cached s order bno i Hinv Hin Hk).
    + by left.
  - assert (Hno : forall j, (j < NBUF)%nat -> has_key D bno (bufs s !!! j) = false).
    { intros j Hj. apply (find_none _ _ Ef). apply list_elem_of_In. by apply (order_lt D s). }
    assert (Hnone : held !! bno = None).
    { destruct (held !! bno) as [n|] eqn:E; [|done]. apply Hheld in E as (_ & j & Hj & Hk & _).
      by rewrite Hno in Hk. }
    destruct Hav as [[n Hn]|Hsz]; [congruence|].
    destruct (bview_free s p order V held lck Hv Hsz) as [i Ei]. pose proof Ei as Ei'.
    apply find_some in Ei as [Hin Hz]. apply in_rev, list_elem_of_In, (order_lt D s) in Hin; [|done].
    apply Z.eqb_eq in Hz. rewrite Hnone in Hgo |- *. apply (Hgo i (recycle D bno)); try done.
    + unfold bget_choice. by rewrite Ef, Ei'.
    + by apply (bi_unref _ _ _ Hinv i Hin).
    + rewrite <- Hblk. by apply blk_uncached.
    + right. split; [done|exact Hno].
Qed.
End bread.
