(* ===== verification/BioView.v ===== *)
(** The operations of the buffer cache on its view as a map of blocks: bread,
    writes to a buffer, bwrite, bpin, bunpin and brelse. *)

From S2P Require Import Prelude Outcome Mem State Spinlock KString Kalloc Vm Proc ProcSpec Sleeplock Calm Bytes Disk Bio BioSpec.

(** A change of the buffers, the disk and the trace of its writes only. *)
Definition cache_only (s s' : kernel) : Prop :=
  s' = set_disk_writes (disk_writes s') (set_disk (disk s') (set_bufs (bufs s') s)).

Lemma cache_only_refl s : cache_only s s.
Proof. unfold cache_only. by destruct s. Qed.

Lemma cache_only_trans s1 s2 s3 : cache_only s1 s2 -> cache_only s2 s3 -> cache_only s1 s3.
Proof. unfold cache_only. intros E1 E2. rewrite E1 in E2. exact E2. Qed.

Lemma cache_only_bufs bs s : cache_only s (set_bufs bs s).
Proof. unfold cache_only. by destruct s. Qed.

Lemma cache_only_log s s' : cache_only s s' -> log s' = log s.
Proof. by intros ->. Qed.

Lemma cache_only_idle s s' p : cache_only s s' -> idle s p -> idle s' p.
Proof.
  intros -> Hid.
  by apply (idle_blind (fun s => set_disk_writes (disk_writes s') (set_disk (disk s') (set_bufs (bufs s') s)))).
Qed.

Lemma cache_only_pid s s' p : cache_only s s' -> pid_of s' p = pid_of s p.
Proof. by intros ->. Qed.

#[export] Hint Resolve cache_only_refl cache_only_bufs : kst.

(** ** Moving a buffer to the front of the list *)

(** Everything of the buffers but their links. *)
Definition same_core (bs bs' : list buf) : Prop :=
  forall j, set_b_next 0%nat (set_b_prev 0%nat (bs' !!! j)) = set_b_next 0%nat (set_b_prev 0%nat (bs !!! j)).

Lemma same_core_fields bs bs' j : same_core bs bs' ->
  b_valid (bs' !!! j) = b_valid (bs !!! j) /\ b_dev (bs' !!! j) = b_dev (bs !!! j) /\
  b_blockno (bs' !!! j) = b_blockno (bs !!! j) /\ b_lock (bs' !!! j) = b_lock (bs !!! j) /\
  b_refcnt (bs' !!! j) = b_refcnt (bs !!! j) /\ b_data (bs' !!! j) = b_data (bs !!! j).
Proof.
  intros Hs. specialize (Hs j). destruct (bs' !!! j), (bs !!! j). unfold set_b_next, set_b_prev in Hs.
  simpl in *. by injection Hs as -> -> -> -> -> -> ->.
Qed.

Lemma lookup_total_alter_dec f (bs : list buf) i j :
  (i < length bs)%nat -> alter f i bs !!! j = if decide (j = i) then f (bs !!! i) else bs !!! j.
Proof.
  intros Hi. destruct (lookup_lt_is_Some_2 bs i Hi) as [bf Hbf].
  rewrite (alter_as_insert _ _ _ _ Hbf), lookup_total_insert_dec by done.
  by rewrite (list_lookup_total_correct _ _ _ Hbf).
Qed.

Section links.
Variables (bs : list buf) (k x : nat).
Hypothesis Hk : (k < length bs)%nat.

Lemma bprev_set_prev j : bprev (alter (set_b_prev x) k bs) j = fupd (bprev bs) k x j.
Proof. unfold bprev, fupd. rewrite lookup_total_alter_dec by done. by case_decide. Qed.
Lemma bnext_set_prev j : bnext (alter (set_b_prev x) k bs) j = bnext bs j.
Proof. unfold bnext. rewrite lookup_total_alter_dec by done. by case_decide; subst. Qed.
Lemma bnext_set_next j : bnext (alter (set_b_next x) k bs) j = fupd (bnext bs) k x j.
Proof. unfold bnext, fupd. rewrite lookup_total_alter_dec by done. by case_decide. Qed.
Lemma bprev_set_next j : bprev (alter (set_b_next x) k bs) j = bprev bs j.
Proof. unfold bprev. rewrite lookup_total_alter_dec by done. by case_decide; subst. Qed.
Lemma same_core_prev : same_core bs (alter (set_b_prev x) k bs).
Proof. intros j. rewrite lookup_total_alter_dec by done. by case_decide; subst. Qed.
Lemma same_core_next : same_core bs (alter (set_b_next x) k bs).
Proof. intros j. rewrite lookup_total_alter_dec by done. by case_decide; subst. Qed.
End links.

(** The links move_front leaves. *)
Lemma move_front_eq b s :
  let bs := bufs s in
  (b < length bs)%nat -> (bhead < length bs)%nat -> b <> bhead ->
  (bnext bs b < length bs)%nat -> (bprev bs b < length bs)%nat ->
  (bnext bs bhead < length bs)%nat -> bnext bs b <> b ->
  let nx := fupd (bnext bs) (bprev bs b) (bnext bs b) in
  let pv := fupd (bprev bs) (bnext bs b) (bprev bs b) in
  let nx1 := fupd nx b (nx bhead) in
  let pv1 := fupd pv b bhead in
  exists bs', move_front b s = Ret tt (set_bufs bs' s) /\ length bs' = length bs /\ same_core bs bs' /\
    (forall j, bnext bs' j = fupd nx1 bhead b j) /\ (forall j, bprev bs' j = fupd pv1 (nx1 bhead) b j).
Proof.
  intros bs Hb Hh Hbh Hn Hp Hnh Hnb nx pv nx1 pv1.
  set (bs1 := alter (set_b_prev (bprev bs b)) (bnext bs b) bs).
  assert (L1 : length bs1 = length bs) by apply length_alter.
  set (bs2 := alter (set_b_next (bnext bs b)) (bprev bs b) bs1).
  assert (L2 : length bs2 = length bs) by (unfold bs2; by rewrite length_alter).
  assert (N2 : forall j, bnext bs2 j = nx j).
  { intros j. unfold bs2, nx. rewrite bnext_set_next by lia. unfold fupd. case_decide; [done|].
    unfold bs1. by apply bnext_set_prev. }
  assert (P2 : forall j, bprev bs2 j = pv j).
  { intros j. unfold bs2, pv. rewrite bprev_set_next by lia. unfold bs1. by apply bprev_set_prev. }
  set (bs4 := alter (set_b_prev bhead) b (alter (set_b_next (nx bhead)) b bs2)).
  assert (L4 : length bs4 = length bs) by (unfold bs4; by rewrite !length_alter).
  assert (N4 : forall j, bnext bs4 j = nx1 j).
  { intros j. unfold bs4, nx1. rewrite bnext_set_prev by (rewrite length_alter; lia).
    rewrite bnext_set_next by lia. unfold fupd. by rewrite N2. }
  assert (P4 : forall j, bprev bs4 j = pv1 j).
  { intros j. unfold bs4, pv1. rewrite bprev_set_prev by (rewrite length_alter; lia).
    unfold fupd. rewrite bprev_set_next by lia. by rewrite P2. }
  assert (Hx : (nx1 bhead < length bs)%nat).
  { unfold nx1, nx, fupd. rewrite decide_False by done. by case_decide. }
  exists (alter (set_b_next b) bhead (alter (set_b_prev b) (nx1 bhead) bs4)).
  split; [|split; [by rewrite !length_alter|split; [|split]]].
  - unfold move_front, bind, getb, gets, modb, modify. cbn [obind bufs set_bufs]. fold bs. fold (bnext bs b) (bprev bs b).
    fold bs1. fold (bnext bs1 b) (bprev bs1 b).
    assert (E1 : bnext bs1 b = bnext bs b) by (unfold bs1; by apply bnext_set_prev).
    assert (E2 : bprev bs1 b = bprev bs b).
    { unfold bs1. rewrite bprev_set_prev by done. unfold fupd. by rewrite decide_False. }
    rewrite E1, E2. fold bs2. fold (bnext bs2 bhead). rewrite N2. fold bs4. fold (bnext bs4 bhead). rewrite N4.
    by destruct s.
  - intros j. rewrite same_core_next by (rewrite length_alter; lia). rewrite same_core_prev by lia.
    unfold bs4. rewrite same_core_prev by (rewrite length_alter; lia). rewrite same_core_next by lia.
    unfold bs2. rewrite same_core_next by lia. unfold bs1. by rewrite same_core_prev.
  - intros j. rewrite bnext_set_next by (rewrite length_alter; lia). unfold fupd at 1. case_decide as E.
    + unfold fupd. by rewrite decide_True.
    + rewrite bnext_set_prev by lia. rewrite N4. unfold fupd. by rewrite decide_False.
  - intros j. rewrite bprev_set_next by (rewrite length_alter; lia). rewrite bprev_set_prev by lia.
    unfold fupd. case_decide; [done|]. by rewrite P4.
Qed.

Lemma ring_ext (nx pv nx' pv' : nat -> nat) h l :
  (forall j, nx' j = nx j) -> (forall j, pv' j = pv j) -> ring nx pv h l -> ring nx' pv' h l.
Proof. intros Hn Hp. apply adj_ext. intros xy _. by rewrite Hn, Hp. Qed.

Lemma ring_nx_in nx pv h (l : list nat) x : ring nx pv h l -> x ∈ h :: l -> nx x ∈ h :: l.
Proof.
  intros Hr Hx. unfold ring in Hr.
  apply list_elem_of_split in Hx as (l1 & l2 & E). 
  assert (Ec : h :: l ++ [h] = l1 ++ x :: (l2 ++ [h])) by (rewrite app_comm_cons, E, <- app_assoc; done).
  rewrite Ec in Hr. destruct (l2 ++ [h]) as [|y Y] eqn:EY; [by destruct l2|]. rewrite adj_app in Hr.
  apply Forall_app in Hr as [_ Hr]. apply Forall_cons in Hr as [[Hy _] _]. cbn [fst snd] in Hy.
  rewrite Hy, E. assert (Hin : y ∈ l2 ++ [h]) by (rewrite EY; apply list_elem_of_here).
  apply elem_of_app in Hin as [?| ->%list_elem_of_singleton]; [|rewrite <- E; apply list_elem_of_here].
  apply elem_of_app. right. by apply list_elem_of_further.
Qed.

Lemma ring_pv_in nx pv h (l : list nat) x : ring nx pv h l -> x ∈ l -> pv x ∈ h :: l.
Proof.
  intros Hr Hx. unfold ring in Hr. apply list_elem_of_split in Hx as (l1 & l2 & ->).
  destruct (exists_last (l := h :: l1)) as (X & y & EX); [done|].
  assert (Ec : h :: (l1 ++ x :: l2) ++ [h] = X ++ y :: x :: (l2 ++ [h])).
  { rewrite <- app_assoc. change (h :: l1 ++ (x :: l2) ++ [h]) with ((h :: l1) ++ x :: (l2 ++ [h])).
    by rewrite EX, <- app_assoc. }
  rewrite Ec, adj_app in Hr. apply Forall_app in Hr as [_ Hr]. apply Forall_cons in Hr as [[_ Hy] _]. cbn [fst snd] in Hy.
  rewrite Hy, app_comm_cons, EX, elem_of_app, elem_of_app, list_elem_of_singleton. tauto.
Qed.

(** The most recently used order after [b] is used. *)
Definition to_front (b : nat) (order : list nat) : list nat := b :: filter (fun i => i <> b) order.

Lemma filter_all_id (b : nat) (l : list nat) : b ∉ l -> filter (fun i => i <> b) l = l.
Proof.
  induction l as [|x l IH]; [done|]. intros [Hx Hl]%not_elem_of_cons.
  rewrite filter_cons_True by done. by rewrite IH.
Qed.

Lemma to_front_split b l1 l2 : NoDup (l1 ++ b :: l2) -> to_front b (l1 ++ b :: l2) = b :: l1 ++ l2.
Proof.
  intros Hnd. unfold to_front. rewrite filter_app, filter_cons_False by naive_solver.
  apply NoDup_app in Hnd as (_ & Hd & Hnd). apply NoDup_cons in Hnd as [Hb _].
  rewrite !filter_all_id; [done|done|]. intros Hj. apply (Hd _ Hj), list_elem_of_here.
Qed.

(** move_front keeps the list a ring, now with [b] first. *)
Lemma move_front_ring D s order b :
  bcache_inv D s order -> (b < NBUF)%nat ->
  exists bs', move_front b s = Ret tt (set_bufs bs' s) /\ length bs' = S NBUF /\ same_core (bufs s) bs' /\
    to_front b order ≡ₚ order /\ ring (bnext bs') (bprev bs') bhead (to_front b order).
Proof.
  intros Hinv Hb. pose proof (bi_len _ _ _ Hinv) as Hlen. pose proof (order_nodup _ _ _ Hinv) as Hnd.
  pose proof (bi_ring _ _ _ Hinv) as Hr.
  assert (Hlt : forall x, x ∈ bhead :: order -> (x < length (bufs s))%nat).
  { intros x Hx. rewrite Hlen. apply elem_of_cons in Hx as [->|Hx]; [unfold bhead; lia|].
    apply (order_lt D s) in Hx; [lia|done]. }
  assert (Hin : b ∈ order) by (by apply (order_lt D s)).
  pose proof (ring_nx_in _ _ _ _ b Hr ltac:(by right)) as Hnx.
  pose proof (ring_pv_in _ _ _ _ b Hr Hin) as Hpv.
  pose proof (ring_nx_in _ _ _ _ bhead Hr ltac:(by left)) as Hnh.
  pose proof Hin as Hsp. apply list_elem_of_split in Hsp as (l1 & l2 & E). rewrite E in Hnd, Hr.
  assert (Hbh : b <> bhead) by (unfold bhead; lia).
  pose proof (ring_unlink _ _ _ _ _ _ Hnd Hr) as Hu.
  assert (Hnd' : NoDup (bhead :: l1 ++ l2) /\ b ∉ l1 ++ l2).
  { rewrite <- Permutation_middle in Hnd. apply NoDup_cons in Hnd as [Hh Hnd]. apply NoDup_cons in Hnd as [Hb' Hnd].
    split; [|done]. apply NoDup_cons. split; [|done]. intros Hx. apply Hh. by right. }
  assert (Hnb : bnext (bufs s) b <> b).
  { intros Eb. unfold ring in Hr. rewrite <- app_assoc in Hr.
    change (bhead :: l1 ++ (b :: l2) ++ [bhead]) with ((bhead :: l1) ++ b :: (l2 ++ [bhead])) in Hr.
    destruct (l2 ++ [bhead]) as [|y Y] eqn:EY; [by destruct l2|]. rewrite adj_app in Hr.
    apply Forall_app in Hr as [_ Hr]. apply Forall_cons in Hr as [[Ey _] _]. cbn [fst snd] in Ey.
    assert (Hy : y ∈ l2 ++ [bhead]) by (rewrite EY; apply list_elem_of_here).
    rewrite <- Ey, Eb in Hy. destruct Hnd' as [_ Hb']. apply Hb'.
    apply elem_of_app in Hy as [?|Hy%list_elem_of_singleton]; [|done]. apply elem_of_app. by right. }
  pose proof (move_front_eq b s) as Hmf. cbv zeta in Hmf.
  destruct Hmf as (bs' & Heq & Hl' & Hc & HN & HP); [apply Hlt; by right|apply Hlt; by left|done|
    by apply Hlt|by apply Hlt|by apply Hlt|done|].
  exists bs'. split; [done|]. split; [congruence|]. split; [done|].
  rewrite E, to_front_split by (by apply NoDup_cons in Hnd as [_ ?]). split; [by rewrite Permutation_middle|].
  eapply ring_ext; [exact HN|exact HP|]. apply ring_push; [apply Hnd'|done|apply Hnd'|exact Hu].
Qed.

(** ** The operations on the view *)

Section view.
Context `{Fuel} `{DiskLaws} (D : Z) (p : nat).

(** The buffers of the blocks in [held] stay where they are. *)
Definition keeps (held : gmap Z Z) (s s' : kernel) : Prop :=
  forall k b, is_Some (held !! b) -> is_buf D s k b -> is_buf D s' k b.

Lemma keeps_refl held s : keeps held s s.
Proof. by intros k b. Qed.

Lemma view_data s order V held lck i bno :
  bview D s p order V held lck -> is_buf D s i bno -> b_data (bufs s !!! i) = V bno.
Proof.
  intros Hv (Hi & Hk & Hval). rewrite <- (bv_blk _ _ _ _ _ _ _ Hv).
  rewrite (blk_cached D s order bno i (bv_inv _ _ _ _ _ _ _ Hv) Hi Hk). by rewrite Hval.
Qed.

Lemma view_ref s order V held lck i bno n :
  bview D s p order V held lck -> is_buf D s i bno -> held !! bno = Some n ->
  b_refcnt (bufs s !!! i) = n /\ 0 < n < 2 ^ 32 - 1.
Proof.
  intros Hv (Hi & Hk & _) Hh. pose proof (bi_ref _ _ _ (bv_inv _ _ _ _ _ _ _ Hv) i Hi).
  apply (bv_held _ _ _ _ _ _ _ Hv) in Hh as (Hn & j & Hj & Hkj & Hr).
  assert (j = i) as -> by (by eapply (bview_key_unique D s p order V held lck bno)). lia.
Qed.

Lemma view_lock s order V held lck i bno :
  bview D s p order V held lck -> is_buf D s i bno -> bno ∈ lck ->
  b_lock (bufs s !!! i) = mkSleeplock true (pid_of s p).
Proof.
  intros Hv (Hi & Hk & _) Hl. rewrite (bv_lock _ _ _ _ _ _ _ Hv bno i Hi Hk). by rewrite decide_True.
Qed.

(** Changing the contents, the reference count and the lock of a buffer in use. *)
Lemma view_update s order V held lck lck' i bno f :
  bview D s p order V held lck -> is_buf D s i bno ->
  (forall bf, b_next (f bf) = b_next bf /\ b_prev (f bf) = b_prev bf /\ b_dev (f bf) = b_dev bf /\
    b_blockno (f bf) = b_blockno bf /\ b_valid (f bf) = b_valid bf) ->
  0 < b_refcnt (f (bufs s !!! i)) < 2 ^ 32 - 1 ->
  b_lock (f (bufs s !!! i)) =
    (if decide (bno ∈ lck') then mkSleeplock true (pid_of s p) else b_lock (f (bufs s !!! i))) ->
  (bno ∉ lck' -> sl_locked (b_lock (f (bufs s !!! i))) = false) ->
  (forall b, b <> bno -> b ∈ lck' <-> b ∈ lck) ->
  let s' := set_bufs (alter f i (bufs s)) s in
  bview D s' p order (fset V bno (b_data (f (bufs s !!! i)))) (<[bno := b_refcnt (f (bufs s !!! i))]> held) lck' /\
  keeps held s s'.
Proof.
  intros Hv Hib Hf Hr Hl1 Hl2 Hl3 s'. pose proof Hib as (Hi & Hk & Hval).
  pose proof (bi_len _ _ _ (bv_inv _ _ _ _ _ _ _ Hv)) as Hlen.
  destruct (lookup_lt_is_Some_2 (bufs s) i ltac:(lia)) as [bf Hbf].
  pose proof (list_lookup_total_correct _ _ _ Hbf) as Ebf.
  destruct (Hf bf) as (F1 & F2 & F3 & F4 & F5). pose proof (proj1 (has_key_spec D _ _) Hk) as [Kd Kb].
  assert (Eb : b_blockno (f bf) = bno) by congruence. split.
  - unfold s'. rewrite (alter_as_insert _ _ _ _ Hbf), Ebf in *. rewrite <- Eb.
    apply (bview_set D s p order V held lck i); rewrite ?Eb, ?Ebf; try done.
    + unfold bnext. by rewrite Ebf.
    + unfold bprev. by rewrite Ebf.
    + congruence.
    + congruence.
    + by left.
  - intros k b _ (Hk1 & Hk2 & Hk3). split; [done|]. unfold s'. simpl. rewrite lookup_total_alter_dec by lia.
    destruct (decide (k = i)) as [->|]; [|by split]. rewrite Ebf in *. split; [|congruence].
    apply has_key_spec in Hk2. apply has_key_spec. rewrite F3, F4. done.
Qed.

(** Writing to the data of a locked buffer. *)
Lemma view_modbd s order V held lck i bno g :
  bview D s p order V held lck -> is_buf D s i bno -> is_Some (held !! bno) ->
  exists s', modb i (fun bf => set_b_data (g (b_data bf)) bf) s = Ret tt s' /\ cache_only s s' /\
    disk s' = disk s /\ disk_writes s' = disk_writes s /\ keeps held s s' /\
    bview D s' p order (fset V bno (g (V bno))) held lck.
Proof.
  intros Hv Hib [n Hn]. eexists. split; [reflexivity|]. split; [apply cache_only_bufs|]. do 2 (split; [done|]).
  destruct (view_ref _ _ _ _ _ _ _ _ Hv Hib Hn) as [Hr Hrb].
  destruct (view_update s order V held lck lck i bno (fun bf => set_b_data (g (b_data bf)) bf) Hv Hib) as [Hv' Hk].
  - done.
  - simpl. lia.
  - apply (bv_lock _ _ _ _ _ _ _ Hv bno i); apply Hib.
  - apply (bv_unlock _ _ _ _ _ _ _ Hv bno i); apply Hib.
  - done.
  - split; [exact Hk|]. eapply bview_ext; [exact Hv'| |].
    + intros b. simpl. by rewrite (view_data _ _ _ _ _ _ _ Hv Hib).
    + simpl. rewrite Hr. by apply insert_id.
Qed.

(** bread, with the frame. *)
Lemma view_bread s order V held lck bno :
  idle s p -> bview D s p order V held lck -> (0 < fuel)%nat -> bno ∉ lck ->
  is_Some (held !! bno) \/ (size held < NBUF)%nat -> default 0 (held !! bno) + 1 < 2 ^ 32 - 1 ->
  exists i s', bread D bno s = Ret i s' /\ cache_only s s' /\
    disk s' = disk s /\ disk_writes s' = disk_writes s /\ keeps held s s' /\ is_buf D s' i bno /\
    bview D s' p order V (<[bno := default 0 (held !! bno) + 1]> held) ({[bno]} ∪ lck).
Proof.
  intros Hid Hv Hf Hn Hav Hb.
  destruct (bview_bread D s p order V held lck bno Hid Hv Hf Hn Hav Hb) as (i & bs' & He & Hv' & Hib & _ & Hk).
  exists i, (set_bufs bs' s). split; [done|]. split; [apply cache_only_bufs|]. do 2 (split; [done|]).
  split; [|done]. exact Hk.
Qed.

(** bwrite: the block reaches the disk. *)
Lemma bcache_inv_disk s order i bno d w :
  bcache_inv D s order -> is_buf D s i bno -> 0 < b_refcnt (bufs s !!! i) ->
  bcache_inv D (set_disk (<[bno := d]> (disk s)) (set_disk_writes w s)) order.
Proof.
  intros Hinv (Hi & Hk & _) Hr. split; try apply Hinv.
  intros j Hj Hz. destruct (bi_unref _ _ _ Hinv j Hj Hz) as [Hl Hc]. split; [done|].
  intros Hv. simpl in *. rewrite Hc by done. unfold read_block. rewrite lookup_insert_ne; [done|].
  intros E. apply has_key_spec in Hk as [Kd Kb].
  destruct (bi_dev _ _ _ Hinv j Hj) as [Hd|(_ & Hv' & _)]; [|congruence].
  assert (i = j) by (apply (bi_uniq _ _ _ Hinv); congruence). subst. lia.
Qed.

Lemma view_bwrite s order V held lck i bno :
  idle s p -> bview D s p order V held lck -> is_buf D s i bno -> bno ∈ lck ->
  exists s', bwrite i s = Ret tt s' /\ cache_only s s' /\
    disk s' = <[bno := V bno]> (disk s) /\ disk_writes s' = (bno, V bno) :: disk_writes s /\
    bufs s' = bufs s /\ bview D s' p order V held lck.
Proof.
  intros Hid Hv Hib Hl. pose proof Hid as [Hc _]. pose proof Hib as (Hi & Hk & Hval).
  pose proof (view_data _ _ _ _ _ _ _ Hv Hib) as Hd. pose proof (view_lock _ _ _ _ _ _ _ Hv Hib Hl) as Hlk.
  destruct (bv_lck _ _ _ _ _ _ _ Hv bno Hl) as [n Hn].
  destruct (view_ref _ _ _ _ _ _ _ _ Hv Hib Hn) as [Hr Hrb].
  pose proof (proj1 (has_key_spec D _ _) Hk) as [Kd Kb].
  set (s' := set_disk (<[bno := V bno]> (disk s)) (set_disk_writes ((bno, V bno) :: disk_writes s) s)).
  exists s'. split; [|split; [by destruct s|do 3 (split; [done|])]].
  - unfold bwrite. rewrite (bind_Ret _ _ _ _ _ (holdingsleep_calm (SLbuf i) s p Hc (idle_lk _ _ _ Hid))).
    cbn [sl_of]. rewrite Hlk. cbn [sl_locked sl_pid]. rewrite Z.eqb_refl. cbn [negb andb].
    rewrite disk_rw_eq; [|apply Hc|by eapply idle_lk].
    rewrite <- settle_blind by apply disk_xfer_blind. rewrite (cm_settled _ _ Hc).
    unfold disk_xfer. rewrite Kb, Hd. done.
  - assert (Hinv' : bcache_inv D s' order).
    { eapply bcache_inv_disk; [apply Hv|exact Hib|lia]. }
    pose proof Hv as [Hinv Hblk Hheld Hl1 Hl2 Hl3]. split; try done. intros b.
    rewrite <- Hblk. unfold blk. change (bufs s') with (bufs s).
    destruct (find _ _) as [j|] eqn:E.
    + destruct (b_valid (bufs s !!! j)) eqn:Evj; [done|]. apply find_some in E as [Hj Hkj]. apply in_seq in Hj.
      unfold read_block. simpl. rewrite lookup_insert_ne; [done|]. intros ->.
      assert (j = i) as -> by (eapply (bview_key_unique D s p order V held lck b); (done || lia)). congruence.
    + unfold read_block. simpl. rewrite lookup_insert_ne; [done|]. intros ->.
      pose proof (find_none _ _ E i ltac:(apply in_seq; lia)) as Hno. cbv beta in Hno. congruence.
Qed.

(** bpin and bunpin: one reference more or less. *)
Definition addref (d : Z) (bf : buf) : buf := set_b_refcnt (u32 (b_refcnt bf + d)) bf.

Lemma addref_calm s i d :
  calm s p -> locks s !! LBcache = None ->
  (acquire LBcache;; modb i (addref d);; release LBcache) s = Ret tt (set_bufs (alter (addref d) i (bufs s)) s).
Proof.
  intros Hc Hl. rewrite (bind_Ret _ _ _ _ _ (acquire_eq LBcache s Hl)).
  unfold bind, modb, modify. cbn [obind].
  by rewrite (critical_calm LBcache (fun s0 => set_bufs (alter (addref d) i (bufs s)) s0) s p Hc Hl).
Qed.

Lemma bview_addref s order V held lck i bno n d :
  bview D s p order V held lck -> is_buf D s i bno -> held !! bno = Some n -> 0 < n + d < 2 ^ 32 - 1 ->
  let s' := set_bufs (alter (addref d) i (bufs s)) s in
  bview D s' p order V (<[bno := n + d]> held) lck /\ keeps held s s'.
Proof.
  intros Hv Hib Hn Hd. destruct (view_ref _ _ _ _ _ _ _ _ Hv Hib Hn) as [Hr Hrb].
  assert (Hf : b_refcnt (addref d (bufs s !!! i)) = n + d).
  { unfold addref. cbn [b_refcnt set_b_refcnt]. rewrite Hr. apply u32_small. lia. }
  destruct (view_update s order V held lck lck i bno (addref d) Hv Hib) as [Hv' Hk].
  - done.
  - lia.
  - apply (bv_lock _ _ _ _ _ _ _ Hv bno i); apply Hib.
  - apply (bv_unlock _ _ _ _ _ _ _ Hv bno i); apply Hib.
  - done.
  - split; [|exact Hk]. eapply bview_ext; [exact Hv'| |by rewrite Hf].
    intros b. unfold fset. change (b_data (addref d (bufs s !!! i))) with (b_data (bufs s !!! i)).
    rewrite (view_data _ _ _ _ _ _ _ Hv Hib). by case_decide; subst.
Qed.

Lemma view_addref s order V held lck i bno n d :
  idle s p -> bview D s p order V held lck -> is_buf D s i bno -> held !! bno = Some n ->
  0 < n + d < 2 ^ 32 - 1 ->
  exists s', (acquire LBcache;; modb i (addref d);; release LBcache) s =
    Ret tt s' /\ cache_only s s' /\ disk s' = disk s /\ disk_writes s' = disk_writes s /\ keeps held s s' /\
    bview D s' p order V (<[bno := n + d]> held) lck.
Proof.
  intros Hid Hv Hib Hn Hd. destruct (bview_addref s order V held lck i bno n d Hv Hib Hn Hd) as [Hv' Hk].
  eexists. split; [apply addref_calm; [apply Hid|by eapply idle_lk]|]. split; [apply cache_only_bufs|].
  do 2 (split; [done|]). done.
Qed.

Lemma view_bpin s order V held lck i bno n :
  idle s p -> bview D s p order V held lck -> is_buf D s i bno -> held !! bno = Some n -> n < 2 ^ 32 - 2 ->
  exists s', bpin i s = Ret tt s' /\ cache_only s s' /\ disk s' = disk s /\ disk_writes s' = disk_writes s /\
    keeps held s s' /\ bview D s' p order V (<[bno := n + 1]> held) lck.
Proof.
  intros Hid Hv Hib Hn Hb. destruct (view_ref _ _ _ _ _ _ _ _ Hv Hib Hn).
  apply (view_addref s order V held lck i bno n 1); (done || lia).
Qed.

Lemma view_bunpin s order V held lck i bno n :
  idle s p -> bview D s p order V held lck -> is_buf D s i bno -> held !! bno = Some n -> 1 < n ->
  exists s', bunpin i s = Ret tt s' /\ cache_only s s' /\ disk s' = disk s /\ disk_writes s' = disk_writes s /\
    keeps held s s' /\ bview D s' p order V (<[bno := n - 1]> held) lck.
Proof.
  intros Hid Hv Hib Hn Hb. destruct (view_ref _ _ _ _ _ _ _ _ Hv Hib Hn).
  apply (view_addref s order V held lck i bno n (-1)); (done || lia).
Qed.

(** Relinking the list changes nothing but the order. *)
Lemma same_core_key bs bs' b j : same_core bs bs' -> has_key D b (bs' !!! j) = has_key D b (bs !!! j).
Proof. intros Hc. unfold has_key. by destruct (same_core_fields bs bs' j Hc) as (_ & -> & -> & _). Qed.

Lemma find_ext {A} (f g : A -> bool) l : (forall x, f x = g x) -> find f l = find g l.
Proof. intros Hfg. induction l as [|x l IH]; [done|]. simpl. by rewrite Hfg, IH. Qed.

Lemma view_relink s order order' V held lck bs' :
  bview D s p order V held lck -> same_core (bufs s) bs' -> length bs' = S NBUF -> order' ≡ₚ order ->
  ring (bnext bs') (bprev bs') bhead order' ->
  bview D (set_bufs bs' s) p order' V held lck.
Proof.
  intros [Hinv Hblk Hheld Hl1 Hl2 Hl3] Hc Hlen Hperm Hring.
  assert (Hfd : forall j, _) by (intros j; exact (same_core_fields (bufs s) bs' j Hc)).
  assert (Hkey : forall b j, _) by (intros b j; exact (same_core_key (bufs s) bs' b j Hc)).
  split.
  - split; simpl; [done|by rewrite Hperm, (bi_perm _ _ _ Hinv)|done| | | |].
    + intros j Hj. destruct (Hfd j) as (-> & -> & _ & _ & -> & _). by apply Hinv.
    + intros j k Hj Hk. destruct (Hfd j) as (_ & -> & -> & _), (Hfd k) as (_ & -> & -> & _). by apply Hinv.
    + intros j Hj. destruct (Hfd j) as (_ & _ & _ & _ & -> & _). by apply Hinv.
    + intros j Hj. destruct (Hfd j) as (-> & _ & -> & -> & -> & ->). by apply Hinv.
  - intros b. rewrite <- Hblk. unfold blk. cbn [bufs disk set_bufs]. erewrite find_ext by (intros j; apply Hkey).
    destruct (find _ _) as [j|]; [|done]. by destruct (Hfd j) as (-> & _ & _ & _ & _ & ->).
  - intros b n. rewrite Hheld. simpl. split; intros (Hn & j & Hj & Hk & Hr); (split; [done|]); exists j;
      destruct (Hfd j) as (_ & _ & _ & _ & Er & _); [rewrite Hkey, Er|rewrite <- (Hkey b j), <- Er]; done.
  - intros b j Hj Hk. simpl in *. rewrite Hkey in Hk. destruct (Hfd j) as (_ & _ & _ & -> & _). by apply Hl1.
  - intros b j Hj Hk. simpl in *. rewrite Hkey in Hk. destruct (Hfd j) as (_ & _ & _ & -> & _). by apply Hl2.
  - done.
Qed.

(** Giving up the last reference to a block that agrees with the disk. *)
Lemma view_drop s order V held lck i bno n :
  let f := fun bf => set_b_refcnt 0 (set_b_lock (mkSleeplock false 0) bf) in
  bview D s p order V held lck -> is_buf D s i bno -> held !! bno = Some n -> V bno = read_block (disk s) bno ->
  bview D (set_bufs (alter f i (bufs s)) s) p order V (delete bno held) (lck ∖ {[bno]}).
Proof.
  intros f Hv Hib Hn Hc. pose proof (view_data _ _ _ _ _ _ _ Hv Hib) as Hd.
  pose proof Hv as [Hinv Hblk Hheld Hl1 Hl2 Hl3]. pose proof Hib as (Hi & Hk & Hval).
  assert (Hl : forall j, alter f i (bufs s) !!! j = if decide (j = i) then f (bufs s !!! i) else bufs s !!! j)
    by (intros j; apply lookup_total_alter_dec; rewrite (bi_len _ _ _ Hinv); lia).
  assert (Hkey : forall b j, has_key D b (alter f i (bufs s) !!! j) = has_key D b (bufs s !!! j)).
  { intros b j. rewrite Hl. by case_decide; subst. }
  assert (Hu : forall b j, (j < NBUF)%nat -> has_key D b (bufs s !!! j) = true -> b <> bno -> j <> i).
  { intros b j Hj Hkj Hb ->. apply has_key_spec in Hk as [_ ?], Hkj as [_ ?]. congruence. }
  split.
  - split; simpl; [by rewrite length_alter, (bi_len _ _ _ Hinv)|apply Hinv| | | | |].
    + eapply ring_ext; [| |apply (bi_ring _ _ _ Hinv)]; intros j; unfold bnext, bprev; rewrite Hl;
        by case_decide; subst.
    + intros j Hj. rewrite Hl. case_decide; [|by apply Hinv]. left. by apply has_key_spec in Hk as [? _].
    + intros j k Hj Hk'. rewrite !Hl. pose proof (bi_uniq _ _ _ Hinv j k Hj Hk').
      by repeat case_decide; subst.
    + intros j Hj. rewrite Hl. case_decide; [done|by apply Hinv].
    + intros j Hj. rewrite Hl. case_decide; [|by apply Hinv]. simpl. intros _. split; [done|]. intros _.
      rewrite Hd, Hc. by apply has_key_spec in Hk as [_ ->].
  - intros b. rewrite <- Hblk. unfold blk. cbn [bufs disk set_bufs]. erewrite find_ext by (intros j; apply Hkey).
    destruct (find _ _) as [j|]; [|done]. rewrite Hl. by case_decide; subst.
  - intros b m. destruct (decide (b = bno)) as [->|Hb].
    + rewrite lookup_delete_eq. split; [done|]. intros (Hm & j & Hj & Hkj & Hr). simpl in *. rewrite Hkey in Hkj.
      assert (j = i) as -> by (by eapply (bview_key_unique D s p order V held lck bno)).
      rewrite Hl, decide_True in Hr by done. simpl in Hr. lia.
    + rewrite lookup_delete_ne by done. rewrite Hheld. simpl.
      split; intros (Hm & j & Hj & Hkj & Hr); (split; [done|]); exists j; rewrite ?Hkey in *;
        assert (j <> i) by (by apply (Hu b)); rewrite Hl, decide_False in *; done.
  - intros b j Hj Hkj. simpl in *. rewrite Hkey in Hkj. rewrite Hl. destruct (decide (b = bno)) as [->|Hb].
    + rewrite (decide_False (P := bno ∈ _)); [done|].
      rewrite elem_of_difference, elem_of_singleton. tauto.
    + rewrite !(decide_False (P := j = i)) by (by apply (Hu b)). rewrite (Hl1 b j Hj Hkj) at 1. apply decide_ext.
      rewrite elem_of_difference, elem_of_singleton. tauto.
  - intros b j Hj Hkj Hb. simpl in *. rewrite Hkey in Hkj. rewrite Hl. destruct (decide (j = i)) as [->|]; [done|].
    apply (Hl2 b j Hj Hkj). intros Hb'. apply Hb, elem_of_difference. split; [done|].
    intros ->%elem_of_singleton. by assert (j = i) by (by eapply (bview_key_unique D s p order V held lck bno)).
  - intros b [Hb Hb']%elem_of_difference. rewrite not_elem_of_singleton in Hb'.
    rewrite lookup_delete_ne by done. by apply Hl3.
Qed.

(** brelse up to the choice whether to move the buffer. *)
Definition unref (bf : buf) : buf := set_b_refcnt (u32 (b_refcnt bf - 1)) (set_b_lock (mkSleeplock false 0) bf).

Lemma brelse_run s i bs' :
  idle s p -> (i < length (bufs s))%nat -> b_lock (bufs s !!! i) = mkSleeplock true (pid_of s p) ->
  let bs1 := alter unref i (bufs s) in
  (if b_refcnt (bs1 !!! i) =? 0
   then move_front i (set_bufs bs1 (acquired LBcache s)) = Ret tt (set_bufs bs' (acquired LBcache s))
   else bs' = bs1) ->
  brelse i s = Ret tt (set_bufs bs' s).
Proof.
  intros Hid Hi Hlk bs1 Hmv. pose proof Hid as [Hc _]. unfold brelse.
  rewrite (bind_Ret _ _ _ _ _ (holdingsleep_calm (SLbuf i) s p Hc (idle_lk _ _ _ Hid))).
  cbn [sl_of]. rewrite Hlk. cbn [sl_locked sl_pid]. rewrite Z.eqb_refl. cbn [negb andb].
  rewrite (bind_Ret _ _ _ _ _ (releasesleep_calm (SLbuf i) s p Hc (idle_lk _ _ _ Hid))). cbn [upd_sl].
  set (s1 := set_bufs _ s). assert (Hid1 : idle s1 p) by (by apply (idle_blind (set_bufs _))).
  rewrite (bind_Ret _ _ _ _ _ (acquire_eq LBcache s1 (idle_lk _ _ _ Hid1))).
  unfold bind at 1, modb, modify. cbn [obind]. unfold bind at 1, getb, gets. cbn [obind bufs set_bufs].
  assert (Ebs : alter (fun bf => set_b_refcnt (u32 (b_refcnt bf - 1)) bf) i (bufs (acquired LBcache s1)) = bs1).
  { change (bufs (acquired LBcache s1)) with (bufs s1). unfold s1. cbn [bufs set_bufs]. by rewrite alter_alter. }
  rewrite Ebs. change (set_bufs bs1 (acquired LBcache s1)) with (set_bufs bs1 (acquired LBcache s)).
  pose proof (critical_calm LBcache (set_bufs bs') s p Hc (idle_lk _ _ _ Hid) ltac:(done) eq_refl) as Hrel.
  destruct (b_refcnt (bs1 !!! i) =? 0); cbn [when].
  - by rewrite (bind_Ret _ _ _ _ _ Hmv).
  - subst bs'. unfold bind, ret. cbn [obind]. exact Hrel.
Qed.

Lemma unref_lookup s order i :
  bcache_inv D s order -> (i < NBUF)%nat -> alter unref i (bufs s) !!! i = unref (bufs s !!! i).
Proof.
  intros Hinv Hi. rewrite lookup_total_alter_dec by (rewrite (bi_len _ _ _ Hinv); lia). by rewrite decide_True.
Qed.

(** brelse of a buffer others refer to. *)
Lemma view_brelse_shared s order V held lck i bno n :
  idle s p -> bview D s p order V held lck -> is_buf D s i bno -> bno ∈ lck -> held !! bno = Some n -> 1 < n ->
  exists s', brelse i s = Ret tt s' /\ cache_only s s' /\ disk s' = disk s /\ disk_writes s' = disk_writes s /\
    keeps held s s' /\ bview D s' p order V (<[bno := n - 1]> held) (lck ∖ {[bno]}).
Proof.
  intros Hid Hv Hib Hl Hn H1n. pose proof Hib as (Hi & _). pose proof (bv_inv _ _ _ _ _ _ _ Hv) as Hinv.
  destruct (view_ref _ _ _ _ _ _ _ _ Hv Hib Hn) as [Hr Hrb].
  assert (Hf : b_refcnt (unref (bufs s !!! i)) = n - 1).
  { unfold unref. cbn [b_refcnt set_b_refcnt set_b_lock]. rewrite Hr. apply u32_small. lia. }
  exists (set_bufs (alter unref i (bufs s)) s). split; [|split; [apply cache_only_bufs|do 2 (split; [done|])]].
  - apply brelse_run; [done|rewrite (bi_len _ _ _ Hinv); lia|by eapply view_lock|]. cbv zeta.
    rewrite (unref_lookup s order), Hf by done. destruct (Z.eqb_spec (n - 1) 0); [lia|done].
  - destruct (view_update s order V held lck (lck ∖ {[bno]}) i bno unref Hv Hib) as [Hv' Hk].
    + done.
    + lia.
    + rewrite decide_False; [done|]. rewrite elem_of_difference, elem_of_singleton. tauto.
    + done.
    + intros b Hb. rewrite elem_of_difference, elem_of_singleton. tauto.
    + split; [exact Hk|]. eapply bview_ext; [exact Hv'| |by rewrite Hf].
      intros b. unfold fset. change (b_data (unref (bufs s !!! i))) with (b_data (bufs s !!! i)).
      rewrite (view_data _ _ _ _ _ _ _ Hv Hib). by case_decide; subst.
Qed.

(** brelse of the last reference: the buffer becomes the most recently used one. *)
Lemma view_brelse_last s order V held lck i bno :
  idle s p -> bview D s p order V held lck -> is_buf D s i bno -> bno ∈ lck -> held !! bno = Some 1 ->
  V bno = read_block (disk s) bno ->
  exists s', brelse i s = Ret tt s' /\ cache_only s s' /\ disk s' = disk s /\ disk_writes s' = disk_writes s /\
    keeps held s s' /\ bview D s' p (to_front i order) V (delete bno held) (lck ∖ {[bno]}).
Proof.
  intros Hid Hv Hib Hl Hn Hcl. pose proof Hib as (Hi & _). pose proof (bv_inv _ _ _ _ _ _ _ Hv) as Hinv.
  destruct (view_ref _ _ _ _ _ _ _ _ Hv Hib Hn) as [Hr Hrb]. pose proof (bi_len _ _ _ Hinv) as Hlen.
  set (s1 := set_bufs (alter unref i (bufs s)) s).
  assert (Hu : unref (bufs s !!! i) = set_b_refcnt 0 (set_b_lock (mkSleeplock false 0) (bufs s !!! i))).
  { unfold unref. by rewrite Hr. }
  assert (Hv1 : bview D s1 p order V (delete bno held) (lck ∖ {[bno]})).
  { pose proof (view_drop s order V held lck i bno 1 Hv Hib Hn Hcl) as Hd. cbv zeta in Hd. unfold s1.
    destruct (lookup_lt_is_Some_2 (bufs s) i ltac:(lia)) as [bf Hbf].
    rewrite (alter_as_insert _ _ _ _ Hbf). rewrite (alter_as_insert _ _ _ _ Hbf) in Hd.
    rewrite (list_lookup_total_correct _ _ _ Hbf) in Hu. rewrite Hu. exact Hd. }
  assert (Hinv1 : bcache_inv D (set_bufs (alter unref i (bufs s)) (acquired LBcache s)) order).
  { pose proof (bv_inv _ _ _ _ _ _ _ Hv1) as []. by split. }
  destruct (move_front_ring D _ order i Hinv1 Hi) as (bs' & Hmf & Hl' & Hc' & Hp' & Hr').
  exists (set_bufs bs' s). split; [|split; [apply cache_only_bufs|do 2 (split; [done|]); split]].
  - apply brelse_run; [done|lia|by eapply view_lock|]. cbv zeta.
    rewrite (unref_lookup s order), Hu by done. exact Hmf.
  - intros k b _ (Hk1 & Hk2 & Hk3). split; [done|]. cbn [bufs set_bufs] in *.
    rewrite (same_core_key _ bs' b k Hc'). destruct (same_core_fields _ bs' k Hc') as (-> & _).
    cbn [bufs set_bufs]. rewrite lookup_total_alter_dec by lia. destruct (decide (k = i)) as [->|]; done.
  - exact (view_relink s1 order _ V _ _ bs' Hv1 Hc' Hl' Hp' Hr').
Qed.

(** ** The view without the list order *)

(** [p] runs undisturbed and sees the blocks [V]; [held] counts the references
    to blocks and [lck] are the blocks it has locked. *)
Definition cview (s : kernel) (V : Z -> list Z) (held : gmap Z Z) (lck : gset Z) : Prop :=
  idle s p /\ exists order, bview D s p order V held lck.

Definition cnt (held : gmap Z Z) (b : Z) : Z := default 0 (held !! b).
Definition setcnt (b n : Z) (held : gmap Z Z) : gmap Z Z := if n =? 0 then delete b held else <[b := n]> held.

Lemma cview_ext s V V' held held' lck lck' :
  cview s V held lck -> (forall b, V b = V' b) -> held = held' -> lck = lck' -> cview s V' held' lck'.
Proof. intros [Hid [o Hv]] HV -> ->. split; [done|]. exists o. by eapply bview_ext. Qed.

Lemma cview_clean s V held lck b : cview s V held lck -> held !! b = None -> V b = read_block (disk s) b.
Proof.
  intros [_ [o Hv]] Hn. pose proof (bv_inv _ _ _ _ _ _ _ Hv) as Hinv. rewrite <- (bv_blk _ _ _ _ _ _ _ Hv).
  destruct (find (fun i => has_key D b (bufs s !!! i)) (seq 0 NBUF)) as [i|] eqn:E.
  - apply find_some in E as [Hi Hk]. apply in_seq in Hi. rewrite (blk_cached D s o b i Hinv) by (lia || done).
    destruct (b_valid (bufs s !!! i)) eqn:Ev; [|done]. pose proof (bi_ref _ _ _ Hinv i ltac:(lia)) as Hr.
    destruct (decide (b_refcnt (bufs s !!! i) = 0)) as [Hz|Hz].
    + destruct (bi_unref _ _ _ Hinv i ltac:(lia) Hz) as [_ Hc]. rewrite Hc by done.
      by apply has_key_spec in Hk as [_ ->].
    + rewrite (proj2 (bv_held _ _ _ _ _ _ _ Hv b (b_refcnt (bufs s !!! i)))) in Hn; [done|].
      split; [lia|]. exists i. split; [lia|done].
  - apply blk_uncached. intros i Hi.
    by pose proof (find_none _ _ E i ltac:(apply in_seq; lia)) as Hno.
Qed.

Lemma cview_bread s V held lck b :
  cview s V held lck -> (0 < fuel)%nat -> b ∉ lck ->
  0 < cnt held b \/ (size held < NBUF)%nat -> cnt held b < 2 ^ 32 - 2 ->
  exists i s', bread D b s = Ret i s' /\ cache_only s s' /\
    disk s' = disk s /\ disk_writes s' = disk_writes s /\ keeps held s s' /\ is_buf D s' i b /\
    cview s' V (<[b := cnt held b + 1]> held) ({[b]} ∪ lck).
Proof.
  intros [Hid [o Hv]] Hf Hb Hav Hlt.
  destruct (view_bread s o V held lck b Hid Hv Hf Hb) as (i & s' & He & Hc & Hd & Hw & Hk & Hib & Hv').
  - destruct Hav as [Hp|?]; [|by right]. left. unfold cnt in Hp. destruct (held !! b); [done|]. simpl in Hp. lia.
  - unfold cnt in Hlt. lia.
  - exists i, s'. do 6 (split; [done|]). split; [by eapply cache_only_idle|]. by exists o.
Qed.

Lemma cview_data s V held lck i b :
  cview s V held lck -> is_buf D s i b -> b_data (bufs s !!! i) = V b.
Proof. intros [_ [o Hv]]. by apply (view_data s o V held lck). Qed.

Lemma cview_modbd s V held lck i b g :
  cview s V held lck -> is_buf D s i b -> is_Some (held !! b) ->
  exists s', modb i (fun bf => set_b_data (g (b_data bf)) bf) s = Ret tt s' /\ cache_only s s' /\
    disk s' = disk s /\ disk_writes s' = disk_writes s /\ keeps held s s' /\
    cview s' (fset V b (g (V b))) held lck.
Proof.
  intros [Hid [o Hv]] Hib Hs.
  destruct (view_modbd s o V held lck i b g Hv Hib Hs) as (s' & He & Hc & Hd & Hw & Hk & Hv').
  exists s'. do 5 (split; [done|]). split; [by eapply cache_only_idle|]. by exists o.
Qed.

Lemma cview_bwrite s V held lck i b :
  cview s V held lck -> is_buf D s i b -> b ∈ lck ->
  exists s', bwrite i s = Ret tt s' /\ cache_only s s' /\
    disk s' = <[b := V b]> (disk s) /\ disk_writes s' = (b, V b) :: disk_writes s /\
    keeps held s s' /\ cview s' V held lck.
Proof.
  intros [Hid [o Hv]] Hib Hl.
  destruct (view_bwrite s o V held lck i b Hid Hv Hib Hl) as (s' & He & Hc & Hd & Hw & Hb & Hv').
  exists s'. do 4 (split; [done|]). split; [|split; [by eapply cache_only_idle|by exists o]].
  intros k b' _. unfold is_buf. by rewrite Hb.
Qed.

Lemma cview_brelse s V held lck i b :
  cview s V held lck -> is_buf D s i b -> b ∈ lck -> (cnt held b = 1 -> V b = read_block (disk s) b) ->
  exists s', brelse i s = Ret tt s' /\ cache_only s s' /\ disk s' = disk s /\ disk_writes s' = disk_writes s /\
    keeps held s s' /\ cview s' V (setcnt b (cnt held b - 1) held) (lck ∖ {[b]}).
Proof.
  intros [Hid [o Hv]] Hib Hl Hcl. destruct (bv_lck _ _ _ _ _ _ _ Hv b Hl) as [n Hn].
  destruct (view_ref _ _ _ _ _ _ _ _ Hv Hib Hn) as [_ Hrb].
  assert (Ec : cnt held b = n) by (unfold cnt; by rewrite Hn). rewrite Ec in *. unfold setcnt.
  destruct (decide (n = 1)) as [->|].
  - destruct (view_brelse_last s o V held lck i b Hid Hv Hib Hl Hn (Hcl eq_refl))
      as (s' & He & Hc & Hd & Hw & Hk & Hv').
    exists s'. do 5 (split; [done|]). split; [by eapply cache_only_idle|]. by eexists.
  - destruct (view_brelse_shared s o V held lck i b n Hid Hv Hib Hl Hn ltac:(lia))
      as (s' & He & Hc & Hd & Hw & Hk & Hv').
    exists s'. do 5 (split; [done|]). split; [by eapply cache_only_idle|]. exists o.
    destruct (Z.eqb_spec (n - 1) 0); [lia|]. done.
Qed.

Lemma cview_bunpin s V held lck i b :
  cview s V held lck -> is_buf D s i b -> 1 < cnt held b ->
  exists s', bunpin i s = Ret tt s' /\ cache_only s s' /\ disk s' = disk s /\ disk_writes s' = disk_writes s /\
    keeps held s s' /\ cview s' V (<[b := cnt held b - 1]> held) lck.
Proof.
  intros [Hid [o Hv]] Hib Hn. unfold cnt in *. destruct (held !! b) as [n|] eqn:E; simpl in Hn |- *; [|lia].
  destruct (view_bunpin s o V held lck i b n Hid Hv Hib E Hn) as (s' & He & Hc & Hd & Hw & Hk & Hv').
  exists s'. do 5 (split; [done|]). split; [by eapply cache_only_idle|]. by exists o.
Qed.

Lemma cview_bpin s V held lck i b :
  cview s V held lck -> is_buf D s i b -> 0 < cnt held b < 2 ^ 32 - 2 ->
  exists s', bpin i s = Ret tt s' /\ cache_only s s' /\ disk s' = disk s /\ disk_writes s' = disk_writes s /\
    keeps held s s' /\ cview s' V (<[b := cnt held b + 1]> held) lck.
Proof.
  intros [Hid [o Hv]] Hib Hn. unfold cnt in *. destruct (held !! b) as [n|] eqn:E; simpl in Hn |- *; [|lia].
  destruct (view_bpin s o V held lck i b n Hid Hv Hib E ltac:(lia)) as (s' & He & Hc & Hd & Hw & Hk & Hv').
  exists s'. do 5 (split; [done|]). split; [by eapply cache_only_idle|]. by exists o.
Qed.
End view.
