(* ===== verification/BioCheck.v ===== *)
(** binit sets up the buffer cache; a checker for its invariant; concrete caches. *)

From S2P Require Import Prelude Outcome Mem State Spinlock KString Kalloc Vm Proc ProcSpec Sleeplock Calm Bytes Disk Bio BioSpec BioView.

(** ** binit *)

(** What one round of binit does to the buffers. *)
Definition link_buf (bs : list buf) (b : nat) : list buf :=
  let bs := alter (set_b_next (b_next (bs !!! bhead))) b bs in
  let bs := alter (set_b_prev bhead) b bs in
  let bs := alter (fun bf => set_b_lock (set_sl_pid 0 (set_sl_locked false (b_lock bf))) bf) b bs in
  let bs := alter (set_b_prev b) (b_next (bs !!! bhead)) bs in
  alter (set_b_next b) bhead bs.

Lemma binit_one_eq b s :
  binit_one b s = Ret tt (set_bufs (link_buf (bufs s) b) (set_locks (delete (LSleep (SLbuf b)) (locks s)) s)).
Proof.
  unfold binit_one, link_buf, initsleeplock, initlock, getb, modb, modsl, bind, gets, modify. simpl.
  by rewrite !alter_alter.
Qed.

Lemma binit_loop l : forall s, exists lk,
  for_each l binit_one s = Ret tt (set_bufs (foldl link_buf (bufs s) l) (set_locks lk s)) /\ lk ⊆ locks s.
Proof.
  induction l as [|b l IH]; intros s.
  - exists (locks s). by destruct s.
  - cbn [for_each foldl]. rewrite (bind_Ret _ _ _ _ _ (binit_one_eq b s)).
    destruct (IH (set_bufs (link_buf (bufs s) b) (set_locks (delete (LSleep (SLbuf b)) (locks s)) s))) as (lk & -> & Hlk).
    exists lk. split; [by destruct s|]. etransitivity; [exact Hlk|]. apply delete_subseteq.
Qed.

(** The buffers binit leaves when it starts from zeroed ones. *)
Definition binit_bufs : list buf :=
  foldl link_buf (alter (set_b_next bhead) bhead (alter (set_b_prev bhead) bhead (replicate (S NBUF) buf0)))
    (seq 0 NBUF).

Lemma binit_eq s : bufs s = replicate (S NBUF) buf0 ->
  exists lk, binit s = Ret tt (set_bufs binit_bufs (set_locks lk s)) /\ lk ⊆ locks s.
Proof.
  intros Hb. unfold binit, initlock, modb. unfold bind at 1 2 3, modify. cbn [obind].
  destruct (binit_loop (seq 0 NBUF) (set_bufs (alter (set_b_next bhead) bhead
    (alter (set_b_prev bhead) bhead (bufs s))) (set_locks (delete LBcache (locks s)) s))) as (lk & E & Hlk).
  exists lk. split.
  - etransitivity; [exact E|]. cbn [bufs set_bufs]. unfold binit_bufs. rewrite Hb. by destruct s.
  - etransitivity; [exact Hlk|]. apply delete_subseteq.
Qed.

(** ** Checking the invariant *)

Definition all_bufs (f : nat -> bool) : bool := forallb f (seq 0 NBUF).

Lemma all_bufs_spec f i : all_bufs f = true -> (i < NBUF)%nat -> f i = true.
Proof. unfold all_bufs. rewrite forallb_forall. intros Hf Hi. apply Hf, in_seq. lia. Qed.

Definition ringb (bs : list buf) (order : list nat) : bool :=
  forallb (fun xy => Nat.eqb (bnext bs xy.1) xy.2 && Nat.eqb (bprev bs xy.2) xy.1) (adj (bhead :: order ++ [bhead])).

(** Every buffer is unlocked and agrees with the disk unless it is in use; no
    block has two buffers. *)
Definition cacheb (D : Z) (s : kernel) (order : list nat) : bool :=
  let bs := bufs s in
  Nat.eqb (length bs) (S NBUF) && ringb bs order &&
  all_bufs (fun i => let bf := bs !!! i in
    (0 <=? b_refcnt bf) && (b_refcnt bf <? 2 ^ 32 - 1) && negb (sl_locked (b_lock bf)) &&
    ((b_dev bf =? D) || (negb (b_valid bf) && (b_refcnt bf =? 0))) &&
    (negb (b_refcnt bf =? 0) || negb (b_valid bf) ||
     bool_decide (b_data bf = read_block (disk s) (b_blockno bf))) &&
    all_bufs (fun j => Nat.eqb i j || negb (b_dev bf =? D) ||
      negb (has_key D (b_blockno bf) (bs !!! j)))).

Lemma cacheb_spec D s order :
  order ≡ₚ seq 0 NBUF -> cacheb D s order = true ->
  bcache_inv D s order /\ forall i, (i < NBUF)%nat -> sl_locked (b_lock (bufs s !!! i)) = false.
Proof.
  intros Hperm Hb. unfold cacheb in Hb. apply andb_true_iff in Hb as [Hb Hall]. apply andb_true_iff in Hb as [Hlen Hring].
  apply Nat.eqb_eq in Hlen.
  assert (H : forall i, (i < NBUF)%nat -> let bf := bufs s !!! i in
    0 <= b_refcnt bf < 2 ^ 32 - 1 /\ sl_locked (b_lock bf) = false /\
    (b_dev bf = D \/ b_valid bf = false /\ b_refcnt bf = 0) /\
    (b_refcnt bf = 0 -> b_valid bf = true -> b_data bf = read_block (disk s) (b_blockno bf)) /\
    (forall j, (j < NBUF)%nat -> b_dev bf = D -> has_key D (b_blockno bf) (bufs s !!! j) = true -> i = j)).
  { intros i Hi. pose proof (all_bufs_spec _ i Hall Hi) as H. cbv beta zeta in H.
    rewrite !andb_true_iff in H. destruct H as (((((H1 & H2) & H3) & H4) & H5) & H6). cbv zeta.
    split; [lia|]. split; [by apply negb_true_iff in H3|]. split; [|split].
    - apply orb_true_iff in H4 as [H4|H4]; [left; lia|right]. apply andb_true_iff in H4 as [H4 H4'].
      split; [by apply negb_true_iff in H4|lia].
    - intros Hz Hv. rewrite Hz, Hv in H5. by apply bool_decide_eq_true in H5.
    - intros j Hj Hd Hk. pose proof (all_bufs_spec _ j H6 Hj) as Hj'. cbv beta in Hj'.
      rewrite Hk, Hd, Z.eqb_refl in Hj'. simpl in Hj'. rewrite !orb_false_r in Hj'. by apply Nat.eqb_eq. }
  split; [split; try done|intros i Hi; apply (H i Hi)].
  - unfold ring. unfold ringb in Hring. rewrite forallb_forall in Hring. apply Forall_forall.
    intros xy Hxy. apply list_elem_of_In, Hring, andb_true_iff in Hxy as [H1 H2].
    apply Nat.eqb_eq in H1, H2. done.
  - intros i Hi. destruct (H i Hi) as (_ & _ & [?|[? ?]] & _); [by left|].
    destruct (decide (b_dev (bufs s !!! i) = D)); [by left|by right].
  - intros i j Hi Hj Hdi Hdj E. destruct (H i Hi) as (_ & _ & _ & _ & Hu). apply (Hu j Hj Hdi).
    by apply has_key_spec.
  - intros i Hi. apply (H i Hi).
  - intros i Hi Hz. destruct (H i Hi) as (_ & Hl & _ & Hc & _). split; [done|]. by apply Hc.
Qed.

(** The reference counts of a cache. *)
Definition refs (D : Z) (s : kernel) : gmap Z Z :=
  list_to_map ((fun i => (b_blockno (bufs s !!! i), b_refcnt (bufs s !!! i))) <$>
    filter (fun i => b_dev (bufs s !!! i) = D /\ 0 < b_refcnt (bufs s !!! i)) (seq 0 NBUF)).

Lemma cacheb_bview D p s order :
  order ≡ₚ seq 0 NBUF -> cacheb D s order = true -> bview D s p order (blk D s) (refs D s) ∅.
Proof.
  intros Hperm Hb. destruct (cacheb_spec D s order Hperm Hb) as [Hinv Hl]. split; try done.
  - intros bno n. unfold refs. set (l := filter _ _).
    assert (Hin : forall i, i ∈ l <-> (b_dev (bufs s !!! i) = D /\ 0 < b_refcnt (bufs s !!! i)) /\ (i < NBUF)%nat).
    { intros i. unfold l. rewrite list_elem_of_filter, elem_of_seq. naive_solver lia. }
    rewrite <- elem_of_list_to_map.
    + rewrite list_elem_of_fmap. split.
      * intros (i & [= -> ->] & ((Hd & Hr) & Hi)%Hin). split; [done|]. exists i. split; [done|].
        split; [by apply has_key_spec|done].
      * intros (Hn & i & Hi & [Hd Hk]%has_key_spec & Hr). exists i. split; [by subst|]. apply Hin. by subst.
    + rewrite <- list_fmap_compose. apply NoDup_fmap_2_strong; [|apply NoDup_filter, NoDup_seq].
      intros i j ((Hdi & _) & Hi)%Hin ((Hdj & _) & Hj)%Hin E. by apply (bi_uniq _ _ _ Hinv).
  - intros bno i Hi _ _. by apply Hl.
Qed.

(** ** binit gives an empty cache *)

Lemma binit_facts :
  Nat.eqb (length binit_bufs) (S NBUF) && ringb binit_bufs (rev (seq 0 NBUF)) &&
  all_bufs (fun i => let bf := binit_bufs !!! i in
    (b_dev bf =? 0) && (b_refcnt bf =? 0) && negb (b_valid bf) && negb (sl_locked (b_lock bf))) = true.
Proof. vm_compute. reflexivity. Qed.

Lemma binit_cacheb D s : D <> 0 -> bufs s = binit_bufs -> cacheb D s (rev (seq 0 NBUF)) = true.
Proof.
  intros HD Hb. pose proof binit_facts as Hf. unfold cacheb. rewrite Hb. set (bs := binit_bufs) in *.
  apply andb_true_iff in Hf as [-> Hf]. cbn [andb]. unfold all_bufs at 1. apply forallb_forall. intros i Hi.
  apply in_seq in Hi. pose proof (all_bufs_spec _ i Hf ltac:(lia)) as H. cbv beta zeta in H |- *.
  rewrite !andb_true_iff in H. destruct H as (((H1 & H2) & H3) & H4). apply Z.eqb_eq in H1, H2.
  apply negb_true_iff in H3. rewrite H1, H2, H3, H4. clear Hf Hb.
  assert (E : (0 =? D) = false) by lia. rewrite E. apply andb_true_iff. split; [done|].
  apply forallb_forall. intros j _. by rewrite orb_true_r.
Qed.

Lemma binit_blk D s b : D <> 0 -> bufs s = binit_bufs -> blk D s b = read_block (disk s) b.
Proof.
  intros HD Hb. apply blk_uncached. intros i Hi. rewrite Hb.
  pose proof binit_facts as Hf. apply andb_true_iff in Hf as [_ Hf].
  pose proof (all_bufs_spec _ i Hf Hi) as H. cbv beta zeta in H. rewrite !andb_true_iff in H.
  destruct H as (((H1 & _) & _) & _). apply Z.eqb_eq in H1. unfold has_key. rewrite H1. clear H1 Hf Hb.
  assert (E : (0 =? D) = false) by lia. rewrite E. reflexivity.
Qed.

Lemma binit_refs D s : D <> 0 -> bufs s = binit_bufs -> refs D s = ∅.
Proof.
  intros HD Hb. unfold refs. destruct (filter _ (seq 0 NBUF)) as [|i l] eqn:E; [done|]. exfalso.
  assert (Hin : i ∈ i :: l) by apply list_elem_of_here. rewrite <- E in Hin.
  apply list_elem_of_filter in Hin as [[_ Hr] Hi]. apply elem_of_seq in Hi. rewrite Hb in Hr.
  pose proof binit_facts as Hf. apply andb_true_iff in Hf as [_ Hf].
  pose proof (all_bufs_spec _ i Hf ltac:(lia)) as H. cbv beta zeta in H. rewrite !andb_true_iff in H.
  destruct H as (((_ & H2) & _) & _). clear Hf Hb E. apply Z.eqb_eq in H2. lia.
Qed.

(** binit, run on the zeroed buffers the kernel boots with, returns with all
    NBUF buffers in the ring and an empty cache: no block is referenced or
    locked and every block reads as the disk has it. *)
Theorem binit_empty_cache D p s :
  D <> 0 -> bufs s = replicate (S NBUF) buf0 ->
  exists s', binit s = Ret tt s' /\ disk s' = disk s /\
    bview D s' p (rev (seq 0 NBUF)) (read_block (disk s)) ∅ ∅.
Proof.
  intros HD Hb. destruct (binit_eq s Hb) as (lk & E & _). eexists. split; [exact E|]. split; [done|].
  set (s' := set_bufs _ _). assert (Hs' : bufs s' = binit_bufs) by done.
  eapply bview_ext; [apply (cacheb_bview D p s' (rev (seq 0 NBUF)))| |].
  - symmetry. apply Permutation_rev.
  - by apply binit_cacheb.
  - intros b. by rewrite binit_blk.
  - by apply binit_refs.
Qed.

(** C12. bread returns a buffer that is valid, holds the block's current contents
    and is locked by the caller, counts one more reference to it and changes no
    other block; it recycles a buffer only when fewer than NBUF blocks are in
    use, which is the condition under which it does not panic. *)
Theorem bread_returns_block `{Fuel} `{DiskLaws} D p s V held lck b :
  cview D p s V held lck -> (0 < fuel)%nat -> b ∉ lck ->
  0 < cnt held b \/ (size held < NBUF)%nat -> cnt held b < 2 ^ 32 - 2 ->
  exists i s', bread D b s = Ret i s' /\ disk s' = disk s /\ is_buf D s' i b /\
    b_data (bufs s' !!! i) = V b /\ b_lock (bufs s' !!! i) = mkSleeplock true (pid_of s p) /\
    cview D p s' V (<[b := cnt held b + 1]> held) ({[b]} ∪ lck).
Proof.
  intros Hv Hf Hb Hav Hc.
  destruct (cview_bread D p s V held lck b Hv Hf Hb Hav Hc) as (i & s' & E & C & Hd & _ & _ & Hi & Hv').
  exists i, s'. split; [done|]. split; [done|]. split; [done|]. split; [by eapply cview_data|]. split; [|done].
  destruct Hv' as [_ [o Hv']]. rewrite (view_lock D p s' o _ _ _ i b Hv' Hi).
  - by rewrite (cache_only_pid _ _ _ C).
  - by apply elem_of_union_l, elem_of_singleton.
Qed.

(** brelse unlocks the buffer and drops one reference; at the last reference
    to a block that is on the disk, the buffer becomes the most recently used
    one and the order of the others stays. *)
Theorem brelse_last_reference `{Fuel} `{DiskLaws} D p s order V held lck i b :
  idle s p -> bview D s p order V held lck -> is_buf D s i b -> b ∈ lck -> held !! b = Some 1 ->
  V b = read_block (disk s) b ->
  exists s', brelse i s = Ret tt s' /\ disk s' = disk s /\
    bview D s' p (i :: filter (fun j => j <> i) order) V (delete b held) (lck ∖ {[b]}).
Proof.
  intros Hid Hv Hi Hl Hn Hc.
  destruct (view_brelse_last D p s order V held lck i b Hid Hv Hi Hl Hn Hc) as (s' & E & _ & Hd & _ & _ & Hv').
  by exists s'.
Qed.

(** ** A concrete cache *)

Definition ex_fuel : Fuel := 1%nat.
#[local] Existing Instances ex_fuel sync_disk sync_disk_laws.

(** Process slot 3 runs with interrupts off; the cache is empty. *)
Definition ex_cache : kernel :=
  set_bufs binit_bufs (set_cpu_ (mkCpu (Some 3%nat) 0 false)
    (set_sie false (kernel0 (mkImage 0x87ff0000 0x80008000 0x80007000 0 0 0 0 0) ∅))).

Lemma ex_cache_idle : idle ex_cache 3.
Proof.
  split; [split|reflexivity].
  - split; simpl; [lia|done].
  - reflexivity.
  - reflexivity.
  - reflexivity.
  - apply Nat.ltb_lt. reflexivity.
  - apply Forall_replicate. done.
  - intros i. reflexivity.
Qed.

Lemma ex_cache_bview : bview 1 ex_cache 3 (rev (seq 0 NBUF)) (read_block ∅) ∅ ∅.
Proof.
  eapply bview_ext; [apply (cacheb_bview 1 3 ex_cache (rev (seq 0 NBUF)))| |].
  - symmetry. apply Permutation_rev.
  - by apply binit_cacheb.
  - intros b. by rewrite binit_blk.
  - by apply binit_refs.
Qed.

Lemma ex_cache_cview : cview 1 3 ex_cache (read_block ∅) ∅ ∅.
Proof. split; [apply ex_cache_idle|]. eexists. apply ex_cache_bview. Qed.

Lemma binit_empty_cache_witness : exists s',
  binit (kernel0 (mkImage 0x87ff0000 0x80008000 0x80007000 0 0 0 0 0) ∅) = Ret tt s' /\
  bview 1 s' 3 (rev (seq 0 NBUF)) (read_block ∅) ∅ ∅.
Proof.
  destruct (binit_empty_cache 1 3 (kernel0 (mkImage 0x87ff0000 0x80008000 0x80007000 0 0 0 0 0) ∅)) as (s' & E & _ & Hv).
  - done.
  - reflexivity.
  - exists s'. split; [exact E|exact Hv].
Defined.

Lemma bread_returns_block_witness : exists i s', bread 1 46 ex_cache = Ret i s' /\
  b_data (bufs s' !!! i) = zero_block.
Proof.
  destruct (bread_returns_block 1 3 ex_cache (read_block ∅) ∅ ∅ 46) as (i & s' & E & _ & _ & Hd & _).
  - apply ex_cache_cview.
  - apply Nat.ltb_lt. reflexivity.
  - apply not_elem_of_empty.
  - right. apply Nat.ltb_lt. reflexivity.
  - reflexivity.
  - exists i, s'. split; [exact E|exact Hd].
Defined.

(** The cache after reading block 46. *)
Definition ex_cache_read : kernel := match bread 1 46 ex_cache with Ret _ s => s | _ => ex_cache end.
Definition ex_cache_buf : nat := match bread 1 46 ex_cache with Ret i _ => i | _ => bhead end.

Lemma ex_cache_read_view :
  idle ex_cache_read 3 /\ is_buf 1 ex_cache_read ex_cache_buf 46 /\ disk ex_cache_read = ∅ /\
  bview 1 ex_cache_read 3 (rev (seq 0 NBUF)) (read_block ∅) (<[46 := 1]> ∅) ({[46]} ∪ ∅).
Proof.
  destruct (view_bread 1 3 ex_cache (rev (seq 0 NBUF)) (read_block ∅) ∅ ∅ 46) as (i & s' & E & C & Hd & _ & _ & Hi & Hv).
  - apply ex_cache_idle.
  - apply ex_cache_bview.
  - apply Nat.ltb_lt. reflexivity.
  - apply not_elem_of_empty.
  - right. apply Nat.ltb_lt. reflexivity.
  - reflexivity.
  - unfold ex_cache_read, ex_cache_buf. rewrite E. split; [eapply cache_only_idle; [exact C|apply ex_cache_idle]|].
    split; [done|]. split; [exact Hd|exact Hv].
Qed.

Lemma brelse_last_reference_witness : exists s', brelse ex_cache_buf ex_cache_read = Ret tt s' /\
  bview 1 s' 3 (ex_cache_buf :: filter (fun j => j <> ex_cache_buf) (rev (seq 0 NBUF))) (read_block ∅)
    (delete 46 (<[46 := 1]> ∅)) (({[46]} ∪ ∅) ∖ {[46]}).
Proof.
  destruct ex_cache_read_view as (Hid & Hi & Hd & Hv).
  destruct (brelse_last_reference 1 3 ex_cache_read (rev (seq 0 NBUF)) (read_block ∅) (<[46 := 1]> ∅) ({[46]} ∪ ∅)
    ex_cache_buf 46) as (s' & E & _ & Hv').
  - exact Hid.
  - exact Hv.
  - exact Hi.
  - apply elem_of_union_l, elem_of_singleton. reflexivity.
  - reflexivity.
  - rewrite Hd. reflexivity.
  - exists s'. split; [exact E|exact Hv'].
Defined.
