(* ===== verification/Uart.v ===== *)
(** kernel/uart.c: the 16550 driver, up to its interrupt handler (which calls
    into the console, see Console.v), and consputc of kernel/console.c.

    The device answers through [uart_]: bytes waiting to be received, and a
    list of answers about the transmitter, idle once the list is used up. *)

From S2P Require Import Prelude Outcome Mem State Spinlock KString Kalloc Vm Proc.

Definition RHR : Z := 0.
Definition THR : Z := 0.
Definition IER : Z := 1.
Definition IER_RX_ENABLE : Z := Z.shiftl 1 0.
Definition IER_TX_ENABLE : Z := Z.shiftl 1 1.
Definition FCR : Z := 2.
Definition FCR_FIFO_ENABLE : Z := Z.shiftl 1 0.
Definition FCR_FIFO_CLEAR : Z := Z.shiftl 3 1.
Definition LCR : Z := 3.
Definition LCR_EIGHT_BITS : Z := Z.shiftl 3 0.
Definition LCR_BAUD_LATCH : Z := Z.shiftl 1 7.
Definition UART_TX_BUF_SIZE : Z := 32.

Definition modu (f : uart -> uart) : K unit := modify (fun s => set_uart_ (f (uart_ s)) s).

Definition WriteReg (reg v : Z) : K unit :=
  modu (fun u => set_uart_writes ((reg, u8 v) :: uart_writes u) u).

(** ReadReg(LSR) & LSR_TX_IDLE *)
Definition lsr_tx_idle : K bool :=
  u <- gets uart_;;
  match uart_lsr_tx u with
  | [] => ret true
  | b :: l => modu (set_uart_lsr_tx l);; ret b
  end.

Definition uartinit : K unit :=
  (* disable interrupts. *)
  WriteReg IER 0x00;;
  (* special mode to set baud rate. *)
  WriteReg LCR LCR_BAUD_LATCH;;
  (* LSB for baud rate of 38.4K. *)
  WriteReg 0 0x03;;
  (* MSB for baud rate of 38.4K. *)
  WriteReg 1 0x00;;
  (* leave set-baud mode, and set word length to 8 bits, no parity. *)
  WriteReg LCR LCR_EIGHT_BITS;;
  (* reset and enable FIFOs. *)
  WriteReg FCR (Z.lor FCR_FIFO_ENABLE FCR_FIFO_CLEAR);;
  (* enable transmit and receive interrupts. *)
  WriteReg IER (Z.lor IER_TX_ENABLE IER_RX_ENABLE);;
  initlock LUart.

Definition uartstart_body (_ : unit) : K (unit + unit) :=
  u <- gets uart_;;
  if uart_tx_w u =? uart_tx_r u then ret (inr tt) else
  idle <- lsr_tx_idle;;
  if negb idle then ret (inr tt) else
  let c := uart_tx_buf u !!! Z.to_nat (uart_tx_r u mod UART_TX_BUF_SIZE) in
  modu (fun u => set_uart_tx_r (u64 (uart_tx_r u + 1)) u);;
  wakeup ChUartR;;
  WriteReg THR c;;
  ret (inl tt).

(** The ring holds at most UART_TX_BUF_SIZE bytes, each sent once. *)
Definition uartstart : K unit :=
  u <- gets uart_;;
  iter (S (Z.to_nat (u64 (uart_tx_w u - uart_tx_r u)))) uartstart_body tt.

Definition uartputc `{Fuel} (c : Z) : K unit :=
  acquire LUart;;
  pk <- gets panicked;;
  if pk : bool then halt Spinning else
  iter fuel (fun _ : unit =>
    u <- gets uart_;;
    if uart_tx_w u =? u64 (uart_tx_r u + UART_TX_BUF_SIZE)
    then sleep ChUartR LUart;; ret (inl tt) else ret (inr tt)) tt;;
  modu (fun u => set_uart_tx_buf
    (<[Z.to_nat (uart_tx_w u mod UART_TX_BUF_SIZE) := u8 c]> (uart_tx_buf u)) u);;
  modu (fun u => set_uart_tx_w (u64 (uart_tx_w u + 1)) u);;
  uartstart;;
  release LUart.

(** Every "busy" answer is one turn of the wait loop. *)
Definition uartputc_sync (c : Z) : K unit :=
  push_off;;
  pk <- gets panicked;;
  if pk : bool then halt Spinning else
  u <- gets uart_;;
  iter (S (length (uart_lsr_tx u))) (fun _ : unit =>
    idle <- lsr_tx_idle;; if negb idle then ret (inl tt) else ret (inr tt)) tt;;
  WriteReg THR c;;
  pop_off.

Definition uartgetc : K Z :=
  u <- gets uart_;;
  match uart_rx u with
  | c :: l => modu (set_uart_rx l);; ret c
  | [] => ret (-1)
  end.

(** kernel/console.c *)
Definition BACKSPACE : Z := 0x100.

Definition consputc (c : Z) : K unit :=
  if c =? BACKSPACE then
    (* if the user typed backspace, overwrite with a space. *)
    uartputc_sync 8;; uartputc_sync 32;; uartputc_sync 8
  else uartputc_sync c.
