(* ===== verification/Printf.v ===== *)
(** kernel/printf.c: the kernel's printf, and procdump of kernel/proc.c. *)

From S2P Require Import Prelude Outcome Mem State Spinlock KString Kalloc Vm Proc Uart.

(** static char digits[] *)
Definition digits : list Z := take 16 (cstr "0123456789abcdef").
Definition digit (d : Z) : Z := digits !!! Z.to_nat d.

(** The do-while loop of printint: the digits of [x], least significant first. *)
Fixpoint printint_loop (f : nat) (x base : Z) : list Z :=
  match f with
  | O => []
  | S f' => digit (x mod base) :: (if x / base =? 0 then [] else printint_loop f' (x / base) base)
  end.

(** buf[0..i) when the loop and the sign are done; 32 digits are enough for a
    32-bit number in any base of at least 2. *)
Definition printint_buf (xx base sign : Z) : list Z :=
  let neg := truthy sign && (xx <? 0) in
  let x := if neg then u32 (- xx) else u32 xx in
  printint_loop 32 x base ++ (if neg then [45] else []).

Definition printint (xx base sign : Z) : K unit :=
  for_each (rev (printint_buf xx base sign)) consputc.

(** The 16 digits of a pointer, top nibble first. *)
Fixpoint printptr_loop (n : nat) (x : Z) : list Z :=
  match n with
  | O => []
  | S n' => digit (Z.shiftr x 60) :: printptr_loop n' (u64 (Z.shiftl x 4))
  end.

Definition printptr (x : Z) : K unit :=
  consputc 48;;
  consputc 120;;
  for_each (printptr_loop 16 x) consputc.

(** A variadic argument; a format that asks for another kind, or for more than
    there are, reads nothing meaningful, here 0. *)
Inductive parg : Type := AInt (v : Z) | APtr (v : Z) | AStr (x : option (list Z)).

Definition arg_num (a : option parg) : Z :=
  match a with Some (AInt v) | Some (APtr v) => v | _ => 0 end.
(** The bytes of a string up to its NUL. *)
Fixpoint str_bytes (l : list Z) : list Z :=
  match l with
  | [] => []
  | c :: l' => if c =? 0 then [] else c :: str_bytes l'
  end.
Definition arg_str (a : option parg) : list Z :=
  match a with
  | Some (AStr (Some l)) => str_bytes l
  | _ => str_bytes (cstr "(null)")
  end.

(** What one conversion character does with the next argument. *)
Definition printf_conv (c : Z) (ap : list parg) : K (list parg) :=
  if c =? 100 (* d *) then printint (arg_num (head ap)) 10 1;; ret (tail ap)
  else if c =? 120 (* x *) then printint (arg_num (head ap)) 16 1;; ret (tail ap)
  else if c =? 112 (* p *) then printptr (arg_num (head ap));; ret (tail ap)
  else if c =? 115 (* s *) then for_each (arg_str (head ap)) consputc;; ret (tail ap)
  else if c =? 37 (* % *) then consputc 37;; ret ap
  else consputc 37;; consputc c;; ret ap.

(** The loop over the format; the list ends where the string does. *)
Fixpoint printf_loop (fmt : list Z) (ap : list parg) : K unit :=
  match fmt with
  | [] => ret tt
  | c :: rest =>
      if c =? 0 then ret tt
      else if negb (c =? 37) then consputc c;; printf_loop rest ap
      else
        match rest with
        | [] => ret tt
        | d :: rest' => if d =? 0 then ret tt else ap <- printf_conv d ap;; printf_loop rest' ap
        end
  end.

Definition printf (fmt : list Z) (ap : list parg) : K unit :=
  locking <- gets pr_locking;;
  when locking (acquire LPr);;
  printf_loop fmt ap;;
  when locking (release LPr).

Definition printfinit : K unit :=
  initlock LPr;;
  modify (set_pr_locking true).

(** kernel/proc.c *)
Definition state_name (st : procstate) : string :=
  match st with
  | UNUSED => "unused" | USED => "used" | SLEEPING => "sleep " | RUNNABLE => "runble"
  | RUNNING => "run   " | ZOMBIE => "zombie"
  end.

(** The bytes of a literal that ends in a newline. *)
Definition nl : list Z := [10; 0].

Definition cstr_nl (x : string) : list Z := str_bytes (cstr x) ++ nl.

Definition procdump : K unit :=
  printf nl [];;
  for_each (seq 0 NPROC) (fun p =>
    pr <- getp p;;
    if decide (p_state pr = UNUSED) then ret tt else
    printf (cstr "%d %s %s")
      [AInt (p_pid pr); AStr (Some (cstr (state_name (p_state pr)))); AStr (Some (p_name pr))];;
    printf nl []).
