(* ===== verification/PrintfSpec.v ===== *)
(** What the kernel's printf sends to the uart: the characters of its text in
    order; the numbers it prints read back, and their digits fit the buffer. *)

From S2P Require Import Prelude Outcome Mem State Spinlock KString Kalloc Vm Proc Uart Printf.

(** The value of a digit character, of either case. *)
Definition digit_val (c : Z) : option Z :=
  if (48 <=? c) && (c <=? 57) then Some (c - 48)
  else if (97 <=? c) && (c <=? 102) then Some (c - 87)
  else if (65 <=? c) && (c <=? 70) then Some (c - 55)
  else None.

(** Reading a number, most significant digit first. *)
Fixpoint read_digits (base acc : Z) (l : list Z) : option Z :=
  match l with
  | [] => Some acc
  | c :: l' => d ← digit_val c; if d <? base then read_digits base (acc * base + d) l' else None
  end.

Definition read_int (base : Z) (l : list Z) : option Z :=
  match l with
  | [] => None
  | c :: l' => if c =? 45 then n ← read_digits base 0 l'; Some (- n) else read_digits base 0 l
  end.

Lemma read_digits_app base l1 : forall acc l2,
  read_digits base acc (l1 ++ l2) = a ← read_digits base acc l1; read_digits base a l2.
Proof.
  induction l1 as [|c l1 IH]; intros acc l2; [done|]. cbn [app read_digits].
  destruct (digit_val c) as [d|]; simpl; [|done]. destruct (d <? base); [apply IH|done].
Qed.

Lemma digit_val_digit d : 0 <= d < 16 -> digit_val (digit d) = Some d /\ digit d <> 45.
Proof.
  intros Hd. assert (Hall : forallb (fun d => bool_decide (digit_val (digit d) = Some d) && negb (digit d =? 45)) (seqZ 0 16) = true)
    by reflexivity.
  rewrite forallb_forall in Hall. specialize (Hall d). rewrite <- list_elem_of_In, elem_of_seqZ in Hall.
  specialize (Hall ltac:(lia)). apply andb_true_iff in Hall as [H1 H2]. apply bool_decide_eq_true in H1. split; [done|]. lia.
Qed.

Lemma printint_loop_S f x base : printint_loop (S f) x base =
  digit (x mod base) :: (if x / base =? 0 then [] else printint_loop f (x / base) base).
Proof. done. Qed.

Section digits.
Context (base : Z) (Hbase : 2 <= base <= 16).

(** The digits, least significant first, of a number below base^f. *)
Lemma read_printint_loop f : forall x, 0 <= x < base ^ Z.of_nat (S f) ->
  read_digits base 0 (rev (printint_loop (S f) x base)) = Some x.
Proof.
  induction f as [|f IH]; intros x Hx; rewrite printint_loop_S.
  - assert (Hxb : x < base) by (change (Z.of_nat 1) with 1 in Hx; rewrite Z.pow_1_r in Hx; lia).
    rewrite (Z.div_small x base) by lia. rewrite (Z.mod_small x base) by lia. simpl.
    destruct (digit_val_digit x ltac:(lia)) as [-> _]. simpl. destruct (Z.ltb_spec x base); [done|lia].
  - pose proof (Z.div_mod x base ltac:(lia)) as Hdm. pose proof (Z.mod_pos_bound x base ltac:(lia)) as Hm.
    destruct (digit_val_digit (x mod base) ltac:(lia)) as [Hd _]. cbn [rev].
    destruct (Z.eqb_spec (x / base) 0) as [E|E].
    + simpl. rewrite Hd. simpl. destruct (Z.ltb_spec (x mod base) base); [|lia]. f_equal. lia.
    + rewrite read_digits_app, IH.
      * simpl. rewrite Hd. simpl. destruct (Z.ltb_spec (x mod base) base); [|lia]. f_equal. lia.
      * split; [apply Z.div_pos; lia|]. apply Z.div_lt_upper_bound; [lia|].
        rewrite Nat2Z.inj_succ, Z.pow_succ_r in Hx by lia. lia.
Qed.

(** No more digits than the number needs. *)
Lemma length_printint_loop k : forall f x, 0 <= x < base ^ Z.of_nat (S k) -> (length (printint_loop f x base) <= S k)%nat.
Proof.
  induction k as [|k IH]; intros f x Hx; (destruct f as [|f]; [simpl; lia|]); rewrite printint_loop_S; cbn [length].
  - assert (Hxb : x < base) by (change (Z.of_nat 1) with 1 in Hx; rewrite Z.pow_1_r in Hx; lia).
    rewrite (Z.div_small x base) by lia. simpl. lia.
  - destruct (Z.eqb_spec (x / base) 0) as [E|E]; [simpl; lia|].
    apply le_n_S, IH. split; [apply Z.div_pos; lia|]. apply Z.div_lt_upper_bound; [lia|].
    rewrite Nat2Z.inj_succ, Z.pow_succ_r in Hx by lia. lia.
Qed.

(** A digit string does not start with a minus sign and is not empty. *)
Lemma printint_loop_last f x : 0 <= x -> exists c l, rev (printint_loop (S f) x base) = c :: l /\ c <> 45.
Proof.
  revert x. induction f as [|f IH]; intros x Hx; rewrite printint_loop_S; cbn [rev].
  - pose proof (Z.mod_pos_bound x base ltac:(lia)). destruct (x / base =? 0); simpl;
      (eexists _, _; split; [done|]; apply digit_val_digit; lia).
  - destruct (x / base =? 0).
    + simpl. pose proof (Z.mod_pos_bound x base ltac:(lia)). eexists _, _. split; [done|]. apply digit_val_digit. lia.
    + destruct (IH (x / base)) as (c & l & E & Hc); [apply Z.div_pos; lia|]. rewrite E. eexists _, _. by split.
Qed.

Lemma read_int_loop x : 0 <= x < base ^ 32 -> read_int base (rev (printint_loop 32 x base)) = Some x.
Proof.
  intros Hx. pose proof (read_printint_loop 31 x Hx) as Hr.
  destruct (printint_loop_last 31 x ltac:(lia)) as (c & l & E & Hc). rewrite E in *. unfold read_int.
  by destruct (Z.eqb_spec c 45).
Qed.
End digits.

(** The number printint prints for a signed argument is the argument: the
    characters it sends to the console read back as it in the same base, for
    the bases 10 and 16 of %d and %x, and they fit buf[16]. *)
Theorem printint_reads_back xx base :
  base = 10 \/ base = 16 -> - 2 ^ 31 <= xx < 2 ^ 31 ->
  read_int base (rev (printint_buf xx base 1)) = Some xx /\ (length (printint_buf xx base 1) <= 16)%nat.
Proof.
  intros Hb Hx. assert (Hbr : 2 <= base <= 16) by lia.
  assert (Hbig : 2 ^ 32 < base ^ 10 /\ base ^ 10 <= base ^ 32) by (destruct Hb as [-> | ->]; vm_compute; (split; [reflexivity|discriminate])).
  unfold printint_buf. cbn [truthy Z.eqb negb andb]. rewrite length_app, rev_app_distr.
  destruct (Z.ltb_spec xx 0) as [Hneg|Hpos].
  - rewrite u32_small by lia. cbn [rev app].
    pose proof (length_printint_loop base Hbr 9 32 (- xx) ltac:(change (Z.of_nat 10) with 10; lia)) as Hl.
    split; [|simpl length at 2; lia]. cbn [read_int Z.eqb Pos.eqb].
    rewrite (read_printint_loop base Hbr 31) by (change (Z.of_nat 32) with 32; lia). simpl. f_equal. lia.
  - rewrite u32_small by lia. cbn [rev app]. rewrite Nat.add_0_r.
    pose proof (length_printint_loop base Hbr 9 32 xx ltac:(change (Z.of_nat 10) with 10; lia)) as Hl.
    split; [|lia]. apply read_int_loop; lia.
Qed.

Lemma printint_reads_back_witness :
  read_int 10 (rev (printint_buf (-1203) 10 1)) = Some (-1203) /\ rev (printint_buf (-1203) 10 1) = [45; 49; 50; 48; 51].
Proof.
  split; [|reflexivity]. apply (printint_reads_back (-1203) 10); [left; reflexivity|split; [discriminate|reflexivity]].
Defined.

(** ** The characters sent *)

(** The answers about the transmitter that one wait consumes: up to the first
    "idle". *)
Fixpoint after_idle (l : list bool) : list bool :=
  match l with [] => [] | b :: l' => if b then l' else after_idle l' end.

(** One character, and a text. *)
Definition send1 (u : uart) (c : Z) : uart := set_uart_writes ((THR, u8 c) :: uart_writes u) (set_uart_lsr_tx (after_idle (uart_lsr_tx u)) u).
Definition sent (bs : list Z) (s : kernel) : kernel := set_uart_ (foldl send1 (uart_ s) bs) s.

Lemma sent_app a b s : sent (a ++ b) s = sent b (sent a s).
Proof. unfold sent. by rewrite foldl_app. Qed.

Lemma set_uart_blind f : lock_blind (fun s => set_uart_ (f (uart_ s)) s).
Proof. by intros c b lk s. Qed.

(** The wait for the transmitter. *)
Lemma wait_idle l : forall s, uart_lsr_tx (uart_ s) = l ->
  iter (S (length l)) (fun _ : unit => idle <- lsr_tx_idle;; if negb idle then ret (inl tt) else ret (inr tt)) tt s =
  Ret tt (set_uart_ (set_uart_lsr_tx (after_idle l) (uart_ s)) s).
Proof.
  induction l as [|b l IH]; intros s E.
  - erewrite iter_exit; [|unfold bind, lsr_tx_idle, gets; cbn [obind]; unfold bind, gets; cbn [obind]; rewrite E; reflexivity].
    f_equal. assert (set_uart_lsr_tx (after_idle []) (uart_ s) = uart_ s) as -> by (cbn [after_idle]; rewrite <- E; by destruct (uart_ s)).
    by destruct s.
  - destruct b.
    + erewrite iter_exit; [|unfold bind, lsr_tx_idle, gets; cbn [obind]; unfold bind, gets; cbn [obind]; rewrite E; reflexivity]. reflexivity.
    + cbn [length]. erewrite iter_next; [|unfold bind, lsr_tx_idle, gets; cbn [obind]; unfold bind, gets; cbn [obind]; rewrite E; reflexivity].
      rewrite IH by done. reflexivity.
Qed.

(** The states in which printing is just a change of the uart. *)
Record printable (s : kernel) : Prop := {
  pt_irq : irq_ok s;
  pt_settled : settle s = s;
  pt_up : panicked s = false
}.

Lemma printable_sent bs s : printable s -> printable (sent bs s).
Proof. intros [? Hs ?]. split; try done. unfold sent. by rewrite <- set_uart__settle, Hs. Qed.

Lemma uartputc_sync_eq c s : printable s -> uartputc_sync c s = Ret tt (sent [c] s).
Proof.
  intros [Hi Hs Hp]. unfold uartputc_sync. rewrite (bind_Ret _ _ _ _ _ (push_off_eq s)).
  rewrite (bind_Ret _ _ _ _ _ (eq_refl : gets panicked (pushed s) = Ret (panicked s) (pushed s))), Hp.
  rewrite (bind_Ret _ _ _ _ _ (eq_refl : gets uart_ (pushed s) = Ret (uart_ s) (pushed s))).
  rewrite (bind_Ret _ _ _ _ _ (wait_idle (uart_lsr_tx (uart_ s)) (pushed s) eq_refl)). unfold WriteReg, modu, modify, bind. cbn [obind].
  rewrite pop_off_eq; [|done|destruct Hi; cbn; lia]. f_equal. transitivity (sent [c] (settle s)); [|by rewrite Hs].
  rewrite <- popped_pushed by done. done.
Qed.

(** What one call of consputc sends. *)
Definition cons_text (c : Z) : list Z := if c =? BACKSPACE then [8; 32; 8] else [c].

Lemma consputc_eq c s : printable s -> consputc c s = Ret tt (sent (cons_text c) s).
Proof.
  intros Hp. unfold consputc, cons_text. destruct (c =? BACKSPACE); [|by apply uartputc_sync_eq].
  rewrite (bind_Ret _ _ _ _ _ (uartputc_sync_eq 8 s Hp)), (bind_Ret _ _ _ _ _ (uartputc_sync_eq 32 _ (printable_sent _ _ Hp))).
  by rewrite uartputc_sync_eq by (by do 2 apply printable_sent).
Qed.

Lemma consputc_each l : forall s, printable s -> for_each l consputc s = Ret tt (sent (concat (cons_text <$> l)) s).
Proof.
  induction l as [|c l IH]; intros s Hp; [by destruct s|]. cbn [for_each fmap list_fmap concat].
  rewrite (bind_Ret _ _ _ _ _ (consputc_eq c s Hp)), IH, sent_app by (by apply printable_sent). done.
Qed.

(** The text of a conversion and of a format. *)
Definition conv_text (c : Z) (ap : list parg) : list Z :=
  if c =? 100 then rev (printint_buf (arg_num (head ap)) 10 1)
  else if c =? 120 then rev (printint_buf (arg_num (head ap)) 16 1)
  else if c =? 112 then 48 :: 120 :: printptr_loop 16 (arg_num (head ap))
  else if c =? 115 then arg_str (head ap)
  else if c =? 37 then [37] else [37; c].
Definition conv_rest (c : Z) (ap : list parg) : list parg :=
  if bool_decide (c ∈ [100; 120; 112; 115]) then tail ap else ap.

Fixpoint format_text (fmt : list Z) (ap : list parg) : list Z :=
  match fmt with
  | [] => []
  | c :: rest =>
      if c =? 0 then []
      else if negb (c =? 37) then c :: format_text rest ap
      else match rest with
           | [] => []
           | d :: rest' => if d =? 0 then [] else conv_text d ap ++ format_text rest' (conv_rest d ap)
           end
  end.

Lemma printf_conv_eq c ap s : printable s ->
  printf_conv c ap s = Ret (conv_rest c ap) (sent (concat (cons_text <$> conv_text c ap)) s).
Proof.
  intros Hp. unfold printf_conv, conv_text, conv_rest, printint, printptr.
  assert (Hb : forall l (k : unit -> K (list parg)), (for_each l consputc;; k tt) s = k tt (sent (concat (cons_text <$> l)) s)).
  { intros l k. by rewrite (bind_Ret _ _ _ _ _ (consputc_each l s Hp)). }
  destruct (Z.eqb_spec c 100) as [->|]; [by rewrite (Hb _ (fun _ => ret (tail ap)))|].
  destruct (Z.eqb_spec c 120) as [->|]; [by rewrite (Hb _ (fun _ => ret (tail ap)))|].
  destruct (Z.eqb_spec c 112) as [->|].
  { set (l := printptr_loop 16 (arg_num (head ap))). unfold bind. rewrite (consputc_eq 48 s Hp). cbn [obind].
    rewrite (consputc_eq 120 _ (printable_sent _ _ Hp)). cbn [obind].
    rewrite (consputc_each l) by (by do 2 apply printable_sent). cbn [obind]. by rewrite <- !sent_app. }
  destruct (Z.eqb_spec c 115) as [->|]; [by rewrite (Hb _ (fun _ => ret (tail ap)))|].
  rewrite bool_decide_false by set_solver. destruct (c =? 37).
  - rewrite (bind_Ret _ _ _ _ _ (consputc_eq 37 s Hp)). done.
  - rewrite (bind_Ret _ _ _ _ _ (consputc_eq 37 s Hp)), (bind_Ret _ _ _ _ _ (consputc_eq c _ (printable_sent _ _ Hp))).
    rewrite <- sent_app. cbn [fmap list_fmap concat]. by rewrite app_nil_r.
Qed.

Lemma printf_loop_eq fmt : forall ap s, printable s -> printf_loop fmt ap s = Ret tt (sent (concat (cons_text <$> format_text fmt ap)) s).
Proof.
  assert (E0 : forall s, Ret tt s = Ret tt (sent [] s)) by (intros s; by destruct s).
  remember (length fmt) as n eqn:En. revert fmt En. induction n as [n IH] using lt_wf_ind. intros [|c rest] En ap s Hp; [apply E0|].
  cbn [printf_loop format_text]. destruct (c =? 0); [apply E0|]. destruct (negb (c =? 37)).
  - cbn [fmap list_fmap concat]. rewrite (bind_Ret _ _ _ _ _ (consputc_eq c s Hp)), sent_app.
    apply (IH (length rest)); [simpl in En; lia|done|by apply printable_sent].
  - destruct rest as [|d rest']; [apply E0|]. destruct (d =? 0); [apply E0|].
    rewrite (bind_Ret _ _ _ _ _ (printf_conv_eq d ap s Hp)), fmap_app, concat_app, sent_app.
    apply (IH (length rest')); [simpl in En; lia|done|by apply printable_sent].
Qed.

(** printf, with or without its lock. *)
Lemma printf_eq fmt ap s : printable s -> locks s !! LPr = None ->
  printf fmt ap s = Ret tt (sent (concat (cons_text <$> format_text fmt ap)) s).
Proof.
  intros Hp Hl. pose proof Hp as [Hi Hs Hup]. unfold printf. rewrite (bind_Ret _ _ _ _ _ (eq_refl : gets pr_locking s = Ret (pr_locking s) s)).
  destruct (pr_locking s); cbn [when].
  - rewrite (bind_Ret _ _ _ _ _ (acquire_eq LPr s Hl)). assert (Hp1 : printable (acquired LPr s)).
    { destruct Hi as [Hn Hsie]. split; [split; cbn; [lia|done]| |done].
      unfold settle, acquired, pushed. cbn. by destruct (Z.eqb_spec (c_noff (cpu_ s) + 1) 0); [lia|]. }
    rewrite (bind_Ret _ _ _ _ _ (printf_loop_eq fmt ap _ Hp1)). unfold sent at 1.
    set (f := fun s0 => set_uart_ (foldl send1 (uart_ s0) (concat (cons_text <$> format_text fmt ap))) s0).
    change (release LPr (f (acquired LPr s)) = Ret tt (f s)).
    rewrite critical_eq; [|done|done|apply (set_uart_blind (fun u => foldl send1 u _))|done]. by rewrite <- settle_blind, Hs by (apply (set_uart_blind (fun u => foldl send1 u _))).
  - rewrite (bind_Ret _ _ _ _ _ (eq_refl : ret tt s = Ret tt s)). by rewrite (bind_Ret _ _ _ _ _ (printf_loop_eq fmt ap s Hp)).
Qed.
