(* ===== verification/Console.v ===== *)
(** kernel/console.c: line-buffered console input and console output, and the
    uart interrupt handler that feeds it. *)

From S2P Require Import Prelude Outcome Mem State Spinlock KString Kalloc Vm Proc Uart Printf.

Definition INPUT_BUF_SIZE : Z := 128.
(** C(x): Control-x *)
Definition Ctrl (x : Z) : Z := x - 64.

Definition modc (f : console -> console) : K unit := modify (fun s => set_cons (f (cons s)) s).
Definition cons_at (c : console) (i : Z) : Z := cons_buf c !!! Z.to_nat (i mod INPUT_BUF_SIZE).

Section with_fuel.
Context `{Fuel}.

Definition consolewrite_body (src : source) (n i : Z) : K (Z + Z) :=
  if negb (i <? n) then ret (inr i) else
  '(bs, r) <- either_copyin (source_add src i) 1;;
  if r =? -1 then ret (inr i) else
  uartputc (default 0 (head bs));;
  ret (inl (i + 1)).

Definition consolewrite (src : source) (n : Z) : K Z :=
  iter (S (Z.to_nat n)) (consolewrite_body src n) 0.

(** Wait until there is input; false when the process has been killed. *)
Definition cons_wait : K bool :=
  iter fuel (fun _ : unit =>
    c <- gets cons;;
    if negb (cons_r c =? cons_w c) then ret (inr true) else
    p <- curproc;;
    k <- killed p;;
    if truthy k then release LCons;; ret (inr false)
    else sleep ChConsR LCons;; ret (inl tt)) tt.

(** One byte of consoleread: the bytes still wanted, or the end of the loop
    with [None] for the early return. *)
Definition consoleread_body (target : Z) (st : dest * Z * list Z) :
    K (dest * Z * list Z + option (Z * list Z)) :=
  let '(dst, n, out) := st in
  if negb (0 <? n) then ret (inr (Some (n, out))) else
  ok <- cons_wait;;
  if negb ok then ret (inr None) else
  cn <- gets cons;;
  let c := cons_at cn (cons_r cn) in
  modc (fun cn => set_cons_r (u32 (cons_r cn + 1)) cn);;
  if c =? Ctrl 68 then
    (* Save ^D for next time, to make sure caller gets a 0-byte result. *)
    when (u32 n <? target) (modc (fun cn => set_cons_r (u32 (cons_r cn - 1)) cn));;
    ret (inr (Some (n, out)))
  else
    r <- either_copyout dst [c];;
    if r =? -1 then ret (inr (Some (n, out))) else
    if c =? 10 then ret (inr (Some (n - 1, out ++ [c])))
    else ret (inl (dest_add dst 1, n - 1, out ++ [c])).

(** The result, and the bytes a local destination has received. *)
Definition consoleread (dst : dest) (n : Z) : K (Z * list Z) :=
  let target := u32 n in
  acquire LCons;;
  r <- iter (S (Z.to_nat n)) (consoleread_body target) (dst, n, []);;
  match r with
  | None => ret (-1, [])
  | Some (n', out) => release LCons;; ret (i32 (target - n'), out)
  end.

(** Kill line: erase back to the last newline that has not been edited away. *)
Definition killline_body (_ : unit) : K (unit + unit) :=
  c <- gets cons;;
  if negb (cons_e c =? cons_w c) && negb (cons_at c (u32 (cons_e c - 1)) =? 10) then
    modc (fun c => set_cons_e (u32 (cons_e c - 1)) c);;
    consputc BACKSPACE;;
    ret (inl tt)
  else ret (inr tt).

Definition consoleintr (c : Z) : K unit :=
  acquire LCons;;
  (if c =? Ctrl 80 then procdump
   else if c =? Ctrl 85 then
     cn <- gets cons;;
     iter (S (Z.to_nat (u32 (cons_e cn - cons_w cn)))) killline_body tt
   else if (c =? Ctrl 72) || (c =? 127) then
     cn <- gets cons;;
     when (negb (cons_e cn =? cons_w cn))
       (modc (fun cn => set_cons_e (u32 (cons_e cn - 1)) cn);; consputc BACKSPACE)
   else
     cn <- gets cons;;
     when (negb (c =? 0) && (u32 (cons_e cn - cons_r cn) <? INPUT_BUF_SIZE))
       (let c := if c =? 13 then 10 else c in
        (* echo back to the user. *)
        consputc c;;
        (* store for consumption by consoleread(). *)
        modc (fun cn => set_cons_buf
          (<[Z.to_nat (cons_e cn mod INPUT_BUF_SIZE) := u8 c]> (cons_buf cn)) cn);;
        modc (fun cn => set_cons_e (u32 (cons_e cn + 1)) cn);;
        cn <- gets cons;;
        when ((c =? 10) || (c =? Ctrl 68) || (u32 (cons_e cn - cons_r cn) =? INPUT_BUF_SIZE))
          (modc (set_cons_w (cons_e cn));;
           wakeup ChConsR)));;
  release LCons.

Definition consoleinit : K unit :=
  initlock LCons;;
  uartinit;;
  modify (fun s => set_devsw (<[Z.to_nat CONSOLE := Some DevConsole]> (devsw s)) s).

(** kernel/uart.c *)
Definition uartintr : K unit :=
  u <- gets uart_;;
  iter (S (length (uart_rx u))) (fun _ : unit =>
    c <- uartgetc;;
    if c =? -1 then ret (inr tt) else consoleintr c;; ret (inl tt)) tt;;
  (* send buffered characters. *)
  acquire LUart;;
  uartstart;;
  release LUart.
End with_fuel.
