(* ===== verification/ConsoleSpec.v ===== *)
(** The console as a line editor: consoleintr edits the line that is being typed and hands
    finished lines on, and consoleread takes them from there. *)

From S2P Require Import Prelude Outcome Mem State Spinlock KString Kalloc Vm VmSpec UserMem VmCopy Proc ProcSpec Uart Printf PrintfSpec Console.

(** ** The ring buffer *)

(** [D] has been handed on and not yet been read, [E] is being edited. *)
Record cons_rep (c : console) (D E : list Z) : Prop := {
  cr_len : length (cons_buf c) = 128%nat;
  cr_r : 0 <= cons_r c < 2 ^ 32;
  cr_w : cons_w c = u32 (cons_r c + Z.of_nat (length D));
  cr_e : cons_e c = u32 (cons_r c + Z.of_nat (length (D ++ E)));
  cr_fit : (length (D ++ E) <= 128)%nat;
  cr_byte : forall i x, (D ++ E) !! i = Some x -> cons_at c (cons_r c + Z.of_nat i) = x
}.

Lemma cons_index x : u32 x mod INPUT_BUF_SIZE = x mod INPUT_BUF_SIZE.
Proof.
  unfold u32, INPUT_BUF_SIZE. rewrite (Z.mod_eq x (2 ^ 32)) by lia. replace (x - 2 ^ 32 * (x / 2 ^ 32)) with (x + (- 2 ^ 25 * (x / 2 ^ 32)) * 128) by lia. apply Z_mod_plus_full.
Qed.

Lemma cons_at_u32 c i : cons_at c (u32 i) = cons_at c i.
Proof. unfold cons_at. by rewrite cons_index. Qed.

Lemma ring_inj r i j : 0 <= i < 128 -> 0 <= j < 128 -> (r + i) mod INPUT_BUF_SIZE = (r + j) mod INPUT_BUF_SIZE -> i = j.
Proof.
  unfold INPUT_BUF_SIZE. intros Hi Hj E. pose proof (Z.div_mod (r + i) 128 ltac:(lia)). pose proof (Z.div_mod (r + j) 128 ltac:(lia)). lia.
Qed.

Lemma u32_diff r n m : 0 <= n < 2 ^ 32 -> u32 (u32 (r + (m + n)) - u32 (r + m)) = n.
Proof. intros Hn. unfold u32. rewrite <- Zminus_mod. replace (r + (m + n) - (r + m)) with n by lia. apply Z.mod_small. lia. Qed.

Section rep.
Context (c : console) (D E : list Z) (Hc : cons_rep c D E).

Lemma rep_used : u32 (cons_e c - cons_r c) = Z.of_nat (length (D ++ E)).
Proof.
  pose proof (cr_fit _ _ _ Hc). rewrite (cr_e _ _ _ Hc). unfold u32. rewrite Zminus_mod_idemp_l, Z.add_simpl_l. apply Z.mod_small. lia.
Qed.

Lemma rep_editing : (cons_e c =? cons_w c) = bool_decide (E = []).
Proof.
  pose proof (cr_fit _ _ _ Hc) as Hf. rewrite length_app in Hf. assert (Hd : u32 (cons_e c - cons_w c) = Z.of_nat (length E)).
  { rewrite (cr_e _ _ _ Hc), (cr_w _ _ _ Hc), length_app, Nat2Z.inj_add. apply u32_diff. lia. }
  destruct (Z.eqb_spec (cons_e c) (cons_w c)) as [Ee|Hne]; symmetry.
  - apply bool_decide_true. rewrite Ee, Z.sub_diag in Hd. apply length_zero_iff_nil. change (u32 0) with 0 in Hd. lia.
  - apply bool_decide_false. intros ->. apply Hne. by rewrite (cr_e _ _ _ Hc), (cr_w _ _ _ Hc), app_nil_r.
Qed.

Lemma rep_commit : cons_rep (set_cons_w (cons_e c) c) (D ++ E) [].
Proof.
  destruct Hc as [? ? ? He ? Hb]. split; cbn; rewrite ?app_nil_r; done.
Qed.

Lemma rep_erase E' x : E = E' ++ [x] -> cons_rep (set_cons_e (u32 (cons_e c - 1)) c) D E' /\ cons_at c (u32 (cons_e c - 1)) = x.
Proof.
  intros ->. destruct Hc as [Hlen Hr Hw He Hf Hb]. rewrite app_assoc in *. rewrite length_app in *. cbn [length] in *.
  assert (Ee : u32 (cons_e c - 1) = u32 (cons_r c + Z.of_nat (length (D ++ E')))).
  { rewrite He. unfold u32. rewrite Zminus_mod_idemp_l. f_equal. lia. }
  split.
  - split; cbn; try done; [lia|]. intros i y Hy. apply Hb. by apply lookup_app_l_Some.
  - rewrite Ee, cons_at_u32. apply Hb. by rewrite list_lookup_middle.
Qed.

Lemma rep_put x : (length (D ++ E) < 128)%nat ->
  cons_rep (set_cons_e (u32 (cons_e c + 1)) (set_cons_buf (<[Z.to_nat (cons_e c mod INPUT_BUF_SIZE) := x]> (cons_buf c)) c)) D (E ++ [x]).
Proof.
  intros Hlt. destruct Hc as [Hlen Hr Hw He Hf Hb]. split; cbn; rewrite ?length_insert; try done.
  - rewrite He, app_assoc, (length_app (D ++ E)). cbn. unfold u32. rewrite Zplus_mod_idemp_l. f_equal. lia.
  - rewrite app_assoc, length_app. cbn. lia.
  - intros i y Hy. unfold cons_at. cbn. rewrite He, cons_index. rewrite app_assoc in Hy. pose proof (Z.mod_pos_bound (cons_r c + Z.of_nat i) INPUT_BUF_SIZE ltac:(done)) as Hm.
    apply lookup_app_Some in Hy as [Hy|[Hi Hy]].
    + rewrite list_lookup_total_insert_ne; [by apply Hb|]. apply lookup_lt_Some in Hy. intros Em. apply Z2Nat.inj in Em; [|apply Z.mod_pos_bound; done|apply Z.mod_pos_bound; done].
      apply ring_inj in Em; lia.
    + apply list_lookup_singleton_Some in Hy as [Hi0 <-]. assert (i = length (D ++ E)) as -> by lia. apply list_lookup_total_insert_eq. rewrite Hlen. unfold INPUT_BUF_SIZE in *. lia.
Qed.
End rep.

(** ** Typing *)

(** What is handed on and what is being edited after one character. *)
Definition key (c : Z) (D E : list Z) : list Z * list Z :=
  if c =? Ctrl 80 then (D, E)
  else if c =? Ctrl 85 then (D, [])
  else if (c =? Ctrl 72) || (c =? 127) then (D, removelast E)
  else if negb (c =? 0) && (length (D ++ E) <? 128)%nat then
    let c := if c =? 13 then 10 else c in
    if (c =? 10) || (c =? Ctrl 68) || (length (D ++ E) =? 127)%nat then (D ++ E ++ [c], []) else (D, E ++ [c])
  else (D, E).

(** The text that rubs out [n] characters on the screen. *)
Definition rub_out (n : nat) : list Z := concat (replicate n [8; 32; 8]).

(** What is sent to the screen, but for the list of processes of control-P. *)
Definition echo (c : Z) (D E : list Z) : list Z :=
  if c =? Ctrl 85 then rub_out (length E)
  else if (c =? Ctrl 72) || (c =? 127) then rub_out (Nat.min 1 (length E))
  else if negb (c =? 0) && (length (D ++ E) <? 128)%nat then [if c =? 13 then 10 else c]
  else [].

(** The console and what has been sent to the screen. *)
Definition con (C : console) (bs : list Z) (s : kernel) : kernel := set_cons C (sent bs s).

Lemma con_id s : con (cons s) [] s = s.
Proof. by destruct s. Qed.

Lemma modc_con {A} f (k : unit -> K A) C bs s : bind (modc f) k (con C bs s) = k tt (con (f C) bs s).
Proof. reflexivity. Qed.

Lemma consputc_con x C bs s : printable s -> consputc x (con C bs s) = Ret tt (con C (bs ++ cons_text x) s).
Proof.
  intros Hp. assert (Hp1 : printable (con C bs s)). { destruct (printable_sent bs s Hp) as [? Hs ?]. split; try done. unfold con. by rewrite <- set_cons_settle, Hs. }
  rewrite (consputc_eq x _ Hp1). f_equal. unfold con. by rewrite sent_app.
Qed.

Lemma killline_eq s D : printable s -> forall E C bs, 10 ∉ E -> cons_rep C D E ->
  exists C', iter (S (length E)) killline_body tt (con C bs s) = Ret tt (con C' (bs ++ rub_out (length E)) s) /\ cons_rep C' D [].
Proof.
  intros Hp E. induction E as [|x E IH] using rev_ind; intros C bs H10 Hr.
  - exists C. split; [|done]. unfold rub_out. cbn [length replicate concat]. rewrite app_nil_r. apply iter_exit. unfold killline_body.
    rewrite (bind_Ret _ _ _ _ _ (eq_refl : gets cons (con C bs s) = Ret C (con C bs s))), (rep_editing _ _ _ Hr). done.
  - destruct (rep_erase _ _ _ Hr E x eq_refl) as [Hr1 Hx]. destruct (IH (set_cons_e (u32 (cons_e C - 1)) C) (bs ++ [8; 32; 8])) as (C' & E' & Hr'); [set_solver|done|].
    exists C'. split; [|done]. rewrite length_app, Nat.add_comm. cbn [length]. change (rub_out (1 + length E)) with ([8; 32; 8] ++ rub_out (length E)). rewrite app_assoc, <- E'.
    apply iter_next. unfold killline_body. rewrite (bind_Ret _ _ _ _ _ (eq_refl : gets cons (con C bs s) = Ret C (con C bs s))), (rep_editing _ _ _ Hr), Hx.
    rewrite bool_decide_false by (by destruct E). cbn [negb andb]. destruct (Z.eqb_spec x 10) as [->|_]; [set_solver|]. cbn [negb].
    rewrite modc_con. by rewrite (bind_Ret _ _ _ _ _ (consputc_con BACKSPACE _ _ _ Hp)).
Qed.

Lemma procdump_eq s : printable s -> locks s !! LPr = None -> exists text, procdump s = Ret tt (sent text s).
Proof.
  intros Hp Hl. unfold procdump. rewrite (bind_Ret _ _ _ _ _ (printf_eq _ _ s Hp Hl)). set (t0 := concat _). clearbody t0.
  revert t0. generalize (seq 0 NPROC) as l. induction l as [|i l IH]; intros t0; cbn [for_each]; [by exists t0|].
  rewrite (bind_bind_Ret _ _ _ _ _ _ (eq_refl : getp i (sent t0 s) = Ret (procs s !!! i) (sent t0 s))). destruct (decide (p_state (procs s !!! i) = UNUSED)).
  - rewrite (bind_Ret _ _ _ _ _ (eq_refl : ret tt (sent t0 s) = Ret tt (sent t0 s))). apply IH.
  - rewrite (bind_bind_Ret _ _ _ _ _ _ (printf_eq _ _ (sent t0 s) (printable_sent _ _ Hp) Hl)), <- sent_app.
    rewrite (bind_Ret _ _ _ _ _ (printf_eq _ _ (sent _ s) (printable_sent _ _ Hp) Hl)), <- sent_app. apply IH.
Qed.

Lemma release_con s C bs P : irq_ok s -> settle s = s -> locks s !! LCons = None ->
  release LCons (set_procs P (con C bs (acquired LCons s))) = Ret tt (set_procs P (con C bs s)).
Proof.
  intros Hi Hs Hl. set (U := foldl send1 (uart_ s) bs). set (f := fun s0 => set_procs P (set_cons C (set_uart_ U s0))).
  change (release LCons (f (acquired LCons s)) = Ret tt (f s)). rewrite (critical_eq LCons f s Hi Hl); [|done|done]. rewrite <- settle_blind, Hs by done. done.
Qed.

(** A character that is stored. *)
Lemma store_key s c D E : printable s -> can_wake s -> 0 < c_noff (cpu_ s) -> cons_rep (cons s) D E -> 10 ∉ E -> 0 <= c < 256 -> (length (D ++ E) < 128)%nat ->
  let done := (c =? 10) || (c =? Ctrl 68) || (length (D ++ E) =? 127)%nat in
  exists C', (consputc c;;
    modc (fun cn => set_cons_buf (<[Z.to_nat (cons_e cn mod INPUT_BUF_SIZE) := u8 c]> (cons_buf cn)) cn);;
    modc (fun cn => set_cons_e (u32 (cons_e cn + 1)) cn);;
    cn <- gets cons;;
    when ((c =? 10) || (c =? Ctrl 68) || (u32 (cons_e cn - cons_r cn) =? INPUT_BUF_SIZE))
      (modc (set_cons_w (cons_e cn));; wakeup ChConsR)) s =
    Ret tt (set_procs (if done then imap (wake ChConsR (c_proc (cpu_ s))) (procs s) else procs s) (con C' [c] s)) /\
    if done then cons_rep C' (D ++ E ++ [c]) [] else cons_rep C' D (E ++ [c]) /\ 10 ∉ E ++ [c].
Proof.
  intros Hp Hw Hn Hr H10 Hc Hlt done. pose proof (rep_put _ _ _ Hr c Hlt) as Hr1. set (C1 := set_cons_e _ _) in Hr1.
  assert (Ed : (c =? 10) || (c =? Ctrl 68) || (u32 (cons_e C1 - cons_r C1) =? INPUT_BUF_SIZE) = done).
  { rewrite (rep_used _ _ _ Hr1). unfold done. f_equal. rewrite app_assoc, length_app. cbn [length]. unfold INPUT_BUF_SIZE. destruct (Nat.eqb_spec (length (D ++ E)) 127); [apply Z.eqb_eq|apply Z.eqb_neq]; lia. }
  match goal with |- context [bind ?x ?y s] => set (prg := bind x y) end.
  assert (E1 : prg s = when done (modc (set_cons_w (cons_e C1));; wakeup ChConsR) (con C1 [c] s)).
  { unfold prg. rewrite <- (con_id s) at 1. rewrite (bind_Ret _ _ _ _ _ (consputc_con c _ _ _ Hp)).
    assert (Et : cons_text c = [c]) by (unfold cons_text, BACKSPACE; destruct (Z.eqb_spec c 0x100); [lia|reflexivity]). rewrite Et, app_nil_l, u8_small by lia.
    rewrite !modc_con. rewrite (bind_Ret _ _ _ _ _ (eq_refl : gets cons (con C1 [c] s) = Ret C1 (con C1 [c] s))), Ed. reflexivity. }
  rewrite E1. clear E1. destruct done eqn:Edn; cbn [when].
  - exists (set_cons_w (cons_e C1) C1). split; [|by apply rep_commit]. set (s2 := con (set_cons_w (cons_e C1) C1) [c] s).
    rewrite (bind_Ret _ _ _ _ _ (eq_refl : modc (set_cons_w (cons_e C1)) (con C1 [c] s) = Ret tt s2)).
    assert (Hw2 : can_wake s2) by (by destruct Hw). by rewrite (proj1 (wakeup_locked ChConsR s2 Hw2 Hn)).
  - exists C1. split; [by destruct s|]. split; [assumption|]. apply orb_false_iff in Edn as [Edn _]. apply orb_false_iff in Edn as [Edn _]. apply Z.eqb_neq in Edn. set_solver.
Qed.

(** C31. consoleintr is a line editor: it takes one character from what has been typed to the
    screen and to the reader as [key] and [echo] say.  Backspace removes the last
    character of the line that is being edited, control-U all of it; a carriage
    return counts as a newline; a newline, control-D or a full buffer hands the line on and
    wakes the readers; a character that does not fit is dropped.  What has been handed on
    can no longer be edited. *)
Theorem consoleintr_edits s c D E :
  can_wake s -> printable s -> locks s !! LCons = None -> locks s !! LPr = None -> cons_rep (cons s) D E -> 10 ∉ E -> 0 <= c < 256 ->
  exists C' out P, consoleintr c s = Ret tt (set_procs P (con C' out s)) /\
    let '(D', E') := key c D E in
    cons_rep C' D' E' /\ 10 ∉ E' /\ (c <> Ctrl 80 -> out = echo c D E) /\
    P = if bool_decide (D' = D) then procs s else imap (wake ChConsR (c_proc (cpu_ s))) (procs s).
Proof.
  intros Hw Hp Hl Hlp Hr H10 Hc. pose proof Hp as [Hi Hs Hup]. unfold consoleintr. rewrite (bind_Ret _ _ _ _ _ (acquire_eq LCons s Hl)).
  set (s1 := acquired LCons s). assert (Hn1 : 0 < c_noff (cpu_ s1)) by (destruct Hi; cbn; lia).
  assert (Hp1 : printable s1) by (split; [split; cbn; [destruct Hi; lia|done]|by apply settle_locked|done]).
  assert (Hw1 : can_wake s1) by (by apply can_wake_acquired). assert (Hlp1 : locks s1 !! LPr = None) by (cbn; by rewrite lookup_insert_ne).
  assert (Hrel : forall C bs P, release LCons (set_procs P (con C bs s1)) = Ret tt (set_procs P (con C bs s))) by (intros C bs P; by apply release_con).
  assert (Eid : forall C bs, con C bs s1 = set_procs (procs s) (con C bs s1)) by (intros C bs; by destruct s).
  unfold key, echo. destruct (Z.eqb_spec c (Ctrl 80)) as [->|].
  { destruct (procdump_eq s1 Hp1 Hlp1) as (text & E1). rewrite (bind_Ret _ _ _ _ _ E1). change (sent text s1) with (con (cons s) text s1). rewrite Eid, Hrel.
    eexists _, _, _. split; [reflexivity|]. do 3 (split; [done|]). by rewrite bool_decide_true. }
  destruct (Z.eqb_spec c (Ctrl 85)) as [->|].
  { rewrite (bind_bind_Ret _ _ _ _ _ _ (eq_refl : gets cons s1 = Ret (cons s) s1)). assert (En : u32 (cons_e (cons s) - cons_w (cons s)) = Z.of_nat (length E)).
    { pose proof (cr_fit _ _ _ Hr) as Hf. rewrite length_app in Hf. rewrite (cr_e _ _ _ Hr), (cr_w _ _ _ Hr), length_app, Nat2Z.inj_add. apply u32_diff. lia. }
    rewrite En, Nat2Z.id. destruct (killline_eq s1 D Hp1 E (cons s) [] H10 Hr) as (C' & E1 & Hr'). change (con (cons s) [] s1) with (con (cons s1) [] s1) in E1. rewrite con_id in E1.
    rewrite (bind_Ret _ _ _ _ _ E1), Eid, Hrel. eexists _, _, _. split; [reflexivity|]. split; [done|]. split; [set_solver|]. split; [done|]. by rewrite bool_decide_true. }
  destruct ((c =? Ctrl 72) || (c =? 127)).
  { rewrite (bind_bind_Ret _ _ _ _ _ _ (eq_refl : gets cons s1 = Ret (cons s) s1)), (rep_editing _ _ _ Hr). destruct E as [|x E _] using rev_ind.
    - rewrite bool_decide_true by done. cbn [negb when]. rewrite (bind_Ret _ _ _ _ _ (eq_refl : ret tt s1 = Ret tt s1)). rewrite <- (con_id s1), Eid. change (cons s1) with (cons s). rewrite Hrel.
      eexists _, _, _. split; [reflexivity|]. do 3 (split; [done|]). by rewrite bool_decide_true.
    - rewrite bool_decide_false by (by destruct E). cbn [negb when]. destruct (rep_erase _ _ _ Hr E x eq_refl) as [Hr1 _].
      assert (E1 : modc (fun cn => set_cons_e (u32 (cons_e cn - 1)) cn) s1 = Ret tt (con (set_cons_e (u32 (cons_e (cons s) - 1)) (cons s)) [] s1)) by (rewrite <- (con_id s1) at 1; reflexivity).
      rewrite (bind_bind_Ret _ _ _ _ _ _ E1), (bind_Ret _ _ _ _ _ (consputc_con BACKSPACE _ _ _ Hp1)), Eid, Hrel. eexists _, _, _. split; [reflexivity|]. rewrite removelast_last.
      split; [done|]. split; [set_solver|]. split; [|by rewrite bool_decide_true]. intros _. rewrite length_app, Nat.add_comm. done. }
  rewrite (bind_bind_Ret _ _ _ _ _ _ (eq_refl : gets cons s1 = Ret (cons s) s1)), (rep_used _ _ _ Hr).
  assert (Elt : (Z.of_nat (length (D ++ E)) <? INPUT_BUF_SIZE) = (length (D ++ E) <? 128)%nat).
  { unfold INPUT_BUF_SIZE. destruct (Nat.ltb_spec (length (D ++ E)) 128); [apply Z.ltb_lt|apply Z.ltb_ge]; lia. }
  rewrite Elt. destruct (negb (c =? 0) && (length (D ++ E) <? 128)%nat) eqn:Est; cbn [when].
  - apply andb_true_iff in Est as [_ Hlt]. apply Nat.ltb_lt in Hlt. cbv zeta. set (x := if c =? 13 then 10 else c). assert (Hx : 0 <= x < 256) by (unfold x; destruct (c =? 13); lia).
    destruct (store_key s1 x D E Hp1 Hw1 Hn1 Hr H10 Hx Hlt) as (C' & E1 & Hres). cbv zeta in E1, Hres. rewrite (bind_Ret _ _ _ _ _ E1), Hrel.
    eexists _, _, _. split; [reflexivity|]. destruct ((x =? 10) || (x =? Ctrl 68) || (length (D ++ E) =? 127)%nat).
    + split; [done|]. split; [set_solver|]. split; [done|]. rewrite bool_decide_false; [done|]. intros Ed. apply (f_equal length) in Ed. rewrite !length_app in Ed. cbn in Ed. lia.
    + destruct Hres as [? ?]. do 3 (split; [done|]). by rewrite bool_decide_true.
  - rewrite (bind_Ret _ _ _ _ _ (eq_refl : ret tt s1 = Ret tt s1)). rewrite <- (con_id s1), Eid. change (cons s1) with (cons s). rewrite Hrel.
    eexists _, _, _. split; [reflexivity|]. do 3 (split; [done|]). by rewrite bool_decide_true.
Qed.

(** ** Reading *)

(** What a read of at most [n] bytes to [va] delivers of [D] and what it leaves; [w] tells which
    addresses can be written and [first] that nothing has been delivered yet.  Nothing
    when it has to wait. *)
Fixpoint take_line (w : Z -> bool) (first : bool) (va : Z) (n : nat) (D : list Z) : option (list Z * list Z) :=
  match n, D with
  | O, _ => Some ([], D)
  | S _, [] => None
  | S n, c :: D' =>
      if c =? Ctrl 68 then Some ([], if first then D' else D)
      else if negb (w va) then Some ([], D')
      else if c =? 10 then Some ([c], D')
      else match take_line w false (va + 1) n D' with Some (out, rest) => Some (c :: out, rest) | None => None end
  end.

Lemma take_line_ext w w' n : forall first va D, (forall x, w' x = w x) -> take_line w' first va n D = take_line w first va n D.
Proof. induction n as [|n IH]; intros first va D Hw; [done|]. destruct D as [|c D]; [done|]. cbn. by rewrite Hw, IH. Qed.

Lemma take_line_length w n : forall first va D bs rest, take_line w first va n D = Some (bs, rest) -> (length bs <= n)%nat.
Proof.
  induction n as [|n IH]; intros first va D bs rest Ht; [by injection Ht as <- <-|]. destruct D as [|c D]; [done|]. cbn in Ht.
  destruct (c =? Ctrl 68); [injection Ht as <- <-; cbn; lia|]. destruct (negb (w va)); [injection Ht as <- <-; cbn; lia|].
  destruct (c =? 10); [injection Ht as <- <-; cbn; lia|]. destruct (take_line w false (va + 1) n D) as [[bs' rest']|] eqn:El; [|done].
  injection Ht as <- <-. apply IH in El. cbn. lia.
Qed.

(** Process [p] runs with page table [t]. *)
Record reader (s : kernel) (p : nat) (root : Z) (t : ptree) : Prop := {
  rd_irq : irq_ok s;
  rd_settled : settle s = s;
  rd_proc : c_proc (cpu_ s) = Some p;
  rd_root : p_pagetable (procs s !!! p) = root;
  rd_img : image_ok (img s);
  rd_rep : pt_rep (img s) (mem s) root t;
  rd_sep : user_sep (mem s) t
}.

Lemma rep_next c x D E : cons_rep c (x :: D) E ->
  cons_at c (cons_r c) = x /\ (cons_r c =? cons_w c) = false /\ cons_rep (set_cons_r (u32 (cons_r c + 1)) c) D E.
Proof.
  intros [Hlen Hr Hw He Hf Hb]. cbn [app length] in *. rewrite length_app in *. split; [|split].
  - specialize (Hb 0%nat x eq_refl). by rewrite Z.add_0_r in Hb.
  - apply Z.eqb_neq. rewrite Hw. intros Er. pose proof (u32_diff (cons_r c) (Z.of_nat (S (length D))) 0 ltac:(lia)) as Hd.
    rewrite Z.add_0_l, Z.add_0_r, <- Er in Hd. unfold u32 in Hd at 2. rewrite (Z.mod_small (cons_r c)), Z.sub_diag in Hd by lia. change (u32 0) with 0 in Hd. lia.
  - split; cbn; try done.
    + apply Z.mod_pos_bound. lia.
    + rewrite Hw. unfold u32. rewrite Zplus_mod_idemp_l. f_equal. lia.
    + rewrite He. unfold u32. rewrite length_app, Zplus_mod_idemp_l. f_equal. lia.
    + rewrite length_app. lia.
    + intros i y Hy. change (cons_at c (u32 (cons_r c + 1) + Z.of_nat i) = y). rewrite <- cons_at_u32. rewrite <- (Hb (S i) y Hy), <- (cons_at_u32 c (cons_r c + Z.of_nat (S i))).
      f_equal. unfold u32. rewrite Zplus_mod_idemp_l. f_equal. lia.
Qed.

Section reading.
Context `{Fuel} (Hfuel : (0 < fuel)%nat) (s : kernel) (p : nat) (root : Z) (t : ptree) (Hs : reader s p root t).

(** The state inside the critical section. *)
Definition within (C : console) (m : memory) : kernel := set_cons C (set_mem m (acquired LCons s)).

Lemma within_copyout C m va b : pt_rep (img s) m root t -> user_sep m t -> 0 <= va -> 0 <= b < 2 ^ 8 ->
  exists m', either_copyout (ToUser va) [b] (within C m) = (if uwritable m t va then Ret 0 (within C m') else Ret (-1) (within C m)) /\
    (uwritable m t va = true -> uwritten m t va [b] m' /\ pt_rep (img s) m' root t /\ user_sep m' t).
Proof.
  intros Hr Hu Hva Hb. destruct Hs as [[Hi Hi0] Hset Hp Hpt Him _ _]. assert (Hi1 : irq_ok (within C m)) by (split; cbn; [lia|done]).
  destruct (copyout_byte (within C m) root t va b Him Hr Hu Hva Hb) as (m' & E & Hw). exists m'. split; [|done]. change (mem (within C m)) with m in E.
  unfold either_copyout. rewrite (bind_Ret _ _ _ _ _ (myproc_eq _ Hi1)). rewrite settle_locked by (cbn; lia). change (c_proc (cpu_ (within C m))) with (c_proc (cpu_ s)). rewrite Hp.
  rewrite (bind_Ret _ _ _ _ _ (eq_refl : deref (Some p) (within C m) = Ret p (within C m))), (bind_Ret _ _ _ _ _ (eq_refl : getp p (within C m) = Ret (procs s !!! p) (within C m))), Hpt, E.
  done.
Qed.
Lemma cons_wait_ready C m : (cons_r C =? cons_w C) = false -> cons_wait (within C m) = Ret true (within C m).
Proof.
  intros Hne. unfold cons_wait. destruct fuel as [|f]; [lia|]. apply iter_exit.
  by rewrite (bind_Ret _ _ _ _ _ (eq_refl : gets cons (within C m) = Ret C (within C m))), Hne.
Qed.

(** One turn of consoleread that finds a byte. *)
Lemma read_turn target n va out C m x D E : 0 < n -> cons_rep C (x :: D) E -> 0 <= x < 2 ^ 8 -> 0 <= va -> pt_rep (img s) m root t -> user_sep m t ->
  let C1 := set_cons_r (u32 (cons_r C + 1)) C in
  exists m', consoleread_body target (ToUser va, n, out) (within C m) =
    (if x =? Ctrl 68 then Ret (inr (Some (n, out))) (within (if u32 n <? target then C else C1) m)
     else if negb (uwritable m t va) then Ret (inr (Some (n, out))) (within C1 m)
     else if x =? 10 then Ret (inr (Some (n - 1, out ++ [x]))) (within C1 m')
     else Ret (inl (ToUser (va + 1), n - 1, out ++ [x])) (within C1 m')) /\
    (uwritable m t va = true -> uwritten m t va [x] m' /\ pt_rep (img s) m' root t /\ user_sep m' t).
Proof.
  intros Hn Hr Hx Hva Hrep Hsep C1. destruct (rep_next _ _ _ _ Hr) as (Hat & Hne & _). destruct (within_copyout C1 m va x Hrep Hsep Hva Hx) as (m' & Eo & Hw).
  exists m'. split; [|done]. unfold consoleread_body. destruct (Z.ltb_spec 0 n); [|lia]. cbn [negb]. rewrite (bind_Ret _ _ _ _ _ (cons_wait_ready C m Hne)). cbn [negb].
  rewrite (bind_Ret _ _ _ _ _ (eq_refl : gets cons (within C m) = Ret C (within C m))). rewrite Hat.
  match goal with |- bind _ ?k _ = _ => change (k tt (within C1 m) = if x =? Ctrl 68 then Ret (inr (Some (n, out))) (within (if u32 n <? target then C else C1) m)
     else if negb (uwritable m t va) then Ret (inr (Some (n, out))) (within C1 m)
     else if x =? 10 then Ret (inr (Some (n - 1, out ++ [x]))) (within C1 m')
     else Ret (inl (ToUser (va + 1), n - 1, out ++ [x])) (within C1 m')) end. cbv beta.
  destruct (x =? Ctrl 68).
  - destruct (u32 n <? target); [|reflexivity]. cbn [when].
    assert (Eb : set_cons_r (u32 (cons_r C1 - 1)) C1 = C).
    { assert (Er : u32 (cons_r C1 - 1) = cons_r C).
      { change (u32 (u32 (cons_r C + 1) - 1) = cons_r C). unfold u32. rewrite Zminus_mod_idemp_l, Z.add_simpl_r. apply Z.mod_small, Hr. }
      rewrite Er. unfold C1. by destruct C. }
    change (Ret (A := dest * Z * list Z + option (Z * list Z)) (inr (Some (n, out))) (within (set_cons_r (u32 (cons_r C1 - 1)) C1) m) = Ret (inr (Some (n, out))) (within C m)). by rewrite Eb.
  - destruct (uwritable m t va) eqn:Ew; rewrite (bind_Ret _ _ _ _ _ Eo); [|reflexivity]. cbn [negb]. change (0 =? -1) with false. cbv iota. cbn [dest_add].
    destruct (uwritable_page _ _ _ Hva Hsep Ew) as (HM & _ & _). rewrite u64_small by (change MAXVA with (2 ^ 38) in HM; lia). by destruct (x =? 10).
Qed.

Lemma read_loop n0 k : forall f va out C m D E bs rest, (k < f)%nat -> (k <= n0)%nat -> Z.of_nat n0 < 2 ^ 31 ->
  cons_rep C D E -> Forall (fun x => 0 <= x < 2 ^ 8) D -> 0 <= va -> pt_rep (img s) m root t -> user_sep m t ->
  take_line (uwritable m t) (bool_decide (k = n0)) va k D = Some (bs, rest) ->
  exists C' m', iter f (consoleread_body (Z.of_nat n0)) (ToUser va, Z.of_nat k, out) (within C m) =
      Ret (Some (Z.of_nat k - Z.of_nat (length bs), out ++ bs)) (within C' m') /\
    cons_rep C' rest E /\ uwritten m t va bs m' /\ pt_rep (img s) m' root t /\ user_sep m' t.
Proof.
  induction k as [|k IH]; intros f va out C m D E bs rest Hf Hk Hn0 Hr HD Hva Hrep Hsep Ht; (destruct f as [|f]; [lia|]).
  { cbn in Ht. injection Ht as <- <-. exists C, m. rewrite app_nil_r. split; [by apply iter_exit|]. split; [done|]. split; [apply uwritten_nil|done]. }
  cbn [take_line] in Ht. destruct D as [|x D]; [done|]. apply Forall_cons_1 in HD as [Hx HD]. destruct (rep_next _ _ _ _ Hr) as (_ & _ & Hr1).
  destruct (read_turn (Z.of_nat n0) (Z.of_nat (S k)) va out C m x D E ltac:(lia) Hr Hx Hva Hrep Hsep) as (m1 & Eb & Hw). cbv zeta in Eb.
  set (C1 := set_cons_r _ C) in *. rewrite u32_small in Eb by lia. destruct (x =? Ctrl 68).
  { injection Ht as <- <-. eexists _, m. rewrite app_nil_r. change (Z.of_nat (length [])) with 0. rewrite Z.sub_0_r. split; [apply iter_exit, Eb|]. split; [|split; [apply uwritten_nil|done]].
    clear IH. case_bool_decide as Hkn; destruct (Z.ltb_spec (Z.of_nat (S k)) (Z.of_nat n0)); (done || lia). }
  destruct (uwritable m t va) eqn:Ew; cbn [negb] in Ht, Eb.
  2:{ injection Ht as <- <-. exists C1, m. rewrite app_nil_r. change (Z.of_nat (length [])) with 0. rewrite Z.sub_0_r. split; [by apply iter_exit|]. split; [done|split; [apply uwritten_nil|done]]. }
  destruct (Hw eq_refl) as (Hu & Hrep1 & Hsep1). destruct (x =? 10).
  { injection Ht as <- <-. exists C1, m1. split; [|done]. by rewrite (iter_exit _ _ _ _ _ _ Eb). }
  destruct (take_line (uwritable m t) false (va + 1) k D) as [[bs' rest']|] eqn:El; [|done]. injection Ht as <- <-.
  replace (Z.of_nat (S k) - 1) with (Z.of_nat k) in Eb by lia.
  destruct (IH f (va + 1) (out ++ [x]) C1 m1 D E bs' rest') as (C' & m' & E1 & Hr' & Hu' & Hend); try done; try lia.
  { rewrite bool_decide_false by lia. rewrite <- El. apply take_line_ext. intros y. by apply (uwritten_writable _ _ _ _ _ _ Hu). }
  exists C', m'. split; [|split; [done|split; [|done]]].
  - rewrite (iter_next _ _ _ _ _ _ Eb), E1, <- app_assoc. cbn [app length]. do 3 f_equal. lia.
  - apply (uwritten_app m t va [x] bs' m1 m' Hu Hu').
Qed.
End reading.

(** C32. consoleread delivers the next line: from the bytes that consoleintr has handed on it takes
    what [take_line] says, up to and including a newline, at most n bytes, stores exactly
    these at the user's address and returns their number; it keeps the rest for the next
    read and the line that is being edited.  A control-D ends the read; it is kept when
    something has been delivered, so that the next read returns 0.  A byte that cannot be stored is lost. *)
Theorem consoleread_takes_line `{Fuel} s p root t addr n D E bs rest :
  (0 < fuel)%nat -> reader s p root t -> locks s !! LCons = None -> cons_rep (cons s) D E -> Forall (fun x => 0 <= x < 2 ^ 8) D ->
  0 <= addr -> 0 <= n < 2 ^ 31 -> take_line (uwritable (mem s) t) true addr (Z.to_nat n) D = Some (bs, rest) ->
  exists C' m', consoleread (ToUser addr) n s = Ret (Z.of_nat (length bs), bs) (set_cons C' (set_mem m' s)) /\
    cons_rep C' rest E /\ uwritten (mem s) t addr bs m' /\ reader (set_cons C' (set_mem m' s)) p root t.
Proof.
  intros Hf Hs Hl Hr HD Ha Hn Ht. unfold consoleread. rewrite u32_small by lia. rewrite (bind_Ret _ _ _ _ _ (acquire_eq LCons s Hl)).
  assert (E1 : acquired LCons s = within s (cons s) (mem s)) by (by destruct s). rewrite E1.
  destruct (read_loop Hf s p root t Hs (Z.to_nat n) (Z.to_nat n) (S (Z.to_nat n)) addr [] (cons s) (mem s) D E bs rest) as (C' & m' & E2 & Hr' & Hu & Hrep & Hsep); try done; try lia; try apply Hs.
  { by rewrite bool_decide_true. }
  rewrite Z2Nat.id in E2 by lia. rewrite (bind_Ret _ _ _ _ _ E2). exists C', m'. destruct Hs as [Hi Hset Hp Hpt Him _ _].
  assert (Erel : release LCons (within s C' m') = Ret tt (set_cons C' (set_mem m' s))).
  { pose proof (critical_eq LCons (fun s0 => set_cons C' (set_mem m' s0)) s Hi Hl ltac:(done) ltac:(done)) as Ec. rewrite <- settle_blind, Hset in Ec by done. exact Ec. }
  rewrite (bind_Ret _ _ _ _ _ Erel). split; [|split; [done|split; [done|]]].
  - unfold ret. do 2 f_equal. replace (n - (n - Z.of_nat (length bs))) with (Z.of_nat (length bs)) by lia. apply i32_small. pose proof (take_line_length _ _ _ _ _ _ _ Ht). lia.
  - split; try done. change (settle ((fun s0 => set_cons C' (set_mem m' s0)) s) = set_cons C' (set_mem m' s)). rewrite <- settle_blind by done. by rewrite Hset.
Qed.

(** ** A concrete console *)

(** Process 3 runs; "hi", a newline and control-D have been handed on, and "o" is being edited. *)
Definition ex_cons : console := mkConsole ([104; 105; 10; 4; 111] ++ replicate 123 0) 0 4 5.
Definition ex_cons_kernel : kernel :=
  set_cons ex_cons (set_mem ex_mem (set_procs (<[3%nat := set_p_pagetable ex_root proc0]> (replicate NPROC proc0))
    (set_cpu_ (mkCpu (Some 3%nat) 0 false) (kernel0 ex_image ∅)))).

Lemma ex_cons_rep : cons_rep (cons ex_cons_kernel) [104; 105; 10; 4] [111].
Proof.
  split; try reflexivity.
  - split; [apply Z.leb_le|apply Z.ltb_lt]; reflexivity.
  - apply Nat.leb_le. reflexivity.
  - intros i x Hx. do 5 (destruct i as [|i]; [injection Hx as <-; reflexivity|]). discriminate Hx.
Qed.

Lemma ex_cons_irq : irq_ok ex_cons_kernel.
Proof. split; [apply Z.leb_le; reflexivity|done]. Qed.

Lemma consoleintr_edits_witness : exists C' out P, consoleintr 127 ex_cons_kernel = Ret tt (set_procs P (con C' out ex_cons_kernel)) /\
  cons_rep C' [104; 105; 10; 4] [] /\ out = [8; 32; 8].
Proof.
  destruct (consoleintr_edits ex_cons_kernel 127 [104; 105; 10; 4] [111]) as (C' & out & P & E & Hr & _ & Ho & _).
  - split; [exact ex_cons_irq|reflexivity|]. intros i _ _. reflexivity.
  - split; [exact ex_cons_irq|reflexivity|reflexivity].
  - reflexivity.
  - reflexivity.
  - exact ex_cons_rep.
  - set_solver.
  - lia.
  - exists C', out, P. split; [exact E|]. split; [exact Hr|]. apply Ho. discriminate.
Defined.

#[local] Instance ex_cons_fuel : Fuel := 1%nat.

Lemma consoleread_takes_line_witness : exists C' m', consoleread (ToUser 0) 100 ex_cons_kernel = Ret (3, [104; 105; 10]) (set_cons C' (set_mem m' ex_cons_kernel)) /\
  cons_rep C' [4] [111] /\ uwritten ex_mem ex_tree 0 [104; 105; 10] m'.
Proof.
  destruct (consoleread_takes_line ex_cons_kernel 3 ex_root ex_tree 0 100 [104; 105; 10; 4] [111] [104; 105; 10] [4]) as (C' & m' & E & Hr & Hu & _).
  - apply Nat.ltb_lt. reflexivity.
  - split; try reflexivity; [exact ex_cons_irq|exact ex_image_ok| |].
    + apply pt_repb_sound. vm_compute. reflexivity.
    + apply user_sepb_sound. vm_compute. reflexivity.
  - reflexivity.
  - exact ex_cons_rep.
  - repeat constructor; lia.
  - lia.
  - lia.
  - vm_compute. reflexivity.
  - exists C', m'. split; [exact E|]. split; [exact Hr|exact Hu].
Defined.
