(* ===== verification/Log.v ===== *)
(** kernel/log.c: the redo log under file-system operations. *)

From S2P Require Import Prelude Outcome Mem State Spinlock KString Kalloc Vm Proc Sleeplock Bytes Disk Bio.

Definition modbd (b : nat) (f : list Z -> list Z) : K unit :=
  modb b (fun bf => set_b_data (f (b_data bf)) bf).

Section with_disk.
Context `{Fuel} `{Disk}.

(** Copy the tail-th committed block from the log to its home location. *)
Definition install_one (recovering : bool) (tail : Z) : K unit :=
  lg <- gets log;;
  lbuf <- bread (u32 (lg_dev lg)) (u32 (lg_start lg + tail + 1));;
  lg <- gets log;;
  dbuf <- bread (u32 (lg_dev lg)) (u32 (lh_block lg !!! Z.to_nat tail));;
  lb <- getb lbuf;;
  modbd dbuf (fun _ => b_data lb);;
  bwrite dbuf;;
  when (negb recovering) (bunpin dbuf);;
  brelse lbuf;;
  brelse dbuf.

(** The loops over log.lh.n run while the log is committing or not yet in use,
    when nobody else changes log.lh. *)
Definition install_trans (recovering : bool) : K unit :=
  lg <- gets log;;
  for_each (seqZ 0 (lh_n lg)) (install_one recovering).

(** struct logheader in a block: n at offset 0, block[i] at 4 + 4 * i; a write
    past the LOGSIZE entries of the in-memory header is out of bounds. *)
Definition read_head : K unit :=
  lg <- gets log;;
  b <- bread (u32 (lg_dev lg)) (u32 (lg_start lg));;
  bf <- getb b;;
  modl (set_lh_n (i32 (get32 (b_data bf) 0)));;
  lg <- gets log;;
  if LOGSIZE <? lh_n lg then halt (Undefined "log.lh.block overrun") else
  for_each (seqZ 0 (lh_n lg)) (fun i =>
    modl (fun lg => set_lh_block
      (<[Z.to_nat i := i32 (get32 (b_data bf) (4 + 4 * i))]> (lh_block lg)) lg));;
  brelse b.

Definition write_head : K unit :=
  lg <- gets log;;
  b <- bread (u32 (lg_dev lg)) (u32 (lg_start lg));;
  lg <- gets log;;
  modbd b (fun d => put32 d 0 (lh_n lg));;
  for_each (seqZ 0 (lh_n lg)) (fun i =>
    modbd b (fun d => put32 d (4 + 4 * i) (lh_block lg !!! Z.to_nat i)));;
  bwrite b;;
  brelse b.

Definition recover_from_log : K unit :=
  read_head;;
  install_trans true;;
  modl (set_lh_n 0);;
  write_head.

(** sizeof(struct logheader) is 4 + 4 * LOGSIZE. *)
Definition initlog (dev : Z) (sp : superblock) : K unit :=
  if BSIZE <=? 4 + 4 * LOGSIZE then panic "initlog: too big logheader" else
  initlock LLog;;
  modl (set_lg_start (i32 (sb_logstart sp)));;
  modl (set_lg_size (i32 (sb_nlog sp)));;
  modl (set_lg_dev dev);;
  recover_from_log.

Definition begin_op_body (_ : unit) : K (unit + unit) :=
  lg <- gets log;;
  if lg_committing lg then sleep ChLog LLog;; ret (inl tt)
  else if LOGSIZE <? lh_n lg + (lg_outstanding lg + 1) * MAXOPBLOCKS
  then sleep ChLog LLog;; ret (inl tt)
  else
    modl (fun lg => set_lg_outstanding (lg_outstanding lg + 1) lg);;
    release LLog;;
    ret (inr tt).

Definition begin_op : K unit :=
  acquire LLog;;
  iter fuel begin_op_body tt.

(** Copy the tail-th modified block from the cache to the log. *)
Definition write_log_one (tail : Z) : K unit :=
  lg <- gets log;;
  to <- bread (u32 (lg_dev lg)) (u32 (lg_start lg + tail + 1));;
  lg <- gets log;;
  from <- bread (u32 (lg_dev lg)) (u32 (lh_block lg !!! Z.to_nat tail));;
  fb <- getb from;;
  modbd to (fun _ => b_data fb);;
  bwrite to;;
  brelse from;;
  brelse to.

Definition write_log : K unit :=
  lg <- gets log;;
  for_each (seqZ 0 (lh_n lg)) write_log_one.

Definition commit : K unit :=
  lg <- gets log;;
  when (0 <? lh_n lg)
    (write_log;;
     write_head;;
     install_trans false;;
     modl (set_lh_n 0);;
     write_head).

Definition end_op : K unit :=
  acquire LLog;;
  modl (fun lg => set_lg_outstanding (lg_outstanding lg - 1) lg);;
  lg <- gets log;;
  if lg_committing lg then panic "log.committing" else
  do_commit <- (if lg_outstanding lg =? 0
                then modl (set_lg_committing true);; ret true
                else wakeup ChLog;; ret false);;
  release LLog;;
  when do_commit
    (commit;;
     acquire LLog;;
     modl (set_lg_committing false);;
     wakeup ChLog;;
     release LLog).

(** The index of the block in log.lh, or lh.n: log absorption. *)
Fixpoint absorb (i : nat) (n : nat) (l : list Z) (blockno : Z) : nat :=
  match n with
  | O => i
  | S n' => if u32 (l !!! i) =? blockno then i else absorb (S i) n' l blockno
  end.

Definition log_write (b : nat) : K unit :=
  acquire LLog;;
  lg <- gets log;;
  if (LOGSIZE <=? lh_n lg) || (lg_size lg - 1 <=? lh_n lg) then panic "too big a transaction" else
  if lg_outstanding lg <? 1 then panic "log_write outside of trans" else
  bf <- getb b;;
  let i := absorb 0 (Z.to_nat (lh_n lg)) (lh_block lg) (b_blockno bf) in
  modl (fun lg => set_lh_block (<[i := i32 (b_blockno bf)]> (lh_block lg)) lg);;
  when (Z.of_nat i =? lh_n lg)
    (bpin b;;
     modl (fun lg => set_lh_n (lh_n lg + 1) lg));;
  release LLog.
End with_disk.
