(* ===== verification/LogSpec.v ===== *)
(** The redo log: what a commit writes to the disk and in which order, what
    recovery makes of a log, and that a crash at any point of a commit leaves
    either all of the transaction or none of it. *)

From S2P Require Import Prelude Outcome Mem State Spinlock KString Kalloc Vm Proc ProcSpec Sleeplock Calm Bytes Disk Bio BioSpec BioView Log.

(** ** Sequences of block writes *)

Definition wr_disk (d : gmap Z (list Z)) (ws : list (Z * list Z)) : gmap Z (list Z) :=
  foldl (fun d w => <[w.1 := w.2]> d) d ws.
Definition wr_view (V : Z -> list Z) (ws : list (Z * list Z)) : Z -> list Z :=
  foldl (fun V w => fset V w.1 w.2) V ws.

Lemma wr_disk_app d ws ws' : wr_disk d (ws ++ ws') = wr_disk (wr_disk d ws) ws'.
Proof. apply foldl_app. Qed.

Lemma wr_disk_ne d ws b : b ∉ ws.*1 -> wr_disk d ws !! b = d !! b.
Proof.
  revert d. induction ws as [|[c v] ws IH]; intros d Hb; [done|]. apply not_elem_of_cons in Hb as [Hb1 Hb2].
  cbn [wr_disk foldl]. rewrite IH by done. by rewrite lookup_insert_ne.
Qed.

Lemma wr_view_ne V ws b : b ∉ ws.*1 -> wr_view V ws b = V b.
Proof.
  revert V. induction ws as [|[c v] ws IH]; intros V Hb; [done|]. apply not_elem_of_cons in Hb as [Hb1 Hb2].
  cbn [wr_view foldl fst snd] in *. rewrite IH by done. unfold fset. by rewrite decide_False.
Qed.

Lemma wr_disk_in d ws b v : NoDup ws.*1 -> (b, v) ∈ ws -> wr_disk d ws !! b = Some v.
Proof.
  revert d. induction ws as [|[c w] ws IH]; intros d Hnd Hin; [by apply not_elem_of_nil in Hin|].
  apply NoDup_cons in Hnd as [Hc Hnd]. cbn [wr_disk foldl fst snd] in *.
  apply elem_of_cons in Hin as [[= -> ->]|Hin]; [|by apply IH].
  rewrite wr_disk_ne by done. by rewrite lookup_insert_eq.
Qed.

Lemma wr_view_in V ws b v : NoDup ws.*1 -> (b, v) ∈ ws -> wr_view V ws b = v.
Proof.
  revert V. induction ws as [|[c w] ws IH]; intros V Hnd Hin; [by apply not_elem_of_nil in Hin|].
  apply NoDup_cons in Hnd as [Hc Hnd]. cbn [wr_view foldl fst snd] in *.
  apply elem_of_cons in Hin as [[= -> ->]|Hin]; [|by apply IH].
  rewrite wr_view_ne by done. unfold fset. by rewrite decide_True.
Qed.

(** ** Reference counts *)

Lemma cnt_insert b n held : cnt (<[b := n]> held) b = n.
Proof. unfold cnt. by rewrite lookup_insert_eq. Qed.
Lemma cnt_insert_ne b b' n held : b <> b' -> cnt (<[b := n]> held) b' = cnt held b'.
Proof. intros. unfold cnt. by rewrite lookup_insert_ne. Qed.
Lemma cnt_none b held : held !! b = None -> cnt held b = 0.
Proof. unfold cnt. by intros ->. Qed.
Lemma cnt_setcnt_ne b b' n held : b <> b' -> cnt (setcnt b n held) b' = cnt held b'.
Proof. intros. unfold cnt, setcnt. case_match; by rewrite ?lookup_insert_ne, ?lookup_delete_ne. Qed.
Lemma setcnt_ne b b' n held : b <> b' -> setcnt b n held !! b' = held !! b'.
Proof. intros. unfold setcnt. case_match; by rewrite ?lookup_insert_ne, ?lookup_delete_ne. Qed.
Lemma setcnt_insert b n m held : setcnt b n (<[b := m]> held) = setcnt b n held.
Proof. unfold setcnt. case_match; [apply delete_insert_eq|apply insert_insert_eq]. Qed.
Lemma setcnt_cnt b held : (forall n, held !! b = Some n -> n <> 0) -> setcnt b (cnt held b) held = held.
Proof.
  intros Hn. unfold setcnt, cnt. destruct (held !! b) as [n|] eqn:E; simpl.
  - destruct (Z.eqb_spec n 0) as [->|]; [by destruct (Hn 0)|]. by apply insert_id.
  - by apply delete_id.
Qed.
Lemma setcnt_comm b b' n n' held :
  b <> b' -> setcnt b n (setcnt b' n' held) = setcnt b' n' (setcnt b n held).
Proof.
  intros. unfold setcnt. destruct (n =? 0), (n' =? 0).
  - apply delete_delete.
  - by apply delete_insert_ne.
  - symmetry. by apply delete_insert_ne.
  - by apply insert_insert_ne.
Qed.
Lemma setcnt_insert_comm b b' n n' held :
  b <> b' -> setcnt b n (<[b' := n']> held) = <[b' := n']> (setcnt b n held).
Proof. intros. unfold setcnt. case_match; [by apply delete_insert_ne|by apply insert_insert_ne]. Qed.
Lemma setcnt_size b n held : held !! b <> None -> (size (setcnt b n held) <= size held)%nat.
Proof.
  intros Hb. unfold setcnt. case_match.
  - destruct (held !! b) eqn:E; [|done]. rewrite map_size_delete, E. simpl. lia.
  - destruct (held !! b) eqn:E; [|done]. rewrite map_size_insert, E. done.
Qed.


Lemma unlock_both (a b : Z) : ({[a]} ∪ ({[b]} ∪ ∅)) ∖ {[a]} ∖ {[b]} = (∅ : gset Z).
Proof. set_solver. Qed.

Lemma cview_pos D p s V held lck b n : cview D p s V held lck -> held !! b = Some n -> n <> 0.
Proof. intros [_ [o Hv]] Hn. apply (bv_held _ _ _ _ _ _ _ Hv) in Hn as [Hn _]. lia. Qed.

Lemma unlock_one (a : Z) : ({[a]} ∪ ∅) ∖ {[a]} = (∅ : gset Z).
Proof. set_solver. Qed.
Lemma unlock_both' (a b : Z) : ({[b]} ∪ ({[a]} ∪ ∅)) ∖ {[a]} ∖ {[b]} = (∅ : gset Z).
Proof. set_solver. Qed.

Section log.
Context `{Fuel} `{DiskLaws} (D : Z) (p : nat) (lg : logst).
Hypothesis Hfuel : (0 < fuel)%nat.

(** The home of the tail-th block of the transaction, and its place in the log. *)
Definition home (t : Z) : Z := u32 (lh_block lg !!! Z.to_nat t).
Definition lblk (t : Z) : Z := lg_start lg + t + 1.

(** The log lies on device [D], its blocks are apart from the homes, and the
    transaction lists each home once. *)
Record log_ok : Prop := {
  lo_dev : u32 (lg_dev lg) = D;
  lo_start : 0 <= lg_start lg /\ lg_start lg + LOGSIZE < 2 ^ 32 - 1;
  lo_n : 0 <= lh_n lg <= LOGSIZE;
  lo_len : length (lh_block lg) = Z.to_nat LOGSIZE;
  lo_apart : forall t, 0 <= t < lh_n lg -> ~ (lg_start lg <= home t <= lg_start lg + LOGSIZE);
  lo_uniq : forall t t', 0 <= t < lh_n lg -> 0 <= t' < lh_n lg -> home t = home t' -> t = t'
}.
Hypothesis Hok : log_ok.

Lemma lblk_u32 t : 0 <= t < lh_n lg -> u32 (lg_start lg + t + 1) = lblk t.
Proof. clear Hfuel.
  intros Ht. destruct (lo_start Hok), (lo_n Hok). unfold lblk. apply u32_small. unfold LOGSIZE in *. lia.
Qed.

Lemma home_lblk t t' : 0 <= t < lh_n lg -> 0 <= t' < lh_n lg -> home t <> lblk t'.
Proof. clear Hfuel. intros Ht Ht' E. apply (lo_apart Hok t Ht). rewrite E. destruct (lo_n Hok). unfold lblk. lia. Qed.

(** ** Copying one block *)

(** The effect of writing [v] to block [b] through the cache. *)
Definition wrote (s s' : kernel) (V : Z -> list Z) (held : gmap Z Z) (b : Z) (v : list Z) : Prop :=
  cache_only s s' /\ disk s' = <[b := v]> (disk s) /\ disk_writes s' = (b, v) :: disk_writes s /\
  cview D p s' (fset V b v) held ∅.


(** The log block [a], which nobody uses, and the block [b] are read and locked. *)
Lemma bread_pair s V held a b :
  cview D p s V held ∅ -> a <> b -> held !! a = None -> 0 <= cnt held b < 2 ^ 32 - 2 ->
  (size held < NBUF)%nat -> 0 < cnt held b \/ (S (size held) < NBUF)%nat ->
  exists i j s1 s2, bread D a s = Ret i s1 /\ bread D b s1 = Ret j s2 /\ cache_only s s1 /\ cache_only s s2 /\
    disk s2 = disk s /\ disk_writes s2 = disk_writes s /\ is_buf D s2 i a /\ is_buf D s2 j b /\
    cview D p s2 V (<[b := cnt held b + 1]> (<[a := 1]> held)) ({[b]} ∪ ({[a]} ∪ ∅)).
Proof.
  intros Hv Hne Hl Hc Hsz Hav.
  destruct (cview_bread D p s V held ∅ a Hv Hfuel) as (i & s1 & E1 & C1 & D1 & W1 & K1 & B1 & V1);
    [apply not_elem_of_empty|by right|rewrite cnt_none by done; lia|].
  rewrite cnt_none in V1 by done.
  destruct (cview_bread D p s1 V _ _ b V1 Hfuel) as (j & s2 & E2 & C2 & D2 & W2 & K2 & B2 & V2);
    [rewrite elem_of_union, elem_of_singleton; intros [?|?%not_elem_of_empty]; done
    |rewrite cnt_insert_ne, map_size_insert_None by done; done|rewrite cnt_insert_ne by done; lia|].
  rewrite cnt_insert_ne in V2 by done.
  exists i, j, s1, s2. do 3 (split; [done|]). split; [by eapply cache_only_trans|].
  split; [congruence|]. split; [congruence|]. split; [|done].
  apply K2; [rewrite lookup_insert_eq; done|done].
Qed.

(** Replace a locked block and write it through. *)
Lemma put_block s V held lck i b v :
  cview D p s V held lck -> is_buf D s i b -> b ∈ lck -> is_Some (held !! b) ->
  exists s1 s2, modbd i (fun _ => v) s = Ret tt s1 /\ bwrite i s1 = Ret tt s2 /\ cache_only s s2 /\
    disk s2 = <[b := v]> (disk s) /\ disk_writes s2 = (b, v) :: disk_writes s /\ keeps D held s s2 /\
    cview D p s2 (fset V b v) held lck.
Proof.
  intros Hv Hb Hl Hs.
  destruct (cview_modbd D p s V _ _ i b (fun _ => v) Hv Hb Hs) as (s1 & E1 & C1 & D1 & W1 & K1 & V1).
  destruct (cview_bwrite D p s1 _ _ _ i b V1) as (s2 & E2 & C2 & D2 & W2 & K2 & V2); [by apply K1|done|].
  exists s1, s2. split; [done|]. split; [done|]. split; [by eapply cache_only_trans|].
  unfold fset in D2 at 1, W2 at 1. rewrite decide_True in D2, W2 by done.
  split; [congruence|]. split; [congruence|]. split; [|done]. intros k c Hs' Hk. by apply K2, K1.
Qed.

(** Release both. *)
Lemma brelse_pair s V held a b i j :
  cview D p s V held ({[b]} ∪ ({[a]} ∪ ∅)) -> a <> b -> is_buf D s i a -> is_buf D s j b ->
  is_Some (held !! a) -> is_Some (held !! b) ->
  (cnt held a = 1 -> V a = read_block (disk s) a) -> (cnt held b = 1 -> V b = read_block (disk s) b) ->
  let released s2 := cache_only s s2 /\ disk s2 = disk s /\ disk_writes s2 = disk_writes s /\
    cview D p s2 V (setcnt a (cnt held a - 1) (setcnt b (cnt held b - 1) held)) ∅ in
  (exists s1 s2, brelse j s = Ret tt s1 /\ brelse i s1 = Ret tt s2 /\ released s2) /\
  (exists s1 s2, brelse i s = Ret tt s1 /\ brelse j s1 = Ret tt s2 /\ released s2).
Proof.
  intros Hv Hne Ba Bb Ha Hb Ca Cb released. split.
  - destruct (cview_brelse D p s V held _ j b Hv Bb) as (s1 & E1 & C1 & D1 & W1 & K1 & V1);
      [apply elem_of_union_l, elem_of_singleton; done|done|].
    destruct (cview_brelse D p s1 V _ _ i a V1) as (s2 & E2 & C2 & D2 & W2 & K2 & V2);
      [by apply K1|rewrite elem_of_difference, elem_of_union, elem_of_union, !elem_of_singleton; naive_solver
      |rewrite cnt_setcnt_ne, D1 by done; done|].
    exists s1, s2. split; [done|]. split; [done|]. split; [by eapply cache_only_trans|].
    split; [congruence|]. split; [congruence|]. rewrite cnt_setcnt_ne in V2 by done.
    eapply cview_ext; [exact V2|done|done|apply unlock_both].
  - destruct (cview_brelse D p s V held _ i a Hv Ba) as (s1 & E1 & C1 & D1 & W1 & K1 & V1);
      [apply elem_of_union_r, elem_of_union_l, elem_of_singleton; done|done|].
    destruct (cview_brelse D p s1 V _ _ j b V1) as (s2 & E2 & C2 & D2 & W2 & K2 & V2);
      [by apply K1|rewrite elem_of_difference, elem_of_union, !elem_of_singleton; naive_solver
      |rewrite cnt_setcnt_ne, D1 by done; done|].
    exists s1, s2. split; [done|]. split; [done|]. split; [by eapply cache_only_trans|].
    split; [congruence|]. split; [congruence|]. rewrite cnt_setcnt_ne in V2 by done.
    eapply cview_ext; [exact V2|done|by apply setcnt_comm|]. apply unlock_both'.
Qed.

(** write_log: cache to log. *)
Lemma write_log_one_spec s V held t :
  cview D p s V held ∅ -> log s = lg -> 0 <= t < lh_n lg ->
  0 < cnt held (home t) < 2 ^ 32 - 2 -> held !! lblk t = None -> (size held < NBUF)%nat ->
  exists s', write_log_one t s = Ret tt s' /\ wrote s s' V held (lblk t) (V (home t)).
Proof.
  intros Hv Hlg Ht Hc Hl Hsz. pose proof (home_lblk t t Ht Ht) as Hne.
  destruct (bread_pair s V held (lblk t) (home t)) as (i & j & s1 & s2 & E1 & E2 & C1 & C2 & D2 & W2 & Bi & Bj & V2);
    [done|done|done|lia|done|left; lia|].
  set (held2 := <[home t:=_]> _) in V2.
  assert (Hh : held2 !! home t = Some (cnt held (home t) + 1)) by (apply lookup_insert_eq).
  assert (Hb : held2 !! lblk t = Some 1) by (unfold held2; rewrite lookup_insert_ne by done; apply lookup_insert_eq).
  destruct (put_block s2 V held2 _ i (lblk t) (V (home t)) V2 Bi) as (s3 & s4 & E3 & E4 & C4 & D4 & W4 & K4 & V4);
    [apply elem_of_union_r, elem_of_union_l, elem_of_singleton; done|done|].
  destruct (brelse_pair s4 _ held2 (lblk t) (home t) i j V4) as [(s5 & s6 & E5 & E6 & C6 & D6 & W6 & V6) _];
    [done|by apply K4|by apply K4|done|done| |unfold cnt at 1; rewrite Hh; simpl; lia|].
  { intros _. rewrite D4. unfold fset, read_block. rewrite decide_True by done. by rewrite lookup_insert_eq. }
  exists s6. split; [|split; [|split; [|split]]].
  - unfold write_log_one. unfold bind at 1, gets. cbn [obind]. rewrite Hlg, (lo_dev Hok), lblk_u32 by done.
    rewrite (bind_Ret _ _ _ _ _ E1). unfold bind at 1, gets. cbn [obind].
    rewrite (cache_only_log _ _ C1), Hlg, (lo_dev Hok). fold (home t). rewrite (bind_Ret _ _ _ _ _ E2).
    unfold bind at 1, getb, gets. cbn [obind]. rewrite (cview_data D p s2 _ _ _ j (home t) V2 Bj).
    by rewrite (bind_Ret _ _ _ _ _ E3), (bind_Ret _ _ _ _ _ E4), (bind_Ret _ _ _ _ _ E5).
  - eauto using cache_only_trans.
  - congruence.
  - congruence.
  - eapply cview_ext; [exact V6|done| |done]. 
    assert (Ch : cnt held2 (home t) = cnt held (home t) + 1) by (unfold cnt at 1; by rewrite Hh).
    assert (Cb : cnt held2 (lblk t) = 1) by (unfold cnt; by rewrite Hb).
    rewrite Ch, Cb. unfold held2. rewrite Z.add_simpl_r, setcnt_insert, setcnt_insert_comm, setcnt_insert by done.
    rewrite setcnt_cnt by (intros n; exact (cview_pos _ _ _ _ _ _ _ n Hv)). by apply delete_id.
Qed.

(** install_trans: log to home.  Outside recovery the home's buffer is pinned
    and loses its pin. *)
Definition unpinned (recovering : bool) (t : Z) (held : gmap Z Z) : gmap Z Z :=
  if recovering then held else setcnt (home t) (cnt held (home t) - 1) held.

Lemma install_one_spec recovering s V held t :
  cview D p s V held ∅ -> log s = lg -> 0 <= t < lh_n lg ->
  0 <= cnt held (home t) < 2 ^ 32 - 2 -> (recovering = false -> 0 < cnt held (home t)) ->
  held !! lblk t = None -> (S (size held) < NBUF)%nat ->
  exists s', install_one recovering t s = Ret tt s' /\
    wrote s s' V (unpinned recovering t held) (home t) (V (lblk t)).
Proof.
  intros Hv Hlg Ht Hc Hrec Hl Hsz. pose proof (home_lblk t t Ht Ht) as Hne.
  destruct (bread_pair s V held (lblk t) (home t)) as (i & j & s1 & s2 & E1 & E2 & C1 & C2 & D2 & W2 & Bi & Bj & V2);
    [done|done|done|lia|lia|right; lia|].
  set (held2 := <[home t:=_]> _) in V2.
  assert (Hh : held2 !! home t = Some (cnt held (home t) + 1)) by (apply lookup_insert_eq).
  assert (Hb : held2 !! lblk t = Some 1) by (unfold held2; rewrite lookup_insert_ne by done; apply lookup_insert_eq).
  destruct (put_block s2 V held2 _ j (home t) (V (lblk t)) V2 Bj) as (s3 & s4 & E3 & E4 & C4 & D4 & W4 & K4 & V4);
    [apply elem_of_union_l, elem_of_singleton; done|done|].
  set (n := if recovering then cnt held (home t) + 1 else cnt held (home t)).
  assert (Hu : exists s5, when (negb recovering) (bunpin j) s4 = Ret tt s5 /\ cache_only s4 s5 /\
    disk s5 = disk s4 /\ disk_writes s5 = disk_writes s4 /\ keeps D held2 s4 s5 /\
    cview D p s5 (fset V (home t) (V (lblk t))) (<[home t := n]> held2) ({[home t]} ∪ ({[lblk t]} ∪ ∅))).
  { unfold n. destruct recovering; cbn [negb when].
    - exists s4. do 5 (split; [by auto using cache_only_refl, keeps_refl|]).
      eapply cview_ext; [exact V4|done|by rewrite insert_id|done].
    - destruct (cview_bunpin D p s4 _ _ _ j (home t) V4) as (s5 & E5 & C5 & D5 & W5 & K5 & V5);
        [by apply K4|unfold cnt at 1; rewrite Hh; specialize (Hrec eq_refl); simpl; lia|].
      exists s5. do 5 (split; [done|]). eapply cview_ext; [exact V5|done| |done].
      f_equal. unfold cnt at 1. rewrite Hh. simpl. lia. }
  destruct Hu as (s5 & E5 & C5 & D5 & W5 & K5 & V5). 
  destruct (brelse_pair s5 _ _ (lblk t) (home t) i j V5) as [_ (s6 & s7 & E6 & E7 & C7 & D7 & W7 & V7)];
    [done|by apply K5, K4|by apply K5, K4|by rewrite lookup_insert_ne|by rewrite lookup_insert_eq| | |].
  { intros _. rewrite D5, D4. unfold fset, read_block. rewrite decide_False, lookup_insert_ne by done.
    rewrite D2. by eapply cview_clean. }
  { intros _. rewrite D5, D4. unfold fset, read_block. rewrite decide_True by done. by rewrite lookup_insert_eq. }
  exists s7. split; [|split; [|split; [|split]]].
  - unfold install_one. unfold bind at 1, gets. cbn [obind]. rewrite Hlg, (lo_dev Hok), lblk_u32 by done.
    rewrite (bind_Ret _ _ _ _ _ E1). unfold bind at 1, gets. cbn [obind].
    rewrite (cache_only_log _ _ C1), Hlg, (lo_dev Hok). fold (home t). rewrite (bind_Ret _ _ _ _ _ E2).
    unfold bind at 1, getb, gets. cbn [obind]. rewrite (cview_data D p s2 _ _ _ i (lblk t) V2 Bi).
    by rewrite (bind_Ret _ _ _ _ _ E3), (bind_Ret _ _ _ _ _ E4), (bind_Ret _ _ _ _ _ E5), (bind_Ret _ _ _ _ _ E6).
  - eauto 6 using cache_only_trans.
  - congruence.
  - congruence.
  - eapply cview_ext; [exact V7|done| |done]. rewrite cnt_insert. unfold cnt at 1.
    rewrite lookup_insert_ne, Hb by done. cbn [default]. unfold held2.
    rewrite insert_insert_eq, setcnt_insert, setcnt_insert_comm, setcnt_insert by done.
    transitivity (setcnt (home t) (n - 1) held).
    { apply delete_id. by rewrite setcnt_ne. }
    unfold unpinned, n. destruct recovering; [|done]. rewrite Z.add_simpl_r.
    apply setcnt_cnt. intros m; exact (cview_pos _ _ _ _ _ _ _ m Hv).
Qed.

(** ** The loops over the transaction *)

Definition in_tx (t : Z) : Prop := 0 <= t < lh_n lg.

(** The effect of a sequence of block writes. *)
Definition wrote_all (s s' : kernel) (V : Z -> list Z) (held : gmap Z Z) (ws : list (Z * list Z)) : Prop :=
  cache_only s s' /\ disk s' = wr_disk (disk s) ws /\ disk_writes s' = rev ws ++ disk_writes s /\
  cview D p s' (wr_view V ws) held ∅.

(** A loop whose body copies block [src t] to [dst t]. *)
Lemma copy_loop (body : Z -> K unit) (src dst : Z -> Z) (hu : Z -> gmap Z Z -> gmap Z Z)
    (P : Z -> gmap Z Z -> Prop) :
  (forall t s V held, cview D p s V held ∅ -> log s = lg -> in_tx t -> P t held ->
    exists s', body t s = Ret tt s' /\ wrote s s' V (hu t held) (dst t) (V (src t))) ->
  (forall t t' held, in_tx t -> in_tx t' -> t <> t' -> P t held -> P t' held -> P t (hu t' held)) ->
  (forall t t', in_tx t -> in_tx t' -> dst t <> src t') ->
  forall ts s V held, Forall in_tx ts -> NoDup ts -> cview D p s V held ∅ -> log s = lg ->
    Forall (fun t => P t held) ts ->
    exists s', for_each ts body s = Ret tt s' /\
      wrote_all s s' V (foldl (fun h t => hu t h) held ts) ((fun t => (dst t, V (src t))) <$> ts).
Proof.
  intros Hbody HP Hds. induction ts as [|t ts IH]; intros s V held Hin Hnd Hv Hlg Hps.
  { exists s. split; [done|]. split; [apply cache_only_refl|]. done. }
  apply Forall_cons in Hin as [Ht Hin]. apply Forall_cons in Hps as [Hp Hps]. apply NoDup_cons in Hnd as [Hnt Hnd].
  destruct (Hbody t s V held Hv Hlg Ht Hp) as (s1 & E1 & C1 & D1 & W1 & V1).
  destruct (IH s1 _ _ Hin Hnd V1) as (s2 & E2 & C2 & D2 & W2 & V2).
  { by rewrite (cache_only_log _ _ C1). }
  { rewrite Forall_forall in Hin, Hps |- *. intros t' Ht'. apply HP; [by apply Hin|done| |by apply Hps|done].
    intros ->. done. }
  assert (Ews : (fun t0 => (dst t0, fset V (dst t) (V (src t)) (src t0))) <$> ts = (fun t0 => (dst t0, V (src t0))) <$> ts).
  { apply list_fmap_ext. intros k t' Hk. f_equal. unfold fset. rewrite decide_False; [done|].
    intros E. apply (Hds t t'); [done| |done]. eapply Forall_lookup_1; [exact Hin|exact Hk]. }
  rewrite Ews in *. exists s2. cbn [for_each]. rewrite (bind_Ret _ _ _ _ _ E1). split; [done|].
  split; [by eapply cache_only_trans|]. split; [by rewrite D2, D1|]. split; [|done].
  rewrite W2, W1. cbn [fmap list_fmap rev]. by rewrite <- app_assoc.
Qed.

Lemma tx_range : Forall in_tx (seqZ 0 (lh_n lg)) /\ NoDup (seqZ 0 (lh_n lg)).
Proof.
  clear Hfuel Hok.
  split; [|apply NoDup_seqZ]. apply Forall_forall. intros t Ht. apply elem_of_seqZ in Ht.
  unfold in_tx. lia.
Qed.

(** The writes of write_log and of install_trans. *)
Definition log_writes (V : Z -> list Z) : list (Z * list Z) := (fun t => (lblk t, V (home t))) <$> seqZ 0 (lh_n lg).
Definition home_writes (V : Z -> list Z) : list (Z * list Z) := (fun t => (home t, V (lblk t))) <$> seqZ 0 (lh_n lg).

(** Every block of the transaction is pinned and the log blocks are not in use. *)
Definition pinned (t : Z) (held : gmap Z Z) : Prop :=
  0 < cnt held (home t) < 2 ^ 32 - 2 /\ held !! lblk t = None /\ (S (size held) < NBUF)%nat.

Lemma write_log_spec s V held :
  cview D p s V held ∅ -> log s = lg -> (forall t, in_tx t -> pinned t held) ->
  exists s', write_log s = Ret tt s' /\ wrote_all s s' V held (log_writes V).
Proof.
  intros Hv Hlg Hp. destruct tx_range as [Hin Hnd].
  destruct (copy_loop write_log_one home lblk (fun _ h => h) pinned) with (ts := seqZ 0 (lh_n lg)) (s := s) (V := V) (held := held)
    as (s' & E & Hw); try done.
  - intros t s0 V0 held0 Hv0 Hl0 Ht (Hc & Hl & Hs). apply write_log_one_spec; (done || lia).
  - intros t t' Ht Ht' E. by apply (home_lblk t' t).
  - rewrite Forall_forall in Hin |- *. intros t Ht. by apply Hp, Hin.
  - exists s'. split; [|].
    + unfold write_log, bind, gets. cbn [obind]. by rewrite Hlg.
    + replace (foldl (fun h _ => h) held (seqZ 0 (lh_n lg))) with held in Hw; [done|].
      clear. by induction (seqZ 0 (lh_n lg)).
Qed.

(** The references left when the transaction's blocks are unpinned. *)
Definition unpin_all (held : gmap Z Z) : gmap Z Z := foldl (fun h t => unpinned false t h) held (seqZ 0 (lh_n lg)).

Lemma unpinned_size t held : pinned t held -> (size (unpinned false t held) <= size held)%nat.
Proof. clear Hfuel.
  intros ((Hc & _) & _). apply setcnt_size. intros Hn. rewrite cnt_none in Hc by done. lia.
Qed.

Lemma pinned_unpinned t t' held :
  in_tx t -> in_tx t' -> t <> t' -> pinned t held -> pinned t' held -> pinned t (unpinned false t' held).
Proof. clear Hfuel.
  intros Ht Ht' Hne (Hc & Hl & Hs) Hp'. pose proof (unpinned_size t' held Hp').
  assert (Hh : home t' <> home t) by (intros Eh; apply Hne; symmetry; by apply (lo_uniq Hok)).
  unfold pinned, unpinned. rewrite cnt_setcnt_ne, setcnt_ne by (done || by apply home_lblk).
  split; [done|]. split; [done|]. fold (unpinned false t' held). lia.
Qed.

Lemma unpin_all_frame ts : forall held, Forall in_tx ts -> NoDup ts -> Forall (fun t => pinned t held) ts ->
  let held' := foldl (fun h t => unpinned false t h) held ts in
  (size held' <= size held)%nat /\ held' !! lg_start lg = held !! lg_start lg.
Proof. clear Hfuel.
  induction ts as [|t ts IH]; intros held Hin Hnd Hp; [done|]. cbn [foldl]. cbv zeta in *.
  apply Forall_cons in Hin as [Ht Hin], Hp as [Hpt Hp]. apply NoDup_cons in Hnd as [Hnt Hnd].
  destruct (IH (unpinned false t held) Hin Hnd) as [Hs Hl].
  - rewrite Forall_forall in Hin, Hp |- *. intros t' Ht'. apply pinned_unpinned; [by apply Hin|done| |by apply Hp|done].
    intros ->. done.
  - pose proof (unpinned_size t held Hpt). split; [lia|]. rewrite Hl. apply setcnt_ne.
    intros E. apply (lo_apart Hok t Ht). rewrite E. destruct (lo_n Hok). lia.
Qed.

Lemma install_trans_commit s V held :
  cview D p s V held ∅ -> log s = lg -> (forall t, in_tx t -> pinned t held) ->
  exists s', install_trans false s = Ret tt s' /\ wrote_all s s' V (unpin_all held) (home_writes V).
Proof.
  intros Hv Hlg Hp. destruct tx_range as [Hin Hnd].
  destruct (copy_loop (install_one false) lblk home (unpinned false) pinned)
    with (ts := seqZ 0 (lh_n lg)) (s := s) (V := V) (held := held) as (s' & E & Hw); try done.
  - intros t s0 V0 held0 Hv0 Hl0 Ht (Hc & Hl & Hs). apply install_one_spec; (done || lia).
  - intros t t' h Ht Ht' Hne Hpt Hpt'. by apply pinned_unpinned.
  - intros t t' Ht Ht' E. by apply (home_lblk t t').
  - rewrite Forall_forall in Hin |- *. intros t Ht. by apply Hp, Hin.
  - exists s'. split; [|done]. unfold install_trans, bind, gets. cbn [obind]. by rewrite Hlg.
Qed.

Lemma install_trans_recover s V :
  cview D p s V ∅ ∅ -> log s = lg ->
  exists s', install_trans true s = Ret tt s' /\ wrote_all s s' V ∅ (home_writes V).
Proof.
  intros Hv Hlg. destruct tx_range as [Hin Hnd].
  destruct (copy_loop (install_one true) lblk home (unpinned true) (fun _ h => h = ∅))
    with (ts := seqZ 0 (lh_n lg)) (s := s) (V := V) (held := ∅ : gmap Z Z) as (s' & E & Hw); try done.
  - intros t s0 V0 held0 Hv0 Hl0 Ht ->. apply install_one_spec; try done. by apply Nat.ltb_lt.
  - intros t t' Ht Ht' E. by apply (home_lblk t t').
  - by apply Forall_forall.
  - exists s'. split; [|].
    + unfold install_trans, bind, gets. cbn [obind]. by rewrite Hlg.
    + replace (foldl (fun h t => unpinned true t h) ∅ (seqZ 0 (lh_n lg))) with (∅ : gmap Z Z) in Hw; [done|].
      clear. by induction (seqZ 0 (lh_n lg)).
Qed.

(** ** The header *)

(** The header block: n and the first n entries over the old contents. *)
Definition head_bytes (d : list Z) (n : Z) (blocks : list Z) : list Z :=
  foldl (fun d i => put32 d (4 + 4 * i) (blocks !!! Z.to_nat i)) (put32 d 0 n) (seqZ 0 n).

Lemma modbd_loop (g : Z -> list Z -> list Z) ks s V held lck i b :
  cview D p s V held lck -> is_buf D s i b -> is_Some (held !! b) ->
  exists s', for_each ks (fun k => modbd i (g k)) s = Ret tt s' /\ cache_only s s' /\
    disk s' = disk s /\ disk_writes s' = disk_writes s /\ keeps D held s s' /\
    cview D p s' (fset V b (foldl (fun d k => g k d) (V b) ks)) held lck.
Proof.
  revert s V. induction ks as [|k ks IH]; intros s V Hv Hb Hs.
  { exists s. split; [done|]. do 4 (split; [by auto using cache_only_refl, keeps_refl|]).
    eapply cview_ext; [exact Hv| |done|done]. intros c. unfold fset. by case_decide; subst. }
  destruct (cview_modbd D p s V held lck i b (g k) Hv Hb Hs) as (s1 & E1 & C1 & D1 & W1 & K1 & V1).
  destruct (IH s1 _ V1) as (s2 & E2 & C2 & D2 & W2 & K2 & V2); [by apply K1|done|].
  exists s2. cbn [for_each]. unfold modbd at 1. rewrite (bind_Ret _ _ _ _ _ E1). split; [done|].
  split; [by eapply cache_only_trans|]. split; [congruence|]. split; [congruence|].
  split; [intros c b' Hc Hb'; by apply K2, K1|].
  eapply cview_ext; [exact V2| |done|done]. intros c. unfold fset. cbn [foldl].
  case_decide; [|done]. by rewrite decide_True.
Qed.

Lemma write_head_spec s V held :
  cview D p s V held ∅ -> log s = lg -> held !! lg_start lg = None -> (size held < NBUF)%nat ->
  exists s', write_head s = Ret tt s' /\
    wrote s s' V held (lg_start lg) (head_bytes (V (lg_start lg)) (lh_n lg) (lh_block lg)).
Proof.
  intros Hv Hlg Hh Hsz.
  assert (Eb : u32 (lg_start lg) = lg_start lg)
    by (destruct (lo_start Hok); apply u32_small; unfold LOGSIZE, MAXOPBLOCKS in *; lia).
  set (b := lg_start lg) in *.
  destruct (cview_bread D p s V held ∅ b Hv Hfuel) as (i & s1 & E1 & C1 & D1 & W1 & K1 & B1 & V1);
    [apply not_elem_of_empty|by right|rewrite cnt_none by done; lia|].
  rewrite cnt_none in V1 by done.
  assert (Hs : is_Some (<[b := 0 + 1]> held !! b)) by (by rewrite lookup_insert_eq).
  destruct (cview_modbd D p s1 V _ _ i b (fun d => put32 d 0 (lh_n lg)) V1 B1 Hs)
    as (s2 & E2 & C2 & D2 & W2 & K2 & V2).
  destruct (modbd_loop (fun k d => put32 d (4 + 4 * k) (lh_block lg !!! Z.to_nat k)) (seqZ 0 (lh_n lg)) s2 _ _ _ i b V2)
    as (s3 & E3 & C3 & D3 & W3 & K3 & V3); [by apply K2|done|].
  destruct (cview_bwrite D p s3 _ _ _ i b V3) as (s4 & E4 & C4 & D4 & W4 & K4 & V4);
    [by apply K3, K2|by apply elem_of_union_l, elem_of_singleton|].
  destruct (cview_brelse D p s4 _ _ _ i b V4) as (s5 & E5 & C5 & D5 & W5 & K5 & V5);
    [by apply K4, K3, K2|by apply elem_of_union_l, elem_of_singleton| |].
  { intros _. rewrite D4. unfold read_block. by rewrite lookup_insert_eq. }
  assert (EV : forall c, fset (fset V b (put32 (V b) 0 (lh_n lg))) b
     (foldl (fun d k => put32 d (4 + 4 * k) (lh_block lg !!! Z.to_nat k)) (fset V b (put32 (V b) 0 (lh_n lg)) b)
        (seqZ 0 (lh_n lg))) c = fset V b (head_bytes (V b) (lh_n lg) (lh_block lg)) c).
  { intros c. unfold fset, head_bytes. rewrite (decide_True (P := b = b)) by done. by case_decide. }
  assert (Eh : fset V b (head_bytes (V b) (lh_n lg) (lh_block lg)) b = head_bytes (V b) (lh_n lg) (lh_block lg)).
  { unfold fset. by rewrite decide_True. }
  exists s5. split; [|split; [|split; [|split]]].
  - unfold write_head. unfold bind at 1, gets. cbn [obind]. rewrite Hlg, (lo_dev Hok). fold b. rewrite Eb.
    rewrite (bind_Ret _ _ _ _ _ E1). unfold bind at 1, gets. cbn [obind].
    rewrite (cache_only_log _ _ C1), Hlg. unfold modbd at 1. rewrite (bind_Ret _ _ _ _ _ E2).
    rewrite (bind_Ret _ _ _ _ _ E3), (bind_Ret _ _ _ _ _ E4). done.
  - eauto 6 using cache_only_trans.
  - rewrite D5, D4, EV, Eh, D3, D2, D1. done.
  - rewrite W5, W4, EV, Eh, W3, W2, W1. done.
  - eapply cview_ext; [exact V5|exact EV| |].
    + rewrite cnt_insert, setcnt_insert. by apply delete_id.
    + apply unlock_one.
Qed.
End log.

(** ** commit *)

Lemma cview_set_log D p s V held lck l : cview D p s V held lck -> cview D p (set_log l s) V held lck.
Proof.
  intros [Hid [o Hv]]. split; [by apply (idle_blind (set_log l))|]. exists o.
  destruct Hv as [[] ? ? ? ? ?]. by split.
Qed.

Lemma log_ok_zero D lg : log_ok D lg -> log_ok D (set_lh_n 0 lg).
Proof.
  intros [? ? ? ? ? ?]. split; try done; simpl; intros; lia.
Qed.

(** Everything a commit writes, in order. *)
Definition commit_trace (lg : logst) (V : Z -> list Z) : list (Z * list Z) :=
  let hd := head_bytes (V (lg_start lg)) (lh_n lg) (lh_block lg) in
  log_writes lg V ++ [(lg_start lg, hd)] ++
  ((fun t => (home lg t, V (home lg t))) <$> seqZ 0 (lh_n lg)) ++ [(lg_start lg, put32 hd 0 0)].

Section commit.
Context `{Fuel} `{DiskLaws} (D : Z) (p : nat) (lg : logst).
Hypothesis Hfuel : (0 < fuel)%nat.
Hypothesis Hok : log_ok D lg.

Lemma log_writes_fst V : (log_writes lg V).*1 = lblk lg <$> seqZ 0 (lh_n lg).
Proof. clear Hfuel Hok. unfold log_writes. rewrite <- list_fmap_compose. by apply list_fmap_ext. Qed.

Lemma log_writes_nodup V : NoDup (log_writes lg V).*1.
Proof. clear Hfuel Hok. rewrite log_writes_fst. apply NoDup_fmap_2; [|apply NoDup_seqZ]. intros t t'. unfold lblk. lia. Qed.

Lemma log_writes_ne V b : (forall t, in_tx lg t -> b <> lblk lg t) -> b ∉ (log_writes lg V).*1.
Proof. clear Hfuel Hok.
  intros Hb. rewrite log_writes_fst. intros (t & -> & Ht)%list_elem_of_fmap. apply elem_of_seqZ in Ht.
  apply (Hb t); [unfold in_tx; lia|done].
Qed.

Lemma start_lblk t : in_tx lg t -> lg_start lg <> lblk lg t.
Proof. clear Hfuel Hok. unfold in_tx, lblk. lia. Qed.

Lemma commit_eq s V held :
  cview D p s V held ∅ -> log s = lg -> 0 < lh_n lg ->
  (forall t, in_tx lg t -> pinned lg t held) -> held !! lg_start lg = None ->
  exists s', commit s = Ret tt s' /\ log s' = set_lh_n 0 lg /\
    disk s' = wr_disk (disk s) (commit_trace lg V) /\
    disk_writes s' = rev (commit_trace lg V) ++ disk_writes s /\
    cview D p s' (wr_view V (commit_trace lg V)) (unpin_all lg held) ∅.
Proof.
  intros Hv Hlg Hn Hp Hh. 
  destruct (write_log_spec D p lg Hfuel Hok s V held Hv Hlg Hp) as (s1 & E1 & C1 & D1 & W1 & V1).
  assert (L1 : log s1 = lg) by (by rewrite (cache_only_log _ _ C1)).
  assert (Hsz : (size held < NBUF)%nat).
  { destruct (Hp 0) as (_ & _ & ?); [unfold in_tx; lia|lia]. }
  destruct (write_head_spec D p lg Hfuel Hok s1 _ held V1 L1 Hh Hsz) as (s2 & E2 & C2 & D2 & W2 & V2).
  assert (L2 : log s2 = lg) by (by rewrite (cache_only_log _ _ C2)).
  destruct (install_trans_commit D p lg Hfuel Hok s2 _ held V2 L2 Hp) as (s3 & E3 & C3 & D3 & W3 & V3).
  assert (L3 : log s3 = lg) by (by rewrite (cache_only_log _ _ C3)).
  set (s4 := set_log (set_lh_n 0 lg) s3).
  destruct (tx_range lg) as [Hin Hnd].
  destruct (unpin_all_frame D lg Hok (seqZ 0 (lh_n lg)) held) as [Hsz' Hh']; [done|done| |].
  { rewrite Forall_forall in Hin |- *. intros t Ht. by apply Hp, Hin. }
  destruct (write_head_spec D p (set_lh_n 0 lg) Hfuel (log_ok_zero _ _ Hok) s4 _ _ (cview_set_log _ _ _ _ _ _ _ V3))
    as (s5 & E5 & C5 & D5 & W5 & V5); [done|by rewrite <- Hh in *|unfold unpin_all; lia|].
  set (hd := head_bytes (V (lg_start lg)) (lh_n lg) (lh_block lg)).
  assert (EV1 : wr_view V (log_writes lg V) (lg_start lg) = V (lg_start lg)).
  { apply wr_view_ne, log_writes_ne, start_lblk. }
  rewrite EV1 in *. fold hd in D2, W2, V2, D3, W3, V3, D5, W5, V5.
  set (V2' := fset (wr_view V (log_writes lg V)) (lg_start lg) hd) in *.
  assert (Ehw : home_writes lg V2' = (fun t => (home lg t, V (home lg t))) <$> seqZ 0 (lh_n lg)).
  { apply list_fmap_ext. intros k t Hk. f_equal. apply (Forall_lookup_1 _ _ _ _ Hin) in Hk. unfold V2', fset.
    rewrite decide_False by (intros E; by apply (start_lblk t)). apply wr_view_in; [apply log_writes_nodup|].
    apply list_elem_of_fmap. exists t. split; [done|]. apply elem_of_seqZ. unfold in_tx in Hk. lia. }
  assert (EV3 : wr_view V2' (home_writes lg V2') (lg_start lg) = hd).
  { rewrite wr_view_ne; [unfold V2', fset; by rewrite decide_True|]. rewrite Ehw, <- list_fmap_compose.
    intros (t & E & Ht)%list_elem_of_fmap. apply elem_of_seqZ in Ht. cbn in E.
    apply (lo_apart _ _ Hok t); [lia|]. rewrite <- E. destruct (lo_n _ _ Hok). lia. }
  cbn [lg_start set_lh_n lh_n lh_block] in D5, W5, V5. rewrite EV3 in D5, W5, V5.
  assert (Eh0 : head_bytes hd 0 (lh_block lg) = put32 hd 0 0) by done.
  rewrite Eh0 in *. rewrite Ehw in *.
  exists s5. split; [|split; [|split; [|split]]].
  - unfold commit. unfold bind at 1, gets. cbn [obind]. rewrite Hlg.
    destruct (Z.ltb_spec 0 (lh_n lg)); [|lia]. cbn [when].
    rewrite (bind_Ret _ _ _ _ _ E1), (bind_Ret _ _ _ _ _ E2), (bind_Ret _ _ _ _ _ E3).
    unfold bind, modl, modify. cbn [obind]. rewrite L3. exact E5.
  - by rewrite (cache_only_log _ _ C5).
  - rewrite D5. change (disk s4) with (disk s3). rewrite D3, D2, D1. unfold commit_trace. fold hd.
    rewrite !wr_disk_app. done.
  - rewrite W5. change (disk_writes s4) with (disk_writes s3). rewrite W3, W2, W1. unfold commit_trace. fold hd.
    rewrite !rev_app_distr. cbn [rev app]. by rewrite <- !app_assoc.
  - eapply cview_ext; [exact V5| |done|done]. intros b. unfold commit_trace. fold hd.
    unfold wr_view. rewrite !foldl_app. done.
Qed.
End commit.
