(* ===== verification/LogCrash.v ===== *)
(** Recovery from the log, and the atomicity of a commit under crashes. *)

From S2P Require Import Prelude Outcome Mem State Spinlock KString Kalloc Vm Proc ProcSpec Sleeplock Calm Bytes Disk Bio BioSpec BioView BioCheck Log LogSpec.

(** ** The header block *)

Section head.
Variables (d : list Z) (f : Z -> Z).

(** The header with its first [n] entries stored. *)
Fixpoint stored (n : nat) : list Z :=
  match n with O => d | S n' => put32 (stored n') (4 + 4 * Z.of_nat n') (f (Z.of_nat n')) end.

Lemma stored_foldl n : foldl (fun d i => put32 d (4 + 4 * i) (f i)) d (seqZ 0 (Z.of_nat n)) = stored n.
Proof.
  induction n as [|n IH]; [done|]. rewrite seqZ_S, foldl_app, IH by lia. cbn [foldl stored].
  by rewrite Z.add_0_l.
Qed.

Lemma length_stored n : 4 + 4 * Z.of_nat n <= Z.of_nat (length d) -> length (stored n) = length d.
Proof.
  induction n as [|n IH]; intros Hl; [done|]. cbn [stored]. rewrite length_put32; rewrite ?IH; lia.
Qed.

Lemma get32_stored_n n : 4 + 4 * Z.of_nat n <= Z.of_nat (length d) -> get32 (stored n) 0 = get32 d 0.
Proof.
  induction n as [|n IH]; intros Hl; [done|]. cbn [stored].
  rewrite get32_put32_ne by (rewrite ?length_stored; lia). apply IH. lia.
Qed.

Lemma get32_stored n k : 4 + 4 * Z.of_nat n <= Z.of_nat (length d) -> (k < n)%nat ->
  get32 (stored n) (4 + 4 * Z.of_nat k) = u32 (f (Z.of_nat k)).
Proof.
  induction n as [|n IH]; intros Hl Hk; [lia|]. cbn [stored]. destruct (decide (k = n)) as [->|].
  - apply get32_put32; rewrite ?length_stored; lia.
  - rewrite get32_put32_ne by (rewrite ?length_stored; lia). apply IH; lia.
Qed.
End head.

Lemma head_bytes_spec d n blocks :
  Z.of_nat (length d) = BSIZE -> 0 <= n <= LOGSIZE ->
  length (head_bytes d n blocks) = length d /\ get32 (head_bytes d n blocks) 0 = n /\
  forall t, 0 <= t < n -> get32 (head_bytes d n blocks) (4 + 4 * t) = u32 (blocks !!! Z.to_nat t).
Proof.
  intros Hd Hn. unfold LOGSIZE, MAXOPBLOCKS, BSIZE in *. unfold head_bytes.
  assert (L : length (put32 d 0 n) = length d) by (apply length_put32; lia).
  pose proof (stored_foldl (put32 d 0 n) (fun i => blocks !!! Z.to_nat i) (Z.to_nat n)) as E.
  rewrite Z2Nat.id in E by lia. cbv beta in E. rewrite E. split; [|split].
  - rewrite length_stored by lia. done.
  - rewrite get32_stored_n by lia. rewrite get32_put32 by lia. apply u32_small. lia.
  - intros t Ht. rewrite <- (Z2Nat.id t) by lia. rewrite get32_stored by lia.
    by rewrite Z2Nat.id by lia.
Qed.

(** ** Recovery *)

(** The in-memory header that read_head builds. *)
Definition loaded (lg : logst) (hd : list Z) : logst :=
  let lg1 := set_lh_n (i32 (get32 hd 0)) lg in
  foldl (fun lg i => set_lh_block (<[Z.to_nat i := i32 (get32 hd (4 + 4 * i))]> (lh_block lg)) lg) lg1
    (seqZ 0 (lh_n lg1)).

Lemma modl_loop (g : Z -> logst -> logst) ks : forall s,
  for_each ks (fun i => modl (g i)) s = Ret tt (set_log (foldl (fun l i => g i l) (log s) ks) s).
Proof.
  induction ks as [|k ks IH]; intros s; [by destruct s|]. cbn [for_each foldl]. unfold bind, modl at 1, modify.
  cbn [obind]. rewrite IH. by destruct s.
Qed.

Section blocks.
Variable g : Z -> Z.

Lemma blocks_fold ks : forall lg,
  let lg' := foldl (fun lg i => set_lh_block (<[Z.to_nat i := g i]> (lh_block lg)) lg) lg ks in
  lg' = set_lh_block (lh_block lg') lg /\ length (lh_block lg') = length (lh_block lg) /\
  (Forall (fun k => 0 <= k < Z.of_nat (length (lh_block lg))) ks -> forall t, 0 <= t ->
    lh_block lg' !!! Z.to_nat t = if decide (t ∈ ks) then g t else lh_block lg !!! Z.to_nat t).
Proof.
  induction ks as [|k ks IH]; intros lg; cbv zeta in *; cbn [foldl].
  - split; [by destruct lg|]. split; [done|]. intros _ t _. rewrite decide_False by apply not_elem_of_nil. done.
  - destruct (IH (set_lh_block (<[Z.to_nat k := g k]> (lh_block lg)) lg)) as (E1 & E2 & E3).
    split; [exact E1|]. cbn [lh_block set_lh_block] in E2, E3. rewrite length_insert in E2, E3. split; [exact E2|].
    intros [Hk Hks]%Forall_cons t Ht. rewrite (E3 Hks t Ht).
    destruct (decide (t ∈ ks)) as [Hin|Hin].
    + rewrite decide_True; [done|by right].
    + destruct (decide (t = k)) as [->|Hne].
      * rewrite decide_True by (by left). apply list_lookup_total_insert_eq. lia.
      * rewrite decide_False by (intros [?|?]%elem_of_cons; done). apply list_lookup_total_insert_ne. lia.
Qed.
End blocks.

Lemma loaded_spec lg hd n :
  get32 hd 0 = n -> 0 <= n <= LOGSIZE -> length (lh_block lg) = Z.to_nat LOGSIZE ->
  lg_dev (loaded lg hd) = lg_dev lg /\ lg_start (loaded lg hd) = lg_start lg /\ lh_n (loaded lg hd) = n /\
  length (lh_block (loaded lg hd)) = Z.to_nat LOGSIZE /\
  forall t, 0 <= t < n -> home (loaded lg hd) t = u32 (get32 hd (4 + 4 * t)).
Proof.
  intros Hn Hb Hl. unfold LOGSIZE, MAXOPBLOCKS in *.
  assert (En : i32 (get32 hd 0) = n) by (rewrite Hn; apply i32_small; lia).
  unfold home, loaded. rewrite En.
  destruct (blocks_fold (fun i => i32 (get32 hd (4 + 4 * i))) (seqZ 0 n) (set_lh_n n lg)) as (E1 & E2 & E3).
  cbv beta in *. change (lh_n (set_lh_n n lg)) with n.
  set (lg' := foldl _ _ _) in *. rewrite E1. cbn. split; [done|]. split; [done|]. split; [done|].
  split; [rewrite E2; done|]. intros t Ht. rewrite E3; [|apply Forall_forall; intros k Hk|lia].
  - rewrite decide_True by (apply elem_of_seqZ; lia). apply u32_i32.
  - apply elem_of_seqZ in Hk. cbn. lia.
Qed.

Section recover.
Context `{Fuel} `{DiskLaws} (D : Z) (p : nat).
Hypothesis Hfuel : (0 < fuel)%nat.

Lemma read_head_spec s V lg n :
  cview D p s V ∅ ∅ -> log s = lg -> log_ok D (loaded lg (V (lg_start lg))) ->
  get32 (V (lg_start lg)) 0 = n -> 0 <= n <= LOGSIZE -> length (lh_block lg) = Z.to_nat LOGSIZE ->
  exists s', read_head s = Ret tt s' /\ disk s' = disk s /\ disk_writes s' = disk_writes s /\
    log s' = loaded lg (V (lg_start lg)) /\ cview D p s' V ∅ ∅.
Proof.
  intros Hv Hlg Hok Hn Hb Hl. set (b := lg_start lg) in *.
  destruct (loaded_spec lg (V b) n Hn Hb Hl) as (Ld & Ls & Ln & _).
  pose proof (lo_dev _ _ Hok) as Hdev. rewrite Ld in Hdev.
  assert (Eb : u32 (lg_start lg) = b).
  { pose proof (lo_start _ _ Hok) as Hst. rewrite Ls in Hst. apply u32_small. unfold LOGSIZE, MAXOPBLOCKS in *. lia. }
  destruct (cview_bread D p s V ∅ ∅ b Hv Hfuel) as (i & s1 & E1 & C1 & D1 & W1 & K1 & B1 & V1);
    [apply not_elem_of_empty|right; by apply Nat.ltb_lt|done|].
  set (s2 := set_log (loaded lg (V b)) s1). 
  destruct (cview_brelse D p s2 V _ _ i b (cview_set_log _ _ _ _ _ _ _ V1)) as (s3 & E3 & C3 & D3 & W3 & K3 & V3);
    [exact B1|by apply elem_of_union_l, elem_of_singleton| |].
  { intros _. change (disk s2) with (disk s1). rewrite D1. by eapply cview_clean. }
  exists s3. split; [|split; [by rewrite D3|split; [by rewrite W3|split]]].
  - unfold read_head. unfold bind at 1, gets. cbn [obind]. rewrite Hlg, Hdev, Eb, (bind_Ret _ _ _ _ _ E1).
    unfold bind at 1, getb, gets. cbn [obind]. rewrite (cview_data D p s1 V _ _ i b V1 B1).
    assert (L1 : log s1 = lg) by (by rewrite (cache_only_log _ _ C1)).
    unfold bind at 1, modl at 1, modify at 1. cbn [obind]. unfold bind at 1. cbn [obind log set_log]. rewrite L1.
    assert (En : i32 (get32 (V b) 0) = n) by (rewrite Hn; apply i32_small; unfold LOGSIZE, MAXOPBLOCKS in *; lia).
    destruct (Z.ltb_spec LOGSIZE (lh_n (set_lh_n (i32 (get32 (V b) 0)) lg))) as [Hbad|_];
      [cbn in Hbad; rewrite En in Hbad; lia|].
    rewrite (bind_Ret _ _ _ _ _ (modl_loop (fun k lg => set_lh_block (<[Z.to_nat k := i32 (get32 (V b) (4 + 4 * k))]> (lh_block lg)) lg) _ _)).
    exact E3.
  - by rewrite (cache_only_log _ _ C3).
  - eapply cview_ext; [exact V3|done| |apply unlock_one]. rewrite (cnt_none b ∅) by apply lookup_empty.
    rewrite cnt_insert, setcnt_insert. apply delete_id, lookup_empty.
Qed.

(** What recovery writes: the logged blocks to their homes, then an empty header. *)
Definition recover_trace (lg : logst) (V : Z -> list Z) : list (Z * list Z) :=
  home_writes (loaded lg (V (lg_start lg))) V ++ [(lg_start lg, put32 (V (lg_start lg)) 0 0)].

Lemma recover_eq s V lg n :
  cview D p s V ∅ ∅ -> log s = lg -> log_ok D (loaded lg (V (lg_start lg))) ->
  get32 (V (lg_start lg)) 0 = n -> 0 <= n <= LOGSIZE -> length (lh_block lg) = Z.to_nat LOGSIZE ->
  exists s', recover_from_log s = Ret tt s' /\ lh_n (log s') = 0 /\
    disk s' = wr_disk (disk s) (recover_trace lg V) /\
    disk_writes s' = rev (recover_trace lg V) ++ disk_writes s /\
    cview D p s' (wr_view V (recover_trace lg V)) ∅ ∅.
Proof.
  intros Hv Hlg Hok Hn Hb Hl. set (b := lg_start lg) in *. set (lg1 := loaded lg (V b)) in *.
  destruct (loaded_spec lg (V b) n Hn Hb Hl) as (Ld & Ls & Ln & _). fold lg1 in Ld, Ls, Ln.
  destruct (read_head_spec s V lg n Hv Hlg Hok Hn Hb Hl) as (s1 & E1 & D1 & W1 & L1 & V1).
  destruct (install_trans_recover D p lg1 Hfuel Hok s1 V V1 L1) as (s2 & E2 & C2 & D2 & W2 & V2).
  assert (L2 : log s2 = lg1) by (by rewrite (cache_only_log _ _ C2)).
  set (s3 := set_log (set_lh_n 0 lg1) s2).
  destruct (write_head_spec D p (set_lh_n 0 lg1) Hfuel (log_ok_zero _ _ Hok) s3 _ ∅ (cview_set_log _ _ _ _ _ _ _ V2))
    as (s4 & E4 & C4 & D4 & W4 & V4); [done|done|by apply Nat.ltb_lt|].
  assert (EV : wr_view V (home_writes lg1 V) b = V b).
  { apply wr_view_ne. unfold home_writes. rewrite <- list_fmap_compose.
    intros (t & E & Ht)%list_elem_of_fmap. apply elem_of_seqZ in Ht. cbn in E.
    pose proof (lo_apart _ _ Hok t ltac:(lia)) as Ha. rewrite <- E, Ls in Ha. fold b in Ha.
    destruct (lo_n _ _ Hok). lia. }
  cbn [lg_start set_lh_n lh_n lh_block] in D4, W4, V4. rewrite Ls in D4, W4, V4. fold b in D4, W4, V4.
  rewrite EV in D4, W4, V4. change (head_bytes (V b) 0 (lh_block lg1)) with (put32 (V b) 0 0) in *.
  exists s4. split; [|split; [|split; [|split]]].
  - unfold recover_from_log. rewrite (bind_Ret _ _ _ _ _ E1), (bind_Ret _ _ _ _ _ E2).
    unfold bind, modl, modify. cbn [obind]. rewrite L2. exact E4.
  - by rewrite (cache_only_log _ _ C4).
  - rewrite D4. change (disk s3) with (disk s2). rewrite D2, D1. unfold recover_trace. by rewrite wr_disk_app.
  - rewrite W4. change (disk_writes s3) with (disk_writes s2). rewrite W2, W1. unfold recover_trace.
    rewrite rev_app_distr. done.
  - eapply cview_ext; [exact V4| |done|done]. intros c. unfold recover_trace, wr_view. by rewrite foldl_app.
Qed.
End recover.

(** ** Crashes during a commit *)

Section crash.
Context (D : Z) (lg : logst) (V : Z -> list Z) (d0 : gmap Z (list Z)).
Hypothesis Hok : log_ok D lg.

Let n := lh_n lg.
Let start := lg_start lg.
Let hd := head_bytes (V start) n (lh_block lg).

Definition homes : list Z := home lg <$> seqZ 0 (lh_n lg).

(** The transaction applied to the disk [d0]. *)
Definition committed (b : Z) : list Z := if decide (b ∈ homes) then V b else read_block d0 b.

Definition outside_log (b : Z) : Prop := ~ (lg_start lg <= b <= lg_start lg + LOGSIZE).

Definition home_copies : list (Z * list Z) := (fun t => (home lg t, V (home lg t))) <$> seqZ 0 (lh_n lg).

Lemma home_copies_fst : home_copies.*1 = homes.
Proof. unfold home_copies. rewrite <- list_fmap_compose. by apply list_fmap_ext. Qed.

Lemma homes_nodup : NoDup homes.
Proof.
  apply NoDup_fmap_2_strong; [|apply NoDup_seqZ]. intros t t' Ht Ht'. apply elem_of_seqZ in Ht, Ht'.
  apply (lo_uniq _ _ Hok); lia.
Qed.

Lemma homes_outside b : b ∈ homes -> outside_log b.
Proof.
  intros (t & -> & Ht)%list_elem_of_fmap. apply elem_of_seqZ in Ht. apply (lo_apart _ _ Hok). lia.
Qed.

Lemma outside_lblk b t : outside_log b -> in_tx lg t -> b <> lblk lg t.
Proof. unfold outside_log, in_tx, lblk. pose proof (lo_n _ _ Hok). lia. Qed.

Lemma outside_start b : outside_log b -> b <> start.
Proof. unfold outside_log, start. pose proof (lo_n _ _ Hok). lia. Qed.

Lemma take_fst_sub {A B} k (ws : list (A * B)) b : b ∉ ws.*1 -> b ∉ (take k ws).*1.
Proof. intros Hb. rewrite fmap_take. intros (i & Hi & _)%elem_of_take. by apply Hb, (list_elem_of_lookup_2 _ i). Qed.

Lemma read_wr_disk d ws b : read_block (wr_disk d ws) b = wr_view (read_block d) ws b.
Proof.
  revert d. induction ws as [|[c v] ws IH] using rev_ind; intros d; [done|].
  rewrite wr_disk_app. unfold wr_view. rewrite foldl_app. cbn [foldl wr_disk fst snd].
  unfold fset, read_block at 1. case_decide as E.
  - subst. by rewrite lookup_insert_eq.
  - rewrite lookup_insert_ne by done. apply IH.
Qed.

Lemma wr_view_app W ws ws' : wr_view W (ws ++ ws') = wr_view (wr_view W ws) ws'.
Proof. apply foldl_app. Qed.

Lemma outside_log_writes b : outside_log b -> b ∉ (log_writes lg V).*1.
Proof. intros Hb. apply log_writes_ne. intros t Ht. by apply outside_lblk. Qed.

(** The stages of a commit: the log is filled, the header makes the transaction
    durable, the homes are written, the header is cleared. *)
Lemma crash_before k b : (k <= Z.to_nat n)%nat -> b = start \/ outside_log b ->
  wr_view (read_block d0) (take k (commit_trace lg V)) b = read_block d0 b.
Proof.
  intros Hk Hb. unfold commit_trace. rewrite take_app_le.
  - apply wr_view_ne, take_fst_sub. destruct Hb as [->|Hb]; [|by apply outside_log_writes].
    apply log_writes_ne. intros t Ht. by apply start_lblk.
  - unfold log_writes. rewrite length_fmap, length_seqZ. fold n. lia.
Qed.

Lemma crash_after k : (Z.to_nat n < k)%nat ->
  let W := wr_view (read_block d0) (take k (commit_trace lg V)) in
  (W start = hd /\ (forall t, in_tx lg t -> W (lblk lg t) = V (home lg t)) /\
    (forall b, outside_log b -> b ∉ homes -> W b = read_block d0 b)) \/
  (W start = put32 hd 0 0 /\ forall b, outside_log b -> W b = committed b).
Proof.
  intros Hk W. unfold W.
  change (commit_trace lg V) with (log_writes lg V ++ (start, hd) :: home_copies ++ [(start, put32 hd 0 0)]).
  assert (Hl : length (log_writes lg V) = Z.to_nat n) by (unfold log_writes; by rewrite length_fmap, length_seqZ).
  rewrite take_app_ge by lia. rewrite Hl. destruct (k - Z.to_nat n)%nat as [|m] eqn:Em; [lia|].
  cbn [take]. rewrite wr_view_app.
  set (W1 := fset (wr_view (read_block d0) (log_writes lg V)) start hd).
  change (wr_view (wr_view (read_block d0) (log_writes lg V)) ((start, hd) :: ?ws)) with (wr_view W1 ws).
  assert (Hs : start ∉ homes) by (intros Hin%homes_outside; by apply outside_start in Hin).
  assert (W1s : W1 start = hd) by (unfold W1, fset; by rewrite decide_True).
  assert (W1o : forall b, outside_log b -> W1 b = read_block d0 b).
  { intros b Hb. unfold W1, fset. rewrite decide_False by (by apply outside_start).
    by apply (wr_view_ne (read_block d0)), outside_log_writes. }
  assert (Hl2 : length home_copies = Z.to_nat n) by (unfold home_copies; by rewrite length_fmap, length_seqZ).
  destruct (decide (m <= Z.to_nat n)%nat) as [Hm|Hm].
  - left. rewrite take_app_le by lia.
    split; [|split].
    + rewrite wr_view_ne; [done|]. apply take_fst_sub. by rewrite home_copies_fst.
    + intros t Ht. rewrite wr_view_ne.
      * unfold W1, fset. rewrite decide_False by (intros E; by apply (start_lblk lg t)).
        apply (wr_view_in (read_block d0)); [apply log_writes_nodup|]. apply list_elem_of_fmap. exists t.
        split; [done|]. apply elem_of_seqZ. unfold in_tx in Ht. lia.
      * apply take_fst_sub. rewrite home_copies_fst. intros Hin%homes_outside. by apply (outside_lblk _ t Hin Ht).
    + intros b Hb Hnh. rewrite wr_view_ne; [by apply W1o|]. apply take_fst_sub. by rewrite home_copies_fst.
  - right. rewrite take_ge by (rewrite length_app, Hl2; simpl; lia).
    rewrite wr_view_app.
    change (wr_view (wr_view W1 home_copies) [(start, put32 hd 0 0)])
      with (fset (wr_view W1 home_copies) start (put32 hd 0 0)).
    split; [unfold fset; by rewrite decide_True|].
    intros b Hb. unfold fset. rewrite decide_False by (by apply outside_start). unfold committed. case_decide as Hh.
    + apply wr_view_in; [rewrite home_copies_fst; apply homes_nodup|].
      apply list_elem_of_fmap in Hh as (t & -> & Ht). apply list_elem_of_fmap. by exists t.
    + rewrite wr_view_ne; [by apply W1o|]. by rewrite home_copies_fst.
Qed.
End crash.

(** The log that recovery finds in a cleared header and in the header of a transaction. *)
Lemma log_ok_loaded_empty D lg lgb hd :
  log_ok D lg -> lg_dev lgb = lg_dev lg -> lg_start lgb = lg_start lg ->
  length (lh_block lgb) = Z.to_nat LOGSIZE -> get32 hd 0 = 0 -> log_ok D (loaded lgb hd).
Proof.
  intros Hok Hd Hs Hl Hn. destruct (loaded_spec lgb hd 0) as (Ld & Ls & Ln & Ll & _); [done|done|done|].
  split; rewrite ?Ld, ?Ls, ?Ln, ?Ll, ?Hd, ?Hs; try apply Hok; try done; intros; lia.
Qed.

Lemma log_ok_loaded D lg lgb d :
  log_ok D lg -> lg_dev lgb = lg_dev lg -> lg_start lgb = lg_start lg ->
  length (lh_block lgb) = Z.to_nat LOGSIZE -> Z.of_nat (length d) = BSIZE ->
  let lg' := loaded lgb (head_bytes d (lh_n lg) (lh_block lg)) in
  log_ok D lg' /\ lh_n lg' = lh_n lg /\ lg_start lg' = lg_start lg /\
  forall t, in_tx lg t -> home lg' t = home lg t.
Proof.
  intros Hok Hd Hs Hl Hb. destruct (head_bytes_spec d (lh_n lg) (lh_block lg) Hb (lo_n _ _ Hok)) as (_ & H0 & Ht).
  destruct (loaded_spec lgb _ (lh_n lg) H0 (lo_n _ _ Hok) Hl) as (Ld & Ls & Ln & Ll & Lh).
  set (lg' := loaded _ _) in *. cbv zeta.
  assert (Hh : forall t, in_tx lg t -> home lg' t = home lg t).
  { intros t Hin. rewrite Lh, Ht by done. apply u32_small, u32_range. }
  split; [|by rewrite Ls, Hs]. split; rewrite ?Ld, ?Ls, ?Ln, ?Ll, ?Hd, ?Hs; try apply Hok.
  - done.
  - intros t Hin. rewrite Hh by done. by apply Hok.
  - intros t t' Hin Hin'. rewrite !Hh by done. by apply Hok.
Qed.

Section atomic.
Context `{Fuel} `{DiskLaws} (D : Z) (lg : logst) (V : Z -> list Z) (d0 : gmap Z (list Z)).
Hypothesis Hfuel : (0 < fuel)%nat.
Hypothesis Hok : log_ok D lg.
Hypothesis Hlen : Z.of_nat (length (V (lg_start lg))) = BSIZE.
Hypothesis Hclear : get32 (read_block d0 (lg_start lg)) 0 = 0.

(** After a reboot with the first [k] writes of the commit on the disk. *)
Lemma recover_crashed k sb p lgb :
  disk sb = wr_disk d0 (take k (commit_trace lg V)) -> cview D p sb (read_block (disk sb)) ∅ ∅ ->
  log sb = lgb -> lg_dev lgb = lg_dev lg -> lg_start lgb = lg_start lg ->
  length (lh_block lgb) = Z.to_nat LOGSIZE ->
  exists sr, recover_from_log sb = Ret tt sr /\
    forall b, outside_log lg b -> read_block (disk sr) b =
      if decide (k <= Z.to_nat (lh_n lg))%nat then read_block d0 b else committed lg V d0 b.
Proof.
  intros Hd Hv Hlg Hdev Hst Hl.
  assert (HW : forall b, read_block (disk sb) b = wr_view (read_block d0) (take k (commit_trace lg V)) b).
  { intros b. by rewrite Hd, read_wr_disk. }
  set (hd := head_bytes (V (lg_start lg)) (lh_n lg) (lh_block lg)).
  destruct (head_bytes_spec (V (lg_start lg)) (lh_n lg) (lh_block lg) Hlen (lo_n _ _ Hok)) as (Hhl & Hh0 & Hht).
  assert (Hempty : get32 (read_block (disk sb) (lg_start lgb)) 0 = 0 ->
    exists sr, recover_from_log sb = Ret tt sr /\
      forall b, outside_log lg b -> read_block (disk sr) b = read_block (disk sb) b).
  { intros Hz. pose proof (log_ok_loaded_empty D lg lgb _ Hok Hdev Hst Hl Hz) as Hok'.
    destruct (recover_eq D p Hfuel sb _ lgb 0 Hv Hlg Hok' Hz) as (sr & Er & _ & Dr & _); [done|done|].
    exists sr. split; [done|]. intros b Hb. rewrite Dr, read_wr_disk. apply wr_view_ne.
    unfold recover_trace, home_writes.
    destruct (loaded_spec lgb _ 0 Hz ltac:(done) Hl) as (_ & _ & -> & _).
    change (b ∉ [lg_start lgb]). rewrite list_elem_of_singleton, Hst. by apply (outside_start D lg Hok). }
  case_decide as Hk.
  - destruct Hempty as (sr & Er & Hr).
    { rewrite HW, Hst, (crash_before D lg V d0 Hok k) by (done || by left). done. }
    exists sr. split; [done|]. intros b Hb. rewrite Hr, HW by done. apply (crash_before D lg V d0 Hok k); [done|by right].
  - destruct (crash_after D lg V d0 Hok k ltac:(lia)) as [(Ws & Wl & Wo)|(Ws & Wo)]; rewrite <- HW in Ws; fold hd in Ws.
    + destruct (log_ok_loaded D lg lgb (V (lg_start lg)) Hok Hdev Hst Hl Hlen) as (Hok' & Hn' & Hs' & Hh').
      fold hd in Hok', Hn', Hs', Hh'. rewrite <- Hst in Ws. rewrite <- Ws in Hok', Hn', Hs', Hh'.
      destruct (recover_eq D p Hfuel sb _ lgb (lh_n lg) Hv Hlg Hok') as (sr & Er & _ & Dr & _);
        [by rewrite Ws|apply Hok|done|].
      exists sr. split; [done|]. intros b Hb. rewrite Dr, read_wr_disk. unfold recover_trace.
      assert (Ehw : home_writes (loaded lgb (read_block (disk sb) (lg_start lgb))) (read_block (disk sb)) =
        home_copies lg V).
      { unfold home_writes, home_copies. rewrite Hn'. apply list_fmap_ext. intros i t Hi.
        apply lookup_seqZ in Hi as [-> Hi]. assert (Hin : in_tx lg (0 + Z.of_nat i)) by (unfold in_tx; lia).
        rewrite Hh' by done. unfold lblk. rewrite Hs'. fold (lblk lg (0 + Z.of_nat i)). by rewrite HW, Wl. }
      rewrite Ehw, wr_view_app. transitivity (wr_view (read_block (disk sb)) (home_copies lg V) b).
      * apply (wr_view_ne _ [_]). change (b ∉ [lg_start lgb]). rewrite list_elem_of_singleton, Hst.
        by apply (outside_start D lg Hok).
      * unfold committed. case_decide as Hh.
        -- apply wr_view_in; [rewrite home_copies_fst; by apply (homes_nodup D)|].
           apply list_elem_of_fmap in Hh as (t & -> & Ht). apply list_elem_of_fmap. by exists t.
        -- rewrite wr_view_ne; [rewrite HW; by apply Wo|]. by rewrite home_copies_fst.
    + destruct Hempty as (sr & Er & Hr).
      { rewrite Hst, Ws. apply get32_put32; [lia|]. unfold hd. by rewrite Hhl, Hlen. }
      exists sr. split; [done|]. intros b Hb. rewrite Hr, HW by done. by apply Wo.
Qed.
End atomic.

(** C1. A commit is atomic under crashes.  commit returns, and if the machine
    stops after any number [k] of the block writes it makes and the log is then
    recovered from that disk, every block outside the log is as before the
    commit when [k] is at most the number of logged blocks, and as the
    transaction leaves it when [k] is larger: the write of the header decides. *)
Theorem commit_crash_atomic `{Fuel} `{DiskLaws} D p lg s V held :
  (0 < fuel)%nat -> log_ok D lg -> cview D p s V held ∅ -> log s = lg -> 0 < lh_n lg ->
  (forall t, in_tx lg t -> pinned lg t held) -> held !! lg_start lg = None ->
  Z.of_nat (length (V (lg_start lg))) = BSIZE -> get32 (V (lg_start lg)) 0 = 0 ->
  exists s' ws, commit s = Ret tt s' /\ lh_n (log s') = 0 /\
    disk_writes s' = rev ws ++ disk_writes s /\ disk s' = wr_disk (disk s) ws /\
    forall k sb p', disk sb = wr_disk (disk s) (take k ws) -> cview D p' sb (read_block (disk sb)) ∅ ∅ ->
      lg_dev (log sb) = lg_dev lg -> lg_start (log sb) = lg_start lg ->
      length (lh_block (log sb)) = Z.to_nat LOGSIZE ->
      exists sr, recover_from_log sb = Ret tt sr /\
        forall b, outside_log lg b -> read_block (disk sr) b =
          if decide (k <= Z.to_nat (lh_n lg))%nat then read_block (disk s) b else committed lg V (disk s) b.
Proof.
  intros Hf Hok Hv Hlg Hn Hp Hh Hlen Hz.
  destruct (commit_eq D p lg Hf Hok s V held Hv Hlg Hn Hp Hh) as (s' & Ec & Lc & Dc & Wc & _).
  exists s', (commit_trace lg V). do 2 (split; [by rewrite ?Lc|]). do 2 (split; [done|]).
  intros k sb p' Hd Hv' Hd' Hs' Hl'.
  apply (recover_crashed D lg V (disk s) Hf Hok Hlen) with (p := p') (lgb := log sb); try done.
  by rewrite <- (cview_clean D p s V held ∅ (lg_start lg) Hv Hh).
Qed.

(** ** A concrete transaction *)

#[local] Existing Instances ex_fuel sync_disk sync_disk_laws.

(** Block 50 is modified in the cache and in the log, which starts at block 2. *)
Definition ex_tx_log : logst := mkLog 2 LOGSIZE 0 true 1 1 (50 :: replicate (Z.to_nat LOGSIZE - 1) 0).
Definition ex_tx_bufs : list buf :=
  alter (fun bf => set_b_data (replicate (Z.to_nat BSIZE) 7) (set_b_refcnt 1 (set_b_valid true
    (set_b_blockno 50 (set_b_dev 1 bf))))) 4%nat binit_bufs.
Definition ex_tx : kernel := set_log ex_tx_log (set_bufs ex_tx_bufs ex_cache).

Lemma idle_log_bufs l bs s p : idle s p -> idle (set_log l (set_bufs bs s)) p.
Proof. by apply (idle_blind (fun s => set_log l (set_bufs bs s))). Qed.

Lemma ex_tx_cview : cview 1 3 ex_tx (blk 1 ex_tx) {[50 := 1]} ∅.
Proof.
  split.
  { apply idle_log_bufs, ex_cache_idle. }
  exists (rev (seq 0 NBUF)). eapply bview_ext; [apply (cacheb_bview 1 3 ex_tx)| |].
  - symmetry. apply Permutation_rev.
  - vm_compute. reflexivity.
  - done.
  - vm_compute. reflexivity.
Qed.

Lemma ex_tx_ok : log_ok 1 ex_tx_log.
Proof.
  split; try reflexivity; [split; [done|reflexivity]|split; discriminate| |].
  - intros t Ht. simpl in Ht. assert (t = 0) as -> by lia. vm_compute. intros [_ Hb]. by apply Hb.
  - simpl. lia.
Qed.

Lemma commit_crash_atomic_witness : exists s' ws, commit ex_tx = Ret tt s' /\ lh_n (log s') = 0 /\
  disk_writes s' = rev ws ++ [] /\ disk s' = wr_disk ∅ ws.
Proof.
  destruct (commit_crash_atomic 1 3 ex_tx_log ex_tx (blk 1 ex_tx) {[50 := 1]}) as (s' & ws & E & Hn & Hw & Hd & _).
  - apply Nat.ltb_lt. reflexivity.
  - apply ex_tx_ok.
  - apply ex_tx_cview.
  - reflexivity.
  - reflexivity.
  - intros t Ht. unfold in_tx in Ht. simpl in Ht. assert (t = 0) as -> by lia.
    split; [split; reflexivity|]. split; [reflexivity|]. apply Nat.ltb_lt. reflexivity.
  - reflexivity.
  - vm_compute. reflexivity.
  - vm_compute. reflexivity.
  - exists s', ws. split; [exact E|]. split; [exact Hn|]. split; [exact Hw|exact Hd].
Defined.
