(* ===== verification/LogWrite.v ===== *)
(** log_write, begin_op and end_op: what they do to the transaction. *)

From S2P Require Import Prelude Outcome Mem State Spinlock KString Kalloc Vm Proc ProcSpec Sleeplock Calm Bytes Disk Bio BioSpec BioView BioCheck Log LogSpec LogCrash.

(** ** Absorption *)

Lemma absorb_spec l b n : forall i,
  let r := absorb i n l b in
  (i <= r <= i + n)%nat /\ (forall t, (i <= t < r)%nat -> u32 (l !!! t) <> b) /\
  ((r < i + n)%nat -> u32 (l !!! r) = b).
Proof.
  induction n as [|n IH]; intros i; cbn [absorb]; cbv zeta.
  - split; [lia|]. split; intros; lia.
  - destruct (Z.eqb_spec (u32 (l !!! i)) b) as [E|E].
    + split; [lia|]. split; [intros; lia|done].
    + destruct (IH (S i)) as (H1 & H2 & H3). split; [lia|]. split; [|intros; apply H3; lia].
      intros t Ht. destruct (decide (t = i)) as [->|]; [done|]. apply H2. lia.
Qed.

(** The transaction after block [b] is added. *)
Definition add_home (b : Z) (hs : list Z) : list Z := if decide (b ∈ hs) then hs else hs ++ [b].

Lemma elem_of_homes lg b : b ∈ homes lg <-> exists t, 0 <= t < lh_n lg /\ home lg t = b.
Proof.
  unfold homes. rewrite list_elem_of_fmap. split.
  - intros (t & -> & Ht). apply elem_of_seqZ in Ht. exists t. split; [lia|done].
  - intros (t & Ht & <-). exists t. split; [done|]. apply elem_of_seqZ. lia.
Qed.

(** The log record log_write leaves. *)
Definition logged (b : Z) (lg : logst) : logst :=
  let i := absorb 0 (Z.to_nat (lh_n lg)) (lh_block lg) b in
  let lg := set_lh_block (<[i := i32 b]> (lh_block lg)) lg in
  if Z.of_nat i =? lh_n lg then set_lh_n (lh_n lg + 1) lg else lg.

Lemma logged_homes b lg :
  0 <= b < 2 ^ 32 -> 0 <= lh_n lg < Z.of_nat (length (lh_block lg)) ->
  homes (logged b lg) = add_home b (homes lg) /\
  (Z.of_nat (absorb 0 (Z.to_nat (lh_n lg)) (lh_block lg) b) = lh_n lg <-> b ∉ homes lg).
Proof.
  intros Hb Hn. unfold logged. destruct (absorb_spec (lh_block lg) b (Z.to_nat (lh_n lg)) 0) as (Hr & Hne & Heq).
  set (r := absorb 0 _ _ _) in *. cbn [lh_n set_lh_block].
  assert (Hhome : forall t, 0 <= t -> u32 (<[r := i32 b]> (lh_block lg) !!! Z.to_nat t) =
    if decide (Z.to_nat t = r) then b else home lg t).
  { intros t Ht. case_decide as E.
    - subst. rewrite E, list_lookup_total_insert_eq by lia. rewrite u32_i32. apply u32_small. lia.
    - rewrite list_lookup_total_insert_ne by done. done. }
  destruct (Z.eqb_spec (Z.of_nat r) (lh_n lg)) as [E|E].
  - assert (Hnot : b ∉ homes lg).
    { rewrite elem_of_homes. intros (t & Ht & Eh). apply (Hne (Z.to_nat t)); [lia|done]. }
    split; [|done]. unfold add_home. rewrite decide_False by done. unfold homes. cbn [lh_n set_lh_n set_lh_block].
    rewrite <- E. replace (Z.of_nat r + 1) with (Z.of_nat (S r)) by lia. rewrite seqZ_S by lia.
    rewrite fmap_app. cbn [fmap list_fmap]. rewrite Z.add_0_l. f_equal.
    + apply list_fmap_ext. intros k t Hk. apply lookup_seqZ in Hk as [-> Hk].
      unfold home at 1. cbn [lh_block set_lh_n set_lh_block]. rewrite Hhome by lia. by rewrite decide_False by lia.
    + f_equal. unfold home. cbn [lh_block set_lh_n set_lh_block]. rewrite Hhome by lia.
      by rewrite decide_True by lia.
  - assert (Hin : b ∈ homes lg).
    { rewrite elem_of_homes. exists (Z.of_nat r). split; [lia|]. unfold home. rewrite Nat2Z.id. apply Heq. lia. }
    split; [|done]. unfold add_home. rewrite decide_True by done.
    apply list_fmap_ext. intros k t Hk. apply lookup_seqZ in Hk as [-> Hk].
    unfold home at 1. cbn [lh_block set_lh_block]. rewrite Hhome by lia. case_decide as Er; [|done].
    unfold home. rewrite Er. symmetry. apply Heq. lia.
Qed.

Section log_write.
Context `{Fuel} `{Disk} (D : Z) (p : nat).

Lemma log_write_eq s i lg :
  idle s p -> log s = lg -> lh_n lg < LOGSIZE -> lh_n lg < lg_size lg - 1 -> 1 <= lg_outstanding lg ->
  let b := b_blockno (bufs s !!! i) in
  log_write i s = Ret tt (set_log (logged b lg)
    (if Z.of_nat (absorb 0 (Z.to_nat (lh_n lg)) (lh_block lg) b) =? lh_n lg
     then set_bufs (alter (addref 1) i (bufs s)) s else s)).
Proof.
  intros Hid Hlg Hn1 Hn2 Ho b. pose proof Hid as [Hc _]. unfold log_write.
  rewrite (bind_Ret _ _ _ _ _ (acquire_eq LLog s (idle_lk _ _ _ Hid))). set (s1 := acquired LLog s).
  unfold bind at 1, gets. cbn [obind]. change (log s1) with (log s). rewrite Hlg.
  destruct (Z.leb_spec LOGSIZE (lh_n lg)); [lia|]. destruct (Z.leb_spec (lg_size lg - 1) (lh_n lg)); [lia|].
  cbn [orb]. destruct (Z.ltb_spec (lg_outstanding lg) 1); [lia|].
  unfold bind at 1, getb, gets. cbn [obind]. change (b_blockno (bufs s1 !!! i)) with b.
  unfold logged. set (r := absorb _ _ _ _). cbn [lh_n set_lh_block].
  unfold bind at 1, modl at 1, modify at 1. cbn [obind]. change (log s1) with (log s). rewrite Hlg.
  set (lg1 := set_lh_block _ lg). set (s2 := set_log lg1 s1).
  destruct (Z.of_nat r =? lh_n lg); cbn [when].
  - assert (Hc2 : calm s2 p) by (apply (calm_blind (set_log lg1)); [done|done|by apply calm_acquired]).
    assert (Hl2 : locks s2 !! LBcache = None).
    { change (locks s2) with (<[LLog := hart s]> (locks s)). rewrite lookup_insert_ne by done. by eapply idle_lk. }
    pose proof (addref_calm p s2 i 1 Hc2 Hl2) as Ea. rewrite (bind_Ret _ _ s2 tt (set_log (set_lh_n (lh_n lg + 1) lg1) (set_bufs (alter (addref 1) i (bufs s)) s1))).
    + exact (critical_calm LLog (fun s0 => set_log (set_lh_n (lh_n lg + 1) lg1) (set_bufs (alter (addref 1) i (bufs s)) s0))
        s p Hc (idle_lk _ _ _ Hid) ltac:(done) eq_refl).
    + exact (bind_Ret _ _ _ _ _ Ea).
  - unfold bind, ret. cbn [obind].
    exact (critical_calm LLog (set_log lg1) s p Hc (idle_lk _ _ _ Hid) ltac:(done) eq_refl).
Qed.
End log_write.

Lemma add_home_nodup b hs : NoDup hs -> NoDup (add_home b hs).
Proof.
  intros Hnd. unfold add_home. case_decide as Hb; [done|]. apply NoDup_app. split; [done|].
  split; [|apply NoDup_singleton]. intros x Hx ->%list_elem_of_singleton. done.
Qed.

Lemma bview_set_log D p s order V held lck l :
  bview D s p order V held lck -> bview D (set_log l s) p order V held lck.
Proof. intros [[] ? ? ? ? ?]. by split. Qed.

Lemma idle_set_log l s p : idle s p -> idle (set_log l s) p.
Proof. by apply (idle_blind (set_log l)). Qed.

Lemma is_buf_set_log D l s i b : is_buf D s i b -> is_buf D (set_log l s) i b.
Proof. done. Qed.
Lemma log_set_log l s : log (set_log l s) = l.
Proof. done. Qed.

(** C13. Inside a transaction with room, log_write returns, puts the block into
    the transaction unless it is there already, keeps every block of the
    transaction listed once, pins the buffer exactly when the block is new,
    and leaves the contents of all blocks as they are. *)
Theorem log_write_absorbs `{Fuel} `{Disk} D p s order V held lck i b n :
  idle s p -> bview D s p order V held lck -> is_buf D s i b -> held !! b = Some n -> n < 2 ^ 32 - 2 ->
  0 <= b < 2 ^ 32 -> 0 <= lh_n (log s) < LOGSIZE -> length (lh_block (log s)) = Z.to_nat LOGSIZE ->
  lh_n (log s) < lg_size (log s) - 1 -> 1 <= lg_outstanding (log s) ->
  exists s', log_write i s = Ret tt s' /\ homes (log s') = add_home b (homes (log s)) /\
    (NoDup (homes (log s)) -> NoDup (homes (log s'))) /\
    bview D s' p order V (if decide (b ∈ homes (log s)) then held else <[b := n + 1]> held) lck.
Proof.
  intros Hid Hv Hib Hn Hnb Hb Hl0 Hlen Hl1 Ho.
  assert (Eb : b_blockno (bufs s !!! i) = b) by (destruct Hib as (_ & Hk & _); by apply has_key_spec in Hk as [_ ?]).
  destruct (logged_homes b (log s)) as [Hh Hiff]; [done|rewrite Hlen; unfold LOGSIZE, MAXOPBLOCKS in *; lia|].
  eexists. split; [apply (log_write_eq p s i (log s)); (done || lia)|]. rewrite Eb. cbn [log set_log].
  split; [exact Hh|]. split; [rewrite Hh; apply add_home_nodup|]. apply bview_set_log.
  destruct (Z.eqb_spec (Z.of_nat (absorb 0 (Z.to_nat (lh_n (log s))) (lh_block (log s)) b)) (lh_n (log s))) as [E|E].
  - rewrite decide_False by (by apply Hiff). destruct (view_ref _ _ _ _ _ _ _ _ _ _ Hv Hib Hn).
    by destruct (bview_addref D p s order V held lck i b n 1 Hv Hib Hn ltac:(lia)).
  - rewrite decide_True; [done|]. destruct (decide (b ∈ homes (log s))) as [?|Hnot]; [done|]. by apply Hiff in Hnot.
Qed.

(** ** The room a transaction has *)

Lemma set_procs_id s : set_procs (procs s) s = s.
Proof. by destruct s. Qed.

(** A critical section of the log that changes the log and the processes. *)
Lemma release_log_eq lg P s :
  irq_ok s -> settle s = s -> locks s !! LLog = None ->
  release LLog (set_log lg (set_procs P (acquired LLog s))) = Ret tt (set_log lg (set_procs P s)).
Proof.
  intros Hi Hset Hl. pose proof (critical_eq LLog (fun s0 => set_log lg (set_procs P s0)) s Hi Hl ltac:(done) ltac:(done)) as Ec.
  rewrite <- settle_blind, Hset in Ec by done. exact Ec.
Qed.

Section room.
Context `{Fuel} `{Disk} (p : nat).
Hypothesis Hfuel : (0 < fuel)%nat.

Lemma begin_op_eq s :
  irq_ok s -> settle s = s -> locks s !! LLog = None -> lg_committing (log s) = false ->
  lh_n (log s) + (lg_outstanding (log s) + 1) * MAXOPBLOCKS <= LOGSIZE ->
  begin_op s = Ret tt (set_log (set_lg_outstanding (lg_outstanding (log s) + 1) (log s)) s).
Proof.
  intros Hi Hset Hl Hc Hr. unfold begin_op. rewrite (bind_Ret _ _ _ _ _ (acquire_eq LLog s Hl)).
  destruct fuel as [|f]; [lia|]. apply iter_exit. unfold begin_op_body.
  unfold bind at 1, gets. cbn [obind]. change (log (acquired LLog s)) with (log s). rewrite Hc.
  destruct (Z.ltb_spec LOGSIZE (lh_n (log s) + (lg_outstanding (log s) + 1) * MAXOPBLOCKS)); [lia|].
  unfold bind at 1, modl, modify. cbn [obind]. change (log (acquired LLog s)) with (log s).
  set (lg1 := set_lg_outstanding _ _).
  by rewrite (bind_Ret _ _ _ _ _ (release_log_eq lg1 (procs s) s Hi Hset Hl)).
Qed.

(** end_op with nothing to commit: the processes that wait for room are woken. *)
Lemma end_op_eq s :
  can_wake s -> settle s = s -> locks s !! LLog = None -> lg_committing (log s) = false ->
  (lg_outstanding (log s) = 1 -> lh_n (log s) = 0) ->
  end_op s = Ret tt (set_log (set_lg_outstanding (lg_outstanding (log s) - 1) (log s)) (woken ChLog s)).
Proof.
  clear Hfuel. intros Hw Hset Hl Hc Hn. pose proof (cw_irq _ Hw) as Hi. unfold end_op. rewrite (bind_Ret _ _ _ _ _ (acquire_eq LLog s Hl)).
  set (lg1 := set_lg_outstanding (lg_outstanding (log s) - 1) (log s)).
  set (s1 := set_log lg1 (acquired LLog s)). assert (Hw1 : can_wake s1) by (by destruct (can_wake_acquired LLog s Hw ltac:(done))).
  rewrite (bind_Ret _ _ _ _ _ (eq_refl : modl (fun lg => set_lg_outstanding (lg_outstanding lg - 1) lg) (acquired LLog s) = Ret tt s1)).
  rewrite (bind_Ret _ _ _ _ _ (eq_refl : gets log s1 = Ret lg1 s1)). change (lg_committing lg1) with (lg_committing (log s)). rewrite Hc.
  change (lg_outstanding lg1) with (lg_outstanding (log s) - 1). destruct (Z.eqb_spec (lg_outstanding (log s) - 1) 0) as [Eo|_].
  - set (lg2 := set_lg_committing true lg1). rewrite (bind_Ret _ _ _ _ _ (eq_refl : bind (modl (set_lg_committing true)) (fun _ => ret true) s1 = Ret true (set_log lg2 (acquired LLog s)))).
    rewrite (bind_Ret _ _ _ _ _ (release_log_eq lg2 (procs s) s Hi Hset Hl)). rewrite set_procs_id. cbn [when]. set (s2 := set_log lg2 s).
    assert (Ec : commit s2 = Ret tt s2).
    { unfold commit. rewrite (bind_Ret _ _ _ _ _ (eq_refl : gets log s2 = Ret lg2 s2)). change (lh_n lg2) with (lh_n (log s)). by rewrite Hn by lia. }
    rewrite (bind_Ret _ _ _ _ _ Ec), (bind_Ret _ _ _ _ _ (acquire_eq LLog s2 Hl)).
    set (s3 := set_log (set_lg_committing false lg2) (acquired LLog s)).
    rewrite (bind_Ret _ _ _ _ _ (eq_refl : modl (set_lg_committing false) (acquired LLog s2) = Ret tt s3)).
    assert (Hw3 : can_wake s3) by (by destruct Hw1). destruct (wakeup_locked ChLog s3 Hw3) as [Ew _]; [destruct Hi; cbn; lia|].
    rewrite (bind_Ret _ _ _ _ _ Ew). assert (El : set_lg_committing false lg2 = lg1) by (unfold lg2, lg1; destruct (log s); cbn in *; by rewrite Hc).
    unfold s3, woken. rewrite El. exact (release_log_eq lg1 (imap (wake ChLog (c_proc (cpu_ s))) (procs s)) s Hi Hset Hl).
  - destruct (wakeup_locked ChLog s1 Hw1) as [Ew _]; [destruct Hi; cbn; lia|].
    rewrite (bind_Ret _ _ _ _ _ (bind_Ret _ (fun _ => ret false) _ _ _ Ew)). by rewrite (bind_Ret _ _ _ _ _ (release_log_eq lg1 (imap (wake ChLog (c_proc (cpu_ s))) (procs s)) s Hi Hset Hl)).
Qed.

(** The errors of log_write. *)
Lemma log_write_too_big s i :
  locks s !! LLog = None -> LOGSIZE <= lh_n (log s) \/ lg_size (log s) - 1 <= lh_n (log s) ->
  log_write i s = Stop (Panicked "too big a transaction").
Proof.
  clear Hfuel.
  intros Hl Hn. unfold log_write. rewrite (bind_Ret _ _ _ _ _ (acquire_eq LLog s Hl)).
  unfold bind at 1, gets. cbn [obind]. change (log (acquired LLog s)) with (log s).
  by rewrite (proj2 (orb_true_iff _ _)) by (destruct Hn; [left|right]; lia).
Qed.

Lemma log_write_outside s i :
  locks s !! LLog = None -> lh_n (log s) < LOGSIZE -> lh_n (log s) < lg_size (log s) - 1 ->
  lg_outstanding (log s) < 1 -> log_write i s = Stop (Panicked "log_write outside of trans").
Proof.
  clear Hfuel.
  intros Hl H1 H2 Ho. unfold log_write. rewrite (bind_Ret _ _ _ _ _ (acquire_eq LLog s Hl)).
  unfold bind at 1, gets. cbn [obind]. change (log (acquired LLog s)) with (log s).
  destruct (Z.leb_spec LOGSIZE (lh_n (log s))); [lia|].
  destruct (Z.leb_spec (lg_size (log s) - 1) (lh_n (log s))); [lia|]. cbn [orb].
  by destruct (Z.ltb_spec (lg_outstanding (log s)) 1); [|lia].
Qed.

(** Writing distinct new blocks, one buffer each. *)
Definition bno_of (s : kernel) (i : nat) : Z := b_blockno (bufs s !!! i).

Definition new_blocks (s : kernel) (bl : list nat) : Prop :=
  NoDup (homes (log s) ++ (bno_of s <$> bl)) /\ Forall (fun i => 0 <= bno_of s i < 2 ^ 32) bl.

Definition log_room (s : kernel) : Prop :=
  idle s p /\ 0 <= lh_n (log s) /\ length (lh_block (log s)) = Z.to_nat LOGSIZE /\ 1 <= lg_outstanding (log s).

Lemma log_write_new s i bl :
  log_room s -> new_blocks s (i :: bl) -> lh_n (log s) < LOGSIZE -> lh_n (log s) < lg_size (log s) - 1 ->
  exists s', log_write i s = Ret tt s' /\ log_room s' /\ new_blocks s' bl /\
    lh_n (log s') = lh_n (log s) + 1 /\ lg_size (log s') = lg_size (log s).
Proof.
  clear Hfuel. intros (Hid & Hn & Hlen & Ho) [Hnd Hbs] Hn1 Hn2. apply Forall_cons in Hbs as [Hb Hbs].
  destruct (logged_homes (bno_of s i) (log s)) as [Hh Hiff];
    [done|rewrite Hlen; unfold LOGSIZE, MAXOPBLOCKS in *; lia|].
  cbn [fmap list_fmap] in Hnd. rewrite cons_middle, app_assoc in Hnd.
  assert (Hnot : bno_of s i ∉ homes (log s)).
  { apply NoDup_app in Hnd as (Hnd & _). apply NoDup_app in Hnd as (_ & Hd & _). intros Hin.
    apply (Hd _ Hin), list_elem_of_here. }
  eexists. split; [apply (log_write_eq p s i (log s)); done|]. fold (bno_of s i).
  pose proof (proj2 Hiff Hnot) as E. apply Z.eqb_eq in E. rewrite E. set (s' := set_log _ _).
  assert (Eb : forall j, bno_of s' j = bno_of s j).
  { intros j. unfold bno_of, s'. cbn [bufs set_log set_bufs]. destruct (decide (j = i)) as [->|Hne].
    - destruct (bufs s !! i) as [bf|] eqn:Ei.
      + rewrite (alter_as_insert _ _ _ _ Ei), list_lookup_total_insert_eq by (by eapply lookup_lt_Some).
        by rewrite (list_lookup_total_correct _ _ _ Ei).
      + rewrite !list_lookup_total_alt, list_lookup_alter_eq, Ei. done.
    - rewrite !list_lookup_total_alt, list_lookup_alter_ne; done. }
  assert (El : log s' = logged (bno_of s i) (log s)) by done.
  split; [|split; [|]].
  - split; [by apply (idle_blind (fun s0 => set_log _ (set_bufs _ s0)))|]. rewrite El.
    unfold logged. cbn [lh_n set_lh_block]. rewrite E. cbn [lh_n set_lh_n lh_block set_lh_block lg_outstanding].
    rewrite length_insert. repeat split; (done || lia).
  - split.
    + rewrite El, Hh. unfold add_home. rewrite decide_False by done.
      replace (bno_of s' <$> bl) with (bno_of s <$> bl); [done|]. apply list_fmap_ext. intros; symmetry; apply Eb.
    + eapply Forall_impl; [exact Hbs|]. intros j. by rewrite Eb.
  - rewrite El. unfold logged. cbn [lh_n set_lh_block]. rewrite E. done.
Qed.

(** As many writes as the log has blocks, less one for the header. *)
Lemma log_write_fill bl : forall s extra,
  log_room s -> new_blocks s (bl ++ extra) ->
  lh_n (log s) + Z.of_nat (length bl) <= LOGSIZE ->
  lh_n (log s) + Z.of_nat (length bl) <= lg_size (log s) - 1 ->
  exists s', for_each bl log_write s = Ret tt s' /\ log_room s' /\ new_blocks s' extra /\
    lh_n (log s') = lh_n (log s) + Z.of_nat (length bl) /\ lg_size (log s') = lg_size (log s).
Proof.
  clear Hfuel. induction bl as [|i bl IH]; intros s extra Hr Hnew H1 H2.
  - exists s. split; [done|]. split; [done|]. split; [done|]. simpl. split; [lia|done].
  - cbn [length] in H1, H2. cbn [app] in Hnew.
    destruct (log_write_new s i (bl ++ extra) Hr Hnew) as (s1 & E1 & Hr1 & Hnew1 & Hn1 & Hs1); [lia|lia|].
    destruct (IH s1 extra Hr1 Hnew1) as (s2 & E2 & Hr2 & Hnew2 & Hn2 & Hs2); [lia|lia|].
    exists s2. cbn [for_each]. rewrite (bind_Ret _ _ _ _ _ E1). split; [done|]. split; [done|]. split; [done|].
    cbn [length]. split; [lia|congruence].
Qed.
End room.

(** C38. On a log of LOGSIZE blocks, which is what mkfs makes, one of them the
    header: begin_op admits three operations to an empty log at the same time, and when
    they write MAXOPBLOCKS different blocks each, as each may, the last of their
    log_writes panics: begin_op counts LOGSIZE blocks where the log has one less. *)
Theorem begin_op_admits_too_much `{Fuel} `{Disk} p s bl i :
  (0 < fuel)%nat -> idle s p -> lg_size (log s) = LOGSIZE -> lg_committing (log s) = false ->
  lg_outstanding (log s) = 0 -> lh_n (log s) = 0 ->
  length (lh_block (log s)) = Z.to_nat LOGSIZE -> Z.of_nat (length (bl ++ [i])) = 3 * MAXOPBLOCKS ->
  new_blocks s (bl ++ [i]) ->
  exists s1 s2, (begin_op;; begin_op;; begin_op) s = Ret tt s1 /\ lg_outstanding (log s1) = 3 /\
    for_each bl log_write s1 = Ret tt s2 /\ log_write i s2 = Stop (Panicked "too big a transaction").
Proof.
  intros Hf Hid Hsz Hc Ho Hn Hlen Hbl Hnew. rewrite length_app in Hbl. cbn [length] in Hbl. unfold LOGSIZE, MAXOPBLOCKS in *.
  assert (Hb : forall s', idle s' p -> lg_committing (log s') = false -> lh_n (log s') = 0 -> lg_outstanding (log s') <= 2 ->
    begin_op s' = Ret tt (set_log (set_lg_outstanding (lg_outstanding (log s') + 1) (log s')) s')).
  { intros s' Hi' Hc' Hn' Hk. apply (begin_op_eq Hf s' (cm_irq _ _ (id_calm _ _ Hi')) (cm_settled _ _ (id_calm _ _ Hi')) (idle_lk _ _ _ Hi') Hc').
    rewrite Hn'. unfold LOGSIZE, MAXOPBLOCKS. lia. }
  assert (Hs : forall k, idle (set_log (set_lg_outstanding k (log s)) s) p) by (intros k; by apply (idle_blind (set_log _))).
  exists (set_log (set_lg_outstanding 3 (log s)) s). set (s1 := set_log _ s).
  assert (Eb : (begin_op;; begin_op;; begin_op) s = Ret tt s1).
  { pose proof (Hb s Hid Hc Hn ltac:(lia)) as E1. rewrite Ho in E1. rewrite (bind_Ret _ _ _ _ _ E1).
    rewrite (bind_Ret _ _ _ _ _ (Hb (set_log (set_lg_outstanding 1 (log s)) s) (Hs 1) Hc Hn ltac:(done))). by apply (Hb _ (Hs 2)). }
  destruct (log_write_fill p bl s1 [i]) as (s2 & E2 & Hr2 & _ & Hn2 & Hs2).
  - split; [by apply (idle_blind (set_log _))|]. simpl. rewrite Hn. done.
  - exact Hnew.
  - change (lh_n (log s1)) with (lh_n (log s)). unfold LOGSIZE, MAXOPBLOCKS. lia.
  - change (lh_n (log s1)) with (lh_n (log s)). change (lg_size (log s1)) with (lg_size (log s)). rewrite Hsz. lia.
  - change (lh_n (log s1)) with (lh_n (log s)) in Hn2. change (lg_size (log s1)) with (lg_size (log s)) in Hs2.
    exists s2. split; [done|]. split; [done|]. split; [done|].
    destruct Hr2 as [Hid2 _]. apply log_write_too_big; [by eapply idle_lk|]. right. lia.
Qed.

(** The two errors of log_write: a full log and a call outside a transaction
    stop the kernel before the log or the cache changes. *)
Theorem log_write_errors `{Fuel} `{Disk} s i :
  locks s !! LLog = None ->
  (LOGSIZE <= lh_n (log s) \/ lg_size (log s) - 1 <= lh_n (log s) ->
    log_write i s = Stop (Panicked "too big a transaction")) /\
  (lh_n (log s) < LOGSIZE -> lh_n (log s) < lg_size (log s) - 1 -> lg_outstanding (log s) < 1 ->
    log_write i s = Stop (Panicked "log_write outside of trans")).
Proof. intros Hl. split; intros; [by apply log_write_too_big|by apply log_write_outside]. Qed.

(** ** Concrete logs *)

#[local] Existing Instances ex_fuel sync_disk sync_disk_laws.

Definition ex_open_log : logst := mkLog 2 LOGSIZE 1 false 1 0 (replicate (Z.to_nat LOGSIZE) 0).

Lemma log_write_absorbs_witness :
  exists s', log_write ex_cache_buf (set_log ex_open_log ex_cache_read) = Ret tt s' /\ homes (log s') = [46].
Proof.
  destruct ex_cache_read_view as (Hid & Hi & Hd & Hv).
  destruct (log_write_absorbs 1 3 (set_log ex_open_log ex_cache_read) (rev (seq 0 NBUF)) (read_block ∅) (<[46 := 1]> ∅)
    ({[46]} ∪ ∅) ex_cache_buf 46 1) as (s' & E & Hh & _).
  - apply idle_set_log. exact Hid.
  - apply bview_set_log. exact Hv.
  - apply is_buf_set_log. exact Hi.
  - reflexivity.
  - reflexivity.
  - split; [discriminate|reflexivity].
  - rewrite log_set_log. split; [discriminate|reflexivity].
  - rewrite log_set_log. reflexivity.
  - rewrite log_set_log. reflexivity.
  - rewrite log_set_log. discriminate.
  - exists s'. split; [exact E|]. rewrite Hh, log_set_log. reflexivity.
Defined.

Lemma log_write_errors_witness : log_write 0 ex_cache = Stop (Panicked "too big a transaction").
Proof.
  destruct (log_write_errors ex_cache 0 eq_refl) as [He _]. apply He. right. discriminate.
Defined.

(** A log that was just set up, and a cache of NBUF different blocks. *)
Definition ex_empty_log : logst := mkLog 2 LOGSIZE 0 false 1 0 (replicate (Z.to_nat LOGSIZE) 0).
Definition ex_busy_bufs : list buf := imap (fun i => set_b_blockno (200 + Z.of_nat i)) binit_bufs.
Definition ex_busy : kernel := set_log ex_empty_log (set_bufs ex_busy_bufs ex_cache).

Lemma ex_busy_new : new_blocks ex_busy (seq 0 29 ++ [29%nat]).
Proof.
  split.
  - apply (bool_decide_unpack _). vm_compute. exact I.
  - apply (bool_decide_unpack _). vm_compute. exact I.
Qed.

Lemma begin_op_admits_too_much_witness : exists s1 s2, (begin_op;; begin_op;; begin_op) ex_busy = Ret tt s1 /\ lg_outstanding (log s1) = 3 /\
  for_each (seq 0 29) log_write s1 = Ret tt s2 /\ log_write 29 s2 = Stop (Panicked "too big a transaction").
Proof.
  apply (begin_op_admits_too_much 3 ex_busy (seq 0 29) 29); try reflexivity.
  - apply Nat.ltb_lt. reflexivity.
  - apply idle_log_bufs, ex_cache_idle.
  - apply ex_busy_new.
Defined.
