(* ===== verification/Fs.v ===== *)
(** kernel/fs.c: the block allocator, inodes, file contents, directories and
    path names. *)

From S2P Require Import Prelude Outcome Mem State Spinlock KString Kalloc Vm Proc Sleeplock Bytes Disk Bio Log Uart Printf.

(** ** Layout (kernel/fs.h) *)

Definition IBLOCK (i : Z) (sp : superblock) : Z := u32 (i / IPB + sb_inodestart sp).
Definition BBLOCK (b : Z) (sp : superblock) : Z := u32 (b / BPB + sb_bmapstart sp).

(** Offset of inode [inum] in its block, and of the fields of struct dinode. *)
Definition dinode_off (inum : Z) : Z := (inum mod IPB) * DINODE_SIZE.
Definition di_type : Z := 0.
Definition di_major : Z := 2.
Definition di_minor : Z := 4.
Definition di_nlink : Z := 6.
Definition di_size : Z := 8.
Definition di_addrs : Z := 12.

Definition decode_superblock (d : list Z) : superblock :=
  mkSuperblock (get32 d 0) (get32 d 4) (get32 d 8) (get32 d 12)
    (get32 d 16) (get32 d 20) (get32 d 24) (get32 d 28).

(** The fields of an in-memory inode that live on disk, to and from a dinode
    at offset [o] of a block. *)
Definition read_dinode (d : list Z) (o : Z) (ip : inode) : inode :=
  set_i_addrs ((fun k => get32 d (o + di_addrs + 4 * k)) <$> seqZ 0 (NDIRECT + 1))
    (set_i_size (get32 d (o + di_size))
      (set_i_nlink (i16 (get16 d (o + di_nlink)))
        (set_i_minor (i16 (get16 d (o + di_minor)))
          (set_i_major (i16 (get16 d (o + di_major)))
            (set_i_type (i16 (get16 d (o + di_type))) ip))))).

Definition write_dinode (d : list Z) (o : Z) (ip : inode) : list Z :=
  let d := put16 d (o + di_type) (i_type ip) in
  let d := put16 d (o + di_major) (i_major ip) in
  let d := put16 d (o + di_minor) (i_minor ip) in
  let d := put16 d (o + di_nlink) (i_nlink ip) in
  let d := put32 d (o + di_size) (i_size ip) in
  upd d (Z.to_nat (o + di_addrs)) (concat (le_enc 4 <$> i_addrs ip)).

(** Bit [bi] of a free-map block. *)
Definition bit_mask (bi : Z) : Z := Z.shiftl 1 (bi mod 8).
Definition bit_test (d : list Z) (bi : Z) : bool :=
  negb (Z.land (d !!! Z.to_nat (bi / 8)) (bit_mask bi) =? 0).
Definition bit_set (d : list Z) (bi : Z) : list Z :=
  alter (fun x => u8 (Z.lor x (bit_mask bi))) (Z.to_nat (bi / 8)) d.
Definition bit_clear (d : list Z) (bi : Z) : list Z :=
  alter (fun x => u8 (Z.land x (Z.lnot (bit_mask bi)))) (Z.to_nat (bi / 8)) d.

(** The inner loop of balloc: the first clear bit from [bi] on. *)
Fixpoint balloc_scan (n : nat) (d : list Z) (b bi size : Z) : option Z :=
  match n with
  | O => None
  | S n' =>
      if negb (b + bi <? size) then None
      else if negb (bit_test d bi) then Some bi
      else balloc_scan n' d b (bi + 1) size
  end.

Section with_disk.
Context `{Fuel} `{Disk}.

Definition readsb (dev : Z) : K unit :=
  bp <- bread dev 1;;
  bf <- getb bp;;
  modify (set_sb (decode_superblock (b_data bf)));;
  brelse bp.

Definition fsinit (dev : Z) : K unit :=
  readsb dev;;
  sp <- gets sb;;
  if negb (sb_magic sp =? FSMAGIC) then panic "invalid file system" else
  initlog dev sp.

(** ** Blocks *)

Definition bzero (dev bno : Z) : K unit :=
  bp <- bread dev (u32 bno);;
  modbd bp (fun _ => zero_block);;
  log_write bp;;
  brelse bp.

(** One free-map block of balloc's outer loop. *)
Definition balloc_one (dev b : Z) : K (option Z) :=
  sp <- gets sb;;
  bp <- bread dev (BBLOCK b sp);;
  bf <- getb bp;;
  match balloc_scan (Z.to_nat BPB) (b_data bf) b 0 (sb_size sp) with
  | Some bi =>
      modbd bp (fun d => bit_set d bi);;
      log_write bp;;
      brelse bp;;
      bzero dev (b + bi);;
      ret (Some (b + bi))
  | None => brelse bp;; ret None
  end.

Definition balloc (dev : Z) : K Z :=
  sp <- gets sb;;
  r <- scan ((fun k => k * BPB) <$> seqZ 0 ((sb_size sp + BPB - 1) / BPB)) (balloc_one dev);;
  match r with
  | Some b => ret b
  | None => printf (cstr_nl "balloc: out of blocks") [];; ret 0
  end.

Definition bfree (dev b : Z) : K unit :=
  sp <- gets sb;;
  bp <- bread dev (BBLOCK b sp);;
  let bi := b mod BPB in
  bf <- getb bp;;
  if negb (bit_test (b_data bf) bi) then panic "freeing free block" else
  modbd bp (fun d => bit_clear d bi);;
  log_write bp;;
  brelse bp.

(** ** Inodes *)

Definition iinit : K unit :=
  initlock LItable;;
  for_each (seq 0 NINODE) (fun i => initsleeplock (SLinode i)).

(** The scan of iget: an entry for the inode, or the first empty slot. *)
Fixpoint iget_scan (slots : list nat) (dev inum : Z) (empty : option nat) :
    K (option nat * option nat) :=
  match slots with
  | [] => ret (None, empty)
  | i :: slots' =>
      ip <- geti i;;
      if (0 <? i_ref ip) && (i_dev ip =? dev) && (i_inum ip =? inum) then
        modi i (fun ip => set_i_ref (i_ref ip + 1) ip);;
        ret (Some i, empty)
      else
        iget_scan slots' dev inum
          (match empty with None => if i_ref ip =? 0 then Some i else None | Some _ => empty end)
  end.

Definition iget (dev inum : Z) : K nat :=
  acquire LItable;;
  '(found, empty) <- iget_scan (seq 0 NINODE) dev inum None;;
  match found with
  | Some i => release LItable;; ret i
  | None =>
      match empty with
      | None => panic "iget: no inodes"
      | Some i =>
          modi i (set_i_dev dev);;
          modi i (set_i_inum inum);;
          modi i (set_i_ref 1);;
          modi i (set_i_valid false);;
          release LItable;;
          ret i
      end
  end.

Definition ialloc_one (dev type inum : Z) : K (option nat) :=
  sp <- gets sb;;
  bp <- bread dev (IBLOCK inum sp);;
  bf <- getb bp;;
  let o := dinode_off inum in
  if get16 (b_data bf) (o + di_type) =? 0 then
    modbd bp (fun d => upd d (Z.to_nat o) (replicate (Z.to_nat DINODE_SIZE) 0));;
    modbd bp (fun d => put16 d (o + di_type) type);;
    log_write bp;;
    brelse bp;;
    i <- iget dev inum;;
    ret (Some i)
  else
    brelse bp;;
    ret None.

Definition ialloc (dev type : Z) : K (option nat) :=
  sp <- gets sb;;
  r <- scan (seqZ 1 (sb_ninodes sp - 1)) (ialloc_one dev type);;
  match r with
  | Some i => ret (Some i)
  | None => printf (cstr_nl "ialloc: no inodes") [];; ret None
  end.

Definition iupdate (i : nat) : K unit :=
  ip <- geti i;;
  sp <- gets sb;;
  bp <- bread (i_dev ip) (IBLOCK (i_inum ip) sp);;
  ip <- geti i;;
  modbd bp (fun d => write_dinode d (dinode_off (i_inum ip)) ip);;
  log_write bp;;
  brelse bp.

Definition idup (i : nat) : K nat :=
  acquire LItable;;
  modi i (fun ip => set_i_ref (i_ref ip + 1) ip);;
  release LItable;;
  ret i.

Definition ilock (i : nat) : K unit :=
  ip <- geti i;;
  if i_ref ip <? 1 then panic "ilock" else
  acquiresleep (SLinode i);;
  ip <- geti i;;
  if i_valid ip then ret tt else
  sp <- gets sb;;
  bp <- bread (i_dev ip) (IBLOCK (i_inum ip) sp);;
  bf <- getb bp;;
  modi i (read_dinode (b_data bf) (dinode_off (i_inum ip)));;
  brelse bp;;
  modi i (set_i_valid true);;
  ip <- geti i;;
  if i_type ip =? 0 then panic "ilock: no type" else ret tt.

Definition iunlock (i : nat) : K unit :=
  h <- holdingsleep (SLinode i);;
  ip <- geti i;;
  if negb h || (i_ref ip <? 1) then panic "iunlock" else
  releasesleep (SLinode i).

(** Free the blocks listed in addrs[0..NDIRECT). *)
Definition itrunc_direct (i : nat) (k : nat) : K unit :=
  ip <- geti i;;
  let a := i_addrs ip !!! k in
  when (truthy a)
    (bfree (i_dev ip) a;;
     modi i (fun ip => set_i_addrs (<[k := 0]> (i_addrs ip)) ip)).

Definition itrunc_indirect (i : nat) (bp : nat) (j : Z) : K unit :=
  bf <- getb bp;;
  ip <- geti i;;
  let a := get32 (b_data bf) (4 * j) in
  when (truthy a) (bfree (i_dev ip) a).

Definition itrunc (i : nat) : K unit :=
  for_each (seq 0 (Z.to_nat NDIRECT)) (itrunc_direct i);;
  ip <- geti i;;
  let ind := i_addrs ip !!! Z.to_nat NDIRECT in
  when (truthy ind)
    (bp <- bread (i_dev ip) ind;;
     for_each (seqZ 0 NINDIRECT) (itrunc_indirect i bp);;
     brelse bp;;
     bfree (i_dev ip) ind;;
     modi i (fun ip => set_i_addrs (<[Z.to_nat NDIRECT := 0]> (i_addrs ip)) ip));;
  modi i (set_i_size 0);;
  iupdate i.

Definition iput (i : nat) : K unit :=
  acquire LItable;;
  ip <- geti i;;
  when ((i_ref ip =? 1) && i_valid ip && (i_nlink ip =? 0))
    (acquiresleep (SLinode i);;
     release LItable;;
     itrunc i;;
     modi i (set_i_type 0);;
     iupdate i;;
     modi i (set_i_valid false);;
     releasesleep (SLinode i);;
     acquire LItable);;
  modi i (fun ip => set_i_ref (i_ref ip - 1) ip);;
  release LItable.

Definition iunlockput (i : nat) : K unit :=
  iunlock i;;
  iput i.
End with_disk.
