(* ===== verification/FsData.v ===== *)
(** kernel/fs.c, file contents and names: bmap, readi, writei, directories and
    path lookup. *)

From S2P Require Import Prelude Outcome Mem State Spinlock KString Kalloc Vm Proc Sleeplock Bytes Disk Bio Log Uart Printf Fs.

(** kernel/stat.h: struct stat, 24 bytes with its padding. *)
Record stat : Type := mkStat { st_dev : Z; st_ino : Z; st_type : Z; st_nlink : Z; st_size : Z }.

Definition stat_bytes (st : stat) : list Z :=
  le_enc 4 (st_dev st) ++ le_enc 4 (st_ino st) ++ le_enc 2 (st_type st) ++ le_enc 2 (st_nlink st) ++
  replicate 4 0 ++ le_enc 8 (st_size st).

(** kernel/fs.h: struct dirent *)
Definition de_inum (de : list Z) : Z := get16 de 0.
Definition de_name (de : list Z) : list Z := drop 2 de.

Definition namecmp (a b : list Z) : Z := strncmp (list_view a) (list_view b) DIRSIZ.

(** ** Path elements *)

Definition slash : Z := 47.

Fixpoint skip_slashes (path : list Z) : list Z :=
  match path with
  | c :: path' => if c =? slash then skip_slashes path' else path
  | [] => []
  end.

Fixpoint elem_len (path : list Z) : nat :=
  match path with
  | c :: path' => if (c =? slash) || (c =? 0) then O else S (elem_len path')
  | [] => O
  end.

(** [name] is the caller's buffer of DIRSIZ bytes, of which an element shorter
    than that overwrites only the beginning.  The end of the list is the NUL. *)
Definition skipelem (path name : list Z) : option (list Z * list Z) :=
  let path := skip_slashes path in
  if default 0 (head path) =? 0 then None else
  let len := elem_len path in
  let name' :=
    if (DIRSIZ <=? len)%nat then upd name 0 (take DIRSIZ path)
    else upd name 0 (take len path ++ [0]) in
  Some (skip_slashes (drop len path), name').

Section with_disk.
Context `{Fuel} `{Disk}.

Definition bmap (i : nat) (bn : Z) : K Z :=
  ip <- geti i;;
  if bn <? NDIRECT then
    let addr := i_addrs ip !!! Z.to_nat bn in
    if addr =? 0 then
      addr <- balloc (i_dev ip);;
      if addr =? 0 then ret 0 else
      modi i (fun ip => set_i_addrs (<[Z.to_nat bn := addr]> (i_addrs ip)) ip);;
      ret addr
    else ret addr
  else
    let bn := bn - NDIRECT in
    if bn <? NINDIRECT then
      (* Load indirect block, allocating if necessary. *)
      let addr := i_addrs ip !!! Z.to_nat NDIRECT in
      addr <- (if addr =? 0 then
                 addr <- balloc (i_dev ip);;
                 when (truthy addr)
                   (modi i (fun ip => set_i_addrs (<[Z.to_nat NDIRECT := addr]> (i_addrs ip)) ip));;
                 ret addr
               else ret addr);;
      if addr =? 0 then ret 0 else
      bp <- bread (i_dev ip) addr;;
      bf <- getb bp;;
      let addr := get32 (b_data bf) (4 * bn) in
      addr <- (if addr =? 0 then
                 addr <- balloc (i_dev ip);;
                 when (truthy addr)
                   (modbd bp (fun d => put32 d (4 * bn) addr);; log_write bp);;
                 ret addr
               else ret addr);;
      brelse bp;;
      ret addr
    else panic "bmap: out of range".

Definition stati (i : nat) : K stat :=
  ip <- geti i;;
  ret (mkStat (i_dev ip) (i_inum ip) (i_type ip) (i_nlink ip) (i_size ip)).

(** One block of readi: [out] collects what a local destination receives. *)
Definition readi_body (i : nat) (n : Z) (st : Z * Z * dest * list Z) :
    K (Z * Z * dest * list Z + Z * list Z) :=
  let '(tot, off, dst, out) := st in
  if negb (tot <? n) then ret (inr (tot, out)) else
  addr <- bmap i (off / BSIZE);;
  if addr =? 0 then ret (inr (tot, out)) else
  ip <- geti i;;
  bp <- bread (i_dev ip) addr;;
  let m := Z.min (n - tot) (BSIZE - off mod BSIZE) in
  bf <- getb bp;;
  let bs := sub (b_data bf) (Z.to_nat (off mod BSIZE)) (Z.to_nat m) in
  r <- either_copyout dst bs;;
  if r =? -1 then brelse bp;; ret (inr (-1, out)) else
  brelse bp;;
  ret (inl (tot + m, u32 (off + m), dest_add dst m, out ++ bs)).

(** n bytes touch at most n/BSIZE + 2 blocks. *)
Definition readi (i : nat) (dst : dest) (off n : Z) : K (Z * list Z) :=
  ip <- geti i;;
  if (i_size ip <? off) || (u32 (off + n) <? off) then ret (0, []) else
  let n := if i_size ip <? u32 (off + n) then i_size ip - off else n in
  iter (3 + Z.to_nat (n / BSIZE)) (readi_body i n) (0, off, dst, []).

Definition writei_body (i : nat) (n : Z) (st : Z * Z * source) : K (Z * Z * source + Z * Z) :=
  let '(tot, off, src) := st in
  if negb (tot <? n) then ret (inr (tot, off)) else
  addr <- bmap i (off / BSIZE);;
  if addr =? 0 then ret (inr (tot, off)) else
  ip <- geti i;;
  bp <- bread (i_dev ip) addr;;
  let m := Z.min (n - tot) (BSIZE - off mod BSIZE) in
  '(bs, r) <- either_copyin src m;;
  modbd bp (fun d => upd d (Z.to_nat (off mod BSIZE)) bs);;
  if r =? -1 then brelse bp;; ret (inr (tot, off)) else
  log_write bp;;
  brelse bp;;
  ret (inl (tot + m, u32 (off + m), source_add src m)).

Definition writei (i : nat) (src : source) (off n : Z) : K Z :=
  ip <- geti i;;
  if (i_size ip <? off) || (u32 (off + n) <? off) then ret (-1) else
  if MAXFILE * BSIZE <? u32 (off + n) then ret (-1) else
  '(tot, off) <- iter (3 + Z.to_nat (n / BSIZE)) (writei_body i n) (0, off, src);;
  modi i (fun ip => if i_size ip <? off then set_i_size off ip else ip);;
  (* write the i-node back to disk even if the size didn't change *)
  iupdate i;;
  ret tot.

(** ** Directories *)

Definition dirlookup_body (i : nat) (name : list Z) (off : Z) : K (Z + option (nat * Z)) :=
  dp <- geti i;;
  if negb (off <? i_size dp) then ret (inr None) else
  '(r, de) <- readi i ToLocal off DIRENT_SIZE;;
  if negb (r =? DIRENT_SIZE) then panic "dirlookup read" else
  if (negb (de_inum de =? 0)) && (namecmp name (de_name de) =? 0) then
    ip <- iget (i_dev dp) (de_inum de);;
    ret (inr (Some (ip, off)))
  else ret (inl (u32 (off + DIRENT_SIZE))).

(** The entry's inode and its offset, *poff. *)
Definition dirlookup (i : nat) (name : list Z) : K (option (nat * Z)) :=
  dp <- geti i;;
  if negb (i_type dp =? T_DIR) then panic "dirlookup not DIR" else
  iter (2 + Z.to_nat (i_size dp / DIRENT_SIZE)) (dirlookup_body i name) 0.

(** Look for an empty dirent: its offset, or the end of the directory. *)
Definition dirlink_body (i : nat) (off : Z) : K (Z + Z) :=
  dp <- geti i;;
  if negb (off <? i_size dp) then ret (inr off) else
  '(r, de) <- readi i ToLocal off DIRENT_SIZE;;
  if negb (r =? DIRENT_SIZE) then panic "dirlink read" else
  if de_inum de =? 0 then ret (inr off) else ret (inl (i32 (off + DIRENT_SIZE))).

Definition make_dirent (name : list Z) (inum : Z) : list Z :=
  le_enc 2 inum ++ in_buf (replicate DIRSIZ 0) (fun m => strncpy m 0 (list_view name) (Z.of_nat DIRSIZ)).

Definition dirlink (i : nat) (name : list Z) (inum : Z) : K Z :=
  r <- dirlookup i name;;
  match r with
  | Some (ip, _) => iput ip;; ret (-1)
  | None =>
      dp <- geti i;;
      off <- iter (2 + Z.to_nat (i_size dp / DIRENT_SIZE)) (dirlink_body i) 0;;
      w <- writei i (FromKernel (make_dirent name inum)) (u32 off) DIRENT_SIZE;;
      if negb (w =? DIRENT_SIZE) then ret (-1) else ret 0
  end.

(** ** Paths *)

(** One path element of namex: the inode to go on from, or the result with the
    name buffer. *)
Definition namex_body (nameiparent : bool) (st : nat * list Z * list Z) :
    K (nat * list Z * list Z + option nat * list Z) :=
  let '(ip, path, name) := st in
  match skipelem path name with
  | None => if nameiparent then iput ip;; ret (inr (None, name)) else ret (inr (Some ip, name))
  | Some (path, name) =>
      ilock ip;;
      ino <- geti ip;;
      if negb (i_type ino =? T_DIR) then iunlockput ip;; ret (inr (None, name)) else
      if nameiparent && (default 0 (head path) =? 0) then
        (* Stop one level early. *)
        iunlock ip;; ret (inr (Some ip, name))
      else
        next <- dirlookup ip name;;
        match next with
        | None => iunlockput ip;; ret (inr (None, name))
        | Some (nx, _) => iunlockput ip;; ret (inl (nx, path, name))
        end
  end.

(** Every element takes at least one byte of the path. *)
Definition namex (path : list Z) (nameiparent : bool) (name : list Z) : K (option nat * list Z) :=
  ip <- (if default 0 (head path) =? slash then iget ROOTDEV ROOTINO
         else p <- curproc;; pr <- getp p;; c <- deref (p_cwd pr);; idup c);;
  iter (S (length path)) (namex_body nameiparent) (ip, path, name).

Definition namei (path : list Z) : K (option nat) :=
  '(ip, _) <- namex path false (replicate DIRSIZ 0);;
  ret ip.

Definition nameiparent (path : list Z) (name : list Z) : K (option nat * list Z) := namex path true name.
End with_disk.
