(* ===== verification/FsSpec.v ===== *)
(** The contents of a file: bmap finds the block of a file offset through the
    inode and its indirect block, and readi reads the file's bytes. *)

From S2P Require Import Prelude Outcome Mem State Spinlock KString Kalloc Vm Proc ProcSpec Sleeplock Calm Bytes Disk Bio BioSpec BioView Log Uart Printf Fs FsData.

(** The rounds left: the blocks that [n] bytes from [off] touch. *)
Definition rounds (off n : Z) : Z := (n + off mod BSIZE + (BSIZE - 1)) / BSIZE.

Lemma rounds_pos off n : 0 < n -> 1 <= rounds off n.
Proof.
  intros Hn. pose proof (Z.mod_pos_bound off BSIZE ltac:(unfold BSIZE; lia)). unfold rounds.
  apply Z.div_le_lower_bound; unfold BSIZE in *; lia.
Qed.

Lemma rounds_advance off n : BSIZE - off mod BSIZE < n ->
  rounds (off + (BSIZE - off mod BSIZE)) (n - (BSIZE - off mod BSIZE)) = rounds off n - 1.
Proof.
  intros Hn. pose proof (Z.div_mod off BSIZE ltac:(unfold BSIZE; lia)). unfold rounds.
  replace (off + (BSIZE - off mod BSIZE)) with ((off / BSIZE + 1) * BSIZE) by lia. rewrite Z_mod_mult.
  replace (n + off mod BSIZE + (BSIZE - 1)) with (n - (BSIZE - off mod BSIZE) + 0 + (BSIZE - 1) + 1 * BSIZE) by lia.
  rewrite Z_div_plus; unfold BSIZE; lia.
Qed.

Lemma rounds_fuel off n : 0 <= n -> rounds off n < Z.of_nat (3 + Z.to_nat (n / BSIZE)).
Proof.
  intros Hn. pose proof (Z.mod_pos_bound off BSIZE ltac:(unfold BSIZE; lia)). unfold rounds.
  assert (0 <= n / BSIZE) by (apply Z.div_pos; unfold BSIZE; lia).
  assert (n + off mod BSIZE + (BSIZE - 1) <= n + 2 * BSIZE) by lia.
  assert ((n + off mod BSIZE + (BSIZE - 1)) / BSIZE <= (n + 2 * BSIZE) / BSIZE) by (apply Z.div_le_mono; unfold BSIZE in *; lia).
  rewrite Z_div_plus in * by (unfold BSIZE; lia). lia.
Qed.

(** The view of the cache does not depend on a field that the cache and the locks
    do not use. *)
Ltac cview_field f :=
  intros [Hid [o Hv]]; split; [by apply (idle_blind f)|]; exists o; destruct Hv as [[] ? ? ? ? ?]; by split.

Section read.
Context `{Fuel} `{DiskLaws} (D : Z) (p : nat) (Hfuel : (0 < fuel)%nat).

(** ** Reading one block *)

Lemma setcnt_back s V held lck b : cview D p s V held lck ->
  setcnt b (cnt (<[b := cnt held b + 1]> held) b - 1) (<[b := cnt held b + 1]> held) = held.
Proof.
  intros [_ [o Hv]]. unfold cnt at 1. rewrite lookup_insert_eq. cbn [default from_option id].
  replace (cnt held b + 1 - 1) with (cnt held b) by lia. unfold setcnt, cnt. destruct (held !! b) as [n|] eqn:E; cbn [default from_option id].
  - apply (bv_held _ _ _ _ _ _ _ Hv) in E as Hn. destruct Hn as [Hn _]. destruct (Z.eqb_spec n 0); [lia|].
    rewrite insert_insert_eq. by apply insert_id.
  - simpl. by apply delete_insert_id.
Qed.

Lemma cview_set_mem s V held lck m : cview D p s V held lck -> cview D p (set_mem m s) V held lck.
Proof. cview_field (set_mem m). Qed.

Lemma cview_set_sb s V held lck x : cview D p s V held lck -> cview D p (set_sb x s) V held lck.
Proof. cview_field (set_sb x). Qed.

Lemma cview_set_inodes s V held lck x : cview D p s V held lck -> cview D p (set_inodes x s) V held lck.
Proof. cview_field (set_inodes x). Qed.

(** Nothing but the buffer cache changed. *)
Definition bufs_only (s s' : kernel) : Prop := s' = set_bufs (bufs s') s.

Lemma bufs_only_refl s : bufs_only s s.
Proof. unfold bufs_only. by destruct s. Qed.

Lemma bufs_only_trans s1 s2 s3 : bufs_only s1 s2 -> bufs_only s2 s3 -> bufs_only s1 s3.
Proof. unfold bufs_only. intros E1 E2. rewrite E1 in E2. exact E2. Qed.

Lemma cache_bufs_only s s' : cache_only s s' -> disk s' = disk s -> disk_writes s' = disk_writes s -> bufs_only s s'.
Proof. unfold cache_only, bufs_only. intros E Hd Hw. rewrite Hd, Hw in E. rewrite E. by destruct s. Qed.

Lemma bufs_only_inodes s s' : bufs_only s s' -> inodes s' = inodes s /\ mem s' = mem s /\ sb s' = sb s.
Proof. by intros ->. Qed.

(** What a block read needs of the cache: the block is not locked by this
    process and there is a buffer for it. *)
Definition readable (held : gmap Z Z) (lck : gset Z) (b : Z) : Prop :=
  b ∉ lck /\ (size held < NBUF)%nat /\ cnt held b < 2 ^ 32 - 2.

(** bread, and later brelse, of a block that is not changed in between; memory
    and the inode table may be. *)
Lemma block_cycle_with s V held lck b : cview D p s V held lck -> readable held lck b ->
  exists i s1, bread D b s = Ret i s1 /\ bufs_only s s1 /\ is_buf D s1 i b /\ b_data (bufs s1 !!! i) = V b /\ cview D p s1 V (<[b := cnt held b + 1]> held) ({[b]} ∪ lck) /\
    forall m l, exists s2, brelse i (set_inodes l (set_mem m s1)) = Ret tt s2 /\ bufs_only (set_inodes l (set_mem m s)) s2 /\ cview D p s2 V held lck.
Proof.
  intros Hv (Hb & Hsz & Hc). destruct (cview_bread D p s V held lck b Hv Hfuel Hb ltac:(by right) Hc)
    as (i & s1 & E & C & Hd & Hw & _ & Hi & Hv1). apply (fun C => cache_bufs_only _ _ C Hd Hw) in C.
  exists i, s1. split; [done|]. split; [done|]. split; [done|]. split; [by eapply cview_data|]. split; [done|]. intros m l.
  destruct (cview_brelse D p (set_inodes l (set_mem m s1)) V (<[b := cnt held b + 1]> held) ({[b]} ∪ lck) i b) as (s2 & E2 & C2 & Hd2 & Hw2 & _ & Hv2).
  - by apply cview_set_inodes, cview_set_mem.
  - done.
  - set_solver.
  - intros Hone. unfold cnt in Hone at 1. rewrite lookup_insert_eq in Hone. cbn [default from_option id] in Hone.
    change (disk (set_inodes l (set_mem m s1))) with (disk s1). rewrite Hd. eapply cview_clean; [exact Hv|].
    destruct (held !! b) as [n|] eqn:En; [|done]. destruct Hv as [_ [o Hv]]. apply (bv_held _ _ _ _ _ _ _ Hv) in En as Hn.
    unfold cnt in Hone. rewrite En in Hone. simpl in Hone. lia.
  - exists s2. split; [done|]. split.
    + apply (fun C => cache_bufs_only _ _ C Hd2 Hw2) in C2. unfold bufs_only in *. rewrite C2, C. done.
    + eapply cview_ext; [exact Hv2|done|by eapply setcnt_back|]. set_solver.
Qed.

Lemma block_cycle s V held lck b : cview D p s V held lck -> readable held lck b ->
  exists i s1, bread D b s = Ret i s1 /\ bufs_only s s1 /\ is_buf D s1 i b /\ b_data (bufs s1 !!! i) = V b /\ cview D p s1 V (<[b := cnt held b + 1]> held) ({[b]} ∪ lck) /\
    forall m, exists s2, brelse i (set_mem m s1) = Ret tt s2 /\ bufs_only (set_mem m s) s2 /\ cview D p s2 V held lck.
Proof.
  intros Hv Hr. destruct (block_cycle_with s V held lck b Hv Hr) as (i & s1 & E & C & Hb & Hd & Hv1 & Hrel).
  exists i, s1. do 5 (split; [done|]). intros m. destruct (Hrel m (inodes s1)) as (s2 & E2 & C2 & Hv2). exists s2.
  destruct (bufs_only_inodes _ _ C) as (Hi & _ & _). split; [|split; [|done]].
  - by rewrite <- E2.
  - unfold bufs_only in *. rewrite C2, Hi. by destruct s.
Qed.

(** ** The blocks of a file *)

(** The number of the block that holds block [k] of the file. *)
Definition addr_of (V : Z -> list Z) (ip : inode) (k : Z) : Z :=
  if k <? NDIRECT then i_addrs ip !!! Z.to_nat k
  else get32 (V (i_addrs ip !!! Z.to_nat NDIRECT)) (4 * (k - NDIRECT)).

(** Block [k] is allocated, and so is the indirect block if it is listed there;
    the blocks can be read. *)
Definition mapped (held : gmap Z Z) (lck : gset Z) (V : Z -> list Z) (ip : inode) (k : Z) : Prop :=
  0 <= k < MAXFILE /\ addr_of V ip k <> 0 /\ readable held lck (addr_of V ip k) /\
  (NDIRECT <= k -> i_addrs ip !!! Z.to_nat NDIRECT <> 0 /\ readable held lck (i_addrs ip !!! Z.to_nat NDIRECT)).

Lemma set_mem_id s : set_mem (mem s) s = s.
Proof. by destruct s. Qed.

Lemma bmap_mapped s V held lck i ip k : cview D p s V held lck -> inodes s !!! i = ip -> i_dev ip = D -> mapped held lck V ip k ->
  exists s', bmap i k s = Ret (addr_of V ip k) s' /\ bufs_only s s' /\ cview D p s' V held lck.
Proof.
  intros Hv Hi Hd ((Hk1 & Hk2) & Hne & _ & Hind). unfold bmap. rewrite (bind_Ret _ _ _ _ _ (eq_refl : geti i s = Ret (inodes s !!! i) s)), Hi.
  unfold addr_of in *. destruct (Z.ltb_spec k NDIRECT) as [Hlt|Hge].
  - destruct (Z.eqb_spec (i_addrs ip !!! Z.to_nat k) 0); [done|]. exists s. split; [done|]. by split; [apply bufs_only_refl|].
  - destruct (Hind Hge) as [Hi0 Hr]. destruct (Z.ltb_spec (k - NDIRECT) NINDIRECT); [|unfold MAXFILE in Hk2; lia].
    destruct (Z.eqb_spec (i_addrs ip !!! Z.to_nat NDIRECT) 0); [done|]. rewrite (bind_Ret _ _ s _ s eq_refl).
    destruct (Z.eqb_spec (i_addrs ip !!! Z.to_nat NDIRECT) 0); [done|]. rewrite Hd.
    destruct (block_cycle s V held lck _ Hv Hr) as (j & s1 & E & C & _ & Hdat & _ & Hrel). rewrite (bind_Ret _ _ _ _ _ E).
    rewrite (bind_Ret _ _ _ _ _ (eq_refl : getb j s1 = Ret (bufs s1 !!! j) s1)), Hdat.
    destruct (Z.eqb_spec (get32 (V (i_addrs ip !!! Z.to_nat NDIRECT)) (4 * (k - NDIRECT))) 0); [done|].
    rewrite (bind_Ret _ _ s1 _ s1 eq_refl). destruct (Hrel (mem s1)) as (s2 & E2 & C2 & Hv2). rewrite set_mem_id in E2.
    rewrite (bind_Ret _ _ _ _ _ E2). exists s2. split; [done|]. split; [|done].
    destruct (bufs_only_inodes _ _ C) as (_ & Hm & _). rewrite Hm, set_mem_id in C2. done.
Qed.

(** ** Reading *)

Definition file_byte (V : Z -> list Z) (ip : inode) (j : Z) : Z := V (addr_of V ip (j / BSIZE)) !!! Z.to_nat (j mod BSIZE).
Definition file_bytes (V : Z -> list Z) (ip : inode) (off n : Z) : list Z := file_byte V ip <$> seqZ off n.

Lemma file_bytes_block V ip off m : 0 <= off -> 0 <= m -> off mod BSIZE + m <= BSIZE ->
  length (V (addr_of V ip (off / BSIZE))) = Z.to_nat BSIZE ->
  sub (V (addr_of V ip (off / BSIZE))) (Z.to_nat (off mod BSIZE)) (Z.to_nat m) = file_bytes V ip off m.
Proof.
  intros Hoff Hm Hle Hlen. pose proof (Z.mod_pos_bound off BSIZE ltac:(unfold BSIZE; lia)) as Hmod.
  apply list_eq. intros j. unfold file_bytes. rewrite lookup_sub, list_lookup_fmap. case_decide as Hj.
  - rewrite lookup_seqZ_lt by lia. simpl. unfold file_byte.
    assert (Hd : (off + Z.of_nat j) / BSIZE = off / BSIZE /\ (off + Z.of_nat j) mod BSIZE = off mod BSIZE + Z.of_nat j).
    { pose proof (Z.div_mod off BSIZE ltac:(unfold BSIZE; lia)).
      assert (off + Z.of_nat j = BSIZE * (off / BSIZE) + (off mod BSIZE + Z.of_nat j)) as E by lia. split.
      - symmetry. apply (Z.div_unique_pos _ _ _ (off mod BSIZE + Z.of_nat j)); lia.
      - symmetry. apply (Z.mod_unique_pos _ _ (off / BSIZE)); lia. }
    destruct Hd as [-> ->]. rewrite list_lookup_total_alt. replace (Z.to_nat (off mod BSIZE + Z.of_nat j)) with (Z.to_nat (off mod BSIZE) + j)%nat by lia.
    destruct (lookup_lt_is_Some_2 (V (addr_of V ip (off / BSIZE))) (Z.to_nat (off mod BSIZE) + j)) as [x ->]; [lia|]. done.
  - rewrite lookup_seqZ_ge by lia. done.
Qed.

Lemma file_bytes_app V ip off m n : 0 <= m -> 0 <= n -> file_bytes V ip off (m + n) = file_bytes V ip off m ++ file_bytes V ip (off + m) n.
Proof. intros. unfold file_bytes. by rewrite seqZ_app, fmap_app. Qed.

Lemma file_bytes_length V ip off n : length (file_bytes V ip off n) = Z.to_nat n.
Proof. unfold file_bytes. by rewrite length_fmap, length_seqZ. Qed.

(** What a destination in the kernel does to memory. *)
Definition deliver (dst : dest) (bs : list Z) (m : gmap Z Z) : gmap Z Z :=
  match dst with ToKernel a => store_bytes m a bs | _ => m end.
Definition in_kernel (dst : dest) : bool := match dst with ToUser _ => false | _ => true end.

Lemma deliver_app dst l1 l2 m : deliver dst (l1 ++ l2) m = deliver (dest_add dst (Z.of_nat (length l1))) l2 (deliver dst l1 m).
Proof. destruct dst; simpl; [done| |done]. apply store_bytes_app. Qed.

Lemma in_kernel_add dst n : in_kernel (dest_add dst n) = in_kernel dst.
Proof. by destruct dst. Qed.

Lemma either_copyout_kernel s V held lck dst bs : cview D p s V held lck -> in_kernel dst = true ->
  either_copyout dst bs s = Ret 0 (set_mem (deliver dst bs (mem s)) s).
Proof.
  intros [Hid _] Hk. unfold either_copyout. rewrite (bind_Ret _ _ _ _ _ (myproc_eq s (cm_irq _ _ (id_calm _ _ Hid)))), (cm_settled _ _ (id_calm _ _ Hid)).
  destruct dst; [done|reflexivity|]. cbn [deliver]. by rewrite set_mem_id.
Qed.

(** The inode and the blocks of a file whose bytes from [off] to [off + n] are
    all there to be read. *)
Record file_at (held : gmap Z Z) (lck : gset Z) (V : Z -> list Z) (ip : inode) (off n : Z) : Prop := {
  fa_dev : i_dev ip = D;
  fa_off : 0 <= off;
  fa_max : off + n <= MAXFILE * BSIZE;
  fa_map : forall k, off / BSIZE <= k -> k * BSIZE < off + n -> mapped held lck V ip k;
  fa_len : forall b, length (V b) = Z.to_nat BSIZE
}.

Lemma file_at_advance held lck V ip off n m : file_at held lck V ip off n -> 0 <= m -> file_at held lck V ip (off + m) (n - m).
Proof.
  intros [? ? ? Hm ?] Hle. split; try done; try lia. intros k Hk1 Hk2. apply Hm; [|lia].
  etransitivity; [|exact Hk1]. apply Z.div_le_mono; unfold BSIZE; lia.
Qed.

Lemma readi_body_step s V held lck i ip dst tot off n out : cview D p s V held lck -> inodes s !!! i = ip ->
  file_at held lck V ip off (n - tot) -> tot < n -> in_kernel dst = true ->
  let m := Z.min (n - tot) (BSIZE - off mod BSIZE) in
  exists s', readi_body i n (tot, off, dst, out) s = Ret (inl (tot + m, off + m, dest_add dst m, out ++ file_bytes V ip off m)) s' /\
    bufs_only (set_mem (deliver dst (file_bytes V ip off m) (mem s)) s) s' /\ cview D p s' V held lck.
Proof.
  intros Hv Hi Hf Hlt Hk m. pose proof Hf as [Hd Hoff Hmax Hmap Hlen].
  pose proof (Z.mod_pos_bound off BSIZE ltac:(unfold BSIZE; lia)) as Hmod. pose proof (Z.div_mod off BSIZE ltac:(unfold BSIZE; lia)) as Hdm.
  pose proof (Hmap (off / BSIZE) ltac:(lia) ltac:(lia)) as Hblk. pose proof Hblk as (_ & Hne & Hr & _).
  unfold readi_body. destruct (Z.ltb_spec tot n); [|lia]. cbn [negb].
  destruct (bmap_mapped s V held lck i ip _ Hv Hi Hd Hblk) as (s0 & E0 & C0 & Hv0). rewrite (bind_Ret _ _ _ _ _ E0).
  destruct (Z.eqb_spec (addr_of V ip (off / BSIZE)) 0); [done|].
  destruct (bufs_only_inodes _ _ C0) as (Hi0 & Hm0 & _).
  rewrite (bind_Ret _ _ _ _ _ (eq_refl : geti i s0 = Ret (inodes s0 !!! i) s0)), Hi0, Hi, Hd.
  destruct (block_cycle s0 V held lck _ Hv0 Hr) as (j & s1 & E1 & C1 & _ & Hdat & Hv1 & Hrel). rewrite (bind_Ret _ _ _ _ _ E1). cbv zeta. fold m.
  rewrite (bind_Ret _ _ _ _ _ (eq_refl : getb j s1 = Ret (bufs s1 !!! j) s1)), Hdat.
  rewrite file_bytes_block by (try done; unfold m; lia).
  rewrite (bind_Ret _ _ _ _ _ (either_copyout_kernel _ _ _ _ dst _ Hv1 Hk)). change (0 =? -1) with false. cbv iota.
  destruct (Hrel (deliver dst (file_bytes V ip off m) (mem s1))) as (s2 & E2 & C2 & Hv2). rewrite (bind_Ret _ _ _ _ _ E2).
  exists s2. split; [|split; [|done]].
  - unfold ret. replace (u32 (off + m)) with (off + m); [done|]. symmetry. apply u32_small. subst m. change (MAXFILE * BSIZE) with 274432 in Hmax. lia.
  - destruct (bufs_only_inodes _ _ C1) as (_ & Hm1 & _). rewrite Hm1, Hm0 in C2. unfold bufs_only in *. rewrite C2, C0. done.
Qed.

Lemma readi_loop V held lck i ip n : forall f s tot off dst out, cview D p s V held lck -> inodes s !!! i = ip ->
  file_at held lck V ip off (n - tot) -> tot <= n -> in_kernel dst = true ->
  (0 < f)%nat -> (tot < n -> rounds off (n - tot) < Z.of_nat f) ->
  exists s', iter f (readi_body i n) (tot, off, dst, out) s = Ret (n, out ++ file_bytes V ip off (n - tot)) s' /\
    bufs_only (set_mem (deliver dst (file_bytes V ip off (n - tot)) (mem s)) s) s' /\ cview D p s' V held lck.
Proof.
  induction f as [|f IH]; intros s tot off dst out Hv Hi Hf Hle Hk Hf0 Hfu; [lia|].
  pose proof (Z.mod_pos_bound off BSIZE ltac:(unfold BSIZE; lia)) as Hmod. pose proof (fa_off _ _ _ _ _ _ Hf) as Hoff.
  destruct (Z.eq_dec tot n) as [->|Hne].
  - exists s. replace (n - n) with 0 by lia. change (file_bytes V ip off 0) with (@nil Z). split.
    + erewrite iter_exit; [|unfold readi_body; rewrite Z.ltb_irrefl; reflexivity]. by rewrite app_nil_r.
    + assert (deliver dst [] (mem s) = mem s) as -> by by destruct dst. rewrite set_mem_id. split; [apply bufs_only_refl|done].
  - destruct (readi_body_step s V held lck i ip dst tot off n out Hv Hi Hf ltac:(lia) Hk) as (s1 & E & C & Hv1).
    set (m := Z.min (n - tot) (BSIZE - off mod BSIZE)) in *. erewrite iter_next by exact E.
    destruct (bufs_only_inodes _ _ C) as (Hi1 & Hm1 & _). cbn [mem set_mem inodes] in *.
    destruct (IH s1 (tot + m) (off + m) (dest_add dst m) (out ++ file_bytes V ip off m)) as (s2 & E2 & C2 & Hv2).
    + done.
    + by rewrite Hi1.
    + replace (n - (tot + m)) with (n - tot - m) by lia. apply file_at_advance; [done|lia].
    + lia.
    + by rewrite in_kernel_add.
    + pose proof (rounds_pos off (n - tot)). lia.
    + intros Hlt. assert (m = BSIZE - off mod BSIZE) as Em by lia. replace (n - (tot + m)) with (n - tot - m) by lia.
      rewrite Em, rounds_advance by lia. lia.
    + exists s2. replace (n - tot) with (m + (n - (tot + m))) by lia. rewrite file_bytes_app by lia. split; [by rewrite E2, app_assoc|].
      split; [|done]. rewrite deliver_app, file_bytes_length, Z2Nat.id by lia. rewrite Hm1 in C2.
      unfold bufs_only in *. rewrite C2, C. done.
Qed.

(** A file whose every byte can be read: its size fits, its blocks are mapped
    and none of them is locked by this process. *)
Record file_ok (held : gmap Z Z) (lck : gset Z) (V : Z -> list Z) (ip : inode) : Prop := {
  fo_dev : i_dev ip = D;
  fo_size : 0 <= i_size ip <= MAXFILE * BSIZE;
  fo_map : forall k, 0 <= k -> k * BSIZE < i_size ip -> mapped held lck V ip k;
  fo_len : forall b, length (V b) = Z.to_nat BSIZE
}.

(** The number of bytes readi transfers. *)
Definition read_count (ip : inode) (off n : Z) : Z :=
  if off + n <? 2 ^ 32 then Z.max 0 (Z.min n (i_size ip - off)) else 0.

Lemma file_ok_at held lck V ip off n : file_ok held lck V ip -> 0 <= off <= i_size ip -> 0 <= n <= i_size ip - off -> file_at held lck V ip off n.
Proof.
  intros [? ? Hm ?] Hoff Hn. split; try done; try lia. intros k Hk1 Hk2. apply Hm; [|lia].
  etransitivity; [|exact Hk1]. apply Z.div_pos; unfold BSIZE; lia.
Qed.

Lemma readi_eq s V held lck i ip dst off n : cview D p s V held lck -> inodes s !!! i = ip -> in_kernel dst = true ->
  file_ok held lck V ip -> 0 <= off < 2 ^ 32 -> 0 <= n < 2 ^ 32 ->
  let bs := file_bytes V ip off (read_count ip off n) in
  exists s', readi i dst off n s = Ret (read_count ip off n, bs) s' /\
    bufs_only (set_mem (deliver dst bs (mem s)) s) s' /\ cview D p s' V held lck.
Proof.
  intros Hv Hi Hk Hok Hoff Hn bs. subst bs. unfold readi. rewrite (bind_Ret _ _ _ _ _ (eq_refl : geti i s = Ret (inodes s !!! i) s)), Hi.
  assert (Hsz : 0 <= i_size ip <= 274432) by apply (fo_size _ _ _ _ Hok).
  assert (Hnil : exists s', Ret (0, @nil Z) s = Ret (0, @nil Z) s' /\ bufs_only (set_mem (deliver dst [] (mem s)) s) s' /\ cview D p s' V held lck).
  { exists s. assert (deliver dst [] (mem s) = mem s) as -> by by destruct dst. rewrite set_mem_id. split; [done|]. split; [apply bufs_only_refl|done]. }
  unfold read_count. destruct (Z.ltb_spec (off + n) (2 ^ 32)) as [Hlt|Hge].
  - rewrite u32_small by lia. destruct (Z.ltb_spec (i_size ip) off); destruct (Z.ltb_spec (off + n) off); try lia; cbn [orb].
    + replace (Z.max 0 _) with 0 by lia. exact Hnil.
    + assert ((if i_size ip <? off + n then i_size ip - off else n) = Z.max 0 (Z.min n (i_size ip - off))) as ->.
      { destruct (Z.ltb_spec (i_size ip) (off + n)); lia. }
      set (n' := Z.max 0 _). destruct (readi_loop V held lck i ip n' (3 + Z.to_nat (n' / BSIZE)) s 0 off dst []) as (s' & E & C & Hv').
      * done.
      * done.
      * apply file_ok_at; [done|lia|subst n'; lia].
      * lia.
      * done.
      * lia.
      * intros _. rewrite Z.sub_0_r. apply rounds_fuel. lia.
      * rewrite Z.sub_0_r in *. by exists s'.
  - assert (u32 (off + n) = off + n - 2 ^ 32) as ->.
    { symmetry. apply (Z.mod_unique_pos _ _ 1); lia. }
    destruct (Z.ltb_spec (off + n - 2 ^ 32) off); [|lia]. rewrite orb_true_r. exact Hnil.
Qed.
End read.
