(* ===== verification/FsTrans.v ===== *)
(** The file system inside a transaction: what a system call between begin_op
    and end_op sees of the disk, and log_write. *)

From S2P Require Import Prelude Outcome Mem State Spinlock KString Kalloc Vm Proc ProcSpec Sleeplock Calm Bytes Disk Bio BioSpec BioView Log LogSpec LogCrash LogWrite Uart Printf Fs FsData FsSpec.

(** Nothing but the cache and the in-memory log changed: nothing reached the
    disk. *)
Definition tx_only (s s' : kernel) : Prop := s' = set_log (log s') (set_bufs (bufs s') s).

Lemma tx_only_refl s : tx_only s s.
Proof. unfold tx_only. by destruct s. Qed.

Lemma tx_only_trans s1 s2 s3 : tx_only s1 s2 -> tx_only s2 s3 -> tx_only s1 s3.
Proof. unfold tx_only. intros E1 E2. rewrite E1 in E2. exact E2. Qed.

Lemma bufs_tx_only s s' : bufs_only s s' -> tx_only s s' /\ log s' = log s.
Proof. unfold bufs_only, tx_only. intros E. rewrite E. by destruct s. Qed.

(** The buffers the transaction pins, once each. *)
Definition pins (T : list Z) : gmap Z Z := gset_to_gmap 1 (list_to_set T : gset Z).

Lemma lookup_pins T b : pins T !! b = if decide (b ∈ T) then Some 1 else None.
Proof.
  unfold pins. rewrite lookup_gset_to_gmap. case_decide; [rewrite option_guard_True by set_solver|rewrite option_guard_False by set_solver]; done.
Qed.

Lemma cnt_pins T b : cnt (pins T) b = if decide (b ∈ T) then 1 else 0.
Proof. unfold cnt. rewrite lookup_pins. by case_decide. Qed.

Lemma pins_add b T : pins (add_home b T) = <[b := 1]> (pins T).
Proof.
  apply map_eq. intros x. rewrite lookup_pins. destruct (decide (x = b)) as [->|Hne].
  - rewrite lookup_insert_eq, decide_True; [done|]. unfold add_home. case_decide; set_solver.
  - rewrite lookup_insert_ne, lookup_pins by done. unfold add_home. repeat case_decide; set_solver.
Qed.

Lemma size_pins T : NoDup T -> size (pins T) = length T.
Proof. intros Hnd. unfold pins. rewrite <- size_dom, dom_gset_to_gmap. by apply size_list_to_set. Qed.

Section tx.
Context `{Fuel} `{DiskLaws} (D : Z) (p : nat) (Hfuel : (0 < fuel)%nat).

Lemma cview_log_write s V held lck i b : cview D p s V held lck -> is_buf D s i b -> 0 < cnt held b < 2 ^ 32 - 2 ->
  0 <= b < 2 ^ 32 -> 0 <= lh_n (log s) < LOGSIZE -> lh_n (log s) < lg_size (log s) - 1 ->
  length (lh_block (log s)) = Z.to_nat LOGSIZE -> 1 <= lg_outstanding (log s) ->
  exists s', log_write i s = Ret tt s' /\ tx_only s s' /\ log s' = logged b (log s) /\ keeps D held s s' /\
    cview D p s' V (if decide (b ∈ homes (log s)) then held else <[b := cnt held b + 1]> held) lck.
Proof.
  intros [Hid [o Hv]] Hib Hc Hb Hl0 Hl1 Hlen Ho.
  assert (Eb : b_blockno (bufs s !!! i) = b) by (destruct Hib as (_ & Hk & _); by apply has_key_spec in Hk as [_ ?]).
  destruct (logged_homes b (log s)) as [_ Hiff]; [done|rewrite Hlen; unfold LOGSIZE, MAXOPBLOCKS in *; lia|].
  unfold cnt in *. destruct (held !! b) as [n|] eqn:Hn; simpl in Hc |- *; [|lia].
  eexists. split; [apply (log_write_eq p s i (log s)); (done || lia)|]. rewrite Eb.
  destruct (Z.eqb_spec (Z.of_nat (absorb 0 (Z.to_nat (lh_n (log s))) (lh_block (log s)) b)) (lh_n (log s))) as [E|E].
  - rewrite decide_False by (by apply Hiff).
    destruct (bview_addref D p s o V held lck i b n 1 Hv Hib Hn ltac:(lia)) as [Hv' Hk].
    split; [done|]. split; [done|]. split; [intros k c Hkc Hkb; by apply is_buf_set_log, Hk|]. split; [|exists o; by apply bview_set_log].
    by apply (idle_blind (fun s0 => set_log _ (set_bufs _ s0))).
  - rewrite decide_True by (destruct (decide (b ∈ homes (log s))) as [?|Hnot]; [done|by apply Hiff in Hnot]).
    split; [unfold tx_only; by destruct s|]. split; [done|]. split; [intros k c _ Hkb; by apply is_buf_set_log|].
    split; [by apply idle_set_log|exists o; by apply bview_set_log].
Qed.

(** The blocks as the transaction sees them, [V], and the blocks it has
    changed, [T]. *)
Record tview (s : kernel) (V : Z -> list Z) (T : list Z) : Prop := {
  tv_cache : cview D p s V (pins T) ∅;
  tv_homes : homes (log s) = T;
  tv_nodup : NoDup T;
  tv_n : 0 <= lh_n (log s);
  tv_len : length (lh_block (log s)) = Z.to_nat LOGSIZE;
  tv_open : 1 <= lg_outstanding (log s)
}.

(** Room for [k] more log_writes. *)
Definition room (s : kernel) (T : list Z) (k : Z) : Prop :=
  Z.of_nat (length T) + k <= LOGSIZE /\ Z.of_nat (length T) + k <= lg_size (log s) - 1.

Lemma tview_n s V T : tview s V T -> lh_n (log s) = Z.of_nat (length T).
Proof. intros [_ Hh _ Hn _ _]. rewrite <- Hh. unfold homes. rewrite length_fmap, length_seqZ. lia. Qed.

Lemma tview_readable s V T b k : tview s V T -> room s T k -> 1 <= k -> readable (pins T) ∅ b.
Proof.
  clear Hfuel. intros Ht [Hr _] Hk. split; [set_solver|]. rewrite size_pins by apply (tv_nodup _ _ _ Ht). split.
  - unfold NBUF, LOGSIZE, MAXOPBLOCKS in *. lia.
  - rewrite cnt_pins. case_decide; lia.
Qed.

Lemma tview_bufs s s' V T : tview s V T -> bufs_only s s' -> cview D p s' V (pins T) ∅ -> tview s' V T.
Proof. intros [_ ? ? ? ? ?] C Hv. destruct (bufs_tx_only _ _ C) as [_ El]. split; rewrite ?El; done. Qed.

Lemma add_home_length b T : (length T <= length (add_home b T) <= length T + 1)%nat.
Proof. unfold add_home. case_decide; [lia|]. rewrite length_app. simpl. lia. Qed.

Lemma logged_fields b lg : length (lh_block (logged b lg)) = length (lh_block lg) /\ lg_outstanding (logged b lg) = lg_outstanding lg /\
  lg_size (logged b lg) = lg_size lg /\ (0 <= lh_n lg -> 0 <= lh_n (logged b lg)).
Proof.
  unfold logged. cbn [lh_n set_lh_block]. destruct (_ =? _); cbn; rewrite length_insert; repeat split; lia.
Qed.
End tx.
