(* ===== verification/FsOpen.v ===== *)
(** Blocks held open inside a transaction: bread, a logged change and brelse as
    separate steps, so that a block may stay locked while others are changed. *)

From S2P Require Import Prelude Outcome Mem State Spinlock KString Kalloc Vm Proc ProcSpec Sleeplock Calm Bytes Disk Bio BioSpec BioView Log LogSpec LogCrash LogWrite Uart Printf Fs FsData FsSpec FsTrans.

(** One reference for every block the transaction has changed and one for every
    open block. *)
Definition refs_of (T : list Z) (O : gset Z) : gmap Z Z :=
  union_with (fun x y => Some (x + y)) (pins T) (gset_to_gmap 1 O).

Lemma cnt_refs_of T O b : cnt (refs_of T O) b = (if decide (b ∈ T) then 1 else 0) + (if decide (b ∈ O) then 1 else 0).
Proof.
  unfold cnt, refs_of. rewrite lookup_union_with, lookup_pins, lookup_gset_to_gmap.
  destruct (decide (b ∈ O)); [rewrite option_guard_True by done|rewrite option_guard_False by done]; by case_decide.
Qed.

Lemma refs_of_is_Some T O b : is_Some (refs_of T O !! b) <-> b ∈ T \/ b ∈ O.
Proof.
  unfold refs_of. rewrite lookup_union_with, lookup_pins, lookup_gset_to_gmap.
  destruct (decide (b ∈ O)); [rewrite option_guard_True by done|rewrite option_guard_False by done]; case_decide; simpl; rewrite ?is_Some_alt; tauto.
Qed.

Lemma cnt_insert_all b n (h : gmap Z Z) c : cnt (<[b := n]> h) c = if decide (c = b) then n else cnt h c.
Proof. unfold cnt. case_decide; [subst; by rewrite lookup_insert_eq|by rewrite lookup_insert_ne]. Qed.

Lemma cnt_setcnt b n (h : gmap Z Z) c : cnt (setcnt b n h) c = if decide (c = b) then n else cnt h c.
Proof.
  unfold setcnt. destruct (Z.eqb_spec n 0) as [->|]; [|apply cnt_insert_all]. unfold cnt.
  case_decide; [subst; by rewrite lookup_delete_eq|by rewrite lookup_delete_ne].
Qed.

(** A count map without zeros is determined by its counts. *)
Lemma refs_of_ext T O (h : gmap Z Z) : (forall b n, h !! b = Some n -> n <> 0) -> (forall b, cnt h b = cnt (refs_of T O) b) -> h = refs_of T O.
Proof.
  intros Hz Hc. apply map_eq. intros b. specialize (Hc b). rewrite cnt_refs_of in Hc.
  pose proof (refs_of_is_Some T O b) as Hs. pose proof (cnt_refs_of T O b) as Hr. unfold cnt in Hc, Hr.
  destruct (h !! b) as [n|] eqn:E1; destruct (refs_of T O !! b) as [m|] eqn:E2; cbn [default from_option id] in Hc, Hr; [f_equal; lia| | |done].
  - exfalso. apply (Hz b n E1). lia.
  - exfalso. assert (Hin : b ∈ T \/ b ∈ O) by (apply Hs; done). repeat case_decide; try lia; tauto.
Qed.

Lemma refs_of_none T : refs_of T ∅ = pins T.
Proof. symmetry. apply refs_of_ext; intros b; [|rewrite cnt_refs_of, cnt_pins; repeat case_decide; set_solver]. intros n. rewrite lookup_pins. case_decide; by intros [= <-]. Qed.

Lemma size_refs_of T O : (size (refs_of T O) <= length T + size O)%nat.
Proof.
  rewrite <- size_dom. transitivity (size (list_to_set T ∪ O : gset Z)).
  - apply subseteq_size. intros b Hb. apply elem_of_dom, refs_of_is_Some in Hb. set_solver.
  - rewrite size_union_alt. assert (size (list_to_set T : gset Z) <= length T)%nat.
    { clear. induction T as [|x T IH]; [done|]. cbn [list_to_set foldr length]. rewrite size_union_alt, size_singleton.
      pose proof (subseteq_size (list_to_set T ∖ {[x]}) (list_to_set T : gset Z) ltac:(set_solver)). lia. }
    pose proof (subseteq_size (O ∖ list_to_set T) O ltac:(set_solver)). lia.
Qed.

Section open.
Context `{Fuel} `{DiskLaws} (D : Z) (p : nat) (Hfuel : (0 < fuel)%nat).

(** [tview] with the blocks [O] open; what is not in the transaction is as on
    the disk. *)
Record topen (s : kernel) (V : Z -> list Z) (T : list Z) (O : gset Z) : Prop := {
  to_cache : cview D p s V (refs_of T O) O;
  to_clean : forall b, b ∉ T -> V b = read_block (disk s) b;
  to_homes : homes (log s) = T;
  to_nodup : NoDup T;
  to_n : 0 <= lh_n (log s);
  to_len : length (lh_block (log s)) = Z.to_nat LOGSIZE;
  to_outst : 1 <= lg_outstanding (log s)
}.

Lemma topen_tview s V T : topen s V T ∅ <-> tview D p s V T.
Proof.
  clear Hfuel. split.
  - intros [Hv ? ? ? ? ? ?]. rewrite refs_of_none in Hv. by split.
  - intros [Hv ? ? ? ? ?]. split; try done; [by rewrite refs_of_none|]. intros b Hb. eapply cview_clean; [exact Hv|].
    rewrite lookup_pins. by case_decide.
Qed.

(** The buffers of open blocks stay where they are. *)
Definition kept_open (O : gset Z) (s s' : kernel) : Prop := forall i b, b ∈ O -> is_buf D s i b -> is_buf D s' i b.

Lemma keeps_open T O s s' : keeps D (refs_of T O) s s' -> kept_open O s s'.
Proof. clear Hfuel. intros K i b Hb. apply K, refs_of_is_Some. by right. Qed.

Lemma topen_n s V T O : topen s V T O -> lh_n (log s) = Z.of_nat (length T).
Proof. clear Hfuel. intros [_ _ Hh _ Hn _ _]. rewrite <- Hh. unfold homes. rewrite length_fmap, length_seqZ. lia. Qed.

Lemma topen_bread s V T O b k : topen s V T O -> b ∉ O -> room s T k -> Z.of_nat (size O) < k ->
  exists i s1, bread D b s = Ret i s1 /\ bufs_only s s1 /\ is_buf D s1 i b /\ b_data (bufs s1 !!! i) = V b /\
    topen s1 V T ({[b]} ∪ O) /\ kept_open O s s1.
Proof.
  intros [Hv Hcl Hh Hnd Hn Hlen Ho] Hb [Hr _] Hk. pose proof (cnt_refs_of T O b) as Hc. rewrite (decide_False (P := b ∈ O)) in Hc by done.
  pose proof (size_refs_of T O) as Hsz.
  destruct (cview_bread D p s V _ _ b Hv Hfuel Hb) as (i & s1 & E & C & Hd & Hw & K & Hi & Hv1).
  { right. unfold NBUF, LOGSIZE, MAXOPBLOCKS in *. lia. }
  { rewrite Hc. case_decide; lia. }
  apply (fun C => cache_bufs_only _ _ C Hd Hw) in C. destruct (bufs_tx_only _ _ C) as [_ El].
  exists i, s1. split; [done|]. split; [done|]. split; [done|]. split; [by eapply cview_data|]. split; [|by eapply keeps_open].
  split; rewrite ?El, ?Hd; try done. eapply cview_ext; [exact Hv1|done| |done].
  apply refs_of_ext; [intros c n Hcn; by eapply cview_pos|]. intros c. rewrite cnt_insert_all, !cnt_refs_of, (decide_ext (c ∈ {[b]} ∪ O) (c = b \/ c ∈ O)) by set_solver.
  repeat case_decide; (lia || (subst; tauto)).
Qed.

Lemma topen_brelse s V T O i b : topen s V T O -> b ∈ O -> is_buf D s i b ->
  exists s1, brelse i s = Ret tt s1 /\ bufs_only s s1 /\ topen s1 V T (O ∖ {[b]}) /\ kept_open O s s1.
Proof.
  clear Hfuel. intros [Hv Hcl Hh Hnd Hn Hlen Ho] Hb Hib. pose proof (cnt_refs_of T O b) as Hc. rewrite (decide_True (P := b ∈ O)) in Hc by done.
  destruct (cview_brelse D p s V _ _ i b Hv Hib Hb) as (s1 & E & C & Hd & Hw & K & Hv1).
  { intros Hone. rewrite Hc in Hone. apply Hcl. case_decide; [lia|done]. }
  apply (fun C => cache_bufs_only _ _ C Hd Hw) in C. destruct (bufs_tx_only _ _ C) as [_ El].
  exists s1. split; [done|]. split; [done|]. split; [|by eapply keeps_open].
  split; rewrite ?El, ?Hd; try done. eapply cview_ext; [exact Hv1|done| |done].
  apply refs_of_ext; [intros c n Hcn; by eapply cview_pos|]. intros c. rewrite cnt_setcnt, Hc, !cnt_refs_of, (decide_ext (c ∈ O ∖ {[b]}) (c ∈ O /\ c <> b)) by set_solver.
  repeat case_decide; (lia || (subst; tauto)).
Qed.

(** A change of an open block, logged. *)
Lemma topen_write s V T O i b k : topen s V T O -> b ∈ O -> is_buf D s i b -> 0 <= b < 2 ^ 32 -> room s T k -> 1 <= k ->
  forall g, exists s1 s2, modbd i g s = Ret tt s1 /\ log_write i s1 = Ret tt s2 /\ bufs_only s s1 /\ tx_only s s2 /\
    topen s2 (fset V b (g (V b))) (add_home b T) O /\ kept_open O s s2 /\ lg_size (log s2) = lg_size (log s).
Proof.
  intros Ht Hb Hib Hb32 [Hr1 Hr2] Hk g. pose proof Ht as [Hv Hcl Hh Hnd Hn Hlen Ho].
  pose proof (cnt_refs_of T O b) as Hc. rewrite (decide_True (P := b ∈ O)) in Hc by done. pose proof (topen_n _ _ _ _ Ht) as En.
  assert (Hsome : is_Some (refs_of T O !! b)) by (apply refs_of_is_Some; by right).
  destruct (cview_modbd D p s V _ _ i b g Hv Hib Hsome) as (s1 & E1 & C1 & Hd1 & Hw1 & K1 & Hv1).
  apply (fun C => cache_bufs_only _ _ C Hd1 Hw1) in C1. destruct (bufs_tx_only _ _ C1) as [Ct1 El1].
  assert (Hib1 : is_buf D s1 i b) by (by apply K1).
  destruct (cview_log_write D p Hfuel s1 _ _ _ i b Hv1 Hib1) as (s2 & E2 & C2 & El2 & K2 & Hv2);
    [rewrite Hc; case_decide; lia|done|rewrite El1; lia|rewrite El1; lia|by rewrite El1|by rewrite El1|].
  exists s1, s2. split; [done|]. split; [done|]. split; [done|]. split; [by eapply tx_only_trans|].
  destruct (logged_homes b (log s)) as [Eh _]; [done|rewrite Hlen; unfold LOGSIZE, MAXOPBLOCKS in *; lia|].
  destruct (logged_fields Hfuel b (log s)) as (F1 & F2 & F3 & F4). rewrite El1 in El2.
  split; [|split].
  - split; rewrite ?El2, ?F1, ?F2; try done; [| |by rewrite Eh, Hh|by apply add_home_nodup|by apply F4].
    + rewrite El1, Hh in Hv2. eapply cview_ext; [exact Hv2|done| |done].
      apply refs_of_ext; [intros c n Hcn; by eapply cview_pos|]. intros c. unfold add_home.
      destruct (decide (b ∈ T)) as [HbT|HbT]; [done|]. 
      rewrite cnt_insert_all, !cnt_refs_of, (decide_ext (c ∈ T ++ [b]) (c ∈ T \/ c = b)) by set_solver. repeat case_decide; (lia || (subst; tauto)).
    + intros c Hcc. rewrite C2. change (disk (set_log _ _)) with (disk s1). rewrite Hd1. unfold fset, add_home in *.
      rewrite decide_False by (intros ->; case_decide; set_solver). apply Hcl. case_decide; set_solver.
  - intros j c Hcin Hj. apply (keeps_open _ _ _ _ K2), (keeps_open _ _ _ _ K1); done.
  - by rewrite El2, F3.
Qed.

(** bread, and brelse at once or after a logged change. *)
Lemma topen_cycle s V T O b k : topen s V T O -> b ∉ O -> 0 <= b < 2 ^ 32 -> room s T k -> Z.of_nat (size O) < k ->
  exists i s1, bread D b s = Ret i s1 /\ bufs_only s s1 /\ b_data (bufs s1 !!! i) = V b /\ idle s1 p /\
    (exists s2, brelse i s1 = Ret tt s2 /\ bufs_only s s2 /\ topen s2 V T O /\ kept_open O s s2) /\
    forall g, exists s2 s3 s4, modbd i g s1 = Ret tt s2 /\ log_write i s2 = Ret tt s3 /\ brelse i s3 = Ret tt s4 /\
      tx_only s s4 /\ topen s4 (fset V b (g (V b))) (add_home b T) O /\ kept_open O s s4 /\ lg_size (log s4) = lg_size (log s).
Proof.
  intros Ht Hnb Hb Hr Hk. assert (E0 : ({[b]} ∪ O) ∖ {[b]} = O) by set_solver.
  assert (Hin : b ∈ {[b]} ∪ O) by set_solver. assert (Hsub : forall s1 s2, kept_open ({[b]} ∪ O) s1 s2 -> kept_open O s1 s2).
  { intros s1 s2 K i c Hc. apply K. set_solver. }
  assert (Htr : forall s1 s2 s3, kept_open O s1 s2 -> kept_open O s2 s3 -> kept_open O s1 s3) by (intros s1 s2 s3 K1 K2 i c Hc Hi; by apply K2, K1).
  destruct (topen_bread s V T O b k Ht) as (i & s1 & E1 & C1 & Hib & Hd & Ht1 & K1); [done|done|done|].
  exists i, s1. do 3 (split; [done|]). split; [apply (to_cache _ _ _ _ Ht1)|]. destruct (bufs_tx_only _ _ C1) as [_ El1]. split.
  - destruct (topen_brelse s1 V T _ i b Ht1 Hin Hib) as (s2 & E2 & C2 & Ht2 & K2). rewrite E0 in Ht2.
    exists s2. split; [done|]. split; [by eapply bufs_only_trans|]. split; [done|]. by eapply Htr; [|apply Hsub].
  - intros g. destruct (topen_write s1 V T _ i b k Ht1 Hin Hib Hb) with (g := g) as (s2 & s3 & E2 & E3 & C2 & C3 & Ht3 & K3 & Esz);
      [unfold room in *; by rewrite El1|lia|].
    destruct (topen_brelse s3 _ _ _ i b Ht3 Hin) as (s4 & E4 & C4 & Ht4 & K4); [by apply K3|]. rewrite E0 in Ht4.
    destruct (bufs_tx_only _ _ C4) as [Ct4 El4].
    exists s2, s3, s4. do 3 (split; [done|]).
    split; [eapply tx_only_trans; [apply bufs_tx_only, C1|]; by eapply tx_only_trans|]. split; [done|].
    split; [|by rewrite El4, Esz, El1]. eapply Htr; [exact K1|]. eapply Htr; apply Hsub; done.
Qed.

(** With no block open. *)
Lemma tview_cycle s V T b k : tview D p s V T -> 0 <= b < 2 ^ 32 -> room s T k -> 1 <= k ->
  exists i s1, bread D b s = Ret i s1 /\ bufs_only s s1 /\ b_data (bufs s1 !!! i) = V b /\ idle s1 p /\
    (exists s2, brelse i s1 = Ret tt s2 /\ bufs_only s s2 /\ tview D p s2 V T) /\
    forall g, exists s2 s3 s4, modbd i g s1 = Ret tt s2 /\ log_write i s2 = Ret tt s3 /\ brelse i s3 = Ret tt s4 /\
      tx_only s s4 /\ tview D p s4 (fset V b (g (V b))) (add_home b T) /\ room s4 (add_home b T) (k - 1).
Proof.
  intros Ht Hb Hr Hk. apply topen_tview in Ht.
  destruct (topen_cycle s V T ∅ b k Ht) as (i & s1 & E1 & C1 & Hd & Hid & (s2 & E2 & C2 & Ht2 & _) & Hcyc); [set_solver|done|done|rewrite size_empty; lia|].
  exists i, s1. do 4 (split; [done|]). split; [exists s2; do 2 (split; [done|]); by apply topen_tview|]. intros g.
  destruct (Hcyc g) as (s3 & s4 & s5 & E3 & E4 & E5 & C5 & Ht5 & _ & Esz). exists s3, s4, s5. do 4 (split; [done|]).
  split; [by apply topen_tview|]. unfold room in *. rewrite Esz. pose proof (add_home_length Hfuel b T). lia.
Qed.
End open.
