(* ===== verification/Itable.v ===== *)
(** Inodes: reading back the dinode that was written to the disk, and the table of
    in-memory inodes, of which iget returns the one entry of an inode. *)

From S2P Require Import Prelude Outcome Mem State Spinlock KString Kalloc Vm Proc ProcSpec Bytes Sleeplock Calm Disk Bio BioSpec BioView BioCheck Uart Printf Log Fs.

(** * The inode on the disk *)

(** The 64 bytes of struct dinode. *)
Definition dinode_bytes (ip : inode) : list Z :=
  le_enc 2 (i_type ip) ++ le_enc 2 (i_major ip) ++ le_enc 2 (i_minor ip) ++ le_enc 2 (i_nlink ip) ++
  le_enc 4 (i_size ip) ++ concat (le_enc 4 <$> i_addrs ip).

Lemma concat_enc_length l : length (concat (le_enc 4 <$> l)) = (4 * length l)%nat.
Proof. induction l as [|x l IH]; [done|]. cbn [fmap list_fmap concat]. rewrite length_app, length_le_enc, IH. cbn [length]. lia. Qed.

Lemma dinode_bytes_length ip : length (i_addrs ip) = 13%nat -> length (dinode_bytes ip) = 64%nat.
Proof. intros Hl. unfold dinode_bytes. rewrite !length_app, !length_le_enc, concat_enc_length, Hl. done. Qed.

Lemma upd_app_at l off off' a b : off' = (off + length a)%nat -> (off' + length b <= length l)%nat ->
  upd (upd l off a) off' b = upd l off (a ++ b).
Proof. intros -> Hle. by apply upd_app. Qed.

Lemma write_dinode_upd d o ip : 0 <= o -> o + 64 <= Z.of_nat (length d) -> length (i_addrs ip) = 13%nat ->
  write_dinode d o ip = upd d (Z.to_nat o) (dinode_bytes ip).
Proof.
  intros Ho Hle Hl. unfold write_dinode, put16, put32, dinode_bytes. cbv zeta. unfold di_type, di_major, di_minor, di_nlink, di_size, di_addrs.
  rewrite Z.add_0_r. rewrite !(upd_app_at d); rewrite ?length_app, ?length_le_enc, ?concat_enc_length, ?Hl; try lia. by rewrite <- !app_assoc.
Qed.

(** A field read from the written dinode. *)
Lemma sub_field d o off n pre b post : (o + length (pre ++ b ++ post) <= length d)%nat -> off = (o + length pre)%nat -> n = length b ->
  sub (upd d o (pre ++ b ++ post)) off n = b.
Proof. intros Hle -> ->. by apply sub_upd_in. Qed.

Lemma enc_addr (l : list Z) k : (k < length l)%nat ->
  exists pre post, concat (le_enc 4 <$> l) = pre ++ le_enc 4 (l !!! k) ++ post /\ length pre = (4 * k)%nat.
Proof.
  intros Hk. exists (concat (le_enc 4 <$> take k l)), (concat (le_enc 4 <$> drop (S k) l)).
  rewrite concat_enc_length, length_take, Nat.min_l by lia. split; [|done].
  destruct (lookup_lt_is_Some_2 l k Hk) as [x Ex]. rewrite (list_lookup_total_correct _ _ _ Ex).
  rewrite <- (take_drop_middle _ _ _ Ex) at 1. rewrite fmap_app, concat_app. done.
Qed.

(** The fields of [ip] that live on disk, in the in-memory inode [jp]. *)
Definition disk_fields (ip jp : inode) : inode :=
  set_i_addrs (i_addrs ip) (set_i_size (i_size ip) (set_i_nlink (i_nlink ip)
    (set_i_minor (i_minor ip) (set_i_major (i_major ip) (set_i_type (i_type ip) jp))))).

Definition short (x : Z) : Prop := - 2 ^ 15 <= x < 2 ^ 15.

(** The fields are within their types and there are NDIRECT+1 addresses. *)
Record inode_ok (ip : inode) : Prop := {
  io_short : short (i_type ip) /\ short (i_major ip) /\ short (i_minor ip) /\ short (i_nlink ip);
  io_size : 0 <= i_size ip < 2 ^ 32;
  io_addrs : Forall (fun a => 0 <= a < 2 ^ 32) (i_addrs ip);
  io_len : length (i_addrs ip) = 13%nat
}.

Lemma i16_short x : short x -> i16 (x mod 65536) = x.
Proof. intros Hx. unfold i16. rewrite (Zplus_mod_idemp_l x). by apply i16_small. Qed.

Lemma dinode_bytes_addr ip k : (k < length (i_addrs ip))%nat ->
  exists pre post, dinode_bytes ip = pre ++ le_enc 4 (i_addrs ip !!! k) ++ post /\ length pre = (12 + 4 * k)%nat.
Proof.
  intros Hk. destruct (enc_addr (i_addrs ip) k Hk) as (pre & post & E & Hl).
  exists (le_enc 2 (i_type ip) ++ le_enc 2 (i_major ip) ++ le_enc 2 (i_minor ip) ++ le_enc 2 (i_nlink ip) ++ le_enc 4 (i_size ip) ++ pre), post.
  split; [unfold dinode_bytes; rewrite E; by rewrite <- !app_assoc|]. rewrite !length_app, !length_le_enc. lia.
Qed.

Lemma get16_field d o k ip pre v post : 0 <= o -> o + 64 <= Z.of_nat (length d) -> length (i_addrs ip) = 13%nat ->
  dinode_bytes ip = pre ++ le_enc 2 v ++ post -> length pre = Z.to_nat k -> 0 <= k -> short v ->
  i16 (get16 (write_dinode d o ip) (o + k)) = v.
Proof.
  intros Ho Hle Hl E Hp Hk Hv. rewrite write_dinode_upd by done. unfold get16. pose proof (dinode_bytes_length ip Hl) as HL. rewrite E in *.
  rewrite sub_field by (rewrite ?HL, ?length_le_enc; lia). rewrite le_dec_enc. by apply i16_short.
Qed.

Lemma get32_field d o k ip pre v post : 0 <= o -> o + 64 <= Z.of_nat (length d) -> length (i_addrs ip) = 13%nat ->
  dinode_bytes ip = pre ++ le_enc 4 v ++ post -> length pre = Z.to_nat k -> 0 <= k -> 0 <= v < 2 ^ 32 ->
  get32 (write_dinode d o ip) (o + k) = v.
Proof.
  intros Ho Hle Hl E Hp Hk Hv. rewrite write_dinode_upd by done. unfold get32. pose proof (dinode_bytes_length ip Hl) as HL. rewrite E in *.
  rewrite sub_field by (rewrite ?HL, ?length_le_enc; lia). rewrite le_dec_enc. by apply Z.mod_small.
Qed.

Lemma read_write_dinode d o ip jp : 0 <= o -> o + 64 <= Z.of_nat (length d) -> inode_ok ip ->
  read_dinode (write_dinode d o ip) o jp = disk_fields ip jp.
Proof.
  intros Ho Hle [(Ht & Hma & Hmi & Hn) Hs Ha Hl]. unfold read_dinode, disk_fields.
  unfold di_type, di_major, di_minor, di_nlink, di_size, di_addrs.
  rewrite (get16_field d o 0 ip [] (i_type ip) _ Ho Hle Hl eq_refl eq_refl) by done.
  rewrite (get16_field d o 2 ip (le_enc 2 (i_type ip)) (i_major ip) _ Ho Hle Hl eq_refl) by done.
  rewrite (get16_field d o 4 ip (le_enc 2 (i_type ip) ++ le_enc 2 (i_major ip)) (i_minor ip) _ Ho Hle Hl
    ltac:(by rewrite <- app_assoc)) by done.
  rewrite (get16_field d o 6 ip (le_enc 2 (i_type ip) ++ le_enc 2 (i_major ip) ++ le_enc 2 (i_minor ip)) (i_nlink ip) _ Ho Hle Hl
    ltac:(by rewrite <- !app_assoc)) by done.
  rewrite (get32_field d o 8 ip (le_enc 2 (i_type ip) ++ le_enc 2 (i_major ip) ++ le_enc 2 (i_minor ip) ++ le_enc 2 (i_nlink ip)) (i_size ip) _ Ho Hle Hl
    ltac:(by rewrite <- !app_assoc)) by done.
  f_equal. apply list_eq. intros k. rewrite list_lookup_fmap. destruct (decide (k < 13)%nat) as [Hk|Hk].
  - rewrite lookup_seqZ_lt by (unfold NDIRECT; lia). cbn [fmap option_fmap option_map].
    destruct (dinode_bytes_addr ip k ltac:(lia)) as (pre & post & E & Hp). destruct (lookup_lt_is_Some_2 (i_addrs ip) k ltac:(lia)) as [x Ex].
    pose proof (Forall_lookup_1 _ _ _ _ Ha Ex) as Hx. rewrite (list_lookup_total_correct _ _ _ Ex) in E. rewrite Ex. f_equal.
    replace (o + 12 + 4 * (0 + Z.of_nat k)) with (o + (12 + 4 * Z.of_nat k)) by lia.
    apply (get32_field d o _ ip pre x post); (done || lia).
  - rewrite lookup_seqZ_ge by (unfold NDIRECT; lia). symmetry. apply lookup_ge_None_2. lia.
Qed.

Lemma write_dinode_length d o ip : 0 <= o -> o + 64 <= Z.of_nat (length d) -> length (i_addrs ip) = 13%nat ->
  length (write_dinode d o ip) = length d.
Proof. intros. rewrite write_dinode_upd by done. apply length_upd. rewrite dinode_bytes_length by done. lia. Qed.

Lemma dinode_off_fits inum : 0 <= dinode_off inum /\ dinode_off inum + 64 <= BSIZE.
Proof. unfold dinode_off, IPB, DINODE_SIZE, BSIZE. pose proof (Z.mod_pos_bound inum (1024 / 64)). change (1024 / 64) with 16 in *. lia. Qed.

(** The other inodes of the block stay as they are. *)
Lemma read_dinode_other d n m ip jp : Z.of_nat (length d) = BSIZE -> length (i_addrs ip) = 13%nat -> dinode_off n <> dinode_off m ->
  read_dinode (write_dinode d (dinode_off n) ip) (dinode_off m) jp = read_dinode d (dinode_off m) jp.
Proof.
  intros Hd Hl Hne. pose proof (dinode_off_fits n). pose proof (dinode_off_fits m).
  assert (Hap : dinode_off n + 64 <= dinode_off m \/ dinode_off m + 64 <= dinode_off n).
  { unfold dinode_off, DINODE_SIZE in *. lia. }
  rewrite write_dinode_upd by lia. pose proof (dinode_bytes_length ip Hl) as HL. set (bs := dinode_bytes ip) in *.
  assert (E : forall k w, 0 <= k -> k + Z.of_nat w <= 64 ->
    sub (upd d (Z.to_nat (dinode_off n)) bs) (Z.to_nat (dinode_off m + k)) w = sub d (Z.to_nat (dinode_off m + k)) w).
  { intros k w Hk Hw. apply sub_upd_other; [lia|]. rewrite HL. lia. }
  unfold read_dinode, get16, get32. rewrite !E by (unfold di_type, di_major, di_minor, di_nlink, di_size; lia).
  f_equal. apply list_fmap_ext. intros k x Hk. apply lookup_seqZ in Hk as [-> Hk]. rewrite <- Z.add_assoc, E; [done| |];
    unfold di_addrs, NDIRECT in *; lia.
Qed.

(** * The inode table *)

Lemma geti_eq i s ip : inodes s !! i = Some ip -> geti i s = Ret ip s.
Proof. intros E. unfold geti, gets. by rewrite (list_lookup_total_correct _ _ _ E). Qed.

Lemma modi_eq s i ip g : inodes s !! i = Some ip -> modi i g s = Ret tt (set_inodes (<[i := g ip]> (inodes s)) s).
Proof. intros Hi. unfold modi, modify. by rewrite (alter_as_insert _ _ _ _ Hi). Qed.

(** A reference to inode [inum] of [dev]. *)
Definition refers (dev inum : Z) (ip : inode) : Prop := 0 < i_ref ip /\ i_dev ip = dev /\ i_inum ip = inum.
Definition unused (ip : inode) : Prop := i_ref ip = 0.
#[global] Instance refers_dec dev inum ip : Decision (refers dev inum ip).
Proof. unfold refers. apply _. Defined.
#[global] Instance unused_dec ip : Decision (unused ip).
Proof. unfold unused. apply _. Defined.

Definition bump (ip : inode) : inode := set_i_ref (i_ref ip + 1) ip.
Definition fresh (dev inum : Z) (ip : inode) : inode := set_i_valid false (set_i_ref 1 (set_i_inum inum (set_i_dev dev ip))).

(** The slot iget returns and the table it leaves. *)
Definition itable_get (dev inum : Z) (l : list inode) : option (nat * list inode) :=
  match list_find (refers dev inum) l with
  | Some (i, _) => Some (i, alter bump i l)
  | None => match list_find unused l with
            | Some (i, _) => Some (i, alter (fresh dev inum) i l)
            | None => None
            end
  end.

(** The first empty slot from slot [k] on, unless there was one before. *)
Definition first_empty (k : nat) (l : list inode) (empty : option nat) : option nat :=
  match empty with Some e => Some e | None => (fun x => (k + fst x)%nat) <$> list_find unused l end.

Lemma first_empty_cons k ip l empty :
  first_empty k (ip :: l) empty =
  first_empty (S k) l (match empty with None => if i_ref ip =? 0 then Some k else None | Some _ => empty end).
Proof.
  destruct empty; [done|]. unfold first_empty. cbn [list_find]. destruct (Z.eqb_spec (i_ref ip) 0) as [E|E].
  - rewrite decide_True by done. cbn. f_equal. lia.
  - rewrite decide_False by done. destruct (list_find unused l) as [[j jp]|]; [|reflexivity]. cbn. f_equal. lia.
Qed.

Lemma iget_scan_eq dev inum m : forall k empty s, (k + m = length (inodes s))%nat ->
  match list_find (refers dev inum) (drop k (inodes s)) with
  | Some (j, _) => exists e, iget_scan (seq k m) dev inum empty s = Ret (Some (k + j)%nat, e) (set_inodes (alter bump (k + j)%nat (inodes s)) s)
  | None => iget_scan (seq k m) dev inum empty s = Ret (None, first_empty k (drop k (inodes s)) empty) s
  end.
Proof.
  induction m as [|m IH]; intros k empty s Hk; cbn [seq iget_scan].
  - rewrite drop_ge by lia. cbn. destruct empty; done.
  - destruct (lookup_lt_is_Some_2 (inodes s) k ltac:(lia)) as [ip Hip]. rewrite (drop_S _ _ _ Hip). cbn [list_find].
    rewrite (bind_Ret _ _ _ _ _ (eq_refl : geti k s = Ret (inodes s !!! k) s)), (list_lookup_total_correct _ _ _ Hip).
    assert (Hb : (0 <? i_ref ip) && (i_dev ip =? dev) && (i_inum ip =? inum) = bool_decide (refers dev inum ip)).
    { apply eq_true_iff_eq. rewrite bool_decide_eq_true. unfold refers. rewrite !andb_true_iff, Z.ltb_lt, !Z.eqb_eq. tauto. }
    rewrite Hb. destruct (decide (refers dev inum ip)) as [Hr|Hr].
    + rewrite bool_decide_true by done. exists empty. rewrite Nat.add_0_r. done.
    + rewrite bool_decide_false by done. rewrite first_empty_cons.
      specialize (IH (S k) (match empty with None => if i_ref ip =? 0 then Some k else None | Some _ => empty end) s ltac:(lia)).
      destruct (list_find (refers dev inum) (drop (S k) (inodes s))) as [[j jp]|]; cbn [fmap option_fmap option_map prod_map fst snd]; [|done].
      destruct IH as [e IH]. exists e. rewrite IH. by replace (k + S j)%nat with (S k + j)%nat by lia.
Qed.

Lemma iget_eq p dev inum s : calm s p -> locks s !! LItable = None -> length (inodes s) = NINODE ->
  iget dev inum s = match itable_get dev inum (inodes s) with
                    | Some (i, l) => Ret i (set_inodes l s)
                    | None => Stop (Panicked "iget: no inodes")
                    end.
Proof.
  intros Hc Hl Hlen. unfold iget. rewrite (bind_Ret _ _ _ _ _ (acquire_eq LItable s Hl)). set (s1 := acquired LItable s).
  pose proof (iget_scan_eq dev inum NINODE 0 None s1 (eq_sym Hlen)) as Hs. rewrite drop_0 in Hs. change (inodes s1) with (inodes s) in Hs.
  unfold itable_get. destruct (list_find (refers dev inum) (inodes s)) as [[j jp]|].
  - destruct Hs as [e Hs]. rewrite (bind_Ret _ _ _ _ _ Hs). cbn [Nat.add].
    by rewrite (bind_Ret _ _ _ _ _ (critical_calm LItable (set_inodes (alter bump j (inodes s))) s p Hc Hl ltac:(done) eq_refl)).
  - rewrite (bind_Ret _ _ _ _ _ Hs). cbn [first_empty]. destruct (list_find unused (inodes s)) as [[i ip]|]; cbn [fmap option_fmap option_map fst]; [|done].
    cbn [Nat.add].
    set (f := set_inodes (alter (fresh dev inum) i (inodes s))).
    assert (E : forall k, (modi i (set_i_dev dev);; modi i (set_i_inum inum);; modi i (set_i_ref 1);; modi i (set_i_valid false);; k) s1 =
      k (f s1) :> outcome kernel nat).
    { intros k. unfold modi, modify, bind. cbn [obind]. f_equal. unfold f. cbn [inodes set_inodes]. change (inodes s1) with (inodes s).
      by rewrite !alter_alter. }
    rewrite E. by rewrite (bind_Ret _ _ _ _ _ (critical_calm LItable f s p Hc Hl ltac:(done) eq_refl)).
Qed.

(** ** One entry per inode *)

(** No inode has two entries in use, and no reference count is negative. *)
Definition itable_inv (l : list inode) : Prop :=
  (forall i j ip jp, l !! i = Some ip -> l !! j = Some jp -> 0 < i_ref ip -> 0 < i_ref jp ->
     i_dev ip = i_dev jp -> i_inum ip = i_inum jp -> i = j) /\
  Forall (fun ip => 0 <= i_ref ip) l.

(** The number of references the table has to an inode. *)
Definition refs (dev inum : Z) (l : list inode) : Z :=
  match list_find (refers dev inum) l with Some (_, ip) => i_ref ip | None => 0 end.

Lemma itable_alter_inv l i ip f : itable_inv l -> l !! i = Some ip -> 0 <= i_ref (f ip) ->
  (forall j jp, l !! j = Some jp -> refers (i_dev (f ip)) (i_inum (f ip)) jp -> j = i) -> itable_inv (alter f i l).
Proof.
  intros [Hu Hn] Hi Hr Hone. rewrite (alter_as_insert _ _ _ _ Hi). pose proof (lookup_lt_Some _ _ _ Hi) as Hlt. split.
  - intros j k jp kp Hj Hk Rj Rk Hd Hm. apply list_lookup_insert_Some in Hj as [(<- & <- & _)|[Hji Hj]];
      apply list_lookup_insert_Some in Hk as [(<- & <- & _)|[Hki Hk]]; [done| | |by eapply Hu].
    + symmetry. apply (Hone k kp Hk). by split.
    + apply (Hone j jp Hj). split; [done|]. by split.
  - by apply Forall_insert.
Qed.

Lemma itable_get_spec dev inum l i l' : itable_inv l -> itable_get dev inum l = Some (i, l') ->
  itable_inv l' /\ (forall j, j <> i -> l' !! j = l !! j) /\
  exists ip, l' !! i = Some ip /\ i_dev ip = dev /\ i_inum ip = inum /\ i_ref ip = refs dev inum l + 1 /\
    (refs dev inum l = 0 -> i_valid ip = false).
Proof.
  intros Hinv. pose proof Hinv as [Hu Hn]. unfold itable_get, refs. destruct (list_find (refers dev inum) l) as [[k kp]|] eqn:E.
  - intros [= <- <-]. apply list_find_Some in E as (Hk & (Hr & Hd & Hm) & _). split; [|split].
    + apply (itable_alter_inv l k kp bump Hinv Hk); [cbn; lia|]. intros j jp Hj (Rj & Dj & Mj). cbn in Dj, Mj. by apply (Hu j k jp kp).
    + intros j Hj. by rewrite list_lookup_alter_ne.
    + exists (bump kp). rewrite list_lookup_alter_eq, Hk. do 4 (split; [done|]). lia.
  - destruct (list_find unused l) as [[k kp]|] eqn:E2; [|done]. intros [= <- <-]. apply list_find_Some in E2 as (Hk & Hr & _). split; [|split].
    + apply (itable_alter_inv l k kp (fresh dev inum) Hinv Hk); [done|]. intros j jp Hj Rj. apply list_find_None in E.
      exfalso. exact (Forall_lookup_1 _ _ _ _ E Hj Rj).
    + intros j Hj. by rewrite list_lookup_alter_ne.
    + exists (fresh dev inum kp). rewrite list_lookup_alter_eq, Hk. done.
Qed.

(** iget keeps one table entry per inode: when no inode has two entries and
    the inode has an entry or a slot is free, iget returns the slot of the
    inode, whose reference count is one more than before, with the contents to
    be read from disk when it was not in the table; no other entry changes. *)
Theorem iget_one_entry p dev inum s :
  calm s p -> locks s !! LItable = None -> length (inodes s) = NINODE -> itable_inv (inodes s) ->
  0 < refs dev inum (inodes s) \/ Exists unused (inodes s) ->
  exists i s' ip, iget dev inum s = Ret i s' /\ s' = set_inodes (inodes s') s /\ itable_inv (inodes s') /\
    inodes s' !! i = Some ip /\ i_dev ip = dev /\ i_inum ip = inum /\ i_ref ip = refs dev inum (inodes s) + 1 /\
    (refs dev inum (inodes s) = 0 -> i_valid ip = false) /\ forall j, j <> i -> inodes s' !! j = inodes s !! j.
Proof.
  intros Hc Hl Hlen Hinv Hav. rewrite (iget_eq p dev inum s Hc Hl Hlen).
  assert (exists i l', itable_get dev inum (inodes s) = Some (i, l')) as (i & l' & E).
  { unfold itable_get, refs in *. destruct (list_find (refers dev inum) (inodes s)) as [[k kp]|]; [eauto|].
    destruct Hav as [?|Hex]; [lia|]. destruct (list_find unused (inodes s)) as [[k kp]|] eqn:E2; [eauto|].
    apply list_find_None in E2. apply Exists_exists in Hex as (x & Hx & Hux). rewrite Forall_forall in E2. by apply E2 in Hx. }
  rewrite E. destruct (itable_get_spec dev inum (inodes s) i l' Hinv E) as (Hinv' & Hoth & ip & Hip & Hd & Hm & Hr & Hv).
  exists i, (set_inodes l' s), ip. by repeat (split; [done|]).
Qed.

(** The table the kernel starts with has only free slots. *)
Lemma iget_one_entry_witness : exists i s' ip, iget 1 7 ex_cache = Ret i s' /\ inodes s' !! i = Some ip /\
  i_dev ip = 1 /\ i_inum ip = 7 /\ i_ref ip = 1.
Proof.
  assert (E : inodes ex_cache = replicate NINODE inode0) by reflexivity.
  destruct (iget_one_entry 3 1 7 ex_cache) as (i & s' & ip & Eg & _ & _ & Hi & Hd & Hm & Hr & _).
  - apply ex_cache_idle.
  - apply (idle_lk _ 3), ex_cache_idle.
  - rewrite E. apply length_replicate.
  - rewrite E. split; [|by apply Forall_replicate].
    intros i j ip jp Hi Hj Hr. apply lookup_replicate in Hi as [-> _]. done.
  - right. rewrite E. apply Exists_exists. exists inode0. split; [|done]. apply list_elem_of_lookup. exists 0%nat. reflexivity.
  - rewrite E in Hr. exists i, s', ip. split; [exact Eg|]. split; [exact Hi|]. split; [exact Hd|]. split; [exact Hm|exact Hr].
Defined.
