(* ===== verification/FsAlloc.v ===== *)
(** The block allocator: the free map as a set of blocks, balloc and bfree. *)

From S2P Require Import Prelude Outcome Mem State Spinlock KString Kalloc Vm Proc ProcSpec Sleeplock Calm Bytes Disk Bio BioSpec BioView BioCheck Log LogSpec LogCrash LogWrite Uart Printf PrintfSpec Fs Itable FsData FsSpec FsTrans FsOpen.

(** ** Bits of a block *)

Lemma land_bit y j : 0 <= j -> negb (Z.land y (Z.shiftl 1 j) =? 0) = Z.testbit y j.
Proof.
  intros Hj. rewrite Z.shiftl_1_l. destruct (Z.testbit y j) eqn:E.
  - destruct (Z.eqb_spec (Z.land y (2 ^ j)) 0) as [Hz|]; [|done]. exfalso.
    assert (Hb : Z.testbit (Z.land y (2 ^ j)) j = true) by (rewrite Z.land_spec, E, Z.pow2_bits_true by done; done).
    rewrite Hz, Z.bits_0 in Hb. done.
  - assert (Z.land y (2 ^ j) = 0) as ->; [|done]. apply Z.bits_inj'. intros i Hi. rewrite Z.land_spec, Z.bits_0.
    destruct (Z.eq_dec i j) as [->|Hne]; [by rewrite E|]. rewrite Z.pow2_bits_false by congruence. apply andb_false_r.
Qed.

Lemma bit_test_eq d b : bit_test d b = Z.testbit (d !!! Z.to_nat (b / 8)) (b mod 8).
Proof. unfold bit_test, bit_mask. apply land_bit, Z.mod_pos_bound. lia. Qed.

Lemma u8_testbit x n : 0 <= n < 8 -> Z.testbit (u8 x) n = Z.testbit x n.
Proof. intros Hn. apply Z.mod_pow2_bits_low. lia. Qed.

Lemma bit_test_set d a b : 0 <= a < 8 * Z.of_nat (length d) -> 0 <= b -> bit_test (bit_set d a) b = (a =? b) || bit_test d b.
Proof.
  intros Ha Hb. rewrite !bit_test_eq. unfold bit_set. pose proof (Z.mod_pos_bound a 8 ltac:(lia)). pose proof (Z.mod_pos_bound b 8 ltac:(lia)).
  pose proof (Z.div_mod a 8 ltac:(lia)). pose proof (Z.div_mod b 8 ltac:(lia)).
  destruct (lookup_lt_is_Some_2 d (Z.to_nat (a / 8))) as [x Ex]; [apply Nat2Z.inj_lt; rewrite Z2Nat.id by (apply Z.div_pos; lia); apply Z.div_lt_upper_bound; lia|].
  assert (0 <= a / 8) by (apply Z.div_pos; lia). assert (0 <= b / 8) by (apply Z.div_pos; lia).
  rewrite (alter_as_insert _ _ _ _ Ex). destruct (Z.eq_dec (a / 8) (b / 8)) as [E|E].
  - rewrite <- E, list_lookup_total_insert_eq by (by eapply lookup_lt_Some). rewrite (list_lookup_total_correct _ _ _ Ex).
    rewrite u8_testbit, Z.lor_spec by lia. unfold bit_mask. rewrite Z.shiftl_1_l. rewrite orb_comm. f_equal.
    destruct (Z.eqb_spec a b) as [->|Hne]; [apply Z.pow2_bits_true; lia|]. apply Z.pow2_bits_false. lia.
  - rewrite list_lookup_total_insert_ne by lia. by destruct (Z.eqb_spec a b); [congruence|].
Qed.

Lemma bit_test_clear d a b : 0 <= a < 8 * Z.of_nat (length d) -> 0 <= b -> bit_test (bit_clear d a) b = negb (a =? b) && bit_test d b.
Proof.
  intros Ha Hb. rewrite !bit_test_eq. unfold bit_clear. pose proof (Z.mod_pos_bound a 8 ltac:(lia)). pose proof (Z.mod_pos_bound b 8 ltac:(lia)).
  pose proof (Z.div_mod a 8 ltac:(lia)). pose proof (Z.div_mod b 8 ltac:(lia)).
  destruct (lookup_lt_is_Some_2 d (Z.to_nat (a / 8))) as [x Ex]; [apply Nat2Z.inj_lt; rewrite Z2Nat.id by (apply Z.div_pos; lia); apply Z.div_lt_upper_bound; lia|].
  assert (0 <= a / 8) by (apply Z.div_pos; lia). assert (0 <= b / 8) by (apply Z.div_pos; lia).
  rewrite (alter_as_insert _ _ _ _ Ex). destruct (Z.eq_dec (a / 8) (b / 8)) as [E|E].
  - rewrite <- E, list_lookup_total_insert_eq by (by eapply lookup_lt_Some). rewrite (list_lookup_total_correct _ _ _ Ex).
    rewrite u8_testbit, Z.land_spec, Z.lnot_spec by lia. unfold bit_mask. rewrite Z.shiftl_1_l. rewrite andb_comm. f_equal. f_equal.
    destruct (Z.eqb_spec a b) as [->|Hne]; [apply Z.pow2_bits_true; lia|]. apply Z.pow2_bits_false. lia.
  - rewrite list_lookup_total_insert_ne by lia. by destruct (Z.eqb_spec a b); [congruence|].
Qed.

(** A word of an empty block. *)
Lemma get32_zero k : 0 <= k -> k + 4 <= BSIZE -> get32 zero_block k = 0.
Proof.
  intros H0 Hk. unfold get32, sub, zero_block. rewrite drop_replicate, take_replicate.
  replace (Nat.min 4 (Z.to_nat BSIZE - Z.to_nat k)) with 4%nat by (unfold BSIZE in *; lia). done.
Qed.

(** ** The free map *)

(** The bit of block [b]. *)
Definition in_use (V : Z -> list Z) (sp : superblock) (b : Z) : bool := bit_test (V (BBLOCK b sp)) (b mod BPB).

(** The blocks of the map. *)
Definition nbmaps (sp : superblock) : Z := (sb_size sp + BPB - 1) / BPB.
Definition bmaps (sp : superblock) : list Z := (fun k => sb_bmapstart sp + k) <$> seqZ 0 (nbmaps sp).

(** The map lies on the disk, and the boot block and the map itself are marked as
    in use; the numbers that balloc counts with are ints. *)
Record fmap_ok (V : Z -> list Z) (sp : superblock) : Prop := {
  fm_size : 0 < sb_size sp < 2 ^ 31 - BPB;
  fm_start : 0 <= sb_bmapstart sp /\ sb_bmapstart sp + nbmaps sp <= sb_size sp;
  fm_boot : in_use V sp 0 = true;
  fm_self : forall b, b ∈ bmaps sp -> in_use V sp b = true;
  fm_len : forall b, length (V b) = Z.to_nat BSIZE
}.

Section map.
Context (V : Z -> list Z) (sp : superblock) (Hm : fmap_ok V sp).

Lemma bblock_eq b : 0 <= b < sb_size sp -> BBLOCK b sp = sb_bmapstart sp + b / BPB /\ 0 <= b / BPB < nbmaps sp.
Proof.
  intros Hb. pose proof (fm_size _ _ Hm). pose proof (fm_start _ _ Hm).
  assert (Hd : 0 <= b / BPB < nbmaps sp).
  { split; [apply Z.div_pos; unfold BPB, BSIZE; lia|]. unfold nbmaps. apply Z.div_lt_upper_bound; [unfold BPB, BSIZE; lia|].
    pose proof (Z.div_mod (sb_size sp + BPB - 1) BPB ltac:(unfold BPB, BSIZE; lia)).
    pose proof (Z.mod_pos_bound (sb_size sp + BPB - 1) BPB ltac:(unfold BPB, BSIZE; lia)). lia. }
  split; [|done]. unfold BBLOCK. rewrite u32_small; [lia|]. unfold BPB, BSIZE in *. lia.
Qed.

Lemma bblock_in b : 0 <= b < sb_size sp -> BBLOCK b sp ∈ bmaps sp.
Proof. intros Hb. destruct (bblock_eq b Hb) as [-> ?]. apply list_elem_of_fmap. exists (b / BPB). split; [done|]. apply elem_of_seqZ. lia. Qed.

Lemma bmaps_range b : b ∈ bmaps sp -> 0 <= b < sb_size sp.
Proof. intros Hb. apply list_elem_of_fmap in Hb as (k & -> & Hk). apply elem_of_seqZ in Hk. pose proof (fm_start _ _ Hm). lia. Qed.

(** Bits of different blocks. *)
Lemma bit_apart b c : 0 <= b < sb_size sp -> 0 <= c < sb_size sp -> BBLOCK b sp = BBLOCK c sp -> (b mod BPB =? c mod BPB) = (b =? c).
Proof.
  intros Hb Hc E. destruct (bblock_eq b Hb) as [Eb _], (bblock_eq c Hc) as [Ec _].
  pose proof (Z.div_mod b BPB ltac:(unfold BPB, BSIZE; lia)). pose proof (Z.div_mod c BPB ltac:(unfold BPB, BSIZE; lia)).
  destruct (Z.eqb_spec b c) as [->|Hne]; [apply Z.eqb_refl|]. apply Z.eqb_neq. intros Hmod. apply Hne. assert (b / BPB = c / BPB) as Hd by lia. rewrite Hd, Hmod in *. lia.
Qed.

Lemma mod_bits b x : 0 <= b mod BPB < 8 * Z.of_nat (length (V x)).
Proof. rewrite (fm_len _ _ Hm). pose proof (Z.mod_pos_bound b BPB ltac:(unfold BPB, BSIZE; lia)). unfold BPB, BSIZE in *. lia. Qed.

Lemma in_use_fset x v c : x ∉ bmaps sp -> 0 <= c < sb_size sp -> in_use (fset V x v) sp c = in_use V sp c.
Proof. intros Hx Hc. unfold in_use, fset. rewrite decide_False; [done|]. intros E. apply Hx. rewrite <- E. by apply bblock_in. Qed.

(** Block [b] marked, and cleared. *)
Definition mark (b : Z) : Z -> list Z := fset V (BBLOCK b sp) (bit_set (V (BBLOCK b sp)) (b mod BPB)).
Definition unmark (b : Z) : Z -> list Z := fset V (BBLOCK b sp) (bit_clear (V (BBLOCK b sp)) (b mod BPB)).

Lemma in_use_mark b c : 0 <= b < sb_size sp -> 0 <= c < sb_size sp -> in_use (mark b) sp c = (b =? c) || in_use V sp c.
Proof.
  intros Hb Hc. unfold in_use, mark, fset. case_decide as E.
  - rewrite bit_test_set by (apply mod_bits || apply Z.mod_pos_bound; done). rewrite E. by rewrite bit_apart.
  - destruct (Z.eqb_spec b c) as [->|]; [done|]. done.
Qed.

Lemma in_use_unmark b c : 0 <= b < sb_size sp -> 0 <= c < sb_size sp -> in_use (unmark b) sp c = negb (b =? c) && in_use V sp c.
Proof.
  intros Hb Hc. unfold in_use, unmark, fset. case_decide as E.
  - rewrite bit_test_clear by (apply mod_bits || apply Z.mod_pos_bound; done). rewrite E. by rewrite bit_apart.
  - destruct (Z.eqb_spec b c) as [->|]; [done|]. done.
Qed.

(** A block that is free is none of the map. *)
Lemma free_not_map b : in_use V sp b = false -> b ∉ bmaps sp.
Proof. intros Hf Hb. by rewrite (fm_self _ _ Hm b Hb) in Hf. Qed.

(** Allocation: marked and zeroed. *)
Definition alloc_block (b : Z) : Z -> list Z := fset (mark b) b zero_block.

Lemma alloc_block_facts b : 0 <= b < sb_size sp -> in_use V sp b = false ->
  fmap_ok (alloc_block b) sp /\ (forall c, 0 <= c < sb_size sp -> in_use (alloc_block b) sp c = (b =? c) || in_use V sp c) /\
  alloc_block b b = zero_block /\ (forall c, c <> b -> c ∉ bmaps sp -> alloc_block b c = V c) /\ 0 < b.
Proof.
  intros Hb Hf. pose proof (free_not_map b Hf) as Hnm. pose proof (fm_size _ _ Hm) as Hsz.
  assert (Hu : forall c, 0 <= c < sb_size sp -> in_use (alloc_block b) sp c = (b =? c) || in_use V sp c).
  { intros c Hc. unfold alloc_block. rewrite <- in_use_mark by done. unfold in_use, fset. rewrite decide_False; [done|].
    intros E. apply Hnm. rewrite <- E. by apply bblock_in. }
  split; [|split; [done|split; [|split]]].
  - destruct Hm as [? ? Hboot Hself Hlen]. split; try done.
    + rewrite Hu, Hboot by lia. apply orb_true_r.
    + intros c Hc. rewrite Hu, Hself by (done || by apply bmaps_range). apply orb_true_r.
    + intros c. unfold alloc_block, mark, fset. repeat case_decide; [apply length_replicate| |apply Hlen]. unfold bit_set. by rewrite length_alter, Hlen.
  - unfold alloc_block, fset. by rewrite decide_True.
  - intros c Hne Hc. unfold alloc_block, mark, fset. rewrite decide_False by done. rewrite decide_False; [done|]. intros ->. apply Hc. by apply bblock_in.
  - destruct (Z.eq_dec b 0) as [->|]; [|lia]. by rewrite (fm_boot _ _ Hm) in Hf.
Qed.
End map.

(** The inner loop of balloc finds the first clear bit. *)
Lemma balloc_scan_spec n : forall d b bi size,
  match balloc_scan n d b bi size with
  | Some x => bi <= x < bi + Z.of_nat n /\ b + x < size /\ bit_test d x = false /\ forall y, bi <= y < x -> bit_test d y = true
  | None => forall y, bi <= y < bi + Z.of_nat n -> b + y < size -> bit_test d y = true
  end.
Proof.
  induction n as [|n IH]; intros d b bi size; cbn [balloc_scan]; [intros; lia|].
  destruct (Z.ltb_spec (b + bi) size); cbn [negb]; [|intros; lia]. destruct (bit_test d bi) eqn:E; cbn [negb].
  - specialize (IH d b (bi + 1) size). destruct (balloc_scan n d b (bi + 1) size) as [x|].
    + destruct IH as (? & ? & ? & Hy). split; [lia|]. do 2 (split; [done|]). intros y ?. destruct (Z.eq_dec y bi) as [->|]; [done|apply Hy; lia].
    + intros y ? ?. destruct (Z.eq_dec y bi) as [->|]; [done|apply IH; lia].
  - split; [lia|]. do 2 (split; [done|]). intros; lia.
Qed.

Lemma subset_room s T X k : T ⊆ X -> NoDup T -> room s X k -> room s T k.
Proof.
  intros Hs Hnd. assert (length T <= length X)%nat by (apply submseteq_length, NoDup_submseteq; done). unfold room. lia.
Qed.

Lemma add_home_in b X : b ∈ add_home b X /\ X ⊆ add_home b X.
Proof. unfold add_home. case_decide; set_solver. Qed.

Lemma add_all_in T l : T ⊆ foldr add_home T l /\ l ⊆ foldr add_home T l.
Proof. induction l as [|b l IH]; [set_solver|]. cbn [foldr]. destruct (add_home_in b (foldr add_home T l)). set_solver. Qed.

Lemma add_home_subset b T X : T ⊆ X -> b ∈ X -> add_home b T ⊆ X.
Proof. unfold add_home. case_decide; set_solver. Qed.

(** The cache, the in-memory log and the uart changed, and nothing else. *)
Definition fs_only (s s' : kernel) : Prop := s' = set_uart_ (uart_ s') (set_log (log s') (set_bufs (bufs s') s)).

Lemma tx_fs_only s s' : tx_only s s' -> fs_only s s'.
Proof. unfold tx_only, fs_only. intros E. rewrite E. by destruct s. Qed.

Lemma fs_only_trans s1 s2 s3 : fs_only s1 s2 -> fs_only s2 s3 -> fs_only s1 s3.
Proof. unfold fs_only. intros E1 E2. rewrite E1 in E2. exact E2. Qed.

Section balloc.
Context `{Fuel} `{DiskLaws} (D : Z) (p : nat) (Hfuel : (0 < fuel)%nat).

(** The blocks the transaction may have to log, [X], with room for [k] more. *)
Record fits (s : kernel) (T X : list Z) (k : Z) : Prop := { ft_sub : T ⊆ X; ft_room : room s X k }.

Lemma fits_step s s' T X k b : fits s T X k -> lg_size (log s') = lg_size (log s) -> fits s' (add_home b T) (add_home b X) (k - 1).
Proof.
  intros [Hs Hr] E. split; [destruct (add_home_in b X); apply add_home_subset; set_solver|].
  unfold room in *. rewrite E. pose proof (add_home_length Hfuel b X). lia.
Qed.

Lemma fits_same s s' T X k b : fits s T X k -> b ∈ X -> lg_size (log s') = lg_size (log s) -> fits s' (add_home b T) X k.
Proof. clear Hfuel. intros [Hs Hr] Hb E. split; [by apply add_home_subset|]. unfold room in *. by rewrite E. Qed.

(** One block of the map. *)
Lemma balloc_one_eq s V T O X k j : topen D p s V T O -> fmap_ok V (sb s) -> (forall x, x ∈ O -> in_use V (sb s) x = true /\ x ∉ bmaps (sb s)) ->
  fits s T X k -> bmaps (sb s) ⊆ X -> Z.of_nat (size O) + 1 < k -> 0 <= j < nbmaps (sb s) ->
  (exists x s' T', j * BPB <= x < sb_size (sb s) /\ in_use V (sb s) x = false /\ (forall y, j * BPB <= y < x -> in_use V (sb s) y = true) /\
    balloc_one D (j * BPB) s = Ret (Some x) s' /\ tx_only s s' /\ topen D p s' (alloc_block V (sb s) x) T' O /\ kept_open D O s s' /\
    fits s' T' (add_home x X) (k - 1)) \/
  ((forall y, j * BPB <= y < (j + 1) * BPB -> y < sb_size (sb s) -> in_use V (sb s) y = true) /\
    exists s', balloc_one D (j * BPB) s = Ret None s' /\ bufs_only s s' /\ topen D p s' V T O /\ kept_open D O s s').
Proof.
  intros Ht Hm HO Hft HbX Hk Hj. set (sp := sb s) in *. pose proof (fm_size _ _ Hm) as Hsz.
  assert (Hjs : 0 <= j * BPB < sb_size sp).
  { unfold nbmaps in Hj. pose proof (Z.div_mod (sb_size sp + BPB - 1) BPB ltac:(unfold BPB, BSIZE; lia)).
    pose proof (Z.mod_pos_bound (sb_size sp + BPB - 1) BPB ltac:(unfold BPB, BSIZE; lia)). unfold BPB, BSIZE in *. nia. }
  assert (Hsame : forall y, j * BPB <= y < (j + 1) * BPB -> y < sb_size sp -> BBLOCK y sp = BBLOCK (j * BPB) sp /\ y mod BPB = y - j * BPB).
  { intros y Hy Hlt. destruct (bblock_eq V sp Hm y ltac:(lia)) as [-> _]. destruct (bblock_eq V sp Hm (j * BPB) Hjs) as [-> _].
    rewrite <- (Z.div_unique_pos y BPB j (y - j * BPB)) by lia. rewrite Z.div_mul by (unfold BPB, BSIZE; lia).
    split; [done|]. symmetry. apply (Z.mod_unique_pos _ _ j); lia. }
  set (bb := BBLOCK (j * BPB) sp) in *. pose proof (bblock_in V sp Hm _ Hjs) as Hbb. fold bb in Hbb.
  assert (Hb32 : 0 <= bb < 2 ^ 32) by (apply (bmaps_range V sp Hm) in Hbb; unfold BPB, BSIZE in *; lia).
  assert (HbO : bb ∉ O) by (intros Hin; by apply (HO bb Hin)).
  assert (HrT : room s T k) by (destruct Hft; by eapply subset_room; [|apply (to_nodup _ _ _ _ _ _ Ht)|]).
  destruct (topen_cycle D p Hfuel s V T O bb k Ht HbO Hb32 HrT ltac:(lia)) as (i & s1 & E1 & C1 & Hd & _ & (sr & Er & Cr & Htr & Kr) & Hcyc).
  unfold balloc_one. rewrite (bind_Ret _ _ _ _ _ (eq_refl : gets sb s = Ret sp s)). fold bb. rewrite (bind_Ret _ _ _ _ _ E1).
  rewrite (bind_Ret _ _ _ _ _ (eq_refl : getb i s1 = Ret (bufs s1 !!! i) s1)), Hd.
  pose proof (balloc_scan_spec (Z.to_nat BPB) (V bb) (j * BPB) 0 (sb_size sp)) as Hscan. rewrite Z2Nat.id in Hscan by (unfold BPB, BSIZE; lia).
  destruct (balloc_scan (Z.to_nat BPB) (V bb) (j * BPB) 0 (sb_size sp)) as [bi|].
  - left. destruct Hscan as (Hbi & Hlt & Hfree & Hbefore). set (x := j * BPB + bi) in *.
    destruct (Hsame x ltac:(lia) Hlt) as [Hxb Hxm]. assert (Ebi : bi = x mod BPB) by lia.
    assert (Hxf : in_use V sp x = false) by (unfold in_use; rewrite Hxb, <- Ebi; done).
    destruct (Hcyc (fun d => bit_set d bi)) as (s2 & s3 & s4 & E2 & E3 & E4 & C4 & Ht4 & K4 & Sz4).
    rewrite (bind_Ret _ _ _ _ _ E2), (bind_Ret _ _ _ _ _ E3), (bind_Ret _ _ _ _ _ E4).
    assert (Em : fset V bb (bit_set (V bb) bi) = mark V sp x) by (unfold mark; rewrite Hxb, <- Ebi; done). rewrite Em in Ht4.
    assert (Hft4 : fits s4 (add_home bb T) X k) by (apply (fits_same s); [done|by apply HbX|done]).
    assert (HxO : x ∉ O) by (intros Hin; destruct (HO x Hin) as [Hu _]; congruence).
    destruct (topen_cycle D p Hfuel s4 _ _ O x k Ht4 HxO) as (i5 & s5 & E5 & _ & _ & _ & _ & Hcyc5);
      [unfold BPB, BSIZE in *; lia|destruct Hft4; by eapply subset_room; [|apply (to_nodup _ _ _ _ _ _ Ht4)|]|lia|].
    destruct (Hcyc5 (fun _ => zero_block)) as (s6 & s7 & s8 & E6 & E7 & E8 & C8 & Ht8 & K8 & Sz8).
    assert (Ez : bzero D x s4 = Ret tt s8).
    { unfold bzero. rewrite u32_small by (unfold BPB, BSIZE in *; lia). by rewrite (bind_Ret _ _ _ _ _ E5), (bind_Ret _ _ _ _ _ E6), (bind_Ret _ _ _ _ _ E7). }
    rewrite (bind_Ret _ _ _ _ _ Ez). exists x, s8, (add_home x (add_home bb T)). split; [lia|]. split; [done|]. split.
    { intros y Hy. destruct (Hsame y ltac:(lia) ltac:(lia)) as [Ey Emy]. unfold in_use. rewrite Ey, Emy. apply Hbefore. lia. }
    split; [done|]. split; [by eapply tx_only_trans|]. split; [done|]. split; [intros q c Hc Hq; by apply K8, K4|].
    by apply (fits_step s4).
  - right. split.
    { intros y Hy Hlt. destruct (Hsame y Hy Hlt) as [Ey Emy]. unfold in_use. rewrite Ey, Emy. apply Hscan; lia. }
    exists sr. rewrite (bind_Ret _ _ _ _ _ Er). done.
Qed.
(** The search through the map, from its block [j] on. *)
Lemma balloc_loop V X O T sp k n : forall s j, sb s = sp -> topen D p s V T O -> fmap_ok V sp ->
  (forall x, x ∈ O -> in_use V sp x = true /\ x ∉ bmaps sp) -> fits s T X k -> bmaps sp ⊆ X -> Z.of_nat (size O) + 1 < k ->
  0 <= j -> j + Z.of_nat n = nbmaps sp -> (forall y, 0 <= y < j * BPB -> y < sb_size sp -> in_use V sp y = true) ->
  (exists x s' T', 0 <= x < sb_size sp /\ in_use V sp x = false /\ (forall y, 0 <= y < x -> in_use V sp y = true) /\
    scan ((fun k => k * BPB) <$> seqZ j (Z.of_nat n)) (balloc_one D) s = Ret (Some x) s' /\ tx_only s s' /\
    topen D p s' (alloc_block V sp x) T' O /\ kept_open D O s s' /\ fits s' T' (add_home x X) (k - 1)) \/
  ((forall y, 0 <= y < sb_size sp -> in_use V sp y = true) /\
    exists s', scan ((fun k => k * BPB) <$> seqZ j (Z.of_nat n)) (balloc_one D) s = Ret None s' /\ bufs_only s s' /\ topen D p s' V T O /\ kept_open D O s s').
Proof.
  induction n as [|n IH]; intros s j Esp Ht Hm HO Hft HbX Hk Hj0 Hn Hbefore.
  - right. split; [|exists s; split; [done|]; split; [apply bufs_only_refl|]; split; [done|by intros ? ? ?]]. intros y Hy. apply Hbefore; [|lia].
    destruct (bblock_eq V sp Hm y Hy) as [_ Hd]. pose proof (Z.div_mod y BPB ltac:(unfold BPB, BSIZE; lia)).
    pose proof (Z.mod_pos_bound y BPB ltac:(unfold BPB, BSIZE; lia)). assert (Hle : y / BPB + 1 <= j) by lia.
    apply (Z.mul_le_mono_nonneg_r _ _ BPB) in Hle; [lia|unfold BPB, BSIZE; lia].
  - rewrite seqZ_cons by lia. cbn [fmap list_fmap scan]. replace (Z.pred (Z.of_nat (S n))) with (Z.of_nat n) by lia.
    destruct (balloc_one_eq s V T O X k j) as [(x & s' & T' & Hx & Hf & Hb & E & C & Ht' & K & Hft')|(Hall & s' & E & C & Ht' & K)];
      rewrite ?Esp in *; try done; [lia| |].
    + left. rewrite (bind_Ret _ _ _ _ _ E). exists x, s', T'. assert (0 <= j * BPB) by (unfold BPB, BSIZE; lia). split; [lia|]. split; [done|].
      split; [|done]. intros y Hy. destruct (Z.lt_ge_cases y (j * BPB)); [apply Hbefore; lia|apply Hb; lia].
    + rewrite (bind_Ret _ _ _ _ _ E). destruct (bufs_tx_only _ _ C) as [Ct El].
      destruct (IH s' (Z.succ j)) as [(x & s2 & T2 & Hx & Hf & Hb & E2 & C2 & Ht2 & K2 & Hft2)|(Hall2 & s2 & E2 & C2 & Ht2 & K2)]; try done; try lia.
      * destruct (bufs_only_inodes _ _ C) as (_ & _ & ->). done.
      * destruct Hft as [? Hr]. split; [done|]. unfold room in *. by rewrite El.
      * intros y Hy Hlt. destruct (Z.lt_ge_cases y (j * BPB)); [apply Hbefore; lia|apply Hall; lia].
      * left. exists x, s2, T2. do 4 (split; [done|]). split; [by eapply tx_only_trans|]. split; [done|]. split; [|done]. intros q c Hc Hq. by apply K2, K.
      * right. split; [done|]. exists s2. split; [done|]. split; [by eapply bufs_only_trans|]. split; [done|]. intros q c Hc Hq. by apply K2, K.
Qed.

Lemma topen_set_uart s V T O u : topen D p s V T O -> topen D p (set_uart_ u s) V T O.
Proof. clear Hfuel. intros [Hv ? ? ? ? ? ?]. split; try done. revert Hv. cview_field (set_uart_ u). Qed.

Definition full_message : list Z := cstr_nl "balloc: out of blocks".

(** balloc takes the first free block, or says that there is none. *)
Lemma balloc_eq s V T O X k : topen D p s V T O -> fmap_ok V (sb s) -> (forall x, x ∈ O -> in_use V (sb s) x = true /\ x ∉ bmaps (sb s)) ->
  fits s T X k -> bmaps (sb s) ⊆ X -> Z.of_nat (size O) + 1 < k -> panicked s = false ->
  (exists x s' T', 0 < x < sb_size (sb s) /\ in_use V (sb s) x = false /\ (forall y, 0 <= y < x -> in_use V (sb s) y = true) /\
    balloc D s = Ret x s' /\ fs_only s s' /\ uart_ s' = uart_ s /\ topen D p s' (alloc_block V (sb s) x) T' O /\ kept_open D O s s' /\ fits s' T' (add_home x X) (k - 1)) \/
  ((forall y, 0 <= y < sb_size (sb s) -> in_use V (sb s) y = true) /\
    exists s', balloc D s = Ret 0 s' /\ fs_only s s' /\ uart_ s' = foldl send1 (uart_ s) (take 22 full_message) /\ log s' = log s /\ topen D p s' V T O /\ kept_open D O s s').
Proof.
  intros Ht Hm HO Hft HbX Hk Hup. pose proof (fm_size _ _ Hm) as Hsz. assert (Hnb : 0 <= nbmaps (sb s)) by (apply Z.div_pos; unfold BPB, BSIZE in *; lia).
  unfold balloc. rewrite (bind_Ret _ _ _ _ _ (eq_refl : gets sb s = Ret (sb s) s)). fold (nbmaps (sb s)).
  destruct (balloc_loop V X O T (sb s) k (Z.to_nat (nbmaps (sb s))) s 0) as [(x & s' & T' & Hx & Hf & Hb & E & C & Ht' & K & Hft')|(Hall & s' & E & C & Ht' & K)];
    try done; try lia; rewrite Z2Nat.id in E by done; rewrite (bind_Ret _ _ _ _ _ E).
  - left. exists x, s', T'. destruct (alloc_block_facts V (sb s) Hm x Hx Hf) as (_ & _ & _ & _ & ?). split; [lia|]. do 3 (split; [done|]).
    split; [by apply tx_fs_only|]. split; [by rewrite C|]. done.
  - right. split; [done|]. destruct (to_cache _ _ _ _ _ _ Ht') as [[Hc Hl] _].
    rewrite (bind_Ret _ _ _ _ _ (printf_eq _ [] s' ltac:(split; [apply Hc|apply Hc|by rewrite C]) ltac:(by rewrite Hl))).
    eexists. split; [done|]. split; [|split; [|split; [|split]]].
    + unfold sent. rewrite C. by destruct s.
    + rewrite C. reflexivity.
    + by rewrite C.
    + by apply topen_set_uart.
    + intros q c Hcq Hq. by apply K in Hq.
Qed.
Lemma bfree_eq s V T O X k b : topen D p s V T O -> fmap_ok V (sb s) -> (forall x, x ∈ O -> x ∉ bmaps (sb s)) ->
  fits s T X k -> bmaps (sb s) ⊆ X -> Z.of_nat (size O) < k -> 0 <= b < sb_size (sb s) ->
  if in_use V (sb s) b
  then exists s' T', bfree D b s = Ret tt s' /\ tx_only s s' /\ topen D p s' (unmark V (sb s) b) T' O /\ kept_open D O s s' /\ fits s' T' X k
  else bfree D b s = Stop (Panicked "freeing free block").
Proof.
  intros Ht Hm HO Hft HbX Hk Hb. pose proof (bblock_in V (sb s) Hm b Hb) as Hbb. pose proof (fm_size _ _ Hm) as Hsz.
  assert (Hb32 : 0 <= BBLOCK b (sb s) < 2 ^ 32) by (apply (bmaps_range V (sb s) Hm) in Hbb; unfold BPB, BSIZE in *; lia).
  destruct (topen_cycle D p Hfuel s V T O (BBLOCK b (sb s)) k Ht) as (i & s1 & E1 & _ & Hd & _ & _ & Hcyc);
    [intros Hin; by apply (HO _ Hin)|done|destruct Hft; by eapply subset_room; [|apply (to_nodup _ _ _ _ _ _ Ht)|]|done|].
  unfold bfree. rewrite (bind_Ret _ _ _ _ _ (eq_refl : gets sb s = Ret (sb s) s)), (bind_Ret _ _ _ _ _ E1).
  rewrite (bind_Ret _ _ _ _ _ (eq_refl : getb i s1 = Ret (bufs s1 !!! i) s1)), Hd. fold (in_use V (sb s) b).
  destruct (in_use V (sb s) b); cbn [negb]; [|done].
  destruct (Hcyc (fun d => bit_clear d (b mod BPB))) as (s2 & s3 & s4 & E2 & E3 & E4 & C4 & Ht4 & K4 & Sz4).
  rewrite (bind_Ret _ _ _ _ _ E2), (bind_Ret _ _ _ _ _ E3). exists s4. eexists. split; [exact E4|]. split; [done|]. split; [exact Ht4|]. split; [done|].
  apply (fits_same s); [done|by apply HbX|done].
Qed.
End balloc.

Lemma unmark_ok V sp b : fmap_ok V sp -> 0 < b < sb_size sp -> b ∉ bmaps sp -> fmap_ok (unmark V sp b) sp.
Proof.
  intros Hm Hb Hnb. pose proof Hm as [? ? Hboot Hself Hlen]. split; try done.
  - rewrite in_use_unmark, Hboot by (done || lia). destruct (Z.eqb_spec b 0); [lia|done].
  - intros c Hc. rewrite in_use_unmark, Hself by (done || lia || by apply (bmaps_range V)). destruct (Z.eqb_spec b c); [by subst|done].
  - intros c. unfold unmark, fset. case_decide; [|apply Hlen]. unfold bit_clear. by rewrite length_alter, Hlen.
Qed.

(** C15. Inside a transaction, balloc takes the first block that is free in the
    free map, marks it and fills it with zeros, and changes nothing else on the
    disk; when no block is free it returns 0 and leaves everything as it is but
    for its message on the console.  bfree of that block makes it free again,
    and a second bfree is detected. *)
Theorem balloc_then_bfree `{Fuel} `{DiskLaws} D p s V T :
  (0 < fuel)%nat -> tview D p s V T -> fmap_ok V (sb s) -> room s (foldr add_home T (bmaps (sb s))) 3 -> panicked s = false ->
  (exists x s1 s2 V1 V2 T1 T2, balloc D s = Ret x s1 /\ bfree D x s1 = Ret tt s2 /\ tview D p s1 V1 T1 /\ tview D p s2 V2 T2 /\
    0 < x < sb_size (sb s) /\ in_use V (sb s) x = false /\ (forall y, 0 <= y < x -> in_use V (sb s) y = true) /\ V1 x = zero_block /\
    (forall y, 0 <= y < sb_size (sb s) -> in_use V1 (sb s) y = (x =? y) || in_use V (sb s) y) /\
    (forall y, y <> x -> y ∉ bmaps (sb s) -> V1 y = V y /\ V2 y = V y) /\
    (forall y, 0 <= y < sb_size (sb s) -> in_use V2 (sb s) y = in_use V (sb s) y) /\
    bfree D x s2 = Stop (Panicked "freeing free block") /\ disk s2 = disk s) \/
  ((forall y, 0 <= y < sb_size (sb s) -> in_use V (sb s) y = true) /\
    exists s1, balloc D s = Ret 0 s1 /\ tview D p s1 V T /\ s1 = set_uart_ (foldl send1 (uart_ s) (take 22 full_message)) (set_bufs (bufs s1) s)).
Proof.
  intros Hfu Ht Hm Hr Hup. apply topen_tview in Ht. set (X := foldr add_home T (bmaps (sb s))) in *.
  assert (HX : T ⊆ X /\ bmaps (sb s) ⊆ X) by apply add_all_in.
  assert (Hft : fits s T X 3) by (by split; [apply HX|]). destruct (fm_size _ _ Hm) as [Hs0 _].
  destruct (balloc_eq D p Hfu s V T ∅ X 3 Ht Hm) as [(x & s1 & T1 & Hx & Hf & Hb & E & C & _ & Ht1 & _ & Hft1)|(Hall & s1 & E & C & Hu & Hl & Ht1 & _)];
    [set_solver|done|apply HX|rewrite size_empty; lia|done| |].
  - left. destruct (alloc_block_facts V (sb s) Hm x ltac:(lia) Hf) as (Hm1 & Hu1 & Hz & Ho & _). set (V1 := alloc_block V (sb s) x) in *.
    assert (Esb : sb s1 = sb s) by (by rewrite C).
    destruct (add_home_in x X) as [_ HsubX].
    pose proof (bfree_eq D p Hfu s1 V1 T1 ∅ (add_home x X) 2 x Ht1) as Hbf. rewrite Esb, Hu1, Z.eqb_refl in Hbf by lia.
    destruct Hbf as (s2 & T2 & E2 & C2 & Ht2 & _ & Hft2); [done|set_solver|done|set_solver|rewrite size_empty; lia|lia|].
    pose proof (free_not_map V (sb s) Hm x Hf) as Hxn. pose proof (unmark_ok V1 (sb s) x Hm1 Hx Hxn) as Hm2.
    assert (Hu2 : forall y, 0 <= y < sb_size (sb s) -> in_use (unmark V1 (sb s) x) (sb s) y = in_use V (sb s) y).
    { intros y Hy. rewrite in_use_unmark, Hu1 by (done || lia). destruct (Z.eqb_spec x y) as [<-|]; [by rewrite Hf|done]. }
    assert (Esb2 : sb s2 = sb s) by (rewrite C2; exact Esb).
    pose proof (bfree_eq D p Hfu s2 _ T2 ∅ (add_home x X) 2 x Ht2) as Hbf2. rewrite Esb2, Hu2, Hf in Hbf2 by lia.
    exists x, s1, s2, V1, (unmark V1 (sb s) x), T1, T2. do 2 (split; [done|]). split; [by apply topen_tview|]. split; [by apply topen_tview|].
    do 5 (split; [done|]). split.
    { intros y Hne Hy. rewrite Ho by done. split; [done|]. unfold unmark, fset. rewrite decide_False; [by rewrite Ho|].
      intros ->. apply Hy. by apply (bblock_in V); [|lia]. }
    split; [done|]. split; [|by rewrite C2, C].
    apply Hbf2; [done|set_solver|done|set_solver|rewrite size_empty; lia|lia].
  - right. split; [done|]. exists s1. split; [done|]. split; [by apply topen_tview|]. unfold fs_only in C. rewrite Hu, Hl in C. etransitivity; [exact C|by destruct s].
Qed.

(** A disk of 2000 blocks of which the first 46 are in use. *)
#[local] Existing Instances ex_fuel sync_disk sync_disk_laws.
Definition ex_map : list Z := replicate 5 255 ++ [63] ++ replicate 1018 0.
Definition ex_map_disk : gmap Z (list Z) := {[45 := ex_map]}.
Definition ex_map_sb : superblock := mkSuperblock 0x10203040 2000 1954 200 30 2 32 45.
Definition ex_map_fs : kernel := set_sb ex_map_sb (set_log ex_open_log (set_disk ex_map_disk ex_cache)).

Lemma ex_disk_cview d : cview 1 3 (set_disk d ex_cache) (read_block d) ∅ ∅.
Proof.
  split; [apply (idle_blind (set_disk d)); [done|done|apply ex_cache_idle]|]. exists (rev (seq 0 NBUF)).
  eapply bview_ext; [apply (cacheb_bview 1 3 (set_disk d ex_cache) (rev (seq 0 NBUF)))| |].
  - symmetry. apply Permutation_rev.
  - by apply binit_cacheb.
  - intros b. by rewrite binit_blk.
  - by apply binit_refs.
Qed.

Lemma ex_map_ok : fmap_ok (read_block ex_map_disk) ex_map_sb.
Proof.
  split; [by vm_compute|by vm_compute|by vm_compute| |].
  - intros b Hb. assert (Hb45 : b ∈ [45]) by exact Hb. apply list_elem_of_singleton in Hb45 as ->. by vm_compute.
  - intros b. unfold read_block, ex_map_disk. destruct (decide (b = 45)) as [->|]; [by rewrite lookup_singleton_eq|].
    rewrite lookup_singleton_ne by done. apply length_replicate.
Qed.

Lemma balloc_then_bfree_witness : exists s1 s2, balloc 1 ex_map_fs = Ret 46 s1 /\ bfree 1 46 s1 = Ret tt s2 /\
  bfree 1 46 s2 = Stop (Panicked "freeing free block").
Proof.
  destruct (balloc_then_bfree 1 3 ex_map_fs (read_block ex_map_disk) []) as [(x & s1 & s2 & V1 & V2 & T1 & T2 & E1 & E2 & _ & _ & Hx & Hf & Hb & _ & _ & _ & _ & E3 & _)|(Hall & _)].
  - apply Nat.ltb_lt. reflexivity.
  - assert (E : log ex_map_fs = ex_open_log) by reflexivity. split; rewrite ?E; [|done|apply NoDup_nil_2|done|done|done].
    apply cview_set_sb, cview_set_log, ex_disk_cview.
  - apply ex_map_ok.
  - split; vm_compute; discriminate.
  - reflexivity.
  - assert (x = 46) as ->; [clear E1 E2 E3|exists s1, s2; split; [exact E1|split; [exact E2|exact E3]]].
    change (sb ex_map_fs) with ex_map_sb in Hf, Hb. destruct (Z.lt_total x 46) as [Hlt|[->|Hlt]]; [|done|].
    + assert (Hall : forallb (fun y => in_use (read_block ex_map_disk) ex_map_sb y) (seqZ 0 46) = true) by (by vm_compute).
      rewrite forallb_forall in Hall. specialize (Hall x). rewrite <- list_elem_of_In, elem_of_seqZ in Hall.
      rewrite Hall in Hf by lia. discriminate Hf.
    + specialize (Hb 46 ltac:(lia)). vm_compute in Hb. discriminate Hb.
  - change (sb ex_map_fs) with ex_map_sb in Hall. specialize (Hall 46 ltac:(by vm_compute)). vm_compute in Hall. discriminate Hall.
Defined.
