(* ===== verification/FsWrite.v ===== *)
(** writei inside a transaction, over blocks the file already has: the bytes of
    the file change where they are written and nowhere else, and readi returns
    what was written. *)

From S2P Require Import Prelude Outcome Mem State Spinlock KString Kalloc Vm Proc ProcSpec Sleeplock Calm Bytes Disk Bio BioSpec BioView BioCheck Log LogSpec LogCrash LogWrite Uart Printf Fs Itable FsData FsSpec FsTrans FsOpen.

(** The block numbers of the file's first [N] blocks are block numbers, differ
    from each other and from that of the indirect block. *)
Record layout (V : Z -> list Z) (ip : inode) (N : Z) : Prop := {
  ly_max : 0 <= N <= MAXFILE;
  ly_addr : forall k, 0 <= k < N -> 0 < addr_of V ip k < 2 ^ 32;
  ly_inj : forall j k, 0 <= j < N -> 0 <= k < N -> addr_of V ip j = addr_of V ip k -> j = k;
  ly_ind : NDIRECT < N -> 0 < i_addrs ip !!! Z.to_nat NDIRECT < 2 ^ 32 /\
    forall k, 0 <= k < N -> addr_of V ip k <> i_addrs ip !!! Z.to_nat NDIRECT;
  ly_len : forall b, length (V b) = Z.to_nat BSIZE
}.

(** [V'] is [V] with [bs] written to the file at [off]: the other bytes of the
    file and the other blocks of the disk are the same. *)
Record wrote (V V' : Z -> list Z) (ip : inode) (N off : Z) (bs : list Z) : Prop := {
  wr_byte : forall j, 0 <= j < N * BSIZE ->
    file_byte V' ip j = if decide (off <= j < off + Z.of_nat (length bs)) then bs !!! Z.to_nat (j - off) else file_byte V ip j;
  wr_other : forall b, (forall k, 0 <= k < N -> b <> addr_of V ip k) -> V' b = V b;
  wr_len : forall b, length (V' b) = Z.to_nat BSIZE
}.

Lemma wrote_addr V V' ip N off bs k : layout V ip N -> wrote V V' ip N off bs -> 0 <= k < N -> addr_of V' ip k = addr_of V ip k.
Proof.
  intros Hl Hw Hk. unfold addr_of. destruct (Z.ltb_spec k NDIRECT); [done|]. f_equal.
  apply (wr_other _ _ _ _ _ _ Hw). intros j Hj He. destruct (ly_ind _ _ _ Hl ltac:(lia)) as [_ Hn]. by apply (Hn j Hj).
Qed.

Lemma wrote_layout V V' ip N off bs : layout V ip N -> wrote V V' ip N off bs -> layout V' ip N.
Proof.
  intros Hl Hw. assert (Ha : forall k, 0 <= k < N -> addr_of V' ip k = addr_of V ip k) by (intros; by eapply wrote_addr).
  destruct Hl as [? Haddr Hinj Hind ?]. split; try done.
  - intros k Hk. rewrite Ha by done. by apply Haddr.
  - intros j k Hj Hk. rewrite !Ha by done. by apply Hinj.
  - intros Hn. destruct (Hind Hn) as [? Hne]. split; [done|]. intros k Hk. rewrite Ha by done. by apply Hne.
  - apply (wr_len _ _ _ _ _ _ Hw).
Qed.

Lemma wrote_nil V ip N off : layout V ip N -> wrote V V ip N off [].
Proof. intros Hl. split; [|done|apply (ly_len _ _ _ Hl)]. intros j Hj. cbn [length]. rewrite decide_False by lia. done. Qed.

Lemma wrote_app V V1 V2 ip N off bs1 bs2 : layout V ip N -> wrote V V1 ip N off bs1 ->
  wrote V1 V2 ip N (off + Z.of_nat (length bs1)) bs2 -> wrote V V2 ip N off (bs1 ++ bs2).
Proof.
  intros Hl H1 H2. split.
  - intros j Hj. rewrite (wr_byte _ _ _ _ _ _ H2 j Hj), (wr_byte _ _ _ _ _ _ H1 j Hj). rewrite length_app.
    destruct (decide (off + Z.of_nat (length bs1) <= j < off + Z.of_nat (length bs1) + Z.of_nat (length bs2))).
    + rewrite decide_True by lia. rewrite lookup_total_app_r by lia. f_equal. lia.
    + destruct (decide (off <= j < off + Z.of_nat (length bs1))).
      * rewrite decide_True by lia. by rewrite lookup_total_app_l by lia.
      * by rewrite decide_False by lia.
  - intros b Hb. rewrite (wr_other _ _ _ _ _ _ H2).
    + by apply (wr_other _ _ _ _ _ _ H1).
    + intros k Hk. rewrite (wrote_addr _ _ _ _ _ _ _ Hl H1 Hk). by apply Hb.
  - apply (wr_len _ _ _ _ _ _ H2).
Qed.

(** Writing within one block. *)
Lemma wrote_block V ip N off bs : layout V ip N -> 0 <= off -> off / BSIZE < N -> off mod BSIZE + Z.of_nat (length bs) <= BSIZE ->
  let b := addr_of V ip (off / BSIZE) in
  wrote V (fset V b (upd (V b) (Z.to_nat (off mod BSIZE)) bs)) ip N off bs.
Proof.
  intros Hl Hoff Hb Hle b. set (V' := fset V b _).
  pose proof (Z.mod_pos_bound off BSIZE ltac:(unfold BSIZE; lia)) as Hmod. pose proof (Z.div_mod off BSIZE ltac:(unfold BSIZE; lia)) as Hdm.
  assert (H0 : 0 <= off / BSIZE) by (apply Z.div_pos; unfold BSIZE; lia).
  assert (Hother : forall x, (forall k, 0 <= k < N -> x <> addr_of V ip k) -> V' x = V x).
  { intros x Hx. unfold V', fset. rewrite decide_False; [done|]. intros ->. by eapply (Hx (off / BSIZE)). }
  assert (Ha : forall k, 0 <= k < N -> addr_of V' ip k = addr_of V ip k).
  { intros k Hk. unfold addr_of. destruct (Z.ltb_spec k NDIRECT); [done|]. f_equal. apply Hother. intros j Hj He.
    destruct (ly_ind _ _ _ Hl ltac:(lia)) as [_ Hn]. by apply (Hn j Hj). }
  pose proof (ly_len _ _ _ Hl b) as Hlb. split; [|done|].
  - intros j Hj. assert (Hjb : 0 <= j / BSIZE < N) by (split; [apply Z.div_pos|apply Z.div_lt_upper_bound]; unfold BSIZE in *; lia).
    unfold file_byte. rewrite Ha by done. pose proof (Z.div_mod j BSIZE ltac:(unfold BSIZE; lia)).
    pose proof (Z.mod_pos_bound j BSIZE ltac:(unfold BSIZE; lia)). unfold V', fset.
    destruct (decide (j / BSIZE = off / BSIZE)) as [Ej|Ej].
    + rewrite Ej. fold b. rewrite decide_True by done. rewrite !list_lookup_total_alt, lookup_upd by lia.
      replace (Z.to_nat (j - off)) with (Z.to_nat (j mod BSIZE) - Z.to_nat (off mod BSIZE))%nat by lia.
      destruct (decide (off <= j < off + Z.of_nat (length bs))); [rewrite decide_True by lia|rewrite decide_False by lia]; done.
    + rewrite decide_False by (intros He; apply Ej; eapply (ly_inj _ _ _ Hl); (lia || done)).
      rewrite decide_False; [done|]. intros Hr. apply Ej. symmetry. apply (Z.div_unique_pos j BSIZE _ (j - BSIZE * (off / BSIZE))); lia.
  - intros x. unfold V', fset. case_decide; [|apply (ly_len _ _ _ Hl)]. subst. rewrite length_upd; [done|lia].
Qed.

(** The inode after a write that ends at [e]. *)
Definition grown (e : Z) (ip : inode) : inode := if i_size ip <? e then set_i_size e ip else ip.

Lemma grown_same e ip : i_addrs (grown e ip) = i_addrs ip /\ i_dev (grown e ip) = i_dev ip /\ i_inum (grown e ip) = i_inum ip /\
  i_size (grown e ip) = Z.max (i_size ip) e.
Proof. unfold grown. destruct (Z.ltb_spec (i_size ip) e); cbn; repeat split; lia. Qed.

(** The inode's block [ib] holds none of the file's data. *)
Definition apart (V : Z -> list Z) (ip : inode) (N ib : Z) : Prop :=
  (forall k, 0 <= k < N -> addr_of V ip k <> ib) /\ i_addrs ip !!! Z.to_nat NDIRECT <> ib.

Lemma apart_fset V ip N ib x : apart V ip N ib ->
  (forall k, addr_of (fset V ib x) ip k = addr_of V ip k) /\
  (forall j, 0 <= j < N * BSIZE -> file_byte (fset V ib x) ip j = file_byte V ip j).
Proof.
  intros [Hne Hni]. assert (Ha : forall k, addr_of (fset V ib x) ip k = addr_of V ip k).
  { intros k. unfold addr_of. destruct (k <? NDIRECT); [done|]. unfold fset. by rewrite decide_False. }
  split; [done|]. intros j Hj. unfold file_byte. rewrite Ha. unfold fset. rewrite decide_False; [done|].
  apply Hne. split; [apply Z.div_pos|apply Z.div_lt_upper_bound]; unfold BSIZE in *; lia.
Qed.

Lemma addr_of_addrs V ip ip' k : i_addrs ip' = i_addrs ip -> addr_of V ip' k = addr_of V ip k.
Proof. intros E. unfold addr_of. by rewrite E. Qed.

Lemma file_byte_addrs V ip ip' j : i_addrs ip' = i_addrs ip -> file_byte V ip' j = file_byte V ip j.
Proof. intros E. unfold file_byte. by rewrite (addr_of_addrs _ _ _ _ E). Qed.

Lemma layout_fset V ip N ib x : layout V ip N -> apart V ip N ib -> length x = Z.to_nat BSIZE -> layout (fset V ib x) ip N.
Proof.
  intros Hl Hap Hx. destruct (apart_fset V ip N ib x Hap) as [Ha _]. destruct Hl as [? Haddr Hinj Hind Hlen]. split; try done.
  - intros k Hk. rewrite Ha. by apply Haddr.
  - intros j k. rewrite !Ha. by apply Hinj.
  - intros Hn. destruct (Hind Hn) as [? Hne]. split; [done|]. intros k Hk. rewrite Ha. by apply Hne.
  - intros b. unfold fset. case_decide; [done|apply Hlen].
Qed.

Lemma layout_addrs V ip ip' N : i_addrs ip' = i_addrs ip -> layout V ip N -> layout V ip' N.
Proof.
  intros E [? Haddr Hinj Hind Hlen]. assert (Ha : forall k, addr_of V ip' k = addr_of V ip k) by (intros; by apply addr_of_addrs).
  split; try done.
  - intros k Hk. rewrite Ha. by apply Haddr.
  - intros j k. rewrite !Ha. by apply Hinj.
  - intros Hn. rewrite E. destruct (Hind Hn) as [? Hne]. split; [done|]. intros k Hk. rewrite Ha. by apply Hne.
Qed.

Lemma wrote_bytes V V' ip N off bs : wrote V V' ip N off bs -> 0 <= off -> off + Z.of_nat (length bs) <= N * BSIZE ->
  file_bytes V' ip off (Z.of_nat (length bs)) = bs.
Proof.
  intros Hw Hoff Hfit. apply list_eq. intros k. unfold file_bytes. rewrite list_lookup_fmap.
  destruct (decide (k < length bs)%nat) as [Hk|Hk].
  - rewrite lookup_seqZ_lt by lia. cbn [fmap option_fmap option_map]. rewrite (wr_byte _ _ _ _ _ _ Hw) by lia. rewrite decide_True by lia.
    replace (Z.to_nat (off + Z.of_nat k - off)) with k by lia. symmetry. by apply list_lookup_lookup_total_lt.
  - rewrite lookup_seqZ_ge by lia. symmetry. apply lookup_ge_None_2. lia.
Qed.

Lemma file_bytes_ext V V' ip ip' off n : (forall j, off <= j < off + n -> file_byte V' ip' j = file_byte V ip j) ->
  file_bytes V' ip' off n = file_bytes V ip off n.
Proof. intros E. apply list_fmap_ext. intros k x Hk. apply lookup_seqZ in Hk as [-> Hk]. apply E. lia. Qed.

Section write.
Context `{Fuel} `{DiskLaws} (D : Z) (p : nat) (Hfuel : (0 < fuel)%nat).

Lemma either_copyin_kernel s bs m : idle s p -> either_copyin (FromKernel bs) m s = Ret (take (Z.to_nat m) bs, 0) s.
Proof.
  intros [Hc _]. unfold either_copyin. by rewrite (bind_Ret _ _ _ _ _ (myproc_eq s (cm_irq _ _ Hc))), (cm_settled _ _ Hc).
Qed.

Lemma layout_mapped s V T ip N k r : tview D p s V T -> room s T r -> 1 <= r -> layout V ip N -> 0 <= k < N -> mapped (pins T) ∅ V ip k.
Proof.
  clear Hfuel. intros Ht Hr H1r Hl Hk. pose proof (ly_max _ _ _ Hl). pose proof (ly_addr _ _ _ Hl k Hk).
  split; [lia|]. split; [lia|]. split; [by eapply tview_readable|]. intros Hge.
  destruct (ly_ind _ _ _ Hl ltac:(lia)) as [? _]. split; [lia|by eapply tview_readable].
Qed.

Lemma writei_body_step s V T i ip N tot off n bs r : tview D p s V T -> inodes s !!! i = ip -> i_dev ip = D -> layout V ip N ->
  0 <= off -> tot < n -> Z.of_nat (length bs) = n - tot -> off + (n - tot) <= N * BSIZE -> room s T r -> 1 <= r ->
  let m := Z.min (n - tot) (BSIZE - off mod BSIZE) in
  exists s' V' T', writei_body i n (tot, off, FromKernel bs) s = Ret (inl (tot + m, off + m, FromKernel (drop (Z.to_nat m) bs))) s' /\
    tx_only s s' /\ tview D p s' V' T' /\ room s' T' (r - 1) /\ wrote V V' ip N off (take (Z.to_nat m) bs).
Proof.
  intros Ht Hi Hd Hl Hoff Hlt Hbs Hfit Hr H1r m.
  pose proof (Z.mod_pos_bound off BSIZE ltac:(unfold BSIZE; lia)) as Hmod. pose proof (Z.div_mod off BSIZE ltac:(unfold BSIZE; lia)) as Hdm.
  assert (Hk : 0 <= off / BSIZE < N) by (split; [apply Z.div_pos|apply Z.div_lt_upper_bound]; unfold BSIZE in *; lia).
  pose proof (ly_addr _ _ _ Hl _ Hk) as Hb. pose proof (ly_max _ _ _ Hl) as HN.
  unfold writei_body. destruct (Z.ltb_spec tot n); [|lia]. cbn [negb].
  destruct (bmap_mapped D p Hfuel s V _ _ i ip _ (tv_cache _ _ _ _ _ Ht) Hi Hd (layout_mapped s V T ip N _ r Ht Hr H1r Hl Hk)) as (s0 & E0 & C0 & Hv0).
  rewrite (bind_Ret _ _ _ _ _ E0). destruct (Z.eqb_spec (addr_of V ip (off / BSIZE)) 0); [lia|].
  pose proof (tview_bufs D p _ _ _ _ Ht C0 Hv0) as Ht0. destruct (bufs_only_inodes _ _ C0) as (Hi0 & _ & _).
  destruct (bufs_tx_only _ _ C0) as [Ctx0 El0].
  rewrite (bind_Ret _ _ _ _ _ (eq_refl : geti i s0 = Ret (inodes s0 !!! i) s0)), Hi0, Hi, Hd.
  destruct (tview_cycle D p Hfuel s0 V T (addr_of V ip (off / BSIZE)) r Ht0) as (j & s1 & E1 & C1 & _ & Hid1 & _ & Hcyc);
    [lia|unfold room in *; by rewrite El0|done|].
  rewrite (bind_Ret _ _ _ _ _ E1). cbv zeta. fold m. rewrite (bind_Ret _ _ _ _ _ (either_copyin_kernel s1 bs m Hid1)).
  destruct (Hcyc (fun d => upd d (Z.to_nat (off mod BSIZE)) (take (Z.to_nat m) bs))) as (s2 & s3 & s4 & E2 & E3 & E4 & C4 & Ht4 & Hr4).
  rewrite (bind_Ret _ _ _ _ _ E2). change (0 =? -1) with false. cbv iota. rewrite (bind_Ret _ _ _ _ _ E3), (bind_Ret _ _ _ _ _ E4).
  exists s4, (fset V (addr_of V ip (off / BSIZE)) (upd (V (addr_of V ip (off / BSIZE))) (Z.to_nat (off mod BSIZE)) (take (Z.to_nat m) bs))).
  eexists. split; [|split; [by eapply tx_only_trans|split; [done|split; [done|]]]].
  - unfold ret, source_add. replace (u32 (off + m)) with (off + m); [done|]. symmetry. apply u32_small.
    change MAXFILE with 268 in HN. assert (off + (n - tot) <= 274432) by (unfold BSIZE in *; lia). subst m. lia.
  - apply wrote_block; [done|done|lia|]. rewrite length_take. subst m. lia.
Qed.

Lemma tx_only_inodes s s' : tx_only s s' -> inodes s' = inodes s /\ mem s' = mem s /\ sb s' = sb s /\ disk s' = disk s /\ disk_writes s' = disk_writes s.
Proof. by intros ->. Qed.

Lemma writei_loop i ip N n : forall f s V T tot off bs r, tview D p s V T -> inodes s !!! i = ip -> i_dev ip = D -> layout V ip N ->
  0 <= off -> tot <= n -> Z.of_nat (length bs) = n - tot -> off + (n - tot) <= N * BSIZE ->
  room s T r -> 0 <= r -> (tot < n -> rounds off (n - tot) <= r) -> (0 < f)%nat -> (tot < n -> rounds off (n - tot) < Z.of_nat f) ->
  exists s' V' T', iter f (writei_body i n) (tot, off, FromKernel bs) s = Ret (n, off + (n - tot)) s' /\
    tx_only s s' /\ tview D p s' V' T' /\ wrote V V' ip N off bs /\
    room s' T' (if decide (tot < n) then r - rounds off (n - tot) else r).
Proof.
  induction f as [|f IH]; intros s V T tot off bs r Ht Hi Hd Hl Hoff Hle Hbs Hfit Hr Hr0 Hrr Hf0 Hfu; [lia|].
  pose proof (Z.mod_pos_bound off BSIZE ltac:(unfold BSIZE; lia)) as Hmod.
  destruct (Z.eq_dec tot n) as [->|Hne].
  - exists s, V, T. replace (off + (n - n)) with off by lia. split.
    + erewrite iter_exit; [done|]. unfold writei_body. by rewrite Z.ltb_irrefl.
    + split; [apply tx_only_refl|]. split; [done|]. rewrite decide_False by lia. split; [|done].
      destruct bs; [by apply wrote_nil|simpl in Hbs; lia].
  - pose proof (rounds_pos off (n - tot) ltac:(lia)) as Hrp.
    destruct (writei_body_step s V T i ip N tot off n bs r) as (s1 & V1 & T1 & E & C & Ht1 & Hr1 & Hw); try done; try lia.
    set (m := Z.min (n - tot) (BSIZE - off mod BSIZE)) in *. erewrite iter_next by exact E.
    assert (Hadv : tot + m < n -> rounds (off + m) (n - (tot + m)) = rounds off (n - tot) - 1).
    { intros Hlt. assert (m = BSIZE - off mod BSIZE) as Em by lia. replace (n - (tot + m)) with (n - tot - m) by lia.
      rewrite Em, rounds_advance by lia. done. }
    destruct (IH s1 V1 T1 (tot + m) (off + m) (drop (Z.to_nat m) bs) (r - 1)) as (s2 & V2 & T2 & E2 & C2 & Ht2 & Hw2 & Hr2);
      try done; try lia.
    + destruct (tx_only_inodes _ _ C) as [-> _]. done.
    + by eapply wrote_layout.
    + rewrite length_drop. lia.
    + exists s2, V2, T2. split; [rewrite E2; f_equal; f_equal; lia|]. split; [by eapply tx_only_trans|]. split; [done|]. split.
      * rewrite <- (take_drop (Z.to_nat m) bs). eapply wrote_app; [done|done|]. rewrite length_take.
        replace (Z.of_nat (Z.to_nat m `min` length bs)) with m by lia. done.
      * rewrite decide_True by lia. destruct (decide (tot + m < n)) as [Hlt|]; [rewrite (Hadv Hlt) in Hr2|]; unfold room in *; lia.
Qed.

Lemma tview_set_inodes s V T l : tview D p s V T -> tview D p (set_inodes l s) V T.
Proof. intros [Hv ? ? ? ? ?]. split; try done. by apply cview_set_inodes. Qed.

(** iupdate writes the inode into its block. *)
Lemma iupdate_eq s V T i ip r : tview D p s V T -> inodes s !!! i = ip -> i_dev ip = D -> 0 <= IBLOCK (i_inum ip) (sb s) < 2 ^ 32 ->
  room s T r -> 1 <= r ->
  let b := IBLOCK (i_inum ip) (sb s) in
  exists s', iupdate i s = Ret tt s' /\ tx_only s s' /\
    tview D p s' (fset V b (write_dinode (V b) (dinode_off (i_inum ip)) ip)) (add_home b T) /\ room s' (add_home b T) (r - 1).
Proof.
  intros Ht Hi Hd Hb Hr H1r b. unfold iupdate. rewrite (bind_Ret _ _ _ _ _ (eq_refl : geti i s = Ret (inodes s !!! i) s)), Hi.
  rewrite (bind_Ret _ _ _ _ _ (eq_refl : gets sb s = Ret (sb s) s)), Hd.
  destruct (tview_cycle D p Hfuel s V T _ r Ht Hb Hr H1r) as (j & s1 & E1 & C1 & _ & _ & _ & Hcyc). rewrite (bind_Ret _ _ _ _ _ E1).
  destruct (bufs_only_inodes _ _ C1) as (Hi1 & _).
  rewrite (bind_Ret _ _ _ _ _ (eq_refl : geti i s1 = Ret (inodes s1 !!! i) s1)), Hi1, Hi.
  destruct (Hcyc (fun d => write_dinode d (dinode_off (i_inum ip)) ip)) as (s2 & s3 & s4 & E2 & E3 & E4 & C4 & Ht4 & Hr4).
  rewrite (bind_Ret _ _ _ _ _ E2), (bind_Ret _ _ _ _ _ E3). exists s4. split; [exact E4|]. by split.
Qed.

Lemma writei_eq s V T i ip N off bs : tview D p s V T -> inodes s !! i = Some ip -> i_dev ip = D -> layout V ip N ->
  0 <= off <= i_size ip -> off + Z.of_nat (length bs) <= N * BSIZE ->
  let n := Z.of_nat (length bs) in let ib := IBLOCK (i_inum ip) (sb s) in let ip' := grown (off + n) ip in
  apart V ip N ib -> forall r, room s T (rounds off n + 1 + r) -> 0 <= r ->
  exists s1 V1 T1, writei i (FromKernel bs) off n s = Ret n s1 /\ wrote V V1 ip N off bs /\
    inodes s1 = <[i := ip']> (inodes s) /\ sb s1 = sb s /\ disk s1 = disk s /\ mem s1 = mem s /\
    tview D p s1 (fset V1 ib (write_dinode (V1 ib) (dinode_off (i_inum ip)) ip')) T1 /\ room s1 T1 r.
Proof.
  intros Ht Hi Hd Hl Hoff Hfit n ib ip' Hap r Hr Hr0. assert (Hit : inodes s !!! i = ip) by (by apply list_lookup_total_correct).
  pose proof (ly_max _ _ _ Hl) as HN. change MAXFILE with 268 in HN. assert (Hmax : off + n <= 274432) by (unfold BSIZE in *; lia).
  unfold writei. rewrite (bind_Ret _ _ _ _ _ (eq_refl : geti i s = Ret (inodes s !!! i) s)), Hit.
  rewrite u32_small by lia. destruct (Z.ltb_spec (i_size ip) off); [lia|]. destruct (Z.ltb_spec (off + n) off); [lia|]. cbn [orb].
  change (MAXFILE * BSIZE) with 274432. destruct (Z.ltb_spec 274432 (off + n)); [lia|].
  assert (Hrd : 0 <= rounds off n).
  { unfold rounds. pose proof (Z.mod_pos_bound off BSIZE ltac:(unfold BSIZE; lia)). apply Z.div_pos; unfold BSIZE in *; lia. }
  destruct (writei_loop i ip N n (3 + Z.to_nat (n / BSIZE)) s V T 0 off bs (rounds off n + 1 + r)) as (s1 & V1 & T1 & E1 & C1 & Ht1 & Hw & Hr1);
    rewrite ?Z.sub_0_r; try done; try lia; [intros _; apply rounds_fuel; lia|].
  rewrite Z.sub_0_r in E1, Hr1. rewrite (bind_Ret _ _ _ _ _ E1).
  destruct (tx_only_inodes _ _ C1) as (Hi1 & Hm1 & Hsb1 & Hd1 & _).
  set (f := fun ip0 => if i_size ip0 <? off + n then set_i_size (off + n) ip0 else ip0). set (s2 := set_inodes (<[i := ip']> (inodes s)) s1).
  assert (E2 : modi i f s1 = Ret tt s2).
  { unfold modi, modify, s2. rewrite Hi1. by rewrite (alter_as_insert _ _ _ _ Hi). }
  rewrite (bind_Ret _ _ _ _ _ E2). destruct (grown_same (off + n) ip) as (Ga & Gd & Gi & Gs). fold ip' in Ga, Gd, Gi, Gs.
  assert (Hi2 : inodes s2 !!! i = ip') by (apply list_lookup_total_correct, list_lookup_insert_eq; by eapply lookup_lt_Some).
  destruct (iupdate_eq s2 V1 T1 i ip' (1 + r)) as (s3 & E3 & C3 & Ht3 & Hr3).
  - by apply tview_set_inodes.
  - done.
  - by rewrite Gd.
  - unfold IBLOCK. apply u32_range.
  - unfold room in *. change (log s2) with (log s1). destruct (decide (0 < n)); lia.
  - lia.
  - rewrite (bind_Ret _ _ _ _ _ E3). destruct (tx_only_inodes _ _ C3) as (Hi3 & Hm3 & Hsb3 & Hd3 & _).
    change (sb s2) with (sb s1) in *. rewrite Gi, Hsb1 in Ht3, Hr3. fold ib in Ht3, Hr3.
    exists s3, V1, (add_home ib T1). split; [done|]. split; [done|]. split; [by rewrite Hi3|]. split; [by rewrite Hsb3|].
    split; [by rewrite Hd3|]. split; [by rewrite Hm3|]. split; [done|]. unfold room in *. lia.
Qed.

Lemma layout_file_ok s V T ip N r : tview D p s V T -> room s T r -> 1 <= r -> layout V ip N -> i_dev ip = D -> 0 <= i_size ip <= N * BSIZE ->
  file_ok D (pins T) ∅ V ip.
Proof.
  clear Hfuel. intros Ht Hr H1r Hl Hd Hs. pose proof (ly_max _ _ _ Hl) as HN. split; [done| | |apply (ly_len _ _ _ Hl)].
  - unfold BSIZE in *. lia.
  - intros k Hk Hks. eapply layout_mapped; try done. split; [done|]. unfold BSIZE in *. lia.
Qed.

End write.

(** Inside a transaction with room for it, writing [bs] at [off] of a file
    over blocks the file already has returns the number of bytes, and reading
    them back returns [bs].  Every other byte of the file, and every block that
    is neither a block of the file nor the inode's, is unchanged; the inode's
    block holds the inode with its new size; nothing is written to the disk
    before the commit. *)
Theorem writei_then_readi `{Fuel} `{DiskLaws} D p s V T i ip N off bs :
  (0 < fuel)%nat -> tview D p s V T -> inodes s !! i = Some ip -> inode_ok ip -> i_dev ip = D -> layout V ip N ->
  0 <= off <= i_size ip -> i_size ip <= N * BSIZE -> off + Z.of_nat (length bs) <= N * BSIZE ->
  let n := Z.of_nat (length bs) in let ib := IBLOCK (i_inum ip) (sb s) in let ip' := grown (off + n) ip in
  apart V ip N ib -> room s T (rounds off n + 2) ->
  exists s1 s2 V' T', writei i (FromKernel bs) off n s = Ret n s1 /\ readi i ToLocal off n s1 = Ret (n, bs) s2 /\
    tview D p s1 V' T' /\ inodes s1 !! i = Some ip' /\ disk s1 = disk s /\
    (forall j, 0 <= j < N * BSIZE -> j < off \/ off + n <= j -> file_byte V' ip' j = file_byte V ip j) /\
    (forall b, b <> ib -> (forall k, 0 <= k < N -> b <> addr_of V ip k) -> V' b = V b) /\
    read_dinode (V' ib) (dinode_off (i_inum ip)) ip' = ip'.
Proof.
  intros Hf Ht Hi Hio Hd Hl Hoff Hsz Hfit n ib ip' Hap Hr.
  destruct (writei_eq D p Hf s V T i ip N off bs Ht Hi Hd Hl Hoff Hfit Hap 1) as (s1 & V1 & T1 & E1 & Hw & Hi1 & _ & Hd1 & _ & Ht1 & Hr1).
  { by rewrite <- Z.add_assoc. }
  { done. }
  fold n ib ip' in E1, Ht1, Hi1. destruct (grown_same (off + n) ip) as (Ga & Gd & Gi & Gs). fold ip' in Ga, Gd, Gi, Gs.
  set (x := write_dinode (V1 ib) (dinode_off (i_inum ip)) ip') in *.
  assert (Hap1 : apart V1 ip N ib) by (split; [intros k Hk; rewrite (wrote_addr _ _ _ _ _ _ _ Hl Hw Hk)|]; by apply Hap).
  pose proof (dinode_off_fits (i_inum ip)) as Hdo. pose proof (wr_len _ _ _ _ _ _ Hw ib) as Hlib.
  assert (Hx : length x = Z.to_nat BSIZE) by (unfold x; rewrite write_dinode_length; [done|lia|lia|rewrite Ga; apply Hio]).
  assert (Hl' : layout (fset V1 ib x) ip' N) by (apply (layout_addrs _ ip); [done|]; apply layout_fset; [by eapply wrote_layout|done|done]).
  destruct (apart_fset V1 ip N ib x Hap1) as [Ha1 Hb1].
  assert (Hb' : forall j, 0 <= j < N * BSIZE -> file_byte (fset V1 ib x) ip' j = file_byte V1 ip j).
  { intros j Hj. rewrite (file_byte_addrs _ _ _ _ Ga). by apply Hb1. }
  assert (Hok : file_ok D (pins T1) ∅ (fset V1 ib x) ip') by (eapply layout_file_ok; try done; [by rewrite Gd|lia]).
  assert (Hlk : inodes s1 !! i = Some ip') by (rewrite Hi1; apply list_lookup_insert_eq; by eapply lookup_lt_Some).
  pose proof (ly_max _ _ _ Hl) as HN. change MAXFILE with 268 in HN. assert (Hmax : off + n <= 274432) by (unfold BSIZE in *; lia).
  destruct (readi_eq D p Hf s1 _ _ _ i ip' ToLocal off n (tv_cache _ _ _ _ _ Ht1)) as (s2 & E2 & _);
    [by apply list_lookup_total_correct|done|done|lia|lia|].
  assert (Hrc : read_count ip' off n = n) by (unfold read_count; destruct (Z.ltb_spec (off + n) (2 ^ 32)); lia).
  rewrite Hrc in E2. rewrite (file_bytes_ext V1 _ ip) in E2 by (intros; apply Hb'; lia).
  unfold n in E2 at 3. rewrite (wrote_bytes _ _ _ _ _ _ Hw) in E2 by lia.
  exists s1, s2, (fset V1 ib x), T1. do 5 (split; [done|]). split; [|split].
  - intros j Hj Hout. rewrite Hb', (wr_byte _ _ _ _ _ _ Hw) by done. fold n. by rewrite decide_False by lia.
  - intros b Hb Hk. unfold fset. rewrite decide_False by done. by apply (wr_other _ _ _ _ _ _ Hw).
  - unfold fset. rewrite decide_True by done. unfold x. rewrite read_write_dinode; [by destruct ip'|lia|rewrite Hlib; lia|].
    destruct Hio as [? Hs ? ?]. unfold ip', grown. destruct (Z.ltb_spec (i_size ip) (off + n)); split; cbn; (done || lia).
Qed.

(** Ten bytes across the boundary between the blocks 46 and 47 of a file. *)
#[local] Existing Instances ex_fuel sync_disk sync_disk_laws.
Definition ex_ip : inode := mkInode 1 2 1 sleeplock0 true 2 0 0 1 1030 ([46; 47] ++ replicate 11 0).
Definition ex_sb : superblock := mkSuperblock 0x10203040 2000 1954 200 30 2 32 45.
Definition ex_fs : kernel := set_sb ex_sb (set_inodes [ex_ip] (set_log ex_open_log ex_cache)).

Lemma ex_fs_tview : tview 1 3 ex_fs (read_block ∅) [].
Proof.
  assert (E : log ex_fs = ex_open_log) by reflexivity. split; rewrite ?E; [|done|apply NoDup_nil_2|done|done|done].
  apply cview_set_sb, cview_set_inodes, cview_set_log, ex_cache_cview.
Qed.

Lemma ex_fs_layout : layout (read_block ∅) ex_ip 2.
Proof.
  split.
  - done.
  - intros k Hk. assert (k = 0 \/ k = 1) as [-> | ->] by lia; done.
  - intros j k Hj Hk. assert (j = 0 \/ j = 1) as [-> | ->] by lia; assert (k = 0 \/ k = 1) as [-> | ->] by lia; done.
  - intros Hn. unfold NDIRECT in Hn. lia.
  - intros b. unfold read_block. rewrite lookup_empty. apply length_replicate.
Qed.

Lemma writei_then_readi_witness : exists s1 s2,
  writei 0 (FromKernel [1; 2; 3; 4; 5; 6; 7; 8; 9; 10]) 1020 10 ex_fs = Ret 10 s1 /\
  readi 0 ToLocal 1020 10 s1 = Ret (10, [1; 2; 3; 4; 5; 6; 7; 8; 9; 10]) s2.
Proof.
  destruct (writei_then_readi 1 3 ex_fs (read_block ∅) [] 0 ex_ip 2 1020 [1; 2; 3; 4; 5; 6; 7; 8; 9; 10]) as (s1 & s2 & V' & T' & E1 & E2 & _).
  - apply Nat.ltb_lt. reflexivity.
  - apply ex_fs_tview.
  - reflexivity.
  - split; [unfold short; cbn; lia|cbn; lia| |reflexivity]. repeat constructor; cbn; lia.
  - reflexivity.
  - apply ex_fs_layout.
  - cbn. lia.
  - cbn. unfold BSIZE. lia.
  - cbn. unfold BSIZE. lia.
  - split; [|discriminate]. intros k Hk. assert (k = 0 \/ k = 1) as [-> | ->] by lia; discriminate.
  - split; vm_compute; discriminate.
  - exists s1, s2. split; [exact E1|exact E2].
Defined.
