(* ===== verification/FsGrow.v ===== *)
(** Files that grow: bmap allocates the block after the last one of a file,
    without touching any block that is in use by anything else. *)

From S2P Require Import Prelude Outcome Mem State Spinlock KString Kalloc Vm Proc ProcSpec Sleeplock Calm Bytes Disk Bio BioSpec BioView BioCheck Log LogSpec LogCrash LogWrite Uart Printf PrintfSpec Fs Itable FsData FsSpec FsTrans FsOpen FsAlloc FsWrite.

(** ** The blocks of a file *)

Definition ind_of (ip : inode) : Z := i_addrs ip !!! Z.to_nat NDIRECT.

(** [b] is one of the first [N] blocks of the file or its indirect block. *)
Definition fblock (V : Z -> list Z) (ip : inode) (N b : Z) : Prop :=
  (exists k, 0 <= k < N /\ b = addr_of V ip k) \/ (ind_of ip <> 0 /\ b = ind_of ip).

(** The file has exactly the first [N] blocks, and they are marked as in use. *)
Record fstate (V : Z -> list Z) (sp : superblock) (ip : inode) (N : Z) : Prop := {
  st_layout : layout V ip N;
  st_len : length (i_addrs ip) = 13%nat;
  st_direct : forall k, N <= k < NDIRECT -> i_addrs ip !!! Z.to_nat k = 0;
  st_ind : ind_of ip <> 0 -> (forall k, 0 <= k < N -> addr_of V ip k <> ind_of ip) /\
    (forall k, N <= k -> NDIRECT <= k < MAXFILE -> get32 (V (ind_of ip)) (4 * (k - NDIRECT)) = 0);
  st_used : forall b, fblock V ip N b -> 0 < b < sb_size sp /\ in_use V sp b = true /\ b ∉ bmaps sp
}.

Section grow.
Context (sp : superblock).

(** From [V] and [ip] with [N] blocks to [V'] and [ip'] with [N'] blocks, with [bs]
    written at [off] and the rest of the new blocks zero; blocks are only taken
    from the free ones, all of them for the file, and no other block changes. *)
Record grows (V V' : Z -> list Z) (ip ip' : inode) (N N' off : Z) (bs : list Z) : Prop := {
  g_le : N <= N';
  g_ip : ip' = set_i_addrs (i_addrs ip') ip;
  g_map : fmap_ok V' sp;
  g_st : fstate V' sp ip' N';
  g_byte : forall j, 0 <= j < N' * BSIZE -> file_byte V' ip' j =
    if decide (off <= j < off + Z.of_nat (length bs)) then bs !!! Z.to_nat (j - off)
    else if decide (j < N * BSIZE) then file_byte V ip j else 0;
  g_other : forall b, 0 <= b < sb_size sp -> in_use V sp b = true -> b ∉ bmaps sp -> ~ fblock V ip N b -> V' b = V b;
  g_used : forall b, 0 <= b < sb_size sp -> in_use V sp b = true -> in_use V' sp b = true;
  g_new : forall b, 0 <= b < sb_size sp -> in_use V' sp b = true -> in_use V sp b = true \/ fblock V' ip' N' b;
  g_old : forall b, fblock V ip N b -> fblock V' ip' N' b;
  g_fresh : forall b, fblock V' ip' N' b -> fblock V ip N b \/ in_use V sp b = false
}.

Lemma grows_refl V ip N off : fmap_ok V sp -> fstate V sp ip N -> grows V V ip ip N N off [].
Proof.
  intros Hm Hs. split; try done; try (by left).
  - by destruct ip.
  - intros j Hj. cbn [length]. rewrite decide_False by lia. by rewrite decide_True by lia.
Qed.

Lemma grows_trans V V1 V2 ip ip1 ip2 N N1 N2 off bs1 bs2 : grows V V1 ip ip1 N N1 off bs1 ->
  off + Z.of_nat (length bs1) <= N1 * BSIZE -> grows V1 V2 ip1 ip2 N1 N2 (off + Z.of_nat (length bs1)) bs2 -> 0 <= off ->
  grows V V2 ip ip2 N N2 off (bs1 ++ bs2).
Proof.
  intros H1 Hfit H2 Hoff. pose proof (g_le _ _ _ _ _ _ _ _ H1). pose proof (g_le _ _ _ _ _ _ _ _ H2). split.
  - lia.
  - rewrite (g_ip _ _ _ _ _ _ _ _ H2), (g_ip _ _ _ _ _ _ _ _ H1) at 1. by destruct ip.
  - apply H2.
  - apply H2.
  - intros j Hj. rewrite (g_byte _ _ _ _ _ _ _ _ H2 j Hj), length_app.
    destruct (decide (off + Z.of_nat (length bs1) <= j < off + Z.of_nat (length bs1) + Z.of_nat (length bs2))).
    + rewrite decide_True by lia. rewrite lookup_total_app_r by lia. f_equal. lia.
    + destruct (decide (j < N1 * BSIZE)) as [Hlt|Hge].
      * rewrite (g_byte _ _ _ _ _ _ _ _ H1 j ltac:(lia)). destruct (decide (off <= j < off + Z.of_nat (length bs1))).
        -- rewrite decide_True by lia. by rewrite lookup_total_app_l by lia.
        -- by rewrite (decide_False (P := off <= j < _)) by lia.
      * rewrite decide_False by lia. rewrite decide_False; [done|]. unfold BSIZE in *. lia.
  - intros b Hb Hu Hnm Hnf. rewrite (g_other _ _ _ _ _ _ _ _ H2); [by apply (g_other _ _ _ _ _ _ _ _ H1)|done|by apply (g_used _ _ _ _ _ _ _ _ H1)|done|].
    intros Hf. apply (g_fresh _ _ _ _ _ _ _ _ H1) in Hf as [?|?]; [done|congruence].
  - intros b Hb Hu. by apply (g_used _ _ _ _ _ _ _ _ H2), (g_used _ _ _ _ _ _ _ _ H1).
  - intros b Hb Hu. apply (g_new _ _ _ _ _ _ _ _ H2) in Hu as [Hu|?]; [|by right|done].
    apply (g_new _ _ _ _ _ _ _ _ H1) in Hu as [?|?]; [by left|right; by apply (g_old _ _ _ _ _ _ _ _ H2)|done].
  - intros b Hb. by apply (g_old _ _ _ _ _ _ _ _ H2), (g_old _ _ _ _ _ _ _ _ H1).
  - intros b Hb. destruct (st_used _ _ _ _ (g_st _ _ _ _ _ _ _ _ H2) b Hb) as (Hr & _).
    apply (g_fresh _ _ _ _ _ _ _ _ H2) in Hb as [Hb|Hu]; [by apply (g_fresh _ _ _ _ _ _ _ _ H1)|]. right.
    destruct (in_use V sp b) eqn:E; [|done]. apply (g_used _ _ _ _ _ _ _ _ H1) in E; [congruence|lia].
Qed.
(** When nothing is written the offset does not matter. *)
Lemma grows_nil V V' ip ip' N N' off off' : grows V V' ip ip' N N' off [] -> grows V V' ip ip' N N' off' [].
Proof.
  intros [? ? ? ? Hb ? ? ? ? ?]. split; try done. intros j Hj. rewrite Hb by done. cbn [length].
  by rewrite !(decide_False (P := _ <= j < _)) by lia.
Qed.

(** ** Taking one block *)

Section take.
Context (V : Z -> list Z) (ip : inode) (N x : Z).
Hypothesis Hm : fmap_ok V sp.
Hypothesis Hs : fstate V sp ip N.
Hypothesis Hx : 0 <= x < sb_size sp.
Hypothesis Hf : in_use V sp x = false.

Lemma take_pos : 0 < x < 2 ^ 32 /\ x ∉ bmaps sp.
Proof.
  pose proof (fm_size _ _ Hm). destruct (alloc_block_facts V sp Hm x Hx Hf) as (_ & _ & _ & _ & ?).
  split; [unfold BPB, BSIZE in *; lia|by apply (free_not_map V)].
Qed.

(** The blocks of the file are not touched. *)
Lemma take_frame b : fblock V ip N b -> b <> x /\ alloc_block V sp x b = V b.
Proof.
  intros Hb. destruct (st_used _ _ _ _ Hs b Hb) as (_ & Hu & Hn). assert (b <> x) by congruence. split; [done|].
  by apply (alloc_block_facts V sp Hm x Hx Hf).
Qed.

Lemma data_fblock k : 0 <= k < N -> fblock V ip N (addr_of V ip k).
Proof. intros Hk. left. by exists k. Qed.

Lemma ind_fblock : ind_of ip <> 0 -> fblock V ip N (ind_of ip).
Proof. by right. Qed.

(** The bytes of the old blocks stay and those of a new block are zero. *)
Lemma bytes_take V1 ip' N' off : (forall k, 0 <= k < N -> addr_of V1 ip' k = addr_of V ip k /\ V1 (addr_of V ip k) = V (addr_of V ip k)) ->
  N' = N \/ N' = N + 1 /\ V1 (addr_of V1 ip' N) = zero_block ->
  forall j, 0 <= j < N' * BSIZE -> file_byte V1 ip' j =
    if decide (off <= j < off + Z.of_nat (length (@nil Z))) then (@nil Z) !!! Z.to_nat (j - off)
    else if decide (j < N * BSIZE) then file_byte V ip j else 0.
Proof.
  intros Ha HN j Hj. cbn [length]. rewrite decide_False by lia. unfold file_byte.
  pose proof (Z.div_mod j BSIZE ltac:(unfold BSIZE; lia)). pose proof (Z.mod_pos_bound j BSIZE ltac:(unfold BSIZE; lia)).
  assert (Hq : 0 <= j / BSIZE) by (apply Z.div_pos; unfold BSIZE; lia). case_decide.
  - destruct (Ha (j / BSIZE)) as [-> ->]; [|done]. split; [done|]. apply Z.div_lt_upper_bound; unfold BSIZE in *; lia.
  - destruct HN as [->|[-> Hz]]; [unfold BSIZE in *; lia|]. assert (j / BSIZE = N) as ->.
    { symmetry. apply (Z.div_unique_pos j BSIZE N (j - N * BSIZE)); unfold BSIZE in *; lia. }
    rewrite Hz. unfold zero_block. rewrite lookup_total_replicate_2; [done|]. unfold BSIZE in *. lia.
Qed.

(** What is left to show of a step that takes the block. *)
Lemma grows_take V1 ip' N' off : fmap_ok V1 sp -> (forall c, 0 <= c < sb_size sp -> in_use V1 sp c = (x =? c) || in_use V sp c) ->
  N <= N' -> ip' = set_i_addrs (i_addrs ip') ip -> length (i_addrs ip') = 13%nat ->
  (forall b, fblock V1 ip' N' b <-> fblock V ip N b \/ b = x) -> layout V1 ip' N' ->
  (forall k, N' <= k < NDIRECT -> i_addrs ip' !!! Z.to_nat k = 0) ->
  (ind_of ip' <> 0 -> (forall k, 0 <= k < N' -> addr_of V1 ip' k <> ind_of ip') /\
    (forall k, N' <= k -> NDIRECT <= k < MAXFILE -> get32 (V1 (ind_of ip')) (4 * (k - NDIRECT)) = 0)) ->
  (forall k, 0 <= k < N -> addr_of V1 ip' k = addr_of V ip k /\ V1 (addr_of V ip k) = V (addr_of V ip k)) ->
  N' = N \/ N' = N + 1 /\ V1 (addr_of V1 ip' N) = zero_block ->
  (forall b, 0 <= b < sb_size sp -> in_use V sp b = true -> b ∉ bmaps sp -> ~ fblock V ip N b -> V1 b = V b) ->
  grows V V1 ip ip' N N' off [].
Proof.
  intros Hm1 Hu HN Hip Hl13 Hfb Hly Hdir Hind Ha Hz Hoth. destruct take_pos as [Hxp Hxn].
  assert (Hxu : in_use V1 sp x = true) by (by rewrite Hu, Z.eqb_refl). split; try done.
  - split; try done. intros b Hb. apply Hfb in Hb as [Hb| ->]; [|split; [lia|done]].
    destruct (st_used _ _ _ _ Hs b Hb) as (? & Hbu & ?). split; [done|]. split; [|done]. rewrite Hu, Hbu by lia. apply orb_true_r.
  - by apply bytes_take.
  - intros b Hb E. rewrite Hu, E by done. apply orb_true_r.
  - intros b Hb E. rewrite Hu in E by done. apply orb_true_iff in E as [E|E]; [|by left]. right. apply Hfb. right. lia.
  - intros b Hb. apply Hfb. by left.
  - intros b Hb. apply Hfb in Hb as [Hb| ->]; [by left|by right].
Qed.
(** Injectivity of the addresses, with one more. *)
Lemma inj_snoc (f : Z -> Z) : (forall j k, 0 <= j < N -> 0 <= k < N -> f j = f k -> j = k) -> (forall k, 0 <= k < N -> f k <> f N) ->
  forall j k, 0 <= j < N + 1 -> 0 <= k < N + 1 -> f j = f k -> j = k.
Proof.
  intros Hi Hn j k Hj Hk E. destruct (Z.eq_dec j N) as [->|], (Z.eq_dec k N) as [->|]; [done| | |apply Hi; (lia || done)].
  - symmetry in E. by apply Hn in E; [|lia].
  - by apply Hn in E; [|lia].
Qed.

(** A direct block. *)
Lemma grow_direct off : 0 <= N < NDIRECT ->
  grows V (alloc_block V sp x) ip (set_i_addrs (<[Z.to_nat N := x]> (i_addrs ip)) ip) N (N + 1) off [].
Proof.
  intros HN. destruct take_pos as [Hxp Hxn]. destruct (alloc_block_facts V sp Hm x Hx Hf) as (Hm1 & Hu1 & Hz & Ho & _).
  pose proof Hs as [Hly H13 Hdir Hind Hus]. set (V1 := alloc_block V sp x) in *. set (ip' := set_i_addrs _ ip).
  change NDIRECT with 12 in *. pose proof (ly_max _ _ _ Hly).
  assert (Hn : addr_of V1 ip' N = x).
  { unfold addr_of. destruct (Z.ltb_spec N NDIRECT); [|change NDIRECT with 12 in *; lia]. apply list_lookup_total_insert_eq. lia. }
  assert (Ha : forall k, 0 <= k < N -> addr_of V1 ip' k = addr_of V ip k).
  { intros k Hk. unfold addr_of. destruct (Z.ltb_spec k NDIRECT); [|change NDIRECT with 12 in *; lia]. apply list_lookup_total_insert_ne. lia. }
  assert (Hi : ind_of ip' = ind_of ip) by (apply list_lookup_total_insert_ne; change (Z.to_nat NDIRECT) with 12%nat; lia).
  assert (Hax : forall k, 0 <= k < N -> addr_of V1 ip' k <> addr_of V1 ip' N) by (intros k Hk; rewrite Ha, Hn by done; by apply take_frame, data_fblock).
  apply grows_take; try done; try lia.
  - cbn. by rewrite length_insert.
  - intros b. unfold fblock. rewrite Hi. split.
    + intros [(k & Hk & ->)|?]; [|tauto]. destruct (Z.eq_dec k N) as [->|]; [by right; rewrite Hn|]. left. left. exists k. split; [lia|]. apply Ha. lia.
    + intros [[(k & Hk & ->)|?]| ->]; [|tauto|]; left; [exists k; split; [lia|]; by rewrite Ha|exists N; split; [lia|done]].
  - split.
    + change MAXFILE with 268. lia.
    + intros k Hk. destruct (Z.eq_dec k N) as [->|]; [by rewrite Hn|]. rewrite Ha by lia. apply (ly_addr _ _ _ Hly). lia.
    + apply inj_snoc; [|done]. intros j k Hj Hk. rewrite !Ha by done. by apply (ly_inj _ _ _ Hly).
    + change NDIRECT with 12. lia.
    + apply (fm_len _ _ Hm1).
  - intros k Hk. cbn. change NDIRECT with 12 in Hk. rewrite list_lookup_total_insert_ne by lia. apply Hdir. lia.
  - rewrite Hi. intros H0. destruct (Hind H0) as [Hne Hze]. split.
    + intros k Hk. destruct (Z.eq_dec k N) as [->|]; [|rewrite Ha by lia; apply Hne; lia]. rewrite Hn. intros E. symmetry in E. revert E. by apply take_frame, ind_fblock.
    + intros k Hk1 Hk2. destruct (take_frame _ (ind_fblock H0)) as [_ E]. fold V1 in E. rewrite E. apply Hze; [lia|done].
  - intros k Hk. split; [by apply Ha|]. by apply take_frame, data_fblock.
  - right. by rewrite Hn.
  - intros b Hb Hub Hnb _. apply Ho; [congruence|done].
Qed.

(** The indirect block, with no entries yet. *)
Lemma grow_ind off : 0 <= N <= NDIRECT -> ind_of ip = 0 ->
  grows V (alloc_block V sp x) ip (set_i_addrs (<[Z.to_nat NDIRECT := x]> (i_addrs ip)) ip) N N off [].
Proof.
  intros HN H0. destruct take_pos as [Hxp Hxn]. destruct (alloc_block_facts V sp Hm x Hx Hf) as (Hm1 & Hu1 & Hz & Ho & _).
  pose proof Hs as [Hly H13 Hdir Hind Hus]. set (V1 := alloc_block V sp x) in *. set (ip' := set_i_addrs _ ip).
  change NDIRECT with 12 in HN. pose proof (ly_max _ _ _ Hly).
  assert (Hi : ind_of ip' = x) by (apply list_lookup_total_insert_eq; rewrite H13; change (Z.to_nat NDIRECT) with 12%nat; lia).
  assert (Ha : forall k, 0 <= k < N -> addr_of V1 ip' k = addr_of V ip k).
  { intros k Hk. unfold addr_of. destruct (Z.ltb_spec k NDIRECT); [|change NDIRECT with 12 in *; lia]. apply list_lookup_total_insert_ne. change (Z.to_nat NDIRECT) with 12%nat. lia. }
  apply grows_take; try done; try lia.
  - cbn. by rewrite length_insert.
  - intros b. unfold fblock. rewrite Hi, H0. split.
    + intros [(k & Hk & ->)|[_ ->]]; [|by right]. left. left. exists k. split; [lia|]. by apply Ha.
    + intros [[(k & Hk & ->)|[? _]]| ->]; [|done|right; split; [lia|done]]. left. exists k. split; [lia|]. by rewrite Ha.
  - destruct Hly as [? Haddr Hinj _ _]. split; try done.
    + intros k Hk. rewrite Ha by done. by apply Haddr.
    + intros j k Hj Hk. rewrite !Ha by done. by apply Hinj.
    + change NDIRECT with 12. lia.
    + apply (fm_len _ _ Hm1).
  - intros k Hk. cbn. change NDIRECT with 12 in Hk. rewrite list_lookup_total_insert_ne by (change (Z.to_nat NDIRECT) with 12%nat; lia). apply Hdir. change NDIRECT with 12. lia.
  - rewrite Hi. intros _. split.
    + intros k Hk. rewrite Ha by done. by apply take_frame, data_fblock.
    + intros k Hk1 Hk2. rewrite Hz. change NDIRECT with 12 in *. change MAXFILE with 268 in *. apply get32_zero; unfold BSIZE; lia.
  - intros k Hk. split; [by apply Ha|]. by apply take_frame, data_fblock.
  - intros b Hb Hub Hnb _. apply Ho; [congruence|done].
Qed.
(** An entry of the indirect block. *)
Lemma grow_entry off : NDIRECT <= N < MAXFILE -> ind_of ip <> 0 ->
  let V1 := fset (alloc_block V sp x) (ind_of ip) (put32 (V (ind_of ip)) (4 * (N - NDIRECT)) x) in
  addr_of V1 ip N = x /\ grows V V1 ip ip N (N + 1) off [].
Proof.
  intros HN H0 V1. destruct take_pos as [Hxp Hxn]. destruct (alloc_block_facts V sp Hm x Hx Hf) as (Hm1 & Hu1 & Hz & Ho & _).
  pose proof Hs as [Hly H13 Hdir Hind Hus]. destruct (Hind H0) as [Hne Hze]. set (ind := ind_of ip) in *.
  change NDIRECT with 12 in *. change MAXFILE with 268 in *.
  destruct (Hus ind (ind_fblock H0)) as (Hir & Hiu & Hin). destruct (take_frame ind (ind_fblock H0)) as [Hix Hiv].
  assert (Hlen : length (V ind) = Z.to_nat BSIZE) by apply (fm_len _ _ Hm).
  assert (E1 : V1 ind = put32 (V ind) (4 * (N - 12)) x) by (unfold V1, fset; by rewrite decide_True).
  assert (E2 : forall c, c <> ind -> V1 c = alloc_block V sp x c) by (intros c Hc; unfold V1, fset; by rewrite decide_False).
  assert (Hu : forall c, 0 <= c < sb_size sp -> in_use V1 sp c = (x =? c) || in_use V sp c).
  { intros c Hc. rewrite <- Hu1 by done. by apply (in_use_fset _ _ Hm1). }
  assert (Hn : addr_of V1 ip N = x).
  { unfold addr_of. change NDIRECT with 12. destruct (Z.ltb_spec N 12); [lia|]. fold ind. change (i_addrs ip !!! Z.to_nat 12) with ind.
    rewrite E1, get32_put32 by (rewrite ?Hlen; unfold BSIZE; lia). apply Z.mod_small. lia. }
  assert (Ha : forall k, 0 <= k < 268 -> k <> N -> addr_of V1 ip k = addr_of V ip k).
  { intros k Hk Hkn. unfold addr_of. change NDIRECT with 12. destruct (Z.ltb_spec k 12); [done|]. change (i_addrs ip !!! Z.to_nat 12) with ind.
    rewrite E1. apply get32_put32_ne; rewrite ?Hlen; unfold BSIZE; lia. }
  assert (Hax : forall k, 0 <= k < N -> addr_of V1 ip k <> addr_of V1 ip N) by (intros k Hk; rewrite Ha, Hn by lia; by apply take_frame, data_fblock).
  split; [exact Hn|]. apply grows_take; try done; try lia.
  - destruct Hm1 as [? ? Hb1 Hs1 Hl1]. split; try done.
    + rewrite Hu by lia. rewrite (fm_boot _ _ Hm). apply orb_true_r.
    + intros b Hb. rewrite Hu by (by apply (bmaps_range V sp Hm)). rewrite (fm_self _ _ Hm b Hb). apply orb_true_r.
    + intros c. destruct (Z.eq_dec c ind) as [->|]; [|rewrite E2 by done; apply Hl1]. rewrite E1, length_put32; [exact Hlen|lia|rewrite Hlen; unfold BSIZE; lia].
  - by destruct ip.
  - intros b. unfold fblock. fold ind. split.
    + intros [(k & Hk & ->)|?]; [|tauto]. destruct (Z.eq_dec k N) as [->|]; [by right; rewrite Hn|]. left. left. exists k. split; [lia|]. apply Ha; lia.
    + intros [[(k & Hk & ->)|?]| ->]; [|tauto|]; left; [exists k; split; [lia|]; by rewrite Ha by lia|exists N; split; [lia|done]].
  - split.
    + change MAXFILE with 268. lia.
    + intros k Hk. destruct (Z.eq_dec k N) as [->|]; [by rewrite Hn|]. rewrite Ha by lia. apply (ly_addr _ _ _ Hly). lia.
    + apply inj_snoc; [|done]. intros j k Hj Hk. rewrite !Ha by lia. by apply (ly_inj _ _ _ Hly).
    + intros _. change (i_addrs ip !!! Z.to_nat NDIRECT) with ind. split; [pose proof (fm_size _ _ Hm); unfold BPB, BSIZE in *; lia|].
      intros k Hk. destruct (Z.eq_dec k N) as [->|]; [rewrite Hn; congruence|]. rewrite Ha by lia. apply Hne. lia.
    + intros c. destruct (Z.eq_dec c ind) as [->|]; [|rewrite E2 by done; apply (fm_len _ _ Hm1)]. rewrite E1, length_put32; [exact Hlen|lia|rewrite Hlen; unfold BSIZE; lia].
  - change NDIRECT with 12. intros k Hk. lia.
  - fold ind. intros _. split.
    + intros k Hk. destruct (Z.eq_dec k N) as [->|]; [rewrite Hn; congruence|]. rewrite Ha by lia. apply Hne. lia.
    + change NDIRECT with 12. change MAXFILE with 268. intros k Hk1 Hk2. rewrite E1, get32_put32_ne by (rewrite ?Hlen; unfold BSIZE; lia). apply Hze; lia.
  - intros k Hk. split; [apply Ha; lia|]. rewrite E2 by (apply Hne; lia). by apply take_frame, data_fblock.
  - right. split; [done|]. rewrite Hn, E2 by congruence. done.
  - intros b Hb Hub Hnb Hnf. rewrite E2 by (intros ->; apply Hnf; by right). apply Ho; [congruence|done].
Qed.
End take.

(** A write within the blocks the file has. *)
Lemma grow_write V ip N off bs : fmap_ok V sp -> fstate V sp ip N -> 0 <= off -> off / BSIZE < N -> off mod BSIZE + Z.of_nat (length bs) <= BSIZE ->
  let b := addr_of V ip (off / BSIZE) in
  grows V (fset V b (upd (V b) (Z.to_nat (off mod BSIZE)) bs)) ip ip N N off bs.
Proof.
  intros Hm Hs Hoff Hb Hle b. pose proof Hs as [Hly H13 Hdir Hind Hus]. set (V1 := fset V b _).
  pose proof (wrote_block V ip N off bs Hly Hoff Hb Hle) as Hw. change (wrote V V1 ip N off bs) in Hw.
  assert (H0 : 0 <= off / BSIZE) by (apply Z.div_pos; unfold BSIZE; lia).
  assert (Hfb : fblock V ip N b) by (left; exists (off / BSIZE); done). destruct (Hus b Hfb) as (Hbr & Hbu & Hbn).
  assert (Hu : forall c, 0 <= c < sb_size sp -> in_use V1 sp c = in_use V sp c) by (intros c Hc; by apply (in_use_fset _ _ Hm)).
  assert (Ha : forall k, 0 <= k < N -> addr_of V1 ip k = addr_of V ip k) by (intros k Hk; by eapply wrote_addr).
  assert (Hfb1 : forall c, fblock V1 ip N c <-> fblock V ip N c).
  { intros c. unfold fblock. split; (intros [(k & Hk & ->)|?]; [|by right]); left; exists k; (split; [done|]); by rewrite Ha. }
  assert (Hi : ind_of ip <> 0 -> V1 (ind_of ip) = V (ind_of ip)).
  { intros Hn0. unfold V1, fset. rewrite decide_False; [done|]. destruct (Hind Hn0) as [Hne _]. intros E. by apply (Hne (off / BSIZE)). }
  split; try done.
  - by destruct ip.
  - destruct Hm as [? ? Hb1 Hs1 Hl1]. split; try done; [rewrite Hu by lia; done| |apply (wr_len _ _ _ _ _ _ Hw)].
    intros c Hc. rewrite Hu by (apply (bmaps_range V); [by split|done]). by apply Hs1.
  - split; try done; [by eapply wrote_layout| |].
    + intros Hn0. destruct (Hind Hn0) as [Hne Hze]. split; [intros k Hk; rewrite Ha by done; by apply Hne|]. rewrite Hi by done. done.
    + intros c Hc. apply Hfb1 in Hc. destruct (Hus c Hc) as (? & Hcu & ?). split; [done|]. split; [|done]. rewrite Hu by lia. done.
  - intros j Hj. rewrite (wr_byte _ _ _ _ _ _ Hw j Hj). by rewrite (decide_True (P := j < N * BSIZE)) by lia.
  - intros c Hc _ _ Hnf. unfold V1, fset. rewrite decide_False; [done|]. by intros ->.
  - intros c Hc. by rewrite Hu.
  - intros c Hc. rewrite Hu by done. by left.
  - intros c Hc. by apply Hfb1.
  - intros c Hc. left. by apply Hfb1.
Qed.
End grow.

(** ** bmap *)

(** The inodes may change too. *)
Definition fs_upd (s s' : kernel) : Prop := fs_only (set_inodes (inodes s') s) s'.

Lemma fs_upd_trans s1 s2 s3 : fs_upd s1 s2 -> fs_upd s2 s3 -> fs_upd s1 s3.
Proof. unfold fs_upd, fs_only. intros E1 E2. rewrite E1 in E2. exact E2. Qed.

Lemma fs_only_upd s s' : fs_only s s' -> fs_upd s s' /\ inodes s' = inodes s.
Proof. unfold fs_upd, fs_only. intros E. assert (Ei : inodes s' = inodes s) by (by rewrite E). split; [|done]. rewrite Ei, E. by destruct s. Qed.

Lemma fs_upd_same s s' : fs_upd s s' -> sb s' = sb s /\ mem s' = mem s /\ disk s' = disk s /\ disk_writes s' = disk_writes s /\ panicked s' = panicked s /\ procs s' = procs s.
Proof. by intros ->. Qed.

(** The indirect block may have to be logged. *)
Definition pot (X : list Z) (ip : inode) : Z := if decide (ind_of ip <> 0 /\ ind_of ip ∈ X) then 0 else 1.

Definition budget (s : kernel) (T X : list Z) (ip : inode) (k : Z) : Prop := fits s T X (k + pot X ip).

Lemma fits_mono s T X k k' : fits s T X k -> k' <= k -> fits s T X k'.
Proof. intros [? [? ?]] ?. split; [done|]. split; lia. Qed.

Lemma fits_log s s' T X k : log s' = log s -> fits s T X k -> fits s' T X k.
Proof. intros E [? ?]. split; [done|]. unfold room in *. by rewrite E. Qed.

Lemma pot_mono X x ip : pot (add_home x X) ip <= pot X ip.
Proof. unfold pot. destruct (add_home_in x X) as [_ Hs]. repeat case_decide; try lia. exfalso. set_solver. Qed.

Lemma pot_range X ip : 0 <= pot X ip <= 1.
Proof. unfold pot. case_decide; lia. Qed.

Section bmap.
Context `{Fuel} `{DiskLaws} (D : Z) (p : nat) (Hfuel : (0 < fuel)%nat).

Lemma topen_set_inodes s V T O l : topen D p s V T O -> topen D p (set_inodes l s) V T O.
Proof. clear Hfuel. intros [Hv ? ? ? ? ? ?]. split; try done. by apply cview_set_inodes. Qed.

(** The file of the inode in slot [i], in a transaction that may log [X]. *)
Record gstate (s : kernel) (V : Z -> list Z) (T X : list Z) (i : nat) (ip : inode) (N k : Z) : Prop := {
  gs_open : topen D p s V T ∅;
  gs_map : fmap_ok V (sb s);
  gs_file : fstate V (sb s) ip N;
  gs_ip : inodes s !! i = Some ip;
  gs_dev : i_dev ip = D;
  gs_fits : budget s T X ip k;
  gs_maps : bmaps (sb s) ⊆ X;
  gs_up : panicked s = false
}.

(** What a step makes of it: the block [a], or 0 when the disk is full. *)
Definition stepped (s : kernel) (V : Z -> list Z) (ip : inode) (i : nat) (N k a : Z) (s' : kernel) : Prop :=
  exists V' ip' T' X', fs_upd s s' /\ inodes s' = <[i := ip']> (inodes s) /\
    (a <> 0 /\ a = addr_of V' ip' N /\ a ∈ X' /\ grows (sb s) V V' ip ip' N (N + 1) 0 [] /\ gstate s' V' T' X' i ip' (N + 1) (k - 1) \/
     a = 0 /\ (forall y, 0 <= y < sb_size (sb s) -> in_use V' (sb s) y = true) /\ grows (sb s) V V' ip ip' N N 0 [] /\ gstate s' V' T' X' i ip' N (k - 1)).

Lemma gstate_insert s V T X i ip N k : gstate s V T X i ip N k -> inodes s = <[i := ip]> (inodes s).
Proof. clear Hfuel. intros Hg. symmetry. apply list_insert_id, Hg. Qed.

(** balloc for the file of slot [i], with the block of [O] open. *)
Lemma gstate_balloc s V T X ip N O c : topen D p s V T O -> fmap_ok V (sb s) -> fstate V (sb s) ip N -> (forall x, x ∈ O -> fblock V ip N x) ->
  fits s T X c -> bmaps (sb s) ⊆ X -> panicked s = false -> Z.of_nat (size O) + 1 < c ->
  (exists x s' T', balloc D s = Ret x s' /\ x <> 0 /\ 0 <= x < sb_size (sb s) /\ in_use V (sb s) x = false /\ fs_only s s' /\
     topen D p s' (alloc_block V (sb s) x) T' O /\ kept_open D O s s' /\ fits s' T' (add_home x X) (c - 1)) \/
  ((forall y, 0 <= y < sb_size (sb s) -> in_use V (sb s) y = true) /\
   exists s', balloc D s = Ret 0 s' /\ fs_only s s' /\ log s' = log s /\ topen D p s' V T O /\ kept_open D O s s').
Proof.
  intros Ht Hm Hs HO Hft HbX Hup Hc.
  destruct (balloc_eq D p Hfuel s V T O X c Ht Hm) as [(x & s1 & T1 & Hx & Hf & _ & E & C & _ & Ht1 & K & Hft1)|(Hall & s1 & E & C & _ & Hl & Ht1 & K)]; try done.
  - intros x Hx. destruct (st_used _ _ _ _ Hs x (HO x Hx)) as (_ & ? & ?). done.
  - left. exists x, s1, T1. split; [done|]. split; [lia|]. split; [lia|]. done.
  - right. split; [done|]. by exists s1.
Qed.

Lemma bmap_direct s V T X i ip N k : gstate s V T X i ip N k -> 0 <= N < NDIRECT -> 3 <= k ->
  exists a s', bmap i N s = Ret a s' /\ stepped s V ip i N k a s'.
Proof.
  intros Hg HN Hk. pose proof Hg as [Ht Hm Hs Hi Hd Hft HbX Hup]. pose proof (pot_range X ip).
  unfold bmap. rewrite (bind_Ret _ _ _ _ _ (eq_refl : geti i s = Ret (inodes s !!! i) s)), (list_lookup_total_correct _ _ _ Hi).
  destruct (Z.ltb_spec N NDIRECT); [|lia]. cbv zeta. rewrite (st_direct _ _ _ _ Hs N ltac:(lia)). cbn [Z.eqb]. rewrite Hd.
  destruct (gstate_balloc s V T X ip N ∅ (k + pot X ip) Ht Hm Hs) as [(x & s1 & T1 & E & Hx0 & Hx & Hf & C & Ht1 & _ & Hft1)|(Hall & s1 & E & C & Hl & Ht1 & _)];
    [intros y Hy; by apply elem_of_empty in Hy|done|done|done|rewrite size_empty; lia| |];
    rewrite (bind_Ret _ _ _ _ _ E); destruct (fs_only_upd _ _ C) as [Cu Ei].
  - destruct (Z.eqb_spec x 0); [done|]. set (ip' := set_i_addrs (<[Z.to_nat N := x]> (i_addrs ip)) ip).
    rewrite (bind_Ret _ _ _ _ _ (modi_eq s1 i ip _ ltac:(by rewrite Ei))). fold ip'. eexists x, _. split; [done|].
    exists (alloc_block V (sb s) x), ip', T1, (add_home x X). destruct (fs_upd_same _ _ Cu) as (Esb & _ & _ & _ & Eup & _).
    split; [unfold fs_upd; cbn [inodes set_inodes]; rewrite C; by destruct s|]. split; [cbn; by rewrite Ei|]. left.
    pose proof (grow_direct (sb s) V ip N x Hm Hs Hx Hf 0 HN) as Hgr. split; [done|]. split.
    { unfold addr_of. destruct (Z.ltb_spec N NDIRECT); [|lia]. symmetry. apply list_lookup_total_insert_eq. rewrite (st_len _ _ _ _ Hs). change NDIRECT with 12 in *. lia. }
    split; [exact (proj1 (add_home_in x X))|]. split; [done|]. split; cbn [sb set_inodes panicked log].
    + by apply topen_set_inodes.
    + rewrite Esb. apply Hgr.
    + rewrite Esb. apply Hgr.
    + cbn. apply list_lookup_insert_eq. rewrite Ei. by eapply lookup_lt_Some.
    + done.
    + unfold budget. apply (fits_mono _ _ _ (k + pot X ip - 1)); [by apply (fits_log s1)|]. assert (Hp : pot (add_home x X) ip' = pot (add_home x X) ip).
      { unfold pot, ind_of, ip'. cbn [i_addrs set_i_addrs]. rewrite list_lookup_total_insert_ne by (change NDIRECT with 12 in *; lia). done. }
      rewrite Hp. pose proof (pot_mono X x ip). lia.
    + rewrite Esb. destruct (add_home_in x X). set_solver.
    + by rewrite Eup.
  - cbn [Z.eqb]. exists 0, s1. split; [done|]. exists V, ip, T, X. destruct (fs_upd_same _ _ Cu) as (Esb & _ & _ & _ & Eup & _).
    split; [done|]. split; [rewrite Ei; by eapply gstate_insert|]. right. split; [done|]. split; [done|]. split; [by apply grows_refl|].
    split; rewrite ?Esb, ?Ei, ?Eup; try done. apply (fits_mono _ _ _ (k + pot X ip)); [by apply (fits_log s)|lia].
Qed.
(** The part of bmap that looks up or fills the entry of the indirect block. *)
Definition bmap_entry (dev ind bn : Z) : K Z :=
  bp <- bread dev ind;;
  bf <- getb bp;;
  let addr := get32 (b_data bf) (4 * bn) in
  addr <- (if addr =? 0 then
             addr <- balloc dev;;
             when (truthy addr)
               (modbd bp (fun d => put32 d (4 * bn) addr);; log_write bp);;
             ret addr
           else ret addr);;
  brelse bp;;
  ret addr.

Lemma bmap_entry_eq s V T X i ip N k : gstate s V T X i ip N k -> NDIRECT <= N < MAXFILE -> ind_of ip <> 0 -> 3 <= k ->
  exists a s', bmap_entry D (ind_of ip) (N - NDIRECT) s = Ret a s' /\ stepped s V ip i N k a s'.
Proof.
  intros Hg HN Hi0 Hk. pose proof Hg as [Ht Hm Hs Hi Hd Hft HbX Hup]. pose proof (pot_range X ip). set (ind := ind_of ip) in *.
  assert (Hif : fblock V ip N ind) by (by right). destruct (st_used _ _ _ _ Hs ind Hif) as (Hir & Hiu & Hin).
  assert (Hi32 : 0 <= ind < 2 ^ 32) by (pose proof (fm_size _ _ Hm); unfold BPB, BSIZE in *; lia).
  assert (HrT : room s T (k + pot X ip)) by (destruct Hft; by eapply subset_room; [|apply (to_nodup _ _ _ _ _ _ Ht)|]).
  destruct (topen_bread D p Hfuel s V T ∅ ind _ Ht ltac:(set_solver) HrT) as (q & s1 & E1 & C1 & Hq & Hdat & Ht1 & _); [rewrite size_empty; lia|].
  rewrite union_empty_r_L in Ht1. destruct (bufs_tx_only _ _ C1) as [Ct1 El1]. pose proof (tx_fs_only _ _ Ct1) as Cf1.
  destruct (fs_only_upd _ _ Cf1) as [Cu1 Ei1]. destruct (fs_upd_same _ _ Cu1) as (Esb1 & _ & _ & _ & Eup1 & _).
  unfold bmap_entry. rewrite (bind_Ret _ _ _ _ _ E1), (bind_Ret _ _ _ _ _ (eq_refl : getb q s1 = Ret (bufs s1 !!! q) s1)), Hdat.
  cbv zeta. destruct (st_ind _ _ _ _ Hs Hi0) as [Hne Hze]. fold ind in Hze. rewrite (Hze N ltac:(lia) HN). cbn [Z.eqb].
  destruct (gstate_balloc s1 V T X ip N {[ind]} (k + pot X ip)) as [(x & s2 & T2 & E2 & Hx0 & Hx & Hf & C2 & Ht2 & K2 & Hft2)|(Hall & s2 & E2 & C2 & Hl2 & Ht2 & K2)];
    rewrite ?Esb1, ?Eup1 in *; try done; [intros y Hy; by apply elem_of_singleton in Hy as ->|by apply (fits_log s)|rewrite size_singleton; lia| |];
    destruct (fs_only_upd _ _ C2) as [Cu2 Ei2]; destruct (fs_upd_same _ _ Cu2) as (Esb2 & _ & _ & _ & Eup2 & _).
  - set (V2 := alloc_block V (sb s) x) in *. pose proof (take_frame (sb s) V ip N x Hm Hs Hx Hf ind Hif) as [Hix Hiv]. fold V2 in Hiv.
    assert (Hrm : room s2 T2 (k + pot X ip - 1)) by (destruct Hft2; by eapply subset_room; [|apply (to_nodup _ _ _ _ _ _ Ht2)|]).
    destruct (topen_write D p Hfuel s2 V2 T2 {[ind]} q ind (k + pot X ip - 1) Ht2) with (g := fun d => put32 d (4 * (N - NDIRECT)) x)
      as (s3 & s4 & E3 & E4 & _ & C4 & Ht4 & K4 & Esz4); [set_solver|apply K2; [set_solver|done]|done|exact Hrm|lia|].
    destruct (topen_brelse D p s4 _ _ {[ind]} q ind Ht4) as (s5 & E5 & C5 & Ht5 & _); [set_solver|apply K4; [set_solver|apply K2; [set_solver|done]]|].
    assert (Emid : (addr <- balloc D;; when (truthy addr) (modbd q (fun d => put32 d (4 * (N - NDIRECT)) addr);; log_write q);; ret addr) s1 = Ret x s4).
    { rewrite (bind_Ret _ _ _ _ _ E2). unfold truthy. destruct (Z.eqb_spec x 0); [done|]. cbn [negb when].
      rewrite (bind_bind_Ret _ _ _ _ _ _ E3). by rewrite (bind_Ret _ _ _ _ _ E4). }
    rewrite (bind_Ret _ _ _ _ _ Emid), (bind_Ret _ _ _ _ _ E5). exists x, s5. split; [done|]. rewrite Hiv in Ht5. rewrite difference_diag_L in Ht5.
    destruct (bufs_tx_only _ _ C5) as [Ct5 El5]. assert (Cf : fs_only s s5).
    { eapply fs_only_trans; [exact Cf1|]. eapply fs_only_trans; [exact C2|]. eapply fs_only_trans; by apply tx_fs_only. }
    destruct (fs_only_upd _ _ Cf) as [Cu Ei]. destruct (fs_upd_same _ _ Cu) as (Esb & _ & _ & _ & Eup & _).
    pose proof (grow_entry (sb s) V ip N x Hm Hs Hx Hf 0 HN Hi0) as [Hax Hgr]. fold ind V2 in Hax, Hgr.
    exists (fset V2 ind (put32 (V ind) (4 * (N - NDIRECT)) x)), ip, (add_home ind T2), (add_home ind (add_home x X)).
    split; [done|]. split; [rewrite Ei; by eapply gstate_insert|]. left. split; [done|]. split; [done|].
    split; [apply (proj2 (add_home_in ind _)), (proj1 (add_home_in x X))|]. split; [done|].
    split; rewrite ?Esb, ?Ei, ?Eup; try done; [apply Hgr|apply Hgr| |].
    + assert (Hp : pot (add_home ind (add_home x X)) ip = 0) by (unfold pot; rewrite decide_True by (split; [exact Hi0|exact (proj1 (add_home_in ind (add_home x X)))]); done).
      unfold budget. rewrite Hp. apply (fits_log s4); [by rewrite El5|]. unfold pot in Hft2. destruct (decide (ind_of ip <> 0 /\ ind_of ip ∈ X)) as [[_ HiX]|Hno].
      * assert (HiX2 : ind ∈ add_home x X) by (destruct (add_home_in x X); set_solver).
        assert (Eah : add_home ind (add_home x X) = add_home x X) by (unfold add_home at 1; by rewrite decide_True). rewrite Eah.
        apply (fits_mono _ _ _ (k + 0 - 1)); [by apply (fits_same s2)|lia].
      * apply (fits_mono _ _ _ (k + 1 - 1 - 1)); [by apply (fits_step Hfuel s2)|lia].
    + destruct (add_home_in x X), (add_home_in ind (add_home x X)). set_solver.
  - destruct (topen_brelse D p s2 V T {[ind]} q ind Ht2) as (s5 & E5 & C5 & Ht5 & _); [set_solver|apply K2; [set_solver|done]|].
    assert (Emid : (addr <- balloc D;; when (truthy addr) (modbd q (fun d => put32 d (4 * (N - NDIRECT)) addr);; log_write q);; ret addr) s1 = Ret 0 s2).
    { by rewrite (bind_Ret _ _ _ _ _ E2). }
    rewrite (bind_Ret _ _ _ _ _ Emid), (bind_Ret _ _ _ _ _ E5). exists 0, s5. split; [done|]. rewrite difference_diag_L in Ht5.
    destruct (bufs_tx_only _ _ C5) as [Ct5 El5]. assert (Cf : fs_only s s5).
    { eapply fs_only_trans; [exact Cf1|]. eapply fs_only_trans; [exact C2|by apply tx_fs_only]. }
    destruct (fs_only_upd _ _ Cf) as [Cu Ei]. destruct (fs_upd_same _ _ Cu) as (Esb & _ & _ & _ & Eup & _).
    exists V, ip, T, X. split; [done|]. split; [rewrite Ei; by eapply gstate_insert|]. right. split; [done|]. split; [done|].
    split; [by apply grows_refl|]. split; rewrite ?Esb, ?Ei, ?Eup; try done.
    apply (fits_mono _ _ _ (k + pot X ip)); [|lia]. apply (fits_log s); [by rewrite El5, Hl2, El1|done].
Qed.
(** A step after blocks were taken for the same file. *)
Lemma stepped_after s s1 V V1 ip ip1 i N k a s' : 0 <= N -> fs_upd s s1 -> inodes s1 = <[i := ip1]> (inodes s) -> grows (sb s) V V1 ip ip1 N N 0 [] ->
  stepped s1 V1 ip1 i N k a s' -> stepped s V ip i N k a s'.
Proof.
  clear Hfuel. intros HN0 C Ei Hg (V' & ip' & T' & X' & C' & Ei' & Hst). exists V', ip', T', X'. destruct (fs_upd_same _ _ C) as (Esb & _).
  assert (Htr : forall M, grows (sb s) V1 V' ip1 ip' N M 0 [] -> grows (sb s) V V' ip ip' N M 0 []).
  { intros M Hg2. apply (grows_trans (sb s) V V1 V' ip ip1 ip' N N M 0 [] [] Hg); [cbn; unfold BSIZE; lia|done|lia]. }
  split; [by eapply fs_upd_trans|]. split; [by rewrite Ei', Ei, list_insert_insert_eq|]. rewrite Esb in Hst.
  destruct Hst as [(? & ? & ? & Hg2 & ?)|(? & ? & Hg2 & ?)]; [left|right]; by repeat (split; [by auto|]).
Qed.

Lemma bmap_indirect s V T X i ip N k : gstate s V T X i ip N k -> NDIRECT <= N < MAXFILE -> 3 <= k ->
  exists a s', bmap i N s = Ret a s' /\ stepped s V ip i N k a s'.
Proof.
  intros Hg HN Hk. pose proof Hg as [Ht Hm Hs Hi Hd Hft HbX Hup]. pose proof (pot_range X ip) as Hpr.
  unfold bmap. rewrite (bind_Ret _ _ _ _ _ (eq_refl : geti i s = Ret (inodes s !!! i) s)), (list_lookup_total_correct _ _ _ Hi).
  destruct (Z.ltb_spec N NDIRECT); [lia|]. cbv zeta. destruct (Z.ltb_spec (N - NDIRECT) NINDIRECT); [|unfold MAXFILE in HN; lia].
  fold (ind_of ip). rewrite Hd. destruct (Z.eqb_spec (ind_of ip) 0) as [H0i|H0i].
  - assert (HN12 : N = NDIRECT) by (destruct (Z.eq_dec N NDIRECT); [done|]; destruct (ly_ind _ _ _ (st_layout _ _ _ _ Hs) ltac:(lia)) as [Hp _]; fold (ind_of ip) in Hp; lia).
    assert (Epot : pot X ip = 1) by (unfold pot; rewrite decide_False; [done|tauto]).
    destruct (gstate_balloc s V T X ip N ∅ (k + 1) Ht Hm Hs) as [(x & s1 & T1 & E & Hx0 & Hx & Hf & C & Ht1 & _ & Hft1)|(Hall & s1 & E & C & Hl & Ht1 & _)];
      [intros y Hy; by apply elem_of_empty in Hy|unfold budget in Hft; by rewrite Epot in Hft|done|done|rewrite size_empty; lia| |];
      destruct (fs_only_upd _ _ C) as [Cu Ei]; destruct (fs_upd_same _ _ Cu) as (Esb & _ & _ & _ & Eup & _).
    + set (ip1 := set_i_addrs (<[Z.to_nat NDIRECT := x]> (i_addrs ip)) ip). set (s2 := set_inodes (<[i := ip1]> (inodes s)) s1).
      assert (Emid : (addr <- balloc D;; when (truthy addr) (modi i (fun ip => set_i_addrs (<[Z.to_nat NDIRECT := addr]> (i_addrs ip)) ip));; ret addr) s = Ret x s2).
      { rewrite (bind_Ret _ _ _ _ _ E). unfold truthy. destruct (Z.eqb_spec x 0); [done|]. cbn [negb when].
        rewrite (bind_Ret _ _ _ _ _ (modi_eq s1 i ip _ ltac:(by rewrite Ei))). unfold s2. by rewrite Ei. }
      rewrite (bind_Ret _ _ _ _ _ Emid). destruct (Z.eqb_spec x 0); [done|].
      assert (Ei1 : ind_of ip1 = x) by (apply list_lookup_total_insert_eq; rewrite (st_len _ _ _ _ Hs); change (Z.to_nat NDIRECT) with 12%nat; lia).
      pose proof (grow_ind (sb s) V ip N x Hm Hs Hx Hf 0 ltac:(change NDIRECT with 12 in *; lia) H0i) as Hgr. fold ip1 in Hgr.
      assert (Hg2 : gstate s2 (alloc_block V (sb s) x) T1 (add_home x X) i ip1 N k).
      { split; unfold s2; cbn [sb set_inodes panicked inodes]; rewrite ?Esb, ?Eup; try done; [by apply topen_set_inodes|apply Hgr|apply Hgr| | |].
        - apply list_lookup_insert_eq. by eapply lookup_lt_Some.
        - unfold budget, pot. rewrite decide_True by (rewrite Ei1; split; [done|exact (proj1 (add_home_in x X))]).
          apply (fits_mono _ _ _ (k + 1 - 1)); [by apply (fits_log s1)|lia].
        - destruct (add_home_in x X). set_solver. }
      destruct (bmap_entry_eq s2 _ _ _ i ip1 N k Hg2 HN ltac:(by rewrite Ei1) Hk) as (a & s' & E' & Hst). rewrite Ei1 in E'.
      exists a, s'. split; [exact E'|]. eapply (stepped_after s s2); [change NDIRECT with 12 in *; lia| |done|exact Hgr|exact Hst].
      unfold fs_upd, s2. cbn [inodes set_inodes]. rewrite C. by destruct s.
    + assert (Emid : (addr <- balloc D;; when (truthy addr) (modi i (fun ip => set_i_addrs (<[Z.to_nat NDIRECT := addr]> (i_addrs ip)) ip));; ret addr) s = Ret 0 s1).
      { by rewrite (bind_Ret _ _ _ _ _ E). }
      rewrite (bind_Ret _ _ _ _ _ Emid). exists 0, s1. split; [done|]. exists V, ip, T, X.
      split; [done|]. split; [rewrite Ei; by eapply gstate_insert|]. right. split; [done|]. split; [done|]. split; [by apply grows_refl|].
      split; rewrite ?Esb, ?Ei, ?Eup; try done. apply (fits_mono _ _ _ (k + pot X ip)); [by apply (fits_log s)|lia].
  - rewrite (bind_Ret _ _ _ _ _ (eq_refl : ret (ind_of ip) s = Ret (ind_of ip) s)).
    destruct (Z.eqb_spec (ind_of ip) 0); [done|]. exact (bmap_entry_eq s V T X i ip N k Hg HN H0i Hk).
Qed.

(** bmap of the block after the last one. *)
Lemma bmap_grow s V T X i ip N k : gstate s V T X i ip N k -> 0 <= N < MAXFILE -> 3 <= k ->
  exists a s', bmap i N s = Ret a s' /\ stepped s V ip i N k a s'.
Proof.
  intros Hg HN Hk. destruct (Z.lt_ge_cases N NDIRECT); [eapply bmap_direct; (done || lia)|eapply bmap_indirect; (done || lia)].
Qed.
Lemma gstate_mono s V T X i ip N k k' : gstate s V T X i ip N k -> k' <= k -> gstate s V T X i ip N k'.
Proof. clear Hfuel. intros [? ? ? ? ? Hft ? ?] Hk. split; try done. eapply fits_mono; [exact Hft|lia]. Qed.

Lemma gstate_room s V T X i ip N k : gstate s V T X i ip N k -> room s T k.
Proof.
  clear Hfuel. intros [Ht _ _ _ _ Hft _ _]. pose proof (pot_range X ip). destruct (fits_mono _ _ _ _ k Hft ltac:(lia)) as [? ?].
  eapply subset_room; [done|apply (to_nodup _ _ _ _ _ _ Ht)|done].
Qed.

(** bmap of any block up to the one after the last. *)
Lemma bmap_any s V T X i ip N k q : gstate s V T X i ip N k -> 0 <= q <= N -> q < MAXFILE -> 3 <= k ->
  exists a s' V' ip' T' X' N', bmap i q s = Ret a s' /\ fs_upd s s' /\ inodes s' = <[i := ip']> (inodes s) /\
    (a <> 0 /\ a = addr_of V' ip' q /\ N' = Z.max N (q + 1) /\ grows (sb s) V V' ip ip' N N' 0 [] /\
       (gstate s' V' T' X' i ip' N' k \/ a ∈ X' /\ gstate s' V' T' X' i ip' N' (k - 1)) \/
     a = 0 /\ N' = N /\ q = N /\ (forall y, 0 <= y < sb_size (sb s) -> in_use V' (sb s) y = true) /\ grows (sb s) V V' ip ip' N N' 0 [] /\ gstate s' V' T' X' i ip' N' (k - 1)).
Proof.
  intros Hg Hq Hqm Hk. pose proof Hg as [Ht Hm Hs Hi Hd Hft HbX Hup]. destruct (Z.eq_dec q N) as [->|Hne].
  - destruct (bmap_grow s V T X i ip N k Hg ltac:(lia) Hk) as (a & s' & E & V' & ip' & T' & X' & C & Ei & [(? & Ha & HaX & Hgr & Hg')|(? & Hall & Hgr & Hg')]).
    + exists a, s', V', ip', T', X', (N + 1). do 3 (split; [done|]). left. split; [done|]. split; [done|]. split; [lia|]. split; [done|]. by right.
    + exists a, s', V', ip', T', X', N. do 3 (split; [done|]). right. done.
  - pose proof (gstate_room _ _ _ _ _ _ _ _ Hg) as Hr. pose proof Ht as Htv. apply topen_tview in Htv.
    destruct (bmap_mapped D p Hfuel s V _ _ i ip q (tv_cache _ _ _ _ _ Htv) (list_lookup_total_correct _ _ _ Hi) Hd) as (s0 & E0 & C0 & Hv0).
    { eapply layout_mapped; [exact Htv|exact Hr|lia|apply Hs|lia]. }
    pose proof (ly_addr _ _ _ (st_layout _ _ _ _ Hs) q ltac:(lia)) as Hb. pose proof (tview_bufs D p _ _ _ _ Htv C0 Hv0) as Ht0. apply topen_tview in Ht0.
    destruct (bufs_tx_only _ _ C0) as [Ct0 El0]. destruct (fs_only_upd _ _ (tx_fs_only _ _ Ct0)) as [Cu Ei]. destruct (fs_upd_same _ _ Cu) as (Esb & _ & _ & _ & Eup & _).
    exists (addr_of V ip q), s0, V, ip, T, X, N. split; [done|]. split; [done|]. split; [rewrite Ei; by eapply gstate_insert|]. left.
    split; [lia|]. split; [done|]. split; [lia|]. split; [by apply grows_refl|]. left.
    split; rewrite ?Esb, ?Ei, ?Eup; try done. by apply (fits_log s).
Qed.
End bmap.
