(* ===== verification/FsExtend.v ===== *)
(** writei past the end of a file: the file grows by the blocks it needs, what
    was written is read back, and nothing else on the disk changes. *)

From S2P Require Import Prelude Outcome Mem State Spinlock KString Kalloc Vm VmSpec UserMem VmCopy Proc ProcSpec Sleeplock Calm Bytes Disk Bio BioSpec BioView BioCheck Log LogSpec LogCrash LogWrite Uart Printf PrintfSpec Fs Itable FsData FsSpec FsTrans FsOpen FsAlloc FsWrite FsGrow.

(** ** The source of a write *)

(** A source holds [bs]: a buffer of the kernel, or memory of process [p] all of
    whose bytes the process can read through its page table. *)
Definition supplies (p : nat) (s : kernel) (src : source) (bs : list Z) : Prop :=
  match src with
  | FromKernel l => l = bs
  | FromUser va => 0 <= va < 2 ^ 64 /\ image_ok (img s) /\ exists t,
      pt_rep (img s) (mem s) (p_pagetable (procs s !!! p)) t /\ uread (mem s) t va (length bs) = Some bs
  end.

Lemma supplies_same p s s' src bs : img s' = img s -> mem s' = mem s -> procs s' = procs s -> supplies p s src bs -> supplies p s' src bs.
Proof. intros E1 E2 E3. unfold supplies. by rewrite E1, E2, E3. Qed.

Lemma uread_length m t n : forall va bs, uread m t va n = Some bs -> length bs = n.
Proof.
  induction n as [|n IH]; intros va bs E; cbn [uread] in E; [by injection E as <-|]. destruct (ubyte m t va); [|done]. cbn in E.
  destruct (uread m t (va + 1) n) as [l|] eqn:El; [|done]. injection E as <-. cbn. by rewrite (IH _ _ El).
Qed.

Lemma uread_split m t va n bs : uread m t va (length bs) = Some bs -> (n <= length bs)%nat ->
  uread m t va n = Some (take n bs) /\ uread m t (va + Z.of_nat n) (length (drop n bs)) = Some (drop n bs).
Proof.
  intros E Hn. assert (El : length bs = (n + length (drop n bs))%nat) by (rewrite length_drop; lia). rewrite El, uread_app in E.
  destruct (uread m t va n) as [a|] eqn:Ea; [|done]. cbn in E. destruct (uread m t (va + Z.of_nat n) _) as [b|] eqn:Eb; [|done]. cbn in E. injection E as E.
  assert (Ha : length a = n) by (by eapply uread_length). rewrite <- E. split; [by rewrite take_app_length'|]. by rewrite drop_app_length'.
Qed.

Lemma uread_below m t : forall bs va, uread m t va (length bs) = Some bs -> (0 < length bs)%nat -> va + Z.of_nat (length bs) <= MAXVA.
Proof.
  induction bs as [|b bs IH]; intros va E Hl; [simpl in Hl; lia|]. cbn [uread length] in *. unfold ubyte in E. destruct (Z.leb_spec MAXVA va); [done|].
  destruct (_ =? 0); [done|]. cbn in E. destruct (uread m t (va + 1) (length bs)) as [l|] eqn:El; [|done]. injection E as _ ->.
  destruct bs as [|c bs]; [simpl; lia|]. specialize (IH (va + 1) El ltac:(simpl; lia)). cbn [length] in *. lia.
Qed.

Lemma supplies_copyin p s src bs m : idle s p -> supplies p s src bs -> 0 <= m <= Z.of_nat (length bs) ->
  either_copyin src m s = Ret (take (Z.to_nat m) bs, 0) s.
Proof.
  intros Hid Hs Hm. destruct src as [va|l]; [|rewrite Hs; by apply (either_copyin_kernel p)].
  destruct Hid as [Hc _], Hs as (Hva & Him & t & Hrep & Hu). unfold either_copyin. rewrite (bind_Ret _ _ _ _ _ (myproc_eq s (cm_irq _ _ Hc))), (cm_settled _ _ Hc), (cm_proc _ _ Hc).
  rewrite (bind_Ret _ _ _ _ _ (eq_refl : deref (Some p) s = Ret p s)), (bind_Ret _ _ _ _ _ (eq_refl : getp p s = Ret (procs s !!! p) s)).
  unfold copyin. destruct (copyin_loop s _ t Him Hrep (3 + Z.to_nat (m / PGSIZE)) [] va m) as (b & r & E & Hb); [lia|lia|apply copy_fuel; lia|].
  rewrite E. destruct (uread_split _ _ _ (Z.to_nat m) _ Hu ltac:(lia)) as [Eu _]. rewrite Eu in Hb. destruct Hb as [-> ->]. done.
Qed.

Lemma supplies_add p s src bs m : supplies p s src bs -> 0 < m <= Z.of_nat (length bs) -> supplies p s (source_add src m) (drop (Z.to_nat m) bs).
Proof.
  intros Hs Hm. destruct src as [va|l]; [|simpl in *; by rewrite Hs]. destruct Hs as (Hva & Him & t & Hrep & Hu). cbn [source_add supplies].
  pose proof (uread_below _ _ _ _ Hu ltac:(lia)) as Hb. change MAXVA with (2 ^ 38) in Hb. rewrite u64_small by lia. split; [lia|]. split; [done|]. exists t. split; [done|].
  destruct (uread_split _ _ _ (Z.to_nat m) _ Hu ltac:(lia)) as [_ Eu]. by rewrite Z2Nat.id in Eu by lia.
Qed.

Section extend.
Context `{Fuel} `{DiskLaws} (D : Z) (p : nat) (Hfuel : (0 < fuel)%nat).

Lemma topen_idle s V T O : topen D p s V T O -> idle s p.
Proof. clear Hfuel. intros [[Hid _] _ _ _ _ _ _]. done. Qed.

(** Writing a block that the file has. *)
Lemma gstate_write s V T X i ip N k off bs : gstate D p s V T X i ip N k -> 0 <= off -> off / BSIZE < N -> off mod BSIZE + Z.of_nat (length bs) <= BSIZE -> 1 <= k ->
  let b := addr_of V ip (off / BSIZE) in
  exists j s1 s2 s3 s4 T', bread D b s = Ret j s1 /\ bufs_only s s1 /\ idle s1 p /\ modbd j (fun d => upd d (Z.to_nat (off mod BSIZE)) bs) s1 = Ret tt s2 /\
    log_write j s2 = Ret tt s3 /\ brelse j s3 = Ret tt s4 /\ tx_only s s4 /\
    let V' := fset V b (upd (V b) (Z.to_nat (off mod BSIZE)) bs) in
    grows (sb s) V V' ip ip N N off bs /\ gstate D p s4 V' T' (add_home b X) i ip N (if decide (b ∈ X) then k else k - 1).
Proof.
  intros Hg Hoff Hb Hle Hk b. pose proof Hg as [Ht Hm Hs Hi Hd Hft HbX Hup]. pose proof (gstate_room _ _ _ _ _ _ _ _ _ _ Hg) as Hr.
  assert (Hq0 : 0 <= off / BSIZE) by (apply Z.div_pos; unfold BSIZE; lia). pose proof (ly_addr _ _ _ (st_layout _ _ _ _ Hs) (off / BSIZE) ltac:(lia)) as Hb32. fold b in Hb32.
  destruct (topen_cycle D p Hfuel s V T ∅ b k Ht) as (j & s1 & E1 & C1 & _ & Hid & _ & Hcyc); [set_solver|lia|done|rewrite size_empty; lia|].
  destruct (Hcyc (fun d => upd d (Z.to_nat (off mod BSIZE)) bs)) as (s2 & s3 & s4 & E2 & E3 & E4 & C4 & Ht4 & _ & Esz).
  exists j, s1, s2, s3, s4, (add_home b T). do 7 (split; [done|]). intros V'.
  pose proof (grow_write (sb s) V ip N off bs Hm Hs Hoff Hb Hle) as Hgr. fold b V' in Hgr. split; [exact Hgr|].
  destruct (fs_only_upd _ _ (tx_fs_only _ _ C4)) as [Cu Ei]. destruct (fs_upd_same _ _ Cu) as (Esb & _ & _ & _ & Eup & _).
  split; rewrite ?Esb, ?Ei, ?Eup; try done; [apply Hgr|apply Hgr| |].
  - unfold budget in *. destruct (decide (b ∈ X)) as [HbX'|].
    + assert (Eah : add_home b X = X) by (unfold add_home; by rewrite decide_True). rewrite Eah. by apply (fits_same s).
    + apply (fits_mono _ _ _ (k + pot X ip - 1)); [by apply (fits_step Hfuel s)|]. pose proof (pot_mono X b ip). lia.
  - destruct (add_home_in b X). set_solver.
Qed.
(** One round of the loop of writei. *)
Lemma writei_round s V T X i ip N k tot off n src bs : gstate D p s V T X i ip N k -> supplies p s src bs -> 0 <= off <= N * BSIZE -> 0 <= tot < n -> Z.of_nat (length bs) = n - tot ->
  off + (n - tot) <= MAXFILE * BSIZE -> 3 <= k ->
  let m := Z.min (n - tot) (BSIZE - off mod BSIZE) in
  (exists s' V' T' X' ip' N', writei_body i n (tot, off, src) s = Ret (inl (tot + m, off + m, source_add src m)) s' /\
     fs_upd s s' /\ inodes s' = <[i := ip']> (inodes s) /\ grows (sb s) V V' ip ip' N N' off (take (Z.to_nat m) bs) /\ off + m <= N' * BSIZE /\
     gstate D p s' V' T' X' i ip' N' (k - 1)) \/
  (exists s' V' T' X' ip' N', writei_body i n (tot, off, src) s = Ret (inr (tot, off)) s' /\
     fs_upd s s' /\ inodes s' = <[i := ip']> (inodes s) /\ grows (sb s) V V' ip ip' N N' off [] /\ off = N' * BSIZE /\
     gstate D p s' V' T' X' i ip' N' (k - 1) /\ forall y, 0 <= y < sb_size (sb s) -> in_use V' (sb s) y = true).
Proof.
  intros Hg Hsrc Hoff Htot Hbs Hfit Hk m. pose proof (Z.mod_pos_bound off BSIZE ltac:(unfold BSIZE; lia)) as Hmod.
  pose proof (Z.div_mod off BSIZE ltac:(unfold BSIZE; lia)) as Hdm. change (MAXFILE * BSIZE) with 274432 in Hfit.
  assert (Hq : 0 <= off / BSIZE <= N) by (split; [apply Z.div_pos; unfold BSIZE; lia|apply Z.div_le_upper_bound; unfold BSIZE in *; lia]).
  assert (Hqm : off / BSIZE < MAXFILE) by (apply Z.div_lt_upper_bound; [unfold BSIZE; lia|]; change MAXFILE with 268; unfold BSIZE; lia).
  unfold writei_body. destruct (Z.ltb_spec tot n); [|lia]. cbn [negb].
  destruct (bmap_any D p Hfuel s V T X i ip N k (off / BSIZE) Hg Hq Hqm Hk) as (a & s0 & V0 & ip0 & T0 & X0 & N0 & E0 & C0 & Ei0 & Hcase).
  rewrite (bind_Ret _ _ _ _ _ E0). destruct (fs_upd_same _ _ C0) as (Esb0 & _).
  destruct Hcase as [(Ha0 & Ha & HN0 & Hgr0 & Hg0)|(-> & -> & HqN & Hall & Hgr0 & Hg0)].
  - left. destruct (Z.eqb_spec a 0); [done|].
    assert (Hk0 : exists k0, gstate D p s0 V0 T0 X0 i ip0 N0 k0 /\ k - 1 <= (if decide (a ∈ X0) then k0 else k0 - 1) /\ 2 <= k0).
    { destruct Hg0 as [Hg0|[HaX Hg0]]; [exists k|exists (k - 1)]; (split; [done|]); case_decide; (lia || done). }
    destruct Hk0 as (k0 & Hg1 & Hkk & Hk2). pose proof Hg1 as [Ht1 Hm1 Hs1 Hi1 Hd1 _ _ _].
    rewrite (bind_Ret _ _ _ _ _ (eq_refl : geti i s0 = Ret (inodes s0 !!! i) s0)), (list_lookup_total_correct _ _ _ Hi1), Hd1.
    destruct (gstate_write s0 V0 T0 X0 i ip0 N0 k0 off (take (Z.to_nat m) bs) Hg1) as (j & s1 & s2 & s3 & s4 & T' & E1 & C1 & Hid1 & E2 & E3 & E4 & C4 & Hgr & Hg4);
      [lia|lia|rewrite length_take; lia|lia|].
    rewrite <- Ha in E1, Hgr, Hg4. rewrite (bind_Ret _ _ _ _ _ E1). cbv zeta. fold m.
    assert (Hsrc1 : supplies p s1 src bs) by (apply (supplies_same p s); [by rewrite C1, C0|by rewrite C1, C0|by rewrite C1, C0|exact Hsrc]).
    rewrite (bind_Ret _ _ _ _ _ (supplies_copyin p s1 src bs m Hid1 Hsrc1 ltac:(lia))).
    rewrite (bind_Ret _ _ _ _ _ E2). change (0 =? -1) with false. cbv iota. rewrite (bind_Ret _ _ _ _ _ E3), (bind_Ret _ _ _ _ _ E4).
    destruct (fs_only_upd _ _ (tx_fs_only _ _ C4)) as [Cu4 Ei4]. eexists s4, _, T', _, ip0, N0.
    split; [unfold ret; rewrite (u32_small (off + m)) by (subst m; lia); done|].
    split; [by eapply fs_upd_trans|]. split; [by rewrite Ei4|]. split; [|split; [|eapply gstate_mono; [exact Hg4|exact Hkk]]].
    + rewrite Esb0 in Hgr. apply (grows_trans _ _ _ _ _ _ _ _ _ _ off [] (take (Z.to_nat m) bs) (grows_nil _ _ _ _ _ _ _ _ off Hgr0)); cbn [length].
      * pose proof (g_le _ _ _ _ _ _ _ _ _ Hgr0). unfold BSIZE in *. lia.
      * by rewrite Z.add_0_r.
      * lia.
    + unfold BSIZE in *. lia.
  - right. cbn [Z.eqb]. exists s0, V0, T0, X0, ip0, N. split; [done|]. split; [done|]. split; [done|]. split; [by eapply grows_nil|]. split; [unfold BSIZE in *; lia|]. done.
Qed.
(** What the loop does: [m] bytes are written, all of them unless the disk is full,
    and then up to the end of the file's last block. *)
Definition extended (s : kernel) (V : Z -> list Z) (i : nat) (ip : inode) (N k off n : Z) (bs : list Z) (m : Z) (s' : kernel) : Prop :=
  exists V' T' X' ip' N', 0 <= m <= n /\ fs_upd s s' /\ inodes s' = <[i := ip']> (inodes s) /\
    grows (sb s) V V' ip ip' N N' off (take (Z.to_nat m) bs) /\ off + m <= N' * BSIZE /\ gstate D p s' V' T' X' i ip' N' k /\
    (m < n -> off + m = N' * BSIZE /\ forall y, 0 <= y < sb_size (sb s) -> in_use V' (sb s) y = true).

Lemma writei_rounds i n : forall f s V T X ip N k tot off src bs, gstate D p s V T X i ip N k -> supplies p s src bs -> 0 <= off <= N * BSIZE -> 0 <= tot <= n ->
  Z.of_nat (length bs) = n - tot -> off + (n - tot) <= MAXFILE * BSIZE -> 2 <= k -> (tot < n -> rounds off (n - tot) + 2 <= k) ->
  (0 < f)%nat -> (tot < n -> rounds off (n - tot) < Z.of_nat f) ->
  exists m s', iter f (writei_body i n) (tot, off, src) s = Ret (tot + m, off + m) s' /\ extended s V i ip N 2 off (n - tot) bs m s'.
Proof.
  induction f as [|f IH]; intros s V T X ip N k tot off src bs Hg Hsrc Hoff Htot Hbs Hfit Hk2 Hk Hf0 Hfu; [lia|].
  pose proof (Z.mod_pos_bound off BSIZE ltac:(unfold BSIZE; lia)) as Hmod. pose proof Hg as [_ Hm Hs _ _ _ _ _].
  destruct (Z.eq_dec tot n) as [->|Hne].
  - exists 0, s. replace (off + 0) with off by lia. replace (n + 0) with n by lia. split.
    { erewrite iter_exit; [done|]. unfold writei_body. by rewrite Z.ltb_irrefl. }
    exists V, T, X, ip, N. replace (n - n) with 0 by lia. split; [lia|]. split; [unfold fs_upd, fs_only; by destruct s|].
    split; [by eapply gstate_insert|]. split; [by apply grows_refl|]. split; [lia|]. split; [by eapply gstate_mono; [|]|lia].
  - pose proof (rounds_pos off (n - tot) ltac:(lia)) as Hrp. set (m := Z.min (n - tot) (BSIZE - off mod BSIZE)).
    destruct (writei_round s V T X i ip N k tot off n src bs Hg Hsrc Hoff ltac:(lia) Hbs Hfit ltac:(lia))
      as [(s1 & V1 & T1 & X1 & ip1 & N1 & E & C & Ei & Hgr & HN1 & Hg1)|(s1 & V1 & T1 & X1 & ip1 & N1 & E & C & Ei & Hgr & HN1 & Hg1 & Hall)]; fold m in E, Hgr, HN1 || idtac.
    + erewrite iter_next by exact E. destruct (fs_upd_same _ _ C) as (Esb & _).
      assert (Hadv : tot + m < n -> rounds (off + m) (n - (tot + m)) = rounds off (n - tot) - 1).
      { intros Hlt. assert (m = BSIZE - off mod BSIZE) as Em by lia. replace (n - (tot + m)) with (n - tot - m) by lia.
        rewrite Em, rounds_advance by lia. done. }
      assert (Hsrc1 : supplies p s1 (source_add src m) (drop (Z.to_nat m) bs)) by (apply (supplies_same p s); [by rewrite C|by rewrite C|by rewrite C|apply supplies_add; [done|lia]]).
      destruct (IH s1 V1 T1 X1 ip1 N1 (k - 1) (tot + m) (off + m) (source_add src m) (drop (Z.to_nat m) bs)) as (m2 & s2 & E2 & V2 & T2 & X2 & ip2 & N2 & Hm2 & C2 & Ei2 & Hgr2 & HN2 & Hg2 & Hall2);
        [done|done|lia|lia|rewrite length_drop; lia|lia|lia|lia|lia|lia|].
      exists (m + m2), s2. split; [rewrite E2; f_equal; f_equal; lia|]. exists V2, T2, X2, ip2, N2. rewrite Esb in Hgr2, Hall2.
      split; [lia|]. split; [by eapply fs_upd_trans|]. split; [by rewrite Ei2, Ei, list_insert_insert_eq|]. split; [|split; [lia|split; [done|]]].
      2:{ intros Hlt. destruct (Hall2 ltac:(lia)) as [Hb Hall]. split; [lia|exact Hall]. }
      assert (Et : take (Z.to_nat (m + m2)) bs = take (Z.to_nat m) bs ++ take (Z.to_nat m2) (drop (Z.to_nat m) bs)).
      { by rewrite Z2Nat.inj_add, take_take_drop by lia. }
      rewrite Et. assert (El : Z.of_nat (length (take (Z.to_nat m) bs)) = m) by (rewrite length_take; lia).
      eapply grows_trans; [exact Hgr|rewrite El; lia|by rewrite El|lia].
    + erewrite iter_exit by exact E. exists 0, s1. replace (off + 0) with off by lia. replace (tot + 0) with tot by lia. split; [done|].
      exists V1, T1, X1, ip1, N1. split; [lia|]. do 2 (split; [done|]). split; [done|]. split; [lia|]. split; [eapply gstate_mono; [exact Hg1|lia]|]. intros _. split; [lia|done].
Qed.
End extend.

(** A block apart from the file changes. *)
Lemma fblock_fset V ip N ib x c : layout V ip N -> ~ fblock V ip N ib ->
  (forall k, 0 <= k < N -> addr_of (fset V ib x) ip k = addr_of V ip k) /\ (fblock (fset V ib x) ip N c <-> fblock V ip N c).
Proof.
  intros Hl Hib. assert (Ha : forall k, 0 <= k < N -> addr_of (fset V ib x) ip k = addr_of V ip k).
  { intros k Hk. unfold addr_of. destruct (Z.ltb_spec k NDIRECT); [done|]. unfold fset. rewrite decide_False; [done|]. intros E. apply Hib. right.
    fold (ind_of ip) in E. destruct (ly_ind _ _ _ Hl ltac:(lia)) as [Hp _]. fold (ind_of ip) in Hp. split; [lia|done]. }
  split; [done|]. unfold fblock. split; (intros [(k & Hk & ->)|?]; [|by right]); left; exists k; (split; [done|]); by rewrite Ha.
Qed.

Lemma fstate_fset V sp ip N ib x : fmap_ok V sp -> fstate V sp ip N -> ib ∉ bmaps sp -> ~ fblock V ip N ib -> length x = Z.to_nat BSIZE ->
  fmap_ok (fset V ib x) sp /\ fstate (fset V ib x) sp ip N /\ (forall c, 0 <= c < sb_size sp -> in_use (fset V ib x) sp c = in_use V sp c) /\
  (forall j, 0 <= j < N * BSIZE -> file_byte (fset V ib x) ip j = file_byte V ip j) /\ (forall c, fblock (fset V ib x) ip N c <-> fblock V ip N c).
Proof.
  intros Hm Hs Hnb Hib Hx. pose proof Hs as [Hl H13 Hdir Hind Hus]. pose proof (fun c => fblock_fset V ip N ib x c Hl Hib) as Hfb.
  destruct (Hfb 0) as [Ha _]. assert (Hu : forall c, 0 <= c < sb_size sp -> in_use (fset V ib x) sp c = in_use V sp c) by (intros c Hc; by apply (in_use_fset _ _ Hm)).
  assert (Hlen : forall c, length (fset V ib x c) = Z.to_nat BSIZE) by (intros c; unfold fset; case_decide; [done|apply (fm_len _ _ Hm)]).
  assert (Hi : ind_of ip <> 0 -> fset V ib x (ind_of ip) = V (ind_of ip)) by (intros Hn0; unfold fset; rewrite decide_False; [done|]; intros E; apply Hib; by right).
  split; [|split; [|split; [done|split; [|intros c; apply Hfb]]]].
  - pose proof Hm as [? ? Hb1 Hs1 Hl1]. split; try done; [rewrite Hu by lia; done|]. intros c Hc. rewrite Hu by (by apply (bmaps_range V)). by apply Hs1.
  - split; try done.
    + destruct Hl as [? Haddr Hinj Hin Hln]. split; try done.
      * intros k Hk. rewrite Ha by done. by apply Haddr.
      * intros j k Hj Hk. rewrite !Ha by done. by apply Hinj.
      * intros Hn. destruct (Hin Hn) as [? Hne]. split; [done|]. intros k Hk. rewrite Ha by done. by apply Hne.
    + intros Hn0. destruct (Hind Hn0) as [Hne Hze]. split; [intros k Hk; rewrite Ha by done; by apply Hne|]. by rewrite Hi.
    + intros c Hc. apply Hfb in Hc. destruct (Hus c Hc) as (? & Hcu & ?). split; [done|]. split; [|done]. rewrite Hu by lia. done.
  - intros j Hj. unfold file_byte. assert (Hk : 0 <= j / BSIZE < N) by (split; [apply Z.div_pos|apply Z.div_lt_upper_bound]; unfold BSIZE in *; lia).
    rewrite Ha by done. unfold fset. rewrite decide_False; [done|]. intros E. apply Hib. left. by exists (j / BSIZE).
Qed.

Lemma fstate_addrs V sp ip ip' N : i_addrs ip' = i_addrs ip -> fstate V sp ip N -> fstate V sp ip' N.
Proof.
  intros E [Hl H13 Hdir Hind Hus]. assert (Ha : forall k, addr_of V ip' k = addr_of V ip k) by (intros; by apply addr_of_addrs).
  assert (Ei : ind_of ip' = ind_of ip) by (unfold ind_of; by rewrite E). split.
  - by eapply layout_addrs.
  - by rewrite E.
  - by rewrite E.
  - rewrite Ei. intros H0. destruct (Hind H0) as [Hne Hze]. split; [|done]. intros k Hk. rewrite Ha. by apply Hne.
  - intros b Hb. apply Hus. unfold fblock in *. rewrite Ei in Hb. destruct Hb as [(k & Hk & ->)|?]; [|by right]. left. exists k. split; [done|]. apply Ha.
Qed.

(** The block numbers in the inode are 32-bit numbers. *)
Lemma fstate_inode_ok V sp ip N : fmap_ok V sp -> fstate V sp ip N -> Forall (fun a => 0 <= a < 2 ^ 32) (i_addrs ip).
Proof.
  intros Hm [Hl H13 Hdir Hind Hus]. apply Forall_lookup_2. intros k a Hk. apply lookup_lt_Some in Hk as Hlt. rewrite H13 in Hlt.
  assert (Ea : a = i_addrs ip !!! k) by (symmetry; by apply list_lookup_total_correct). pose proof (fm_size _ _ Hm).
  destruct (decide (k = 12)%nat) as [->|].
  - destruct (Z.eq_dec a 0) as [->|]; [lia|]. change (i_addrs ip !!! 12%nat) with (ind_of ip) in Ea. destruct (Hus a) as (? & _); [right; split; congruence|].
    unfold BPB, BSIZE in *. lia.
  - destruct (Z.lt_ge_cases (Z.of_nat k) N).
    + pose proof (ly_addr _ _ _ Hl (Z.of_nat k) ltac:(lia)) as Hr. unfold addr_of in Hr. change NDIRECT with 12 in Hr. destruct (Z.ltb_spec (Z.of_nat k) 12); [|lia].
      rewrite Nat2Z.id, <- Ea in Hr. lia.
    + specialize (Hdir (Z.of_nat k)). change NDIRECT with 12 in Hdir. rewrite Nat2Z.id, <- Ea in Hdir. rewrite Hdir; lia.
Qed.

(** The file and the block of its inode. *)
Record file_on (s : kernel) (V : Z -> list Z) (i : nat) (ip : inode) (N : Z) : Prop := {
  fl_ip : inodes s !! i = Some ip;
  fl_ok : inode_ok ip;
  fl_map : fmap_ok V (sb s);
  fl_state : fstate V (sb s) ip N;
  fl_size : i_size ip <= N * BSIZE;
  fl_ib : let ib := IBLOCK (i_inum ip) (sb s) in
    0 <= ib < sb_size (sb s) /\ in_use V (sb s) ib = true /\ ib ∉ bmaps (sb s) /\ ~ fblock V ip N ib
}.

Section top.
Context `{Fuel} `{DiskLaws} (D : Z) (p : nat) (Hfuel : (0 < fuel)%nat).

Lemma rounds_nonneg off n : 0 <= n -> 0 <= rounds off n.
Proof. clear Hfuel. intros Hn. unfold rounds. pose proof (Z.mod_pos_bound off BSIZE ltac:(unfold BSIZE; lia)). apply Z.div_pos; unfold BSIZE in *; lia. Qed.

(** The whole of writei, on the blocks as the transaction sees them. *)
Lemma writei_extend_eq s V T i ip N off src bs : tview D p s V T -> file_on s V i ip N -> supplies p s src bs -> i_dev ip = D -> panicked s = false ->
  0 <= off <= i_size ip -> off + Z.of_nat (length bs) <= MAXFILE * BSIZE ->
  let n := Z.of_nat (length bs) in room s (foldr add_home T (bmaps (sb s))) (rounds off n + 3) ->
  exists m s1 V1 T1 ip1 N1, writei i src off n s = Ret m s1 /\ 0 <= m <= n /\
    (m < n -> off + m = N1 * BSIZE /\ forall y, 0 <= y < sb_size (sb s) -> in_use V1 (sb s) y = true) /\
    grows (sb s) V V1 ip ip1 N N1 off (take (Z.to_nat m) bs) /\ off + m <= N1 * BSIZE /\
    let ib := IBLOCK (i_inum ip) (sb s) in let ip' := grown (off + m) ip1 in
    fs_upd s s1 /\ inodes s1 = <[i := ip']> (inodes s) /\
    tview D p s1 (fset V1 ib (write_dinode (V1 ib) (dinode_off (i_inum ip)) ip')) T1 /\ room s1 T1 1.
Proof.
  intros Ht [Hi Hio Hm Hs Hsz _] Hsrc Hd Hup Hoff Hfit n Hr. change (MAXFILE * BSIZE) with 274432 in Hfit. pose proof (rounds_nonneg off n ltac:(lia)) as Hrn.
  set (X := foldr add_home T (bmaps (sb s))) in *. assert (HX : T ⊆ X /\ bmaps (sb s) ⊆ X) by apply add_all_in.
  assert (Hg : gstate D p s V T X i ip N (rounds off n + 2)).
  { split; try done; [by apply topen_tview| |apply HX]. split; [apply HX|]. pose proof (pot_range X ip). unfold room in *. lia. }
  unfold writei. rewrite (bind_Ret _ _ _ _ _ (eq_refl : geti i s = Ret (inodes s !!! i) s)), (list_lookup_total_correct _ _ _ Hi).
  rewrite u32_small by lia. destruct (Z.ltb_spec (i_size ip) off); [lia|]. destruct (Z.ltb_spec (off + n) off); [lia|]. cbn [orb].
  change (MAXFILE * BSIZE) with 274432. destruct (Z.ltb_spec 274432 (off + n)); [lia|].
  destruct (writei_rounds D p Hfuel i n (3 + Z.to_nat (n / BSIZE)) s V T X ip N (rounds off n + 2) 0 off src bs) as (m & s1 & E1 & V1 & T1 & X1 & ip1 & N1 & Hmn & C1 & Ei1 & Hgr & HN1 & Hg1 & Hall);
    [done|done|lia|lia|lia|rewrite Z.sub_0_r; exact Hfit|lia|rewrite Z.sub_0_r; lia|lia|rewrite Z.sub_0_r; intros _; apply rounds_fuel; lia|].
  rewrite Z.sub_0_r in *. cbn [Z.add] in E1. rewrite (bind_Ret _ _ _ _ _ E1). pose proof Hg1 as [Ht1 _ _ Hi1 Hd1 _ _ _].
  set (ip' := grown (off + m) ip1). set (s2 := set_inodes (<[i := ip']> (inodes s1)) s1). destruct (fs_upd_same _ _ C1) as (Esb1 & _).
  rewrite (bind_Ret _ _ _ _ _ (modi_eq s1 i ip1 _ Hi1)). fold (grown (off + m) ip1). fold ip' s2.
  destruct (grown_same (off + m) ip1) as (Ga & Gd & Gi & Gs). fold ip' in Ga, Gd, Gi, Gs.
  assert (Einum : i_inum ip1 = i_inum ip) by (rewrite (g_ip _ _ _ _ _ _ _ _ _ Hgr); done).
  destruct (iupdate_eq D p Hfuel s2 V1 T1 i ip' 2) as (s3 & E3 & C3 & Ht3 & Hr3).
  - by apply tview_set_inodes, topen_tview.
  - apply list_lookup_total_correct, list_lookup_insert_eq. by eapply lookup_lt_Some.
  - by rewrite Gd.
  - unfold IBLOCK. apply u32_range.
  - apply (gstate_room _ _ _ _ _ _ _ _ _ _ Hg1).
  - lia.
  - rewrite (bind_Ret _ _ _ _ _ E3). change (sb s2) with (sb s1) in *. rewrite Gi, Einum, Esb1 in Ht3, Hr3.
    exists m, s3, V1. eexists _, ip1, N1. do 2 (split; [done|]). split; [done|]. split; [done|]. split; [done|]. cbv zeta. fold ip'.
    destruct (fs_only_upd _ _ (tx_fs_only _ _ C3)) as [Cu3 Ei3]. split; [|split; [|by split]].
    + eapply fs_upd_trans; [exact C1|]. eapply fs_upd_trans; [|exact Cu3]. unfold fs_upd, fs_only, s2. cbn. by destruct s1.
    + rewrite Ei3. unfold s2. cbn [inodes set_inodes]. by rewrite Ei1, list_insert_insert_eq.
Qed.

(** After the write, [bs] is at [off]: the file is whole, its other bytes and the
    other blocks in use are as before, and the inode's block holds the inode. *)
Record file_wrote (s s' : kernel) (V V' : Z -> list Z) (T' : list Z) (i : nat) (ip ip' : inode) (N N' off : Z) (bs : list Z) : Prop := {
  fw_view : tview D p s' V' T';
  fw_room : room s' T' 1;
  fw_upd : fs_upd s s';
  fw_inodes : inodes s' = <[i := ip']> (inodes s);
  fw_file : file_on s' V' i ip' N';
  fw_same : i_dev ip' = i_dev ip /\ i_type ip' = i_type ip /\ i_inum ip' = i_inum ip;
  fw_size : i_size ip' = Z.max (i_size ip) (off + Z.of_nat (length bs));
  fw_new : forall j, off <= j < off + Z.of_nat (length bs) -> file_byte V' ip' j = bs !!! Z.to_nat (j - off);
  fw_old : forall j, 0 <= j < i_size ip -> j < off \/ off + Z.of_nat (length bs) <= j -> file_byte V' ip' j = file_byte V ip j;
  fw_used : forall b, 0 <= b < sb_size (sb s) -> in_use V (sb s) b = true -> in_use V' (sb s) b = true /\
    (b ∉ bmaps (sb s) -> b <> IBLOCK (i_inum ip) (sb s) -> ~ fblock V ip N b -> V' b = V b);
  fw_fresh : forall b, 0 <= b < sb_size (sb s) -> in_use V' (sb s) b = true -> in_use V (sb s) b = true \/ fblock V' ip' N' b;
  fw_dinode : read_dinode (V' (IBLOCK (i_inum ip) (sb s))) (dinode_off (i_inum ip)) ip' = ip'
}.

(** The inode's block is written last. *)
Lemma grows_wrote s s1 V V1 T1 i ip ip1 N N1 off bs : file_on s V i ip N -> 0 <= off <= i_size ip -> off + Z.of_nat (length bs) <= N1 * BSIZE ->
  off + Z.of_nat (length bs) <= MAXFILE * BSIZE -> grows (sb s) V V1 ip ip1 N N1 off bs -> fs_upd s s1 ->
  let ib := IBLOCK (i_inum ip) (sb s) in let ip' := grown (off + Z.of_nat (length bs)) ip1 in
  let V' := fset V1 ib (write_dinode (V1 ib) (dinode_off (i_inum ip)) ip') in
  inodes s1 = <[i := ip']> (inodes s) -> tview D p s1 V' T1 -> room s1 T1 1 -> file_wrote s s1 V V' T1 i ip ip' N N1 off bs.
Proof.
  clear Hfuel. intros [Hi Hio Hm Hs Hsz (Hibr & Hibu & Hibn & Hibf)] Hoff HN1 Hfit Hgr C1 ib ip' V2 Ei1 Ht1 Hr1. fold ib in Hibr, Hibu, Hibn, Hibf.
  set (x := write_dinode _ _ _) in V2. change (MAXFILE * BSIZE) with 274432 in Hfit. destruct (fs_upd_same _ _ C1) as (Esb & _).
  destruct (grown_same (off + Z.of_nat (length bs)) ip1) as (Ga & Gd & Gi & Gs). fold ip' in Ga, Gd, Gi, Gs. pose proof (g_ip _ _ _ _ _ _ _ _ _ Hgr) as Eip.
  assert (Efld : i_dev ip1 = i_dev ip /\ i_inum ip1 = i_inum ip /\ i_size ip1 = i_size ip /\ i_type ip' = i_type ip).
  { unfold ip', grown. destruct (_ <? _); by rewrite Eip. }
  destruct Efld as (Ed & En & Esz & Ety).
  pose proof Hgr as [Hle _ Hm1 Hs1 Hby1 Hoth1 Hused1 Hnew1 Hold1 Hfr1].
  assert (Hibf1 : ~ fblock V1 ip1 N1 ib) by (intros Hc; apply Hfr1 in Hc as [?|?]; [done|congruence]).
  assert (Hok' : inode_ok ip').
  { destruct Hio as [Hsh Hsi _ _]. split; [|rewrite Gs, Esz; lia|rewrite Ga; by eapply fstate_inode_ok|rewrite Ga; apply Hs1].
    unfold ip', grown. destruct (_ <? _); cbn; rewrite Eip; exact Hsh. }
  pose proof (dinode_off_fits (i_inum ip)) as Hdo. pose proof (fm_len _ _ Hm1 ib) as Hlib.
  assert (Hx : length x = Z.to_nat BSIZE) by (unfold x; rewrite write_dinode_length; [done|lia|lia|apply Hok']).
  destruct (fstate_fset V1 (sb s) ip1 N1 ib x Hm1 Hs1 Hibn Hibf1 Hx) as (Hm2 & Hs2 & Hu2 & Hby2 & Hfb2). fold V2 in Hm2, Hs2, Hu2, Hby2, Hfb2.
  assert (Hs3 : fstate V2 (sb s) ip' N1) by (by eapply fstate_addrs; [|exact Hs2]).
  assert (Hfb3 : forall c, fblock V2 ip' N1 c <-> fblock V1 ip1 N1 c).
  { intros c. rewrite <- Hfb2. unfold fblock, ind_of. rewrite Ga. by setoid_rewrite (addr_of_addrs V2 ip1 ip' _ Ga). }
  assert (Hb' : forall j, 0 <= j < N1 * BSIZE -> file_byte V2 ip' j = file_byte V1 ip1 j) by (intros j Hj; rewrite (file_byte_addrs _ _ _ _ Ga); by apply Hby2).
  split; try done.
  - split; rewrite ?Esb; try done; [rewrite Ei1; apply list_lookup_insert_eq; by eapply lookup_lt_Some|rewrite Gs, Esz; unfold BSIZE in *; lia|].
    rewrite Gi, En. change (0 <= ib < sb_size (sb s) /\ in_use V2 (sb s) ib = true /\ ib ∉ bmaps (sb s) /\ ~ fblock V2 ip' N1 ib).
    rewrite Hu2, Hfb3 by done. split; [done|]. split; [by apply Hused1|]. by split.
  - by rewrite Gd, Gi, Ed, En.
  - by rewrite Gs, Esz.
  - intros j Hj. rewrite Hb', Hby1 by lia. by rewrite decide_True by lia.
  - intros j Hj Hout. assert (j < N * BSIZE) by lia. rewrite Hb', Hby1 by (unfold BSIZE in *; lia). rewrite decide_False by lia. by rewrite decide_True by lia.
  - intros b Hb Hub. rewrite Hu2 by done. split; [by apply Hused1|]. intros Hbn Hbi Hbf. unfold V2, fset. rewrite decide_False by done. by apply Hoth1.
  - intros b Hb. rewrite Hu2 by done. rewrite Hfb3. by apply Hnew1.
  - unfold V2, fset. rewrite decide_True by done. unfold x. rewrite read_write_dinode; [by destruct ip'|lia|rewrite Hlib; lia|done].
Qed.

(** writei, whole: a prefix of the source's bytes. *)
Lemma writei_writes s V T i ip N off src bs : tview D p s V T -> file_on s V i ip N -> supplies p s src bs -> i_dev ip = D -> panicked s = false ->
  0 <= off <= i_size ip -> off + Z.of_nat (length bs) <= MAXFILE * BSIZE ->
  let n := Z.of_nat (length bs) in room s (foldr add_home T (bmaps (sb s))) (rounds off n + 3) ->
  exists m s1 V' T' ip' N', writei i src off n s = Ret m s1 /\ 0 <= m <= n /\
    (m < n -> off + m = N' * BSIZE /\ forall y, 0 <= y < sb_size (sb s) -> in_use V' (sb s) y = true) /\
    file_wrote s s1 V V' T' i ip ip' N N' off (take (Z.to_nat m) bs).
Proof.
  intros Ht Hfl Hsrc Hd Hup Hoff Hfit n Hr. pose proof Hfl as [_ _ _ _ _ (Hibr & _ & Hibn & Hibf)].
  destruct (writei_extend_eq s V T i ip N off src bs Ht Hfl Hsrc Hd Hup Hoff Hfit Hr) as (m & s1 & V1 & T1 & ip1 & N1 & E1 & Hmn & Hfull & Hgr & HN1 & C1 & Ei1 & Ht1 & Hr1).
  fold n in E1, Hmn, Hfull. assert (El : Z.of_nat (length (take (Z.to_nat m) bs)) = m) by (rewrite length_take; lia).
  set (ib := IBLOCK (i_inum ip) (sb s)) in *. cbv zeta in *. eexists m, s1, _, T1, _, N1. split; [exact E1|]. split; [exact Hmn|].
  pose proof (grows_wrote s s1 V V1 T1 i ip ip1 N N1 off (take (Z.to_nat m) bs) Hfl Hoff) as Hw. rewrite El in Hw.
  specialize (Hw HN1 ltac:(lia) Hgr C1 Ei1 Ht1 Hr1). split; [|exact Hw].
  intros Hlt. destruct (Hfull Hlt) as [Hb Hall]. split; [exact Hb|]. intros y Hy.
  pose proof Hgr as [_ _ Hm1 Hs1 _ _ _ _ _ Hfr1]. rewrite (in_use_fset _ _ Hm1) by done. by apply Hall.
Qed.

(** The bytes of a file that is whole can be read. *)
Lemma file_on_ok s V T i ip N : tview D p s V T -> room s T 1 -> file_on s V i ip N -> i_dev ip = D -> file_ok D (pins T) ∅ V ip.
Proof. clear Hfuel. intros Ht Hr [? [? ? ? ?] ? ? ? _] Hd. eapply layout_file_ok; [exact Ht|exact Hr|lia|apply fl_state0|done|lia]. Qed.
End top.

(** C6. Inside a transaction, writei at any offset up to the end of a file, past
    the end too, from a source that holds the bytes [bs] (kernel memory, or user
    memory that the running process can read) writes a prefix of [bs], all of it
    unless no block of the disk is free any more, and readi returns exactly what was written.  The file
    has grown by blocks that were free, the rest of its old bytes are as before,
    and every other block in use, whatever it belongs to, is unchanged but for
    the free map and the inode's block, which holds the inode with the new size.
    No block is marked as in use that is not of this file. *)
Theorem writei_extends `{Fuel} `{DiskLaws} D p s V T i ip N off src bs :
  (0 < fuel)%nat -> tview D p s V T -> file_on s V i ip N -> supplies p s src bs -> i_dev ip = D -> panicked s = false ->
  0 <= off <= i_size ip -> off + Z.of_nat (length bs) <= MAXFILE * BSIZE ->
  let n := Z.of_nat (length bs) in let ib := IBLOCK (i_inum ip) (sb s) in
  room s (foldr add_home T (bmaps (sb s))) (rounds off n + 3) ->
  exists m s1 s2 V' T' ip' N', writei i src off n s = Ret m s1 /\ 0 <= m <= n /\
    (m < n -> forall y, 0 <= y < sb_size (sb s) -> in_use V' (sb s) y = true) /\
    readi i ToLocal off m s1 = Ret (m, take (Z.to_nat m) bs) s2 /\
    tview D p s1 V' T' /\ disk s1 = disk s /\ file_on s1 V' i ip' N' /\ i_size ip' = Z.max (i_size ip) (off + m) /\
    (forall j, 0 <= j < i_size ip -> j < off \/ off + m <= j -> file_byte V' ip' j = file_byte V ip j) /\
    (forall b, 0 <= b < sb_size (sb s) -> in_use V (sb s) b = true -> in_use V' (sb s) b = true /\
       (b ∉ bmaps (sb s) -> b <> ib -> ~ fblock V ip N b -> V' b = V b)) /\
    (forall b, 0 <= b < sb_size (sb s) -> in_use V' (sb s) b = true -> in_use V (sb s) b = true \/ fblock V' ip' N' b) /\
    read_dinode (V' ib) (dinode_off (i_inum ip)) ip' = ip'.
Proof.
  intros Hf Ht Hfl Hsrc Hd Hup Hoff Hfit n ib Hr.
  destruct (writei_writes D p Hf s V T i ip N off src bs Ht Hfl Hsrc Hd Hup Hoff Hfit Hr) as (m & s1 & V2 & T1 & ip' & N1 & E1 & Hmn & Hfull & [Ht1 Hr1 C1 Ei1 Hfl1 (Ed & _) Hsz Hnew Hold Hused Hfresh Hdin]).
  fold n in E1, Hmn, Hfull. assert (El : Z.of_nat (length (take (Z.to_nat m) bs)) = m) by (rewrite length_take; lia). rewrite El in *.
  change (MAXFILE * BSIZE) with 274432 in Hfit. destruct (fs_upd_same _ _ C1) as (_ & _ & Edisk & _).
  assert (Hfok : file_ok D (pins T1) ∅ V2 ip') by (eapply file_on_ok; [done|done|done|congruence]).
  destruct (readi_eq D p Hf s1 V2 _ _ i ip' ToLocal off m (tv_cache _ _ _ _ _ Ht1)) as (s2 & E2 & _); [apply list_lookup_total_correct, Hfl1|done|done|lia|lia|].
  assert (Hrc : read_count ip' off m = m) by (unfold read_count; destruct (Z.ltb_spec (off + m) (2 ^ 32)); rewrite ?Hsz; lia). rewrite Hrc in E2.
  assert (Ebs : file_bytes V2 ip' off m = take (Z.to_nat m) bs).
  { apply list_eq. intros k. unfold file_bytes. rewrite list_lookup_fmap. destruct (decide (Z.of_nat k < m)) as [Hk|Hk].
    - rewrite lookup_seqZ_lt by lia. cbn [fmap option_fmap option_map]. rewrite Hnew by lia.
      replace (Z.to_nat (off + Z.of_nat k - off)) with k by lia. symmetry. apply list_lookup_lookup_total_lt. lia.
    - rewrite lookup_seqZ_ge by lia. symmetry. apply lookup_ge_None_2. lia. }
  rewrite Ebs in E2. exists m, s1, s2, V2, T1, ip', N1. do 2 (split; [done|]). split; [intros Hlt; by apply Hfull|]. repeat (split; [done|]). done.
Qed.

(** What filewrite writes at a time fits in one operation's share of the log, on a
    disk whose free map is one block. *)
Lemma filewrite_fits off n : 0 <= n <= (MAXOPBLOCKS - 1 - 1 - 2) / 2 * BSIZE -> rounds off n + 3 + 1 <= MAXOPBLOCKS.
Proof.
  change ((MAXOPBLOCKS - 1 - 1 - 2) / 2 * BSIZE) with 3072. intros Hn. unfold rounds. pose proof (Z.mod_pos_bound off BSIZE ltac:(unfold BSIZE; lia)).
  assert ((n + off mod BSIZE + (BSIZE - 1)) / BSIZE < 5) by (apply Z.div_lt_upper_bound; unfold BSIZE in *; lia). unfold MAXOPBLOCKS. lia.
Qed.

(** A file of 1000 bytes in block 46, on a disk whose next free block is 47, gets 40
    more bytes. *)
#[local] Existing Instances ex_fuel sync_disk sync_disk_laws.
Definition ex_file : inode := mkInode 1 2 1 sleeplock0 true 2 0 0 1 1000 (46 :: replicate 12 0).
Definition ex_file_disk : gmap Z (list Z) := {[45 := replicate 5 255 ++ [127] ++ replicate 1018 0]}.
Definition ex_file_fs : kernel := set_sb ex_map_sb (set_inodes [ex_file] (set_log ex_open_log (set_disk ex_file_disk ex_cache))).

Lemma ex_file_on : file_on ex_file_fs (read_block ex_file_disk) 0 ex_file 1.
Proof.
  assert (Hlen : forall b, length (read_block ex_file_disk b) = Z.to_nat BSIZE).
  { intros b. unfold read_block, ex_file_disk. destruct (decide (b = 45)) as [->|]; [by rewrite lookup_singleton_eq|].
    rewrite lookup_singleton_ne by done. apply length_replicate. }
  assert (Hk0 : forall k, 0 <= k < 1 -> k = 0) by lia. assert (Hind : ind_of ex_file = 0) by reflexivity.
  assert (Hfb : forall b, fblock (read_block ex_file_disk) ex_file 1 b -> b = 46).
  { intros b [(k & Hk & ->)|[Hi _]]; [by rewrite (Hk0 k Hk)|done]. }
  split; [reflexivity| | | |by vm_compute|].
  - split; [by vm_compute|by vm_compute| |reflexivity]. apply (bool_decide_unpack _). by vm_compute.
  - split; [by vm_compute|by vm_compute|by vm_compute| |done].
    intros b Hb. assert (Hb45 : b ∈ [45]) by exact Hb. apply list_elem_of_singleton in Hb45 as ->. by vm_compute.
  - split.
    + split; [by vm_compute|intros k Hk; by rewrite (Hk0 k Hk)|intros j k Hj Hk _; by rewrite (Hk0 j Hj), (Hk0 k Hk)|intros Hn; by vm_compute in Hn|done].
    + reflexivity.
    + intros k Hk. change NDIRECT with 12 in Hk. cbn [i_addrs ex_file]. rewrite (lookup_total_app_r [46] (replicate 12 0)) by (cbn; lia).
      apply lookup_total_replicate_2. cbn. lia.
    + by rewrite Hind.
    + intros b Hb. rewrite (Hfb b Hb). split; [by vm_compute|]. split; [by vm_compute|]. by apply (bool_decide_unpack _); vm_compute.
  - cbv zeta. split; [by vm_compute|]. split; [by vm_compute|]. split; [by apply (bool_decide_unpack _); vm_compute|]. intros Hb. apply Hfb in Hb. by vm_compute in Hb.
Qed.

Lemma ex_file_tview : tview 1 3 ex_file_fs (read_block ex_file_disk) [].
Proof.
  assert (E : log ex_file_fs = ex_open_log) by reflexivity. split; rewrite ?E; [|done|apply NoDup_nil_2|done|done|done].
  apply cview_set_sb, cview_set_inodes, cview_set_log, ex_disk_cview.
Qed.

(** The process has the bytes in a page of its own. *)
Definition ex_bytes : list Z := seqZ 60 40.
Definition ex_user_fs : kernel :=
  set_mem (store_bytes ex_mem (ex_user + 16) ex_bytes) (set_procs (<[3%nat := set_p_pagetable ex_root proc0]> (replicate NPROC proc0)) ex_file_fs).

Lemma ex_user_supplies : supplies 3 ex_user_fs (FromUser 16) ex_bytes.
Proof.
  split; [by vm_compute|]. split; [apply ex_image_ok|]. exists ex_tree. split; [|by vm_compute]. apply pt_repb_sound. by vm_compute.
Qed.

(** Other memory and other processes, none of them asleep. *)
Lemma tview_procs D p s V T m P : tview D p s V T -> length P = NPROC -> Forall (fun pr => p_state pr <> SLEEPING) P -> tview D p (set_mem m (set_procs P s)) V T.
Proof.
  intros [[[[Hi Hs Hc _ Hp _ Hk] Hlk] [o [Hb Hblk Hh _ Hu Hl]]] ? ? ? ? ?] HP HF. split; try done. split; [|exists o; destruct Hb; by split].
  split; [|done]. split; try done. change (settle ((fun s0 => set_mem m (set_procs P s0)) s) = set_mem m (set_procs P s)). by rewrite <- settle_blind, Hs.
Qed.

Lemma ex_user_tview : tview 1 3 ex_user_fs (read_block ex_file_disk) [].
Proof. apply tview_procs; [apply ex_file_tview|reflexivity|]. apply (bool_decide_unpack _). by vm_compute. Qed.

Lemma file_on_procs s V i ip N m P : file_on s V i ip N -> file_on (set_mem m (set_procs P s)) V i ip N.
Proof. intros []. by split. Qed.

Lemma writei_extends_witness : exists m s1 s2, writei 0 (FromUser 16) 1000 40 ex_user_fs = Ret m s1 /\
  readi 0 ToLocal 1000 m s1 = Ret (m, take (Z.to_nat m) ex_bytes) s2 /\ disk s1 = ex_file_disk.
Proof.
  destruct (writei_extends 1 3 ex_user_fs (read_block ex_file_disk) [] 0 ex_file 1 1000 (FromUser 16) ex_bytes) as (m & s1 & s2 & V' & T' & ip' & N' & E1 & _ & _ & E2 & _ & Ed & _).
  - apply Nat.ltb_lt. reflexivity.
  - apply ex_user_tview.
  - apply file_on_procs, ex_file_on.
  - apply ex_user_supplies.
  - reflexivity.
  - reflexivity.
  - by vm_compute.
  - by vm_compute.
  - split; vm_compute; discriminate.
  - exists m, s1, s2. split; [exact E1|split; [exact E2|exact Ed]].
Defined.
