(* ===== verification/FsTrunc.v ===== *)
(** itrunc: every block of the file goes back to the free map, and only those. *)

From S2P Require Import Prelude Outcome Mem State Spinlock KString Kalloc Vm Proc ProcSpec Sleeplock Calm Bytes Disk Bio BioSpec BioView BioCheck Log LogSpec LogCrash LogWrite Uart Printf PrintfSpec Fs Itable FsData FsSpec FsTrans FsOpen FsAlloc FsWrite FsGrow FsExtend.

(** The blocks [F] have been freed; only the free map has changed. *)
Record freed (sp : superblock) (V V' : Z -> list Z) (F : list Z) : Prop := {
  fr_map : fmap_ok V' sp;
  fr_use : forall c, 0 <= c < sb_size sp -> in_use V' sp c = in_use V sp c && negb (bool_decide (c ∈ F));
  fr_other : forall c, c ∉ bmaps sp -> V' c = V c
}.

Lemma freed_refl sp V : fmap_ok V sp -> freed sp V V [].
Proof. intros Hm. split; try done. intros c Hc. rewrite bool_decide_false by set_solver. by rewrite andb_true_r. Qed.

Lemma freed_snoc sp V V' F b : freed sp V V' F -> 0 < b < sb_size sp -> b ∉ bmaps sp -> freed sp V (unmark V' sp b) (F ++ [b]).
Proof.
  intros [Hm Hu Ho] Hb Hn. split.
  - by apply unmark_ok.
  - intros c Hc. rewrite in_use_unmark, Hu by (done || lia). rewrite (bool_decide_ext (c ∈ F ++ [b]) (c ∈ F \/ c = b)) by set_solver.
    rewrite bool_decide_or. destruct (Z.eqb_spec b c) as [->|]; [rewrite (bool_decide_true (c = c)) by done; by rewrite orb_true_r, andb_false_r|].
    rewrite (bool_decide_false (c = b)) by congruence. by rewrite orb_false_r.
  - intros c Hc. unfold unmark, fset. rewrite decide_False; [by apply Ho|]. intros ->. apply Hc. apply (bblock_in V'); [done|lia].
Qed.

Section trunc.
Context `{Fuel} `{DiskLaws} (D : Z) (p : nat) (Hfuel : (0 < fuel)%nat).
Context (sp : superblock) (V : Z -> list Z) (X : list Z).

(** The state between two frees; [O] holds the indirect block while it is read. *)
Record trunc (s : kernel) (V' : Z -> list Z) (T : list Z) (O : gset Z) (F : list Z) : Prop := {
  tr_open : topen D p s V' T O;
  tr_sb : sb s = sp;
  tr_freed : freed sp V V' F;
  tr_fits : fits s T X 2;
  tr_maps : bmaps sp ⊆ X;
  tr_one : (size O <= 1)%nat;
  tr_apart : forall c, c ∈ O -> c ∉ bmaps sp
}.

Lemma trunc_bfree s V' T O F b : trunc s V' T O F -> 0 < b < sb_size sp -> in_use V sp b = true -> b ∉ F -> b ∉ bmaps sp ->
  exists s' V'' T', bfree D b s = Ret tt s' /\ tx_only s s' /\ kept_open D O s s' /\ trunc s' V'' T' O (F ++ [b]).
Proof.
  intros [Ht Esb Hfr Hft HbX HO Hap] Hb Hu HF Hn. pose proof Hfr as [Hm Hu' Ho].
  pose proof (bfree_eq D p Hfuel s V' T O X 2 b Ht) as Hbf. rewrite Esb in Hbf. specialize (Hbf Hm Hap Hft HbX ltac:(lia) ltac:(lia)).
  rewrite Hu', Hu in Hbf by lia. rewrite bool_decide_false in Hbf by done. destruct Hbf as (s' & T' & E & C & Ht' & K & Hft').
  exists s', (unmark V' sp b), T'. do 3 (split; [done|]). split; try done; [by rewrite C|by apply freed_snoc].
Qed.

Lemma trunc_inodes s V' T O F l : trunc s V' T O F -> trunc (set_inodes l s) V' T O F.
Proof. clear Hfuel. intros [? ? ? ? ? ? ?]. split; try done; [by apply topen_set_inodes|by apply (fits_log s)]. Qed.
(** The first [k] block numbers cleared. *)
Definition cleared (k : nat) (ip : inode) : inode := set_i_addrs (replicate k 0 ++ drop k (i_addrs ip)) ip.
Definition first_blocks (ip : inode) (k : Z) : list Z := addr_of V ip <$> seqZ 0 k.

Lemma first_blocks_S ip k : 0 <= k -> first_blocks ip (k + 1) = first_blocks ip k ++ [addr_of V ip k].
Proof. clear Hfuel. intros Hk. unfold first_blocks. rewrite seqZ_app, fmap_app by lia. done. Qed.

Lemma in_first_blocks ip k b : b ∈ first_blocks ip k <-> exists j, 0 <= j < k /\ b = addr_of V ip j.
Proof.
  clear Hfuel. unfold first_blocks. rewrite list_elem_of_fmap. split; intros (j & H1j & H2j); exists j; [apply elem_of_seqZ in H2j|]; (split; [|done || (apply elem_of_seqZ; lia)]); (done || lia).
Qed.

Lemma cleared_S k ip : length (i_addrs ip) = 13%nat -> (k < 13)%nat ->
  i_addrs (cleared k ip) !!! k = i_addrs ip !!! k /\ set_i_addrs (<[k := 0]> (i_addrs (cleared k ip))) (cleared k ip) = cleared (S k) ip.
Proof.
  clear Hfuel. intros Hl Hk. unfold cleared. cbn [i_addrs set_i_addrs]. split.
  - rewrite lookup_total_app_r by (rewrite length_replicate; lia). rewrite length_replicate, Nat.sub_diag.
    rewrite !list_lookup_total_alt, lookup_drop, Nat.add_0_r. done.
  - assert (E : <[k := 0]> (replicate k 0 ++ drop k (i_addrs ip)) = replicate (S k) 0 ++ drop (S k) (i_addrs ip)); [|rewrite E; by destruct ip].
    rewrite insert_app_r_alt by (rewrite length_replicate; lia). rewrite length_replicate, Nat.sub_diag.
    destruct (lookup_lt_is_Some_2 (i_addrs ip) k ltac:(lia)) as [a Ha]. rewrite (drop_S _ _ _ Ha). cbn [insert list_insert].
    rewrite replicate_S_end, <- app_assoc. done.
Qed.

Lemma cleared_zero k ip : length (i_addrs ip) = 13%nat -> (k < 13)%nat -> i_addrs ip !!! k = 0 -> cleared (S k) ip = cleared k ip.
Proof.
  clear Hfuel. intros Hl Hk Hz. unfold cleared. destruct (lookup_lt_is_Some_2 (i_addrs ip) k ltac:(lia)) as [a Ha].
  rewrite (drop_S _ _ _ Ha). rewrite (list_lookup_total_correct _ _ _ Ha) in Hz. subst a. rewrite replicate_S_end, <- app_assoc. done.
Qed.

Lemma trunc_direct i ip N : fstate V sp ip N -> i_dev ip = D -> forall m k s V' T, (k + m = 12)%nat ->
  trunc s V' T ∅ (first_blocks ip (Z.min (Z.of_nat k) N)) -> inodes s !! i = Some (cleared k ip) ->
  exists s' V'' T', for_each (seq k m) (itrunc_direct i) s = Ret tt s' /\ fs_upd s s' /\ inodes s' = <[i := cleared 12 ip]> (inodes s) /\
    trunc s' V'' T' ∅ (first_blocks ip (Z.min 12 N)).
Proof.
  intros Hs Hd. pose proof Hs as [Hl H13 Hdir _ Hus]. change NDIRECT with 12 in Hdir. pose proof (ly_max _ _ _ Hl) as HN.
  induction m as [|m IH]; intros k s V' T Hkm Htr Hi; cbn [seq for_each].
  - assert (k = 12%nat) as -> by lia. exists s, V', T. split; [done|]. split; [unfold fs_upd, fs_only; by destruct s|]. split; [symmetry; by apply list_insert_id|done].
  - assert (Hk : (k < 13)%nat) by lia. destruct (cleared_S k ip H13 Hk) as [Ea Ec].
    assert (Estep : exists s1 V1 T1, itrunc_direct i k s = Ret tt s1 /\ fs_upd s s1 /\ inodes s1 = <[i := cleared (S k) ip]> (inodes s) /\
      trunc s1 V1 T1 ∅ (first_blocks ip (Z.min (Z.of_nat (S k)) N))).
    { unfold itrunc_direct. rewrite (bind_Ret _ _ _ _ _ (eq_refl : geti i s = Ret (inodes s !!! i) s)), (list_lookup_total_correct _ _ _ Hi), Ea. cbv zeta.
      unfold truthy. destruct (Z.lt_ge_cases (Z.of_nat k) N) as [Hlt|Hge].
      - assert (Eaddr : i_addrs ip !!! k = addr_of V ip (Z.of_nat k)).
        { unfold addr_of. change NDIRECT with 12. destruct (Z.ltb_spec (Z.of_nat k) 12); [|lia]. by rewrite Nat2Z.id. }
        set (a := i_addrs ip !!! k) in *. assert (Hfb : fblock V ip N a) by (left; exists (Z.of_nat k); split; [lia|done]).
        destruct (Hus a Hfb) as (Har & Hau & Han). destruct (Z.eqb_spec a 0); [lia|]. cbn [negb when]. change (i_dev (cleared k ip)) with (i_dev ip). rewrite Hd.
        destruct (trunc_bfree s V' T ∅ _ a Htr Har Hau) as (s1 & V1 & T1 & E1 & C1 & _ & Htr1); [|done|].
        { intros Hin. apply in_first_blocks in Hin as (j & Hj & Ej). rewrite Eaddr in Ej. apply (ly_inj _ _ _ Hl) in Ej; lia. }
        rewrite (bind_Ret _ _ _ _ _ E1). destruct (fs_only_upd _ _ (tx_fs_only _ _ C1)) as [Cu Ei].
        rewrite (modi_eq s1 i (cleared k ip)) by (by rewrite Ei). rewrite Ec. eexists _, V1, T1. split; [done|].
        split; [unfold fs_upd; cbn [inodes set_inodes]; rewrite C1; by destruct s|]. split; [cbn; by rewrite Ei|].
        apply trunc_inodes. replace (Z.min (Z.of_nat (S k)) N) with (Z.of_nat k + 1) by lia. rewrite first_blocks_S by lia.
        replace (Z.min (Z.of_nat k) N) with (Z.of_nat k) in Htr1 by lia. by rewrite <- Eaddr.
      - pose proof (Hdir (Z.of_nat k) ltac:(lia)) as Hz. rewrite Nat2Z.id in Hz. rewrite Hz. cbn [Z.eqb negb when].
        exists s, V', T. split; [done|]. split; [unfold fs_upd, fs_only; by destruct s|]. rewrite cleared_zero by done. split; [symmetry; by apply list_insert_id|].
        replace (Z.min (Z.of_nat (S k)) N) with (Z.min (Z.of_nat k) N) by lia. done. }
    destruct Estep as (s1 & V1 & T1 & E1 & C1 & Ei1 & Htr1). rewrite (bind_Ret _ _ _ _ _ E1).
    destruct (IH (S k) s1 V1 T1 ltac:(lia) Htr1) as (s2 & V2 & T2 & E2 & C2 & Ei2 & Htr2).
    { rewrite Ei1. apply list_lookup_insert_eq. by eapply lookup_lt_Some. }
    exists s2, V2, T2. split; [done|]. split; [by eapply fs_upd_trans|]. split; [by rewrite Ei2, Ei1, list_insert_insert_eq|done].
Qed.

Lemma trunc_indirect i bp ip ip0 N : fstate V sp ip N -> ind_of ip <> 0 -> i_dev ip0 = D -> forall m j s V' T, (j + m = 256)%nat ->
  trunc s V' T {[ind_of ip]} (first_blocks ip (Z.min (12 + Z.of_nat j) N)) -> is_buf D s bp (ind_of ip) -> inodes s !!! i = ip0 ->
  exists s' V'' T', for_each (seqZ (Z.of_nat j) (Z.of_nat m)) (itrunc_indirect i bp) s = Ret tt s' /\ tx_only s s' /\
    is_buf D s' bp (ind_of ip) /\ trunc s' V'' T' {[ind_of ip]} (first_blocks ip N).
Proof.
  intros Hs Hind Hd. pose proof Hs as [Hl _ _ Hin Hus]. destruct (Hin Hind) as [_ Hz]. pose proof (ly_max _ _ _ Hl) as HN. change MAXFILE with 268 in *. change NDIRECT with 12 in *.
  destruct (Hus (ind_of ip)) as (_ & _ & Hnb); [by right|].
  induction m as [|m IH]; intros j s V' T Hjm Htr Hb Hi.
  - exists s, V', T. replace (Z.min (12 + Z.of_nat j) N) with N in Htr by lia. split; [done|]. split; [apply tx_only_refl|done].
  - rewrite seqZ_cons by lia. cbn [for_each]. replace (Z.succ (Z.of_nat j)) with (Z.of_nat (S j)) by lia. replace (Z.pred (Z.of_nat (S m))) with (Z.of_nat m) by lia.
    assert (Estep : exists s1 V1 T1, itrunc_indirect i bp (Z.of_nat j) s = Ret tt s1 /\ tx_only s s1 /\ is_buf D s1 bp (ind_of ip) /\
      trunc s1 V1 T1 {[ind_of ip]} (first_blocks ip (Z.min (12 + Z.of_nat (S j)) N))).
    { unfold itrunc_indirect. rewrite (bind_Ret _ _ _ _ _ (eq_refl : getb bp s = Ret (bufs s !!! bp) s)), (bind_Ret _ _ _ _ _ (eq_refl : geti i s = Ret (inodes s !!! i) s)), Hi.
      pose proof (cview_data D p s V' _ _ bp _ (to_cache _ _ _ _ _ _ (tr_open _ _ _ _ _ Htr)) Hb) as ->. rewrite (fr_other _ _ _ _ (tr_freed _ _ _ _ _ Htr)) by done. cbv zeta.
      unfold truthy. destruct (Z.lt_ge_cases (12 + Z.of_nat j) N) as [Hlt|Hge].
      - assert (Eaddr : get32 (V (ind_of ip)) (4 * Z.of_nat j) = addr_of V ip (12 + Z.of_nat j)).
        { unfold addr_of. change NDIRECT with 12. destruct (Z.ltb_spec (12 + Z.of_nat j) 12); [lia|]. unfold ind_of. change NDIRECT with 12. do 2 f_equal. lia. }
        set (a := get32 _ _) in *. assert (Hfb : fblock V ip N a) by (left; exists (12 + Z.of_nat j); split; [lia|done]).
        destruct (Hus a Hfb) as (Har & Hau & Han). destruct (Z.eqb_spec a 0); [lia|]. cbn [negb when]. rewrite Hd.
        destruct (trunc_bfree s V' T _ _ a Htr Har Hau) as (s1 & V1 & T1 & E1 & C1 & K & Htr1); [|done|].
        { intros Hc. apply in_first_blocks in Hc as (k & Hk & Ek). rewrite Eaddr in Ek. apply (ly_inj _ _ _ Hl) in Ek; lia. }
        exists s1, V1, T1. do 2 (split; [done|]). split; [apply K; [set_solver|done]|].
        replace (Z.min (12 + Z.of_nat (S j)) N) with (12 + Z.of_nat j + 1) by lia. rewrite first_blocks_S by lia.
        replace (Z.min (12 + Z.of_nat j) N) with (12 + Z.of_nat j) in Htr1 by lia. by rewrite <- Eaddr.
      - specialize (Hz (12 + Z.of_nat j) ltac:(lia) ltac:(lia)). replace (12 + Z.of_nat j - 12) with (Z.of_nat j) in Hz by lia. rewrite Hz. cbn [Z.eqb negb when].
        exists s, V', T. split; [done|]. split; [apply tx_only_refl|]. split; [done|]. by replace (Z.min (12 + Z.of_nat (S j)) N) with (Z.min (12 + Z.of_nat j) N) by lia. }
    destruct Estep as (s1 & V1 & T1 & E1 & C1 & Hb1 & Htr1). rewrite (bind_Ret _ _ _ _ _ E1).
    destruct (IH (S j) s1 V1 T1 ltac:(lia) Htr1 Hb1) as (s2 & V2 & T2 & E2 & C2 & Hb2 & Htr2); [by rewrite C1|].
    exists s2, V2, T2. split; [done|]. split; [by eapply tx_only_trans|done].
Qed.

Lemma trunc_topen s V' T O F s' O' : trunc s V' T O F -> topen D p s' V' T O' -> log s' = log s -> sb s' = sb s -> (size O' <= 1)%nat ->
  (forall c, c ∈ O' -> c ∉ bmaps sp) -> trunc s' V' T O' F.
Proof. clear Hfuel. intros [_ Esb ? ? ? _ _] Ht El Es ? ?. split; try done; [by rewrite Es|by apply (fits_log s)]. Qed.

(** The indirect block: its entries are freed while it is open, then the block itself. *)
Lemma trunc_last i ip N s V' T : fstate V sp ip N -> i_dev ip = D -> trunc s V' T ∅ (first_blocks ip (Z.min 12 N)) -> inodes s !! i = Some (cleared 12 ip) ->
  exists s' V'' T' F, when (truthy (ind_of ip))
      (bp <- bread (i_dev (cleared 12 ip)) (ind_of ip);; for_each (seqZ 0 NINDIRECT) (itrunc_indirect i bp);; brelse bp;;
       bfree (i_dev (cleared 12 ip)) (ind_of ip);; modi i (fun ip => set_i_addrs (<[Z.to_nat NDIRECT := 0]> (i_addrs ip)) ip)) s = Ret tt s' /\
    fs_upd s s' /\ inodes s' = <[i := cleared 13 ip]> (inodes s) /\ trunc s' V'' T' ∅ F /\ forall c, c ∈ F <-> fblock V ip N c.
Proof.
  intros Hs Hd Htr Hi. pose proof Hs as [Hl H13 _ Hin Hus]. pose proof (ly_max _ _ _ Hl) as HN. change MAXFILE with 268 in *.
  change (i_dev (cleared 12 ip)) with (i_dev ip). rewrite Hd. unfold truthy. destruct (Z.eqb_spec (ind_of ip) 0) as [Ez|Hnz]; cbn [negb when].
  - exists s, V', T, (first_blocks ip N). split; [done|]. split; [unfold fs_upd, fs_only; by destruct s|].
    rewrite (cleared_zero 12 ip H13 ltac:(lia) Ez). split; [symmetry; by apply list_insert_id|].
    assert (N <= 12). { destruct (Z.le_gt_cases N 12) as [|Hg]; [done|]. destruct (ly_ind _ _ _ Hl Hg) as [Hr _]. unfold ind_of in Ez. lia. }
    replace (Z.min 12 N) with N in Htr by lia. split; [done|]. intros c. rewrite in_first_blocks. unfold fblock. split; [by left|by intros [?|[? _]]].
  - destruct (Hin Hnz) as [Hne _]. destruct (Hus (ind_of ip)) as (Hir & Hiu & Hib); [by right|]. destruct (tr_fits _ _ _ _ _ Htr) as [Hsub Hroom].
    assert (Hr1 : room s T 2) by (eapply subset_room; [done|apply (to_nodup _ _ _ _ _ _ (tr_open _ _ _ _ _ Htr))|done]).
    destruct (topen_bread D p Hfuel s V' T ∅ (ind_of ip) 2 (tr_open _ _ _ _ _ Htr)) as (bp & s1 & E1 & C1 & Hb1 & _ & Ht1 & _); [set_solver|done|rewrite size_empty; lia|].
    rewrite (bind_Ret _ _ _ _ _ E1). destruct (bufs_tx_only _ _ C1) as [C1' El1]. destruct (tx_only_inodes _ _ C1') as (Ei1 & _ & Es1 & _).
    assert (EO : {[ind_of ip]} ∪ ∅ = ({[ind_of ip]} : gset Z)) by set_solver. rewrite EO in Ht1.
    assert (Htr1 : trunc s1 V' T {[ind_of ip]} (first_blocks ip (Z.min 12 N))).
    { eapply trunc_topen; [exact Htr|done|done|done|by rewrite size_singleton|]. intros c ->%elem_of_singleton. done. }
    destruct (trunc_indirect i bp ip (cleared 12 ip) N Hs Hnz Hd 256 0 s1 V' T eq_refl Htr1 Hb1) as (s2 & V2 & T2 & E2 & C2 & Hb2 & Htr2);
      [rewrite Ei1; by apply list_lookup_total_correct|]. change (seqZ 0 NINDIRECT) with (seqZ (Z.of_nat 0) (Z.of_nat 256)). rewrite (bind_Ret _ _ _ _ _ E2).
    destruct (topen_brelse D p s2 V2 T2 _ bp (ind_of ip) (tr_open _ _ _ _ _ Htr2) (proj2 (elem_of_singleton _ _) eq_refl) Hb2) as (s3 & E3 & C3 & Ht3 & _). rewrite (bind_Ret _ _ _ _ _ E3).
    destruct (bufs_tx_only _ _ C3) as [C3' El3]. destruct (tx_only_inodes _ _ C3') as (_ & _ & Es3 & _). rewrite difference_diag_L in Ht3.
    assert (Htr3 : trunc s3 V2 T2 ∅ (first_blocks ip N)) by (eapply trunc_topen; [exact Htr2|done|done|done|by rewrite size_empty; lia|intros c Hc; by apply elem_of_empty in Hc]).
    destruct (trunc_bfree s3 V2 T2 ∅ _ (ind_of ip) Htr3 Hir Hiu) as (s4 & V4 & T4 & E4 & C4 & _ & Htr4); [|done|].
    { intros Hc. apply in_first_blocks in Hc as (k & Hk & Ek). by apply (Hne k Hk). }
    rewrite (bind_Ret _ _ _ _ _ E4). assert (C : tx_only s s4) by (do 3 (eapply tx_only_trans; [eassumption|]); done).
    destruct (tx_only_inodes _ _ C) as (Ei & _). rewrite (modi_eq s4 i (cleared 12 ip)) by (by rewrite Ei).
    change (Z.to_nat NDIRECT) with 12%nat. rewrite (proj2 (cleared_S 12 ip H13 ltac:(lia))). eexists _, V4, T4, _. split; [done|].
    split; [unfold fs_upd; cbn [inodes set_inodes]; rewrite C; by destruct s|]. split; [cbn; by rewrite Ei|]. split; [by apply trunc_inodes|].
    intros c. rewrite elem_of_app, in_first_blocks, list_elem_of_singleton. unfold fblock. tauto.
Qed.
End trunc.

(** A file without blocks. *)
Lemma fstate_empty V sp ip : (forall b, length (V b) = Z.to_nat BSIZE) -> i_addrs ip = replicate 13 0 ->
  fstate V sp ip 0 /\ forall b, ~ fblock V ip 0 b.
Proof.
  intros Hlen Ea. assert (Ei : ind_of ip = 0) by (unfold ind_of; by rewrite Ea).
  assert (Hfb : forall b, ~ fblock V ip 0 b) by (intros b [(k & Hk & _)|[Hn _]]; [lia|done]).
  split; [|done]. split.
  - split; [by vm_compute|lia|lia|unfold NDIRECT; lia|done].
  - by rewrite Ea.
  - intros k Hk. change NDIRECT with 12 in Hk. rewrite Ea. apply lookup_total_replicate_2. lia.
  - by rewrite Ei.
  - intros b Hb. by apply Hfb in Hb.
Qed.

(** C14. itrunc, inside a transaction with room for the free map and two more blocks,
    frees exactly the blocks of the file: its data blocks and its indirect block
    are no longer in use and every other block is in use or free as before.  The
    inode is an empty file's with its other fields as they were, on the disk as in
    memory, and no block but the free map and the inode's own has changed. *)
Theorem itrunc_frees `{Fuel} `{DiskLaws} D p s V T i ip N :
  (0 < fuel)%nat -> tview D p s V T -> file_on s V i ip N -> i_dev ip = D ->
  room s (foldr add_home T (bmaps (sb s))) 2 ->
  let ib := IBLOCK (i_inum ip) (sb s) in let ip' := set_i_size 0 (set_i_addrs (replicate 13 0) ip) in
  exists s' V' T', itrunc i s = Ret tt s' /\ fs_upd s s' /\ inodes s' = <[i := ip']> (inodes s) /\ disk s' = disk s /\
    tview D p s' V' T' /\ file_on s' V' i ip' 0 /\
    (forall c, 0 <= c < sb_size (sb s) -> in_use V' (sb s) c = true <-> in_use V (sb s) c = true /\ ~ fblock V ip N c) /\
    (forall c, c ∉ bmaps (sb s) -> c <> ib -> V' c = V c) /\
    read_dinode (V' ib) (dinode_off (i_inum ip)) ip' = ip'.
Proof.
  intros Hf Ht [Hi Hio Hm Hs Hsz (Hibr & Hibu & Hibn & Hibf)] Hd Hr ib ip'. fold ib in Hibr, Hibu, Hibn, Hibf. set (sp := sb s) in *.
  set (X := foldr add_home T (bmaps sp)) in *. destruct (add_all_in T (bmaps sp)) as [HX1 HX2]. fold X in HX1, HX2.
  assert (Htr : trunc D p sp V X s V T ∅ (first_blocks V ip (Z.min (Z.of_nat 0) N))).
  { replace (Z.min (Z.of_nat 0) N) with 0 by (pose proof (ly_max _ _ _ (st_layout _ _ _ _ Hs)); lia).
    split; [by apply topen_tview|done|by apply freed_refl|by split|done|rewrite size_empty; lia|set_solver]. }
  assert (Hc0 : cleared 0 ip = ip) by (by destruct ip). rewrite <- Hc0 in Hi at 1.
  destruct (trunc_direct D p Hf sp V X i ip N Hs Hd 12 0 s V T eq_refl Htr Hi) as (s1 & V1 & T1 & E1 & C1 & Ei1 & Htr1).
  assert (Hi1 : inodes s1 !! i = Some (cleared 12 ip)) by (rewrite Ei1; apply list_lookup_insert_eq; by eapply lookup_lt_Some).
  destruct (trunc_last D p Hf sp V X i ip N s1 V1 T1 Hs Hd Htr1 Hi1) as (s2 & V2 & T2 & F & E2 & C2 & Ei2 & Htr2 & HF).
  assert (Hi2 : inodes s2 !! i = Some (cleared 13 ip)) by (rewrite Ei2; apply list_lookup_insert_eq; by eapply lookup_lt_Some).
  assert (Eip' : set_i_size 0 (cleared 13 ip) = ip').
  { unfold cleared, ip'. rewrite drop_ge by (pose proof (st_len _ _ _ _ Hs); lia). by rewrite app_nil_r. }
  unfold itrunc. change (Z.to_nat NDIRECT) with 12%nat. rewrite (bind_Ret _ _ _ _ _ E1), (bind_Ret _ _ _ _ _ (eq_refl : geti i s1 = Ret (inodes s1 !!! i) s1)).
  rewrite (list_lookup_total_correct _ _ _ Hi1), (proj1 (cleared_S 12 ip (st_len _ _ _ _ Hs) ltac:(lia))). cbv zeta. fold (ind_of ip).
  rewrite (bind_Ret _ _ _ _ _ E2), (bind_Ret _ _ _ _ _ (modi_eq s2 i _ _ Hi2)), Eip'.
  pose proof Htr2 as [Ht2 Esb2 [Hm2 Hu2 Ho2] [Hft2a Hft2b] _ _ _]. set (s3 := set_inodes _ s2).
  destruct (iupdate_eq D p Hf s3 V2 T2 i ip' 2) as (s4 & E4 & C4 & Ht4 & _).
  { by apply tview_set_inodes, topen_tview. }
  { apply list_lookup_total_correct, list_lookup_insert_eq. by eapply lookup_lt_Some. }
  { done. }
  { unfold IBLOCK. apply u32_range. }
  { eapply subset_room; [exact Hft2a|apply (to_nodup _ _ _ _ _ _ Ht2)|exact Hft2b]. }
  { lia. }
  change (sb s3) with (sb s2) in Ht4. rewrite Esb2 in Ht4. change (i_inum ip') with (i_inum ip) in Ht4. fold ib in Ht4.
  destruct (tx_only_inodes _ _ C4) as (Ei4 & _ & Esb4 & _). eexists s4, _, _. split; [exact E4|].
  assert (Cu : fs_upd s s4).
  { eapply fs_upd_trans; [exact C1|]. eapply fs_upd_trans; [exact C2|]. unfold fs_upd. cbn [inodes]. rewrite Ei4. exact (tx_fs_only _ _ C4). }
  destruct (fs_upd_same _ _ Cu) as (Esb & _ & Edisk & _). fold sp in Esb. split; [done|].
  assert (Ein : inodes s4 = <[i := ip']> (inodes s)) by (rewrite Ei4; unfold s3; cbn [inodes set_inodes]; by rewrite Ei2, Ei1, !list_insert_insert_eq).
  do 2 (split; [done|]). set (x := write_dinode (V2 ib) (dinode_off (i_inum ip)) ip') in *. split; [exact Ht4|].
  assert (Hok' : inode_ok ip').
  { destruct Hio as [Hsh _ _ _]. split; [done|cbn; lia| |done]. cbn [i_addrs ip' set_i_size set_i_addrs]. apply Forall_replicate. lia. }
  pose proof (dinode_off_fits (i_inum ip)) as Hdo. pose proof (fm_len _ _ Hm2 ib) as Hlib.
  assert (Hx : length x = Z.to_nat BSIZE) by (unfold x; rewrite write_dinode_length; [done|lia|lia|apply Hok']).
  destruct (fstate_empty V2 sp ip' (fm_len _ _ Hm2) eq_refl) as [Hs2 Hfb2].
  destruct (fstate_fset V2 sp ip' 0 ib x Hm2 Hs2 Hibn (Hfb2 ib) Hx) as (Hm3 & Hs3 & Hu3 & _ & Hfb3).
  assert (Huse : forall c, 0 <= c < sb_size sp -> in_use (fset V2 ib x) sp c = true <-> in_use V sp c = true /\ ~ fblock V ip N c).
  { intros c Hc. rewrite Hu3, Hu2 by done. rewrite andb_true_iff, negb_true_iff, bool_decide_eq_false, HF. done. }
  split.
  { split; rewrite ?Esb; try done; [rewrite Ein; apply list_lookup_insert_eq; by eapply lookup_lt_Some|].
    change (0 <= ib < sb_size sp /\ in_use (fset V2 ib x) sp ib = true /\ ib ∉ bmaps sp /\ ~ fblock (fset V2 ib x) ip' 0 ib).
    rewrite Huse, Hfb3 by done. auto. }
  split; [done|]. split.
  - intros c Hcn Hci. unfold fset. rewrite decide_False by done. by apply Ho2.
  - unfold fset. rewrite decide_True by done. unfold x. rewrite read_write_dinode; [by destruct ip'|lia|rewrite Hlib; lia|done].
Qed.

(** The file of 1000 bytes gives its block 46 back. *)
#[local] Existing Instances ex_fuel sync_disk sync_disk_laws.
Lemma itrunc_frees_witness : in_use (read_block ex_file_disk) ex_map_sb 46 = true /\
  exists s' V' T', itrunc 0 ex_file_fs = Ret tt s' /\ tview 1 3 s' V' T' /\ in_use V' ex_map_sb 46 = false.
Proof.
  split; [by vm_compute|].
  destruct (itrunc_frees 1 3 ex_file_fs (read_block ex_file_disk) [] 0 ex_file 1) as (s' & V' & T' & E & _ & _ & _ & Ht & _ & Hu & _).
  - apply Nat.ltb_lt. reflexivity.
  - apply ex_file_tview.
  - apply ex_file_on.
  - reflexivity.
  - split; vm_compute; discriminate.
  - exists s', V', T'. split; [exact E|]. split; [exact Ht|].
    assert (Esb : sb ex_file_fs = ex_map_sb) by reflexivity. rewrite Esb in Hu.
    apply not_true_is_false. intros Hc. assert (Hr : 0 <= 46 < sb_size ex_map_sb) by (split; [discriminate|reflexivity]).
    destruct (proj1 (Hu 46 Hr) Hc) as [_ Hn]. apply Hn. left. exists 0. split; [lia|reflexivity].
Defined.
