(* ===== verification/FsDir.v ===== *)
(** Directories: dirlookup finds the entry of a name and dirlink adds one, so
    that a directory is a map from names to inode numbers. *)

From S2P Require Import Prelude Outcome Mem State Spinlock KString Kalloc Vm Proc ProcSpec Sleeplock Calm Bytes Disk Bio BioSpec BioView BioCheck Log LogSpec LogCrash LogWrite Uart Printf Fs Itable FsData FsSpec FsTrans FsWrite.

(** ** Names *)

(** The string at [t] from index [i], cut at [n] characters. *)
Fixpoint cstr (n : nat) (t : Z -> Z) (i : Z) : list Z :=
  match n with
  | O => []
  | S n' => if truthy (t i) then t i :: cstr n' t (i + 1) else []
  end.

(** The name a buffer holds: up to its NUL, at most DIRSIZ characters. *)
Definition name_of (l : list Z) : list Z := cstr DIRSIZ (list_view l) 0.

Lemma strncmp_cstr n p q : byte_view p -> byte_view q -> forall i, strncmp_loop n p q i = 0 <-> cstr n p i = cstr n q i.
Proof.
  intros Hp Hq. induction n as [|n IH]; intros i; cbn [strncmp_loop cstr]; [done|]. rewrite !u8_small by auto.
  destruct (truthy (p i)) eqn:Tp; cbn [andb].
  - apply truthy_true in Tp. destruct (Z.eqb_spec (p i) (q i)) as [E|E].
    + rewrite (proj2 (truthy_true (q i))) by congruence. rewrite IH, E. split; [by intros ->|congruence].
    + split; [lia|]. destruct (truthy (q i)); congruence.
  - apply truthy_false in Tp. rewrite Tp. destruct (truthy (q i)) eqn:Tq.
    + apply truthy_true in Tq. split; [lia|done].
    + apply truthy_false in Tq. split; [done|lia].
Qed.

Lemma namecmp_eq a b : namecmp a b = 0 <-> name_of a = name_of b.
Proof. apply strncmp_cstr; apply byte_view_list. Qed.

Lemma cstr_padded n t l : byte_view t -> forall i o,
  (forall k, (k < n)%nat -> list_view l (o + Z.of_nat k) = default 0 (padded n t i !! k)) -> cstr n (list_view l) o = cstr n t i.
Proof.
  intros Ht. induction n as [|n IH]; intros i o Hl; [done|]. pose proof (Hl O ltac:(lia)) as H0. rewrite Z.add_0_r in H0.
  cbn [cstr padded] in *. destruct (truthy (t i)) eqn:E.
  - cbn [lookup list_lookup default from_option id] in H0. rewrite H0, E. f_equal. apply IH. intros k Hk.
    specialize (Hl (S k) ltac:(lia)). replace (o + 1 + Z.of_nat k) with (o + Z.of_nat (S k)) by lia. rewrite Hl. done.
  - cbn in H0. by rewrite H0.
Qed.

Lemma padded_bytes n t i : byte_view t -> Forall byte (padded n t i).
Proof.
  intros Ht. revert i. induction n as [|n IH]; intros i; cbn [padded]; [constructor|]. destruct (truthy (t i)).
  - constructor; [apply Ht|apply IH].
  - apply Forall_replicate. done.
Qed.

(** ** Entries *)

Lemma make_dirent_eq name inum : make_dirent name inum = le_enc 2 inum ++ padded DIRSIZ (list_view name) 0.
Proof.
  unfold make_dirent, in_buf. f_equal. apply list_eq. intros k. rewrite length_replicate.
  pose proof (padded_bytes DIRSIZ (list_view name) 0 (byte_view_list name)) as Hb.
  destruct (decide (k < DIRSIZ)%nat) as [Hk|Hk].
  - rewrite load_bytes_lookup by done. rewrite strncpy_spec by done. rewrite decide_True by lia.
    destruct (lookup_lt_is_Some_2 (padded DIRSIZ (list_view name) 0) k) as [x Ex]; [by rewrite length_padded|].
    rewrite Nat2Z.id. replace (Z.to_nat (0 + Z.of_nat k - 0)) with k by lia. rewrite Ex. cbn. f_equal.
    apply u8_small. exact (Forall_lookup_1 _ _ _ _ Hb Ex).
  - rewrite !lookup_ge_None_2; [done|rewrite length_padded; lia|rewrite length_load_bytes; lia].
Qed.

Lemma make_dirent_fields name inum : 0 <= inum < 2 ^ 16 ->
  length (make_dirent name inum) = 16%nat /\ de_inum (make_dirent name inum) = inum /\ name_of (de_name (make_dirent name inum)) = name_of name.
Proof.
  intros Hi. rewrite make_dirent_eq. split; [by rewrite length_app, length_le_enc, length_padded|]. split.
  - unfold de_inum, get16, sub. rewrite drop_0, take_app_length' by (by rewrite length_le_enc). rewrite le_dec_enc. by apply Z.mod_small.
  - unfold de_name. rewrite drop_app_length' by (by rewrite length_le_enc).
    apply cstr_padded; [apply byte_view_list|]. intros k Hk. rewrite Z.add_0_l. unfold list_view at 1. rewrite Nat2Z.id.
    destruct (lookup_lt_is_Some_2 (padded DIRSIZ (list_view name) 0) k) as [x Ex]; [by rewrite length_padded|]. rewrite Ex. cbn [default from_option id].
    apply u8_small. exact (Forall_lookup_1 _ _ _ _ (padded_bytes _ _ _ (byte_view_list name)) Ex).
Qed.

(** The entries of a directory. *)
Definition entries (V : Z -> list Z) (ip : inode) : list (list Z) :=
  (fun k => file_bytes V ip (DIRENT_SIZE * k) DIRENT_SIZE) <$> seqZ 0 (i_size ip / DIRENT_SIZE).

(** The entry that names [c], and the map a directory is. *)
Definition names (c : list Z) (de : list Z) : Prop := de_inum de <> 0 /\ name_of (de_name de) = c.
#[global] Instance names_dec c de : Decision (names c de).
Proof. unfold names. apply _. Defined.

(** A slot that is free. *)
Definition free_entry (de : list Z) : Prop := de_inum de = 0.
#[global] Instance free_entry_dec de : Decision (free_entry de).
Proof. unfold free_entry. apply _. Defined.

Definition dir_lookup (es : list (list Z)) (c : list Z) : option Z := de_inum ∘ snd <$> list_find (names c) es.

Section dir.
Context `{Fuel} `{DiskLaws} (D : Z) (p : nat) (Hfuel : (0 < fuel)%nat).

(** A directory whose entries are whole. *)
Record dir_ok (held : gmap Z Z) (lck : gset Z) (V : Z -> list Z) (ip : inode) : Prop := {
  do_file : file_ok D held lck V ip;
  do_type : i_type ip = T_DIR;
  do_size : i_size ip mod DIRENT_SIZE = 0
}.

Definition nentries (ip : inode) : nat := Z.to_nat (i_size ip / DIRENT_SIZE).

Lemma entries_length V ip : length (entries V ip) = nentries ip.
Proof. unfold entries. by rewrite length_fmap, length_seqZ. Qed.

Lemma entries_lookup V ip k : (k < nentries ip)%nat -> entries V ip !! k = Some (file_bytes V ip (DIRENT_SIZE * Z.of_nat k) DIRENT_SIZE).
Proof. clear Hfuel. intros Hk. unfold entries, nentries in *. rewrite list_lookup_fmap, lookup_seqZ_lt by lia. by rewrite Z.add_0_l. Qed.

Lemma dir_size held lck V ip : dir_ok held lck V ip -> i_size ip = DIRENT_SIZE * Z.of_nat (nentries ip) /\ Z.of_nat (nentries ip) <= 17152.
Proof.
  clear Hfuel. intros [Hf _ Hs]. pose proof (fo_size _ _ _ _ _ Hf) as Hz. change (MAXFILE * BSIZE) with 274432 in Hz.
  unfold nentries, DIRENT_SIZE in *. pose proof (Z.div_mod (i_size ip) 16 ltac:(lia)). lia.
Qed.

(** Reading one entry. *)
Lemma read_entry s V held lck i ip k : cview D p s V held lck -> inodes s !!! i = ip -> dir_ok held lck V ip -> (k < nentries ip)%nat ->
  exists s', readi i ToLocal (DIRENT_SIZE * Z.of_nat k) DIRENT_SIZE s = Ret (DIRENT_SIZE, file_bytes V ip (DIRENT_SIZE * Z.of_nat k) DIRENT_SIZE) s' /\
    bufs_only s s' /\ cview D p s' V held lck.
Proof.
  intros Hv Hi Hd Hk. destruct (dir_size _ _ _ _ Hd) as [Hs Hb].
  destruct (readi_eq D p Hfuel s V held lck i ip ToLocal (DIRENT_SIZE * Z.of_nat k) DIRENT_SIZE Hv Hi eq_refl (do_file _ _ _ _ Hd)) as (s' & E & C & Hv');
    [unfold DIRENT_SIZE; lia|done|].
  assert (Hrc : read_count ip (DIRENT_SIZE * Z.of_nat k) DIRENT_SIZE = DIRENT_SIZE).
  { unfold read_count. rewrite Hs. unfold DIRENT_SIZE in *. destruct (Z.ltb_spec (16 * Z.of_nat k + 16) (2 ^ 32)); lia. }
  rewrite Hrc in *. exists s'. split; [done|]. cbn [deliver] in C. by rewrite set_mem_id in C.
Qed.

(** What dirlookup does from entry [k] on. *)
Definition looked_up (s' : kernel) (k : nat) (r : option (nat * list Z)) (o : outcome kernel (option (nat * Z))) : Prop :=
  match r with
  | None => o = Ret None s'
  | Some (j, de) => forall x s2, iget D (de_inum de) s' = Ret x s2 -> o = Ret (Some (x, DIRENT_SIZE * Z.of_nat (k + j))) s2
  end.

Lemma dirlookup_loop V held lck i ip name : dir_ok held lck V ip -> forall m f k s, (k + m = nentries ip)%nat -> (m < f)%nat ->
  cview D p s V held lck -> inodes s !!! i = ip ->
  exists s', bufs_only s s' /\ cview D p s' V held lck /\
    looked_up s' k (list_find (names (name_of name)) (drop k (entries V ip))) (iter f (dirlookup_body i name) (DIRENT_SIZE * Z.of_nat k) s).
Proof.
  intros Hd. destruct (dir_size _ _ _ _ Hd) as [Hs Hbd]. induction m as [|m IH]; intros f k s Hkm Hf Hv Hi; (destruct f as [|f]; [lia|]).
  - exists s. split; [apply bufs_only_refl|]. split; [done|]. rewrite drop_ge by (rewrite entries_length; lia). cbn [list_find looked_up].
    apply iter_exit. unfold dirlookup_body. rewrite (bind_Ret _ _ _ _ _ (eq_refl : geti i s = Ret (inodes s !!! i) s)), Hi, Hs.
    destruct (Z.ltb_spec (DIRENT_SIZE * Z.of_nat k) (DIRENT_SIZE * Z.of_nat (nentries ip))); [unfold DIRENT_SIZE in *; lia|done].
  - destruct (read_entry s V held lck i ip k Hv Hi Hd ltac:(lia)) as (s1 & E1 & C1 & Hv1). set (de := file_bytes _ _ _ _) in *.
    rewrite (drop_S _ de) by (apply entries_lookup; lia). cbn [list_find].
    assert (Eb : dirlookup_body i name (DIRENT_SIZE * Z.of_nat k) s =
      (if negb (de_inum de =? 0) && (namecmp name (de_name de) =? 0)
       then ip' <- iget D (de_inum de);; ret (inr (Some (ip', DIRENT_SIZE * Z.of_nat k)))
       else ret (inl (u32 (DIRENT_SIZE * Z.of_nat k + DIRENT_SIZE)))) s1).
    { unfold dirlookup_body at 1. rewrite (bind_Ret _ _ _ _ _ (eq_refl : geti i s = Ret (inodes s !!! i) s)), Hi, Hs.
      destruct (Z.ltb_spec (DIRENT_SIZE * Z.of_nat k) (DIRENT_SIZE * Z.of_nat (nentries ip))); [|unfold DIRENT_SIZE in *; lia]. cbn [negb].
      rewrite (bind_Ret _ _ _ _ _ E1). rewrite Z.eqb_refl. cbn [negb]. by rewrite (fo_dev _ _ _ _ _ (do_file _ _ _ _ Hd)). }
    destruct (decide (names (name_of name) de)) as [[Hne Hnm]|Hno].
    + exists s1. split; [done|]. split; [done|]. cbn [looked_up]. intros x s2 Hget. apply iter_exit. rewrite Eb.
      destruct (Z.eqb_spec (de_inum de) 0); [done|]. rewrite (proj2 (namecmp_eq _ _)) by done. change (0 =? 0) with true. cbn [negb andb].
      rewrite (bind_Ret _ _ _ _ _ Hget). by rewrite Nat.add_0_r.
    + destruct (IH f (S k) s1 ltac:(lia) ltac:(lia) Hv1) as (s2 & C2 & Hv2 & Hl); [by destruct (bufs_only_inodes _ _ C1) as [-> _]|].
      exists s2. split; [by eapply bufs_only_trans|]. split; [done|].
      assert (Eb' : dirlookup_body i name (DIRENT_SIZE * Z.of_nat k) s = Ret (inl (DIRENT_SIZE * Z.of_nat (S k))) s1).
      { rewrite Eb. replace (u32 _) with (DIRENT_SIZE * Z.of_nat (S k)) by (rewrite u32_small; unfold DIRENT_SIZE; lia).
        destruct (Z.eqb_spec (de_inum de) 0); [done|]. destruct (Z.eqb_spec (namecmp name (de_name de)) 0) as [Hz|]; [|done].
        apply namecmp_eq in Hz. exfalso. by apply Hno. }
      rewrite (iter_next _ _ _ _ _ _ Eb'). destruct (list_find _ _) as [[j de']|]; cbn [fmap option_fmap option_map prod_map fst snd looked_up] in *; [|done].
      intros x s3 Hget. rewrite (Hl x s3 Hget). do 4 f_equal. lia.
Qed.

Lemma dirlookup_eq s V held lck i ip name : cview D p s V held lck -> inodes s !!! i = ip -> dir_ok held lck V ip ->
  exists s', bufs_only s s' /\ cview D p s' V held lck /\
    looked_up s' 0 (list_find (names (name_of name)) (entries V ip)) (dirlookup i name s).
Proof.
  intros Hv Hi Hd. unfold dirlookup. rewrite (bind_Ret _ _ _ _ _ (eq_refl : geti i s = Ret (inodes s !!! i) s)), Hi, (do_type _ _ _ _ Hd), Z.eqb_refl. cbn [negb].
  apply (dirlookup_loop V held lck i ip name Hd (nentries ip) _ 0 s); [done|unfold nentries; lia|done|done].
Qed.

(** ** Adding an entry *)


(** The first free slot, or the end of the directory. *)
Definition free_slot (es : list (list Z)) : nat := match list_find free_entry es with Some (k, _) => k | None => length es end.

Lemma dirlink_loop V held lck i ip : dir_ok held lck V ip -> forall m f k s, (k + m = nentries ip)%nat -> (m < f)%nat ->
  cview D p s V held lck -> inodes s !!! i = ip ->
  exists s', bufs_only s s' /\ cview D p s' V held lck /\
    iter f (dirlink_body i) (DIRENT_SIZE * Z.of_nat k) s = Ret (DIRENT_SIZE * Z.of_nat (k + free_slot (drop k (entries V ip)))) s'.
Proof.
  intros Hd. destruct (dir_size _ _ _ _ Hd) as [Hs Hbd]. induction m as [|m IH]; intros f k s Hkm Hf Hv Hi; (destruct f as [|f]; [lia|]).
  - exists s. split; [apply bufs_only_refl|]. split; [done|]. rewrite drop_ge by (rewrite entries_length; lia). cbn [free_slot list_find length].
    apply iter_exit. unfold dirlink_body. rewrite (bind_Ret _ _ _ _ _ (eq_refl : geti i s = Ret (inodes s !!! i) s)), Hi, Hs.
    destruct (Z.ltb_spec (DIRENT_SIZE * Z.of_nat k) (DIRENT_SIZE * Z.of_nat (nentries ip))); [unfold DIRENT_SIZE in *; lia|]. by rewrite Nat.add_0_r.
  - destruct (read_entry s V held lck i ip k Hv Hi Hd ltac:(lia)) as (s1 & E1 & C1 & Hv1). set (de := file_bytes _ _ _ _) in *.
    rewrite (drop_S _ de) by (apply entries_lookup; lia). unfold free_slot. cbn [list_find].
    assert (Eb : dirlink_body i (DIRENT_SIZE * Z.of_nat k) s =
      (if de_inum de =? 0 then ret (inr (DIRENT_SIZE * Z.of_nat k)) else ret (inl (i32 (DIRENT_SIZE * Z.of_nat k + DIRENT_SIZE)))) s1).
    { unfold dirlink_body at 1. rewrite (bind_Ret _ _ _ _ _ (eq_refl : geti i s = Ret (inodes s !!! i) s)), Hi, Hs.
      destruct (Z.ltb_spec (DIRENT_SIZE * Z.of_nat k) (DIRENT_SIZE * Z.of_nat (nentries ip))); [|unfold DIRENT_SIZE in *; lia]. cbn [negb].
      rewrite (bind_Ret _ _ _ _ _ E1). rewrite Z.eqb_refl. done. }
    destruct (decide (free_entry de)) as [Hz|Hz].
    + exists s1. split; [done|]. split; [done|]. apply iter_exit. rewrite Eb, (proj2 (Z.eqb_eq _ _) Hz). by rewrite Nat.add_0_r.
    + destruct (IH f (S k) s1 ltac:(lia) ltac:(lia) Hv1) as (s2 & C2 & Hv2 & Hl); [by destruct (bufs_only_inodes _ _ C1) as [-> _]|].
      exists s2. split; [by eapply bufs_only_trans|]. split; [done|].
      assert (Eb' : dirlink_body i (DIRENT_SIZE * Z.of_nat k) s = Ret (inl (DIRENT_SIZE * Z.of_nat (S k))) s1).
      { rewrite Eb, (proj2 (Z.eqb_neq _ _) Hz). by replace (i32 _) with (DIRENT_SIZE * Z.of_nat (S k)) by (rewrite i32_small; unfold DIRENT_SIZE; lia). }
      rewrite (iter_next _ _ _ _ _ _ Eb'), Hl. unfold free_slot.
      destruct (list_find free_entry (drop (S k) (entries V ip))) as [[j de']|]; cbn [fmap option_fmap option_map prod_map fst snd length]; do 3 f_equal; lia.
Qed.
End dir.

(** ** The directory as a map *)

(** [de] in slot [k]. *)
Definition set_slot (k : nat) (de : list Z) (es : list (list Z)) : list (list Z) := take k es ++ de :: drop (S k) es.

Lemma dir_lookup_cons de es c : dir_lookup (de :: es) c = if decide (names c de) then Some (de_inum de) else dir_lookup es c.
Proof. unfold dir_lookup. cbn [list_find]. case_decide; [done|]. by destruct (list_find (names c) es) as [[j x]|]. Qed.

Lemma dir_lookup_set_slot de c : de_inum de <> 0 -> forall es k, (forall e, es !! k = Some e -> free_entry e) ->
  dir_lookup es (name_of (de_name de)) = None ->
  dir_lookup (set_slot k de es) c = if decide (c = name_of (de_name de)) then Some (de_inum de) else dir_lookup es c.
Proof.
  intros Hd. unfold set_slot. induction es as [|e es IH]; intros k Hk Hno.
  - rewrite take_nil, drop_nil. cbn [app]. rewrite dir_lookup_cons. unfold names. destruct (decide (c = name_of (de_name de))) as [->|Hc].
    + by rewrite decide_True.
    + rewrite decide_False by (intros [_ ?]; congruence). done.
  - destruct k as [|k]; cbn [take drop app]; rewrite !dir_lookup_cons.
    + pose proof (Hk e eq_refl) as He. rewrite drop_0. rewrite (decide_False (P := names c e)) by (intros [? _]; done).
      unfold names. destruct (decide (c = name_of (de_name de))) as [->|Hc]; [by rewrite decide_True|].
      by rewrite decide_False by (intros [_ ?]; congruence).
    + rewrite dir_lookup_cons in Hno. destruct (decide (names (name_of (de_name de)) e)) as [|Hne]; [done|].
      rewrite (IH k Hk Hno). destruct (decide (names c e)) as [Hce|]; [|done].
      destruct (decide (c = name_of (de_name de))) as [->|]; done.
Qed.

Lemma free_slot_le es : (free_slot es <= length es)%nat.
Proof.
  unfold free_slot. destruct (list_find free_entry es) as [[k de]|] eqn:E; [|done].
  apply list_find_Some in E as [Hk _]. apply lookup_lt_Some in Hk. lia.
Qed.

Lemma free_slot_free es e : es !! free_slot es = Some e -> free_entry e.
Proof.
  unfold free_slot. destruct (list_find free_entry es) as [[k de]|] eqn:E.
  - apply list_find_Some in E as (Hk & Hf & _). intros He. congruence.
  - intros He. apply lookup_lt_Some in He. lia.
Qed.

Lemma entries_wrote V V' V1 ip ip' N k de : wrote V V1 ip N (DIRENT_SIZE * Z.of_nat k) de -> length de = 16%nat ->
  (forall j, 0 <= j < N * BSIZE -> file_byte V' ip' j = file_byte V1 ip j) ->
  i_size ip = DIRENT_SIZE * Z.of_nat (nentries ip) -> (k <= nentries ip)%nat -> i_size ip' = Z.max (i_size ip) (DIRENT_SIZE * Z.of_nat k + 16) ->
  i_size ip' <= N * BSIZE -> entries V' ip' = set_slot k de (entries V ip).
Proof.
  intros Hw Hde HV Hs Hk Hs' Hfit. unfold DIRENT_SIZE in *.
  assert (Hn' : nentries ip' = (nentries ip `max` S k)%nat).
  { unfold nentries at 1, DIRENT_SIZE. rewrite Hs', Hs. rewrite <- (Nat2Z.id (nentries ip `max` S k)). f_equal. symmetry.
    apply (Z.div_unique_exact); lia. }
  assert (Hby : forall j x, (j < nentries ip')%nat -> 0 <= x < 16 ->
    file_byte V' ip' (16 * Z.of_nat j + x) = if decide (j = k) then de !!! Z.to_nat x else file_byte V ip (16 * Z.of_nat j + x)).
  { intros j x Hj Hx. rewrite HV, (wr_byte _ _ _ _ _ _ Hw) by lia. rewrite Hde. change (Z.of_nat 16) with 16.
    destruct (decide (j = k)) as [->|Hne]; [rewrite decide_True by lia|by rewrite decide_False by lia]. f_equal. lia. }
  apply list_eq. intros j. unfold set_slot. pose proof (entries_length V ip) as Hl.
  destruct (decide (j < nentries ip')%nat) as [Hj|Hj].
  - rewrite entries_lookup by done. unfold DIRENT_SIZE. destruct (decide (j = k)) as [->|Hne].
    + rewrite lookup_app_r by (rewrite length_take; lia). rewrite length_take, Nat.min_l, Nat.sub_diag by lia. cbn. f_equal.
      apply list_eq. intros x. unfold file_bytes. rewrite list_lookup_fmap. destruct (decide (x < 16)%nat) as [Hx|Hx].
      * rewrite lookup_seqZ_lt by lia. cbn [fmap option_fmap option_map]. rewrite Hby, decide_True by lia.
        rewrite Nat2Z.id. symmetry. apply list_lookup_lookup_total_lt. lia.
      * rewrite lookup_seqZ_ge by lia. symmetry. apply lookup_ge_None_2. lia.
    + assert (Hjn : (j < nentries ip)%nat) by lia.
      transitivity (entries V ip !! j).
      * rewrite entries_lookup by done. unfold DIRENT_SIZE. f_equal. apply list_fmap_ext. intros x y Hy. apply lookup_seqZ in Hy as [-> Hy].
        rewrite Hby by lia. by rewrite decide_False.
      * destruct (decide (j < k)%nat); [rewrite lookup_app_l by (rewrite length_take; lia); by rewrite lookup_take_lt|].
        rewrite lookup_app_r by (rewrite length_take; lia). rewrite length_take, Nat.min_l by lia.
        replace (j - k)%nat with (S (j - k - 1)) by lia. cbn [lookup list_lookup].
        change (entries V ip !! j = drop (S k) (entries V ip) !! (j - k - 1)%nat). rewrite lookup_drop. f_equal. lia.
  - rewrite !lookup_ge_None_2; [done| |by rewrite entries_length; lia].
    rewrite length_app, length_take. cbn [length]. rewrite length_drop. lia.
Qed.

Section link.
Context `{Fuel} `{DiskLaws} (D : Z) (p : nat) (Hfuel : (0 < fuel)%nat).

(** A directory inside a transaction: its blocks are laid out with room for one
    more entry, apart from the inode's block. *)
Record dir_tx (s : kernel) (V : Z -> list Z) (T : list Z) (i : nat) (ip : inode) (N : Z) : Prop := {
  dt_view : tview D p s V T;
  dt_inode : inodes s !! i = Some ip;
  dt_dev : i_dev ip = D;
  dt_type : i_type ip = T_DIR;
  dt_addrs : length (i_addrs ip) = 13%nat;
  dt_whole : i_size ip mod DIRENT_SIZE = 0;
  dt_layout : layout V ip N;
  dt_size : 0 <= i_size ip /\ i_size ip + DIRENT_SIZE <= N * BSIZE;
  dt_apart : apart V ip N (IBLOCK (i_inum ip) (sb s))
}.

Lemma dir_tx_ok s V T i ip N r : dir_tx s V T i ip N -> room s T r -> 1 <= r -> dir_ok D (pins T) ∅ V ip.
Proof.
  clear Hfuel. intros [Hv Hi Hd Ht Had Hw Hl Hs Ha] Hr H1r. split; [|done|done]. unfold DIRENT_SIZE in Hs. eapply layout_file_ok; (done || lia).
Qed.

(** A 16-byte entry lies within one block. *)
Lemma rounds_dirent k : rounds (DIRENT_SIZE * k) DIRENT_SIZE = 1.
Proof.
  clear Hfuel. unfold rounds, DIRENT_SIZE. assert (E : BSIZE = 16 * 64) by done. rewrite E, Z.mul_mod_distr_l by lia.
  pose proof (Z.mod_pos_bound k 64 ltac:(lia)). symmetry. apply (Z.div_unique_pos _ _ _ (16 * (k mod 64) + 15)); lia.
Qed.

(** Writing a whole entry into slot [k]. *)
Lemma write_entry s V T i ip N k de : dir_tx s V T i ip N -> room s T 3 -> length de = 16%nat -> (k <= nentries ip)%nat ->
  let ip' := grown (DIRENT_SIZE * Z.of_nat k + DIRENT_SIZE) ip in
  exists s' V' T', writei i (FromKernel de) (DIRENT_SIZE * Z.of_nat k) DIRENT_SIZE s = Ret DIRENT_SIZE s' /\ tview D p s' V' T' /\
    inodes s' = <[i := ip']> (inodes s) /\ disk s' = disk s /\ dir_ok D (pins T') ∅ V' ip' /\ entries V' ip' = set_slot k de (entries V ip).
Proof.
  intros Hdt Hr Hlen Hk ip'. pose proof (dir_tx_ok _ _ _ _ _ _ 3 Hdt Hr ltac:(lia)) as Hok. pose proof Hdt as [Ht Hi Hd Hty Hal Hwh Hl Hs Ha].
  destruct (dir_size _ _ _ _ _ Hok) as [Hsz Hbd].
  destruct (writei_eq D p Hfuel s V T i ip N (DIRENT_SIZE * Z.of_nat k) de Ht Hi Hd Hl) with (r := 1)
    as (s3 & V1 & T1 & E3 & Hw & Hi3 & _ & Hd3 & _ & Ht3 & Hr3);
    [unfold DIRENT_SIZE in *; lia|unfold DIRENT_SIZE in *; lia|done| |lia|].
  { rewrite Hlen. change (Z.of_nat 16) with DIRENT_SIZE. by rewrite rounds_dirent. }
  rewrite Hlen in *. change (Z.of_nat 16) with DIRENT_SIZE in *.
  fold ip' in Hi3, Ht3. destruct (grown_same (DIRENT_SIZE * Z.of_nat k + DIRENT_SIZE) ip) as (Ga & Gd & _ & Gs). fold ip' in Ga, Gd, Gs.
  set (ib := IBLOCK (i_inum ip) (sb s)) in *. set (x := write_dinode _ _ ip') in Ht3.
  assert (Ha1 : apart V1 ip N ib) by (split; [intros j Hj; rewrite (wrote_addr _ _ _ _ _ _ _ Hl Hw Hj)|]; by apply Ha).
  assert (Hx : length x = Z.to_nat BSIZE).
  { pose proof (dinode_off_fits (i_inum ip)). pose proof (wr_len _ _ _ _ _ _ Hw ib) as Hlib. unfold x. rewrite write_dinode_length; [done|lia|lia|by rewrite Ga]. }
  exists s3, (fset V1 ib x), T1. do 4 (split; [done|]). split.
  - split; [|unfold ip', grown; by destruct (_ <? _)|].
    + apply (layout_file_ok D p s3 _ T1 ip' N 1); [done|done|done| |by rewrite Gd|rewrite Gs; unfold DIRENT_SIZE in *; lia].
      apply (layout_addrs _ ip); [done|]. apply layout_fset; [by eapply wrote_layout|done|done].
    + rewrite Gs, Hsz. unfold DIRENT_SIZE. replace (Z.max _ _) with (Z.max (Z.of_nat (nentries ip)) (Z.of_nat k + 1) * 16) by lia. apply Z_mod_mult.
  - eapply entries_wrote; [exact Hw|exact Hlen| |exact Hsz|exact Hk|exact Gs|rewrite Gs; unfold DIRENT_SIZE in *; lia].
    intros j Hj. rewrite (file_byte_addrs _ _ _ _ Ga). by apply apart_fset with (N := N).
Qed.

Lemma dir_tx_bufs s s' V T i ip N : dir_tx s V T i ip N -> bufs_only s s' -> cview D p s' V (pins T) ∅ -> dir_tx s' V T i ip N.
Proof.
  clear Hfuel. intros [Ht Hi Hd Hty Hal Hwh Hl Hs Ha] C Hv. destruct (bufs_only_inodes _ _ C) as (Ei & _ & Es).
  split; rewrite ?Ei, ?Es; try done. by eapply tview_bufs.
Qed.

Lemma dirlink_eq s V T i ip N name inum : dir_tx s V T i ip N -> room s T 3 -> 0 < inum < 2 ^ 16 ->
  dir_lookup (entries V ip) (name_of name) = None ->
  let k := free_slot (entries V ip) in let ip' := grown (DIRENT_SIZE * Z.of_nat k + DIRENT_SIZE) ip in
  exists s' V' T', dirlink i name inum s = Ret 0 s' /\ tview D p s' V' T' /\ inodes s' = <[i := ip']> (inodes s) /\
    disk s' = disk s /\ dir_ok D (pins T') ∅ V' ip' /\ entries V' ip' = set_slot k (make_dirent name inum) (entries V ip).
Proof.
  intros Hdt Hr Hin Hno k ip'. pose proof (dir_tx_ok _ _ _ _ _ _ 3 Hdt Hr ltac:(lia)) as Hok.
  assert (Hit : inodes s !!! i = ip) by (by apply list_lookup_total_correct, (dt_inode _ _ _ _ _ _ Hdt)).
  destruct (dir_size _ _ _ _ _ Hok) as [Hsz Hbd]. destruct (make_dirent_fields name inum ltac:(lia)) as (Hlen & _ & _).
  unfold dirlink. destruct (dirlookup_eq D p Hfuel s V _ _ i ip name (tv_cache _ _ _ _ _ (dt_view _ _ _ _ _ _ Hdt)) Hit Hok) as (s1 & C1 & Hv1 & Hl1).
  unfold dir_lookup in Hno. destruct (list_find (names (name_of name)) (entries V ip)) as [[? ?]|]; [done|]. cbn [looked_up] in Hl1.
  rewrite (bind_Ret _ _ _ _ _ Hl1). destruct (bufs_only_inodes _ _ C1) as (Hi1 & _ & _).
  rewrite (bind_Ret _ _ _ _ _ (eq_refl : geti i s1 = Ret (inodes s1 !!! i) s1)), Hi1, Hit.
  destruct (dirlink_loop D p Hfuel V _ _ i ip Hok (nentries ip) (2 + Z.to_nat (i_size ip / DIRENT_SIZE)) 0 s1) as (s2 & C2 & Hv2 & E2);
    [done|unfold nentries; lia|done|by rewrite Hi1|].
  rewrite drop_0 in E2. cbn [Nat.add] in E2. fold k in E2. rewrite (bind_Ret _ _ _ _ _ E2).
  assert (Hk : (k <= nentries ip)%nat) by (rewrite <- (entries_length V ip); apply free_slot_le).
  pose proof (bufs_only_trans _ _ _ C1 C2) as C12. destruct (bufs_only_inodes _ _ C12) as (Hi2 & _ & _). destruct (bufs_tx_only _ _ C12) as [_ El2].
  rewrite u32_small by (unfold DIRENT_SIZE; lia).
  destruct (write_entry s2 V T i ip N k (make_dirent name inum)) as (s3 & V' & T' & E3 & Ht3 & Hi3 & Hd3 & Hrest);
    [by eapply dir_tx_bufs|unfold room in *; by rewrite El2|done|done|].
  rewrite (bind_Ret _ _ _ _ _ E3), Z.eqb_refl. exists s3, V', T'. split; [done|]. split; [done|]. rewrite Hi3, Hi2. split; [done|].
  split; [rewrite Hd3; by rewrite C12|done].
Qed.
End link.

(** C11. dirlookup is the lookup of the map the directory's entries are: it
    returns nothing when no entry in use has the name, comparing DIRSIZ
    characters, and otherwise the in-memory inode of the first such entry's
    inode number, through iget, with the entry's offset.  The contents of all
    blocks stay as they are. *)
Theorem dirlookup_finds `{Fuel} `{DiskLaws} D p s V held lck i ip name :
  (0 < fuel)%nat -> cview D p s V held lck -> inodes s !!! i = ip -> length (inodes s) = NINODE -> dir_ok D held lck V ip ->
  match dir_lookup (entries V ip) (name_of name) with
  | None => exists s', dirlookup i name s = Ret None s' /\ bufs_only s s' /\ cview D p s' V held lck
  | Some inum => forall x l, itable_get D inum (inodes s) = Some (x, l) ->
      exists s' k, dirlookup i name s = Ret (Some (x, DIRENT_SIZE * Z.of_nat k)) s' /\ inodes s' = l /\ cview D p s' V held lck /\
        exists de, entries V ip !! k = Some de /\ de_inum de = inum /\ name_of (de_name de) = name_of name
  end.
Proof.
  intros Hf Hv Hi Hlen Hd. destruct (dirlookup_eq D p Hf s V held lck i ip name Hv Hi Hd) as (s1 & C1 & Hv1 & Hl). unfold dir_lookup.
  destruct (list_find (names (name_of name)) (entries V ip)) as [[k de]|] eqn:E; cbn [fmap option_fmap option_map compose snd looked_up] in *; [|by exists s1].
  intros x l Hget. pose proof Hv1 as [[Hc1 Hlk1] _]. destruct (bufs_only_inodes _ _ C1) as (Hi1 & _ & _).
  assert (Eg : iget D (de_inum de) s1 = Ret x (set_inodes l s1)).
  { rewrite (iget_eq p _ _ s1 Hc1) by (rewrite ?Hlk1, ?Hi1; (done || apply lookup_empty)). by rewrite Hi1, Hget. }
  exists (set_inodes l s1), k. split; [by apply Hl|]. split; [done|]. split; [by apply cview_set_inodes|].
  apply list_find_Some in E as (Hk & [_ Hn] & _). by exists de.
Qed.


(** A directory of two free slots in block 46. *)
#[local] Existing Instances ex_fuel sync_disk sync_disk_laws.
Definition ex_dir_ip : inode := mkInode 1 1 1 sleeplock0 true T_DIR 0 0 1 32 ([46] ++ replicate 12 0).
Definition ex_dir : kernel := set_sb ex_sb (set_inodes (ex_dir_ip :: replicate 49 inode0) (set_log ex_open_log ex_cache)).
Definition ex_name : list Z := [102; 111; 111; 0].

Lemma ex_dir_tx : dir_tx 1 3 ex_dir (read_block ∅) [] 0 ex_dir_ip 1.
Proof.
  assert (E : log ex_dir = ex_open_log) by reflexivity.
  split; [|reflexivity..| |vm_compute; by split|].
  - split; rewrite ?E; [|done|apply NoDup_nil_2|done|done|done].
    apply cview_set_sb, cview_set_inodes, cview_set_log, ex_cache_cview.
  - split.
    + done.
    + intros k Hk. by assert (k = 0) as -> by lia.
    + intros j k Hj Hk. lia.
    + intros Hn. unfold NDIRECT in Hn. lia.
    + intros b. unfold read_block. rewrite lookup_empty. apply length_replicate.
  - split; [|done]. intros k Hk. by assert (k = 0) as -> by lia.
Qed.


Lemma dirlookup_finds_witness : exists s1 s2 x k, dirlink 0 ex_name 7 ex_dir = Ret 0 s1 /\ dirlookup 0 ex_name s1 = Ret (Some (x, k)) s2.
Proof.
  assert (Hfu : (0 < fuel)%nat) by (apply Nat.ltb_lt; reflexivity).
  destruct (dirlink_eq 1 3 Hfu ex_dir (read_block ∅) [] 0 ex_dir_ip 1 ex_name 7)
    as (s1 & V' & T' & E & Ht & Hi & Hd & Hok & He).
  - apply ex_dir_tx.
  - split; vm_compute; discriminate.
  - split; reflexivity.
  - vm_compute. reflexivity.
  - set (ip' := grown _ ex_dir_ip) in *.
    pose proof (dirlookup_finds 1 3 s1 V' (pins T') ∅ 0 ip' ex_name) as Hf. rewrite He in Hf.
    replace (dir_lookup _ (name_of ex_name)) with (Some 7) in Hf by (vm_compute; reflexivity). rewrite Hi in Hf.
    destruct Hf with (x := 1%nat) (l := alter (fresh 1 7) 1%nat (<[0%nat := ip']> (inodes ex_dir))) as (s2 & k & E2 & _).
    + apply Nat.ltb_lt. reflexivity.
    + apply Ht.
    + reflexivity.
    + reflexivity.
    + exact Hok.
    + vm_compute. reflexivity.
    + exists s1, s2, 1%nat, (DIRENT_SIZE * Z.of_nat k). split; [exact E|exact E2].
Defined.
