(* ===== verification/Paths.v ===== *)
(** Path names: the elements of a path and the walk through a tree of directories. *)

From S2P Require Import Prelude Outcome Mem State.

(** The elements of a path: runs of characters other than the slash, of which
    the first DIRSIZ count. *)
Definition elem (cur : list Z) : list (list Z) := if cur then [] else [take DIRSIZ (rev cur)].
Fixpoint elems_loop (cur : list Z) (path : list Z) : list (list Z) :=
  match path with
  | [] => elem cur
  | c :: path' => if c =? 47 then elem cur ++ elems_loop [] path' else elems_loop (c :: cur) path'
  end.
Definition elems (path : list Z) : list (list Z) := elems_loop [] path.

(** Walking a tree of directories: [find i c] is what directory [i] has under the
    name [c], and [dir i] says that [i] is a directory.  With [parent] the walk
    ends at the directory of the last element. *)
Section path_walk.
Context {I : Type} (dir : I -> bool) (find : I -> list Z -> option I).

Fixpoint path_walk (parent : bool) (i : I) (names : list (list Z)) : option I :=
  match names with
  | [] => if parent then None else Some i
  | c :: names' =>
      if dir i then
        if parent && bool_decide (names' = []) then Some i else j ← find i c; path_walk parent j names'
      else None
  end.

(** The directory of a path's last element is where the elements before it lead. *)
Lemma path_walk_parent i names : names <> [] ->
  path_walk true i names = j ← path_walk false i (removelast names); if dir j then Some j else None.
Proof.
  revert i. induction names as [|c names IH]; intros i Hne; [done|]. destruct names as [|c' names].
  - simpl. by destruct (dir i).
  - change (removelast (c :: c' :: names)) with (c :: removelast (c' :: names)). cbn [path_walk]. destruct (dir i); [|done].
    rewrite bool_decide_false by done. cbn [andb]. destruct (find i c) as [j|]; [|done]. cbn [mbind option_bind].
    rewrite <- IH by done. done.
Qed.
End path_walk.
