(* ===== verification/FsName.v ===== *)
(** Path lookup: namex walks the tree of directories that is on the disk, and
    leaves the reference counts of the inode table as they were but for the inode
    it returns. *)

From S2P Require Import Prelude Outcome Mem State Spinlock KString Kalloc Vm Proc ProcSpec Sleeplock Calm Bytes Disk Bio BioSpec BioView BioCheck Log LogSpec LogCrash LogWrite Uart Printf Fs Itable FsData FsSpec FsTrans FsAlloc FsWrite FsDir Paths.

(** ** skipelem *)

Definition char (c : Z) : Prop := 0 < c < 256.

Lemma skip_slashes_elems p : elems (skip_slashes p) = elems p.
Proof. induction p as [|c p IH]; [done|]. cbn [skip_slashes]. destruct (Z.eqb_spec c slash) as [->|]; [|done]. rewrite IH. done. Qed.

Lemma skip_slashes_suffix p : exists a, p = a ++ skip_slashes p.
Proof.
  induction p as [|c p [a IH]]; [by exists []|]. cbn [skip_slashes]. destruct (c =? slash); [|by exists []].
  exists (c :: a). simpl. by rewrite <- IH.
Qed.

Lemma skip_slashes_head p c q : skip_slashes p = c :: q -> c <> 47.
Proof.
  induction p as [|d p IH]; [done|]. cbn [skip_slashes]. destruct (Z.eqb_spec d slash) as [->|Hd]; [done|]. by intros [= <- <-].
Qed.

Lemma elems_loop_run q : Forall char q -> forall cur,
  elems_loop cur q = elem (rev (take (elem_len q) q) ++ cur) ++ elems (drop (elem_len q) q).
Proof.
  induction 1 as [|c q Hc Hq IH]; intros cur; [by rewrite app_nil_r|]. cbn [elems_loop elem_len]. unfold char in Hc.
  destruct (Z.eqb_spec c 0); [lia|]. rewrite orb_false_r. unfold slash. destruct (Z.eqb_spec c 47) as [->|Hs].
  - cbn [take drop rev app]. f_equal.
  - rewrite IH. cbn [take drop rev]. by rewrite <- app_assoc.
Qed.

Lemma elems_skip p : Forall char p -> match skip_slashes p with
  | [] => elems p = []
  | c :: q => elems p = take DIRSIZ (take (elem_len (c :: q)) (c :: q)) :: elems (skip_slashes (drop (elem_len (c :: q)) (c :: q)))
  end.
Proof.
  intros Hp. rewrite <- (skip_slashes_elems p). destruct (skip_slashes_suffix p) as [a Ha].
  assert (Hs : Forall char (skip_slashes p)) by (rewrite Ha in Hp; by apply Forall_app in Hp as [_ ?]).
  destruct (skip_slashes p) as [|c q] eqn:E; [done|]. rewrite skip_slashes_elems. unfold elems at 1. rewrite elems_loop_run, app_nil_r by done.
  apply skip_slashes_head in E. apply Forall_cons_1 in Hs as [Hc Hq]. unfold char in Hc. cbn [elem_len].
  unfold slash. destruct (Z.eqb_spec c 47); [done|]. destruct (Z.eqb_spec c 0); [lia|]. cbn [orb take rev].
  unfold elem. destruct (rev (take (elem_len q) q) ++ [c]) as [|x l] eqn:El; [by apply app_nil in El as [_ ?]|].
  rewrite <- El, rev_app_distr, rev_involutive. done.
Qed.

(** The string at the front of an array. *)
Lemma cstr_front n : forall a l o, Forall char a -> (length a <= n)%nat -> take (length a) (drop o l) = a ->
  (length a = n \/ l !! (o + length a)%nat = Some 0) -> cstr n (list_view l) (Z.of_nat o) = a.
Proof.
  induction n as [|n IH]; intros a l o Ha Hn Hl Hend; [destruct a; [done|simpl in Hn; lia]|]. cbn [cstr]. unfold list_view at 1. rewrite Nat2Z.id.
  destruct Ha as [|c a Hc Ha].
  - destruct Hend as [?|Hend]; [done|]. rewrite Nat.add_0_r in Hend. by rewrite Hend.
  - assert (Hc' : l !! o = Some c) by (rewrite <- (Nat.add_0_r o), <- lookup_drop; destruct (drop o l); by simplify_eq/=).
    rewrite Hc'. cbn [default from_option id]. unfold char in Hc. unfold list_view. rewrite Nat2Z.id, Hc'. cbn [default from_option id].
    rewrite u8_small, (proj2 (truthy_true c)) by lia. f_equal. replace (Z.of_nat o + 1) with (Z.of_nat (S o)) by lia.
    apply IH; [done|simpl in Hn; lia| |].
    + rewrite (drop_S _ _ _ Hc') in Hl. by simplify_eq/=.
    + simpl in Hend. destruct Hend as [?|Hend]; [left; lia|right]. by replace (S o + length a)%nat with (o + S (length a))%nat by lia.
Qed.

(** One call of skipelem takes the first element off a path. *)
Lemma skipelem_eq path name : Forall char path -> length name = DIRSIZ -> match elems path with
  | [] => skipelem path name = None
  | c :: rest => exists path' name', skipelem path name = Some (path', name') /\ Forall char path' /\ length name' = DIRSIZ /\
      name_of name' = c /\ elems path' = rest /\ (path' = [] <-> rest = []) /\ (length path' < length path)%nat
  end.
Proof.
  intros Hp Hn. pose proof (elems_skip path Hp) as He. destruct (skip_slashes_suffix path) as [a Ha].
  unfold skipelem. destruct (skip_slashes path) as [|c q] eqn:E; rewrite He; [done|].
  rewrite Ha in Hp. apply Forall_app in Hp as [_ Hq]. pose proof (Forall_inv Hq) as Hc. unfold char in Hc.
  cbn [head default from_option id]. destruct (Z.eqb_spec c 0); [lia|]. set (k := elem_len (c :: q)).
  set (path' := skip_slashes (drop k (c :: q))). eexists path', _. split; [reflexivity|].
  destruct (skip_slashes_suffix (drop k (c :: q))) as [b Hb]. fold path' in Hb.
  assert (Hlen : (k <= length (c :: q) /\ 0 < k)%nat).
  { apply skip_slashes_head in E. split.
    - subst k. clear. induction (c :: q) as [|x l IH]; [done|]. cbn [elem_len length]. destruct (_ || _); lia.
    - subst k. cbn [elem_len]. unfold slash. destruct (Z.eqb_spec c 47), (Z.eqb_spec c 0); simpl; try done; lia. }
  assert (Hq' : Forall char path').
  { assert (Forall char (b ++ path')) as [_ ?]%Forall_app; [|done]. rewrite <- Hb. by apply Forall_drop. }
  assert (Eu : forall bs, upd name 0 bs = bs ++ drop (length bs) name) by done.
  split; [done|]. split; [|split; [|split; [done|split]]].
  - rewrite !Eu. destruct (Nat.leb_spec DIRSIZ k); rewrite !length_app, ?length_take, length_drop, ?length_app, ?length_take, Hn; cbn [length] in *; lia.
  - unfold name_of. change 0 with (Z.of_nat 0).
    assert (Ht : Forall char (take DIRSIZ (take k (c :: q)))) by (by do 2 apply Forall_take).
    rewrite !Eu. destruct (Nat.leb_spec DIRSIZ k) as [Hk|Hk].
    + apply cstr_front; [done|rewrite length_take; lia| |left; rewrite !length_take; lia].
      rewrite drop_0, take_take, !length_take. replace (Nat.min DIRSIZ k) with DIRSIZ by lia.
      rewrite take_app_le by (rewrite length_take; lia). by rewrite take_ge by (rewrite length_take; lia).
    + rewrite (take_ge (take k (c :: q))) by (rewrite length_take; lia).
      apply cstr_front; [by apply Forall_take|rewrite length_take; lia| |right].
      * rewrite drop_0, <- app_assoc, length_take, take_app_le by (rewrite length_take; lia). rewrite take_take. f_equal. lia.
      * rewrite <- app_assoc, lookup_app_r by lia. by rewrite Nat.add_0_l, Nat.sub_diag.
  - rewrite <- (skip_slashes_elems path'). pose proof (elems_skip path' Hq') as H1.
    assert (Hid : skip_slashes path' = path').
    { subst path'. clear. induction (drop k (c :: q)) as [|x l IH]; [done|]. cbn [skip_slashes]. destruct (Z.eqb_spec x slash); [done|].
      cbn [skip_slashes]. by destruct (Z.eqb_spec x slash). }
    rewrite Hid in *. destruct path'; [done|]. rewrite H1. done.
  - rewrite Ha, length_app. apply (f_equal length) in Hb. rewrite length_drop, length_app in Hb. lia.
Qed.

(** ** Reference counts of the inode table *)

Lemma refs_found dev n l i ip : itable_inv l -> l !! i = Some ip -> refers dev n ip -> refs dev n l = i_ref ip.
Proof.
  intros [Hu _] Hi Hr. unfold refs. destruct (list_find (refers dev n) l) as [[j jp]|] eqn:E.
  - apply list_find_Some in E as (Hj & Hrj & _). destruct Hr as (? & ? & ?), Hrj as (? & ? & ?).
    assert (j = i) as -> by (by apply (Hu j i jp ip); congruence). by simplify_eq.
  - apply list_find_None in E. exfalso. exact (Forall_lookup_1 _ _ _ _ E Hi Hr).
Qed.

Lemma refs_none dev n l : (forall i ip, l !! i = Some ip -> ~ refers dev n ip) -> refs dev n l = 0.
Proof.
  intros Hno. unfold refs. destruct (list_find (refers dev n) l) as [[j jp]|] eqn:E; [|done].
  apply list_find_Some in E as (Hj & Hrj & _). by apply Hno in Hj.
Qed.

Lemma refs_pos dev n l : 0 < refs dev n l -> exists i ip, l !! i = Some ip /\ refers dev n ip.
Proof.
  unfold refs. destruct (list_find (refers dev n) l) as [[j jp]|] eqn:E; [|lia]. apply list_find_Some in E as (Hj & Hrj & _). eauto.
Qed.

(** The entry of an inode changes, and with it the inode's count only. *)
Lemma refs_insert dev m l i ip ip' : itable_inv l -> l !! i = Some ip ->
  (refers dev m ip \/ unused ip /\ refs dev m l = 0) -> i_dev ip' = dev -> i_inum ip' = m -> 0 <= i_ref ip' ->
  itable_inv (<[i := ip']> l) /\ forall n, refs dev n (<[i := ip']> l) = if decide (n = m) then i_ref ip' else refs dev n l.
Proof.
  intros Hinv Hi Hold Hd Hm Hr. pose proof Hinv as [Hu Hn]. pose proof (lookup_lt_Some _ _ _ Hi) as Hlt.
  assert (Hone : forall j jp, l !! j = Some jp -> refers dev m jp -> j = i).
  { intros j jp Hj Hrj. destruct Hold as [Ho|[_ Hz]].
    - destruct Hrj as (? & ? & ?), Ho as (? & ? & ?). apply (Hu j i jp ip); congruence.
    - exfalso. pose proof (refs_found _ _ _ _ _ Hinv Hj Hrj). destruct Hrj. lia. }
  assert (Hinv' : itable_inv (<[i := ip']> l)).
  { rewrite <- (alter_as_insert (fun _ => ip') l i ip Hi). apply (itable_alter_inv l i ip (fun _ => ip') Hinv Hi Hr).
    intros j jp Hj Hrj. rewrite Hd, Hm in Hrj. by apply (Hone j jp). }
  split; [done|]. intros n. destruct (decide (n = m)) as [->|Hne].
  - destruct (decide (i_ref ip' = 0)) as [Hz|Hz].
    + rewrite Hz. apply refs_none. intros j jp Hj Hrj. apply list_lookup_insert_Some in Hj as [(<- & <- & _)|[Hji Hj]].
      * destruct Hrj. lia.
      * apply Hji. symmetry. by apply (Hone j jp).
    + apply (refs_found _ _ _ i); [done|by apply list_lookup_insert_eq|]. split; [lia|done].
  - destruct (decide (0 < refs dev n l)) as [Hp|Hp].
    + destruct (refs_pos _ _ _ Hp) as (j & jp & Hj & Hrj). rewrite (refs_found _ _ _ _ _ Hinv Hj Hrj).
      apply (refs_found _ _ _ j); [done| |done]. rewrite list_lookup_insert_ne; [done|]. intros <-. simplify_eq.
      destruct Hrj as (? & ? & ?). destruct Hold as [(? & ? & ?)|[Hun _]]; [congruence|unfold unused in Hun; lia].
    + rewrite refs_none.
      * symmetry. apply refs_none. intros j jp Hj Hrj. pose proof (refs_found _ _ _ _ _ Hinv Hj Hrj). destruct Hrj. lia.
      * intros j jp Hj Hrj. apply list_lookup_insert_Some in Hj as [(<- & <- & _)|[Hji Hj]].
        -- destruct Hrj as (_ & _ & ?). congruence.
        -- pose proof (refs_found _ _ _ _ _ Hinv Hj Hrj). destruct Hrj. lia.
Qed.

(** ** Free slots *)

Definition used (ip : inode) : Prop := 0 < i_ref ip.
#[global] Instance used_dec ip : Decision (used ip).
Proof. unfold used. apply _. Defined.

Definition free_slots (l : list inode) : nat := length (filter unused l).
(** The inodes that the table has. *)
Definition live (l : list inode) : gset Z := list_to_set (i_inum <$> filter used l).

Lemma filter_split l : itable_inv l -> (length (filter unused l) + length (filter used l) = length l)%nat.
Proof.
  intros [_ Hn]. induction Hn as [|ip l Hr _ IH]; [done|]. rewrite !filter_cons.
  destruct (decide (unused ip)) as [Hx|Hx], (decide (used ip)) as [Hy|Hy]; unfold unused, used in Hx, Hy; cbn [length]; lia.
Qed.

Lemma itable_inv_cons ip l : itable_inv (ip :: l) -> itable_inv l /\
  (used ip -> forall jp, jp ∈ l -> used jp -> i_dev ip = i_dev jp -> i_inum ip <> i_inum jp).
Proof.
  intros [Hu Hn]. split; [split|].
  - intros i j xp yp Hi Hj ? ? ? ?. assert (S i = S j); [|congruence]. by apply (Hu (S i) (S j) xp yp).
  - by apply Forall_cons_1 in Hn as [_ ?].
  - intros Hr jp [j Hj]%list_elem_of_lookup Hrj Hd Hm. assert (0%nat = S j); [|done]. by apply (Hu O (S j) ip jp).
Qed.

Lemma live_size dev l : itable_inv l -> Forall (fun ip => used ip -> i_dev ip = dev) l -> (free_slots l + size (live l) = length l)%nat.
Proof.
  intros Hinv Hdev. unfold live. rewrite size_list_to_set, length_fmap; [by apply filter_split|].
  clear - Hinv Hdev. induction l as [|ip l IH]; [constructor|]. apply itable_inv_cons in Hinv as [Hinv Hno].
  apply Forall_cons_1 in Hdev as [Hd Hdev]. rewrite filter_cons. destruct (decide (used ip)) as [Hr|]; [|by apply IH].
  rewrite fmap_cons. constructor; [|by apply IH]. intros (jp & Hm & Hin)%list_elem_of_fmap.
  apply list_elem_of_filter in Hin as [Hrj Hin]. apply (Hno Hr jp Hin Hrj); [|done].
  rewrite Hd by done. rewrite Forall_forall in Hdev. symmetry. by apply Hdev.
Qed.

Lemma elem_of_live dev l n : itable_inv l -> Forall (fun ip => used ip -> i_dev ip = dev) l -> n ∈ live l <-> 0 < refs dev n l.
Proof.
  intros Hinv Hdev. unfold live. rewrite elem_of_list_to_set, list_elem_of_fmap. split.
  - intros (ip & -> & [Hr [i Hi]%list_elem_of_lookup]%list_elem_of_filter).
    assert (refers dev (i_inum ip) ip) as Hf by (split; [done|]; split; [|done]; by apply (Forall_lookup_1 _ _ _ _ Hdev Hi)).
    rewrite (refs_found _ _ _ _ _ Hinv Hi Hf). done.
  - intros (i & ip & Hi & Hr & _ & Hm)%refs_pos. exists ip. split; [done|]. apply list_elem_of_filter. split; [done|].
    by eapply list_elem_of_lookup_2.
Qed.

Lemma free_slots_unused l : (0 < free_slots l)%nat -> Exists unused l.
Proof.
  unfold free_slots. intros Hf. destruct (filter unused l) as [|ip k] eqn:E; [simpl in Hf; lia|].
  apply Exists_exists. exists ip. assert (Hin : ip ∈ filter unused l) by (rewrite E; apply list_elem_of_here).
  by apply list_elem_of_filter in Hin as [? ?].
Qed.

(** One inode more takes one slot at most. *)
Lemma free_slots_cursor dev l l0 n : itable_inv l -> itable_inv l0 -> Forall (fun ip => used ip -> i_dev ip = dev) l ->
  Forall (fun ip => used ip -> i_dev ip = dev) l0 -> length l = length l0 ->
  (forall m, refs dev m l = refs dev m l0 + if decide (m = n) then 1 else 0) -> (free_slots l0 <= S (free_slots l))%nat.
Proof.
  intros Hi Hi0 Hd Hd0 Hlen Hr. pose proof (live_size dev l Hi Hd). pose proof (live_size dev l0 Hi0 Hd0).
  assert (Hsub : live l ⊆ {[n]} ∪ live l0).
  { intros m Hm. rewrite (elem_of_live dev) in Hm by done. rewrite elem_of_union, elem_of_singleton, (elem_of_live dev) by done.
    rewrite Hr in Hm. destruct (decide (m = n)); [by left|right; lia]. }
  apply subseteq_size in Hsub. pose proof (size_union_alt ({[n]} : gset Z) (live l0)) as Hs. rewrite size_singleton in Hs.
  assert (size (live l0 ∖ {[n]}) <= size (live l0))%nat by (apply subseteq_size; set_solver). lia.
Qed.

(** ** The tree on the disk, and the inode table as its cache *)

Definition same_file (ip jp : inode) : Prop :=
  i_type ip = i_type jp /\ i_nlink ip = i_nlink jp /\ i_size ip = i_size jp /\ i_addrs ip = i_addrs jp.

(** Nothing but the buffer cache and the inode table changed. *)
Definition lookup_only (s s' : kernel) : Prop := s' = set_inodes (inodes s') (set_bufs (bufs s') s).

Lemma lookup_only_refl s : lookup_only s s.
Proof. unfold lookup_only. by destruct s. Qed.
Lemma lookup_only_trans s1 s2 s3 : lookup_only s1 s2 -> lookup_only s2 s3 -> lookup_only s1 s3.
Proof. unfold lookup_only. intros E1 E2. rewrite E1 in E2. rewrite E2. by destruct s3. Qed.
Lemma bufs_lookup_only s s' : bufs_only s s' -> lookup_only s s'.
Proof. unfold bufs_only, lookup_only. intros ->. by destruct s. Qed.
Lemma set_inodes_lookup_only s l : lookup_only s (set_inodes l s).
Proof. unfold lookup_only. by destruct s. Qed.
Lemma lookup_only_keeps s s' : lookup_only s s' -> sb s' = sb s /\ procs s' = procs s /\ cpu_ s' = cpu_ s /\ mem s' = mem s.
Proof. by intros ->. Qed.

Section names.
Context `{Fuel} `{DiskLaws} (p : nat) (Hfuel : (0 < fuel)%nat) (V : Z -> list Z) (held : gmap Z Z) (lck : gset Z) (sp : superblock).

(** The inode [n] as the disk has it. *)
Definition dnode (n : Z) : inode := set_i_dev ROOTDEV (read_dinode (V (IBLOCK n sp)) (dinode_off n) inode0).
Definition is_dir (n : Z) : bool := i_type (dnode n) =? T_DIR.
Definition dir_find (n : Z) (c : list Z) : option Z := dir_lookup (entries V (dnode n)) c.

(** Inodes [P] that are in use, can be read, and are closed under looking a name up. *)
Record tree (P : Z -> Prop) : Prop := {
  tr_block n : P n -> readable held lck (IBLOCK n sp);
  tr_type n : P n -> i_type (dnode n) <> 0;
  tr_link n : P n -> i_nlink (dnode n) <> 0;
  tr_dir n : P n -> is_dir n = true -> dir_ok ROOTDEV held lck V (dnode n);
  tr_closed n c m : P n -> is_dir n = true -> dir_find n c = Some m -> P m
}.

(** The inode table: one entry per inode; what it has of an inode is what is on
    the disk; no inode is locked, but for that of slot [lk]. *)
Record synced (lk : option nat) (l : list inode) : Prop := {
  sy_len : length l = NINODE;
  sy_inv : itable_inv l;
  sy_dev : Forall (fun ip => used ip -> i_dev ip = ROOTDEV) l;
  sy_lock i ip : l !! i = Some ip -> lk <> Some i -> sl_locked (i_lock ip) = false;
  sy_valid i ip : l !! i = Some ip -> used ip -> i_valid ip = true -> same_file ip (dnode (i_inum ip))
}.

Lemma synced_insert lk lk' l i ip ip' : synced lk l -> l !! i = Some ip -> itable_inv (<[i := ip']> l) ->
  i_dev ip' = ROOTDEV -> (lk' <> Some i -> sl_locked (i_lock ip') = false) -> (forall j, j <> i -> lk = Some j -> lk' = Some j) ->
  (used ip' -> i_valid ip' = true -> same_file ip' (dnode (i_inum ip'))) -> synced lk' (<[i := ip']> l).
Proof.
  clear Hfuel. intros [Hlen Hinv Hdev Hlock Hval] Hi Hinv' Hd Hl Hlk Hv. split; [by rewrite length_insert|done|by apply Forall_insert| |].
  - intros j jp [(<- & <- & _)|[Hji Hj]]%list_lookup_insert_Some Hne; [by apply Hl|]. apply (Hlock j jp Hj).
    intros ->. apply Hne. by apply (Hlk j).
  - intros j jp [(<- & <- & _)|[Hji Hj]]%list_lookup_insert_Some; [done|]. by apply (Hval j jp).
Qed.

(** An inode's slot in the table, with the table's counts those of [l0] but for
    one reference to the inode. *)
Definition cursor (l0 : list inode) (l : list inode) (i : nat) (n : Z) : Prop :=
  (exists ip, l !! i = Some ip /\ refers ROOTDEV n ip) /\
  forall m, refs ROOTDEV m l = refs ROOTDEV m l0 + if decide (m = n) then 1 else 0.

(** iget on such a table. *)
Lemma itable_get_synced lk l n : synced lk l -> (0 < free_slots l)%nat -> (forall i, lk = Some i -> exists ip, l !! i = Some ip /\ used ip) ->
  exists x l', itable_get ROOTDEV n l = Some (x, l') /\ synced lk l' /\ cursor l l' x n /\
    forall i ip, l !! i = Some ip -> used ip -> exists r, i_ref ip <= r /\ l' !! i = Some (set_i_ref r ip).
Proof.
  clear Hfuel. intros Hs Hfree Hlk. pose proof Hs as [Hlen Hinv Hdev Hlock Hval]. unfold itable_get, cursor.
  destruct (list_find (refers ROOTDEV n) l) as [[x xp]|] eqn:E.
  - apply list_find_Some in E as (Hx & Hr & _). pose proof Hr as (Hu & Hd & Hm). rewrite (alter_as_insert bump l x xp Hx).
    destruct (refs_insert ROOTDEV n l x xp (bump xp) Hinv Hx) as [Hinv' Hrefs]; [by left|done|done|cbn; lia|].
    eexists x, _. split; [done|]. split; [|split; [split|]].
    + eapply (synced_insert lk lk); [done|done|done|done|intros; by apply (Hlock x xp Hx)|done|]. intros _. apply (Hval x xp Hx Hu).
    + exists (bump xp). split; [apply list_lookup_insert_eq; by eapply lookup_lt_Some|]. split; [cbn; lia|done].
    + intros m. rewrite Hrefs. destruct (decide (m = n)) as [->|]; [|lia]. rewrite (refs_found _ _ _ _ _ Hinv Hx Hr). done.
    + intros i ip Hi Hui. destruct (decide (i = x)) as [->|Hne].
      * simplify_eq. exists (i_ref xp + 1). split; [lia|]. apply list_lookup_insert_eq. by eapply lookup_lt_Some.
      * exists (i_ref ip). split; [done|]. rewrite list_lookup_insert_ne, Hi by done. by destruct ip.
  - assert (Hz : refs ROOTDEV n l = 0) by (unfold refs; by rewrite E).
    destruct (list_find unused l) as [[x xp]|] eqn:E2.
    2: { apply list_find_None in E2. apply free_slots_unused, Exists_exists in Hfree as (y & Hy & Huy). rewrite Forall_forall in E2. by apply E2 in Hy. }
    apply list_find_Some in E2 as (Hx & Hun & _). rewrite (alter_as_insert _ l x xp Hx).
    destruct (refs_insert ROOTDEV n l x xp (fresh ROOTDEV n xp) Hinv Hx) as [Hinv' Hrefs]; [by right|done|done|done|].
    eexists x, _. split; [done|]. split; [|split; [split|]].
    + eapply (synced_insert lk lk); [done|done|done|done| |done|done]. intros _. apply (Hlock x xp Hx).
      intros ->. destruct (Hlk x eq_refl) as (? & ? & Hux). simplify_eq. unfold unused, used in *. lia.
    + eexists. split; [apply list_lookup_insert_eq; by eapply lookup_lt_Some|]. split; [cbn; lia|done].
    + intros m. rewrite Hrefs. destruct (decide (m = n)) as [->|]; [|lia]. rewrite Hz. done.
    + intros i ip Hi Hui. exists (i_ref ip). split; [done|]. rewrite list_lookup_insert_ne, Hi; [by destruct ip|].
      intros ->. simplify_eq. unfold unused, used in *. lia.
Qed.

(** ** Locking, unlocking and putting back an inode *)

Definition owner (s : kernel) : sleeplock := mkSleeplock true (pid_of s p).

Lemma same_file_read n ip : same_file (read_dinode (V (IBLOCK n sp)) (dinode_off n) ip) (dnode n).
Proof. done. Qed.

Lemma ilock_eq P s i ip n : tree P -> P n -> cview ROOTDEV p s V held lck -> sb s = sp -> synced None (inodes s) ->
  inodes s !! i = Some ip -> refers ROOTDEV n ip ->
  exists s' ip', ilock i s = Ret tt s' /\ lookup_only s s' /\ cview ROOTDEV p s' V held lck /\ inodes s' = <[i := ip']> (inodes s) /\
    i_ref ip' = i_ref ip /\ i_dev ip' = ROOTDEV /\ i_inum ip' = n /\ i_valid ip' = true /\ same_file ip' (dnode n) /\ i_lock ip' = owner s.
Proof.
  intros Ht Hn Hv Hsb Hs Hi (Hr & Hd & Hm). unfold ilock. rewrite (bind_Ret _ _ _ _ _ (geti_eq _ _ _ Hi)).
  destruct (Z.ltb_spec (i_ref ip) 1); [lia|]. pose proof Hv as [Hid _].
  assert (Hun : sl_locked (sl_of s (SLinode i)) = false).
  { cbn [sl_of]. rewrite (list_lookup_total_correct _ _ _ Hi). by apply (sy_lock _ _ Hs i ip Hi). }
  rewrite (bind_Ret _ _ _ _ _ (acquiresleep_calm (SLinode i) s p (id_calm _ _ Hid) (idle_lk _ _ _ Hid) Hun Hfuel)).
  cbn [upd_sl]. rewrite (alter_as_insert _ _ _ _ Hi). fold (owner s). set (ip1 := set_i_lock (owner s) ip).
  set (s1 := set_inodes (<[i := ip1]> (inodes s)) s). pose proof (lookup_lt_Some _ _ _ Hi) as Hlt.
  assert (Hi1 : inodes s1 !! i = Some ip1) by (by apply list_lookup_insert_eq).
  assert (Hv1 : cview ROOTDEV p s1 V held lck) by (by apply cview_set_inodes).
  rewrite (bind_Ret _ _ _ _ _ (geti_eq _ _ _ Hi1)). change (i_valid ip1) with (i_valid ip). destruct (i_valid ip) eqn:Hval.
  { exists s1, ip1. split; [done|]. split; [apply set_inodes_lookup_only|]. do 3 (split; [done|]). do 2 (split; [done|]). split; [done|].
    split; [|done]. pose proof (sy_valid _ _ Hs i ip Hi Hr Hval) as Hsf. by rewrite Hm in Hsf. }
  rewrite (bind_Ret _ _ s1 sp s1) by (unfold gets; by rewrite <- Hsb). change (i_dev ip1) with (i_dev ip). change (i_inum ip1) with (i_inum ip). rewrite Hd, Hm.
  destruct (block_cycle_with ROOTDEV p Hfuel s1 V held lck _ Hv1 (tr_block _ Ht n Hn)) as (j & s2 & E2 & C2 & _ & Hdat & _ & Hrel).
  rewrite (bind_Ret _ _ _ _ _ E2), (bind_Ret _ _ _ _ _ (eq_refl : getb j s2 = Ret (bufs s2 !!! j) s2)), Hdat.
  destruct (bufs_only_inodes _ _ C2) as (Ei2 & Em2 & _).
  assert (Hi2 : inodes s2 !! i = Some ip1) by (by rewrite Ei2).
  rewrite (bind_Ret _ _ _ _ _ (modi_eq s2 i ip1 _ Hi2)), Ei2. set (ip2 := read_dinode _ _ ip1).
  destruct (Hrel (mem s2) (<[i := ip2]> (inodes s1))) as (s3 & E3 & C3 & Hv3).
  assert (E3' : brelse j (set_inodes (<[i := ip2]> (inodes s1)) s2) = Ret tt s3) by (by rewrite <- E3). rewrite (bind_Ret _ _ _ _ _ E3').
  assert (Hi3 : inodes s3 = <[i := ip2]> (inodes s1)) by (by rewrite (proj1 (bufs_only_inodes _ _ C3))).
  assert (Hi3' : inodes s3 !! i = Some ip2) by (rewrite Hi3; apply list_lookup_insert_eq; by eapply lookup_lt_Some).
  rewrite (bind_Ret _ _ _ _ _ (modi_eq s3 i ip2 _ Hi3')). set (ip3 := set_i_valid true ip2).
  set (s4 := set_inodes _ s3). assert (Hi4 : inodes s4 !! i = Some ip3).
  { apply list_lookup_insert_eq. by eapply lookup_lt_Some. }
  rewrite (bind_Ret _ _ _ _ _ (geti_eq _ _ _ Hi4)). pose proof (tr_type _ Ht n Hn) as Hty.
  change (i_type ip3) with (i_type (dnode n)). destruct (Z.eqb_spec (i_type (dnode n)) 0); [done|].
  exists s4, ip3. split; [done|]. split.
  { rewrite Em2 in C3. unfold bufs_only, lookup_only in *. subst s4. rewrite C3. by destruct s. }
  split; [by apply cview_set_inodes|]. split; [|by do 4 (split; [done|])].
  unfold s4. cbn [inodes set_inodes]. rewrite Hi3. cbn [inodes set_inodes s1]. by rewrite !list_insert_insert_eq.
Qed.

Lemma iunlock_eq s i ip : cview ROOTDEV p s V held lck -> inodes s !! i = Some ip -> used ip -> i_lock ip = owner s ->
  iunlock i s = Ret tt (set_inodes (<[i := set_i_lock (mkSleeplock false 0) ip]> (inodes s)) s).
Proof.
  intros [Hid _] Hi Hr Hl. unfold iunlock.
  rewrite (bind_Ret _ _ _ _ _ (holdingsleep_calm (SLinode i) s p (id_calm _ _ Hid) (idle_lk _ _ _ Hid))).
  cbn [sl_of]. rewrite (list_lookup_total_correct _ _ _ Hi), Hl. cbn [owner sl_locked sl_pid]. rewrite Z.eqb_refl.
  rewrite (bind_Ret _ _ _ _ _ (geti_eq _ _ _ Hi)). unfold used in Hr. destruct (Z.ltb_spec (i_ref ip) 1); [lia|]. cbn [negb andb orb].
  rewrite (releasesleep_calm (SLinode i) s p (id_calm _ _ Hid) (idle_lk _ _ _ Hid)). cbn [upd_sl]. by rewrite (alter_as_insert _ _ _ _ Hi).
Qed.

Lemma iput_eq s i ip : cview ROOTDEV p s V held lck -> inodes s !! i = Some ip -> (i_valid ip = true -> i_nlink ip <> 0) ->
  iput i s = Ret tt (set_inodes (<[i := set_i_ref (i_ref ip - 1) ip]> (inodes s)) s).
Proof.
  intros [Hid _] Hi Hn. unfold iput. rewrite (bind_Ret _ _ _ _ _ (acquire_eq LItable s (idle_lk _ _ _ Hid))). set (s1 := acquired LItable s).
  rewrite (bind_Ret _ _ _ _ _ (geti_eq i s1 ip Hi)).
  assert (Ew : (i_ref ip =? 1) && i_valid ip && (i_nlink ip =? 0) = false).
  { destruct (i_valid ip); [|by rewrite andb_false_r]. specialize (Hn eq_refl). destruct (Z.eqb_spec (i_nlink ip) 0); [done|]. apply andb_false_r. }
  rewrite Ew. cbn [when]. rewrite (bind_Ret _ _ s1 tt s1 eq_refl). rewrite (bind_Ret _ _ _ _ _ (modi_eq s1 i ip _ Hi)).
  change (inodes s1) with (inodes s).
  exact (critical_calm LItable (set_inodes _) s p (id_calm _ _ Hid) (idle_lk _ _ _ Hid) ltac:(done) eq_refl).
Qed.

(** A new entry for the same inode. *)
Lemma synced_slot lk lk' l i ip ip' n : synced lk l -> l !! i = Some ip -> refers ROOTDEV n ip ->
  i_dev ip' = ROOTDEV -> i_inum ip' = n -> 0 <= i_ref ip' -> (lk' <> Some i -> sl_locked (i_lock ip') = false) ->
  (forall j, j <> i -> lk = Some j -> lk' = Some j) -> (i_valid ip' = true -> same_file ip' (dnode n)) ->
  synced lk' (<[i := ip']> l) /\ (forall m, refs ROOTDEV m (<[i := ip']> l) = refs ROOTDEV m l + if decide (m = n) then i_ref ip' - i_ref ip else 0).
Proof.
  clear Hfuel. intros Hs Hi Hr Hd Hm Hr' Hl Hlk Hv. pose proof (sy_inv _ _ Hs) as Hinv.
  destruct (refs_insert ROOTDEV n l i ip ip' Hinv Hi) as [Hinv' Hrefs]; [by left|done|done|done|]. split.
  - eapply (synced_insert lk lk'); [done..|]. by rewrite Hm.
  - intros m. rewrite Hrefs. destruct (decide (m = n)) as [->|]; [|lia]. rewrite (refs_found _ _ _ _ _ Hinv Hi Hr). lia.
Qed.

Lemma iunlock_step s i ip n : cview ROOTDEV p s V held lck -> synced (Some i) (inodes s) -> inodes s !! i = Some ip -> refers ROOTDEV n ip ->
  i_lock ip = owner s -> (i_valid ip = true -> same_file ip (dnode n)) ->
  exists s', iunlock i s = Ret tt s' /\ lookup_only s s' /\ cview ROOTDEV p s' V held lck /\ synced None (inodes s') /\
    inodes s' = <[i := set_i_lock (mkSleeplock false 0) ip]> (inodes s) /\ forall m, refs ROOTDEV m (inodes s') = refs ROOTDEV m (inodes s).
Proof.
  intros Hv Hs Hi Hr Hl Hval. pose proof Hr as (Hu & Hd & Hm). eexists. split; [by apply iunlock_eq|].
  split; [apply set_inodes_lookup_only|]. split; [by apply cview_set_inodes|]. cbn [inodes set_inodes].
  destruct (synced_slot (Some i) None (inodes s) i ip (set_i_lock (mkSleeplock false 0) ip) n) as [Hs' Hrefs]; try done.
  - cbn. lia.
  - intros j Hne [= ->]. done.
  - split; [done|]. split; [done|]. intros m. rewrite Hrefs. cbn. destruct (decide (m = n)); lia.
Qed.

(** iput of an inode that has links. *)
Lemma iput_step s i ip n : cview ROOTDEV p s V held lck -> synced None (inodes s) -> inodes s !! i = Some ip -> refers ROOTDEV n ip ->
  i_nlink (dnode n) <> 0 ->
  exists s', iput i s = Ret tt s' /\ lookup_only s s' /\ cview ROOTDEV p s' V held lck /\ synced None (inodes s') /\
    inodes s' = <[i := set_i_ref (i_ref ip - 1) ip]> (inodes s) /\
    forall m, refs ROOTDEV m (inodes s') = refs ROOTDEV m (inodes s) - if decide (m = n) then 1 else 0.
Proof.
  intros Hv Hs Hi Hr Hn. pose proof Hr as (Hu & Hd & Hm).
  assert (Hsf : i_valid ip = true -> same_file ip (dnode n)) by (intros; rewrite <- Hm; by apply (sy_valid _ _ Hs i ip)).
  eexists. split; [apply iput_eq; [done|done|]; intros Hval; destruct (Hsf Hval) as (_ & -> & _); done|].
  split; [apply set_inodes_lookup_only|]. split; [by apply cview_set_inodes|]. cbn [inodes set_inodes].
  destruct (synced_slot None None (inodes s) i ip (set_i_ref (i_ref ip - 1) ip) n) as [Hs' Hrefs]; try done.
  - cbn. lia.
  - intros _. by apply (sy_lock _ _ Hs i ip).
  - split; [done|]. split; [done|]. intros m. rewrite Hrefs. cbn. destruct (decide (m = n)); lia.
Qed.

Lemma iunlockput_step s i ip n : cview ROOTDEV p s V held lck -> synced (Some i) (inodes s) -> inodes s !! i = Some ip -> refers ROOTDEV n ip ->
  i_lock ip = owner s -> (i_valid ip = true -> same_file ip (dnode n)) -> i_nlink (dnode n) <> 0 ->
  exists s', iunlockput i s = Ret tt s' /\ lookup_only s s' /\ cview ROOTDEV p s' V held lck /\ synced None (inodes s') /\
    (exists ip', inodes s' = <[i := ip']> (inodes s) /\ (1 < i_ref ip -> refers ROOTDEV n ip')) /\
    forall m, refs ROOTDEV m (inodes s') = refs ROOTDEV m (inodes s) - if decide (m = n) then 1 else 0.
Proof.
  intros Hv Hs Hi Hr Hl Hval Hn. destruct (iunlock_step s i ip n Hv Hs Hi Hr Hl Hval) as (s1 & E1 & C1 & Hv1 & Hs1 & Hl1 & Hr1).
  assert (Hi1 : inodes s1 !! i = Some (set_i_lock (mkSleeplock false 0) ip)).
  { rewrite Hl1. apply list_lookup_insert_eq. by eapply lookup_lt_Some. }
  destruct (iput_step s1 i _ n Hv1 Hs1 Hi1 Hr Hn) as (s2 & E2 & C2 & Hv2 & Hs2 & Hl2 & Hr2).
  exists s2. unfold iunlockput. rewrite (bind_Ret _ _ _ _ _ E1). split; [done|]. split; [by eapply lookup_only_trans|]. do 2 (split; [done|]).
  split; [|intros m; by rewrite Hr2, Hr1]. eexists. split; [by rewrite Hl2, Hl1, list_insert_insert_eq|].
  intros Hone. destruct Hr as (? & ? & ?). split; [cbn; lia|done].
Qed.

(** ** One element *)

Lemma dir_ok_same ip jp : same_file ip jp -> i_dev ip = i_dev jp -> dir_ok ROOTDEV held lck V jp -> dir_ok ROOTDEV held lck V ip.
Proof.
  intros (Ht & _ & Hz & Ha) Hd [[Fd Fs Fm Fl] Dt Ds]. split; [split|by rewrite Ht|by rewrite Hz].
  - by rewrite Hd.
  - by rewrite Hz.
  - intros k Hk Hlt. rewrite Hz in Hlt. specialize (Fm k Hk Hlt). unfold mapped, addr_of in *. by rewrite Ha.
  - done.
Qed.

Lemma entries_same ip jp : same_file ip jp -> entries V ip = entries V jp.
Proof.
  intros (_ & _ & Hz & Ha). unfold entries. rewrite Hz. apply list_fmap_ext. intros _ k _. unfold file_bytes.
  apply list_fmap_ext. intros _ j _. unfold file_byte, addr_of. by rewrite Ha.
Qed.

Lemma dirlookup_step P s i ip n name : tree P -> P n -> is_dir n = true -> cview ROOTDEV p s V held lck -> synced (Some i) (inodes s) ->
  inodes s !! i = Some ip -> refers ROOTDEV n ip -> same_file ip (dnode n) -> (0 < free_slots (inodes s))%nat ->
  match dir_find n (name_of name) with
  | None => exists s', dirlookup i name s = Ret None s' /\ lookup_only s s' /\ cview ROOTDEV p s' V held lck /\ inodes s' = inodes s
  | Some m => exists s' x k r, dirlookup i name s = Ret (Some (x, k)) s' /\ lookup_only s s' /\ cview ROOTDEV p s' V held lck /\
      synced (Some i) (inodes s') /\ cursor (inodes s) (inodes s') x m /\ i_ref ip <= r /\ inodes s' !! i = Some (set_i_ref r ip)
  end.
Proof.
  intros Ht Hn Hdir Hv Hs Hi Hr Hsf Hfree. pose proof Hr as (Hu & Hd & Hm).
  destruct (dirlookup_eq ROOTDEV p Hfuel s V held lck i ip name Hv (list_lookup_total_correct _ _ _ Hi)) as (s1 & C1 & Hv1 & Hl).
  { eapply dir_ok_same; [exact Hsf|by rewrite Hd|]. by apply (tr_dir _ Ht). }
  unfold dir_find, dir_lookup. rewrite (entries_same _ _ Hsf) in Hl.
  destruct (list_find (names (name_of name)) (entries V (dnode n))) as [[k de]|]; cbn [fmap option_fmap option_map compose snd looked_up] in *.
  2: { exists s1. split; [done|]. split; [by apply bufs_lookup_only|]. split; [done|]. by apply bufs_only_inodes. }
  destruct (bufs_only_inodes _ _ C1) as (Hi1 & _ & _). pose proof Hv1 as [Hid1 _].
  destruct (itable_get_synced (Some i) (inodes s) (de_inum de) Hs Hfree) as (x & l' & Eg & Hs' & Hc & Hkeep).
  { intros j [= <-]. by exists ip. }
  destruct (Hkeep i ip Hi Hu) as (r & Hle & Hir).
  assert (E : iget ROOTDEV (de_inum de) s1 = Ret x (set_inodes l' s1)).
  { rewrite (iget_eq p _ _ s1 (id_calm _ _ Hid1) (idle_lk _ _ _ Hid1)); rewrite Hi1; [by rewrite Eg|by apply Hs]. }
  exists (set_inodes l' s1), x, (DIRENT_SIZE * Z.of_nat (0 + k)), r. split; [by apply Hl|].
  split; [eapply lookup_only_trans; [by apply bufs_lookup_only|apply set_inodes_lookup_only]|]. split; [by apply cview_set_inodes|]. done.
Qed.

(** The tables before and after a step; [l0] is the table without the walk's own
    reference. *)
Definition walking (l0 : list inode) (s : kernel) (i : nat) (n : Z) : Prop :=
  cview ROOTDEV p s V held lck /\ sb s = sp /\ synced None (inodes s) /\ cursor l0 (inodes s) i n.
Definition walked (l0 : list inode) (s : kernel) : Prop :=
  cview ROOTDEV p s V held lck /\ sb s = sp /\ synced None (inodes s) /\ forall m, refs ROOTDEV m (inodes s) = refs ROOTDEV m l0.

Context (P : Z -> Prop) (Htree : tree P) (l0 : list inode) (Hl0 : synced None l0) (Hroom : (2 <= free_slots l0)%nat).

Lemma cursor_free lk l i n : synced lk l -> cursor l0 l i n -> (0 < free_slots l)%nat.
Proof.
  intros Hs [_ Hc]. pose proof (free_slots_cursor ROOTDEV l l0 n (sy_inv _ _ Hs) (sy_inv _ _ Hl0) (sy_dev _ _ Hs) (sy_dev _ _ Hl0)) as Hf.
  rewrite (sy_len _ _ Hs), (sy_len _ _ Hl0) in Hf. specialize (Hf eq_refl Hc). lia.
Qed.

(** ilock at the walk's inode: the counts stay, and the slot is this process's. *)
Lemma ilock_walking s i n : P n -> walking l0 s i n -> exists s' ip, ilock i s = Ret tt s' /\ lookup_only s s' /\
  cview ROOTDEV p s' V held lck /\ synced (Some i) (inodes s') /\ cursor l0 (inodes s') i n /\ inodes s' !! i = Some ip /\
  refers ROOTDEV n ip /\ i_valid ip = true /\ same_file ip (dnode n) /\ i_lock ip = owner s'.
Proof.
  intros Hn (Hv & Hsb & Hs & (ip & Hi & Hr) & Hc). pose proof Hr as (Hu & Hd & Hm).
  destruct (ilock_eq P s i ip n Htree Hn Hv Hsb Hs Hi Hr) as (s' & ip' & E & C & Hv' & Hl' & Hr' & Hd' & Hm' & Hval & Hsf & Hlk).
  assert (Hi' : inodes s' !! i = Some ip') by (rewrite Hl'; apply list_lookup_insert_eq; by eapply lookup_lt_Some).
  destruct (synced_slot None (Some i) (inodes s) i ip ip' n Hs Hi Hr Hd' Hm') as [Hs' Hrefs]; [lia|done|done|done|].
  assert (Hr2 : refers ROOTDEV n ip') by (split; [lia|done]).
  exists s', ip'. split; [done|]. split; [done|]. split; [done|]. split; [by rewrite Hl'|]. split.
  - split; [by exists ip'|]. intros m. rewrite Hl', Hrefs, Hc, Hr'. destruct (decide (m = n)); lia.
  - do 4 (split; [done|]). rewrite Hlk. unfold owner, pid_of. by rewrite (proj1 (proj2 (lookup_only_keeps _ _ C))).
Qed.

(** The result of a walk: the slot of the inode found, or nothing; with [parent]
    the name buffer has the last element. *)
Definition found (parent : bool) (n : Z) (names : list (list Z)) (s : kernel) (o : outcome kernel (option nat * list Z)) : Prop :=
  exists s' name', lookup_only s s' /\
  match path_walk is_dir dir_find parent n names with
  | Some m => exists x, o = Ret (Some x, name') s' /\ walking l0 s' x m /\ (parent = true -> Some (name_of name') = last names)
  | None => o = Ret (None, name') s' /\ walked l0 s'
  end.

(** A directory without the name, and an inode that is not a directory. *)
Lemma leave_step s s1 i n ip name : P n -> lookup_only s s1 -> sb s = sp -> cview ROOTDEV p s1 V held lck -> synced (Some i) (inodes s1) ->
  cursor l0 (inodes s1) i n -> inodes s1 !! i = Some ip -> refers ROOTDEV n ip -> same_file ip (dnode n) -> i_lock ip = owner s1 ->
  exists s', (iunlockput i;; ret (inr (None, name) : nat * list Z * list Z + option nat * list Z)) s1 = Ret (inr (None, name)) s' /\ lookup_only s s' /\ walked l0 s'.
Proof.
  intros Hn C Hsb Hv Hs [_ Hc] Hi Hr Hsf Hlk.
  destruct (iunlockput_step s1 i ip n Hv Hs Hi Hr Hlk) as (s' & E & C' & Hv' & Hs' & _ & Hrefs); [done|by apply (tr_link _ Htree)|].
  exists s'. rewrite (bind_Ret _ _ _ _ _ E). split; [done|]. assert (C2 : lookup_only s s') by (by eapply lookup_only_trans). split; [done|].
  split; [done|]. split; [by rewrite (proj1 (lookup_only_keeps _ _ C2))|]. split; [done|]. intros m. rewrite Hrefs, Hc. lia.
Qed.

Lemma namex_step parent s i n path name path' name' : P n -> walking l0 s i n -> skipelem path name = Some (path', name') -> Forall char path' ->
  exists s', lookup_only s s' /\
  if is_dir n then
    if parent && bool_decide (path' = []) then namex_body parent (i, path, name) s = Ret (inr (Some i, name')) s' /\ walking l0 s' i n
    else match dir_find n (name_of name') with
         | Some m => exists x, namex_body parent (i, path, name) s = Ret (inl (x, path', name')) s' /\ walking l0 s' x m
         | None => namex_body parent (i, path, name) s = Ret (inr (None, name')) s' /\ walked l0 s'
         end
  else namex_body parent (i, path, name) s = Ret (inr (None, name')) s' /\ walked l0 s'.
Proof.
  intros Hn Hw Hsk Hp. pose proof Hw as (_ & Hsb & _). unfold namex_body. rewrite Hsk.
  destruct (ilock_walking s i n Hn Hw) as (s1 & ip & E1 & C1 & Hv1 & Hs1 & Hc1 & Hi1 & Hr1 & _ & Hsf & Hlk).
  rewrite (bind_Ret _ _ _ _ _ E1), (bind_Ret _ _ _ _ _ (geti_eq _ _ _ Hi1)). rewrite (proj1 Hsf). fold (is_dir n).
  destruct (is_dir n) eqn:Hdir; cbn [negb].
  2: { destruct (leave_step s s1 i n ip name') as (s' & E & C & Hd); try done. by exists s'. }
  assert (Eh : (default 0 (head path') =? 0) = bool_decide (path' = [])).
  { destruct Hp as [|c q Hc _]; [done|]. unfold char in Hc. cbn. destruct (Z.eqb_spec c 0); [lia|done]. }
  rewrite Eh. destruct (parent && bool_decide (path' = [])).
  - destruct (iunlock_step s1 i ip n Hv1 Hs1 Hi1 Hr1 Hlk) as (s2 & E2 & C2 & Hv2 & Hs2 & Hl2 & Hr2); [done|].
    assert (C : lookup_only s s2) by (by eapply lookup_only_trans). exists s2. rewrite (bind_Ret _ _ _ _ _ E2). split; [done|]. split; [done|].
    split; [done|]. split; [by rewrite (proj1 (lookup_only_keeps _ _ C))|]. split; [done|]. split.
    + eexists. split; [rewrite Hl2; apply list_lookup_insert_eq; by eapply lookup_lt_Some|done].
    + intros m. rewrite Hr2. by apply Hc1.
  - pose proof (dirlookup_step P s1 i ip n name' Htree Hn Hdir Hv1 Hs1 Hi1 Hr1 Hsf (cursor_free _ _ _ _ Hs1 Hc1)) as Hd.
    destruct (dir_find n (name_of name')) as [m|].
    + destruct Hd as (s2 & x & k & r & E2 & C2 & Hv2 & Hs2 & [(xp & Hx & Hrx) Hcm] & Hle & Hi2). rewrite (bind_Ret _ _ _ _ _ E2).
      assert (Hr2 : refers ROOTDEV n (set_i_ref r ip)) by (destruct Hr1; split; [cbn; lia|done]).
      assert (Hlk2 : i_lock (set_i_ref r ip) = owner s2).
      { cbn. rewrite Hlk. unfold owner, pid_of. by rewrite (proj1 (proj2 (lookup_only_keeps _ _ C2))). }
      destruct (iunlockput_step s2 i _ n Hv2 Hs2 Hi2 Hr2 Hlk2) as (s3 & E3 & C3 & Hv3 & Hs3 & (ip3 & Hl3 & Hr3) & Hrefs);
        [done|by apply (tr_link _ Htree)|].
      assert (C : lookup_only s s3) by (eapply lookup_only_trans; [|done]; by eapply lookup_only_trans).
      exists s3. split; [done|]. exists x. rewrite (bind_Ret _ _ _ _ _ E3). split; [done|].
      split; [done|]. split; [by rewrite (proj1 (lookup_only_keeps _ _ C))|]. split; [done|].
      assert (Hall : forall q, refs ROOTDEV q (inodes s3) = refs ROOTDEV q l0 + if decide (q = m) then 1 else 0).
      { intros q. rewrite Hrefs, Hcm, (proj2 Hc1). destruct (decide (q = n)), (decide (q = m)); lia. }
      split; [|done]. destruct (decide (x = i)) as [->|Hne].
      * exists ip3. rewrite Hl3. split; [apply list_lookup_insert_eq; by eapply lookup_lt_Some|].
        assert (xp = set_i_ref r ip) as -> by congruence. assert (m = n) as -> by (destruct Hrx as (_ & _ & Hmx), Hr1 as (_ & _ & Hmn); cbn in Hmx; congruence).
        apply Hr3. specialize (Hcm n). rewrite decide_True in Hcm by done.
        rewrite (refs_found _ _ _ _ _ (sy_inv _ _ Hs2) Hi2 Hr2), (refs_found _ _ _ _ _ (sy_inv _ _ Hs1) Hi1 Hr1) in Hcm.
        destruct Hr1. cbn in *. lia.
      * exists xp. rewrite Hl3, list_lookup_insert_ne by done. done.
    + destruct Hd as (s2 & E2 & C2 & Hv2 & Hl2). rewrite (bind_Ret _ _ _ _ _ E2).
      destruct (leave_step s s2 i n ip name') as (s' & E & C & Hd); rewrite ?Hl2; try done.
      * by eapply lookup_only_trans.
      * rewrite Hlk. unfold owner, pid_of. by rewrite (proj1 (proj2 (lookup_only_keeps _ _ C2))).
      * by exists s'.
Qed.

Lemma namex_loop parent : forall f path name s i n, Forall char path -> length name = DIRSIZ -> P n -> walking l0 s i n -> (length path < f)%nat ->
  found parent n (elems path) s (iter f (namex_body parent) (i, path, name) s).
Proof.
  induction f as [|f IH]; intros path name s i n Hp Hnm Hn Hw Hf; [lia|].
  pose proof (skipelem_eq path name Hp Hnm) as Hsk. unfold found. destruct (elems path) as [|c rest] eqn:Ee.
  - cbn [path_walk]. destruct parent.
    + pose proof Hw as (Hv & Hsb & Hs & (ip & Hi & Hr) & Hc).
      destruct (iput_step s i ip n Hv Hs Hi Hr (tr_link _ Htree n Hn)) as (s' & E & C & Hv' & Hs' & _ & Hrefs).
      exists s', name. split; [done|]. split.
      * apply iter_exit. unfold namex_body. by rewrite Hsk, (bind_Ret _ _ _ _ _ E).
      * split; [done|]. split; [by rewrite (proj1 (lookup_only_keeps _ _ C))|]. split; [done|]. intros m. rewrite Hrefs, Hc. lia.
    + exists s, name. split; [apply lookup_only_refl|]. exists i. split; [|done].
      apply iter_exit. unfold namex_body. by rewrite Hsk.
  - destruct Hsk as (path' & name' & Esk & Hp' & Hnm' & Hc & Hrest & Hnil & Hlt). cbn [path_walk].
    destruct (namex_step parent s i n path name path' name' Hn Hw Esk Hp') as (s1 & C1 & Hb). rewrite Hc in Hb.
    rewrite <- (bool_decide_ext _ _ Hnil). destruct (is_dir n) eqn:Hdir.
    2: { destruct Hb as [E Hd]. exists s1, name'. split; [done|]. split; [by apply iter_exit|done]. }
    destruct (parent && bool_decide (path' = [])) eqn:Hlast.
    { destruct Hb as [E Hd]. exists s1, name'. split; [done|]. exists i. split; [by apply iter_exit|]. split; [done|]. intros _.
      apply andb_prop in Hlast as [_ ->%bool_decide_eq_true%Hnil]. by rewrite Hc. }
    destruct (dir_find n c) as [m|] eqn:Ef; cbn [mbind option_bind].
    2: { destruct Hb as [E Hd]. exists s1, name'. split; [done|]. split; [by apply iter_exit|done]. }
    destruct Hb as (x & E & Hw1). rewrite (iter_next _ _ _ _ _ _ E).
    destruct (IH path' name' s1 x m Hp' Hnm' (tr_closed _ Htree n c m Hn Hdir Ef) Hw1 ltac:(lia)) as (s2 & name2 & C2 & Hf2).
    exists s2, name2. split; [by eapply lookup_only_trans|]. rewrite Hrest in Hf2. destruct (path_walk is_dir dir_find parent m rest); [|done].
    destruct Hf2 as (y & ? & ? & Hl). exists y. split; [done|]. split; [done|]. intros ->. rewrite Hl by done.
    destruct rest; [|done]. apply andb_false_iff in Hlast as [?|Hl2]; [done|]. apply bool_decide_eq_false in Hl2. by rewrite Hnil in Hl2.
Qed.
End names.

(** Where a path starts: at the root, or at the current directory. *)
Definition starts (p : nat) (s : kernel) (path : list Z) (n : Z) : Prop :=
  if default 0 (head path) =? slash then n = ROOTINO
  else exists c ip, p_cwd (procs s !!! p) = Some c /\ inodes s !! c = Some ip /\ refers ROOTDEV n ip.

Lemma namex_start `{Fuel} `{DiskLaws} p s V held lck path n : cview ROOTDEV p s V held lck -> synced V (sb s) None (inodes s) ->
  (0 < free_slots (inodes s))%nat -> starts p s path n ->
  exists i s', (if default 0 (head path) =? slash then iget ROOTDEV ROOTINO
                else p <- curproc;; pr <- getp p;; c <- deref (p_cwd pr);; idup c) s = Ret i s' /\
    lookup_only s s' /\ walking p V held lck (sb s) (inodes s) s' i n.
Proof.
  intros Hv Hs Hfree Hst. pose proof Hv as [Hid _]. unfold starts in Hst. destruct (default 0 (head path) =? slash).
  - subst n. destruct (itable_get_synced V (sb s) None (inodes s) ROOTINO Hs Hfree) as (x & l' & Eg & Hs' & Hc & _); [done|].
    exists x, (set_inodes l' s). rewrite (iget_eq p _ _ s (id_calm _ _ Hid) (idle_lk _ _ _ Hid) (sy_len _ _ _ _ Hs)), Eg.
    split; [done|]. split; [apply set_inodes_lookup_only|]. split; [by apply cview_set_inodes|]. done.
  - destruct Hst as (c & ip & Hcwd & Hi & Hr). pose proof Hr as (Hu & Hd & Hm).
    rewrite (bind_Ret _ _ _ _ _ (curproc_calm _ _ (id_calm _ _ Hid))), (bind_Ret _ _ _ _ _ (eq_refl : getp p s = Ret (procs s !!! p) s)), Hcwd.
    rewrite (bind_Ret _ _ _ _ _ (eq_refl : deref (Some c) s = Ret c s)). unfold idup.
    rewrite (bind_Ret _ _ _ _ _ (acquire_eq LItable s (idle_lk _ _ _ Hid))). set (s1 := acquired LItable s).
    rewrite (bind_Ret _ _ _ _ _ (modi_eq s1 c ip _ Hi)). change (inodes s1) with (inodes s).
    pose proof (critical_calm LItable (set_inodes (<[c := set_i_ref (i_ref ip + 1) ip]> (inodes s))) s p (id_calm _ _ Hid) (idle_lk _ _ _ Hid) ltac:(done) eq_refl) as Ec.
    rewrite (bind_Ret _ _ _ _ _ Ec). eexists c, _. split; [done|]. split; [apply set_inodes_lookup_only|]. split; [by apply cview_set_inodes|].
    split; [done|]. cbn [inodes set_inodes].
    destruct (synced_slot V (sb s) None None (inodes s) c ip (set_i_ref (i_ref ip + 1) ip) n Hs Hi Hr) as [Hs' Hrefs]; try done.
    + cbn. lia.
    + intros _. by apply (sy_lock _ _ _ _ Hs c ip).
    + intros Hval. rewrite <- Hm. by apply (sy_valid _ _ _ _ Hs c ip).
    + split; [done|]. split; [|intros m; rewrite Hrefs; cbn; destruct (decide (m = n)); lia].
      eexists. split; [apply list_lookup_insert_eq; by eapply lookup_lt_Some|]. split; [cbn; lia|done].
Qed.

(** C5. namex is the walk through the tree of directories on the disk, whatever
    part of it the inode table caches: it starts at the root or at the current
    directory, takes the path's elements one by one, each cut at DIRSIZ characters,
    and finds nothing when an inode on the way is not a directory or has no such
    entry.  It returns the table entry of the inode it finds, and with nameiparent
    that of the directory of the last element, which it leaves in the name buffer.
    The inode found gets one reference; the counts of all others, and of all inodes
    when nothing is found, are as before; the table stays the cache of the disk;
    and nothing but the table and the buffer cache changes. *)
Theorem namex_resolves `{Fuel} `{DiskLaws} p s V held lck P path parent name n :
  (0 < fuel)%nat -> cview ROOTDEV p s V held lck -> tree V held lck (sb s) P -> synced V (sb s) None (inodes s) ->
  (2 <= free_slots (inodes s))%nat -> Forall char path -> length name = DIRSIZ -> starts p s path n -> P n ->
  exists s' name', lookup_only s s' /\ cview ROOTDEV p s' V held lck /\ synced V (sb s) None (inodes s') /\
  match path_walk (is_dir V (sb s)) (dir_find V (sb s)) parent n (elems path) with
  | Some m => exists x ip, namex path parent name s = Ret (Some x, name') s' /\ inodes s' !! x = Some ip /\ refers ROOTDEV m ip /\
      (forall k, refs ROOTDEV k (inodes s') = refs ROOTDEV k (inodes s) + if decide (k = m) then 1 else 0) /\
      (parent = true -> Some (name_of name') = last (elems path))
  | None => namex path parent name s = Ret (None, name') s' /\ forall k, refs ROOTDEV k (inodes s') = refs ROOTDEV k (inodes s)
  end.
Proof.
  intros Hf Hv Ht Hs Hfree Hp Hnm Hst Hn. destruct (namex_start p s V held lck path n Hv Hs ltac:(lia) Hst) as (i & s1 & E1 & C1 & Hw).
  pose proof (lookup_only_keeps _ _ C1) as (Hsb & _).
  destruct (namex_loop p Hf V held lck (sb s) P Ht (inodes s) Hs Hfree parent (S (length path)) path name s1 i n Hp Hnm Hn Hw ltac:(lia))
    as (s2 & name' & C2 & Hr).
  exists s2, name'. unfold namex. rewrite (bind_Ret _ _ _ _ _ E1). split; [by eapply lookup_only_trans|].
  destruct (path_walk _ _ parent n (elems path)) as [m|].
  - destruct Hr as (x & E & (Hv2 & _ & Hs2 & (ip & Hi & Hrf) & Hc) & Hl). split; [done|]. split; [done|]. by exists x, ip.
  - destruct Hr as (E & Hv2 & _ & Hs2 & Hc). done.
Qed.

(** A disk whose root directory, in block 46, has itself and the file foo, inode 2. *)
#[local] Existing Instances ex_fuel sync_disk sync_disk_laws.
Definition ex_foo_ip : inode := mkInode 1 2 1 sleeplock0 true T_FILE 0 0 1 0 (replicate 13 0).
Definition ex_inode_block : list Z :=
  write_dinode (write_dinode (replicate 1024 0) (dinode_off 1) ex_dir_ip) (dinode_off 2) ex_foo_ip.
Definition ex_root_block : list Z := make_dirent [46] 1 ++ make_dirent ex_name 2 ++ replicate 992 0.
Definition ex_tree_disk : gmap Z (list Z) := {[32 := ex_inode_block; 46 := ex_root_block]}.
Definition ex_tree : kernel := set_sb ex_sb (set_disk ex_tree_disk ex_cache).

Lemma ex_tree_block b : length (read_block ex_tree_disk b) = Z.to_nat BSIZE.
Proof.
  unfold read_block, ex_tree_disk. destruct (decide (b = 32)) as [->|]; [by vm_compute|]. rewrite lookup_insert_ne by done.
  destruct (decide (b = 46)) as [->|]; [by vm_compute|]. rewrite lookup_singleton_ne by done. apply length_replicate.
Qed.

Lemma ex_tree_ok : tree (read_block ex_tree_disk) ∅ ∅ ex_sb (fun n => n = 1 \/ n = 2).
Proof.
  assert (Hr : forall b, readable ∅ ∅ b).
  { intros b. split; [set_solver|]. split; [rewrite map_size_empty; apply Nat.ltb_lt; reflexivity|]. unfold cnt. by rewrite lookup_empty. }
  split.
  - intros n _. apply Hr.
  - intros n [->| ->]; by vm_compute.
  - intros n [->| ->]; by vm_compute.
  - intros n [->| ->]; [intros _|by vm_compute]. split; [split|by vm_compute|by vm_compute].
    + done.
    + by vm_compute.
    + intros k Hk Hlt. assert (k = 0) as ->.
      { change (i_size _) with 32 in Hlt. unfold BSIZE in Hlt. lia. }
      split; [by vm_compute|]. split; [by vm_compute|]. split; [apply Hr|]. by intros ?.
    + apply ex_tree_block.
  - intros n c m [->| ->] Hd; [|by vm_compute in Hd]. unfold dir_find, dir_lookup. intros Hf.
    apply fmap_Some in Hf as ([k de] & Hf & ->). apply list_find_Some in Hf as (Hk & _ & _).
    assert (Hall : Forall (fun de => de_inum de = 1 \/ de_inum de = 2) (entries (read_block ex_tree_disk) (dnode (read_block ex_tree_disk) ex_sb 1))).
    { apply (bool_decide_unpack _). by vm_compute. }
    exact (Forall_lookup_1 _ _ _ _ Hall Hk).
Qed.

Lemma ex_tree_synced : synced (read_block ex_tree_disk) ex_sb None (inodes ex_tree).
Proof.
  assert (E : inodes ex_tree = replicate NINODE inode0) by reflexivity. rewrite E. split.
  - apply length_replicate.
  - split; [|by apply Forall_replicate]. intros i j ip jp Hi Hj Hr. apply lookup_replicate in Hi as [-> _]. done.
  - by apply Forall_replicate.
  - intros i ip Hi _. by apply lookup_replicate in Hi as [-> _].
  - intros i ip Hi Hr. apply lookup_replicate in Hi as [-> _]. done.
Qed.

Lemma namex_resolves_witness : exists x ip name' s',
  namex [47; 102; 111; 111] false (replicate DIRSIZ 0) ex_tree = Ret (Some x, name') s' /\ inodes s' !! x = Some ip /\ i_inum ip = 2 /\ i_ref ip = 1.
Proof.
  destruct (namex_resolves 3 ex_tree (read_block ex_tree_disk) ∅ ∅ (fun n => n = 1 \/ n = 2) [47; 102; 111; 111] false (replicate DIRSIZ 0) 1)
    as (s' & name' & _ & _ & Hs & Hm).
  - apply Nat.ltb_lt. reflexivity.
  - apply cview_set_sb, ex_disk_cview.
  - apply ex_tree_ok.
  - apply ex_tree_synced.
  - apply Nat.leb_le. reflexivity.
  - repeat constructor.
  - reflexivity.
  - reflexivity.
  - left. reflexivity.
  - replace (path_walk _ _ false 1 (elems [47; 102; 111; 111])) with (Some 2) in Hm by (vm_compute; reflexivity).
    destruct Hm as (x & ip & E & Hi & Hr & Hc & _). exists x, ip, name', s'. split; [exact E|]. split; [exact Hi|]. split; [apply Hr|].
    specialize (Hc 2). rewrite (refs_found _ _ _ _ _ (sy_inv _ _ _ _ Hs) Hi Hr) in Hc. rewrite Hc. reflexivity.
Defined.
