(* ===== verification/Pipe.v ===== *)
(** kernel/pipe.c, but for pipealloc (see File.v, which allocates the file
    structures).  A pipe is a page of memory; its fields are at fixed offsets,
    after the 24 bytes of its spinlock. *)

From S2P Require Import Prelude Outcome Mem State Spinlock KString Kalloc Vm Proc.

Definition PIPESIZE : Z := 512.
Definition pi_data : Z := 24.
Definition pi_nread : Z := 536.
Definition pi_nwrite : Z := 540.
Definition pi_readopen : Z := 544.
Definition pi_writeopen : Z := 548.

Definition pipeclose (pi : Z) (writable : bool) : K unit :=
  acquire (LPipe pi);;
  (if writable then
     st32 (pi + pi_writeopen) 0;;
     wakeup (ChPipeRead pi)
   else
     st32 (pi + pi_readopen) 0;;
     wakeup (ChPipeWrite pi));;
  ro <- ld32 (pi + pi_readopen);;
  wo <- ld32 (pi + pi_writeopen);;
  if (ro =? 0) && (wo =? 0) then
    release (LPipe pi);;
    kfree pi
  else release (LPipe pi).

(** One turn of the write loop; the result is [None] for the early return. *)
Definition pipewrite_body (pi : Z) (pr : nat) (addr n i : Z) : K (Z + option Z) :=
  if negb (i <? n) then ret (inr (Some i)) else
  ro <- ld32 (pi + pi_readopen);;
  stop <- (if ro =? 0 then ret true else k <- killed pr;; ret (truthy k));;
  if stop : bool then release (LPipe pi);; ret (inr None) else
  nw <- ld32 (pi + pi_nwrite);;
  nr <- ld32 (pi + pi_nread);;
  if nw =? u32 (nr + PIPESIZE) then
    wakeup (ChPipeRead pi);;
    sleep (ChPipeWrite pi) (LPipe pi);;
    ret (inl i)
  else
    p <- getp pr;;
    '(bs, r) <- copyin (p_pagetable p) (u64 (addr + i)) 1;;
    if r =? -1 then ret (inr (Some i)) else
    st32 (pi + pi_nwrite) (nw + 1);;
    st8 (pi + pi_data + nw mod PIPESIZE) (default 0 (head bs));;
    ret (inl (i + 1)).

Section with_fuel.
Context `{Fuel}.

(** Fuel bounds the number of sleeps; every other turn writes a byte. *)
Definition pipewrite (pi addr n : Z) : K Z :=
  pr <- curproc;;
  acquire (LPipe pi);;
  r <- iter (S (fuel + Z.to_nat n)) (pipewrite_body pi pr addr n) 0;;
  match r with
  | None => ret (-1)
  | Some i =>
      wakeup (ChPipeRead pi);;
      release (LPipe pi);;
      ret i
  end.

(** Wait for data or for the last writer to leave; false when killed. *)
Definition piperead_wait (pi : Z) (pr : nat) : K bool :=
  iter fuel (fun _ : unit =>
    nr <- ld32 (pi + pi_nread);;
    nw <- ld32 (pi + pi_nwrite);;
    wo <- ld32 (pi + pi_writeopen);;
    if (nr =? nw) && truthy wo then
      k <- killed pr;;
      if truthy k then release (LPipe pi);; ret (inr false)
      else sleep (ChPipeRead pi) (LPipe pi);; ret (inl tt)
    else ret (inr true)) tt.

Definition piperead_body (pi : Z) (pr : nat) (addr n i : Z) : K (Z + Z) :=
  if negb (i <? n) then ret (inr i) else
  nr <- ld32 (pi + pi_nread);;
  nw <- ld32 (pi + pi_nwrite);;
  if nr =? nw then ret (inr i) else
  ch <- ld8 (pi + pi_data + nr mod PIPESIZE);;
  st32 (pi + pi_nread) (nr + 1);;
  p <- getp pr;;
  r <- copyout (p_pagetable p) (u64 (addr + i)) [ch];;
  if r =? -1 then ret (inr i) else ret (inl (i + 1)).

Definition piperead (pi addr n : Z) : K Z :=
  pr <- curproc;;
  acquire (LPipe pi);;
  ok <- piperead_wait pi pr;;
  if negb ok then ret (-1) else
  i <- iter (S (Z.to_nat n)) (piperead_body pi pr addr n) 0;;
  wakeup (ChPipeWrite pi);;
  release (LPipe pi);;
  ret i.
End with_fuel.
