(* ===== verification/PipeSpec.v ===== *)
(** Pipes as queues: the bytes of the ring buffer between nread and nwrite are
    a FIFO queue that pipewrite appends user bytes to and piperead takes them
    from. *)

From S2P Require Import Prelude Outcome Mem State Spinlock KString Kalloc Vm VmSpec UserMem Proc ProcSpec Sleeplock Calm Bytes Disk Bio BioSpec BioCheck VmCopy Pipe.

(** ** The queue in memory *)

Definition p_nread (m : memory) (pi : Z) : Z := load32 m (pi + pi_nread).
Definition p_nwrite (m : memory) (pi : Z) : Z := load32 m (pi + pi_nwrite).
Definition p_count (m : memory) (pi : Z) : Z := u32 (p_nwrite m pi - p_nread m pi).

(** The queue, oldest byte first; the counters wrap around at 2^32. *)
Definition pipe_q (m : memory) (pi : Z) : list Z :=
  (fun k => load8 m (pi + pi_data + (p_nread m pi + k) mod PIPESIZE)) <$> seqZ 0 (p_count m pi).

Definition pipe_ok (m : memory) (pi : Z) : Prop := p_count m pi <= PIPESIZE.

Lemma p_count_range m pi : 0 <= p_count m pi < 2 ^ 32.
Proof. apply u32_range. Qed.

Lemma length_pipe_q m pi : length (pipe_q m pi) = Z.to_nat (p_count m pi).
Proof. unfold pipe_q. by rewrite length_fmap, length_seqZ. Qed.

(** The test for a full pipe. *)
Lemma pipe_full m pi :
  pipe_ok m pi -> (p_nwrite m pi =? u32 (p_nread m pi + PIPESIZE)) = (p_count m pi =? PIPESIZE).
Proof.
  intros Hok. pose proof (load32_range m (pi + pi_nread)). pose proof (load32_range m (pi + pi_nwrite)).
  unfold pipe_ok, p_count, p_nwrite, p_nread, PIPESIZE, u32 in *.
  apply eq_true_iff_eq. rewrite !Z.eqb_eq.
  pose proof (Z.div_mod (load32 m (pi + pi_nwrite) - load32 m (pi + pi_nread)) (2 ^ 32)).
  pose proof (Z.div_mod (load32 m (pi + pi_nread) + 512) (2 ^ 32)).
  pose proof (Z.mod_pos_bound (load32 m (pi + pi_nwrite) - load32 m (pi + pi_nread)) (2 ^ 32)).
  pose proof (Z.mod_pos_bound (load32 m (pi + pi_nread) + 512) (2 ^ 32)). nia.
Qed.

Lemma pipe_empty m pi : (p_nread m pi =? p_nwrite m pi) = (p_count m pi =? 0).
Proof.
  pose proof (load32_range m (pi + pi_nread)). pose proof (load32_range m (pi + pi_nwrite)).
  unfold p_count, p_nwrite, p_nread, u32 in *.
  apply eq_true_iff_eq. rewrite !Z.eqb_eq.
  revert H H0. generalize (load32 m (pi + pi_nread)) (load32 m (pi + pi_nwrite)). intros a b Ha Hb.
  Z.to_euclidean_division_equations. lia.
Qed.

Lemma load32_store32_out m a v b :
  b + 4 <= a \/ a + 4 <= b -> load32 (store32 m a v) b = load32 m b.
Proof. intros. apply load_store_le_out. simpl. lia. Qed.
Lemma load32_store8_out m a v b : a < b \/ b + 4 <= a -> load32 (store8 m a v) b = load32 m b.
Proof. intros. apply load_le_store8_out. simpl. lia. Qed.

(** The stores of one write and of one read. *)
Definition enq (m : memory) (pi ch : Z) : memory :=
  store8 (store32 m (pi + pi_nwrite) (p_nwrite m pi + 1)) (pi + pi_data + p_nwrite m pi mod PIPESIZE) ch.
Definition deq (m : memory) (pi : Z) : memory := store32 m (pi + pi_nread) (p_nread m pi + 1).

Lemma ring_index a : 0 <= a mod PIPESIZE < PIPESIZE.
Proof. apply Z.mod_pos_bound. done. Qed.

Lemma enq_fields m pi ch :
  p_nread (enq m pi ch) pi = p_nread m pi /\ p_nwrite (enq m pi ch) pi = u32 (p_nwrite m pi + 1) /\
  load32 (enq m pi ch) (pi + pi_readopen) = load32 m (pi + pi_readopen) /\
  load32 (enq m pi ch) (pi + pi_writeopen) = load32 m (pi + pi_writeopen).
Proof.
  pose proof (ring_index (p_nwrite m pi)).
  unfold enq, p_nread, p_nwrite, pi_nread, pi_nwrite, pi_data, pi_readopen, pi_writeopen, PIPESIZE in *.
  rewrite !load32_store8_out by lia. rewrite load32_store32_eq. by rewrite !load32_store32_out by lia.
Qed.

Lemma deq_fields m pi :
  p_nread (deq m pi) pi = u32 (p_nread m pi + 1) /\ p_nwrite (deq m pi) pi = p_nwrite m pi /\
  load32 (deq m pi) (pi + pi_readopen) = load32 m (pi + pi_readopen) /\
  load32 (deq m pi) (pi + pi_writeopen) = load32 m (pi + pi_writeopen).
Proof.
  unfold deq, p_nread, p_nwrite, pi_nread, pi_nwrite, pi_readopen, pi_writeopen in *.
  rewrite load32_store32_eq. by rewrite !load32_store32_out by lia.
Qed.

Lemma u32_sub_add a b : u32 (u32 (a + 1) - b) = u32 (a - b + 1) .
Proof. unfold u32. rewrite Zminus_mod_idemp_l. f_equal. lia. Qed.
Lemma u32_sub_sub a b : u32 (a - u32 (b + 1)) = u32 (a - b - 1).
Proof. unfold u32. rewrite Zminus_mod_idemp_r. f_equal. lia. Qed.

Lemma u32_add_small x d : 0 <= u32 x + d < 2 ^ 32 -> u32 (x + d) = u32 x + d.
Proof. unfold u32. intros Hx. rewrite <- (Z.mod_small (x mod 2 ^ 32 + d) (2 ^ 32)) by lia. by rewrite Zplus_mod_idemp_l. Qed.

Lemma mod_u32_pipesize a : u32 a mod PIPESIZE = a mod PIPESIZE.
Proof.
  symmetry. apply Znumtheory.Zmod_div_mod; [done|done|]. by exists (2 ^ 23).
Qed.

Lemma nwrite_index m pi : p_nwrite m pi mod PIPESIZE = (p_nread m pi + p_count m pi) mod PIPESIZE.
Proof.
  rewrite <- (mod_u32_pipesize (p_nread m pi + p_count m pi)). unfold p_count.
  replace (u32 (p_nread m pi + u32 (p_nwrite m pi - p_nread m pi))) with (p_nwrite m pi); [done|].
  unfold u32. rewrite Zplus_mod_idemp_r. replace (p_nread m pi + (p_nwrite m pi - p_nread m pi)) with (p_nwrite m pi) by lia.
  symmetry. apply Z.mod_small, load32_range.
Qed.

Lemma ring_index_ne a k k' :
  0 <= k < k' -> k' < PIPESIZE -> (a + k) mod PIPESIZE <> (a + k') mod PIPESIZE.
Proof. unfold PIPESIZE. intros. Z.to_euclidean_division_equations. lia. Qed.

(** Writing a byte to a pipe with room appends it to the queue. *)
Lemma enq_queue m pi ch :
  p_count m pi < PIPESIZE -> 0 <= ch < 2 ^ 8 ->
  pipe_q (enq m pi ch) pi = pipe_q m pi ++ [ch] /\ p_count (enq m pi ch) pi = p_count m pi + 1.
Proof.
  intros Hc Hch. destruct (enq_fields m pi ch) as (Er & Ew & _).
  pose proof (p_count_range m pi) as Hr.
  assert (Ec : p_count (enq m pi ch) pi = p_count m pi + 1).
  { unfold p_count at 1. rewrite Er, Ew, u32_sub_add. unfold PIPESIZE in Hc. apply u32_add_small.
    fold (p_count m pi). lia. }
  split; [|done]. unfold pipe_q. rewrite Ec, Er.
  rewrite (seqZ_app 0 (p_count m pi) 1) by lia. rewrite fmap_app. f_equal.
  - apply list_fmap_ext. intros k x Hx. apply lookup_seqZ in Hx as [-> Hk]. unfold enq. rewrite nwrite_index.
    pose proof (ring_index_ne (p_nread m pi) (0 + Z.of_nat k) (p_count m pi)).
    pose proof (ring_index (p_nread m pi + (0 + Z.of_nat k))). pose proof (ring_index (p_nread m pi + p_count m pi)).
    rewrite load8_store8_ne by lia. apply load8_store_le_out. unfold pi_data, pi_nwrite, PIPESIZE in *. lia.
  - change (seqZ (0 + p_count m pi) 1) with [0 + p_count m pi]. cbn [fmap list_fmap]. f_equal.
    unfold enq. rewrite nwrite_index, Z.add_0_l, load8_store8_eq. by apply u8_small.
Qed.

(** Reading a byte takes the oldest one. *)
Lemma deq_queue m pi :
  0 < p_count m pi ->
  pipe_q m pi = load8 m (pi + pi_data + p_nread m pi mod PIPESIZE) :: pipe_q (deq m pi) pi /\
  p_count (deq m pi) pi = p_count m pi - 1.
Proof.
  intros Hc. destruct (deq_fields m pi) as (Er & Ew & _). pose proof (p_count_range m pi) as Hr.
  assert (Ec : p_count (deq m pi) pi = p_count m pi - 1).
  { unfold p_count at 1. rewrite Er, Ew, u32_sub_sub. apply (u32_add_small _ (-1)). fold (p_count m pi). lia. }
  split; [|done]. unfold pipe_q. rewrite Ec, Er.
  rewrite (seqZ_cons 0 (p_count m pi)) by lia. cbn [fmap list_fmap]. rewrite Z.add_0_r. f_equal.
  replace (Z.pred (p_count m pi)) with (p_count m pi - 1) by lia.
  rewrite <- (fmap_add_seqZ 1 0). rewrite <- list_fmap_compose. apply list_fmap_ext.
  intros k x Hx. cbn. apply lookup_seqZ in Hx as [-> Hk].
  rewrite <- (mod_u32_pipesize (u32 _ + _)).
  replace (u32 (u32 (p_nread m pi + 1) + (0 + Z.of_nat k))) with (u32 (p_nread m pi + (1 + (0 + Z.of_nat k)))).
  - rewrite mod_u32_pipesize. symmetry. apply load8_store_le_out.
    pose proof (ring_index (p_nread m pi + (1 + (0 + Z.of_nat k)))). unfold pi_data, pi_nread, PIPESIZE in *. lia.
  - unfold u32. rewrite Zplus_mod_idemp_l. f_equal. lia.
Qed.

(** ** The pipe beside the user's memory *)

Definition same_outside (pi : Z) (m m' : memory) : Prop :=
  forall a, ~ (pi <= a < pi + PGSIZE) -> load8 m' a = load8 m a.

(** The pipe's page is neither a page-table page nor a user page. *)
Record pipe_sep (m : memory) (t : ptree) (pi : Z) : Prop := {
  ps_aligned : aligned pi;
  ps_table : forall k, t !! k <> Some pi;
  ps_user : forall va, 0 <= va < MAXVA -> upage m t va <> pi
}.

Section frame.
Context (im : image) (m m' : memory) (root : Z) (t : ptree) (pi : Z).
Context (Hrep : pt_rep im m root t) (Hps : pipe_sep m t pi) (Hout : same_outside pi m m').

Lemma frame_word k q i : t !! k = Some q -> idx_ok i -> load64 m' (q + 8 * i) = load64 m (q + 8 * i).
Proof.
  intros Hq Hi. apply load64_ext. intros b Hb. apply Hout. unfold idx_ok in Hi.
  assert (Hne : q <> pi) by (intros ->; by apply (ps_table _ _ _ Hps k)).
  pose proof (ptr_page _ _ _ _ Hrep _ _ Hq) as [Hqa _].
  intros Hin. apply (aligned_disjoint q pi (b - q) (b - pi) Hqa (ps_aligned _ _ _ Hps) Hne); unfold PGSIZE in *; lia.
Qed.

Lemma frame_leafword va : leafword m' t va = leafword m t va.
Proof.
  unfold leafword. destruct (t !! vapath va) as [q|] eqn:Hq; [|done]. apply (frame_word _ _ _ Hq), PX_idx. lia.
Qed.

Lemma frame_upage va : upage m' t va = upage m t va.
Proof. unfold upage. by rewrite frame_leafword. Qed.

Lemma frame_ubyte va : 0 <= va -> ubyte m' t va = ubyte m t va.
Proof.
  intros Hva. unfold ubyte. rewrite frame_upage. destruct (Z.leb_spec MAXVA va); [done|].
  destruct (_ =? 0); [done|]. f_equal. apply Hout. destruct (page_split va Hva) as [_ Ho]. intros Hin.
  destruct (PGROUNDDOWN_range va Hva) as [Hpg _].
  apply (aligned_disjoint (upage m t (PGROUNDDOWN va)) pi (va mod PGSIZE)
    (upage m t (PGROUNDDOWN va) + va mod PGSIZE - pi) (upage_aligned m t _) (ps_aligned _ _ _ Hps)
    (ps_user _ _ _ Hps (PGROUNDDOWN va) ltac:(lia)) Ho); lia.
Qed.

Lemma frame_rep : pt_rep im m' root t.
Proof. split; try apply Hrep. intros k q i Hk Hlen Hi. rewrite (frame_word _ _ _ Hk Hi). by apply Hrep. Qed.

Lemma frame_pipe_sep : pipe_sep m' t pi.
Proof. split; try apply Hps. intros va Hva. rewrite frame_upage. by apply Hps. Qed.

Lemma frame_user_sep : user_sep m t -> user_sep m' t.
Proof.
  intros Hs. split.
  - intros va k. rewrite frame_upage. apply Hs.
  - intros va1 va2. rewrite !frame_upage. apply Hs.
  - intros va. rewrite frame_upage, frame_leafword. apply Hs.
Qed.
End frame.

Lemma enq_outside m pi ch : same_outside pi m (enq m pi ch).
Proof.
  intros a Ha. pose proof (ring_index (p_nwrite m pi)). unfold enq, pi_data, pi_nwrite, PIPESIZE, PGSIZE in *.
  rewrite load8_store8_ne by lia. apply load8_store_le_out. simpl. lia.
Qed.

Lemma deq_outside m pi : same_outside pi m (deq m pi).
Proof. intros a Ha. unfold deq, pi_nread, PGSIZE in *. apply load8_store_le_out. simpl. lia. Qed.

Lemma same_outside_trans pi m1 m2 m3 : same_outside pi m1 m2 -> same_outside pi m2 m3 -> same_outside pi m1 m3.
Proof. intros H1 H2 a Ha. by rewrite H2, H1. Qed.

(** ** pipewrite *)

Lemma killed_calm i s p : calm s p -> killed i s = Ret (p_killed (procs s !!! i)) s.
Proof.
  intros Hc. unfold killed. pose proof (cm_plocks _ _ Hc i) as Hl.
  rewrite (bind_Ret _ _ _ _ _ (acquire_eq _ s Hl)). unfold bind at 1, getp, gets. cbn [obind].
  by rewrite (bind_Ret _ _ _ _ _ (critical_calm (LProc i) (fun s => s) s p Hc Hl ltac:(done) eq_refl)).
Qed.

Section pipe.
Context `{Fuel} (p : nat) (root : Z) (t : ptree) (pi : Z).

(** Process [p], alive, runs with page table [t] beside the pipe. *)
Record pipe_ctx (s : kernel) : Prop := {
  pc_idle : idle s p;
  pc_img : image_ok (img s);
  pc_root : p_pagetable (procs s !!! p) = root;
  pc_alive : p_killed (procs s !!! p) = 0
}.

(** The memory of a pipe context. *)
Record pipe_mem (im : image) (m : memory) : Prop := {
  pm_rep : pt_rep im m root t;
  pm_sep : user_sep m t;
  pm_pipe : pipe_sep m t pi;
  pm_ok : pipe_ok m pi
}.

(** The state inside the critical section with memory [m]. *)
Definition inside (s : kernel) (m : memory) : kernel := set_mem m (acquired (LPipe pi) s).

Lemma inside_calm s m : pipe_ctx s -> calm (inside s m) p.
Proof.
  intros Hc. apply (calm_blind (set_mem m)); [done|done|]. apply calm_acquired; [done|]. apply Hc.
Qed.

Lemma inside_release s m : pipe_ctx s -> release (LPipe pi) (inside s m) = Ret tt (set_mem m s).
Proof.
  intros Hc. destruct (pc_idle _ Hc) as [Hcalm _].
  exact (critical_calm (LPipe pi) (set_mem m) s p Hcalm (idle_lk _ _ _ (pc_idle _ Hc)) ltac:(done) eq_refl).
Qed.

Lemma enq_mem im m ch : pipe_mem im m -> p_count m pi < PIPESIZE -> 0 <= ch < 2 ^ 8 -> pipe_mem im (enq m pi ch).
Proof.
  intros [Hr Hs Hp Ho] Hc Hch. pose proof (enq_outside m pi ch) as Hout. split.
  - by eapply frame_rep.
  - by eapply frame_user_sep.
  - by eapply frame_pipe_sep.
  - unfold pipe_ok. destruct (enq_queue m pi ch Hc Hch) as [_ ->]. lia.
Qed.

Lemma ubyte_range m va b : ubyte m t va = Some b -> 0 <= b < 2 ^ 8.
Proof.
  unfold ubyte. destruct (MAXVA <=? va); [done|]. destruct (_ =? 0); [done|]. intros [= <-]. apply load8_range.
Qed.

(** One turn of pipewrite. *)
Lemma pipewrite_turn s m addr n i :
  pipe_ctx s -> pipe_mem (img s) m -> load32 m (pi + pi_readopen) <> 0 ->
  p_count m pi < PIPESIZE -> 0 <= i < n -> 0 <= addr -> addr + n < 2 ^ 64 ->
  pipewrite_body pi p addr n i (inside s m) =
  match ubyte m t (addr + i) with
  | Some ch => Ret (inl (i + 1)) (inside s (enq m pi ch))
  | None => Ret (inr (Some i)) (inside s m)
  end.
Proof.
  intros Hc Hm Hro Hcnt Hi Ha Han. unfold pipewrite_body.
  destruct (Z.ltb_spec i n); [|lia]. cbn [negb].
  unfold bind at 1, ld32, gets. cbn [obind]. change (mem (inside s m)) with m.
  destruct (Z.eqb_spec (load32 m (pi + pi_readopen)) 0); [done|].
  assert (Hk : (k <- killed p;; ret (truthy k)) (inside s m) = Ret false (inside s m)).
  { rewrite (bind_Ret _ _ _ _ _ (killed_calm p _ p (inside_calm s m Hc))).
    change (procs (inside s m)) with (procs s). by rewrite (pc_alive _ Hc). }
  rewrite (bind_Ret _ _ _ _ _ Hk). unfold bind at 1. cbn [obind]. unfold bind at 1. cbn [obind].
  change (mem (inside s m)) with m. fold (p_nwrite m pi) (p_nread m pi).
  rewrite pipe_full by apply Hm. destruct (Z.eqb_spec (p_count m pi) PIPESIZE); [lia|].
  unfold bind at 1, getp, gets. cbn [obind]. change (procs (inside s m)) with (procs s). rewrite (pc_root _ Hc).
  rewrite u64_small by lia.
  destruct (copyin_one (inside s m) root t (addr + i)) as [bs E];
    [apply Hc|apply Hm|lia|]. change (mem (inside s m)) with m in E.
  destruct (ubyte m t (addr + i)) as [ch|] eqn:Eu; rewrite (bind_Ret _ _ _ _ _ E).
  - cbn. by destruct s.
  - done.
Qed.

(** The readable bytes from [va], at most [n]. *)
Fixpoint uprefix (m : memory) (va : Z) (n : nat) : list Z :=
  match n with
  | O => []
  | S n' => match ubyte m t va with Some b => b :: uprefix m (va + 1) n' | None => [] end
  end.

Lemma uprefix_frame im m m' n : forall va,
  pt_rep im m root t -> pipe_sep m t pi -> same_outside pi m m' -> 0 <= va -> uprefix m' va n = uprefix m va n.
Proof.
  induction n as [|n IH]; intros va Hr Hp Ho Hva; [done|]. cbn [uprefix].
  rewrite (frame_ubyte im m m' root t pi Hr Hp Ho va Hva). destruct (ubyte m t va); [|done].
  by rewrite (IH (va + 1)) by (done || lia).
Qed.

Lemma length_uprefix m n : forall va, (length (uprefix m va n) <= n)%nat.
Proof. induction n as [|n IH]; intros va; simpl; [lia|]. destruct (ubyte m t va); simpl; [|lia]. specialize (IH (va + 1)). lia. Qed.

(** The loop of pipewrite while there is room. *)
Lemma pipewrite_loop s addr n k : forall f i m,
  pipe_ctx s -> pipe_mem (img s) m -> load32 m (pi + pi_readopen) <> 0 ->
  p_count m pi + Z.of_nat k <= PIPESIZE -> 0 <= i -> i + Z.of_nat k = n -> 0 <= addr -> addr + n < 2 ^ 64 ->
  (k < f)%nat ->
  let bs := uprefix m (addr + i) k in
  exists m', iter f (pipewrite_body pi p addr n) i (inside s m) =
      Ret (Some (i + Z.of_nat (length bs))) (inside s m') /\
    pipe_q m' pi = pipe_q m pi ++ bs /\ same_outside pi m m' /\ pipe_mem (img s) m'.
Proof.
  induction k as [|k IH]; intros f i m Hc Hm Hro Hcnt Hi Hn Ha Han Hf; (destruct f as [|f]; [lia|]).
  - exists m. cbn. rewrite Z.add_0_r, app_nil_r. split; [|done]. apply iter_exit. unfold pipewrite_body.
    destruct (Z.ltb_spec i n); [lia|done].
  - pose proof (pipewrite_turn s m addr n i Hc Hm Hro ltac:(lia) ltac:(lia) Ha Han) as Et.
    cbn [uprefix]. destruct (ubyte m t (addr + i)) as [ch|] eqn:Eu.
    + rewrite (iter_next _ _ _ _ _ _ Et). pose proof (ubyte_range _ _ _ Eu) as Hch.
      destruct (enq_queue m pi ch) as [Hq Hcn]; [unfold PIPESIZE in *; lia|done|].
      destruct (enq_fields m pi ch) as (_ & _ & Ero & _).
      destruct (IH f (i + 1) (enq m pi ch)) as (m' & E & Hq' & Ho & Hm');
        [done|apply enq_mem; [done|unfold PIPESIZE in *; lia|done]|by rewrite Ero|rewrite Hcn; lia|lia|lia|done|done|lia|].
      rewrite (uprefix_frame (img s) m) in E, Hq' by (apply Hm || apply enq_outside || lia).
      replace (addr + (i + 1)) with (addr + i + 1) in E, Hq' by lia.
      exists m'. cbn [length]. split; [|split; [|split]].
      * rewrite E. do 2 f_equal. lia.
      * by rewrite Hq', Hq, <- app_assoc.
      * eapply same_outside_trans; [apply enq_outside|exact Ho].
      * done.
    + exists m. cbn. rewrite Z.add_0_r, app_nil_r. split; [|done]. apply iter_exit. exact Et.
Qed.

Lemma pipewrite_eq s addr n :
  pipe_ctx s -> pipe_mem (img s) (mem s) -> load32 (mem s) (pi + pi_readopen) <> 0 ->
  0 <= n -> p_count (mem s) pi + n <= PIPESIZE -> 0 <= addr -> addr + n < 2 ^ 64 ->
  let bs := uprefix (mem s) addr (Z.to_nat n) in
  exists m', pipewrite pi addr n s = Ret (Z.of_nat (length bs)) (set_mem m' s) /\
    pipe_q m' pi = pipe_q (mem s) pi ++ bs /\ same_outside pi (mem s) m' /\ pipe_mem (img s) m'.
Proof.
  intros Hc Hm Hro Hn Hcnt Ha Han bs. pose proof (id_calm _ _ (pc_idle _ Hc)) as Hcalm. unfold pipewrite.
  rewrite (bind_Ret _ _ _ _ _ (curproc_calm s p Hcalm)).
  rewrite (bind_Ret _ _ _ _ _ (acquire_eq (LPipe pi) s (idle_lk _ _ _ (pc_idle _ Hc)))).
  assert (E1 : acquired (LPipe pi) s = inside s (mem s)) by (by destruct s). rewrite E1.
  destruct (pipewrite_loop s addr n (Z.to_nat n) (S (fuel + Z.to_nat n)) 0 (mem s)) as (m' & E & Hq & Ho & Hm'); try done; try lia.
  rewrite Z.add_0_r in E, Hq. fold bs in E, Hq. exists m'. split; [|done].
  rewrite (bind_Ret _ _ _ _ _ E). rewrite (bind_Ret _ _ _ _ _ (wakeup_calm _ _ p (inside_calm s m' Hc))).
  rewrite (bind_Ret _ _ _ _ _ (inside_release s m' Hc)). done.
Qed.

(** A pipe nobody reads. *)
Lemma pipewrite_closed s addr n :
  pipe_ctx s -> load32 (mem s) (pi + pi_readopen) = 0 -> 0 < n -> pipewrite pi addr n s = Ret (-1) s.
Proof.
  intros Hc Hro Hn. pose proof (id_calm _ _ (pc_idle _ Hc)) as Hcalm. unfold pipewrite.
  rewrite (bind_Ret _ _ _ _ _ (curproc_calm s p Hcalm)).
  rewrite (bind_Ret _ _ _ _ _ (acquire_eq (LPipe pi) s (idle_lk _ _ _ (pc_idle _ Hc)))).
  assert (E1 : acquired (LPipe pi) s = inside s (mem s)) by (by destruct s). rewrite E1.
  assert (Eb : pipewrite_body pi p addr n 0 (inside s (mem s)) = Ret (inr None) s).
  { unfold pipewrite_body. destruct (Z.ltb_spec 0 n); [|lia]. cbn [negb].
    unfold bind at 1, ld32, gets. cbn [obind]. change (mem (inside s (mem s))) with (mem s). rewrite Hro.
    change (0 =? 0) with true. unfold bind at 1, ret at 1. cbn [obind].
    rewrite (bind_Ret _ _ _ _ _ (inside_release s (mem s) Hc)). by destruct s. }
  by rewrite (bind_Ret _ _ _ _ _ (iter_exit _ _ _ _ _ _ Eb)).
Qed.

(** ** piperead *)

(** How many of the [n] bytes from [va] the user may write, without a gap. *)
Fixpoint wprefix (m : memory) (va : Z) (n : nat) : nat :=
  match n with
  | O => O
  | S n' => if uwritable m t va then S (wprefix m (va + 1) n') else O
  end.

Lemma wprefix_ext m m' n : forall va,
  (forall va', leafword m' t va' = leafword m t va') -> wprefix m' va n = wprefix m va n.
Proof.
  induction n as [|n IH]; intros va Hl; [done|]. cbn [wprefix]. unfold uwritable. rewrite Hl.
  by rewrite (IH (va + 1) Hl).
Qed.

Lemma wprefix_le m n : forall va, (wprefix m va n <= n)%nat.
Proof. induction n as [|n IH]; intros va; simpl; [lia|]. destruct (uwritable m t va); [|lia]. specialize (IH (va + 1)). lia. Qed.

Lemma deq_mem im m : pipe_mem im m -> 0 < p_count m pi -> pipe_mem im (deq m pi).
Proof.
  intros [Hr Hs Hp Ho] Hc. pose proof (deq_outside m pi) as Hout. split.
  - by eapply frame_rep.
  - by eapply frame_user_sep.
  - by eapply frame_pipe_sep.
  - unfold pipe_ok in *. destruct (deq_queue m pi Hc) as [_ ->]. lia.
Qed.

(** A store to user memory leaves the pipe's page alone. *)
Section ustore_pipe.
Variables (s : kernel) (va b : Z).
Hypothesis Hm : pipe_mem (img s) (mem s).
Hypothesis Hva : 0 <= va.
Hypothesis Hw : uwritable (mem s) t va = true.
Hypothesis Hb : 0 <= b < 2 ^ 8.

Let m' := ustore_mem s t va [b].

Lemma ustore_pipe_load8 a : pi <= a < pi + PGSIZE -> load8 m' a = load8 (mem s) a.
Proof.
  intros Ha. unfold m', ustore_mem. apply load8_store_bytes_out.
  destruct (page_split va Hva) as [_ Ho]. pose proof (upage_aligned (mem s) t (PGROUNDDOWN va)) as Hal.
  destruct (PGROUNDDOWN_range va Hva) as [Hpg _].
  destruct (uwritable_page _ _ _ Hva (pm_sep _ _ Hm) Hw) as (HM & _ & _).
  pose proof (aligned_disjoint (upage (mem s) t (PGROUNDDOWN va)) pi (va mod PGSIZE) (a - pi) Hal
    (ps_aligned _ _ _ (pm_pipe _ _ Hm)) (ps_user _ _ _ (pm_pipe _ _ Hm) (PGROUNDDOWN va) ltac:(lia)) Ho ltac:(lia)). simpl. lia.
Qed.

Lemma ustore_pipe_load32 o : 0 <= o -> o + 4 <= PGSIZE -> load32 m' (pi + o) = load32 (mem s) (pi + o).
Proof. intros Ho1 Ho2. apply load_le_ext. intros a Ha. apply ustore_pipe_load8. simpl in Ha. lia. Qed.

Lemma ustore_pipe_q : pipe_q m' pi = pipe_q (mem s) pi /\ p_count m' pi = p_count (mem s) pi.
Proof.
  assert (Er : p_nread m' pi = p_nread (mem s) pi) by (by apply ustore_pipe_load32).
  assert (Ew : p_nwrite m' pi = p_nwrite (mem s) pi) by (by apply ustore_pipe_load32).
  assert (Ec : p_count m' pi = p_count (mem s) pi) by (unfold p_count; by rewrite Er, Ew).
  split; [|done]. unfold pipe_q. rewrite Ec, Er. apply list_fmap_ext. intros k x Hx.
  apply ustore_pipe_load8. pose proof (ring_index (p_nread (mem s) pi + x)). unfold PIPESIZE, PGSIZE, pi_data in *. lia.
Qed.

Lemma ustore_pipe_mem : pipe_mem (img s) m' /\ uwritten (mem s) t va [b] m'.
Proof.
  destruct Hm as [Hr Hs Hp Ho]. destruct (uwritable_page _ _ _ Hva Hs Hw) as (HM & _ & Hnz).
  assert (Hby : Forall (fun x => 0 <= x < 2 ^ 8) [b]) by (by apply Forall_singleton).
  destruct (page_split va Hva) as [_ Hof].
  assert (Hfit : va mod PGSIZE + Z.of_nat (length [b]) <= PGSIZE) by (simpl; lia).
  split; [split|].
  - by apply ustore_rep.
  - by apply (ustore_sep s root).
  - split; try apply Hp. intros va' Hva'. unfold m'. rewrite (ustore_upage s root) by done. by apply Hp.
  - unfold pipe_ok. by destruct ustore_pipe_q as [_ ->].
  - split; [intros va'; by apply (ustore_leafword s root)|]. intros x Hx. by apply (ustore_ubyte s root).
Qed.
End ustore_pipe.

Lemma deq_uwritten im m va bs m' :
  pipe_mem im m -> uwritten (deq m pi) t va bs m' -> uwritten m t va bs m'.
Proof.
  intros [Hr _ Hp _] [L U]. pose proof (deq_outside m pi) as Ho. split.
  - intros va'. rewrite L. by apply (frame_leafword im m _ root t pi).
  - intros x Hx. rewrite U by done. by rewrite (frame_ubyte im m _ root t pi).
Qed.

(** One turn of piperead. *)
Lemma piperead_turn s m addr n i :
  pipe_ctx s -> pipe_mem (img s) m -> 0 <= i < n -> 0 <= addr -> addr + n < 2 ^ 64 ->
  piperead_body pi p addr n i (inside s m) =
  match pipe_q m pi with
  | [] => Ret (inr i) (inside s m)
  | ch :: _ =>
      if uwritable (deq m pi) t (addr + i)
      then Ret (inl (i + 1)) (inside s (ustore_mem (inside s (deq m pi)) t (addr + i) [ch]))
      else Ret (inr i) (inside s (deq m pi))
  end.
Proof.
  intros Hc Hm Hi Ha Han. unfold piperead_body. destruct (Z.ltb_spec i n); [|lia]. cbn [negb].
  unfold bind at 1, ld32 at 1, gets at 1. cbn [obind]. unfold bind at 1, ld32 at 1, gets at 1. cbn [obind].
  change (mem (inside s m)) with m. fold (p_nread m pi) (p_nwrite m pi). rewrite pipe_empty.
  pose proof (length_pipe_q m pi) as Hl. pose proof (p_count_range m pi).
  destruct (Z.eqb_spec (p_count m pi) 0) as [E|E].
  - destruct (pipe_q m pi); [done|]. simpl in Hl. lia.
  - destruct (deq_queue m pi ltac:(lia)) as [Hq _]. rewrite Hq.
    unfold bind at 1, ld8, gets at 1. cbn [obind]. change (mem (inside s m)) with m.
    set (ch := load8 m _). unfold bind at 1, st32, modify. cbn [obind].
    change (set_mem (store32 (mem (inside s m)) (pi + pi_nread) (p_nread m pi + 1)) (inside s m)) with (inside s (deq m pi)).
    unfold bind at 1, getp, gets. cbn [obind]. change (procs (inside s (deq m pi))) with (procs s).
    rewrite (pc_root _ Hc), u64_small by lia.
    destruct (deq_mem (img s) m Hm ltac:(lia)) as [Hr Hs _ _].
    assert (Eo : copyout root (addr + i) [ch] (inside s (deq m pi)) =
      if uwritable (deq m pi) t (addr + i)
      then Ret 0 (inside s (ustore_mem (inside s (deq m pi)) t (addr + i) [ch]))
      else Ret (-1) (inside s (deq m pi))).
    { rewrite (copyout_one _ root t) by (apply Hc || done || lia). by destruct s. }
    destruct (uwritable (deq m pi) t (addr + i)); by rewrite (bind_Ret _ _ _ _ _ Eo).
Qed.

Lemma piperead_loop s addr n k : forall f i m,
  pipe_ctx s -> pipe_mem (img s) m -> 0 <= i -> i + Z.of_nat k = n -> 0 <= addr -> addr + n < 2 ^ 64 ->
  (k < f)%nat ->
  let q := pipe_q m pi in
  let c := Nat.min k (length q) in
  let j := wprefix m (addr + i) c in
  exists m', iter f (piperead_body pi p addr n) i (inside s m) = Ret (i + Z.of_nat j) (inside s m') /\
    pipe_q m' pi = drop (if decide (j < c)%nat then S j else c) q /\
    uwritten m t (addr + i) (take j q) m' /\ pipe_mem (img s) m'.
Proof.
  induction k as [|k IH]; intros f i m Hc Hm Hi Hn Ha Han Hf q c j; (destruct f as [|f]; [lia|]).
  { exists m. unfold j, c. cbn. rewrite Z.add_0_r, drop_0. split; [|split; [done|split; [apply uwritten_nil|done]]].
    apply iter_exit. unfold piperead_body. destruct (Z.ltb_spec i n); [lia|done]. }
  pose proof (piperead_turn s m addr n i Hc Hm ltac:(lia) Ha Han) as Et.
  unfold j, c, q. clear j c q. destruct (pipe_q m pi) as [|ch q] eqn:Eq.
  { exists m. cbn. rewrite Z.add_0_r. split; [by apply iter_exit|]. split; [done|]. split; [apply uwritten_nil|done]. }
  assert (Hcnt : 0 < p_count m pi).
  { pose proof (length_pipe_q m pi) as Hl. rewrite Eq in Hl. simpl in Hl. lia. }
  destruct (deq_queue m pi Hcnt) as [Hq _]. rewrite Eq in Hq. injection Hq as Hch Hq.
  assert (Hb : 0 <= ch < 2 ^ 8) by (rewrite Hch; apply load8_range).
  pose proof (deq_mem (img s) m Hm Hcnt) as Hm1.
  assert (Hw : uwritable (deq m pi) t (addr + i) = uwritable m t (addr + i)).
  { unfold uwritable. rewrite (frame_leafword (img s) m _ root t pi); [done|apply Hm|apply Hm|apply deq_outside]. }
  cbn [length Nat.min wprefix]. rewrite Hw in Et. destruct (uwritable m t (addr + i)) eqn:Ew.
  - set (m1 := ustore_mem (inside s (deq m pi)) t (addr + i) [ch]) in *.
    destruct (ustore_pipe_mem (inside s (deq m pi)) (addr + i) ch) as [Hm2 Hu]; [done|lia|exact Hw|done|].
    destruct (ustore_pipe_q (inside s (deq m pi)) (addr + i) ch) as [Hq1 _]; [done|lia|exact Hw|].
    fold m1 in Hm2, Hu, Hq1. change (mem (inside s (deq m pi))) with (deq m pi) in Hu, Hq1.
    apply (deq_uwritten (img s) m) in Hu; [|done].
    destruct (IH f (i + 1) m1) as (m' & E & Hq' & Hu' & Hm'); try done; try lia.
    rewrite (iter_next _ _ _ _ _ _ Et). rewrite Hq1, <- Hq in E, Hq', Hu'.
    replace (addr + (i + 1)) with (addr + i + 1) in * by lia.
    rewrite (wprefix_ext m m1) in E, Hq', Hu' by apply Hu.
    exists m'. split; [|split; [|split]].
    + rewrite E. f_equal. lia.
    + rewrite Hq'. repeat case_decide; (lia || done).
    + cbn [take]. apply (uwritten_app m t (addr + i) [ch] _ m1 m' Hu Hu').
    + done.
  - exists (deq m pi). rewrite Z.add_0_r. split; [by apply iter_exit|]. split; [by rewrite decide_True by lia|].
    split; [|done]. cbn [take]. apply (deq_uwritten (img s)); [done|]. apply uwritten_nil.
Qed.

Lemma piperead_eq s addr n :
  (0 < fuel)%nat -> pipe_ctx s -> pipe_mem (img s) (mem s) ->
  0 < p_count (mem s) pi \/ load32 (mem s) (pi + pi_writeopen) = 0 ->
  0 <= n -> 0 <= addr -> addr + n < 2 ^ 64 ->
  let q := pipe_q (mem s) pi in
  let c := Nat.min (Z.to_nat n) (length q) in
  let j := wprefix (mem s) addr c in
  exists m', piperead pi addr n s = Ret (Z.of_nat j) (set_mem m' s) /\
    pipe_q m' pi = drop (if decide (j < c)%nat then S j else c) q /\
    uwritten (mem s) t addr (take j q) m' /\ pipe_mem (img s) m'.
Proof.
  intros Hf Hc Hm Hav Hn Ha Han q c j. pose proof (id_calm _ _ (pc_idle _ Hc)) as Hcalm. unfold piperead.
  rewrite (bind_Ret _ _ _ _ _ (curproc_calm s p Hcalm)).
  rewrite (bind_Ret _ _ _ _ _ (acquire_eq (LPipe pi) s (idle_lk _ _ _ (pc_idle _ Hc)))).
  assert (E1 : acquired (LPipe pi) s = inside s (mem s)) by (by destruct s). rewrite E1.
  assert (Ew : piperead_wait pi p (inside s (mem s)) = Ret true (inside s (mem s))).
  { unfold piperead_wait. destruct fuel as [|f]; [lia|]. apply iter_exit.
    unfold bind, ld32, gets. cbn [obind]. change (mem (inside s (mem s))) with (mem s).
    fold (p_nread (mem s) pi) (p_nwrite (mem s) pi). rewrite pipe_empty.
    destruct Hav as [Hcnt|Hwo].
    - by destruct (Z.eqb_spec (p_count (mem s) pi) 0); [lia|].
    - rewrite Hwo, andb_false_r. done. }
  rewrite (bind_Ret _ _ _ _ _ Ew). cbn [negb].
  destruct (piperead_loop s addr n (Z.to_nat n) (S (Z.to_nat n)) 0 (mem s)) as (m' & E & Hq & Hu & Hm');
    try done; try lia.
  rewrite Z.add_0_r in E, Hq, Hu. fold q in E, Hq, Hu. fold c in E, Hq, Hu. fold j in E, Hq, Hu.
  rewrite Z.add_0_l in E. exists m'. split; [|done].
  rewrite (bind_Ret _ _ _ _ _ E). rewrite (bind_Ret _ _ _ _ _ (wakeup_calm _ _ p (inside_calm s m' Hc))).
  rewrite (bind_Ret _ _ _ _ _ (inside_release s m' Hc)). done.
Qed.
End pipe.

(** C29. While a reader is there and the pipe has room for n bytes, pipewrite
    returns the number of bytes the user's buffer can supply, appends exactly
    those bytes to the queue in order, and changes no memory outside the pipe;
    without a reader it returns -1 and changes nothing. *)
Theorem pipewrite_appends `{Fuel} p root t pi s addr n :
  pipe_ctx p root s -> pipe_mem root t pi (img s) (mem s) -> 0 < n -> 0 <= addr -> addr + n < 2 ^ 64 ->
  (load32 (mem s) (pi + pi_readopen) <> 0 -> p_count (mem s) pi + n <= PIPESIZE ->
    let bs := uprefix t (mem s) addr (Z.to_nat n) in
    exists m', pipewrite pi addr n s = Ret (Z.of_nat (length bs)) (set_mem m' s) /\
      pipe_q m' pi = pipe_q (mem s) pi ++ bs /\ same_outside pi (mem s) m' /\ pipe_mem root t pi (img s) m') /\
  (load32 (mem s) (pi + pi_readopen) = 0 -> pipewrite pi addr n s = Ret (-1) s).
Proof.
  intros Hc Hm Hn Ha Han. split; [intros Hro Hcnt|intros Hro].
  - apply (pipewrite_eq p root t pi); (done || lia).
  - by apply (pipewrite_closed p root).
Qed.

(** C30. When the pipe holds bytes, or no writer is left, piperead returns without
    sleeping; it takes bytes from the front of the queue, at most n, and stores
    them in the user's buffer in order.  When the buffer cannot be written it
    returns the number of bytes stored, and the byte it could not store is lost. *)
Theorem piperead_takes `{Fuel} p root t pi s addr n :
  (0 < fuel)%nat -> pipe_ctx p root s -> pipe_mem root t pi (img s) (mem s) ->
  0 < p_count (mem s) pi \/ load32 (mem s) (pi + pi_writeopen) = 0 ->
  0 <= n -> 0 <= addr -> addr + n < 2 ^ 64 ->
  let q := pipe_q (mem s) pi in
  let c := Nat.min (Z.to_nat n) (length q) in
  let j := wprefix t (mem s) addr c in
  exists m', piperead pi addr n s = Ret (Z.of_nat j) (set_mem m' s) /\
    pipe_q m' pi = drop (if decide (j < c)%nat then S j else c) q /\
    uwritten (mem s) t addr (take j q) m' /\ pipe_mem root t pi (img s) m'.
Proof. intros Hf Hc Hm Hav Hn Ha Han. by apply (piperead_eq p root t pi). Qed.

(** ** A concrete pipe *)

#[local] Existing Instance ex_fuel.

(** An open pipe beside the address space of process 3, with two bytes in it. *)
Definition ex_pipe : Z := 0x87ff7000.
Definition ex_pipe_mem : memory :=
  store8 (store8 (store32 (store32 (store32 ex_mem (ex_pipe + pi_readopen) 1) (ex_pipe + pi_writeopen) 1)
    (ex_pipe + pi_nwrite) 2) (ex_pipe + pi_data) 104) (ex_pipe + pi_data + 1) 105.
Definition ex_pipe_kernel : kernel :=
  set_mem ex_pipe_mem (set_procs (<[3%nat := set_p_pagetable ex_root proc0]> (replicate NPROC proc0))
    (set_cpu_ (mkCpu (Some 3%nat) 0 false) (kernel0 ex_image ∅))).

Lemma ex_pipe_ctx : pipe_ctx 3 ex_root ex_pipe_kernel.
Proof.
  split.
  - split; [split|reflexivity].
    + split; simpl; [lia|done].
    + reflexivity.
    + reflexivity.
    + reflexivity.
    + apply Nat.ltb_lt. reflexivity.
    + apply (bool_decide_unpack _). vm_compute. exact I.
    + intros i. reflexivity.
  - exact ex_image_ok.
  - reflexivity.
  - reflexivity.
Qed.

Lemma user_pages_upage m t va : 0 <= va < MAXVA -> upage m t va <> 0 -> upage m t va ∈ (user_pages m t).*2.
Proof.
  intros Hva [HV HU]%upage_nonzero. apply (upage_user_pages m t va Hva HV) in HU.
  change (upage m t va) with (snd (vapath va, PX 0 va, upage m t va)). by apply list_elem_of_fmap_2.
Qed.

Lemma ex_pipe_mem_ok : pipe_mem ex_root ex_tree ex_pipe (img ex_pipe_kernel) (mem ex_pipe_kernel).
Proof.
  split.
  - apply pt_repb_sound. vm_compute. reflexivity.
  - apply user_sepb_sound. vm_compute. reflexivity.
  - split.
    + reflexivity.
    + intros k Hk. apply elem_of_map_to_list in Hk.
      assert (Hall : forallb (fun x => negb (x.2 =? ex_pipe)) (map_to_list ex_tree) = true) by (vm_compute; reflexivity).
      rewrite forallb_forall in Hall. apply list_elem_of_In, Hall in Hk. discriminate Hk.
    + intros va Hva E. pose proof (user_pages_upage (mem ex_pipe_kernel) ex_tree va Hva) as Hin. rewrite E in Hin.
      specialize (Hin ltac:(discriminate)). apply list_elem_of_In in Hin.
      assert (Hall : forallb (fun x => negb (x =? ex_pipe)) (user_pages (mem ex_pipe_kernel) ex_tree).*2 = true)
        by (vm_compute; reflexivity).
      rewrite forallb_forall in Hall. apply Hall in Hin. discriminate Hin.
  - vm_compute. discriminate.
Qed.

Lemma pipewrite_appends_witness : exists m', pipewrite ex_pipe 0 3 ex_pipe_kernel = Ret 3 (set_mem m' ex_pipe_kernel) /\
  pipe_q m' ex_pipe = [104; 105; 0; 0; 0].
Proof.
  destruct (pipewrite_appends 3 ex_root ex_tree ex_pipe ex_pipe_kernel 0 3 ex_pipe_ctx ex_pipe_mem_ok
    ltac:(lia) ltac:(lia) ltac:(lia)) as [Hw _].
  destruct Hw as (m' & E & Hq & _).
  - vm_compute. discriminate.
  - vm_compute. discriminate.
  - assert (Eb : uprefix ex_tree (mem ex_pipe_kernel) 0 (Z.to_nat 3) = [0; 0; 0]) by (vm_compute; reflexivity).
    rewrite Eb in E, Hq. exists m'. split; [exact E|]. rewrite Hq. vm_compute. reflexivity.
Defined.

Lemma piperead_takes_witness : exists m', piperead ex_pipe 4095 2 ex_pipe_kernel = Ret 1 (set_mem m' ex_pipe_kernel) /\
  pipe_q m' ex_pipe = [].
Proof.
  destruct (piperead_takes 3 ex_root ex_tree ex_pipe ex_pipe_kernel 4095 2) as (m' & E & Hq & _).
  - apply Nat.ltb_lt. reflexivity.
  - apply ex_pipe_ctx.
  - apply ex_pipe_mem_ok.
  - left. vm_compute. reflexivity.
  - lia.
  - lia.
  - lia.
  - assert (Eq : pipe_q (mem ex_pipe_kernel) ex_pipe = [104; 105]) by (vm_compute; reflexivity). rewrite Eq in E, Hq.
    assert (Ej : wprefix ex_tree (mem ex_pipe_kernel) 4095 (Nat.min (Z.to_nat 2) (length [104; 105])) = 1%nat)
      by (vm_compute; reflexivity).
    rewrite Ej in E, Hq. exists m'. split; [exact E|]. rewrite Hq. reflexivity.
Defined.
