(* ===== verification/File.v ===== *)
(** kernel/file.c: open files, and pipealloc of kernel/pipe.c. *)

From S2P Require Import Prelude Outcome Mem State Spinlock KString Kalloc Vm Proc Sleeplock Bytes Disk Bio Log Uart Printf Console Fs FsData Pipe.

Definition fileinit : K unit := initlock LFtable.

Definition filealloc_one (i : nat) : K (option nat) :=
  f <- getf i;;
  if f_ref f =? 0 then
    modf i (set_f_ref 1);;
    release LFtable;;
    ret (Some i)
  else ret None.

Definition filealloc : K (option nat) :=
  acquire LFtable;;
  r <- scan (seq 0 NFILE) filealloc_one;;
  match r with
  | Some i => ret (Some i)
  | None => release LFtable;; ret None
  end.

Definition filedup (i : nat) : K nat :=
  acquire LFtable;;
  f <- getf i;;
  if f_ref f <? 1 then panic "filedup" else
  modf i (fun f => set_f_ref (f_ref f + 1) f);;
  release LFtable;;
  ret i.

(** The devices of devsw[]: a major number outside the table, or without a
    driver, is no device. *)
Definition dev_driver (major : Z) : K (option devfn) :=
  if (major <? 0) || (NDEV <=? major) then ret None
  else gets (fun s => default None (devsw s !! Z.to_nat major)).

Section with_disk.
Context `{Fuel} `{Disk}.

Definition fileclose (i : nat) : K unit :=
  acquire LFtable;;
  f <- getf i;;
  if f_ref f <? 1 then panic "fileclose" else
  modf i (fun f => set_f_ref (f_ref f - 1) f);;
  ff <- getf i;;
  if 0 <? f_ref ff then release LFtable else
  modf i (set_f_ref 0);;
  modf i (set_f_type FD_NONE);;
  release LFtable;;
  match f_type ff with
  | FD_PIPE => pipeclose (f_pipe ff) (f_writable ff)
  | FD_INODE | FD_DEVICE =>
      begin_op;;
      ip <- deref (f_ip ff);;
      iput ip;;
      end_op
  | FD_NONE => ret tt
  end.

Definition filestat (i : nat) (addr : Z) : K Z :=
  p <- curproc;;
  f <- getf i;;
  match f_type f with
  | FD_INODE | FD_DEVICE =>
      ip <- deref (f_ip f);;
      ilock ip;;
      st <- stati ip;;
      iunlock ip;;
      pr <- getp p;;
      r <- copyout (p_pagetable pr) addr (stat_bytes st);;
      if r <? 0 then ret (-1) else ret 0
  | _ => ret (-1)
  end.

Definition fileread (i : nat) (addr n : Z) : K Z :=
  f <- getf i;;
  if negb (f_readable f) then ret (-1) else
  match f_type f with
  | FD_PIPE => piperead (f_pipe f) addr n
  | FD_DEVICE =>
      d <- dev_driver (f_major f);;
      match d with
      | None => ret (-1)
      | Some DevConsole => '(r, _) <- consoleread (ToUser addr) n;; ret r
      end
  | FD_INODE =>
      ip <- deref (f_ip f);;
      ilock ip;;
      f <- getf i;;
      '(r, _) <- readi ip (ToUser addr) (f_off f) (u32 n);;
      when (0 <? r) (modf i (fun f => set_f_off (u32 (f_off f + r)) f));;
      iunlock ip;;
      ret r
  | FD_NONE => panic "fileread"
  end.

(** At most a few blocks per transaction. *)
Definition filewrite_max : Z := ((MAXOPBLOCKS - 1 - 1 - 2) / 2) * BSIZE.

Definition filewrite_body (i : nat) (ip : nat) (addr n k : Z) : K (Z + Z) :=
  if negb (k <? n) then ret (inr k) else
  let n1 := Z.min (n - k) filewrite_max in
  begin_op;;
  ilock ip;;
  f <- getf i;;
  r <- writei ip (FromUser (u64 (addr + k))) (f_off f) n1;;
  when (0 <? r) (modf i (fun f => set_f_off (u32 (f_off f + r)) f));;
  iunlock ip;;
  end_op;;
  if negb (r =? n1) then ret (inr k) else ret (inl (k + r)).

Definition filewrite (i : nat) (addr n : Z) : K Z :=
  f <- getf i;;
  if negb (f_writable f) then ret (-1) else
  match f_type f with
  | FD_PIPE => pipewrite (f_pipe f) addr n
  | FD_DEVICE =>
      d <- dev_driver (f_major f);;
      match d with
      | None => ret (-1)
      | Some DevConsole => consolewrite (FromUser addr) n
      end
  | FD_INODE =>
      ip <- deref (f_ip f);;
      k <- iter (2 + Z.to_nat (n / filewrite_max)) (filewrite_body i ip addr n) 0;;
      ret (if k =? n then n else -1)
  | FD_NONE => panic "filewrite"
  end.

(** ** kernel/pipe.c: pipealloc *)

(** The cleanup at label bad. *)
Definition pipealloc_bad (pi : Z) (f0 f1 : option nat) : K (option (nat * nat)) :=
  when (truthy pi) (kfree pi);;
  match f0 with Some f => fileclose f | None => ret tt end;;
  match f1 with Some f => fileclose f | None => ret tt end;;
  ret None.

(** The two ends, or [None] for -1. *)
Definition pipealloc : K (option (nat * nat)) :=
  f0 <- filealloc;;
  match f0 with
  | None => pipealloc_bad 0 None None
  | Some r =>
      f1 <- filealloc;;
      match f1 with
      | None => pipealloc_bad 0 f0 None
      | Some w =>
          pi <- kalloc;;
          if pi =? 0 then pipealloc_bad 0 f0 f1 else
          st32 (pi + pi_readopen) 1;;
          st32 (pi + pi_writeopen) 1;;
          st32 (pi + pi_nwrite) 0;;
          st32 (pi + pi_nread) 0;;
          initlock (LPipe pi);;
          modf r (set_f_type FD_PIPE);;
          modf r (set_f_readable true);;
          modf r (set_f_writable false);;
          modf r (set_f_pipe pi);;
          modf w (set_f_type FD_PIPE);;
          modf w (set_f_readable false);;
          modf w (set_f_writable true);;
          modf w (set_f_pipe pi);;
          ret (Some (r, w))
      end
  end.
End with_disk.
