(* ===== verification/ProcLife.v ===== *)
(** kernel/proc.c, the part above the file system: the first process, fork,
    exit and wait. *)

From S2P Require Import Prelude Outcome Mem State Spinlock KString Kalloc Vm Proc Sleeplock Bytes Disk Bio Log Uart Printf Fs FsData File.

(** a user program that calls exec("/init"), assembled from user/initcode.S *)
Definition initcode : list Z :=
  [0x17; 0x05; 0x00; 0x00; 0x13; 0x05; 0x45; 0x02;
   0x97; 0x05; 0x00; 0x00; 0x93; 0x85; 0x35; 0x02;
   0x93; 0x08; 0x70; 0x00; 0x73; 0x00; 0x00; 0x00;
   0x93; 0x08; 0x20; 0x00; 0x73; 0x00; 0x00; 0x00;
   0xef; 0xf0; 0x9f; 0xff; 0x2f; 0x69; 0x6e; 0x69;
   0x74; 0x00; 0x00; 0x24; 0x00; 0x00; 0x00; 0x00;
   0x00; 0x00; 0x00; 0x00].

(** safestrcpy into the 16 bytes of p->name *)
Definition set_name (p : nat) (name : list Z) : K unit :=
  modp p (fun pr => set_p_name
    (in_buf (p_name pr) (fun m => safestrcpy m 0 (list_view name) 16)) pr).

(** reparent: pass p's abandoned children to init *)
Definition reparent_one (p pp : nat) : K unit :=
  pr <- getp pp;;
  if decide (p_parent pr = Some p) then
    ini <- gets initproc;;
    modp pp (set_p_parent ini);;
    match ini with Some i => wakeup (ChProc i) | None => wakeup ChNull end
  else ret tt.

Definition reparent (p : nat) : K unit := for_each (seq 0 NPROC) (reparent_one p).

Section with_disk.
Context `{Fuel} `{Disk}.

Definition userinit : K unit :=
  o <- allocproc;;
  modify (set_initproc o);;
  p <- deref o;;
  pr <- getp p;;
  (* allocate one user page and copy initcode's instructions and data into it. *)
  uvmfirst (p_pagetable pr) initcode;;
  modp p (set_p_sz PGSIZE);;
  (* prepare for the very first "return" from kernel to user. *)
  st64 (p_trapframe pr + tf_epc) 0;;
  st64 (p_trapframe pr + tf_sp) PGSIZE;;
  set_name p (cstr "initcode");;
  ip <- namei (cstr "/");;
  modp p (set_p_cwd ip);;
  modp p (set_p_state RUNNABLE);;
  release (LProc p).

(** fork: share the i-th open file of [p] with [np]. *)
Definition fork_dup (p np : nat) (fd : nat) : K unit :=
  pr <- getp p;;
  match p_ofile pr !!! fd with
  | Some f => f' <- filedup f;; modp np (fun q => set_p_ofile (<[fd := Some f']> (p_ofile q)) q)
  | None => ret tt
  end.

Definition fork : K Z :=
  p <- curproc;;
  (* Allocate process. *)
  o <- allocproc;;
  match o with
  | None => ret (-1)
  | Some np =>
      pr <- getp p;;
      npr <- getp np;;
      (* Copy user memory from parent to child. *)
      r <- uvmcopy (p_pagetable pr) (p_pagetable npr) (p_sz pr);;
      if r <? 0 then freeproc np;; release (LProc np);; ret (-1) else
      modp np (set_p_sz (p_sz pr));;
      (* copy saved user registers. *)
      kmemmove (p_trapframe npr) (p_trapframe pr) tf_size;;
      (* Cause fork to return 0 in the child. *)
      st64 (p_trapframe npr + tf_a 0) 0;;
      (* increment reference counts on open file descriptors. *)
      for_each (seq 0 NOFILE) (fork_dup p np);;
      c <- deref (p_cwd pr);;
      cwd <- idup c;;
      modp np (set_p_cwd (Some cwd));;
      set_name np (p_name pr);;
      npr <- getp np;;
      let pid := p_pid npr in
      release (LProc np);;
      acquire LWait;;
      modp np (set_p_parent (Some p));;
      release LWait;;
      acquire (LProc np);;
      modp np (set_p_state RUNNABLE);;
      release (LProc np);;
      ret pid
  end.

(** exit: close the fd-th open file. *)
Definition exit_close (p : nat) (fd : nat) : K unit :=
  pr <- getp p;;
  match p_ofile pr !!! fd with
  | Some f => fileclose f;; modp p (fun q => set_p_ofile (<[fd := None]> (p_ofile q)) q)
  | None => ret tt
  end.

(** exit() does not return. *)
Definition exit {A} (status : Z) : K A :=
  p <- curproc;;
  ini <- gets initproc;;
  if decide (Some p = ini) then panic "init exiting" else
  (* Close all open files. *)
  for_each (seq 0 NOFILE) (exit_close p);;
  begin_op;;
  pr <- getp p;;
  c <- deref (p_cwd pr);;
  iput c;;
  end_op;;
  modp p (set_p_cwd None);;
  acquire LWait;;
  (* Give any children to init. *)
  reparent p;;
  (* Parent might be sleeping in wait(). *)
  pr <- getp p;;
  match p_parent pr with Some i => wakeup (ChProc i) | None => wakeup ChNull end;;
  acquire (LProc p);;
  modp p (set_p_xstate status);;
  modp p (set_p_state ZOMBIE);;
  release LWait;;
  (* Jump into the scheduler, never to return. *)
  sched;;
  panic "zombie exit".

(** The scan of wait over the table: the return value once a child has exited,
    and whether there are children at all. *)
Fixpoint wait_scan (p : nat) (addr : Z) (slots : list nat) (havekids : bool) : K (option Z * bool) :=
  match slots with
  | [] => ret (None, havekids)
  | pp :: slots' =>
      q <- getp pp;;
      if decide (p_parent q = Some p) then
        (* make sure the child isn't still in exit() or swtch(). *)
        acquire (LProc pp);;
        q <- getp pp;;
        if decide (p_state q = ZOMBIE) then
          let pid := p_pid q in
          pr <- getp p;;
          r <- (if negb (addr =? 0) then copyout (p_pagetable pr) addr (le_enc 4 (p_xstate q)) else ret 0);;
          if r <? 0 then
            release (LProc pp);;
            release LWait;;
            ret (Some (-1), true)
          else
            freeproc pp;;
            release (LProc pp);;
            release LWait;;
            ret (Some pid, true)
        else
          release (LProc pp);;
          wait_scan p addr slots' true
      else wait_scan p addr slots' havekids
  end.

Definition wait_body (p : nat) (addr : Z) (_ : unit) : K (unit + Z) :=
  '(r, havekids) <- wait_scan p addr (seq 0 NPROC) false;;
  match r with
  | Some v => ret (inr v)
  | None =>
      (* No point waiting if we don't have any children. *)
      stop <- (if negb havekids then ret true else k <- killed p;; ret (truthy k));;
      if stop : bool then release LWait;; ret (inr (-1)) else
      (* Wait for a child to exit. *)
      sleep (ChProc p) LWait;;
      ret (inl tt)
  end.

Definition wait (addr : Z) : K Z :=
  p <- curproc;;
  acquire LWait;;
  iter fuel (wait_body p addr) tt.
End with_disk.
