(* ===== verification/Exec.v ===== *)
(** kernel/exec.c *)

From S2P Require Import Prelude Outcome Mem State Spinlock KString Kalloc Vm Proc Sleeplock Bytes Disk Bio Log Uart Printf Fs FsData File ProcLife.

(** ** kernel/elf.h *)

Definition ELF_MAGIC : Z := 0x464C457F.
Definition ELF_PROG_LOAD : Z := 1.
Definition get64 (l : list Z) (off : Z) : Z := le_dec (sub l (Z.to_nat off) 8).

(** The fields of struct elfhdr (64 bytes) and struct proghdr (56 bytes) that
    exec uses. *)
Definition elfhdr_size : Z := 64.
Definition elf_magic (e : list Z) : Z := get32 e 0.
Definition elf_entry (e : list Z) : Z := get64 e 24.
Definition elf_phoff (e : list Z) : Z := get64 e 32.
Definition elf_phnum (e : list Z) : Z := get16 e 56.
Definition proghdr_size : Z := 56.
Definition ph_type (h : list Z) : Z := get32 h 0.
Definition ph_flags (h : list Z) : Z := get32 h 4.
Definition ph_off (h : list Z) : Z := get64 h 8.
Definition ph_vaddr (h : list Z) : Z := get64 h 16.
Definition ph_filesz (h : list Z) : Z := get64 h 32.
Definition ph_memsz (h : list Z) : Z := get64 h 40.

Definition flags2perm (flags : Z) : Z :=
  let perm := if truthy (Z.land flags 1) then PTE_X else 0 in
  if truthy (Z.land flags 2) then Z.lor perm PTE_W else perm.

(** The string at [p] in a page of kernel memory, NUL included. *)
Definition kstring (p : Z) : K (list Z) :=
  s <- gets (fun s => s);;
  match strlen_loop (Z.to_nat PGSIZE) (view (mem s) p) 0 with
  | Some n => ret (load_bytes (mem s) p (Z.to_nat (n + 1)))
  | None => halt (Undefined "unterminated string")
  end.

(** The part of a path after its last slash. *)
Fixpoint last_elem (path last : list Z) : list Z :=
  match path with
  | [] => last
  | c :: path' => if c =? 0 then last else last_elem path' (if c =? slash then path' else last)
  end.

Section with_disk.
Context `{Fuel} `{Disk}.

Definition loadseg_body (pagetable va : Z) (ip : nat) (offset sz i : Z) : K (Z + Z) :=
  if negb (i <? sz) then ret (inr 0) else
  pa <- walkaddr pagetable (u64 (va + i));;
  if pa =? 0 then panic "loadseg: address should exist" else
  let n := if sz - i <? PGSIZE then sz - i else PGSIZE in
  '(r, _) <- readi ip (ToKernel pa) (u32 (offset + i)) n;;
  if negb (u32 r =? n) then ret (inr (-1)) else ret (inl (u32 (i + PGSIZE))).

Definition loadseg (pagetable va : Z) (ip : nat) (offset sz : Z) : K Z :=
  iter (2 + Z.to_nat (sz / PGSIZE)) (loadseg_body pagetable va ip offset sz) 0.

(** One program header: the new size, or [None] to go to bad with the size the
    image has by then. *)
Definition load_phdr (pagetable : Z) (ip : nat) (off sz : Z) : K (Z * bool) :=
  '(r, ph) <- readi ip ToLocal (u32 off) proghdr_size;;
  if negb (r =? proghdr_size) then ret (sz, false) else
  if negb (ph_type ph =? ELF_PROG_LOAD) then ret (sz, true) else
  if ph_memsz ph <? ph_filesz ph then ret (sz, false) else
  if u64 (ph_vaddr ph + ph_memsz ph) <? ph_vaddr ph then ret (sz, false) else
  if negb (ph_vaddr ph mod PGSIZE =? 0) then ret (sz, false) else
  sz1 <- uvmalloc pagetable sz (u64 (ph_vaddr ph + ph_memsz ph)) (flags2perm (ph_flags ph));;
  if sz1 =? 0 then ret (sz, false) else
  r <- loadseg pagetable (ph_vaddr ph) ip (u32 (ph_off ph)) (u32 (ph_filesz ph));;
  if r <? 0 then ret (sz1, false) else ret (sz1, true).

Definition load_phdrs_body (pagetable : Z) (ip : nat) (phnum : Z) (st : Z * Z * Z) :
    K (Z * Z * Z + Z * bool) :=
  let '(i, off, sz) := st in
  if negb (i <? phnum) then ret (inr (sz, true)) else
  '(sz, ok) <- load_phdr pagetable ip off sz;;
  if negb ok then ret (inr (sz, false)) else ret (inl (i + 1, i32 (off + proghdr_size), sz)).

(** Push argument strings; [None] goes to bad. *)
Fixpoint push_args (pagetable stackbase : Z) (argv : list Z) (argc sp : Z) (ustack : list Z) :
    K (option (Z * Z * list Z)) :=
  match argv with
  | [] => ret (Some (argc, sp, ustack))
  | a :: argv' =>
      if Z.of_nat MAXARG <=? argc then ret None else
      str <- kstring a;;
      let sp := u64 (sp - Z.of_nat (length str)) in
      let sp := sp - sp mod 16 in
      if sp <? stackbase then ret None else
      r <- copyout pagetable sp str;;
      if r <? 0 then ret None else
      push_args pagetable stackbase argv' (argc + 1) sp (ustack ++ [sp])
  end.

(** The label bad: [ip] is still open unless it has been put. *)
Definition exec_bad (pagetable sz : Z) (ip : option nat) : K Z :=
  when (truthy pagetable) (proc_freepagetable pagetable sz);;
  match ip with Some i => iunlockput i;; end_op | None => ret tt end;;
  ret (-1).

(** From the stack on: [pagetable] holds the program, of size [sz]. *)
Definition exec_stack (p : nat) (path : list Z) (argv : list Z) (elf : list Z) (pagetable sz : Z) : K Z :=
  pr <- getp p;;
  let oldsz := p_sz pr in
  (* Allocate two pages at the next page boundary. *)
  let sz := PGROUNDUP sz in
  sz1 <- uvmalloc pagetable sz (u64 (sz + 2 * PGSIZE)) PTE_W;;
  if sz1 =? 0 then exec_bad pagetable sz None else
  let sz := sz1 in
  uvmclear pagetable (u64 (sz - 2 * PGSIZE));;
  let sp := sz in
  let stackbase := sp - PGSIZE in
  o <- push_args pagetable stackbase argv 0 sp [];;
  match o with
  | None => exec_bad pagetable sz None
  | Some (argc, sp, ustack) =>
      (* push the array of argv[] pointers. *)
      let sp := u64 (sp - (argc + 1) * 8) in
      let sp := sp - sp mod 16 in
      if sp <? stackbase then exec_bad pagetable sz None else
      r <- copyout pagetable sp (concat (le_enc 8 <$> ustack ++ [0]));;
      if r <? 0 then exec_bad pagetable sz None else
      st64 (p_trapframe pr + tf_a 1) sp;;
      (* Save program name for debugging. *)
      set_name p (last_elem path path);;
      (* Commit to the user image. *)
      pr <- getp p;;
      let oldpagetable := p_pagetable pr in
      modp p (set_p_pagetable pagetable);;
      modp p (set_p_sz sz);;
      st64 (p_trapframe pr + tf_epc) (elf_entry elf);;
      st64 (p_trapframe pr + tf_sp) sp;;
      proc_freepagetable oldpagetable oldsz;;
      ret argc
  end.

(** [argv] holds the addresses of the argument strings, without the final 0. *)
Definition exec (path : list Z) (argv : list Z) : K Z :=
  p <- curproc;;
  begin_op;;
  o <- namei path;;
  match o with
  | None => end_op;; ret (-1)
  | Some ip =>
      ilock ip;;
      (* Check ELF header *)
      '(r, elf) <- readi ip ToLocal 0 elfhdr_size;;
      if negb (r =? elfhdr_size) then exec_bad 0 0 (Some ip) else
      if negb (elf_magic elf =? ELF_MAGIC) then exec_bad 0 0 (Some ip) else
      pagetable <- proc_pagetable p;;
      if pagetable =? 0 then exec_bad 0 0 (Some ip) else
      (* Load program into memory. *)
      '(sz, ok) <- iter (S (Z.to_nat (elf_phnum elf))) (load_phdrs_body pagetable ip (elf_phnum elf))
                     (0, i32 (elf_phoff elf), 0);;
      if negb ok then exec_bad pagetable sz (Some ip) else
      iunlockput ip;;
      end_op;;
      exec_stack p path argv elf pagetable sz
  end.
End with_disk.
