(* ===== verification/Syscall.v ===== *)
(** kernel/syscall.c, the arguments of system calls, and kernel/sysproc.c.
    The dispatch itself is in Trap.v, above all the handlers. *)

From S2P Require Import Prelude Outcome Mem State Spinlock KString Kalloc Vm Proc Sleeplock Bytes Disk Bio Log Uart Printf Fs FsData File ProcLife.

(** The 64-bit word at [addr] in user memory. *)
Definition fetchaddr (addr : Z) : K (option Z) :=
  p <- curproc;;
  pr <- getp p;;
  if (p_sz pr <=? addr) || (p_sz pr <? u64 (addr + 8)) then ret None else
  '(bs, r) <- copyin (p_pagetable pr) addr 8;;
  if negb (r =? 0) then ret None else ret (Some (le_dec bs)).

(** The result and the bytes the buffer has received. *)
Definition fetchstr (addr max : Z) : K (Z * list Z) :=
  p <- curproc;;
  pr <- getp p;;
  '(buf, r) <- copyinstr (p_pagetable pr) addr max;;
  if r <? 0 then ret (-1, buf) else
  match strlen_loop (S (length buf)) (list_view buf) 0 with
  | Some n => ret (n, buf)
  | None => halt (Undefined "unterminated string")
  end.

Definition argraw (n : Z) : K Z :=
  p <- curproc;;
  pr <- getp p;;
  if (0 <=? n) && (n <=? 5) then ld64 (p_trapframe pr + tf_a n) else panic "argraw".

Definition argint (n : Z) : K Z := v <- argraw n;; ret (i32 v).
Definition argaddr (n : Z) : K Z := argraw n.
Definition argstr (n max : Z) : K (Z * list Z) := addr <- argaddr n;; fetchstr addr max.

(** ** kernel/sysproc.c *)

Section with_disk.
Context `{Fuel} `{Disk}.

Definition sys_exit : K Z := n <- argint 0;; exit n.

Definition sys_getpid : K Z := p <- curproc;; pr <- getp p;; ret (p_pid pr).

Definition sys_fork : K Z := fork.

Definition sys_wait : K Z := p <- argaddr 0;; wait p.

Definition sys_sbrk : K Z :=
  n <- argint 0;;
  p <- curproc;;
  pr <- getp p;;
  let addr := p_sz pr in
  r <- growproc n;;
  if r <? 0 then ret (-1) else ret addr.

Definition sys_sleep_body (ticks0 n : Z) (_ : unit) : K (unit + Z) :=
  t <- gets ticks;;
  if negb (u32 (t - ticks0) <? n) then release LTicks;; ret (inr 0) else
  p <- curproc;;
  k <- killed p;;
  if truthy k then release LTicks;; ret (inr (-1)) else
  sleep ChTicks LTicks;;
  ret (inl tt).

Definition sys_sleep : K Z :=
  n <- argint 0;;
  let n := if n <? 0 then 0 else n in
  acquire LTicks;;
  ticks0 <- gets ticks;;
  iter fuel (sys_sleep_body ticks0 n) tt.

Definition sys_kill : K Z := pid <- argint 0;; kill pid.

Definition sys_uptime : K Z :=
  acquire LTicks;;
  xticks <- gets ticks;;
  release LTicks;;
  ret xticks.
End with_disk.
