(* ===== verification/Sysfile.v ===== *)
(** kernel/sysfile.c: the file-system system calls. *)

From S2P Require Import Prelude Outcome Mem State Spinlock KString Kalloc Vm Proc Sleeplock Bytes Disk Bio Log Uart Printf Fs FsData Pipe File ProcLife Exec Syscall.

(** The descriptor and the open file of the n-th argument. *)
Definition argfd (n : Z) : K (option (Z * nat)) :=
  fd <- argint n;;
  if (fd <? 0) || (Z.of_nat NOFILE <=? fd) then ret None else
  p <- curproc;;
  pr <- getp p;;
  match p_ofile pr !!! Z.to_nat fd with
  | None => ret None
  | Some f => ret (Some (fd, f))
  end.

Definition set_ofile (p : nat) (fd : Z) (f : option nat) : K unit :=
  modp p (fun pr => set_p_ofile (<[Z.to_nat fd := f]> (p_ofile pr)) pr).

Definition fdalloc (f : nat) : K Z :=
  p <- curproc;;
  pr <- getp p;;
  match find_index (fun o : option nat => bool_decide (o = None)) (p_ofile pr) with
  | Some fd => set_ofile p (Z.of_nat fd) (Some f);; ret (Z.of_nat fd)
  | None => ret (-1)
  end.

Definition name0 : list Z := replicate DIRSIZ 0.

Section with_disk.
Context `{Fuel} `{Disk}.

Definition sys_dup : K Z :=
  o <- argfd 0;;
  match o with
  | None => ret (-1)
  | Some (_, f) =>
      fd <- fdalloc f;;
      if fd <? 0 then ret (-1) else
      _ <- filedup f;;
      ret fd
  end.

Definition sys_read : K Z :=
  p <- argaddr 1;;
  n <- argint 2;;
  o <- argfd 0;;
  match o with None => ret (-1) | Some (_, f) => fileread f p n end.

Definition sys_write : K Z :=
  p <- argaddr 1;;
  n <- argint 2;;
  o <- argfd 0;;
  match o with None => ret (-1) | Some (_, f) => filewrite f p n end.

Definition sys_close : K Z :=
  o <- argfd 0;;
  match o with
  | None => ret (-1)
  | Some (fd, f) =>
      p <- curproc;;
      set_ofile p fd None;;
      fileclose f;;
      ret 0
  end.

Definition sys_fstat : K Z :=
  st <- argaddr 1;;
  o <- argfd 0;;
  match o with None => ret (-1) | Some (_, f) => filestat f st end.

Definition mod_nlink (i : nat) (d : Z) : K unit :=
  modi i (fun ip => set_i_nlink (i16 (i_nlink ip + d)) ip).

(** The label bad of sys_link: take the link count back. *)
Definition link_bad (ip : nat) : K Z :=
  ilock ip;;
  mod_nlink ip (-1);;
  iupdate ip;;
  iunlockput ip;;
  end_op;;
  ret (-1).

Definition sys_link : K Z :=
  '(r, old) <- argstr 0 MAXPATH;;
  if r <? 0 then ret (-1) else
  '(r, new) <- argstr 1 MAXPATH;;
  if r <? 0 then ret (-1) else
  begin_op;;
  o <- namei old;;
  match o with
  | None => end_op;; ret (-1)
  | Some ip =>
      ilock ip;;
      i <- geti ip;;
      if i_type i =? T_DIR then iunlockput ip;; end_op;; ret (-1) else
      mod_nlink ip 1;;
      iupdate ip;;
      iunlock ip;;
      '(d, name) <- nameiparent new name0;;
      match d with
      | None => link_bad ip
      | Some dp =>
          ilock dp;;
          di <- geti dp;;
          i <- geti ip;;
          ok <- (if negb (i_dev di =? i_dev i) then ret false
                 else r <- dirlink dp name (i_inum i);; ret (negb (r <? 0)));;
          if negb ok then iunlockput dp;; link_bad ip else
          iunlockput dp;;
          iput ip;;
          end_op;;
          ret 0
      end
  end.

Definition isdirempty_body (dp : nat) (off : Z) : K (Z + bool) :=
  d <- geti dp;;
  if negb (off <? i_size d) then ret (inr true) else
  '(r, de) <- readi dp ToLocal off DIRENT_SIZE;;
  if negb (r =? DIRENT_SIZE) then panic "isdirempty: readi" else
  if negb (de_inum de =? 0) then ret (inr false) else ret (inl (off + DIRENT_SIZE)).

Definition isdirempty (dp : nat) : K bool :=
  d <- geti dp;;
  iter (2 + Z.to_nat (i_size d / DIRENT_SIZE)) (isdirempty_body dp) (2 * DIRENT_SIZE).

(** The label bad of sys_unlink. *)
Definition unlink_bad (dp : nat) : K Z :=
  iunlockput dp;;
  end_op;;
  ret (-1).

Definition sys_unlink : K Z :=
  '(r, path) <- argstr 0 MAXPATH;;
  if r <? 0 then ret (-1) else
  begin_op;;
  '(d, name) <- nameiparent path name0;;
  match d with
  | None => end_op;; ret (-1)
  | Some dp =>
      ilock dp;;
      (* Cannot unlink "." or "..". *)
      if (namecmp name (cstr ".") =? 0) || (namecmp name (cstr "..") =? 0) then unlink_bad dp else
      o <- dirlookup dp name;;
      match o with
      | None => unlink_bad dp
      | Some (ip, off) =>
          ilock ip;;
          i <- geti ip;;
          if i_nlink i <? 1 then panic "unlink: nlink < 1" else
          busy <- (if i_type i =? T_DIR then e <- isdirempty ip;; ret (negb e) else ret false);;
          if busy : bool then iunlockput ip;; unlink_bad dp else
          w <- writei dp (FromKernel (replicate (Z.to_nat DIRENT_SIZE) 0)) off DIRENT_SIZE;;
          if negb (w =? DIRENT_SIZE) then panic "unlink: writei" else
          i <- geti ip;;
          when (i_type i =? T_DIR) (mod_nlink dp (-1);; iupdate dp);;
          iunlockput dp;;
          mod_nlink ip (-1);;
          iupdate ip;;
          iunlockput ip;;
          end_op;;
          ret 0
      end
  end.

(** The label fail of create: de-allocate the new inode. *)
Definition create_fail (ip dp : nat) : K (option nat) :=
  modi ip (set_i_nlink 0);;
  iupdate ip;;
  iunlockput ip;;
  iunlockput dp;;
  ret None.

Definition create (path : list Z) (type major minor : Z) : K (option nat) :=
  '(d, name) <- nameiparent path name0;;
  match d with
  | None => ret None
  | Some dp =>
      ilock dp;;
      o <- dirlookup dp name;;
      match o with
      | Some (ip, _) =>
          iunlockput dp;;
          ilock ip;;
          i <- geti ip;;
          if (type =? T_FILE) && ((i_type i =? T_FILE) || (i_type i =? T_DEVICE)) then ret (Some ip) else
          iunlockput ip;;
          ret None
      | None =>
          di <- geti dp;;
          o <- ialloc (i_dev di) type;;
          match o with
          | None => iunlockput dp;; ret None
          | Some ip =>
              ilock ip;;
              modi ip (set_i_major major);;
              modi ip (set_i_minor minor);;
              modi ip (set_i_nlink 1);;
              iupdate ip;;
              i <- geti ip;;
              di <- geti dp;;
              ok <- (if type =? T_DIR then
                       r <- dirlink ip (cstr ".") (i_inum i);;
                       if r <? 0 then ret false else
                       r <- dirlink ip (cstr "..") (i_inum di);;
                       ret (negb (r <? 0))
                     else ret true);;
              if negb ok then create_fail ip dp else
              r <- dirlink dp name (i_inum i);;
              if r <? 0 then create_fail ip dp else
              when (type =? T_DIR) (mod_nlink dp 1;; iupdate dp);;
              iunlockput dp;;
              ret (Some ip)
          end
      end
  end.

(** The inode sys_open is to open, locked; [None] for an error. *)
Definition open_inode (path : list Z) (omode : Z) : K (option nat) :=
  if truthy (Z.land omode O_CREATE) then create path T_FILE 0 0
  else
    o <- namei path;;
    match o with
    | None => ret None
    | Some ip =>
        ilock ip;;
        i <- geti ip;;
        if (i_type i =? T_DIR) && negb (omode =? O_RDONLY) then iunlockput ip;; ret None
        else ret (Some ip)
    end.

Definition open_file (ip f : nat) (omode : Z) : K unit :=
  i <- geti ip;;
  (if i_type i =? T_DEVICE then
     modf f (set_f_type FD_DEVICE);;
     modf f (set_f_major (i_major i))
   else
     modf f (set_f_type FD_INODE);;
     modf f (set_f_off 0));;
  modf f (set_f_ip (Some ip));;
  modf f (set_f_readable (negb (truthy (Z.land omode O_WRONLY))));;
  modf f (set_f_writable (truthy (Z.land omode O_WRONLY) || truthy (Z.land omode O_RDWR)));;
  when (truthy (Z.land omode O_TRUNC) && (i_type i =? T_FILE)) (itrunc ip).

Definition sys_open : K Z :=
  omode <- argint 1;;
  '(n, path) <- argstr 0 MAXPATH;;
  if n <? 0 then ret (-1) else
  begin_op;;
  o <- open_inode path omode;;
  match o with
  | None => end_op;; ret (-1)
  | Some ip =>
      i <- geti ip;;
      if (i_type i =? T_DEVICE) && ((i_major i <? 0) || (NDEV <=? i_major i)) then
        iunlockput ip;; end_op;; ret (-1)
      else
        fo <- filealloc;;
        match fo with
        | None => iunlockput ip;; end_op;; ret (-1)
        | Some f =>
            fd <- fdalloc f;;
            if fd <? 0 then fileclose f;; iunlockput ip;; end_op;; ret (-1) else
            open_file ip f omode;;
            iunlock ip;;
            end_op;;
            ret fd
        end
  end.

Definition sys_mkdir : K Z :=
  begin_op;;
  '(r, path) <- argstr 0 MAXPATH;;
  o <- (if r <? 0 then ret None else create path T_DIR 0 0);;
  match o with
  | None => end_op;; ret (-1)
  | Some ip => iunlockput ip;; end_op;; ret 0
  end.

Definition sys_mknod : K Z :=
  begin_op;;
  major <- argint 1;;
  minor <- argint 2;;
  '(r, path) <- argstr 0 MAXPATH;;
  o <- (if r <? 0 then ret None else create path T_DEVICE (i16 major) (i16 minor));;
  match o with
  | None => end_op;; ret (-1)
  | Some ip => iunlockput ip;; end_op;; ret 0
  end.

Definition sys_chdir : K Z :=
  p <- curproc;;
  begin_op;;
  '(r, path) <- argstr 0 MAXPATH;;
  o <- (if r <? 0 then ret None else namei path);;
  match o with
  | None => end_op;; ret (-1)
  | Some ip =>
      ilock ip;;
      i <- geti ip;;
      if negb (i_type i =? T_DIR) then iunlockput ip;; end_op;; ret (-1) else
      iunlock ip;;
      pr <- getp p;;
      c <- deref (p_cwd pr);;
      iput c;;
      end_op;;
      modp p (set_p_cwd (Some ip));;
      ret 0
  end.

(** sys_exec's loop over uargv: the pages of the strings fetched so far, and
    whether the final 0 was found. *)
Fixpoint fetch_args (n : nat) (uargv i : Z) (argv : list Z) : K (list Z * bool) :=
  match n with
  | O => ret (argv, false)
  | S n' =>
      u <- fetchaddr (u64 (uargv + 8 * i));;
      match u with
      | None => ret (argv, false)
      | Some uarg =>
          if uarg =? 0 then ret (argv, true) else
          a <- kalloc;;
          if a =? 0 then ret (argv, false) else
          '(r, bs) <- fetchstr uarg PGSIZE;;
          modify (fun s => set_mem (store_bytes (mem s) a bs) s);;
          if r <? 0 then ret (argv ++ [a], false)
          else fetch_args n' uargv (i + 1) (argv ++ [a])
      end
  end.

Definition sys_exec : K Z :=
  uargv <- argaddr 1;;
  '(r, path) <- argstr 0 MAXPATH;;
  if r <? 0 then ret (-1) else
  '(argv, ok) <- fetch_args MAXARG uargv 0 [];;
  r <- (if ok : bool then exec path argv else ret (-1));;
  for_each argv kfree;;
  ret r.

(** Undo sys_pipe: close both ends. *)
Definition pipe_bad (rf wf : nat) : K Z :=
  fileclose rf;;
  fileclose wf;;
  ret (-1).

Definition sys_pipe : K Z :=
  p <- curproc;;
  fdarray <- argaddr 0;;
  o <- pipealloc;;
  match o with
  | None => ret (-1)
  | Some (rf, wf) =>
      fd0 <- fdalloc rf;;
      if fd0 <? 0 then pipe_bad rf wf else
      fd1 <- fdalloc wf;;
      if fd1 <? 0 then set_ofile p fd0 None;; pipe_bad rf wf else
      pr <- getp p;;
      r <- copyout (p_pagetable pr) fdarray (le_enc 4 fd0);;
      r <- (if r <? 0 then ret r else copyout (p_pagetable pr) (u64 (fdarray + 4)) (le_enc 4 fd1));;
      if r <? 0 then
        set_ofile p fd0 None;;
        set_ofile p fd1 None;;
        pipe_bad rf wf
      else ret 0
  end.
End with_disk.
