(* ===== verification/Trap.v ===== *)
(** kernel/trap.c, kernel/plic.c, the dispatch of kernel/syscall.c, forkret of
    kernel/proc.c and kernel/main.c: the ways into the kernel and back. *)

From S2P Require Import Prelude Outcome Mem State Spinlock KString Kalloc Vm Proc Sleeplock Bytes Disk Bio Log Uart Printf Console Virtio Fs FsData File ProcLife Exec Syscall Sysfile.

(** ** kernel/riscv.h: the supervisor registers *)

Definition SSTATUS_SPP : Z := Z.shiftl 1 8.
Definition SSTATUS_SPIE : Z := Z.shiftl 1 5.
Definition SSTATUS_SIE : Z := Z.shiftl 1 1.

(** The SIE bit of sstatus is the flag [sie] of the state. *)
Definition r_sstatus : K Z :=
  gets (fun s => Z.lor (Z.land (csr_sstatus (csr s)) (Z.lnot SSTATUS_SIE))
                       (if sie s then SSTATUS_SIE else 0)).
Definition modcsr (f : csrs -> csrs) : K unit := modify (fun s => set_csr (f (csr s)) s).
Definition w_sstatus (x : Z) : K unit :=
  modcsr (set_csr_sstatus x);;
  modify (set_sie (truthy (Z.land x SSTATUS_SIE))).
Definition r_sepc : K Z := gets (fun s => csr_sepc (csr s)).
Definition w_sepc (x : Z) : K unit := modcsr (set_csr_sepc x).
Definition r_scause : K Z := gets (fun s => csr_scause (csr s)).
Definition r_stval : K Z := gets (fun s => csr_stval (csr s)).
Definition w_stvec (x : Z) : K unit := modcsr (set_csr_stvec x).
Definition r_satp : K Z := gets (fun s => csr_satp (csr s)).
Definition r_sip : K Z := gets (fun s => csr_sip (csr s)).
Definition w_sip (x : Z) : K unit := modcsr (set_csr_sip x).

(** ** kernel/plic.c *)

Definition UART0_IRQ : Z := 10.
Definition VIRTIO0_IRQ : Z := 1.
Definition PLIC_SENABLE (hart : Z) : Z := PLIC + 0x2080 + hart * 0x100.
Definition PLIC_SPRIORITY (hart : Z) : Z := PLIC + 0x201000 + hart * 0x2000.
Definition PLIC_SCLAIM (hart : Z) : Z := PLIC + 0x201004 + hart * 0x2000.

Definition plicinit : K unit :=
  (* set desired IRQ priorities non-zero (otherwise disabled). *)
  st32 (PLIC + UART0_IRQ * 4) 1;;
  st32 (PLIC + VIRTIO0_IRQ * 4) 1.

Definition plicinithart : K unit :=
  h <- cpuid;;
  (* set enable bits for this hart's S-mode for the uart and virtio disk. *)
  st32 (PLIC_SENABLE h) (Z.lor (Z.shiftl 1 UART0_IRQ) (Z.shiftl 1 VIRTIO0_IRQ));;
  (* set this hart's S-mode priority threshold to 0. *)
  st32 (PLIC_SPRIORITY h) 0.

(** The claim register gives the pending interrupts one by one, then 0. *)
Definition plic_claim : K Z :=
  l <- gets plic_irq;;
  match l with
  | [] => ret 0
  | irq :: l' => modify (set_plic_irq l');; ret irq
  end.

Definition plic_complete (irq : Z) : K unit :=
  h <- cpuid;;
  st32 (PLIC_SCLAIM h) irq.

(** ** kernel/trap.c *)

Definition trapinit : K unit := initlock LTicks.
Definition trapinithart : K unit := im <- gets img;; w_stvec (kernelvec_addr im).

Definition clockintr : K unit :=
  acquire LTicks;;
  modify (fun s => set_ticks (u32 (ticks s + 1)) s);;
  wakeup ChTicks;;
  release LTicks.

(** Return to user space: the value for satp that is passed to userret. *)
Definition usertrapret : K Z :=
  p <- curproc;;
  intr_off;;
  im <- gets img;;
  (* send syscalls, interrupts, and exceptions to uservec in trampoline.S *)
  w_stvec (TRAMPOLINE + (uservec_addr im - trampoline_addr im));;
  (* set up trapframe values that uservec will need when
     the process next traps into the kernel. *)
  pr <- getp p;;
  let tf := p_trapframe pr in
  satp <- r_satp;;
  st64 (tf + tf_kernel_satp) satp;;
  st64 (tf + tf_kernel_sp) (p_kstack pr + PGSIZE);;
  st64 (tf + tf_kernel_trap) (usertrap_addr im);;
  h <- r_tp;;
  st64 (tf + tf_kernel_hartid) h;;
  (* set S Previous Privilege mode to User. *)
  x <- r_sstatus;;
  let x := Z.land x (Z.lnot SSTATUS_SPP) in
  let x := Z.lor x SSTATUS_SPIE in
  w_sstatus x;;
  (* set S Exception Program Counter to the saved user pc. *)
  epc <- ld64 (tf + tf_epc);;
  w_sepc epc;;
  (* tell trampoline.S the user page table to switch to. *)
  ret (MAKE_SATP (p_pagetable pr)).

Section with_disk.
Context `{Fuel} `{Disk}.

Definition devintr : K Z :=
  scause <- r_scause;;
  if truthy (Z.land scause 0x8000000000000000) && (Z.land scause 0xff =? 9) then
    (* this is a supervisor external interrupt, via PLIC. *)
    irq <- plic_claim;;
    (if irq =? UART0_IRQ then uartintr
     else if irq =? VIRTIO0_IRQ then virtio_disk_intr
     else when (truthy irq) (printf (cstr_nl "unexpected interrupt irq=%d") [AInt irq]));;
    when (truthy irq) (plic_complete irq);;
    ret 1
  else if scause =? 0x8000000000000001 then
    (* software interrupt from a machine-mode timer interrupt. *)
    h <- cpuid;;
    when (h =? 0) clockintr;;
    (* acknowledge the software interrupt by clearing the SSIP bit in sip. *)
    sip <- r_sip;;
    w_sip (Z.land sip (Z.lnot 2));;
    ret 2
  else ret 0.

(** ** kernel/syscall.c: dispatch *)

Definition syscalls : list (option (K Z)) :=
  [None; Some sys_fork; Some sys_exit; Some sys_wait; Some sys_pipe; Some sys_read; Some sys_kill;
   Some sys_exec; Some sys_fstat; Some sys_chdir; Some sys_dup; Some sys_getpid; Some sys_sbrk;
   Some sys_sleep; Some sys_uptime; Some sys_open; Some sys_write; Some sys_mknod; Some sys_unlink;
   Some sys_link; Some sys_mkdir; Some sys_close].

Definition syscall : K unit :=
  p <- curproc;;
  pr <- getp p;;
  a7 <- ld64 (p_trapframe pr + tf_a 7);;
  let num := i32 a7 in
  let handler :=
    if (0 <? num) && (num <? Z.of_nat (length syscalls)) then default None (syscalls !! Z.to_nat num)
    else None in
  match handler with
  | Some f => r <- f;; pr <- getp p;; st64 (p_trapframe pr + tf_a 0) r
  | None =>
      printf (cstr_nl "%d %s: unknown sys call %d") [AInt (p_pid pr); AStr (Some (p_name pr)); AInt num];;
      st64 (p_trapframe pr + tf_a 0) (-1)
  end.

(** A trap from user space, up to the return there. *)
Definition usertrap : K Z :=
  st <- r_sstatus;;
  if negb (Z.land st SSTATUS_SPP =? 0) then panic "usertrap: not from user mode" else
  im <- gets img;;
  w_stvec (kernelvec_addr im);;
  p <- curproc;;
  pr <- getp p;;
  (* save user program counter. *)
  sepc <- r_sepc;;
  st64 (p_trapframe pr + tf_epc) sepc;;
  scause <- r_scause;;
  which_dev <-
    (if scause =? 8 then
       (* system call *)
       k <- killed p;;
       when (truthy k) (exit (-1));;
       epc <- ld64 (p_trapframe pr + tf_epc);;
       st64 (p_trapframe pr + tf_epc) (u64 (epc + 4));;
       intr_on;;
       syscall;;
       ret 0
     else
       d <- devintr;;
       when (d =? 0)
         (scause <- r_scause;;
          printf (cstr_nl "usertrap(): unexpected scause %p pid=%d") [APtr scause; AInt (p_pid pr)];;
          sepc <- r_sepc;;
          stval <- r_stval;;
          printf (cstr_nl "            sepc=%p stval=%p") [APtr sepc; APtr stval];;
          setkilled p);;
       ret d);;
  k <- killed p;;
  when (truthy k) (exit (-1));;
  (* give up the CPU if this is a timer interrupt. *)
  when (which_dev =? 2) yield;;
  usertrapret.

Definition kerneltrap : K unit :=
  sepc <- r_sepc;;
  sstatus <- r_sstatus;;
  scause <- r_scause;;
  if Z.land sstatus SSTATUS_SPP =? 0 then panic "kerneltrap: not from supervisor mode" else
  on <- intr_get;;
  if on : bool then panic "kerneltrap: interrupts enabled" else
  which_dev <- devintr;;
  if which_dev =? 0 then
    printf (cstr_nl "scause %p") [APtr scause];;
    sepc' <- r_sepc;;
    stval <- r_stval;;
    printf (cstr_nl "sepc=%p stval=%p") [APtr sepc'; APtr stval];;
    panic "kerneltrap"
  else
    (* give up the CPU if this is a timer interrupt. *)
    me <- myproc;;
    (match me with
     | Some p =>
         pr <- getp p;;
         when ((which_dev =? 2) && bool_decide (p_state pr = RUNNING)) yield
     | None => ret tt
     end);;
    (* the yield() may have caused some traps to occur,
       so restore trap registers for use by kernelvec.S's sepc instruction. *)
    w_sepc sepc;;
    w_sstatus sstatus.

(** ** kernel/proc.c: a fork child's very first scheduling *)

Definition forkret : K Z :=
  p <- curproc;;
  release (LProc p);;
  f <- gets first;;
  when f
    ((* File system initialization must be run in the context of a regular
        process, and thus cannot be run from main(). *)
     fsinit ROOTDEV;;
     modify (set_first false));;
  usertrapret.

(** ** kernel/main.c *)

(** What hart 0 does before it enters the scheduler. *)
Definition main : K unit :=
  consoleinit;;
  printfinit;;
  printf nl [];;
  printf (cstr_nl "xv6 kernel is booting") [];;
  printf nl [];;
  kinit;;
  kvminit;;
  kvminithart;;
  procinit;;
  trapinit;;
  trapinithart;;
  plicinit;;
  plicinithart;;
  binit;;
  iinit;;
  fileinit;;
  virtio_disk_init;;
  userinit.

(** What the other harts do once hart 0 has set [started]. *)
Definition main_hart : K unit :=
  h <- cpuid;;
  printf (cstr_nl "hart %d starting") [AInt h];;
  kvminithart;;
  trapinithart;;
  plicinithart.
End with_disk.
