(* ===== verification/SyscallSpec.v ===== *)
(** The error paths of system calls: a call that is rejected returns -1 to the user and
    leaves the kernel as it was. *)

From S2P Require Import Prelude Outcome Mem State Spinlock KString Kalloc Vm VmSpec UserMem VmCopy Proc ProcSpec Sleeplock Calm Bytes Disk Bio Log LogWrite Uart Printf PrintfSpec Console ConsoleSpec Fs FsData Pipe File ProcLife Exec Syscall Sysfile Trap.

(** ** Arguments *)

(** A process enters the kernel with no lock held. *)
Record entry (s : kernel) (p : nat) (root : Z) (t : ptree) : Prop := {
  en_reader : reader s p root t;
  en_len : length (procs s) = NPROC;
  en_locks : locks s = ∅
}.

(** The registers of the user. *)
Definition reg_a (s : kernel) (p : nat) (n : Z) : Z := load64 (mem s) (p_trapframe (procs s !!! p) + tf_a n).

Section entry.
Context (s : kernel) (p : nat) (root : Z) (t : ptree) (Hs : entry s p root t).

Lemma entry_free lk : locks s !! lk = None.
Proof. by rewrite (en_locks _ _ _ _ Hs). Qed.

Lemma entry_irq : irq_ok s.
Proof. apply Hs. Qed.

Lemma entry_settled : settle s = s.
Proof. apply Hs. Qed.

Lemma entry_curproc : curproc s = Ret p s.
Proof.
  unfold curproc. rewrite (bind_Ret _ _ _ _ _ (myproc_eq s entry_irq)), entry_settled. by rewrite (rd_proc _ _ _ _ (en_reader _ _ _ _ Hs)).
Qed.

Lemma argraw_eq n : 0 <= n <= 5 -> argraw n s = Ret (reg_a s p n) s.
Proof.
  intros Hn. unfold argraw. rewrite (bind_Ret _ _ _ _ _ entry_curproc), (bind_Ret _ _ _ _ _ (eq_refl : getp p s = Ret (procs s !!! p) s)).
  destruct (Z.leb_spec 0 n), (Z.leb_spec n 5); (lia || done).
Qed.

Lemma argint_eq n : 0 <= n <= 5 -> argint n s = Ret (i32 (reg_a s p n)) s.
Proof. intros Hn. unfold argint. by rewrite (bind_Ret _ _ _ _ _ (argraw_eq n Hn)). Qed.

Lemma argstr_bad n max : 0 <= n <= 5 -> 0 <= max -> ustr (mem s) t (reg_a s p n) (Z.to_nat max) = None -> exists buf, argstr n max s = Ret (-1, buf) s.
Proof.
  intros Hn Hmax Hu. unfold argstr, argaddr. rewrite (bind_Ret _ _ _ _ _ (argraw_eq n Hn)). unfold fetchstr.
  rewrite (bind_Ret _ _ _ _ _ entry_curproc), (bind_Ret _ _ _ _ _ (eq_refl : getp p s = Ret (procs s !!! p) s)).
  destruct (en_reader _ _ _ _ Hs) as [_ _ _ Hroot Him Hrep _]. rewrite Hroot. assert (Hva : 0 <= reg_a s p n) by apply load64_range.
  destruct (copyinstr_loop (3 + Z.to_nat (max / PGSIZE)) s root t [] _ max Him Hrep Hva Hmax (copy_fuel _ _ Hmax)) as (bs & r & E & Hr).
  rewrite Hu in Hr. subst r. exists bs. by rewrite (bind_Ret _ _ _ _ _ (E : copyinstr root (reg_a s p n) max s = Ret (bs, -1) s)).
Qed.

(** The open file of a descriptor. *)
Definition ofile_at (fd : Z) : option nat :=
  if (fd <? 0) || (Z.of_nat NOFILE <=? fd) then None else p_ofile (procs s !!! p) !!! Z.to_nat fd.

Lemma argfd_eq n : 0 <= n <= 5 -> argfd n s = Ret ((fun f => (i32 (reg_a s p n), f)) <$> ofile_at (i32 (reg_a s p n))) s.
Proof.
  intros Hn. unfold argfd. rewrite (bind_Ret _ _ _ _ _ (argint_eq n Hn)). unfold ofile_at. destruct (_ || _); [done|].
  rewrite (bind_Ret _ _ _ _ _ entry_curproc), (bind_Ret _ _ _ _ _ (eq_refl : getp p s = Ret (procs s !!! p) s)). by destruct (p_ofile _ !!! _).
Qed.
End entry.

(** ** The calls that are rejected *)

(** Nobody commits, and there is room for one more operation. *)
Definition log_room (s : kernel) : Prop :=
  lg_committing (log s) = false /\ lh_n (log s) + (lg_outstanding (log s) + 1) * MAXOPBLOCKS <= LOGSIZE /\
  (lg_outstanding (log s) = 0 -> lh_n (log s) = 0).

(** Why the system call with a given number is rejected. *)
Inductive rejected (s : kernel) (p : nat) (t : ptree) : Z -> Prop :=
  | rej_fd num : num ∈ [5; 8; 10; 16; 21] -> ofile_at s p (i32 (reg_a s p 0)) = None -> rejected s p t num
  | rej_dup : None ∉ p_ofile (procs s !!! p) -> rejected s p t 10
  | rej_read f : ofile_at s p (i32 (reg_a s p 0)) = Some f -> f_readable (files s !!! f) = false -> rejected s p t 5
  | rej_write f : ofile_at s p (i32 (reg_a s p 0)) = Some f -> f_writable (files s !!! f) = false -> rejected s p t 16
  | rej_device num f d : num ∈ [5; 16] -> ofile_at s p (i32 (reg_a s p 0)) = Some f -> f_type (files s !!! f) = FD_DEVICE ->
      d = f_major (files s !!! f) -> d < 0 \/ NDEV <= d \/ default None (devsw s !! Z.to_nat d) = None -> rejected s p t num
  | rej_stat f : ofile_at s p (i32 (reg_a s p 0)) = Some f -> f_type (files s !!! f) ∈ [FD_PIPE; FD_NONE] -> rejected s p t 8
  | rej_path num : num ∈ [7; 15; 18; 19] -> ustr (mem s) t (reg_a s p 0) (Z.to_nat MAXPATH) = None -> rejected s p t num
  | rej_path_op num : num ∈ [9; 17; 20] -> log_room s -> ustr (mem s) t (reg_a s p 0) (Z.to_nat MAXPATH) = None -> rejected s p t num
  | rej_fork : Forall (fun q => p_state q <> UNUSED) (procs s) -> rejected s p t 1
  | rej_wait : Forall (fun q => p_parent q <> Some p) (procs s) -> rejected s p t 3
  | rej_pipe : (forall f, (f < NFILE)%nat -> f_ref (files s !!! f) <> 0) -> rejected s p t 4
  | rej_kill : Forall (fun q => p_pid q <> i32 (reg_a s p 0)) (procs s) -> rejected s p t 6.

Lemma scan_none {A R} (l : list A) (f : A -> K (option R)) s : (forall x, x ∈ l -> f x s = Ret None s) -> scan l f s = Ret None s.
Proof.
  induction l as [|x l IH]; intros Hf; [done|]. cbn [scan]. rewrite (bind_Ret _ _ _ _ _ (Hf x (list_elem_of_here _ _))).
  apply IH. intros y Hy. by apply Hf, list_elem_of_further.
Qed.

Section rejects.
Context `{Fuel} `{Disk} (Hfuel : (0 < fuel)%nat) (s : kernel) (p : nat) (root : Z) (t : ptree) (Hs : entry s p root t).

Lemma entry_release lk : release lk (acquired lk s) = Ret tt s.
Proof.
  clear Hfuel. pose proof (critical_eq lk (fun s0 => s0) s (entry_irq _ _ _ _ Hs) (entry_free _ _ _ _ Hs lk) ltac:(done) eq_refl) as E.
  cbv beta in E. by rewrite (entry_settled _ _ _ _ Hs) in E.
Qed.

Lemma fork_full : Forall (fun q => p_state q <> UNUSED) (procs s) -> sys_fork s = Ret (-1) s.
Proof.
  clear Hfuel. intros Hall. unfold sys_fork, fork. rewrite (bind_Ret _ _ _ _ _ (entry_curproc _ _ _ _ Hs)).
  assert (E : allocproc s = Ret None s).
  { unfold allocproc. assert (Ea : scan (seq 0 NPROC) alloc_scan s = Ret None s); [|by rewrite (bind_Ret _ _ _ _ _ Ea)].
    apply scan_none. intros i Hi%elem_of_seq. unfold alloc_scan. rewrite (bind_Ret _ _ _ _ _ (acquire_eq _ s (entry_free _ _ _ _ Hs _))).
    rewrite (bind_Ret _ _ _ _ _ (eq_refl : getp i (acquired (LProc i) s) = Ret (procs s !!! i) (acquired (LProc i) s))).
    rewrite decide_False; [by rewrite (bind_Ret _ _ _ _ _ (entry_release (LProc i)))|]. rewrite Forall_lookup in Hall. apply (Hall i), list_lookup_lookup_total_lt.
    rewrite (en_len _ _ _ _ Hs). lia. }
  by rewrite (bind_Ret _ _ _ _ _ E).
Qed.

Lemma pipe_no_file : (forall f, (f < NFILE)%nat -> f_ref (files s !!! f) <> 0) -> sys_pipe s = Ret (-1) s.
Proof.
  clear Hfuel. intros Hall. unfold sys_pipe. rewrite (bind_Ret _ _ _ _ _ (entry_curproc _ _ _ _ Hs)), (bind_Ret _ _ _ _ _ (argraw_eq _ _ _ _ Hs 0 ltac:(lia))).
  assert (E : filealloc s = Ret None s).
  { unfold filealloc. rewrite (bind_Ret _ _ _ _ _ (acquire_eq _ s (entry_free _ _ _ _ Hs _))).
    assert (Ea : scan (seq 0 NFILE) filealloc_one (acquired LFtable s) = Ret None (acquired LFtable s)).
    2:{ by rewrite (bind_Ret _ _ _ _ _ Ea), (bind_Ret _ _ _ _ _ (entry_release LFtable)). }
    apply scan_none. intros i Hi%elem_of_seq. unfold filealloc_one. rewrite (bind_Ret _ _ _ _ _ (eq_refl : getf i (acquired LFtable s) = Ret (files s !!! i) (acquired LFtable s))).
    destruct (Z.eqb_spec (f_ref (files s !!! i)) 0) as [E|]; [by apply Hall in E; [|lia]|done]. }
  unfold pipealloc. by rewrite (bind_bind_Ret _ _ _ _ _ _ E).
Qed.

Lemma kill_nobody : Forall (fun q => p_pid q <> i32 (reg_a s p 0)) (procs s) -> sys_kill s = Ret (-1) s.
Proof.
  clear Hfuel. intros Hall. unfold sys_kill. rewrite (bind_Ret _ _ _ _ _ (argint_eq _ _ _ _ Hs 0 ltac:(lia))).
  rewrite (kill_spec s _ (entry_irq _ _ _ _ Hs) (en_len _ _ _ _ Hs)) by (intros i _ _; apply (entry_free _ _ _ _ Hs)).
  rewrite (proj2 (find_index_None _ _)), (entry_settled _ _ _ _ Hs); [done|]. intros j q Hq. apply Z.eqb_neq. rewrite Forall_lookup in Hall. by apply (Hall j).
Qed.

Lemma wait_childless : Forall (fun q => p_parent q <> Some p) (procs s) -> sys_wait s = Ret (-1) s.
Proof.
  intros Hall. unfold sys_wait. rewrite (bind_Ret _ _ _ _ _ (argraw_eq _ _ _ _ Hs 0 ltac:(lia))). unfold wait.
  rewrite (bind_Ret _ _ _ _ _ (entry_curproc _ _ _ _ Hs)), (bind_Ret _ _ _ _ _ (acquire_eq _ s (entry_free _ _ _ _ Hs _))).
  set (addr := reg_a s p 0). assert (E : forall l, (forall i, i ∈ l -> (i < NPROC)%nat) -> wait_scan p addr l false (acquired LWait s) = Ret (None, false) (acquired LWait s)).
  { induction l as [|i l IH]; intros Hl; [done|]. cbn [wait_scan].
    rewrite (bind_Ret _ _ _ _ _ (eq_refl : getp i (acquired LWait s) = Ret (procs s !!! i) (acquired LWait s))), decide_False.
    - apply IH. intros j Hj. by apply Hl, list_elem_of_further.
    - rewrite Forall_lookup in Hall. apply (Hall i), list_lookup_lookup_total_lt. rewrite (en_len _ _ _ _ Hs). apply Hl, list_elem_of_here. }
  destruct fuel as [|f]; [lia|]. apply iter_exit. unfold wait_body. rewrite (bind_Ret _ _ _ _ _ (E (seq 0 NPROC) ltac:(intros i Hi%elem_of_seq; lia))).
  cbn [negb]. rewrite (bind_Ret _ _ _ _ _ (eq_refl : ret true (acquired LWait s) = Ret true (acquired LWait s))). by rewrite (bind_Ret _ _ _ _ _ (entry_release LWait)).
Qed.
(** A call on a descriptor that is not open. *)
Lemma bad_fd : ofile_at s p (i32 (reg_a s p 0)) = None ->
  sys_read s = Ret (-1) s /\ sys_fstat s = Ret (-1) s /\ sys_dup s = Ret (-1) s /\ sys_write s = Ret (-1) s /\ sys_close s = Ret (-1) s.
Proof.
  clear Hfuel. intros E. pose proof (argfd_eq _ _ _ _ Hs 0 ltac:(lia)) as Ef. rewrite E in Ef. cbn in Ef. unfold sys_read, sys_fstat, sys_dup, sys_write, sys_close, argaddr.
  pose proof (argraw_eq _ _ _ _ Hs 1 ltac:(lia)) as E1. pose proof (argint_eq _ _ _ _ Hs 2 ltac:(lia)) as E2.
  rewrite !(bind_Ret _ _ _ _ _ E1), !(bind_Ret _ _ _ _ _ E2), !(bind_Ret _ _ _ _ _ Ef). done.
Qed.

(** The calls on a descriptor that is open. *)
Lemma open_fd f : ofile_at s p (i32 (reg_a s p 0)) = Some f ->
  sys_read s = fileread f (reg_a s p 1) (i32 (reg_a s p 2)) s /\ sys_write s = filewrite f (reg_a s p 1) (i32 (reg_a s p 2)) s /\
  sys_fstat s = filestat f (reg_a s p 1) s.
Proof.
  clear Hfuel. intros E. pose proof (argfd_eq _ _ _ _ Hs 0 ltac:(lia)) as Ef. rewrite E in Ef. cbn in Ef. unfold sys_read, sys_fstat, sys_write, argaddr.
  pose proof (argraw_eq _ _ _ _ Hs 1 ltac:(lia)) as E1. pose proof (argint_eq _ _ _ _ Hs 2 ltac:(lia)) as E2.
  by rewrite !(bind_Ret _ _ _ _ _ E1), !(bind_Ret _ _ _ _ _ E2), !(bind_Ret _ _ _ _ _ Ef).
Qed.

Lemma dup_full : None ∉ p_ofile (procs s !!! p) -> sys_dup s = Ret (-1) s.
Proof.
  clear Hfuel. intros Hn. destruct (ofile_at s p (i32 (reg_a s p 0))) as [f|] eqn:E; [|by apply bad_fd].
  pose proof (argfd_eq _ _ _ _ Hs 0 ltac:(lia)) as Ef. rewrite E in Ef. cbn in Ef. unfold sys_dup. rewrite (bind_Ret _ _ _ _ _ Ef).
  assert (Ed : fdalloc f s = Ret (-1) s); [|by rewrite (bind_Ret _ _ _ _ _ Ed)]. unfold fdalloc.
  rewrite (bind_Ret _ _ _ _ _ (entry_curproc _ _ _ _ Hs)), (bind_Ret _ _ _ _ _ (eq_refl : getp p s = Ret (procs s !!! p) s)).
  rewrite (proj2 (find_index_None _ _)); [done|]. intros j o Ho. apply bool_decide_false. intros ->. by apply Hn, (list_elem_of_lookup_2 _ j).
Qed.

Lemma no_driver f a n : f_type (files s !!! f) = FD_DEVICE ->
  (let d := f_major (files s !!! f) in d < 0 \/ NDEV <= d \/ default None (devsw s !! Z.to_nat d) = None) ->
  fileread f a n s = Ret (-1) s /\ filewrite f a n s = Ret (-1) s.
Proof.
  clear Hfuel Hs. intros Ht Hd. cbv zeta in Hd. assert (Edrv : dev_driver (f_major (files s !!! f)) s = Ret None s).
  { unfold dev_driver. destruct (Z.ltb_spec (f_major (files s !!! f)) 0); [done|]. destruct (Z.leb_spec NDEV (f_major (files s !!! f))); [done|]. cbn [orb].
    destruct Hd as [?|[?|Hd]]; [lia|lia|]. unfold gets. by rewrite Hd. }
  unfold fileread, filewrite. rewrite !(bind_Ret _ _ _ _ _ (eq_refl : getf f s = Ret (files s !!! f) s)), Ht.
  by destruct (f_readable _), (f_writable _); cbn [negb]; rewrite ?(bind_Ret _ _ _ _ _ Edrv).
Qed.

Lemma bad_path : ustr (mem s) t (reg_a s p 0) (Z.to_nat MAXPATH) = None ->
  sys_exec s = Ret (-1) s /\ sys_open s = Ret (-1) s /\ sys_unlink s = Ret (-1) s /\ sys_link s = Ret (-1) s.
Proof.
  clear Hfuel. intros Hu. destruct (argstr_bad _ _ _ _ Hs 0 MAXPATH ltac:(lia) ltac:(done) Hu) as [buf E]. unfold sys_exec, sys_open, sys_unlink, sys_link, argaddr.
  pose proof (argraw_eq _ _ _ _ Hs 1 ltac:(lia)) as E1. pose proof (argint_eq _ _ _ _ Hs 1 ltac:(lia)) as E2.
  by rewrite (bind_Ret _ _ _ _ _ E1), (bind_Ret _ _ _ _ _ E2), !(bind_Ret _ _ _ _ _ E).
Qed.
(** The calls that look at their path inside an operation: they may wake the processes that
    wait for room in the log. *)
Lemma bad_path_op : log_room s -> ustr (mem s) t (reg_a s p 0) (Z.to_nat MAXPATH) = None ->
  sys_chdir s = Ret (-1) (woken ChLog s) /\ sys_mknod s = Ret (-1) (woken ChLog s) /\ sys_mkdir s = Ret (-1) (woken ChLog s).
Proof.
  intros (Hc & Hroom & Hempty) Hu. pose proof (begin_op_eq Hfuel s (entry_irq _ _ _ _ Hs) (entry_settled _ _ _ _ Hs) (entry_free _ _ _ _ Hs _) Hc Hroom) as Eb.
  set (lg1 := set_lg_outstanding _ _) in Eb. set (s1 := set_log lg1 s) in Eb.
  assert (Hs1 : entry s1 p root t). { destruct Hs as [[? Hset ? ? ? ? ?] ? ?]. split; [|done|done]. split; try done. change (settle (set_log lg1 s) = set_log lg1 s). by rewrite <- settle_blind, Hset. }
  assert (Hw1 : can_wake s1) by (split; [apply Hs1|apply Hs1|intros i _ _; apply (entry_free _ _ _ _ Hs1)]).
  destruct (argstr_bad _ _ _ _ Hs1 0 MAXPATH ltac:(lia) ltac:(done) Hu) as [buf Ea].
  assert (Ee : end_op s1 = Ret tt (woken ChLog s)).
  { rewrite (end_op_eq s1 Hw1 (entry_settled _ _ _ _ Hs1) (entry_free _ _ _ _ Hs1 _) Hc) by (intros Eo; apply Hempty; cbn in Eo; lia). f_equal.
    assert (El : set_lg_outstanding (lg_outstanding lg1 - 1) lg1 = log s) by (unfold lg1; destruct (log s); cbn; by rewrite Z.add_simpl_r).
    change (log s1) with lg1. rewrite El. by destruct s. }
  unfold sys_chdir, sys_mknod, sys_mkdir. pose proof (argint_eq _ _ _ _ Hs1 1 ltac:(lia)) as E1. pose proof (argint_eq _ _ _ _ Hs1 2 ltac:(lia)) as E2.
  rewrite (bind_Ret _ _ _ _ _ (entry_curproc _ _ _ _ Hs)), !(bind_Ret _ _ _ _ _ Eb), (bind_Ret _ _ _ _ _ E1), (bind_Ret _ _ _ _ _ E2), !(bind_Ret _ _ _ _ _ Ea).
  change (-1 <? 0) with true. cbv iota. rewrite !(bind_Ret _ _ _ _ _ (eq_refl : ret None s1 = Ret None s1)), !(bind_Ret _ _ _ _ _ Ee). done.
Qed.

(** What a rejected call does, found by its number. *)
Lemma rejected_handler num : rejected s p t num -> 0 < num < Z.of_nat (length syscalls) /\
  exists h s', syscalls !! Z.to_nat num = Some (Some h) /\ h s = Ret (-1) s' /\ (s' = s \/ s' = woken ChLog s).
Proof.
  intros Hr. destruct Hr as [num Hin Hf|Hn|f Hf Hm|f Hf Hm|num f d Hin Hf Ht -> Hd|f Hf Ht|num Hin Hu|num Hin Hl Hu|Hall|Hall|Hall|Hall].
  - destruct (bad_fd Hf) as (? & ? & ? & ? & ?). repeat (apply elem_of_cons in Hin as [->|Hin]; [split; [cbn; lia|]; eexists _, s; split; [reflexivity|]; auto|]). by apply elem_of_nil in Hin.
  - split; [cbn; lia|]. eexists _, s. split; [reflexivity|]. split; [by apply dup_full|auto].
  - split; [cbn; lia|]. eexists _, s. split; [reflexivity|]. split; [|auto]. destruct (open_fd f Hf) as (-> & _). unfold fileread.
    by rewrite (bind_Ret _ _ _ _ _ (eq_refl : getf f s = Ret (files s !!! f) s)), Hm.
  - split; [cbn; lia|]. eexists _, s. split; [reflexivity|]. split; [|auto]. destruct (open_fd f Hf) as (_ & -> & _). unfold filewrite.
    by rewrite (bind_Ret _ _ _ _ _ (eq_refl : getf f s = Ret (files s !!! f) s)), Hm.
  - destruct (open_fd f Hf) as (Er & Ew & _). destruct (no_driver f (reg_a s p 1) (i32 (reg_a s p 2)) Ht Hd) as [E1 E2]. rewrite E1 in Er. rewrite E2 in Ew.
    repeat (apply elem_of_cons in Hin as [->|Hin]; [split; [cbn; lia|]; eexists _, s; split; [reflexivity|]; auto|]). by apply elem_of_nil in Hin.
  - split; [cbn; lia|]. eexists _, s. split; [reflexivity|]. split; [|auto]. destruct (open_fd f Hf) as (_ & _ & ->). unfold filestat.
    rewrite (bind_Ret _ _ _ _ _ (entry_curproc _ _ _ _ Hs)), (bind_Ret _ _ _ _ _ (eq_refl : getf f s = Ret (files s !!! f) s)).
    apply elem_of_cons in Ht as [->|Ht]; [done|]. by apply list_elem_of_singleton in Ht as ->.
  - destruct (bad_path Hu) as (? & ? & ? & ?). repeat (apply elem_of_cons in Hin as [->|Hin]; [split; [cbn; lia|]; eexists _, s; split; [reflexivity|]; auto|]). by apply elem_of_nil in Hin.
  - destruct (bad_path_op Hl Hu) as (? & ? & ?). repeat (apply elem_of_cons in Hin as [->|Hin]; [split; [cbn; lia|]; eexists _, (woken ChLog s); split; [reflexivity|]; auto|]). by apply elem_of_nil in Hin.
  - split; [cbn; lia|]. eexists _, s. split; [reflexivity|]. split; [by apply fork_full|auto].
  - split; [cbn; lia|]. eexists _, s. split; [reflexivity|]. split; [by apply wait_childless|auto].
  - split; [cbn; lia|]. eexists _, s. split; [reflexivity|]. split; [by apply pipe_no_file|auto].
  - split; [cbn; lia|]. eexists _, s. split; [reflexivity|]. split; [by apply kill_nobody|auto].
Qed.
End rejects.

Lemma woken_trapframe ch s i : p_trapframe (procs (woken ch s) !!! i) = p_trapframe (procs s !!! i).
Proof.
  unfold woken. cbn. rewrite !list_lookup_total_alt, list_lookup_imap. destruct (procs s !! i) as [pr|]; [|done]. cbn. unfold wake. by case_decide.
Qed.

Lemma syscall_enter `{Fuel} `{Disk} s p root t : entry s p root t -> forall (h : K Z) s',
  0 < i32 (reg_a s p 7) < Z.of_nat (length syscalls) -> syscalls !! Z.to_nat (i32 (reg_a s p 7)) = Some (Some h) ->
  h s = Ret (-1) s' -> syscall s = (pr <- getp p;; st64 (p_trapframe pr + tf_a 0) (-1)) s'.
Proof.
  intros Hs h s' Hn Hh E. unfold syscall. rewrite (bind_Ret _ _ _ _ _ (entry_curproc _ _ _ _ Hs)), (bind_Ret _ _ _ _ _ (eq_refl : getp p s = Ret (procs s !!! p) s)).
  rewrite (bind_Ret _ _ _ _ _ (eq_refl : ld64 (p_trapframe (procs s !!! p) + tf_a 7) s = Ret (reg_a s p 7) s)). cbv zeta. rewrite Hh.
  rewrite (proj2 (Z.ltb_lt 0 _)), (proj2 (Z.ltb_lt (i32 _) _)) by lia. exact (bind_Ret _ _ _ _ _ E).
Qed.

(** C18. The system calls that [rejected] lists: read, write, close, fstat and dup of a
    descriptor that is not open; read and write of a file that is not open for it, or of
    a device without a driver; fstat of a pipe; dup when all descriptors of the process are
    in use; pipe when all open files are; fork when all processes are; wait without a
    child; kill of a process that does not exist; and, with a first argument that is not
    a string in user memory, open, exec, link and unlink, and chdir, mkdir and mknod while
    the log has room.  Each returns -1 in the user's a0 and leaves everything else in the
    kernel as it was, but for processes it may have woken that wait for room in the log.
    An unknown number is reported on the console, and the call returns -1 too. *)
Theorem syscall_rejects `{Fuel} `{Disk} s p root t :
  (0 < fuel)%nat -> entry s p root t ->
  (rejected s p t (i32 (reg_a s p 7)) ->
    exists s', syscall s = Ret tt (set_mem (store64 (mem s) (p_trapframe (procs s !!! p) + tf_a 0) (-1)) s') /\ (s' = s \/ s' = woken ChLog s)) /\
  (i32 (reg_a s p 7) <= 0 \/ 21 < i32 (reg_a s p 7) -> panicked s = false ->
    syscall s = Ret tt (set_mem (store64 (mem s) (p_trapframe (procs s !!! p) + tf_a 0) (-1)) (sent (concat (cons_text <$>
      format_text (cstr_nl "%d %s: unknown sys call %d") [AInt (p_pid (procs s !!! p)); AStr (Some (p_name (procs s !!! p))); AInt (i32 (reg_a s p 7))])) s))).
Proof.
  intros Hf Hs. split.
  - intros Hr. destruct (rejected_handler Hf s p root t Hs _ Hr) as (Hn & h & s' & Hh & E & Hor). exists s'. split; [|done].
    rewrite (syscall_enter s p root t Hs h s' Hn Hh E). rewrite (bind_Ret _ _ _ _ _ (eq_refl : getp p s' = Ret (procs s' !!! p) s')).
    destruct Hor as [->| ->]; [done|]. rewrite woken_trapframe. done.
  - intros Hn Hup. unfold syscall. rewrite (bind_Ret _ _ _ _ _ (entry_curproc _ _ _ _ Hs)), (bind_Ret _ _ _ _ _ (eq_refl : getp p s = Ret (procs s !!! p) s)).
    rewrite (bind_Ret _ _ _ _ _ (eq_refl : ld64 (p_trapframe (procs s !!! p) + tf_a 7) s = Ret (reg_a s p 7) s)). cbv zeta. set (num := i32 (reg_a s p 7)) in *.
    assert (En : (0 <? num) && (num <? Z.of_nat (length syscalls)) = false).
    { apply andb_false_iff. change (Z.of_nat (length syscalls)) with 22. destruct Hn; [left; apply Z.ltb_ge; lia|right; apply Z.ltb_ge; lia]. }
    rewrite En. assert (Hp : printable s) by (split; [apply Hs|apply Hs|done]).
    rewrite (bind_Ret _ _ _ _ _ (printf_eq _ _ s Hp (entry_free _ _ _ _ Hs LPr))). done.
Qed.

(** ** A concrete process *)

(** Process 3 of the console example with its trapframe at the end of memory; a7 asks for close and
    a0 is a descriptor that is not open. *)
Definition ex_tf : Z := 0x87ff6000.
Definition ex_call (num a0 : Z) : kernel :=
  set_mem (store64 (store64 ex_mem (ex_tf + tf_a 7) num) (ex_tf + tf_a 0) a0)
    (set_procs (<[3%nat := set_p_trapframe ex_tf (set_p_pagetable ex_root proc0)]> (replicate NPROC proc0)) ex_cons_kernel).

#[local] Instance ex_call_fuel : Fuel := 1%nat.
#[local] Existing Instance sync_disk.

Lemma ex_call_entry : entry (ex_call 21 7) 3 ex_root ex_tree.
Proof.
  assert (Hr : pt_rep (img (ex_call 21 7)) (mem (ex_call 21 7)) ex_root ex_tree) by (apply pt_repb_sound; vm_compute; reflexivity).
  assert (Hu : user_sep (mem (ex_call 21 7)) ex_tree) by (apply user_sepb_sound; vm_compute; reflexivity).
  revert Hr Hu. unfold ex_call. generalize (store64 (store64 ex_mem (ex_tf + tf_a 7) 21) (ex_tf + tf_a 0) 7). intros m Hr Hu.
  split; [|reflexivity|reflexivity]. split; [|reflexivity|reflexivity|reflexivity|exact ex_image_ok|exact Hr|exact Hu].
  split; [apply Z.leb_le; reflexivity|discriminate].
Qed.

Lemma ex_call_rejected : rejected (ex_call 21 7) 3 ex_tree (i32 (reg_a (ex_call 21 7) 3 7)).
Proof.
  assert (E : i32 (reg_a (ex_call 21 7) 3 7) = 21) by (vm_compute; reflexivity). rewrite E.
  apply rej_fd; [do 4 apply list_elem_of_further; apply list_elem_of_here|vm_compute; reflexivity].
Qed.

Lemma syscall_rejects_witness : exists s', syscall (ex_call 21 7) =
    Ret tt (set_mem (store64 (mem (ex_call 21 7)) (p_trapframe (procs (ex_call 21 7) !!! 3%nat) + tf_a 0) (-1)) s') /\
  (s' = ex_call 21 7 \/ s' = woken ChLog (ex_call 21 7)).
Proof.
  assert (Hf : (0 < fuel)%nat) by (apply Nat.ltb_lt; reflexivity).
  exact (proj1 (syscall_rejects (ex_call 21 7) 3 ex_root ex_tree Hf ex_call_entry) ex_call_rejected).
Defined.
