(* ===== verification/Typing.v ===== *)
(** A type discipline for the kernel's tables.  [wf] says that every table has the size of
    its array in the source and that every pointer from one table into another points
    into it; [typed Q c] that the kernel code [c] keeps [wf] at every point where it
    leaves the processor and returns a result in [Q], whatever well-formed state the other
    threads leave when it is resumed.  This file has the rules; KernelTyping.v applies
    them to every function of the kernel. *)

From S2P Require Import Prelude Outcome Mem State.

(** ** Well-formed tables *)

Definition pidx (i : nat) : Prop := (i < NPROC)%nat.
Definition fidx (i : nat) : Prop := (i < NFILE)%nat.
Definition iidx (i : nat) : Prop := (i < NINODE)%nat.
(** The buffers and the head of their list. *)
Definition bidx (i : nat) : Prop := (i < S NBUF)%nat.

(** A pointer that may be null. *)
Definition opt {A} (P : A -> Prop) (o : option A) : Prop := match o with Some x => P x | None => True end.
Definition any {A} (_ : A) : Prop := True.

Record proc_ok (pr : proc) : Prop := {
  po_nofile : length (p_ofile pr) = NOFILE;
  po_ofile : Forall (opt fidx) (p_ofile pr);
  po_cwd : opt iidx (p_cwd pr);
  po_parent : opt pidx (p_parent pr);
  po_name : length (p_name pr) = 16%nat;
  po_context : length (ctx_s (p_context pr)) = 12%nat
}.

Definition file_ok (f : file) : Prop := opt iidx (f_ip f).

Definition inode_ok (i : inode) : Prop := length (i_addrs i) = 13%nat.

Record buf_ok (b : buf) : Prop := {
  bo_prev : bidx (b_prev b);
  bo_next : bidx (b_next b);
  bo_data : length (b_data b) = Z.to_nat BSIZE
}.

Record log_ok (lg : logst) : Prop := {
  lo_block : length (lh_block lg) = Z.to_nat LOGSIZE;
  lo_n : lh_n lg <= LOGSIZE
}.

Definition u32_ok (x : Z) : Prop := 0 <= x < 2 ^ 32.

Record console_ok (c : console) : Prop := {
  co_buf : length (cons_buf c) = 128%nat;
  co_r : u32_ok (cons_r c);
  co_w : u32_ok (cons_w c);
  co_e : u32_ok (cons_e c)
}.

Definition uart_ok (u : uart) : Prop := length (uart_tx_buf u) = 32%nat.

Record vdisk_ok (v : vdisk) : Prop := {
  vo_desc : length (vd_desc v) = NUM;
  vo_avail : length (vd_avail_ring v) = NUM;
  vo_used : length (vd_used_ring v) = NUM;
  vo_free : length (vd_free v) = NUM;
  vo_nb : length (vd_info_b v) = NUM;
  vo_b : Forall (opt bidx) (vd_info_b v);
  vo_status : length (vd_info_status v) = NUM;
  vo_ops : length (vd_ops v) = NUM
}.

Definition block_ok (bs : list Z) : Prop := length bs = Z.to_nat BSIZE.

(** All tables of the kernel. *)
Record wf (s : kernel) : Prop := {
  wf_nproc : length (procs s) = NPROC;
  wf_procs : Forall proc_ok (procs s);
  wf_cpu : opt pidx (c_proc (cpu_ s));
  wf_initproc : opt pidx (initproc s);
  wf_nfile : length (files s) = NFILE;
  wf_files : Forall file_ok (files s);
  wf_devsw : length (devsw s) = Z.to_nat NDEV;
  wf_ninode : length (inodes s) = NINODE;
  wf_inodes : Forall inode_ok (inodes s);
  wf_nbuf : length (bufs s) = S NBUF;
  wf_bufs : Forall buf_ok (bufs s);
  wf_log : log_ok (log s);
  wf_ticks : u32_ok (ticks s);
  wf_cons : console_ok (cons s);
  wf_uart : uart_ok (uart_ s);
  wf_vdisk : vdisk_ok (vdisk_ s);
  wf_disk : map_Forall (fun _ => block_ok) (disk s)
}.

(** ** Typed code *)

Fixpoint typed_out {A} (Q : A -> Prop) (o : outcome kernel A) : Prop :=
  match o with
  | Ret a s => wf s /\ Q a
  | Stop _ => True
  | Yield s k => wf s /\ forall s', wf s' -> typed_out Q (k s')
  end.

Definition typed {A} (Q : A -> Prop) (c : K A) : Prop := forall s, wf s -> typed_out Q (c s).

Section rules.
Context {A B : Type}.

Lemma typed_out_bind (P : A -> Prop) (Q : B -> Prop) (k : A -> K B) o :
  typed_out P o -> (forall a, P a -> typed Q (k a)) -> typed_out Q (obind o k).
Proof.
  intros Ho Hk. induction o as [a s|h|s c IH]; cbn in *; [|done|].
  - destruct Ho as [Hw Hp]. by apply (Hk a).
  - destruct Ho as [Hw Hc]. split; [done|]. intros s' Hs'. by apply IH, Hc.
Qed.

Lemma typed_bind (P : A -> Prop) (Q : B -> Prop) c (k : A -> K B) :
  typed P c -> (forall a, P a -> typed Q (k a)) -> typed Q (bind c k).
Proof. intros Hc Hk s Hs. apply (typed_out_bind P); [by apply Hc|done]. Qed.

Lemma typed_weaken (P Q : A -> Prop) c : typed P c -> (forall a, P a -> Q a) -> typed Q c.
Proof.
  intros Hc HPQ s Hs. specialize (Hc s Hs). induction (c s) as [a s'|h|s' k IH]; cbn in *; [|done|].
  - destruct Hc. auto.
  - destruct Hc as [? Hc]. split; [done|]. intros s'' Hs''. by apply IH, Hc.
Qed.

Lemma typed_any (P : A -> Prop) c : typed P c -> typed any c.
Proof. intros Hc. by apply (typed_weaken P). Qed.

Lemma typed_ret (Q : A -> Prop) a : Q a -> typed Q (ret a).
Proof. by intros Ha s Hs. Qed.

Lemma typed_halt (Q : A -> Prop) h : typed Q (halt h).
Proof. by intros s Hs. Qed.

Lemma typed_gets (Q : A -> Prop) f : (forall s, wf s -> Q (f s)) -> typed Q (gets f).
Proof. intros Hf s Hs. split; [done|by apply Hf]. Qed.
End rules.

Lemma typed_modify f : (forall s, wf s -> wf (f s)) -> typed any (modify f).
Proof. intros Hf s Hs. split; [by apply Hf|done]. Qed.

Lemma typed_swtch : typed any swtch.
Proof. intros s Hs. split; [done|]. intros s' Hs'. by split. Qed.

Lemma typed_when b c : typed any c -> typed any (when b c).
Proof. destruct b; [done|]. intros _. by apply typed_ret. Qed.

Lemma typed_for_each {X} (l : list X) body : (forall x, x ∈ l -> typed any (body x)) -> typed any (for_each l body).
Proof.
  induction l as [|x l IH]; intros Hb; cbn [for_each]; [by apply typed_ret|].
  apply (typed_bind any); [apply Hb, list_elem_of_here|]. intros _ _. apply IH. intros y Hy. by apply Hb, list_elem_of_further.
Qed.

Lemma typed_scan {X R} (Q : R -> Prop) (l : list X) body :
  (forall x, x ∈ l -> typed (opt Q) (body x)) -> typed (opt Q) (scan l body).
Proof.
  induction l as [|x l IH]; intros Hb; cbn [scan]; [by apply typed_ret|].
  apply (typed_bind (opt Q)); [apply Hb, list_elem_of_here|]. intros [v|] Hv; [by apply typed_ret|]. apply IH. intros y Hy. by apply Hb, list_elem_of_further.
Qed.

(** The state of a loop and its result. *)
Definition either {I R} (J : I -> Prop) (Q : R -> Prop) (x : I + R) : Prop := match x with inl i => J i | inr v => Q v end.

Lemma typed_iter {I R} (J : I -> Prop) (Q : R -> Prop) body : (forall i, J i -> typed (either J Q) (body i)) ->
  forall n i, J i -> typed Q (iter n body i).
Proof.
  intros Hb n. induction n as [|n IH]; intros i Hi; cbn [iter]; [apply typed_halt|].
  apply (typed_bind (either J Q)); [by apply Hb|]. intros [i'|v] Hr; [by apply IH|by apply typed_ret].
Qed.

(** ** Tables *)

Lemma Forall_alter {A} (P : A -> Prop) f i l : Forall P l -> (forall x, P x -> P (f x)) -> Forall P (alter f i l).
Proof.
  rewrite !Forall_lookup. intros Hl Hf k x. destruct (decide (k = i)) as [->|Hne].
  - rewrite list_lookup_alter_eq. destruct (l !! i) as [y|] eqn:E; [|done]. cbn. intros [= <-]. by apply Hf, (Hl i).
  - rewrite list_lookup_alter_ne by done. apply Hl.
Qed.

Lemma Forall_total {A} `{Inhabited A} (P : A -> Prop) l i : Forall P l -> P inhabitant -> P (l !!! i).
Proof.
  intros Hl Hi. rewrite list_lookup_total_alt. destruct (l !! i) as [x|] eqn:E; [|done]. rewrite Forall_lookup in Hl. by apply (Hl i).
Qed.

Lemma proc0_ok : proc_ok proc0.
Proof. split; try done. by apply Forall_replicate. Qed.
Lemma buf0_ok : buf_ok buf0.
Proof. split; try done; unfold bidx; cbn; lia. Qed.

Section tables.
Context (s : kernel) (Hs : wf s).

Lemma wf_proc i : proc_ok (procs s !!! i).
Proof. apply Forall_total; [apply Hs|apply proc0_ok]. Qed.
Lemma wf_file i : file_ok (files s !!! i).
Proof. apply Forall_total; [apply Hs|done]. Qed.
Lemma wf_inode i : inode_ok (inodes s !!! i).
Proof. apply Forall_total; [apply Hs|done]. Qed.
Lemma wf_buf i : buf_ok (bufs s !!! i).
Proof. apply Forall_total; [apply Hs|apply buf0_ok]. Qed.

Lemma wf_set_procs P : length P = NPROC -> Forall proc_ok P -> wf (set_procs P s).
Proof. destruct Hs. by split. Qed.
Lemma wf_set_files F : length F = NFILE -> Forall file_ok F -> wf (set_files F s).
Proof. destruct Hs. by split. Qed.
Lemma wf_set_inodes I : length I = NINODE -> Forall inode_ok I -> wf (set_inodes I s).
Proof. destruct Hs. by split. Qed.
Lemma wf_set_bufs B : length B = S NBUF -> Forall buf_ok B -> wf (set_bufs B s).
Proof. destruct Hs. by split. Qed.
Lemma wf_set_cpu_ c : opt pidx (c_proc c) -> wf (set_cpu_ c s).
Proof. destruct Hs. by split. Qed.
Lemma wf_set_initproc o : opt pidx o -> wf (set_initproc o s).
Proof. destruct Hs. by split. Qed.
Lemma wf_set_devsw d : length d = Z.to_nat NDEV -> wf (set_devsw d s).
Proof. destruct Hs. by split. Qed.
Lemma wf_set_log lg : log_ok lg -> wf (set_log lg s).
Proof. destruct Hs. by split. Qed.
Lemma wf_set_ticks t : u32_ok t -> wf (set_ticks t s).
Proof. destruct Hs. by split. Qed.
Lemma wf_set_cons c : console_ok c -> wf (set_cons c s).
Proof. destruct Hs. by split. Qed.
Lemma wf_set_uart_ u : uart_ok u -> wf (set_uart_ u s).
Proof. destruct Hs. by split. Qed.
Lemma wf_set_vdisk_ v : vdisk_ok v -> wf (set_vdisk_ v s).
Proof. destruct Hs. by split. Qed.
Lemma wf_set_disk d : map_Forall (fun _ => block_ok) d -> wf (set_disk d s).
Proof. destruct Hs. by split. Qed.
Lemma wf_set_sie b : wf (set_sie b s).
Proof. destruct Hs. by split. Qed.
Lemma wf_set_csr c : wf (set_csr c s).
Proof. destruct Hs. by split. Qed.
Lemma wf_set_locks l : wf (set_locks l s).
Proof. destruct Hs. by split. Qed.
Lemma wf_set_mem m : wf (set_mem m s).
Proof. destruct Hs. by split. Qed.
Lemma wf_set_freelist x : wf (set_freelist x s).
Proof. destruct Hs. by split. Qed.
Lemma wf_set_kernel_pagetable x : wf (set_kernel_pagetable x s).
Proof. destruct Hs. by split. Qed.
Lemma wf_set_nextpid x : wf (set_nextpid x s).
Proof. destruct Hs. by split. Qed.
Lemma wf_set_first x : wf (set_first x s).
Proof. destruct Hs. by split. Qed.
Lemma wf_set_sb x : wf (set_sb x s).
Proof. destruct Hs. by split. Qed.
Lemma wf_set_disk_writes x : wf (set_disk_writes x s).
Proof. destruct Hs. by split. Qed.
Lemma wf_set_pr_locking x : wf (set_pr_locking x s).
Proof. destruct Hs. by split. Qed.
Lemma wf_set_panicked x : wf (set_panicked x s).
Proof. destruct Hs. by split. Qed.
Lemma wf_set_plic_irq x : wf (set_plic_irq x s).
Proof. destruct Hs. by split. Qed.
End tables.

Lemma typed_getp i : typed proc_ok (getp i).
Proof. apply typed_gets. intros s Hs. by apply wf_proc. Qed.
Lemma typed_getf i : typed file_ok (getf i).
Proof. apply typed_gets. intros s Hs. by apply wf_file. Qed.
Lemma typed_geti i : typed inode_ok (geti i).
Proof. apply typed_gets. intros s Hs. by apply wf_inode. Qed.
Lemma typed_getb i : typed buf_ok (getb i).
Proof. apply typed_gets. intros s Hs. by apply wf_buf. Qed.

Lemma typed_log : typed log_ok (gets log).
Proof. apply typed_gets. intros s Hs. apply Hs. Qed.
Lemma typed_cons : typed console_ok (gets cons).
Proof. apply typed_gets. intros s Hs. apply Hs. Qed.
Lemma typed_vdisk : typed vdisk_ok (gets vdisk_).
Proof. apply typed_gets. intros s Hs. apply Hs. Qed.

Lemma typed_modp i f : (forall pr, proc_ok pr -> proc_ok (f pr)) -> typed any (modp i f).
Proof.
  intros Hf. apply typed_modify. intros s Hs. apply wf_set_procs; [done|rewrite length_alter; apply Hs|apply Forall_alter; [apply Hs|done]].
Qed.
Lemma typed_modf i f : (forall x, file_ok x -> file_ok (f x)) -> typed any (modf i f).
Proof.
  intros Hf. apply typed_modify. intros s Hs. apply wf_set_files; [done|rewrite length_alter; apply Hs|apply Forall_alter; [apply Hs|done]].
Qed.
Lemma typed_modi i f : (forall x, inode_ok x -> inode_ok (f x)) -> typed any (modi i f).
Proof.
  intros Hf. apply typed_modify. intros s Hs. apply wf_set_inodes; [done|rewrite length_alter; apply Hs|apply Forall_alter; [apply Hs|done]].
Qed.
Lemma typed_modb i f : (forall x, buf_ok x -> buf_ok (f x)) -> typed any (modb i f).
Proof.
  intros Hf. apply typed_modify. intros s Hs. apply wf_set_bufs; [done|rewrite length_alter; apply Hs|apply Forall_alter; [apply Hs|done]].
Qed.
Lemma typed_modl f : (forall x, log_ok x -> log_ok (f x)) -> typed any (modl f).
Proof. intros Hf. apply typed_modify. intros s Hs. apply wf_set_log; [done|]. apply Hf, Hs. Qed.

(** ** Automation *)

Create HintDb typed.
#[export] Hint Resolve typed_getp typed_getf typed_geti typed_getb typed_swtch typed_log typed_cons typed_vdisk : typed.
Lemma u32_u32_ok x : u32_ok (u32 x).
Proof. apply Z.mod_pos_bound. lia. Qed.
#[export] Hint Resolve u32_u32_ok co_r co_w co_e : typed.
#[export] Hint Resolve po_cwd po_parent bo_prev bo_next : typed.

(** What the result of a function tells, after a case analysis. *)
Ltac ty_facts :=
  repeat match goal with
    | H : opt _ (Some _) |- _ => cbn [opt] in H
    | H : either _ _ (inl _) |- _ => cbn [either] in H
    | H : either _ _ (inr _) |- _ => cbn [either] in H
    | H : any _ |- _ => clear H
    | H : _ ∈ seq 0 _ |- _ => apply elem_of_seq in H
    | H : _ /\ _ |- _ => destruct H
    end.

(** A side condition: a pointer that is not wild, or a field that keeps its shape. *)
Ltac ty_side :=
  ty_facts; unfold any, file_ok, inode_ok, uart_ok, block_ok in *;
  match goal with
  | |- pidx _ => first [assumption | unfold pidx; lia | eauto with typed]
  | |- fidx _ => first [assumption | unfold fidx; lia | eauto with typed]
  | |- iidx _ => first [assumption | unfold iidx; lia | eauto with typed]
  | |- bidx _ => first [assumption | unfold bidx; cbn; lia | eauto with typed]
  | |- opt _ _ => cbn [opt]; first [assumption | exact I | done | ty_side | eauto with typed]
  | |- either _ _ _ => cbn [either]; first [done | ty_side]
  | |- _ /\ _ => split; ty_side
  | |- True => exact I
  | |- length _ = _ => cbn; rewrite ?length_insert, ?length_alter, ?length_replicate; first [assumption | done | eauto with typed]
  | |- forall x, proc_ok x -> proc_ok _ => intros ? [? ? ? ? ? ?]; split; cbn; ty_side
  | |- forall x, buf_ok x -> buf_ok _ => intros ? [? ? ?]; split; cbn; ty_side
  | |- forall x, console_ok x -> console_ok _ => intros ? [? ? ? ?]; split; cbn; ty_side
  | |- forall x, vdisk_ok x -> vdisk_ok _ => intros ? [? ? ? ? ? ? ? ?]; split; cbn; ty_side
  | |- forall x, log_ok x -> log_ok _ => intros ? [? ?]; split; cbn; ty_side
  | |- forall x, _ -> _ => intros ? ?; cbn; ty_side
  | |- Forall _ (<[_ := _]> _) => apply Forall_insert; [assumption|ty_side]
  | |- _ => first [assumption | done | eauto with typed]
  end.

(** A call: the rule of a table access, or the lemma that is in the database. *)
Ltac ty_call :=
  lazymatch goal with
  | |- typed _ (modp _ _) => apply typed_modp; ty_side
  | |- typed _ (modf _ _) => apply typed_modf; ty_side
  | |- typed _ (modi _ _) => apply typed_modi; ty_side
  | |- typed _ (modb _ _) => apply typed_modb; ty_side
  | |- typed _ (modl _) => apply typed_modl; ty_side
  | |- typed _ (modify _) => apply typed_modify; let s := fresh in let H := fresh in intros s H; repeat (first [apply wf_set_sie | apply wf_set_csr | apply wf_set_locks | apply wf_set_mem | apply wf_set_freelist | apply wf_set_kernel_pagetable | apply wf_set_nextpid | apply wf_set_first | apply wf_set_sb | apply wf_set_disk_writes | apply wf_set_pr_locking | apply wf_set_panicked | apply wf_set_plic_irq]); exact H
  | |- typed _ (gets _) => first [solve [eauto 2 with typed] | apply (typed_gets any); intros; exact I]
  | |- typed _ (getp _) => apply typed_getp
  | |- typed _ (getf _) => apply typed_getf
  | |- typed _ (geti _) => apply typed_geti
  | |- typed _ (getb _) => apply typed_getb
  | |- typed _ (bind _ _) => fail
  | |- typed _ (iter _ _ _) => fail
  | |- typed _ (match _ with _ => _ end) => fail
  | |- typed _ (ret _) => fail
  | |- typed _ _ => eauto 3 with typed
  end.

Ltac ty_step :=
  match goal with
  | |- forall _, _ => intros ?
  | |- typed _ (bind _ _) => eapply typed_bind; [solve [ty_call]|]
  | |- typed _ (bind _ _) => apply (typed_bind any)
  | |- typed _ (if ?b then _ else _) => destruct b eqn:?
  | |- typed _ (match ?x with _ => _ end) => destruct x eqn:?; ty_facts
  | |- typed _ (let x := _ in _) => cbv zeta
  | |- typed _ (ret _) => apply typed_ret; solve [ty_side]
  | |- typed _ (halt _) => apply typed_halt
  | |- typed _ (panic _) => apply typed_halt
  | |- typed _ (when _ _) => apply typed_when
  | |- typed _ (for_each _ _) => apply typed_for_each; intros ? ?; ty_facts
  | |- typed _ _ => solve [ty_call]
  | |- typed ?Q (iter _ _ _) => apply (typed_iter any Q); [intros ? _|exact I]
  | |- typed any _ => eapply typed_any; solve [ty_call]
  | |- typed _ _ => eapply typed_weaken; [solve [ty_call] | solve [ty_side]]
  end.
Ltac ty := repeat ty_step.

Lemma typed_ld8 a : typed any (ld8 a).
Proof. unfold ld8. ty. Qed.
Lemma typed_ld16 a : typed any (ld16 a).
Proof. unfold ld16. ty. Qed.
Lemma typed_ld32 a : typed any (ld32 a).
Proof. unfold ld32. ty. Qed.
Lemma typed_ld64 a : typed any (ld64 a).
Proof. unfold ld64. ty. Qed.
Lemma typed_st8 a v : typed any (st8 a v).
Proof. unfold st8. ty. Qed.
Lemma typed_st32 a v : typed any (st32 a v).
Proof. unfold st32. ty. Qed.
Lemma typed_st64 a v : typed any (st64 a v).
Proof. unfold st64. ty. Qed.
#[export] Hint Resolve typed_ld8 typed_ld16 typed_ld32 typed_ld64 typed_st8 typed_st32 typed_st64 : typed.
