(* ===== verification/KernelTyping.v ===== *)
(** Every function of the kernel is typed: the tables keep their shape and no pointer goes
    wild, in every kernel thread and whatever the threads interleave to. *)

From S2P Require Import Prelude Outcome Mem State Typing Spinlock KString Kalloc Vm Proc Sleeplock Bytes Disk Bio Log Uart Printf Console Virtio Fs FsData Pipe File ProcLife Exec Syscall Sysfile Trap.

(** What the buffer cache promises the rest of the kernel about the disk driver. *)
Class TypedDisk `{Disk} : Prop := typed_disk_rw b write : bidx b -> typed any (disk_rw b write).

(** ** Locks and the current process *)

Lemma typed_mod_mycpu f : (forall c, opt pidx (c_proc c) -> opt pidx (c_proc (f c))) -> typed any (mod_mycpu f).
Proof. intros Hf. apply typed_modify. intros s Hs. apply wf_set_cpu_; [done|]. apply Hf, Hs. Qed.

Lemma typed_mycpu : typed (fun c => opt pidx (c_proc c)) mycpu.
Proof. apply typed_gets. intros s Hs. apply Hs. Qed.
#[local] Hint Resolve typed_mycpu : typed.
#[local] Hint Extern 1 (typed any (mod_mycpu _)) => (apply typed_mod_mycpu; solve [ty_side]) : typed.

Lemma typed_intr_get : typed any intr_get.
Proof. unfold intr_get. ty. Qed.
Lemma typed_intr_on : typed any intr_on.
Proof. unfold intr_on. ty. Qed.
Lemma typed_intr_off : typed any intr_off.
Proof. unfold intr_off. ty. Qed.
Lemma typed_cpuid : typed any cpuid.
Proof. unfold cpuid, r_tp. ty. Qed.
Lemma typed_holding lk : typed any (holding lk).
Proof. unfold holding. ty. Qed.
#[local] Hint Resolve typed_intr_get typed_intr_on typed_intr_off typed_cpuid typed_holding : typed.
Lemma typed_push_off : typed any push_off.
Proof. unfold push_off. ty. Qed.
Lemma typed_pop_off : typed any pop_off.
Proof. unfold pop_off. ty. Qed.
#[local] Hint Resolve typed_push_off typed_pop_off : typed.
Lemma typed_initlock lk : typed any (initlock lk).
Proof. unfold initlock. ty. Qed.
Lemma typed_acquire lk : typed any (acquire lk).
Proof. unfold acquire. ty. Qed.
Lemma typed_release lk : typed any (release lk).
Proof. unfold release. ty. Qed.
Lemma typed_myproc : typed (opt pidx) myproc.
Proof. unfold myproc. ty. Qed.
#[local] Hint Resolve typed_initlock typed_acquire typed_release typed_myproc : typed.
Lemma typed_deref {A} (Q : A -> Prop) o : opt Q o -> typed Q (deref o).
Proof. destruct o; intros Ho; [exact (typed_ret _ _ Ho)|apply typed_halt]. Qed.
#[local] Hint Resolve typed_deref : typed.
Lemma typed_curproc : typed pidx curproc.
Proof. unfold curproc. ty. Qed.
#[local] Hint Resolve typed_curproc : typed.

(** ** Memory *)

Lemma typed_kmemset (dst c n : Z) : typed any (kmemset dst c n).
Proof. unfold kmemset. ty. Qed.
#[local] Hint Resolve typed_kmemset : typed.
Lemma typed_kmemmove (dst src n : Z) : typed any (kmemmove dst src n).
Proof. unfold kmemmove. ty. Qed.
#[local] Hint Resolve typed_kmemmove : typed.
Lemma typed_kfree (pa : Z) : typed any (kfree pa).
Proof. unfold kfree. ty. Qed.
#[local] Hint Resolve typed_kfree : typed.
Lemma typed_kalloc : typed any kalloc.
Proof. unfold kalloc. ty. Qed.
#[local] Hint Resolve typed_kalloc : typed.
Lemma typed_freerange_body (pa_end : Z) (p : Z) : typed (either any any) (freerange_body pa_end p).
Proof. unfold freerange_body. ty. Qed.
#[local] Hint Resolve typed_freerange_body : typed.
Lemma typed_freerange (pa_start pa_end : Z) : typed any (freerange pa_start pa_end).
Proof. unfold freerange. ty. Qed.
#[local] Hint Resolve typed_freerange : typed.
Lemma typed_kinit : typed any kinit.
Proof. unfold kinit. ty. Qed.
#[local] Hint Resolve typed_kinit : typed.

Lemma typed_walk_loop (levels : list Z) (va : Z) (alloc : bool) (pagetable : Z) : typed any (walk_loop levels va alloc pagetable).
Proof. revert pagetable. induction levels as [|l levels IH]; intros pagetable; cbn [walk_loop]; ty. Qed.
#[local] Hint Resolve typed_walk_loop : typed.
Lemma typed_walk (pagetable va : Z) (alloc : bool) : typed any (walk pagetable va alloc).
Proof. unfold walk. ty. Qed.
#[local] Hint Resolve typed_walk : typed.
Lemma typed_walkaddr (pagetable va : Z) : typed any (walkaddr pagetable va).
Proof. unfold walkaddr. ty. Qed.
#[local] Hint Resolve typed_walkaddr : typed.
Lemma typed_mappages_body (pagetable last perm : Z) (st : Z * Z) : typed (either any any) (mappages_body pagetable last perm st).
Proof. unfold mappages_body. ty. Qed.
#[local] Hint Resolve typed_mappages_body : typed.
Lemma typed_mappages (pagetable va size pa perm : Z) : typed any (mappages pagetable va size pa perm).
Proof. unfold mappages. ty. Qed.
#[local] Hint Resolve typed_mappages : typed.
Lemma typed_kvmmap (kpgtbl va pa sz perm : Z) : typed any (kvmmap kpgtbl va pa sz perm).
Proof. unfold kvmmap. ty. Qed.
#[local] Hint Resolve typed_kvmmap : typed.
Lemma typed_proc_mapstacks (kpgtbl : Z) : typed any (proc_mapstacks kpgtbl).
Proof. unfold proc_mapstacks. ty. Qed.
#[local] Hint Resolve typed_proc_mapstacks : typed.
Lemma typed_kvmmake : typed any kvmmake.
Proof. unfold kvmmake. ty. Qed.
#[local] Hint Resolve typed_kvmmake : typed.
Lemma typed_kvminit : typed any kvminit.
Proof. unfold kvminit. ty. Qed.
#[local] Hint Resolve typed_kvminit : typed.
Lemma typed_kvminithart : typed any kvminithart.
Proof. unfold kvminithart. ty. Qed.
#[local] Hint Resolve typed_kvminithart : typed.
Lemma typed_uvmunmap_body (pagetable va npages : Z) (do_free : bool) (a : Z) : typed (either any any) (uvmunmap_body pagetable va npages do_free a).
Proof. unfold uvmunmap_body. ty. Qed.
#[local] Hint Resolve typed_uvmunmap_body : typed.
Lemma typed_uvmunmap (pagetable va npages : Z) (do_free : bool) : typed any (uvmunmap pagetable va npages do_free).
Proof. unfold uvmunmap. ty. Qed.
#[local] Hint Resolve typed_uvmunmap : typed.
Lemma typed_uvmcreate : typed any uvmcreate.
Proof. unfold uvmcreate. ty. Qed.
#[local] Hint Resolve typed_uvmcreate : typed.
Lemma typed_uvmfirst (pagetable : Z) (src : list Z) : typed any (uvmfirst pagetable src).
Proof. unfold uvmfirst. ty. Qed.
#[local] Hint Resolve typed_uvmfirst : typed.
Lemma typed_uvmdealloc (pagetable oldsz newsz : Z) : typed any (uvmdealloc pagetable oldsz newsz).
Proof. unfold uvmdealloc. ty. Qed.
#[local] Hint Resolve typed_uvmdealloc : typed.
Lemma typed_uvmalloc_body (pagetable oldsz newsz xperm : Z) (a : Z) : typed (either any any) (uvmalloc_body pagetable oldsz newsz xperm a).
Proof. unfold uvmalloc_body. ty. Qed.
#[local] Hint Resolve typed_uvmalloc_body : typed.
Lemma typed_uvmalloc (pagetable oldsz newsz xperm : Z) : typed any (uvmalloc pagetable oldsz newsz xperm).
Proof. unfold uvmalloc. ty. Qed.
#[local] Hint Resolve typed_uvmalloc : typed.
Lemma typed_freewalk_rec (depth : nat) (pagetable : Z) : typed any (freewalk_rec depth pagetable).
Proof. revert pagetable. induction depth as [|d IH]; intros pagetable; cbn [freewalk_rec]; ty. Qed.
#[local] Hint Resolve typed_freewalk_rec : typed.

Section kernel.
Context `{Fuel}.

Lemma typed_freewalk (pagetable : Z) : typed any (freewalk pagetable).
Proof. unfold freewalk. ty. Qed.
#[local] Hint Resolve typed_freewalk : typed.
Lemma typed_uvmfree (pagetable sz : Z) : typed any (uvmfree pagetable sz).
Proof. unfold uvmfree. ty. Qed.
#[local] Hint Resolve typed_uvmfree : typed.
Lemma typed_uvmcopy_body (old new sz : Z) (i : Z) : typed (either any any) (uvmcopy_body old new sz i).
Proof. unfold uvmcopy_body. ty. Qed.
#[local] Hint Resolve typed_uvmcopy_body : typed.
Lemma typed_uvmcopy (old new sz : Z) : typed any (uvmcopy old new sz).
Proof. unfold uvmcopy. ty. Qed.
#[local] Hint Resolve typed_uvmcopy : typed.
Lemma typed_uvmclear (pagetable va : Z) : typed any (uvmclear pagetable va).
Proof. unfold uvmclear. ty. Qed.
#[local] Hint Resolve typed_uvmclear : typed.
Lemma typed_copyout_body (pagetable : Z) (st : Z * list Z) : typed (either any any) (copyout_body pagetable st).
Proof. unfold copyout_body. ty. Qed.
#[local] Hint Resolve typed_copyout_body : typed.
Lemma typed_copyout (pagetable dstva : Z) (src : list Z) : typed any (copyout pagetable dstva src).
Proof. unfold copyout. ty. Qed.
#[local] Hint Resolve typed_copyout : typed.
(** At most [n] bytes are copied. *)
Definition fits (n : Z) (x : list Z * Z) : Prop := Z.of_nat (length (fst x)) <= Z.max 0 n.

Lemma typed_copyin (pagetable srcva len : Z) : typed (fits len) (copyin pagetable srcva len).
Proof.
  unfold copyin. apply (typed_iter (fun '(dst, _, l) => Z.of_nat (length dst) + Z.max 0 l <= Z.max 0 len)); [|cbn; lia].
  intros [[dst va] l] Hl. unfold copyin_body. destruct (Z.ltb_spec 0 l); cbn [negb]; [|apply typed_ret; unfold fits; cbn; lia].
  apply (typed_bind any); [ty|]. intros pa0 _. destruct (pa0 =? 0); [apply typed_ret; unfold fits; cbn; lia|].
  set (n := if l <? PGSIZE - (va - PGROUNDDOWN va) then l else PGSIZE - (va - PGROUNDDOWN va)).
  assert (Hn : 0 < n <= l).
  { unfold n. rewrite PGROUNDDOWN_eq. pose proof (Z.mod_pos_bound va PGSIZE ltac:(done)). destruct (Z.ltb_spec l (PGSIZE - (va - (va - va mod PGSIZE)))); lia. }
  apply (typed_bind (fun bs : list Z => length bs = Z.to_nat n)).
  - apply typed_gets. intros s _. apply length_load_bytes.
  - intros bs Hbs. apply typed_ret. cbn. rewrite length_app. lia.
Qed.
#[local] Hint Resolve typed_copyin : typed.
Lemma typed_copyinstr_body (pagetable : Z) (st : list Z * Z * Z) : typed (either any any) (copyinstr_body pagetable st).
Proof. unfold copyinstr_body. ty. Qed.
#[local] Hint Resolve typed_copyinstr_body : typed.
Lemma typed_copyinstr (pagetable srcva max : Z) : typed any (copyinstr pagetable srcva max).
Proof. unfold copyinstr. ty. Qed.
#[local] Hint Resolve typed_copyinstr : typed.

(** ** Processes *)

Lemma typed_procinit : typed any procinit.
Proof. unfold procinit. ty. Qed.
#[local] Hint Resolve typed_procinit : typed.
Lemma typed_allocpid : typed any allocpid.
Proof. unfold allocpid. ty. Qed.
#[local] Hint Resolve typed_allocpid : typed.
Lemma typed_proc_pagetable (p : nat) : typed any (proc_pagetable p).
Proof. unfold proc_pagetable. ty. Qed.
#[local] Hint Resolve typed_proc_pagetable : typed.
Lemma typed_proc_freepagetable (pagetable sz : Z) : typed any (proc_freepagetable pagetable sz).
Proof. unfold proc_freepagetable. ty. Qed.
#[local] Hint Resolve typed_proc_freepagetable : typed.
Lemma typed_freeproc (p : nat) : typed any (freeproc p).
Proof. unfold freeproc. ty. Qed.
#[local] Hint Resolve typed_freeproc : typed.
Lemma typed_alloc_scan (p : nat) : pidx p -> typed (opt pidx) (alloc_scan p).
Proof. unfold alloc_scan. ty. Qed.
#[local] Hint Resolve typed_alloc_scan : typed.
Lemma typed_allocproc : typed (opt pidx) allocproc.
Proof.
  unfold allocproc. apply (typed_bind (opt pidx)); [|ty]. apply typed_scan. intros x Hx. ty_facts. apply typed_alloc_scan. unfold pidx. lia.
Qed.
#[local] Hint Resolve typed_allocproc : typed.
Lemma typed_growproc (n : Z) : typed any (growproc n).
Proof. unfold growproc. ty. Qed.
#[local] Hint Resolve typed_growproc : typed.
Lemma typed_sched : typed any sched.
Proof. unfold sched. ty. Qed.
#[local] Hint Resolve typed_sched : typed.
Lemma typed_yield : typed any yield.
Proof. unfold yield. ty. Qed.
#[local] Hint Resolve typed_yield : typed.
Lemma typed_schedule_proc (p : nat) : pidx p -> typed any (schedule_proc p).
Proof. unfold schedule_proc. ty. Qed.
#[local] Hint Resolve typed_schedule_proc : typed.
Lemma typed_scheduler_round : typed any scheduler_round.
Proof. unfold scheduler_round. ty. Qed.
#[local] Hint Resolve typed_scheduler_round : typed.
Lemma typed_scheduler (n : nat) : typed any (scheduler n).
Proof. unfold scheduler. ty. Qed.
#[local] Hint Resolve typed_scheduler : typed.
Lemma typed_sleep (ch : chan) (lk : lockid) : typed any (sleep ch lk).
Proof. unfold sleep. ty. Qed.
#[local] Hint Resolve typed_sleep : typed.
Lemma typed_wakeup_proc (ch : chan) (p : nat) : typed any (wakeup_proc ch p).
Proof. unfold wakeup_proc. ty. Qed.
#[local] Hint Resolve typed_wakeup_proc : typed.
Lemma typed_wakeup (ch : chan) : typed any (wakeup ch).
Proof. unfold wakeup. ty. Qed.
#[local] Hint Resolve typed_wakeup : typed.
Lemma typed_kill_proc (pid : Z) (p : nat) : typed (opt any) (kill_proc pid p).
Proof. unfold kill_proc. ty. Qed.
#[local] Hint Resolve typed_kill_proc : typed.
Lemma typed_kill (pid : Z) : typed any (kill pid).
Proof. unfold kill. apply (typed_bind (opt any)); [apply typed_scan; auto with typed|ty]. Qed.
#[local] Hint Resolve typed_kill : typed.
Lemma typed_setkilled (p : nat) : typed any (setkilled p).
Proof. unfold setkilled. ty. Qed.
#[local] Hint Resolve typed_setkilled : typed.
Lemma typed_killed (p : nat) : typed any (killed p).
Proof. unfold killed. ty. Qed.
#[local] Hint Resolve typed_killed : typed.
Lemma typed_either_copyout (dst : dest) (src : list Z) : typed any (either_copyout dst src).
Proof. unfold either_copyout. ty. Qed.
#[local] Hint Resolve typed_either_copyout : typed.

(** ** Sleep locks *)

Lemma typed_getsl (sl : slid) : typed any (getsl sl).
Proof. unfold getsl. ty. Qed.
#[local] Hint Resolve typed_getsl : typed.
Lemma typed_modsl (sl : slid) (f : sleeplock -> sleeplock) : typed any (modsl sl f).
Proof. unfold modsl. ty. Qed.
#[local] Hint Resolve typed_modsl : typed.
Lemma typed_initsleeplock (lk : slid) : typed any (initsleeplock lk).
Proof. unfold initsleeplock. ty. Qed.
#[local] Hint Resolve typed_initsleeplock : typed.
Lemma typed_acquiresleep (lk : slid) : typed any (acquiresleep lk).
Proof. unfold acquiresleep. ty. Qed.
#[local] Hint Resolve typed_acquiresleep : typed.
Lemma typed_releasesleep (lk : slid) : typed any (releasesleep lk).
Proof. unfold releasesleep. ty. Qed.
#[local] Hint Resolve typed_releasesleep : typed.
Lemma typed_holdingsleep (lk : slid) : typed any (holdingsleep lk).
Proof. unfold holdingsleep. ty. Qed.
#[local] Hint Resolve typed_holdingsleep : typed.

Lemma typed_either_copyin (src : source) (len : Z) : typed (fits len) (either_copyin src len).
Proof. unfold either_copyin. ty. apply typed_ret. unfold fits. cbn. rewrite length_take. lia. Qed.
#[local] Hint Resolve typed_either_copyin : typed.

(** ** Devices *)

Lemma typed_modu f : (forall u, uart_ok u -> uart_ok (f u)) -> typed any (modu f).
Proof. intros Hf. apply typed_modify. intros s Hs. apply wf_set_uart_; [done|]. apply Hf, Hs. Qed.
#[local] Hint Extern 1 (typed _ (modu _)) => (apply typed_modu; solve [ty_side]) : typed.
Lemma typed_uart : typed uart_ok (gets uart_).
Proof. apply typed_gets. intros s Hs. apply Hs. Qed.
Lemma typed_WriteReg (reg v : Z) : typed any (WriteReg reg v).
Proof. unfold WriteReg. ty. Qed.
#[local] Hint Resolve typed_WriteReg : typed.
Lemma typed_lsr_tx_idle : typed any lsr_tx_idle.
Proof. unfold lsr_tx_idle. ty. Qed.
#[local] Hint Resolve typed_lsr_tx_idle : typed.
Lemma typed_uartinit : typed any uartinit.
Proof. unfold uartinit. ty. Qed.
#[local] Hint Resolve typed_uartinit : typed.
Lemma typed_uartstart_body (u : unit) : typed (either any any) (uartstart_body u).
Proof. unfold uartstart_body. ty. Qed.
#[local] Hint Resolve typed_uartstart_body : typed.
Lemma typed_uartstart : typed any uartstart.
Proof. unfold uartstart. ty. Qed.
#[local] Hint Resolve typed_uartstart : typed.
Lemma typed_uartputc (c : Z) : typed any (uartputc c).
Proof. unfold uartputc. ty. Qed.
#[local] Hint Resolve typed_uartputc : typed.
Lemma typed_uartputc_sync (c : Z) : typed any (uartputc_sync c).
Proof. unfold uartputc_sync. ty. Qed.
#[local] Hint Resolve typed_uartputc_sync : typed.
Lemma typed_uartgetc : typed any uartgetc.
Proof. unfold uartgetc. ty. Qed.
#[local] Hint Resolve typed_uartgetc : typed.
Lemma typed_consputc (c : Z) : typed any (consputc c).
Proof. unfold consputc. ty. Qed.
#[local] Hint Resolve typed_consputc : typed.

Lemma typed_for_consputc l : typed any (for_each l consputc).
Proof. ty. Qed.
#[local] Hint Resolve typed_for_consputc : typed.
Lemma typed_printint (xx base sign : Z) : typed any (printint xx base sign).
Proof. unfold printint. ty. Qed.
#[local] Hint Resolve typed_printint : typed.
Lemma typed_printptr (x : Z) : typed any (printptr x).
Proof. unfold printptr. ty. Qed.
#[local] Hint Resolve typed_printptr : typed.
Lemma typed_printf_conv (c : Z) (ap : list parg) : typed any (printf_conv c ap).
Proof. unfold printf_conv. ty. Qed.
#[local] Hint Resolve typed_printf_conv : typed.
Lemma typed_printf_loop (fmt : list Z) (ap : list parg) : typed any (printf_loop fmt ap).
Proof.
  remember (length fmt) as n eqn:E. revert fmt E ap. induction n as [n IH] using lt_wf_ind. intros [|c fmt] E ap; cbn [printf_loop]; [ty|].
  destruct (c =? 0); [ty|]. destruct (negb (c =? 37)).
  - apply (typed_bind any); [ty|]. intros _ _. apply (IH (length fmt)); cbn in *; (done || lia).
  - destruct fmt as [|d fmt]; [ty|]. destruct (d =? 0); [ty|]. apply (typed_bind any); [ty|]. intros ap' _. apply (IH (length fmt)); cbn in *; (done || lia).
Qed.
#[local] Hint Resolve typed_printf_loop : typed.
Lemma typed_printf (fmt : list Z) (ap : list parg) : typed any (printf fmt ap).
Proof. unfold printf. ty. Qed.
#[local] Hint Resolve typed_printf : typed.
Lemma typed_printfinit : typed any printfinit.
Proof. unfold printfinit. ty. Qed.
#[local] Hint Resolve typed_printfinit : typed.
Lemma typed_procdump : typed any procdump.
Proof. unfold procdump. ty. Qed.
#[local] Hint Resolve typed_procdump : typed.

Lemma typed_modc f : (forall c, console_ok c -> console_ok (f c)) -> typed any (modc f).
Proof. intros Hf. apply typed_modify. intros s Hs. apply wf_set_cons; [done|]. apply Hf, Hs. Qed.
#[local] Hint Extern 1 (typed _ (modc _)) => (apply typed_modc; solve [ty_side]) : typed.
Lemma typed_consolewrite_body (src : source) (n i : Z) : typed (either any any) (consolewrite_body src n i).
Proof. unfold consolewrite_body. ty. Qed.
#[local] Hint Resolve typed_consolewrite_body : typed.
Lemma typed_consolewrite (src : source) (n : Z) : typed any (consolewrite src n).
Proof. unfold consolewrite. ty. Qed.
#[local] Hint Resolve typed_consolewrite : typed.
Lemma typed_cons_wait : typed any cons_wait.
Proof. unfold cons_wait. ty. Qed.
#[local] Hint Resolve typed_cons_wait : typed.
Lemma typed_consoleread_body (target : Z) (st : dest * Z * list Z) : typed (either any any) (consoleread_body target st).
Proof. unfold consoleread_body. ty. Qed.
#[local] Hint Resolve typed_consoleread_body : typed.
Lemma typed_consoleread (dst : dest) (n : Z) : typed any (consoleread dst n).
Proof. unfold consoleread. ty. Qed.
#[local] Hint Resolve typed_consoleread : typed.
Lemma typed_killline_body (u : unit) : typed (either any any) (killline_body u).
Proof. unfold killline_body. ty. Qed.
#[local] Hint Resolve typed_killline_body : typed.
Lemma typed_consoleintr (c : Z) : typed any (consoleintr c).
Proof. unfold consoleintr. ty. Qed.
#[local] Hint Resolve typed_consoleintr : typed.
Lemma typed_consoleinit : typed any consoleinit.
Proof.
  unfold consoleinit. ty. apply typed_modify. intros s Hs. apply wf_set_devsw; [done|]. rewrite length_insert. apply Hs.
Qed.
#[local] Hint Resolve typed_consoleinit : typed.
Lemma typed_uartintr : typed any uartintr.
Proof. unfold uartintr. ty. Qed.
#[local] Hint Resolve typed_uartintr : typed.

Lemma typed_modv f : (forall v, vdisk_ok v -> vdisk_ok (f v)) -> typed any (modv f).
Proof. intros Hf. apply typed_modify. intros s Hs. apply wf_set_vdisk_; [done|]. apply Hf, Hs. Qed.
#[local] Hint Extern 1 (typed _ (modv _)) => (apply typed_modv; solve [ty_side]) : typed.
Lemma typed_rd_reg (r : Z) : typed any (rd_reg r).
Proof. unfold rd_reg. ty. Qed.
#[local] Hint Resolve typed_rd_reg : typed.
Lemma typed_wr_reg (r v : Z) : typed any (wr_reg r v).
Proof. apply typed_modv. intros d [? ? ? ? ? ? ? ?]. cbv zeta. by destruct (r =? VIRTIO_MMIO_STATUS). Qed.
#[local] Hint Resolve typed_wr_reg : typed.
Lemma typed_mod_desc (i : Z) (f : vdesc -> vdesc) : typed any (mod_desc i f).
Proof. unfold mod_desc. ty. Qed.
#[local] Hint Resolve typed_mod_desc : typed.
Lemma typed_mod_op (i : Z) (f : vreq -> vreq) : typed any (mod_op i f).
Proof. unfold mod_op. ty. Qed.
#[local] Hint Resolve typed_mod_op : typed.
Lemma typed_virtio_disk_init : typed any virtio_disk_init.
Proof. unfold virtio_disk_init. ty. Qed.
#[local] Hint Resolve typed_virtio_disk_init : typed.
Lemma typed_alloc_desc : typed any alloc_desc.
Proof. unfold alloc_desc. ty. Qed.
#[local] Hint Resolve typed_alloc_desc : typed.
Lemma typed_free_desc (i : Z) : typed any (free_desc i).
Proof. unfold free_desc. ty. Qed.
#[local] Hint Resolve typed_free_desc : typed.
Lemma typed_free_chain_body (i : Z) : typed (either any any) (free_chain_body i).
Proof. unfold free_chain_body. ty. Qed.
#[local] Hint Resolve typed_free_chain_body : typed.
Lemma typed_free_chain (i : Z) : typed any (free_chain i).
Proof. unfold free_chain. ty. Qed.
#[local] Hint Resolve typed_free_chain : typed.
Lemma typed_alloc3_desc : typed any alloc3_desc.
Proof. unfold alloc3_desc. ty. Qed.
#[local] Hint Resolve typed_alloc3_desc : typed.
Lemma typed_submit (b : nat) (write : bool) (sector i0 i1 i2 : Z) : bidx b -> typed any (submit b write sector i0 i1 i2).
Proof. unfold submit. ty. Qed.
#[local] Hint Resolve typed_submit : typed.
Lemma typed_virtio_disk_intr_body u : typed (either any any) (virtio_disk_intr_body u).
Proof.
  unfold virtio_disk_intr_body. apply (typed_bind vdisk_ok); [apply typed_vdisk|]. intros d Hd. destruct (_ =? _); [ty|]. cbv zeta. destruct (negb _); [ty|].
  apply (typed_bind bidx); [|ty]. apply typed_deref. destruct (vd_info_b d !! _) as [o|] eqn:E; [|done]. cbn.
  pose proof (vo_b _ Hd) as Hb. rewrite Forall_lookup in Hb. by apply (Hb _ _ E).
Qed.
#[local] Hint Resolve typed_virtio_disk_intr_body : typed.
Lemma typed_virtio_disk_intr : typed any virtio_disk_intr.
Proof. unfold virtio_disk_intr. ty. Qed.
#[local] Hint Resolve typed_virtio_disk_intr : typed.
Lemma typed_alloc_wait_body (u : unit) : typed (either any any) (alloc_wait_body u).
Proof. unfold alloc_wait_body. ty. Qed.
#[local] Hint Resolve typed_alloc_wait_body : typed.
Lemma typed_done_wait_body (b : nat) (u : unit) : typed (either any any) (done_wait_body b u).
Proof. unfold done_wait_body. ty. Qed.
#[local] Hint Resolve typed_done_wait_body : typed.
Lemma typed_virtio_disk_rw (b : nat) (write : bool) : bidx b -> typed any (virtio_disk_rw b write).
Proof. unfold virtio_disk_rw. ty. Qed.
#[local] Hint Resolve typed_virtio_disk_rw : typed.

(** ** The buffer cache and the log *)

Context `{Disk} `{!TypedDisk}.
#[local] Hint Resolve typed_disk_rw : typed.

Lemma bidx_bhead : bidx bhead.
Proof. unfold bidx, bhead. lia. Qed.
#[local] Hint Resolve bidx_bhead : typed.

Lemma typed_binit_one (b : nat) : bidx b -> typed any (binit_one b).
Proof. unfold binit_one. ty. Qed.
#[local] Hint Resolve typed_binit_one : typed.
Lemma typed_binit : typed any binit.
Proof. unfold binit. ty. apply typed_binit_one. unfold bidx. lia. Qed.
#[local] Hint Resolve typed_binit : typed.
Lemma typed_bget_cached (dev blockno : Z) (b : nat) : bidx b -> typed (either bidx (opt bidx)) (bget_cached dev blockno b).
Proof. unfold bget_cached. ty. Qed.
#[local] Hint Resolve typed_bget_cached : typed.
Lemma typed_bget_recycle (dev blockno : Z) (b : nat) : bidx b -> typed (either bidx (opt bidx)) (bget_recycle dev blockno b).
Proof. unfold bget_recycle. ty. Qed.
#[local] Hint Resolve typed_bget_recycle : typed.
Lemma typed_bget (dev blockno : Z) : typed bidx (bget dev blockno).
Proof.
  unfold bget. apply (typed_bind any); [ty|]. intros _ _. apply (typed_bind buf_ok); [ty|]. intros hd Hhd.
  apply (typed_bind (opt bidx)); [apply (typed_iter bidx); [intros b Hb; by apply typed_bget_cached|apply Hhd]|]. intros [b|] Hb; [ty|].
  apply (typed_bind buf_ok); [ty|]. intros hd' Hhd'.
  apply (typed_bind (opt bidx)); [apply (typed_iter bidx); [intros b' Hb'; by apply typed_bget_recycle|apply Hhd']|]. intros [b|] Hb'; ty.
Qed.
#[local] Hint Resolve typed_bget : typed.
Lemma typed_bread (dev blockno : Z) : typed bidx (bread dev blockno).
Proof. unfold bread. ty. Qed.
#[local] Hint Resolve typed_bread : typed.
Lemma typed_bwrite (b : nat) : bidx b -> typed any (bwrite b).
Proof. unfold bwrite. ty. Qed.
#[local] Hint Resolve typed_bwrite : typed.
Lemma typed_move_front (b : nat) : bidx b -> typed any (move_front b).
Proof. unfold move_front. ty. Qed.
#[local] Hint Resolve typed_move_front : typed.
Lemma typed_brelse (b : nat) : bidx b -> typed any (brelse b).
Proof. unfold brelse. ty. Qed.
#[local] Hint Resolve typed_brelse : typed.
Lemma typed_bpin (b : nat) : typed any (bpin b).
Proof. unfold bpin. ty. Qed.
#[local] Hint Resolve typed_bpin : typed.
Lemma typed_bunpin (b : nat) : typed any (bunpin b).
Proof. unfold bunpin. ty. Qed.
#[local] Hint Resolve typed_bunpin : typed.

(** Writes stay inside the block. *)
Lemma typed_modbd b f : (forall d, block_ok d -> block_ok (f d)) -> typed any (modbd b f).
Proof. intros Hf. apply typed_modb. intros x [? ? Hd]. split; cbn; [done|done|]. by apply Hf. Qed.

Lemma put32_block d off v : block_ok d -> 0 <= off -> off + 4 <= BSIZE -> block_ok (put32 d off v).
Proof. unfold block_ok, put32. intros Hd Ho He. rewrite length_upd; [done|]. rewrite length_le_enc, Hd. unfold BSIZE in *. lia. Qed.
Lemma put16_block d off v : block_ok d -> 0 <= off -> off + 2 <= BSIZE -> block_ok (put16 d off v).
Proof. unfold block_ok, put16. intros Hd Ho He. rewrite length_upd; [done|]. rewrite length_le_enc, Hd. unfold BSIZE in *. lia. Qed.
#[local] Hint Extern 1 (typed _ (modbd _ (fun _ => b_data _))) => (apply typed_modbd; intros; by apply bo_data) : typed.

Lemma typed_install_one (recovering : bool) (tail : Z) : typed any (install_one recovering tail).
Proof. unfold install_one. ty. Qed.
#[local] Hint Resolve typed_install_one : typed.
Lemma typed_install_trans (recovering : bool) : typed any (install_trans recovering).
Proof. unfold install_trans. ty. Qed.
#[local] Hint Resolve typed_install_trans : typed.
Lemma typed_read_head : typed any read_head.
Proof.
  unfold read_head. apply (typed_bind log_ok); [ty|]. intros lg _. apply (typed_bind bidx); [ty|]. intros b Hb. apply (typed_bind buf_ok); [ty|]. intros bf Hbf.
  set (x := i32 _). intros s Hs. change (typed_out any ((lg <- gets log;; if LOGSIZE <? lh_n lg then halt (Undefined "log.lh.block overrun") else
    for_each (seqZ 0 (lh_n lg)) (fun i => modl (fun lg => set_lh_block (<[Z.to_nat i := i32 (get32 (b_data bf) (4 + 4 * i))]> (lh_block lg)) lg));;
    brelse b) (set_log (set_lh_n x (log s)) s))).
  unfold bind at 1, gets at 1. cbn [obind]. cbn [lh_n set_lh_n log set_log].
  destruct (Z.ltb_spec LOGSIZE x); [done|]. revert s Hs. assert (Hall : forall s, wf s -> wf (set_log (set_lh_n x (log s)) s)).
  { intros s Hs. apply wf_set_log; [done|]. destruct (wf_log _ Hs). by split. }
  intros s Hs. assert (Ht : typed any (for_each (seqZ 0 x) (fun i => modl (fun lg => set_lh_block (<[Z.to_nat i := i32 (get32 (b_data bf) (4 + 4 * i))]> (lh_block lg)) lg));; brelse b)) by ty.
  apply Ht. by apply Hall.
Qed.
#[local] Hint Resolve typed_read_head : typed.

Lemma typed_write_head : typed any write_head.
Proof.
  unfold write_head. apply (typed_bind log_ok); [ty|]. intros lg0 _. apply (typed_bind bidx); [ty|]. intros b Hb. apply (typed_bind log_ok); [ty|]. intros lg [_ Hn].
  apply (typed_bind any); [apply typed_modbd; intros; by apply put32_block|]. intros _ _.
  apply (typed_bind any); [|ty]. apply typed_for_each. intros i Hi%elem_of_seqZ. apply typed_modbd. intros d Hd.
  apply put32_block; [done|lia|]. unfold LOGSIZE, MAXOPBLOCKS, BSIZE in *. lia.
Qed.
#[local] Hint Resolve typed_write_head : typed.
Lemma typed_recover_from_log : typed any recover_from_log.
Proof. unfold recover_from_log. ty. Qed.
#[local] Hint Resolve typed_recover_from_log : typed.
Lemma typed_initlog (dev : Z) (sp : superblock) : typed any (initlog dev sp).
Proof. unfold initlog. ty. Qed.
#[local] Hint Resolve typed_initlog : typed.
Lemma typed_begin_op_body (u : unit) : typed (either any any) (begin_op_body u).
Proof. unfold begin_op_body. ty. Qed.
#[local] Hint Resolve typed_begin_op_body : typed.
Lemma typed_begin_op : typed any begin_op.
Proof. unfold begin_op. ty. Qed.
#[local] Hint Resolve typed_begin_op : typed.
Lemma typed_write_log_one (tail : Z) : typed any (write_log_one tail).
Proof. unfold write_log_one. ty. Qed.
#[local] Hint Resolve typed_write_log_one : typed.
Lemma typed_write_log : typed any write_log.
Proof. unfold write_log. ty. Qed.
#[local] Hint Resolve typed_write_log : typed.
Lemma typed_commit : typed any commit.
Proof. unfold commit. ty. Qed.
#[local] Hint Resolve typed_commit : typed.
Lemma typed_end_op : typed any end_op.
Proof. unfold end_op. ty. Qed.
#[local] Hint Resolve typed_end_op : typed.

(** Code that does not leave the processor and does not touch the log. *)
Definition steady {A} (c : K A) : Prop :=
  forall s, match c s with Ret _ s' => log s' = log s | Stop _ => True | Yield _ _ => False end.

Lemma steady_bind {A B} (c : K A) (k : A -> K B) : steady c -> (forall a, steady (k a)) -> steady (bind c k).
Proof.
  intros Hc Hk s. unfold bind. specialize (Hc s). destruct (c s) as [a s'|h|s' k']; cbn; [|done|done].
  specialize (Hk a s'). destruct (k a s'); [by rewrite Hk, Hc|done|done].
Qed.

Lemma steady_bpin b : steady (bpin b).
Proof.
  unfold bpin, acquire, release, push_off, pop_off, cpuid, r_tp, holding, mycpu, mod_mycpu, intr_get, intr_on, intr_off, modb, when.
  repeat match goal with
    | |- steady (bind _ _) => apply steady_bind; [|intros ?]
    | |- steady (if ?x then _ else _) => destruct x
    | |- steady (match ?x with _ => _ end) => destruct x
    | |- steady _ => intros ?; exact eq_refl || exact I
    end.
Qed.

Lemma typed_log_write (b : nat) : typed any (log_write b).
Proof.
  unfold log_write. apply (typed_bind any); [ty|]. intros _ _ s Hs.
  rewrite (bind_Ret _ _ _ _ _ (eq_refl : gets log s = Ret (log s) s)).
  destruct ((LOGSIZE <=? lh_n (log s)) || (lg_size (log s) - 1 <=? lh_n (log s))) eqn:E; [done|]. apply orb_false_iff in E as [E%Z.leb_gt _].
  destruct (lg_outstanding (log s) <? 1); [done|]. rewrite (bind_Ret _ _ _ _ _ (eq_refl : getb b s = Ret (bufs s !!! b) s)). cbv zeta.
  set (i := absorb _ _ _ _). set (s1 := set_log (set_lh_block (<[i := i32 (b_blockno (bufs s !!! b))]> (lh_block (log s))) (log s)) s).
  match goal with |- typed_out any (bind ?m ?k s) => change (typed_out any (k tt s1)) end. cbv beta.
  assert (Hs1 : wf s1). { apply wf_set_log; [done|]. destruct (wf_log _ Hs). split; cbn; [by rewrite length_insert|done]. }
  assert (Hw : typed_out any (when (Z.of_nat i =? lh_n (log s)) (bpin b;; modl (fun lg => set_lh_n (lh_n lg + 1) lg)) s1)).
  { destruct (Z.of_nat i =? lh_n (log s)); cbn [when]; [|done]. pose proof (typed_bpin b s1 Hs1) as Ht. pose proof (steady_bpin b s1) as Hlog. unfold bind.
    destruct (bpin b s1) as [a s2|h|s2 k]; [|done|done]. cbn. split; [|done]. destruct Ht as [Hs2 _]. apply wf_set_log; [done|]. rewrite Hlog.
    destruct (wf_log _ Hs1). split; cbn; [done|lia]. }
  apply (typed_out_bind any); [exact Hw|]. intros _ _. ty.
Qed.
#[local] Hint Resolve typed_log_write : typed.

(** ** The file system *)

Lemma typed_readsb (dev : Z) : typed any (readsb dev).
Proof. unfold readsb. ty. Qed.
#[local] Hint Resolve typed_readsb : typed.
Lemma typed_fsinit (dev : Z) : typed any (fsinit dev).
Proof. unfold fsinit. ty. Qed.
#[local] Hint Resolve typed_fsinit : typed.
Lemma typed_bzero (dev bno : Z) : typed any (bzero dev bno).
Proof.
  unfold bzero. apply (typed_bind bidx); [ty|]. intros bp Hbp. apply (typed_bind any); [apply typed_modbd; intros; apply length_replicate|ty].
Qed.
#[local] Hint Resolve typed_bzero : typed.

Lemma typed_modbd_alter b f k : typed any (modbd b (fun d => alter f k d)).
Proof. apply typed_modbd. intros d Hd. unfold block_ok. by rewrite length_alter. Qed.
#[local] Hint Extern 1 (typed _ (modbd _ (fun d => bit_set d _))) => (apply typed_modbd_alter) : typed.
#[local] Hint Extern 1 (typed _ (modbd _ (fun d => bit_clear d _))) => (apply typed_modbd_alter) : typed.
Lemma typed_balloc_one (dev b : Z) : typed (opt any) (balloc_one dev b).
Proof. unfold balloc_one. ty. Qed.
#[local] Hint Resolve typed_balloc_one : typed.
Lemma typed_balloc (dev : Z) : typed any (balloc dev).
Proof. unfold balloc. apply (typed_bind any); [ty|]. intros sp _. apply (typed_bind (opt any)); [apply typed_scan; auto with typed|ty]. Qed.
#[local] Hint Resolve typed_balloc : typed.
Lemma typed_bfree (dev b : Z) : typed any (bfree dev b).
Proof. unfold bfree. ty. Qed.
#[local] Hint Resolve typed_bfree : typed.
Lemma typed_iinit : typed any iinit.
Proof. unfold iinit. ty. Qed.
#[local] Hint Resolve typed_iinit : typed.
Lemma typed_iget_scan (dev inum : Z) slots : forall empty, (forall i, i ∈ slots -> iidx i) -> opt iidx empty ->
  typed (fun x => opt iidx (fst x) /\ opt iidx (snd x)) (iget_scan slots dev inum empty).
Proof.
  induction slots as [|i slots IH]; intros empty Hi He; cbn [iget_scan]; [apply typed_ret; by split|]. pose proof (Hi i (list_elem_of_here _ _)) as Hh.
  apply (typed_bind inode_ok); [ty|]. intros ip _. destruct (_ && _); [ty; apply typed_ret; by split|].
  apply IH; [intros j Hj; by apply Hi, list_elem_of_further|]. destruct empty; [done|]. by destruct (i_ref ip =? 0).
Qed.

Lemma typed_iget (dev inum : Z) : typed iidx (iget dev inum).
Proof.
  unfold iget. apply (typed_bind any); [ty|]. intros _ _. apply (typed_bind (fun x => opt iidx (fst x) /\ opt iidx (snd x))).
  - apply typed_iget_scan; [|done]. intros i Hi%elem_of_seq. unfold iidx. lia.
  - intros [[i|] [e|]] [Hf He]; cbn [fst snd] in *; ty.
Qed.
#[local] Hint Resolve typed_iget : typed.

Lemma dinode_off_range inum : 0 <= dinode_off inum <= 960.
Proof. unfold dinode_off. change IPB with 16. change DINODE_SIZE with 64. pose proof (Z.mod_pos_bound inum 16). lia. Qed.

Lemma write_dinode_block d inum ip : block_ok d -> inode_ok ip -> block_ok (write_dinode d (dinode_off inum) ip).
Proof.
  intros Hd Hi. pose proof (dinode_off_range inum) as Ho. unfold write_dinode, di_type, di_major, di_minor, di_nlink, di_size, di_addrs. set (o := dinode_off inum) in *.
  set (d1 := put16 d (o + 0) _). assert (Hd1 : block_ok d1) by (apply put16_block; [done|lia|unfold BSIZE; lia]).
  set (d2 := put16 d1 (o + 2) _). assert (Hd2 : block_ok d2) by (apply put16_block; [done|lia|unfold BSIZE; lia]).
  set (d3 := put16 d2 (o + 4) _). assert (Hd3 : block_ok d3) by (apply put16_block; [done|lia|unfold BSIZE; lia]).
  set (d4 := put16 d3 (o + 6) _). assert (Hd4 : block_ok d4) by (apply put16_block; [done|lia|unfold BSIZE; lia]).
  set (d5 := put32 d4 (o + 8) _). assert (Hd5 : block_ok d5) by (apply put32_block; [done|lia|unfold BSIZE; lia]).
  unfold block_ok in *. rewrite length_upd; [done|]. rewrite Hd5. change (Z.to_nat BSIZE) with 1024%nat.
  assert (El : length (concat (le_enc 4 <$> i_addrs ip)) = (4 * length (i_addrs ip))%nat).
  { induction (i_addrs ip) as [|x l IH]; [done|]. cbn [fmap list_fmap concat]. rewrite length_app, length_le_enc, IH. cbn. lia. }
  rewrite El, Hi. lia.
Qed.

Lemma typed_ialloc_one (dev type inum : Z) : typed (opt iidx) (ialloc_one dev type inum).
Proof.
  unfold ialloc_one. apply (typed_bind any); [ty|]. intros sp _. apply (typed_bind bidx); [ty|]. intros bp Hbp. apply (typed_bind buf_ok); [ty|]. intros bf _.
  pose proof (dinode_off_range inum) as Ho. cbv zeta. destruct (_ =? 0); [|ty].
  apply (typed_bind any). { apply typed_modbd. intros d Hd. unfold block_ok in *. rewrite length_upd; [done|]. rewrite Hd, length_replicate. change DINODE_SIZE with 64. change BSIZE with 1024. lia. }
  intros _ _. apply (typed_bind any). { apply typed_modbd. intros d Hd. apply put16_block; [done|unfold di_type; lia|unfold di_type, BSIZE; lia]. } intros _ _. ty.
Qed.

Lemma typed_ialloc (dev type : Z) : typed (opt iidx) (ialloc dev type).
Proof.
  unfold ialloc. apply (typed_bind any); [ty|]. intros sp _. apply (typed_bind (opt iidx)); [|ty]. apply typed_scan. intros x _. apply typed_ialloc_one.
Qed.
#[local] Hint Resolve typed_ialloc : typed.

Lemma typed_iupdate (i : nat) : typed any (iupdate i).
Proof.
  unfold iupdate. apply (typed_bind inode_ok); [ty|]. intros ip0 _. apply (typed_bind any); [ty|]. intros sp _. apply (typed_bind bidx); [ty|]. intros bp Hbp.
  apply (typed_bind inode_ok); [ty|]. intros ip Hip. apply (typed_bind any); [|ty]. apply typed_modbd. intros d Hd. by apply write_dinode_block.
Qed.
#[local] Hint Resolve typed_iupdate : typed.
Lemma typed_idup (i : nat) : iidx i -> typed iidx (idup i).
Proof. unfold idup. ty. Qed.
#[local] Hint Resolve typed_idup : typed.
Lemma typed_ilock (i : nat) : typed any (ilock i).
Proof. unfold ilock. ty. Qed.
#[local] Hint Resolve typed_ilock : typed.
Lemma typed_iunlock (i : nat) : typed any (iunlock i).
Proof. unfold iunlock. ty. Qed.
#[local] Hint Resolve typed_iunlock : typed.
Lemma typed_itrunc_direct (i : nat) (k : nat) : typed any (itrunc_direct i k).
Proof. unfold itrunc_direct. ty. Qed.
#[local] Hint Resolve typed_itrunc_direct : typed.
Lemma typed_itrunc_indirect (i : nat) (bp : nat) (j : Z) : typed any (itrunc_indirect i bp j).
Proof. unfold itrunc_indirect. ty. Qed.
#[local] Hint Resolve typed_itrunc_indirect : typed.
Lemma typed_itrunc (i : nat) : typed any (itrunc i).
Proof. unfold itrunc. ty. Qed.
#[local] Hint Resolve typed_itrunc : typed.
Lemma typed_iput (i : nat) : typed any (iput i).
Proof. unfold iput. ty. Qed.
#[local] Hint Resolve typed_iput : typed.
Lemma typed_iunlockput (i : nat) : typed any (iunlockput i).
Proof. unfold iunlockput. ty. Qed.
#[local] Hint Resolve typed_iunlockput : typed.

Lemma typed_bmap (i : nat) (bn : Z) : typed any (bmap i bn).
Proof.
  unfold bmap. apply (typed_bind inode_ok); [ty|]. intros ip _. destruct (Z.ltb_spec bn NDIRECT); [ty|]. cbv zeta. destruct (Z.ltb_spec (bn - NDIRECT) NINDIRECT); [|ty].
  apply (typed_bind any); [ty|]. intros addr _. destruct (addr =? 0); [ty|]. apply (typed_bind bidx); [ty|]. intros bp Hbp. apply (typed_bind buf_ok); [ty|]. intros bf _.
  apply (typed_bind any); [|ty]. destruct (_ =? 0); [|ty]. apply (typed_bind any); [ty|]. intros a _. apply (typed_bind any); [|ty]. apply typed_when.
  apply (typed_bind any); [|ty]. apply typed_modbd. intros d Hd. apply put32_block; [done|lia|]. change NINDIRECT with 256 in *. change BSIZE with 1024. lia.
Qed.
#[local] Hint Resolve typed_bmap : typed.
Lemma typed_stati (i : nat) : typed any (stati i).
Proof. unfold stati. ty. Qed.
#[local] Hint Resolve typed_stati : typed.
Lemma typed_readi_body (i : nat) (n : Z) (st : Z * Z * dest * list Z) : typed (either any any) (readi_body i n st).
Proof. unfold readi_body. ty. Qed.
#[local] Hint Resolve typed_readi_body : typed.
Lemma typed_readi (i : nat) (dst : dest) (off n : Z) : typed any (readi i dst off n).
Proof. unfold readi. ty. Qed.
#[local] Hint Resolve typed_readi : typed.
Lemma typed_writei_body (i : nat) (n : Z) st : typed (either any any) (writei_body i n st).
Proof.
  unfold writei_body. destruct st as [[tot off] src]. destruct (Z.ltb_spec tot n); cbn [negb]; [|ty]. apply (typed_bind any); [ty|]. intros addr _. destruct (addr =? 0); [ty|].
  apply (typed_bind inode_ok); [ty|]. intros ip _. apply (typed_bind bidx); [ty|]. intros bp Hbp. cbv zeta. set (m := Z.min _ _).
  apply (typed_bind (fits m)); [ty|]. intros [bs r] Hbs. unfold fits in Hbs. cbn [fst] in Hbs. apply (typed_bind any); [|ty].
  apply typed_modbd. intros d Hd. unfold block_ok in *. rewrite length_upd; [done|]. rewrite Hd. unfold m in Hbs. pose proof (Z.mod_pos_bound off BSIZE ltac:(done)) as Ho.
  change BSIZE with 1024 in *. lia.
Qed.
#[local] Hint Resolve typed_writei_body : typed.

Lemma typed_writei (i : nat) (src : source) (off n : Z) : typed any (writei i src off n).
Proof. unfold writei. ty. apply typed_modi. intros ip Hip. by destruct (i_size ip <? _). Qed.
#[local] Hint Resolve typed_writei : typed.

(** An entry of a directory that has been found. *)
Definition entry_ok : option (nat * Z) -> Prop := opt (fun x => iidx (fst x)).

Lemma typed_dirlookup_body (i : nat) name off : typed (either any entry_ok) (dirlookup_body i name off).
Proof. unfold dirlookup_body. ty. Qed.
Lemma typed_dirlookup (i : nat) (name : list Z) : typed entry_ok (dirlookup i name).
Proof. unfold dirlookup. ty. apply typed_dirlookup_body. Qed.
#[local] Hint Resolve typed_dirlookup : typed.
Lemma typed_dirlink_body (i : nat) (off : Z) : typed (either any any) (dirlink_body i off).
Proof. unfold dirlink_body. ty. Qed.
#[local] Hint Resolve typed_dirlink_body : typed.
Lemma typed_dirlink (i : nat) (name : list Z) (inum : Z) : typed any (dirlink i name inum).
Proof. unfold dirlink. ty. Qed.
#[local] Hint Resolve typed_dirlink : typed.

Definition path_ok (x : option nat * list Z) : Prop := opt iidx (fst x).

Lemma typed_namex (path : list Z) (parent : bool) (name : list Z) : typed path_ok (namex path parent name).
Proof.
  unfold namex. apply (typed_bind iidx); [ty|]. intros ip Hip. apply (typed_iter (fun st => iidx (fst (fst st)))); [|done].
  intros [[i pa] nm] Hi. cbn [fst] in Hi. unfold namex_body. destruct (skipelem pa nm) as [[pa' nm']|]; [|destruct parent; ty].
  apply (typed_bind any); [ty|]. intros _ _. apply (typed_bind inode_ok); [ty|]. intros ino _. destruct (negb _); [ty|]. destruct (_ && _); [ty|].
  apply (typed_bind entry_ok); [ty|]. intros [[nx o]|] Hnx; ty.
Qed.
#[local] Hint Resolve typed_namex : typed.
Lemma typed_nameiparent (path name : list Z) : typed path_ok (nameiparent path name).
Proof. apply typed_namex. Qed.
Lemma typed_namei (path : list Z) : typed (opt iidx) (namei path).
Proof. unfold namei. apply (typed_bind path_ok); [ty|]. intros [o n] Ho. by apply typed_ret. Qed.
#[local] Hint Resolve typed_nameiparent typed_namei : typed.

(** ** Pipes and files *)

Lemma typed_pipeclose (pi : Z) (writable : bool) : typed any (pipeclose pi writable).
Proof. unfold pipeclose. ty. Qed.
#[local] Hint Resolve typed_pipeclose : typed.
Lemma typed_pipewrite_body (pi : Z) (pr : nat) (addr n i : Z) : typed (either any any) (pipewrite_body pi pr addr n i).
Proof. unfold pipewrite_body. ty. Qed.
#[local] Hint Resolve typed_pipewrite_body : typed.
Lemma typed_pipewrite (pi addr n : Z) : typed any (pipewrite pi addr n).
Proof. unfold pipewrite. ty. Qed.
#[local] Hint Resolve typed_pipewrite : typed.
Lemma typed_piperead_wait (pi : Z) (pr : nat) : typed any (piperead_wait pi pr).
Proof. unfold piperead_wait. ty. Qed.
#[local] Hint Resolve typed_piperead_wait : typed.
Lemma typed_piperead_body (pi : Z) (pr : nat) (addr n i : Z) : typed (either any any) (piperead_body pi pr addr n i).
Proof. unfold piperead_body. ty. Qed.
#[local] Hint Resolve typed_piperead_body : typed.
Lemma typed_piperead (pi addr n : Z) : typed any (piperead pi addr n).
Proof. unfold piperead. ty. Qed.
#[local] Hint Resolve typed_piperead : typed.
Lemma typed_fileinit : typed any fileinit.
Proof. unfold fileinit. ty. Qed.
#[local] Hint Resolve typed_fileinit : typed.
Lemma typed_filealloc_one (i : nat) : fidx i -> typed (opt fidx) (filealloc_one i).
Proof. unfold filealloc_one. ty. Qed.
#[local] Hint Resolve typed_filealloc_one : typed.
Lemma typed_filealloc : typed (opt fidx) filealloc.
Proof.
  unfold filealloc. apply (typed_bind any); [ty|]. intros _ _. apply (typed_bind (opt fidx)); [|ty]. apply typed_scan. intros i Hi%elem_of_seq.
  apply typed_filealloc_one. unfold fidx. lia.
Qed.
#[local] Hint Resolve typed_filealloc : typed.
Lemma typed_filedup (i : nat) : fidx i -> typed fidx (filedup i).
Proof. unfold filedup. ty. Qed.
#[local] Hint Resolve typed_filedup : typed.
Lemma typed_dev_driver (major : Z) : typed any (dev_driver major).
Proof. unfold dev_driver. ty. Qed.
#[local] Hint Resolve typed_dev_driver : typed.
Lemma typed_fileclose (i : nat) : typed any (fileclose i).
Proof. unfold fileclose. ty. Qed.
#[local] Hint Resolve typed_fileclose : typed.
Lemma typed_filestat (i : nat) (addr : Z) : typed any (filestat i addr).
Proof. unfold filestat. ty. Qed.
#[local] Hint Resolve typed_filestat : typed.
Lemma typed_fileread (i : nat) (addr n : Z) : typed any (fileread i addr n).
Proof. unfold fileread. ty. Qed.
#[local] Hint Resolve typed_fileread : typed.
Lemma typed_filewrite_body (i : nat) (ip : nat) (addr n k : Z) : typed (either any any) (filewrite_body i ip addr n k).
Proof. unfold filewrite_body. ty. Qed.
#[local] Hint Resolve typed_filewrite_body : typed.
Lemma typed_filewrite (i : nat) (addr n : Z) : typed any (filewrite i addr n).
Proof. unfold filewrite. ty. Qed.
#[local] Hint Resolve typed_filewrite : typed.

Definition pair_ok : option (nat * nat) -> Prop := opt (fun x => fidx (fst x) /\ fidx (snd x)).

Lemma typed_pipealloc_bad (pi : Z) (f0 f1 : option nat) : typed pair_ok (pipealloc_bad pi f0 f1).
Proof. unfold pipealloc_bad. ty. Qed.
#[local] Hint Resolve typed_pipealloc_bad : typed.
Lemma typed_pipealloc : typed pair_ok pipealloc.
Proof. unfold pipealloc. ty. Qed.
#[local] Hint Resolve typed_pipealloc : typed.

(** ** The life of a process *)

Lemma typed_set_name (p : nat) (name : list Z) : typed any (set_name p name).
Proof. apply typed_modp. intros pr [? ? ? ? Hn ?]. split; cbn; try done. unfold in_buf. by rewrite length_load_bytes. Qed.
#[local] Hint Resolve typed_set_name : typed.

Lemma ofile_fidx pr k : proc_ok pr -> opt fidx (p_ofile pr !!! k).
Proof. intros Hp. apply (Forall_total (opt fidx)); [apply Hp|done]. Qed.

Lemma typed_initproc : typed (opt pidx) (gets initproc).
Proof. apply typed_gets. intros s Hs. apply Hs. Qed.
#[local] Hint Resolve typed_initproc : typed.

Lemma typed_reparent_one (p pp : nat) : typed any (reparent_one p pp).
Proof. unfold reparent_one. ty. Qed.
#[local] Hint Resolve typed_reparent_one : typed.
Lemma typed_reparent (p : nat) : typed any (reparent p).
Proof. unfold reparent. ty. Qed.
#[local] Hint Resolve typed_reparent : typed.
Lemma typed_userinit : typed any userinit.
Proof.
  unfold userinit. apply (typed_bind (opt pidx)); [ty|]. intros o Ho. apply (typed_bind any).
  - apply typed_modify. intros s Hs. by apply wf_set_initproc.
  - intros _ _. ty.
Qed.
#[local] Hint Resolve typed_userinit : typed.

Lemma typed_fork_dup (p np fd : nat) : typed any (fork_dup p np fd).
Proof.
  unfold fork_dup. apply (typed_bind proc_ok); [ty|]. intros pr Hpr. pose proof (ofile_fidx pr fd Hpr) as Hf. destruct (p_ofile pr !!! fd) as [f|]; ty.
Qed.
#[local] Hint Resolve typed_fork_dup : typed.
Lemma typed_fork : typed any fork.
Proof. unfold fork. ty. Qed.
#[local] Hint Resolve typed_fork : typed.
Lemma typed_exit_close (p fd : nat) : typed any (exit_close p fd).
Proof. unfold exit_close. ty. Qed.
#[local] Hint Resolve typed_exit_close : typed.
Lemma typed_exit {A} (Q : A -> Prop) status : typed Q (exit status).
Proof. unfold exit. ty. Qed.
Lemma typed_exit_unit status : typed any (exit (A := unit) status).
Proof. apply typed_exit. Qed.
Lemma typed_exit_Z status : typed any (exit (A := Z) status).
Proof. apply typed_exit. Qed.
#[local] Hint Resolve typed_exit_unit typed_exit_Z : typed.

Lemma typed_wait_scan (p : nat) (addr : Z) slots : forall havekids, typed any (wait_scan p addr slots havekids).
Proof. induction slots as [|pp slots IH]; intros havekids; cbn [wait_scan]; ty. Qed.
#[local] Hint Resolve typed_wait_scan : typed.
Lemma typed_wait_body (p : nat) (addr : Z) (u : unit) : typed (either any any) (wait_body p addr u).
Proof. unfold wait_body. ty. Qed.
#[local] Hint Resolve typed_wait_body : typed.
Lemma typed_wait (addr : Z) : typed any (wait addr).
Proof. unfold wait. ty. Qed.
#[local] Hint Resolve typed_wait : typed.

(** ** exec *)

Lemma typed_kstring (p : Z) : typed any (kstring p).
Proof. unfold kstring. ty. Qed.
#[local] Hint Resolve typed_kstring : typed.
Lemma typed_loadseg_body (pagetable va : Z) (ip : nat) (offset sz i : Z) : typed (either any any) (loadseg_body pagetable va ip offset sz i).
Proof. unfold loadseg_body. ty. Qed.
#[local] Hint Resolve typed_loadseg_body : typed.
Lemma typed_loadseg (pagetable va : Z) (ip : nat) (offset sz : Z) : typed any (loadseg pagetable va ip offset sz).
Proof. unfold loadseg. ty. Qed.
#[local] Hint Resolve typed_loadseg : typed.
Lemma typed_load_phdr (pagetable : Z) (ip : nat) (off sz : Z) : typed any (load_phdr pagetable ip off sz).
Proof. unfold load_phdr. ty. Qed.
#[local] Hint Resolve typed_load_phdr : typed.
Lemma typed_load_phdrs_body (pagetable : Z) (ip : nat) (phnum : Z) (st : Z * Z * Z) : typed (either any any) (load_phdrs_body pagetable ip phnum st).
Proof. unfold load_phdrs_body. ty. Qed.
#[local] Hint Resolve typed_load_phdrs_body : typed.
Lemma typed_push_args (pagetable stackbase : Z) argv : forall argc sp ustack, typed any (push_args pagetable stackbase argv argc sp ustack).
Proof. induction argv as [|a argv IH]; intros argc sp ustack; cbn [push_args]; ty. Qed.
#[local] Hint Resolve typed_push_args : typed.
Lemma typed_exec_bad (pagetable sz : Z) (ip : option nat) : typed any (exec_bad pagetable sz ip).
Proof. unfold exec_bad. ty. Qed.
#[local] Hint Resolve typed_exec_bad : typed.
Lemma typed_exec_stack (p : nat) (path : list Z) (argv : list Z) (elf : list Z) (pagetable sz : Z) : typed any (exec_stack p path argv elf pagetable sz).
Proof. unfold exec_stack. ty. Qed.
#[local] Hint Resolve typed_exec_stack : typed.
Lemma typed_exec (path : list Z) (argv : list Z) : typed any (exec path argv).
Proof. unfold exec. ty. Qed.
#[local] Hint Resolve typed_exec : typed.

(** ** System calls *)

Lemma typed_fetchaddr (addr : Z) : typed any (fetchaddr addr).
Proof. unfold fetchaddr. ty. Qed.
#[local] Hint Resolve typed_fetchaddr : typed.
Lemma typed_fetchstr (addr max : Z) : typed any (fetchstr addr max).
Proof. unfold fetchstr. ty. Qed.
#[local] Hint Resolve typed_fetchstr : typed.
Lemma typed_argraw (n : Z) : typed any (argraw n).
Proof. unfold argraw. ty. Qed.
#[local] Hint Resolve typed_argraw : typed.
Lemma typed_argint (n : Z) : typed any (argint n).
Proof. unfold argint. ty. Qed.
#[local] Hint Resolve typed_argint : typed.
Lemma typed_argaddr (n : Z) : typed any (argaddr n).
Proof. unfold argaddr. ty. Qed.
#[local] Hint Resolve typed_argaddr : typed.
Lemma typed_argstr (n max : Z) : typed any (argstr n max).
Proof. unfold argstr. ty. Qed.
#[local] Hint Resolve typed_argstr : typed.
Lemma typed_sys_exit : typed any sys_exit.
Proof. unfold sys_exit. ty. Qed.
#[local] Hint Resolve typed_sys_exit : typed.
Lemma typed_sys_getpid : typed any sys_getpid.
Proof. unfold sys_getpid. ty. Qed.
#[local] Hint Resolve typed_sys_getpid : typed.
Lemma typed_sys_fork : typed any sys_fork.
Proof. unfold sys_fork. ty. Qed.
#[local] Hint Resolve typed_sys_fork : typed.
Lemma typed_sys_wait : typed any sys_wait.
Proof. unfold sys_wait. ty. Qed.
#[local] Hint Resolve typed_sys_wait : typed.
Lemma typed_sys_sbrk : typed any sys_sbrk.
Proof. unfold sys_sbrk. ty. Qed.
#[local] Hint Resolve typed_sys_sbrk : typed.
Lemma typed_sys_sleep_body (ticks0 n : Z) (u : unit) : typed (either any any) (sys_sleep_body ticks0 n u).
Proof. unfold sys_sleep_body. ty. Qed.
#[local] Hint Resolve typed_sys_sleep_body : typed.
Lemma typed_sys_sleep : typed any sys_sleep.
Proof. unfold sys_sleep. ty. Qed.
#[local] Hint Resolve typed_sys_sleep : typed.
Lemma typed_sys_kill : typed any sys_kill.
Proof. unfold sys_kill. ty. Qed.
#[local] Hint Resolve typed_sys_kill : typed.
Lemma typed_sys_uptime : typed any sys_uptime.
Proof. unfold sys_uptime. ty. Qed.
#[local] Hint Resolve typed_sys_uptime : typed.

Definition fd_ok : option (Z * nat) -> Prop := opt (fun x => fidx (snd x)).

Lemma typed_argfd (n : Z) : typed fd_ok (argfd n).
Proof.
  unfold argfd. apply (typed_bind any); [ty|]. intros fd _. destruct (_ || _); [ty|]. apply (typed_bind pidx); [ty|]. intros p _.
  apply (typed_bind proc_ok); [ty|]. intros pr Hpr. pose proof (ofile_fidx pr (Z.to_nat fd) Hpr) as Hf. destruct (p_ofile pr !!! Z.to_nat fd) as [f|]; by apply typed_ret.
Qed.
#[local] Hint Resolve typed_argfd : typed.
Lemma typed_set_ofile (p : nat) (fd : Z) (f : option nat) : opt fidx f -> typed any (set_ofile p fd f).
Proof. unfold set_ofile. ty. Qed.
#[local] Hint Resolve typed_set_ofile : typed.
Lemma typed_fdalloc (f : nat) : fidx f -> typed any (fdalloc f).
Proof. intros Hf. unfold fdalloc. ty; by apply typed_set_ofile. Qed.
#[local] Hint Resolve typed_fdalloc : typed.
Lemma typed_sys_dup : typed any sys_dup.
Proof. unfold sys_dup. apply (typed_bind fd_ok); [ty|]. intros [[fd f]|] Hf; cbn in Hf; ty. Qed.
#[local] Hint Resolve typed_sys_dup : typed.
Lemma typed_sys_read : typed any sys_read.
Proof. unfold sys_read. ty. Qed.
#[local] Hint Resolve typed_sys_read : typed.
Lemma typed_sys_write : typed any sys_write.
Proof. unfold sys_write. ty. Qed.
#[local] Hint Resolve typed_sys_write : typed.
Lemma typed_sys_close : typed any sys_close.
Proof. unfold sys_close. ty; by apply typed_set_ofile. Qed.
#[local] Hint Resolve typed_sys_close : typed.
Lemma typed_sys_fstat : typed any sys_fstat.
Proof. unfold sys_fstat. ty. Qed.
#[local] Hint Resolve typed_sys_fstat : typed.
Lemma typed_mod_nlink (i : nat) (d : Z) : typed any (mod_nlink i d).
Proof. unfold mod_nlink. ty. Qed.
#[local] Hint Resolve typed_mod_nlink : typed.
Lemma typed_link_bad (ip : nat) : typed any (link_bad ip).
Proof. unfold link_bad. ty. Qed.
#[local] Hint Resolve typed_link_bad : typed.
Lemma typed_sys_link : typed any sys_link.
Proof. unfold sys_link. ty. Qed.
#[local] Hint Resolve typed_sys_link : typed.
Lemma typed_isdirempty_body (dp : nat) (off : Z) : typed (either any any) (isdirempty_body dp off).
Proof. unfold isdirempty_body. ty. Qed.
#[local] Hint Resolve typed_isdirempty_body : typed.
Lemma typed_isdirempty (dp : nat) : typed any (isdirempty dp).
Proof. unfold isdirempty. ty. Qed.
#[local] Hint Resolve typed_isdirempty : typed.
Lemma typed_unlink_bad (dp : nat) : typed any (unlink_bad dp).
Proof. unfold unlink_bad. ty. Qed.
#[local] Hint Resolve typed_unlink_bad : typed.
Lemma typed_sys_unlink : typed any sys_unlink.
Proof. unfold sys_unlink. ty. Qed.
#[local] Hint Resolve typed_sys_unlink : typed.
Lemma typed_create_fail (ip dp : nat) : typed (opt iidx) (create_fail ip dp).
Proof. unfold create_fail. ty. Qed.
#[local] Hint Resolve typed_create_fail : typed.
Lemma typed_create (path : list Z) (type major minor : Z) : typed (opt iidx) (create path type major minor).
Proof. unfold create. ty. Qed.
#[local] Hint Resolve typed_create : typed.
Lemma typed_open_inode (path : list Z) (omode : Z) : typed (opt iidx) (open_inode path omode).
Proof. unfold open_inode. ty. Qed.
#[local] Hint Resolve typed_open_inode : typed.
Lemma typed_open_file (ip f : nat) (omode : Z) : iidx ip -> typed any (open_file ip f omode).
Proof. unfold open_file. ty. Qed.
#[local] Hint Resolve typed_open_file : typed.
Lemma typed_sys_open : typed any sys_open.
Proof. unfold sys_open. ty. Qed.
#[local] Hint Resolve typed_sys_open : typed.

Lemma typed_sys_mkdir : typed any sys_mkdir.
Proof. unfold sys_mkdir. ty. Qed.
#[local] Hint Resolve typed_sys_mkdir : typed.
Lemma typed_sys_mknod : typed any sys_mknod.
Proof. unfold sys_mknod. ty. Qed.
#[local] Hint Resolve typed_sys_mknod : typed.
Lemma typed_sys_chdir : typed any sys_chdir.
Proof.
  unfold sys_chdir. apply (typed_bind pidx); [ty|]. intros p Hp. apply (typed_bind any); [ty|]. intros _ _. apply (typed_bind any); [ty|]. intros [r path] _.
  apply (typed_bind (opt iidx)); [ty|]. intros [ip|] Hip; ty.
Qed.
#[local] Hint Resolve typed_sys_chdir : typed.
Lemma typed_fetch_args n : forall uargv i argv, typed any (fetch_args n uargv i argv).
Proof. induction n as [|n IH]; intros uargv i argv; cbn [fetch_args]; ty. Qed.
#[local] Hint Resolve typed_fetch_args : typed.
Lemma typed_sys_exec : typed any sys_exec.
Proof. unfold sys_exec. ty. Qed.
#[local] Hint Resolve typed_sys_exec : typed.
Lemma typed_pipe_bad (rf wf : nat) : typed any (pipe_bad rf wf).
Proof. unfold pipe_bad. ty. Qed.
#[local] Hint Resolve typed_pipe_bad : typed.
Lemma typed_sys_pipe : typed any sys_pipe.
Proof.
  unfold sys_pipe. apply (typed_bind pidx); [ty|]. intros p Hp. apply (typed_bind any); [ty|]. intros a _. apply (typed_bind pair_ok); [ty|].
  intros [[rf wf]|] Ho; [destruct Ho as [Hr Hw]; cbn in Hr, Hw|]; ty; by apply typed_set_ofile.
Qed.
#[local] Hint Resolve typed_sys_pipe : typed.

(** ** Traps *)

Lemma typed_r_sstatus : typed any r_sstatus.
Proof. unfold r_sstatus. ty. Qed.
#[local] Hint Resolve typed_r_sstatus : typed.
Lemma typed_modcsr f : typed any (modcsr f).
Proof. unfold modcsr. ty. Qed.
#[local] Hint Resolve typed_modcsr : typed.
Lemma typed_w_sstatus (x : Z) : typed any (w_sstatus x).
Proof. unfold w_sstatus. ty. Qed.
#[local] Hint Resolve typed_w_sstatus : typed.
Lemma typed_r_sepc : typed any r_sepc.
Proof. unfold r_sepc. ty. Qed.
#[local] Hint Resolve typed_r_sepc : typed.
Lemma typed_w_sepc (x : Z) : typed any (w_sepc x).
Proof. unfold w_sepc. ty. Qed.
#[local] Hint Resolve typed_w_sepc : typed.
Lemma typed_r_scause : typed any r_scause.
Proof. unfold r_scause. ty. Qed.
#[local] Hint Resolve typed_r_scause : typed.
Lemma typed_r_stval : typed any r_stval.
Proof. unfold r_stval. ty. Qed.
#[local] Hint Resolve typed_r_stval : typed.
Lemma typed_w_stvec (x : Z) : typed any (w_stvec x).
Proof. unfold w_stvec. ty. Qed.
#[local] Hint Resolve typed_w_stvec : typed.
Lemma typed_r_satp : typed any r_satp.
Proof. unfold r_satp. ty. Qed.
#[local] Hint Resolve typed_r_satp : typed.
Lemma typed_r_sip : typed any r_sip.
Proof. unfold r_sip. ty. Qed.
#[local] Hint Resolve typed_r_sip : typed.
Lemma typed_w_sip (x : Z) : typed any (w_sip x).
Proof. unfold w_sip. ty. Qed.
#[local] Hint Resolve typed_w_sip : typed.
Lemma typed_plicinit : typed any plicinit.
Proof. unfold plicinit. ty. Qed.
#[local] Hint Resolve typed_plicinit : typed.
Lemma typed_plicinithart : typed any plicinithart.
Proof. unfold plicinithart. ty. Qed.
#[local] Hint Resolve typed_plicinithart : typed.
Lemma typed_plic_claim : typed any plic_claim.
Proof. unfold plic_claim. ty. Qed.
#[local] Hint Resolve typed_plic_claim : typed.
Lemma typed_plic_complete (irq : Z) : typed any (plic_complete irq).
Proof. unfold plic_complete. ty. Qed.
#[local] Hint Resolve typed_plic_complete : typed.
Lemma typed_trapinit : typed any trapinit.
Proof. unfold trapinit. ty. Qed.
#[local] Hint Resolve typed_trapinit : typed.
Lemma typed_trapinithart : typed any trapinithart.
Proof. unfold trapinithart. ty. Qed.
#[local] Hint Resolve typed_trapinithart : typed.
Lemma typed_clockintr : typed any clockintr.
Proof.
  unfold clockintr. apply (typed_bind any); [ty|]. intros _ _. apply (typed_bind any); [|ty].
  apply typed_modify. intros s Hs. apply wf_set_ticks; [done|]. apply u32_u32_ok.
Qed.
#[local] Hint Resolve typed_clockintr : typed.
Lemma typed_usertrapret : typed any usertrapret.
Proof. unfold usertrapret, r_tp. ty. Qed.
#[local] Hint Resolve typed_usertrapret : typed.
Lemma typed_devintr : typed any devintr.
Proof. unfold devintr. ty. Qed.
#[local] Hint Resolve typed_devintr : typed.
Lemma typed_syscalls (h : K Z) n : syscalls !! n = Some (Some h) -> typed any h.
Proof.
  intros Hh. unfold syscalls in Hh. do 22 (destruct n as [|n]; [first [discriminate Hh | injection Hh as <-; auto with typed]|]). discriminate Hh.
Qed.

Lemma typed_syscall : typed any syscall.
Proof.
  unfold syscall. apply (typed_bind pidx); [ty|]. intros p Hp. apply (typed_bind proc_ok); [ty|]. intros pr Hpr. apply (typed_bind any); [ty|]. intros a7 _. cbv zeta.
  destruct (if _ : bool then _ else _) as [h|] eqn:E; [|ty]. apply (typed_bind any); [|ty].
  destruct (_ && _); [|done]. destruct (syscalls !! _) as [o|] eqn:Eo; [|done]. cbn in E. subst o. by apply (typed_syscalls _ _ Eo).
Qed.
#[local] Hint Resolve typed_syscall : typed.
Lemma typed_usertrap : typed any usertrap.
Proof. unfold usertrap. ty. Qed.
#[local] Hint Resolve typed_usertrap : typed.
Lemma typed_kerneltrap : typed any kerneltrap.
Proof. unfold kerneltrap. ty. Qed.
#[local] Hint Resolve typed_kerneltrap : typed.
Lemma typed_forkret : typed any forkret.
Proof. unfold forkret. ty. Qed.
Lemma typed_main : typed any main.
Proof. unfold main. ty. Qed.
Lemma typed_main_hart : typed any main_hart.
Proof. unfold main_hart. ty. Qed.
End kernel.

(** ** The whole system *)

#[export] Instance virtio_disk `{Fuel} : Disk := virtio_disk_rw.
#[export] Instance virtio_disk_typed `{Fuel} : TypedDisk.
Proof. intros b write Hb. by apply typed_virtio_disk_rw. Qed.

Section system.
Context `{Fuel}.

(** The ways into the kernel: boot, the first return of a child, traps from user and from
    kernel mode, and the scheduler. *)
Inductive kernel_entry : K unit -> Prop :=
  | enter_hart : kernel_entry main_hart
  | enter_child : kernel_entry (forkret;; ret tt)
  | enter_user : kernel_entry (usertrap;; ret tt)
  | enter_trap : kernel_entry kerneltrap
  | enter_sched n : kernel_entry (scheduler n).

Lemma typed_entry c : kernel_entry c -> typed any c.
Proof.
  intros []; [apply typed_main_hart| | |apply typed_kerneltrap|apply typed_scheduler].
  - apply (typed_bind any); [apply typed_forkret|]. intros _ _. by apply typed_ret.
  - apply (typed_bind any); [apply typed_usertrap|]. intros _ _. by apply typed_ret.
Qed.

(** What user programs and devices do: user memory and page tables, the registers of a
    trap, pending interrupts, typed characters, the blocks that the disk
    transfers and the requests it has completed. *)
Inductive outside (s : kernel) : kernel -> Prop :=
  | out_mem m : outside s (set_mem m s)
  | out_csr c : outside s (set_csr c s)
  | out_sie b : outside s (set_sie b s)
  | out_irq l : outside s (set_plic_irq l s)
  | out_uart rx lsr : outside s (set_uart_ (set_uart_rx rx (set_uart_lsr_tx lsr (uart_ s))) s)
  | out_read b bs : block_ok bs -> outside s (set_bufs (alter (set_b_data bs) b (bufs s)) s)
  | out_written bno bs : block_ok bs -> outside s (set_disk (<[bno := bs]> (disk s)) s)
  | out_done idx k id st : outside s (set_vdisk_ (set_vd_used_idx idx (set_vd_used_ring (<[k := id]> (vd_used_ring (vdisk_ s)))
      (set_vd_info_status (<[Z.to_nat id := st]> (vd_info_status (vdisk_ s))) (vdisk_ s)))) s).

Lemma outside_wf s s' : wf s -> outside s s' -> wf s'.
Proof.
  intros Hs []; [by apply wf_set_mem|by apply wf_set_csr|by apply wf_set_sie|by apply wf_set_plic_irq|apply wf_set_uart_; [done|apply Hs]| | |].
  - apply wf_set_bufs; [done|rewrite length_alter; apply Hs|]. apply Forall_alter; [apply Hs|]. intros x [? ? _]. by split.
  - apply wf_set_disk; [done|]. apply map_Forall_insert_2; [done|apply Hs].
  - apply wf_set_vdisk_; [done|]. destruct (wf_vdisk _ Hs). split; cbn; rewrite ?length_insert; done.
Qed.

(** The kernel with its threads, each suspended where it left the processor. *)
Record system : Type := mkSystem { sys_kernel : kernel; sys_threads : list (K unit) }.

(** A thread runs until it leaves the processor or ends; a trap starts a new one; or
    something happens outside of the kernel. *)
Inductive sys_step : system -> system -> Prop :=
  | step_yield s ts i c s' k : ts !! i = Some c -> c s = Yield s' k -> sys_step (mkSystem s ts) (mkSystem s' (<[i := k]> ts))
  | step_end s ts i c s' : ts !! i = Some c -> c s = Ret tt s' -> sys_step (mkSystem s ts) (mkSystem s' (delete i ts))
  | step_enter s ts c : kernel_entry c -> sys_step (mkSystem s ts) (mkSystem s (ts ++ [c]))
  | step_outside s ts s' : outside s s' -> sys_step (mkSystem s ts) (mkSystem s' ts).

Definition sys_ok (y : system) : Prop := wf (sys_kernel y) /\ Forall (typed any) (sys_threads y).

Lemma sys_step_ok y y' : sys_ok y -> sys_step y y' -> sys_ok y'.
Proof.
  intros [Hs Ht] Hstep. destruct Hstep as [s ts i c s' k Hc E|s ts i c s' Hc E|s ts c Hc|s ts s' Hout]; cbn in *.
  - pose proof (Forall_lookup_1 _ _ _ _ Ht Hc s Hs) as Hr. rewrite E in Hr. destruct Hr as [Hs' Hk]. split; [done|]. by apply Forall_insert.
  - pose proof (Forall_lookup_1 _ _ _ _ Ht Hc s Hs) as Hr. rewrite E in Hr. split; [apply Hr|]. by apply Forall_delete.
  - split; [done|]. apply Forall_app_2; [done|]. apply Forall_singleton. by apply typed_entry.
  - split; [by apply (outside_wf s)|done].
Qed.

Lemma wf_boot im dk : map_Forall (fun _ => block_ok) dk -> wf (kernel0 im dk).
Proof.
  intros Hd. unfold kernel0. split; cbn [procs cpu_ initproc files devsw inodes bufs log ticks cons uart_ vdisk_ disk c_proc cpu0 opt]; try done.
  - apply Forall_replicate, proc0_ok.
  - by apply Forall_replicate.
  - by apply Forall_replicate.
  - apply Forall_replicate, buf0_ok.
  - split; try done. by apply Forall_replicate.
Qed.

End system.

#[local] Instance ex_boot_fuel : Fuel := 1%nat.

(** The boot of hart 0, with a second hart that has started and a typed character. *)
Definition ex_booting : system :=
  mkSystem (set_uart_ (set_uart_rx [104] (set_uart_lsr_tx [] (uart_ (kernel0 (mkImage 0 0 0 0 0 0 0 0) ∅)))) (kernel0 (mkImage 0 0 0 0 0 0 0 0) ∅))
    [main; main_hart].

