(* ===== verification/UserSys.v ===== *)
(** User processes: user/user.h's system calls as requests of an interactive
    program, and how a world answers them.

    A user program is a tree [prog]: it returns, exits, is replaced by another
    program, stops (in behaviour C leaves undefined, or out of loop fuel), or makes
    a system call and goes on with the answer.  A call that stores into the caller's memory answers with
    the bytes it stored.  Continuations are functions, so a process that forks is
    continued twice, with the answer 0 and with the child's pid, from the same
    memory. *)

From S2P Require Import Prelude Outcome.

(** kernel/stat.h *)
Record stat : Type := mkStat { st_dev : Z; st_ino : Z; st_type : Z; st_nlink : Z; st_size : Z }.
Definition T_DIR : Z := 1.
Definition T_FILE : Z := 2.
Definition T_DEVICE : Z := 3.

(** kernel/fcntl.h *)
Definition O_RDONLY : Z := 0.
Definition O_WRONLY : Z := 0x001.
Definition O_RDWR : Z := 0x002.
Definition O_CREATE : Z := 0x200.
Definition O_TRUNC : Z := 0x400.

(** The system calls of user/user.h with what they answer.  A C string argument
    is the list of its characters without the NUL. *)
Inductive sys : Type -> Type :=
| Sfork : sys Z
| Swait : sys (Z * Z)   (** pid and exit status *)
| Spipe : sys (Z * (Z * Z))   (** result and the two descriptors *)
| Swrite (fd : Z) (bs : list Z) : sys Z
| Sread (fd n : Z) : sys (Z * list Z)   (** result and the bytes stored *)
| Sclose (fd : Z) : sys Z
| Skill (pid : Z) : sys Z
| Sexec (path : list Z) (argv : list (list Z)) : sys (option Z)   (** [None]: it does not return *)
| Sopen (path : list Z) (omode : Z) : sys Z
| Smknod (path : list Z) (major minor : Z) : sys Z
| Sunlink (path : list Z) : sys Z
| Sfstat (fd : Z) : sys (Z * stat)
| Slink (old new : list Z) : sys Z
| Smkdir (path : list Z) : sys Z
| Schdir (path : list Z) : sys Z
| Sdup (fd : Z) : sys Z
| Sgetpid : sys Z
| Ssbrk (n : Z) : sys Z
| Ssleep (n : Z) : sys Z
| Suptime : sys Z.

Inductive prog (A : Type) : Type :=
| PRet (a : A)
| PExit (status : Z)
| PGone   (** the process runs another program *)
| PStop (h : stop)
| PSys {X : Type} (c : sys X) (k : X -> prog A).
Arguments PRet {A} a.
Arguments PExit {A} status.
Arguments PGone {A}.
Arguments PStop {A} h.
Arguments PSys {A X} c k.

Fixpoint pbind {A B} (p : prog A) (k : A -> prog B) : prog B :=
  match p with
  | PRet a => k a
  | PExit st => PExit st
  | PGone => PGone
  | PStop h => PStop h
  | PSys c j => PSys c (fun x => pbind (j x) k)
  end.

Definition sys_ {X} (c : sys X) : prog X := PSys c PRet.
Definition exec_ (path : list Z) (argv : list (list Z)) : prog Z :=
  PSys (Sexec path argv) (fun r => match r with Some v => PRet v | None => PGone end).
Definition undefined {A} (why : string) : prog A := PStop (Undefined why).

Declare Scope prog_scope.
Delimit Scope prog_scope with prog.
Notation "x <- c ;; k" := (pbind c (fun x => k))
  (at level 100, c at next level, right associativity) : prog_scope.
Notation "' pat <- c ;; k" := (pbind c (fun x => match x with pat => k end))
  (at level 100, pat pattern, c at next level, right associativity) : prog_scope.
Notation "c ;; k" := (pbind c (fun _ => k))
  (at level 100, right associativity) : prog_scope.
Open Scope prog_scope.

(** A call whose result is not looked at. *)
Definition do_ {X} (c : sys X) : prog unit := sys_ c;; PRet tt.

Fixpoint pfor {A} (l : list A) (body : A -> prog unit) : prog unit :=
  match l with
  | [] => PRet tt
  | x :: l' => body x;; pfor l' body
  end.

(** A loop: [inl] goes round again, [inr] leaves it. *)
Fixpoint piter {I R} (n : nat) (body : I -> prog (I + R)) (i : I) : prog R :=
  match n with
  | O => PStop OutOfFuel
  | S n' => r <- body i;; match r with inl i' => piter n' body i' | inr v => PRet v end
  end.

(** ** Running a program in a world that answers its calls *)

Inductive result (W A : Type) : Type :=
| Returned (a : A) (w : W)
| Exited (status : Z) (w : W)
| Gone (w : W)
| Halted (h : stop).
Arguments Returned {W A} a w.
Arguments Exited {W A} status w.
Arguments Gone {W A} w.
Arguments Halted {W A} h.

Definition handler (W : Type) : Type := forall X, sys X -> W -> X * W.

Fixpoint run {W A} (h : handler W) (p : prog A) (w : W) : result W A :=
  match p with
  | PRet a => Returned a w
  | PExit st => Exited st w
  | PGone => Gone w
  | PStop e => Halted e
  | PSys c k => let '(x, w') := h _ c w in run h (k x) w'
  end.

Section run.
Context {W : Type} (h : handler W).

Lemma run_bind {A B} (p : prog A) (k : A -> prog B) w :
  run h (pbind p k) w =
  match run h p w with Returned a w' => run h (k a) w' | Exited st w' => Exited st w' | Gone w' => Gone w' | Halted e => Halted e end.
Proof.
  revert w. induction p as [| | | |X c j IH]; intros w; simpl; try done. destruct (h X c w) as [x w']. apply IH.
Qed.

Lemma run_sys {X} (c : sys X) w : run h (sys_ c) w = Returned (h X c w).1 (h X c w).2.
Proof. simpl. by destruct (h X c w). Qed.

Lemma run_bind_sys {X B} (c : sys X) (k : X -> prog B) w :
  run h (pbind (sys_ c) k) w = run h (k (h X c w).1) (h X c w).2.
Proof. simpl. by destruct (h X c w). Qed.

Lemma run_bind_Returned {A B} (p : prog A) (k : A -> prog B) w a w' :
  run h p w = Returned a w' -> run h (pbind p k) w = run h (k a) w'.
Proof. intros E. by rewrite run_bind, E. Qed.

Lemma piter_S {I R} n (body : I -> prog (I + R)) i w :
  run h (piter (S n) body i) w =
  match run h (body i) w with
  | Returned (inl i') w' => run h (piter n body i') w'
  | Returned (inr v) w' => Returned v w'
  | Exited st w' => Exited st w'
  | Gone w' => Gone w'
  | Halted e => Halted e
  end.
Proof. cbn [piter]. rewrite run_bind. by destruct (run h (body i) w) as [[]| | |]. Qed.

(** A loop whose measure falls in every round leaves with enough fuel, and what
    holds when it leaves follows from an invariant. *)
Lemma piter_total {I R} (body : I -> prog (I + R)) (inv : I -> W -> Prop) (post : R -> W -> Prop)
    (measure : I -> W -> nat) :
  (forall i w, inv i w -> exists r w', run h (body i) w = Returned r w' /\
     match r with inl i' => inv i' w' /\ (measure i' w' < measure i w)%nat | inr v => post v w' end) ->
  forall n i w, inv i w -> (measure i w < n)%nat ->
  exists v w', run h (piter n body i) w = Returned v w' /\ post v w'.
Proof.
  intros Hb n. induction n as [|n IH]; intros i w Hi Hm; [lia|]. rewrite piter_S.
  destruct (Hb i w Hi) as (r & w' & -> & Hr). destruct r as [i'|v]; [|by eauto].
  destruct Hr as [Hi' Hlt]. apply IH; [done|lia].
Qed.
End run.
