(* ===== verification/Ulib.v ===== *)
(** user/ulib.c: the C library of user programs.

    A char array is the list of its bytes (char is unsigned on RISC-V) and a
    pointer into it the offset, or, for a string that is only read, the rest of
    the array from the pointer on.  An access outside the array is [None]. *)

From S2P Require Import Prelude Outcome UserSys.

(** The array of a C string: its characters and the NUL. *)
Definition z (s : list Z) : list Z := s ++ [0].

Definition store (a : list Z) (i : nat) (c : Z) : option (list Z) :=
  if decide (i < length a)%nat then Some (<[i := u8 c]> a) else None.

(** An access that C leaves undefined ends the program's defined behaviour. *)
Definition must {A} (o : option A) : prog A :=
  match o with Some a => PRet a | None => undefined "access outside an array" end.

Fixpoint strcpy (s t : list Z) : option (list Z) :=
  match s, t with
  | _ :: s', c :: t' => if c =? 0 then Some (0 :: s') else cons c <$> strcpy s' t'
  | _, _ => None
  end.

Fixpoint strcmp (p q : list Z) : option Z :=
  match p, q with
  | a :: p', b :: q' => if negb (a =? 0) && (a =? b) then strcmp p' q' else Some (u8 a - u8 b)
  | _, _ => None
  end.

Fixpoint strlen (s : list Z) : option Z :=
  match s with
  | [] => None
  | c :: s' => if c =? 0 then Some 0 else Z.add 1 <$> strlen s'
  end.

Fixpoint memset (dst : list Z) (c : Z) (n : nat) : option (list Z) :=
  match n, dst with
  | O, _ => Some dst
  | S n', _ :: dst' => cons (u8 c) <$> memset dst' c n'
  | S _, [] => None
  end.

(** [Some None] is the null pointer, [Some (Some i)] the pointer to [s[i]]. *)
Fixpoint strchr (s : list Z) (c : Z) : option (option nat) :=
  match s with
  | [] => None
  | x :: s' =>
      if x =? 0 then Some None
      else if x =? c then Some (Some 0%nat)
      else option_map (option_map S) (strchr s' c)
  end.

Definition C_nl : Z := 10.
Definition C_cr : Z := 13.

(** [k] is what is left of [max - 1]. *)
Fixpoint gets_loop (k i : nat) (buf : list Z) : prog (nat * list Z) :=
  match k with
  | O => PRet (i, buf)
  | S k' =>
      '(cc, bs) <- sys_ (Sread 0 1);;
      if cc <? 1 then PRet (i, buf)
      else
        c <- must (head bs);;
        buf <- must (store buf i c);;
        if (c =? C_nl) || (c =? C_cr) then PRet (S i, buf)
        else gets_loop k' (S i) buf
  end.

Definition gets (buf : list Z) (max : Z) : prog (list Z) :=
  '(i, buf) <- gets_loop (Z.to_nat (max - 1)) 0 buf;;
  must (store buf i 0).

Definition ulib_stat (n : list Z) (st : stat) : prog (Z * stat) :=
  fd <- sys_ (Sopen n O_RDONLY);;
  if fd <? 0 then PRet (-1, st)
  else
    '(r, st) <- sys_ (Sfstat fd);;
    sys_ (Sclose fd);;
    PRet (r, st).

(** An int that does not fit is undefined behaviour. *)
Definition int_ (n : Z) : option Z := if (-2 ^ 31 <=? n) && (n <? 2 ^ 31) then Some n else None.

Fixpoint atoi_loop (s : list Z) (n : Z) : option Z :=
  match s with
  | [] => None
  | c :: s' => if (48 <=? c) && (c <=? 57) then n' ← int_ (n * 10 + c - 48); atoi_loop s' n' else Some n
  end.
Definition atoi (s : list Z) : option Z := atoi_loop s 0.

(** Both loops of memmove on one array, so that the areas may overlap. *)
Fixpoint move_fwd (n : nat) (a : list Z) (dst src : nat) : option (list Z) :=
  match n with
  | O => Some a
  | S n' => x ← a !! src; a' ← store a dst x; move_fwd n' a' (S dst) (S src)
  end.
Fixpoint move_bwd (n : nat) (a : list Z) (dst src : nat) : option (list Z) :=
  match n with
  | O => Some a
  | S n' => x ← a !! (src + n')%nat; a' ← store a (dst + n') x; move_bwd n' a' dst src
  end.
Definition memmove (a : list Z) (dst src : nat) (n : Z) : option (list Z) :=
  if (dst <? src)%nat then move_fwd (Z.to_nat n) a dst src else move_bwd (Z.to_nat n) a dst src.

Fixpoint memcmp (s1 s2 : list Z) (n : nat) : option Z :=
  match n with
  | O => Some 0
  | S n' =>
      match s1, s2 with
      | a :: s1', b :: s2' => if a =? b then memcmp s1' s2' n' else Some (a - b)
      | _, _ => None
      end
  end.

Definition memcpy (a : list Z) (dst src : nat) (n : Z) : option (list Z) := memmove a dst src n.

(** ** Strings *)

Definition byte_ok (c : Z) : Prop := 0 <= c < 256.
Definition char_ok (c : Z) : Prop := 0 < c < 256.

Lemma char_ok_eqb c : char_ok c -> (c =? 0) = false.
Proof. unfold char_ok. lia. Qed.

Lemma strlen_z s r : Forall char_ok s -> strlen (z s ++ r) = Some (Z.of_nat (length s)).
Proof.
  induction 1 as [|c s Hc _ IH]; [done|]. cbn [z app strlen]. rewrite char_ok_eqb by done.
  change (strlen ((s ++ [0]) ++ r)) with (strlen (z s ++ r)). rewrite IH. simpl. f_equal. lia.
Qed.

(** strchr finds the first occurrence. *)
Lemma strchr_found s c r : c ∉ s -> Forall char_ok s -> char_ok c -> strchr (s ++ c :: r) c = Some (Some (length s)).
Proof.
  intros Hn Hs Hc. induction Hs as [|x s Hx _ IH]; cbn [app strchr].
  - by rewrite char_ok_eqb, Z.eqb_refl.
  - rewrite char_ok_eqb by done. apply not_elem_of_cons in Hn as [Hne Hn].
    destruct (Z.eqb_spec x c); [congruence|]. by rewrite IH.
Qed.

Lemma strchr_none s c r : c ∉ s -> Forall char_ok s -> strchr (s ++ 0 :: r) c = Some None.
Proof.
  intros Hn Hs. induction Hs as [|x s Hx _ IH]; cbn [app strchr]; [done|].
  rewrite char_ok_eqb by done. apply not_elem_of_cons in Hn as [Hne Hn].
  destruct (Z.eqb_spec x c); [congruence|]. by rewrite IH.
Qed.

(** ** memmove *)

(** [splice a i bs]: the array with [bs] written at [i]. *)
Definition splice (a : list Z) (i : nat) (bs : list Z) : list Z := take i a ++ bs ++ drop (i + length bs) a.

Lemma splice_nil a i : splice a i [] = a.
Proof. unfold splice. simpl. rewrite Nat.add_0_r. apply take_drop. Qed.

Lemma splice_length a i bs : (i + length bs <= length a)%nat -> length (splice a i bs) = length a.
Proof. intros. unfold splice. rewrite !length_app, length_take, length_drop. lia. Qed.

Lemma lookup_splice_in a i bs j : (i <= length a)%nat -> (j < length bs)%nat -> splice a i bs !! (i + j)%nat = bs !! j.
Proof.
  intros. unfold splice. rewrite lookup_app_r by (rewrite length_take; lia). rewrite length_take.
  rewrite lookup_app_l by lia. f_equal. lia.
Qed.

Lemma lookup_splice_before a i bs j : (j < i)%nat -> (i <= length a)%nat -> splice a i bs !! j = a !! j.
Proof. intros. unfold splice. rewrite lookup_app_l by (rewrite length_take; lia). by rewrite lookup_take_lt. Qed.

Lemma lookup_splice_after a i bs j : (i + length bs <= j)%nat -> (i <= length a)%nat -> splice a i bs !! j = a !! j.
Proof.
  intros. unfold splice. rewrite lookup_app_r by (rewrite length_take; lia). rewrite length_take.
  rewrite lookup_app_r by lia. rewrite lookup_drop. f_equal. lia.
Qed.

Lemma store_in a i c : (i < length a)%nat -> byte_ok c -> store a i c = Some (<[i := c]> a).
Proof. intros Hi Hc. unfold store. rewrite decide_True by done. unfold byte_ok in Hc. by rewrite u8_small by lia. Qed.

Lemma insert_splice_end a i bs c :
  (i + length bs < length a)%nat -> <[(i + length bs)%nat := c]> (splice a i bs) = splice a i (bs ++ [c]).
Proof.
  intros Hl. apply list_eq. intros j. destruct (decide (j = i + length bs)%nat) as [->|Hne].
  - rewrite list_lookup_insert_eq by (rewrite splice_length; lia).
    rewrite lookup_splice_in by (rewrite ?length_app; simpl; lia).
    rewrite lookup_app_r by lia. by rewrite Nat.sub_diag.
  - rewrite list_lookup_insert_ne by lia. destruct (decide (j < i)%nat); [by rewrite !lookup_splice_before by lia|].
    destruct (decide (j < i + length bs)%nat).
    + replace j with (i + (j - i))%nat by lia. rewrite !lookup_splice_in by (rewrite ?length_app; simpl; lia).
      by rewrite lookup_app_l by lia.
    + by rewrite !lookup_splice_after by (rewrite ?length_app; simpl; lia).
Qed.

Lemma insert_splice_front a i bs c :
  (i + S (length bs) <= length a)%nat -> <[i := c]> (splice a (S i) bs) = splice a i (c :: bs).
Proof.
  intros Hl. apply list_eq. intros j. destruct (decide (j = i)) as [->|Hne].
  - rewrite list_lookup_insert_eq by (rewrite splice_length; lia).
    pose proof (lookup_splice_in a i (c :: bs) 0) as E. rewrite Nat.add_0_r in E. rewrite E; simpl; (done || lia).
  - rewrite list_lookup_insert_ne by lia. destruct (decide (j < i)%nat); [by rewrite !lookup_splice_before by lia|].
    destruct (decide (j < i + S (length bs))%nat).
    + pose proof (lookup_splice_in a (S i) bs (j - S i)) as E1. pose proof (lookup_splice_in a i (c :: bs) (S (j - S i))) as E2.
      replace (S i + (j - S i))%nat with j in E1 by lia. replace (i + S (j - S i))%nat with j in E2 by lia.
      rewrite E1, E2; simpl; (done || lia).
    + by rewrite !lookup_splice_after by (simpl; lia).
Qed.

Lemma take_S_lookup (a : list Z) src n x :
  a !! src = Some x -> take (S n) (drop src a) = x :: take n (drop (S src) a).
Proof. intros Hx. by rewrite (drop_S a x src) by done. Qed.

Lemma take_drop_insert (a : list Z) i x src n :
  (i < src \/ src + n <= i)%nat -> take n (drop src (<[i := x]> a)) = take n (drop src a).
Proof.
  intros Hi. apply list_eq. intros j. destruct (decide (j < n)%nat) as [Hj|Hj].
  - rewrite !lookup_take_lt, !lookup_drop, list_lookup_insert_ne by lia. done.
  - by rewrite !lookup_take_ge by lia.
Qed.

Lemma insert_splice_out a i x bs :
  (i + length bs < length a)%nat -> splice (<[(i + length bs)%nat := x]> a) i bs = <[(i + length bs)%nat := x]> (splice a i bs).
Proof.
  intros Hl. apply list_eq. intros j. destruct (decide (j < i)%nat).
  { rewrite lookup_splice_before by (rewrite ?length_insert; lia).
    by rewrite !list_lookup_insert_ne, lookup_splice_before by lia. }
  destruct (decide (j < i + length bs)%nat).
  { rewrite list_lookup_insert_ne by lia. replace j with (i + (j - i))%nat by lia.
    by rewrite !lookup_splice_in by (rewrite ?length_insert; lia). }
  rewrite lookup_splice_after by (rewrite ?length_insert; lia). destruct (decide (j = i + length bs)%nat) as [->|].
  - by rewrite !list_lookup_insert_eq by (rewrite ?splice_length; lia).
  - by rewrite !list_lookup_insert_ne, lookup_splice_after by lia.
Qed.

Lemma splice_insert_front a i x bs :
  (i + S (length bs) <= length a)%nat -> splice (<[i := x]> a) (S i) bs = <[i := x]> (splice a (S i) bs).
Proof.
  intros Hl. apply list_eq. intros j. destruct (decide (j < S i)%nat).
  { rewrite lookup_splice_before by (rewrite ?length_insert; lia). destruct (decide (j = i)) as [->|].
    - by rewrite !list_lookup_insert_eq by (rewrite ?splice_length; lia).
    - by rewrite !list_lookup_insert_ne, lookup_splice_before by lia. }
  rewrite list_lookup_insert_ne by lia. destruct (decide (j < S i + length bs)%nat).
  - replace j with (S i + (j - S i))%nat by lia. by rewrite !lookup_splice_in by (rewrite ?length_insert; lia).
  - rewrite !lookup_splice_after by (rewrite ?length_insert; lia). by rewrite list_lookup_insert_ne by lia.
Qed.

Lemma Forall_lookup_byte a i x : Forall byte_ok a -> a !! i = Some x -> byte_ok x.
Proof. intros Ha. by apply Forall_lookup_1. Qed.

Lemma move_fwd_eq n a dst src :
  Forall byte_ok a -> (dst < src)%nat -> (src + n <= length a)%nat ->
  move_fwd n a dst src = Some (splice a dst (take n (drop src a))).
Proof.
  revert a dst src. induction n as [|n IH]; intros a dst src Ha Hlt Hl; [by rewrite splice_nil|].
  destruct (lookup_lt_is_Some_2 a src) as [x Hx]; [lia|]. cbn [move_fwd]. rewrite Hx. cbn [mbind option_bind].
  assert (Hbx : byte_ok x) by by eapply Forall_lookup_byte.
  rewrite store_in by (done || lia). cbn [mbind option_bind].
  rewrite IH; rewrite ?length_insert; [|by apply Forall_insert|lia|lia].
  rewrite take_drop_insert by lia. rewrite (take_S_lookup _ _ _ _ Hx). f_equal.
  assert (Hlen : length (take n (drop (S src) a)) = n) by (rewrite length_take, length_drop; lia).
  rewrite splice_insert_front by lia. apply insert_splice_front. lia.
Qed.

Lemma move_bwd_eq n a dst src :
  Forall byte_ok a -> (src <= dst)%nat -> (dst + n <= length a)%nat ->
  move_bwd n a dst src = Some (splice a dst (take n (drop src a))).
Proof.
  revert a. induction n as [|n IH]; intros a Ha Hle Hl; [by rewrite splice_nil|].
  destruct (lookup_lt_is_Some_2 a (src + n)) as [x Hx]; [lia|]. cbn [move_bwd]. rewrite Hx. cbn [mbind option_bind].
  assert (Hbx : byte_ok x) by by eapply Forall_lookup_byte.
  rewrite store_in by (done || lia). cbn [mbind option_bind].
  rewrite IH; rewrite ?length_insert; [|by apply Forall_insert|lia|lia].
  rewrite take_drop_insert by lia.
  assert (Hlen : length (take n (drop src a)) = n) by (rewrite length_take, length_drop; lia).
  rewrite (take_S_r _ n x) by (by rewrite lookup_drop). f_equal.
  replace (dst + n)%nat with (dst + length (take n (drop src a)))%nat by lia.
  rewrite insert_splice_out by lia. apply insert_splice_end. lia.
Qed.

(** memmove copies as if through a temporary, whichever way the areas overlap. *)
Lemma memmove_eq a dst src n :
  Forall byte_ok a -> 0 <= n -> (dst + Z.to_nat n <= length a)%nat -> (src + Z.to_nat n <= length a)%nat ->
  memmove a dst src n = Some (splice a dst (take (Z.to_nat n) (drop src a))).
Proof.
  intros. unfold memmove. destruct (Nat.ltb_spec dst src); [apply move_fwd_eq|apply move_bwd_eq]; (done || lia).
Qed.

(** Bytes stored into an array: memmove from another array, or a system call. *)
Definition store_bytes (a : list Z) (i : nat) (bs : list Z) : option (list Z) :=
  if decide (i + length bs <= length a)%nat then Some (splice a i bs) else None.
