(* ===== verification/Uprintf.v ===== *)
(** user/printf.c: printf of user programs, one write system call per character. *)

From S2P Require Import Prelude Outcome UserSys Ulib.

(** The characters of a string constant. *)
Definition chars (x : string) : list Z :=
  (fun c => Z.of_nat (Ascii.nat_of_ascii c)) <$> String.list_ascii_of_string x.

(** static char digits[] *)
Definition digits : list Z := chars "0123456789ABCDEF".
Definition digit (d : Z) : Z := digits !!! Z.to_nat d.

Definition putc (fd c : Z) : prog unit := sys_ (Swrite fd [u8 c]);; PRet tt.

(** The do-while loop: the digits of [x], least significant first; 32 are enough
    for a 32-bit number. *)
Fixpoint printint_loop (f : nat) (x base : Z) : list Z :=
  match f with
  | O => []
  | S f' => digit (x mod base) :: (if x / base =? 0 then [] else printint_loop f' (x / base) base)
  end.

(** buf[0..i) when the loop and the sign are done. *)
Definition printint_buf (xx base : Z) (sgn : bool) : list Z :=
  let neg := sgn && (xx <? 0) in
  let x := if neg then u32 (- xx) else u32 xx in
  printint_loop 32 x base ++ (if neg then [45] else []).

Definition printint (fd xx base : Z) (sgn : bool) : prog unit :=
  let buf := printint_buf xx base sgn in
  if (length buf <=? 16)%nat then pfor (rev buf) (putc fd) else undefined "buf[16] overflows".

(** The 16 digits of a pointer, top nibble first. *)
Fixpoint printptr_loop (n : nat) (x : Z) : list Z :=
  match n with
  | O => []
  | S n' => digit (Z.shiftr x 60) :: printptr_loop n' (u64 (Z.shiftl x 4))
  end.

Definition printptr (fd x : Z) : prog unit :=
  putc fd 48;;
  putc fd 120;;
  pfor (printptr_loop 16 x) (putc fd).

(** Variadic arguments: a number, which takes a 64-bit slot whatever its C type,
    or a string or NULL. *)
Inductive uarg : Type := ANum (v : Z) | AStr (s : option (list Z)).

(** One conversion; an argument of another kind, or none left, is undefined. *)
Definition vprintf_conv (fd c : Z) (ap : list uarg) : prog (list uarg) :=
  if c =? 100 (* d *) then
    match ap with ANum v :: ap => printint fd (i32 v) 10 true;; PRet ap | _ => undefined "va_arg" end
  else if c =? 108 (* l *) then
    match ap with ANum v :: ap => printint fd (i32 v) 10 false;; PRet ap | _ => undefined "va_arg" end
  else if c =? 120 (* x *) then
    match ap with ANum v :: ap => printint fd (i32 v) 16 false;; PRet ap | _ => undefined "va_arg" end
  else if c =? 112 (* p *) then
    match ap with ANum v :: ap => printptr fd (u64 v);; PRet ap | _ => undefined "va_arg" end
  else if c =? 115 (* s *) then
    match ap with
    | AStr s :: ap => pfor (default (chars "(null)") s) (putc fd);; PRet ap
    | _ => undefined "va_arg"
    end
  else if c =? 99 (* c *) then
    match ap with ANum v :: ap => putc fd v;; PRet ap | _ => undefined "va_arg" end
  else if c =? 37 (* % *) then putc fd c;; PRet ap
  else putc fd 37;; putc fd c;; PRet ap.

(** The loop over the format string, whose characters end at the NUL; [state]
    tells that the last character was a percent sign. *)
Fixpoint vprintf_loop (fd : Z) (fmt : list Z) (state : bool) (ap : list uarg) : prog unit :=
  match fmt with
  | [] => PRet tt
  | c :: fmt' =>
      if state then ap <- vprintf_conv fd c ap;; vprintf_loop fd fmt' false ap
      else if c =? 37 then vprintf_loop fd fmt' true ap
      else putc fd c;; vprintf_loop fd fmt' false ap
  end.
Definition vprintf (fd : Z) (fmt : list Z) (ap : list uarg) : prog unit := vprintf_loop fd fmt false ap.

Definition fprintf (fd : Z) (fmt : list Z) (ap : list uarg) : prog unit := vprintf fd fmt ap.
Definition printf (fmt : list Z) (ap : list uarg) : prog unit := vprintf 1 fmt ap.

(** A message of a program: a format that ends in a newline. *)
Definition line (x : string) : list Z := chars x ++ [C_nl].

(** ** What a format prints *)

(** The text of one conversion and the arguments it leaves. *)
Definition conv_text (c : Z) (ap : list uarg) : option (list Z * list uarg) :=
  if c =? 100 then match ap with ANum v :: ap => Some (rev (printint_buf (i32 v) 10 true), ap) | _ => None end
  else if c =? 108 then match ap with ANum v :: ap => Some (rev (printint_buf (i32 v) 10 false), ap) | _ => None end
  else if c =? 120 then match ap with ANum v :: ap => Some (rev (printint_buf (i32 v) 16 false), ap) | _ => None end
  else if c =? 112 then match ap with ANum v :: ap => Some ([48; 120] ++ printptr_loop 16 (u64 v), ap) | _ => None end
  else if c =? 115 then match ap with AStr s :: ap => Some (default (chars "(null)") s, ap) | _ => None end
  else if c =? 99 then match ap with ANum v :: ap => Some ([v], ap) | _ => None end
  else if c =? 37 then Some ([37], ap)
  else Some ([37; c], ap).

(** The text of a format: a percent sign takes the next character with it. *)
Fixpoint text (fmt : list Z) (ap : list uarg) : option (list Z) :=
  match fmt with
  | [] => Some []
  | c :: fmt' =>
      if c =? 37 then
        match fmt' with
        | [] => Some []
        | d :: fmt'' => match conv_text d ap with Some (t, ap) => app t <$> text fmt'' ap | None => None end
        end
      else cons c <$> text fmt' ap
  end.

Section out.
Context {W : Type} (h : handler W).

(** Writing characters one at a time. *)
Definition puts (fd : Z) (l : list Z) : prog unit := pfor l (putc fd).

Lemma run_putc fd c w : run h (putc fd c) w = Returned tt (h _ (Swrite fd [u8 c]) w).2.
Proof. unfold putc. by rewrite run_bind_sys. Qed.

Lemma run_puts_total fd l : forall w, exists w', run h (puts fd l) w = Returned tt w'.
Proof.
  induction l as [|c l IH]; intros w; [by eexists|]. unfold puts. cbn [pfor]. rewrite run_bind, run_putc. apply IH.
Qed.

Lemma run_puts_app fd l1 l2 w w' :
  run h (puts fd l1) w = Returned tt w' -> run h (puts fd (l1 ++ l2)) w = run h (puts fd l2) w'.
Proof.
  unfold puts. revert w. induction l1 as [|c l1 IH]; intros w; cbn [pfor app]; [by intros [= ->]|].
  rewrite !run_bind, !run_putc. apply IH.
Qed.
End out.
