(* ===== verification/UserWorld.v ===== *)
(** What the kernel promises to a user program that reads and writes files, as a
    class of laws, and a concrete world that keeps them.

    The laws say nothing about how many bytes a read returns, only that at least
    one comes while there are any: a program proved against them works for every
    way in which a file, a pipe or the console hands its bytes out. *)

From S2P Require Import Prelude Outcome UserSys Ulib Uprintf.

(** [rest fd w]: the bytes still to be read from [fd]; [out fd w]: the bytes
    written to it; [file path]: the contents of the files that open finds. *)
Class FileWorld {W : Type} (h : handler W) (rest out : Z -> W -> list Z)
    (file : list Z -> option (list Z)) : Prop := {
  fw_read fd n w : 0 <= n ->
    let '((r, bs), w') := h _ (Sread fd n) w in
    rest fd w = bs ++ rest fd w' /\ r = Z.of_nat (length bs) /\ r <= n /\ (r = 0 -> 0 < n -> rest fd w = []) /\
    (forall fd', fd' <> fd -> rest fd' w' = rest fd' w) /\ (forall o, out o w' = out o w);
  fw_write fd bs w :
    let '(r, w') := h _ (Swrite fd bs) w in
    r = Z.of_nat (length bs) /\ (forall fd', rest fd' w' = rest fd' w) /\
    out fd w' = out fd w ++ bs /\ (forall o, o <> fd -> out o w' = out o w);
  fw_open path w :
    let '(r, w') := h _ (Sopen path O_RDONLY) w in
    (forall o, out o w' = out o w) /\
    match file path with
    | Some c => 0 <= r /\ rest r w' = c /\ (forall fd, fd <> r -> rest fd w' = rest fd w)
    | None => r < 0 /\ (forall fd, rest fd w' = rest fd w)
    end;
  fw_close fd w :
    let '(_, w') := h _ (Sclose fd) w in
    (forall o, out o w' = out o w) /\ (forall fd', fd' <> fd -> rest fd' w' = rest fd' w)
}.

Section laws.
Context {W : Type} (h : handler W) (rest out : Z -> W -> list Z) (file : list Z -> option (list Z)).
Context `{!FileWorld h rest out file}.

(** Text written a character at a time arrives whole. *)
Lemma run_puts fd l : Forall byte_ok l -> forall w, exists w', run h (puts fd l) w = Returned tt w' /\
  (forall fd', rest fd' w' = rest fd' w) /\ out fd w' = out fd w ++ l /\ (forall o, o <> fd -> out o w' = out o w).
Proof.
  induction 1 as [|c l Hc _ IH]; intros w.
  - exists w. rewrite app_nil_r. done.
  - unfold puts. cbn [pfor]. rewrite run_bind, run_putc. unfold byte_ok in Hc. rewrite u8_small by lia.
    pose proof (fw_write fd [c] w) as Hw. destruct (h _ (Swrite fd [c]) w) as [r w1]. destruct Hw as (_ & Hr & Ho & Ho').
    destruct (IH w1) as (w' & E & Hr' & Ho1 & Ho1'). exists w'. split; [exact E|]. split; [|split].
    + intros fd'. by rewrite Hr', Hr.
    + by rewrite Ho1, Ho, <- app_assoc.
    + intros o Hne. by rewrite Ho1', Ho'.
Qed.
End laws.

(** ** A concrete world *)

(** Files, what is left of each open file, the descriptor of the next open, the
    bytes written, and how many bytes more than one each coming read may return. *)
Record io : Type := mkIo {
  io_fds : Z -> list Z;
  io_next : nat;
  io_out : Z -> list Z;
  io_more : list nat
}.

Definition upd (f : Z -> list Z) (k : Z) (v : list Z) : Z -> list Z := fun x => if x =? k then v else f x.

Lemma upd_eq f k v : upd f k v k = v.
Proof. unfold upd. by rewrite Z.eqb_refl. Qed.
Lemma upd_ne f k v x : x <> k -> upd f k v x = f x.
Proof. unfold upd. intros. by destruct (Z.eqb_spec x k). Qed.

Definition io_handler (file : list Z -> option (list Z)) : handler io := fun X c w =>
  match c in sys X return X * io with
  | Sread fd n =>
      let bs := take (Nat.min (Z.to_nat n) (S (default 0%nat (head (io_more w))))) (io_fds w fd) in
      ((Z.of_nat (length bs), bs),
       mkIo (upd (io_fds w) fd (drop (length bs) (io_fds w fd))) (io_next w) (io_out w) (tail (io_more w)))
  | Swrite fd bs =>
      (Z.of_nat (length bs), mkIo (io_fds w) (io_next w) (upd (io_out w) fd (io_out w fd ++ bs)) (io_more w))
  | Sopen path omode =>
      match file path with
      | Some c =>
          (Z.of_nat (io_next w), mkIo (upd (io_fds w) (Z.of_nat (io_next w)) c) (S (io_next w)) (io_out w) (io_more w))
      | None => (-1, w)
      end
  | Swait => ((-1, 0), w)
  | Spipe => ((-1, (0, 0)), w)
  | Sfstat _ => ((-1, mkStat 0 0 0 0 0), w)
  | Sclose _ => (0, w)
  | Sexec _ _ => (Some (-1), w)
  | Sfork | Skill _ | Smknod _ _ _ | Sunlink _ | Slink _ _ | Smkdir _ | Schdir _ | Sdup _
  | Sgetpid | Ssbrk _ | Ssleep _ | Suptime => (-1, w)
  end.

#[export] Instance io_world file : FileWorld (io_handler file) (fun fd w => io_fds w fd) (fun fd w => io_out w fd) file.
Proof.
  split.
  - intros fd n w Hn. cbn [io_handler]. cbn [io_fds io_out]. rewrite upd_eq, !length_take.
    set (k := Nat.min (Nat.min (Z.to_nat n) (S (default 0%nat (head (io_more w))))) (length (io_fds w fd))).
    split; [|split; [done|split; [subst k; lia|split; [|split; [|done]]]]].
    + rewrite <- (take_drop k (io_fds w fd)) at 1. f_equal. subst k. by rewrite <- take_take, firstn_all.
    + intros Hk Hn'. apply length_zero_iff_nil. subst k. lia.
    + intros fd' Hne. by apply upd_ne.
  - intros fd bs w. cbn [io_handler io_fds io_out]. rewrite upd_eq. split; [done|]. split; [done|]. split; [done|].
    intros o Hne. by apply upd_ne.
  - intros path w. cbn [io_handler]. destruct (file path) as [c|]; [|done]. cbn [io_fds io_out]. rewrite upd_eq.
    split; [done|]. split; [lia|]. split; [done|]. intros fd Hne. by apply upd_ne.
  - intros fd w. by cbn [io_handler].
Qed.

Definition io_init (input : list Z) (more : list nat) : io :=
  mkIo (fun fd => if fd =? 0 then input else []) 3 (fun _ => []) more.
