(* ===== verification/UprintfSpec.v ===== *)
(** What user programs print: printf writes the text of its format, and the
    decimal numbers it prints are read back by atoi. *)

From S2P Require Import Prelude Outcome Mem State Spinlock KString Kalloc Vm Proc Uart Printf PrintfSpec UserSys Ulib Uprintf UserWorld.

(** ** Numbers *)

(** The two digit tables agree below 10. *)
Lemma digit_decimal d : 0 <= d < 10 -> Uprintf.digit d = Printf.digit d /\ Uprintf.digit d = 48 + d.
Proof.
  intros Hd. assert (d ∈ seqZ 0 10) as Hin by (apply elem_of_seqZ; lia).
  assert (Hall : Forall (fun d => Uprintf.digit d = Printf.digit d /\ Uprintf.digit d = 48 + d) (seqZ 0 10)).
  { apply (bool_decide_unpack _). vm_compute. exact I. }
  rewrite Forall_forall in Hall. by apply Hall.
Qed.

Lemma printint_loop_decimal f x : 0 <= x -> Uprintf.printint_loop f x 10 = Printf.printint_loop f x 10.
Proof.
  revert x. induction f as [|f IH]; intros x Hx; [done|]. rewrite printint_loop_S. cbn [Uprintf.printint_loop].
  rewrite IH by (apply Z.div_pos; lia). destruct (digit_decimal (x mod 10)) as [-> _]; [apply Z.mod_pos_bound; lia|done].
Qed.

Lemma digit_upper d : 0 <= d < 16 -> digit_val (Uprintf.digit d) = Some d.
Proof.
  intros Hd. assert (d ∈ seqZ 0 16) as Hin by (apply elem_of_seqZ; lia).
  assert (Hall : Forall (fun d => digit_val (Uprintf.digit d) = Some d) (seqZ 0 16)).
  { apply (bool_decide_unpack _). vm_compute. exact I. }
  rewrite Forall_forall in Hall. by apply Hall.
Qed.

Lemma length_loop_upper f x base : length (Uprintf.printint_loop f x base) = length (Printf.printint_loop f x base).
Proof.
  revert x. induction f as [|f IH]; intros x; [done|]. rewrite printint_loop_S. cbn [Uprintf.printint_loop length].
  destruct (x / base =? 0); [done|]. by rewrite IH.
Qed.

(** buf[16] is large enough. *)
Lemma printint_buf_fits xx base sgn : base = 10 \/ base = 16 -> -2 ^ 31 <= xx < 2 ^ 31 ->
  (length (Uprintf.printint_buf xx base sgn) <= 16)%nat.
Proof.
  intros Hb Hx. assert (Hbr : 2 <= base <= 16) by lia.
  assert (Hbig : 2 ^ 32 < base ^ 10) by (destruct Hb as [-> | ->]; vm_compute; reflexivity).
  unfold Uprintf.printint_buf. rewrite length_app, length_loop_upper.
  assert (Hl : forall x, 0 <= x < 2 ^ 32 -> (length (Printf.printint_loop 32 x base) <= 10)%nat).
  { intros x Hr. apply (length_printint_loop base Hbr). change (Z.of_nat 10) with 10. lia. }
  destruct (sgn && (xx <? 0)); [pose proof (Hl (u32 (- xx)) (u32_range _))|pose proof (Hl (u32 xx) (u32_range _))]; cbn [length]; lia.
Qed.

Lemma Forall_digits_decimal f x : 0 <= x -> Forall (fun c => 48 <= c <= 57) (Uprintf.printint_loop f x 10).
Proof.
  revert x. induction f as [|f IH]; intros x Hx; cbn [Uprintf.printint_loop]; constructor.
  - pose proof (Z.mod_pos_bound x 10 ltac:(lia)). destruct (digit_decimal (x mod 10)) as [_ ->]; lia.
  - destruct (x / 10 =? 0); [done|]. apply IH, Z.div_pos; lia.
Qed.

(** atoi adds up digits as reading a number does, as long as it fits an int. *)
Lemma atoi_digits l : forall acc v r,
  Forall (fun c => 48 <= c <= 57) l -> 0 <= acc -> read_digits 10 acc l = Some v -> v < 2 ^ 31 ->
  (forall c, head r = Some c -> ~ 48 <= c <= 57) -> r <> [] -> acc <= v /\ atoi_loop (l ++ r) acc = Some v.
Proof.
  induction l as [|c l IH]; intros acc v r Hl Hacc Hr Hv Hend Hne; cbn [read_digits] in Hr.
  - simplify_eq. split; [lia|]. destruct r as [|c r]; [done|]. cbn [app atoi_loop].
    specialize (Hend c eq_refl). destruct (Z.leb_spec 48 c), (Z.leb_spec c 57); simpl; done || lia.
  - inversion Hl as [|? ? Hc Hl']; subst. unfold digit_val in Hr. cbn [app atoi_loop].
    destruct (Z.leb_spec 48 c); [|lia]. destruct (Z.leb_spec c 57); [|lia]. simpl in *.
    destruct (Z.ltb_spec (c - 48) 10); [|lia].
    destruct (IH (acc * 10 + (c - 48)) v r Hl' ltac:(lia) Hr Hv Hend Hne) as [Hle E]. split; [lia|].
    unfold int_. destruct (Z.leb_spec (-2 ^ 31) (acc * 10 + c - 48)); [|lia].
    destruct (Z.ltb_spec (acc * 10 + c - 48) (2 ^ 31)); [|lia]. simpl.
    by replace (acc * 10 + c - 48) with (acc * 10 + (c - 48)) by lia.
Qed.

(** ** printf writes its text *)

Section printf.
Context {W : Type} (h : handler W).

Lemma run_printint fd xx base sgn w : base = 10 \/ base = 16 -> -2 ^ 31 <= xx < 2 ^ 31 ->
  run h (Uprintf.printint fd xx base sgn) w = run h (puts fd (rev (Uprintf.printint_buf xx base sgn))) w.
Proof.
  intros Hb Hx. unfold Uprintf.printint. pose proof (printint_buf_fits xx base sgn Hb Hx) as Hl.
  destruct (Nat.leb_spec (length (Uprintf.printint_buf xx base sgn)) 16); [done|lia].
Qed.

Lemma run_conv fd c ap t ap' w w' :
  conv_text c ap = Some (t, ap') -> run h (puts fd t) w = Returned tt w' ->
  run h (vprintf_conv fd c ap) w = Returned ap' w'.
Proof.
  unfold conv_text, vprintf_conv. intros Ht Hw.
  assert (Hi : forall v, -2 ^ 31 <= i32 v < 2 ^ 31) by (intros; apply i32_range).
  destruct (c =? 100); [destruct ap as [|[] ap]; simplify_eq; by rewrite run_bind, run_printint, Hw by auto|].
  destruct (c =? 108); [destruct ap as [|[] ap]; simplify_eq; by rewrite run_bind, run_printint, Hw by auto|].
  destruct (c =? 120); [destruct ap as [|[] ap]; simplify_eq; by rewrite run_bind, run_printint, Hw by auto|].
  destruct (c =? 112).
  { destruct ap as [|[] ap]; simplify_eq. unfold printptr, puts in *. cbn [app pfor] in Hw.
    repeat (rewrite ?run_bind, ?run_putc in Hw). repeat (rewrite ?run_bind, ?run_putc). by rewrite Hw. }
  destruct (c =? 115); [destruct ap as [|[] ap]; simplify_eq; by rewrite run_bind; unfold puts in Hw; rewrite Hw|].
  unfold puts in Hw.
  destruct (c =? 99).
  { destruct ap as [|[] ap]; simplify_eq. cbn [pfor] in Hw. rewrite !run_bind, !run_putc in *. by simplify_eq/=. }
  destruct (Z.eqb_spec c 37) as [->|]; simplify_eq; cbn [pfor] in Hw; rewrite !run_bind, !run_putc in *;
    rewrite ?run_bind, ?run_putc in *; by simplify_eq/=.
Qed.

Lemma run_vprintf fd n : forall fmt ap t w, (length fmt <= n)%nat -> text fmt ap = Some t ->
  run h (vprintf fd fmt ap) w = run h (puts fd t) w.
Proof.
  induction n as [|n IH]; intros fmt ap t w Hn Ht; (destruct fmt as [|c fmt]; [by simplify_eq/=|]); [simpl in Hn; lia|].
  cbn [text length] in Ht, Hn. unfold vprintf in *. cbn [vprintf_loop]. destruct (c =? 37).
  - destruct fmt as [|d fmt]; [by simplify_eq/=|]. cbn [vprintf_loop length] in *.
    destruct (conv_text d ap) as [[t1 ap1]|] eqn:Ec; [|done]. apply fmap_Some in Ht as (t2 & Ht2 & ->).
    destruct (run_puts_total h fd t1 w) as [w1 E1].
    rewrite (run_bind_Returned _ _ _ _ _ _ (run_conv _ _ _ _ _ _ _ Ec E1)), (run_puts_app h fd t1 t2 _ _ E1).
    apply IH; [lia|done].
  - apply fmap_Some in Ht as (t2 & Ht2 & ->). unfold puts. cbn [pfor]. rewrite !run_bind, !run_putc.
    apply IH; [lia|done].
Qed.
End printf.

(** When the arguments fit the format, printf makes exactly one write system
    call per character of the format's text, in order, and returns, whatever the
    calls answer. *)
Theorem printf_writes_text {W} (h : handler W) fd fmt ap t w :
  text fmt ap = Some t ->
  run h (fprintf fd fmt ap) w = run h (puts fd t) w /\
  run h (Uprintf.printf fmt ap) w = run h (puts 1 t) w.
Proof. intros Ht. split; by apply (run_vprintf h _ (length fmt)). Qed.

Lemma printf_writes_text_witness :
  text (line "%d of %s") [ANum (-7); AStr None] = Some (line "-7 of (null)") /\
  run (io_handler (fun _ => None)) (fprintf 2 (line "%d of %s") [ANum (-7); AStr None]) (io_init [] []) =
  run (io_handler (fun _ => None)) (puts 2 (line "-7 of (null)")) (io_init [] []).
Proof.
  split; [reflexivity|].
  apply (printf_writes_text (io_handler (fun _ => None)) 2 (line "%d of %s") [ANum (-7); AStr None] _ (io_init [] [])).
  reflexivity.
Defined.

(** atoi reads back every non-negative number that printf prints with %d. *)
Theorem atoi_printint xx :
  0 <= xx < 2 ^ 31 -> atoi (z (rev (Uprintf.printint_buf xx 10 true))) = Some xx.
Proof.
  intros Hx. unfold Uprintf.printint_buf. cbn [andb]. destruct (Z.ltb_spec xx 0); [lia|].
  rewrite u32_small, app_nil_r by lia. unfold atoi, z.
  refine (proj2 (atoi_digits _ 0 xx [0] _ _ _ _ _ _)); try done; try lia.
  - apply Forall_rev, Forall_digits_decimal. lia.
  - rewrite printint_loop_decimal by lia. apply (read_printint_loop 10 ltac:(lia) 31).
    change (Z.of_nat 32) with 32. lia.
  - intros c [= <-]. lia.
Qed.

Lemma atoi_printint_witness : 0 <= 1407 < 2 ^ 31 /\ atoi (z (rev (Uprintf.printint_buf 1407 10 true))) = Some 1407.
Proof. split; [lia|]. apply (atoi_printint 1407). lia. Defined.
