(* ===== verification/Grep.v ===== *)
(** user/grep.c: the pattern matcher and the search through a file.

    A C string is the list of its characters; the empty list is the string at
    its NUL. *)

From S2P Require Import Prelude Outcome UserSys Ulib Uprintf UserWorld.

Definition C_star : Z := 42.
Definition C_dot : Z := 46.
Definition C_dollar : Z := 36.
Definition C_caret : Z := 94.

(** matchstar, given the matcher of the rest of the pattern. *)
Fixpoint matchstar (matchre : list Z -> bool) (c : Z) (text : list Z) : bool :=
  if matchre text then true
  else match text with
       | [] => false
       | t :: text' => if (t =? c) || (c =? C_dot) then matchstar matchre c text' else false
       end.

Fixpoint matchhere (re text : list Z) : bool :=
  match re with
  | [] => true
  | c :: re1 =>
      match re1 with
      | s :: re2 =>
          if s =? C_star then matchstar (matchhere re2) c text
          else match text with
               | [] => false
               | t :: text' => if (c =? C_dot) || (c =? t) then matchhere re1 text' else false
               end
      | [] =>
          if c =? C_dollar then match text with [] => true | _ => false end
          else match text with
               | [] => false
               | t :: text' => if (c =? C_dot) || (c =? t) then matchhere re1 text' else false
               end
      end
  end.

(** The do-while loop of match: the pattern at every position, the end included. *)
Fixpoint match_loop (re text : list Z) : bool :=
  if matchhere re text then true
  else match text with [] => false | _ :: text' => match_loop re text' end.

Definition match_ (re text : list Z) : bool :=
  match re with
  | c :: re' => if c =? C_caret then matchhere re' text else match_loop re text
  | [] => match_loop re text
  end.

(** The C string at a pointer. *)
Fixpoint cstring (a : list Z) : option (list Z) :=
  match a with
  | [] => None
  | c :: a' => if c =? 0 then Some [] else cons c <$> cstring a'
  end.

(** char buf[1024] *)
Definition BUFSIZE : Z := 1024.

(** The inner loop: the complete lines from [buf + p] on; at most one per byte. *)
Fixpoint grep_lines (f : nat) (pattern : list Z) (buf : list Z) (p : nat) : prog (list Z * nat) :=
  match f with
  | O => PStop OutOfFuel
  | S f' =>
      q <- must (strchr (drop p buf) C_nl);;
      match q with
      | None => PRet (buf, p)
      | Some k =>
          buf <- must (store buf (p + k) 0);;
          text <- must (cstring (drop p buf));;
          buf <- (if match_ pattern text then
                    buf <- must (store buf (p + k) C_nl);;
                    sys_ (Swrite 1 (take (k + 1) (drop p buf)));;
                    PRet buf
                  else PRet buf);;
          grep_lines f' pattern buf (p + k + 1)
      end
  end.

Definition grep_step (pattern : list Z) (fd : Z) (st : list Z * Z) : prog (list Z * Z + list Z) :=
  let '(buf, m) := st in
  '(n, bs) <- sys_ (Sread fd (BUFSIZE - m - 1));;
  let buf := splice buf (Z.to_nat m) bs in
  if n <=? 0 then PRet (inr buf)
  else
    let m := m + n in
    buf <- must (store buf (Z.to_nat m) 0);;
    '(buf, p) <- grep_lines (S (Z.to_nat BUFSIZE)) pattern buf 0;;
    if 0 <? m then
      let m := m - Z.of_nat p in
      buf <- must (memmove buf 0 p m);;
      PRet (inl (buf, m))
    else PRet (inl (buf, m)).

Definition grep `{Fuel} (pattern : list Z) (fd : Z) (buf : list Z) : prog (list Z) :=
  piter fuel (grep_step pattern fd) (buf, 0).

Fixpoint grep_files `{Fuel} (pattern : list Z) (files : list (list Z)) (buf : list Z) : prog unit :=
  match files with
  | [] => PRet tt
  | name :: files' =>
      fd <- sys_ (Sopen name O_RDONLY);;
      if fd <? 0 then printf (line "grep: cannot open %s") [AStr (Some name)];; PExit 1
      else
        buf <- grep pattern fd buf;;
        sys_ (Sclose fd);;
        grep_files pattern files' buf
  end.

Definition grep_buf : list Z := replicate (Z.to_nat BUFSIZE) 0.

Definition grep_main `{Fuel} (argv : list (list Z)) : prog unit :=
  match argv with
  | _ :: pattern :: [] => grep pattern 0 grep_buf;; PExit 0
  | _ :: pattern :: files => grep_files pattern files grep_buf;; PExit 0
  | _ => fprintf 2 (line "usage: grep pattern [file ...]") [];; PExit 1
  end.

(** ** The language of a pattern *)

Inductive item : Type := One (c : Z) | Star (c : Z).

(** The reading of a pattern after an initial caret: a character followed by a
    star is repeated, a dollar at the very end anchors, the rest stands for itself. *)
Fixpoint items (re : list Z) : list item * bool :=
  match re with
  | [] => ([], false)
  | c :: re1 =>
      match re1 with
      | [] => if c =? C_dollar then ([], true) else ([One c], false)
      | s :: re2 =>
          if s =? C_star then (Star c :: (items re2).1, (items re2).2)
          else (One c :: (items re1).1, (items re1).2)
      end
  end.

Definition stands_for (c t : Z) : Prop := c = C_dot \/ c = t.

Inductive lang : list item -> list Z -> Prop :=
| lang_nil : lang [] []
| lang_one c t its s : stands_for c t -> lang its s -> lang (One c :: its) (t :: s)
| lang_star c ts its s : Forall (stands_for c) ts -> lang its s -> lang (Star c :: its) (ts ++ s).

(** A match at the start of the text. *)
Definition prefix_match (p : list item * bool) (text : list Z) : Prop :=
  exists w post, text = w ++ post /\ lang p.1 w /\ (p.2 = true -> post = []).

Lemma stands_forb c t : (c =? C_dot) || (c =? t) = true <-> stands_for c t.
Proof. unfold stands_for. rewrite orb_true_iff, !Z.eqb_eq. tauto. Qed.

Lemma prefix_match_one c its e t text :
  prefix_match (One c :: its, e) (t :: text) <-> stands_for c t /\ prefix_match (its, e) text.
Proof.
  unfold prefix_match. simpl. split.
  - intros (w & post & E & Hl & He). inversion Hl; subst. simpl in E. simplify_eq. split; [done|]. eauto 6.
  - intros (Hc & w & post & -> & Hl & He). exists (t :: w), post. split; [done|]. split; [by constructor|done].
Qed.

Lemma prefix_match_one_nil c its e : ~ prefix_match (One c :: its, e) [].
Proof. intros (w & post & E & Hl & _). inversion Hl; subst. done. Qed.

(** Unrolling a repetition once. *)
Lemma prefix_match_star c its e text :
  prefix_match (Star c :: its, e) text <->
  prefix_match (its, e) text \/
  exists t text', text = t :: text' /\ stands_for c t /\ prefix_match (Star c :: its, e) text'.
Proof.
  unfold prefix_match. simpl. split.
  - intros (w & post & -> & Hl & He). inversion Hl as [| |? ts ? s Hts Hs]; subst. destruct Hts as [|t ts Ht Hts].
    + left. by exists s, post.
    + right. exists t, ((ts ++ s) ++ post). split; [done|]. split; [done|]. exists (ts ++ s), post. by split_and!; [|constructor|].
  - intros [(w & post & -> & Hl & He)|(t & text' & -> & Ht & w & post & -> & Hl & He)].
    + exists w, post. split; [done|]. split; [|done]. by apply (lang_star c []).
    + inversion Hl as [| |? ts ? s Hts Hs]; subst. exists (t :: ts ++ s), post. split; [done|]. split; [|done].
      apply (lang_star c (t :: ts)); [by constructor|done].
Qed.

Lemma matchstar_language (f : list Z -> bool) c its e :
  (forall text, f text = true <-> prefix_match (its, e) text) ->
  forall text, matchstar f c text = true <-> prefix_match (Star c :: its, e) text.
Proof.
  intros Hf. induction text as [|t text IH]; cbn [matchstar]; rewrite prefix_match_star, <- Hf.
  - destruct (f []); [by split; [left|]|]. split; [done|]. intros [?|(? & ? & ? & _)]; done.
  - destruct (f (t :: text)); [by split; [left|]|]. rewrite orb_comm, (Z.eqb_sym t c).
    destruct ((c =? C_dot) || (c =? t)) eqn:Ec.
    + rewrite IH. apply stands_forb in Ec. split; [intros Hm; right; eauto|]. intros [?|(? & ? & ? & _ & ?)]; by simplify_eq.
    + split; [done|]. intros [?|(? & ? & ? & Hs & _)]; simplify_eq. apply stands_forb in Hs. congruence.
Qed.

Lemma matchhere_language n : forall re text, (length re <= n)%nat ->
  matchhere re text = true <-> prefix_match (items re) text.
Proof.
  induction n as [|n IH]; intros re text Hn.
  { destruct re; [|simpl in Hn; lia]. split; [|done]. intros _. exists [], text. by split_and!; [|constructor|]. }
  destruct re as [|c re1]; [split; [|done]; intros _; exists [], text; by split_and!; [|constructor|]|].
  cbn [length] in Hn.
  assert (Hone : match text with [] => false | t :: text' => if (c =? C_dot) || (c =? t) then matchhere re1 text' else false end
    = true <-> prefix_match (One c :: (items re1).1, (items re1).2) text).
  { destruct text as [|t text].
    - split; [done|]. by intros ?%prefix_match_one_nil.
    - rewrite prefix_match_one, <- stands_forb. destruct ((c =? C_dot) || (c =? t)).
      + rewrite IH by lia. destruct (items re1). tauto.
      + split; [done|]. by intros [? _]. }
  destruct re1 as [|s re2]; cbn [matchhere items].
  - destruct (c =? C_dollar).
    + destruct text as [|t text]; (split; [try done|try done]).
      * intros _. exists [], []. by split_and!; [|constructor|].
      * intros (w & post & E & Hl & He). inversion Hl; subst. simpl in E. subst. by specialize (He eq_refl).
    + exact Hone.
  - destruct (s =? C_star).
    + apply matchstar_language. intros text'. rewrite IH by (simpl in Hn; lia). by destruct (items re2).
    + exact Hone.
Qed.

(** A pattern: whether it starts with a caret, and the rest. *)
Definition anchored (re : list Z) : bool := match re with c :: _ => c =? C_caret | [] => false end.
Definition body (re : list Z) : list Z := if anchored re then tail re else re.

Lemma match_loop_language re text :
  match_loop re text = true <-> exists pre text', text = pre ++ text' /\ prefix_match (items re) text'.
Proof.
  induction text as [|t text IH]; cbn [match_loop]; destruct (matchhere re _) eqn:Em.
  - split; [|done]. intros _. exists [], []. split; [done|]. by apply (matchhere_language (length re)).
  - split; [done|]. intros (pre & text' & E & Hp). destruct pre, text'; try done.
    apply (matchhere_language (length re)) in Hp; [congruence|done].
  - split; [|done]. intros _. exists [], (t :: text). split; [done|]. by apply (matchhere_language (length re)).
  - rewrite IH. split.
    + intros (pre & text' & -> & Hp). by exists (t :: pre), text'.
    + intros ([|t' pre] & text' & E & Hp); simplify_eq/=; [|by exists pre, text'].
      apply (matchhere_language (length re)) in Hp; [congruence|done].
Qed.

(** C27. match returns 1 exactly when some part of the line is in the language of
    the pattern: a part at the start of the line if the pattern begins with a
    caret, at its end if the pattern ends in a dollar sign. *)
Theorem match_language re text :
  match_ re text = true <->
  exists pre w post, text = pre ++ w ++ post /\ lang (items (body re)).1 w /\
    (anchored re = true -> pre = []) /\ ((items (body re)).2 = true -> post = []).
Proof.
  unfold body. assert (E : match_ re text = if anchored re then matchhere (tail re) text else match_loop re text)
    by (by destruct re). rewrite E. destruct (anchored re).
  - rewrite (matchhere_language (length (tail re))) by done. split.
    + intros (w & post & -> & Hl & He). by exists [], w, post.
    + intros (pre & w & post & -> & Hl & Hs & He). rewrite Hs by done. by exists w, post.
  - rewrite match_loop_language. split.
    + intros (pre & ? & -> & w & post & -> & Hl & He). by exists pre, w, post.
    + intros (pre & w & post & -> & Hl & _ & He). exists pre, (w ++ post). split; [done|]. by exists w, post.
Qed.

(** ** The search through a file *)

(** The terminated lines of a text and what follows the last newline. *)
Fixpoint lines (s : list Z) : list (list Z) * list Z :=
  match s with
  | [] => ([], [])
  | c :: s' =>
      let '(ls, t) := lines s' in
      if c =? C_nl then ([] :: ls, t)
      else match ls with [] => ([], c :: t) | l :: ls' => ((c :: l) :: ls', t) end
  end.

(** The matching lines, with their newlines. *)
Definition picked (pattern : list Z) (ls : list (list Z)) : list Z :=
  flat_map (fun l => if match_ pattern l then l ++ [C_nl] else []) ls.

Fixpoint take_while {A} (f : A -> bool) (l : list A) : list A :=
  match l with [] => [] | x :: l' => if f x then x :: take_while f l' else [] end.

(** What grep prints: the matching lines up to the first that does not fit the
    buffer with its newline. *)
Definition fits (l : list Z) : bool := Z.of_nat (length l) <? BUFSIZE - 1.
Definition grep_out (pattern s : list Z) : list Z := picked pattern (take_while fits (lines s).1).

Lemma lines_none s : C_nl ∉ s -> lines s = ([], s).
Proof.
  induction s as [|c s IH]; intros Hn; [done|]. apply not_elem_of_cons in Hn as [Hc Hn]. cbn [lines].
  rewrite IH by done. by destruct (Z.eqb_spec c C_nl).
Qed.

Lemma lines_cons l s : C_nl ∉ l -> lines (l ++ C_nl :: s) = (l :: (lines s).1, (lines s).2).
Proof.
  induction l as [|c l IH]; intros Hn; cbn [app lines]; [by destruct (lines s)|].
  apply not_elem_of_cons in Hn as [Hc Hn]. rewrite IH by done. by destruct (Z.eqb_spec c C_nl).
Qed.

Lemma lines_app s s2 : lines (s ++ s2) =
  ((lines s).1 ++ (lines ((lines s).2 ++ s2)).1, (lines ((lines s).2 ++ s2)).2).
Proof.
  induction s as [|c s IH]; cbn [app lines]; [simpl; by destruct (lines s2)|]. rewrite IH. destruct (lines s) as [ls t]. simpl.
  destruct (c =? C_nl) eqn:Ec; [done|]. destruct ls as [|l ls]; simpl; [|done].
  rewrite Ec. by destruct (lines (t ++ s2)) as [[] ?].
Qed.

Lemma lines_tail_no_nl s : C_nl ∉ (lines s).2.
Proof.
  induction s as [|c s IH]; cbn [lines]; [apply not_elem_of_nil|]. destruct (lines s) as [ls t].
  destruct (Z.eqb_spec c C_nl); [done|]. destruct ls; [|done]. simpl in *. apply not_elem_of_cons. by split.
Qed.

Lemma Forall_lines_tail (P : Z -> Prop) s : Forall P s -> Forall P (lines s).2.
Proof.
  induction 1 as [|c s Hc _ IH]; cbn [lines]; [constructor|]. destruct (lines s) as [ls t].
  destruct (c =? C_nl); [done|]. destruct ls; [by constructor|done].
Qed.

(** Cases on the next line. *)
Lemma lines_cases s : C_nl ∉ s \/ exists l s', s = l ++ C_nl :: s' /\ C_nl ∉ l.
Proof.
  destruct (decide (C_nl ∈ s)) as [Hin|]; [right|by left]. apply list_elem_of_split_l in Hin as (l & s' & -> & Hn). eauto.
Qed.

Lemma lines_length s : Forall (fun l => (length l < length s)%nat) (lines s).1.
Proof.
  induction s as [|c s IH]; cbn [lines]; [constructor|]. destruct (lines s) as [ls t]. simpl in IH.
  assert (H' : Forall (fun l => (length l < length (c :: s))%nat) ls) by (eapply Forall_impl; [exact IH|]; simpl; lia).
  destruct (c =? C_nl); [constructor; [simpl; lia|done]|]. destruct ls as [|l ls]; [constructor|].
  simpl. inversion H'; inversion IH; subst. constructor; [simpl in *; lia|done].
Qed.

Lemma take_while_app_all {A} (f : A -> bool) l1 l2 :
  Forall (fun x => f x = true) l1 -> take_while f (l1 ++ l2) = l1 ++ take_while f l2.
Proof. induction 1 as [|x l1 Hx _ IH]; [done|]. simpl. by rewrite Hx, IH. Qed.

(** What comes after a prefix that fits the buffer. *)
Lemma grep_out_app pattern s s2 : (length s < Z.to_nat BUFSIZE)%nat ->
  grep_out pattern (s ++ s2) = picked pattern (lines s).1 ++ grep_out pattern ((lines s).2 ++ s2).
Proof.
  intros Hs. unfold grep_out. rewrite lines_app. cbn [fst]. rewrite take_while_app_all.
  - unfold picked. apply flat_map_app.
  - eapply Forall_impl; [apply lines_length|]. intros l Hl. unfold fits, BUFSIZE in *. apply Z.ltb_lt. lia.
Qed.

(** A text whose first line is too long, or that has no line, prints nothing. *)
Lemma grep_out_none pattern part s : C_nl ∉ part -> (s = [] \/ length part = Z.to_nat (BUFSIZE - 1)) ->
  grep_out pattern (part ++ s) = [].
Proof.
  intros Hn Hs. unfold grep_out. destruct (lines_cases (part ++ s)) as [Hno|(l & s' & E & Hl)].
  { by rewrite lines_none. }
  rewrite E, lines_cons by done. cbn [fst take_while]. assert (Hlen : (length part <= length l)%nat).
  { destruct (decide (length l < length part)%nat) as [Hlt|]; [|lia]. exfalso. apply Hn.
    assert (Hk : (part ++ s) !! length l = Some C_nl) by (rewrite E; by apply list_lookup_middle).
    rewrite lookup_app_l in Hk by done. by apply list_elem_of_lookup_2 in Hk. }
  assert (fits l = false) as ->; [|done]. unfold fits. apply Z.ltb_ge. destruct Hs as [-> | Hp]; [|unfold BUFSIZE in *; lia].
  exfalso. apply Hn. rewrite app_nil_r in E. rewrite E. set_solver.
Qed.

Lemma cstring_z s r : Forall char_ok s -> cstring (s ++ 0 :: r) = Some s.
Proof.
  induction 1 as [|c s Hc _ IH]; [done|]. cbn [app cstring]. rewrite char_ok_eqb by done. by rewrite IH.
Qed.

Lemma insert_at_app (a b : list Z) x y : <[length a := y]> (a ++ x :: b) = a ++ y :: b.
Proof. rewrite insert_app_r_alt by lia. by rewrite Nat.sub_diag. Qed.

Lemma store_at a b x y : byte_ok y -> store (a ++ x :: b) (length a) y = Some (a ++ y :: b).
Proof. intros. rewrite store_in by (rewrite ?length_app; simpl; (done || lia)). by rewrite insert_at_app. Qed.

Section search.
Context {W : Type} (h : handler W) (rest out : Z -> W -> list Z) (file : list Z -> option (list Z)).
Context `{!FileWorld h rest out file}.
Context (pattern : list Z).

(** The inner loop on the string [s] that starts at [p] and ends at a NUL. *)
Lemma grep_lines_eq f : forall front s back w,
  Forall char_ok s -> (length s < f)%nat ->
  exists front' w', run h (grep_lines f pattern (front ++ s ++ 0 :: back) (length front)) w =
      Returned (front' ++ (lines s).2 ++ 0 :: back, length front') w' /\
    length (front' ++ (lines s).2) = length (front ++ s) /\ (Forall byte_ok front -> Forall byte_ok front') /\
    (forall fd, rest fd w' = rest fd w) /\ out 1 w' = out 1 w ++ picked pattern (lines s).1 /\
    (forall o, o <> 1 -> out o w' = out o w).
Proof.
  induction f as [|f IH]; intros front s back w Hs Hf; [lia|]. cbn [grep_lines]. rewrite drop_app_length.
  destruct (lines_cases s) as [Hn|(l & s' & -> & Hn)].
  { rewrite strchr_none, lines_none by done. exists front, w. simpl. rewrite app_nil_r. done. }
  apply Forall_app in Hs as [Hl Hs']. inversion Hs' as [|? ? _ Hs]; subst. rewrite <- app_assoc. cbn [app].
  rewrite strchr_found by (done || (unfold char_ok, C_nl; lia)). cbn [must pbind].
  assert (Hbuf : front ++ l ++ C_nl :: s' ++ 0 :: back = (front ++ l) ++ C_nl :: s' ++ 0 :: back) by (by rewrite app_assoc).
  rewrite Hbuf, <- length_app, store_at by (unfold byte_ok; lia). cbn [must pbind].
  rewrite <- app_assoc, drop_app_length, cstring_z by done. cbn [must pbind]. rewrite lines_cons by done. cbn [fst snd].
  rewrite length_app in Hf. cbn [length] in Hf.
  (* the buffer after the test of this line *)
  assert (Hgo : forall nul w1, byte_ok nul -> exists front' w',
    run h (grep_lines f pattern (front ++ l ++ nul :: s' ++ 0 :: back) (length (front ++ l) + 1)) w1 =
      Returned (front' ++ (lines s').2 ++ 0 :: back, length front') w' /\
    length (front' ++ (lines s').2) = length (front ++ l ++ C_nl :: s') /\ (Forall byte_ok front -> Forall byte_ok front') /\
    (forall fd, rest fd w' = rest fd w1) /\ out 1 w' = out 1 w1 ++ picked pattern (lines s').1 /\
    (forall o, o <> 1 -> out o w' = out o w1)).
  { intros nul w1 Hnul. destruct (IH (front ++ l ++ [nul]) s' back w1 Hs ltac:(lia)) as (front' & w' & E & Hlen & Hb & Hrest).
    exists front', w'. rewrite <- !app_assoc in E. cbn [app] in E. rewrite !length_app in E. cbn [length] in E.
    rewrite length_app, <- Nat.add_assoc. split; [exact E|]. split; [rewrite Hlen, !length_app; simpl; lia|]. split; [|done].
    intros Hfr. apply Hb. rewrite !Forall_app. split; [done|]. split; [|by constructor].
    eapply Forall_impl; [exact Hl|]. unfold char_ok, byte_ok. lia. }
  rewrite run_bind. unfold picked. cbn [flat_map]. destruct (match_ pattern l).
  - rewrite app_assoc, store_at by (unfold byte_ok, C_nl; lia). cbn [must pbind].
    rewrite <- app_assoc, drop_app_length. cbn [run].
    assert (take (length l + 1) (l ++ C_nl :: s' ++ 0 :: back) = l ++ [C_nl]) as ->.
    { rewrite take_app_add. done. }
    pose proof (fw_write 1 (l ++ [C_nl]) w) as Hw. rewrite run_bind_sys. destruct (h _ (Swrite 1 (l ++ [C_nl])) w) as [r w1].
    destruct Hw as (_ & Hr & Ho & Ho'). destruct (Hgo C_nl w1) as (front' & w' & E & Hlen & Hb & Hr' & Ho1 & Ho1').
    { unfold byte_ok, C_nl. lia. }
    exists front', w'. cbn [run fst snd]. split; [exact E|]. split; [done|]. split; [done|]. split; [intros fd; by rewrite Hr', Hr|]. split.
    + rewrite Ho1, Ho, <- app_assoc. done.
    + intros o Hne. by rewrite Ho1', Ho'.
  - cbn [run app]. apply Hgo. unfold byte_ok. lia.
Qed.

(** What one round of the outer loop starts from: the first [m] bytes of the
    buffer are an incomplete line, and what is still to be printed is what the
    incomplete line and the rest of the file give. *)
Record search_inv (fd : Z) (w0 : W) (st : list Z * Z) (w : W) : Prop := {
  si_len : length st.1 = Z.to_nat BUFSIZE;
  si_m : 0 <= st.2 < BUFSIZE;
  si_bytes : Forall byte_ok st.1;
  si_part : C_nl ∉ take (Z.to_nat st.2) st.1;
  si_chars : Forall char_ok (take (Z.to_nat st.2) st.1 ++ rest fd w);
  si_out : out 1 w ++ grep_out pattern (take (Z.to_nat st.2) st.1 ++ rest fd w) =
    out 1 w0 ++ grep_out pattern (rest fd w0);
  si_rest : forall fd', fd' <> fd -> rest fd' w = rest fd' w0;
  si_others : forall o, o <> 1 -> out o w = out o w0
}.

Record search_post (fd : Z) (w0 : W) (buf : list Z) (w : W) : Prop := {
  sp_len : length buf = Z.to_nat BUFSIZE;
  sp_bytes : Forall byte_ok buf;
  sp_out : out 1 w = out 1 w0 ++ grep_out pattern (rest fd w0);
  sp_rest : forall fd', fd' <> fd -> rest fd' w = rest fd' w0;
  sp_others : forall o, o <> 1 -> out o w = out o w0
}.

Lemma char_bytes l : Forall char_ok l -> Forall byte_ok l.
Proof. intros Hl. eapply Forall_impl; [exact Hl|]. unfold char_ok, byte_ok. lia. Qed.

(** Reading behind the incomplete line and ending it with a NUL. *)
Lemma refill buf m bs :
  (length buf = Z.to_nat BUFSIZE)%nat -> 0 <= m -> m + Z.of_nat (length bs) < BUFSIZE -> Forall byte_ok buf ->
  exists back, store (splice buf (Z.to_nat m) bs) (Z.to_nat (m + Z.of_nat (length bs))) 0 =
    Some ((take (Z.to_nat m) buf ++ bs) ++ 0 :: back) /\ Forall byte_ok back /\
  (m + Z.of_nat (length bs) + 1 + Z.of_nat (length back) = BUFSIZE).
Proof.
  intros Hl Hm Hn Hb. unfold splice. set (k := (Z.to_nat m + length bs)%nat). assert (Hk : (k < length buf)%nat) by lia.
  destruct (drop k buf) as [|x back] eqn:Ed.
  { apply (f_equal length) in Ed. rewrite length_drop in Ed. simpl in Ed. lia. }
  exists back. assert (Hlen : length (take (Z.to_nat m) buf ++ bs) = k) by (rewrite length_app, length_take; lia).
  replace (Z.to_nat (m + Z.of_nat (length bs))) with (length (take (Z.to_nat m) buf ++ bs)) by lia.
  rewrite app_assoc, store_at by (unfold byte_ok; lia). split; [done|].
  apply (f_equal length) in Ed as El. rewrite length_drop in El. simpl in El. split; [|unfold BUFSIZE in *; lia].
  assert (Hd : Forall byte_ok (drop k buf)) by by apply Forall_drop. rewrite Ed in Hd. by inversion Hd.
Qed.

Lemma grep_step_ok fd w0 st w : search_inv fd w0 st w ->
  exists r w', run h (grep_step pattern fd st) w = Returned r w' /\
    match r with
    | inl st' => search_inv fd w0 st' w' /\ (length (rest fd w') < length (rest fd w))%nat
    | inr buf => search_post fd w0 buf w'
    end.
Proof.
  destruct st as [buf m]. intros [Hl Hm Hb Hp Hc Ho Hr Hs]. cbn [fst snd] in *. unfold grep_step.
  rewrite run_bind_sys. pose proof (fw_read fd (BUFSIZE - m - 1) w ltac:(lia)) as Hrd.
  destruct (h _ (Sread fd (BUFSIZE - m - 1)) w) as [[n bs] w1]. destruct Hrd as (Hrw & Hn & Hle & H0 & Hr1 & Ho1).
  cbn [fst snd]. destruct (Z.leb_spec n 0) as [Hn0|Hn0].
  - assert (bs = []) as -> by (apply length_zero_iff_nil; lia). rewrite splice_nil. exists (inr buf), w1. split; [done|].
    assert (Hno : grep_out pattern (take (Z.to_nat m) buf ++ rest fd w) = []).
    { apply grep_out_none; [done|]. destruct (decide (m = BUFSIZE - 1)) as [->|].
      - right. rewrite length_take. unfold BUFSIZE in *. lia.
      - left. apply H0; lia. }
    rewrite Hno, app_nil_r in Ho. split; try done; [by rewrite Ho1|intros; by rewrite Hr1, Hr|intros; by rewrite Ho1, Hs].
  - rewrite Hn. destruct (refill buf m bs Hl ltac:(lia) ltac:(lia) Hb) as (back & -> & Hback & Hblen). cbn [must pbind].
    rewrite Hrw, app_assoc in Hc. apply Forall_app in Hc as [Hc Hc1].
    set (s := take (Z.to_nat m) buf ++ bs) in *. rewrite run_bind.
    assert (Hslen : Z.of_nat (length s) = m + Z.of_nat (length bs)) by (unfold s; rewrite length_app, length_take; lia).
    destruct (grep_lines_eq (S (Z.to_nat BUFSIZE)) [] s back w1 Hc ltac:(lia)) as (front & w2 & E & Hlen & Hfb & Hr2 & Ho2 & Ho2').
    cbn [app length] in E, Hlen. rewrite E. clear E. set (t := (lines s).2) in *. rewrite length_app in Hlen.
    destruct (Z.ltb_spec 0 (m + Z.of_nat (length bs))); [|lia].
    assert (Ht : Forall char_ok t) by by apply Forall_lines_tail.
    assert (Hball : Forall byte_ok (front ++ t ++ 0 :: back)).
    { rewrite !Forall_app. split; [by apply Hfb|]. split; [by apply char_bytes|constructor; [unfold byte_ok; lia|done]]. }
    replace (m + Z.of_nat (length bs) - Z.of_nat (length front)) with (Z.of_nat (length t)) by lia.
    rewrite memmove_eq; rewrite ?Nat2Z.id, ?length_app; cbn [length]; try done; try lia. cbn [must pbind run].
    rewrite drop_app_length, take_app_length. eexists _, w2. split; [done|].
    assert (Htake : take (length t) (splice (front ++ t ++ 0 :: back) 0 t) = t) by (unfold splice; rewrite take_0, app_nil_l; apply take_app_length).
    split; [|rewrite Hr2, Hrw, length_app; lia].
    split; cbn [fst snd]; rewrite ?Nat2Z.id, ?Htake, ?Hr2.
    + rewrite splice_length; rewrite ?length_app; cbn [length]; unfold BUFSIZE in *; lia.
    + lia.
    + unfold splice. rewrite take_0, app_nil_l. apply Forall_app. split; [by apply char_bytes|by apply Forall_drop].
    + apply lines_tail_no_nl.
    + by apply Forall_app.
    + rewrite Ho2, Ho1, <- app_assoc, <- Ho. f_equal. rewrite Hrw, app_assoc. symmetry. apply grep_out_app. lia.
    + intros fd' Hne. by rewrite Hr2, Hr1, Hr.
    + intros o Hne. by rewrite Ho2', Ho1, Hs.
Qed.

Lemma grep_ok `{Fuel} fd w buf :
  length buf = Z.to_nat BUFSIZE -> Forall byte_ok buf -> Forall char_ok (rest fd w) -> (length (rest fd w) < fuel)%nat ->
  exists buf' w', run h (grep pattern fd buf) w = Returned buf' w' /\ search_post fd w buf' w'.
Proof.
  intros Hl Hb Hc Hf. unfold grep.
  apply (piter_total h _ (search_inv fd w) (search_post fd w) (fun _ w => length (rest fd w))).
  - intros st w1. apply grep_step_ok.
  - split; cbn [fst snd]; rewrite ?take_0; try done; apply not_elem_of_nil || (unfold BUFSIZE; lia).
  - done.
Qed.
End search.

(** C28. For a file without NUL bytes, grep reads it to the end, in whatever
    portions the reads return it, and writes to the standard output exactly the
    lines that match, with their newlines and in order, up to the first line
    that with its newline is longer than the 1023 bytes the buffer holds. *)
Theorem grep_prints_matches `{Fuel} {W} (h : handler W) rest out file `{!FileWorld h rest out file} pattern fd w :
  Forall char_ok (rest fd w) -> (length (rest fd w) < fuel)%nat ->
  exists buf w', run h (grep pattern fd grep_buf) w = Returned buf w' /\
    out 1 w' = out 1 w ++ grep_out pattern (rest fd w) /\ (forall o, o <> 1 -> out o w' = out o w).
Proof.
  intros Hc Hf. destruct (grep_ok h rest out file pattern fd w grep_buf) as (buf & w' & E & Hp); try done.
  - by apply Forall_replicate.
  - exists buf, w'. split; [done|]. split; apply Hp.
Qed.

Definition ex_text : list Z := line "struct inode *ip;" ++ line "ilock(ip);" ++ line "iunlock(ip);" ++ chars "rest".

#[local] Instance ex_grep_fuel : Fuel := 100%nat.

Definition ex_reads : io := io_init ex_text [3; 0; 17; 1; 40]%nat.

Lemma grep_prints_matches_witness :
  Forall char_ok (io_fds ex_reads 0) /\ (length (io_fds ex_reads 0%Z) < fuel)%nat /\
  grep_out (chars "^i.*k(") ex_text = line "ilock(ip);" ++ line "iunlock(ip);" /\
  exists buf w', run (io_handler (fun _ => None)) (grep (chars "^i.*k(") 0 grep_buf) ex_reads = Returned buf w' /\
    io_out w' 1 = io_out ex_reads 1 ++ grep_out (chars "^i.*k(") (io_fds ex_reads 0) /\ (forall o, o <> 1 -> io_out w' o = io_out ex_reads o).
Proof.
  assert (Hc : Forall char_ok ex_text).
  { unfold char_ok. apply (bool_decide_unpack _). vm_compute. exact I. }
  assert (Hl : (length ex_text < fuel)%nat) by (apply (bool_decide_unpack _); vm_compute; exact I).
  split; [exact Hc|]. split; [exact Hl|]. split; [vm_compute; reflexivity|].
  apply (grep_prints_matches (io_handler (fun _ => None)) (fun fd w => io_fds w fd) (fun fd w => io_out w fd) (fun _ => None)
    (chars "^i.*k(") 0 ex_reads); [exact Hc|exact Hl].
Defined.

(** A line longer than the buffer ends the search: whatever follows it, grep
    prints nothing of it, and main still exits with status 0. *)
Theorem grep_stops_at_long_line `{Fuel} {W} (h : handler W) rest out file `{!FileWorld h rest out file} pattern w :
  forall l s, rest 0 w = l ++ C_nl :: s -> C_nl ∉ l -> BUFSIZE - 1 <= Z.of_nat (length l) ->
  Forall char_ok (rest 0 w) -> (length (rest 0%Z w) < fuel)%nat ->
  exists w', run h (grep_main [chars "grep"; pattern]) w = Exited 0 w' /\ out 1 w' = out 1 w.
Proof.
  intros l s Hw Hn Hlong Hc Hf. destruct (grep_ok h rest out file pattern 0 w grep_buf) as (buf & w' & E & Hp); try done.
  { by apply Forall_replicate. }
  exists w'. unfold grep_main. rewrite run_bind, E. split; [done|]. rewrite (sp_out _ _ _ _ _ _ _ Hp), Hw.
  unfold grep_out. rewrite lines_cons by done. cbn [fst take_while]. unfold fits.
  destruct (Z.ltb_spec (Z.of_nat (length l)) (BUFSIZE - 1)); [lia|]. apply app_nil_r.
Qed.

#[local] Instance ex_grep_fuel2 : Fuel := 2000%nat.

Definition ex_long : list Z := replicate 1023 120 ++ C_nl :: line "needle".

Lemma grep_stops_at_long_line_witness :
  match_ (chars "needle") (chars "needle") = true /\
  exists w', run (io_handler (fun _ => None)) (grep_main [chars "grep"; chars "needle"]) (io_init ex_long [100; 200; 4000]%nat) =
    Exited 0 w' /\ io_out w' 1 = [].
Proof.
  split; [reflexivity|].
  apply (grep_stops_at_long_line (io_handler (fun _ => None)) (fun fd w => io_fds w fd) (fun fd w => io_out w fd) (fun _ => None)
    (chars "needle") (io_init ex_long [100; 200; 4000]%nat) (replicate 1023 120) (line "needle")).
  - reflexivity.
  - intros Hin. apply elem_of_replicate in Hin as [Hin _]. done.
  - unfold BUFSIZE. rewrite length_replicate. lia.
  - unfold char_ok. apply (bool_decide_unpack _). vm_compute. exact I.
  - apply (bool_decide_unpack _). vm_compute. exact I.
Defined.
