(* ===== verification/Grind.v ===== *)
(** user/grind.c: random system calls run in parallel, forever, and the generator
    that picks them: do_rand is the Park-Miller generator, and it goes through every
    number of its range before it repeats one. *)

From Stdlib Require Import Znumtheory Zpow_facts.
From S2P Require Import Prelude Outcome UserSys Ulib Uprintf UserWorld.

(** The result and the new *ctx. *)
Definition do_rand (ctx : Z) : Z * Z :=
  let x := ctx mod 0x7ffffffe + 1 in
  let hi := Z.quot x 127773 in
  let lo := Z.rem x 127773 in
  let x := 16807 * lo - 2836 * hi in
  let x := if x <? 0 then x + 0x7fffffff else x in
  let x := x - 1 in
  (i32 x, u64 x).

(** The globals and locals that change: rand_next, and of go, fd, buf and iters. *)
Record grind_ : Type := mkGrind { rand_next : Z; g_fd : Z; g_buf : list Z; iters : Z }.
Definition set_rand_next (x : Z) (g : grind_) : grind_ := mkGrind x (g_fd g) (g_buf g) (iters g).
Definition set_g_fd (x : Z) (g : grind_) : grind_ := mkGrind (rand_next g) x (g_buf g) (iters g).
Definition set_g_buf (x : list Z) (g : grind_) : grind_ := mkGrind (rand_next g) (g_fd g) x (iters g).
Definition set_iters (x : Z) (g : grind_) : grind_ := mkGrind (rand_next g) (g_fd g) (g_buf g) x.

Definition rand (g : grind_) : Z * grind_ := let '(r, c) := do_rand (rand_next g) in (r, set_rand_next c g).

Definition O_CREATE_RDWR : Z := Z.lor O_CREATE O_RDWR.
Definition fail (msg : string) (status : Z) : prog unit := printf (line msg) [];; PExit status.
Definition fail2 (msg : string) (status : Z) : prog unit := fprintf 2 (line msg) [];; PExit status.
Definition open_close (path : string) : prog unit := fd <- sys_ (Sopen (chars path) O_CREATE_RDWR);; do_ (Sclose fd).
Definition chdir_or (path msg : string) : prog unit :=
  r <- sys_ (Schdir (chars path));; if negb (r =? 0) then fail msg 1 else PRet tt.
(** fork, run the child, which exits, and go on in the parent with its pid. *)
Definition fork_child (child : prog unit) : prog Z :=
  pid <- sys_ Sfork;;
  (if pid =? 0 then child else if pid <? 0 then fail "grind: fork failed" 1 else PRet tt);;
  PRet pid.

Definition go_kill : prog unit :=
  pid <- fork_child (open_close "a";; PExit 0);;
  chdir_or "../grindir/.." "grind: chdir failed";;
  do_ (Skill pid);;
  do_ Swait.

Definition go_pipe : prog unit :=
  '(r, (p0, p1)) <- sys_ Spipe;;
  (if r <? 0 then fail "grind: pipe failed" 1 else PRet tt);;
  fork_child
    (do_ Sfork;; do_ Sfork;;
     n <- sys_ (Swrite p1 (chars "x"));;
     (if negb (n =? 1) then printf (line "grind: pipe write failed") [] else PRet tt);;
     '(n, _) <- sys_ (Sread p0 1);;
     (if negb (n =? 1) then printf (line "grind: pipe read failed") [] else PRet tt);;
     PExit 0);;
  do_ (Sclose p0);;
  do_ (Sclose p1);;
  do_ Swait.

Definition go_dir : prog unit :=
  fork_child
    (do_ (Sunlink (chars "a"));; do_ (Smkdir (chars "a"));; do_ (Schdir (chars "a"));; do_ (Sunlink (chars "../a"));;
     do_ (Sopen (chars "x") O_CREATE_RDWR);; do_ (Sunlink (chars "x"));; PExit 0);;
  do_ Swait.

Definition go_fstat : prog unit :=
  do_ (Sunlink (chars "c"));;
  fd1 <- sys_ (Sopen (chars "c") O_CREATE_RDWR);;
  (if fd1 <? 0 then fail "grind: create c failed" 1 else PRet tt);;
  n <- sys_ (Swrite fd1 (chars "x"));;
  (if negb (n =? 1) then fail "grind: write c failed" 1 else PRet tt);;
  '(r, st) <- sys_ (Sfstat fd1);;
  (if negb (r =? 0) then fail "grind: fstat failed" 1 else PRet tt);;
  (if negb (st_size st =? 1) then printf (line "grind: fstat reports wrong size %d") [ANum (i32 (st_size st))];; PExit 1 else PRet tt);;
  (if 200 <? st_ino st then printf (line "grind: fstat reports crazy i-number %d") [ANum (st_ino st)];; PExit 1 else PRet tt);;
  do_ (Sclose fd1);;
  do_ (Sunlink (chars "c")).

Definition dup_to (fd to : Z) (status : Z) : prog unit :=
  do_ (Sclose to);;
  r <- sys_ (Sdup fd);;
  (if negb (r =? to) then fail2 "grind: dup failed" status else PRet tt);;
  do_ (Sclose fd).

(** "grind: exec pipeline failed %d %d \"%s\"\n" *)
Definition pipeline_msg : list Z := chars "grind: exec pipeline failed %d %d " ++ [34] ++ chars "%s" ++ [34; C_nl].

(** The C string at the start of an array. *)
Fixpoint c_string (a : list Z) : list Z :=
  match a with
  | [] => []
  | c :: a' => if c =? 0 then [] else c :: c_string a'
  end.

(** One character read into [buf] at [i]. *)
Definition read1 (fd : Z) (buf : list Z) (i : nat) : prog (list Z) :=
  '(_, bs) <- sys_ (Sread fd 1);; must (store_bytes buf i bs).

(** echo hi | cat *)
Definition go_pipeline : prog unit :=
  '(r, (a0, a1)) <- sys_ Spipe;;
  (if r <? 0 then fail2 "grind: pipe failed" 1 else PRet tt);;
  '(r, (b0, b1)) <- sys_ Spipe;;
  (if r <? 0 then fail2 "grind: pipe failed" 1 else PRet tt);;
  pid1 <- sys_ Sfork;;
  (if pid1 =? 0 then
     do_ (Sclose b0);; do_ (Sclose b1);; do_ (Sclose a0);;
     dup_to a1 1 1;;
     exec_ (chars "grindir/../echo") [chars "echo"; chars "hi"];;
     fail2 "grind: echo: not found" 2
   else if pid1 <? 0 then fail2 "grind: fork failed" 3 else PRet tt);;
  pid2 <- sys_ Sfork;;
  (if pid2 =? 0 then
     do_ (Sclose a1);; do_ (Sclose b0);;
     dup_to a0 0 4;;
     dup_to b1 1 5;;
     exec_ (chars "/cat") [chars "cat"];;
     fail2 "grind: cat: not found" 6
   else if pid2 <? 0 then fail2 "grind: fork failed" 7 else PRet tt);;
  do_ (Sclose a0);; do_ (Sclose a1);; do_ (Sclose b1);;
  buf <- read1 b0 [0; 0; 0; 0] 0;;
  buf <- read1 b0 buf 1;;
  buf <- read1 b0 buf 2;;
  do_ (Sclose b0);;
  '(w1, st1) <- sys_ Swait;;
  '(w2, st2) <- sys_ Swait;;
  if (w1 <? 0) || (w2 <? 0) then undefined "a status that wait has not set" else
  d <- must (strcmp buf (z (chars "hi" ++ [C_nl])));;
  if negb (st1 =? 0) || negb (st2 =? 0) || negb (d =? 0)
  then printf pipeline_msg [ANum st1; ANum st2; AStr (Some (c_string buf))];; PExit 1
  else PRet tt.

(** The branches of go. *)
Definition go_what (break0 : Z) (what : Z) (g : grind_) : prog grind_ :=
  match what with
  | 1 => open_close "grindir/../a";; PRet g
  | 2 => open_close "grindir/../grindir/../b";; PRet g
  | 3 => do_ (Sunlink (chars "grindir/../a"));; PRet g
  | 4 =>
      chdir_or "grindir" "grind: chdir grindir failed";;
      do_ (Sunlink (chars "../b"));;
      do_ (Schdir (chars "/"));;
      PRet g
  | 5 => do_ (Sclose (g_fd g));; fd <- sys_ (Sopen (chars "/grindir/../a") O_CREATE_RDWR);; PRet (set_g_fd fd g)
  | 6 => do_ (Sclose (g_fd g));; fd <- sys_ (Sopen (chars "/./grindir/./../b") O_CREATE_RDWR);; PRet (set_g_fd fd g)
  | 7 => do_ (Swrite (g_fd g) (g_buf g));; PRet g
  | 8 =>
      '(_, bs) <- sys_ (Sread (g_fd g) 999);;
      buf <- must (store_bytes (g_buf g) 0 bs);;
      PRet (set_g_buf buf g)
  | 9 => do_ (Smkdir (chars "grindir/../a"));; open_close "a/../a/./a";; do_ (Sunlink (chars "a/a"));; PRet g
  | 10 => do_ (Smkdir (chars "/../b"));; open_close "grindir/../b/b";; do_ (Sunlink (chars "b/b"));; PRet g
  | 11 => do_ (Sunlink (chars "b"));; do_ (Slink (chars "../grindir/./../a") (chars "../b"));; PRet g
  | 12 => do_ (Sunlink (chars "../grindir/../a"));; do_ (Slink (chars ".././b") (chars "/grindir/../a"));; PRet g
  | 13 => fork_child (PExit 0);; do_ Swait;; PRet g
  | 14 => fork_child (do_ Sfork;; do_ Sfork;; PExit 0);; do_ Swait;; PRet g
  | 15 => do_ (Ssbrk 6011);; PRet g
  | 16 =>
      a <- sys_ (Ssbrk 0);;
      (if break0 <? u64 a then b <- sys_ (Ssbrk 0);; do_ (Ssbrk (i32 (- (u64 b - break0)))) else PRet tt);;
      PRet g
  | 17 => go_kill;; PRet g
  | 18 => fork_child (pid <- sys_ Sgetpid;; do_ (Skill pid);; PExit 0);; do_ Swait;; PRet g
  | 19 => go_pipe;; PRet g
  | 20 => go_dir;; PRet g
  | 21 => go_fstat;; PRet g
  | 22 => go_pipeline;; PRet g
  | _ => PRet g
  end.

Definition go_step (which_child break0 : Z) (g : grind_) : prog (grind_ + unit) :=
  let g := set_iters (u64 (iters g + 1)) g in
  (if iters g mod 500 =? 0 then do_ (Swrite 1 (if truthy which_child then chars "B" else chars "A")) else PRet tt);;
  let '(r, g) := rand g in
  g <- go_what break0 (Z.rem r 23) g;;
  PRet (inl g).

(** [buf] is the static array of go, which keeps its contents. *)
Definition go `{Fuel} (which_child : Z) (g : grind_) : prog unit :=
  a <- sys_ (Ssbrk 0);;
  do_ (Smkdir (chars "grindir"));;
  chdir_or "grindir" "grind: chdir grindir failed";;
  do_ (Schdir (chars "/"));;
  piter fuel (go_step which_child (u64 a)) (set_g_fd (-1) (set_iters 0 g)).

(** The child with its random seed. *)
Definition iter_child `{Fuel} (which_child mask : Z) (g : grind_) : prog unit :=
  go which_child (set_rand_next (Z.lxor (rand_next g) mask) g);; PExit 0.

Definition grind_iter `{Fuel} (g : grind_) : prog unit :=
  do_ (Sunlink (chars "a"));;
  do_ (Sunlink (chars "b"));;
  pid1 <- sys_ Sfork;;
  (if pid1 <? 0 then fail "grind: fork failed" 1 else PRet tt);;
  (if pid1 =? 0 then iter_child 0 31 g else PRet tt);;
  pid2 <- sys_ Sfork;;
  (if pid2 <? 0 then fail "grind: fork failed" 1 else PRet tt);;
  (if pid2 =? 0 then iter_child 1 7177 g else PRet tt);;
  '(w, st) <- sys_ Swait;;
  let st1 := if w <? 0 then -1 else st in
  (if negb (st1 =? 0) then do_ (Skill pid1);; do_ (Skill pid2) else PRet tt);;
  do_ Swait;;
  PExit 0.

Definition grind_round `{Fuel} (g : grind_) : prog (grind_ + unit) :=
  pid <- sys_ Sfork;;
  (if pid =? 0 then grind_iter g;; PExit 0 else PRet tt);;
  (if 0 <? pid then do_ Swait else PRet tt);;
  do_ (Ssleep 20);;
  PRet (inl (set_rand_next (u64 (rand_next g + 1)) g)).

Definition grind_init : grind_ := mkGrind 1 0 (replicate 999 0) 0.
Definition grind_main `{Fuel} : prog unit := piter fuel grind_round grind_init.

(** * The generator has full period *)

(** ** Powers modulo [p] that return to 1 only after [m] steps *)

Section cycle.
Context (p g m : Z) (Hp : 1 < p) (Hg : 0 < g) (Hm : 0 < m).
Context (Hback : g ^ m mod p = 1).

Lemma pow_cancel a b : 0 <= a <= b -> g ^ a mod p = g ^ b mod p -> g ^ (b - a) mod p = 1.
Proof.
  intros Hab E. set (j := (- a) mod m). assert (Hj : 0 <= j < m) by (apply Z.mod_pos_bound; lia).
  assert (Hk : exists k, 0 <= k /\ a + j = m * k).
  { exists ((a + j) / m). split; [apply Z.div_pos; lia|]. apply Z.div_exact; [lia|]. unfold j. rewrite Zplus_mod_idemp_r. by rewrite Z.add_opp_diag_r. }
  destruct Hk as (k & Hk0 & Hk). assert (H1 : forall q, 0 <= q -> (g ^ (m * q)) mod p = 1).
  { intros q Hq. rewrite Z.pow_mul_r, Zpower_mod, Hback, Z.pow_1_l by lia. by apply Z.mod_1_l. }
  assert (E2 : (g ^ (b - a) * g ^ (m * k)) mod p = 1).
  { rewrite <- Hk, <- Z.pow_add_r by lia. replace (b - a + (a + j)) with (b + j) by lia. rewrite Z.pow_add_r, Zmult_mod, <- E, <- Zmult_mod, <- Z.pow_add_r, Hk by lia. by apply H1. }
  by rewrite Zmult_mod, H1, Z.mul_1_r, Z.mod_mod in E2 by lia.
Qed.

(** If no proper divisor of [m] gives 1, nothing below [m] does. *)
Lemma order_exact : (forall n, 0 < n < m -> (n | m) -> g ^ n mod p <> 1) -> forall n, 0 < n < m -> g ^ n mod p <> 1.
Proof.
  intros Hdiv n Hn. assert (Hn0 : 0 <= n) by lia. revert Hn. pattern n. apply Z_lt_induction; [clear n Hn0|done].
  intros n IH Hn E. pose proof (Z.mod_pos_bound m n ltac:(lia)) as Hr. pose proof (Z.div_mod m n ltac:(lia)) as Hd.
  pose proof (Z.div_pos m n ltac:(lia) ltac:(lia)) as Hq.
  assert (Er : g ^ (m mod n) mod p = 1).
  { rewrite Hd in Hback at 1. rewrite Z.pow_add_r, Z.pow_mul_r, Zmult_mod, Zpower_mod, E, Z.pow_1_l in Hback by lia.
    by rewrite Z.mod_1_l, Z.mul_1_l, Z.mod_mod in Hback by lia. }
  destruct (Z.eq_dec (m mod n) 0) as [E0|E0]; [|by apply (IH (m mod n)); lia].
  apply (Hdiv n Hn); [by apply Z.mod_divide; lia|done].
Qed.

Context (Hord : forall n, 0 < n < m -> g ^ n mod p <> 1).

Lemma pow_inj a b : 0 <= a < m -> 0 <= b < m -> g ^ a mod p = g ^ b mod p -> a = b.
Proof.
  intros Ha Hb E. destruct (Z.lt_trichotomy a b) as [Hlt|[|Hlt]]; [exfalso|done|exfalso].
  - apply (Hord (b - a)); [lia|]. apply pow_cancel; [lia|done].
  - apply (Hord (a - b)); [lia|]. apply pow_cancel; [lia|done].
Qed.

(** When there are [p - 1] powers, every number below [p] but 0 is one. *)
Lemma pow_onto y : m = p - 1 -> (forall n, 0 <= n < m -> g ^ n mod p <> 0) -> 0 < y < p -> exists n, 0 <= n < m /\ g ^ n mod p = y.
Proof.
  intros Em Hnz Hy. set (f := fun n => g ^ n mod p).
  assert (Hnd : NoDup (f <$> seqZ 0 m)).
  { apply NoDup_fmap_2_strong; [|apply NoDup_seqZ]. intros a b Ha Hb E. apply elem_of_seqZ in Ha, Hb. apply pow_inj; [lia|lia|done]. }
  assert (Hsub : f <$> seqZ 0 m ⊆+ seqZ 1 m).
  { apply NoDup_submseteq; [done|]. intros x (n & -> & Hn)%list_elem_of_fmap. apply elem_of_seqZ in Hn. apply elem_of_seqZ.
    pose proof (Z.mod_pos_bound (g ^ n) p ltac:(lia)). specialize (Hnz n ltac:(lia)). unfold f. lia. }
  assert (Hperm : f <$> seqZ 0 m ≡ₚ seqZ 1 m).
  { apply submseteq_length_Permutation; [done|]. by rewrite length_fmap, !length_seqZ. }
  assert (Hin : y ∈ f <$> seqZ 0 m) by (rewrite Hperm; apply elem_of_seqZ; lia).
  apply list_elem_of_fmap in Hin as (n & -> & Hn). apply elem_of_seqZ in Hn. exists n. split; [lia|done].
Qed.
End cycle.

(** ** 2^31 - 1 and 7^5 *)

Definition PM_P : Z := 0x7fffffff.
Definition PM_G : Z := 16807.
Definition PM_M : Z := 0x7ffffffe.
(** The primes that divide 2^31 - 2. *)
Definition PM_Q : list Z := [2; 3; 7; 11; 31; 151; 331].

Definition small_prime (q : Z) : bool := (1 <? q) && forallb (fun r => Z.gcd r q =? 1) (seqZ 1 (q - 1)).

Lemma divides_or_coprime q k : small_prime q = true -> (q | k) \/ rel_prime k q.
Proof.
  intros Hq. unfold small_prime in Hq. apply andb_true_iff in Hq as [Hq1 Hq]. apply Z.ltb_lt in Hq1. rewrite forallb_forall in Hq.
  pose proof (Z.mod_pos_bound k q ltac:(lia)) as Hr. destruct (Z.eq_dec (k mod q) 0) as [E|E].
  - left. by apply Z.mod_divide; [lia|].
  - right. apply Zgcd_1_rel_prime. rewrite Z.gcd_comm, <- Z.gcd_mod, Z.gcd_comm by lia. specialize (Hq (k mod q)). apply Z.eqb_eq.
    rewrite (Z.gcd_comm q). apply Hq. apply list_elem_of_In, elem_of_seqZ. lia.
Qed.

Lemma PM_Q_prime q : q ∈ PM_Q -> 1 < q /\ small_prime q = true.
Proof.
  intros Hq. assert (Hall : Forall (fun q => small_prime q = true) PM_Q) by (apply (bool_decide_unpack _); by vm_compute).
  rewrite Forall_forall in Hall. specialize (Hall q Hq). split; [|done]. unfold small_prime in Hall. apply andb_true_iff in Hall as [Hl _]. by apply Z.ltb_lt.
Qed.

Lemma small_divisor d : 0 < d < PM_M -> (d | PM_M) -> exists q, q ∈ PM_Q /\ (d | PM_M / q).
Proof.
  intros Hd [k Hk]. destruct (decide (Exists (fun q => k mod q = 0) PM_Q)) as [Hex|Hall].
  - apply Exists_exists in Hex as (q & Hq & Hm). pose proof (PM_Q_prime q Hq) as [Hq1 _]. apply Z.mod_divide in Hm as [j Hj]; [|lia].
    exists q. split; [done|]. exists j. rewrite Hk, Hj. replace (j * q * d) with (j * d * q) by lia. by rewrite Z.div_mul by lia.
  - exfalso. assert (Hc : forall q, q ∈ PM_Q -> rel_prime k q).
    { intros q Hq. destruct (PM_Q_prime q Hq) as [Hq1 Hsp]. destruct (divides_or_coprime q k Hsp) as [Hdv|Hc]; [|done].
      destruct Hall. apply Exists_exists. exists q. split; [done|]. by apply Z.mod_divide; [lia|]. }
    assert (Hm : rel_prime k PM_M).
    { change PM_M with (2 * (3 * (3 * (7 * (11 * (31 * (151 * 331))))))). repeat apply rel_prime_mult; apply Hc; unfold PM_Q; set_solver. }
    assert (Hk1 : (k | 1)). { apply Hm; [by exists 1; lia|exists d; lia]. }
    apply Z.divide_1_r_nonneg in Hk1; [|unfold PM_M in *; nia]. unfold PM_M in *. lia.
Qed.

Lemma PM_back : PM_G ^ PM_M mod PM_P = 1.
Proof. rewrite <- Zpow_mod_correct by done. by vm_compute. Qed.

Lemma PM_order n : 0 < n < PM_M -> PM_G ^ n mod PM_P <> 1.
Proof.
  apply (order_exact PM_P PM_G PM_M); [done|done|done|apply PM_back|]. clear n. intros n Hn Hd E.
  destruct (small_divisor n Hn Hd) as (q & Hq & [j Hj]). assert (Hj0 : 0 <= j).
  { destruct (Z.le_gt_cases 0 j) as [|Hneg]; [done|]. assert (0 < PM_M / q); [|nia].
    repeat (apply elem_of_cons in Hq as [->|Hq]; [by vm_compute|]). by apply elem_of_nil in Hq. }
  assert (E1 : PM_G ^ (PM_M / q) mod PM_P = 1).
  { rewrite Hj, Z.mul_comm, Z.pow_mul_r, Zpower_mod, E, Z.pow_1_l by (unfold PM_P; lia). done. }
  rewrite <- Zpow_mod_correct in E1 by done.
  repeat (apply elem_of_cons in Hq as [->|Hq]; [by vm_compute in E1|]). by apply elem_of_nil in Hq.
Qed.

(** An inverse of 7^5. *)
Lemma PM_nonzero x : 0 < x < PM_P -> (PM_G * x) mod PM_P <> 0.
Proof.
  intros Hx E. assert (E2 : (1407677000 * (PM_G * x)) mod PM_P = 0) by (by rewrite <- Zmult_mod_idemp_r, E).
  replace (1407677000 * (PM_G * x)) with (x + 11017 * x * PM_P) in E2 by (unfold PM_G, PM_P; lia).
  rewrite Z_mod_plus_full, Z.mod_small in E2 by lia. lia.
Qed.

Lemma do_rand_eq ctx :
  let y := (PM_G * (ctx mod PM_M + 1)) mod PM_P - 1 in do_rand ctx = (y, y) /\ 0 <= y < PM_M.
Proof.
  intros y. pose proof (Z.mod_pos_bound ctx PM_M ltac:(done)) as Hx. unfold do_rand. fold PM_M. set (x := ctx mod PM_M + 1) in *.
  assert (Hxr : 0 < x < PM_P) by (unfold x, PM_P, PM_M in *; lia). pose proof (PM_nonzero x Hxr) as Hnz.
  pose proof (Z.mod_pos_bound (PM_G * x) PM_P ltac:(done)) as Hy. cbv zeta. rewrite Z.quot_div_nonneg, Z.rem_mod_nonneg by lia.
  pose proof (Z.div_mod x 127773 ltac:(lia)) as Hd. pose proof (Z.mod_pos_bound x 127773 ltac:(lia)) as Hlo.
  set (hi := x / 127773) in *. set (lo := x mod 127773) in *. assert (Hhi : 0 <= hi <= 16807) by (unfold PM_P in *; lia).
  assert (Ev : (16807 * lo - 2836 * hi) mod PM_P = (PM_G * x) mod PM_P).
  { rewrite Hd. replace (PM_G * (127773 * hi + lo)) with (16807 * lo - 2836 * hi + hi * PM_P) by (unfold PM_G, PM_P; lia). by rewrite Z_mod_plus_full. }
  assert (E : (if 16807 * lo - 2836 * hi <? 0 then 16807 * lo - 2836 * hi + 0x7fffffff else 16807 * lo - 2836 * hi) = (PM_G * x) mod PM_P).
  { rewrite <- Ev. destruct (Z.ltb_spec (16807 * lo - 2836 * hi) 0).
    - rewrite <- (Z_mod_plus_full _ 1), Z.mul_1_l. symmetry. apply Z.mod_small. unfold PM_P. lia.
    - symmetry. apply Z.mod_small. unfold PM_P. lia. }
  rewrite E. fold y. assert (Hyr : 0 <= y < PM_M) by (unfold y, PM_P, PM_M in *; lia). split; [|done].
  rewrite i32_small, u64_small by (unfold PM_M in *; lia). done.
Qed.

(** The state after [n] calls. *)
Definition rand_state (n : N) (c : Z) : Z := N.iter n (fun c => (do_rand c).2) c.

Lemma rand_state_pow n c : 0 <= c < PM_M -> rand_state n c = (PM_G ^ Z.of_N n * (c + 1)) mod PM_P - 1 /\ 0 <= rand_state n c < PM_M.
Proof.
  intros Hc. induction n as [|n [IH Hr]] using N.peano_ind.
  - unfold rand_state. cbn [N.iter]. change (PM_G ^ Z.of_N 0) with 1. rewrite Z.mul_1_l, Z.mod_small by (unfold PM_P, PM_M in *; lia). lia.
  - unfold rand_state. rewrite N.iter_succ. fold (rand_state n c). destruct (do_rand_eq (rand_state n c)) as [-> Hy]. split; [|done]. cbn [snd].
    rewrite (Z.mod_small (rand_state n c)) by done. f_equal. rewrite IH, Z.sub_add, N2Z.inj_succ, Z.pow_succ_r, Zmult_mod_idemp_r by lia. f_equal. lia.
Qed.

Lemma PM_pow_nonzero n : 0 <= n -> PM_G ^ n mod PM_P <> 0.
Proof.
  intros Hn. pattern n. apply natlike_ind; [done| |done]. clear n Hn. intros n Hn IH. rewrite Z.pow_succ_r, <- Zmult_mod_idemp_r by done.
  apply PM_nonzero. pose proof (Z.mod_pos_bound (PM_G ^ n) PM_P ltac:(done)). lia.
Qed.

Lemma PM_log y : 0 < y < PM_P -> exists n, 0 <= n < PM_M /\ PM_G ^ n mod PM_P = y.
Proof.
  apply (pow_onto PM_P PM_G PM_M); [done|done|done|apply PM_back|apply PM_order|done|]. intros n Hn. apply PM_pow_nonzero. lia.
Qed.

(** do_rand is the minimal standard generator of Park and Miller, x |-> 7^5 x mod
    2^31 - 1, computed without leaving 32 bits and shifted by one so that it
    returns numbers from 0 to 2^31 - 3; and its period is full: from any state, the
    2^31 - 2 calls that follow return every one of these numbers, and the state comes back
    after that many calls and not before. *)
Theorem rand_full_period :
  (forall ctx, let y := (16807 * (ctx mod 0x7ffffffe + 1)) mod (2 ^ 31 - 1) - 1 in do_rand ctx = (y, y) /\ 0 <= y <= 2 ^ 31 - 3) /\
  forall c, 0 <= c <= 2 ^ 31 - 3 ->
    rand_state (2 ^ 31 - 2) c = c /\
    (forall n, (0 < n < 2 ^ 31 - 2)%N -> rand_state n c <> c) /\
    (forall v, 0 <= v <= 2 ^ 31 - 3 -> exists n, (n < 2 ^ 31 - 2)%N /\ (do_rand (rand_state n c)).1 = v).
Proof.
  split; [intros ctx y; assert (Hd : do_rand ctx = (y, y) /\ 0 <= y < 0x7ffffffe) by apply (do_rand_eq ctx); clearbody y; split; [apply Hd|lia]|]. intros c Hc.
  assert (Hcm : 0 <= c < PM_M) by (unfold PM_M; lia). destruct (PM_log (c + 1)) as (m & Hm & Em); [unfold PM_P; lia|].
  assert (Est : forall n, rand_state n c = PM_G ^ (m + Z.of_N n) mod PM_P - 1).
  { intros n. destruct (rand_state_pow n c Hcm) as [-> _]. by rewrite <- Em, Zmult_mod_idemp_r, <- Z.pow_add_r, Z.add_comm by lia. }
  assert (Hcyc : forall k, 0 <= k -> PM_G ^ (k + PM_M) mod PM_P = PM_G ^ k mod PM_P).
  { intros k Hk. by rewrite Z.pow_add_r, Zmult_mod, PM_back, Z.mul_1_r, Z.mod_mod by (done || lia). }
  split; [|split].
  - rewrite Est. change (Z.of_N (2 ^ 31 - 2)) with PM_M. rewrite Hcyc, Em by lia. lia.
  - intros n Hn E. rewrite Est in E. apply (PM_order (Z.of_N n)); [unfold PM_M; lia|].
    pose proof (pow_cancel PM_P PM_G PM_M ltac:(done) ltac:(done) ltac:(done) PM_back m (m + Z.of_N n)) as Hx. rewrite Z.add_simpl_l in Hx. apply Hx; lia.
  - intros v Hv. destruct (PM_log (v + 1)) as (k & Hk & Ek); [unfold PM_P; lia|].
    assert (Hn : exists n : N, (n < 2 ^ 31 - 2)%N /\ (m + Z.of_N n + 1 = k \/ m + Z.of_N n + 1 = k + PM_M)).
    { destruct (Z.le_gt_cases (m + 1) k).
      - exists (Z.to_N (k - m - 1)). rewrite Z2N.id by lia. split; [unfold PM_M in *; lia|left; lia].
      - exists (Z.to_N (k + PM_M - m - 1)). rewrite Z2N.id by lia. split; [unfold PM_M in *; lia|right; lia]. }
    destruct Hn as (n & Hn & Hkn). exists n. split; [done|]. destruct (do_rand_eq (rand_state n c)) as [-> _]. cbn [fst].
    destruct (rand_state_pow n c Hcm) as [_ Hr]. rewrite (Z.mod_small _ PM_M), Est, Z.sub_add, Zmult_mod_idemp_r, <- Z.pow_succ_r by (done || lia).
    unfold Z.succ. destruct Hkn as [->| ->]; rewrite ?Hcyc by lia; lia.
Qed.
