(* ===== verification/UserProgs.v ===== *)
(** The small programs of user/: echo, cat, wc, kill, ln, mkdir, rm, ls, init,
    zombie, stressfs and forktest.  [argv] is the list of argument strings, the
    program's name first. *)

From S2P Require Import Prelude Outcome UserSys Ulib Uprintf UserWorld.

(** ** echo.c *)

Fixpoint echo_args (args : list (list Z)) : prog unit :=
  match args with
  | [] => PRet tt
  | a :: args' =>
      sys_ (Swrite 1 a);;
      (match args' with [] => sys_ (Swrite 1 [C_nl]) | _ => sys_ (Swrite 1 [32]) end);;
      echo_args args'
  end.
Definition echo_main (argv : list (list Z)) : prog unit := echo_args (tail argv);; PExit 0.

(** ** cat.c *)

(** char buf[512], of cat and of wc *)
Definition IOBUF : Z := 512.

Definition cat_step (fd : Z) (buf : list Z) : prog (list Z + list Z) :=
  '(n, bs) <- sys_ (Sread fd IOBUF);;
  buf <- must (store_bytes buf 0 bs);;
  if 0 <? n then
    r <- sys_ (Swrite 1 (take (Z.to_nat n) buf));;
    if negb (r =? n) then fprintf 2 (line "cat: write error") [];; PExit 1
    else PRet (inl buf)
  else if n <? 0 then fprintf 2 (line "cat: read error") [];; PExit 1
  else PRet (inr buf).
Definition cat `{Fuel} (fd : Z) (buf : list Z) : prog (list Z) := piter fuel (cat_step fd) buf.

Fixpoint cat_files `{Fuel} (files : list (list Z)) (buf : list Z) : prog unit :=
  match files with
  | [] => PRet tt
  | name :: files' =>
      fd <- sys_ (Sopen name O_RDONLY);;
      if fd <? 0 then fprintf 2 (line "cat: cannot open %s") [AStr (Some name)];; PExit 1
      else
        buf <- cat fd buf;;
        sys_ (Sclose fd);;
        cat_files files' buf
  end.
Definition io_buf : list Z := replicate (Z.to_nat IOBUF) 0.
Definition cat_main `{Fuel} (argv : list (list Z)) : prog unit :=
  match argv with
  | [] | [_] => cat 0 io_buf;; PExit 0
  | _ :: files => cat_files files io_buf;; PExit 0
  end.

(** ** wc.c *)

Record counts : Type := mkCounts { wc_l : Z; wc_w : Z; wc_c : Z; inword : bool }.

(** " \r\t\n\v" *)
Definition blanks : list Z := [32; 13; 9; 10; 11].

Definition wc_byte (k : counts) (ch : Z) : option counts :=
  c ← int_ (wc_c k + 1);
  l ← (if ch =? C_nl then int_ (wc_l k + 1) else Some (wc_l k));
  q ← strchr (z blanks) ch;
  match q with
  | Some _ => Some (mkCounts l (wc_w k) c false)
  | None => if inword k then Some (mkCounts l (wc_w k) c true)
            else w ← int_ (wc_w k + 1); Some (mkCounts l w c true)
  end.

Fixpoint wc_bytes (k : counts) (bs : list Z) : option counts :=
  match bs with
  | [] => Some k
  | ch :: bs' => k' ← wc_byte k ch; wc_bytes k' bs'
  end.

Definition wc_step (fd : Z) (st : list Z * counts) : prog (list Z * counts + list Z * counts) :=
  let '(buf, k) := st in
  '(n, bs) <- sys_ (Sread fd IOBUF);;
  buf <- must (store_bytes buf 0 bs);;
  if 0 <? n then
    k <- must (wc_bytes k (take (Z.to_nat n) buf));;
    PRet (inl (buf, k))
  else if n <? 0 then printf (line "wc: read error") [];; PExit 1
  else PRet (inr (buf, k)).

Definition wc `{Fuel} (fd : Z) (name : list Z) (buf : list Z) : prog (list Z) :=
  '(buf, k) <- piter fuel (wc_step fd) (buf, mkCounts 0 0 0 false);;
  printf (line "%d %d %d %s") [ANum (wc_l k); ANum (wc_w k); ANum (wc_c k); AStr (Some name)];;
  PRet buf.

Fixpoint wc_files `{Fuel} (files : list (list Z)) (buf : list Z) : prog unit :=
  match files with
  | [] => PRet tt
  | name :: files' =>
      fd <- sys_ (Sopen name O_RDONLY);;
      if fd <? 0 then printf (line "wc: cannot open %s") [AStr (Some name)];; PExit 1
      else
        buf <- wc fd name buf;;
        sys_ (Sclose fd);;
        wc_files files' buf
  end.
Definition wc_main `{Fuel} (argv : list (list Z)) : prog unit :=
  match argv with
  | [] | [_] => wc 0 [] io_buf;; PExit 0
  | _ :: files => wc_files files io_buf;; PExit 0
  end.

(** ** kill.c, ln.c, mkdir.c, rm.c, zombie.c *)

Definition kill_main (argv : list (list Z)) : prog unit :=
  match argv with
  | _ :: a :: args =>
      pfor (a :: args) (fun a => pid <- must (atoi (z a));; sys_ (Skill pid);; PRet tt);;
      PExit 0
  | _ => fprintf 2 (line "usage: kill pid...") [];; PExit 1
  end.

Definition ln_main (argv : list (list Z)) : prog unit :=
  match argv with
  | [_; old; new] =>
      r <- sys_ (Slink old new);;
      (if r <? 0 then fprintf 2 (line "link %s %s: failed") [AStr (Some old); AStr (Some new)] else PRet tt);;
      PExit 0
  | _ => fprintf 2 (line "Usage: ln old new") [];; PExit 1
  end.

(** The loops of mkdir and rm end at the first failure. *)
Fixpoint mkdir_args (args : list (list Z)) : prog unit :=
  match args with
  | [] => PRet tt
  | a :: args' =>
      r <- sys_ (Smkdir a);;
      if r <? 0 then fprintf 2 (line "mkdir: %s failed to create") [AStr (Some a)] else mkdir_args args'
  end.
Definition mkdir_main (argv : list (list Z)) : prog unit :=
  match argv with
  | _ :: a :: args => mkdir_args (a :: args);; PExit 0
  | _ => fprintf 2 (line "Usage: mkdir files...") [];; PExit 1
  end.

Fixpoint rm_args (args : list (list Z)) : prog unit :=
  match args with
  | [] => PRet tt
  | a :: args' =>
      r <- sys_ (Sunlink a);;
      if r <? 0 then fprintf 2 (line "rm: %s failed to delete") [AStr (Some a)] else rm_args args'
  end.
Definition rm_main (argv : list (list Z)) : prog unit :=
  match argv with
  | _ :: a :: args => rm_args (a :: args);; PExit 0
  | _ => fprintf 2 (line "Usage: rm files...") [];; PExit 1
  end.

Definition zombie_main : prog unit :=
  pid <- sys_ Sfork;;
  (if 0 <? pid then sys_ (Ssleep 5);; PRet tt else PRet tt);;
  PExit 0.

(** ** ls.c *)

Definition DIRSIZ : Z := 14.
Definition C_slash : Z := 47.

(** The loop of fmtname, with the increment after it: the index after the last
    slash of [path[0..p]], 0 if there is none. *)
Fixpoint after_slash (path : list Z) (p : nat) : nat :=
  if decide (path !! p = Some C_slash) then S p
  else match p with O => 0%nat | S p' => after_slash path p' end.

(** Returns the string to print and the static buffer [buf[DIRSIZ+1]]. *)
Definition fmtname (path buf : list Z) : option (list Z * list Z) :=
  n ← strlen (z path);
  let name := drop (after_slash (z path) (Z.to_nat n)) (z path) in
  len ← strlen name;
  if DIRSIZ <=? len then Some (take (Z.to_nat len) name, buf)
  else
    buf1 ← store_bytes buf 0 (take (Z.to_nat len) name);
    pad ← memset (drop (Z.to_nat len) buf1) 32 (Z.to_nat (DIRSIZ - len));
    let buf2 := take (Z.to_nat len) buf1 ++ pad in
    l2 ← strlen buf2;
    Some (take (Z.to_nat l2) buf2, buf2).

(** struct dirent as the 16 bytes read: inum and name *)
Definition de_inum (de : list Z) : Z := de !!! 0%nat + 256 * de !!! 1%nat.
Definition de_name (de : list Z) : list Z := drop 2 de.

(** The string that starts an array. *)
Definition str_of (a : list Z) : option (list Z) := n ← strlen a; Some (take (Z.to_nat n) a).

(** The loop over the directory; [p] is the offset after the slash in [buf]. *)
Definition ls_entry (fd : Z) (p : nat) (x : list Z * list Z * stat) : prog (list Z * list Z * stat + list Z) :=
  let '(buf, sbuf, st) := x in
  '(n, de) <- sys_ (Sread fd 16);;
  if negb (n =? 16) then PRet (inr sbuf)
  else if de_inum de =? 0 then PRet (inl (buf, sbuf, st))
  else
    buf <- must (store_bytes buf p (de_name de));;
    buf <- must (store buf (p + Z.to_nat DIRSIZ) 0);;
    path <- must (str_of buf);;
    '(r, st) <- ulib_stat path st;;
    if r <? 0 then printf (line "ls: cannot stat %s") [AStr (Some path)];; PRet (inl (buf, sbuf, st))
    else
      '(name, sbuf) <- must (fmtname path sbuf);;
      printf (line "%s %d %d %d") [AStr (Some name); ANum (st_type st); ANum (st_ino st); ANum (st_size st)];;
      PRet (inl (buf, sbuf, st)).

Definition ls_dir `{Fuel} (fd : Z) (path buf sbuf : list Z) (st : stat) : prog (list Z) :=
  n <- must (strlen (z path));;
  if 512 <? n + 1 + DIRSIZ + 1 then printf (line "ls: path too long") [];; PRet sbuf
  else
    buf <- must (strcpy buf (z path));;
    p <- must (strlen buf);;
    buf <- must (store buf (Z.to_nat p) C_slash);;
    piter fuel (ls_entry fd (S (Z.to_nat p))) (buf, sbuf, st).

(** [sbuf] is fmtname's static buffer, [buf] the uninitialised buf[512]. *)
Definition ls `{Fuel} (path buf sbuf : list Z) : prog (list Z) :=
  fd <- sys_ (Sopen path O_RDONLY);;
  if fd <? 0 then fprintf 2 (line "ls: cannot open %s") [AStr (Some path)];; PRet sbuf
  else
    '(r, st) <- sys_ (Sfstat fd);;
    if r <? 0 then
      fprintf 2 (line "ls: cannot stat %s") [AStr (Some path)];;
      sys_ (Sclose fd);;
      PRet sbuf
    else
      sbuf <- (if (st_type st =? T_DEVICE) || (st_type st =? T_FILE) then
                 '(name, sbuf) <- must (fmtname path sbuf);;
                 printf (line "%s %d %d %l") [AStr (Some name); ANum (st_type st); ANum (st_ino st); ANum (st_size st)];;
                 PRet sbuf
               else if st_type st =? T_DIR then ls_dir fd path buf sbuf st
               else PRet sbuf);;
      sys_ (Sclose fd);;
      PRet sbuf.

Fixpoint ls_args `{Fuel} (args : list (list Z)) (buf sbuf : list Z) : prog unit :=
  match args with
  | [] => PRet tt
  | a :: args' => sbuf <- ls a buf sbuf;; ls_args args' buf sbuf
  end.
Definition ls_main `{Fuel} (argv : list (list Z)) (buf : list Z) : prog unit :=
  let sbuf := replicate (Z.to_nat DIRSIZ + 1) 0 in
  match argv with
  | [] | [_] => ls (chars ".") buf sbuf;; PExit 0
  | _ :: args => ls_args args buf sbuf;; PExit 0
  end.

(** ** init.c *)

Definition CONSOLE : Z := 1.

(** Waiting for the shell: an orphan that is reaped goes unnoticed. *)
Definition init_wait (pid : Z) (_ : unit) : prog (unit + unit) :=
  '(wpid, _) <- sys_ Swait;;
  if wpid =? pid then PRet (inr tt)
  else if wpid <? 0 then printf (line "init: wait returned an error") [];; PExit 1
  else PRet (inl tt).

Definition init_round `{Fuel} (_ : unit) : prog (unit + unit) :=
  printf (line "init: starting sh") [];;
  pid <- sys_ Sfork;;
  if pid <? 0 then printf (line "init: fork failed") [];; PExit 1
  else if pid =? 0 then
    exec_ (chars "sh") [chars "sh"];;
    printf (line "init: exec sh failed") [];;
    PExit 1
  else piter fuel (init_wait pid) tt;; PRet (inl tt).

Definition init_main `{Fuel} : prog unit :=
  fd <- sys_ (Sopen (chars "console") O_RDWR);;
  (if fd <? 0 then
     sys_ (Smknod (chars "console") CONSOLE 0);;
     sys_ (Sopen (chars "console") O_RDWR);;
     PRet tt
   else PRet tt);;
  sys_ (Sdup 0);;
  sys_ (Sdup 0);;
  piter fuel init_round tt.

(** ** stressfs.c *)

(** The fork loop: the value of [i] with which a process leaves it. *)
Fixpoint stress_fork (k : nat) (i : Z) : prog Z :=
  match k with
  | O => PRet i
  | S k' => pid <- sys_ Sfork;; if 0 <? pid then PRet i else stress_fork k' (i + 1)
  end.

Definition stressfs_main : prog unit :=
  printf (line "stressfs starting") [];;
  let data := replicate 512 97 in
  i <- stress_fork 4 0;;
  printf (line "write %d") [ANum i];;
  let path := chars "stressfs" ++ [u8 (48 + i)] in
  fd <- sys_ (Sopen path (Z.lor O_CREATE O_RDWR));;
  pfor (seq 0 20) (fun _ => sys_ (Swrite fd data);; PRet tt);;
  sys_ (Sclose fd);;
  printf (line "read") [];;
  fd <- sys_ (Sopen path O_RDONLY);;
  pfor (seq 0 20) (fun _ => sys_ (Sread fd 512);; PRet tt);;
  sys_ (Sclose fd);;
  sys_ Swait;;
  PExit 0.

(** ** forktest.c *)

Definition FT_N : nat := 1000.
Definition print (s : list Z) : prog unit := sys_ (Swrite 1 s);; PRet tt.

(** The fork loop; the result is [n]. *)
Fixpoint ft_fork (k : nat) (n : nat) : prog nat :=
  match k with
  | O => PRet n
  | S k' =>
      pid <- sys_ Sfork;;
      if pid <? 0 then PRet n
      else if pid =? 0 then PExit 0
      else ft_fork k' (S n)
  end.

Definition forktest : prog unit :=
  print (line "fork test");;
  n <- ft_fork FT_N 0;;
  (if decide (n = FT_N) then print (line "fork claimed to work N times!");; PExit 1 else PRet tt);;
  pfor (seq 0 n) (fun _ =>
    '(pid, _) <- sys_ Swait;;
    if pid <? 0 then print (line "wait stopped early");; PExit 1 else PRet tt);;
  '(pid, _) <- sys_ Swait;;
  (if negb (pid =? -1) then print (line "wait got too many");; PExit 1 else PRet tt);;
  print (line "fork test OK").
Definition forktest_main : prog unit := forktest;; PExit 0.
