(* ===== verification/UserProgsSpec.v ===== *)
(** What the small user programs do, in every world that keeps the file laws. *)

From S2P Require Import Prelude Outcome UserSys Ulib Uprintf UserWorld UprintfSpec UserProgs.

(** ** Counting *)

Definition blank (c : Z) : bool := bool_decide (c ∈ blanks).

(** The pieces between blanks, the empty ones included. *)
Fixpoint pieces (s : list Z) : list (list Z) :=
  match s with
  | [] => [[]]
  | c :: s' =>
      match pieces s' with
      | t :: ts => if blank c then [] :: t :: ts else (c :: t) :: ts
      | [] => []
      end
  end.
Definition nonempty (t : list Z) : bool := match t with [] => false | _ => true end.
Definition words (s : list Z) : Z := Z.of_nat (length (List.filter nonempty (pieces s))).
Definition newlines (s : list Z) : Z := Z.of_nat (length (List.filter (fun c => c =? C_nl) s)).

(** Words that start in [s] when the byte before it was in a word or not. *)
Fixpoint starts (inw : bool) (s : list Z) : Z :=
  match s with
  | [] => 0
  | c :: s' => if blank c then starts false s' else (if inw then 0 else 1) + starts true s'
  end.
Fixpoint ends_in (inw : bool) (s : list Z) : bool :=
  match s with [] => inw | c :: s' => ends_in (negb (blank c)) s' end.

Lemma pieces_cons s : exists t ts, pieces s = t :: ts.
Proof. induction s as [|c s (t & ts & E)]; simpl; [eauto|]. rewrite E. destruct (blank c); eauto. Qed.

Lemma starts_words s :
  starts false s = words s /\
  starts true s = words s - (if nonempty (default [] (head (pieces s))) then 1 else 0).
Proof.
  unfold words. induction s as [|c s [IH1 IH2]]; [done|]. cbn [starts pieces]. destruct (pieces_cons s) as (t & ts & E).
  rewrite E in *. simpl in IH1, IH2. destruct (blank c).
  - rewrite IH1. simpl. destruct (nonempty t); cbn [length] in *; split; lia.
  - rewrite IH2. simpl. destruct (nonempty t); cbn [length] in *; split; lia.
Qed.

Lemma starts_range inw s : 0 <= starts inw s <= Z.of_nat (length s).
Proof.
  revert inw. induction s as [|c s IH]; intros inw; simpl; [lia|]. pose proof (IH false). pose proof (IH true).
  destruct (blank c), inw; lia.
Qed.

Lemma strchr_blanks ch : strchr (z blanks) ch = Some None <-> blank ch = false.
Proof.
  unfold blank. rewrite bool_decide_eq_false. split.
  - intros E Hin. apply list_elem_of_split_l in Hin as (l1 & l2 & Hb & Hn).
    assert (Forall char_ok blanks) as Hc by (apply (bool_decide_unpack _); vm_compute; exact I).
    rewrite Hb in Hc. apply Forall_app in Hc as [Hc1 Hc2]. inversion Hc2; subst.
    unfold z in E. rewrite Hb, <- app_assoc in E. cbn [app] in E. by rewrite strchr_found in E.
  - intros Hn. apply (strchr_none blanks ch []); [done|]. apply (bool_decide_unpack _). vm_compute. exact I.
Qed.

Lemma strchr_blanks_found ch : blank ch = true -> exists i, strchr (z blanks) ch = Some (Some i).
Proof.
  intros Hb. assert (Hl : forall l : list Z, 0 ∈ l -> is_Some (strchr l ch)).
  { induction l as [|x l IH]; cbn [strchr]; [by intros ?%not_elem_of_nil|]. intros Hin. destruct (Z.eqb_spec x 0); [done|].
    destruct (x =? ch); [done|]. apply elem_of_cons in Hin as [E|Hin]; [by subst|]. destruct (IH Hin) as [o ->]. by eexists. }
  destruct (Hl (z blanks)) as [[i|] E].
  - unfold z. apply elem_of_app. right. by apply list_elem_of_singleton.
  - eauto.
  - apply strchr_blanks in E. congruence.
Qed.

Lemma int_ok n : -2 ^ 31 <= n < 2 ^ 31 -> int_ n = Some n.
Proof. intros. unfold int_. destruct (Z.leb_spec (-2 ^ 31) n); [|lia]. destruct (Z.ltb_spec n (2 ^ 31)); [done|lia]. Qed.

Definition counts_ok (k : counts) : Prop := 0 <= wc_l k <= wc_c k /\ 0 <= wc_w k <= wc_c k.

Lemma wc_bytes_eq s : forall k, counts_ok k -> wc_c k + Z.of_nat (length s) < 2 ^ 31 ->
  wc_bytes k s = Some (mkCounts (wc_l k + newlines s) (wc_w k + starts (inword k) s)
    (wc_c k + Z.of_nat (length s)) (ends_in (inword k) s)).
Proof.
  induction s as [|ch s IH]; intros [l w c iw] [Hl Hw] Hc; cbn [wc_l wc_w wc_c inword length wc_bytes] in *.
  { unfold newlines. simpl. do 2 f_equal; lia. }
  assert (El : (if ch =? C_nl then int_ (l + 1) else Some l) = Some (l + if ch =? C_nl then 1 else 0)).
  { destruct (ch =? C_nl); [apply int_ok; lia|f_equal; lia]. }
  assert (En : newlines (ch :: s) = (if ch =? C_nl then 1 else 0) + newlines s).
  { unfold newlines. cbn [List.filter]. destruct (ch =? C_nl); cbn [length]; lia. }
  unfold wc_byte. cbn [wc_l wc_w wc_c inword]. rewrite (int_ok (c + 1)), El, En by lia. cbn [mbind option_bind starts ends_in].
  destruct (blank ch) eqn:Eb.
  - destruct (strchr_blanks_found ch Eb) as [i ->]. cbn [mbind option_bind].
    rewrite IH; cbn [wc_l wc_w wc_c inword]; [|split; simpl; destruct (ch =? C_nl); lia|lia]. do 2 f_equal; lia.
  - apply strchr_blanks in Eb as ->. cbn [mbind option_bind]. destruct iw.
    + cbn [mbind option_bind]. rewrite IH; cbn [wc_l wc_w wc_c inword]; [|split; simpl; destruct (ch =? C_nl); lia|lia].
      cbn [negb]. do 2 f_equal; lia.
    + rewrite (int_ok (w + 1)) by lia. cbn [mbind option_bind].
      rewrite IH; cbn [wc_l wc_w wc_c inword]; [|split; simpl; destruct (ch =? C_nl); lia|lia]. cbn [negb]. do 2 f_equal; lia.
Qed.

Lemma wc_bytes_app k s1 s2 : wc_bytes k (s1 ++ s2) = k' ← wc_bytes k s1; wc_bytes k' s2.
Proof. revert k. induction s1 as [|c s1 IH]; intros k; [done|]. simpl. destruct (wc_byte k c); [apply IH|done]. Qed.

Section io.
Context {W : Type} (h : handler W) (rest out : Z -> W -> list Z) (file : list Z -> option (list Z)).
Context `{!FileWorld h rest out file}.

(** A message, as one text. *)
Lemma run_message fd fmt ap t w : text fmt ap = Some t -> Forall byte_ok t ->
  exists w', run h (vprintf fd fmt ap) w = Returned tt w' /\
    (forall fd', rest fd' w' = rest fd' w) /\ out fd w' = out fd w ++ t /\ (forall o, o <> fd -> out o w' = out o w).
Proof.
  intros Ht Hb. rewrite (run_vprintf h fd (length fmt) fmt ap t w) by done. by apply (run_puts h rest out file).
Qed.

(** ** cat *)

Record cat_inv (fd : Z) (w0 : W) (buf : list Z) (w : W) : Prop := {
  ci_len : length buf = Z.to_nat IOBUF;
  ci_out : out 1 w ++ rest fd w = out 1 w0 ++ rest fd w0;
  ci_others : forall o, o <> 1 -> out o w = out o w0
}.

Lemma store_bytes_0 buf bs : (length bs <= length buf)%nat ->
  store_bytes buf 0 bs = Some (splice buf 0 bs) /\ take (length bs) (splice buf 0 bs) = bs.
Proof.
  intros Hl. unfold store_bytes. rewrite decide_True by lia. split; [done|].
  unfold splice. rewrite take_0, app_nil_l. apply take_app_length.
Qed.

Lemma cat_step_ok fd w0 buf w : cat_inv fd w0 buf w ->
  exists r w', run h (cat_step fd buf) w = Returned r w' /\
    match r with
    | inl buf' => cat_inv fd w0 buf' w' /\ (length (rest fd w') < length (rest fd w))%nat
    | inr buf' => cat_inv fd w0 buf' w' /\ rest fd w' = []
    end.
Proof.
  intros [Hl Ho Hs]. unfold cat_step. rewrite run_bind_sys.
  pose proof (fw_read fd IOBUF w ltac:(unfold IOBUF; lia)) as Hrd.
  destruct (h _ (Sread fd IOBUF) w) as [[n bs] w1]. destruct Hrd as (Hrw & Hn & Hle & H0 & Hr1 & Ho1). cbn [fst snd].
  destruct (store_bytes_0 buf bs) as [-> Ht]; [lia|]. cbn [must pbind].
  assert (Hl' : length (splice buf 0 bs) = Z.to_nat IOBUF) by (rewrite splice_length; lia).
  destruct (Z.ltb_spec 0 n) as [Hpos|Hneg].
  - rewrite run_bind_sys. rewrite Hn, Nat2Z.id, Ht. pose proof (fw_write 1 bs w1) as Hw.
    destruct (h _ (Swrite 1 bs) w1) as [r w2]. destruct Hw as (-> & Hr2 & Ho2 & Hs2). cbn [fst snd]. rewrite Z.eqb_refl. cbn [negb].
    eexists _, w2. split; [done|]. split; [|rewrite Hr2, Hrw, length_app; lia].
    split; [done| |intros o Hne; by rewrite Hs2, Ho1, Hs].
    by rewrite Ho2, Hr2, Ho1, <- app_assoc, <- Hrw.
  - assert (n = 0) as E0 by lia. destruct (Z.ltb_spec n 0); [lia|]. eexists _, w1. split; [done|].
    assert (bs = []) as -> by (apply length_zero_iff_nil; lia). rewrite splice_nil in *. simpl in Hrw. split.
    + split; [done| |intros o Hne; by rewrite Ho1, Hs]. by rewrite Ho1, <- Hrw.
    + rewrite <- Hrw. apply H0; [done|unfold IOBUF; lia].
Qed.

Lemma cat_ok `{Fuel} fd buf w : length buf = Z.to_nat IOBUF -> (length (rest fd w) < fuel)%nat ->
  exists buf' w', run h (cat fd buf) w = Returned buf' w' /\ length buf' = Z.to_nat IOBUF /\
    out 1 w' = out 1 w ++ rest fd w /\ (forall o, o <> 1 -> out o w' = out o w).
Proof.
  intros Hl Hf. destruct (piter_total h (cat_step fd) (cat_inv fd w)
    (fun buf' w' => cat_inv fd w buf' w' /\ rest fd w' = []) (fun _ w => length (rest fd w)) (cat_step_ok fd w) fuel buf w)
    as (buf' & w' & E & [Hl' Ho Hs] & He); [done|done|].
  exists buf', w'. split; [done|]. split; [done|]. rewrite He, app_nil_r in Ho. done.
Qed.

(** What cat prints for a list of files, and the first file that is missing. *)
Fixpoint cat_result (files : list (list Z)) : list Z * option (list Z) :=
  match files with
  | [] => ([], None)
  | name :: files' =>
      match file name with
      | Some c => (c ++ (cat_result files').1, (cat_result files').2)
      | None => ([], Some name)
      end
  end.

Definition cat_errors (missing : option (list Z)) : list Z :=
  match missing with Some name => chars "cat: cannot open " ++ name ++ [C_nl] | None => [] end.

Lemma cat_files_ok `{Fuel} files : forall buf w,
  length buf = Z.to_nat IOBUF -> Forall (Forall byte_ok) files ->
  Forall (fun name => forall c, file name = Some c -> (length c < fuel)%nat) files ->
  exists w', run h (cat_files files buf;; PExit (A := unit) 0) w =
      Exited (if (cat_result files).2 then 1 else 0) w' /\
    out 1 w' = out 1 w ++ (cat_result files).1 /\ out 2 w' = out 2 w ++ cat_errors (cat_result files).2.
Proof.
  induction files as [|name files IH]; intros buf w Hl Hb Hf; cbn [cat_files cat_result].
  { exists w. simpl. by rewrite !app_nil_r. }
  inversion Hb as [|? ? Hbn Hb']; inversion Hf as [|? ? Hfn Hf']; subst. rewrite run_bind, run_bind_sys.
  pose proof (fw_open name w) as Ho. destruct (h _ (Sopen name O_RDONLY) w) as [fd w1]. cbn [fst snd].
  destruct (file name) as [c|] eqn:Ec; destruct Ho as [Ho1 Ho2].
  - destruct Ho2 as (Hfd & Hc & _). destruct (Z.ltb_spec fd 0); [lia|].
    destruct (cat_ok fd buf w1 Hl) as (buf' & w2 & E & Hl' & Ho & Hs); [rewrite Hc; by apply Hfn|].
    rewrite run_bind, E, run_bind_sys. pose proof (fw_close fd w2) as Hcl.
    destruct (h _ (Sclose fd) w2) as [r w3]. destruct Hcl as [Ho3 _]. cbn [fst snd].
    rewrite <- run_bind. destruct (IH buf' w3 Hl' Hb' Hf') as (w' & E' & Hw1 & Hw2). exists w'.
    split; [exact E'|]. rewrite Hw1, Hw2, !Ho3, Ho, Hs, !Ho1, Hc by lia. by rewrite <- app_assoc.
  - destruct Ho2 as [Hfd _]. destruct (Z.ltb_spec fd 0); [|lia]. rewrite run_bind.
    destruct (run_message 2 (line "cat: cannot open %s") [AStr (Some name)] (chars "cat: cannot open " ++ name ++ [C_nl]) w1)
      as (w' & E & _ & Hm & Hs); [reflexivity| |].
    { apply Forall_app. split; [apply (bool_decide_unpack _); vm_compute; exact I|]. apply Forall_app. split; [done|].
      repeat constructor; unfold C_nl; lia. }
    unfold fprintf. rewrite E. exists w'. split; [done|]. cbn [cat_errors fst snd].
    rewrite Hm, Hs, !Ho1 by lia. by rewrite app_nil_r.
Qed.

(** ** wc *)

Definition zero : counts := mkCounts 0 0 0 false.

Record wc_inv (fd : Z) (w0 : W) (st : list Z * counts) (w : W) : Prop := {
  wi_len : length st.1 = Z.to_nat IOBUF;
  wi_seen : exists s, rest fd w0 = s ++ rest fd w /\ wc_bytes zero s = Some st.2;
  wi_out : forall o, out o w = out o w0
}.

Lemma wc_step_ok fd w0 st w : Z.of_nat (length (rest fd w0)) < 2 ^ 31 -> wc_inv fd w0 st w ->
  exists r w', run h (wc_step fd st) w = Returned r w' /\
    match r with
    | inl st' => wc_inv fd w0 st' w' /\ (length (rest fd w') < length (rest fd w))%nat
    | inr st' => wc_inv fd w0 st' w' /\ rest fd w' = []
    end.
Proof.
  destruct st as [buf k]. intros Hbig [Hl (s & Hs & Hk) Ho]. cbn [fst snd] in *. unfold wc_step. rewrite run_bind_sys.
  pose proof (fw_read fd IOBUF w ltac:(unfold IOBUF; lia)) as Hrd.
  destruct (h _ (Sread fd IOBUF) w) as [[n bs] w1]. destruct Hrd as (Hrw & Hn & Hle & H0 & Hr1 & Ho1). cbn [fst snd].
  destruct (store_bytes_0 buf bs) as [-> Ht]; [lia|]. cbn [must pbind].
  assert (Hl' : length (splice buf 0 bs) = Z.to_nat IOBUF) by (rewrite splice_length; lia).
  assert (Hk' : wc_bytes k bs = wc_bytes zero (s ++ bs)) by (by rewrite wc_bytes_app, Hk).
  assert (Hseen : rest fd w0 = (s ++ bs) ++ rest fd w1) by (by rewrite Hs, Hrw, app_assoc).
  destruct (Z.ltb_spec 0 n) as [Hpos|Hneg].
  - rewrite Hn, Nat2Z.id, Ht, Hk'. rewrite wc_bytes_eq; [|split; simpl; lia|].
    2:{ rewrite Hseen, length_app in Hbig. simpl. lia. }
    cbn [must pbind run]. eexists _, w1. split; [done|]. split; [|rewrite Hrw, length_app; lia]. split; cbn [fst snd]; [done| |].
    + exists (s ++ bs). split; [done|]. rewrite wc_bytes_eq; [done|split; simpl; lia|].
      rewrite Hseen, length_app in Hbig. simpl. lia.
    + intros o. by rewrite Ho1.
  - destruct (Z.ltb_spec n 0); [lia|]. eexists _, w1. split; [done|].
    assert (bs = []) as -> by (apply length_zero_iff_nil; lia). rewrite splice_nil in *. simpl in Hrw. split.
    + split; cbn [fst snd]; [done| |intros o; by rewrite Ho1]. exists s. by rewrite <- Hrw.
    + rewrite <- Hrw. apply H0; [lia|unfold IOBUF; lia].
Qed.

Lemma digit_byte d : byte_ok (digit d).
Proof.
  unfold digit. destruct (digits !! Z.to_nat d) as [c|] eqn:E.
  - rewrite (list_lookup_total_correct _ _ _ E).
    assert (Forall byte_ok digits) as Hd by (apply (bool_decide_unpack _); vm_compute; exact I). by eapply Forall_lookup_1.
  - rewrite list_lookup_total_alt, E. unfold byte_ok. simpl. lia.
Qed.

Lemma printint_buf_bytes xx base sgn : Forall byte_ok (printint_buf xx base sgn).
Proof.
  unfold printint_buf. apply Forall_app. split.
  - assert (Hl : forall f x, Forall byte_ok (printint_loop f x base)).
    { induction f as [|f IH]; intros x; cbn [printint_loop]; constructor; [apply digit_byte|]. by destruct (_ =? 0). }
    apply Hl.
  - destruct (sgn && (xx <? 0)); repeat constructor. done.
Qed.

Definition dec (n : Z) : list Z := rev (printint_buf n 10 true).

(** The line wc prints. *)
Definition wc_line (s name : list Z) : list Z :=
  dec (newlines s) ++ [32] ++ dec (words s) ++ [32] ++ dec (Z.of_nat (length s)) ++ [32] ++ name ++ [C_nl].

Lemma wc_text a b c name :
  text (line "%d %d %d %s") [ANum a; ANum b; ANum c; AStr (Some name)] =
  Some (dec (i32 a) ++ [32] ++ dec (i32 b) ++ [32] ++ dec (i32 c) ++ [32] ++ name ++ [C_nl]).
Proof. reflexivity. Qed.

Lemma wc_ok `{Fuel} fd name buf w :
  length buf = Z.to_nat IOBUF -> (length (rest fd w) < fuel)%nat -> Z.of_nat (length (rest fd w)) < 2 ^ 31 ->
  Forall byte_ok name ->
  exists buf' w', run h (wc fd name buf) w = Returned buf' w' /\ out 1 w' = out 1 w ++ wc_line (rest fd w) name /\
    (forall o, o <> 1 -> out o w' = out o w).
Proof.
  intros Hl Hf Hbig Hname. unfold wc.
  destruct (piter_total h (wc_step fd) (wc_inv fd w) (fun st w' => wc_inv fd w st w' /\ rest fd w' = [])
    (fun _ w => length (rest fd w)) (fun st w1 => wc_step_ok fd w st w1 Hbig) fuel (buf, zero) w)
    as ([buf' k] & w1 & E & [Hl' (s & Hs & Hk) Ho] & He).
  { split; cbn [fst snd]; [done| |done]. exists []. done. }
  { done. }
  cbn [fst snd] in *. rewrite He, app_nil_r in Hs. subst s. rewrite run_bind.
  change (mkCounts 0 0 0 false) with zero. rewrite E.
  rewrite wc_bytes_eq in Hk; [|split; simpl; lia|simpl; lia]. simplify_eq. cbn [zero wc_l wc_w wc_c inword].
  pose proof (starts_range false (rest fd w)) as Hst. destruct (starts_words (rest fd w)) as [Hws _]. rewrite Hws in *.
  assert (Hnl : 0 <= newlines (rest fd w) <= Z.of_nat (length (rest fd w))).
  { unfold newlines. pose proof (List.filter_length_le (fun c => c =? C_nl) (rest fd w)). lia. }
  destruct (run_message 1 (line "%d %d %d %s") [ANum (0 + newlines (rest fd w)); ANum (0 + words (rest fd w));
    ANum (0 + Z.of_nat (length (rest fd w))); AStr (Some name)] (wc_line (rest fd w) name) w1) as (w2 & E2 & _ & Ho2 & Hs2).
  { rewrite !Z.add_0_l, wc_text, !i32_small by lia. done. }
  { unfold wc_line, dec. rewrite !Forall_app. pose proof printint_buf_bytes as Hpb.
    split_and!; try (apply Forall_rev, Hpb); try done; repeat constructor; unfold C_nl; lia. }
  unfold printf. rewrite run_bind, E2. exists buf', w2. split; [done|]. rewrite Ho2, Ho. split; [done|].
  intros o Hne. by rewrite Hs2, Ho.
Qed.
End io.

(** cat with file arguments copies the files to the standard output in order,
    whatever the sizes of the reads, and exits with 0; at the first file that
    cannot be opened it reports it on descriptor 2 and exits with 1. *)
Theorem cat_main_copies `{Fuel} {W} (h : handler W) rest out file `{!FileWorld h rest out file} argv0 name names w :
  Forall (Forall byte_ok) (name :: names) ->
  Forall (fun name => forall c, file name = Some c -> (length c < fuel)%nat) (name :: names) ->
  exists w', run h (cat_main (argv0 :: name :: names)) w =
      Exited (if (cat_result file (name :: names)).2 then 1 else 0) w' /\
    out 1 w' = out 1 w ++ (cat_result file (name :: names)).1 /\
    out 2 w' = out 2 w ++ cat_errors (cat_result file (name :: names)).2.
Proof. intros Hb Hf. by apply (cat_files_ok h rest out file). Qed.

(** For a file of less than 2^31 bytes wc prints the number of newlines, of
    words (the non-empty pieces between blanks) and of bytes, and the name. *)
Theorem wc_counts `{Fuel} {W} (h : handler W) rest out file `{!FileWorld h rest out file} fd name w :
  (length (rest fd w) < fuel)%nat -> Z.of_nat (length (rest fd w)) < 2 ^ 31 -> Forall byte_ok name ->
  exists buf w', run h (wc fd name io_buf) w = Returned buf w' /\
    out 1 w' = out 1 w ++ wc_line (rest fd w) name /\ (forall o, o <> 1 -> out o w' = out o w).
Proof. intros. by apply (wc_ok h rest out file). Qed.

(** ** ls *)

Lemma after_slash_none a p : (forall i, (i <= p)%nat -> a !! i <> Some C_slash) -> after_slash a p = 0%nat.
Proof.
  induction p as [|p IH]; intros Hn; cbn [after_slash]; (rewrite decide_False by (apply Hn; lia)); [done|].
  apply IH. intros i Hi. apply Hn. lia.
Qed.

Lemma after_slash_found a p j :
  (j <= p)%nat -> a !! j = Some C_slash -> (forall i, (j < i <= p)%nat -> a !! i <> Some C_slash) -> after_slash a p = S j.
Proof.
  intros Hj Ha Hn. revert Hj Hn. induction p as [|p IH]; intros Hj Hn; cbn [after_slash].
  - assert (j = 0%nat) as -> by lia. by rewrite decide_True.
  - destruct (decide (j = S p)) as [->|Hne]; [by rewrite decide_True|]. rewrite decide_False by (apply Hn; lia).
    apply IH; [lia|]. intros i Hi. apply Hn. lia.
Qed.

Lemma lookup_no_slash (a : list Z) i : C_slash ∉ a -> a !! i <> Some C_slash.
Proof. intros Hn Hi. apply Hn. by apply list_elem_of_lookup_2 in Hi. Qed.

(** The part after the last slash. *)
Lemma after_slash_eq pre name : C_slash ∉ name -> (pre = [] \/ exists p, pre = p ++ [C_slash]) ->
  after_slash (z (pre ++ name)) (length (pre ++ name)) = length pre.
Proof.
  intros Hn Hpre. assert (Hz : C_slash ∉ name ++ [0]).
  { rewrite elem_of_app. intros [?|E%list_elem_of_singleton]; done. }
  destruct Hpre as [->|[p ->]].
  - apply after_slash_none. intros i _. by apply lookup_no_slash.
  - unfold z. rewrite <- !app_assoc. rewrite !length_app. cbn [length app]. rewrite Nat.add_1_r.
    apply after_slash_found; [lia|by apply list_lookup_middle|]. intros i Hi.
    rewrite lookup_app_r by lia. destruct (i - length p)%nat as [|k] eqn:E; [lia|]. by apply (lookup_no_slash (name ++ [0]) k).
Qed.

Lemma memset_eq c n l : byte_ok c -> (n <= length l)%nat -> memset l c n = Some (replicate n c ++ drop n l).
Proof.
  intros Hc. revert l. induction n as [|n IH]; intros l Hl; [by destruct l|]. destruct l as [|x l]; simpl in *; [lia|].
  rewrite IH by lia. unfold byte_ok in Hc. simpl. by rewrite u8_small by lia.
Qed.

(** fmtname returns the part of the path after the last slash, padded with
    blanks to DIRSIZ characters when it is shorter, and leaves its static buffer
    terminated for the next call. *)
Theorem fmtname_pads pre name buf :
  Forall char_ok (pre ++ name) -> C_slash ∉ name -> (pre = [] \/ exists p, pre = p ++ [C_slash]) ->
  length buf = 15%nat -> buf !! 14%nat = Some 0 ->
  exists buf', fmtname (pre ++ name) buf = Some (name ++ replicate (14 - length name) 32, buf') /\
    length buf' = 15%nat /\ buf' !! 14%nat = Some 0.
Proof.
  intros Hc Hn Hpre Hl Hz. apply Forall_app in Hc as Hcs. destruct Hcs as [_ Hcn]. unfold fmtname.
  pose proof (strlen_z (pre ++ name) [] Hc) as E1. rewrite app_nil_r in E1. rewrite E1. cbn [mbind option_bind].
  rewrite Nat2Z.id, after_slash_eq by done. unfold z. rewrite <- app_assoc, drop_app_length.
  pose proof (strlen_z name [] Hcn) as E2. rewrite app_nil_r in E2. unfold z in E2. rewrite E2. cbn [mbind option_bind].
  rewrite !Nat2Z.id, take_app_length. unfold DIRSIZ. destruct (Z.leb_spec 14 (Z.of_nat (length name))) as [Hlong|Hshort].
  { exists buf. replace (14 - length name)%nat with 0%nat by lia. rewrite app_nil_r. done. }
  destruct (store_bytes_0 buf name) as [-> Ht]; [lia|]. cbn [mbind option_bind]. rewrite Ht.
  assert (Hsl : length (splice buf 0 name) = 15%nat) by (rewrite splice_length; lia).
  replace (Z.to_nat (14 - Z.of_nat (length name))) with (14 - length name)%nat by lia.
  rewrite memset_eq by (rewrite ?length_drop; unfold byte_ok; lia). cbn [mbind option_bind]. rewrite drop_drop.
  replace (length name + (14 - length name))%nat with 14%nat by lia.
  assert (drop 14 (splice buf 0 name) = [0]) as ->.
  { assert (Hlk : splice buf 0 name !! 14%nat = Some 0) by (rewrite lookup_splice_after; simpl; (done || lia)).
    rewrite (drop_S _ 0 14) by done. rewrite drop_ge by lia. done. }
  set (pad := replicate (14 - length name) 32). assert (Hp : Forall char_ok (name ++ pad)).
  { apply Forall_app. split; [done|]. apply Forall_replicate. unfold char_ok. lia. }
  pose proof (strlen_z (name ++ pad) [] Hp) as E3. rewrite app_nil_r in E3. unfold z in E3. rewrite app_assoc, E3.
  cbn [mbind option_bind]. rewrite Nat2Z.id, take_app_length. eexists. split; [done|].
  assert (Hpl : length (name ++ pad) = 14%nat) by (unfold pad; rewrite length_app, length_replicate; lia).
  split; [rewrite length_app, Hpl; done|]. rewrite lookup_app_r, Hpl by lia. done.
Qed.

(** ** init *)

Section init.
Context {W : Type} (h : handler W).
Context (Hfork : forall w, 0 < (h _ Sfork w).1) (Hwait : forall w, 0 <= (h _ Swait w).1.1).

Definition runs_on {A} (r : result W A) : Prop := match r with Halted OutOfFuel => True | _ => False end.
Definition goes_on {A} (r : result W A) : Prop := match r with Returned _ _ | Halted OutOfFuel => True | _ => False end.

Lemma init_wait_goes_on pid n : forall w, goes_on (run h (piter n (init_wait pid) tt) w).
Proof.
  induction n as [|n IH]; intros w; [done|]. rewrite piter_S. unfold init_wait. rewrite run_bind_sys.
  pose proof (Hwait w) as Hw. destruct (h _ Swait w) as [[wpid st] w']. cbn [fst snd] in *. destruct (wpid =? pid); [done|].
  destruct (Z.ltb_spec wpid 0); [lia|]. cbn [run]. apply IH.
Qed.

Lemma run_line fd x w : text (line x) [] <> None -> exists w', run h (vprintf fd (line x) []) w = Returned tt w'.
Proof.
  intros Ht. destruct (text (line x) []) as [t|] eqn:E; [|done]. rewrite (run_vprintf h fd _ _ _ _ w (le_n _) E).
  apply run_puts_total.
Qed.

Lemma init_round_goes_on `{Fuel} n : forall w, runs_on (run h (piter n init_round tt) w).
Proof.
  induction n as [|n IH]; intros w; [done|]. rewrite piter_S. unfold init_round, printf. rewrite run_bind.
  destruct (run_line 1 "init: starting sh" w) as [w1 ->]; [done|]. rewrite run_bind_sys.
  pose proof (Hfork w1) as Hp. destruct (h _ Sfork w1) as [pid w2]. cbn [fst snd] in *.
  destruct (Z.ltb_spec pid 0); [lia|]. destruct (Z.eqb_spec pid 0); [lia|]. rewrite run_bind.
  pose proof (init_wait_goes_on pid fuel w2) as Hg.
  destruct (run h (piter fuel (init_wait pid) tt) w2) as [[] w3| | |[]]; try done. cbn [run]. apply IH.
Qed.
End init.

(** While fork and wait succeed the first process never ends: with any amount
    of fuel it is still running, waiting for the shell or starting the next one. *)
Theorem init_never_exits `{Fuel} {W} (h : handler W) w :
  (forall w, 0 < (h _ Sfork w).1) -> (forall w, 0 <= (h _ Swait w).1.1) ->
  run h init_main w = Halted OutOfFuel.
Proof.
  intros Hf Hw. assert (Hr : runs_on (run h init_main w)).
  { unfold init_main. rewrite run_bind_sys. set (r := h _ (Sopen _ _) w). destruct r as [fd w1]. cbn [fst snd].
    destruct (fd <? 0); cbn [sys_ pbind run];
      repeat match goal with |- context [h ?X ?c ?w] => destruct (h X c w) end; apply (init_round_goes_on h Hf Hw). }
  destruct (run h init_main w) as [| | |[]]; done.
Qed.

(** ** The hypotheses hold in concrete worlds *)

#[local] Instance ex_progs_fuel : Fuel := 50%nat.

Definition ex_files : list Z -> option (list Z) := fun name =>
  if decide (name = chars "a") then Some (line "one  two") else if decide (name = chars "b") then Some (chars "three") else None.

Lemma cat_main_copies_witness :
  exists w', run (io_handler ex_files) (cat_main [chars "cat"; chars "a"; chars "b"; chars "c"]) (io_init [] [1; 0; 5]%nat) = Exited 1 w' /\
    io_out w' 1 = line "one  two" ++ chars "three" /\ io_out w' 2 = line "cat: cannot open c".
Proof.
  apply (cat_main_copies (io_handler ex_files) (fun fd w => io_fds w fd) (fun fd w => io_out w fd) ex_files
    (chars "cat") (chars "a") [chars "b"; chars "c"] (io_init [] [1; 0; 5]%nat)).
  - apply (bool_decide_unpack _). vm_compute. exact I.
  - rewrite !Forall_cons. split_and!; [..|by apply Forall_nil]; intros c Hc; vm_compute in Hc; simplify_eq; vm_compute; lia.
Defined.

Lemma wc_counts_witness :
  exists buf w', run (io_handler ex_files) (wc 0 (chars "in") io_buf) (io_init (line "one  two" ++ chars "three") [2; 7]%nat) =
      Returned buf w' /\ io_out w' 1 = line "1 3 14 in" /\ (forall o, o <> 1 -> io_out w' o = []).
Proof.
  apply (wc_counts (io_handler ex_files) (fun fd w => io_fds w fd) (fun fd w => io_out w fd) ex_files 0 (chars "in")
    (io_init (line "one  two" ++ chars "three") [2; 7]%nat)).
  - vm_compute. lia.
  - vm_compute. reflexivity.
  - apply (bool_decide_unpack _). vm_compute. exact I.
Defined.

Lemma fmtname_pads_witness :
  exists buf', fmtname (chars "/usr/README") (replicate 15 0) = Some (chars "README        ", buf') /\
    length buf' = 15%nat /\ buf' !! 14%nat = Some 0.
Proof.
  apply (fmtname_pads (chars "/usr/") (chars "README") (replicate 15 0)); try reflexivity.
  - apply (bool_decide_unpack _). vm_compute. exact I.
  - apply (bool_decide_unpack _). vm_compute. exact I.
  - right. by exists (chars "/usr").
Defined.

(** A world in which fork gives pid 7 and wait reaps 5 and 7 in turn. *)
Definition ex_procs : handler bool := fun X c w =>
  match c in sys X return X * bool with
  | Sfork => (7, w)
  | Swait => ((if w then 7 else 5, 0), negb w)
  | Spipe => ((-1, (0, 0)), w)
  | Sread _ _ => ((0, []), w)
  | Sfstat _ => ((-1, mkStat 0 0 0 0 0), w)
  | Sexec _ _ => (None, w)
  | Swrite _ _ | Sclose _ | Skill _ | Sopen _ _ | Smknod _ _ _ | Sunlink _ | Slink _ _ | Smkdir _ | Schdir _ | Sdup _
  | Sgetpid | Ssbrk _ | Ssleep _ | Suptime => (0, w)
  end.

Lemma init_never_exits_witness : run ex_procs init_main false = Halted OutOfFuel.
Proof.
  apply (init_never_exits ex_procs false).
  - intros w. vm_compute. reflexivity.
  - intros []; vm_compute; discriminate.
Defined.
