(* ===== verification/Usertests.v ===== *)
(** user/usertests.c: the tests of the system calls, as programs that make system
    calls, look at what they answer, and exit with status 1 after a message when an
    answer is wrong; and the runner, which gives each test a process and reports its
    exit status.

    A test gets its name [s].  The global [buf] is an array of zeroes in every
    test, because the runner forks a process per test and never stores into it.
    fork answers 0 in the child and the child's pid in the parent, so each of the two
    follows its own path through a test.  The runner's tables of tests are arguments,
    because they also name tests that read and write wild addresses, which are not
    modelled. *)

From S2P Require Import Prelude Outcome Mem State UserSys Ulib Uprintf UserWorld UprintfSpec UserProgs.

(** * Tests of the file system that one process runs *)

Definition BUFSZ : Z := (MAXOPBLOCKS + 2) * BSIZE.
Definition buf : list Z := replicate (Z.to_nat BUFSZ) 0.

(** printf and exit(1) when an answer is wrong; most messages name the test. *)
Definition stop_if (wrong : bool) (fmt : list Z) (ap : list uarg) : prog unit :=
  if wrong then printf fmt ap;; PExit 1 else PRet tt.
Definition expect (wrong : bool) (s : list Z) (msg : string) : prog unit := stop_if wrong (line msg) [AStr (Some s)].

(** read(fd, b, n): the result and the array after it. *)
Definition read_ (fd : Z) (b : list Z) (n : Z) : prog (Z * list Z) :=
  '(r, bs) <- sys_ (Sread fd n);; b <- must (store_bytes b 0 bs);; PRet (r, b).
Definition open_ (path : string) (omode : Z) : prog Z := sys_ (Sopen (chars path) omode).
Definition write_ (fd : Z) (bs : string) : prog Z := sys_ (Swrite fd (chars bs)).
Definition unlink_ (path : string) : prog Z := sys_ (Sunlink (chars path)).
Definition mkdir_ (path : string) : prog Z := sys_ (Smkdir (chars path)).
Definition chdir_ (path : string) : prog Z := sys_ (Schdir (chars path)).
Definition link_ (old new : string) : prog Z := sys_ (Slink (chars old) (chars new)).
(** close(open(path, omode)) *)
Definition touch (path : list Z) (omode : Z) : prog unit := fd <- sys_ (Sopen path omode);; do_ (Sclose fd).

(** ** The tests *)

Definition truncate1 (s : list Z) : prog unit :=
  unlink_ "truncfile";;
  fd1 <- open_ "truncfile" (Z.lor (Z.lor O_CREATE O_WRONLY) O_TRUNC);;
  write_ fd1 "abcd";;
  do_ (Sclose fd1);;
  fd2 <- open_ "truncfile" O_RDONLY;;
  '(n, _) <- sys_ (Sread fd2 32);;
  stop_if (negb (n =? 4)) (line "%s: read %d bytes, wanted 4") [AStr (Some s); ANum n];;
  fd1 <- open_ "truncfile" (Z.lor O_WRONLY O_TRUNC);;
  fd3 <- open_ "truncfile" O_RDONLY;;
  '(n, _) <- sys_ (Sread fd3 32);;
  (if negb (n =? 0) then
     printf (line "aaa fd3=%d") [ANum fd3];;
     printf (line "%s: read %d bytes, wanted 0") [AStr (Some s); ANum n];; PExit 1
   else PRet tt);;
  '(n, _) <- sys_ (Sread fd2 32);;
  (if negb (n =? 0) then
     printf (line "bbb fd2=%d") [ANum fd2];;
     printf (line "%s: read %d bytes, wanted 0") [AStr (Some s); ANum n];; PExit 1
   else PRet tt);;
  write_ fd1 "abcdef";;
  '(n, _) <- sys_ (Sread fd3 32);;
  stop_if (negb (n =? 6)) (line "%s: read %d bytes, wanted 6") [AStr (Some s); ANum n];;
  '(n, _) <- sys_ (Sread fd2 32);;
  stop_if (negb (n =? 2)) (line "%s: read %d bytes, wanted 2") [AStr (Some s); ANum n];;
  unlink_ "truncfile";;
  do_ (Sclose fd1);; do_ (Sclose fd2);; do_ (Sclose fd3).

Definition truncate2 (s : list Z) : prog unit :=
  unlink_ "truncfile";;
  fd1 <- open_ "truncfile" (Z.lor (Z.lor O_CREATE O_TRUNC) O_WRONLY);;
  write_ fd1 "abcd";;
  fd2 <- open_ "truncfile" (Z.lor O_TRUNC O_WRONLY);;
  n <- write_ fd1 "x";;
  stop_if (negb (n =? -1)) (line "%s: write returned %d, expected -1") [AStr (Some s); ANum n];;
  unlink_ "truncfile";;
  do_ (Sclose fd1);; do_ (Sclose fd2).

Definition iputtest (s : list Z) : prog unit :=
  r <- mkdir_ "iputdir";; expect (r <? 0) s "%s: mkdir failed";;
  r <- chdir_ "iputdir";; expect (r <? 0) s "%s: chdir iputdir failed";;
  r <- unlink_ "../iputdir";; expect (r <? 0) s "%s: unlink ../iputdir failed";;
  r <- chdir_ "/";; expect (r <? 0) s "%s: chdir / failed".

Definition opentest (s : list Z) : prog unit :=
  fd <- open_ "echo" 0;;
  expect (fd <? 0) s "%s: open echo failed!";;
  do_ (Sclose fd);;
  fd <- open_ "doesnotexist" 0;;
  expect (0 <=? fd) s "%s: open doesnotexist succeeded!".

Definition O_CREATE_RDWR : Z := Z.lor O_CREATE O_RDWR.

Definition writetest (s : list Z) : prog unit :=
  fd <- open_ "small" O_CREATE_RDWR;;
  expect (fd <? 0) s "%s: error: creat small failed!";;
  pfor (seqZ 0 100) (fun i =>
    n <- write_ fd "aaaaaaaaaa";;
    stop_if (negb (n =? 10)) (line "%s: error: write aa %d new file failed") [AStr (Some s); ANum i];;
    n <- write_ fd "bbbbbbbbbb";;
    stop_if (negb (n =? 10)) (line "%s: error: write bb %d new file failed") [AStr (Some s); ANum i]);;
  do_ (Sclose fd);;
  fd <- open_ "small" O_RDONLY;;
  expect (fd <? 0) s "%s: error: open small failed!";;
  '(i, _) <- read_ fd buf 2000;;
  expect (negb (i =? 2000)) s "%s: read failed";;
  do_ (Sclose fd);;
  r <- unlink_ "small";;
  expect (r <? 0) s "%s: unlink small failed".

(** The int at the front of an array, little-endian. *)
Definition put_int (i : Z) (b : list Z) : option (list Z) :=
  store_bytes b 0 [u8 i; u8 (Z.shiftr i 8); u8 (Z.shiftr i 16); u8 (Z.shiftr i 24)].
Definition get_int (b : list Z) : Z :=
  i32 (b !!! 0%nat + 256 * b !!! 1%nat + 65536 * b !!! 2%nat + 16777216 * b !!! 3%nat).

(** The loop that reads the file back, a block a time, with the count [n]. *)
Definition writebig_read (s : list Z) (fd : Z) (x : list Z * Z) : prog (list Z * Z + unit) :=
  let '(b, n) := x in
  '(i, b) <- read_ fd b BSIZE;;
  if i =? 0 then
    stop_if (n =? MAXFILE - 1) (chars "%s: read only %d blocks from big") [AStr (Some s); ANum n];;
    PRet (inr tt)
  else
    stop_if (negb (i =? BSIZE)) (line "%s: read failed %d") [AStr (Some s); ANum i];;
    stop_if (negb (get_int b =? n)) (line "%s: read content of block %d is %d") [AStr (Some s); ANum n; ANum (get_int b)];;
    PRet (inl (b, n + 1)).

Definition writebig `{Fuel} (s : list Z) : prog unit :=
  fd <- open_ "big" O_CREATE_RDWR;;
  expect (fd <? 0) s "%s: error: creat big failed!";;
  pfor (seqZ 0 MAXFILE) (fun i =>
    b <- must (put_int i buf);;
    n <- sys_ (Swrite fd (take (Z.to_nat BSIZE) b));;
    stop_if (negb (n =? BSIZE)) (line "%s: error: write big file failed") [AStr (Some s); ANum i]);;
  do_ (Sclose fd);;
  fd <- open_ "big" O_RDONLY;;
  expect (fd <? 0) s "%s: error: open big failed!";;
  b <- must (put_int (MAXFILE - 1) buf);;
  piter fuel (writebig_read s fd) (b, 0);;
  do_ (Sclose fd);;
  r <- unlink_ "big";;
  expect (r <? 0) s "%s: unlink big failed".

Definition createtest (s : list Z) : prog unit :=
  let name i := [97; u8 (48 + i)] in
  pfor (seqZ 0 52) (fun i => touch (name i) O_CREATE_RDWR);;
  pfor (seqZ 0 52) (fun i => do_ (Sunlink (name i))).

Definition dirtest (s : list Z) : prog unit :=
  r <- mkdir_ "dir0";; expect (r <? 0) s "%s: mkdir failed";;
  r <- chdir_ "dir0";; expect (r <? 0) s "%s: chdir dir0 failed";;
  r <- chdir_ "..";; expect (r <? 0) s "%s: chdir .. failed";;
  r <- unlink_ "dir0";; expect (r <? 0) s "%s: unlink dir0 failed".

Definition unlinkread (s : list Z) : prog unit :=
  fd <- open_ "unlinkread" O_CREATE_RDWR;;
  expect (fd <? 0) s "%s: create unlinkread failed";;
  write_ fd "hello";;
  do_ (Sclose fd);;
  fd <- open_ "unlinkread" O_RDWR;;
  expect (fd <? 0) s "%s: open unlinkread failed";;
  r <- unlink_ "unlinkread";;
  expect (negb (r =? 0)) s "%s: unlink unlinkread failed";;
  fd1 <- open_ "unlinkread" O_CREATE_RDWR;;
  write_ fd1 "yyy";;
  do_ (Sclose fd1);;
  '(r, b) <- read_ fd buf BUFSZ;;
  stop_if (negb (r =? 5)) (chars "%s: unlinkread read failed") [AStr (Some s)];;
  expect (negb (b !!! 0%nat =? 104)) s "%s: unlinkread wrong data";;
  r <- sys_ (Swrite fd (take 10 b));;
  expect (negb (r =? 10)) s "%s: unlinkread write failed";;
  do_ (Sclose fd);;
  do_ (Sunlink (chars "unlinkread")).

Definition linktest (s : list Z) : prog unit :=
  unlink_ "lf1";;
  unlink_ "lf2";;
  fd <- open_ "lf1" O_CREATE_RDWR;;
  expect (fd <? 0) s "%s: create lf1 failed";;
  r <- write_ fd "hello";;
  expect (negb (r =? 5)) s "%s: write lf1 failed";;
  do_ (Sclose fd);;
  r <- link_ "lf1" "lf2";; expect (r <? 0) s "%s: link lf1 lf2 failed";;
  unlink_ "lf1";;
  r <- open_ "lf1" 0;; expect (0 <=? r) s "%s: unlinked lf1 but it is still there!";;
  fd <- open_ "lf2" 0;;
  expect (fd <? 0) s "%s: open lf2 failed";;
  '(r, _) <- read_ fd buf BUFSZ;;
  expect (negb (r =? 5)) s "%s: read lf2 failed";;
  do_ (Sclose fd);;
  r <- link_ "lf2" "lf2";; expect (0 <=? r) s "%s: link lf2 lf2 succeeded! oops";;
  unlink_ "lf2";;
  r <- link_ "lf2" "lf1";; expect (0 <=? r) s "%s: link non-existent succeeded! oops";;
  r <- link_ "." "lf1";; expect (0 <=? r) s "%s: link . lf1 succeeded! oops".

(** subdir in two halves: what it makes, and the calls that must fail with the
    clean-up. *)
Definition subdir_make (s : list Z) : prog unit :=
  unlink_ "ff";;
  r <- mkdir_ "dd";; expect (negb (r =? 0)) s "%s: mkdir dd failed";;
  fd <- open_ "dd/ff" O_CREATE_RDWR;;
  expect (fd <? 0) s "%s: create dd/ff failed";;
  write_ fd "ff";;
  do_ (Sclose fd);;
  r <- unlink_ "dd";; expect (0 <=? r) s "%s: unlink dd (non-empty dir) succeeded!";;
  r <- mkdir_ "/dd/dd";; expect (negb (r =? 0)) s "subdir mkdir dd/dd failed";;
  fd <- open_ "dd/dd/ff" O_CREATE_RDWR;;
  expect (fd <? 0) s "%s: create dd/dd/ff failed";;
  write_ fd "FF";;
  do_ (Sclose fd);;
  fd <- open_ "dd/dd/../ff" 0;;
  expect (fd <? 0) s "%s: open dd/dd/../ff failed";;
  '(cc, b) <- read_ fd buf BUFSZ;;
  expect (negb (cc =? 2) || negb (b !!! 0%nat =? 102)) s "%s: dd/dd/../ff wrong content";;
  do_ (Sclose fd);;
  r <- link_ "dd/dd/ff" "dd/dd/ffff";; expect (negb (r =? 0)) s "link dd/dd/ff dd/dd/ffff failed";;
  r <- unlink_ "dd/dd/ff";; expect (negb (r =? 0)) s "%s: unlink dd/dd/ff failed";;
  r <- open_ "dd/dd/ff" O_RDONLY;; expect (0 <=? r) s "%s: open (unlinked) dd/dd/ff succeeded";;
  r <- chdir_ "dd";; expect (negb (r =? 0)) s "%s: chdir dd failed";;
  r <- chdir_ "dd/../../dd";; expect (negb (r =? 0)) s "%s: chdir dd/../../dd failed";;
  r <- chdir_ "dd/../../../dd";; expect (negb (r =? 0)) s "chdir dd/../../dd failed";;
  r <- chdir_ "./..";; expect (negb (r =? 0)) s "%s: chdir ./.. failed";;
  fd <- open_ "dd/dd/ffff" 0;;
  expect (fd <? 0) s "%s: open dd/dd/ffff failed";;
  '(r, _) <- read_ fd b BUFSZ;;
  expect (negb (r =? 2)) s "%s: read dd/dd/ffff wrong len";;
  do_ (Sclose fd).

Definition subdir_fail (s : list Z) : prog unit :=
  r <- open_ "dd/dd/ff" O_RDONLY;; expect (0 <=? r) s "%s: open (unlinked) dd/dd/ff succeeded!";;
  r <- open_ "dd/ff/ff" O_CREATE_RDWR;; expect (0 <=? r) s "%s: create dd/ff/ff succeeded!";;
  r <- open_ "dd/xx/ff" O_CREATE_RDWR;; expect (0 <=? r) s "%s: create dd/xx/ff succeeded!";;
  r <- open_ "dd" O_CREATE;; expect (0 <=? r) s "%s: create dd succeeded!";;
  r <- open_ "dd" O_RDWR;; expect (0 <=? r) s "%s: open dd rdwr succeeded!";;
  r <- open_ "dd" O_WRONLY;; expect (0 <=? r) s "%s: open dd wronly succeeded!";;
  r <- link_ "dd/ff/ff" "dd/dd/xx";; expect (r =? 0) s "%s: link dd/ff/ff dd/dd/xx succeeded!";;
  r <- link_ "dd/xx/ff" "dd/dd/xx";; expect (r =? 0) s "%s: link dd/xx/ff dd/dd/xx succeeded!";;
  r <- link_ "dd/ff" "dd/dd/ffff";; expect (r =? 0) s "%s: link dd/ff dd/dd/ffff succeeded!";;
  r <- mkdir_ "dd/ff/ff";; expect (r =? 0) s "%s: mkdir dd/ff/ff succeeded!";;
  r <- mkdir_ "dd/xx/ff";; expect (r =? 0) s "%s: mkdir dd/xx/ff succeeded!";;
  r <- mkdir_ "dd/dd/ffff";; expect (r =? 0) s "%s: mkdir dd/dd/ffff succeeded!";;
  r <- unlink_ "dd/xx/ff";; expect (r =? 0) s "%s: unlink dd/xx/ff succeeded!";;
  r <- unlink_ "dd/ff/ff";; expect (r =? 0) s "%s: unlink dd/ff/ff succeeded!";;
  r <- chdir_ "dd/ff";; expect (r =? 0) s "%s: chdir dd/ff succeeded!";;
  r <- chdir_ "dd/xx";; expect (r =? 0) s "%s: chdir dd/xx succeeded!";;
  r <- unlink_ "dd/dd/ffff";; expect (negb (r =? 0)) s "%s: unlink dd/dd/ff failed";;
  r <- unlink_ "dd/ff";; expect (negb (r =? 0)) s "%s: unlink dd/ff failed";;
  r <- unlink_ "dd";; expect (r =? 0) s "%s: unlink non-empty dd succeeded!";;
  r <- unlink_ "dd/dd";; expect (r <? 0) s "%s: unlink dd/dd failed";;
  r <- unlink_ "dd";; expect (r <? 0) s "%s: unlink dd failed".

Definition subdir (s : list Z) : prog unit := subdir_make s;; subdir_fail s.

(** The sizes 499, 970, ... below (MAXOPBLOCKS+2)*BSIZE. *)
Definition bigwrite (s : list Z) : prog unit :=
  unlink_ "bigwrite";;
  pfor (filter (fun sz => sz < (MAXOPBLOCKS + 2) * BSIZE) ((fun k => 499 + 471 * k) <$> seqZ 0 BUFSZ)) (fun sz =>
    fd <- open_ "bigwrite" O_CREATE_RDWR;;
    expect (fd <? 0) s "%s: cannot create bigwrite";;
    pfor (seqZ 0 2) (fun _ =>
      cc <- sys_ (Swrite fd (take (Z.to_nat sz) buf));;
      stop_if (negb (cc =? sz)) (line "%s: write(%d) ret %d") [AStr (Some s); ANum sz; ANum cc]);;
    do_ (Sclose fd);;
    do_ (Sunlink (chars "bigwrite"))).

(** The loop that reads half-chunks back; the state is buf, i and total. *)
Definition bigfile_read (s : list Z) (fd : Z) (x : list Z * Z * Z) : prog (list Z * Z * Z + Z) :=
  let '(b, i, total) := x in
  '(cc, b) <- read_ fd b 300;;
  expect (cc <? 0) s "%s: read bigfile failed";;
  if cc =? 0 then PRet (inr total)
  else
    expect (negb (cc =? 300)) s "%s: short read bigfile";;
    expect (negb (b !!! 0%nat =? Z.quot i 2) || negb (b !!! 299%nat =? Z.quot i 2)) s "%s: read bigfile wrong data";;
    PRet (inl (b, i + 1, total + cc)).

Fixpoint bigfile_write (s : list Z) (fd : Z) (l : list Z) (b : list Z) : prog (list Z) :=
  match l with
  | [] => PRet b
  | i :: l' =>
      b <- must (memset b i 600);;
      n <- sys_ (Swrite fd (take 600 b));;
      expect (negb (n =? 600)) s "%s: write bigfile failed";;
      bigfile_write s fd l' b
  end.

Definition bigfile `{Fuel} (s : list Z) : prog unit :=
  unlink_ "bigfile.dat";;
  fd <- open_ "bigfile.dat" O_CREATE_RDWR;;
  stop_if (fd <? 0) (chars "%s: cannot create bigfile") [AStr (Some s)];;
  b <- bigfile_write s fd (seqZ 0 20) buf;;
  do_ (Sclose fd);;
  fd <- open_ "bigfile.dat" 0;;
  expect (fd <? 0) s "%s: cannot open bigfile";;
  total <- piter fuel (bigfile_read s fd) (b, 0, 0);;
  do_ (Sclose fd);;
  expect (negb (total =? 12000)) s "%s: read bigfile wrong total";;
  do_ (Sunlink (chars "bigfile.dat")).

Definition fourteen (s : list Z) : prog unit :=
  r <- mkdir_ "12345678901234";; expect (negb (r =? 0)) s "%s: mkdir 12345678901234 failed";;
  r <- mkdir_ "12345678901234/123456789012345";;
  expect (negb (r =? 0)) s "%s: mkdir 12345678901234/123456789012345 failed";;
  fd <- open_ "123456789012345/123456789012345/123456789012345" O_CREATE;;
  expect (fd <? 0) s "%s: create 123456789012345/123456789012345/123456789012345 failed";;
  do_ (Sclose fd);;
  fd <- open_ "12345678901234/12345678901234/12345678901234" 0;;
  expect (fd <? 0) s "%s: open 12345678901234/12345678901234/12345678901234 failed";;
  do_ (Sclose fd);;
  r <- mkdir_ "12345678901234/12345678901234";;
  expect (r =? 0) s "%s: mkdir 12345678901234/12345678901234 succeeded!";;
  r <- mkdir_ "123456789012345/12345678901234";;
  expect (r =? 0) s "%s: mkdir 12345678901234/123456789012345 succeeded!";;
  unlink_ "123456789012345/12345678901234";;
  unlink_ "12345678901234/12345678901234";;
  unlink_ "12345678901234/12345678901234/12345678901234";;
  unlink_ "123456789012345/123456789012345/123456789012345";;
  unlink_ "12345678901234/123456789012345";;
  do_ (Sunlink (chars "12345678901234")).

Definition rmdot (s : list Z) : prog unit :=
  r <- mkdir_ "dots";; expect (negb (r =? 0)) s "%s: mkdir dots failed";;
  r <- chdir_ "dots";; expect (negb (r =? 0)) s "%s: chdir dots failed";;
  r <- unlink_ ".";; expect (r =? 0) s "%s: rm . worked!";;
  r <- unlink_ "..";; expect (r =? 0) s "%s: rm .. worked!";;
  r <- chdir_ "/";; expect (negb (r =? 0)) s "%s: chdir / failed";;
  r <- unlink_ "dots/.";; expect (r =? 0) s "%s: unlink dots/. worked!";;
  r <- unlink_ "dots/..";; expect (r =? 0) s "%s: unlink dots/.. worked!";;
  r <- unlink_ "dots";; expect (negb (r =? 0)) s "%s: unlink dots failed!".

Definition dirfile (s : list Z) : prog unit :=
  fd <- open_ "dirfile" O_CREATE;;
  expect (fd <? 0) s "%s: create dirfile failed";;
  do_ (Sclose fd);;
  r <- chdir_ "dirfile";; expect (r =? 0) s "%s: chdir dirfile succeeded!";;
  fd <- open_ "dirfile/xx" 0;; expect (0 <=? fd) s "%s: create dirfile/xx succeeded!";;
  fd <- open_ "dirfile/xx" O_CREATE;; expect (0 <=? fd) s "%s: create dirfile/xx succeeded!";;
  r <- mkdir_ "dirfile/xx";; expect (r =? 0) s "%s: mkdir dirfile/xx succeeded!";;
  r <- unlink_ "dirfile/xx";; expect (r =? 0) s "%s: unlink dirfile/xx succeeded!";;
  r <- link_ "README" "dirfile/xx";; expect (r =? 0) s "%s: link to dirfile/xx succeeded!";;
  r <- unlink_ "dirfile";; expect (negb (r =? 0)) s "%s: unlink dirfile failed!";;
  fd <- open_ "." O_RDWR;; expect (0 <=? fd) s "%s: open . for writing succeeded!";;
  fd <- open_ "." 0;;
  r <- write_ fd "x";; expect (0 <? r) s "%s: write . succeeded!";;
  do_ (Sclose fd).

Definition iref (s : list Z) : prog unit :=
  pfor (seq 0 (NINODE + 1)) (fun _ =>
    r <- mkdir_ "irefd";; expect (negb (r =? 0)) s "%s: mkdir irefd failed";;
    r <- chdir_ "irefd";; expect (negb (r =? 0)) s "%s: chdir irefd failed";;
    mkdir_ "";;
    link_ "README" "";;
    fd <- open_ "" O_CREATE;;
    (if 0 <=? fd then do_ (Sclose fd) else PRet tt);;
    fd <- open_ "xx" O_CREATE;;
    (if 0 <=? fd then do_ (Sclose fd) else PRet tt);;
    do_ (Sunlink (chars "xx")));;
  pfor (seq 0 (NINODE + 1)) (fun _ => chdir_ "..";; do_ (Sunlink (chars "irefd")));;
  do_ (Schdir (chars "/")).

(** [uninit] is the global array as exec leaves it. *)
Definition bsstest (uninit : list Z) (s : list Z) : prog unit :=
  pfor uninit (fun c => expect (negb (c =? 0)) s "%s: bss test failed").

(** ** The slow tests *)

Definition bigdir (s : list Z) : prog unit :=
  let name i := [120; u8 (48 + i / 64); u8 (48 + i mod 64)] in
  unlink_ "bd";;
  fd <- open_ "bd" O_CREATE;;
  expect (fd <? 0) s "%s: bigdir create failed";;
  do_ (Sclose fd);;
  pfor (seqZ 0 500) (fun i =>
    r <- sys_ (Slink (chars "bd") (name i));;
    stop_if (negb (r =? 0)) (line "%s: bigdir link(bd, %s) failed") [AStr (Some s); AStr (Some (name i))]);;
  unlink_ "bd";;
  pfor (seqZ 0 500) (fun i =>
    r <- sys_ (Sunlink (name i));;
    stop_if (negb (r =? 0)) (chars "%s: bigdir unlink failed") [AStr (Some s)]).

Definition O_CREATE_RDWR_TRUNC : Z := Z.lor (Z.lor O_CREATE O_RDWR) O_TRUNC.
Definition zz_name (i : Z) : list Z := [122; 122; u8 (48 + i / 32); u8 (48 + i mod 32)].

(** Create zz.. files until one fails, then remove them. *)
Fixpoint zz_create (l : list Z) : prog unit :=
  match l with
  | [] => PRet tt
  | i :: l' =>
      do_ (Sunlink (zz_name i));;
      fd <- sys_ (Sopen (zz_name i) O_CREATE_RDWR_TRUNC);;
      if fd <? 0 then PRet tt else do_ (Sclose fd);; zz_create l'
  end.
Definition zz_remove (l : list Z) : prog unit := pfor l (fun i => do_ (Sunlink (zz_name i))).

Definition outofinodes (s : list Z) : prog unit := zz_create (seqZ 0 (32 * 32));; zz_remove (seqZ 0 (32 * 32)).

(** diskfull's loop over the blocks of a file; the result is [done].  [junk] is
    the uninitialised block it writes. *)
Fixpoint diskfull_write (fd : Z) (junk : list Z) (k : nat) : prog bool :=
  match k with
  | O => PRet false
  | S k' =>
      n <- sys_ (Swrite fd junk);;
      if negb (n =? BSIZE) then do_ (Sclose fd);; PRet true else diskfull_write fd junk k'
  end.

Definition big_name (fi : Z) : list Z := [98; 105; 103; u8 (48 + fi)].
Fixpoint diskfull_files (junk : list Z) (s : list Z) (fis : list Z) : prog unit :=
  match fis with
  | [] => PRet tt
  | fi :: fis' =>
      do_ (Sunlink (big_name fi));;
      fd <- sys_ (Sopen (big_name fi) O_CREATE_RDWR_TRUNC);;
      if fd <? 0 then printf (line "%s: could not create file %s") [AStr (Some s); AStr (Some (big_name fi))]
      else
        full <- diskfull_write fd junk (Z.to_nat MAXFILE);;
        do_ (Sclose fd);;
        if full then PRet tt else diskfull_files junk s fis'
  end.

(** The files big0 ... with '0' + fi < 0177.  The message of the mkdir has a
    conversion and no argument. *)
Definition diskfull (junk : list Z) (s : list Z) : prog unit :=
  unlink_ "diskfulldir";;
  diskfull_files junk s (seqZ 0 (127 - 48));;
  zz_create (seqZ 0 128);;
  r <- mkdir_ "diskfulldir";;
  (if r =? 0 then printf (line "%s: mkdir(diskfulldir) unexpectedly succeeded!") [] else PRet tt);;
  unlink_ "diskfulldir";;
  zz_remove (seqZ 0 128);;
  pfor (seqZ 0 (127 - 48)) (fun i => do_ (Sunlink (big_name i))).

(** * Tests that fork: processes, pipes, exec, and several processes in a directory *)

(** wait(&x): a local [x] that was never stored into is [None], and reading it is
    undefined. *)
Definition wait_ (x : option Z) : prog (Z * option Z) :=
  '(pid, st) <- sys_ Swait;; PRet (pid, if pid <? 0 then x else Some st).
Definition stored (x : option Z) : prog Z :=
  match x with Some st => PRet st | None => undefined "a status that was not stored" end.
Definition wait_status : prog Z := '(_, x) <- wait_ None;; stored x.

(** fork in a test that gives up when it fails; the result is the pid. *)
Definition fork_ (fmt : list Z) (ap : list uarg) : prog Z := pid <- sys_ Sfork;; stop_if (pid <? 0) fmt ap;; PRet pid.
Definition fork_named (s : list Z) : prog Z := fork_ (line "%s: fork failed") [AStr (Some s)].
(** What only the child does. *)
Definition in_child (pid : Z) (body : prog unit) : prog unit := if pid =? 0 then body else PRet tt.

(** for(;;) ; *)
Definition spin `{Fuel} : prog unit := piter fuel (fun _ => PRet (inl tt)) tt.

(** ** Files and directories *)

Definition truncate3 (s : list Z) : prog unit :=
  touch (chars "truncfile") (Z.lor (Z.lor O_CREATE O_TRUNC) O_WRONLY);;
  pid <- fork_named s;;
  in_child pid
    (pfor (seqZ 0 100) (fun _ =>
       fd <- open_ "truncfile" O_WRONLY;;
       expect (fd <? 0) s "%s: open failed";;
       n <- write_ fd "1234567890";;
       stop_if (negb (n =? 10)) (line "%s: write got %d, expected 10") [AStr (Some s); ANum n];;
       do_ (Sclose fd);;
       fd <- open_ "truncfile" O_RDONLY;;
       do_ (Sread fd 32);;
       do_ (Sclose fd));;
     PExit 0);;
  pfor (seqZ 0 150) (fun _ =>
    fd <- open_ "truncfile" (Z.lor (Z.lor O_CREATE O_WRONLY) O_TRUNC);;
    expect (fd <? 0) s "%s: open failed";;
    n <- write_ fd "xxx";;
    stop_if (negb (n =? 3)) (line "%s: write got %d, expected 3") [AStr (Some s); ANum n];;
    do_ (Sclose fd));;
  '(_, x) <- wait_ None;;
  unlink_ "truncfile";;
  xstatus <- stored x;; PExit xstatus.

Definition exitiputtest (s : list Z) : prog unit :=
  pid <- fork_named s;;
  in_child pid
    (r <- mkdir_ "iputdir";; expect (r <? 0) s "%s: mkdir failed";;
     r <- chdir_ "iputdir";; expect (r <? 0) s "%s: child chdir failed";;
     r <- unlink_ "../iputdir";; expect (r <? 0) s "%s: unlink ../iputdir failed";;
     PExit 0);;
  xstatus <- wait_status;; PExit xstatus.

Definition openiputtest (s : list Z) : prog unit :=
  r <- mkdir_ "oidir";; expect (r <? 0) s "%s: mkdir oidir failed";;
  pid <- fork_named s;;
  in_child pid
    (fd <- open_ "oidir" O_RDWR;;
     expect (0 <=? fd) s "%s: open directory for write succeeded";;
     PExit 0);;
  do_ (Ssleep 1);;
  r <- unlink_ "oidir";; expect (negb (r =? 0)) s "%s: unlink failed";;
  xstatus <- wait_status;; PExit xstatus.

Definition count_byte (c : Z) (l : list Z) : Z := Z.of_nat (length (filter (fun x => x = c) l)).

(** sharedfd's loop that reads the file back; the state is buf, nc and np. *)
Definition sharedfd_read (fd : Z) (x : list Z * Z * Z) : prog (list Z * Z * Z + Z * Z) :=
  let '(b, nc, np) := x in
  '(n, b) <- read_ fd b 10;;
  if 0 <? n then PRet (inl (b, nc + count_byte 99 b, np + count_byte 112 b)) else PRet (inr (nc, np)).

Definition sharedfd `{Fuel} (s : list Z) : prog unit :=
  unlink_ "sharedfd";;
  fd <- open_ "sharedfd" O_CREATE_RDWR;;
  stop_if (fd <? 0) (chars "%s: cannot open sharedfd for writing") [AStr (Some s)];;
  pid <- sys_ Sfork;;
  let b := replicate 10 (if pid =? 0 then 99 else 112) in
  pfor (seqZ 0 1000) (fun _ =>
    n <- sys_ (Swrite fd b);; expect (negb (n =? 10)) s "%s: write sharedfd failed");;
  (if pid =? 0 then PExit 0
   else xstatus <- wait_status;; if negb (xstatus =? 0) then PExit xstatus else PRet tt);;
  do_ (Sclose fd);;
  fd <- open_ "sharedfd" 0;;
  expect (fd <? 0) s "%s: cannot open sharedfd for reading";;
  '(nc, np) <- piter fuel (sharedfd_read fd) (b, 0, 0);;
  do_ (Sclose fd);;
  unlink_ "sharedfd";;
  if (nc =? 10000) && (np =? 10000) then PExit 0
  else printf (line "%s: nc/np test fails") [AStr (Some s)];; PExit 1.

(** Waits for [k] children into the same local; the first status that is not 0
    ends the test, the way [bad] says. *)
Fixpoint wait_children (k : nat) (bad : Z -> prog unit) (x : option Z) : prog unit :=
  match k with
  | O => PRet tt
  | S k' =>
      '(_, x) <- wait_ x;;
      xstatus <- stored x;;
      (if negb (xstatus =? 0) then bad xstatus else PRet tt);;
      wait_children k' bad x
  end.

Definition fourfiles_read (s : list Z) (i fd : Z) (x : list Z * Z) : prog (list Z * Z + list Z * Z) :=
  let '(b, total) := x in
  '(n, b) <- read_ fd b BUFSZ;;
  if 0 <? n then
    pfor (take (Z.to_nat n) b) (fun c => expect (negb (c =? 48 + i)) s "wrong char");;
    PRet (inl (b, total + n))
  else PRet (inr (b, total)).

(** The names f0 to f3; the parent's buf goes through the reads of all four. *)
Definition f_name (i : Z) : list Z := [102; u8 (48 + i)].
Fixpoint fourfiles_check `{Fuel} (s : list Z) (l : list Z) (b : list Z) : prog unit :=
  match l with
  | [] => PRet tt
  | i :: l' =>
      fd <- sys_ (Sopen (f_name i) 0);;
      '(b, total) <- piter fuel (fourfiles_read s i fd) (b, 0);;
      do_ (Sclose fd);;
      stop_if (negb (total =? 6000)) (line "wrong length %d") [ANum total];;
      do_ (Sunlink (f_name i));;
      fourfiles_check s l' b
  end.

Definition fourfiles `{Fuel} (s : list Z) : prog unit :=
  pfor (seqZ 0 4) (fun pi =>
    do_ (Sunlink (f_name pi));;
    pid <- fork_ (line "fork failed") [AStr (Some s)];;
    in_child pid
      (fd <- sys_ (Sopen (f_name pi) O_CREATE_RDWR);;
       expect (fd <? 0) s "create failed";;
       b <- must (memset buf (48 + pi) 500);;
       pfor (seqZ 0 12) (fun _ =>
         n <- sys_ (Swrite fd (take 500 b));;
         stop_if (negb (n =? 500)) (line "write failed %d") [ANum n]);;
       PExit 0));;
  wait_children 4 PExit None;;
  fourfiles_check s (seqZ 0 4) buf.

Definition p_name (pi i : Z) : list Z := [u8 (112 + pi); u8 (48 + i)].

(** The clean-up takes the first letter from [i], not from [pi]. *)
Definition createdelete (s : list Z) : prog unit :=
  pfor (seqZ 0 4) (fun pi =>
    pid <- fork_ (line "fork failed") [AStr (Some s)];;
    in_child pid
      (pfor (seqZ 0 20) (fun i =>
         fd <- sys_ (Sopen (p_name pi i) O_CREATE_RDWR);;
         expect (fd <? 0) s "%s: create failed";;
         do_ (Sclose fd);;
         if (0 <? i) && (i mod 2 =? 0) then
           r <- sys_ (Sunlink (p_name pi (i / 2)));; expect (r <? 0) s "%s: unlink failed"
         else PRet tt);;
       PExit 0));;
  wait_children 4 (fun _ => PExit 1) None;;
  pfor (seqZ 0 20) (fun i => pfor (seqZ 0 4) (fun pi =>
    fd <- sys_ (Sopen (p_name pi i) 0);;
    (if ((i =? 0) || (10 <=? i)) && (fd <? 0) then
       printf (line "%s: oops createdelete %s didn't exist") [AStr (Some s); AStr (Some (p_name pi i))];; PExit 1
     else if ((1 <=? i) && (i <? 10)) && (0 <=? fd) then
       printf (line "%s: oops createdelete %s did exist") [AStr (Some s); AStr (Some (p_name pi i))];; PExit 1
     else PRet tt);;
    if 0 <=? fd then do_ (Sclose fd) else PRet tt));;
  pfor (seqZ 0 20) (fun i => pfor (seqZ 0 4) (fun _ => do_ (Sunlink (p_name i i)))).

Definition C_name (i : Z) : list Z := [67; u8 (48 + i)].

(** concreate's scan of the directory; the state is the entry last read, the
    flags fa and the count n. *)
Definition concreate_scan (s : list Z) (fd : Z) (x : option (list Z) * list bool * Z) :
    prog (option (list Z) * list bool * Z + Z) :=
  let '(de, fa, n) := x in
  '(r, bs) <- sys_ (Sread fd 16);;
  de <- (if decide (length bs = 16%nat) then PRet bs
         else match de with Some d => must (store_bytes d 0 bs) | None => if 0 <? r then undefined "a short entry" else PRet [] end);;
  if negb (0 <? r) then PRet (inr n)
  else if de_inum de =? 0 then PRet (inl (Some de, fa, n))
  else
    let name := de_name de in
    if (name !!! 0%nat =? 67) && (name !!! 2%nat =? 0) then
      let i := name !!! 1%nat - 48 in
      str <- must (str_of name);;
      stop_if ((i <? 0) || (40 <=? i)) (line "%s: concreate weird file %s") [AStr (Some s); AStr (Some str)];;
      stop_if (default false (fa !! Z.to_nat i)) (line "%s: concreate duplicate file %s") [AStr (Some s); AStr (Some str)];;
      PRet (inl (Some de, <[Z.to_nat i := true]> fa, n + 1))
    else PRet (inl (Some de, fa, n)).

Definition concreate `{Fuel} (s : list Z) : prog unit :=
  pfor (seqZ 0 40) (fun i =>
    do_ (Sunlink (C_name i));;
    pid <- sys_ Sfork;;
    (if negb (pid =? 0) && (i mod 3 =? 1) then do_ (Slink (chars "C0") (C_name i))
     else if (pid =? 0) && (i mod 5 =? 1) then do_ (Slink (chars "C0") (C_name i))
     else
       fd <- sys_ (Sopen (C_name i) O_CREATE_RDWR);;
       stop_if (fd <? 0) (line "concreate create %s failed") [AStr (Some (C_name i))];;
       do_ (Sclose fd));;
    if pid =? 0 then PExit 0
    else xstatus <- wait_status;; if negb (xstatus =? 0) then PExit 1 else PRet tt);;
  fd <- open_ "." 0;;
  n <- piter fuel (concreate_scan s fd) (None, replicate 40 false, 0);;
  do_ (Sclose fd);;
  expect (negb (n =? 40)) s "%s: concreate not enough files in directory listing";;
  pfor (seqZ 0 40) (fun i =>
    pid <- fork_named s;;
    (if ((i mod 3 =? 0) && (pid =? 0)) || ((i mod 3 =? 1) && negb (pid =? 0))
     then pfor (seqZ 0 6) (fun _ => touch (C_name i) 0)
     else pfor (seqZ 0 6) (fun _ => do_ (Sunlink (C_name i))));;
    if pid =? 0 then PExit 0 else do_ Swait).

(** The generator of linkunlink, in an unsigned int. *)
Definition linkunlink_step (x : Z) : prog Z :=
  let x := u32 (x * 1103515245 + 12345) in
  (if x mod 3 =? 0 then touch (chars "x") (Z.lor O_RDWR O_CREATE)
   else if x mod 3 =? 1 then do_ (Slink (chars "cat") (chars "x"))
   else do_ (Sunlink (chars "x")));;
  PRet x.
Fixpoint linkunlink_loop (k : nat) (x : Z) : prog unit :=
  match k with O => PRet tt | S k' => x <- linkunlink_step x;; linkunlink_loop k' x end.

Definition linkunlink (s : list Z) : prog unit :=
  unlink_ "x";;
  pid <- fork_named s;;
  linkunlink_loop 100 (if negb (pid =? 0) then 1 else 97);;
  if negb (pid =? 0) then do_ Swait else PExit 0.

Definition manywrites (s : list Z) : prog unit :=
  pfor (seqZ 0 4) (fun ci =>
    let name := [98; u8 (97 + ci)] in
    pid <- fork_ (line "fork failed") [];;
    in_child pid
      (do_ (Sunlink name);;
       pfor (seqZ 0 30) (fun _ =>
         pfor (seqZ 0 (ci + 1)) (fun _ =>
           fd <- sys_ (Sopen name O_CREATE_RDWR);;
           stop_if (fd <? 0) (line "%s: cannot create %s") [AStr (Some s); AStr (Some name)];;
           cc <- sys_ (Swrite fd buf);;
           stop_if (negb (cc =? BUFSZ)) (line "%s: write(%d) ret %d") [AStr (Some s); ANum BUFSZ; ANum cc];;
           do_ (Sclose fd));;
         do_ (Sunlink name));;
       do_ (Sunlink name);;
       PExit 0));;
  pfor (seqZ 0 4) (fun _ =>
    '(_, x) <- wait_ (Some 0);;
    st <- stored x;;
    if negb (st =? 0) then PExit st else PRet tt);;
  PExit 0.

(** ** Processes *)

Definition exectest (s : list Z) : prog unit :=
  unlink_ "echo-ok";;
  pid <- fork_named s;;
  in_child pid
    (do_ (Sclose 1);;
     fd <- open_ "echo-ok" (Z.lor O_CREATE O_WRONLY);;
     expect (fd <? 0) s "%s: create failed";;
     expect (negb (fd =? 1)) s "%s: wrong fd";;
     r <- exec_ (chars "echo") [chars "echo"; chars "OK"];;
     expect (r <? 0) s "%s: exec echo failed");;
  '(w, x) <- wait_ None;;
  (if negb (w =? pid) then printf (line "%s: wait failed!") [AStr (Some s)] else PRet tt);;
  xstatus <- stored x;;
  (if negb (xstatus =? 0) then PExit xstatus else PRet tt);;
  fd <- open_ "echo-ok" O_RDONLY;;
  expect (fd <? 0) s "%s: open failed";;
  '(r, b) <- sys_ (Sread fd 2);;
  expect (negb (r =? 2)) s "%s: read failed";;
  unlink_ "echo-ok";;
  if (b !!! 0%nat =? 79) && (b !!! 1%nat =? 75) then PExit 0
  else printf (line "%s: wrong output") [AStr (Some s)];; PExit 1.

(** The bytes that pipe1's child writes: seq counts on through all rounds. *)
Definition pipe1_chunk (n : Z) : list Z := (fun i => u8 (n * 1033 + i)) <$> seqZ 0 1033.

(** The parent's loop; the state is buf, seq, cc and total.  [None]: the bytes
    were wrong and the test returned. *)
Definition pipe1_read (s : list Z) (fd : Z) (x : list Z * Z * Z * Z) : prog (list Z * Z * Z * Z + option Z) :=
  let '(b, seq, cc, total) := x in
  '(n, b) <- read_ fd b cc;;
  if 0 <? n then
    if forallb (fun i => b !!! Z.to_nat i =? u8 (seq + i)) (seqZ 0 n) then
      PRet (inl (b, seq + n, (if BUFSZ <? cc * 2 then BUFSZ else cc * 2), total + n))
    else printf (line "%s: pipe1 oops 2") [AStr (Some s)];; PRet (inr None)
  else PRet (inr (Some total)).

(** The third message has two conversions and one argument. *)
Definition pipe1 `{Fuel} (s : list Z) : prog unit :=
  '(r, (fd0, fd1)) <- sys_ Spipe;;
  expect (negb (r =? 0)) s "%s: pipe() failed";;
  pid <- sys_ Sfork;;
  if pid =? 0 then
    do_ (Sclose fd0);;
    pfor (seqZ 0 5) (fun n =>
      r <- sys_ (Swrite fd1 (pipe1_chunk n));; expect (negb (r =? 1033)) s "%s: pipe1 oops 1");;
    PExit 0
  else if 0 <? pid then
    do_ (Sclose fd1);;
    t <- piter fuel (pipe1_read s fd0) (buf, 0, 1, 0);;
    match t with
    | None => PRet tt
    | Some total =>
        stop_if (negb (total =? 5165)) (line "%s: pipe1 oops 3 total %d") [ANum total];;
        do_ (Sclose fd0);;
        xstatus <- wait_status;; PExit xstatus
    end
  else printf (line "%s: fork() failed") [AStr (Some s)];; PExit 1.

Fixpoint killstatus_loop `{Fuel} (k : nat) (s : list Z) (x : option Z) : prog unit :=
  match k with
  | O => PRet tt
  | S k' =>
      pid1 <- fork_named s;;
      in_child pid1 (piter fuel (fun _ => sys_ Sgetpid;; PRet (inl tt)) tt);;
      do_ (Ssleep 1);;
      do_ (Skill pid1);;
      '(_, x) <- wait_ x;;
      xst <- stored x;;
      expect (negb (xst =? -1)) s "%s: status should be -1";;
      killstatus_loop k' s x
  end.
Definition killstatus `{Fuel} (s : list Z) : prog unit := killstatus_loop 100 s None;; PExit 0.

Definition preempt `{Fuel} (s : list Z) : prog unit :=
  pid1 <- fork_ (chars "%s: fork failed") [AStr (Some s)];;
  in_child pid1 spin;;
  pid2 <- fork_named s;;
  in_child pid2 spin;;
  '(r, (p0, p1)) <- sys_ Spipe;;
  if r <? 0 then undefined "descriptors that were not stored"
  else
    pid3 <- fork_named s;;
    in_child pid3
      (do_ (Sclose p0);;
       n <- write_ p1 "x";;
       (if negb (n =? 1) then printf (chars "%s: preempt write error") [AStr (Some s)] else PRet tt);;
       do_ (Sclose p1);;
       spin);;
    do_ (Sclose p1);;
    '(n, _) <- read_ p0 buf BUFSZ;;
    if negb (n =? 1) then printf (chars "%s: preempt read error") [AStr (Some s)]
    else
      do_ (Sclose p0);;
      printf (chars "kill... ") [];;
      do_ (Skill pid1);; do_ (Skill pid2);; do_ (Skill pid3);;
      printf (chars "wait... ") [];;
      do_ Swait;; do_ Swait;; do_ Swait.

Definition exitwait (s : list Z) : prog unit :=
  pfor (seqZ 0 100) (fun i =>
    pid <- fork_named s;;
    if negb (pid =? 0) then
      '(w, x) <- wait_ None;;
      expect (negb (w =? pid)) s "%s: wait wrong pid";;
      xstate <- stored x;;
      expect (negb (i =? xstate)) s "%s: wait wrong exit status"
    else PExit i).

Definition reparent (s : list Z) : prog unit :=
  master_pid <- sys_ Sgetpid;;
  pfor (seqZ 0 200) (fun _ =>
    pid <- fork_named s;;
    if negb (pid =? 0) then
      '(w, _) <- sys_ Swait;; expect (negb (w =? pid)) s "%s: wait wrong pid"
    else
      pid2 <- sys_ Sfork;;
      (if pid2 <? 0 then do_ (Skill master_pid);; PExit 1 else PRet tt);;
      PExit 0);;
  PExit 0.

Definition twochildren (s : list Z) : prog unit :=
  pfor (seqZ 0 1000) (fun _ =>
    pid1 <- fork_named s;;
    if pid1 =? 0 then PExit 0
    else
      pid2 <- fork_named s;;
      if pid2 =? 0 then PExit 0 else do_ Swait;; do_ Swait).

Definition forkfork (s : list Z) : prog unit :=
  pfor (seqZ 0 2) (fun _ =>
    pid <- fork_ (chars "%s: fork failed") [AStr (Some s)];;
    in_child pid
      (pfor (seqZ 0 200) (fun _ =>
         pid1 <- sys_ Sfork;;
         (if pid1 <? 0 then PExit 1 else PRet tt);;
         (if pid1 =? 0 then PExit 0 else PRet tt);;
         do_ Swait);;
       PExit 0));;
  wait_children 2 (fun _ => printf (chars "%s: fork in child failed") [AStr (Some s)];; PExit 1) None.

Definition forkforkfork `{Fuel} (s : list Z) : prog unit :=
  unlink_ "stopforking";;
  pid <- fork_ (chars "%s: fork failed") [AStr (Some s)];;
  in_child pid
    (piter fuel (fun _ =>
       fd <- open_ "stopforking" 0;;
       (if 0 <=? fd then PExit 0 else PRet tt);;
       r <- sys_ Sfork;;
       (if r <? 0 then touch (chars "stopforking") O_CREATE_RDWR else PRet tt);;
       PRet (inl tt)) tt);;
  do_ (Ssleep 20);;
  touch (chars "stopforking") O_CREATE_RDWR;;
  do_ Swait;;
  do_ (Ssleep 10).

Definition reparent2 (s : list Z) : prog unit :=
  pfor (seqZ 0 800) (fun _ =>
    pid1 <- fork_ (line "fork failed") [];;
    in_child pid1 (do_ Sfork;; do_ Sfork;; PExit 0);;
    do_ Swait);;
  PExit 0.

Definition forktest (s : list Z) : prog unit :=
  n <- ft_fork 1000 0;;
  expect (Nat.eqb n 0) s "%s: no fork at all!";;
  expect (Nat.eqb n 1000) s "%s: fork claimed to work 1000 times!";;
  pfor (seq 0 n) (fun _ => '(w, _) <- sys_ Swait;; expect (w <? 0) s "%s: wait stopped early");;
  '(w, _) <- sys_ Swait;;
  expect (negb (w =? -1)) s "%s: wait got too many".

Definition bigarg : list Z := line "bigargs test: failed" ++ replicate 199 32.
Definition bigargtest (s : list Z) : prog unit :=
  unlink_ "bigarg-ok";;
  pid <- sys_ Sfork;;
  (if pid =? 0 then
     exec_ (chars "echo") (replicate (MAXARG - 1) bigarg);;
     touch (chars "bigarg-ok") O_CREATE;;
     PExit 0
   else stop_if (pid <? 0) (line "%s: bigargtest: fork failed") [AStr (Some s)]);;
  xstatus <- wait_status;;
  (if negb (xstatus =? 0) then PExit xstatus else PRet tt);;
  fd <- open_ "bigarg-ok" 0;;
  expect (fd <? 0) s "%s: bigarg test failed!";;
  do_ (Sclose fd).

(** Strings too long for a path, and an exec argument of a page: two of the
    messages print the descriptor [fd] instead of the result. *)
Definition copyinstr2 (s : list Z) : prog unit :=
  let b := replicate (Z.to_nat MAXPATH) 120 in
  let big := replicate (Z.to_nat PGSIZE) 120 in
  ret <- sys_ (Sunlink b);;
  stop_if (negb (ret =? -1)) (line "unlink(%s) returned %d, not -1") [AStr (Some b); ANum ret];;
  fd <- sys_ (Sopen b (Z.lor O_CREATE O_WRONLY));;
  stop_if (negb (fd =? -1)) (line "open(%s) returned %d, not -1") [AStr (Some b); ANum fd];;
  ret <- sys_ (Slink b b);;
  stop_if (negb (ret =? -1)) (line "link(%s, %s) returned %d, not -1") [AStr (Some b); AStr (Some b); ANum ret];;
  ret <- exec_ b [chars "xx"];;
  stop_if (negb (ret =? -1)) (line "exec(%s) returned %d, not -1") [AStr (Some b); ANum fd];;
  pid <- fork_ (line "fork failed") [];;
  in_child pid
    (ret <- exec_ (chars "echo") [big; big; big];;
     stop_if (negb (ret =? -1)) (line "exec(echo, BIG) returned %d, not -1") [ANum fd];;
     PExit 747);;
  '(_, x) <- wait_ (Some 0);;
  st <- stored x;;
  stop_if (negb (st =? 747)) (line "exec(echo, BIG) succeeded, should have failed") [].

(** * The runner *)

Record test : Type := mkTest { t_f : list Z -> prog unit; t_s : list Z }.

(** run: the child runs the test and exits with 0 if it returns. *)
Definition run_test (f : list Z -> prog unit) (s : list Z) : prog bool :=
  printf (chars "test %s: ") [AStr (Some s)];;
  pid <- sys_ Sfork;;
  stop_if (pid <? 0) (line "runtest: fork error") [];;
  if pid =? 0 then f s;; PExit 0
  else
    xstatus <- wait_status;;
    (if negb (xstatus =? 0) then printf (line "FAILED") [] else printf (line "OK") []);;
    PRet (xstatus =? 0).

Definition chosen (justone : option (list Z)) (s : list Z) : prog bool :=
  match justone with None => PRet true | Some one => c <- must (strcmp (z s) (z one));; PRet (c =? 0) end.

Fixpoint runtests (tests : list test) (justone : option (list Z)) (continuous : Z) : prog Z :=
  match tests with
  | [] => PRet 0
  | t :: tests' =>
      sel <- chosen justone (t_s t);;
      if (sel : bool) then
        ok <- run_test (t_f t) (t_s t);;
        if negb ok && negb (continuous =? 2) then printf (line "SOME TESTS FAILED") [];; PRet 1
        else runtests tests' justone continuous
      else runtests tests' justone continuous
  end.

(** The child's loop: a page, a store into it, and a byte into the pipe. *)
Definition countfree_grow (fd1 : Z) (_ : unit) : prog (unit + unit) :=
  a <- sys_ (Ssbrk 4096);;
  if a =? -1 then PRet (inr tt)
  else n <- write_ fd1 "x";; stop_if (negb (n =? 1)) (line "write() failed in countfree()") [];; PRet (inl tt).
Definition countfree_read (fd0 : Z) (n : Z) : prog (Z + Z) :=
  '(cc, _) <- sys_ (Sread fd0 1);;
  stop_if (cc <? 0) (line "read() failed in countfree()") [];;
  if cc =? 0 then PRet (inr n) else PRet (inl (n + 1)).

Definition countfree `{Fuel} : prog Z :=
  '(r, (fd0, fd1)) <- sys_ Spipe;;
  stop_if (r <? 0) (line "pipe() failed in countfree()") [];;
  pid <- fork_ (line "fork failed in countfree()") [];;
  in_child pid (do_ (Sclose fd0);; piter fuel (countfree_grow fd1) tt;; PExit 0);;
  do_ (Sclose fd1);;
  n <- piter fuel (countfree_read fd0) 0;;
  do_ (Sclose fd0);;
  do_ Swait;;
  PRet n.

(** One round of the do-while; [inr] leaves the function with the result. *)
Definition drive_round `{Fuel} (quicktests slowtests : list test) (quick : bool) (continuous : Z)
    (justone : option (list Z)) (_ : unit) : prog (unit + Z) :=
  printf (line "usertests starting") [];;
  free0 <- countfree;;
  r <- runtests quicktests justone continuous;;
  if negb (r =? 0) && negb (continuous =? 2) then PRet (inr 1)
  else
    r <- (if quick then PRet 0
          else
            (if justone then PRet tt else printf (line "usertests slow tests starting") []);;
            runtests slowtests justone continuous);;
    if negb (r =? 0) && negb (continuous =? 2) then PRet (inr 1)
    else
      free1 <- countfree;;
      lost <- (if free1 <? free0 then
                 printf (line "FAILED -- lost some free pages %d (out of %d)") [ANum free1; ANum free0];; PRet true
               else PRet false);;
      if (lost : bool) && negb (continuous =? 2) then PRet (inr 1)
      else PRet (if continuous =? 0 then inr 0 else inl tt).

Definition drivetests `{Fuel} (quicktests slowtests : list test) (quick : bool) (continuous : Z)
    (justone : option (list Z)) : prog Z :=
  piter fuel (drive_round quicktests slowtests quick continuous justone) tt.

Definition is_flag (arg : list Z) (flag : string) : prog bool := c <- must (strcmp (z arg) (z (chars flag)));; PRet (c =? 0).

(** main; [argv] has argc strings, the program's name first. *)
Definition usertests_main `{Fuel} (quicktests slowtests : list test) (argv : list (list Z)) : prog unit :=
  '(quick, continuous, justone) <-
    match argv with
    | [_; arg] =>
        q <- is_flag arg "-q";;
        if (q : bool) then PRet (true, 0, None)
        else
          c <- is_flag arg "-c";;
          if (c : bool) then PRet (false, 1, None)
          else
            c2 <- is_flag arg "-C";;
            if (c2 : bool) then PRet (false, 2, None)
            else if negb (z arg !!! 0%nat =? 45) then PRet (false, 0, Some arg)
            else printf (line "Usage: usertests [-c] [-C] [-q] [testname]") [];; PExit 1
    | _ :: _ :: _ => printf (line "Usage: usertests [-c] [-C] [-q] [testname]") [];; PExit 1
    | _ => PRet (false, 0, None)
    end;;
  r <- drivetests quicktests slowtests quick continuous justone;;
  (if negb (r =? 0) then PExit 1 else PRet tt);;
  printf (line "ALL TESTS PASSED") [];;
  PExit 0.
