(* ===== verification/UsertestsSpec.v ===== *)
(** What usertests reports.  The runner: the transcript of a run of tests, and the exit
    status of the program, 0 exactly when every test's process exited with 0 and no page
    of memory was lost.  And what writebig's last check misses. *)

From S2P Require Import Prelude Outcome State UserSys Ulib Uprintf UserWorld UprintfSpec UserProgs Usertests.

(** * The runner *)

(** What the runner sees of the system: the text printed so far, the exit statuses
    of the children that wait will collect, and how many bytes come through each
    pipe it makes. *)
Record host : Type := mkHost { said : list Z; statuses : list Z; pages : list nat }.

Definition say (t : list Z) (v : host) : host := mkHost (said v ++ t) (statuses v) (pages v).

(** [coming fd w]: the bytes still to come from descriptor [fd]. *)
Class TestHost {W : Type} (h : handler W) (view : W -> host) (coming : Z -> W -> nat) : Prop := {
  th_write bs w : view (h _ (Swrite 1 bs) w).2 = say bs (view w);
  th_fork w : 0 < (h _ Sfork w).1 /\ view (h _ Sfork w).2 = view w /\ forall fd, coming fd (h _ Sfork w).2 = coming fd w;
  th_wait w st l : statuses (view w) = st :: l ->
    let '((pid, x), w') := h _ Swait w in 0 <= pid /\ x = st /\ view w' = mkHost (said (view w)) l (pages (view w));
  th_pipe w n l : pages (view w) = n :: l ->
    let '((r, (fd0, fd1)), w') := h _ Spipe w in
    r = 0 /\ fd0 <> fd1 /\ coming fd0 w' = n /\ view w' = mkHost (said (view w)) (statuses (view w)) l;
  th_close fd w : view (h _ (Sclose fd) w).2 = view w /\
    forall fd', fd' <> fd -> coming fd' (h _ (Sclose fd) w).2 = coming fd' w;
  th_read fd w :
    let '((r, _), w') := h _ (Sread fd 1) w in
    view w' = view w /\ match coming fd w with O => r = 0 | S k => r = 1 /\ coming fd w' = k end
}.

(** The report on one test, and on a list of them. *)
Definition verdict (s : list Z) (st : Z) : list Z :=
  chars "test " ++ s ++ chars ": " ++ (if st =? 0 then line "OK" else line "FAILED").
Fixpoint transcript (keep_going : bool) (names : list (list Z)) (sts : list Z) : list Z :=
  match names, sts with
  | s :: names', st :: sts' =>
      verdict s st ++ (if (st =? 0) || keep_going then transcript keep_going names' sts' else line "SOME TESTS FAILED")
  | _, _ => []
  end.
(** How many of the tests are run. *)
Fixpoint ran (keep_going : bool) (sts : list Z) : nat :=
  match sts with [] => O | st :: sts' => S (if (st =? 0) || keep_going then ran keep_going sts' else O) end.

Definition pick (justone : option (list Z)) (tests : list test) : list test :=
  match justone with None => tests | Some one => filter (fun t => t_s t = one) tests end.

Lemma ran_all sts l : drop (ran false sts) sts ++ l = (if forallb (Z.eqb 0) sts then [] else drop (ran false sts) sts) ++ l.
Proof.
  destruct (forallb (Z.eqb 0) sts) eqn:E; [|done]. f_equal. induction sts as [|st sts IH]; [done|].
  cbn [forallb ran] in *. apply andb_prop in E as [E1 E2]. rewrite Z.eqb_sym, E1. cbn [orb drop]. by apply IH.
Qed.

Lemma strcmp_zero s t : Forall char_ok s -> Forall char_ok t -> exists c, strcmp (z s) (z t) = Some c /\ (c = 0 <-> s = t).
Proof.
  intros Hs. revert t. induction Hs as [|a s Ha Hs IH]; intros t Ht; destruct Ht as [|b t Hb Ht]; unfold z in *; cbn [app strcmp].
  - exists 0. done.
  - unfold char_ok in Hb. eexists. split; [done|]. rewrite (u8_small b) by lia. change (u8 0) with 0. split; [lia|done].
  - unfold char_ok in Ha. destruct (Z.eqb_spec a 0); [lia|]. simpl. eexists. split; [done|].
    rewrite (u8_small a) by lia. change (u8 0) with 0. split; [lia|done].
  - unfold char_ok in Ha, Hb. destruct (Z.eqb_spec a 0); [lia|]. cbn [negb andb]. destruct (Z.eqb_spec a b) as [->|Hab].
    + destruct (IH t Ht) as (c & E & Hc). exists c. split; [done|]. rewrite Hc. split; [by intros ->|by intros [= ->]].
    + eexists. split; [done|]. rewrite !u8_small by lia. split; [lia|]. by intros [= -> ->].
Qed.

Lemma text_s (pre post : list Z) s :
  Forall (fun c => c <> 37) pre -> Forall (fun c => c <> 37) post ->
  text (pre ++ 37 :: 115 :: post) [AStr (Some s)] = Some (pre ++ s ++ post).
Proof.
  assert (Hp : forall l ap, Forall (fun c => c <> 37) l -> text l ap = Some l).
  { induction 1 as [|c l Hc _ IH]; [done|]. cbn [text]. destruct (Z.eqb_spec c 37); [done|]. by rewrite IH. }
  intros H Hpost. induction H as [|c pre Hc _ IH]; cbn [app text].
  - cbn. by rewrite Hp.
  - destruct (Z.eqb_spec c 37); [done|]. by rewrite IH.
Qed.

Section runner.
Context {W : Type} (h : handler W) (view : W -> host) (coming : Z -> W -> nat) `{!TestHost h view coming}.

Lemma run_say fmt ap t w : text fmt ap = Some t -> exists w',
  run h (Uprintf.printf fmt ap) w = Returned tt w' /\ view w' = say (u8 <$> t) (view w).
Proof.
  intros Ht. unfold Uprintf.printf. rewrite (run_vprintf h 1 (length fmt) fmt ap t w) by done. clear fmt ap Ht.
  revert w. induction t as [|c t IH]; intros w.
  - exists w. split; [done|]. destruct (view w). unfold say. simpl. by rewrite app_nil_r.
  - unfold puts. cbn [pfor]. rewrite run_bind, run_putc. destruct (IH (h _ (Swrite 1 [u8 c]) w).2) as (w' & E & Hv).
    exists w'. split; [exact E|]. rewrite Hv, th_write. unfold say. simpl. by rewrite <- app_assoc.
Qed.

Lemma u8_bytes l : Forall byte_ok l -> u8 <$> l = l.
Proof. induction 1 as [|c l Hc _ IH]; [done|]. unfold byte_ok in Hc. rewrite fmap_cons, IH, u8_small by lia. done. Qed.

(** A constant message arrives as it is. *)
Lemma run_msg fmt w : text fmt [] = Some fmt -> forallb (fun c => (0 <=? c) && (c <? 256)) fmt = true -> exists w',
  run h (Uprintf.printf fmt []) w = Returned tt w' /\ view w' = say fmt (view w).
Proof.
  intros Ht Hb. destruct (run_say fmt [] fmt w Ht) as (w' & E & Hv). exists w'. split; [done|]. rewrite Hv, u8_bytes; [done|].
  apply Forall_forall. intros c Hc. apply list_elem_of_In in Hc. 
  apply (proj1 (forallb_forall _ _) Hb), andb_prop in Hc as [?%Z.leb_le ?%Z.ltb_lt]. done.
Qed.

Lemma run_wait_status w st l : statuses (view w) = st :: l -> exists w',
  run h wait_status w = Returned st w' /\ view w' = mkHost (said (view w)) l (pages (view w)).
Proof.
  intros Hst. unfold wait_status, wait_. rewrite run_bind. rewrite run_bind_sys.
  pose proof (th_wait w st l Hst) as Hw. destruct (h _ Swait w) as [[pid x] w']. destruct Hw as (Hp & -> & Hv).
  exists w'. cbn [fst snd run]. destruct (Z.ltb_spec pid 0); [lia|]. done.
Qed.

(** One test is run, its status collected and reported. *)
Lemma run_test_eq f s w st l : Forall byte_ok s -> statuses (view w) = st :: l -> exists w',
  run h (run_test f s) w = Returned (st =? 0) w' /\
  view w' = mkHost (said (view w) ++ verdict s st) l (pages (view w)).
Proof.
  intros Hs Hst. unfold run_test, verdict.
  destruct (run_say (chars "test %s: ") [AStr (Some s)] (chars "test " ++ s ++ chars ": ") w) as (w1 & E1 & V1).
  { apply (text_s (chars "test ") (chars ": ") s); by apply (bool_decide_eq_true_1 _). }
  rewrite !fmap_app, (u8_bytes s Hs) in V1. change (u8 <$> chars "test ") with (chars "test ") in V1.
  change (u8 <$> chars ": ") with (chars ": ") in V1.
  rewrite (run_bind_Returned _ _ _ _ _ _ E1), run_bind_sys. destruct (th_fork w1) as (Hp & V2 & _).
  destruct (h _ Sfork w1) as [pid w2]. cbn [fst snd] in *. unfold stop_if.
  destruct (Z.ltb_spec pid 0); [lia|]. rewrite run_bind. cbn [run]. destruct (Z.eqb_spec pid 0); [lia|].
  destruct (run_wait_status w2 st l) as (w3 & E3 & V3); [by rewrite V2, V1|].
  rewrite (run_bind_Returned _ _ _ _ _ _ E3).
  assert (Hm : exists w4, run h (if negb (st =? 0) then Uprintf.printf (line "FAILED") [] else Uprintf.printf (line "OK") []) w3
    = Returned tt w4 /\ view w4 = say (if st =? 0 then line "OK" else line "FAILED") (view w3)).
  { destruct (st =? 0); by apply run_msg. }
  destruct Hm as (w4 & E4 & V4). rewrite (run_bind_Returned _ _ _ _ _ _ E4). exists w4. split; [done|].
  rewrite V4, V3, V2, V1. unfold say. cbn [said statuses pages]. by rewrite <- !app_assoc.
Qed.

Lemma run_chosen justone s w : Forall char_ok s -> from_option (Forall char_ok) True justone ->
  run h (chosen justone s) w = Returned (match justone with None => true | Some one => bool_decide (s = one) end) w.
Proof.
  intros Hs Hone. destruct justone as [one|]; [|done]. cbn [chosen]. simpl in Hone.
  destruct (strcmp_zero s one Hs Hone) as (c & -> & Hc). cbn [must]. simpl. f_equal.
  rewrite <- (bool_decide_ext _ _ Hc). destruct (Z.eqb_spec c 0); by case_bool_decide.
Qed.

(** usertests with a name runs the tests of that name only. *)
Lemma runtests_pick tests justone continuous : Forall (fun t => Forall char_ok (t_s t)) tests ->
  from_option (Forall char_ok) True justone ->
  forall w, run h (runtests tests justone continuous) w = run h (runtests (pick justone tests) None continuous) w.
Proof.
  intros Hn Hone. induction Hn as [|t tests Ht Hn IH]; intros w; [by destruct justone|].
  cbn [runtests]. rewrite run_bind, run_chosen by done. destruct justone as [one|].
  - cbn [pick] in *. rewrite filter_cons. case_bool_decide as Heq.
    + destruct (decide (t_s t = one)); [|done]. cbn [runtests]. rewrite !run_bind. cbn [chosen run].
      rewrite !run_bind. destruct (run h (run_test (t_f t) (t_s t)) w) as [ok w'| | |]; try done.
      destruct (negb ok && negb (continuous =? 2)); [done|]. apply IH.
    + destruct (decide (t_s t = one)); [done|]. apply IH.
  - cbn [pick] in *. cbn [runtests]. rewrite !run_bind. cbn [chosen run].
    rewrite !run_bind. destruct (run h (run_test (t_f t) (t_s t)) w) as [ok w'| | |]; done.
Qed.

Lemma runtests_eq tests continuous : Forall (fun t => Forall byte_ok (t_s t)) tests ->
  forall w sts l, length sts = length tests -> statuses (view w) = sts ++ l -> exists w',
  run h (runtests tests None continuous) w =
    Returned (if (continuous =? 2) || forallb (Z.eqb 0) sts then 0 else 1) w' /\
  view w' = mkHost (said (view w) ++ transcript (continuous =? 2) (t_s <$> tests) sts)
                   (drop (ran (continuous =? 2) sts) sts ++ l) (pages (view w)).
Proof.
  induction 1 as [|t tests Ht _ IH]; intros w sts l Hlen Hst; destruct sts as [|st sts]; try done.
  - exists w. cbn [runtests run forallb transcript fmap list_fmap ran drop app]. rewrite orb_true_r, app_nil_r.
    split; [done|]. destruct (view w). cbn [statuses] in Hst. by subst.
  - cbn [runtests]. rewrite run_bind. cbn [chosen run].
    destruct (run_test_eq (t_f t) (t_s t) w st (sts ++ l) Ht Hst) as (w1 & E1 & V1).
    rewrite (run_bind_Returned _ _ _ _ _ _ E1). cbn [fmap list_fmap transcript forallb ran].
    rewrite (Z.eqb_sym 0 st). rewrite <- negb_orb.
    destruct ((st =? 0) || (continuous =? 2)) eqn:Hgo; cbn [negb].
    + destruct (IH w1 sts l) as (w2 & E2 & V2); [by injection Hlen|by rewrite V1|]. exists w2.
      rewrite E2, V2, V1. cbn [said pages drop]. rewrite <- !app_assoc. split; [|done].
      destruct (continuous =? 2); [done|]. rewrite orb_false_r in Hgo. by rewrite Hgo.
    + apply orb_false_iff in Hgo as [-> ->]. cbn [orb andb].
      destruct (run_msg (line "SOME TESTS FAILED") w1) as (w2 & E2 & V2); [done..|].
      rewrite (run_bind_Returned _ _ _ _ _ _ E2). exists w2. split; [done|]. rewrite V2, V1.
      unfold say. cbn [said statuses pages drop]. by rewrite <- app_assoc.
Qed.

Section count.
Context `{Fuel}.

Lemma countfree_loop fd k m : forall w, coming fd w = k -> (k < m)%nat -> forall n, exists w',
  run h (piter m (countfree_read fd) n) w = Returned (n + Z.of_nat k) w' /\ view w' = view w.
Proof.
  revert m. induction k as [|k IH]; intros m w Hk Hm n; (destruct m as [|m]; [lia|]);
    rewrite piter_S; unfold countfree_read at 1; rewrite run_bind_sys; pose proof (th_read fd w) as Hr; rewrite Hk in Hr;
    destruct (h _ (Sread fd 1) w) as [[r bs] w']; destruct Hr as (Hv & Hr); cbn [fst snd].
  - subst r. exists w'. rewrite run_bind. cbn. split; [|done]. f_equal. lia.
  - destruct Hr as (-> & Hl). rewrite run_bind. cbn [stop_if Z.ltb Z.compare run Z.eqb].
    destruct (IH m w' Hl ltac:(lia) (n + 1)) as (w2 & E2 & V2). exists w2. rewrite V2. split; [|done].
    rewrite E2. f_equal. lia.
Qed.

(** countfree gives the number of pages its child could allocate. *)
Lemma countfree_eq w n l st ls : pages (view w) = n :: l -> statuses (view w) = st :: ls -> (n < fuel)%nat -> exists w',
  run h countfree w = Returned (Z.of_nat n) w' /\ view w' = mkHost (said (view w)) ls l.
Proof.
  intros Hp Hst Hf. unfold countfree. rewrite run_bind_sys. pose proof (th_pipe w n l Hp) as H1.
  destruct (h _ Spipe w) as [[r [fd0 fd1]] w1]. destruct H1 as (-> & Hne & Hl & V1). cbn [fst snd].
  rewrite run_bind. cbn [stop_if Z.ltb Z.compare run]. unfold fork_. rewrite run_bind, run_bind_sys.
  destruct (th_fork w1) as (Hpid & V2 & L2). destruct (h _ Sfork w1) as [pid w2]. cbn [fst snd] in *.
  unfold stop_if, in_child. destruct (Z.ltb_spec pid 0); [lia|]. rewrite run_bind. cbn [run].
  destruct (Z.eqb_spec pid 0); [lia|]. rewrite run_bind. cbn [run]. unfold do_. rewrite run_bind, run_bind_sys. cbn [run].
  destruct (th_close fd1 w2) as (V3 & L3). set (w3 := (h _ (Sclose fd1) w2).2) in *.
  destruct (countfree_loop fd0 n fuel w3) with (n := 0) as (w4 & E4 & V4); [by rewrite L3, L2|done|].
  rewrite (run_bind_Returned _ _ _ _ _ _ E4), run_bind, run_bind_sys. cbn [run].
  destruct (th_close fd0 w4) as (V5 & _). set (w5 := (h _ (Sclose fd0) w4).2) in *.
  assert (V : view w5 = mkHost (said (view w)) (statuses (view w)) l) by (by rewrite V5, V4, V3, V2, V1).
  rewrite run_bind, run_bind_sys. cbn [run]. pose proof (th_wait w5 st ls) as H6. rewrite V in H6. specialize (H6 Hst).
  destruct (h _ Swait w5) as [[p x] w6]. destruct H6 as (_ & _ & V6). exists w6. split; [done|]. done.
Qed.

Context (quicktests slowtests : list test) (justone : option (list Z)).
Context (Hquick : Forall (fun t => Forall char_ok (t_s t)) quicktests).
Context (Hslow : Forall (fun t => Forall char_ok (t_s t)) slowtests).
Context (Hone : from_option (Forall char_ok) True justone).

(** The tests that are picked, all of them or those of the given name. *)
Lemma runtests_picked tests : Forall (fun t => Forall char_ok (t_s t)) tests ->
  forall w sts l, length sts = length (pick justone tests) -> statuses (view w) = sts ++ l -> exists w',
  run h (runtests tests justone 0) w = Returned (if forallb (Z.eqb 0) sts then 0 else 1) w' /\
  statuses (view w') = (if forallb (Z.eqb 0) sts then [] else drop (ran false sts) sts) ++ l /\ pages (view w') = pages (view w).
Proof using Hone TestHost0.
  intros Hn w sts l Hlen Hst. destruct (runtests_eq (pick justone tests) 0) with (w := w) (sts := sts) (l := l) as (w' & E & V); [|done|done|].
  - apply Forall_forall. intros t Ht. assert (Hin : t ∈ tests) by (destruct justone; [by apply list_elem_of_filter in Ht as [_ ?]|done]).
    eapply Forall_impl; [exact (proj1 (Forall_forall _ _) Hn t Hin)|]. unfold char_ok, byte_ok. intros; simpl in *; lia.
  - exists w'. rewrite (runtests_pick tests justone 0 Hn Hone w). split; [exact E|]. rewrite V. cbn [statuses pages Z.eqb]. by rewrite ran_all.
Qed.

(** The second half of a round, with [f0] pages free at its start. *)
Lemma drive_end (f0 f1 : nat) w c1 l ls : pages (view w) = f1 :: l -> statuses (view w) = c1 :: ls -> (f1 < fuel)%nat ->
  exists w', run h (free1 <- countfree;;
      lost <- (if free1 <? Z.of_nat f0 then
                 Uprintf.printf (line "FAILED -- lost some free pages %d (out of %d)") [ANum free1; ANum (Z.of_nat f0)];; PRet true
               else PRet false);;
      if (lost : bool) && negb (0 =? 2) then PRet (inr 1)
      else PRet (if 0 =? 0 then inr 0 else inl tt)) w = Returned (inr (if (f0 <=? f1)%nat then 0 else 1) : unit + Z) w'.
Proof.
  intros Hp Hs Hf. destruct (countfree_eq w f1 l c1 ls Hp Hs Hf) as (w1 & E1 & _).
  rewrite (run_bind_Returned _ _ _ _ _ _ E1), run_bind.
  destruct (Nat.leb_spec f0 f1), (Z.ltb_spec (Z.of_nat f1) (Z.of_nat f0)); try lia; [by exists w1|].
  set (args := [ANum (Z.of_nat f1); ANum (Z.of_nat f0)]).
  destruct (run_say (line "FAILED -- lost some free pages %d (out of %d)") args
    (chars "FAILED -- lost some free pages " ++ rev (printint_buf (i32 (Z.of_nat f1)) 10 true) ++
     chars " (out of " ++ rev (printint_buf (i32 (Z.of_nat f0)) 10 true) ++ line ")") w1) as (w2 & E2 & _).
  { subst args. generalize (Z.of_nat f1), (Z.of_nat f0). intros a b. lazy -[printint_buf i32 rev]. reflexivity. }
  rewrite (run_bind_Returned _ _ _ _ _ _ E2). by exists w2.
Qed.

Lemma drive_round_eq (quick : bool) w c0 sq ss c1 f0 f1 l ls :
  length sq = length (pick justone quicktests) -> length ss = length (pick justone slowtests) -> (f0 < fuel)%nat -> (f1 < fuel)%nat ->
  statuses (view w) = c0 :: sq ++ (if quick then [] else ss) ++ c1 :: ls -> pages (view w) = f0 :: f1 :: l ->
  exists w', run h (drive_round quicktests slowtests quick 0 justone tt) w =
    Returned (inr (if forallb (Z.eqb 0) (sq ++ (if quick then [] else ss)) && (f0 <=? f1)%nat then 0 else 1)) w'.
Proof.
  intros Hlq Hls Hf0 Hf1 Hst Hp. unfold drive_round. rewrite forallb_app.
  destruct (run_msg (line "usertests starting") w) as (w1 & E1 & V1); [done..|]. rewrite (run_bind_Returned _ _ _ _ _ _ E1).
  destruct (countfree_eq w1 f0 (f1 :: l) c0 (sq ++ (if quick then [] else ss) ++ c1 :: ls)) as (w2 & E2 & V2); [by rewrite V1..|done|].
  rewrite (run_bind_Returned _ _ _ _ _ _ E2).
  destruct (runtests_picked quicktests Hquick w2 sq ((if quick then [] else ss) ++ c1 :: ls)) as (w3 & E3 & S3 & P3); [done|by rewrite V2|].
  rewrite (run_bind_Returned _ _ _ _ _ _ E3). rewrite V2 in P3. cbn [pages] in P3.
  destruct (forallb (Z.eqb 0) sq); cbn [Z.eqb negb andb]; [|by exists w3]. cbn [app] in S3. destruct quick.
  { rewrite run_bind. cbn [run Z.eqb negb andb forallb]. by apply (drive_end f0 f1 w3 c1 l ls). }
  assert (Hsay : exists w4, run h (if justone then PRet tt else Uprintf.printf (line "usertests slow tests starting") []) w3 = Returned tt w4 /\
    statuses (view w4) = statuses (view w3) /\ pages (view w4) = pages (view w3)).
  { destruct justone; [by exists w3|]. destruct (run_msg (line "usertests slow tests starting") w3) as (w4 & E4 & V4); [done..|]. exists w4. by rewrite V4. }
  destruct Hsay as (w4 & E4 & S4 & P4).
  destruct (runtests_picked slowtests Hslow w4 ss (c1 :: ls)) as (w5 & E5 & S5 & P5); [done|by rewrite S4, S3|].
  rewrite !run_bind, E4, E5. destruct (forallb (Z.eqb 0) ss); cbn [Z.eqb negb andb]; [|by exists w5].
  apply (drive_end f0 f1 w5 c1 l ls); [by rewrite P5, P4, P3|done|done].
Qed.
End count.
End runner.

(** ** A concrete system *)

Definition host_handler : handler (host * (Z -> nat)) := fun X c w =>
  let '(v, coming) := w in
  match c in sys X return X * (host * (Z -> nat)) with
  | Swrite fd bs => (Z.of_nat (length bs), (if fd =? 1 then say bs v else v, coming))
  | Sfork => (7, w)
  | Swait =>
      match statuses v with
      | st :: l => ((7, st), (mkHost (said v) l (pages v), coming))
      | [] => ((-1, 0), w)
      end
  | Spipe =>
      match pages v with
      | n :: l => ((0, (3, 4)), (mkHost (said v) (statuses v) l, fun fd => if fd =? 3 then n else coming fd))
      | [] => ((-1, (0, 0)), w)
      end
  | Sread fd _ =>
      match coming fd with
      | O => ((0, []), w)
      | S k => ((1, [120]), (v, fun fd' => if fd' =? fd then k else coming fd'))
      end
  | Sclose _ => (0, w)
  | Sexec _ _ => (Some (-1), w)
  | Sfstat _ => ((-1, mkStat 0 0 0 0 0), w)
  | Skill _ | Sopen _ _ | Smknod _ _ _ | Sunlink _ | Slink _ _ | Smkdir _ | Schdir _ | Sdup _
  | Sgetpid | Ssbrk _ | Ssleep _ | Suptime => (-1, w)
  end.

#[export] Instance host_is_host : TestHost host_handler fst (fun fd w => w.2 fd).
Proof.
  split.
  - by intros bs [v coming].
  - by intros [v coming].
  - intros [v coming] st l Hs. cbn [host_handler fst] in *. by rewrite Hs.
  - intros [v coming] n l Hp. cbn [host_handler fst] in *. by rewrite Hp.
  - by intros fd [v coming].
  - intros fd [v coming]. cbn [host_handler snd]. destruct (coming fd) eqn:E; [done|]. cbn [snd]. by rewrite Z.eqb_refl.
Qed.

Definition host_init (sts : list Z) (ps : list nat) : host * (Z -> nat) := (mkHost [] sts ps, fun _ => O).

(** ** The theorems *)

(** runtests, on the tests it selects (all, or those with the given name):
    it prints the name and OK or FAILED for each test it runs, after the status of
    the test's process; with continuous other than 2 it stops behind the first
    failure with SOME TESTS FAILED and the result 1; it returns 0 when all pass or
    continuous is 2; and it collects one child per test it ran. *)
Theorem runtests_reports {W} (h : handler W) view coming `{!TestHost h view coming} tests justone continuous w sts l :
  Forall (fun t => Forall char_ok (t_s t)) tests -> from_option (Forall char_ok) True justone ->
  length sts = length (pick justone tests) -> statuses (view w) = sts ++ l ->
  exists w', run h (runtests tests justone continuous) w =
    Returned (if (continuous =? 2) || forallb (Z.eqb 0) sts then 0 else 1) w' /\
  view w' = mkHost (said (view w) ++ transcript (continuous =? 2) (t_s <$> pick justone tests) sts)
                   (drop (ran (continuous =? 2) sts) sts ++ l) (pages (view w)).
Proof.
  intros Hn Hone Hlen Hst. rewrite (runtests_pick h tests justone continuous Hn Hone w).
  apply (runtests_eq h view coming); [|done|done]. apply Forall_forall. intros t Ht.
  assert (Hin : t ∈ tests) by (destruct justone; [by apply list_elem_of_filter in Ht as [_ ?]|done]).
  eapply Forall_impl; [exact (proj1 (Forall_forall _ _) Hn t Hin)|]. unfold char_ok, byte_ok. intros; simpl in *; lia.
Qed.

(** The tests of the witnesses. *)
Definition two_tests : list test := [mkTest opentest (chars "open"); mkTest rmdot (chars "rmdot")].

Lemma two_tests_names : Forall (fun t => Forall char_ok (t_s t)) two_tests.
Proof. apply (bool_decide_unpack _). by vm_compute. Qed.

Lemma runtests_reports_witness : exists w',
  run host_handler (runtests two_tests None 0) (host_init [3; 0] []) = Returned 1 w' /\
  said w'.1 = line "test open: FAILED" ++ line "SOME TESTS FAILED".
Proof.
  destruct (runtests_reports host_handler fst (fun fd w => w.2 fd) two_tests None 0 (host_init [3; 0] []) [3; 0] [])
    as (w' & E & V); [exact two_tests_names|exact I|reflexivity|reflexivity|].
  exists w'. split; [exact E|]. rewrite V. reflexivity.
Defined.

(** The ways to call usertests that make one round: every test, the quick ones, or those
    of one name. *)
Inductive usage : Type := AllTests | QuickTests | OneTest (name : list Z).
Definition u_args (u : usage) : list (list Z) :=
  match u with AllTests => [] | QuickTests => [chars "-q"] | OneTest name => [name] end.
Definition u_ok (u : usage) : Prop :=
  match u with OneTest name => Forall char_ok name /\ head name <> Some 45 | _ => True end.
Definition u_one (u : usage) : option (list Z) := match u with OneTest name => Some name | _ => None end.
Definition u_slow (u : usage) : bool := match u with QuickTests => false | _ => true end.

Lemma is_flag_no {W} (h : handler W) name c flag w : Forall char_ok name -> head name <> Some 45 -> Forall char_ok (45 :: c) ->
  chars flag = 45 :: c -> run h (is_flag name flag) w = Returned false w.
Proof.
  intros Hn Hh Hf Ef. unfold is_flag. rewrite Ef. destruct (strcmp_zero name (45 :: c) Hn Hf) as (x & -> & Hx). cbn [must pbind run].
  destruct (Z.eqb_spec x 0) as [->|]; [|done]. by rewrite (proj1 Hx eq_refl) in Hh.
Qed.

(** The arguments select the tests and ask for one round. *)
Lemma usertests_args {W} (h : handler W) `{Fuel} quicktests slowtests u me w : u_ok u ->
  run h (usertests_main quicktests slowtests (me :: u_args u)) w =
  run h (r <- drivetests quicktests slowtests (negb (u_slow u)) 0 (u_one u);; (if negb (r =? 0) then PExit 1 else PRet tt);;
         Uprintf.printf (line "ALL TESTS PASSED") [];; PExit 0) w.
Proof.
  destruct u as [| |name]; [done|done|]. intros [Hn Hh]. unfold usertests_main. cbn [u_args].
  assert (Hf : forall f, f ∈ [113; 99; 67] -> Forall char_ok [45; f]) by (intros f Hf; repeat constructor; unfold char_ok; set_unfold; lia).
  rewrite run_bind, run_bind, (is_flag_no h name [113] "-q" w) by (done || apply Hf; set_solver).
  rewrite run_bind, (is_flag_no h name [99] "-c" w) by (done || apply Hf; set_solver).
  rewrite run_bind, (is_flag_no h name [67] "-C" w) by (done || apply Hf; set_solver).
  assert (z name !!! 0%nat =? 45 = false) as ->; [|done]. apply Z.eqb_neq. unfold z. destruct name as [|c name]; [done|]. simpl in Hh. cbn. congruence.
Qed.



(** * The tests *)

Lemma printf_total {W} (h : handler W) fmt ap w : is_Some (text fmt ap) -> exists w', run h (Uprintf.printf fmt ap) w = Returned tt w'.
Proof. intros [t Ht]. unfold Uprintf.printf. rewrite (run_vprintf h 1 (length fmt) fmt ap t) by done. apply run_puts_total. Qed.

(** ** What writebig checks when it reads the file back *)

Section writebig.
Context {W : Type} (h : handler W) (blocks : W -> list (list Z)) (fd : Z).
(** Reading a block gives the next one of the file, or nothing at its end. *)
Context (Hread : forall w,
  let '((r, bs), w') := h _ (Sread fd BSIZE) w in
  match blocks w with [] => r = 0 /\ bs = [] | b :: l => r = BSIZE /\ bs = b /\ blocks w' = l end).

(** Blocks that carry their numbers, from [n] on. *)
Fixpoint numbered (n : Z) (l : list (list Z)) : Prop :=
  match l with [] => True | b :: l' => length b = 1024%nat /\ get_int b = n /\ numbered (n + 1) l' end.

Lemma get_int_front b bs : (4 <= length bs)%nat -> get_int (bs ++ b) = get_int bs.
Proof. intros Hl. unfold get_int. rewrite !lookup_total_app_l by lia. done. Qed.

Lemma writebig_step s b n w : length b = Z.to_nat BUFSZ -> match blocks w with
  | [] => exists w', run h (writebig_read s fd (b, n)) w =
            run h (stop_if (n =? MAXFILE - 1) (chars "%s: read only %d blocks from big") [AStr (Some s); ANum n];; PRet (inr tt)) w'
  | bs :: l => length bs = 1024%nat -> get_int bs = n -> exists b' w', run h (writebig_read s fd (b, n)) w = Returned (inl (b', n + 1)) w' /\
            length b' = Z.to_nat BUFSZ /\ blocks w' = l
  end.
Proof.
  intros Hb. pose proof (Hread w) as Hr. unfold writebig_read, read_. destruct (h _ (Sread fd BSIZE) w) as [[r bs] w'] eqn:Eh.
  destruct (blocks w) as [|b0 l].
  - destruct Hr as (-> & ->). exists w'. rewrite run_bind, run_bind_sys, Eh. cbn [fst snd].
    unfold store_bytes. rewrite decide_True by (simpl; lia). done.
  - destruct Hr as (-> & -> & Hl). intros Hlen Hn. rewrite run_bind, run_bind_sys, Eh. cbn [fst snd].
    unfold store_bytes. rewrite decide_True by (rewrite Hlen, Hb; cbv; lia). cbn [must pbind run].
    change (BSIZE =? 0) with false. cbv iota. rewrite Z.eqb_refl. cbn [negb stop_if pbind].
    assert (Esp : splice b 0 b0 = b0 ++ drop (length b0) b) by reflexivity.
    assert (Eg : get_int (splice b 0 b0) = n) by (by rewrite Esp, get_int_front by lia).
    rewrite Eg, Z.eqb_refl. cbn [negb stop_if pbind run]. eexists _, w'. split; [done|]. split; [|done].
    rewrite Esp, length_app, length_drop, Hlen, Hb. cbv. done.
Qed.

Lemma writebig_loop s l : forall k n b w, numbered n l -> length b = Z.to_nat BUFSZ -> blocks w = l -> (length l < k)%nat ->
  exists w', run h (piter k (writebig_read s fd) (b, n)) w =
    if n + Z.of_nat (length l) =? MAXFILE - 1 then Exited 1 w' else Returned tt w'.
Proof.
  induction l as [|bs l IH]; intros k n b w Hn Hb Hw Hk; (destruct k as [|k]; [lia|]); rewrite piter_S;
    pose proof (writebig_step s b n w Hb) as Hs; rewrite Hw in Hs.
  - destruct Hs as (w' & ->). cbn [length]. rewrite Z.add_0_r, run_bind. unfold stop_if.
    destruct (n =? MAXFILE - 1); [|by exists w'].
    destruct (printf_total h (chars "%s: read only %d blocks from big") [AStr (Some s); ANum n] w') as (w2 & E); [done|].
    rewrite run_bind, E. by exists w2.
  - destruct Hn as (Hl & Hg & Hn). destruct (Hs Hl Hg) as (b' & w' & -> & Hb' & Hw').
    destruct (IH k (n + 1) b' w' Hn Hb' Hw') as (w2 & E); [simpl in Hk; lia|]. exists w2. rewrite E. cbn [length].
    by replace (n + 1 + Z.of_nat (length l)) with (n + Z.of_nat (S (length l))) by lia.
Qed.
End writebig.

(** ** The theorems *)

(** C39. writebig's read-back accepts a file that lost blocks: whatever the number
    of (correctly numbered) blocks that can be read back, an empty file included,
    the loop ends without a complaint, except for exactly MAXFILE - 1 blocks. *)
Theorem writebig_accepts_short_file {W} (h : handler W) (blocks : W -> list (list Z)) fd s b w `{Fuel} :
  (forall w, let '((r, bs), w') := h _ (Sread fd BSIZE) w in
     match blocks w with [] => r = 0 /\ bs = [] | b :: l => r = BSIZE /\ bs = b /\ blocks w' = l end) ->
  numbered 0 (blocks w) -> length b = Z.to_nat BUFSZ -> (length (blocks w) < fuel)%nat ->
  exists w', run h (piter fuel (writebig_read s fd) (b, 0)) w =
    if Z.of_nat (length (blocks w)) =? MAXFILE - 1 then Exited 1 w' else Returned tt w'.
Proof. intros Hread Hn Hb Hf. by apply (writebig_loop h blocks fd Hread s (blocks w) fuel 0). Qed.

(** A system whose file has the blocks that are left to be read. *)
Definition blocks_handler : handler (list (list Z)) := fun X c w =>
  match c in sys X return X * list (list Z) with
  | Sread _ _ => match w with [] => ((0, []), w) | b :: l => ((BSIZE, b), l) end
  | Sexec _ _ => (Some (-1), w)
  | Swait => ((-1, 0), w)
  | Spipe => ((-1, (0, 0)), w)
  | Sfstat _ => ((-1, mkStat 0 0 0 0 0), w)
  | Swrite _ bs => (Z.of_nat (length bs), w)
  | Sfork | Sclose _ | Skill _ | Sopen _ _ | Smknod _ _ _ | Sunlink _ | Slink _ _ | Smkdir _ | Schdir _ | Sdup _
  | Sgetpid | Ssbrk _ | Ssleep _ | Suptime => (-1, w)
  end.

Lemma writebig_accepts_short_file_witness : exists w',
  run blocks_handler (piter 5 (writebig_read (chars "writebig") 3) (buf, 0)) [replicate 1024 0] = Returned tt w'.
Proof.
  destruct (writebig_accepts_short_file (H := 5%nat) blocks_handler (fun w => w) 3 (chars "writebig") buf [replicate 1024 0]) as (w' & E).
  - intros [|b l]; [split; reflexivity|]. split; [reflexivity|]. split; reflexivity.
  - split; [reflexivity|]. split; [reflexivity|exact I].
  - reflexivity.
  - unfold fuel. simpl. lia.
  - exists w'. exact E.
Defined.
