(* ===== verification/Umalloc.v ===== *)
(** user/umalloc.c: malloc and free, the circular free list threaded through the
    headers of the free blocks.

    Pointers are byte addresses; a header takes 16 bytes, and the block of a
    header of size [n] is the header and the [n - 1] units of 16 bytes after it.
    [hdrs] holds the headers in memory: what a program writes into its blocks
    does not touch them.  [base] is the address of the static header. *)

From S2P Require Import Prelude Outcome UserSys Ulib.

(** union header *)
Record header : Type := mkHeader { h_ptr : Z; h_size : Z }.
Definition HDR : Z := 16.

(** The static variables: the headers with [base], and [freep]. *)
Record heap : Type := mkHeap { hdrs : gmap Z header; freep : Z }.

Definition hdr (hp : heap) (p : Z) : prog header :=
  match hdrs hp !! p with Some x => PRet x | None => undefined "no header there" end.
Definition set_hdr (p : Z) (x : header) (hp : heap) : heap := mkHeap (<[p := x]> (hdrs hp)) (freep hp).
Definition set_freep (p : Z) (hp : heap) : heap := mkHeap (hdrs hp) p.

(** [p->s.size = n] for a header whose pointer is not set yet. *)
Definition set_size (p n : Z) (hp : heap) : heap :=
  set_hdr p (mkHeader (default 0 (h_ptr <$> hdrs hp !! p)) n) hp.

(** The loop of free: the block after which [bp] belongs. *)
Definition free_step (hp : heap) (bp p : Z) : prog (Z + Z) :=
  x <- hdr hp p;;
  if (p <? bp) && (bp <? h_ptr x) then PRet (inr p)
  else if (h_ptr x <=? p) && ((p <? bp) || (bp <? h_ptr x)) then PRet (inr p)
  else PRet (inl (h_ptr x)).

Definition free `{Fuel} (hp : heap) (ap : Z) : prog heap :=
  let bp := ap - HDR in
  p <- piter fuel (free_step hp bp) (freep hp);;
  b <- hdr hp bp;;
  x <- hdr hp p;;
  hp <- (if bp + HDR * h_size b =? h_ptr x then
           n <- hdr hp (h_ptr x);;
           PRet (set_hdr bp (mkHeader (h_ptr n) (u32 (h_size b + h_size n))) hp)
         else PRet (set_hdr bp (mkHeader (h_ptr x) (h_size b)) hp));;
  b <- hdr hp bp;;
  x <- hdr hp p;;
  let hp := if p + HDR * h_size x =? bp then set_hdr p (mkHeader (h_ptr b) (u32 (h_size x + h_size b))) hp
            else set_hdr p (mkHeader bp (h_size x)) hp in
  PRet (set_freep p hp).

(** Returns the heap and [freep], or 0. *)
Definition morecore `{Fuel} (hp : heap) (nu : Z) : prog (heap * Z) :=
  let nu := if nu <? 4096 then 4096 else nu in
  p <- sys_ (Ssbrk (i32 (nu * HDR)));;
  if p =? -1 then PRet (hp, 0)
  else
    hp <- free (set_size p nu hp) (p + HDR);;
    PRet (hp, freep hp).

(** One round of the loop of malloc, at [p] with the block [prevp] before it. *)
Definition malloc_step `{Fuel} (nunits : Z) (st : heap * Z * Z) : prog (heap * Z * Z + heap * Z) :=
  let '(hp, prevp, p) := st in
  x <- hdr hp p;;
  if nunits <=? h_size x then
    '(hp, p) <- (if h_size x =? nunits then
                   y <- hdr hp prevp;;
                   PRet (set_hdr prevp (mkHeader (h_ptr x) (h_size y)) hp, p)
                 else
                   let n := h_size x - nunits in
                   let hp := set_hdr p (mkHeader (h_ptr x) n) hp in
                   let p := p + HDR * n in
                   PRet (set_size p nunits hp, p));;
    PRet (inr (set_freep prevp hp, p + HDR))
  else
    '(hp, p) <- (if p =? freep hp then morecore hp nunits else PRet (hp, p));;
    if p =? 0 then PRet (inr (hp, 0))
    else
      x <- hdr hp p;;
      PRet (inl (hp, p, h_ptr x)).

(** Returns the heap and the pointer, 0 when there is no memory. *)
Definition malloc `{Fuel} (base : Z) (hp : heap) (nbytes : Z) : prog (heap * Z) :=
  let nunits := u32 ((nbytes + HDR - 1) / HDR + 1) in
  let hp := if freep hp =? 0 then set_freep base (set_hdr base (mkHeader base 0) hp) else hp in
  let prevp := freep hp in
  x <- hdr hp prevp;;
  piter fuel (malloc_step nunits) (hp, prevp, h_ptr x).

(** The static variables when the program starts. *)
Definition heap_init : heap := mkHeap ∅ 0.

(** ** The free list *)

(** A block: its address and its size in units. *)
Notation block := (Z * Z)%type.
Definition bend (b : block) : Z := b.1 + HDR * b.2.
Definition apart (b c : block) : Prop := bend b <= c.1 \/ bend c <= b.1.

Definition head_addr (l : list block) (e : Z) : Z := match l with b :: _ => b.1 | [] => e end.

(** The blocks [l] are linked in this order and the last one points to [e]. *)
Fixpoint seg (m : gmap Z header) (l : list block) (e : Z) : Prop :=
  match l with
  | [] => True
  | b :: l' => m !! b.1 = Some (mkHeader (head_addr l' e) b.2) /\ seg m l' e
  end.

(** In order of address, not empty and with a gap before each one. *)
Fixpoint ordered (lo : Z) (l : list block) : Prop :=
  match l with
  | [] => True
  | b :: l' => lo < b.1 /\ 0 < b.2 /\ ordered (bend b) l'
  end.

Lemma head_addr_app l1 l2 e : head_addr (l1 ++ l2) e = head_addr l1 (head_addr l2 e).
Proof. by destruct l1. Qed.

Lemma seg_app m l1 l2 e : seg m (l1 ++ l2) e <-> seg m l1 (head_addr l2 e) /\ seg m l2 e.
Proof. induction l1 as [|b l1 IH]; simpl; [tauto|]. rewrite head_addr_app, IH. tauto. Qed.

Lemma seg_insert m l e a x : a ∉ l.*1 -> seg (<[a := x]> m) l e <-> seg m l e.
Proof.
  induction l as [|b l IH]; simpl; [done|]. intros Hn. apply not_elem_of_cons in Hn as [Hb Hn].
  rewrite lookup_insert_ne by done. by rewrite IH.
Qed.

Lemma ordered_app lo l1 l2 : ordered lo (l1 ++ l2) <-> ordered lo l1 /\ ordered (default lo (bend <$> last l1)) l2.
Proof.
  revert lo. induction l1 as [|b l1 IH]; intros lo; simpl; [tauto|]. rewrite IH, last_cons.
  destruct (last l1); simpl; tauto.
Qed.

Lemma bend_above b : 0 < b.2 -> b.1 < bend b.
Proof. unfold bend, HDR. lia. Qed.

Lemma ordered_weaken lo lo' l : lo' <= lo -> ordered lo l -> ordered lo' l.
Proof. destruct l; simpl; [done|]. intros ? (? & ? & ?). split; [lia|done]. Qed.

(** All blocks lie above the bound. *)
Lemma ordered_above lo l : ordered lo l -> Forall (fun b => lo < b.1 /\ 0 < b.2) l.
Proof.
  revert lo. induction l as [|b l IH]; intros lo; simpl; [by constructor|]. intros (H1 & H2 & H3). constructor; [done|].
  pose proof (bend_above b H2). eapply Forall_impl; [apply (IH _ H3)|]. simpl. lia.
Qed.
