(* ===== verification/UmallocSpec.v ===== *)
(** malloc and free keep the free blocks in a circle in order of address, merged
    with their neighbours, and never hand out memory that is in use. *)

From S2P Require Import Prelude Outcome UserSys Ulib Umalloc.

Definition inside (base brk : Z) (b : block) : Prop := base + HDR <= b.1 /\ bend b <= brk.

(** The heap with free blocks [rest] and blocks in use [A]. *)
Record hinv (base brk : Z) (hp : heap) (rest A : list block) : Prop := {
  hi_base : 0 < base;
  hi_brk : base + HDR <= brk < 2 ^ 31;
  hi_seg : seg (hdrs hp) ((base, 0) :: rest) base;
  hi_ord : ordered base rest;
  hi_freep : freep hp ∈ base :: rest.*1;
  hi_rest : Forall (inside base brk) rest;
  hi_A : Forall (fun a => inside base brk a /\ 0 < a.2 /\ exists q, hdrs hp !! a.1 = Some (mkHeader q a.2)) A;
  hi_fa : forall a b, a ∈ A -> b ∈ rest -> apart a b;
  hi_aa : ForallOrdPairs apart A
}.

Lemma apart_sym b c : apart b c -> apart c b.
Proof. unfold apart. tauto. Qed.

Lemma apart_ne b c : 0 < b.2 -> 0 < c.2 -> apart b c -> b.1 <> c.1.
Proof. unfold apart, bend, HDR. lia. Qed.

(** A block apart from two neighbours is apart from their union. *)
Lemma apart_join a b c : 0 < a.2 -> bend b = c.1 -> apart a b -> apart a c -> apart a (b.1, b.2 + c.2).
Proof. destruct a, b, c. unfold apart, bend, HDR. simpl. lia. Qed.

Lemma ordered_NoDup lo l : ordered lo l -> NoDup (lo :: l.*1).
Proof.
  intros Ho. constructor.
  - intros Hin. apply list_elem_of_fmap in Hin as (b & E & Hb). pose proof (ordered_above _ _ Ho) as Hf.
    rewrite Forall_forall in Hf. specialize (Hf b Hb). lia.
  - revert lo Ho. induction l as [|b l IH]; intros lo Ho; simpl in *; [constructor|]. destruct Ho as (H1 & H2 & H3).
    constructor; [|by eapply IH]. intros Hin. apply list_elem_of_fmap in Hin as (c & E & Hc).
    pose proof (ordered_above _ _ H3) as Hf. rewrite Forall_forall in Hf. specialize (Hf c Hc).
    pose proof (bend_above b H2). lia.
Qed.

(** Splitting the list at an address that no block has. *)
Lemma ordered_split lo l bp : ordered lo l -> bp ∉ l.*1 ->
  exists l1 l2, l = l1 ++ l2 /\ Forall (fun b => b.1 < bp) l1 /\ Forall (fun b => bp < b.1) l2.
Proof.
  revert lo. induction l as [|b l IH]; intros lo Ho Hn; [by exists [], []|]. simpl in *. destruct Ho as (H1 & H2 & H3).
  apply not_elem_of_cons in Hn as [Hne Hn]. destruct (decide (b.1 < bp)) as [Hlt|Hge].
  - destruct (IH _ H3 Hn) as (l1 & l2 & -> & Hl1 & Hl2). exists (b :: l1), l2. split; [done|]. split; [by constructor|done].
  - exists [], (b :: l). split; [done|]. split; [done|]. constructor; [lia|]. pose proof (bend_above b H2).
    eapply Forall_impl; [apply (ordered_above _ _ H3)|]. simpl. lia.
Qed.

(** Neighbours in the list that starts with [base]. *)
Lemma ordered_next base l g1 b c g2 : ordered base l -> (base, 0) :: l = g1 ++ b :: c :: g2 ->
  b.1 <= bend b /\ bend b < c.1 /\ 0 < c.2.
Proof.
  intros Ho E. destruct g1 as [|x g1]; simplify_eq/=.
  - unfold bend, HDR. simpl. lia.
  - apply ordered_app in Ho as [_ Ho]. simpl in Ho. destruct Ho as (_ & Hb & Hc & Hp & _).
    pose proof (bend_above b Hb). lia.
Qed.

(** ** The search of free *)

Section scan.
Context {W : Type} (h : handler W) (hp : heap) (base bp : Z) (lo hi : list block).
Hypothesis Hseg : seg (hdrs hp) (((base, 0) :: lo) ++ hi) base.
Hypothesis Hord : ordered base (lo ++ hi).
Hypothesis Hb : base < bp.
Hypothesis Hlo : Forall (fun b => b.1 < bp) lo.
Hypothesis Hhi : Forall (fun b => bp < b.1) hi.

Lemma run_hdr p x w : hdrs hp !! p = Some x -> run h (hdr hp p) w = Returned x w.
Proof. unfold hdr. by intros ->. Qed.

Lemma free_step_eq p q s w : hdrs hp !! p = Some (mkHeader q s) ->
  run h (free_step hp bp p) w =
  Returned (if (p <? bp) && (bp <? q) then inr p else if (q <=? p) && ((p <? bp) || (bp <? q)) then inr p else inl q) w.
Proof.
  intros Hp. unfold free_step. rewrite run_bind, (run_hdr _ _ _ Hp). cbn [h_ptr].
  destruct ((p <? bp) && (bp <? q)); [done|]. by destruct ((q <=? p) && ((p <? bp) || (bp <? q))).
Qed.

(** From a block below [bp] forward to the last one below it. *)
Lemma scan_low w g2 : forall g1 b n, (base, 0) :: lo = g1 ++ b :: g2 -> (length g2 < n)%nat ->
  run h (piter n (free_step hp bp) b.1) w = Returned (default b (last g2)).1 w.
Proof.
  induction g2 as [|c g2 IH]; intros g1 b n E Hn; (destruct n as [|n]; [cbn [length] in Hn; lia|]); rewrite piter_S.
  - rewrite E, <- app_assoc in Hseg. apply seg_app in Hseg as [_ Hs]. cbn [app seg] in Hs. destruct Hs as [Hs _].
    rewrite (free_step_eq _ _ _ w Hs).
    assert (Hlt : b.1 < bp).
    { assert (Hin : b ∈ (base, 0) :: lo) by (rewrite E; set_solver). apply elem_of_cons in Hin as [->|Hin]; [done|].
      rewrite Forall_forall in Hlo. by apply Hlo. }
    destruct hi as [|c hi']; cbn [head_addr].
    + assert (base <= b.1).
      { assert (Hin : b ∈ (base, 0) :: lo) by (rewrite E; set_solver). apply elem_of_cons in Hin as [->|Hin]; [simpl; lia|].
        rewrite app_nil_r in Hord. pose proof (ordered_above _ _ Hord) as Hf. rewrite Forall_forall in Hf. specialize (Hf b Hin). lia. }
      destruct (Z.ltb_spec b.1 bp); [|lia]. destruct (Z.ltb_spec bp base); [lia|]. destruct (Z.leb_spec base b.1); [|lia]. done.
    + inversion Hhi; subst. destruct (Z.ltb_spec b.1 bp); [|lia]. destruct (Z.ltb_spec bp c.1); [|lia]. done.
  - pose proof E as E'. rewrite E, <- app_assoc in Hseg. apply seg_app in Hseg as [_ Hs]. cbn [app seg head_addr] in Hs.
    destruct Hs as [Hs _]. rewrite (free_step_eq _ _ _ w Hs).
    assert (Hc1 : b.1 < c.1).
    { destruct (ordered_next base (lo ++ hi) g1 b c (g2 ++ hi)) as (? & ? & _); [done| |lia].
      change ((base, 0) :: lo ++ hi) with (((base, 0) :: lo) ++ hi). rewrite E, <- app_assoc. done. }
    assert (Hc : c.1 < bp).
    { assert (Hin : c ∈ (base, 0) :: lo) by (rewrite E'; set_solver). apply elem_of_cons in Hin as [->|Hin]; [done|].
      rewrite Forall_forall in Hlo. by apply Hlo. }
    destruct (Z.ltb_spec bp c.1); [lia|]. destruct (Z.leb_spec c.1 b.1); [lia|]. rewrite andb_false_r. cbn [andb].
    rewrite (IH (g1 ++ [b]) c n); [|by rewrite <- app_assoc|cbn [length] in Hn; lia].
    rewrite last_cons. by destruct (last g2).
Qed.

(** From a block above [bp] round the end to [base] and on. *)
Lemma scan_high w h2 : forall h1 b n, hi = h1 ++ b :: h2 -> (length h2 + length lo + 1 < n)%nat ->
  run h (piter n (free_step hp bp) b.1) w = Returned (default (base, 0) (last lo)).1 w.
Proof.
  induction h2 as [|c h2 IH]; intros h1 b n E Hn; (destruct n as [|n]; [cbn [length] in Hn; lia|]); rewrite piter_S.
  - assert (Hs : hdrs hp !! b.1 = Some (mkHeader base b.2)).
    { rewrite E in Hseg. apply seg_app in Hseg as [_ Hs]. apply seg_app in Hs as [_ Hs]. apply Hs. }
    assert (Hbb : bp < b.1) by (rewrite Forall_forall in Hhi; apply Hhi; rewrite E; set_solver).
    rewrite (free_step_eq _ _ _ w Hs). destruct (Z.ltb_spec b.1 bp); [lia|]. destruct (Z.ltb_spec bp base); [lia|].
    destruct (Z.leb_spec base b.1); [|lia]. cbn [andb orb].
    apply (scan_low w lo [] (base, 0) n); [done|cbn [length] in Hn; lia].
  - assert (Hs : hdrs hp !! b.1 = Some (mkHeader c.1 b.2)).
    { rewrite E in Hseg. apply seg_app in Hseg as [_ Hs]. apply seg_app in Hs as [_ Hs]. apply Hs. }
    assert (Hbb : bp < b.1) by (rewrite Forall_forall in Hhi; apply Hhi; rewrite E; set_solver).
    assert (Hc1 : b.1 < c.1).
    { destruct (ordered_next base (lo ++ hi) (((base, 0) :: lo) ++ h1) b c h2) as (? & ? & _); [done| |lia].
      rewrite E. simpl. by rewrite <- app_assoc. }
    rewrite (free_step_eq _ _ _ w Hs). destruct (Z.ltb_spec b.1 bp); [lia|]. destruct (Z.leb_spec c.1 b.1); [lia|]. cbn [andb].
    apply (IH (h1 ++ [b]) c n); [by rewrite <- app_assoc|cbn [length] in Hn; lia].
Qed.

Lemma scan_any w : forall n, freep hp ∈ base :: (lo ++ hi).*1 -> (length (lo ++ hi) + 1 < n)%nat ->
  run h (piter n (free_step hp bp) (freep hp)) w = Returned (default (base, 0) (last lo)).1 w.
Proof.
  intros n Hin Hn. change (base :: (lo ++ hi).*1) with (((base, 0) :: lo ++ hi).*1) in Hin. rewrite app_comm_cons in Hin.
  rewrite length_app in Hn. apply list_elem_of_fmap in Hin as (b & -> & Hin). apply elem_of_app in Hin as [Hin|Hin].
  - apply list_elem_of_split in Hin as (g1 & g2 & E). rewrite (scan_low w g2 g1 b n E).
    + destruct g1 as [|x g1]; simplify_eq/=; [done|]. rewrite last_app, last_cons. by destruct (last g2).
    + apply (f_equal length) in E. rewrite length_app in E. simpl in E. lia.
  - apply list_elem_of_split in Hin as (h1 & h2 & E). apply (scan_high w h2 h1); [done|].
    rewrite E, length_app in Hn. simpl in Hn. lia.
Qed.
End scan.

(** ** What free does to the list *)

(** The block and the blocks above it, merged when they touch. *)
Definition join_next (b : block) (hi : list block) : block * list block :=
  match hi with
  | c :: hi' => if bend b =? c.1 then ((b.1, b.2 + c.2), hi') else (b, hi)
  | [] => (b, [])
  end.

(** The blocks below and the new block, merged when they touch. *)
Definition join_prev (lo : list block) (b : block) : list block :=
  match last lo with
  | Some p => if bend p =? b.1 then removelast lo ++ [(p.1, p.2 + b.2)] else lo ++ [b]
  | None => [b]
  end.

Definition insert_free (b : block) (lo hi : list block) : list block :=
  join_prev lo (join_next b hi).1 ++ (join_next b hi).2.

(** The bytes of a block, and of the blocks of a list. *)
Definition in_block (b : block) (x : Z) : Prop := b.1 <= x < bend b.
Definition in_blocks (l : list block) (x : Z) : Prop := Exists (fun b => in_block b x) l.

Lemma in_blocks_app l1 l2 x : in_blocks (l1 ++ l2) x <-> in_blocks l1 x \/ in_blocks l2 x.
Proof. apply Exists_app. Qed.
Lemma in_blocks_cons b l x : in_blocks (b :: l) x <-> in_block b x \/ in_blocks l x.
Proof. apply Exists_cons. Qed.
Lemma in_blocks_nil x : in_blocks [] x <-> False.
Proof. apply Exists_nil. Qed.

Lemma in_block_join b c x : 0 <= b.2 -> 0 <= c.2 -> bend b = c.1 -> in_block (b.1, b.2 + c.2) x <-> in_block b x \/ in_block c x.
Proof. unfold in_block, bend, HDR. cbn [fst snd]. lia. Qed.

Lemma join_prev_snoc lo p b :
  join_prev (lo ++ [p]) b = if bend p =? b.1 then lo ++ [(p.1, p.2 + b.2)] else lo ++ [p; b].
Proof. unfold join_prev. rewrite last_snoc. destruct (bend p =? b.1); [by rewrite removelast_last|by rewrite <- app_assoc]. Qed.

Lemma join_next_addr b hi : (join_next b hi).1.1 = b.1.
Proof. unfold join_next. destruct hi as [|c hi]; [done|]. by destruct (bend b =? c.1). Qed.

Section insert.
Context (lo hi : list block) (b : block).

(** A property of blocks that joining keeps holds after the insertion. *)
Lemma Forall_insert_free (R : block -> Prop) :
  (forall x y, bend x = y.1 -> R x -> R y -> R (x.1, x.2 + y.2)) ->
  Forall R (lo ++ hi) -> R b -> Forall R (insert_free b lo hi).
Proof.
  intros HR Hf Hb. apply Forall_app in Hf as [Hlo Hhi]. unfold insert_free.
  assert (Hn : R (join_next b hi).1 /\ Forall R (join_next b hi).2).
  { unfold join_next. destruct hi as [|c hi']; [done|]. inversion Hhi; subst. destruct (Z.eqb_spec (bend b) c.1); [|done].
    split; [by apply HR|done]. }
  destruct Hn as [Hn1 Hn2]. apply Forall_app. split; [|done]. destruct lo as [|p lo' _] using rev_ind; [by constructor|].
  rewrite join_prev_snoc. apply Forall_app in Hlo as [Hlo Hp]. inversion Hp; subst. destruct (Z.eqb_spec (bend p) (join_next b hi).1.1).
  - apply Forall_app. split; [done|]. constructor; [by apply HR|done].
  - apply Forall_app. split; [done|]. by repeat constructor.
Qed.

Lemma insert_free_length : (length (insert_free b lo hi) <= length (lo ++ hi) + 1)%nat.
Proof.
  unfold insert_free. rewrite !length_app. assert (length (join_next b hi).2 <= length hi)%nat.
  { unfold join_next. destruct hi; simpl; [lia|]. case_match; simpl; lia. }
  assert (length (join_prev lo (join_next b hi).1) <= length lo + 1)%nat; [|lia].
  destruct lo as [|p lo' _] using rev_ind; [simpl; lia|]. rewrite join_prev_snoc.
  case_match; rewrite !length_app; simpl; lia.
Qed.

(** The memory of the new block is free afterwards. *)
Lemma insert_free_covers : 0 <= b.2 -> Forall (fun x => 0 <= x.2) (lo ++ hi) ->
  exists c, c ∈ insert_free b lo hi /\ c.1 <= b.1 /\ b.1 + HDR * b.2 <= bend c /\ b.2 <= c.2.
Proof.
  intros Hb Hf. apply Forall_app in Hf as [Hlo Hhi]. unfold insert_free.
  assert (Hn : (join_next b hi).1.1 = b.1 /\ b.2 <= (join_next b hi).1.2).
  { unfold join_next. destruct hi as [|c hi']; simpl; [lia|]. inversion Hhi; subst. case_match; simpl; lia. }
  set (n := (join_next b hi).1) in *. destruct lo as [|p lo' _] using rev_ind.
  - exists n. split; [simpl; set_solver|]. unfold bend, HDR. lia.
  - rewrite join_prev_snoc. apply Forall_app in Hlo as [_ Hp]. inversion Hp; subst. destruct (Z.eqb_spec (bend p) n.1) as [E|E].
    + exists (p.1, p.2 + n.2). split; [set_solver|]. unfold bend, HDR in *. simpl. lia.
    + exists n. split; [set_solver|]. unfold bend, HDR. lia.
Qed.

(** The free bytes afterwards: those before and those of the new block. *)
Lemma in_blocks_insert x : 0 <= b.2 -> Forall (fun c => 0 <= c.2) (lo ++ hi) ->
  in_blocks (insert_free b lo hi) x <-> in_blocks (lo ++ hi) x \/ in_block b x.
Proof.
  intros Hb Hf. apply Forall_app in Hf as [Hlo Hhi]. unfold insert_free.
  assert (Hn : 0 <= (join_next b hi).1.2 /\ (in_block (join_next b hi).1 x \/ in_blocks (join_next b hi).2 x <-> in_block b x \/ in_blocks hi x)).
  { unfold join_next. destruct hi as [|c hi']; [done|]. inversion Hhi; subst. destruct (Z.eqb_spec (bend b) c.1); [|done]. cbn [fst snd].
    rewrite in_blocks_cons, in_block_join by done. split; [lia|tauto]. }
  destruct Hn as [Hn0 Hn]. rewrite !in_blocks_app. destruct lo as [|p lo' _] using rev_ind.
  { unfold join_prev. cbn [last]. rewrite in_blocks_cons, in_blocks_nil. tauto. }
  rewrite join_prev_snoc. apply Forall_app in Hlo as [_ Hp]. inversion Hp; subst. destruct (Z.eqb_spec (bend p) (join_next b hi).1.1) as [E|E].
  - rewrite !in_blocks_app, !in_blocks_cons, in_block_join, in_blocks_nil by done. tauto.
  - rewrite !in_blocks_app, !in_blocks_cons, in_blocks_nil. tauto.
Qed.

Lemma ordered_insert_free base :
  ordered base (lo ++ hi) -> base < b.1 -> 0 < b.2 -> Forall (apart b) (lo ++ hi) ->
  Forall (fun x => x.1 < b.1) lo -> Forall (fun x => b.1 < x.1) hi -> ordered base (insert_free b lo hi).
Proof.
  intros Ho Hbase Hb Ha Hlo Hhi. apply Forall_app in Ha as [Halo Hahi]. unfold insert_free. apply ordered_app in Ho as [Ho1 Ho2].
  assert (Hn : (join_next b hi).1.1 = b.1 /\ b.2 <= (join_next b hi).1.2 /\ ordered (bend (join_next b hi).1) (join_next b hi).2).
  { unfold join_next. destruct hi as [|c hi']; [done|]. simpl in Ho2. destruct Ho2 as (_ & Hc & Ho2). inversion Hhi; inversion Hahi; subst.
    destruct (Z.eqb_spec (bend b) c.1) as [E|E]; cbn [fst snd].
    - split; [done|]. split; [lia|]. eapply ordered_weaken; [|exact Ho2]. unfold bend, HDR in *. simpl. lia.
    - split; [done|]. split; [lia|]. simpl. split; [|done]. unfold apart, bend, HDR in *. lia. }
  destruct Hn as (Hn1 & Hn2 & Hn3). set (n := (join_next b hi).1) in *. set (hi2 := (join_next b hi).2) in *.
  destruct lo as [|p lo' _] using rev_ind.
  - simpl. split; [lia|]. split; [lia|done].
  - rewrite join_prev_snoc. apply Forall_app in Hlo as [_ Hp]. apply Forall_app in Halo as [_ Hap]. inversion Hp; inversion Hap; subst.
    apply ordered_app in Ho1 as [Ho1 Hop]. simpl in Hop. destruct Hop as (Hop1 & Hop2 & _).
    destruct (Z.eqb_spec (bend p) n.1) as [E|E]; rewrite <- app_assoc; apply ordered_app; (split; [done|]); simpl.
    + split; [done|]. split; [lia|]. eapply ordered_weaken; [|exact Hn3]. unfold bend, HDR in *. simpl. lia.
    + split; [done|]. split; [done|]. split; [unfold apart, bend, HDR in *; lia|]. split; [lia|done].
Qed.
End insert.

Lemma ForallOrdPairs_remove (A1 A2 : list block) b :
  ForallOrdPairs apart (A1 ++ b :: A2) -> ForallOrdPairs apart (A1 ++ A2) /\ forall a, a ∈ A1 ++ A2 -> apart a b.
Proof.
  induction A1 as [|x A1 IH]; simpl; intros Hf; inversion Hf as [|? ? Hx Hf']; subst.
  - split; [done|]. intros a Ha. apply apart_sym. rewrite Forall_forall in Hx. by apply Hx.
  - destruct (IH Hf') as [H1 H2]. apply Forall_app in Hx as [Hx1 Hx2]. inversion Hx2; subst. split.
    + constructor; [by apply Forall_app|done].
    + intros a Ha. apply elem_of_cons in Ha as [->|Ha]; [done|by apply H2].
Qed.

(** The links after the insertion: [p] is the block before the new one. *)
Lemma seg_insert_free m base lo hi b :
  seg m (((base, 0) :: lo) ++ hi) base -> NoDup (base :: (lo ++ hi).*1) -> b.1 ∉ base :: (lo ++ hi).*1 ->
  let p := default (base, 0) (last lo) in
  let n := (join_next b hi).1 in
  let m1 := <[b.1 := mkHeader (head_addr (join_next b hi).2 base) n.2]> m in
  let m2 := if (bend p =? b.1) && negb (p.1 =? base) then
              <[p.1 := mkHeader (head_addr (join_next b hi).2 base) (p.2 + n.2)]> m1
            else <[p.1 := mkHeader b.1 p.2]> m1 in
  (bend p =? b.1 = true -> p.1 <> base) ->
  seg m2 ((base, 0) :: insert_free b lo hi) base.
Proof.
  intros Hs Hnd Hnb. cbv zeta. intros Hpb. apply seg_app in Hs as [Hs1 Hs2].
  pose proof (join_next_addr b hi) as Hn1.
  unfold insert_free. set (n := (join_next b hi).1) in *. set (hi2 := (join_next b hi).2).
  assert (Hhi2 : seg m hi2 base /\ (forall a, a ∈ hi2.*1 -> a ∈ hi.*1)).
  { subst hi2. unfold join_next. destruct hi as [|c hi']; [done|]. case_match; simpl in *; [|done]. split; [apply Hs2|]. set_solver. }
  destruct Hhi2 as [Hs3 Hsub].
  apply not_elem_of_cons in Hnb as [Hnb0 Hnb]. rewrite fmap_app, not_elem_of_app in Hnb. destruct Hnb as [Hnb1 Hnb2].
  apply NoDup_cons in Hnd as [Hnd0 Hnd]. rewrite fmap_app in Hnd, Hnd0. apply NoDup_app in Hnd as (Hnd1 & Hnd2 & Hnd3).
  destruct lo as [|p lo' _] using rev_ind.
  - simpl in *. destruct ((bend (base, 0) =? b.1)) eqn:E; [by destruct (Hpb eq_refl)|]. cbn [andb].
    rewrite lookup_insert_eq, Hn1. split; [done|]. rewrite lookup_insert_ne by done. rewrite lookup_insert_eq.
    split; [done|]. rewrite !seg_insert by set_solver. done.
  - rewrite last_snoc in *. cbn [default from_option id] in *. rewrite join_prev_snoc, Hn1.
    rewrite fmap_app in *. cbn [fmap list_fmap] in *. rewrite not_elem_of_app in Hnb1. destruct Hnb1 as [Hnb1 Hnbp].
    rewrite list_elem_of_singleton in Hnbp. apply NoDup_app in Hnd1 as (Hndl & Hndp & _).
    assert (Hp0 : p.1 <> base) by set_solver. assert (Hpl : p.1 ∉ lo'.*1) by set_solver.
    assert (Hph : p.1 ∉ hi2.*1).
    { intros Hin%Hsub. apply (Hnd2 p.1); [|done]. apply elem_of_app. right. by apply list_elem_of_singleton. }
    assert (Hbh : b.1 ∉ hi2.*1) by (by intros Hin%Hsub).
    change ((base, 0) :: lo' ++ [p]) with (((base, 0) :: lo') ++ [p]) in Hs1. apply seg_app in Hs1 as [Hs1 _].
    assert (Hseglo : forall k x, seg (<[p.1 := x]> (<[b.1 := k]> m)) ((base, 0) :: lo') p.1).
    { intros k x. rewrite !seg_insert; [exact Hs1| |]; simpl; apply not_elem_of_cons; split; done. }
    destruct (Z.eqb_spec p.1 base); [done|]. destruct (bend p =? b.1); cbn [negb andb].
    + rewrite <- app_assoc, app_comm_cons. apply seg_app. split; [by apply Hseglo|]. cbn [app seg fst snd].
      rewrite lookup_insert_eq. split; [done|]. by rewrite !seg_insert.
    + rewrite <- app_assoc, app_comm_cons. apply seg_app. split; [by apply Hseglo|]. cbn [app seg head_addr].
      rewrite lookup_insert_eq, Hn1. split; [done|]. rewrite lookup_insert_ne by done. rewrite lookup_insert_eq.
      split; [done|]. by rewrite !seg_insert.
Qed.

(** The header of the block before the new one. *)
Lemma pred_hdr m base lo hi : seg m (((base, 0) :: lo) ++ hi) base ->
  m !! (default (base, 0) (last lo)).1 = Some (mkHeader (head_addr hi base) (default (base, 0) (last lo)).2).
Proof.
  destruct lo as [|p lo _] using rev_ind; simpl; [by intros [? _]|]. rewrite last_snoc. intros [_ Hs].
  rewrite <- app_assoc in Hs. apply seg_app in Hs as [_ Hs]. apply Hs.
Qed.

Lemma pred_in base lo hi b : (default (base, 0) (last lo)).1 ∈ base :: (insert_free b lo hi).*1.
Proof.
  destruct lo as [|p lo _] using rev_ind; [apply elem_of_cons; by left|]. rewrite last_snoc. apply elem_of_cons. right.
  unfold insert_free. rewrite join_prev_snoc, fmap_app, elem_of_app. left.
  case_match; rewrite fmap_app, elem_of_app; right; simpl; apply elem_of_cons; by left.
Qed.

Section free.
Context {W : Type} (h : handler W) `{Fuel} (base brk : Z).

(** What holds of the free blocks: they are blocks of the heap that nobody uses. *)
Definition unused (A : list block) (x : block) : Prop :=
  inside base brk x /\ 0 < x.2 /\ forall a, a ∈ A -> 0 < a.2 -> apart a x.

Lemma unused_join A x y : bend x = y.1 -> unused A x -> unused A y -> unused A (x.1, x.2 + y.2).
Proof.
  intros E (Hx1 & Hx2 & Hx3) (Hy1 & Hy2 & Hy3). split; [|split; [simpl; lia|]].
  - unfold inside, bend, HDR in *. simpl. lia.
  - intros a Ha Hpos. apply apart_join; auto.
Qed.

Lemma unused_size A x : base + HDR <= brk < 2 ^ 31 -> 0 < base -> unused A x -> 0 < x.2 < 2 ^ 31.
Proof. intros Hk Hb ((H1 & H2) & H3 & _). unfold bend, HDR in *. lia. Qed.

Lemma hinv_unused hp rest A : hinv base brk hp rest A -> Forall (unused A) rest.
Proof.
  intros Hi. apply Forall_forall. intros x Hx. pose proof (hi_rest _ _ _ _ _ Hi) as Hr.
  pose proof (ordered_above _ _ (hi_ord _ _ _ _ _ Hi)) as Ho. rewrite Forall_forall in Hr, Ho.
  split; [by apply Hr|]. split; [apply (Ho x Hx)|]. intros a Ha _. by apply (hi_fa _ _ _ _ _ Hi).
Qed.

(** The blocks in use keep their headers when others change. *)
Lemma hinv_headers A (m : gmap Z header) p x :
  Forall (fun a => inside base brk a /\ 0 < a.2 /\ exists q, m !! a.1 = Some (mkHeader q a.2)) A -> p ∉ A.*1 ->
  Forall (fun a => inside base brk a /\ 0 < a.2 /\ exists q, <[p := x]> m !! a.1 = Some (mkHeader q a.2)) A.
Proof.
  intros Hf Hn. apply Forall_forall. intros a Ha. rewrite Forall_forall in Hf. destruct (Hf a Ha) as (H1 & H2 & H3).
  split; [done|]. split; [done|]. rewrite lookup_insert_ne; [done|]. intros ->. apply Hn. by apply list_elem_of_fmap_2.
Qed.

Lemma not_in_use A x : unused A x -> Forall (fun a => inside base brk a /\ 0 < a.2) A -> x.1 ∉ A.*1.
Proof.
  intros (_ & Hx & Ha) Hf Hin. apply list_elem_of_fmap in Hin as (a & E & Hin). rewrite Forall_forall in Hf.
  destruct (Hf a Hin) as [_ Hpos]. apply (apart_ne a x); auto.
Qed.

Lemma run_free_next hp b q x hi w : hdrs hp !! b.1 = Some (mkHeader q b.2) -> h_ptr x = head_addr hi base ->
  seg (hdrs hp) hi base -> base <> bend b -> 0 <= b.2 < 2 ^ 31 -> Forall (fun c => 0 < c.2 < 2 ^ 31) hi ->
  run h (if b.1 + HDR * b.2 =? h_ptr x then
           n <- hdr hp (h_ptr x);; PRet (set_hdr b.1 (mkHeader (h_ptr n) (u32 (b.2 + h_size n))) hp)
         else PRet (set_hdr b.1 (mkHeader (h_ptr x) b.2) hp)) w =
  Returned (set_hdr b.1 (mkHeader (head_addr (join_next b hi).2 base) (join_next b hi).1.2) hp) w.
Proof.
  intros Hb -> Hs Hne Hsz Hszs. change (b.1 + HDR * b.2) with (bend b). unfold join_next. destruct hi as [|c hi']; simpl.
  - destruct (Z.eqb_spec (bend b) base); [congruence|done].
  - destruct Hs as [Hc _]. inversion Hszs; subst. destruct (bend b =? c.1); [|done].
    unfold hdr. rewrite Hc. simpl. rewrite u32_small by lia. done.
Qed.

(** Freeing [b], which belongs between [lo] and [hi]. *)
Section one.
Context (hp : heap) (lo hi A1 A2 : list block) (b : block).
Hypothesis Hi : hinv base brk hp (lo ++ hi) (A1 ++ b :: A2).
Hypothesis Hlo : Forall (fun c => c.1 < b.1) lo.
Hypothesis Hhi : Forall (fun c => b.1 < c.1) hi.

Let p := default (base, 0) (last lo).
Let n := (join_next b hi).1.
Let hi2 := (join_next b hi).2.

Lemma freed_block : inside base brk b /\ 0 < b.2 /\ exists q, hdrs hp !! b.1 = Some (mkHeader q b.2).
Proof. pose proof (hi_A _ _ _ _ _ Hi) as HA. rewrite Forall_forall in HA. apply HA. set_solver. Qed.

Lemma freed_rest : Forall (fun a => inside base brk a /\ 0 < a.2 /\ exists q, hdrs hp !! a.1 = Some (mkHeader q a.2)) (A1 ++ A2).
Proof. pose proof (hi_A _ _ _ _ _ Hi) as HA. apply Forall_app in HA as [HA1 HA2]. inversion HA2; subst. by apply Forall_app. Qed.

Lemma freed_pos : Forall (fun a => inside base brk a /\ 0 < a.2) (A1 ++ A2).
Proof. eapply Forall_impl; [exact freed_rest|]. simpl. tauto. Qed.

Lemma freed_unused : Forall (unused (A1 ++ A2)) (lo ++ hi) /\ unused (A1 ++ A2) b.
Proof.
  destruct freed_block as (H1 & H2 & _). destruct (ForallOrdPairs_remove _ _ _ (hi_aa _ _ _ _ _ Hi)) as [_ Hab]. split.
  - eapply Forall_impl; [by eapply hinv_unused|]. intros x (H3 & H4 & H5). split; [done|]. split; [done|].
    intros a Ha. apply H5. set_solver.
  - split; [done|]. split; [done|]. intros a Ha _. by apply Hab.
Qed.

Lemma freed_sizes : 0 < b.2 < 2 ^ 31 /\ Forall (fun c => 0 < c.2 < 2 ^ 31) (lo ++ hi) /\
  Forall (fun c => 0 < c.2 < 2 ^ 31) (insert_free b lo hi).
Proof.
  destruct freed_unused as [H1 H2]. pose proof (hi_brk _ _ _ _ _ Hi) as Hk. pose proof (hi_base _ _ _ _ _ Hi) as Hb.
  split; [by eapply unused_size|]. split; (eapply Forall_impl; [|intros x Hx; by eapply unused_size]); [done|].
  apply Forall_insert_free; [apply unused_join|done|done].
Qed.

Lemma freed_pred : p.1 <> b.1 /\ p.1 ∉ (A1 ++ A2).*1 /\ 0 <= p.2 < 2 ^ 31 /\ (bend p =? b.1 = true -> p.1 <> base) /\
  hdrs hp !! p.1 = Some (mkHeader (head_addr hi base) p.2) /\ (bend p =? b.1 = true -> p.2 + n.2 < 2 ^ 31).
Proof.
  destruct freed_unused as [Hun Hub]. destruct freed_block as ((Hb1 & _) & _). pose proof freed_pos as Hpos. pose proof Hpos as Hpos'.
  destruct freed_sizes as (_ & Hsz & Hsz2). rewrite Forall_forall in Hun, Hsz, Hpos.
  split_and!; [..|apply pred_hdr; apply (hi_seg _ _ _ _ _ Hi)|].
  all: unfold p; destruct lo as [|c lo' _] using rev_ind; rewrite ?last_snoc; cbn [last default from_option id fst snd].
  all: unfold HDR in *; try lia.
  - rewrite Forall_app in Hlo. destruct Hlo as [_ Hc]. inversion Hc; subst. lia.
  - intros Hin. apply list_elem_of_fmap in Hin as (a & E & Ha). destruct (Hpos a Ha) as ((? & _) & _). unfold HDR in *. lia.
  - apply not_in_use; [apply Hun; set_solver|exact Hpos'].
  - specialize (Hsz c). assert (c ∈ (lo' ++ [c]) ++ hi) as Hc by set_solver. specialize (Hsz Hc). lia.
  - specialize (Hsz c). assert (c ∈ (lo' ++ [c]) ++ hi) as Hc by set_solver. specialize (Hsz Hc). lia.
  - intros E%Z.eqb_eq. unfold bend, HDR in E. cbn [fst snd] in E. lia.
  - intros _. destruct (Hun c) as ((? & _) & _); [set_solver|]. unfold HDR in *. lia.
  - intros E%Z.eqb_eq. unfold bend, HDR in E. cbn [fst snd] in E. lia.
  - intros E. unfold insert_free in Hsz2. rewrite join_prev_snoc in Hsz2.
    pose proof (join_next_addr b hi) as Hn1.
    rewrite Hn1, E in Hsz2. rewrite !Forall_app in Hsz2. destruct Hsz2 as [[_ Hx] _]. inversion Hx; subst. subst n. simpl in *. lia.
Qed.

Definition freed : heap :=
  set_freep p.1 (set_hdr p.1 (if bend p =? b.1 then mkHeader (head_addr hi2 base) (p.2 + n.2) else mkHeader b.1 p.2)
    (set_hdr b.1 (mkHeader (head_addr hi2 base) n.2) hp)).

Lemma free_runs w : (length (lo ++ hi) + 1 < fuel)%nat -> run h (free hp (b.1 + HDR)) w = Returned freed w.
Proof.
  intros Hfuel. destruct freed_block as ((Hb1 & Hb2) & Hbs & q & Hbh). destruct freed_pred as (Hpb & _ & Hps & _ & Hph & Hpn).
  destruct freed_sizes as (Hsz & Hszs & Hsz2). apply Forall_app in Hszs as [_ Hszh].
  unfold free. rewrite Z.add_simpl_r, run_bind, (scan_any h hp base b.1 lo hi); try apply Hi; try done; [|unfold HDR in *; lia].
  fold p. rewrite run_bind, (run_hdr h hp _ _ _ Hbh), run_bind, (run_hdr h hp _ _ _ Hph). cbn [h_size].
  rewrite run_bind, (run_free_next _ _ q _ hi); try done; [|apply (seg_app _ ((base, 0) :: lo) hi base), (hi_seg _ _ _ _ _ Hi)| |lia].
  2:{ unfold bend, HDR in *. lia. }
  fold n hi2. rewrite run_bind. unfold hdr at 1. cbn [hdrs set_hdr]. rewrite lookup_insert_eq. cbn [run].
  rewrite run_bind. unfold hdr at 1. cbn [hdrs set_hdr]. rewrite lookup_insert_ne, Hph by done. cbn [run h_size h_ptr].
  unfold freed. change (p.1 + HDR * p.2) with (bend p). destruct (bend p =? b.1) eqn:E; [|done].
  rewrite u32_small; [done|]. assert (0 <= n.2); [|specialize (Hpn eq_refl); lia].
  subst n. unfold join_next. destruct hi as [|c hi']; simpl; [lia|]. inversion Hszh; subst. case_match; simpl; lia.
Qed.

Lemma freed_inv : hinv base brk freed (insert_free b lo hi) (A1 ++ A2).
Proof.
  destruct freed_pred as (Hpb & HpA & Hps & Hpm & Hph & _). destruct freed_unused as [Hun Hub].
  assert (Hun2 : Forall (unused (A1 ++ A2)) (insert_free b lo hi)) by (apply Forall_insert_free; [apply unused_join|done|done]).
  destruct freed_block as ((Hb1 & _) & Hbs & _). destruct (ForallOrdPairs_remove _ _ _ (hi_aa _ _ _ _ _ Hi)) as [Haa _].
  pose proof (ordered_NoDup _ _ (hi_ord _ _ _ _ _ Hi)) as Hnd.
  assert (Hbr : b.1 ∉ base :: (lo ++ hi).*1).
  { apply not_elem_of_cons. split; [unfold HDR in *; lia|]. rewrite fmap_app, not_elem_of_app.
    rewrite Forall_forall in Hlo, Hhi. split; intros (c & E & Hc)%list_elem_of_fmap; [specialize (Hlo c Hc)|specialize (Hhi c Hc)]; lia. }
  split; try apply Hi; try done.
  - pose proof (seg_insert_free _ base lo hi b (hi_seg _ _ _ _ _ Hi) Hnd Hbr) as Hs. cbv zeta in Hs. fold p n hi2 in Hs.
    specialize (Hs Hpm). unfold freed. cbn [hdrs set_freep set_hdr]. destruct (bend p =? b.1); [|exact Hs].
    specialize (Hpm eq_refl). destruct (Z.eqb_spec p.1 base); [done|exact Hs].
  - apply ordered_insert_free; try done; [apply Hi|unfold HDR in *; lia|].
    apply Forall_forall. intros c Hc. apply (hi_fa _ _ _ _ _ Hi); set_solver.
  - unfold freed. cbn [freep set_freep]. apply pred_in.
  - eapply Forall_impl; [exact Hun2|]. by intros x [? _].
  - unfold freed. cbn [hdrs set_freep set_hdr]. apply hinv_headers; [|done]. apply hinv_headers; [apply freed_rest|].
    by apply not_in_use; [|apply freed_pos].
  - intros a c Ha Hc. rewrite Forall_forall in Hun2. destruct (Hun2 c Hc) as (_ & _ & Hx). apply Hx; [done|].
    pose proof freed_pos as Hpos. rewrite Forall_forall in Hpos. by apply Hpos.
Qed.
End one.

Lemma free_ok hp rest A1 A2 b w : hinv base brk hp rest (A1 ++ b :: A2) -> (length rest + 1 < fuel)%nat ->
  exists hp' lo hi, rest = lo ++ hi /\ run h (free hp (b.1 + HDR)) w = Returned hp' w /\
    hinv base brk hp' (insert_free b lo hi) (A1 ++ A2).
Proof.
  intros Hi Hfuel. assert (Hbr : b.1 ∉ rest.*1).
  { intros Hin. apply list_elem_of_fmap in Hin as (c & E & Hc). pose proof (hi_A _ _ _ _ _ Hi) as HA.
    pose proof (ordered_above _ _ (hi_ord _ _ _ _ _ Hi)) as Ho. rewrite Forall_forall in Ho, HA.
    assert (Hb : b ∈ A1 ++ b :: A2) by set_solver. destruct (HA b Hb) as (_ & Hpos & _).
    apply (apart_ne b c); [done|apply (Ho c Hc)|by apply (hi_fa _ _ _ _ _ Hi)|done]. }
  destruct (ordered_split _ _ _ (hi_ord _ _ _ _ _ Hi) Hbr) as (lo & hi & -> & Hlo & Hhi).
  exists (freed hp lo hi b), lo, hi. split; [done|]. split; [by apply (free_runs hp lo hi A1 A2)|by apply freed_inv].
Qed.
End free.

(** ** malloc *)

(** What sbrk promises: it moves the end of the data segment, or fails. *)
Class SbrkWorld {W : Type} (h : handler W) (brk : W -> Z) : Prop :=
  sbrk_law n w : 0 <= n ->
    let '(r, w') := h _ (Ssbrk n) w in
    r = -1 /\ brk w' = brk w \/ r = brk w /\ brk w' = brk w + n /\ brk w' < 2 ^ 31.

(** An address occurs once in a list without duplicate addresses. *)
Lemma NoDup_split_eq (a1 a2 b1 b2 : list block) c d :
  NoDup ((a1 ++ c :: a2).*1) -> a1 ++ c :: a2 = b1 ++ d :: b2 -> c.1 = d.1 -> a1 = b1.
Proof.
  revert b1. induction a1 as [|x a1 IH]; intros [|y b1] Hnd E Hcd; simplify_eq/=; [done| | |].
  - apply NoDup_cons in Hnd as [Hn _]. destruct Hn. rewrite Hcd. apply list_elem_of_fmap_2. set_solver.
  - apply NoDup_cons in Hnd as [Hn _]. destruct Hn. rewrite <- Hcd. apply list_elem_of_fmap_2. set_solver.
  - apply NoDup_cons in Hnd as [_ Hnd]. f_equal. by eapply IH.
Qed.

(** The only block that points to [b] is the one before it. *)
Lemma seg_pred_unique m base r1 b r2 x :
  seg m ((base, 0) :: r1 ++ b :: r2) base -> NoDup (((base, 0) :: r1 ++ b :: r2).*1) ->
  x ∈ (base, 0) :: r1 ++ b :: r2 -> h_ptr <$> m !! x.1 = Some b.1 -> x = default (base, 0) (last r1).
Proof.
  intros Hs Hnd Hx Hp. apply list_elem_of_split in Hx as (f1 & f2 & E). rewrite E in Hs. apply seg_app in Hs as [_ [Hs _]].
  rewrite Hs in Hp. simpl in Hp. injection Hp as Hp. destruct f2 as [|c f2]; simpl in Hp.
  { simpl in Hnd. apply NoDup_cons in Hnd as [Hn _]. destruct Hn. rewrite Hp. apply list_elem_of_fmap_2. set_solver. }
  assert (E2 : (f1 ++ [x]) ++ c :: f2 = ((base, 0) :: r1) ++ b :: r2) by (rewrite <- app_assoc; simpl; by rewrite <- E).
  assert (E3 : f1 ++ [x] = (base, 0) :: r1).
  { eapply NoDup_split_eq; [|exact E2|done]. rewrite E2. exact Hnd. }
  assert (E4 : last (f1 ++ [x]) = last ((base, 0) :: r1)) by (by rewrite E3). rewrite last_snoc, last_cons in E4.
  destruct (last r1); by simplify_eq/=.
Qed.

(** Changing where the block before [t] points. *)
Lemma seg_relink m base r1 t t' :
  seg m (((base, 0) :: r1) ++ t) base -> NoDup (((base, 0) :: r1).*1) -> seg m t' base ->
  let y := default (base, 0) (last r1) in
  y.1 ∉ t'.*1 -> seg (<[y.1 := mkHeader (head_addr t' base) y.2]> m) (((base, 0) :: r1) ++ t') base.
Proof.
  intros Hs Hnd Ht'. cbv zeta. intros Hy. apply seg_app in Hs as [Hs _]. destruct r1 as [|y r1 _] using rev_ind.
  - simpl in *. rewrite lookup_insert_eq. split; [done|]. by rewrite seg_insert.
  - rewrite last_snoc in *. cbn [default from_option id] in *. rewrite app_comm_cons in *. rewrite fmap_app in Hnd.
    apply NoDup_app in Hnd as (_ & Hn & _). apply seg_app in Hs as [Hs _]. rewrite <- app_assoc. apply seg_app. split.
    + rewrite seg_insert; [done|]. intros Hin. apply (Hn _ Hin). apply elem_of_cons. by left.
    + simpl. rewrite lookup_insert_eq. split; [done|]. by rewrite seg_insert.
Qed.

Lemma ordered_apart lo l1 b l2 c : ordered lo (l1 ++ b :: l2) -> c ∈ l1 ++ l2 -> apart b c.
Proof.
  intros Ho Hc. apply ordered_app in Ho as [Ho1 Ho2]. simpl in Ho2. destruct Ho2 as (Hb1 & Hb2 & Ho2).
  apply elem_of_app in Hc as [Hc|Hc].
  - right. revert lo Ho1 Hb1. induction l1 as [|x l1 IH]; intros lo Ho1 Hb1; [by apply not_elem_of_nil in Hc|].
    simpl in Ho1. destruct Ho1 as (H1 & H2 & H3). rewrite last_cons in Hb1. apply elem_of_cons in Hc as [->|Hc].
    + destruct (last l1) as [z|] eqn:E; simpl in Hb1; [|lia]. apply last_Some in E as [l' ->].
      pose proof (ordered_above _ _ H3) as Hf. rewrite Forall_forall in Hf. assert (Hz : z ∈ l' ++ [z]) by set_solver.
      specialize (Hf z Hz). pose proof (bend_above z). lia.
    + eapply IH; [done|exact H3|]. by destruct (last l1).
  - left. pose proof (ordered_above _ _ Ho2) as Hf. rewrite Forall_forall in Hf. specialize (Hf c Hc). lia.
Qed.

Lemma apart_part a b n : 0 <= n <= b.2 -> apart a b -> apart a (b.1, n) /\ apart a (b.1 + HDR * n, b.2 - n).
Proof. unfold apart, bend, HDR. simpl. lia. Qed.

Section malloc.
Context {W : Type} (h : handler W) `{Fuel} (base brk0 : Z) (nunits : Z).
Hypothesis Hnu : 1 <= nunits.

Section take.
Context (hp : heap) (r1 r2 A : list block) (b : block).
Hypothesis Hi : hinv base brk0 hp (r1 ++ b :: r2) A.
Let y := default (base, 0) (last r1).

Lemma taken_hdrs : hdrs hp !! y.1 = Some (mkHeader b.1 y.2) /\ hdrs hp !! b.1 = Some (mkHeader (head_addr r2 base) b.2) /\
  seg (hdrs hp) r2 base.
Proof.
  pose proof (hi_seg _ _ _ _ _ Hi) as Hseg. split; [exact (pred_hdr _ base r1 (b :: r2) Hseg)|].
  apply (seg_app _ ((base, 0) :: r1) (b :: r2) base) in Hseg as [_ [Hs ?]]. done.
Qed.

Lemma taken_NoDup : NoDup (((base, 0) :: r1).*1 ++ b.1 :: r2.*1).
Proof.
  pose proof (ordered_NoDup _ _ (hi_ord _ _ _ _ _ Hi)) as Hnd. rewrite fmap_app in Hnd. exact Hnd.
Qed.

Lemma taken_pred : y.1 ∈ ((base, 0) :: r1).*1 /\ y.1 <> b.1 /\ y.1 ∉ r2.*1 /\ y.1 ∉ A.*1.
Proof.
  assert (Hin : y.1 ∈ ((base, 0) :: r1).*1).
  { unfold y. destruct (last r1) as [c|] eqn:E; simpl; apply elem_of_cons; [right|by left].
    apply last_Some in E as [l ->]. apply list_elem_of_fmap_2. set_solver. }
  split; [done|]. pose proof taken_NoDup as Hnd. apply NoDup_app in Hnd as (_ & Hn & _). specialize (Hn _ Hin).
  apply not_elem_of_cons in Hn as [? ?]. split; [done|]. split; [done|]. intros HA.
  apply list_elem_of_fmap in HA as (a & E & Ha). pose proof (hi_A _ _ _ _ _ Hi) as HAll. rewrite Forall_forall in HAll.
  destruct (HAll a Ha) as ((Hal & _) & Hapos & _). simpl in Hin. apply elem_of_cons in Hin as [Hy|Hy].
  - unfold HDR in *. lia.
  - apply list_elem_of_fmap in Hy as (c & Ec & Hc). pose proof (ordered_above _ _ (hi_ord _ _ _ _ _ Hi)) as Ho.
    rewrite Forall_forall in Ho. assert (Hc' : c ∈ r1 ++ b :: r2) by set_solver.
    apply (apart_ne a c); [done|apply (Ho c Hc')|by apply (hi_fa _ _ _ _ _ Hi)|congruence].
Qed.

(** Taking the whole block. *)
Lemma take_exact w : b.2 = nunits ->
  exists hp', run h (malloc_step nunits (hp, y.1, b.1)) w = Returned (inr (hp', b.1 + HDR)) w /\
    hinv base brk0 hp' (r1 ++ r2) (b :: A).
Proof.
  intros Hb. destruct taken_hdrs as (Hy & Hbh & Hs2). destruct taken_pred as (Hin & Hyb & Hyr & HyA).
  unfold malloc_step. rewrite run_bind, (run_hdr h hp _ _ _ Hbh). cbn [h_size].
  destruct (Z.leb_spec nunits b.2); [|lia]. destruct (Z.eqb_spec b.2 nunits); [|lia].
  rewrite run_bind, run_bind, (run_hdr h hp _ _ _ Hy). cbn [run h_ptr h_size]. eexists. split; [done|].
  pose proof Hi as [Hbase Hbrk Hseg Hord Hfp Hrest HA Hfa Haa]. apply Forall_app in Hrest as [Hr1 Hr2].
  inversion Hr2 as [|? ? Hrb Hr2']; subst. pose proof (ordered_above _ _ Hord) as Hpos. rewrite Forall_forall in Hpos.
  split; cbn [hdrs freep set_freep set_hdr]; try done.
  - apply (seg_relink _ base r1 (b :: r2) r2); try done. pose proof taken_NoDup as Hnd. by apply NoDup_app in Hnd as (? & _).
  - apply ordered_app in Hord as [Ho1 Ho2]. apply ordered_app. split; [done|]. simpl in Ho2. destruct Ho2 as (? & Hb2 & ?).
    eapply ordered_weaken; [|done]. pose proof (bend_above b Hb2). lia.
  - rewrite fmap_app. simpl in Hin. set_solver.
  - by apply Forall_app.
  - constructor; [|by apply hinv_headers]. split; [done|]. split; [apply (Hpos b); set_solver|].
    rewrite lookup_insert_ne by done. by eexists.
  - intros a c Ha Hc. apply elem_of_cons in Ha as [->|Ha]; [by eapply ordered_apart|]. apply Hfa; [done|set_solver].
  - constructor; [|done]. apply Forall_forall. intros a Ha. apply apart_sym, Hfa; [done|set_solver].
Qed.

(** The end of the block is apart from everything else. *)
Lemma taken_part c : nunits < b.2 -> c ∈ A ++ r1 ++ r2 ->
  apart c (b.1, b.2 - nunits) /\ apart c (b.1 + HDR * (b.2 - nunits), nunits).
Proof.
  intros Hb Hc. assert (Ha : apart c b).
  { apply elem_of_app in Hc as [Hc|Hc].
    - apply (hi_fa _ _ _ _ _ Hi); [done|set_solver].
    - apply apart_sym. by apply (ordered_apart base r1 b r2 c (hi_ord _ _ _ _ _ Hi)). }
  destruct (apart_part c b (b.2 - nunits) ltac:(lia) Ha) as [H1 H2]. split; [done|].
  by replace (b.2 - (b.2 - nunits)) with nunits in H2 by lia.
Qed.

Lemma taken_fresh : nunits < b.2 -> b.1 + HDR * (b.2 - nunits) ∉ ((base, 0) :: r1).*1 ++ b.1 :: r2.*1 ++ A.*1.
Proof.
  intros Hb Hin. pose proof Hi as [Hbase Hbrk Hseg Hord Hfp Hrest HA Hfa Haa].
  pose proof (ordered_above _ _ Hord) as Hpos. rewrite Forall_forall in Hpos, HA.
  assert (Hne : forall c, c ∈ A ++ r1 ++ r2 -> 0 < c.2 -> b.1 + HDR * (b.2 - nunits) <> c.1).
  { intros c Hc Hc2 E. destruct (taken_part c Hb Hc) as [_ Hx]. apply (apart_ne c _) in Hx; [done|done|simpl; lia]. }
  destruct (Hpos b ltac:(set_solver)) as [Hb1 _]. simpl in Hin. apply elem_of_cons in Hin as [Hin|Hin]; [unfold HDR in *; lia|].
  apply elem_of_app in Hin as [Hin|Hin].
  { apply list_elem_of_fmap in Hin as (c & E & Hc). apply (Hne c); [set_solver| |done]. apply (Hpos c). set_solver. }
  apply elem_of_cons in Hin as [Hin|Hin]; [unfold HDR in *; lia|]. apply elem_of_app in Hin as [Hin|Hin];
    apply list_elem_of_fmap in Hin as (c & E & Hc); (apply (Hne c); [set_solver| |done]).
  - apply (Hpos c). set_solver.
  - by apply (HA c).
Qed.

(** Taking the end of a larger block. *)
Lemma take_part w : nunits < b.2 ->
  let k := b.2 - nunits in
  exists hp', run h (malloc_step nunits (hp, y.1, b.1)) w = Returned (inr (hp', b.1 + HDR * k + HDR)) w /\
    hinv base brk0 hp' (r1 ++ (b.1, k) :: r2) ((b.1 + HDR * k, nunits) :: A).
Proof.
  intros Hb k. destruct taken_hdrs as (Hy & Hbh & Hs2). destruct taken_pred as (Hin & Hyb & Hyr & HyA).
  unfold malloc_step. rewrite run_bind, (run_hdr h hp _ _ _ Hbh). cbn [h_size].
  destruct (Z.leb_spec nunits b.2); [|lia]. destruct (Z.eqb_spec b.2 nunits); [lia|].
  rewrite run_bind. cbn [run h_ptr h_size]. fold k. eexists. split; [done|].
  pose proof (taken_fresh Hb) as Hfr. fold k in Hfr. rewrite !not_elem_of_app, not_elem_of_cons, not_elem_of_app in Hfr.
  destruct Hfr as (Hf1 & Hf2 & Hf3 & Hf4). pose proof taken_NoDup as Hnd. apply NoDup_app in Hnd as (_ & Hnd1 & Hnd2).
  apply NoDup_cons in Hnd2 as [Hbr2 _]. assert (Hbr1 : b.1 ∉ ((base, 0) :: r1).*1).
  { intros Hx. apply (Hnd1 _ Hx), elem_of_cons. by left. }
  pose proof Hi as [Hbase Hbrk Hseg Hord Hfp Hrest HA Hfa Haa]. apply Forall_app in Hrest as [Hr1 Hr2].
  inversion Hr2 as [|? ? [Hrb1 Hrb2] Hr2']; subst. pose proof (fun c => taken_part c Hb) as Hpart. fold k in Hpart.
  assert (HbA : b.1 ∉ A.*1).
  { intros Hx. apply list_elem_of_fmap in Hx as (a & E & Ha). rewrite Forall_forall in HA. destruct (HA a Ha) as (_ & ? & _).
    apply (apart_ne a b); [done|lia|apply Hfa; set_solver|done]. }
  split; cbn [hdrs freep set_freep set_hdr set_size]; try done.
  - rewrite app_comm_cons. apply (seg_app _ ((base, 0) :: r1) (b :: r2) base) in Hseg as [Hs1 _].
    apply seg_app. split.
    + rewrite !seg_insert; try done.
    + cbn [seg fst snd]. rewrite lookup_insert_ne, lookup_insert_eq by done. split; [done|]. by rewrite !seg_insert.
  - apply ordered_app in Hord as [Ho1 Ho2]. apply ordered_app. split; [done|]. simpl in *. destruct Ho2 as (? & ? & ?).
    split; [done|]. split; [lia|]. eapply ordered_weaken; [|done]. unfold bend, HDR. simpl. lia.
  - rewrite fmap_app. simpl in *. set_solver.
  - apply Forall_app. split; [done|]. constructor; [|done]. unfold inside, bend, HDR in *. simpl. lia.
  - constructor; [|by apply hinv_headers; [apply hinv_headers|]]. split; [unfold inside, bend, HDR in *; simpl; lia|].
    split; [simpl; lia|]. simpl. rewrite lookup_insert_eq. by eexists.
  - intros a c Ha Hc. apply elem_of_cons in Ha as [->|Ha].
    + rewrite elem_of_app, elem_of_cons in Hc. destruct Hc as [Hc|[->|Hc]].
      * apply apart_sym, Hpart. set_solver.
      * right. unfold bend. simpl. lia.
      * apply apart_sym, Hpart. set_solver.
    + rewrite elem_of_app, elem_of_cons in Hc. destruct Hc as [Hc|[->|Hc]]; [apply Hfa; set_solver| |apply Hfa; set_solver].
      apply Hpart. set_solver.
  - constructor; [|done]. apply Forall_forall. intros a Ha. apply apart_sym, Hpart. set_solver.
Qed.
End take.

(** Passing over blocks that are too small. *)
Lemma skip_small hp w (t2 : list block) e : t2 <> [] -> forall t1 prevp n,
  seg (hdrs hp) (t1 ++ t2) e -> Forall (fun x => x.2 < nunits /\ x.1 <> freep hp /\ x.1 <> 0) t1 ->
  run h (piter (length t1 + n) (malloc_step nunits) (hp, prevp, head_addr (t1 ++ t2) e)) w =
  run h (piter n (malloc_step nunits) (hp, default prevp (fst <$> last t1), head_addr t2 e)) w.
Proof.
  intros Ht2. induction t1 as [|x t1 IH]; intros prevp n Hs Hf; [done|]. cbn [app seg] in Hs. destruct Hs as [Hx Hs].
  inversion Hf as [|? ? (Hx1 & Hx2 & Hx3) Hf']; subst. cbn [length Nat.add app head_addr]. rewrite piter_S.
  unfold malloc_step at 1. rewrite run_bind, (run_hdr h hp _ _ _ Hx). cbn [h_size]. destruct (Z.leb_spec nunits x.2); [lia|].
  destruct (Z.eqb_spec x.1 (freep hp)); [done|]. cbn [pbind]. destruct (Z.eqb_spec x.1 0); [done|].
  rewrite run_bind, (run_hdr h hp _ _ _ Hx). cbn [run h_ptr]. rewrite IH by done.
  rewrite last_cons. by destruct (last t1).
Qed.

(** The circle from the block after [freep] round to it. *)
Lemma ring hp rest A : hinv base brk0 hp rest A ->
  exists f L, freep hp = f.1 /\ hdrs hp !! f.1 = Some (mkHeader (head_addr (L ++ [f]) base) f.2) /\
    seg (hdrs hp) (L ++ [f]) (head_addr (L ++ [f]) base) /\ L ++ [f] ≡ₚ (base, 0) :: rest /\
    NoDup ((L ++ [f]).*1) /\ Forall (fun x => x.1 <> 0) (L ++ [f]).
Proof.
  intros Hi. pose proof (hi_freep _ _ _ _ _ Hi) as Hf. change (base :: rest.*1) with (((base, 0) :: rest).*1) in Hf.
  apply list_elem_of_fmap in Hf as (f & Ef & Hf). apply list_elem_of_split in Hf as (l1 & l2 & E).
  pose proof (hi_seg _ _ _ _ _ Hi) as Hs. pose proof (ordered_NoDup _ _ (hi_ord _ _ _ _ _ Hi)) as Hnd.
  assert (Hp : (l2 ++ l1) ++ [f] ≡ₚ (base, 0) :: rest) by (rewrite E; solve_Permutation).
  assert (Hh : forall e, head_addr (l1 ++ [f]) e = base) by (intros e; by destruct l1; simplify_eq/=).
  rewrite E in Hs. apply seg_app in Hs as [Hs1 [Hs2 Hs3]].
  exists f, (l2 ++ l1). split; [done|]. rewrite <- app_assoc, head_addr_app, Hh.
  split; [done|]. split; [|split; [|split]].
  - apply seg_app. rewrite Hh. split; [done|]. apply seg_app. split; [done|]. by split.
  - by rewrite app_assoc.
  - rewrite app_assoc, Hp. exact Hnd.
  - rewrite app_assoc, Hp. pose proof (hi_base _ _ _ _ _ Hi). constructor; [simpl; lia|].
    eapply Forall_impl; [apply (hi_rest _ _ _ _ _ Hi)|]. intros x [? _]. unfold HDR in *. lia.
Qed.

(** Where the first block of the circle that is large enough is. *)
Lemma first_fit (l : list block) : Forall (fun x => x.2 < nunits) l \/
  exists t1 b t2, l = t1 ++ b :: t2 /\ nunits <= b.2 /\ Forall (fun x => x.2 < nunits) t1.
Proof.
  induction l as [|x l [IH|(t1 & b & t2 & -> & Hb & Ht)]]; [by left| |].
  - destruct (decide (nunits <= x.2)); [right; by exists [], x, l|left; constructor; [lia|done]].
  - destruct (decide (nunits <= x.2)); [right; by exists [], x, (t1 ++ b :: t2)|].
    right. exists (x :: t1), b, t2. split; [done|]. split; [done|]. constructor; [lia|done].
Qed.

(** Before the first fit come small blocks, and before it stands its predecessor. *)
Lemma before_fit hp f L t1 b t2 :
  freep hp = f.1 -> hdrs hp !! f.1 = Some (mkHeader (head_addr (L ++ [f]) base) f.2) ->
  seg (hdrs hp) (L ++ [f]) (head_addr (L ++ [f]) base) -> NoDup ((L ++ [f]).*1) -> Forall (fun x => x.1 <> 0) (L ++ [f]) ->
  L ++ [f] = t1 ++ b :: t2 -> Forall (fun x => x.2 < nunits) t1 ->
  Forall (fun x => x.2 < nunits /\ x.1 <> freep hp /\ x.1 <> 0) t1 /\
  default f (last t1) ∈ L ++ [f] /\ h_ptr <$> hdrs hp !! (default f (last t1)).1 = Some b.1.
Proof.
  intros Ef Hf Hs Hnd H0 E Ht1. assert (Hft : f ∈ b :: t2).
  { assert (El : last (L ++ [f]) = last (t1 ++ b :: t2)) by (by rewrite E). rewrite last_snoc, last_app in El.
    destruct (last (b :: t2)) as [z|] eqn:Ez; [|by rewrite last_cons in Ez; destruct (last t2)].
    injection El as ->. apply last_Some in Ez as [l' ->]. set_solver. }
  rewrite E in *. split_and!.
  - rewrite fmap_app in Hnd. apply NoDup_app in Hnd as (_ & Hd & _). apply Forall_app in H0 as [H0 _].
    rewrite Forall_forall in *. intros x Hx. split; [by apply Ht1|]. split; [|by apply H0].
    intros Ex. apply (Hd x.1); [by apply list_elem_of_fmap_2|]. rewrite Ex, Ef. by apply list_elem_of_fmap_2.
  - destruct (last t1) as [z|] eqn:Ez; simpl; [|set_solver]. apply last_Some in Ez as [l' ->]. set_solver.
  - destruct t1 as [|z t1 _] using rev_ind; [simpl; by rewrite Hf|]. rewrite last_snoc. cbn [default from_option id].
    rewrite <- app_assoc in Hs. apply seg_app in Hs as [_ [Hz _]]. by rewrite Hz.
Qed.

(** A block handed out of the free bytes [F]: of the size asked for and apart from every block
    in use, with all other bytes of [F] still free. *)
Definition handed_out (brk q : Z) (hp : heap) (F : Z -> Prop) (A : list block) : Prop :=
  exists rest, hinv base brk hp rest ((q - HDR, nunits) :: A) /\ forall x, in_blocks rest x \/ in_block (q - HDR, nunits) x <-> F x.

Lemma scan_finds hp rest A n w :
  hinv base brk0 hp rest A -> (exists c, c ∈ rest /\ nunits <= c.2) -> (length rest + 1 < n)%nat ->
  exists x hp' q, hdrs hp !! freep hp = Some x /\
    run h (piter n (malloc_step nunits) (hp, freep hp, h_ptr x)) w = Returned (hp', q) w /\ handed_out brk0 q hp' (in_blocks rest) A.
Proof.
  intros Hi (c & Hc & Hcn) Hn. destruct (ring _ _ _ Hi) as (f & L & Ef & Hf & Hs & HP & Hnd & H0).
  set (R := L ++ [f]) in *. assert (HcR : c ∈ R) by (rewrite HP; set_solver).
  destruct (first_fit R) as [Hall|(t1 & b & t2 & ER & Hb & Ht1)].
  { rewrite Forall_forall in Hall. specialize (Hall c HcR). lia. }
  (* the chosen block is one of [rest] *)
  assert (Hbr : b ∈ rest).
  { assert (HbR : b ∈ (base, 0) :: rest) by (rewrite <- HP, ER; set_solver). apply elem_of_cons in HbR as [->|?]; [simpl in Hb; lia|done]. }
  apply list_elem_of_split in Hbr as (r1 & r2 & Er). subst rest.
  destruct (before_fit hp f L t1 b t2 Ef Hf Hs Hnd H0 ER Ht1) as (Hsm & Hpin & Hpp).
  assert (Hpred : default f (last t1) = default (base, 0) (last r1)).
  { apply (seg_pred_unique (hdrs hp) base r1 b r2); [apply Hi| |by rewrite <- HP|done].
    exact (ordered_NoDup _ _ (hi_ord _ _ _ _ _ Hi)). }
  assert (Hpa : default (freep hp) (fst <$> last t1) = (default (base, 0) (last r1)).1) by (rewrite <- Hpred, Ef; by destruct (last t1)).
  assert (Hlen : (length t1 < n)%nat).
  { apply Permutation_length in HP. rewrite ER, length_app in HP. simpl in HP. lia. }
  destruct (n - length t1)%nat as [|n'] eqn:En; [lia|]. replace n with (length t1 + S n')%nat by lia.
  exists (mkHeader (head_addr R base) f.2). rewrite <- Ef in Hf. cbn [h_ptr]. rewrite ER in Hs, Hf |- *. set (e := head_addr (t1 ++ b :: t2) base) in *.
  pose proof (skip_small hp w (b :: t2) e ltac:(done) t1 (freep hp) (S n') Hs Hsm) as Hk.
  replace (head_addr (t1 ++ b :: t2) e) with e in Hk by (unfold e; by destruct t1). rewrite Hk, Hpa. cbn [head_addr].
  rewrite piter_S. destruct (decide (b.2 = nunits)) as [Eb|Eb].
  - destruct (take_exact hp r1 r2 A b Hi w Eb) as (hp' & E & Hi'). rewrite E. exists hp', (b.1 + HDR).
    split; [exact Hf|]. split; [done|]. exists (r1 ++ r2). rewrite Z.add_simpl_r, <- Eb. split; [by destruct b|].
    intros x. rewrite !in_blocks_app, in_blocks_cons. destruct b. tauto.
  - destruct (take_part hp r1 r2 A b Hi w ltac:(lia)) as (hp' & E & Hi'). rewrite E. eexists hp', _.
    split; [exact Hf|]. split; [done|]. eexists. rewrite Z.add_simpl_r. split; [exact Hi'|].
    intros x. rewrite !in_blocks_app, !in_blocks_cons. assert (in_block (b.1, b.2 - nunits) x \/ in_block (b.1 + HDR * (b.2 - nunits), nunits) x <-> in_block b x); [|tauto].
    unfold in_block, bend, HDR. cbn [fst snd]. lia.
Qed.
End malloc.

(** ** morecore and malloc *)

Lemma hinv_grow base brk brk' hp rest A : hinv base brk hp rest A -> brk <= brk' < 2 ^ 31 -> hinv base brk' hp rest A.
Proof.
  intros [Hbase Hbrk Hseg Hord Hfp Hrest HA Hfa Haa] Hk. split; try done; [lia| |].
  - eapply Forall_impl; [exact Hrest|]. unfold inside. intros x; simpl. lia.
  - eapply Forall_impl; [exact HA|]. unfold inside. intros x (H1 & H2 & H3); simpl. split; [lia|done].
Qed.

(** New memory at the end is a block in use until it is freed. *)
Lemma hinv_new base brk hp rest A nu : hinv base brk hp rest A -> 0 < nu -> brk + HDR * nu < 2 ^ 31 ->
  hinv base (brk + HDR * nu) (set_size brk nu hp) rest ((brk, nu) :: A).
Proof.
  intros Hi Hnu Hk. pose proof (hinv_grow base brk (brk + HDR * nu) hp rest A Hi ltac:(unfold HDR in *; lia)) as Hg.
  pose proof Hi as [Hbase Hbrk Hseg Hord Hfp Hrest HA Hfa Haa]. pose proof (ordered_above _ _ Hord) as Hpos.
  rewrite Forall_forall in Hpos, Hrest, HA.
  assert (Hbelow : forall x, x ∈ A ++ rest -> bend x <= brk /\ 0 < x.2).
  { intros x Hx. apply elem_of_app in Hx as [Hx|Hx]; [destruct (HA x Hx) as ((_ & ?) & ? & _)|destruct (Hrest x Hx); destruct (Hpos x Hx)]; done. }
  assert (Hne : forall x, x ∈ A ++ rest -> x.1 <> brk).
  { intros x Hx. destruct (Hbelow x Hx) as [? Hp]. pose proof (bend_above x Hp). lia. }
  split; cbn [hdrs freep set_size set_hdr]; try apply Hg; try done.
  - rewrite seg_insert; [done|]. simpl. apply not_elem_of_cons. split; [unfold HDR in *; lia|].
    intros (x & E & Hx)%list_elem_of_fmap. apply (Hne x); [set_solver|done].
  - constructor.
    + split; [unfold inside, bend, HDR in *; simpl; lia|]. split; [done|]. simpl. rewrite lookup_insert_eq. by eexists.
    + apply hinv_headers; [apply Hg|]. intros (x & E & Hx)%list_elem_of_fmap. apply (Hne x); [set_solver|done].
  - intros a c Ha Hc. apply elem_of_cons in Ha as [->|Ha]; [|by apply Hfa]. right. apply Hbelow. set_solver.
  - constructor; [|done]. apply Forall_forall. intros a Ha. right. apply Hbelow. set_solver.
Qed.

Section world.
Context {W : Type} (h : handler W) (brk : W -> Z) `{!SbrkWorld h brk} `{Fuel} (base : Z).

(** The bytes that morecore asks sbrk for. *)
Definition more (nu : Z) : Z := Z.max 4096 nu * HDR.

Lemma morecore_ok hp rest A nu w : hinv base (brk w) hp rest A -> 1 <= nu -> nu * HDR < 2 ^ 31 -> (length rest + 1 < fuel)%nat ->
  exists hp' r w', run h (morecore hp nu) w = Returned (hp', r) w' /\
    (r = 0 /\ hp' = hp /\ brk w' = brk w /\ h _ (Ssbrk (more nu)) w = (-1, w') \/
     r = freep hp' /\ r <> 0 /\ h _ (Ssbrk (more nu)) w = (brk w, w') /\ exists rest', hinv base (brk w') hp' rest' A /\ (length rest' <= length rest + 1)%nat /\
       (forall x, in_blocks rest' x <-> in_blocks rest x \/ brk w <= x < brk w') /\
       exists c, c ∈ rest' /\ nu <= c.2).
Proof.
  intros Hi Hnu Hsmall Hfuel. unfold morecore, more. set (k := if nu <? 4096 then 4096 else nu). replace (Z.max 4096 nu) with k by (unfold k; destruct (Z.ltb_spec nu 4096); lia).
  assert (Hk : nu <= k /\ k * HDR < 2 ^ 31) by (unfold k, HDR in *; destruct (Z.ltb_spec nu 4096); lia).
  rewrite i32_small, run_bind_sys by (unfold HDR in *; lia). pose proof (sbrk_law (k * HDR) w ltac:(unfold HDR; lia)) as Hl.
  destruct (h _ (Ssbrk (k * HDR)) w) as [r w'] eqn:Eh. cbn [fst snd]. pose proof (hi_brk _ _ _ _ _ Hi) as Hbk. pose proof (hi_base _ _ _ _ _ Hi) as Hb0.
  destruct Hl as [[-> Hw]|(-> & Hw & Hlt)].
  { exists hp, 0, w'. split; [done|]. by left. }
  destruct (Z.eqb_spec (brk w) (-1)); [unfold HDR in *; lia|]. rewrite run_bind.
  replace (k * HDR) with (HDR * k) in Hw by lia. rewrite Hw in Hlt.
  pose proof (hinv_new base (brk w) hp rest A k Hi ltac:(lia) Hlt) as Hi1.
  destruct (free_ok h base (brk w + HDR * k) (set_size (brk w) k hp) rest [] A (brk w, k) w' Hi1 Hfuel) as (hp' & lo & hi & Er & E & Hi2).
  cbn [fst] in E. rewrite E. exists hp', (freep hp'), w'. split; [done|]. right. split; [done|]. cbn [app] in Hi2. rewrite <- Hw in Hi2. split.
  2: split; [done|].
  { pose proof (hi_freep _ _ _ _ _ Hi2) as Hf. apply elem_of_cons in Hf as [->|Hf]; [lia|].
    apply list_elem_of_fmap in Hf as (x & -> & Hx). pose proof (hi_rest _ _ _ _ _ Hi2) as Hr. rewrite Forall_forall in Hr.
    destruct (Hr x Hx). unfold HDR in *. lia. }
  assert (Hp : Forall (fun c => 0 <= c.2) (lo ++ hi)).
  { pose proof (ordered_above _ _ (hi_ord _ _ _ _ _ Hi)) as Hp. rewrite Er in Hp. eapply Forall_impl; [exact Hp|]. simpl. lia. }
  exists (insert_free (brk w, k) lo hi). split; [done|]. split; [rewrite Er; apply insert_free_length|]. split.
  - intros x. rewrite in_blocks_insert, Er by (done || (simpl; lia)). unfold in_block, bend. cbn [fst snd]. rewrite Hw. done.
  - destruct (insert_free_covers lo hi (brk w, k)) as (c & Hc & _ & _ & Hck); [simpl; lia|done|]. exists c. split; [done|]. simpl in Hck. lia.
Qed.

(** The heap before the first call, or with free blocks [rest] and used ones [A]. *)
Definition heap_rep (bk : Z) (hp : heap) (rest A : list block) : Prop :=
  freep hp = 0 /\ rest = [] /\ A = [] /\ 0 < base /\ base + HDR <= bk < 2 ^ 31 \/
  freep hp <> 0 /\ hinv base bk hp rest A.

Lemma hinv_freep bk hp rest A : hinv base bk hp rest A -> freep hp <> 0.
Proof.
  intros Hi. pose proof (hi_base _ _ _ _ _ Hi). pose proof (hi_freep _ _ _ _ _ Hi) as Hf.
  apply elem_of_cons in Hf as [->|Hf]; [lia|]. apply list_elem_of_fmap in Hf as (x & -> & Hx).
  pose proof (hi_rest _ _ _ _ _ Hi) as Hr. rewrite Forall_forall in Hr. destruct (Hr x Hx). unfold HDR in *. lia.
Qed.

(** The first call makes the circle of [base] alone. *)
Lemma heap_rep_start bk hp rest A : heap_rep bk hp rest A ->
  hinv base bk (if freep hp =? 0 then set_freep base (set_hdr base (mkHeader base 0) hp) else hp) rest A.
Proof.
  intros [(-> & -> & -> & Hb & Hk)|[Hn Hi]]; [|by destruct (Z.eqb_spec (freep hp) 0)]. simpl.
  split; cbn [hdrs freep set_freep set_hdr]; try (constructor; fail); try done.
  - simpl. by rewrite lookup_insert_eq.
  - intros a b Ha. by apply not_elem_of_nil in Ha.
Qed.

(** Reaching [freep] without a fit, the loop asks for more memory. *)
Lemma scan_fails hp rest A nunits n w : hinv base (brk w) hp rest A -> 1 <= nunits -> Forall (fun x => x.2 < nunits) rest ->
  exists x prevp y, hdrs hp !! freep hp = Some x /\ hdrs hp !! freep hp = Some y /\
    run h (piter (length rest + n) (malloc_step nunits) (hp, freep hp, h_ptr x)) w =
    run h (piter n (malloc_step nunits) (hp, prevp, freep hp)) w /\ h_size y < nunits.
Proof.
  intros Hi Hnu Hall. destruct (ring base (brk w) hp rest A Hi) as (f & L & Ef & Hf & Hs & HP & Hnd & H0).
  assert (HallR : Forall (fun x => x.2 < nunits) (L ++ [f])) by (rewrite HP; constructor; [simpl; lia|done]).
  apply Forall_app in HallR as [HL Hfs]. inversion Hfs; subst.
  destruct (before_fit base nunits Hnu hp f L L f [] Ef Hf Hs Hnd H0 eq_refl HL) as (Hsm & _ & _).
  set (e := head_addr (L ++ [f]) base) in *. eexists _, (default (freep hp) (fst <$> last L)), _. rewrite Ef, Hf. split; [done|]. split; [done|].
  pose proof (skip_small h nunits hp w [f] e ltac:(done) L (freep hp) n Hs Hsm) as Hk.
  replace (head_addr (L ++ [f]) e) with e in Hk by (unfold e; by destruct L). cbn [head_addr] in Hk.
  apply Permutation_length in HP. rewrite length_app in HP. simpl in HP. replace (length rest) with (length L) by lia.
  rewrite <- Ef at 1. cbn [h_ptr h_size]. split; [|done]. by rewrite Hk, Ef.
Qed.

Lemma malloc_loop hp rest A nunits w : hinv base (brk w) hp rest A -> 1 <= nunits -> nunits * HDR < 2 ^ 31 ->
  (2 * length rest + 5 < fuel)%nat ->
  exists x hp' q w', hdrs hp !! freep hp = Some x /\
    run h (piter fuel (malloc_step nunits) (hp, freep hp, h_ptr x)) w = Returned (hp', q) w' /\
    (q = 0 /\ hp' = hp /\ brk w' = brk w /\ Forall (fun x => x.2 < nunits) rest /\ h _ (Ssbrk (more nunits)) w = (-1, w') \/
     q <> 0 /\ ((exists b, b ∈ rest /\ nunits <= b.2) /\ w' = w \/
                Forall (fun x => x.2 < nunits) rest /\ h _ (Ssbrk (more nunits)) w = (brk w, w')) /\
       handed_out base nunits (brk w') q hp' (fun x => in_blocks rest x \/ brk w <= x < brk w') A).
Proof.
  intros Hi Hnu Hsmall Hfuel.
  assert (Hq : forall bk q hp' F, handed_out base nunits bk q hp' F A -> q <> 0).
  { intros bk q hp' F (rest' & Hi' & _). pose proof (hi_base _ _ _ _ _ Hi'). pose proof (hi_A _ _ _ _ _ Hi') as HA.
    inversion HA as [|? ? ((Hq & _) & _) _]; subst. simpl in Hq. unfold HDR in *. lia. }
  destruct (first_fit nunits rest) as [Hall|(t1 & b & t2 & Er & Hb & _)].
  2:{ destruct (scan_finds h base (brk w) nunits Hnu hp rest A fuel w Hi) as (x & hp' & q & Hx & E & Ho); [|lia|].
      { exists b. split; [rewrite Er; set_solver|done]. }
      exists x, hp', q, w. split; [done|]. split; [done|]. right. split; [by eapply Hq|]. split.
      - left. split; [|done]. exists b. split; [rewrite Er; set_solver|done].
      - destruct Ho as (rest' & Hi' & Hf). exists rest'. split; [done|]. intros x'. rewrite Hf. split; [tauto|]. intros [?|?]; [done|lia]. }
  destruct (fuel - length rest)%nat as [|n] eqn:En; [lia|].
  destruct (scan_fails hp rest A nunits (S n) w Hi Hnu Hall) as (x & prevp & y & Hx & Hy & E & Hsz).
  exists x. replace (length rest + S n)%nat with fuel in E by lia. rewrite E, piter_S. unfold malloc_step at 1.
  rewrite run_bind, (run_hdr h hp _ _ _ Hy). destruct (Z.leb_spec nunits (h_size y)); [lia|]. rewrite Z.eqb_refl, run_bind.
  destruct (morecore_ok hp rest A nunits w Hi Hnu Hsmall ltac:(lia)) as (hp1 & r & w1 & -> & [(-> & -> & Hw & Hsb)|(-> & Hr0 & Hsb & rest' & Hi' & Hlen & Hin & Hbig)]).
  { simpl. exists hp, 0, w1. split; [done|]. split; [done|]. by left. }
  destruct (Z.eqb_spec (freep hp1) 0); [done|].
  destruct (scan_finds h base (brk w1) nunits Hnu hp1 rest' A n w1 Hi' Hbig ltac:(lia)) as (x1 & hp' & q & Hx1 & E1 & Ho).
  rewrite run_bind, (run_hdr h hp1 _ _ _ Hx1). cbn [run]. rewrite E1. exists hp', q, w1. split; [done|]. split; [done|].
  right. split; [by eapply Hq|]. split; [by right|]. destruct Ho as (rest2 & Hi2 & Hf). exists rest2. split; [done|]. intros x'. by rewrite Hf.
Qed.

Lemma nunits_of nbytes : 0 <= nbytes -> nbytes + 32 < 2 ^ 31 ->
  let n := (nbytes + HDR - 1) / HDR + 1 in 1 <= n /\ n * HDR < 2 ^ 31 /\ nbytes <= HDR * (n - 1) /\ u32 n = n.
Proof.
  intros H0 Hs n. unfold HDR in *. pose proof (Z.div_mod (nbytes + 16 - 1) 16 ltac:(lia)).
  pose proof (Z.mod_pos_bound (nbytes + 16 - 1) 16 ltac:(lia)). subst n. split; [lia|]. split; [lia|]. split; [lia|].
  apply u32_small. lia.
Qed.
End world.

(** C7. malloc of less than 2 GB returns, with the circle searched at most twice.  It
    returns 0 exactly when no free block is large enough and the sbrk it then makes
    answers -1, and leaves the heap as it is.  Otherwise it returns a block of the units
    for the bytes asked for, apart from every block in use; the block comes out of the
    free bytes, or out of them and the bytes sbrk has added, all others of them stay
    free, and the free list stays a circle in order of address. *)
Theorem malloc_hands_out_unused {W} (h : handler W) brk `{!SbrkWorld h brk} `{Fuel} base hp rest A nbytes w :
  heap_rep base (brk w) hp rest A -> 0 <= nbytes -> nbytes + 32 < 2 ^ 31 -> (2 * length rest + 5 < fuel)%nat ->
  let n := (nbytes + HDR - 1) / HDR + 1 in
  exists hp' q w', run h (malloc base hp nbytes) w = Returned (hp', q) w' /\ nbytes <= HDR * (n - 1) /\
    (q = 0 /\ Forall (fun b => b.2 < n) rest /\ h _ (Ssbrk (more n)) w = (-1, w') /\ heap_rep base (brk w') hp' rest A \/
     q <> 0 /\ ((exists b, b ∈ rest /\ n <= b.2) /\ w' = w \/ Forall (fun b => b.2 < n) rest /\ h _ (Ssbrk (more n)) w = (brk w, w')) /\
       exists rest', hinv base (brk w') hp' rest' ((q - HDR, n) :: A) /\
         forall x, in_blocks rest' x \/ in_block (q - HDR, n) x <-> in_blocks rest x \/ brk w <= x < brk w').
Proof.
  intros Hr H0 Hs Hfuel n. pose proof (heap_rep_start base (brk w) hp rest A Hr) as Hi.
  destruct (nunits_of nbytes H0 Hs) as (Hn1 & Hn2 & Hn3 & Hn4). unfold malloc. rewrite Hn4. fold n in Hn1, Hn2, Hn3 |- *.
  set (hp1 := if freep hp =? 0 then _ else hp) in *.
  destruct (malloc_loop h brk base hp1 rest A n w Hi Hn1 Hn2 Hfuel) as (x & hp' & q & w' & Hx & E & Hq).
  rewrite run_bind, (run_hdr h hp1 _ _ _ Hx), E. exists hp', q, w'. split; [done|]. split; [done|].
  destruct Hq as [(-> & -> & Hw & Hall & Hsb)|Hq]; [left|by right]. split_and!; try done. right. rewrite Hw. split; [by eapply hinv_freep|done].
Qed.

(** C35. free of a block in use returns.  The free bytes are then those that were free
    and those of the block, in a circle of blocks in order of address of which no two
    touch, so the block is merged with the free blocks next to it, and the other blocks
    in use stay as they are. *)
Theorem free_returns_block {W} (h : handler W) `{Fuel} base bk hp rest A1 A2 b w :
  hinv base bk hp rest (A1 ++ b :: A2) -> (length rest + 1 < fuel)%nat ->
  exists hp' rest', run h (free hp (b.1 + HDR)) w = Returned hp' w /\ hinv base bk hp' rest' (A1 ++ A2) /\
    forall x, in_blocks rest' x <-> in_blocks rest x \/ in_block b x.
Proof.
  intros Hi Hf. destruct (free_ok h base bk hp rest A1 A2 b w Hi Hf) as (hp' & lo & hi & -> & E & Hi').
  pose proof (ordered_above _ _ (hi_ord _ _ _ _ _ Hi)) as Hp. pose proof (hi_A _ _ _ _ _ Hi) as HA. rewrite Forall_forall in HA.
  destruct (HA b ltac:(set_solver)) as (_ & Hb & _). exists hp', (insert_free b lo hi). split; [done|]. split; [done|].
  intros x. apply in_blocks_insert; [lia|]. eapply Forall_impl; [exact Hp|]. simpl. lia.
Qed.

(** ** Concrete heaps *)

#[local] Instance ex_malloc_fuel : Fuel := 20%nat.

(** The break of a process of at most 128 MB.  A negative argument larger than
    the process leaves the break alone, as growproc does: the new size wraps
    around to one that is not smaller, and uvmdealloc returns the old size. *)
Definition ex_sbrk : handler Z := fun X c w =>
  match c in sys X return X * Z with
  | Ssbrk n =>
      if n <? 0 then (if w + n <? 0 then (w, w) else (w, w + n))
      else if w + n <? 2 ^ 27 then (w, w + n) else (-1, w)
  | Swait => ((-1, 0), w)
  | Spipe => ((-1, (0, 0)), w)
  | Sread _ _ => ((0, []), w)
  | Sfstat _ => ((-1, mkStat 0 0 0 0 0), w)
  | Sexec _ _ => (None, w)
  | Sfork | Swrite _ _ | Sclose _ | Skill _ | Sopen _ _ | Smknod _ _ _ | Sunlink _ | Slink _ _ | Smkdir _ | Schdir _ | Sdup _
  | Sgetpid | Ssleep _ | Suptime => (0, w)
  end.

#[local] Instance ex_sbrk_world : SbrkWorld ex_sbrk (fun w => w).
Proof.
  intros n w Hn. cbn [ex_sbrk]. destruct (Z.ltb_spec n 0); [lia|]. destruct (Z.ltb_spec (w + n) (2 ^ 27)); [right|by left].
  split; [done|]. split; [done|lia].
Qed.

Lemma malloc_hands_out_unused_witness :
  exists hp' q w', run ex_sbrk (malloc 4096 heap_init 100) 8192 = Returned (hp', q) w' /\ 100 <= HDR * (8 - 1) /\
    (q = 0 /\ Forall (fun b : block => b.2 < 8) [] /\ ex_sbrk _ (Ssbrk (more 8)) 8192 = (-1, w') /\ heap_rep 4096 w' hp' [] [] \/
     q <> 0 /\ ((exists b : block, b ∈ [] /\ 8 <= b.2) /\ w' = 8192 \/ Forall (fun b : block => b.2 < 8) [] /\ ex_sbrk _ (Ssbrk (more 8)) 8192 = (8192, w')) /\
       exists rest', hinv 4096 w' hp' rest' [(q - HDR, 8)] /\
         forall x, in_blocks rest' x \/ in_block (q - HDR, 8) x <-> in_blocks [] x \/ 8192 <= x < w').
Proof.
  apply (malloc_hands_out_unused ex_sbrk (fun w => w) 4096 heap_init [] [] 100 8192); try lia.
  - left. unfold HDR. simpl. split_and!; (done || lia).
  - vm_compute. lia.
Defined.

Definition ex_used : heap := mkHeap {[4096 := mkHeader 4096 0; 8192 := mkHeader 0 7]} 4096.

Lemma ex_used_inv : hinv 4096 65536 ex_used [] [(8192, 7)].
Proof.
  split; try done; unfold HDR; try lia.
  - apply elem_of_cons. by left.
  - constructor; [|constructor]. unfold inside, bend, HDR. simpl. split; [lia|]. split; [lia|]. by exists 0.
  - intros a b _ Hb. by apply not_elem_of_nil in Hb.
  - repeat constructor.
Qed.

Lemma free_returns_block_witness :
  exists hp' rest', run ex_sbrk (free ex_used (8192 + HDR)) 65536 = Returned hp' 65536 /\ hinv 4096 65536 hp' rest' [] /\
    forall x, in_blocks rest' x <-> in_blocks [] x \/ in_block (8192, 7) x.
Proof.
  apply (free_returns_block ex_sbrk 4096 65536 ex_used [] [] [] (8192, 7) 65536 ex_used_inv). vm_compute. lia.
Defined.

(** A request of 2 GB: morecore's size does not fit the int that sbrk takes
    and arrives there negative, sbrk returns the break unchanged, and malloc
    hands out memory above the break that the process does not have. *)
Theorem malloc_huge_unbacked :
  exists hp' q, run ex_sbrk (malloc 4096 heap_init (2 ^ 31)) 8192 = Returned (hp', q) 8192 /\ 8192 < q.
Proof. eexists _, _. split; [vm_compute; reflexivity|vm_compute; reflexivity]. Qed.
