(* ===== verification/Sh.v ===== *)
(** user/sh.c: the shell's parser, its command runner and its main loop.

    The command line is the array [buf]; a char pointer into it is an offset.
    The parser builds a [cmd] whose words are pairs of offsets, and nulterminate
    then ends each word with a NUL in the same array.  malloc is taken to
    succeed: the constructors clear what it returns without looking at it. *)

From S2P Require Import Prelude Outcome UserSys Ulib Uprintf.

Definition MAXARGS : nat := 10.

(** struct cmd and its variants; argv up to its null pointer, a word being the
    offsets [argv[i]] and [eargv[i]]. *)
Inductive cmd : Type :=
| EXEC (argv : list (nat * nat))
| REDIR (c : cmd) (file efile : nat) (mode fd : Z)
| PIPE (left right : cmd)
| LIST (left right : cmd)
| BACK (c : cmd).

Definition panic {A} (s : string) : prog A := fprintf 2 (line "%s") [AStr (Some (chars s))];; PExit 1.

Definition fork1 : prog Z :=
  pid <- sys_ Sfork;;
  if pid =? -1 then panic "fork" else PRet pid.

(** ** Tokens *)

Definition whitespace : list Z := [32; 9; 13; 10; 11].
Definition symbols : list Z := chars "<|>&;()".

(** strchr on a string constant, as a truth value; a NUL is in none. *)
Definition among (toks : list Z) (c : Z) : bool := negb (c =? 0) && bool_decide (c ∈ toks).

(** [while(s < es && f( *s)) s++]: [k] is [es - s]. *)
Fixpoint skip (f : Z -> bool) (buf : list Z) (k s : nat) : nat :=
  match k with
  | O => s
  | S k' => if f (buf !!! s) then skip f buf k' (S s) else s
  end.
Definition skip_ws (buf : list Z) (s es : nat) : nat := skip (among whitespace) buf (es - s) s.

(** The token at [s]: what gettoken returns, q, eq and the new [s]. *)
Definition gettoken (buf : list Z) (s es : nat) : Z * nat * nat * nat :=
  let q := skip_ws buf s es in
  let c := buf !!! q in
  let '(ret, eq) :=
    if c =? 0 then (0, q)
    else if among (chars "|();&<") c then (c, S q)
    else if c =? 62 (* > *) then
      if buf !!! S q =? 62 then (43, S (S q)) else (62, S q)
    else
      (97, skip (fun c => negb (among whitespace c) && negb (among symbols c)) buf (es - q) q) in
  (ret, q, eq, skip_ws buf eq es).

Definition peek (buf : list Z) (s es : nat) (toks : list Z) : bool * nat :=
  let s := skip_ws buf s es in
  (among toks (buf !!! s), s).

(** ** The parser: every function returns the command and the new [s] *)

Section parse.
Context (buf : list Z) (es : nat).

(** A loop reads at least one character in every round. *)
Definition rounds : nat := S (length buf).

Definition redir_step (st : cmd * nat) : prog (cmd * nat + cmd * nat) :=
  let '(c, s) := st in
  let '(b, s) := peek buf s es (chars "<>") in
  if negb b then PRet (inr (c, s))
  else
    let '(tok, _, _, s) := gettoken buf s es in
    let '(a, q, eq, s) := gettoken buf s es in
    if negb (a =? 97) then panic "missing file for redirection"
    else PRet (inl (
      if tok =? 60 then REDIR c q eq O_RDONLY 0
      else if tok =? 62 then REDIR c q eq (Z.lor O_WRONLY (Z.lor O_CREATE O_TRUNC)) 1
      else if tok =? 43 then REDIR c q eq (Z.lor O_WRONLY O_CREATE) 1
      else c, s)).
Definition parseredirs (c : cmd) (s : nat) : prog (cmd * nat) := piter rounds redir_step (c, s).

(** The execcmd of parseexec is filled while redirections already wrap it. *)
Fixpoint set_argv (argv : list (nat * nat)) (c : cmd) : cmd :=
  match c with
  | EXEC _ => EXEC argv
  | REDIR c' f e m fd => REDIR (set_argv argv c') f e m fd
  | _ => c
  end.

Definition exec_step (st : cmd * list (nat * nat) * nat) : prog (cmd * list (nat * nat) * nat + cmd * nat) :=
  let '(ret, argv, s) := st in
  let '(b, s) := peek buf s es (chars "|)&;") in
  if b then PRet (inr (set_argv argv ret, s))
  else
    let '(tok, q, eq, s) := gettoken buf s es in
    if tok =? 0 then PRet (inr (set_argv argv ret, s))
    else if negb (tok =? 97) then panic "syntax"
    else
      let argv := argv ++ [(q, eq)] in
      if (MAXARGS <=? length argv)%nat then panic "too many args"
      else
        '(ret, s) <- parseredirs ret s;;
        PRet (inl (ret, argv, s)).

Definition parseblock (parseline : nat -> prog (cmd * nat)) (s : nat) : prog (cmd * nat) :=
  let '(b, s) := peek buf s es (chars "(") in
  if negb b then panic "parseblock"
  else
    let '(_, _, _, s) := gettoken buf s es in
    '(c, s) <- parseline s;;
    let '(b, s) := peek buf s es (chars ")") in
    if negb b then panic "syntax - missing )"
    else
      let '(_, _, _, s) := gettoken buf s es in
      parseredirs c s.

Definition parseexec (parseline : nat -> prog (cmd * nat)) (s : nat) : prog (cmd * nat) :=
  let '(b, s) := peek buf s es (chars "(") in
  if b then parseblock parseline s
  else
    '(ret, s) <- parseredirs (EXEC []) s;;
    piter rounds exec_step (ret, [], s).

Definition back_step (st : cmd * nat) : prog (cmd * nat + cmd * nat) :=
  let '(c, s) := st in
  let '(b, s) := peek buf s es (chars "&") in
  if negb b then PRet (inr (c, s))
  else
    let '(_, _, _, s) := gettoken buf s es in
    PRet (inl (BACK c, s)).

(** [f] bounds the depth of the recursion. *)
Fixpoint parseline (f : nat) (s : nat) : prog (cmd * nat) :=
  match f with
  | O => PStop OutOfFuel
  | S f' =>
      '(c, s) <- parsepipe f' s;;
      '(c, s) <- piter rounds back_step (c, s);;
      let '(b, s) := peek buf s es (chars ";") in
      if b then
        let '(_, _, _, s) := gettoken buf s es in
        '(r, s) <- parseline f' s;;
        PRet (LIST c r, s)
      else PRet (c, s)
  end
with parsepipe (f : nat) (s : nat) : prog (cmd * nat) :=
  match f with
  | O => PStop OutOfFuel
  | S f' =>
      '(c, s) <- parseexec (parseline f') s;;
      let '(b, s) := peek buf s es (chars "|") in
      if b then
        let '(_, _, _, s) := gettoken buf s es in
        '(r, s) <- parsepipe f' s;;
        PRet (PIPE c r, s)
      else PRet (c, s)
  end.
End parse.

(** ** Ending the words *)

Fixpoint nul_words (argv : list (nat * nat)) (buf : list Z) : list Z :=
  match argv with
  | [] => buf
  | w :: argv' => nul_words argv' (<[w.2 := 0]> buf)
  end.

Fixpoint nulterminate (c : cmd) (buf : list Z) : list Z :=
  match c with
  | EXEC argv => nul_words argv buf
  | REDIR c' _ efile _ _ => <[efile := 0]> (nulterminate c' buf)
  | PIPE l r | LIST l r => nulterminate r (nulterminate l buf)
  | BACK c' => nulterminate c' buf
  end.

(** The C string at an offset. *)
Fixpoint str_from (l : list Z) : list Z :=
  match l with [] => [] | c :: l' => if c =? 0 then [] else c :: str_from l' end.
Definition str_at (buf : list Z) (s : nat) : list Z := str_from (drop s buf).

(** Every call of parseline and parsepipe that goes deeper has read a character. *)
Definition parse_depth (buf : list Z) : nat := 2 * length buf + 4.

Definition parsecmd (buf : list Z) : prog (cmd * list Z) :=
  n <- must (strlen buf);;
  let es := Z.to_nat n in
  '(c, s) <- parseline buf es (parse_depth buf) 0;;
  let '(_, s) := peek buf s es [] in
  if negb (s =? es)%nat then
    fprintf 2 (line "leftovers: %s") [AStr (Some (str_at buf s))];;
    panic "syntax"
  else PRet (c, nulterminate c buf).

(** ** Running a command *)

Fixpoint runcmd (buf : list Z) (c : cmd) : prog unit :=
  match c with
  | EXEC argv =>
      match argv with
      | [] => PExit 1
      | a :: _ =>
          exec_ (str_at buf a.1) (map (fun w => str_at buf w.1) argv);;
          fprintf 2 (line "exec %s failed") [AStr (Some (str_at buf a.1))];;
          PExit 0
      end
  | REDIR c' file _ mode fd =>
      sys_ (Sclose fd);;
      r <- sys_ (Sopen (str_at buf file) mode);;
      if r <? 0 then
        fprintf 2 (line "open %s failed") [AStr (Some (str_at buf file))];;
        PExit 1
      else runcmd buf c'
  | LIST l r =>
      pid <- fork1;;
      if pid =? 0 then runcmd buf l
      else
        sys_ Swait;;
        runcmd buf r
  | PIPE l r =>
      '(x, (p0, p1)) <- sys_ Spipe;;
      if x <? 0 then panic "pipe"
      else
        pid <- fork1;;
        if pid =? 0 then
          sys_ (Sclose 1);;
          sys_ (Sdup p1);;
          sys_ (Sclose p0);;
          sys_ (Sclose p1);;
          runcmd buf l
        else
          pid <- fork1;;
          if pid =? 0 then
            sys_ (Sclose 0);;
            sys_ (Sdup p0);;
            sys_ (Sclose p0);;
            sys_ (Sclose p1);;
            runcmd buf r
          else
            sys_ (Sclose p0);;
            sys_ (Sclose p1);;
            sys_ Swait;;
            sys_ Swait;;
            PExit 0
  | BACK c' =>
      pid <- fork1;;
      if pid =? 0 then runcmd buf c' else PExit 0
  end.

(** ** The main loop *)

Definition getcmd (buf : list Z) : prog (Z * list Z) :=
  sys_ (Swrite 2 (chars "$ "));;
  buf <- must (memset buf 0 (length buf));;
  buf <- gets buf (Z.of_nat (length buf));;
  if buf !!! 0%nat =? 0 then PRet (-1, buf) else PRet (0, buf).

Definition console_step (_ : unit) : prog (unit + unit) :=
  fd <- sys_ (Sopen (chars "console") O_RDWR);;
  if fd <? 0 then PRet (inr tt)
  else if 3 <=? fd then sys_ (Sclose fd);; PRet (inr tt)
  else PRet (inl tt).

Definition sh_step (buf : list Z) : prog (list Z + unit) :=
  '(r, buf) <- getcmd buf;;
  if r <? 0 then PRet (inr tt)
  else if (buf !!! 0%nat =? 99) && (buf !!! 1%nat =? 100) && (buf !!! 2%nat =? 32) then
    n <- must (strlen buf);;
    buf <- must (store buf (Z.to_nat n - 1) 0);;
    x <- sys_ (Schdir (str_at buf 3));;
    (if x <? 0 then fprintf 2 (line "cannot cd %s") [AStr (Some (str_at buf 3))] else PRet tt);;
    PRet (inl buf)
  else
    pid <- fork1;;
    if pid =? 0 then
      '(c, buf) <- parsecmd buf;;
      runcmd buf c;;
      PRet (inr tt)
    else
      sys_ Swait;;
      PRet (inl buf).

Definition sh_main `{Fuel} : prog unit :=
  piter fuel console_step tt;;
  piter fuel sh_step (replicate 100 0);;
  PExit 0.
