(* ===== verification/ShParse.v ===== *)
(** The shell reads what a command line means: the tokens of a line, the grammar of
    command lines, and the proof that the parser follows it, however the line is
    spaced, and that the words in the line become the C strings of the command. *)

From S2P Require Import Prelude Outcome UserSys Ulib Uprintf Sh.

(** * Tokens and strings *)

(** ** Tokens *)

Definition is_ws (c : Z) : bool := among whitespace c.
Definition is_sym (c : Z) : bool := among symbols c.
Definition word_char (c : Z) : bool := negb (c =? 0) && negb (is_ws c) && negb (is_sym c).

(** A word, or a symbol; [TSym 43] is the double greater-than sign. *)
Inductive tok : Type := TWord (w : list Z) | TSym (c : Z).

Definition plain : list Z := chars "|();&<".
Definition stops (txt : list Z) : Prop := match txt with [] => True | c :: _ => word_char c = false end.

(** The texts of a token sequence, with any white space between the tokens. *)
Inductive lexes : list Z -> list tok -> Prop :=
| lex_end ws : Forall (fun c => is_ws c = true) ws -> lexes ws []
| lex_sym ws c txt T : Forall (fun c => is_ws c = true) ws -> c ∈ plain -> lexes txt T -> lexes (ws ++ c :: txt) (TSym c :: T)
| lex_gt ws txt T : Forall (fun c => is_ws c = true) ws -> head txt <> Some 62 -> lexes txt T ->
    lexes (ws ++ 62 :: txt) (TSym 62 :: T)
| lex_append ws txt T : Forall (fun c => is_ws c = true) ws -> lexes txt T -> lexes (ws ++ 62 :: 62 :: txt) (TSym 43 :: T)
| lex_word ws w txt T : Forall (fun c => is_ws c = true) ws -> w <> [] -> Forall (fun c => word_char c = true) w ->
    stops txt -> lexes txt T -> lexes (ws ++ w ++ txt) (TWord w :: T).

Lemma ws_not_zero c : is_ws c = true -> c <> 0.
Proof. unfold is_ws, among. intros H ->. done. Qed.

Lemma plain_facts c : c ∈ plain -> is_ws c = false /\ c <> 0 /\ c <> 62 /\ c <> 43 /\ c <> 97 /\ among plain c = true /\ word_char c = false.
Proof.
  intros Hc. assert (Hall : Forall (fun c => is_ws c = false /\ c <> 0 /\ c <> 62 /\ c <> 43 /\ c <> 97 /\ among plain c = true /\ word_char c = false) plain).
  { apply (bool_decide_unpack _). vm_compute. exact I. }
  rewrite Forall_forall in Hall. by apply Hall.
Qed.

Lemma word_char_facts c : word_char c = true -> is_ws c = false /\ c <> 0 /\ is_sym c = false /\ c <> 62 /\ among plain c = false.
Proof.
  unfold word_char. rewrite !andb_true_iff, !negb_true_iff, Z.eqb_neq. intros ((H1 & H2) & H3). split; [done|]. split; [done|]. split; [done|].
  assert (Hs : forall d, d ∈ symbols -> c <> d).
  { intros d Hd ->. unfold is_sym, among in H3. rewrite bool_decide_true in H3 by done. destruct (Z.eqb_spec d 0); done. }
  split; [apply Hs; apply (bool_decide_unpack _); vm_compute; exact I|].
  unfold among. destruct (bool_decide (c ∈ plain)) eqn:E; [|by rewrite andb_false_r]. apply bool_decide_eq_true in E.
  exfalso. apply (Hs c); [|done]. assert (Hsub : Forall (fun x => x ∈ symbols) plain) by (apply (bool_decide_unpack _); vm_compute; exact I).
  rewrite Forall_forall in Hsub. by apply Hsub.
Qed.

(** The text without white space in front. *)
Fixpoint strip (txt : list Z) : list Z :=
  match txt with [] => [] | c :: txt' => if is_ws c then strip txt' else txt end.

Lemma strip_split txt : exists ws, txt = ws ++ strip txt /\ Forall (fun c => is_ws c = true) ws /\
  match strip txt with [] => True | c :: _ => is_ws c = false end.
Proof.
  induction txt as [|c txt (ws & E & Hws & Hs)]; [by exists []|]. simpl. destruct (is_ws c) eqn:Ec.
  - exists (c :: ws). split; [simpl; by f_equal|]. split; [by constructor|done].
  - exists []. split; [done|]. split; [done|]. simpl. done.
Qed.

Lemma strip_app ws txt : Forall (fun c => is_ws c = true) ws -> strip (ws ++ txt) = strip txt.
Proof. induction 1 as [|c ws Hc _ IH]; [done|]. simpl. by rewrite Hc. Qed.

(** What a stripped text starts with. *)
Definition starts (T : list tok) (txt : list Z) : Prop :=
  match T with
  | [] => txt = []
  | TSym c :: T' =>
      exists r, lexes r T' /\
        (c ∈ plain /\ txt = c :: r \/ c = 62 /\ txt = 62 :: r /\ head r <> Some 62 \/ c = 43 /\ txt = 62 :: 62 :: r)
  | TWord w :: T' => exists r, lexes r T' /\ txt = w ++ r /\ w <> [] /\ Forall (fun c => word_char c = true) w /\ stops r
  end.

Lemma lexes_starts txt T : lexes txt T -> starts T (strip txt).
Proof.
  intros Hl. destruct Hl as [ws Hws|ws c txt T Hws Hc Hl|ws txt T Hws Hh Hl|ws txt T Hws Hl|ws w txt T Hws Hne Hw Hst Hl]; rewrite ?strip_app by done.
  - pose proof (strip_app ws [] Hws) as E. rewrite app_nil_r in E. by rewrite E.
  - destruct (plain_facts c Hc) as (Hc1 & _). simpl. rewrite Hc1. exists txt. split; [done|]. by left.
  - simpl. exists txt. split; [done|]. right. by left.
  - simpl. exists txt. split; [done|]. by right; right.
  - destruct w as [|c w]; [done|]. inversion Hw; subst. destruct (word_char_facts c) as (Hc1 & _); [done|]. simpl. rewrite Hc1.
    exists txt. done.
Qed.

Lemma lexes_strip txt T : lexes txt T -> lexes (strip txt) T.
Proof.
  intros Hl. destruct Hl as [ws Hws|ws c txt T Hws Hc Hl|ws txt T Hws Hh Hl|ws txt T Hws Hl|ws w txt T Hws Hne Hw Hst Hl]; rewrite ?strip_app by done.
  - pose proof (strip_app ws [] Hws) as E. rewrite app_nil_r in E. rewrite E. by apply lex_end.
  - destruct (plain_facts c Hc) as (Hc1 & _). simpl. rewrite Hc1. by apply (lex_sym []).
  - simpl. by apply (lex_gt []).
  - simpl. by apply (lex_append []).
  - destruct w as [|c w]; [done|]. inversion Hw; subst. destruct (word_char_facts c) as (Hc1 & _); [done|]. simpl. rewrite Hc1.
    by apply (lex_word [] (c :: w)).
Qed.

Lemma lexes_length txt T : lexes txt T -> (length T <= length txt)%nat.
Proof.
  induction 1; rewrite ?length_app; cbn [length] in *; try lia. destruct w; [done|]. simpl. lia.
Qed.

Section lex.
Context (buf : list Z) (es : nat).

(** From [s] on the line reads [txt], up to the NUL at [es]. *)
Definition at_ (s : nat) (txt : list Z) : Prop :=
  exists pre junk, buf = pre ++ txt ++ 0 :: junk /\ length pre = s /\ es = (s + length txt)%nat.

Lemma at_app s a b : at_ s (a ++ b) -> at_ (s + length a) b.
Proof.
  intros (pre & junk & E & Hs & He). exists (pre ++ a), junk. rewrite E, !length_app in *. rewrite <- !app_assoc.
  split; [done|]. lia.
Qed.

Lemma at_head s c txt : at_ s (c :: txt) -> buf !!! s = c.
Proof. intros (pre & junk & -> & <- & _). cbn [app]. by rewrite list_lookup_total_middle. Qed.

Lemma at_end s : at_ s [] -> buf !!! s = 0 /\ s = es.
Proof. intros (pre & junk & -> & <- & ->). cbn [app]. rewrite list_lookup_total_middle by done. simpl. lia. Qed.

Lemma at_len s txt : at_ s txt -> (es - s = length txt)%nat /\ (length txt < length buf)%nat.
Proof. intros (pre & junk & -> & <- & ->). rewrite !length_app. simpl. lia. Qed.

Lemma at_slice s a b : at_ s (a ++ b) -> take (length a) (drop s buf) = a.
Proof. intros (pre & junk & -> & <- & _). rewrite drop_app_length, <- app_assoc. apply take_app_length. Qed.

(** Skipping a run of characters. *)
Lemma skip_run (f : Z -> bool) a : forall s b, at_ s (a ++ b) -> Forall (fun c => f c = true) a ->
  match b with [] => True | c :: _ => f c = false end -> skip f buf (es - s) s = (s + length a)%nat.
Proof.
  induction a as [|c a IH]; intros s b Ha Hf Hb.
  - destruct b as [|c b]; destruct (at_len _ _ Ha) as [-> _]; [simpl; lia|]. cbn [length app skip].
    rewrite (at_head _ _ _ Ha), Hb. lia.
  - inversion Hf; subst. destruct (at_len _ _ Ha) as [E _]. rewrite E. cbn [length app skip]. rewrite (at_head _ _ _ Ha).
    rewrite (H1 : f c = true). assert (Ha' : at_ (S s) (a ++ b)) by (rewrite <- Nat.add_1_r; exact (at_app s [c] _ Ha)).
    specialize (IH (S s) b Ha' H2 Hb). destruct (at_len _ _ Ha') as [E' _].
    change (skip f buf (length (a ++ b)) (S s) = (s + S (length a))%nat). rewrite <- E', IH. lia.
Qed.

Lemma skip_ws_at s txt : at_ s txt -> at_ (skip_ws buf s es) (strip txt).
Proof.
  intros Ha. destruct (strip_split txt) as (ws & E & Hws & Hs). rewrite E in Ha. unfold skip_ws. change (among whitespace) with is_ws.
  rewrite (skip_run is_ws ws s (strip txt) Ha Hws Hs). by apply at_app.
Qed.

(** The word that gettoken leaves between q and eq. *)
Definition is_word (w : list Z) (q eq : nat) : Prop :=
  (q < eq)%nat /\ take (eq - q) (drop q buf) = w /\ Forall (fun c => word_char c = true) w /\
  word_char (buf !!! eq) = false /\ (eq <= es)%nat /\ (es < length buf)%nat.

Lemma gettoken_end s txt : at_ s txt -> lexes txt [] -> exists q, gettoken buf s es = (0, q, q, q) /\ at_ q [].
Proof.
  intros Ha Hl. apply skip_ws_at in Ha. apply lexes_starts in Hl. simpl in Hl. rewrite Hl in Ha. destruct (at_end _ Ha) as [Hz He].
  exists (skip_ws buf s es). split; [|done]. unfold gettoken. rewrite Hz. cbn [Z.eqb]. rewrite He. unfold skip_ws. by rewrite Nat.sub_diag.
Qed.

Lemma gettoken_sym s txt c T : at_ s txt -> lexes txt (TSym c :: T) ->
  exists q eq s' txt', gettoken buf s es = (c, q, eq, s') /\ at_ s' txt' /\ lexes txt' T.
Proof.
  intros Ha Hl. apply skip_ws_at in Ha. apply lexes_starts in Hl. destruct Hl as (r & Hr & Hc).
  assert (Hfin : forall e, at_ e r -> at_ (skip_ws buf e es) (strip r) /\ lexes (strip r) T).
  { intros e He. split; [by apply skip_ws_at|by apply lexes_strip]. }
  unfold gettoken. set (q := skip_ws buf s es) in *. destruct Hc as [(Hc & E)|[(-> & E & Hh)|(-> & E)]]; rewrite E in Ha; rewrite (at_head _ _ _ Ha).
  - destruct (plain_facts c Hc) as (_ & H0 & _ & _ & _ & Hp & _). destruct (Z.eqb_spec c 0); [done|].
    change (chars "|();&<") with plain. rewrite Hp. pose proof (at_app q [c] r Ha) as Ha'. simpl in Ha'. rewrite Nat.add_1_r in Ha'.
    destruct (Hfin _ Ha'). eauto 10.
  - pose proof (at_app q [62] r Ha) as Ha'. simpl in Ha'. rewrite Nat.add_1_r in Ha'.
    assert (buf !!! S q =? 62 = false) as ->.
    { apply Z.eqb_neq. destruct r as [|d r]; [destruct (at_end _ Ha') as [-> _]; done|]. rewrite (at_head _ _ _ Ha'). by intros ->. }
    destruct (Hfin _ Ha'). simpl. eauto 10.
  - pose proof (at_app q [62] (62 :: r) Ha) as Ha'. simpl in Ha'. rewrite Nat.add_1_r in Ha'. rewrite (at_head _ _ _ Ha').
    pose proof (at_app (S q) [62] r Ha') as Ha2. simpl in Ha2. rewrite Nat.add_1_r in Ha2. destruct (Hfin _ Ha2). simpl. eauto 10.
Qed.

Lemma gettoken_word s txt w T : at_ s txt -> lexes txt (TWord w :: T) ->
  exists q eq s' txt', gettoken buf s es = (97, q, eq, s') /\ is_word w q eq /\ at_ s' txt' /\ lexes txt' T.
Proof.
  intros Ha Hl. apply skip_ws_at in Ha. apply lexes_starts in Hl. destruct Hl as (r & Hr & E & Hne & Hw & Hst).
  rewrite E in Ha. unfold gettoken. set (q := skip_ws buf s es) in *. pose proof (at_app _ _ _ Ha) as Hr'.
  destruct w as [|c w]; [done|]. pose proof Ha as Ha0. cbn [app] in Ha0. rewrite (at_head _ _ _ Ha0).
  inversion Hw as [|? ? Hc Hw']; subst. destruct (word_char_facts c Hc) as (Hc1 & Hc2 & _ & Hc3 & Hc4).
  destruct (Z.eqb_spec c 0); [done|]. change (chars "|();&<") with plain. rewrite Hc4. destruct (Z.eqb_spec c 62); [done|].
  assert (Hrun : skip (fun c => negb (among whitespace c) && negb (among symbols c)) buf (es - q) q = (q + length (c :: w))%nat).
  { apply (skip_run _ (c :: w) q r Ha).
    - eapply Forall_impl; [exact Hw|]. intros d Hd. destruct (word_char_facts d Hd) as (H1 & _ & H2 & _).
      unfold is_ws, is_sym in *. by rewrite H1, H2.
    - destruct r as [|d r]; [done|]. simpl in Hst. unfold word_char, is_ws, is_sym in Hst.
      destruct (Z.eqb_spec d 0) as [->|Hd]; [|done].
      exfalso. apply lexes_starts in Hr. destruct (strip_split (0 :: r)) as (ws & E0 & _ & _). cbn [strip] in Hr.
      change (is_ws 0) with false in Hr. destruct T as [|[w2|c2] T]; simpl in Hr.
      + done.
      + destruct Hr as (r2 & _ & E2 & Hne2 & Hw2 & _). destruct w2 as [|d w2]; [done|]. simplify_eq/=.
        inversion Hw2 as [|? ? Hd2 _]; subst. by destruct (word_char_facts 0 Hd2) as (_ & ? & _).
      + destruct Hr as (r2 & _ & [(H1 & E2)|[(-> & E2 & _)|(-> & E2)]]); simplify_eq.
        by destruct (plain_facts 0 H1) as (_ & ? & _). }
  rewrite Hrun. eexists q, _, _, (strip r). split; [done|]. split; [|split; [by apply skip_ws_at|by apply lexes_strip]].
  destruct Hr' as (pre & junk & Eb & Hpre & He). split_and!; try done; [simpl; lia| | |lia|].
  - replace (q + length (c :: w) - q)%nat with (length (c :: w)) by lia. by apply (at_slice q _ r).
  - destruct r as [|d r].
    + destruct (at_end _ (at_app _ _ _ Ha)) as [-> _]. done.
    + by rewrite (at_head _ _ _ (at_app _ _ _ Ha)).
  - rewrite Eb, !length_app. simpl in *. lia.
Qed.

(** Whether the next token is one of the given symbols. *)
Definition head_in (T : list tok) (toks : list Z) : bool :=
  match T with TSym c :: _ => bool_decide ((if c =? 43 then 62 else c) ∈ toks) | _ => false end.

Lemma peek_at s txt T toks : at_ s txt -> lexes txt T -> Forall (fun c => c ∈ symbols) toks ->
  exists s' txt', peek buf s es toks = (head_in T toks, s') /\ at_ s' txt' /\ lexes txt' T.
Proof.
  intros Ha Hl Ht. exists (skip_ws buf s es), (strip txt). split; [|split; [by apply skip_ws_at|by apply lexes_strip]].
  apply skip_ws_at in Ha. apply lexes_starts in Hl. unfold peek. f_equal. destruct T as [|[w|c] T]; cbn [head_in].
  - simpl in Hl. rewrite Hl in Ha. by destruct (at_end _ Ha) as [-> _].
  - destruct Hl as (r & _ & E & Hne & Hw & _). rewrite E in Ha. destruct w as [|d w]; [done|]. cbn [app] in Ha.
    rewrite (at_head _ _ _ Ha). inversion Hw as [|? ? Hd _]; subst. destruct (word_char_facts d Hd) as (_ & H0 & Hs & _).
    unfold among. destruct (Z.eqb_spec d 0); [done|]. simpl. apply bool_decide_eq_false. intros Hin. rewrite Forall_forall in Ht.
    specialize (Ht d Hin). unfold is_sym, among in Hs. rewrite bool_decide_true in Hs by done. by destruct (Z.eqb_spec d 0).
  - destruct Hl as (r & _ & [(Hc & E)|[(-> & E & _)|(-> & E)]]); rewrite E in Ha; rewrite (at_head _ _ _ Ha); try done.
    destruct (plain_facts c Hc) as (_ & H0 & _ & H43 & _). unfold among. destruct (Z.eqb_spec c 0); [done|]. by destruct (Z.eqb_spec c 43).
Qed.
End lex.

(** * The grammar *)

(** ** Command lines *)

Inductive rkind : Type := RIn | ROut | RAppend.
Notation redir := (rkind * list Z)%type.

(** A line is pipelines with ampersands and semicolons; a pipeline is commands
    with bars; a command is a block or words, both with redirections. *)
Inductive sline : Type :=
| LineEnd (p : spipe) (amps : nat)
| LineSeq (p : spipe) (amps : nat) (l : sline)
with spipe : Type :=
| PipeEnd (e : sexec)
| PipeBar (e : sexec) (p : spipe)
with sexec : Type :=
| Block (l : sline) (rs : list redir)
| Simple (rs : list redir) (args : list (list Z * list redir)).

Scheme sline_mut := Induction for sline Sort Prop
with spipe_mut := Induction for spipe Sort Prop
with sexec_mut := Induction for sexec Sort Prop.
Combined Scheme syntax_mut from sline_mut, spipe_mut, sexec_mut.

Definition rtok (k : rkind) : Z := match k with RIn => 60 | ROut => 62 | RAppend => 43 end.
Definition tredirs (rs : list redir) : list tok := flat_map (fun r => [TSym (rtok r.1); TWord r.2]) rs.

(** The tokens of a line. *)
Fixpoint tline (l : sline) : list tok :=
  match l with
  | LineEnd p n => tpipe p ++ replicate n (TSym 38)
  | LineSeq p n l' => tpipe p ++ replicate n (TSym 38) ++ TSym 59 :: tline l'
  end
with tpipe (p : spipe) : list tok :=
  match p with
  | PipeEnd e => texec e
  | PipeBar e p' => texec e ++ TSym 124 :: tpipe p'
  end
with texec (e : sexec) : list tok :=
  match e with
  | Block l rs => TSym 40 :: tline l ++ TSym 41 :: tredirs rs
  | Simple rs args => tredirs rs ++ flat_map (fun a => TWord a.1 :: tredirs a.2) args
  end.

(** ** What they mean *)

Inductive acmd : Type :=
| AExec (argv : list (list Z))
| ARedir (c : acmd) (file : list Z) (mode fd : Z)
| APipe (l r : acmd)
| AList (l r : acmd)
| ABack (c : acmd).

Definition rmode (k : rkind) : Z :=
  match k with
  | RIn => O_RDONLY
  | ROut => Z.lor O_WRONLY (Z.lor O_CREATE O_TRUNC)
  | RAppend => Z.lor O_WRONLY O_CREATE
  end.
Definition rfd (k : rkind) : Z := match k with RIn => 0 | _ => 1 end.

Definition wrap (c : acmd) (rs : list redir) : acmd := foldl (fun c r => ARedir c r.2 (rmode r.1) (rfd r.1)) c rs.

Fixpoint mline (l : sline) : acmd :=
  match l with
  | LineEnd p n => Nat.iter n ABack (mpipe p)
  | LineSeq p n l' => AList (Nat.iter n ABack (mpipe p)) (mline l')
  end
with mpipe (p : spipe) : acmd :=
  match p with
  | PipeEnd e => mexec e
  | PipeBar e p' => APipe (mexec e) (mpipe p')
  end
with mexec (e : sexec) : acmd :=
  match e with
  | Block l rs => wrap (mline l) rs
  | Simple rs args => wrap (AExec args.*1) (rs ++ flat_map snd args)
  end.

(** No more arguments than the array holds with its null pointer. *)
Fixpoint ok_line (l : sline) : Prop :=
  match l with LineEnd p _ => ok_pipe p | LineSeq p _ l' => ok_pipe p /\ ok_line l' end
with ok_pipe (p : spipe) : Prop :=
  match p with PipeEnd e => ok_exec e | PipeBar e p' => ok_exec e /\ ok_pipe p' end
with ok_exec (e : sexec) : Prop :=
  match e with Block l _ => ok_line l | Simple _ args => (length args < MAXARGS)%nat end.

(** ** The parser *)

(** What may come after a part of a line. *)
Definition follow (cs : list Z) (T : list tok) : Prop :=
  match T with [] => True | TSym c :: _ => c ∈ cs | TWord _ :: _ => False end.
Definition line_end : list Z := [41].
Definition pipe_end : list Z := [41; 38; 59].
Definition exec_end : list Z := [41; 38; 59; 124].

Ltac follow_cases Hf :=
  match type of Hf with
  | follow _ ?T => destruct T as [|[?|?] ?]; [try done|done|]; simpl in Hf; repeat (apply elem_of_cons in Hf as [->|Hf]; [try done|]);
      by apply not_elem_of_nil in Hf
  end.

Lemma follow_head cs toks T : follow cs T -> bool_decide (Forall (fun c => c ∉ 43 :: toks) cs) = true -> head_in T toks = false.
Proof.
  intros Hf Hd%bool_decide_eq_true. destruct T as [|[?|c] ?]; [done|done|]. simpl in *. rewrite Forall_forall in Hd.
  specialize (Hd c Hf). apply not_elem_of_cons in Hd as [H43 Hd]. destruct (Z.eqb_spec c 43); [done|]. by apply bool_decide_eq_false.
Qed.

Lemma follow_mono cs cs' T : follow cs T -> bool_decide (Forall (fun c => c ∈ cs') cs) = true -> follow cs' T.
Proof.
  intros Hf Hd%bool_decide_eq_true. destruct T as [|[?|c] ?]; [done|done|]. simpl in *. rewrite Forall_forall in Hd. by apply Hd.
Qed.

Section parse.
Context {W : Type} (h : handler W) (buf : list Z) (es : nat).

(** The command [c] with offsets stands for the command [a] with words. *)
Inductive rep : cmd -> acmd -> Prop :=
| rep_exec argv ws : Forall2 (fun p w => is_word buf es w p.1 p.2) argv ws -> rep (EXEC argv) (AExec ws)
| rep_redir c a q eq w mode fd : rep c a -> is_word buf es w q eq -> rep (REDIR c q eq mode fd) (ARedir a w mode fd)
| rep_pipe l r a b : rep l a -> rep r b -> rep (PIPE l r) (APipe a b)
| rep_list l r a b : rep l a -> rep r b -> rep (LIST l r) (AList a b)
| rep_back c a : rep c a -> rep (BACK c) (ABack a).

(** [s] is in the line and the tokens from there on are [T]. *)
Definition reads (s : nat) (T : list tok) : Prop := exists txt, at_ buf es s txt /\ lexes txt T.

Lemma reads_rounds s T : reads s T -> (length T < rounds buf)%nat.
Proof.
  intros (txt & Ha & Hl). apply lexes_length in Hl. destruct (at_len _ _ _ _ Ha) as [_ ?]. unfold rounds. lia.
Qed.

Lemma read_sym s c T : reads s (TSym c :: T) -> exists q eq s', gettoken buf s es = (c, q, eq, s') /\ reads s' T.
Proof.
  intros (txt & Ha & Hl). destruct (gettoken_sym _ _ _ _ _ _ Ha Hl) as (q & eq & s' & txt' & E & Ha' & Hl').
  exists q, eq, s'. split; [done|]. by exists txt'.
Qed.

Lemma read_word s w T : reads s (TWord w :: T) ->
  exists q eq s', gettoken buf s es = (97, q, eq, s') /\ is_word buf es w q eq /\ reads s' T.
Proof.
  intros (txt & Ha & Hl). destruct (gettoken_word _ _ _ _ _ _ Ha Hl) as (q & eq & s' & txt' & E & Hw & Ha' & Hl').
  exists q, eq, s'. split; [done|]. split; [done|]. by exists txt'.
Qed.

Lemma read_end s : reads s [] -> exists q, gettoken buf s es = (0, q, q, q) /\ reads q [].
Proof.
  intros (txt & Ha & Hl). destruct (gettoken_end _ _ _ _ Ha Hl) as (q & E & Ha'). exists q. split; [done|].
  exists []. split; [done|]. by apply lex_end.
Qed.

Lemma read_peek s T toks : reads s T -> bool_decide (Forall (fun c => c ∈ symbols) toks) = true ->
  exists s', peek buf s es toks = (head_in T toks, s') /\ reads s' T.
Proof.
  intros (txt & Ha & Hl) Ht%bool_decide_eq_true. destruct (peek_at _ _ _ _ _ _ Ha Hl Ht) as (s' & txt' & E & Ha' & Hl').
  exists s'. split; [done|]. by exists txt'.
Qed.

(** [parses p T c]: from a place that reads [T] in front of [T'], the parser
    [p] returns [c] and stands before [T']. *)
Definition parsed {A} (p : prog (A * nat)) (R : A -> Prop) (T' : list tok) : Prop :=
  forall w, exists c s', run h p w = Returned (c, s') w /\ R c /\ reads s' T'.

Lemma redirs_loop rs : forall n c a s T, reads s (tredirs rs ++ T) -> rep c a -> head_in T (chars "<>") = false ->
  (length rs < n)%nat -> parsed (piter n (redir_step buf es) (c, s)) (fun c' => rep c' (wrap a rs)) T.
Proof.
  induction rs as [|[k f] rs IH]; intros n c a s T Hr Hc Hh Hn w; (destruct n as [|n]; [simpl in Hn; lia|]); rewrite piter_S; unfold redir_step at 1.
  - destruct (read_peek s T (chars "<>") Hr) as (s' & -> & Hr'); [vm_compute; reflexivity|]. rewrite Hh. simpl. by exists c, s'.
  - change (tredirs ((k, f) :: rs) ++ T) with (TSym (rtok k) :: TWord f :: tredirs rs ++ T) in Hr. destruct (read_peek s _ (chars "<>") Hr) as (s1 & -> & Hr1); [vm_compute; reflexivity|].
    replace (head_in _ _) with true by (by destruct k). cbn [negb]. destruct (read_sym _ _ _ Hr1) as (q1 & eq1 & s2 & -> & Hr2). destruct (read_word _ _ _ Hr2) as (q & eq & s3 & -> & Hw & Hr3).
    cbn [Z.eqb Pos.eqb negb run fst snd].
    destruct (IH n (REDIR c q eq (rmode k) (rfd k)) (ARedir a f (rmode k) (rfd k)) s3 T Hr3) with (w := w) as (c' & s' & E & Hc' & Hr'); try done.
    { by constructor. }
    { simpl in Hn. lia. }
    exists c', s'. split; [|done]. by destruct k.
Qed.

Lemma tredirs_length rs : (length rs <= length (tredirs rs))%nat.
Proof. induction rs as [|r rs IH]; simpl in *; lia. Qed.

Lemma parseredirs_ok rs c a s T : reads s (tredirs rs ++ T) -> rep c a -> head_in T (chars "<>") = false ->
  parsed (parseredirs buf es c s) (fun c' => rep c' (wrap a rs)) T.
Proof.
  intros Hr Hc Hh. apply redirs_loop; try done. pose proof (reads_rounds _ _ Hr) as Hl. rewrite length_app in Hl.
  pose proof (tredirs_length rs). lia.
Qed.

Lemma wrap_app a rs1 rs2 : wrap a (rs1 ++ rs2) = wrap (wrap a rs1) rs2.
Proof. apply foldl_app. Qed.

Lemma rep_set_argv rs : forall ret ws argv ws', rep ret (wrap (AExec ws) rs) ->
  Forall2 (fun p w => is_word buf es w p.1 p.2) argv ws' -> rep (set_argv argv ret) (wrap (AExec ws') rs).
Proof.
  induction rs as [|r rs IH] using rev_ind; intros ret ws argv ws' Hr Hw.
  - simpl in *. inversion Hr; subst. by constructor.
  - rewrite wrap_app in *. simpl in *. inversion Hr; subst. simpl. constructor; [by eapply IH|done].
Qed.

Definition targs (args : list (list Z * list redir)) : list tok := flat_map (fun a => TWord a.1 :: tredirs a.2) args.

Lemma targs_head args T toks : follow exec_end T -> bool_decide (Forall (fun c => c ∉ 43 :: toks) exec_end) = true ->
  head_in (targs args ++ T) toks = false.
Proof. intros Hf Hd. destruct args; [by apply (follow_head exec_end)|done]. Qed.

Lemma exec_loop args : forall n ret rs0 argv ws0 s T,
  reads s (targs args ++ T) -> rep ret (wrap (AExec []) rs0) -> Forall2 (fun p w => is_word buf es w p.1 p.2) argv ws0 ->
  follow exec_end T -> (length ws0 + length args < MAXARGS)%nat -> (length args < n)%nat ->
  parsed (piter n (exec_step buf es) (ret, argv, s)) (fun c => rep c (wrap (AExec (ws0 ++ args.*1)) (rs0 ++ flat_map snd args))) T.
Proof.
  induction args as [|[w rs] args IH]; intros n ret rs0 argv ws0 s T Hr Hret Hargv Hf Hmax Hn w0;
    (destruct n as [|n]; [simpl in Hn; lia|]); rewrite piter_S; unfold exec_step at 1.
  - change (targs [] ++ T) with T in Hr. cbn [fmap list_fmap flat_map]. rewrite !app_nil_r. destruct (read_peek s T (chars "|)&;") Hr) as (s1 & -> & Hr1); [vm_compute; reflexivity|].
    destruct (head_in T (chars "|)&;")) eqn:Eh.
    + eexists _, s1. split; [done|]. split; [by eapply rep_set_argv|done].
    + assert (T = []) as -> by follow_cases Hf.
      destruct (read_end _ Hr1) as (q & -> & Hr2). simpl. eexists _, q. split; [done|]. split; [by eapply rep_set_argv|done].
  - change (targs ((w, rs) :: args) ++ T) with (TWord w :: (tredirs rs ++ targs args) ++ T) in Hr. rewrite <- app_assoc in Hr.
    destruct (read_peek s _ (chars "|)&;") Hr) as (s1 & -> & Hr1); [vm_compute; reflexivity|]. cbn [head_in].
    destruct (read_word _ _ _ Hr1) as (q & eq & s2 & -> & Hw & Hr2). cbn [Z.eqb Pos.eqb negb].
    assert (Hlen : length argv = length ws0) by (by eapply Forall2_length).
    destruct (Nat.leb_spec MAXARGS (length (argv ++ [(q, eq)]))) as [Hbad|_]; [rewrite length_app in Hbad; simpl in *; lia|].
    rewrite run_bind. destruct (parseredirs_ok rs ret _ s2 (targs args ++ T) Hr2 Hret) with (w := w0) as (c & s3 & -> & Hc & Hr3).
    { apply targs_head; [done|vm_compute; reflexivity]. }
    cbn [run]. destruct (IH n c (rs0 ++ rs) (argv ++ [(q, eq)]) (ws0 ++ [w]) s3 T Hr3) with (w := w0) as (c' & s' & E & Hc' & Hr'); try done.
    { by rewrite wrap_app. }
    { apply Forall2_app; [done|]. by constructor. }
    { rewrite length_app. simpl in *. lia. }
    { simpl in Hn. lia. }
    exists c', s'. split; [done|]. split; [|done]. cbn [flat_map fmap list_fmap fst snd]. rewrite <- !app_assoc in Hc'. exact Hc'.
Qed.

Lemma targs_length args : (length args <= length (targs args))%nat.
Proof. induction args as [|a args IH]; simpl in *; [lia|]. rewrite length_app. lia. Qed.

Lemma back_loop k : forall n c a s T, reads s (replicate k (TSym 38) ++ T) -> rep c a -> head_in T (chars "&") = false -> (k < n)%nat ->
  parsed (piter n (back_step buf es) (c, s)) (fun c' => rep c' (Nat.iter k ABack a)) T.
Proof.
  induction k as [|k IH]; intros n c a s T Hr Hc Hh Hn w; (destruct n as [|n]; [lia|]); rewrite piter_S; unfold back_step at 1.
  - destruct (read_peek s T (chars "&") Hr) as (s1 & -> & Hr1); [vm_compute; reflexivity|]. rewrite Hh. simpl. by exists c, s1.
  - cbn [replicate app] in Hr. destruct (read_peek s _ (chars "&") Hr) as (s1 & -> & Hr1); [vm_compute; reflexivity|].
    replace (head_in _ _) with true by done. cbn [negb]. destruct (read_sym _ _ _ Hr1) as (q & eq & s2 & -> & Hr2). cbn [run].
    destruct (IH n (BACK c) (ABack a) s2 T Hr2) with (w := w) as (c' & s' & E & Hc' & Hr'); [by constructor|done|lia|].
    exists c', s'. split; [done|]. split; [|done]. by rewrite Nat.iter_succ_r.
Qed.

Lemma parsepipe_S f s : parsepipe buf es (S f) s =
  ('(c, s) <- parseexec buf es (parseline buf es f) s;;
   let '(b, s) := peek buf s es (chars "|") in
   if b then let '(_, _, _, s) := gettoken buf s es in '(r, s) <- parsepipe buf es f s;; PRet (PIPE c r, s)
   else PRet (c, s)).
Proof. reflexivity. Qed.

Lemma parseline_S f s : parseline buf es (S f) s =
  ('(c, s) <- parsepipe buf es f s;;
   '(c, s) <- piter (rounds buf) (back_step buf es) (c, s);;
   let '(b, s) := peek buf s es (chars ";") in
   if b then let '(_, _, _, s) := gettoken buf s es in '(r, s) <- parseline buf es f s;; PRet (LIST c r, s)
   else PRet (c, s)).
Proof. reflexivity. Qed.

Definition line_ok (l : sline) : Prop := forall f s T,
  ok_line l -> reads s (tline l ++ T) -> follow line_end T -> (2 * length (tline l) + 1 < f)%nat ->
  parsed (parseline buf es f s) (fun c => rep c (mline l)) T.
Definition pipe_ok (p : spipe) : Prop := forall f s T,
  ok_pipe p -> reads s (tpipe p ++ T) -> follow pipe_end T -> (2 * length (tpipe p) < f)%nat ->
  parsed (parsepipe buf es f s) (fun c => rep c (mpipe p)) T.
Definition exec_ok (e : sexec) : Prop := forall f s T,
  ok_exec e -> reads s (texec e ++ T) -> follow exec_end T -> (2 * length (texec e) <= S f)%nat ->
  parsed (parseexec buf es (parseline buf es f) s) (fun c => rep c (mexec e)) T.

Lemma simple_ok rs args : exec_ok (Simple rs args).
Proof.
  intros f s T Hok Hr Hf _ w. cbn [texec ok_exec mexec] in *. fold (targs args) in Hr. rewrite <- app_assoc in Hr. unfold parseexec.
  destruct (read_peek s _ (chars "(") Hr) as (s1 & -> & Hr1); [vm_compute; reflexivity|].
  replace (head_in _ _) with false.
  2:{ symmetry. destruct rs as [|[[] ?] rs]; [|done|done|done]. apply targs_head; [done|vm_compute; reflexivity]. }
  rewrite run_bind. destruct (parseredirs_ok rs (EXEC []) (AExec []) s1 (targs args ++ T) Hr1) with (w := w) as (c & s2 & -> & Hc & Hr2).
  { by constructor. }
  { apply targs_head; [done|vm_compute; reflexivity]. }
  apply (exec_loop args (rounds buf) c rs [] [] s2 T); try done.
  pose proof (reads_rounds _ _ Hr2) as Hl. rewrite length_app in Hl. pose proof (targs_length args). lia.
Qed.

Lemma block_ok l rs : line_ok l -> exec_ok (Block l rs).
Proof.
  intros IH f s T Hok Hr Hf Hlen w. cbn [texec ok_exec mexec app] in *. unfold parseexec.
  destruct (read_peek s _ (chars "(") Hr) as (s1 & -> & Hr1); [vm_compute; reflexivity|]. replace (head_in _ _) with true by done.
  unfold parseblock. destruct (read_peek s1 _ (chars "(") Hr1) as (s2 & -> & Hr2); [vm_compute; reflexivity|]. replace (head_in _ _) with true by done.
  cbn [negb]. destruct (read_sym _ _ _ Hr2) as (q & eq & s3 & -> & Hr3). rewrite <- app_assoc in Hr3. cbn [app] in Hr3. rewrite run_bind.
  cbn [length] in Hlen. rewrite length_app in Hlen. cbn [length] in Hlen.
  destruct (IH f s3 (TSym 41 :: tredirs rs ++ T) Hok Hr3) with (w := w) as (c & s4 & -> & Hc & Hr4); [simpl; set_solver|lia|].
  destruct (read_peek s4 _ (chars ")") Hr4) as (s5 & -> & Hr5); [vm_compute; reflexivity|]. replace (head_in _ _) with true by done.
  cbn [negb]. destruct (read_sym _ _ _ Hr5) as (q2 & eq2 & s6 & -> & Hr6).
  apply (parseredirs_ok rs c (mline l) s6 T Hr6 Hc). apply (follow_head exec_end); [done|vm_compute; reflexivity].
Qed.

Lemma pipe_end_ok e : exec_ok e -> pipe_ok (PipeEnd e).
Proof.
  intros IH f s T Hok Hr Hf Hlen w. cbn [tpipe ok_pipe mpipe] in *. destruct f as [|f]; [lia|]. rewrite parsepipe_S, run_bind.
  destruct (IH f s T Hok Hr) with (w := w) as (c & s1 & -> & Hc & Hr1); [by apply (follow_mono pipe_end); [|vm_compute]|lia|].
  destruct (read_peek s1 _ (chars "|") Hr1) as (s2 & -> & Hr2); [vm_compute; reflexivity|].
  rewrite (follow_head pipe_end _ T Hf) by (vm_compute; reflexivity). cbn [run]. by exists c, s2.
Qed.

Lemma pipe_bar_ok e p : exec_ok e -> pipe_ok p -> pipe_ok (PipeBar e p).
Proof.
  intros IHe IHp f s T [Hok1 Hok2] Hr Hf Hlen w. cbn [tpipe mpipe] in *. rewrite <- app_assoc in Hr. cbn [app] in Hr.
  rewrite length_app in Hlen. cbn [length] in Hlen. destruct f as [|f]; [lia|]. rewrite parsepipe_S, run_bind.
  destruct (IHe f s _ Hok1 Hr) with (w := w) as (c & s1 & -> & Hc & Hr1); [simpl; set_solver|lia|].
  destruct (read_peek s1 _ (chars "|") Hr1) as (s2 & -> & Hr2); [vm_compute; reflexivity|]. replace (head_in _ _) with true by done.
  destruct (read_sym _ _ _ Hr2) as (q & eq & s3 & -> & Hr3). rewrite run_bind.
  destruct (IHp f s3 T Hok2 Hr3 Hf) with (w := w) as (r & s4 & -> & Hc2 & Hr4); [lia|]. cbn [run].
  eexists _, s4. split; [done|]. split; [by constructor|done].
Qed.

(** The ampersands after a pipeline. *)
Lemma amps_ok p n f s T w : pipe_ok p -> ok_pipe p -> reads s (tpipe p ++ replicate n (TSym 38) ++ T) ->
  follow [41; 59] T -> (2 * length (tpipe p) < f)%nat ->
  exists c s', run h ('(c, s) <- parsepipe buf es f s;; piter (rounds buf) (back_step buf es) (c, s)) w = Returned (c, s') w /\
    rep c (Nat.iter n ABack (mpipe p)) /\ reads s' T.
Proof.
  intros IH Hok Hr Hf Hlen. rewrite run_bind.
  destruct (IH f s _ Hok Hr) with (w := w) as (c & s1 & -> & Hc & Hr1).
  { destruct n; [by apply (follow_mono [41; 59]); [|vm_compute]|simpl; set_solver]. }
  { done. }
  destruct (back_loop n (rounds buf) c _ s1 T Hr1 Hc) with (w := w) as (c' & s' & E & Hc' & Hr'); [|..].
  { apply (follow_head [41; 59]); [done|vm_compute; reflexivity]. }
  { pose proof (reads_rounds _ _ Hr1) as Hl. rewrite length_app, length_replicate in Hl. lia. }
  by exists c', s'.
Qed.

Lemma parseline_amps f s w : run h (parseline buf es (S f) s) w =
  match run h ('(c, s) <- parsepipe buf es f s;; piter (rounds buf) (back_step buf es) (c, s)) w with
  | Returned (c, s) w' =>
      run h (let '(b, s) := peek buf s es (chars ";") in
        if b then let '(_, _, _, s) := gettoken buf s es in '(r, s) <- parseline buf es f s;; PRet (LIST c r, s)
        else PRet (c, s)) w'
  | Exited st w' => Exited st w' | Gone w' => Gone w' | Halted e => Halted e
  end.
Proof.
  rewrite parseline_S, !run_bind. destruct (run h (parsepipe buf es f s) w) as [[c s1] w1| | |]; try done.
  rewrite run_bind. by destruct (run h (piter (rounds buf) (back_step buf es) (c, s1)) w1) as [[c2 s2] w2| | |].
Qed.

Lemma line_end_ok p n : pipe_ok p -> line_ok (LineEnd p n).
Proof.
  intros IH f s T Hok Hr Hf Hlen w. cbn [tline ok_line mline] in *. rewrite <- app_assoc in Hr. rewrite length_app in Hlen.
  destruct f as [|f]; [lia|]. rewrite parseline_amps.
  destruct (amps_ok p n f s T w IH Hok Hr) as (c & s1 & -> & Hc & Hr1); [by apply (follow_mono line_end); [|vm_compute]|lia|].
  destruct (read_peek s1 _ (chars ";") Hr1) as (s2 & -> & Hr2); [vm_compute; reflexivity|].
  rewrite (follow_head line_end _ T Hf) by (vm_compute; reflexivity). cbn [run]. by exists c, s2.
Qed.

Lemma line_seq_ok p n l : pipe_ok p -> line_ok l -> line_ok (LineSeq p n l).
Proof.
  intros IHp IHl f s T [Hok1 Hok2] Hr Hf Hlen w. cbn [tline mline] in *. rewrite <- !app_assoc in Hr. rewrite !length_app in Hlen.
  cbn [length app] in *. destruct f as [|f]; [lia|]. rewrite parseline_amps.
  destruct (amps_ok p n f s (TSym 59 :: tline l ++ T) w IHp Hok1 Hr) as (c & s1 & -> & Hc & Hr1); [simpl; set_solver|lia|].
  destruct (read_peek s1 _ (chars ";") Hr1) as (s2 & -> & Hr2); [vm_compute; reflexivity|]. replace (head_in _ _) with true by done.
  destruct (read_sym _ _ _ Hr2) as (q & eq & s3 & -> & Hr3). rewrite run_bind.
  destruct (IHl f s3 T Hok2 Hr3 Hf) with (w := w) as (r & s4 & -> & Hc2 & Hr4); [lia|]. cbn [run].
  eexists _, s4. split; [done|]. split; [by constructor|done].
Qed.

Lemma parse_ok : (forall l, line_ok l) /\ (forall p, pipe_ok p) /\ (forall e, exec_ok e).
Proof.
  apply syntax_mut; eauto using line_end_ok, line_seq_ok, pipe_end_ok, pipe_bar_ok, block_ok, simple_ok.
Qed.
End parse.

(** ** Ending the words *)

Fixpoint ends (c : cmd) : list nat :=
  match c with
  | EXEC argv => argv.*2
  | REDIR c' _ e _ _ => ends c' ++ [e]
  | PIPE l r | LIST l r => ends l ++ ends r
  | BACK c' => ends c'
  end.

Definition zero_at (l : list nat) (buf : list Z) : list Z := foldl (fun b e => <[e := 0]> b) buf l.

Lemma nulterminate_eq c : forall buf, nulterminate c buf = zero_at (ends c) buf.
Proof.
  unfold zero_at. induction c as [argv|c IH f e m fd|l IHl r IHr|l IHl r IHr|c IH]; intros buf; cbn [nulterminate ends].
  - revert buf. induction argv as [|[q e] argv IH]; intros buf; [done|]. simpl. apply IH.
  - rewrite foldl_app. simpl. by rewrite IH.
  - by rewrite foldl_app, IHl, IHr.
  - by rewrite foldl_app, IHl, IHr.
  - apply IH.
Qed.

Lemma lookup_zero_at l : forall buf i, zero_at l buf !! i = if decide (i ∈ l) then (fun _ => 0) <$> buf !! i else buf !! i.
Proof.
  induction l as [|e l IH]; intros buf i; cbn [zero_at foldl].
  { rewrite decide_False; [done|apply not_elem_of_nil]. }
  fold (zero_at l (<[e := 0]> buf)). rewrite IH. destruct (decide (i = e)) as [->|Hne].
  - rewrite (decide_True (P := e ∈ e :: l)) by set_solver. destruct (decide (e < length buf)%nat).
    + rewrite list_lookup_insert_eq by done. destruct (lookup_lt_is_Some_2 buf e) as [x ->]; [done|]. by case_decide.
    + rewrite list_insert_ge by lia. rewrite (lookup_ge_None_2 buf e) by lia. by case_decide.
  - rewrite list_lookup_insert_ne by done. destruct (decide (i ∈ l)); [rewrite decide_True by set_solver|rewrite decide_False by set_solver]; done.
Qed.

(** The strings that runcmd finds in the array. *)
Fixpoint meant (buf : list Z) (c : cmd) : acmd :=
  match c with
  | EXEC argv => AExec (map (fun w => str_at buf w.1) argv)
  | REDIR c' file _ mode fd => ARedir (meant buf c') (str_at buf file) mode fd
  | PIPE l r => APipe (meant buf l) (meant buf r)
  | LIST l r => AList (meant buf l) (meant buf r)
  | BACK c' => ABack (meant buf c')
  end.

Lemma str_from_stop w r : Forall (fun c => word_char c = true) w -> str_from (w ++ 0 :: r) = w.
Proof.
  induction 1 as [|c w Hc _ IH]; [done|]. simpl. destruct (word_char_facts c Hc) as (_ & H0 & _). destruct (Z.eqb_spec c 0); [done|].
  by rewrite IH.
Qed.

Section ends.
Context (buf : list Z) (es : nat) (l : list nat).
(** Every place that becomes a NUL held a character that is in no word. *)
Hypothesis Hl : Forall (fun e => word_char (buf !!! e) = false) l.

Lemma str_at_word w q e : is_word buf es w q e -> e ∈ l -> str_at (zero_at l buf) q = w.
Proof.
  intros (Hlt & Hw & Hch & Hstop & He & Hlen) Hin. unfold str_at.
  assert (E : drop q (zero_at l buf) = w ++ 0 :: drop (S e) (zero_at l buf)).
  { assert (Hlw : length w = (e - q)%nat) by (rewrite <- Hw, length_take, length_drop; lia).
    apply list_eq. intros i. rewrite lookup_drop, lookup_zero_at. destruct (decide (i < e - q)%nat) as [Hi|Hi].
    - rewrite lookup_app_l by lia. assert (Hb : buf !! (q + i)%nat = w !! i).
      { rewrite <- Hw. rewrite lookup_take_lt, lookup_drop by lia. done. }
      rewrite decide_False; [done|]. intros Hx. rewrite Forall_forall in Hl. specialize (Hl _ Hx).
      destruct (lookup_lt_is_Some_2 w i) as [c Hc]; [lia|]. rewrite Hc in Hb. rewrite (list_lookup_total_correct _ _ _ Hb) in Hl.
      assert (Hcw : word_char c = true) by (rewrite Forall_forall in Hch; apply Hch; by eapply list_elem_of_lookup_2). congruence.
    - rewrite lookup_app_r by lia. rewrite Hlw. destruct (i - (e - q))%nat as [|j] eqn:Ej.
      + replace (q + i)%nat with e by lia. rewrite decide_True by done. destruct (lookup_lt_is_Some_2 buf e) as [x ->]; [lia|]. done.
      + change ((0 :: drop (S e) (zero_at l buf)) !! S j) with (drop (S e) (zero_at l buf) !! j). rewrite lookup_drop, lookup_zero_at. by replace (S e + j)%nat with (q + i)%nat by lia. }
  rewrite E. by apply str_from_stop.
Qed.

Lemma meant_ok c a : rep buf es c a -> Forall (fun e => e ∈ l) (ends c) -> meant (zero_at l buf) c = a.
Proof.
  induction 1 as [argv ws Hf|c a q e w mode fd Hr IH Hw|x y a b _ IHl _ IHr|x y a b _ IHl _ IHr|c a _ IH]; cbn [ends meant]; intros He.
  - f_equal. induction Hf as [|[q e] w argv ws Hw Hf IH]; [done|]. simpl in *. inversion He; subst. f_equal; [by eapply str_at_word|by apply IH].
  - apply Forall_app in He as [He1 He2]. inversion He2; subst. f_equal; [by apply IH|by eapply str_at_word].
  - apply Forall_app in He as [He1 He2]. by rewrite IHl, IHr.
  - apply Forall_app in He as [He1 He2]. by rewrite IHl, IHr.
  - by rewrite IH.
Qed.
End ends.

Lemma rep_ends buf es c a : rep buf es c a -> Forall (fun e => word_char (buf !!! e) = false) (ends c).
Proof.
  induction 1 as [argv ws Hf|c a q e w mode fd Hr IH Hw|x y a b _ IHl _ IHr|x y a b _ IHl _ IHr|c a _ IH]; cbn [ends]; try done.
  - induction Hf as [|[q e] w argv ws Hw Hf IH]; simpl; constructor; [apply Hw|done].
  - apply Forall_app. split; [done|]. constructor; [apply Hw|done].
  - by apply Forall_app.
  - by apply Forall_app.
Qed.

Lemma lexes_nonzero txt T : lexes txt T -> Forall (fun c => c <> 0) txt.
Proof.
  assert (Hws : forall ws, Forall (fun c => is_ws c = true) ws -> Forall (fun c => c <> 0) ws).
  { intros ws Hf. eapply Forall_impl; [exact Hf|]. apply ws_not_zero. }
  induction 1; repeat (apply Forall_app; split); try (by apply Hws); try done.
  - constructor; [|done]. by destruct (plain_facts c H0) as (_ & ? & _).
  - by constructor.
  - by repeat constructor.
  - eapply Forall_impl; [exact H1|]. intros c Hc. by destruct (word_char_facts c Hc) as (_ & ? & _).
Qed.

Lemma strlen_nonzero txt r : Forall (fun c => c <> 0) txt -> strlen (txt ++ 0 :: r) = Some (Z.of_nat (length txt)).
Proof.
  induction 1 as [|c txt Hc _ IH]; [done|]. cbn [app strlen]. destruct (Z.eqb_spec c 0); [done|]. rewrite IH. simpl. f_equal. lia.
Qed.

Lemma parsecmd_ok {W} (h : handler W) l txt junk w :
  ok_line l -> lexes txt (tline l) ->
  exists c buf', run h (parsecmd (txt ++ 0 :: junk)) w = Returned (c, buf') w /\ meant buf' c = mline l.
Proof.
  intros Hok Hl. set (buf := txt ++ 0 :: junk). set (es := length txt).
  assert (Hr : reads buf es 0 (tline l ++ [])).
  { exists txt. rewrite app_nil_r. split; [|done]. by exists [], junk. }
  unfold parsecmd. unfold buf at 1. rewrite (strlen_nonzero txt junk (lexes_nonzero _ _ Hl)). cbn [must pbind]. rewrite Nat2Z.id. fold es. rewrite run_bind.
  destruct (parse_ok h buf es) as [Hline _].
  destruct (Hline l (parse_depth buf) 0%nat [] Hok Hr I) with (w := w) as (c & s & -> & Hc & txt' & Ha & Hl').
  { pose proof (lexes_length _ _ Hl) as Hlen. unfold parse_depth, buf. rewrite length_app. simpl. lia. }
  unfold peek. apply skip_ws_at in Ha. apply lexes_starts in Hl'. simpl in Hl'. rewrite Hl' in Ha. destruct (at_end _ _ _ Ha) as [_ ->].
  rewrite Nat.eqb_refl. cbn [negb run]. exists c, (nulterminate c buf). split; [done|]. rewrite nulterminate_eq.
  apply (meant_ok buf es); [by eapply rep_ends|done|]. apply Forall_forall. done.
Qed.

(** C24. The parser follows the shell's grammar: for every text of a command line,
    however its tokens are spaced, parsecmd returns, without a message, a command
    that reads, through the strings that nulterminate has made in the array, as
    the command the line stands for. *)
Theorem parsecmd_meaning {W} (h : handler W) l txt junk w :
  ok_line l -> lexes txt (tline l) ->
  exists c buf', run h (parsecmd (txt ++ 0 :: junk)) w = Returned (c, buf') w /\ meant buf' c = mline l.
Proof. apply parsecmd_ok. Qed.

Definition ex_line : sline :=
  LineSeq (PipeBar (Simple [] [(chars "cat", [(RIn, chars "f")])]) (PipeEnd (Simple [] [(chars "wc", [])]))) 1
    (LineEnd (PipeEnd (Simple [] [(chars "ls", [])])) 0).
Definition ex_line_text : list Z := chars "cat<f |wc & ;ls" ++ [C_nl].

Lemma parsecmd_meaning_witness :
  exists c buf', run (fun X c w => match c in sys X return X * unit with
      | Swait => ((0, 0), w) | Spipe => ((0, (0, 0)), w) | Sread _ _ => ((0, []), w) | Sfstat _ => ((0, mkStat 0 0 0 0 0), w)
      | Sexec _ _ => (None, w)
      | Sfork | Swrite _ _ | Sclose _ | Skill _ | Sopen _ _ | Smknod _ _ _ | Sunlink _ | Slink _ _ | Smkdir _ | Schdir _ | Sdup _
      | Sgetpid | Ssbrk _ | Ssleep _ | Suptime => (0, w) end) (parsecmd (ex_line_text ++ [0])) tt = Returned (c, buf') tt /\
    meant buf' c = AList (ABack (APipe (ARedir (AExec [chars "cat"]) (chars "f") O_RDONLY 0) (AExec [chars "wc"]))) (AExec [chars "ls"]).
Proof.
  apply (parsecmd_meaning _ ex_line ex_line_text []).
  - vm_compute. split; [split|]; lia.
  - unfold ex_line_text. cbn [ex_line tline tpipe texec tredirs flat_map rtok replicate app fst snd].
    apply (lex_word [] (chars "cat") (chars "<f |wc & ;ls" ++ [C_nl])); [constructor|done|by repeat constructor|done|].
    apply (lex_sym [] 60 (chars "f |wc & ;ls" ++ [C_nl])); [constructor|by apply (bool_decide_unpack _); vm_compute|].
    apply (lex_word [] (chars "f") (chars " |wc & ;ls" ++ [C_nl])); [constructor|done|by repeat constructor|done|].
    apply (lex_sym [32] 124 (chars "wc & ;ls" ++ [C_nl])); [by repeat constructor|by apply (bool_decide_unpack _); vm_compute|].
    apply (lex_word [] (chars "wc") (chars " & ;ls" ++ [C_nl])); [constructor|done|by repeat constructor|done|].
    apply (lex_sym [32] 38 (chars " ;ls" ++ [C_nl])); [by repeat constructor|by apply (bool_decide_unpack _); vm_compute|].
    apply (lex_sym [32] 59 (chars "ls" ++ [C_nl])); [by repeat constructor|by apply (bool_decide_unpack _); vm_compute|].
    apply (lex_word [] (chars "ls") [C_nl]); [constructor|done|by repeat constructor|done|].
    apply lex_end. by repeat constructor.
Defined.
