(* ===== verification/ShRun.v ===== *)
(** The shell's parser answers every line, and runcmd connects the programs of a
    command to each other as the command says. *)

From S2P Require Import Prelude Outcome UserSys Ulib Uprintf UprintfSpec Sh ShParse.

(** ** Every line is answered *)

(** Every text without a NUL is a sequence of tokens. *)
Lemma word_run txt : exists w r, txt = w ++ r /\ Forall (fun c => word_char c = true) w /\ stops r.
Proof.
  induction txt as [|c txt (w & r & -> & Hw & Hr)]; [by exists [], []|]. destruct (word_char c) eqn:Ec.
  - exists (c :: w), r. split; [done|]. split; [by constructor|done].
  - exists [], (c :: w ++ r). done.
Qed.

Lemma other_char c : c <> 0 -> is_ws c = false -> word_char c = false -> c ∈ plain \/ c = 62.
Proof.
  intros H0 Hw Hc. unfold word_char in Hc. rewrite Hw in Hc. destruct (Z.eqb_spec c 0); [done|]. simpl in Hc. apply negb_false_iff in Hc.
  unfold is_sym, among in Hc. destruct (Z.eqb_spec c 0); [done|]. apply bool_decide_eq_true in Hc.
  assert (Hall : Forall (fun c => c ∈ plain \/ c = 62) symbols) by (apply (bool_decide_unpack _); vm_compute; exact I).
  rewrite Forall_forall in Hall. by apply Hall.
Qed.

Lemma lexes_total n : forall txt, (length txt <= n)%nat -> Forall (fun c => c <> 0) txt -> exists T, lexes txt T.
Proof.
  induction n as [|n IH]; intros txt Hn Hz.
  { destruct txt; [|simpl in Hn; lia]. exists []. by apply lex_end. }
  destruct (strip_split txt) as (ws & E & Hws & Hs). rewrite E in Hn, Hz |- *. rewrite length_app in Hn. apply Forall_app in Hz as [_ Hz].
  destruct (strip txt) as [|c r] eqn:Er; [exists []; rewrite app_nil_r; by apply lex_end|]. inversion Hz as [|? ? Hc Hz']; subst.
  destruct (word_char c) eqn:Ec.
  - destruct (word_run r) as (w & r' & -> & Hw & Hst). apply Forall_app in Hz' as [_ Hz'].
    destruct (IH r') as [T HT]; [simpl in Hn; rewrite length_app in Hn; lia|done|]. exists (TWord (c :: w) :: T).
    apply (lex_word ws (c :: w)); try done. by constructor.
  - destruct (other_char c Hc Hs Ec) as [Hp| ->].
    + destruct (IH r) as [T HT]; [simpl in Hn; lia|done|]. exists (TSym c :: T). by apply lex_sym.
    + destruct (decide (head r = Some 62)) as [Hh|Hh].
      * destruct r as [|d r]; simplify_eq/=. inversion Hz'; subst. destruct (IH r) as [T HT]; [simpl in Hn; lia|done|].
        exists (TSym 43 :: T). by apply lex_append.
      * destruct (IH r) as [T HT]; [simpl in Hn; lia|done|]. exists (TSym 62 :: T). by apply lex_gt.
Qed.

(** The first token of a redirection, and a given first symbol. *)
Lemma head_redir T : head_in T (chars "<>") = true -> exists k T', T = TSym (rtok k) :: T'.
Proof.
  destruct T as [|[w|c] T]; cbn [head_in]; [done|done|]. intros Hc%bool_decide_eq_true. change (chars "<>") with [60; 62] in Hc.
  destruct (Z.eqb_spec c 43) as [->|]; [by exists RAppend, T|]. rewrite !elem_of_cons in Hc. destruct Hc as [->|[->|Hc]]; [by exists RIn, T|by exists ROut, T|].
  by apply not_elem_of_nil in Hc.
Qed.

Lemma head_one T c : c <> 62 -> head_in T [c] = true -> exists T', T = TSym c :: T'.
Proof.
  intros H62. destruct T as [|[w|d] T]; cbn [head_in]; [done|done|]. intros Hc%bool_decide_eq_true. apply list_elem_of_singleton in Hc.
  destruct (Z.eqb_spec d 43); [congruence|]. subst. by exists T.
Qed.

(** A place before the end of the line: what is left is a suffix of it. *)
Lemma refuse_rest buf es s rest txt junk : buf = txt ++ 0 :: junk -> es = length txt -> Forall (fun c => c <> 0) txt ->
  at_ buf es s rest -> rest <> [] -> s <> es /\ str_at buf s `suffix_of` txt.
Proof.
  intros -> -> Hz (pre & junk' & E & Hs & He) Hne. split; [destruct rest; [done|simpl in He; lia]|].
  assert (Et : txt = pre ++ rest).
  { apply (f_equal (take (length txt))) in E. rewrite take_app_length in E. rewrite E, app_assoc. rewrite take_app_length'; [done|]. rewrite length_app. lia. }
  subst txt. exists pre. f_equal. unfold str_at. rewrite <- app_assoc, <- Hs, drop_app_length. apply Forall_app in Hz as [_ Hz]. clear -Hz.
  induction Hz as [|c rest Hc _ IH]; [done|]. cbn [app str_from]. destruct (Z.eqb_spec c 0); [done|]. by rewrite <- IH.
Qed.

Section total.
Context {W : Type} (h : handler W) (buf : list Z) (es : nat).

(** What the parser says when it gives up. *)
Definition complaints : list string :=
  ["missing file for redirection"; "syntax"; "too many args"; "parseblock"; "syntax - missing )"]%string.

(** From [w] to [w'] the bytes [bs] have been written to descriptor 2. *)
Definition says (bs : list Z) (w w' : W) : Prop := run h (puts 2 bs) w = Returned tt w'.

Definition complains (w w' : W) : Prop := exists m, m ∈ complaints /\ says (chars m ++ [C_nl]) w w'.

(** The parser returns, without a call, after tokens of the grammar [G], or complains and exits. *)
Definition settles {A} (p : prog (A * nat)) (G : list tok -> Prop) (T : list tok) : Prop :=
  forall w, match run h p w with
            | Returned (_, s') w' => w' = w /\ exists T1 T2, T = T1 ++ T2 /\ G T1 /\ reads buf es s' T2
            | Exited st w' => st = 1 /\ complains w w'
            | _ => False
            end.

Lemma run_panic {A} x w : exists w', run h (panic x : prog A) w = Exited 1 w' /\ says (chars x ++ [C_nl]) w w'.
Proof.
  unfold panic, fprintf. rewrite run_bind. assert (Ht : text (line "%s") [AStr (Some (chars x))] = Some (chars x ++ [C_nl])) by reflexivity.
  rewrite (run_vprintf h 2 _ _ _ _ w (le_n _) Ht).
  destruct (run_puts_total h 2 (chars x ++ [C_nl]) w) as [w' E]. rewrite E. by exists w'.
Qed.

Lemma settles_panic {A} x G T : bool_decide (x ∈ complaints) = true -> settles (panic x : prog (A * nat)) G T.
Proof. intros Hx%bool_decide_eq_true w. destruct (run_panic (A := A * nat) x w) as (w' & -> & Hs). split; [done|]. by exists x. Qed.

Lemma settles_bind {A B} (p : prog (A * nat)) (k : A * nat -> prog (B * nat)) G G' T :
  settles p G T ->
  (forall a s' T1 T2, T = T1 ++ T2 -> G T1 -> reads buf es s' T2 -> settles (k (a, s')) (fun T3 => G' (T1 ++ T3)) T2) ->
  settles (pbind p k) G' T.
Proof.
  intros Hp Hk w. rewrite run_bind. specialize (Hp w). destruct (run h p w) as [[a s'] w'| | |]; try done.
  destruct Hp as (-> & T1 & T2 & E & HG & Hr). specialize (Hk a s' T1 T2 E HG Hr w). destruct (run h (k (a, s')) w) as [[b s2] w2| | |]; try done.
  destruct Hk as (-> & T3 & T4 & -> & HG' & Hr'). split; [done|]. exists (T1 ++ T3), T4. by rewrite <- app_assoc.
Qed.

Lemma settles_ret {A} (a : A) s (G : list tok -> Prop) T : reads buf es s T -> G [] -> settles (PRet (a, s)) G T.
Proof. intros Hr HG w. cbn. split; [done|]. by exists [], T. Qed.

(** After the token [t]. *)
Lemma settles_tok {A} (p : prog (A * nat)) (G : list tok -> Prop) t T : settles p (fun T1 => G (t :: T1)) T -> settles p G (t :: T).
Proof.
  intros Hp w. specialize (Hp w). destruct (run h p w) as [[a s'] w'| | |]; try done. destruct Hp as (-> & T1 & T2 & -> & HG & Hr).
  split; [done|]. by exists (t :: T1), T2.
Qed.

Lemma settles_weaken {A} (p : prog (A * nat)) (G G' : list tok -> Prop) T : settles p G T -> (forall T1, G T1 -> G' T1) -> settles p G' T.
Proof.
  intros Hp Hi w. specialize (Hp w). destruct (run h p w) as [[a s'] w'| | |]; try done. destruct Hp as (-> & T1 & T2 & -> & HG & Hr).
  split; [done|]. exists T1, T2. auto.
Qed.

Lemma reads_sym_char s c T : reads buf es s (TSym c :: T) -> c ∈ 43 :: 62 :: plain.
Proof.
  intros (txt & _ & Hl). apply lexes_starts in Hl as (r & _ & [(Hc & _)|[(-> & _)|(-> & _)]]); set_solver.
Qed.

(** Reading any token. *)
Lemma read_any s T : reads buf es s T -> exists tok q eq s', gettoken buf s es = (tok, q, eq, s') /\ reads buf es s' (tail T) /\
  match T with [] => tok = 0 | TWord _ :: _ => tok = 97 | TSym c :: _ => tok = c /\ c <> 97 /\ c <> 0 end.
Proof.
  intros Hr. destruct T as [|[w|c] T].
  - destruct (read_end buf es s Hr) as (q & E & Hr'). exists 0, q, q, q. done.
  - destruct (read_word buf es s w T Hr) as (q & eq & s' & E & _ & Hr'). by exists 97, q, eq, s'.
  - destruct (read_sym buf es s c T Hr) as (q & eq & s' & E & Hr'). exists c, q, eq, s'. split; [done|]. split; [done|]. split; [done|].
    apply reads_sym_char in Hr. assert (Hall : Forall (fun c => c <> 97 /\ c <> 0) (43 :: 62 :: plain)) by (apply (bool_decide_unpack _); vm_compute; exact I).
    rewrite Forall_forall in Hall. by apply Hall.
Qed.

Definition Gredirs (T : list tok) : Prop := exists rs, T = tredirs rs.
Definition Gargs (n : nat) (T : list tok) : Prop := exists args, T = targs args /\ (n + length args < MAXARGS)%nat.
Definition Gamps (T : list tok) : Prop := exists n, T = replicate n (TSym 38).
Definition Gexec (T : list tok) : Prop := exists e, T = texec e /\ ok_exec e.
Definition Gpipe (T : list tok) : Prop := exists p, T = tpipe p /\ ok_pipe p.
Definition Gline (T : list tok) : Prop := exists l, T = tline l /\ ok_line l.

Lemma panics {A} x w : bool_decide (x ∈ complaints) = true -> exists w', run h (panic x : prog A) w = Exited 1 w' /\ complains w w'.
Proof. intros Hx%bool_decide_eq_true. destruct (run_panic (A := A) x w) as (w' & E & Hs). exists w'. split; [done|]. by exists x. Qed.

(** Loops that read a token in every round. *)
Lemma redirs_settle n : forall c s T, reads buf es s T -> (length T < n)%nat -> settles (piter n (redir_step buf es) (c, s)) Gredirs T.
Proof.
  induction n as [|n IH]; intros c s T Hr Hn w; [lia|]. rewrite piter_S. unfold redir_step at 1.
  destruct (read_peek buf es s T (chars "<>") Hr) as (s1 & -> & Hr1); [vm_compute; reflexivity|].
  destruct (head_in T (chars "<>")) eqn:Eh; cbn [negb]; [|apply (settles_ret c s1 Gredirs T Hr1); by exists []].
  destruct (head_redir T Eh) as (k & T' & ->).
  destruct (read_any s1 _ Hr1) as (tok & q & eq & s2 & -> & Hr2 & _). cbn [tail] in Hr2.
  destruct (read_any s2 T' Hr2) as (a & q2 & eq2 & s3 & -> & Hr3 & Ha). destruct (Z.eqb_spec a 97) as [->|Hne]; cbn [negb].
  - destruct T' as [|[f|x] T']; [done| |by destruct Ha as (-> & ? & _)]. cbn [run tail length] in *.
    apply (settles_tok _ _ (TSym (rtok k))), settles_tok. eapply settles_weaken; [apply IH; [done|lia]|]. intros T1 [rs ->]. by exists ((k, f) :: rs).
  - by destruct (panics (A := cmd * nat + cmd * nat) "missing file for redirection" w) as (w' & -> & ?); [vm_compute|].
Qed.

Lemma parseredirs_settle c s T : reads buf es s T -> settles (parseredirs buf es c s) Gredirs T.
Proof. intros Hr. apply redirs_settle; [done|]. by eapply reads_rounds. Qed.

Lemma exec_settle n : forall ret argv s T, reads buf es s T -> (length T < n)%nat -> (length argv < MAXARGS)%nat ->
  settles (piter n (exec_step buf es) (ret, argv, s)) (Gargs (length argv)) T.
Proof.
  induction n as [|n IH]; intros ret argv s T Hr Hn Hmax w; [lia|]. rewrite piter_S. unfold exec_step at 1.
  assert (H0 : Gargs (length argv) []) by (exists []; split; [done|simpl; lia]).
  destruct (read_peek buf es s T (chars "|)&;") Hr) as (s1 & -> & Hr1); [vm_compute; reflexivity|].
  destruct (head_in T (chars "|)&;")); [by apply (settles_ret _ s1 _ T)|].
  destruct (read_any s1 T Hr1) as (tok & q & eq & s2 & -> & Hr2 & Ht). destruct T as [|[x|c] T]; cbn [tail length] in *.
  - rewrite Ht. by apply (settles_ret _ s2 _ []).
  - rewrite Ht. cbn [Z.eqb Pos.eqb negb]. destruct (Nat.leb_spec MAXARGS (length (argv ++ [(q, eq)]))) as [Hbad|Hok].
    { by destruct (panics (A := cmd * list (nat * nat) * nat + cmd * nat) "too many args" w) as (w' & -> & ?); [vm_compute|]. }
    rewrite run_bind. pose proof (parseredirs_settle ret s2 T Hr2 w) as Hs.
    destruct (run h (parseredirs buf es ret s2) w) as [[c s3] w3| | |]; try done. destruct Hs as (-> & T1 & T2 & -> & [rs ->] & Hr3). cbn [run].
    rewrite length_app in Hn, Hok. cbn [length] in Hok.
    specialize (IH c (argv ++ [(q, eq)]) s3 T2 Hr3 ltac:(lia) ltac:(rewrite length_app; cbn [length]; lia) w).
    destruct (run h (piter n (exec_step buf es) (c, argv ++ [(q, eq)], s3)) w) as [[c4 s4] w4| | |]; try done.
    destruct IH as (-> & T3 & T4 & -> & (args & -> & Hl) & Hr4). split; [done|]. exists (targs ((x, rs) :: args)), T4.
    split; [cbn [targs flat_map fst snd app]; by rewrite <- app_assoc|]. split; [|done]. exists ((x, rs) :: args). split; [done|]. rewrite length_app in Hl. cbn [length] in *. lia.
  - destruct Ht as (-> & H97 & Hc0). destruct (Z.eqb_spec c 0); [done|]. destruct (Z.eqb_spec c 97); [done|]. cbn [negb].
    by destruct (panics (A := cmd * list (nat * nat) * nat + cmd * nat) "syntax" w) as (w' & -> & ?); [vm_compute|].
Qed.

Lemma back_settle n : forall c s T, reads buf es s T -> (length T < n)%nat -> settles (piter n (back_step buf es) (c, s)) Gamps T.
Proof.
  induction n as [|n IH]; intros c s T Hr Hn w; [lia|]. rewrite piter_S. unfold back_step at 1.
  destruct (read_peek buf es s T (chars "&") Hr) as (s1 & -> & Hr1); [vm_compute; reflexivity|].
  destruct (head_in T (chars "&")) eqn:Eh; cbn [negb]; [|apply (settles_ret c s1 Gamps T Hr1); by exists 0%nat].
  destruct (head_one T 38 ltac:(done) Eh) as (T' & ->). destruct (read_any s1 _ Hr1) as (tok & q & eq & s2 & -> & Hr2 & _). cbn [run tail length] in *.
  apply settles_tok. eapply settles_weaken; [apply IH; [done|lia]|]. intros T1 [k ->]. by exists (S k).
Qed.

Lemma block_settle (pl : nat -> prog (cmd * nat)) s T :
  (forall s' T', reads buf es s' T' -> (length T' < length T)%nat -> settles (pl s') Gline T') -> reads buf es s T ->
  settles (parseblock buf es pl s) Gexec T.
Proof.
  intros Hpl Hr. unfold parseblock. destruct (read_peek buf es s T (chars "(") Hr) as (s1 & -> & Hr1); [vm_compute; reflexivity|].
  destruct (head_in T (chars "(")) eqn:Eh; cbn [negb]; [|by apply settles_panic]. destruct (head_one T 40 ltac:(done) Eh) as (T' & ->).
  destruct (read_any s1 _ Hr1) as (tok & q & eq & s2 & -> & Hr2 & _). cbn [tail] in Hr2. apply settles_tok.
  apply (settles_bind _ _ Gline); [apply Hpl; [done|simpl; lia]|]. intros c s3 T1 T3 -> (l & -> & Hl) Hr3.
  destruct (read_peek buf es s3 T3 (chars ")") Hr3) as (s4 & -> & Hr4); [vm_compute; reflexivity|].
  destruct (head_in T3 (chars ")")) eqn:Eh3; cbn [negb]; [|by apply settles_panic]. destruct (head_one T3 41 ltac:(done) Eh3) as (T5 & ->).
  destruct (read_any s4 _ Hr4) as (tok2 & q2 & eq2 & s5 & -> & Hr5 & _). cbn [tail] in Hr5. apply settles_tok.
  eapply settles_weaken; [by apply parseredirs_settle|]. intros T6 [rs ->]. by exists (Block l rs).
Qed.

Lemma exec_settles (pl : nat -> prog (cmd * nat)) s T :
  (forall s' T', reads buf es s' T' -> (length T' < length T)%nat -> settles (pl s') Gline T') -> reads buf es s T ->
  settles (parseexec buf es pl s) Gexec T.
Proof.
  intros Hpl Hr. unfold parseexec. destruct (read_peek buf es s T (chars "(") Hr) as (s1 & -> & Hr1); [vm_compute; reflexivity|].
  destruct (head_in T (chars "(")); [by apply block_settle|].
  apply (settles_bind _ _ Gredirs); [by apply parseredirs_settle|]. intros c s2 T1 T2 -> [rs ->] Hr2.
  eapply settles_weaken; [apply (exec_settle _ c [] s2 T2 Hr2); [by eapply reads_rounds|unfold MAXARGS; simpl; lia]|].
  intros T3 (args & -> & Hl). by exists (Simple rs args).
Qed.

Lemma parse_settles f :
  (forall s T, reads buf es s T -> (2 * length T + 1 < f)%nat -> settles (parseline buf es f s) Gline T) /\
  (forall s T, reads buf es s T -> (2 * length T < f)%nat -> settles (parsepipe buf es f s) Gpipe T).
Proof.
  induction f as [|f [IHl IHp]]; (split; intros s T Hr Hf; [lia|lia]) || split; intros s T Hr Hf.
  - rewrite parseline_S. apply (settles_bind _ _ Gpipe); [apply IHp; [done|lia]|]. intros c s1 T1 T2 -> (p & -> & Hp) Hr1. rewrite length_app in Hf.
    apply (settles_bind _ _ Gamps); [apply back_settle; [done|by eapply reads_rounds]|]. intros c2 s2 T3 T4 -> [n ->] Hr2. rewrite length_app in Hf.
    destruct (read_peek buf es s2 T4 (chars ";") Hr2) as (s3 & -> & Hr3); [vm_compute; reflexivity|].
    destruct (head_in T4 (chars ";")) eqn:Eh; [|apply (settles_ret _ s3 _ T4 Hr3); rewrite app_nil_r; by exists (LineEnd p n)].
    destruct (head_one T4 59 ltac:(done) Eh) as (T5 & ->). destruct (read_any s3 _ Hr3) as (tok & q & eq & s4 & -> & Hr4 & _). cbn [tail length] in *.
    apply settles_tok, (settles_bind _ _ Gline); [apply IHl; [done|lia]|]. intros r s5 T6 T7 -> (l & -> & Hl) Hr5.
    apply (settles_ret _ s5 _ T7 Hr5). exists (LineSeq p n l). split; [|done]. by rewrite app_nil_r.
  - rewrite parsepipe_S. apply (settles_bind _ _ Gexec).
    + apply exec_settles; [|done]. intros s' T' Hr' Hl'. apply IHl; [done|lia].
    + intros c s1 T1 T2 -> (e & -> & He) Hr1. rewrite length_app in Hf.
      destruct (read_peek buf es s1 T2 (chars "|") Hr1) as (s2 & -> & Hr2); [vm_compute; reflexivity|].
      destruct (head_in T2 (chars "|")) eqn:Eh; [|apply (settles_ret _ s2 _ T2 Hr2); rewrite app_nil_r; by exists (PipeEnd e)].
      destruct (head_one T2 124 ltac:(done) Eh) as (T3 & ->). destruct (read_any s2 _ Hr2) as (tok & q & eq & s3 & -> & Hr3 & _). cbn [tail length] in *.
      apply settles_tok, (settles_bind _ _ Gpipe); [apply IHp; [done|lia]|]. intros r s4 T4 T5 -> (p & -> & Hp) Hr4.
      apply (settles_ret _ s4 _ T5 Hr4). exists (PipeBar e p). split; [|done]. by rewrite app_nil_r.
Qed.
End total.

(** C37. parsecmd accepts exactly the lines of the grammar, with at most MAXARGS - 1 words to
    a command.  On such a line it returns the command the line stands for and makes no
    system call.  On any other line it writes to descriptor 2 one of the parser's messages, or
    what is left over of the line and then a message, and exits with status 1. *)
Theorem parsecmd_total {W} (h : handler W) txt junk w : Forall (fun c => c <> 0) txt ->
  (exists l, ok_line l /\ lexes txt (tline l) /\
     exists c buf', run h (parsecmd (txt ++ 0 :: junk)) w = Returned (c, buf') w /\ meant buf' c = mline l) \/
  (~ (exists l, ok_line l /\ lexes txt (tline l)) /\
     exists w', run h (parsecmd (txt ++ 0 :: junk)) w = Exited 1 w' /\
       (complains h w w' \/ exists left, left `suffix_of` txt /\ says h (chars "leftovers: " ++ left ++ [C_nl] ++ chars "syntax" ++ [C_nl]) w w')).
Proof.
  intros Hz. destruct (lexes_total (length txt) txt (le_n _) Hz) as [T HT]. set (buf := txt ++ 0 :: junk). set (es := length txt).
  assert (Hr : reads buf es 0 T) by (exists txt; split; [by exists [], junk|done]).
  (* a line of the grammar is not refused *)
  assert (Hno : forall w', run h (parsecmd buf) w = Exited 1 w' -> ~ exists l, ok_line l /\ lexes txt (tline l)).
  { intros w' E (l & Hok & Hl). destruct (parsecmd_ok h l txt junk w Hok Hl) as (c & b & E' & _). fold buf in E'. congruence. }
  assert (Hrun : run h (parsecmd buf) w = run h ('(c, s) <- parseline buf es (parse_depth buf) 0;; let '(_, s) := peek buf s es [] in
    if negb (s =? es)%nat then fprintf 2 (line "leftovers: %s") [AStr (Some (str_at buf s))];; panic "syntax" else PRet (c, nulterminate c buf)) w).
  { unfold parsecmd. unfold buf at 1. rewrite (strlen_nonzero txt junk Hz). cbn [must pbind]. by rewrite Nat2Z.id. }
  destruct (parse_settles h buf es (parse_depth buf)) as [Hl _]. specialize (Hl 0%nat T Hr).
  pose proof (lexes_length _ _ HT) as Hlen. specialize (Hl ltac:(unfold parse_depth, buf; rewrite length_app; simpl; lia) w).
  rewrite run_bind in Hrun. destruct (run h (parseline buf es (parse_depth buf) 0) w) as [[c s] w1|st w1| |]; try done.
  2: { destruct Hl as [-> Hc]. right. split; [by apply (Hno w1)|]. exists w1. split; [done|]. by left. }
  destruct Hl as (-> & T1 & T2 & -> & (l & -> & Hok) & txt' & Ha & Hl2). unfold peek in Hrun. apply skip_ws_at in Ha. apply lexes_starts in Hl2.
  destruct T2 as [|t T2].
  - left. exists l. rewrite app_nil_r in HT. split; [done|]. split; [done|]. by apply parsecmd_ok.
  - right. destruct (refuse_rest buf es (skip_ws buf s es) (strip txt') txt junk eq_refl eq_refl Hz Ha) as [Hne Hst].
    { destruct t; [destruct Hl2 as (r & _ & -> & Hne & _); by destruct w0|destruct Hl2 as (r & _ & [(_ & ->)|[(_ & -> & _)|(_ & ->)]]); done]. }
    rewrite (proj2 (Nat.eqb_neq _ _) Hne) in Hrun. cbn [negb] in Hrun. rewrite run_bind in Hrun. unfold fprintf in Hrun.
    assert (Ht : text (line "leftovers: %s") [AStr (Some (str_at buf (skip_ws buf s es)))] = Some (chars "leftovers: " ++ str_at buf (skip_ws buf s es) ++ [C_nl])) by reflexivity.
    rewrite (run_vprintf h 2 _ _ _ _ w (le_n _) Ht) in Hrun. destruct (run_puts_total h 2 (chars "leftovers: " ++ str_at buf (skip_ws buf s es) ++ [C_nl]) w) as [w2 E2]. rewrite E2 in Hrun.
    destruct (run_panic (A := cmd * list Z) h "syntax" w2) as (w3 & E3 & Hs3). rewrite E3 in Hrun.
    split; [by apply (Hno w3)|]. exists w3. split; [done|]. right. exists (str_at buf (skip_ws buf s es)). split; [done|].
    unfold says in *. rewrite !app_assoc, <- (app_assoc (_ ++ [C_nl])), (run_puts_app h 2 _ _ w w2); [done|]. by rewrite <- app_assoc.
Qed.

(** A world that collects what is written. *)
Definition ex_sink : handler (list Z) := fun X c w =>
  match c in sys X return X * list Z with
  | Swait => ((0, 0), w) | Spipe => ((0, (0, 0)), w) | Sread _ _ => ((0, []), w) | Sfstat _ => ((0, mkStat 0 0 0 0 0), w)
  | Sexec _ _ => (None, w) | Swrite _ bs => (1, w ++ bs)
  | Sfork | Sclose _ | Skill _ | Sopen _ _ | Smknod _ _ _ | Sunlink _ | Slink _ _ | Smkdir _ | Schdir _ | Sdup _
  | Sgetpid | Ssbrk _ | Ssleep _ | Suptime => (0, w)
  end.

Lemma parsecmd_total_witness :
  exists w', run ex_sink (parsecmd (chars "((a>" ++ [0])) [] = Exited 1 w' /\ ~ exists l, ok_line l /\ lexes (chars "((a>") (tline l).
Proof.
  assert (Hz : Forall (fun c => c <> 0) (chars "((a>")) by (apply (bool_decide_unpack _); vm_compute; exact I).
  destruct (parsecmd_total ex_sink (chars "((a>") [] [] Hz) as [(l & _ & _ & c & b & E & _)|(Hno & w' & E & _)].
  - exfalso. revert E. lazy. discriminate.
  - exists w'. split; [exact E|exact Hno].
Defined.

(** ** What runcmd starts *)

(** What a descriptor refers to; a pipe is named by the process that made it. *)
Inductive desc : Type := DConsole | DFile (path : list Z) (mode : Z) | DPipeR (who : list nat) | DPipeW (who : list nat).
Notation fdtab := (gmap Z desc).

(** What a process does besides its own files: it forks, and it waits, with these files open. *)
Inductive event : Type := Forked | Waited (t : fdtab).
Inductive fate : Type := Execs (path : list Z) (argv : list (list Z)) | Exits (status : Z) | Goes_on.

(** A process: named by the forks that lead to it, with what it did, how it ended and the
    files it had open then. *)
Record process : Type := mkProcess { pr_name : list nat; pr_events : list event; pr_fate : fate; pr_files : fdtab }.

Definition forks (ev : list event) : nat := length (List.filter (fun e => match e with Forked => true | Waited _ => false end) ev).

Definition NOFILE : nat := 16.

(** fdalloc: the lowest free descriptor. *)
Definition fdalloc (t : fdtab) : option Z := find (fun fd => bool_decide (t !! fd = None)) (Z.of_nat <$> seq 0 NOFILE).

(** A process and all its descendants, for calls that succeed while there are descriptors. *)
Fixpoint processes (p : prog unit) (who : list nat) (ev : list event) (t : fdtab) : list process :=
  match p with
  | PExit st => [mkProcess who ev (Exits st) t]
  | PRet _ | PGone | PStop _ => [mkProcess who ev Goes_on t]
  | PSys c k =>
      match c in sys X return (X -> prog unit) -> list process with
      | Sfork => fun k => processes (k 0) (who ++ [forks ev]) [] t ++ processes (k 1) who (ev ++ [Forked]) t
      | Swait => fun k => processes (k (1, 0)) who (ev ++ [Waited t]) t
      | Spipe => fun k =>
          match fdalloc t with
          | Some r =>
              match fdalloc (<[r := DPipeR who]> t) with
              | Some w => processes (k (0, (r, w))) who ev (<[w := DPipeW who]> (<[r := DPipeR who]> t))
              | None => processes (k (-1, (0, 0))) who ev t
              end
          | None => processes (k (-1, (0, 0))) who ev t
          end
      | Sclose fd => fun k => processes (k 0) who ev (delete fd t)
      | Sexec path argv => fun _ => [mkProcess who ev (Execs path argv) t]
      | Sopen path mode => fun k =>
          match fdalloc t with
          | Some fd => processes (k fd) who ev (<[fd := DFile path mode]> t)
          | None => processes (k (-1)) who ev t
          end
      | Sdup fd => fun k =>
          match t !! fd, fdalloc t with
          | Some d, Some fd' => processes (k fd') who ev (<[fd' := d]> t)
          | _, _ => processes (k (-1)) who ev t
          end
      | Swrite _ bs => fun k => processes (k (Z.of_nat (length bs))) who ev t
      | Sread _ _ => fun k => processes (k (0, [])) who ev t
      | Sfstat _ => fun k => processes (k (-1, mkStat 0 0 0 0 0)) who ev t
      | Skill _ | Smknod _ _ _ | Sunlink _ | Slink _ _ | Smkdir _ | Schdir _ | Sgetpid | Ssbrk _ | Ssleep _ | Suptime =>
          fun k => processes (k 0) who ev t
      end k
  end.

(** The processes a command should make.  The process of a bar forks both sides and waits for
    two children with the pipe closed; the process of a semicolon waits for the left side
    before it goes on with the right one; that of an ampersand waits for nothing. *)
Fixpoint sem (c : acmd) (who : list nat) (ev : list event) (t : fdtab) : list process :=
  match c with
  | AExec [] => [mkProcess who ev (Exits 1) t]
  | AExec (a :: args) => [mkProcess who ev (Execs a (a :: args)) t]
  | ARedir c' file mode fd => sem c' who ev (<[fd := DFile file mode]> t)
  | APipe l r =>
      sem l (who ++ [forks ev]) [] (<[1 := DPipeW who]> t) ++ sem r (who ++ [S (forks ev)]) [] (<[0 := DPipeR who]> t) ++
      [mkProcess who (ev ++ [Forked; Forked; Waited t; Waited t]) (Exits 0) t]
  | AList l r => sem l (who ++ [forks ev]) [] t ++ sem r who (ev ++ [Forked; Waited t]) t
  | ABack c' => sem c' (who ++ [forks ev]) [] t ++ [mkProcess who (ev ++ [Forked]) (Exits 0) t]
  end.

(** Three descriptors are open, as main of the shell makes sure. *)
Definition std (t : fdtab) : Prop := dom t = {[0; 1; 2]}.

Fixpoint redirs_std (c : acmd) : Prop :=
  match c with
  | AExec _ => True
  | ARedir c' _ _ fd => (fd = 0 \/ fd = 1) /\ redirs_std c'
  | APipe l r | AList l r => redirs_std l /\ redirs_std r
  | ABack c' => redirs_std c'
  end.

(** The lowest free descriptor depends on which are open only. *)
Definition lowest (D : gset Z) : option Z := find (fun fd => bool_decide (fd ∉ D)) (Z.of_nat <$> seq 0 NOFILE).

Lemma fdalloc_dom t : fdalloc t = lowest (dom t).
Proof.
  unfold fdalloc, lowest. induction (Z.of_nat <$> seq 0 NOFILE) as [|fd l IH]; [done|]. simpl.
  rewrite (bool_decide_ext (t !! fd = None) (fd ∉ dom t)) by (by rewrite not_elem_of_dom). by rewrite IH.
Qed.

Lemma std_insert t fd d : std t -> fd = 0 \/ fd = 1 -> std (<[fd := d]> t).
Proof. unfold std. intros Ht Hfd. rewrite dom_insert_L, Ht. destruct Hfd as [-> | ->]; apply (bool_decide_unpack _); vm_compute; exact I. Qed.

Lemma std_none t fd : std t -> fd <> 0 -> fd <> 1 -> fd <> 2 -> t !! fd = None.
Proof. intros Ht H0 H1 H2. apply not_elem_of_dom. rewrite Ht. set_solver. Qed.

(** Reopening one of the first two descriptors. *)
Lemma reopen t fd d : std t -> fd = 0 \/ fd = 1 -> fdalloc (delete fd t) = Some fd /\ <[fd := d]> (delete fd t) = <[fd := d]> t.
Proof.
  intros Ht Hfd. split; [|apply insert_delete_eq]. rewrite fdalloc_dom, dom_delete_L, Ht.
  destruct Hfd as [-> | ->]; vm_compute; reflexivity.
Qed.

Definition piped (who : list nat) (t : fdtab) : fdtab := <[4 := DPipeW who]> (<[3 := DPipeR who]> t).

Lemma pipe_fds who t : std t -> fdalloc t = Some 3 /\ fdalloc (<[3 := DPipeR who]> t) = Some 4.
Proof. intros Ht. rewrite !fdalloc_dom, dom_insert_L, Ht. split; vm_compute; reflexivity. Qed.

(** One end of the pipe moved to descriptor 0 or 1, the others closed. *)
Lemma pipe_child who t fd p d : std t -> fd = 0 \/ fd = 1 -> p = 3 /\ d = DPipeR who \/ p = 4 /\ d = DPipeW who ->
  delete fd (piped who t) !! p = Some d /\ fdalloc (delete fd (piped who t)) = Some fd /\
  delete 4 (delete 3 (<[fd := d]> (delete fd (piped who t)))) = <[fd := d]> t.
Proof.
  intros Ht Hfd Hp. pose proof (std_none t 3 Ht ltac:(lia) ltac:(lia) ltac:(lia)) as H3.
  pose proof (std_none t 4 Ht ltac:(lia) ltac:(lia) ltac:(lia)) as H4. unfold piped. split; [|split].
  - rewrite lookup_delete_ne by lia. destruct Hp as [[-> ->]|[-> ->]]; [rewrite lookup_insert_ne by lia|]; by rewrite lookup_insert_eq.
  - rewrite fdalloc_dom, dom_delete_L, !dom_insert_L, Ht. destruct Hfd as [-> | ->]; vm_compute; reflexivity.
  - apply map_eq. intros k. destruct (decide (k = 3)) as [->|]; [|destruct (decide (k = 4)) as [->|]].
    + rewrite lookup_delete_ne, lookup_delete_eq, lookup_insert_ne by lia. done.
    + rewrite lookup_delete_eq, lookup_insert_ne by lia. done.
    + rewrite !lookup_delete_ne by lia. destruct (decide (k = fd)) as [->|]; [by rewrite !lookup_insert_eq|].
      by rewrite !lookup_insert_ne, lookup_delete_ne, !lookup_insert_ne by lia.
Qed.

(** The parent closes both ends. *)
Lemma pipe_parent who t : std t -> delete 4 (delete 3 (piped who t)) = t.
Proof.
  intros Ht. pose proof (std_none t 3 Ht ltac:(lia) ltac:(lia) ltac:(lia)) as H3. pose proof (std_none t 4 Ht ltac:(lia) ltac:(lia) ltac:(lia)) as H4.
  unfold piped. rewrite delete_delete, delete_insert_id, delete_insert_id; [done|done|]. by rewrite lookup_insert_ne.
Qed.

Lemma forks_snoc ev : forks (ev ++ [Forked]) = S (forks ev).
Proof. unfold forks. rewrite List.filter_app, length_app. simpl. lia. Qed.

Lemma runcmd_processes buf c who ev t :
  std t -> redirs_std (meant buf c) -> processes (runcmd buf c) who ev t = sem (meant buf c) who ev t.
Proof.
  revert who ev t. induction c as [argv|c IH file e mode fd|l IHl r IHr|l IHl r IHr|c IH]; intros who ev t Ht Hc; cbn [meant redirs_std] in Hc.
  - by destruct argv.
  - destruct Hc as [Hfd Hc]. destruct (reopen t fd (DFile (str_at buf file) mode) Ht Hfd) as [E1 E2].
    cbn [runcmd sys_ pbind processes meant sem]. rewrite E1, E2. destruct (Z.ltb_spec fd 0); [lia|]. apply IH; [by apply std_insert|done].
  - destruct Hc as [Hl Hr]. destruct (pipe_fds who t Ht) as [E1 E2]. cbn [runcmd sys_ pbind processes meant sem]. rewrite E1, E2. fold (piped who t).
    cbn [fork1 sys_ pbind processes Z.ltb Z.compare Z.eqb].
    destruct (pipe_child who t 1 4 (DPipeW who) Ht) as (E3 & E4 & E5); [by right|by right|].
    destruct (pipe_child who t 0 3 (DPipeR who) Ht) as (E6 & E7 & E8); [by left|by left|].
    rewrite E3, E4, E5, E6, E7, E8, IHl, IHr, forks_snoc, (pipe_parent who t Ht) by (done || apply std_insert; auto). by rewrite <- !app_assoc.
  - destruct Hc as [Hl Hr]. cbn [runcmd fork1 sys_ pbind processes meant sem Z.eqb]. rewrite IHl, IHr by done. by rewrite <- app_assoc.
  - cbn [runcmd fork1 sys_ pbind processes meant sem Z.eqb]. by rewrite IH.
Qed.

(** C36. The processes that runcmd makes are those the command stands for.  Each program
    that it names is executed by a process of its own with its files connected as the
    command says: a redirection replaces descriptor 0 or 1, and the left side of a bar
    writes to and the right side reads from a pipe of their own.  No process is left with
    a pipe end that it does not use: the process of a bar has closed both when it waits
    for its two children.  That of a semicolon waits for the left side before the right
    one starts, and that of an ampersand exits at once. *)
Theorem runcmd_connects buf c who ev t :
  std t -> redirs_std (meant buf c) -> processes (runcmd buf c) who ev t = sem (meant buf c) who ev t.
Proof. apply runcmd_processes. Qed.

(** ** From the text to the programs *)

(** A program that returns the same in every world makes no system call. *)
Definition counting : handler nat := fun X c w =>
  match c in sys X return X * nat with
  | Swait => ((0, 0), S w) | Spipe => ((0, (0, 0)), S w) | Sread _ _ => ((0, []), S w) | Sfstat _ => ((0, mkStat 0 0 0 0 0), S w)
  | Sexec _ _ => (None, S w)
  | Sfork | Swrite _ _ | Sclose _ | Skill _ | Sopen _ _ | Smknod _ _ _ | Sunlink _ | Slink _ _ | Smkdir _ | Schdir _ | Sdup _
  | Sgetpid | Ssbrk _ | Ssleep _ | Suptime => (0, S w)
  end.

Lemma counting_mono {A} (p : prog A) : forall w a w', run counting p w = Returned a w' -> (w <= w')%nat.
Proof.
  induction p as [x| | | |X c k IH]; intros w a w' E; simplify_eq/=; [lia|]. destruct (counting X c w) as [x w1] eqn:Ec.
  apply IH in E. assert (w1 = S w); [|lia]. destruct c; simpl in Ec; by simplify_eq.
Qed.

Lemma run_pure {A} (p : prog A) a : run counting p 0%nat = Returned a 0%nat -> p = PRet a.
Proof.
  intros Hp. destruct p as [| | | |X c k]; simplify_eq/=; [done|]. destruct (counting X c 0%nat) as [x w1] eqn:Ec.
  apply counting_mono in Hp. assert (w1 = 1%nat); [|lia]. destruct c; simpl in Ec; by simplify_eq.
Qed.

Lemma wrap_std c rs : redirs_std c -> redirs_std (wrap c rs).
Proof.
  revert c. induction rs as [|[k f] rs IH]; intros c Hc; [done|]. simpl. apply IH. split; [|done]. destruct k; simpl; auto.
Qed.

Lemma iter_back_std n c : redirs_std c -> redirs_std (Nat.iter n ABack c).
Proof. intros Hc. by induction n. Qed.

Lemma meaning_std : (forall l, redirs_std (mline l)) /\ (forall p, redirs_std (mpipe p)) /\ (forall e, redirs_std (mexec e)).
Proof.
  apply syntax_mut; simpl; intros; rewrite ?app_nil_r; try split; try (by apply iter_back_std); try (by apply wrap_std); done.
Qed.

(** C9. A line of the shell, from the text to the programs: for every text of a
    command line the process that main forks and its descendants are exactly those that
    the line stands for, and execute its programs connected as it says. *)
Theorem shell_line_starts l txt junk who ev t :
  ok_line l -> lexes txt (tline l) -> std t ->
  processes ('(c, buf) <- parsecmd (txt ++ 0 :: junk);; runcmd buf c) who ev t = sem (mline l) who ev t.
Proof.
  intros Hok Hl Ht. destruct (parsecmd_ok counting l txt junk 0%nat Hok Hl) as (c & buf' & E0 & Hm).
  rewrite (run_pure _ _ E0). cbn [pbind]. rewrite runcmd_processes; rewrite ?Hm; [done|done|apply meaning_std].
Qed.

(** ** Concrete commands *)

Definition ex_std : fdtab := {[0 := DConsole; 1 := DConsole; 2 := DConsole]}.

Lemma ex_std_std : std ex_std.
Proof. apply (bool_decide_unpack _). vm_compute. exact I. Qed.

Definition ex_cmd_buf : list Z := chars "cat" ++ [0] ++ chars "f" ++ [0] ++ chars "wc" ++ [0].
Definition ex_cmd : cmd := PIPE (REDIR (EXEC [(0, 3)]) 4 5 O_RDONLY 0)%nat (EXEC [(6, 8)])%nat.

Lemma runcmd_connects_witness :
  std ex_std /\ processes (runcmd ex_cmd_buf ex_cmd) [] [] ex_std =
  [mkProcess [0%nat] [] (Execs (chars "cat") [chars "cat"]) (<[0 := DFile (chars "f") O_RDONLY]> (<[1 := DPipeW []]> ex_std));
   mkProcess [1%nat] [] (Execs (chars "wc") [chars "wc"]) (<[0 := DPipeR []]> ex_std);
   mkProcess [] [Forked; Forked; Waited ex_std; Waited ex_std] (Exits 0) ex_std].
Proof.
  split; [apply ex_std_std|]. apply (runcmd_connects ex_cmd_buf ex_cmd [] [] ex_std ex_std_std). simpl. auto.
Defined.

Lemma shell_line_starts_witness :
  processes ('(c, buf) <- parsecmd (chars "ls|wc" ++ [0]);; runcmd buf c) [] [] ex_std =
  [mkProcess [0%nat] [] (Execs (chars "ls") [chars "ls"]) (<[1 := DPipeW []]> ex_std);
   mkProcess [1%nat] [] (Execs (chars "wc") [chars "wc"]) (<[0 := DPipeR []]> ex_std);
   mkProcess [] [Forked; Forked; Waited ex_std; Waited ex_std] (Exits 0) ex_std].
Proof.
  apply (shell_line_starts (LineEnd (PipeBar (Simple [] [(chars "ls", [])]) (PipeEnd (Simple [] [(chars "wc", [])]))) 0)
    (chars "ls|wc") [] [] [] ex_std); [vm_compute; split; lia| |apply ex_std_std].
  apply (lex_word [] (chars "ls") (chars "|wc")); [constructor|done|by repeat constructor|done|].
  apply (lex_sym [] 124 (chars "wc")); [constructor|by apply (bool_decide_unpack _); vm_compute|].
  apply (lex_word [] (chars "wc") []); [constructor|done|by repeat constructor|done|]. by apply lex_end.
Defined.
