(* ===== verification/Mkfs.v ===== *)
(** mkfs/mkfs.c: the program that makes the initial file system image.

    The image is the map from sector numbers to their bytes.  mkfs runs on the
    build host; its messages are left out, and a failed assertion or a call of
    die stops it.  The structures are byte lists in the layout of the RISC-V
    kernel, so that xshort and xint, which give a host integer that layout, are
    conversions to the width. *)

From S2P Require Import Prelude Outcome Mem State Bytes Fs.

Definition NINODES : Z := 200.

Definition nbitmap : Z := FSSIZE / (BSIZE * 8) + 1.
Definition ninodeblocks : Z := NINODES / IPB + 1.
Definition nlog : Z := LOGSIZE.
Definition nmeta : Z := 2 + nlog + ninodeblocks + nbitmap.
Definition nblocks : Z := FSSIZE - nmeta.

Definition zeroes : list Z := replicate (Z.to_nat BSIZE) 0.

(** The image and the static variables [freeinode] and [freeblock]. *)
Record mkfs : Type := mkMkfs { mimg : gmap Z (list Z); freeinode : Z; freeblock : Z }.

Definition xshort (x : Z) : Z := u16 x.
Definition xint (x : Z) : Z := u32 x.

(** sb, which main fills before anything is written. *)
Definition msb : superblock :=
  mkSuperblock FSMAGIC (xint FSSIZE) (xint nblocks) (xint NINODES) (xint nlog) (xint 2) (xint (2 + nlog))
    (xint (2 + nlog + ninodeblocks)).

Definition die {A} (s : string) : M mkfs A := halt (Panicked s).
Definition assert_ (b : bool) : M mkfs unit := if b then ret tt else halt (Panicked "assertion failed").

Definition wsect (sec : Z) (b : list Z) : M mkfs unit :=
  modify (fun s => mkMkfs (<[sec := b]> (mimg s)) (freeinode s) (freeblock s)).

(** Past the end of the image file the read is short. *)
Definition rsect (sec : Z) : M mkfs (list Z) :=
  o <- gets (fun s => mimg s !! sec);;
  match o with Some b => ret b | None => die "read" end.

(** struct dinode as its bytes. *)
Definition rinode (inum : Z) : M mkfs (list Z) :=
  b <- rsect (IBLOCK inum msb);;
  ret (sub b (Z.to_nat (dinode_off inum)) (Z.to_nat DINODE_SIZE)).

Definition winode (inum : Z) (din : list Z) : M mkfs unit :=
  let bn := IBLOCK inum msb in
  b <- rsect bn;;
  wsect bn (upd b (Z.to_nat (dinode_off inum)) din).

Definition ialloc (type : Z) : M mkfs Z :=
  inum <- gets freeinode;;
  modify (fun s => mkMkfs (mimg s) (u32 (freeinode s + 1)) (freeblock s));;
  let din := replicate (Z.to_nat DINODE_SIZE) 0 in
  let din := put16 din di_type (xshort type) in
  let din := put16 din di_nlink (xshort 1) in
  let din := put32 din di_size (xint 0) in
  winode inum din;;
  ret inum.

(** buf[i/8] |= 1 << (i%8) for i = 0 .. used-1 *)
Definition bitmap_of (used : Z) : list Z :=
  foldl bit_set zeroes (seqZ 0 used).

Definition balloc (used : Z) : M mkfs unit :=
  assert_ (used <? BSIZE * 8);;
  wsect (sb_bmapstart msb) (bitmap_of used).

(** freeblock++ *)
Definition new_block : M mkfs Z :=
  b <- gets freeblock;;
  modify (fun s => mkMkfs (mimg s) (freeinode s) (u32 (freeblock s + 1)));;
  ret b.

Definition din_addr (din : list Z) (k : Z) : Z := get32 din (di_addrs + 4 * k).
Definition set_din_addr (din : list Z) (k v : Z) : list Z := put32 din (di_addrs + 4 * k) v.

(** The block of the file that holds block [fbn], allocated when there is none. *)
Definition iappend_block (din : list Z) (fbn : Z) : M mkfs (Z * list Z) :=
  if fbn <? NDIRECT then
    din <- (if xint (din_addr din fbn) =? 0 then b <- new_block;; ret (set_din_addr din fbn (xint b)) else ret din);;
    ret (xint (din_addr din fbn), din)
  else
    din <- (if xint (din_addr din NDIRECT) =? 0 then b <- new_block;; ret (set_din_addr din NDIRECT (xint b)) else ret din);;
    indirect <- rsect (xint (din_addr din NDIRECT));;
    indirect <- (if get32 indirect (4 * (fbn - NDIRECT)) =? 0 then
                   b <- new_block;;
                   let indirect := put32 indirect (4 * (fbn - NDIRECT)) (xint b) in
                   wsect (xint (din_addr din NDIRECT)) indirect;;
                   ret indirect
                 else ret indirect);;
    ret (xint (get32 indirect (4 * (fbn - NDIRECT))), din).

(** The loop of iappend: each round writes at least one byte, so [length p] rounds
    are enough. *)
Fixpoint iappend_loop (f : nat) (din : list Z) (off : Z) (p : list Z) : M mkfs (list Z * Z) :=
  match p, f with
  | [], _ => ret (din, off)
  | _, O => halt OutOfFuel
  | _, S f' =>
      let n := Z.of_nat (length p) in
      let fbn := off / BSIZE in
      assert_ (fbn <? MAXFILE);;
      '(x, din) <- iappend_block din fbn;;
      let n1 := Z.min n ((fbn + 1) * BSIZE - off) in
      buf <- rsect x;;
      wsect x (upd buf (Z.to_nat (off - fbn * BSIZE)) (take (Z.to_nat n1) p));;
      iappend_loop f' din (u32 (off + n1)) (drop (Z.to_nat n1) p)
  end.

Definition iappend (inum : Z) (p : list Z) : M mkfs unit :=
  din <- rinode inum;;
  '(din, off) <- iappend_loop (length p) din (xint (get32 din di_size)) p;;
  winode inum (put32 din di_size (xint off)).

(** strncpy and strcpy into the zeroed name of a struct dirent. *)
Definition dirent (inum : Z) (name : list Z) : list Z :=
  le_enc 2 (xshort inum) ++ take DIRSIZ (name ++ replicate DIRSIZ 0).

Definition bytes_of (x : string) : list Z :=
  (fun c => Z.of_nat (Ascii.nat_of_ascii c)) <$> String.list_ascii_of_string x.

(** The name under which an argument is stored. *)
Definition drop_prefix (arg : list Z) : list Z :=
  if decide (take 5 arg = bytes_of "user/") then drop 5 arg else arg.
Definition drop_underscore (name : list Z) : list Z :=
  match name with c :: name' => if c =? 95 then name' else name | [] => name end.

(** One file argument: its name, and what the reads of at most BSIZE bytes
    return, [None] when it cannot be opened. *)
Definition add_file (rootino : Z) (f : list Z * option (list (list Z))) : M mkfs unit :=
  let '(arg, reads) := f in
  let shortname := drop_prefix arg in
  assert_ (bool_decide (47 ∉ shortname));;
  match reads with
  | None => die "open"
  | Some chunks =>
      let shortname := drop_underscore shortname in
      inum <- ialloc T_FILE;;
      iappend rootino (dirent inum shortname);;
      for_each chunks (iappend inum)
  end.

Definition superblock_bytes (sp : superblock) : list Z :=
  concat (le_enc 4 <$> [sb_magic sp; sb_size sp; sb_nblocks sp; sb_ninodes sp; sb_nlog sp; sb_logstart sp;
                        sb_inodestart sp; sb_bmapstart sp]).

Definition mkfs_main (files : list (list Z * option (list (list Z)))) : M mkfs unit :=
  modify (fun s => mkMkfs (mimg s) (freeinode s) nmeta);;
  for_each (seqZ 0 FSSIZE) (fun i => wsect i zeroes);;
  wsect 1 (upd zeroes 0 (superblock_bytes msb));;
  rootino <- ialloc T_DIR;;
  assert_ (rootino =? ROOTINO);;
  iappend rootino (dirent rootino (bytes_of "."));;
  iappend rootino (dirent rootino (bytes_of ".."));;
  for_each files (add_file rootino);;
  din <- rinode rootino;;
  let off := xint (get32 din di_size) in
  let off := u32 ((off / BSIZE + 1) * BSIZE) in
  winode rootino (put32 din di_size (xint off));;
  used <- gets freeblock;;
  balloc used.

(** The static variables when the program starts, with an empty image. *)
Definition mkfs_start : mkfs := mkMkfs ∅ 1 0.
