(* ===== verification/MkfsFile.v ===== *)
(** mkfs, one file: what iappend does to the inode, the blocks of the file and
    the rest of the image. *)

From S2P Require Import Prelude Outcome Mem State Spinlock KString Kalloc Vm Proc ProcSpec Sleeplock Calm Bytes Disk Bio BioSpec BioView Log Uart Printf Fs Itable FsData FsSpec FsTrans FsWrite.
From S2P Require Import FsAlloc Mkfs.

(** ** Sectors *)

(** The image holds the sectors [V]; the next free inode is [fi], the next free
    block [fb]. *)
Record reps (s : mkfs) (V : Z -> list Z) (fi fb : Z) : Prop := {
  rp_img : forall b, 0 <= b < FSSIZE -> mimg s !! b = Some (V b);
  rp_len : forall b, length (V b) = Z.to_nat BSIZE;
  rp_fi : freeinode s = fi;
  rp_fb : freeblock s = fb
}.

Lemma rsect_rep s V fi fb b : reps s V fi fb -> 0 <= b < FSSIZE -> rsect b s = Ret (V b) s.
Proof. intros Hr Hb. unfold rsect, bind, gets. cbn [obind]. by rewrite (rp_img _ _ _ _ Hr b Hb). Qed.

Lemma wsect_rep s V fi fb b l : reps s V fi fb -> length l = Z.to_nat BSIZE ->
  exists s', wsect b l s = Ret tt s' /\ reps s' (fset V b l) fi fb.
Proof.
  intros [Hi Hl Hf Hb] Hlen. eexists. split; [done|]. split; cbn [mimg freeinode freeblock]; try done.
  - intros x Hx. unfold fset. case_decide as E; [subst; apply lookup_insert_eq|]. rewrite lookup_insert_ne by done. by apply Hi.
  - intros x. unfold fset. by case_decide.
Qed.

Lemma new_block_rep s V fi fb : reps s V fi fb -> 0 <= fb < FSSIZE -> exists s', new_block s = Ret fb s' /\ reps s' V fi (fb + 1).
Proof.
  intros [Hi Hl Hf Hb] Hlt. unfold new_block, bind, gets, modify. cbn [obind]. eexists. split; [by rewrite Hb|].
  split; cbn [mimg freeinode freeblock]; try done. apply u32_small. unfold FSSIZE in Hlt. lia.
Qed.

(** ** The bytes of an inode *)

Definition enc (l : list Z) : list Z := concat (le_enc 4 <$> l).

Lemma enc_app l1 l2 : enc (l1 ++ l2) = enc l1 ++ enc l2.
Proof. unfold enc. by rewrite fmap_app, concat_app. Qed.

Lemma sub_mid (pre x post : list Z) off n : off = length pre -> n = length x -> sub (pre ++ x ++ post) off n = x.
Proof. intros -> ->. unfold sub. by rewrite drop_app_length, take_app_length. Qed.

Lemma upd_mid (pre x y post : list Z) off : off = length pre -> length y = length x -> upd (pre ++ x ++ post) off y = pre ++ y ++ post.
Proof.
  intros -> E. unfold upd. rewrite take_app_length. f_equal. f_equal. rewrite E.
  rewrite (app_assoc pre), drop_app_length'; [done|]. by rewrite length_app.
Qed.

(** The header of struct dinode, before the addresses. *)
Definition din_head (ip : inode) : list Z :=
  le_enc 2 (i_type ip) ++ le_enc 2 (i_major ip) ++ le_enc 2 (i_minor ip) ++ le_enc 2 (i_nlink ip).

Lemma dinode_split ip : dinode_bytes ip = din_head ip ++ le_enc 4 (i_size ip) ++ enc (i_addrs ip).
Proof. unfold dinode_bytes, din_head, enc. by rewrite <- !app_assoc. Qed.

Lemma din_size_eq ip : 0 <= i_size ip < 2 ^ 32 -> get32 (dinode_bytes ip) di_size = i_size ip.
Proof.
  intros Hs. rewrite dinode_split. unfold get32. rewrite sub_mid by (by rewrite ?length_le_enc).
  rewrite le_dec_enc. by apply Z.mod_small.
Qed.

Lemma put_size ip v : put32 (dinode_bytes ip) di_size v = dinode_bytes (set_i_size v ip).
Proof. rewrite !dinode_split. unfold put32. by rewrite upd_mid by (by rewrite ?length_le_enc). Qed.

Lemma dinode_at ip k x : i_addrs ip !! k = Some x ->
  dinode_bytes ip = (din_head ip ++ le_enc 4 (i_size ip) ++ enc (take k (i_addrs ip))) ++ le_enc 4 x ++ enc (drop (S k) (i_addrs ip)).
Proof.
  intros Hx. rewrite dinode_split. rewrite <- (take_drop_middle _ _ _ Hx) at 1. rewrite enc_app.
  change (enc (x :: drop (S k) (i_addrs ip))) with (le_enc 4 x ++ enc (drop (S k) (i_addrs ip))). by rewrite <- !app_assoc.
Qed.

Lemma dinode_at_length ip k : (k <= length (i_addrs ip))%nat ->
  length (din_head ip ++ le_enc 4 (i_size ip) ++ enc (take k (i_addrs ip))) = (12 + 4 * k)%nat.
Proof.
  intros Hk. unfold din_head, enc. rewrite !length_app, !length_le_enc, concat_enc_length, length_take. lia.
Qed.

Lemma din_addr_eq ip k : 0 <= k < Z.of_nat (length (i_addrs ip)) -> Forall (fun a => 0 <= a < 2 ^ 32) (i_addrs ip) ->
  din_addr (dinode_bytes ip) k = i_addrs ip !!! Z.to_nat k.
Proof.
  intros Hk Ha. destruct (lookup_lt_is_Some_2 (i_addrs ip) (Z.to_nat k) ltac:(lia)) as [x Hx]. rewrite (list_lookup_total_correct _ _ _ Hx).
  unfold din_addr, get32, di_addrs. rewrite (dinode_at _ _ _ Hx).
  rewrite sub_mid; [|rewrite dinode_at_length by lia; lia|by rewrite length_le_enc].
  rewrite le_dec_enc. apply Z.mod_small. exact (Forall_lookup_1 _ _ _ _ Ha Hx).
Qed.

Lemma set_din_addr_eq ip k v : 0 <= k < Z.of_nat (length (i_addrs ip)) ->
  set_din_addr (dinode_bytes ip) k v = dinode_bytes (set_i_addrs (<[Z.to_nat k := v]> (i_addrs ip)) ip).
Proof.
  intros Hk. destruct (lookup_lt_is_Some_2 (i_addrs ip) (Z.to_nat k) ltac:(lia)) as [x Hx].
  unfold set_din_addr, put32, di_addrs. rewrite (dinode_at _ _ _ Hx). rewrite upd_mid; [|rewrite dinode_at_length by lia; lia|by rewrite !length_le_enc].
  rewrite (dinode_at (set_i_addrs _ ip) (Z.to_nat k) v); [|cbn; apply list_lookup_insert_eq; lia].
  cbn [i_addrs set_i_addrs i_size din_head i_type i_major i_minor i_nlink]. rewrite take_insert_ge, drop_insert_lt by lia. done.
Qed.

(** ** The blocks of a file *)

Definition ind (ip : inode) : Z := i_addrs ip !!! Z.to_nat NDIRECT.

(** A file of [sz] bytes in [N] blocks, all allocated below [fb]: the entries for
    further blocks are zero, and so are the bytes past the end. *)
Record fwf (V : Z -> list Z) (ip : inode) (fb N sz : Z) : Prop := {
  fw_layout : layout V ip N;
  fw_addrs : length (i_addrs ip) = 13%nat;
  fw_in : forall k, 0 <= k < N -> nmeta <= addr_of V ip k < fb;
  fw_ind : NDIRECT < N -> nmeta <= ind ip < fb;
  fw_dir0 : forall k, N <= k < NDIRECT -> i_addrs ip !!! Z.to_nat k = 0;
  fw_ind0 : N <= NDIRECT -> ind ip = 0;
  fw_tab0 : NDIRECT < N -> forall k, N <= k < MAXFILE -> get32 (V (ind ip)) (4 * (k - NDIRECT)) = 0;
  fw_size : 0 <= sz <= N * BSIZE;
  fw_tail : forall j, sz <= j < N * BSIZE -> file_byte V ip j = 0
}.

(** The blocks of the file, the indirect one included. *)
Definition owned (V : Z -> list Z) (ip : inode) (N b : Z) : Prop :=
  (exists k, 0 <= k < N /\ b = addr_of V ip k) \/ (NDIRECT < N /\ b = ind ip).

Lemma addr_of_eq V V' ip ip' k : i_addrs ip' = i_addrs ip -> (NDIRECT <= k -> V' (ind ip) = V (ind ip)) -> addr_of V' ip' k = addr_of V ip k.
Proof. intros Ea Hv. unfold addr_of. rewrite Ea. destruct (Z.ltb_spec k NDIRECT); [done|]. f_equal. by apply Hv. Qed.

Lemma block_of j N : 0 <= j < N * BSIZE -> 0 <= j / BSIZE < N.
Proof. intros Hj. split; [apply Z.div_pos|apply Z.div_lt_upper_bound]; unfold BSIZE in *; lia. Qed.

Lemma owned_range V ip fb N sz b : fwf V ip fb N sz -> owned V ip N b -> nmeta <= b < fb.
Proof. intros Hf [(k & Hk & ->)|[Hn ->]]; [by apply (fw_in _ _ _ _ _ Hf)|by apply (fw_ind _ _ _ _ _ Hf)]. Qed.

(** Changes to other blocks do not concern the file. *)
Lemma fwf_frame V V' ip ip' fb fb' N sz : fwf V ip fb N sz -> i_addrs ip' = i_addrs ip -> fb <= fb' ->
  (forall b, owned V ip N b -> V' b = V b) -> (forall b, length (V' b) = Z.to_nat BSIZE) ->
  fwf V' ip' fb' N sz /\ (forall j, 0 <= j < N * BSIZE -> file_byte V' ip' j = file_byte V ip j) /\
  (forall b, owned V' ip' N b <-> owned V ip N b).
Proof.
  intros Hf Ea Hfb Hown Hlen. pose proof Hf as [Hl H13 Hin Hind Hd0 Hi0 Ht0 Hsz Htl].
  assert (Hk : forall k, 0 <= k < N -> addr_of V' ip' k = addr_of V ip k).
  { intros k Hk. apply addr_of_eq; [done|]. intros Hge. apply Hown. right. split; [lia|done]. }
  assert (Ei : ind ip' = ind ip) by (unfold ind; by rewrite Ea).
  assert (Hby : forall j, 0 <= j < N * BSIZE -> file_byte V' ip' j = file_byte V ip j).
  { intros j Hj. pose proof (block_of _ _ Hj). unfold file_byte. rewrite Hk by done. rewrite Hown; [done|]. left. by exists (j / BSIZE). }
  split; [|split; [done|]].
  - split; rewrite ?Ea, ?Ei; try done.
    + destruct Hl as [Hm Ha Hinj Hnd _]. split; try done.
      * intros k Hk'. rewrite Hk by done. by apply Ha.
      * intros j k Hj Hk'. rewrite !Hk by done. by apply Hinj.
      * rewrite Ea. intros Hn. destruct (Hnd Hn) as [? Hne]. split; [done|]. intros k Hk'. rewrite Hk by done. by apply Hne.
    + intros k Hk'. rewrite Hk by done. specialize (Hin k Hk'). lia.
    + intros Hn. specialize (Hind Hn). lia.
    + intros Hn k Hk'. rewrite Hown by (right; by split). by apply Ht0.
    + intros j Hj. rewrite Hby by lia. by apply Htl.
  - intros b. unfold owned. rewrite Ei. split; (intros [(k & Hk' & ->)|[Hn ->]]; [left; exists k; split; [done|]; by rewrite Hk|by right]).
Qed.

(** The file gets more blocks, from [fb] on, and keeps its bytes. *)
Record grows (V V1 : Z -> list Z) (ip ip1 : inode) (fb fb1 N N1 sz : Z) : Prop := {
  gr_wf : fwf V1 ip1 fb1 N1 sz;
  gr_bytes : forall j, 0 <= j < N * BSIZE -> file_byte V1 ip1 j = file_byte V ip j;
  gr_own : forall b, owned V1 ip1 N1 b -> owned V ip N b \/ fb <= b
}.

(** One more block [x], new and zero. *)
Lemma fwf_extend V V1 ip ip1 fb fb1 N sz x : fwf V ip fb N sz -> N < MAXFILE -> nmeta <= fb -> fb <= x < fb1 -> fb1 <= FSSIZE ->
  (forall k, 0 <= k < N -> addr_of V1 ip1 k = addr_of V ip k /\ V1 (addr_of V ip k) = V (addr_of V ip k)) ->
  addr_of V1 ip1 N = x -> V1 x = zero_block -> (forall b, length (V1 b) = Z.to_nat BSIZE) -> length (i_addrs ip1) = 13%nat ->
  (NDIRECT < N + 1 -> nmeta <= ind ip1 < fb1 /\ ind ip1 <> x /\ (forall k, 0 <= k < N -> addr_of V ip k <> ind ip1) /\
     (owned V ip N (ind ip1) \/ fb <= ind ip1)) ->
  (forall k, N + 1 <= k < NDIRECT -> i_addrs ip1 !!! Z.to_nat k = 0) -> (N + 1 <= NDIRECT -> ind ip1 = 0) ->
  (NDIRECT < N + 1 -> forall k, N + 1 <= k < MAXFILE -> get32 (V1 (ind ip1)) (4 * (k - NDIRECT)) = 0) ->
  grows V V1 ip ip1 fb fb1 N (N + 1) sz.
Proof.
  intros Hf HN Hnm Hx Hfb Hold HaN Hz Hlen H13 Hind Hd0 Hi0 Ht0. pose proof Hf as [Hl _ Hin _ _ _ _ Hsz Htl].
  pose proof (ly_max _ _ _ Hl) as HNm. assert (Hnm46 : nmeta = 46) by reflexivity. assert (HFS : FSSIZE = 2000) by reflexivity.
  assert (Hby : forall j, 0 <= j < N * BSIZE -> file_byte V1 ip1 j = file_byte V ip j).
  { intros j Hj. destruct (Hold _ (block_of _ _ Hj)) as [E1 E2]. unfold file_byte. by rewrite E1, E2. }
  assert (Hk : forall k, 0 <= k < N + 1 -> k = N \/ 0 <= k < N) by lia.
  assert (Hadr : forall k, 0 <= k < N + 1 -> nmeta <= addr_of V1 ip1 k < fb1).
  { intros k Hk'. destruct (Hk k Hk') as [->|Hk2]; [rewrite HaN; lia|]. rewrite (proj1 (Hold k Hk2)). specialize (Hin k Hk2). lia. }
  split; [|done|].
  2: { intros b [(k & Hk' & ->)|[Hn ->]]; [|by apply Hind]. destruct (Hk k Hk') as [->|Hk2]; [rewrite HaN; right; lia|].
    left. left. exists k. by rewrite (proj1 (Hold k Hk2)). }
  split; try done.
  - split; [lia| | | |done].
    + intros k Hk'. specialize (Hadr k Hk'). lia.
    + intros j k Hj Hk'. destruct (Hk j Hj) as [->|Hj2]; destruct (Hk k Hk') as [->|Hk2]; rewrite ?HaN, ?(proj1 (Hold _ Hj2)), ?(proj1 (Hold _ Hk2)).
      * done.
      * specialize (Hin k Hk2). lia.
      * specialize (Hin j Hj2). lia.
      * by apply (ly_inj _ _ _ Hl).
    + intros Hn. destruct (Hind Hn) as (Hi1 & Hi2 & Hi3 & _). unfold ind in *. split; [lia|]. intros k Hk'.
      destruct (Hk k Hk') as [->|Hk2]; [rewrite HaN; congruence|]. rewrite (proj1 (Hold _ Hk2)). by apply Hi3.
  - intros Hn. by destruct (Hind Hn).
  - unfold BSIZE in *. lia.
  - intros j Hj. destruct (decide (j < N * BSIZE)); [rewrite Hby by lia; apply Htl; lia|].
    assert (Ej : j / BSIZE = N) by (symmetry; apply (Z.div_unique_pos _ _ _ (j - BSIZE * N)); unfold BSIZE in *; lia).
    unfold file_byte. rewrite Ej, HaN, Hz. unfold zero_block. apply lookup_total_replicate_2. pose proof (Z.mod_pos_bound j BSIZE ltac:(unfold BSIZE; lia)). lia.
Qed.

Lemma addrs_insert ip k v j : length (i_addrs ip) = 13%nat -> 0 <= k < 13 -> 0 <= j ->
  i_addrs (set_i_addrs (<[Z.to_nat k := v]> (i_addrs ip)) ip) !!! Z.to_nat j = if decide (j = k) then v else i_addrs ip !!! Z.to_nat j.
Proof.
  intros H13 Hk Hj. cbn [i_addrs set_i_addrs]. case_decide as E; [subst; apply list_lookup_total_insert_eq; lia|].
  apply list_lookup_total_insert_ne. lia.
Qed.

(** The three ways a block is added: in the inode, with a new indirect block, and
    in the indirect block. *)
Lemma fwf_direct V ip fb N sz : fwf V ip fb N sz -> N < NDIRECT -> nmeta <= fb < FSSIZE -> V fb = zero_block ->
  let ip1 := set_i_addrs (<[Z.to_nat N := fb]> (i_addrs ip)) ip in
  grows V V ip ip1 fb (fb + 1) N (N + 1) sz.
Proof.
  intros Hf HN Hfb Hz ip1. pose proof Hf as [Hl H13 _ _ Hd0 Hi0 _ _ _]. pose proof (ly_max _ _ _ Hl). unfold NDIRECT in *.
  assert (Ha : forall j, 0 <= j -> i_addrs ip1 !!! Z.to_nat j = if decide (j = N) then fb else i_addrs ip !!! Z.to_nat j).
  { intros j Hj. apply addrs_insert; (done || lia). }
  assert (Hlt : forall k, 0 <= k < 12 -> addr_of V ip1 k = if decide (k = N) then fb else addr_of V ip k).
  { intros k Hk. unfold addr_of, NDIRECT. destruct (Z.ltb_spec k 12); [|lia]. apply Ha. lia. }
  apply (fwf_extend V V ip ip1 fb (fb + 1) N sz fb);
    [done|change MAXFILE with 268; lia|lia|lia|lia| | |done|apply (ly_len _ _ _ Hl)| |unfold NDIRECT; lia| | |unfold NDIRECT; lia].
  - intros k Hk. split; [|done]. rewrite Hlt, decide_False by lia. done.
  - rewrite Hlt, decide_True by lia. done.
  - cbn. by rewrite length_insert.
  - intros k Hk. unfold NDIRECT in Hk. rewrite Ha, decide_False by lia. apply Hd0. lia.
  - intros _. unfold ind, NDIRECT in *. rewrite Ha, decide_False by lia. apply Hi0. lia.
Qed.

Lemma fwf_first_indirect V ip fb sz : fwf V ip fb NDIRECT sz -> nmeta <= fb -> fb + 2 <= FSSIZE ->
  V fb = zero_block -> V (fb + 1) = zero_block ->
  let ip1 := set_i_addrs (<[Z.to_nat NDIRECT := fb]> (i_addrs ip)) ip in
  let V1 := fset V fb (put32 (V fb) 0 (fb + 1)) in
  grows V V1 ip ip1 fb (fb + 2) NDIRECT (NDIRECT + 1) sz /\ addr_of V1 ip1 NDIRECT = fb + 1.
Proof.
  intros Hf Hfb HFS Hz Hz1 ip1 V1. pose proof Hf as [Hl H13 Hin _ _ _ _ _ _]. assert (HF : FSSIZE = 2000) by reflexivity. assert (Hnm : nmeta = 46) by reflexivity.
  assert (Hind : ind ip1 = fb).
  { unfold ind. unfold ip1. rewrite addrs_insert, decide_True; (done || unfold NDIRECT; lia). }
  assert (Hzl : Z.of_nat (length zero_block) = BSIZE) by reflexivity.
  assert (Htab : forall k, NDIRECT <= k < MAXFILE -> get32 (V1 (ind ip1)) (4 * (k - NDIRECT)) = if decide (k = NDIRECT) then fb + 1 else 0).
  { intros k Hk. change MAXFILE with 268 in Hk. unfold NDIRECT in *. rewrite Hind. unfold V1, fset. rewrite decide_True, Hz by done. case_decide as E.
    - subst k. change (4 * (12 - 12)) with 0. rewrite get32_put32 by (rewrite ?Hzl; unfold BSIZE; lia). apply u32_small. lia.
    - rewrite get32_put32_ne by (rewrite ?Hzl; unfold BSIZE; lia). apply get32_zero; unfold BSIZE; lia. }
  assert (Hdir : forall k, 0 <= k < NDIRECT -> addr_of V1 ip1 k = addr_of V ip k).
  { intros k Hk. unfold addr_of. destruct (Z.ltb_spec k NDIRECT); [|lia]. unfold ip1. rewrite addrs_insert, decide_False; (done || unfold NDIRECT in *; lia). }
  assert (HaN : addr_of V1 ip1 NDIRECT = fb + 1).
  { unfold addr_of. rewrite Z.ltb_irrefl. fold (ind ip1). rewrite Htab by done. by rewrite decide_True. }
  assert (Hne : forall k, 0 <= k < NDIRECT -> addr_of V ip k <> fb) by (intros k Hk; specialize (Hin k Hk); lia).
  split; [|done].
  apply (fwf_extend V V1 ip ip1 fb (fb + 2) NDIRECT sz (fb + 1)); [done|done|lia|lia|lia| |done| | | | | |unfold NDIRECT; lia|].
  - intros k Hk. split; [by apply Hdir|]. unfold V1, fset. by rewrite decide_False by (by apply Hne).
  - unfold V1, fset. by rewrite decide_False by lia.
  - intros b. unfold V1, fset. case_decide; [|apply (ly_len _ _ _ Hl)]. rewrite length_put32; [apply (ly_len _ _ _ Hl)|done|rewrite Hz; done].
  - cbn. by rewrite length_insert.
  - intros _. rewrite Hind. split; [lia|]. split; [lia|]. split; [exact Hne|by right].
  - intros k Hk. unfold NDIRECT in *. lia.
  - intros _ k Hk. rewrite Htab, decide_False by lia. done.
Qed.

Lemma fwf_indirect V ip fb N sz : fwf V ip fb N sz -> NDIRECT < N < MAXFILE -> nmeta <= fb < FSSIZE -> V fb = zero_block ->
  let V1 := fset V (ind ip) (put32 (V (ind ip)) (4 * (N - NDIRECT)) fb) in
  grows V V1 ip ip fb (fb + 1) N (N + 1) sz /\ addr_of V1 ip N = fb.
Proof.
  intros Hf HN Hfb Hz V1. pose proof Hf as [Hl H13 Hin Hiin _ _ Ht0 _ _]. assert (HF : FSSIZE = 2000) by reflexivity. assert (Hnm : nmeta = 46) by reflexivity.
  specialize (Hiin ltac:(lia)). destruct (ly_ind _ _ _ Hl ltac:(lia)) as [_ Hne]. fold (ind ip) in Hne. change MAXFILE with 268 in *. unfold NDIRECT in *.
  assert (Hli : Z.of_nat (length (V (ind ip))) = 1024) by (rewrite (ly_len _ _ _ Hl); reflexivity).
  assert (Htab : forall k, 12 <= k < 268 -> get32 (V1 (ind ip)) (4 * (k - 12)) = if decide (k = N) then fb else get32 (V (ind ip)) (4 * (k - 12))).
  { intros k Hk. unfold V1, fset. rewrite decide_True by done. case_decide as E.
    - subst k. rewrite get32_put32 by lia. apply u32_small. lia.
    - apply get32_put32_ne; lia. }
  assert (Hadr : forall k, 0 <= k < 268 -> addr_of V1 ip k = if decide (k = N) then fb else addr_of V ip k).
  { intros k Hk. unfold addr_of, NDIRECT. destruct (Z.ltb_spec k 12); [by rewrite decide_False by lia|]. fold (ind ip). apply Htab. lia. }
  assert (HaN : addr_of V1 ip N = fb) by (rewrite Hadr, decide_True by lia; done).
  split; [|done].
  apply (fwf_extend V V1 ip ip fb (fb + 1) N sz fb); [done|change MAXFILE with 268; lia|lia|lia|lia| |done| | |done| |unfold NDIRECT; lia|unfold NDIRECT; lia|].
  - intros k Hk. split; [rewrite Hadr, decide_False by lia; done|]. unfold V1, fset. by rewrite decide_False by (by apply Hne).
  - unfold V1, fset. by rewrite decide_False by lia.
  - intros b. unfold V1, fset. case_decide; [|apply (ly_len _ _ _ Hl)]. rewrite length_put32; [apply (ly_len _ _ _ Hl)|lia|lia].
  - intros _. split; [lia|]. split; [lia|]. split; [exact Hne|]. left. right. split; [unfold NDIRECT; lia|done].
  - intros _ k Hk. change MAXFILE with 268 in Hk. unfold NDIRECT. rewrite Htab, decide_False by lia. apply Ht0; lia.
Qed.

(** ** iappend *)

(** The blocks a file of [N] data blocks takes, the indirect one included. *)
Definition need (N : Z) : Z := N + if NDIRECT <? N then 1 else 0.

Lemma fwf_addrs_range V ip fb N sz : fwf V ip fb N sz -> fb <= FSSIZE -> Forall (fun a => 0 <= a < 2 ^ 32) (i_addrs ip).
Proof.
  intros Hf Hfb. pose proof Hf as [Hl H13 Hin Hiin Hd0 Hi0 _ _ _]. assert (HF : FSSIZE = 2000) by reflexivity. assert (Hnm : nmeta = 46) by reflexivity.
  apply Forall_lookup_2. intros k x Hx. pose proof (lookup_lt_Some _ _ _ Hx) as Hk. rewrite H13 in Hk.
  assert (E : x = i_addrs ip !!! Z.to_nat (Z.of_nat k)) by (rewrite Nat2Z.id; symmetry; by apply list_lookup_total_correct).
  destruct (decide (k = 12%nat)) as [->|Hk12].
  - change (Z.to_nat (Z.of_nat 12)) with (Z.to_nat NDIRECT) in E. fold (ind ip) in E.
    destruct (Z.lt_ge_cases NDIRECT N) as [Hn|Hn]; [specialize (Hiin Hn)|specialize (Hi0 Hn)]; lia.
  - destruct (Z.lt_ge_cases (Z.of_nat k) N) as [Hn|Hn].
    + specialize (Hin (Z.of_nat k) ltac:(lia)). unfold addr_of, NDIRECT in Hin. destruct (Z.ltb_spec (Z.of_nat k) 12); lia.
    + rewrite (Hd0 (Z.of_nat k)) in E by (unfold NDIRECT; lia). lia.
Qed.

(** What a step that allocates up to [N'] blocks does. *)
Record allocated (s1 : mkfs) (V V1 : Z -> list Z) (ip ip1 : inode) (fi fb fb1 N N1 sz : Z) : Prop := {
  al_reps : reps s1 V1 fi fb1;
  al_grows : grows V V1 ip ip1 fb fb1 N N1 sz;
  al_frame : forall b, b < fb -> ~ owned V ip N b -> V1 b = V b;
  al_zero : forall b, fb1 <= b < FSSIZE -> V1 b = zero_block;
  al_rest : ip1 = set_i_addrs (i_addrs ip1) ip
}.

Lemma iappend_block_direct s V fi fb ip N sz fbn : reps s V fi fb -> fwf V ip fb N sz -> nmeta <= fb <= FSSIZE ->
  (forall b, fb <= b < FSSIZE -> V b = zero_block) -> 0 <= fbn <= N -> fbn < NDIRECT ->
  let N1 := Z.max N (fbn + 1) in let fb1 := fb + need N1 - need N in fb1 <= FSSIZE ->
  exists s1 ip1, iappend_block (dinode_bytes ip) fbn s = Ret (addr_of V ip1 fbn, dinode_bytes ip1) s1 /\ allocated s1 V V ip ip1 fi fb fb1 N N1 sz.
Proof.
  intros Hr Hf Hfb Hz Hfbn Hd N1 fb1 Hfit. pose proof Hf as [Hl H13 Hin _ Hd0 _ _ _ _]. pose proof (ly_max _ _ _ Hl) as HN.
  assert (HF : FSSIZE = 2000) by reflexivity. assert (Hnm : nmeta = 46) by reflexivity.
  pose proof (fwf_addrs_range _ _ _ _ _ Hf (proj2 Hfb)) as Har. unfold iappend_block. destruct (Z.ltb_spec fbn NDIRECT); [|lia].
  assert (Hx : forall ip', length (i_addrs ip') = 13%nat -> Forall (fun a => 0 <= a < 2 ^ 32) (i_addrs ip') ->
    xint (din_addr (dinode_bytes ip') fbn) = addr_of V ip' fbn).
  { intros ip' H13' Ha'. rewrite din_addr_eq by (rewrite ?H13'; unfold NDIRECT in *; (done || lia)). unfold addr_of. destruct (Z.ltb_spec fbn NDIRECT); [|lia].
    apply u32_small. destruct (lookup_lt_is_Some_2 (i_addrs ip') (Z.to_nat fbn)) as [x Ex]; [rewrite H13'; unfold NDIRECT in *; lia|].
    rewrite (list_lookup_total_correct _ _ _ Ex). exact (Forall_lookup_1 _ _ _ _ Ha' Ex). }
  rewrite (Hx ip) by done. destruct (Z.eq_dec fbn N) as [->|Hne].
  - assert (E0 : addr_of V ip N = 0) by (unfold addr_of; destruct (Z.ltb_spec N NDIRECT); [apply Hd0; lia|lia]). rewrite E0. cbn [Z.eqb].
    assert (Efb : N1 = N + 1 /\ fb1 = fb + 1).
    { unfold fb1, need, N1. unfold NDIRECT in *. replace (Z.max N (N + 1)) with (N + 1) by lia. destruct (Z.ltb_spec 12 (N + 1)); destruct (Z.ltb_spec 12 N); lia. }
    destruct Efb as [EN Efb]. rewrite EN, Efb in *.
    destruct (new_block_rep s V fi fb Hr ltac:(lia)) as (s1 & E1 & Hr1). rewrite (bind_bind_Ret _ _ _ _ _ _ E1).
    rewrite (bind_Ret _ _ _ _ _ (eq_refl : ret _ s1 = Ret _ s1)).
    assert (Ex : xint fb = fb) by (apply u32_small; lia). rewrite Ex, set_din_addr_eq by (rewrite ?H13; unfold NDIRECT in *; lia).
    pose proof (fwf_direct V ip fb N sz Hf Hd ltac:(lia) (Hz fb ltac:(lia))) as Hg1. cbv zeta in Hg1. pose proof (gr_wf _ _ _ _ _ _ _ _ _ Hg1) as Hf1. set (ip1 := set_i_addrs _ ip) in *.
    pose proof (fwf_addrs_range _ _ _ _ _ Hf1 ltac:(lia)) as Har1. exists s1, ip1. split.
    + unfold ret. f_equal. f_equal. apply Hx; [apply (fw_addrs _ _ _ _ _ Hf1)|done].
    + split; try done. intros b Hb. apply Hz. lia.
  - assert (EN : N1 = N) by lia. assert (Efb : fb1 = fb) by (unfold fb1; rewrite EN; lia). rewrite EN, Efb in *.
    specialize (Hin fbn ltac:(lia)). destruct (Z.eqb_spec (addr_of V ip fbn) 0); [lia|]. rewrite (bind_Ret _ _ _ _ _ (eq_refl : ret _ s = Ret _ s)).
    exists s, ip. split; [unfold ret; by rewrite (Hx ip)|]. split; try done; [split; try done; by left|by destruct ip].
Qed.

Lemma din_ind V ip fb N sz : fwf V ip fb N sz -> fb <= FSSIZE -> xint (din_addr (dinode_bytes ip) NDIRECT) = ind ip.
Proof.
  intros Hf Hfb. pose proof (fwf_addrs_range _ _ _ _ _ Hf Hfb) as Har. pose proof (fw_addrs _ _ _ _ _ Hf) as H13.
  rewrite din_addr_eq by (rewrite ?H13; unfold NDIRECT; (done || lia)). unfold ind. apply u32_small.
  destruct (lookup_lt_is_Some_2 (i_addrs ip) (Z.to_nat NDIRECT)) as [x Ex]; [rewrite H13; unfold NDIRECT; lia|].
  rewrite (list_lookup_total_correct _ _ _ Ex). exact (Forall_lookup_1 _ _ _ _ Har Ex).
Qed.

(** The first block of the indirect part. *)
Lemma iappend_block_first s V fi fb ip sz : reps s V fi fb -> fwf V ip fb NDIRECT sz -> nmeta <= fb -> fb + 2 <= FSSIZE ->
  (forall b, fb <= b < FSSIZE -> V b = zero_block) ->
  exists s1 V1 ip1, iappend_block (dinode_bytes ip) NDIRECT s = Ret (addr_of V1 ip1 NDIRECT, dinode_bytes ip1) s1 /\
    allocated s1 V V1 ip ip1 fi fb (fb + 2) NDIRECT (NDIRECT + 1) sz.
Proof.
  intros Hr Hf Hfb Hfit Hz. assert (HF : FSSIZE = 2000) by reflexivity. assert (Hnm : nmeta = 46) by reflexivity.
  pose proof (fw_addrs _ _ _ _ _ Hf) as H13. destruct (fwf_first_indirect V ip fb sz Hf Hfb Hfit (Hz fb ltac:(lia)) (Hz (fb + 1) ltac:(lia))) as (Hg1 & Ha1). pose proof (gr_wf _ _ _ _ _ _ _ _ _ Hg1) as Hf1.
  unfold iappend_block. rewrite Z.ltb_irrefl. rewrite (din_ind _ _ _ _ _ Hf) by lia. rewrite (fw_ind0 _ _ _ _ _ Hf) by done. cbn [Z.eqb].
  destruct (new_block_rep s V fi fb Hr ltac:(lia)) as (s1 & E1 & Hr1). rewrite (bind_bind_Ret _ _ _ _ _ _ E1).
  rewrite (bind_Ret _ _ _ _ _ (eq_refl : ret _ s1 = Ret _ s1)). assert (Ex : xint fb = fb) by (apply u32_small; lia).
  rewrite Ex, set_din_addr_eq by (rewrite H13; unfold NDIRECT; lia). set (ip1 := set_i_addrs _ ip) in *.
  assert (Hind : ind ip1 = fb) by (unfold ind, ip1; rewrite addrs_insert, decide_True; (done || unfold NDIRECT; lia)).
  rewrite (din_ind _ _ _ _ _ Hf1), Hind by lia. rewrite (bind_Ret _ _ _ _ _ (rsect_rep _ _ _ _ fb Hr1 ltac:(lia))).
  rewrite (Hz fb) by lia. change (4 * (NDIRECT - NDIRECT)) with 0. rewrite get32_zero by done. cbn [Z.eqb].
  destruct (new_block_rep s1 V fi (fb + 1) Hr1 ltac:(lia)) as (s2 & E2 & Hr2). rewrite (bind_bind_Ret _ _ _ _ _ _ E2).
  assert (Ex1 : xint (fb + 1) = fb + 1) by (apply u32_small; lia). rewrite Ex1. cbv zeta.
  destruct (wsect_rep s2 V fi (fb + 1 + 1) fb (put32 (V fb) 0 (fb + 1)) Hr2) as (s3 & E3 & Hr3).
  { rewrite length_put32; [apply (rp_len _ _ _ _ Hr)|done|]. rewrite (rp_len _ _ _ _ Hr). done. }
  rewrite (Hz fb) in E3 by lia. rewrite (bind_bind_Ret _ _ _ _ _ _ E3). rewrite (bind_Ret _ _ _ _ _ (eq_refl : ret _ s3 = Ret _ s3)).
  set (V1 := fset V fb (put32 (V fb) 0 (fb + 1))) in *. replace (fb + 1 + 1) with (fb + 2) in Hr3 by lia.
  exists s3, V1, ip1. split.
  - unfold ret. f_equal. f_equal. rewrite Ha1. rewrite get32_put32 by done. unfold xint. rewrite !(u32_small (fb + 1)) by lia. done.
  - split; try done.
    + intros b Hb Hno. unfold V1, fset. by rewrite decide_False by lia.
    + intros b Hb. unfold V1, fset. rewrite decide_False by lia. apply Hz. lia.
Qed.

Lemma iappend_block_indirect s V fi fb ip N sz fbn : reps s V fi fb -> fwf V ip fb N sz -> nmeta <= fb <= FSSIZE ->
  (forall b, fb <= b < FSSIZE -> V b = zero_block) -> NDIRECT <= fbn <= N -> NDIRECT < N -> fbn < MAXFILE ->
  let N1 := Z.max N (fbn + 1) in let fb1 := fb + need N1 - need N in fb1 <= FSSIZE ->
  exists s1 V1, iappend_block (dinode_bytes ip) fbn s = Ret (addr_of V1 ip fbn, dinode_bytes ip) s1 /\ allocated s1 V V1 ip ip fi fb fb1 N N1 sz.
Proof.
  intros Hr Hf Hfb Hz Hfbn HN Hmax N1 fb1 Hfit. assert (HF : FSSIZE = 2000) by reflexivity. assert (Hnm : nmeta = 46) by reflexivity.
  pose proof Hf as [Hl H13 Hin Hiin _ _ Ht0 _ _]. specialize (Hiin HN). change MAXFILE with 268 in *.
  unfold iappend_block. destruct (Z.ltb_spec fbn NDIRECT); [lia|]. rewrite (din_ind _ _ _ _ _ Hf) by lia.
  destruct (Z.eqb_spec (ind ip) 0); [lia|]. rewrite (bind_Ret _ _ _ _ _ (eq_refl : ret _ s = Ret _ s)), (din_ind _ _ _ _ _ Hf) by lia.
  rewrite (bind_Ret _ _ _ _ _ (rsect_rep _ _ _ _ (ind ip) Hr ltac:(lia))).
  assert (Ea : forall V', addr_of V' ip fbn = get32 (V' (ind ip)) (4 * (fbn - NDIRECT))) by (intros V'; unfold addr_of; destruct (Z.ltb_spec fbn NDIRECT); [lia|done]).
  destruct (Z.eq_dec fbn N) as [->|Hne].
  - assert (EN : N1 = N + 1) by lia. assert (Efb : fb1 = fb + 1).
    { unfold fb1. rewrite EN. unfold need. destruct (Z.ltb_spec NDIRECT (N + 1)); destruct (Z.ltb_spec NDIRECT N); lia. }
    rewrite Ht0 by lia. cbn [Z.eqb]. destruct (fwf_indirect V ip fb N sz Hf ltac:(change MAXFILE with 268; lia)) as (Hg1 & Ha1).
    { lia. }
    { apply Hz. lia. }
    rewrite Efb, EN in *. set (V1 := fset V (ind ip) _) in *.
    destruct (new_block_rep s V fi fb Hr ltac:(lia)) as (s1 & E1 & Hr1). rewrite (bind_bind_Ret _ _ _ _ _ _ E1).
    assert (Ex : xint fb = fb) by (apply u32_small; lia). rewrite Ex. cbv zeta.
    destruct (wsect_rep s1 V fi (fb + 1) (ind ip) (put32 (V (ind ip)) (4 * (N - NDIRECT)) fb) Hr1) as (s2 & E2 & Hr2).
    { rewrite length_put32; [apply (rp_len _ _ _ _ Hr)|lia|]. rewrite (rp_len _ _ _ _ Hr). unfold NDIRECT, BSIZE in *. lia. }
    rewrite (bind_bind_Ret _ _ _ _ _ _ E2), (bind_Ret _ _ _ _ _ (eq_refl : ret _ s2 = Ret _ s2)). fold V1 in Hr2. exists s2, V1. split.
    + unfold ret. f_equal. f_equal. rewrite Ha1, get32_put32; [|lia|rewrite (rp_len _ _ _ _ Hr); unfold NDIRECT, BSIZE in *; lia].
      unfold xint. by rewrite !(u32_small fb) by lia.
    + split; try done.
      * intros b Hb Hno. unfold V1, fset. rewrite decide_False; [done|]. intros ->. apply Hno. right. by split.
      * intros b Hb. unfold V1, fset. rewrite decide_False by lia. apply Hz. lia.
      * by destruct ip.
  - assert (EN : N1 = N) by lia. assert (Efb : fb1 = fb) by (unfold fb1; rewrite EN; lia). rewrite EN, Efb in *.
    specialize (Hin fbn ltac:(unfold NDIRECT in *; lia)). rewrite Ea in Hin. destruct (Z.eqb_spec (get32 (V (ind ip)) (4 * (fbn - NDIRECT))) 0); [lia|].
    rewrite (bind_Ret _ _ _ _ _ (eq_refl : ret _ s = Ret _ s)). exists s, V. split.
    + unfold ret. f_equal. f_equal. rewrite Ea. apply u32_small. lia.
    + split; try done; [split; try done; by left|by destruct ip].
Qed.

(** The block that holds byte [fbn * BSIZE] of the file, allocated when there is
    none. *)
Lemma iappend_block_eq s V fi fb ip N sz fbn : reps s V fi fb -> fwf V ip fb N sz -> nmeta <= fb <= FSSIZE ->
  (forall b, fb <= b < FSSIZE -> V b = zero_block) -> 0 <= fbn <= N -> fbn < MAXFILE ->
  let N1 := Z.max N (fbn + 1) in let fb1 := fb + need N1 - need N in fb1 <= FSSIZE ->
  exists s1 V1 ip1, iappend_block (dinode_bytes ip) fbn s = Ret (addr_of V1 ip1 fbn, dinode_bytes ip1) s1 /\ allocated s1 V V1 ip ip1 fi fb fb1 N N1 sz.
Proof.
  intros Hr Hf Hfb Hz Hfbn Hmax N1 fb1 Hfit. destruct (Z.lt_ge_cases fbn NDIRECT) as [Hd|Hd].
  - destruct (iappend_block_direct s V fi fb ip N sz fbn Hr Hf Hfb Hz Hfbn Hd Hfit) as (s1 & ip1 & E & Ha). by exists s1, V, ip1.
  - destruct (Z.eq_dec N NDIRECT) as [->|Hne].
    + assert (fbn = NDIRECT) as -> by lia. assert (EN : N1 = NDIRECT + 1) by lia.
      assert (Efb : fb1 = fb + 2) by (unfold fb1; rewrite EN; change (need (NDIRECT + 1)) with 14; change (need NDIRECT) with 12; lia). rewrite Efb, EN.
      apply iappend_block_first; (done || lia).
    + destruct (iappend_block_indirect s V fi fb ip N sz fbn Hr Hf Hfb Hz ltac:(lia) ltac:(lia) Hmax Hfit) as (s1 & V1 & E & Ha). by exists s1, V1, ip.
Qed.

(** The number of blocks of a file of [sz] bytes. *)
Definition nblk (sz : Z) : Z := (sz + (BSIZE - 1)) / BSIZE.

Lemma nblk_bounds sz : 0 <= sz -> sz <= nblk sz * BSIZE < sz + BSIZE.
Proof.
  intros Hs. unfold nblk. pose proof (Z.div_mod (sz + (BSIZE - 1)) BSIZE ltac:(unfold BSIZE; lia)).
  pose proof (Z.mod_pos_bound (sz + (BSIZE - 1)) BSIZE ltac:(unfold BSIZE; lia)). unfold BSIZE in *. lia.
Qed.

Lemma nblk_round sz n : 0 <= sz -> 0 < n <= BSIZE - sz mod BSIZE -> sz / BSIZE <= nblk sz /\ Z.max (nblk sz) (sz / BSIZE + 1) = nblk (sz + n).
Proof.
  intros Hs Hn. pose proof (nblk_bounds sz Hs). pose proof (nblk_bounds (sz + n) ltac:(lia)). pose proof (Z.div_mod sz BSIZE ltac:(unfold BSIZE; lia)).
  pose proof (Z.mod_pos_bound sz BSIZE ltac:(unfold BSIZE; lia)). unfold BSIZE in *. lia.
Qed.

(** The file after bytes [c] were appended to its [sz] bytes. *)
Record appended (s2 : mkfs) (V V2 : Z -> list Z) (ip ip2 : inode) (fi fb fb2 sz : Z) (c : list Z) : Prop := {
  ap_reps : reps s2 V2 fi fb2;
  ap_fb : fb2 = fb + need (nblk (sz + Z.of_nat (length c))) - need (nblk sz);
  ap_wf : fwf V2 ip2 fb2 (nblk (sz + Z.of_nat (length c))) (sz + Z.of_nat (length c));
  ap_old : forall j, 0 <= j < sz -> file_byte V2 ip2 j = file_byte V ip j;
  ap_new : forall j, sz <= j < sz + Z.of_nat (length c) -> file_byte V2 ip2 j = c !!! Z.to_nat (j - sz);
  ap_frame : forall b, b < fb -> ~ owned V ip (nblk sz) b -> V2 b = V b;
  ap_own : forall b, owned V2 ip2 (nblk (sz + Z.of_nat (length c))) b -> owned V ip (nblk sz) b \/ fb <= b;
  ap_zero : forall b, fb2 <= b < FSSIZE -> V2 b = zero_block;
  ap_rest : ip2 = set_i_addrs (i_addrs ip2) ip
}.

(** The write of one round. *)
Lemma fwf_write V ip fb N sz c : fwf V ip fb N sz -> 0 < Z.of_nat (length c) -> sz mod BSIZE + Z.of_nat (length c) <= BSIZE -> sz / BSIZE < N ->
  let x := addr_of V ip (sz / BSIZE) in let V' := fset V x (upd (V x) (Z.to_nat (sz mod BSIZE)) c) in
  fwf V' ip fb N (sz + Z.of_nat (length c)) /\ (forall j, 0 <= j < sz -> file_byte V' ip j = file_byte V ip j) /\
  (forall j, sz <= j < sz + Z.of_nat (length c) -> file_byte V' ip j = c !!! Z.to_nat (j - sz)) /\
  (forall b, owned V' ip N b <-> owned V ip N b).
Proof.
  intros Hf Hc Hle Hb x V'. pose proof Hf as [Hl H13 Hin Hiin Hd0 Hi0 Ht0 Hsz Htl].
  pose proof (wrote_block V ip N sz c Hl (proj1 Hsz) Hb Hle) as Hw. fold x in Hw. fold V' in Hw.
  pose proof (Z.div_mod sz BSIZE ltac:(unfold BSIZE; lia)) as Hdm.
  assert (Hfit : sz + Z.of_nat (length c) <= N * BSIZE) by (unfold BSIZE in *; lia).
  assert (Ha : forall k, 0 <= k < N -> addr_of V' ip k = addr_of V ip k) by (intros; by eapply wrote_addr).
  split; [|split; [|split]].
  - split; try done.
    + by eapply wrote_layout.
    + intros k Hk. rewrite Ha by done. by apply Hin.
    + intros Hn k Hk. rewrite (wr_other _ _ _ _ _ _ Hw); [by apply Ht0|]. intros j Hj He. destruct (ly_ind _ _ _ Hl Hn) as [_ Hne]. by apply (Hne j Hj).
    + lia.
    + intros j Hj. rewrite (wr_byte _ _ _ _ _ _ Hw), decide_False by lia. apply Htl. lia.
  - intros j Hj. rewrite (wr_byte _ _ _ _ _ _ Hw), decide_False by lia. done.
  - intros j Hj. rewrite (wr_byte _ _ _ _ _ _ Hw), decide_True by lia. done.
  - intros b. unfold owned. split; (intros [(k & Hk & ->)|Hr]; [left; exists k; by rewrite Ha|by right]).
Qed.

(** One round of the loop. *)
Lemma iappend_round s V fi fb ip sz c : reps s V fi fb -> fwf V ip fb (nblk sz) sz -> nmeta <= fb <= FSSIZE ->
  (forall b, fb <= b < FSSIZE -> V b = zero_block) -> 0 < Z.of_nat (length c) <= BSIZE - sz mod BSIZE ->
  sz + Z.of_nat (length c) <= MAXFILE * BSIZE -> fb + need (nblk (sz + Z.of_nat (length c))) - need (nblk sz) <= FSSIZE ->
  exists s1 V1 ip1, iappend_block (dinode_bytes ip) (sz / BSIZE) s = Ret (addr_of V1 ip1 (sz / BSIZE), dinode_bytes ip1) s1 /\
    let x := addr_of V1 ip1 (sz / BSIZE) in rsect x s1 = Ret (V1 x) s1 /\
    exists s2 V2 fb2, wsect x (upd (V1 x) (Z.to_nat (sz mod BSIZE)) c) s1 = Ret tt s2 /\ appended s2 V V2 ip ip1 fi fb fb2 sz c.
Proof.
  intros Hr Hf Hfb Hz Hc Hmax Hfit. pose proof (fw_size _ _ _ _ _ Hf) as Hsz. pose proof (Z.div_mod sz BSIZE ltac:(unfold BSIZE; lia)) as Hdm.
  pose proof (Z.mod_pos_bound sz BSIZE ltac:(unfold BSIZE; lia)) as Hmod.
  destruct (nblk_round sz (Z.of_nat (length c)) ltac:(lia) Hc) as [Hfbn EN]. assert (Hq : 0 <= sz / BSIZE < MAXFILE) by (unfold BSIZE in *; lia).
  destruct (iappend_block_eq s V fi fb ip (nblk sz) sz (sz / BSIZE) Hr Hf Hfb Hz ltac:(lia) ltac:(lia)) as (s1 & V1 & ip1 & E1 & Hal); [by rewrite EN|].
  rewrite EN in Hal. destruct Hal as [Hr1 [Hf1 Hb1 Ho1] Hfr1 Hz1 Hrest]. set (N1 := nblk (sz + Z.of_nat (length c))) in *. set (fb1 := fb + need N1 - need (nblk sz)) in *.
  exists s1, V1, ip1. split; [done|]. cbv zeta. set (x := addr_of V1 ip1 (sz / BSIZE)).
  assert (Hx : nmeta <= x < fb1) by (apply (fw_in _ _ _ _ _ Hf1); lia). assert (Hnm : nmeta = 46) by reflexivity.
  split; [apply (rsect_rep _ _ fi fb1); [done|lia]|].
  destruct (fwf_write V1 ip1 fb1 N1 sz c Hf1) as (Hf2 & Hold & Hnew & Ho2); [lia|lia|lia|]. fold x in Hf2, Hold, Hnew, Ho2.
  set (y := upd (V1 x) (Z.to_nat (sz mod BSIZE)) c) in *.
  destruct (wsect_rep s1 V1 fi fb1 x y Hr1) as (s2 & E2 & Hr2); [unfold y; rewrite length_upd; rewrite (rp_len _ _ _ _ Hr1); [done|lia]|].
  exists s2, (fset V1 x y), fb1. split; [done|]. pose proof (nblk_bounds sz ltac:(lia)) as Hnb. split; try done.
  - intros j Hj. rewrite Hold by done. apply Hb1. lia.
  - intros b Hb Hno. unfold fset. rewrite decide_False; [by apply Hfr1|]. intros ->.
    destruct (Ho1 x) as [|]; [left; exists (sz / BSIZE); split; [lia|done]|done|lia].
  - intros b Hb. apply Ho1. by apply Ho2.
  - intros b Hb. unfold fset. rewrite decide_False by lia. by apply Hz1.
Qed.

Lemma need_mono N N' : N <= N' -> need N <= need N'.
Proof. intros Hn. unfold need. destruct (Z.ltb_spec NDIRECT N); destruct (Z.ltb_spec NDIRECT N'); lia. Qed.

Lemma nblk_mono a b : a <= b -> nblk a <= nblk b.
Proof. intros Hab. unfold nblk. apply Z.div_le_mono; unfold BSIZE; lia. Qed.

Lemma appended_nil s V ip fi fb sz : reps s V fi fb -> fwf V ip fb (nblk sz) sz -> (forall b, fb <= b < FSSIZE -> V b = zero_block) ->
  appended s V V ip ip fi fb fb sz [].
Proof.
  intros Hr Hf Hz. split; cbn [length]; rewrite ?Z.add_0_r; try done; try lia; [intros b Ho; by left|by destruct ip].
Qed.

Lemma appended_app s1 s2 V V1 V2 ip ip1 ip2 fi fb fb1 fb2 sz c1 c2 : 0 <= sz -> appended s1 V V1 ip ip1 fi fb fb1 sz c1 ->
  appended s2 V1 V2 ip1 ip2 fi fb1 fb2 (sz + Z.of_nat (length c1)) c2 -> appended s2 V V2 ip ip2 fi fb fb2 sz (c1 ++ c2).
Proof.
  intros Hsz [_ E1 _ O1 N1 F1 W1 _ R1] [Hr E2 Hf O2 N2 F2 W2 Z2 R2].
  assert (El : sz + Z.of_nat (length (c1 ++ c2)) = sz + Z.of_nat (length c1) + Z.of_nat (length c2)) by (rewrite length_app; lia).
  assert (Hle : fb <= fb1) by (rewrite E1; pose proof (need_mono _ _ (nblk_mono sz (sz + Z.of_nat (length c1)) ltac:(lia))); lia).
  split; rewrite ?El; try done; try lia.
  - intros j Hj. rewrite O2 by lia. by apply O1.
  - intros j Hj. destruct (decide (j < sz + Z.of_nat (length c1))).
    + rewrite O2, N1 by lia. by rewrite lookup_total_app_l by lia.
    + rewrite N2 by lia. rewrite lookup_total_app_r by lia. f_equal. lia.
  - intros b Hb Hno. rewrite F2; [by apply F1|lia|]. intros Ho. apply W1 in Ho as [|]; [done|lia].
  - intros b Ho. apply W2 in Ho as [Ho|]; [by apply W1|right; lia].
  - rewrite R2, R1. by destruct ip.
Qed.

Lemma iappend_loop_eq fi : forall f p s V fb ip sz, (length p <= f)%nat -> reps s V fi fb -> fwf V ip fb (nblk sz) sz ->
  nmeta <= fb <= FSSIZE -> (forall b, fb <= b < FSSIZE -> V b = zero_block) -> sz + Z.of_nat (length p) <= MAXFILE * BSIZE ->
  fb + need (nblk (sz + Z.of_nat (length p))) - need (nblk sz) <= FSSIZE ->
  exists s2 V2 ip2 fb2, iappend_loop f (dinode_bytes ip) sz p s = Ret (dinode_bytes ip2, sz + Z.of_nat (length p)) s2 /\
    appended s2 V V2 ip ip2 fi fb fb2 sz p.
Proof.
  induction f as [|f IH]; intros p s V fb ip sz Hlen Hr Hf Hfb Hz Hmax Hfit.
  { destruct p; [|simpl in Hlen; lia]. exists s, V, ip, fb. cbn [iappend_loop length]. rewrite Z.add_0_r. split; [done|by apply appended_nil]. }
  destruct p as [|a p].
  { exists s, V, ip, fb. cbn [iappend_loop length]. rewrite Z.add_0_r. split; [done|by apply appended_nil]. }
  set (q := a :: p) in *. assert (Hq : 0 < Z.of_nat (length q)) by (unfold q; simpl; lia).
  change (iappend_loop (S f) (dinode_bytes ip) sz q) with
    (let n := Z.of_nat (length q) in let fbn := sz / BSIZE in
     assert_ (fbn <? MAXFILE);;
     '(x, din) <- iappend_block (dinode_bytes ip) fbn;;
     let n1 := Z.min n ((fbn + 1) * BSIZE - sz) in
     buf <- rsect x;;
     wsect x (upd buf (Z.to_nat (sz - fbn * BSIZE)) (take (Z.to_nat n1) q));;
     iappend_loop f din (u32 (sz + n1)) (drop (Z.to_nat n1) q)). cbv zeta.
  pose proof (fw_size _ _ _ _ _ Hf) as Hsz. pose proof (Z.div_mod sz BSIZE ltac:(unfold BSIZE; lia)) as Hdm.
  pose proof (Z.mod_pos_bound sz BSIZE ltac:(unfold BSIZE; lia)) as Hmod. change (MAXFILE * BSIZE) with 274432 in *.
  replace (sz - sz / BSIZE * BSIZE) with (sz mod BSIZE) by lia. replace ((sz / BSIZE + 1) * BSIZE - sz) with (BSIZE - sz mod BSIZE) by lia.
  set (n1 := Z.min (Z.of_nat (length q)) (BSIZE - sz mod BSIZE)). set (c := take (Z.to_nat n1) q).
  assert (Hc : Z.of_nat (length c) = n1) by (unfold c; rewrite length_take; lia).
  assert (Hm : sz / BSIZE < MAXFILE) by (change MAXFILE with 268; unfold BSIZE in *; lia).
  destruct (Z.ltb_spec (sz / BSIZE) MAXFILE); [|lia]. rewrite (bind_Ret _ _ _ _ _ (eq_refl : assert_ true s = Ret tt s)).
  assert (Hstep : need (nblk (sz + n1)) <= need (nblk (sz + Z.of_nat (length q)))) by (apply need_mono, nblk_mono; lia).
  destruct (iappend_round s V fi fb ip sz c Hr Hf Hfb Hz) as (s1 & V1 & ip1 & E1 & Er & s2 & V2 & fb2 & Ew & Hap);
    [lia|change (MAXFILE * BSIZE) with 274432; lia|rewrite Hc; lia|].
  rewrite (bind_Ret _ _ _ _ _ E1), (bind_Ret _ _ _ _ _ Er), (bind_Ret _ _ _ _ _ Ew), u32_small by lia.
  assert (Hld : Z.of_nat (length (drop (Z.to_nat n1) q)) = Z.of_nat (length q) - n1) by (rewrite length_drop; lia).
  pose proof Hap as [Hr2 Efb Hf2 _ _ _ _ Hz2 _]. rewrite Hc in *.
  assert (Hfb2 : fb <= fb2) by (rewrite Efb; pose proof (need_mono _ _ (nblk_mono sz (sz + n1) ltac:(lia))); lia).
  destruct (IH (drop (Z.to_nat n1) q) s2 V2 fb2 ip1 (sz + n1)) as (s3 & V3 & ip3 & fb3 & E3 & Hap3);
    [lia|done|done|lia|done|change (MAXFILE * BSIZE) with 274432; lia|rewrite Hld; replace (sz + n1 + (Z.of_nat (length q) - n1)) with (sz + Z.of_nat (length q)) by lia; lia|].
  exists s3, V3, ip3, fb3. split; [rewrite E3, Hld; f_equal; f_equal; lia|].
  rewrite <- (take_drop (Z.to_nat n1) q). fold c. eapply appended_app; [lia|exact Hap|by rewrite Hc].
Qed.
