(* ===== verification/MkfsSpec.v ===== *)
(** mkfs, the whole image: the file system it makes has the files it was given,
    as the kernel reads them. *)

From S2P Require Import Prelude Outcome Mem State Spinlock KString Kalloc Vm Proc ProcSpec Sleeplock Calm Bytes Disk Bio BioSpec BioView Log Uart Printf Fs Itable FsData FsSpec FsTrans FsWrite FsDir.
From S2P Require Import FsAlloc Mkfs MkfsFile.

(** ** The invariant *)

(** [G] gives the inode and [C] the contents of each allocated inode number. *)
Definition fsize (C : Z -> list Z) (n : Z) : Z := Z.of_nat (length (C n)).
Definition owns (V : Z -> list Z) (G : Z -> inode) (C : Z -> list Z) (n b : Z) : Prop := owned V (G n) (nblk (fsize C n)) b.

Definition shorts (ip : inode) : Prop := short (i_type ip) /\ short (i_major ip) /\ short (i_minor ip) /\ short (i_nlink ip).

Record minv (s : mkfs) (V : Z -> list Z) (G : Z -> inode) (C : Z -> list Z) (fi fb : Z) : Prop := {
  mi_reps : reps s V fi fb;
  mi_fb : nmeta <= fb <= FSSIZE;
  mi_fi : 1 <= fi <= NINODES;
  mi_zero : forall b, fb <= b < FSSIZE -> V b = zero_block;
  mi_din : forall n, 1 <= n < fi -> sub (V (IBLOCK n msb)) (Z.to_nat (dinode_off n)) 64 = dinode_bytes (G n);
  mi_ino : forall n, 1 <= n < fi -> shorts (G n) /\ i_size (G n) = fsize C n;
  mi_wf : forall n, 1 <= n < fi -> fwf V (G n) fb (nblk (fsize C n)) (fsize C n);
  mi_bytes : forall n j, 1 <= n < fi -> 0 <= j < fsize C n -> file_byte V (G n) j = C n !!! Z.to_nat j;
  mi_max : forall n, 1 <= n < fi -> fsize C n <= MAXFILE * BSIZE;
  mi_disj : forall n m b, 1 <= n < fi -> 1 <= m < fi -> owns V G C n b -> owns V G C m b -> n = m
}.

(** Inode blocks lie below the data blocks. *)
Lemma iblock_eq n : 0 <= n < 208 -> IBLOCK n msb = 32 + n / 16 /\ 32 <= IBLOCK n msb < 45.
Proof.
  intros Hn. assert (0 <= n / 16 < 13) by (split; [apply Z.div_pos; lia|apply Z.div_lt_upper_bound; lia]).
  assert (E : IBLOCK n msb = 32 + n / 16) by (unfold IBLOCK; change IPB with 16; change (sb_inodestart msb) with 32; rewrite u32_small; lia).
  rewrite E. lia.
Qed.

Lemma dinode_off_eq n : dinode_off n = 64 * (n mod 16).
Proof. unfold dinode_off. change IPB with 16. change DINODE_SIZE with 64. lia. Qed.

(** The inode of another number is elsewhere. *)
Lemma inode_apart n m : 0 <= n < 208 -> 0 <= m < 208 -> n <> m -> IBLOCK n msb = IBLOCK m msb ->
  dinode_off n + 64 <= dinode_off m \/ dinode_off m + 64 <= dinode_off n.
Proof.
  intros Hn Hm Hne He. rewrite (proj1 (iblock_eq n Hn)), (proj1 (iblock_eq m Hm)) in He. rewrite !dinode_off_eq.
  pose proof (Z.div_mod n 16 ltac:(lia)). pose proof (Z.div_mod m 16 ltac:(lia)). lia.
Qed.

(** winode, at the level of the sectors. *)
Lemma winode_rep s V fi fb n din : reps s V fi fb -> 0 <= n < 208 -> length din = 64%nat ->
  let ib := IBLOCK n msb in
  exists s', winode n din s = Ret tt s' /\ reps s' (fset V ib (upd (V ib) (Z.to_nat (dinode_off n)) din)) fi fb.
Proof.
  intros Hr Hn Hl ib. destruct (iblock_eq n Hn) as [_ Hib]. unfold winode. fold ib.
  rewrite (bind_Ret _ _ _ _ _ (rsect_rep s V fi fb ib Hr ltac:(unfold FSSIZE, ib; lia))).
  apply wsect_rep; [done|]. pose proof (dinode_off_fits n). rewrite length_upd; rewrite (rp_len _ _ _ _ Hr); [done|]. unfold BSIZE in *. lia.
Qed.

(** What a rewritten inode means for the dinodes of the image. *)
Lemma dinode_written V n m din : (forall b, length (V b) = Z.to_nat BSIZE) -> 0 <= n < 208 -> 0 <= m < 208 -> length din = 64%nat ->
  let ib := IBLOCK n msb in let V' := fset V ib (upd (V ib) (Z.to_nat (dinode_off n)) din) in
  sub (V' (IBLOCK m msb)) (Z.to_nat (dinode_off m)) 64 = if decide (m = n) then din else sub (V (IBLOCK m msb)) (Z.to_nat (dinode_off m)) 64.
Proof.
  intros Hlen Hn Hm Hd ib V'. pose proof (dinode_off_fits n) as Hf. pose proof (dinode_off_fits m). pose proof (Hlen ib) as Hl.
  unfold V', fset. destruct (decide (m = n)) as [->|Hne].
  - rewrite decide_True by done. rewrite <- Hd. apply sub_upd_same. unfold BSIZE in *. lia.
  - case_decide as E; [|done]. rewrite E. apply sub_upd_other; [unfold BSIZE in *; lia|]. rewrite Hd.
    destruct (inode_apart n m Hn Hm ltac:(done) ltac:(unfold ib in E; congruence)); lia.
Qed.

(** The invariant after a change that concerns inode [n] only. *)
Lemma minv_update s V G C fi fb s3 V3 n ip3 c fi3 fb3 : minv s V G C fi fb -> 1 <= n < fi3 -> fi <= fi3 <= NINODES ->
  (forall m, 1 <= m < fi3 -> m = n \/ 1 <= m < fi) ->
  reps s3 V3 fi3 fb3 -> fb <= fb3 <= FSSIZE -> (forall b, fb3 <= b < FSSIZE -> V3 b = zero_block) ->
  (forall m, 1 <= m < fi3 -> sub (V3 (IBLOCK m msb)) (Z.to_nat (dinode_off m)) 64 =
     if decide (m = n) then dinode_bytes ip3 else sub (V (IBLOCK m msb)) (Z.to_nat (dinode_off m)) 64) ->
  shorts ip3 -> i_size ip3 = Z.of_nat (length c) -> i_size ip3 <= MAXFILE * BSIZE -> fwf V3 ip3 fb3 (nblk (i_size ip3)) (i_size ip3) ->
  (forall j, 0 <= j < i_size ip3 -> file_byte V3 ip3 j = c !!! Z.to_nat j) ->
  (forall m b, m <> n -> 1 <= m < fi -> owns V G C m b -> V3 b = V b) ->
  (forall m b, m <> n -> 1 <= m < fi -> owned V3 ip3 (nblk (i_size ip3)) b -> ~ owns V G C m b) ->
  minv s3 V3 (fset G n ip3) (fset C n c) fi3 fb3.
Proof.
  intros Hm Hn Hfi Hcase Hr Hfb Hz Hdin Hsh Hsz Hmax Hf Hby Hfr Hsep. pose proof Hm as [_ Hfb0 Hfi0 _ Hdin0 Hino0 Hwf0 Hby0 Hmax0 Hdj0].
  assert (Hoth : forall m, m <> n -> 1 <= m < fi3 -> 1 <= m < fi) by (intros m Hne H1; by destruct (Hcase m H1)).
  assert (HG : forall m, m <> n -> fset G n ip3 m = G m) by (intros; unfold fset; by rewrite decide_False).
  assert (HGn : fset G n ip3 n = ip3) by (unfold fset; by rewrite decide_True).
  assert (HC : forall m, m <> n -> fset C n c m = C m) by (intros; unfold fset; by rewrite decide_False).
  assert (HCn : fset C n c n = c) by (unfold fset; by rewrite decide_True).
  assert (Hkeep : forall m, m <> n -> 1 <= m < fi -> fwf V3 (G m) fb3 (nblk (fsize C m)) (fsize C m) /\
    (forall j, 0 <= j < nblk (fsize C m) * BSIZE -> file_byte V3 (G m) j = file_byte V (G m) j) /\ (forall b, owned V3 (G m) (nblk (fsize C m)) b <-> owns V G C m b)).
  { intros m Hne H1. apply (fwf_frame V V3 (G m) (G m) fb fb3); [by apply Hwf0|done|lia|by intros; apply (Hfr m)|apply (rp_len _ _ _ _ Hr)]. }
  assert (Hown : forall m b, 1 <= m < fi3 -> owns V3 (fset G n ip3) (fset C n c) m b ->
    (m = n /\ owned V3 ip3 (nblk (i_size ip3)) b) \/ (m <> n /\ owns V G C m b)).
  { intros m b H1. unfold owns, fsize. destruct (decide (m = n)) as [->|Hne].
    - rewrite HGn, HCn, <- Hsz. intros; by left.
    - rewrite HG, HC by done. intros Ho. right. split; [done|]. by apply (Hkeep m Hne (Hoth m Hne H1)). }
  split; try done; try lia.
  - intros m H1. rewrite Hdin by done. destruct (decide (m = n)) as [->|Hne]; [by rewrite HGn|]. rewrite HG by done. apply Hdin0. by apply Hoth.
  - intros m H1. unfold fsize. destruct (decide (m = n)) as [->|Hne]; [by rewrite HGn, HCn|]. rewrite HG, HC by done. apply Hino0. by apply Hoth.
  - intros m H1. unfold fsize. destruct (decide (m = n)) as [->|Hne]; [by rewrite HGn, HCn, <- Hsz|]. rewrite HG, HC by done. apply Hkeep; [done|by apply Hoth].
  - intros m j H1. unfold fsize. destruct (decide (m = n)) as [->|Hne]; [by rewrite HGn, HCn, <- Hsz; apply Hby|]. rewrite HG, HC by done. intros Hj.
    specialize (Hoth m Hne H1). pose proof (nblk_bounds (fsize C m) ltac:(unfold fsize; lia)). rewrite (proj1 (proj2 (Hkeep m Hne Hoth))) by (unfold fsize in *; lia). by apply Hby0.
  - intros m H1. unfold fsize. destruct (decide (m = n)) as [->|Hne]; [by rewrite HCn, <- Hsz|]. rewrite HC by done. apply Hmax0. by apply Hoth.
  - intros a m b Ha H1 Hoa Hom. destruct (Hown a b Ha Hoa) as [[-> Ho1]|[Hne1 Ho1]]; destruct (Hown m b H1 Hom) as [[-> Ho2]|[Hne2 Ho2]]; [done| | |].
    + exfalso. by apply (Hsep m b Hne2 (Hoth m Hne2 H1)).
    + exfalso. by apply (Hsep a b Hne1 (Hoth a Hne1 Ha)).
    + by apply (Hdj0 a m b); [apply Hoth|apply Hoth| |].
Qed.

(** The blocks that are not inodes and not data: boot, super, log and bit map. *)
Definition kept (V V' : Z -> list Z) : Prop := forall b, 0 <= b < 32 \/ b = 45 -> V' b = V b.

Lemma msb_sector : 0 <= sb_bmapstart msb < FSSIZE.
Proof. done. Qed.

Lemma iappend_inv s V G C fi fb n p : minv s V G C fi fb -> 1 <= n < fi -> fsize C n + Z.of_nat (length p) <= MAXFILE * BSIZE ->
  let fb' := fb + need (nblk (fsize C n + Z.of_nat (length p))) - need (nblk (fsize C n)) in fb' <= FSSIZE ->
  exists s' V' ip', iappend n p s = Ret tt s' /\ minv s' V' (fset G n ip') (fset C n (C n ++ p)) fi fb' /\ kept V V' /\ i_type ip' = i_type (G n).
Proof.
  intros Hm Hn Hmax fb' Hfit. pose proof Hm as [Hr Hfb Hfi Hz Hdin Hino Hwf Hby Hmx Hdj]. destruct (Hino n Hn) as [Hsh Hsz]. specialize (Hwf n Hn).
  assert (Hn208 : 0 <= n < 208) by (unfold NINODES in Hfi; lia). destruct (iblock_eq n Hn208) as [_ Hib]. set (ib := IBLOCK n msb) in *.
  assert (Hnm : nmeta = 46) by reflexivity. assert (HF : FSSIZE = 2000) by reflexivity. change (MAXFILE * BSIZE) with 274432 in *.
  assert (H0 : 0 <= fsize C n) by (unfold fsize; lia).
  unfold iappend, rinode. rewrite (bind_bind_Ret _ _ _ _ _ _ (rsect_rep s V fi fb ib Hr ltac:(lia))).
  rewrite (bind_Ret _ _ _ _ _ (eq_refl : ret _ s = Ret _ s)). change (Z.to_nat DINODE_SIZE) with 64%nat. unfold ib. rewrite (Hdin n Hn). fold ib.
  rewrite din_size_eq by lia. unfold xint at 1. rewrite u32_small, Hsz by lia.
  destruct (iappend_loop_eq fi (length p) p s V fb (G n) (fsize C n)) as (s2 & V2 & ip2 & fb2 & E2 & Hap); try done; try lia.
  rewrite (bind_Ret _ _ _ _ _ E2). pose proof Hap as [Hr2 Efb Hf2 Hold Hnew Hfr Hown Hz2 Hrest]. change fb2 with fb2 in *. assert (fb2 = fb') as -> by done.
  unfold xint. rewrite u32_small by lia. rewrite put_size. set (ip3 := set_i_size _ ip2). set (sz' := fsize C n + Z.of_nat (length p)) in *.
  assert (H13 : length (i_addrs ip3) = 13%nat) by apply (fw_addrs _ _ _ _ _ Hf2).
  destruct (winode_rep s2 V2 fi fb' n (dinode_bytes ip3) Hr2 Hn208 (dinode_bytes_length ip3 H13)) as (s3 & E3 & Hr3). fold ib in Hr3.
  set (V3 := fset V2 ib _) in *. assert (Hne : forall b, b <> ib -> V3 b = V2 b) by (intros; unfold V3, fset; by rewrite decide_False).
  assert (Hlow : forall b, b < nmeta -> V2 b = V b) by (intros b Hb; apply Hfr; [lia|]; intros Ho; apply (owned_range _ _ _ _ _ _ Hwf) in Ho; lia).
  assert (Hge : fb <= fb') by (pose proof (need_mono _ _ (nblk_mono (fsize C n) sz' ltac:(lia))); lia).
  destruct (fwf_frame V2 V3 ip2 ip3 fb' fb' (nblk sz') sz' Hf2 eq_refl ltac:(lia)) as (Hf3 & Hb3 & Ho3).
  { intros b Ho. apply Hne. apply (owned_range _ _ _ _ _ _ Hf2) in Ho. lia. } { apply (rp_len _ _ _ _ Hr3). }
  exists s3, V3, ip3. split; [done|]. split; [|split].
  - pose proof (nblk_bounds sz' ltac:(lia)) as Hnb. assert (E3z : i_size ip3 = sz') by done.
    apply (minv_update s V G C fi fb); try done; rewrite ?E3z; try lia.
    + intros b Hb. rewrite Hne by lia. by apply Hz2.
    + intros m Hm1. unfold V3, ib. rewrite dinode_written; [|apply (rp_len _ _ _ _ Hr2)|lia|unfold NINODES in Hfi; lia|by apply dinode_bytes_length].
      case_decide; [done|]. f_equal. apply Hlow. destruct (iblock_eq m ltac:(unfold NINODES in Hfi; lia)). lia.
    + unfold shorts, ip3. rewrite Hrest. cbn. exact Hsh.
    + rewrite length_app. unfold sz', fsize. lia.
    + intros j Hj. rewrite Hb3 by lia. unfold fsize in *. destruct (decide (j < Z.of_nat (length (C n)))).
      * rewrite Hold, lookup_total_app_l by lia. apply Hby; [done|unfold fsize; lia].
      * rewrite Hnew, lookup_total_app_r by lia. f_equal. lia.
    + intros m b Hmn Hm1 Ho. apply (owned_range _ _ _ _ _ _ (mi_wf _ _ _ _ _ _ Hm m Hm1)) in Ho as Hb. rewrite Hne by lia. apply Hfr; [lia|].
      intros Ho'. apply Hmn. by apply (Hdj m n b).
    + intros m b Hmn Hm1 Ho Hom. apply Ho3, Hown in Ho as [Ho|Hge2].
      * apply Hmn. by apply (Hdj m n b).
      * apply (owned_range _ _ _ _ _ _ (mi_wf _ _ _ _ _ _ Hm m Hm1)) in Hom. lia.
  - intros b Hb. rewrite Hne by lia. apply Hlow. lia.
  - unfold ip3. rewrite Hrest. done.
Qed.

(** ** ialloc *)

Definition new_ino (type : Z) : inode := mkInode 0 0 0 sleeplock0 false type 0 0 1 0 (replicate 13 0).

Lemma ialloc_bytes type : type = T_DIR \/ type = T_FILE ->
  put32 (put16 (put16 (replicate (Z.to_nat DINODE_SIZE) 0) di_type (xshort type)) di_nlink (xshort 1)) di_size (xint 0) = dinode_bytes (new_ino type).
Proof. by intros [-> | ->]; vm_compute. Qed.

Lemma new_ino_wf V type fb : (forall b, length (V b) = Z.to_nat BSIZE) -> fwf V (new_ino type) fb (nblk 0) 0.
Proof.
  intros Hlen. change (nblk 0) with 0. split; try done; try (intros; lia).
  - split; try done; intros; lia.
  - intros k Hk. unfold NDIRECT in Hk. cbn [i_addrs new_ino]. apply lookup_total_replicate_2. lia.
Qed.

Lemma ialloc_inv s V G C fi fb type : minv s V G C fi fb -> fi < NINODES -> type = T_DIR \/ type = T_FILE ->
  exists s' V', ialloc type s = Ret fi s' /\ minv s' V' (fset G fi (new_ino type)) (fset C fi []) (fi + 1) fb /\ kept V V'.
Proof.
  intros Hm Hlt Hty. pose proof Hm as [Hr Hfb Hfi Hz Hdin Hino Hwf Hby Hmx Hdj]. unfold NINODES in *.
  assert (Hnm : nmeta = 46) by reflexivity. destruct (iblock_eq fi ltac:(lia)) as [_ Hib]. set (ib := IBLOCK fi msb) in *.
  unfold ialloc. cbv zeta. rewrite (ialloc_bytes type Hty). unfold bind at 1, gets. cbn [obind]. rewrite (rp_fi _ _ _ _ Hr).
  set (s1 := mkMkfs (mimg s) (u32 (fi + 1)) (freeblock s)).
  assert (Hr1 : reps s1 V (fi + 1) fb) by (destruct Hr as [Hi Hl Hf Hb]; split; try done; apply u32_small; lia).
  unfold bind at 1, modify. cbn [obind]. rewrite (rp_fi _ _ _ _ Hr). fold s1.
  destruct (winode_rep s1 V (fi + 1) fb fi (dinode_bytes (new_ino type)) Hr1 ltac:(lia) eq_refl) as (s2 & E2 & Hr2). rewrite (bind_Ret _ _ _ _ _ E2).
  fold ib in Hr2. set (V2 := fset V ib _) in *. assert (Hne : forall b, b <> ib -> V2 b = V b) by (intros; unfold V2, fset; by rewrite decide_False).
  exists s2, V2. split; [done|]. split; [|intros b Hb; apply Hne; lia].
  apply (minv_update s V G C fi fb); try done; try (unfold NINODES; lia).
  - intros b Hb. rewrite Hne by lia. by apply Hz.
  - intros m Hm1. unfold V2, ib. rewrite dinode_written; [done|apply (rp_len _ _ _ _ Hr)|lia|lia|done].
  - unfold shorts, short. destruct Hty as [-> | ->]; repeat split; by vm_compute.
  - apply new_ino_wf. apply (rp_len _ _ _ _ Hr2).
  - intros j Hj. cbn in Hj. lia.
  - intros m b Hmn Hm1 Ho. apply Hne. apply (owned_range _ _ _ _ _ _ (Hwf m Hm1)) in Ho. lia.
  - intros m b Hmn Hm1 [(k & Hk & _)|[Hk _]]; change (nblk (i_size (new_ino type))) with 0 in Hk; unfold NDIRECT in *; lia.
Qed.

(** ** The files *)

(** Inode [n] has contents [c] afterwards; no other inode changes. *)
Record changes (V V' : Z -> list Z) (G G' : Z -> inode) (C C' : Z -> list Z) (n : Z) (c : list Z) : Prop := {
  ch_kept : kept V V';
  ch_type : forall m, i_type (G' m) = i_type (G m);
  ch_new : C' n = c;
  ch_old : forall m, m <> n -> C' m = C m
}.

Lemma iappend_changes s V G C fi fb n p : minv s V G C fi fb -> 1 <= n < fi -> fsize C n + Z.of_nat (length p) <= MAXFILE * BSIZE ->
  let fb' := fb + need (nblk (fsize C n + Z.of_nat (length p))) - need (nblk (fsize C n)) in fb' <= FSSIZE ->
  exists s' V' G' C', iappend n p s = Ret tt s' /\ minv s' V' G' C' fi fb' /\ changes V V' G G' C C' n (C n ++ p).
Proof.
  intros Hm Hn Hmax fb' Hfit. destruct (iappend_inv s V G C fi fb n p Hm Hn Hmax Hfit) as (s' & V' & ip' & E & Hm' & Hk & Ht).
  exists s', V', (fset G n ip'), (fset C n (C n ++ p)). split; [done|]. split; [done|]. unfold fset. split; [done| |by rewrite decide_True|].
  - intros m. by case_decide; subst.
  - intros m Hne. by rewrite decide_False.
Qed.

Lemma iappend_chunks fi n : forall l s V G C fb, minv s V G C fi fb -> 1 <= n < fi ->
  fsize C n + Z.of_nat (length (concat l)) <= MAXFILE * BSIZE ->
  let fb' := fb + need (nblk (fsize C n + Z.of_nat (length (concat l)))) - need (nblk (fsize C n)) in fb' <= FSSIZE ->
  exists s' V' G' C', for_each l (iappend n) s = Ret tt s' /\ minv s' V' G' C' fi fb' /\ changes V V' G G' C C' n (C n ++ concat l).
Proof.
  induction l as [|p l IH]; intros s V G C fb Hm Hn Hmax fb' Hfit.
  - exists s, V, G, C. split; [done|]. unfold fb'. cbn [concat length]. rewrite Z.add_0_r, app_nil_r. replace (fb + _ - _) with fb by lia. done.
  - cbn [concat] in *. unfold fb' in *. rewrite length_app in *. assert (H0 : 0 <= fsize C n) by (unfold fsize; lia).
    pose proof (need_mono _ _ (nblk_mono (fsize C n + Z.of_nat (length p)) (fsize C n + Z.of_nat (length p + length (concat l))) ltac:(lia))) as Hmn.
    destruct (iappend_changes s V G C fi fb n p Hm Hn ltac:(lia) ltac:(lia)) as (s1 & V1 & G1 & C1 & E1 & Hm1 & [K1 T1 N1 O1]).
    assert (Ef : fsize C1 n = fsize C n + Z.of_nat (length p)) by (unfold fsize; rewrite N1, length_app; lia).
    assert (Et : fsize C1 n + Z.of_nat (length (concat l)) = fsize C n + Z.of_nat (length p + length (concat l))) by (rewrite Ef; lia).
    destruct (IH s1 V1 G1 C1 _ Hm1 Hn) as (s2 & V2 & G2 & C2 & E2 & Hm2 & [K2 T2 N2 O2]); [lia|rewrite Et, Ef; lia|].
    exists s2, V2, G2, C2. cbn [for_each]. rewrite (bind_Ret _ _ _ _ _ E1). split; [done|]. split.
    + rewrite Et, Ef in Hm2. replace (fb + _ - _) with (fb + need (nblk (fsize C n + Z.of_nat (length p))) - need (nblk (fsize C n)) +
        need (nblk (fsize C n + Z.of_nat (length p + length (concat l)))) - need (nblk (fsize C n + Z.of_nat (length p)))) by lia. done.
    + split.
      * intros b Hb. by rewrite K2, K1.
      * intros m. by rewrite T2, T1.
      * by rewrite N2, N1, app_assoc.
      * intros m Hne. by rewrite O2, O1.
Qed.

(** The name a file is stored under. *)
Definition stored_name (arg : list Z) : list Z := drop_underscore (drop_prefix arg).
Definition as_arg (f : list Z * list (list Z)) : list Z * option (list (list Z)) := (fst f, Some (snd f)).

Fixpoint dirents (fi : Z) (l : list (list Z * list (list Z))) : list Z :=
  match l with [] => [] | f :: l' => dirent fi (stored_name (fst f)) ++ dirents (fi + 1) l' end.

Lemma dirent_length n name : length (dirent n name) = 16%nat.
Proof. unfold dirent. rewrite length_app, length_le_enc, length_take, length_app, length_replicate. unfold DIRSIZ. lia. Qed.

Lemma dirents_length l : forall fi, length (dirents fi l) = (16 * length l)%nat.
Proof. induction l as [|f l IH]; intros fi; [done|]. cbn [dirents length]. rewrite length_app, dirent_length, IH. lia. Qed.

(** The blocks the contents of the files take. *)
Definition content (f : list Z * list (list Z)) : list Z := concat (snd f).
Definition blocks (f : list Z * list (list Z)) : Z := need (nblk (Z.of_nat (length (content f)))).

Lemma add_file_inv s V G C fi fb f : minv s V G C fi fb -> 2 <= fi < NINODES -> 47 ∉ drop_prefix (fst f) ->
  fsize C 1 + 16 <= MAXFILE * BSIZE -> Z.of_nat (length (content f)) <= MAXFILE * BSIZE ->
  let fb' := fb + (need (nblk (fsize C 1 + 16)) - need (nblk (fsize C 1))) + blocks f in fb' <= FSSIZE ->
  exists s' V' G' C', add_file 1 (as_arg f) s = Ret tt s' /\ minv s' V' G' C' (fi + 1) fb' /\ kept V V' /\
    C' 1 = C 1 ++ dirent fi (stored_name (fst f)) /\ C' fi = content f /\ (forall m, m <> 1 -> m <> fi -> C' m = C m) /\
    i_type (G' fi) = T_FILE /\ (forall m, m <> fi -> i_type (G' m) = i_type (G m)).
Proof.
  intros Hm Hfi Hsl Hroot Hmax fb' Hfit. unfold blocks, content in *. unfold add_file, as_arg.
  rewrite bool_decide_true by done. rewrite (bind_Ret _ _ _ _ _ (eq_refl : assert_ true s = Ret tt s)). fold (stored_name (fst f)).
  destruct (ialloc_inv s V G C fi fb T_FILE Hm ltac:(lia) ltac:(by right)) as (s1 & V1 & E1 & Hm1 & K1). rewrite (bind_Ret _ _ _ _ _ E1).
  set (C1 := fset C fi []) in *. set (G1 := fset G fi _) in *.
  assert (Hother : forall m, m <> fi -> C1 m = C m /\ G1 m = G m) by (intros m Hne; unfold C1, G1, fset; by rewrite !decide_False).
  assert (Hnew : C1 fi = [] /\ i_type (G1 fi) = T_FILE) by (unfold C1, G1, fset; by rewrite !decide_True).
  assert (Ef1 : fsize C1 1 = fsize C 1) by (unfold fsize; by rewrite (proj1 (Hother 1 ltac:(lia)))).
  assert (Hp : 0 <= need (nblk (Z.of_nat (length (concat f.2))))) by (pose proof (need_mono _ _ (nblk_mono 0 (Z.of_nat (length (concat f.2))) ltac:(lia))); change (need (nblk 0)) with 0 in *; lia).
  destruct (iappend_changes s1 V1 G1 C1 (fi + 1) fb 1 (dirent fi (stored_name (fst f))) Hm1) as (s2 & V2 & G2 & C2 & E2 & Hm2 & [K2 T2 N2 O2]);
    rewrite ?dirent_length, ?Ef1; change (Z.of_nat 16) with 16; try lia.
  rewrite (bind_Ret _ _ _ _ _ E2). rewrite dirent_length, Ef1 in Hm2. change (Z.of_nat 16) with 16 in Hm2.
  assert (Ef2 : fsize C2 fi = 0) by (unfold fsize; rewrite O2 by lia; by rewrite (proj1 Hnew)).
  destruct (iappend_chunks (fi + 1) fi (snd f) s2 V2 G2 C2 _ Hm2 ltac:(lia)) as (s3 & V3 & G3 & C3 & E3 & Hm3 & [K3 T3 N3 O3]);
    rewrite ?Ef2, ?Z.add_0_l; change (need (nblk 0)) with 0; try lia.
  exists s3, V3, G3, C3. split; [done|]. rewrite Ef2, Z.add_0_l in Hm3. change (need (nblk 0)) with 0 in Hm3. split.
  { replace fb' with (fb + need (nblk (fsize C 1 + 16)) - need (nblk (fsize C 1)) + need (nblk (Z.of_nat (length (concat f.2)))) - 0) by (unfold fb'; lia). done. }
  split; [intros b Hb; by rewrite K3, K2, K1|]. split; [rewrite O3, N2 by lia; by rewrite (proj1 (Hother 1 ltac:(lia)))|].
  split; [rewrite N3, O2 by lia; by rewrite (proj1 Hnew)|]. split.
  - intros m H1 H2. rewrite O3, O2 by done. by apply Hother.
  - split; [rewrite T3, T2; apply Hnew|]. intros m Hne. by rewrite T3, T2, (proj2 (Hother m Hne)).
Qed.

(** All the blocks of a list of files. *)
Definition all_blocks (l : list (list Z * list (list Z))) : Z := foldr (fun f n => blocks f + n) 0 l.

Definition file_ok_arg (f : list Z * list (list Z)) : Prop := 47 ∉ drop_prefix (fst f) /\ Z.of_nat (length (content f)) <= MAXFILE * BSIZE.

Lemma blocks_nonneg f : 0 <= blocks f.
Proof. unfold blocks. pose proof (need_mono _ _ (nblk_mono 0 (Z.of_nat (length (content f))) ltac:(lia))). change (need (nblk 0)) with 0 in *. lia. Qed.

Lemma all_blocks_nonneg l : 0 <= all_blocks l.
Proof. induction l as [|f l IH]; cbn [all_blocks foldr]; [lia|]. fold (all_blocks l). pose proof (blocks_nonneg f). lia. Qed.

Lemma add_files_inv : forall l s V G C fi fb, minv s V G C fi fb -> 2 <= fi -> fi + Z.of_nat (length l) <= NINODES -> Forall file_ok_arg l ->
  fsize C 1 + 16 * Z.of_nat (length l) <= MAXFILE * BSIZE ->
  let fb' := fb + (need (nblk (fsize C 1 + 16 * Z.of_nat (length l))) - need (nblk (fsize C 1))) + all_blocks l in fb' <= FSSIZE ->
  exists s' V' G' C', for_each (as_arg <$> l) (add_file 1) s = Ret tt s' /\ minv s' V' G' C' (fi + Z.of_nat (length l)) fb' /\ kept V V' /\
    C' 1 = C 1 ++ dirents fi l /\ i_type (G' 1) = i_type (G 1) /\
    (forall k f, l !! k = Some f -> C' (fi + Z.of_nat k) = content f /\ i_type (G' (fi + Z.of_nat k)) = T_FILE) /\
    (forall m, m <> 1 -> m < fi -> C' m = C m /\ i_type (G' m) = i_type (G m)).
Proof.
  induction l as [|f l IH]; intros s V G C fi fb Hm H2 Hn Hok Hroot fb' Hfit.
  - exists s, V, G, C. split; [done|]. unfold fb'. cbn [length all_blocks foldr]. rewrite Z.mul_0_r, !Z.add_0_r. replace (fb + _) with fb by lia.
    split; [done|]. split; [done|]. split; [by rewrite app_nil_r|]. split; [done|]. by split.
  - apply Forall_cons in Hok as [[Hsl Hmax] Hok]. cbn [length] in Hn, Hroot. unfold fb' in *. cbn [length all_blocks foldr] in *. fold (all_blocks l) in *.
    rewrite Nat2Z.inj_succ in *. pose proof (blocks_nonneg f). pose proof (all_blocks_nonneg l). assert (Hc0 : 0 <= fsize C 1) by (unfold fsize; lia).
    pose proof (need_mono _ _ (nblk_mono (fsize C 1 + 16) (fsize C 1 + 16 * Z.succ (Z.of_nat (length l))) ltac:(lia))) as Hmono.
    destruct (add_file_inv s V G C fi fb f Hm ltac:(unfold NINODES in *; lia) Hsl ltac:(lia) Hmax ltac:(lia)) as (s1 & V1 & G1 & C1 & E1 & Hm1 & K1 & R1 & N1 & O1 & T1 & U1).
    assert (Ef : fsize C1 1 = fsize C 1 + 16) by (unfold fsize; rewrite R1, length_app, dirent_length; lia).
    assert (Et : fsize C1 1 + 16 * Z.of_nat (length l) = fsize C 1 + 16 * Z.succ (Z.of_nat (length l))) by (rewrite Ef; lia).
    destruct (IH s1 V1 G1 C1 (fi + 1) _ Hm1) as (s2 & V2 & G2 & C2 & E2 & Hm2 & K2 & R2 & T2 & F2 & O2); rewrite ?Et, ?Ef; try done; try lia.
    exists s2, V2, G2, C2. cbn [fmap list_fmap for_each]. rewrite (bind_Ret _ _ _ _ _ E1). split; [done|]. split.
    + rewrite Et, Ef in Hm2. replace (fi + Z.succ (Z.of_nat (length l))) with (fi + 1 + Z.of_nat (length l)) by lia.
      match goal with |- minv _ _ _ _ _ ?a => match type of Hm2 with minv _ _ _ _ _ ?b => replace a with b by lia end end. done.
    + split; [intros b Hb; by rewrite K2, K1|]. split; [rewrite R2, R1; cbn [dirents]; by rewrite app_assoc|].
      split; [rewrite T2; apply U1; lia|]. split.
      * intros [|k] f' Hk; cbn in Hk.
        -- injection Hk as <-. rewrite Z.add_0_r. destruct (O2 fi ltac:(lia) ltac:(lia)) as [-> ->]. done.
        -- replace (fi + Z.of_nat (S k)) with (fi + 1 + Z.of_nat k) by lia. by apply F2.
      * intros m H1 Hlt. destruct (O2 m H1 ltac:(lia)) as [-> ->]. split; [apply O1; lia|apply U1; lia].
Qed.

(** ** The bit map *)

Lemma bitmap_of_test used b : 0 <= used <= 8 * BSIZE -> 0 <= b < 8 * BSIZE -> bit_test (bitmap_of used) b = (b <? used).
Proof.
  intros Hu Hb. unfold bitmap_of.
  assert (E : forall l d, length d = Z.to_nat BSIZE -> Forall (fun a => 0 <= a < 8 * BSIZE) l ->
    bit_test (foldl bit_set d l) b = bool_decide (b ∈ l) || bit_test d b).
  { induction l as [|a l IH]; intros d Hd Hl; [done|]. apply Forall_cons in Hl as [Ha Hl]. cbn [foldl].
    rewrite IH by (try done; unfold bit_set; by rewrite length_alter). rewrite bit_test_set by (rewrite ?Hd; unfold BSIZE in *; lia).
    destruct (Z.eqb_spec a b) as [->|Hne]; cbn [orb].
    - rewrite orb_true_r, bool_decide_true; [done|apply list_elem_of_here].
    - f_equal. apply bool_decide_ext. rewrite elem_of_cons. naive_solver. }
  rewrite E; [|apply length_replicate|apply Forall_forall; intros a Ha; apply elem_of_seqZ in Ha; lia].
  assert (bit_test zeroes b = false) as ->.
  { rewrite bit_test_eq. unfold zeroes. rewrite lookup_total_replicate_2; [apply Z.bits_0|].
    apply Z2Nat.inj_lt; [apply Z.div_pos; lia|unfold BSIZE; lia|apply Z.div_lt_upper_bound; unfold BSIZE in *; lia]. }
  rewrite orb_false_r. apply eq_true_iff_eq. rewrite bool_decide_eq_true, elem_of_seqZ, Z.ltb_lt. lia.
Qed.

Lemma bitmap_of_length used : length (bitmap_of used) = Z.to_nat BSIZE.
Proof.
  unfold bitmap_of. assert (E : forall l d, length (foldl bit_set d l) = length d).
  { induction l as [|a l IH]; intros d; [done|]. cbn [foldl]. rewrite IH. unfold bit_set. apply length_alter. }
  rewrite E. apply length_replicate.
Qed.

(** ** The whole run *)

Lemma zero_all l : forall s, exists s', for_each l (fun i => wsect i zeroes) s = Ret tt s' /\
  freeinode s' = freeinode s /\ freeblock s' = freeblock s /\ forall b, mimg s' !! b = if decide (b ∈ l) then Some zeroes else mimg s !! b.
Proof.
  induction l as [|a l IH]; intros s; [by exists s|].
  set (s1 := mkMkfs (<[a := zeroes]> (mimg s)) (freeinode s) (freeblock s)). destruct (IH s1) as (s' & E & Hi & Hb & Hm).
  exists s'. cbn [for_each]. rewrite (bind_Ret _ _ _ _ _ (eq_refl : wsect a zeroes s = Ret tt s1)). do 3 (split; [done|]).
  intros b. rewrite Hm. change (mimg s1) with (<[a := zeroes]> (mimg s)). destruct (decide (b = a)) as [->|Hne].
  - rewrite lookup_insert_eq, (decide_True (P := a ∈ a :: l)) by apply list_elem_of_here. by case_decide.
  - rewrite lookup_insert_ne by done. destruct (decide (b ∈ l)) as [Hin|Hin]; [by rewrite decide_True by (by apply list_elem_of_further)|].
    rewrite decide_False; [done|]. rewrite elem_of_cons. tauto.
Qed.

Definition sb_block : list Z := upd zeroes 0 (superblock_bytes msb).
Definition V0 : Z -> list Z := fset (fun _ => zero_block) 1 sb_block.

(** The image before the first inode. *)
Lemma minv_start s : freeinode s = 1 -> freeblock s = nmeta -> (forall b, 0 <= b < FSSIZE -> mimg s !! b = Some (V0 b)) ->
  minv s V0 (fun _ => inode0) (fun _ => []) 1 nmeta.
Proof.
  intros Hi Hb Hm. split; try (intros; lia); try done.
  - split; [done| |done|done]. intros b. unfold V0, fset. case_decide; [by vm_compute|]. apply length_replicate.
  - intros b Hr. unfold V0, fset. rewrite decide_False; [done|]. assert (nmeta = 46) by reflexivity. lia.
Qed.

Definition dots : list Z := dirent ROOTINO (bytes_of ".") ++ dirent ROOTINO (bytes_of "..").

(** What is asked of the files: their names have no slash, each fits a file, and
    together with the root directory they fit the image. *)
Record input_ok (l : list (list Z * list (list Z))) : Prop := {
  in_files : Forall file_ok_arg l;
  in_count : 2 + Z.of_nat (length l) <= NINODES;
  in_space : nmeta + need (nblk (16 * (2 + Z.of_nat (length l)))) + all_blocks l <= FSSIZE
}.

(** The end of main: the size of the root directory and the bit map. *)
Definition mkfs_finish : M mkfs unit :=
  din <- rinode ROOTINO;;
  let off := xint (get32 din di_size) in
  let off := u32 ((off / BSIZE + 1) * BSIZE) in
  winode ROOTINO (put32 din di_size (xint off));;
  used <- gets freeblock;;
  balloc used.

(** The state before it. *)
Record populated (s : mkfs) (V : Z -> list Z) (G : Z -> inode) (C : Z -> list Z) (l : list (list Z * list (list Z))) (fb : Z) : Prop := {
  po_inv : minv s V G C (2 + Z.of_nat (length l)) fb;
  po_sb : V 1 = sb_block;
  po_boot : V 0 = zero_block;
  po_root : C 1 = dots ++ dirents 2 l;
  po_type : i_type (G 1) = T_DIR;
  po_files : forall k f, l !! k = Some f -> C (2 + Z.of_nat k) = content f /\ i_type (G (2 + Z.of_nat k)) = T_FILE
}.

Lemma mkfs_main_populates l : input_ok l -> exists s V G C,
  mkfs_main (as_arg <$> l) mkfs_start = mkfs_finish s /\
  populated s V G C l (nmeta + need (nblk (16 * (2 + Z.of_nat (length l)))) + all_blocks l).
Proof.
  intros [Hok Hcnt Hsp]. unfold mkfs_main. set (s0 := mkMkfs ∅ 1 nmeta).
  rewrite (bind_Ret _ _ _ tt s0) by done.
  destruct (zero_all (seqZ 0 FSSIZE) s0) as (s1 & E1 & Hi1 & Hb1 & Hm1). rewrite (bind_Ret _ _ _ _ _ E1).
  set (s2 := mkMkfs (<[1 := sb_block]> (mimg s1)) (freeinode s1) (freeblock s1)). rewrite (bind_Ret _ _ s1 tt s2) by done.
  assert (HI : minv s2 V0 (fun _ => inode0) (fun _ => []) 1 nmeta).
  { apply minv_start; [done|done|]. intros b Hb. unfold s2, V0, fset. cbn [mimg]. case_decide as Eb; [subst; apply lookup_insert_eq|].
    rewrite lookup_insert_ne, Hm1, decide_True by (done || apply elem_of_seqZ; lia). done. }
  destruct (ialloc_inv s2 _ _ _ 1 nmeta T_DIR HI ltac:(done) ltac:(by left)) as (s3 & V3 & E3 & HI3 & K3). rewrite (bind_Ret _ _ _ _ _ E3).
  rewrite (bind_Ret _ _ s3 tt s3) by done.
  pose proof (all_blocks_nonneg l). set (C3 := fset _ 1 []) in HI3. set (G3 := fset _ 1 _) in HI3. change (1 + 1) with 2 in HI3.
  assert (F3 : fsize C3 1 = 0) by done.
  pose proof (need_mono _ _ (nblk_mono 32 (16 * (2 + Z.of_nat (length l))) ltac:(lia))) as Hn32. change (need (nblk 32)) with 1 in Hn32.
  assert (Hnm : nmeta = 46) by reflexivity. assert (HF : FSSIZE = 2000) by reflexivity.
  destruct (iappend_changes s3 V3 G3 C3 2 nmeta 1 (dirent 1 (bytes_of ".")) HI3) as (s4 & V4 & G4 & C4 & E4 & HI4 & [K4 T4 N4 O4]);
    [lia|rewrite F3, dirent_length; by vm_compute|rewrite F3, dirent_length; by vm_compute|].
  rewrite (bind_Ret _ _ _ _ _ E4). rewrite F3, dirent_length in HI4. change (nmeta + _ - _) with 47 in HI4.
  assert (F4 : fsize C4 1 = 16) by (unfold fsize; rewrite N4, length_app, dirent_length; done).
  destruct (iappend_changes s4 V4 G4 C4 2 47 1 (dirent 1 (bytes_of "..")) HI4) as (s5 & V5 & G5 & C5 & E5 & HI5 & [K5 T5 N5 O5]);
    [lia|rewrite F4, dirent_length; by vm_compute|rewrite F4, dirent_length; by vm_compute|].
  rewrite (bind_Ret _ _ _ _ _ E5). rewrite F4, dirent_length in HI5. change (47 + _ - _) with 47 in HI5.
  assert (F5 : fsize C5 1 = 32) by (unfold fsize; rewrite N5, length_app, dirent_length; unfold fsize in F4; lia).
  destruct (add_files_inv l s5 V5 G5 C5 2 47 HI5) as (s6 & V6 & G6 & C6 & E6 & HI6 & K6 & R6 & T6 & F6 & O6); try done; rewrite ?F5.
  { change (MAXFILE * BSIZE) with 274432. unfold NINODES in Hcnt. lia. }
  { change (need (nblk 32)) with 1. replace (32 + 16 * Z.of_nat (length l)) with (16 * (2 + Z.of_nat (length l))) by lia. lia. }
  rewrite (bind_Ret _ _ _ _ _ E6). exists s6, V6, G6, C6. split; [done|]. split.
  - rewrite F5 in HI6. change (need (nblk 32)) with 1 in HI6. replace (32 + 16 * Z.of_nat (length l)) with (16 * (2 + Z.of_nat (length l))) in HI6 by lia.
    match type of HI6 with minv _ _ _ _ _ ?b => match goal with |- minv _ _ _ _ _ ?a => replace a with b by lia end end. done.
  - rewrite K6, K5, K4, K3 by lia. done.
  - rewrite K6, K5, K4, K3 by lia. done.
  - rewrite R6, N5, N4. done.
  - rewrite T6, T5, T4. done.
  - exact F6.
Qed.

(** ** The root directory *)

Fixpoint ents (fi : Z) (l : list (list Z * list (list Z))) : list (list Z) :=
  match l with [] => [] | f :: l' => dirent fi (stored_name (fst f)) :: ents (fi + 1) l' end.
Definition root_ents (l : list (list Z * list (list Z))) : list (list Z) := dirent 1 (bytes_of ".") :: dirent 1 (bytes_of "..") :: ents 2 l.
(** The names in the root directory and what they are bound to. *)
Definition root_names (l : list (list Z * list (list Z))) : list (list Z) :=
  name_of (bytes_of ".") :: name_of (bytes_of "..") :: ((fun f => name_of (stored_name (fst f))) <$> l).

Lemma dirents_concat l : forall fi, dirents fi l = concat (ents fi l).
Proof. induction l as [|f l IH]; intros fi; [done|]. cbn [dirents ents concat]. by rewrite IH. Qed.

Lemma ents_lookup l : forall fi k, ents fi l !! k = (fun f => dirent (fi + Z.of_nat k) (stored_name (fst f))) <$> l !! k.
Proof.
  induction l as [|f l IH]; intros fi [|k]; [done|done|cbn; by rewrite Z.add_0_r|].
  change (ents fi (f :: l) !! S k) with (ents (fi + 1) l !! k). change ((f :: l) !! S k) with (l !! k). rewrite IH.
  by replace (fi + 1 + Z.of_nat k) with (fi + Z.of_nat (S k)) by lia.
Qed.

Lemma cstr_ext n p q : forall i, (forall k, i <= k < i + Z.of_nat n -> p k = q k) -> cstr n p i = cstr n q i.
Proof.
  induction n as [|n IH]; intros i E; [done|]. cbn [cstr]. rewrite (E i) by lia. destruct (truthy (q i)); [|done]. f_equal. apply IH. intros; apply E; lia.
Qed.

Lemma dirent_fields n nm : 0 < n < 2 ^ 16 -> de_inum (dirent n nm) = n /\ name_of (de_name (dirent n nm)) = name_of nm.
Proof.
  intros Hn. unfold dirent, xshort. rewrite u16_small by lia. split.
  - unfold de_inum, get16, sub. rewrite drop_0, take_app_length' by (by rewrite length_le_enc). rewrite le_dec_enc. apply Z.mod_small. lia.
  - unfold de_name. rewrite drop_app_length' by (by rewrite length_le_enc). apply cstr_ext. intros k Hk. unfold list_view. f_equal.
    rewrite lookup_take_lt by (unfold DIRSIZ in *; lia). destruct (decide (Z.to_nat k < length nm)%nat).
    + by rewrite lookup_app_l.
    + rewrite lookup_app_r by lia. rewrite (lookup_ge_None_2 nm) by lia. rewrite lookup_replicate_2; [done|]. unfold DIRSIZ in *. lia.
Qed.

(** Entry [i] of the root directory and its name. *)
Lemma root_ents_lookup l i de : root_ents l !! i = Some de -> 2 + Z.of_nat (length l) <= NINODES ->
  length de = 16%nat /\ root_names l !! i = Some (name_of (de_name de)) /\ de_inum de = (if decide (i < 2)%nat then 1 else Z.of_nat i).
Proof.
  intros Hd Hc. unfold NINODES in Hc. destruct i as [|[|i]]; cbn in Hd.
  - injection Hd as <-. by vm_compute.
  - injection Hd as <-. by vm_compute.
  - change (ents 2 l !! i = Some de) in Hd. rewrite ents_lookup in Hd. destruct (l !! i) as [f|] eqn:E; [|done]. injection Hd as <-.
    apply lookup_lt_Some in E as Hi. destruct (dirent_fields (2 + Z.of_nat i) (stored_name (fst f)) ltac:(lia)) as [E1 E2].
    split; [apply dirent_length|]. change (root_names l !! S (S i)) with (((fun f => name_of (stored_name (fst f))) <$> l) !! i).
    rewrite list_lookup_fmap, E, E1, E2. split; [done|]. rewrite decide_False by lia. lia.
Qed.

Lemma root_ents_length l : length (root_ents l) = (2 + length l)%nat.
Proof. unfold root_ents. cbn [length]. do 2 f_equal. generalize 2. induction l as [|f l IH]; intros z; [done|]. cbn [ents length]. by rewrite IH. Qed.

Lemma sub_concat es : Forall (fun de => length de = 16%nat) es -> forall i (de : list Z), es !! i = Some de -> sub (concat es) (16 * i) 16 = de.
Proof.
  induction 1 as [|e es He _ IH]; intros i de Hi; [done|]. destruct i as [|i]; cbn [concat].
  - injection Hi as <-. rewrite Nat.mul_0_r. change (e ++ concat es) with ([] ++ e ++ concat es). by apply sub_mid.
  - cbn in Hi. unfold sub. replace (16 * S i)%nat with (length e + 16 * i)%nat by lia. rewrite drop_app_add. apply (IH i de Hi).
Qed.

(** Lookup among whole entries followed by free ones. *)
Lemma dir_lookup_ents l es : 2 + Z.of_nat (length l) <= NINODES -> NoDup (root_names l) ->
  (forall i de, root_ents l !! i = Some de -> es !! i = Some de) ->
  (forall i de, (2 + length l <= i)%nat -> es !! i = Some de -> free_entry de) ->
  (forall k f, l !! k = Some f -> dir_lookup es (name_of (stored_name (fst f))) = Some (2 + Z.of_nat k)) /\
  (forall c, c ∉ root_names l -> dir_lookup es c = None).
Proof.
  intros Hc Hnd Hes Hfree. assert (Hin : forall i de, es !! i = Some de -> de_inum de <> 0 -> root_ents l !! i = Some de).
  { intros i de He Hne. destruct (decide (i < 2 + length l)%nat).
    - destruct (lookup_lt_is_Some_2 (root_ents l) i) as [d Hd]; [by rewrite root_ents_length|]. apply Hes in Hd as Hd'. congruence.
    - exfalso. apply Hne. apply (Hfree i de); [lia|done]. }
  split.
  - intros k f Hk. assert (Hk' : root_ents l !! S (S k) = Some (dirent (2 + Z.of_nat k) (stored_name (fst f)))).
    { change (ents 2 l !! k = Some (dirent (2 + Z.of_nat k) (stored_name (fst f)))). by rewrite ents_lookup, Hk. }
    destruct (root_ents_lookup l _ _ Hk' Hc) as (_ & Hn & Hi). rewrite decide_False in Hi by lia. set (de := dirent _ _) in *.
    assert (Hnm : name_of (de_name de) = name_of (stored_name (fst f))) by (apply dirent_fields; apply lookup_lt_Some in Hk; unfold NINODES in Hc; lia).
    unfold dir_lookup. assert (list_find (names (name_of (stored_name (fst f)))) es = Some (S (S k), de)) as ->.
    + apply list_find_Some. split; [by apply Hes|]. split; [split; [lia|done]|]. intros j y Hj Hlt [Hy1 Hy2].
      apply Hin in Hj; [|done]. destruct (root_ents_lookup l _ _ Hj Hc) as (_ & Hnj & _). rewrite Hy2, <- Hnm in Hnj.
      pose proof (NoDup_lookup _ _ _ _ Hnd Hnj Hn). lia.
    + cbn [fmap option_fmap option_map compose snd]. f_equal. rewrite Hi. lia.
  - intros c Hno. unfold dir_lookup. assert (list_find (names c) es = None) as ->; [|done]. apply list_find_None. apply Forall_lookup_2.
    intros i de Hi [Hne Hn]. apply Hno. apply Hin in Hi; [|done]. destruct (root_ents_lookup l _ _ Hi Hc) as (_ & Hnm & _). rewrite Hn in Hnm.
    by eapply list_elem_of_lookup_2.
Qed.

(** ** The finished image *)

(** The inode [n] of the image, as ilock reads it. *)
Definition kino (V : Z -> list Z) (n : Z) : inode := read_dinode (V (IBLOCK n msb)) (dinode_off n) inode0.

Lemma kino_eq V n ip : length (V (IBLOCK n msb)) = Z.to_nat BSIZE -> inode_ok ip ->
  sub (V (IBLOCK n msb)) (Z.to_nat (dinode_off n)) 64 = dinode_bytes ip -> kino V n = disk_fields ip inode0.
Proof.
  intros Hlen Hok Hs. unfold kino. pose proof (dinode_off_fits n) as Hf. unfold BSIZE in *.
  rewrite <- (upd_sub_id (V (IBLOCK n msb)) (Z.to_nat (dinode_off n)) 64) by lia. rewrite Hs.
  rewrite <- write_dinode_upd by (try apply Hok; lia). apply read_write_dinode; [lia|lia|done].
Qed.

Lemma minv_inode_ok s V G C fi fb n : minv s V G C fi fb -> 1 <= n < fi -> inode_ok (G n).
Proof.
  intros Hm Hn. destruct (mi_ino _ _ _ _ _ _ Hm n Hn) as [Hsh Hsz]. pose proof (mi_max _ _ _ _ _ _ Hm n Hn) as Hmx. change (MAXFILE * BSIZE) with 274432 in Hmx.
  pose proof (mi_wf _ _ _ _ _ _ Hm n Hn) as Hwf. split; [done|rewrite Hsz; unfold fsize in *; lia| |apply (fw_addrs _ _ _ _ _ Hwf)].
  eapply fwf_addrs_range; [exact Hwf|]. apply (mi_fb _ _ _ _ _ _ Hm).
Qed.

(** The size main gives the root directory. *)
Definition root_size (n : Z) : Z := (16 * (2 + n) / BSIZE + 1) * BSIZE.

Lemma root_size_range n : 2 + Z.of_nat n <= NINODES -> 0 <= root_size (Z.of_nat n) < 2 ^ 32.
Proof.
  intros Hn. unfold root_size, NINODES, BSIZE in *. pose proof (Z.div_mod (16 * (2 + Z.of_nat n)) 1024 ltac:(lia)).
  pose proof (Z.mod_pos_bound (16 * (2 + Z.of_nat n)) 1024 ltac:(lia)). lia.
Qed.

Lemma mkfs_finish_eq s V G C l fb : populated s V G C l fb -> 2 + Z.of_nat (length l) <= NINODES -> fb <= FSSIZE ->
  exists s' V', mkfs_finish s = Ret tt s' /\ reps s' V' (2 + Z.of_nat (length l)) fb /\ V' 45 = bitmap_of fb /\
    (forall b, b <> IBLOCK 1 msb -> b <> 45 -> V' b = V b) /\
    (forall m, 1 <= m < 2 + Z.of_nat (length l) -> sub (V' (IBLOCK m msb)) (Z.to_nat (dinode_off m)) 64 =
       dinode_bytes (if decide (m = 1) then set_i_size (root_size (Z.of_nat (length l))) (G 1) else G m)).
Proof.
  intros [Hm Hsb Hb0 Hroot Hty Hfiles] Hcnt Hfb. pose proof Hm as [Hr _ Hfi _ Hdin Hino _ _ _ _]. unfold NINODES in *.
  assert (H1 : 1 <= 1 < 2 + Z.of_nat (length l)) by lia. destruct (iblock_eq 1 ltac:(lia)) as [_ Hib]. set (ib := IBLOCK 1 msb) in *.
  assert (Hsz : i_size (G 1) = 16 * (2 + Z.of_nat (length l))).
  { rewrite (proj2 (Hino 1 H1)). unfold fsize. rewrite Hroot. unfold dots. rewrite !length_app, !dirent_length, dirents_length. lia. }
  unfold mkfs_finish, rinode. change ROOTINO with 1. rewrite (bind_bind_Ret _ _ _ _ _ _ (rsect_rep s V _ fb ib Hr ltac:(unfold FSSIZE; lia))).
  rewrite (bind_Ret _ _ _ _ _ (eq_refl : ret _ s = Ret _ s)). change (Z.to_nat DINODE_SIZE) with 64%nat. unfold ib. rewrite (Hdin 1 H1). fold ib.
  cbv zeta. rewrite din_size_eq, Hsz by lia. unfold xint. rewrite (u32_small (16 * _)) by lia. fold (root_size (Z.of_nat (length l))).
  pose proof (root_size_range (length l) Hcnt) as Hrs.
  rewrite !(u32_small (root_size _)) by lia. rewrite put_size. set (root := set_i_size _ (G 1)).
  destruct (winode_rep s V _ fb 1 (dinode_bytes root) Hr ltac:(lia)) as (s1 & E1 & Hr1); [apply dinode_bytes_length; apply (fw_addrs _ _ _ _ _ (mi_wf _ _ _ _ _ _ Hm 1 H1))|].
  rewrite (bind_Ret _ _ _ _ _ E1). fold ib in Hr1. set (V1 := fset V ib _) in *.
  rewrite (bind_Ret _ _ _ _ _ (eq_refl : gets freeblock s1 = Ret (freeblock s1) s1)), (rp_fb _ _ _ _ Hr1). unfold balloc.
  destruct (Z.ltb_spec fb (BSIZE * 8)); [|unfold FSSIZE, BSIZE in *; lia]. rewrite (bind_Ret _ _ _ _ _ (eq_refl : assert_ true s1 = Ret tt s1)).
  destruct (wsect_rep s1 V1 _ fb (sb_bmapstart msb) (bitmap_of fb) Hr1 (bitmap_of_length fb)) as (s2 & E2 & Hr2). change (sb_bmapstart msb) with 45 in *.
  exists s2, (fset V1 45 (bitmap_of fb)). split; [exact E2|]. split; [exact Hr2|]. split; [done|]. split.
  - intros b Hb1 Hb2. unfold V1, fset. by rewrite !decide_False.
  - intros m Hm1. destruct (iblock_eq m ltac:(lia)) as [_ Hibm]. unfold fset at 1. rewrite decide_False by lia. unfold V1, ib.
    rewrite dinode_written; [|apply (rp_len _ _ _ _ Hr)|lia|lia|apply dinode_bytes_length, (fw_addrs _ _ _ _ _ (mi_wf _ _ _ _ _ _ Hm 1 H1))].
    case_decide; [done|]. by apply Hdin.
Qed.

(** Bytes of a file by their contents. *)
Lemma file_bytes_sub V ip (c : list Z) off n : 0 <= off -> off + Z.of_nat n <= Z.of_nat (length c) ->
  (forall j, off <= j < off + Z.of_nat n -> file_byte V ip j = c !!! Z.to_nat j) -> file_bytes V ip off (Z.of_nat n) = sub c (Z.to_nat off) n.
Proof.
  intros Hoff Hn Hb. apply list_eq. intros k. unfold file_bytes. rewrite list_lookup_fmap, lookup_sub. case_decide as Hk.
  - rewrite lookup_seqZ_lt by lia. cbn [fmap option_fmap option_map]. rewrite Hb by lia.
    replace (Z.to_nat (off + Z.of_nat k)) with (Z.to_nat off + k)%nat by lia. symmetry. apply list_lookup_lookup_total_lt. lia.
  - by rewrite lookup_seqZ_ge by lia.
Qed.

Lemma free_zero V ip k : (forall j, 16 * k <= j < 16 * k + 16 -> file_byte V ip j = 0) -> free_entry (file_bytes V ip (DIRENT_SIZE * k) DIRENT_SIZE).
Proof.
  intros Hz. assert (file_bytes V ip (DIRENT_SIZE * k) DIRENT_SIZE = replicate 16 0) as ->; [|done].
  apply list_eq. intros x. unfold file_bytes, DIRENT_SIZE. rewrite list_lookup_fmap. destruct (decide (x < 16)%nat) as [Hx|Hx].
  - rewrite lookup_seqZ_lt, lookup_replicate_2 by lia. cbn. f_equal. apply Hz. lia.
  - rewrite lookup_seqZ_ge by lia. symmetry. apply lookup_ge_None_2. rewrite length_replicate. lia.
Qed.

(** The entries of the finished root directory: those main wrote, then free ones. *)
Lemma root_entries V ip fb l : fwf V ip fb (nblk (16 * (2 + Z.of_nat (length l)))) (16 * (2 + Z.of_nat (length l))) ->
  V 0 = zero_block -> i_size ip = root_size (Z.of_nat (length l)) -> 2 + Z.of_nat (length l) <= NINODES ->
  (forall j, 0 <= j < 16 * (2 + Z.of_nat (length l)) -> file_byte V ip j = concat (root_ents l) !!! Z.to_nat j) ->
  (forall i de, root_ents l !! i = Some de -> entries V ip !! i = Some de) /\
  (forall i de, (2 + length l <= i)%nat -> entries V ip !! i = Some de -> free_entry de).
Proof.
  intros Hf Hb0 Hsz Hcnt Hby. unfold NINODES in Hcnt. set (S1 := 16 * (2 + Z.of_nat (length l))) in *.
  assert (Hq : S1 / BSIZE * BSIZE <= S1 < (S1 / BSIZE + 1) * BSIZE).
  { pose proof (Z.div_mod S1 BSIZE ltac:(unfold BSIZE; lia)). pose proof (Z.mod_pos_bound S1 BSIZE ltac:(unfold BSIZE; lia)). unfold BSIZE in *. lia. }
  assert (Hne : Z.of_nat (nentries ip) = (S1 / BSIZE + 1) * 64).
  { unfold nentries. rewrite Hsz. unfold root_size. fold S1. replace ((S1 / BSIZE + 1) * BSIZE / DIRENT_SIZE) with ((S1 / BSIZE + 1) * 64); [unfold BSIZE in *; lia|].
    apply Z.div_unique_exact; unfold DIRENT_SIZE, BSIZE in *; lia. }
  assert (Hall : Forall (fun de => length de = 16%nat) (root_ents l)).
  { apply Forall_lookup_2. intros i de Hi. by apply (root_ents_lookup l i de). }
  assert (Hcl : Z.of_nat (length (concat (root_ents l))) = S1).
  { assert (E : forall es : list (list Z), Forall (fun de => length de = 16%nat) es -> length (concat es) = (16 * length es)%nat).
    { induction 1 as [|e es He _ IH]; [done|]. cbn [concat length]. rewrite length_app, IH. lia. }
    rewrite E, root_ents_length by done. lia. }
  split.
  - intros i de Hi. apply lookup_lt_Some in Hi as Hlt. rewrite root_ents_length in Hlt.
    rewrite entries_lookup by (unfold BSIZE in *; lia). f_equal. rewrite <- (sub_concat _ Hall i de Hi). unfold DIRENT_SIZE.
    pose proof (file_bytes_sub V ip (concat (root_ents l)) (16 * Z.of_nat i) 16) as Ef. change (Z.of_nat 16) with 16 in Ef.
    rewrite Ef; [f_equal; lia|lia|lia|]. intros j Hj. apply Hby. lia.
  - intros i de Hi He. assert (Hlt : (i < nentries ip)%nat) by (apply lookup_lt_Some in He; by rewrite entries_length in He).
    rewrite entries_lookup in He by done. injection He as <-. apply free_zero. intros j Hj.
    destruct (decide (j < nblk S1 * BSIZE)) as [Hin|Hout]; [apply (fw_tail _ _ _ _ _ Hf); lia|].
    pose proof (nblk_bounds S1 ltac:(lia)) as Hnb. assert (Ej : j / BSIZE = S1 / BSIZE /\ nblk S1 = S1 / BSIZE).
    { assert (nblk S1 = S1 / BSIZE) by (unfold BSIZE in *; lia). split; [|done]. symmetry. apply (Z.div_unique_pos _ _ _ (j - BSIZE * (S1 / BSIZE))); unfold BSIZE in *; lia. }
    unfold file_byte, addr_of. rewrite (proj1 Ej). assert (Hd : 0 <= S1 / BSIZE < 12) by (unfold BSIZE in *; lia). unfold NDIRECT. destruct (Z.ltb_spec (S1 / BSIZE) 12); [|lia].
    rewrite (fw_dir0 _ _ _ _ _ Hf) by (unfold NDIRECT; lia). rewrite Hb0. apply lookup_total_replicate_2.
    pose proof (Z.mod_pos_bound j BSIZE ltac:(unfold BSIZE; lia)). lia.
Qed.

(** C8. mkfs makes a file system: given files whose names have no slash and are
    distinct within DIRSIZ characters, and that fit, main returns with an image
    in which the super block is the one the kernel expects; the root directory,
    as the kernel looks names up in it, binds exactly the names of the files,
    "." and "..", the k-th file to inode k+2, and its entries are in blocks laid
    out as readi needs them (the size main gives it is one block more when they
    fill their last block); that inode is a file with exactly
    the bytes of the k-th file, in blocks laid out as the kernel's readi and
    writei need them; and the bit map has exactly the blocks below the first
    free one, which include every block in use. *)
Theorem mkfs_makes_files l : input_ok l -> NoDup (root_names l) ->
  let fb := nmeta + need (nblk (16 * (2 + Z.of_nat (length l)))) + all_blocks l in
  exists s' V, mkfs_main (as_arg <$> l) mkfs_start = Ret tt s' /\ (forall b, 0 <= b < FSSIZE -> mimg s' !! b = Some (V b)) /\
    decode_superblock (V 1) = msb /\
    (let root := kino V ROOTINO in i_type root = T_DIR /\ i_size root = root_size (Z.of_nat (length l)) /\
     layout V root (nblk (16 * (2 + Z.of_nat (length l)))) /\
     (forall k f, l !! k = Some f -> dir_lookup (entries V root) (name_of (stored_name (fst f))) = Some (2 + Z.of_nat k)) /\
     (forall c, c ∉ root_names l -> dir_lookup (entries V root) c = None)) /\
    (forall k f, l !! k = Some f -> let ip := kino V (2 + Z.of_nat k) in
       i_type ip = T_FILE /\ i_size ip = Z.of_nat (length (content f)) /\ layout V ip (nblk (i_size ip)) /\
       file_bytes V ip 0 (i_size ip) = content f /\ forall b, owned V ip (nblk (i_size ip)) b -> nmeta <= b < fb) /\
    (forall b, 0 <= b < FSSIZE -> bit_test (V (sb_bmapstart msb)) b = (b <? fb)).
Proof.
  intros Hin Hnd fb. destruct (mkfs_main_populates l Hin) as (s & V & G & C & E & Hpo). fold fb in Hpo. destruct Hin as [_ Hcnt Hsp]. fold fb in Hsp.
  destruct (mkfs_finish_eq s V G C l fb Hpo Hcnt Hsp) as (s' & V' & E' & Hr' & Hbm & Hsame & Hdin). rewrite E. exists s', V'.
  pose proof Hpo as [Hm Hsb Hb0 Hroot Hty Hfiles]. pose proof (mi_reps _ _ _ _ _ _ Hm) as Hr. assert (Hnm : nmeta = 46) by reflexivity.
  assert (Hi1 : IBLOCK 1 msb = 32) by reflexivity. unfold NINODES in Hcnt.
  assert (Hfr : forall n ip, 1 <= n < 2 + Z.of_nat (length l) -> i_addrs ip = i_addrs (G n) -> fwf V' ip fb (nblk (fsize C n)) (fsize C n) /\
    (forall j, 0 <= j < nblk (fsize C n) * BSIZE -> file_byte V' ip j = file_byte V (G n) j) /\
    (forall b, owned V' ip (nblk (fsize C n)) b <-> owned V (G n) (nblk (fsize C n)) b)).
  { intros n ip Hn Ha. apply (fwf_frame V V' (G n) ip fb fb); [by apply (mi_wf _ _ _ _ _ _ Hm)|done|lia| |apply (rp_len _ _ _ _ Hr')].
    intros b Ho. apply (owned_range _ _ _ _ _ _ (mi_wf _ _ _ _ _ _ Hm n Hn)) in Ho. apply Hsame; lia. }
  split; [exact E'|]. split; [apply (rp_img _ _ _ _ Hr')|]. split; [rewrite Hsame, Hsb by lia; by vm_compute|]. split; [|split].
  - change ROOTINO with 1. cbv zeta. set (root := set_i_size (root_size (Z.of_nat (length l))) (G 1)) in *.
    assert (Hok1 : inode_ok root).
    { destruct (minv_inode_ok _ _ _ _ _ _ 1 Hm ltac:(lia)) as [Hs1 Hs2 Hs3 Hs4].
      split; [exact Hs1|apply root_size_range; unfold NINODES; lia|exact Hs3|exact Hs4]. }
    assert (Ek : kino V' 1 = disk_fields root inode0) by (apply kino_eq; [apply (rp_len _ _ _ _ Hr')|done|]; rewrite Hdin by lia; done).
    rewrite Ek. split; [done|]. destruct (Hfr 1 (disk_fields root inode0) ltac:(lia) eq_refl) as (Hf1 & Hby1 & _).
    assert (Hc1 : C 1 = concat (root_ents l)) by (rewrite Hroot; unfold dots, root_ents; cbn [concat]; rewrite dirents_concat, <- app_assoc; done).
    assert (Hs1 : fsize C 1 = 16 * (2 + Z.of_nat (length l))).
    { unfold fsize. rewrite Hroot. unfold dots. rewrite !length_app, !dirent_length, dirents_length. lia. }
    rewrite Hs1 in Hf1, Hby1. pose proof (nblk_bounds (16 * (2 + Z.of_nat (length l))) ltac:(lia)).
    destruct (root_entries V' (disk_fields root inode0) fb l Hf1) as [Ha Hb]; [rewrite Hsame; [done|lia|lia]|done|unfold NINODES; lia| |].
    { intros j Hj. rewrite Hby1 by lia. rewrite <- Hc1. apply (mi_bytes _ _ _ _ _ _ Hm); [lia|lia]. }
    split; [done|]. split; [apply (fw_layout _ _ _ _ _ Hf1)|]. by apply dir_lookup_ents.
  - intros k f Hk. cbv zeta. apply lookup_lt_Some in Hk as Hlt. set (n := 2 + Z.of_nat k) in *. destruct (Hfiles k f Hk) as [Hc Ht]. fold n in Hc, Ht.
    assert (Hn : 1 <= n < 2 + Z.of_nat (length l)) by lia. pose proof (minv_inode_ok _ _ _ _ _ _ n Hm Hn) as Hokn.
    assert (Ek : kino V' n = disk_fields (G n) inode0).
    { apply kino_eq; [apply (rp_len _ _ _ _ Hr')|done|]. rewrite Hdin by done. by rewrite decide_False by lia. }
    rewrite Ek. destruct (Hfr n (disk_fields (G n) inode0) Hn eq_refl) as (Hf1 & Hby1 & Ho1). destruct (mi_ino _ _ _ _ _ _ Hm n Hn) as [_ Hsz].
    assert (Es : i_size (disk_fields (G n) inode0) = fsize C n) by exact Hsz. rewrite Es. pose proof (nblk_bounds (fsize C n) ltac:(unfold fsize; lia)).
    split; [exact Ht|]. split; [unfold fsize; by rewrite Hc|]. split; [apply (fw_layout _ _ _ _ _ Hf1)|]. split.
    + unfold fsize at 1. rewrite (file_bytes_sub V' _ (C n) 0); [rewrite Hc; unfold sub; rewrite drop_0; apply take_ge; lia|lia|lia|].
      intros j Hj. unfold fsize in *. rewrite Hby1 by lia. apply (mi_bytes _ _ _ _ _ _ Hm); [done|unfold fsize; lia].
    + intros b Hb. apply Ho1 in Hb. exact (owned_range _ _ _ _ _ _ (mi_wf _ _ _ _ _ _ Hm n Hn) Hb).
  - intros b Hb. change (sb_bmapstart msb) with 45. rewrite Hbm. destruct (mi_fb _ _ _ _ _ _ Hm). apply bitmap_of_test; unfold FSSIZE, BSIZE in *; lia.
Qed.

Definition ex_files : list (list Z * list (list Z)) := [(bytes_of "README", [[120; 118]; [54]]); (bytes_of "user/_cat", [[127; 69; 76; 70]])].

Lemma mkfs_makes_files_witness : exists s' V, mkfs_main (as_arg <$> ex_files) mkfs_start = Ret tt s' /\
  dir_lookup (entries V (kino V ROOTINO)) (name_of (bytes_of "cat")) = Some 3 /\
  file_bytes V (kino V 3) 0 4 = [127; 69; 76; 70] /\ i_size (kino V 3) = 4.
Proof.
  destruct (mkfs_makes_files ex_files) as (s' & V & E & _ & _ & (_ & _ & _ & Hdir & _) & Hf & _).
  { split; [|by vm_compute|by vm_compute].
    apply Forall_cons_2; [|apply Forall_cons_2; [|constructor]]; (split; [by apply (bool_decide_unpack _)|by vm_compute]). }
  { by apply (bool_decide_unpack _). }
  exists s', V. split; [exact E|]. split; [exact (Hdir 1%nat _ eq_refl)|]. destruct (Hf 1%nat _ eq_refl) as (_ & Hs & _ & Hb & _).
  change (2 + Z.of_nat 1) with 3 in *. change (Z.of_nat (length (content (bytes_of "user/_cat", [[127; 69; 76; 70]])))) with 4 in Hs.
  rewrite Hs in Hb. by split.
Defined.
