(* ===== verification/Asm.v ===== *)
(** The assembly code of the kernel: entry.S, swtch.S, trampoline.S,
    kernelvec.S, as lists of instructions of a small RISC-V machine. *)

From S2P Require Import Prelude Outcome Mem.

(** ** The machine *)

Inductive reg : Type :=
  ra | sp | gp | tp | t0 | t1 | t2 | s0 | s1 | a0 | a1 | a2 | a3 | a4 | a5 | a6 | a7 |
  s2 | s3 | s4 | s5 | s6 | s7 | s8 | s9 | s10 | s11 | t3 | t4 | t5 | t6.
#[global] Instance reg_eq_dec : EqDecision reg.
Proof. solve_decision. Defined.

Inductive csr : Type :=
  sscratch | satp | sepc | sip | sie | mhartid | mscratch | mstatus | mepc | medeleg | mideleg |
  pmpaddr0 | pmpcfg0 | mtvec | mie.
#[global] Instance csr_eq_dec : EqDecision csr.
Proof. solve_decision. Defined.

Inductive instr : Type :=
| Sd (r : reg) (off : Z) (base : reg)
| Ld (r : reg) (off : Z) (base : reg)
| Addi (rd rs : reg) (imm : Z)
| Add (rd rs1 rs2 : reg)
| Mul (rd rs1 rs2 : reg)
| Li (rd : reg) (imm : Z)
| Csrr (rd : reg) (c : csr)
| Csrw (c : csr) (rs : reg)
| Csrrw (rd : reg) (c : csr) (rs : reg)
| Sfence
| Jr (rs : reg)
| Ret_
| Mret
| Sret
| Call (f back : Z).

(** Registers, control registers, memory as the code addresses it, and the
    address control is transferred to. *)
Record arch : Type := mkArch { rg : reg -> Z; cr : csr -> Z; am : memory; pc : Z }.

Definition put {K} `{EqDecision K} (f : K -> Z) (k : K) (v : Z) : K -> Z := fun x => if decide (x = k) then v else f x.
Definition setr (r : reg) (v : Z) (st : arch) : arch := mkArch (put (rg st) r (u64 v)) (cr st) (am st) (pc st).
Definition setc (c : csr) (v : Z) (st : arch) : arch := mkArch (rg st) (put (cr st) c (u64 v)) (am st) (pc st).
Definition setm (m : memory) (st : arch) : arch := mkArch (rg st) (cr st) m (pc st).
Definition setpc (v : Z) (st : arch) : arch := mkArch (rg st) (cr st) (am st) v.

(** The effect of mret on the fields of mstatus is left out: only where control
    goes to matters to the code here. *)
Definition exec1 (st : arch) (i : instr) : arch :=
  match i with
  | Sd r off b => setm (store64 (am st) (u64 (rg st b + off)) (rg st r)) st
  | Ld r off b => setr r (load64 (am st) (u64 (rg st b + off))) st
  | Addi rd rs imm => setr rd (rg st rs + imm) st
  | Add rd rs1 rs2 => setr rd (rg st rs1 + rg st rs2) st
  | Mul rd rs1 rs2 => setr rd (rg st rs1 * rg st rs2) st
  | Li rd imm => setr rd imm st
  | Csrr rd c => setr rd (cr st c) st
  | Csrw c rs => setc c (rg st rs) st
  | Csrrw rd c rs => setr rd (cr st c) (setc c (rg st rs) st)
  | Sfence => st
  | Jr rs => setpc (rg st rs) st
  | Ret_ => setpc (rg st ra) st
  | Mret => setpc (cr st mepc) st
  | Sret => setpc (cr st sepc) st
  | Call f back => setpc f (setr ra back st)
  end.

Definition exec (l : list instr) (st : arch) : arch := foldl exec1 st l.

(** ** The code *)

(** kernel/entry.S, from _entry to the call of start at address [start], which
    would return to [spin]. *)
Definition entry_S (stack0 start spin : Z) : list instr :=
  [Li sp stack0; Li a0 (1024 * 4); Csrr a1 mhartid; Addi a1 a1 1; Mul a0 a0 a1; Add sp sp a0; Call start spin].

Definition swtch_S : list instr :=
  [Sd ra 0 a0; Sd sp 8 a0; Sd s0 16 a0; Sd s1 24 a0; Sd s2 32 a0; Sd s3 40 a0; Sd s4 48 a0;
   Sd s5 56 a0; Sd s6 64 a0; Sd s7 72 a0; Sd s8 80 a0; Sd s9 88 a0; Sd s10 96 a0; Sd s11 104 a0;
   Ld ra 0 a1; Ld sp 8 a1; Ld s0 16 a1; Ld s1 24 a1; Ld s2 32 a1; Ld s3 40 a1; Ld s4 48 a1;
   Ld s5 56 a1; Ld s6 64 a1; Ld s7 72 a1; Ld s8 80 a1; Ld s9 88 a1; Ld s10 96 a1; Ld s11 104 a1;
   Ret_].

Definition uservec : list instr :=
  [Csrw sscratch a0; Li a0 TRAPFRAME;
   Sd ra 40 a0; Sd sp 48 a0; Sd gp 56 a0; Sd tp 64 a0; Sd t0 72 a0; Sd t1 80 a0; Sd t2 88 a0;
   Sd s0 96 a0; Sd s1 104 a0; Sd a1 120 a0; Sd a2 128 a0; Sd a3 136 a0; Sd a4 144 a0; Sd a5 152 a0;
   Sd a6 160 a0; Sd a7 168 a0; Sd s2 176 a0; Sd s3 184 a0; Sd s4 192 a0; Sd s5 200 a0; Sd s6 208 a0;
   Sd s7 216 a0; Sd s8 224 a0; Sd s9 232 a0; Sd s10 240 a0; Sd s11 248 a0; Sd t3 256 a0; Sd t4 264 a0;
   Sd t5 272 a0; Sd t6 280 a0;
   Csrr t0 sscratch; Sd t0 112 a0;
   Ld sp 8 a0; Ld tp 32 a0; Ld t0 16 a0; Ld t1 0 a0;
   Sfence; Csrw satp t1; Sfence; Jr t0].

Definition userret : list instr :=
  [Sfence; Csrw satp a0; Sfence; Li a0 TRAPFRAME;
   Ld ra 40 a0; Ld sp 48 a0; Ld gp 56 a0; Ld tp 64 a0; Ld t0 72 a0; Ld t1 80 a0; Ld t2 88 a0;
   Ld s0 96 a0; Ld s1 104 a0; Ld a1 120 a0; Ld a2 128 a0; Ld a3 136 a0; Ld a4 144 a0; Ld a5 152 a0;
   Ld a6 160 a0; Ld a7 168 a0; Ld s2 176 a0; Ld s3 184 a0; Ld s4 192 a0; Ld s5 200 a0; Ld s6 208 a0;
   Ld s7 216 a0; Ld s8 224 a0; Ld s9 232 a0; Ld s10 240 a0; Ld s11 248 a0; Ld t3 256 a0; Ld t4 264 a0;
   Ld t5 272 a0; Ld t6 280 a0;
   Ld a0 112 a0; Sret].

(** kernelvec up to the call of kerneltrap, at address [kerneltrap] and with
    return address [back], and after its return. *)
Definition kernelvec_in (kerneltrap back : Z) : list instr :=
  [Addi sp sp (-256);
   Sd ra 0 sp; Sd sp 8 sp; Sd gp 16 sp; Sd tp 24 sp; Sd t0 32 sp; Sd t1 40 sp; Sd t2 48 sp;
   Sd s0 56 sp; Sd s1 64 sp; Sd a0 72 sp; Sd a1 80 sp; Sd a2 88 sp; Sd a3 96 sp; Sd a4 104 sp;
   Sd a5 112 sp; Sd a6 120 sp; Sd a7 128 sp; Sd s2 136 sp; Sd s3 144 sp; Sd s4 152 sp; Sd s5 160 sp;
   Sd s6 168 sp; Sd s7 176 sp; Sd s8 184 sp; Sd s9 192 sp; Sd s10 200 sp; Sd s11 208 sp; Sd t3 216 sp;
   Sd t4 224 sp; Sd t5 232 sp; Sd t6 240 sp;
   Call kerneltrap back].

Definition kernelvec_out : list instr :=
  [Ld ra 0 sp; Ld sp 8 sp; Ld gp 16 sp;
   (* not tp (contains hartid), in case we moved CPUs *)
   Ld t0 32 sp; Ld t1 40 sp; Ld t2 48 sp;
   Ld s0 56 sp; Ld s1 64 sp; Ld a0 72 sp; Ld a1 80 sp; Ld a2 88 sp; Ld a3 96 sp; Ld a4 104 sp;
   Ld a5 112 sp; Ld a6 120 sp; Ld a7 128 sp; Ld s2 136 sp; Ld s3 144 sp; Ld s4 152 sp; Ld s5 160 sp;
   Ld s6 168 sp; Ld s7 176 sp; Ld s8 184 sp; Ld s9 192 sp; Ld s10 200 sp; Ld s11 208 sp; Ld t3 216 sp;
   Ld t4 224 sp; Ld t5 232 sp; Ld t6 240 sp;
   Addi sp sp 256; Sret].

Definition timervec : list instr :=
  [Csrrw a0 mscratch a0; Sd a1 0 a0; Sd a2 8 a0; Sd a3 16 a0;
   Ld a1 24 a0; Ld a2 32 a0; Ld a3 0 a1; Add a3 a3 a2; Sd a3 0 a1;
   Li a1 2; Csrw sip a1;
   Ld a3 16 a0; Ld a2 8 a0; Ld a1 0 a0; Csrrw a0 mscratch a0;
   Mret].

(** ** kernel/start.c *)

Definition CLINT : Z := 0x2000000.
Definition CLINT_MTIMECMP (hartid : Z) : Z := CLINT + 0x4000 + 8 * hartid.
Definition CLINT_MTIME : Z := CLINT + 0xBFF8.
Definition MSTATUS_MPP_MASK : Z := Z.shiftl 3 11.
Definition MSTATUS_MPP_S : Z := Z.shiftl 1 11.
Definition MSTATUS_MIE : Z := Z.shiftl 1 3.
Definition SIE_SEIE : Z := Z.shiftl 1 9.
Definition SIE_STIE : Z := Z.shiftl 1 5.
Definition SIE_SSIE : Z := Z.shiftl 1 1.
Definition MIE_MTIE : Z := Z.shiftl 1 7.

(** The addresses of main, timervec and timer_scratch, which the linker
    chooses. *)
Record symbols : Type := mkSymbols { main_addr : Z; timervec_addr : Z; timer_scratch : Z }.

(** scratch = &timer_scratch[id][0] *)
Definition scratch_of (sy : symbols) (id : Z) : Z := timer_scratch sy + 40 * id.

Definition timerinit (sy : symbols) (st : arch) : arch :=
  let id := i32 (cr st mhartid) in
  let interval := 1000000 in
  let st := setm (store64 (am st) (CLINT_MTIMECMP id) (load64 (am st) CLINT_MTIME + interval)) st in
  let scratch := scratch_of sy id in
  let st := setm (store64 (am st) (scratch + 8 * 3) (CLINT_MTIMECMP id)) st in
  let st := setm (store64 (am st) (scratch + 8 * 4) interval) st in
  let st := setc mscratch scratch st in
  let st := setc mtvec (timervec_addr sy) st in
  let st := setc mstatus (Z.lor (cr st mstatus) MSTATUS_MIE) st in
  setc mie (Z.lor (cr st mie) MIE_MTIE) st.

Definition start (sy : symbols) (st : arch) : arch :=
  let x := cr st mstatus in
  let x := Z.land x (Z.lnot MSTATUS_MPP_MASK) in
  let x := Z.lor x MSTATUS_MPP_S in
  let st := setc mstatus x st in
  let st := setc mepc (main_addr sy) st in
  let st := setc satp 0 st in
  let st := setc medeleg 0xffff st in
  let st := setc mideleg 0xffff st in
  let st := setc sie (Z.lor (Z.lor (Z.lor (cr st sie) SIE_SEIE) SIE_STIE) SIE_SSIE) st in
  let st := setc pmpaddr0 0x3fffffffffffff st in
  let st := setc pmpcfg0 0xf st in
  let st := timerinit sy st in
  let id := i32 (cr st mhartid) in
  let st := setr tp id st in
  exec [Mret] st.
