(* ===== verification/AsmSpec.v ===== *)
(** The assembly code keeps the registers it must keep: swtch resumes the
    context it saved, a trap from user space returns with the user's registers,
    a trap in the kernel and a timer interrupt are transparent. *)

From S2P Require Import Prelude Outcome Mem Asm.

Lemma put_eq {K} `{EqDecision K} (f : K -> Z) k v : put f k v k = v.
Proof. unfold put. by rewrite decide_True. Qed.
Lemma put_ne {K} `{EqDecision K} (f : K -> Z) k v x : x <> k -> put f k v x = f x.
Proof. intros Hx. unfold put. by rewrite decide_False. Qed.

Lemma am_setm m st : am (setm m st) = m.
Proof. reflexivity. Qed.

(** Evaluate the contents of registers after a sequence of writes. *)
Ltac regs := repeat (rewrite put_eq || (rewrite put_ne by discriminate)).

(** ** Blocks of saves and restores *)

Definition saves (b : reg) (l : list (reg * Z)) : list instr := (fun x => Sd (fst x) (snd x) b) <$> l.
Definition loads (b : reg) (l : list (reg * Z)) : list instr := (fun x => Ld (fst x) (snd x) b) <$> l.

(** The slot of a register in the table of a block. *)
Fixpoint slot (l : list (reg * Z)) (r : reg) : option Z :=
  match l with
  | [] => None
  | (r', o) :: l' => if decide (r = r') then Some o else slot l' r
  end.

(** The slots are 8 bytes each, in increasing order from [lo] up to [hi], one per
    register. *)
Fixpoint table (lo hi : Z) (l : list (reg * Z)) : bool :=
  match l with
  | [] => lo <=? hi
  | (r, o) :: l' => (lo <=? o) && bool_decide (slot l' r = None) && table (o + 8) hi l'
  end.

Definition store_all (m : memory) (B : Z) (l : list (reg * Z)) (f : reg -> Z) : memory :=
  foldl (fun m x => store64 m (B + snd x) (f (fst x))) m l.

Lemma exec_app l1 l2 st : exec (l1 ++ l2) st = exec l2 (exec l1 st).
Proof. unfold exec. apply foldl_app. Qed.

Lemma table_cons lo hi r o l : table lo hi ((r, o) :: l) = true -> lo <= o /\ slot l r = None /\ table (o + 8) hi l = true.
Proof. cbn [table]. rewrite !andb_true_iff, Z.leb_le, bool_decide_eq_true. tauto. Qed.

Lemma table_le lo hi l : table lo hi l = true -> lo <= hi.
Proof.
  revert lo. induction l as [|[r o] l IH]; intros lo Ht; [by apply Z.leb_le|]. apply table_cons in Ht as (? & _ & Ht). apply IH in Ht. lia.
Qed.

Lemma slot_range lo hi l r o : table lo hi l = true -> slot l r = Some o -> lo <= o /\ o + 8 <= hi.
Proof.
  revert lo. induction l as [|[r' o'] l IH]; intros lo Ht; [done|]. apply table_cons in Ht as (Hlo & _ & Ht). cbn [slot].
  case_decide; [intros [= <-]; apply table_le in Ht; lia|]. intros Hs. destruct (IH _ Ht Hs). lia.
Qed.

Lemma exec_saves b B hi l : forall lo st, rg st b = B -> 0 <= B + lo -> B + hi <= 2 ^ 64 -> table lo hi l = true ->
  exec (saves b l) st = setm (store_all (am st) B l (rg st)) st.
Proof.
  induction l as [|[r o] l IH]; intros lo st Hb H0 Hhi Ht; [by destruct st|]. apply table_cons in Ht as (Hlo & _ & Ht).
  pose proof (table_le _ _ _ Ht). change (exec (saves b l) (exec1 st (Sd r o b)) = setm (store_all (am st) B ((r, o) :: l) (rg st)) st).
  rewrite (IH (o + 8)); [|done|lia|done|done]. cbn [exec1]. rewrite Hb, u64_small by lia. done.
Qed.

Lemma store_all_out m B hi f a k l : forall lo m', table lo hi l = true -> a + Z.of_nat k <= B + lo \/ B + hi <= a ->
  load_le m' a k = load_le m a k -> load_le (store_all m' B l f) a k = load_le m a k.
Proof.
  induction l as [|[r o] l IH]; intros lo m' Ht Ha Hm; [done|]. apply table_cons in Ht as (Hlo & _ & Ht). pose proof (table_le _ _ _ Ht).
  cbn [store_all foldl fst snd]. apply (IH (o + 8)); [done|lia|]. rewrite <- Hm. unfold store64. apply load_store_le_out. lia.
Qed.

Lemma store_all_slot B hi f l r : forall lo m o, table lo hi l = true -> slot l r = Some o -> load64 (store_all m B l f) (B + o) = u64 (f r).
Proof.
  induction l as [|[r' o'] l IH]; intros lo m o Ht Hs; [done|]. apply table_cons in Ht as (Hlo & Hn & Ht). cbn [slot] in Hs.
  change (store_all m B ((r', o') :: l) f) with (store_all (store64 m (B + o') (f r')) B l f).
  case_decide as Hr; [|by apply (IH (o' + 8))]. injection Hs as <-. subst r'.
  unfold load64. rewrite (store_all_out (store64 m (B + o') (f r)) B hi f _ _ l (o' + 8)); [|done|lia|done].
  apply load64_store64_eq.
Qed.

(** What a block of loads leaves in a register. *)
Definition loaded (m : memory) (B : Z) (l : list (reg * Z)) (f : reg -> Z) (r : reg) : Z :=
  match slot l r with Some o => load64 m (B + o) | None => f r end.

Lemma load64_u64 m a : u64 (load64 m a) = load64 m a.
Proof. apply u64_small, load64_range. Qed.

Lemma exec_loads b B hi l : slot l b = None -> forall lo st, rg st b = B -> 0 <= B + lo -> B + hi <= 2 ^ 64 -> table lo hi l = true ->
  let st' := exec (loads b l) st in
  am st' = am st /\ cr st' = cr st /\ pc st' = pc st /\ forall r, rg st' r = loaded (am st) B l (rg st) r.
Proof.
  induction l as [|[r o] l IH]; intros Hb lo st HB H0 Hhi Ht; [done|]. apply table_cons in Ht as (Hlo & Hn & Ht).
  pose proof (table_le _ _ _ Ht). cbn [slot] in Hb. case_decide as Hbr; [done|].
  change (exec (loads b ((r, o) :: l)) st) with (exec (loads b l) (exec1 st (Ld r o b))). cbn [exec1]. rewrite HB, u64_small by lia.
  set (st1 := setr r _ st). destruct (IH Hb (o + 8) st1) as (Em & Ec & Ep & Er); [|lia|done|done|].
  { unfold st1, setr, put. cbn [rg]. by rewrite decide_False. }
  split; [done|]. split; [done|]. split; [done|]. intros x. rewrite Er. unfold loaded. cbn [slot]. destruct (decide (x = r)) as [->|Hx].
  - rewrite Hn. unfold st1, setr, put. cbn [rg]. rewrite decide_True by done. apply load64_u64.
  - destruct (slot l x); [done|]. unfold st1, setr, put. cbn [rg]. by rewrite decide_False.
Qed.

(** ** swtch *)

(** struct context. *)
Definition ctx : list (reg * Z) :=
  [(ra, 0); (sp, 8); (s0, 16); (s1, 24); (s2, 32); (s3, 40); (s4, 48); (s5, 56); (s6, 64); (s7, 72); (s8, 80); (s9, 88);
   (s10, 96); (s11, 104)].
Definition context_of (st : arch) : list Z := (fun x => rg st (fst x)) <$> ctx.
Definition context_at (m : memory) (B : Z) : list Z := (fun x => load64 m (B + snd x)) <$> ctx.

Definition regs_ok (st : arch) : Prop := forall r, 0 <= rg st r < 2 ^ 64.
(** A context of 112 bytes at [B], and two that do not overlap. *)
Definition fits (B : Z) : Prop := 0 <= B /\ B + 112 <= 2 ^ 64.
Definition apart_ctx (A B : Z) : Prop := A + 112 <= B \/ B + 112 <= A.

Lemma swtch_blocks : swtch_S = saves a0 ctx ++ loads a1 ctx ++ [Ret_].
Proof. reflexivity. Qed.

Lemma ctx_table : table 0 112 ctx = true.
Proof. reflexivity. Qed.

Lemma ctx_slot x : x ∈ ctx -> slot ctx (fst x) = Some (snd x).
Proof. intros Hx. unfold ctx in Hx. repeat (apply elem_of_cons in Hx as [->|Hx]; [reflexivity|]). by apply elem_of_nil in Hx. Qed.

(** Save a table, load it from another place and return. *)
Lemma save_load_ret b1 b2 hi l st : regs_ok st -> table 0 hi l = true -> slot l b2 = None -> slot l ra = Some 0 ->
  0 <= rg st b1 -> rg st b1 + hi <= 2 ^ 64 -> 0 <= rg st b2 -> rg st b2 + hi <= 2 ^ 64 ->
  rg st b1 + hi <= rg st b2 \/ rg st b2 + hi <= rg st b1 ->
  let st' := exec (saves b1 l ++ loads b2 l ++ [Ret_]) st in
  (forall r o, slot l r = Some o -> load64 (am st') (rg st b1 + o) = rg st r /\ rg st' r = load64 (am st) (rg st b2 + o)) /\
  pc st' = load64 (am st) (rg st b2).
Proof.
  intros Hok Ht Hb2 Hra H0 H0' H1 H1' Hap. cbv zeta. rewrite !exec_app.
  rewrite (exec_saves b1 (rg st b1) hi l 0 st) by (done || lia). set (m := store_all _ _ _ _).
  destruct (exec_loads b2 (rg st b2) hi l Hb2 0 (setm m st)) as (Em & Ec & Ep & Er); [done|lia|done|done|]. cbn [am setm rg] in Em, Er.
  set (st2 := exec (loads b2 l) (setm m st)) in *.
  assert (Hnew : forall r o, slot l r = Some o -> rg st2 r = load64 (am st) (rg st b2 + o)).
  { intros r o Hs. rewrite Er. unfold loaded. rewrite Hs. destruct (slot_range 0 hi l _ _ Ht Hs).
    apply (store_all_out (am st) (rg st b1) hi (rg st) _ _ l 0); [done|lia|done]. }
  split.
  - intros r o Hs. split; [|by apply Hnew]. change (am (exec [Ret_] st2)) with (am st2). rewrite Em. unfold m.
    rewrite (store_all_slot _ hi _ l r 0) by done. apply u64_small, Hok.
  - change (pc (exec [Ret_] st2)) with (rg st2 ra). rewrite (Hnew ra 0 Hra). by rewrite Z.add_0_r.
Qed.

Lemma context_eq (f g : reg * Z -> Z) : (forall x, x ∈ ctx -> f x = g x) -> f <$> ctx = g <$> ctx.
Proof. intros E. apply list_fmap_ext. intros i x Hx. apply E. by eapply list_elem_of_lookup_2. Qed.

(** One call of swtch. *)
Lemma swtch_once st : regs_ok st -> fits (rg st a0) -> fits (rg st a1) -> apart_ctx (rg st a0) (rg st a1) ->
  context_at (am (exec swtch_S st)) (rg st a0) = context_of st /\ context_of (exec swtch_S st) = context_at (am st) (rg st a1) /\
  pc (exec swtch_S st) = load64 (am st) (rg st a1).
Proof.
  intros Hok [H0 H0'] [H1 H1'] Hap. rewrite swtch_blocks.
  destruct (save_load_ret a0 a1 112 ctx st Hok ctx_table eq_refl eq_refl H0 H0' H1 H1' Hap) as [Hs Hp].
  split; [|split; [|exact Hp]]; apply context_eq; intros x Hx; apply (Hs _ _ (ctx_slot x Hx)).
Qed.

(** C23. swtch(old, new) switches contexts: it continues at the return address
    and with the callee-saved registers of [new], and when a later swtch(x,
    old) runs with the saved context still in memory, execution resumes after
    the first call with the registers it had there. *)
Theorem swtch_resumes st1 st2 :
  regs_ok st1 -> regs_ok st2 -> fits (rg st1 a0) -> fits (rg st1 a1) -> apart_ctx (rg st1 a0) (rg st1 a1) ->
  fits (rg st2 a0) -> apart_ctx (rg st2 a0) (rg st1 a0) -> rg st2 a1 = rg st1 a0 ->
  context_at (am st2) (rg st1 a0) = context_at (am (exec swtch_S st1)) (rg st1 a0) ->
  let st1' := exec swtch_S st1 in let st2' := exec swtch_S st2 in
  context_of st1' = context_at (am st1) (rg st1 a1) /\ pc st1' = load64 (am st1) (rg st1 a1) /\
  context_of st2' = context_of st1 /\ pc st2' = rg st1 ra.
Proof.
  intros Hok1 Hok2 Hf0 Hf1 Hap Hf2 Hap2 Ha1 Hkept. destruct (swtch_once st1 Hok1 Hf0 Hf1 Hap) as (Hs1 & Hc1 & Hp1).
  destruct (swtch_once st2 Hok2 Hf2) as (_ & Hc2 & Hp2); [by rewrite Ha1|by rewrite Ha1|].
  rewrite Ha1 in *. rewrite Hkept, Hs1 in Hc2. split; [done|]. split; [done|]. split; [done|]. cbv zeta. rewrite Hp2.
  rewrite Hs1 in Hkept. injection Hkept as Hra _. by rewrite Z.add_0_r in Hra.
Qed.

(** Two processes and their contexts at 4096 and 8192. *)
Definition ex_arch (old new sp0 : Z) (m : memory) : arch :=
  mkArch (fun r => if decide (r = a0) then old else if decide (r = a1) then new else if decide (r = sp) then sp0 else 7) (fun _ => 0) m 0.
Definition ex_out : arch := ex_arch 4096 8192 100 ∅.
Definition ex_back : arch := ex_arch 8192 4096 200 (am (exec swtch_S ex_out)).

Lemma swtch_resumes_witness : context_of (exec swtch_S ex_back) = context_of ex_out.
Proof.
  assert (Hr : forall old new sp0 m, 0 <= old < 10000 -> 0 <= new < 10000 -> 0 <= sp0 < 10000 -> regs_ok (ex_arch old new sp0 m)).
  { intros. intros r. unfold ex_arch. cbn [rg]. repeat case_decide; lia. }
  apply (swtch_resumes ex_out ex_back).
  - apply Hr; lia.
  - apply Hr; lia.
  - split; vm_compute; congruence.
  - split; vm_compute; congruence.
  - left. vm_compute. congruence.
  - split; vm_compute; congruence.
  - right. vm_compute. congruence.
  - reflexivity.
  - assert (E : forall m, am (ex_arch 8192 4096 200 m) = m) by reflexivity. unfold ex_back. rewrite E. reflexivity.
Defined.

(** ** Traps from user space *)

(** The user registers in struct trapframe, all but a0, whose slot is 112. *)
Definition uframe : list (reg * Z) :=
  [(ra, 40); (sp, 48); (gp, 56); (tp, 64); (t0, 72); (t1, 80); (t2, 88); (s0, 96); (s1, 104); (a1, 120); (a2, 128); (a3, 136);
   (a4, 144); (a5, 152); (a6, 160); (a7, 168); (s2, 176); (s3, 184); (s4, 192); (s5, 200); (s6, 208); (s7, 216); (s8, 224);
   (s9, 232); (s10, 240); (s11, 248); (t3, 256); (t4, 264); (t5, 272); (t6, 280)].
Definition user_slot (r : reg) : Z := default 112 (slot uframe r).

Definition uservec_tail : list instr :=
  [Csrr t0 sscratch; Sd t0 112 a0; Ld sp 8 a0; Ld tp 32 a0; Ld t0 16 a0; Ld t1 0 a0; Sfence; Csrw satp t1; Sfence; Jr t0].

Lemma uservec_blocks : uservec = [Csrw sscratch a0; Li a0 TRAPFRAME] ++ saves a0 uframe ++ uservec_tail.
Proof. reflexivity. Qed.

Lemma userret_blocks : userret = [Sfence; Csrw satp a0; Sfence; Li a0 TRAPFRAME] ++ loads a0 uframe ++ [Ld a0 112 a0; Sret].
Proof. reflexivity. Qed.

Lemma uframe_table : table 40 288 uframe = true.
Proof. reflexivity. Qed.

Lemma user_slot_range r : 40 <= user_slot r <= 280 /\ (slot uframe r = None <-> r = a0).
Proof. destruct r; (split; [split; vm_compute; congruence|]); (split; [vm_compute; congruence|intros E; (discriminate E || reflexivity)]). Qed.

Lemma user_slot_112 r o : slot uframe r = Some o -> o + 8 <= 112 \/ 120 <= o.
Proof. destruct r; vm_compute; intros [= <-]; (left; congruence) || (right; congruence). Qed.

Lemma trapframe_u64 o : 0 <= o < 4096 -> u64 (TRAPFRAME + o) = TRAPFRAME + o.
Proof. intros Ho. apply u64_small. change TRAPFRAME with 274877898752. lia. Qed.

Lemma uservec_tail_eq st : rg st a0 = TRAPFRAME ->
  let m := store64 (am st) (TRAPFRAME + 112) (u64 (cr st sscratch)) in let st' := exec uservec_tail st in
  am st' = m /\ rg st' sp = load64 m (TRAPFRAME + 8) /\ rg st' tp = load64 m (TRAPFRAME + 32) /\
  cr st' satp = load64 m (TRAPFRAME + 0) /\ pc st' = load64 m (TRAPFRAME + 16).
Proof.
  intros Ha m st'. unfold st', uservec_tail, exec. cbn [foldl exec1 setr setc setm setpc rg cr am pc]. regs.
  rewrite Ha, !trapframe_u64 by lia. fold m. by rewrite !load64_u64.
Qed.

(** Saved by uservec, and where the kernel is entered. *)
Lemma uservec_saves st : regs_ok st ->
  let st' := exec uservec st in
  (forall r, load64 (am st') (TRAPFRAME + user_slot r) = rg st r) /\
  pc st' = load64 (am st) (TRAPFRAME + 16) /\ rg st' sp = load64 (am st) (TRAPFRAME + 8) /\
  rg st' tp = load64 (am st) (TRAPFRAME + 32) /\ cr st' satp = load64 (am st) (TRAPFRAME + 0) /\
  (forall a k, a + Z.of_nat k <= TRAPFRAME + 40 \/ TRAPFRAME + 288 <= a -> load_le (am st') a k = load_le (am st) a k).
Proof.
  intros Hok. cbv zeta. rewrite uservec_blocks, !exec_app. set (st0 := exec _ st).
  assert (Hregs : forall r, r <> a0 -> rg st0 r = rg st r) by (intros r Hr; unfold st0, exec; cbn [foldl exec1 setr setc rg]; by rewrite put_ne).
  assert (Ha0 : rg st0 a0 = TRAPFRAME) by (unfold st0, exec; cbn [foldl exec1 setr setc rg]; rewrite put_eq; reflexivity).
  assert (Hss : cr st0 sscratch = rg st a0) by (unfold st0, exec; cbn [foldl exec1 setr setc cr]; rewrite put_eq; apply u64_small, Hok).
  assert (Hm0 : am st0 = am st) by reflexivity. clearbody st0.
  rewrite (exec_saves a0 TRAPFRAME 288 uframe 40 st0 Ha0) by (vm_compute; congruence). rewrite Hm0.
  set (m1 := store_all _ _ _ _). destruct (uservec_tail_eq (setm m1 st0) Ha0) as (Em & Es & Et & Esat & Ep).
  cbn [am cr setm] in *. rewrite Hss, (u64_small (rg st a0)) in * by apply Hok.
  set (m2 := store64 m1 _ _) in *.
  assert (Hout : forall a k, a + Z.of_nat k <= TRAPFRAME + 40 \/ TRAPFRAME + 288 <= a -> load_le m2 a k = load_le (am st) a k).
  { intros a k Ha. unfold m2, store64. rewrite load_store_le_out by lia.
    apply (store_all_out (am st) TRAPFRAME 288 (rg st0) a k uframe 40); [done|lia|done]. }
  assert (Hslot : forall r, load64 m2 (TRAPFRAME + user_slot r) = rg st r).
  { intros r. unfold user_slot. destruct (slot uframe r) as [o|] eqn:E; cbn [default from_option id].
    - assert (Hr : r <> a0) by (intros ->; discriminate E). apply user_slot_112 in E as Ho.
      unfold load64, m2, store64. rewrite load_store_le_out by lia. change (load64 m1 (TRAPFRAME + o) = rg st r).
      unfold m1. rewrite (store_all_slot _ 288 _ uframe r 40 _ _ uframe_table E), (Hregs r Hr). apply u64_small, Hok.
    - apply user_slot_range in E as ->. unfold m2. rewrite load64_store64_eq. apply u64_small, Hok. }
  clearbody m2. rewrite Em, Ep, Es, Et, Esat. split; [exact Hslot|].
  assert (H8 : forall o, 0 <= o -> o + 8 <= 40 -> load64 m2 (TRAPFRAME + o) = load64 (am st) (TRAPFRAME + o)) by (intros; apply Hout; lia).
  rewrite !H8 by lia. by repeat (split; [done|]).
Qed.

(** Restored by userret. *)
Lemma userret_loads st : let st' := exec userret st in
  (forall r, rg st' r = load64 (am st) (TRAPFRAME + user_slot r)) /\ cr st' satp = u64 (rg st a0) /\ pc st' = cr st sepc.
Proof.
  cbv zeta. rewrite userret_blocks, !exec_app. set (st0 := exec _ st).
  assert (Ha0 : rg st0 a0 = TRAPFRAME) by (unfold st0, exec; cbn [foldl exec1 setr setc rg]; rewrite put_eq; reflexivity).
  assert (Hsat : cr st0 satp = u64 (rg st a0)) by (unfold st0, exec; cbn [foldl exec1 setr setc cr]; by rewrite put_eq).
  assert (Hsepc : cr st0 sepc = cr st sepc) by (unfold st0, exec; cbn [foldl exec1 setr setc cr]; by rewrite put_ne).
  assert (Hm0 : am st0 = am st) by reflexivity. clearbody st0.
  destruct (exec_loads a0 TRAPFRAME 288 uframe eq_refl 40 st0 Ha0) as (Em & Ec & _ & Er); [by vm_compute|by vm_compute|done|].
  generalize dependent (exec (loads a0 uframe) st0). intros st1 Em Ec Er. unfold exec. cbn [foldl exec1 setr setpc rg cr pc].
  assert (Ha1 : rg st1 a0 = TRAPFRAME) by (rewrite Er; exact Ha0). rewrite Ha1, trapframe_u64, load64_u64, Em, Hm0 by lia. rewrite Ec, Hsat, Hsepc.
  split; [|done]. intros r. destruct (decide (r = a0)) as [->|Hr]; [by rewrite put_eq|]. rewrite put_ne by done. rewrite Er. unfold loaded, user_slot.
  destruct (slot uframe r) as [o|] eqn:E; [by rewrite Hm0|]. apply user_slot_range in E. done.
Qed.

(** C22. A trap from user space keeps the user's registers: uservec stores all of
    them in the trapframe and enters the kernel where, and with the stack, hart
    id and page table, the trapframe says; when the kernel later returns with
    userret and the saved registers are still in the trapframe, every register
    is as it was, under the page table passed to userret and at sepc. *)
Theorem user_registers_restored st st2 :
  regs_ok st -> (forall r, load64 (am st2) (TRAPFRAME + user_slot r) = load64 (am (exec uservec st)) (TRAPFRAME + user_slot r)) ->
  let st1 := exec uservec st in let st3 := exec userret st2 in
  pc st1 = load64 (am st) (TRAPFRAME + 16) /\ rg st1 sp = load64 (am st) (TRAPFRAME + 8) /\ rg st1 tp = load64 (am st) (TRAPFRAME + 32) /\
  cr st1 satp = load64 (am st) (TRAPFRAME + 0) /\
  (forall r, rg st3 r = rg st r) /\ cr st3 satp = u64 (rg st2 a0) /\ pc st3 = cr st2 sepc.
Proof.
  intros Hok Hkept. destruct (uservec_saves st Hok) as (Hs & Hp & Hsp & Htp & Hsat & _). destruct (userret_loads st2) as (Hr & Hsat2 & Hp2).
  cbv zeta. do 4 (split; [done|]). split; [|done]. intros r. by rewrite Hr, Hkept, Hs.
Qed.

Definition ex_user : arch := ex_arch 1 2 3 ∅.
Definition ex_return : arch := setm (am (exec uservec ex_user)) (ex_arch 4 5 6 ∅).

Lemma user_registers_restored_witness : rg (exec userret ex_return) a1 = 2 /\ rg (exec userret ex_return) sp = 3.
Proof.
  assert (Hok : regs_ok ex_user) by (intros r; unfold ex_user, ex_arch; cbn [rg]; destruct r; vm_compute; split; congruence).
  destruct (user_registers_restored ex_user ex_return Hok) as (_ & _ & _ & _ & Hr & _).
  - intros r. unfold ex_return. rewrite am_setm. reflexivity.
  - rewrite !Hr. split; reflexivity.
Defined.

(** ** Traps in the kernel *)

Definition kframe : list (reg * Z) :=
  [(ra, 0); (sp, 8); (gp, 16); (tp, 24); (t0, 32); (t1, 40); (t2, 48); (s0, 56); (s1, 64); (a0, 72); (a1, 80); (a2, 88); (a3, 96);
   (a4, 104); (a5, 112); (a6, 120); (a7, 128); (s2, 136); (s3, 144); (s4, 152); (s5, 160); (s6, 168); (s7, 176); (s8, 184);
   (s9, 192); (s10, 200); (s11, 208); (t3, 216); (t4, 224); (t5, 232); (t6, 240)].
(** The registers restored after sp, which is not tp. *)
Definition kframe_rest : list (reg * Z) := filter (fun x => fst x <> ra /\ fst x <> sp /\ fst x <> tp) kframe.
Definition kslot (r : reg) : Z := default 0 (slot kframe r).

Lemma kernelvec_blocks kt back : kernelvec_in kt back = [Addi sp sp (-256)] ++ saves sp kframe ++ [Call kt back].
Proof. reflexivity. Qed.
Lemma kernelvec_out_blocks : kernelvec_out = [Ld ra 0 sp; Ld sp 8 sp] ++ loads sp kframe_rest ++ [Addi sp sp 256; Sret].
Proof. reflexivity. Qed.
Lemma kframe_rest_slot r : slot kframe_rest r = if decide (r = ra \/ r = sp \/ r = tp) then None else Some (kslot r).
Proof. destruct r; reflexivity. Qed.
Lemma kframe_slot r : slot kframe r = Some (kslot r).
Proof. destruct r; reflexivity. Qed.

Lemma kernelvec_saves st kt back : regs_ok st -> 256 <= rg st sp -> let st' := exec (kernelvec_in kt back) st in
  rg st' sp = rg st sp - 256 /\ pc st' = kt /\
  (forall r, load64 (am st') (rg st sp - 256 + kslot r) = if decide (r = sp) then rg st sp - 256 else rg st r).
Proof.
  intros Hok Hsp. cbv zeta. rewrite kernelvec_blocks, !exec_app. set (st0 := exec _ st). pose proof (Hok sp) as Hs.
  assert (Hsp0 : rg st0 sp = rg st sp - 256) by (unfold st0, exec; cbn [foldl exec1 setr rg]; rewrite put_eq; apply u64_small; lia).
  assert (Hregs : forall r, r <> sp -> rg st0 r = rg st r) by (intros r Hr; unfold st0, exec; cbn [foldl exec1 setr rg]; by rewrite put_ne).
  assert (Hm0 : am st0 = am st) by reflexivity. clearbody st0.
  rewrite (exec_saves sp (rg st sp - 256) 248 kframe 0 st0 Hsp0) by (done || lia).
  unfold exec at 1 2 3. cbn [foldl exec1 setpc setr rg am pc setm]. rewrite put_ne by done. split; [done|]. split; [done|].
  intros r. rewrite (store_all_slot _ 248 _ kframe r 0 _ _ eq_refl (kframe_slot r)). destruct (decide (r = sp)) as [->|Hr].
  - rewrite Hsp0. apply u64_small. lia.
  - rewrite Hregs by done. apply u64_small, Hok.
Qed.

Lemma kernelvec_loads st B : rg st sp = B -> 0 <= B -> B + 256 < 2 ^ 64 -> load64 (am st) (B + 8) = B ->
  let st' := exec kernelvec_out st in
  rg st' sp = B + 256 /\ rg st' tp = rg st tp /\ pc st' = cr st sepc /\
  forall r, r <> sp -> r <> tp -> rg st' r = load64 (am st) (B + kslot r).
Proof.
  intros Hsp H0 H1 H8. cbv zeta. rewrite kernelvec_out_blocks, !exec_app. set (st0 := exec _ st).
  assert (Hsp0 : rg st0 sp = B).
  { unfold st0, exec. cbn [foldl exec1 setr rg am]. regs. rewrite Hsp, (u64_small (B + 8)), H8 by lia. apply u64_small. lia. }
  assert (Hra : rg st0 ra = load64 (am st) (B + 0)).
  { unfold st0, exec. cbn [foldl exec1 setr rg am]. regs. rewrite Hsp, (u64_small (B + 0)) by lia. apply load64_u64. }
  assert (Htp : rg st0 tp = rg st tp) by (unfold st0, exec; cbn [foldl exec1 setr rg am]; by regs).
  assert (Hm0 : am st0 = am st) by reflexivity. assert (Hc0 : cr st0 = cr st) by reflexivity. clearbody st0.
  destruct (exec_loads sp B 248 kframe_rest eq_refl 0 st0 Hsp0) as (_ & Ec & _ & Er); [lia|lia|done|].
  generalize dependent (exec (loads sp kframe_rest) st0). intros st1 Ec Er.
  assert (Hl : forall r, rg st1 r = if decide (r = ra \/ r = sp \/ r = tp) then rg st0 r else load64 (am st) (B + kslot r)).
  { intros r. rewrite Er. unfold loaded. rewrite kframe_rest_slot, Hm0. by case_decide. }
  clear Er. unfold exec. cbn [foldl exec1 setr setpc rg cr pc]. rewrite put_eq, put_ne by done. rewrite !Hl, Ec, Hc0.
  rewrite !decide_True by tauto. rewrite Hsp0, Htp. split; [apply u64_small; lia|]. split; [done|]. split; [done|].
  intros r Hr1 Hr2. rewrite put_ne, Hl by done. case_decide as Hd; [|done]. destruct Hd as [->|[|]]; [|done|done]. exact Hra.
Qed.

(** A trap in the kernel is transparent: when kerneltrap returns, as C functions
    do, with the stack pointer it was called with and without having changed
    the frame, every register but tp is as it was before the trap; tp keeps the
    hart id of the hart the code now runs on. *)
Theorem kernelvec_transparent st st2 kt back : regs_ok st -> 256 <= rg st sp ->
  rg st2 sp = rg st sp - 256 ->
  (forall r, load64 (am st2) (rg st sp - 256 + kslot r) = load64 (am (exec (kernelvec_in kt back) st)) (rg st sp - 256 + kslot r)) ->
  pc (exec (kernelvec_in kt back) st) = kt /\
  (forall r, r <> tp -> rg (exec kernelvec_out st2) r = rg st r) /\ rg (exec kernelvec_out st2) tp = rg st2 tp /\
  pc (exec kernelvec_out st2) = cr st2 sepc.
Proof.
  intros Hok Hsp Hsp2 Hkept. destruct (kernelvec_saves st kt back Hok Hsp) as (_ & Hp & Hs). pose proof (Hok sp).
  destruct (kernelvec_loads st2 (rg st sp - 256) Hsp2) as (Es & Et & Ep & Er); [lia|lia| |].
  { pose proof (Hs sp) as E. rewrite <- Hkept in E. rewrite decide_True in E by done. exact E. }
  split; [done|]. split; [|done]. intros r Hr. destruct (decide (r = sp)) as [->|Hrs]; [rewrite Es; lia|].
  by rewrite Er, Hkept, Hs, decide_False.
Qed.

(** ** The timer *)

(** The scratch area timervec works with, apart from the timer's register. *)
Record scratch_ready (st : arch) (S C I : Z) : Prop := {
  sr_ptr : cr st mscratch = S;
  sr_cmp : load64 (am st) (S + 24) = C;
  sr_int : load64 (am st) (S + 32) = I;
  sr_range : 0 <= S /\ S + 40 <= 2 ^ 64 /\ 0 <= C /\ C + 8 <= 2 ^ 64;
  sr_apart : C + 8 <= S \/ S + 40 <= C
}.

(** The registers other than the four that timervec uses. *)
Definition spare (r : reg) : Prop := r <> a0 /\ r <> a1 /\ r <> a2 /\ r <> a3.
#[global] Instance spare_dec r : Decision (spare r).
Proof. unfold spare. apply _. Defined.

Lemma timervec_save st S : cr st mscratch = S -> 0 <= S -> S + 40 <= 2 ^ 64 ->
  let st' := exec [Csrrw a0 mscratch a0; Sd a1 0 a0; Sd a2 8 a0; Sd a3 16 a0] st in
  am st' = store64 (store64 (store64 (am st) S (rg st a1)) (S + 8) (rg st a2)) (S + 16) (rg st a3) /\ rg st' a0 = S /\
  cr st' mscratch = u64 (rg st a0) /\ cr st' mepc = cr st mepc /\ (forall r, spare r -> rg st' r = rg st r).
Proof.
  intros Hp H0 H1 st'. unfold st', exec. cbn [foldl exec1 setr setc setm rg cr am]. regs. rewrite Hp, (u64_small S) by lia.
  rewrite !u64_small by lia. rewrite Z.add_0_r. do 4 (split; [done|]). intros r (Hr & _). by rewrite put_ne.
Qed.

Lemma timervec_arm st S C I : rg st a0 = S -> load64 (am st) (S + 24) = C -> load64 (am st) (S + 32) = I -> 0 <= S -> S + 40 <= 2 ^ 64 ->
  let st' := exec [Ld a1 24 a0; Ld a2 32 a0; Ld a3 0 a1; Add a3 a3 a2; Sd a3 0 a1; Li a1 2; Csrw sip a1] st in
  am st' = store64 (am st) C (u64 (load64 (am st) C + I)) /\ rg st' a0 = S /\ cr st' sip = 2 /\ cr st' mscratch = cr st mscratch /\
  cr st' mepc = cr st mepc /\ (forall r, spare r -> rg st' r = rg st r).
Proof.
  intros Ha Hc Hi H0 H1 st'. unfold st', exec. cbn [foldl exec1 setr setc setm rg cr am]. regs. rewrite Ha.
  rewrite (u64_small (S + 24)), (u64_small (S + 32)), Hc, Hi, Z.add_0_r by lia.
  assert (Eu : u64 (u64 C) = C) by (subst C; by rewrite !load64_u64). rewrite Eu, !load64_u64.
  assert (Ei : u64 I = I) by (subst I; apply load64_u64). rewrite Ei.
  assert (Ec : u64 C = C) by (subst C; apply load64_u64). rewrite Ec.
  do 5 (split; [done|]). intros r (_ & H1' & H2' & H3'). by rewrite !put_ne.
Qed.

Lemma timervec_restore st S : rg st a0 = S -> 0 <= S -> S + 40 <= 2 ^ 64 ->
  let st' := exec [Ld a3 16 a0; Ld a2 8 a0; Ld a1 0 a0; Csrrw a0 mscratch a0; Mret] st in
  am st' = am st /\ rg st' a0 = u64 (cr st mscratch) /\ rg st' a1 = load64 (am st) S /\ rg st' a2 = load64 (am st) (S + 8) /\
  rg st' a3 = load64 (am st) (S + 16) /\ cr st' mscratch = S /\ cr st' sip = cr st sip /\ pc st' = cr st mepc /\
  (forall r, spare r -> rg st' r = rg st r).
Proof.
  intros Ha H0 H1 st'. unfold st', exec. cbn [foldl exec1 setr setc setpc rg cr am pc]. regs. rewrite Ha.
  rewrite (u64_small (S + 16)), (u64_small (S + 8)), Z.add_0_r, (u64_small S) by lia. rewrite !load64_u64.
  do 8 (split; [done|]). intros r (H0' & H1' & H2' & H3'). by rewrite !put_ne.
Qed.

Lemma timervec_blocks : timervec = [Csrrw a0 mscratch a0; Sd a1 0 a0; Sd a2 8 a0; Sd a3 16 a0] ++
  [Ld a1 24 a0; Ld a2 32 a0; Ld a3 0 a1; Add a3 a3 a2; Sd a3 0 a1; Li a1 2; Csrw sip a1] ++
  [Ld a3 16 a0; Ld a2 8 a0; Ld a1 0 a0; Csrrw a0 mscratch a0; Mret].
Proof. reflexivity. Qed.

Lemma load64_out m a v b : b + 8 <= a \/ a + 8 <= b -> load64 (store64 m a v) b = load64 m b.
Proof. intros. unfold load64, store64. apply load_store_le_out. lia. Qed.

Lemma timervec_ticks st S C I : regs_ok st -> scratch_ready st S C I -> let st' := exec timervec st in
  (forall r, rg st' r = rg st r) /\ scratch_ready st' S C I /\ load64 (am st') C = u64 (load64 (am st) C + I) /\
  cr st' sip = 2 /\ pc st' = cr st mepc /\
  forall a k, a + Z.of_nat k <= S \/ S + 24 <= a -> a + Z.of_nat k <= C \/ C + 8 <= a -> load_le (am st') a k = load_le (am st) a k.
Proof.
  intros Hok [Hp Hc Hi (H0 & H1 & H2 & H3) Hap]. cbv zeta. rewrite timervec_blocks, !exec_app.
  destruct (timervec_save st S Hp H0 H1) as (Em1 & Ea1 & Es1 & Ee1 & Er1). generalize dependent (exec [Csrrw a0 mscratch a0; Sd a1 0 a0; Sd a2 8 a0; Sd a3 16 a0] st).
  intros st1 Em1 Ea1 Es1 Ee1 Er1.
  assert (Ho1 : forall a k, a + Z.of_nat k <= S \/ S + 24 <= a -> load_le (am st1) a k = load_le (am st) a k).
  { intros a k Ha. rewrite Em1. unfold store64. by rewrite !load_store_le_out by lia. }
  assert (H8 : forall a, a + 8 <= S \/ S + 24 <= a -> load64 (am st1) a = load64 (am st) a) by (intros; apply Ho1; lia).
  destruct (timervec_arm st1 S C I Ea1) as (Em2 & Ea2 & Esip & Es2 & Ee2 & Er2); [rewrite H8 by lia; done|rewrite H8 by lia; done|done|done|].
  generalize dependent (exec [Ld a1 24 a0; Ld a2 32 a0; Ld a3 0 a1; Add a3 a3 a2; Sd a3 0 a1; Li a1 2; Csrw sip a1] st1). intros st2 Em2 Ea2 Esip Es2 Ee2 Er2.
  destruct (timervec_restore st2 S Ea2 H0 H1) as (Em3 & E0 & E1 & E2 & E3 & Es3 & Esip3 & Ep3 & Er3).
  generalize dependent (exec [Ld a3 16 a0; Ld a2 8 a0; Ld a1 0 a0; Csrrw a0 mscratch a0; Mret] st2). intros st3 Em3 E0 E1 E2 E3 Es3 Esip3 Ep3 Er3.
  rewrite H8 in Em2 by lia.
  assert (Hsv : forall o, 0 <= o -> o + 8 <= 40 -> load64 (am st2) (S + o) = load64 (am st1) (S + o)) by (intros; rewrite Em2; apply load64_out; lia).
  split; [|split; [|split; [|split; [|split]]]].
  - assert (V1 : load64 (am st2) (S + 0) = rg st a1) by (rewrite Hsv, Em1, Z.add_0_r, !load64_out, load64_store64_eq by lia; apply u64_small, Hok).
    assert (V2 : load64 (am st2) (S + 8) = rg st a2) by (rewrite Hsv, Em1, load64_out, load64_store64_eq by lia; apply u64_small, Hok).
    assert (V3 : load64 (am st2) (S + 16) = rg st a3) by (rewrite Hsv, Em1, load64_store64_eq by lia; apply u64_small, Hok).
    rewrite Z.add_0_r in V1. assert (V0 : u64 (cr st2 mscratch) = rg st a0) by (rewrite Es2, Es1, !u64_small; [done|apply Hok|rewrite u64_small by apply Hok; apply Hok]).
    intros r. destruct (decide (spare r)) as [Hsp|Hsp]; [by rewrite Er3, Er2, Er1|].
    destruct r; try (exfalso; apply Hsp; by repeat split); congruence.
  - split; [done| | |done|done]; rewrite Em3, Hsv, H8 by lia; done.
  - rewrite Em3, Em2, load64_store64_eq. apply u64_small, u64_range.
  - by rewrite Esip3.
  - by rewrite Ep3, Ee2, Ee1.
  - intros a k Ha Hb. rewrite Em3, Em2. unfold store64. rewrite load_store_le_out by lia. by apply Ho1.
Qed.

(** ** Boot *)

(** entry.S gives every hart its own page of stack0 to run start on. *)
Lemma entry_stack stack0 start spin st : 0 <= stack0 < PHYSTOP -> 0 <= cr st mhartid < 8 ->
  let st' := exec (entry_S stack0 start spin) st in rg st' sp = stack0 + 4096 * (cr st mhartid + 1) /\ pc st' = start.
Proof.
  unfold PHYSTOP, KERNBASE. intros Hs Hr. cbv zeta. unfold entry_S, exec. cbn [foldl exec1 setr setpc rg cr pc]. regs. split; [|done].
  rewrite (u64_small (cr st mhartid)), (u64_small stack0), (u64_small (1024 * 4)), (u64_small (cr st mhartid + 1)) by lia.
  rewrite (u64_small (1024 * 4 * (cr st mhartid + 1))), u64_small by lia. lia.
Qed.

(** Where the linker puts the kernel's variables: in RAM, above the devices. *)
Definition linked (sy : symbols) : Prop :=
  KERNBASE <= timer_scratch sy < PHYSTOP - 320 /\ 0 <= main_addr sy < 2 ^ 64 /\ 0 <= timervec_addr sy < 2 ^ 64.

Lemma u64_testbit x n : 0 <= n < 64 -> Z.testbit (u64 x) n = Z.testbit x n.
Proof. intros Hn. apply Z.mod_pow2_bits_low. lia. Qed.

(** mstatus when start returns to main: previous mode supervisor, machine
    interrupts enabled. *)
Definition mstatus_of (x : Z) : Z := u64 (Z.lor (u64 (Z.lor (Z.land x (Z.lnot MSTATUS_MPP_MASK)) MSTATUS_MPP_S)) MSTATUS_MIE).

Lemma mstatus_of_bits x : Z.testbit (mstatus_of x) 11 = true /\ Z.testbit (mstatus_of x) 12 = false /\ Z.testbit (mstatus_of x) 3 = true.
Proof.
  unfold mstatus_of. rewrite !u64_testbit, !Z.lor_spec, !u64_testbit, !Z.lor_spec, !Z.land_spec, !Z.lnot_spec by lia.
  cbn. by rewrite !andb_false_r, !orb_true_r.
Qed.

Lemma start_eq sy st id : linked sy -> cr st mhartid = id -> 0 <= id < 8 -> let st' := start sy st in
  pc st' = main_addr sy /\ cr st' mstatus = mstatus_of (cr st mstatus) /\ cr st' satp = 0 /\ rg st' tp = id /\
  cr st' mtvec = timervec_addr sy /\ Z.testbit (cr st' mie) 7 = true /\ cr st' mhartid = id /\
  cr st' mscratch = scratch_of sy id /\
  am st' = store64 (store64 (store64 (am st) (CLINT_MTIMECMP id) (load64 (am st) CLINT_MTIME + 1000000)) (scratch_of sy id + 24) (CLINT_MTIMECMP id))
             (scratch_of sy id + 32) 1000000.
Proof.
  intros (Hs & Hm & Ht) Hid Hr. unfold PHYSTOP, KERNBASE in Hs. cbv zeta. unfold start, timerinit, exec.
  cbn [foldl exec1 setr setc setm setpc rg cr am pc]. regs. rewrite Hid. rewrite !(i32_small id) by lia.
  assert (Hsc : u64 (scratch_of sy id) = scratch_of sy id) by (apply u64_small; unfold scratch_of; lia).
  rewrite Hsc, (u64_small (main_addr sy)), (u64_small (timervec_addr sy)), (u64_small id), (u64_small 0) by lia.
  do 5 (split; [done|]). split; [|done].
  rewrite u64_testbit, Z.lor_spec by lia. apply orb_true_r.
Qed.

Lemma start_scratch sy st id : linked sy -> cr st mhartid = id -> 0 <= id < 8 ->
  scratch_ready (start sy st) (scratch_of sy id) (CLINT_MTIMECMP id) 1000000 /\
  load64 (am (start sy st)) (CLINT_MTIMECMP id) = u64 (load64 (am st) CLINT_MTIME + 1000000).
Proof.
  intros Hl Hid Hr. destruct (start_eq sy st id Hl Hid Hr) as (_ & _ & _ & _ & _ & _ & _ & Hsc & Em).
  destruct Hl as (Hs & _ & _). unfold PHYSTOP, KERNBASE in Hs. assert (HC : 33570816 <= CLINT_MTIMECMP id <= 33570872) by (unfold CLINT_MTIMECMP, CLINT; lia).
  assert (HS : 2147483648 <= scratch_of sy id < 2281701376 - 40) by (unfold scratch_of; lia).
  split.
  - split; [done| | |lia|lia]; rewrite Em.
    + rewrite load64_out by lia. rewrite load64_store64_eq. apply u64_small. lia.
    + by rewrite load64_store64_eq.
  - rewrite Em. rewrite !load64_out by lia. apply load64_store64_eq.
Qed.

(** Boot and the timer: start on hart [id] leaves for main in supervisor mode
    with paging off, the hart id in tp and the timer armed; and from then on,
    as long as the scratch area stays as it was set up, every timer interrupt
    leaves all registers and all memory but the scratch area as they were, arms
    the timer for one interval later and raises a supervisor software
    interrupt. *)
Theorem boot_and_timer sy st id st2 :
  linked sy -> cr st mhartid = id -> 0 <= id < 8 -> regs_ok st2 ->
  cr st2 mscratch = cr (start sy st) mscratch ->
  (forall o, o = 24 \/ o = 32 -> load64 (am st2) (scratch_of sy id + o) = load64 (am (start sy st)) (scratch_of sy id + o)) ->
  let st1 := start sy st in let st3 := exec timervec st2 in let S := scratch_of sy id in let C := CLINT_MTIMECMP id in
  pc st1 = main_addr sy /\ Z.testbit (cr st1 mstatus) 11 = true /\ Z.testbit (cr st1 mstatus) 12 = false /\
  cr st1 satp = 0 /\ rg st1 tp = id /\ load64 (am st1) C = u64 (load64 (am st) CLINT_MTIME + 1000000) /\
  (forall r, rg st3 r = rg st2 r) /\ load64 (am st3) C = u64 (load64 (am st2) C + 1000000) /\ cr st3 sip = 2 /\
  scratch_ready st3 S C 1000000 /\ pc st3 = cr st2 mepc /\
  (forall a k, a + Z.of_nat k <= S \/ S + 24 <= a -> a + Z.of_nat k <= C \/ C + 8 <= a -> load_le (am st3) a k = load_le (am st2) a k).
Proof.
  intros Hl Hid Hr Hok Hms Hkept. destruct (start_eq sy st id Hl Hid Hr) as (Hpc & Hst & Hsat & Htp & _).
  destruct (start_scratch sy st id Hl Hid Hr) as [[Hp Hc Hi Hrg Hap] Hcmp].
  assert (Hsr : scratch_ready st2 (scratch_of sy id) (CLINT_MTIMECMP id) 1000000) by (split; rewrite ?Hms, ?Hkept by lia; done).
  destruct (timervec_ticks st2 _ _ _ Hok Hsr) as (Hrgs & Hsr3 & Hc3 & Hsip & Hp3 & Hmem).
  destruct (mstatus_of_bits (cr st mstatus)) as (B11 & B12 & _). cbv zeta. rewrite Hst. by repeat (split; [done|]).
Qed.

Definition ex_symbols : symbols := mkSymbols 0x80001000 0x80005000 0x80009000.
Definition ex_booted : arch := start ex_symbols (ex_arch 1 2 3 ∅).
Definition ex_tick : arch := setm (am ex_booted) (setc mscratch (cr ex_booted mscratch) (ex_arch 4 5 6 ∅)).

Lemma boot_and_timer_witness : rg (exec timervec ex_tick) a1 = 5 /\ pc ex_booted = 0x80001000.
Proof.
  destruct (boot_and_timer ex_symbols (ex_arch 1 2 3 ∅) 0 ex_tick)
    as (Hpc & _ & _ & _ & _ & _ & Hr & _).
  - split; [|split]; vm_compute; split; congruence.
  - reflexivity.
  - lia.
  - intros r. unfold ex_tick, ex_arch. cbn [rg setm setc]. destruct r; vm_compute; split; congruence.
  - vm_compute. reflexivity.
  - intros o Ho. unfold ex_tick. rewrite am_setm. reflexivity.
  - split; [rewrite Hr; reflexivity|exact Hpc].
Defined.
